(* ===== verification/_CoqProject ===== *)
-Q . S2P
Prelude.v
CLib.v
HashMap.v
CFloat.v
Parson.v
ParsonText.v
ParsonProofs.v
DevTypes.v
EdgexRest.v
EdgexRestProofs.v
IotData.v
Transform.v
Readings.v
CmdInfo.v
Values.v
AutoEvent.v
DevMap.v
DevMapProofs.v
Device.v
DeviceProofs.v
Watchers.v
RestServer.v
Rest.v
Metadata.v
DevMan.v
Callback.v
AutoRun.v
Discovery.v
Config.v
ConfigProofs.v
Registry.v
RegistryProofs.v
Profiles.v
CmdLine.v
Configured.v
Service.v
ServiceProofs.v
V1Compat.v
Counter.v
ExampleDevice.v
Logging.v
NfsProto.v
NfsNames.v
NfsLock.v
NfsLockProofs.v
NfsLockInv.v
NfsLockState.v
NfsLockSubtract.v
NfsLockSafe.v
NfsLockOps.v
NfsLockSpec.v
NfsSession.v
NfsCompound.v
NfsSessionInv.v
NfsSessionOps.v
NfsCompoundProofs.v
NfsCompoundRun.v
NfsCompoundStep.v
NfsServer.v
NfsServerRun.v
NfsServerSpec.v
NfsServerOnce.v
NfsServerClaims.v
NfsClient.v
NfsClientInv.v
NfsClientOps.v
NfsClientSessions.v
NfsClientExpire.v
NfsClientCreate.v
NfsClientExchange.v
NfsClientNewSession.v
NfsClientGrant.v
NfsClientDestroy.v
NfsClientServer.v
NfsClientClaims.v
NfsAcl.v
NfsAccess.v
NfsAclMode.v
NfsShare.v
NfsAccessClaims.v
