(* ===== verification/Prelude.v ===== *)
(** * Verification of an edge-computing stack: the EdgeX device SDK and its driver

    ** The program

    A device service is a C program that links the SDK under [src/device-sdk-c] and a
    driver. It reads its command line and configuration (from a TOML file or from a
    consul registry), registers with core-metadata, uploads device profiles, fetches
    its devices, and then answers HTTP requests: a GET or PUT on a device runs a command
    of the device's profile through the driver, a callback tells it that core-metadata
    changed a device, a profile or a watcher, and discovery adds devices that a watcher
    matches. Automatic events read devices on a schedule and send the readings to
    core-data. The driver of this project, [src/example-device-c/template.c], returns
    random numbers and writes them to a database.

    The parts call each other in this order. [service.c] starts everything. [device.c],
    [callback.c], [discovery.c] and [autoevent.c] are entered from the HTTP server
    [rest-server.c] or from threads, and work on the map of devices [devmap.c] and on
    the watchers [watchers.c]. They reach other services through [metadata.c] and
    [data.c], which use the HTTP client [rest.c] and the JSON conversion [edgex-rest.c]
    on top of the JSON library [parson.c].

    ** Files and the code they model (paths under [src/device-sdk-c/src/c])

    - [Prelude]: machine integers, the result type [res] with its monad, tactics and
      hints, facts on strings and lists. [CLib]: the C library ([strtol], [sscanf],
      [printf] conversions, string functions). [CFloat]: floating-point numbers, their
      reading and printing.
    - [HashMap]: [map.c]; bucket array, node lists, resizing, allocation failures. Its
      promise to the rest is the class [StringMap], and the last part of the file is
      the instance.
    - [Parson], [ParsonText], [ParsonProofs]: [parson.c]; values, accessors, parser,
      serializer with its size pass.
    - [DevTypes]: the structures of [edgex.h], [edgex-base.h], [devsdk-base.h] and the list
      functions. [EdgexRest], [EdgexRestProofs]: [edgex-rest.c].
    - [IotData]: the interface of the iot library's data type. [Transform]: [transform.c].
      [Readings]: [data.c]. [CmdInfo], [Values], [Device], [DeviceProofs]: [device.c].
    - [DevMap], [DevMapProofs]: [devmap.c], with the memory of devices and profiles and
      their reference counts, so that a use after release is visible as [Crash].
    - [AutoEvent], [AutoRun]: [autoevent.c]. [Watchers]: [watchers.c]. [DevMan]: [devman.c].
      [Callback]: [callback.c]. [Discovery]: [discovery.c].
    - [RestServer]: [rest-server.c]. [Rest]: [rest.c], [correlation.c]. [Metadata]:
      [metadata.c] and the client functions of [data.c].
    - [Config], [ConfigProofs], [Configured]: [config.c]. [Registry], [RegistryProofs]:
      [registry.c], [consul.c]. [Profiles]: [profiles.c].
    - [CmdLine], [Service], [ServiceProofs]: [service.c]. [V1Compat]: [v1compat.c].
      [Logging]: [edgex-logging.c], [metrics.c].
    - [Counter]: [examples/counters/device-counter.c]. [ExampleDevice]:
      [src/example-device-c/template.c].
    - The NFS server under [src/nfs-ganesha/src]: [NfsLock] has the byte-range locks of
      [SAL/state_lock.c] with the answers to NLM grants ([Protocols/NLM/nlm_util.c],
      [nlm_Granted_Res.c]); [NfsLockProofs], [NfsLockInv], [NfsLockState],
      [NfsLockSubtract], [NfsLockSafe] and [NfsLockOps] build up to [NfsLockSpec].
      [NfsProto], [NfsNames]: numbers of the protocol and the check of names
      ([Protocols/NFS/nfs_proto_tools.c]). [NfsSession]: sessions, slots, leases and kept
      replies ([SAL/nfs41_session_id.c], [SAL/nfs4_lease.c]). [NfsCompound]: the path of a
      COMPOUND request ([Protocols/NFS/nfs4_Compound.c], [nfs4_op_sequence.c],
      [nfs4_op_destroy_session.c]). [NfsSessionInv] has the invariant: every reference and
      every held mutex is a token of a request or of a reply being sent, and the counts in
      memory are the numbers of tokens. [NfsSessionOps], [NfsCompoundProofs],
      [NfsCompoundRun], [NfsCompoundStep], [NfsServer] and [NfsServerRun] show that each
      function moves tokens as it should, up to a whole request; [NfsServerSpec] lets
      requests, resumptions, sent replies and time follow each other in any order,
      [NfsServerOnce] follows a slot through them, and [NfsServerClaims] has the results.
      [NfsClient]: the client ids and records of [SAL/nfs4_clientid.c], the operations
      EXCHANGE_ID, CREATE_SESSION and DESTROY_CLIENTID ([nfs4_op_exchange_id.c],
      [nfs4_op_create_session.c], [nfs4_op_destroy_clientid.c]), the reaper
      ([MainNFSD/nfs_reaper_thread.c]) and the release of an address
      ([SAL/nfs4_recovery.c]), on top of the memory of [NfsSession]. [NfsClientInv] has the
      invariant: a client id is counted by the tables, its sessions and the operations that
      hold it, a record by its client ids and operations; where a client id is follows from
      its state. [NfsClientOps], [NfsClientSessions], [NfsClientExpire], [NfsClientCreate],
      [NfsClientExchange], [NfsClientNewSession], [NfsClientGrant] and [NfsClientDestroy] go
      through the operations;
      [NfsClientServer] lets them follow each other in any order, with requests that hold
      sessions meanwhile, and [NfsClientClaims] has the results.
    - [NfsAcl], [NfsAclMode], [NfsShare]: access to files in the NFS server. [NfsAcl] checks a
      user against an ACL or a mode ([FSAL/access_check.c]; removal and renaming of
      [FSAL/commonlib.c]) and answers ACCESS ([nfs_access_op] of [support/nfs_creds.c]);
      [NfsAclMode] has the inheritance of ACLs and their making from modes and back
      ([FSAL/commonlib.c]); [NfsShare] the share counters ([FSAL/commonlib.c]) with the opens,
      reopens, closes and merges of [FSAL/FSAL_VFS/file.c] that use them, as steps in any
      order, and their invariant. [NfsAccess] relates the loop over an ACL to the first entry
      that decides and the reply to ACCESS to what the user may do, [NfsAclMode] also made
      ACLs to the modes and directories they come from, and [NfsAccessClaims] has the
      results.

    ** How the code becomes definitions

    A definition has the name of the C function it models. Integers are [Z] with
    [wrap_u] and [wrap_s] where the code can leave the range of its type. Pointers that
    can be NULL are options. Functions that can go wrong return [res]: [Ret] is a
    result, [Fail] an error the code reports, and [Crash] undefined behaviour, such as a
    NULL pointer that is followed, memory used after its release, or a write past a
    buffer. A critical section under a lock is one step; where threads interleave
    within a function ([AutoRun], [Discovery]) the steps are those between the atomic
    operations, and the theorems hold for all orders of steps. In the NFS server a step is
    the part of a request between its arrival or resumption and its suspension or reply;
    [replay_race] in [NfsServerClaims] shows where two requests can meet inside a step.

    Code outside of the sources is a parameter: libcurl is a function from requests to
    replies on the state of the network, libmicrohttpd calls the handlers, the TOML,
    base64, CBOR and iot libraries are the classes [Toml], [Base64], [Cbor], [IotData]
    with laws that state what their documentation promises, and the YAML parser, the
    regular expressions, MySQL and the driver are section variables. The operations of the
    NFS server on files, which are sources but not modelled, are the class [Nfs4Ops]. Each theorem that
    uses a law has a witness with a concrete instance.

    ** What is shown

    - Foundations: the hash map is a finite map under every sequence of calls and
      allocation failures; JSON text that was written parses to the same value, the
      parser ends, accepts only well-formed values, and the serializer's buffer is
      exactly large enough.
    - Data: what survives writing and reading a device; transforms are inverse to each
      other and exact unless they report an overflow; readings become JSON events that
      parse to the readings; array texts fit their buffers and are accepted back.
    - Devices: every permitted call on the device map does what it does on finite maps,
      never uses released memory and leaks nothing. Every request is answered and gives
      its references back, for drivers and profiles that are [sound] in the sense of
      [DeviceProofs]: results that have a text, and no writes to arrays or transformed
      integers. Every callback is answered and changes the map as specified, when the
      replies of core-metadata can be read and names are not shared. What happens without
      these conditions is in the examples, such as [array_of_numbers_crashes],
      [nvpairs_read_crash] and [shared_name_lost].
    - Discovery and automatic events: a discovered device is announced for the first
      watcher that takes it, described without reference to the code of the match; a
      schedule that fires reads its device once and posts the event.
    - Threads: the count of references of a schedule is exact in every interleaving, and
      the one way to misuse it is named; discovery is exclusive and its jobs get to run.
    - Services: the configuration record is in range, and its errors are exact for decimal
      numbers; a configuration that is written to consul, which is given by what its
      documentation promises of a store of keys, is read back; the registry, the
      profiles, the command line and the attempts to reach other services behave as
      specified; start-up returns when the replies of core-metadata can be read, and
      without an error the service is complete.
    - The driver of the project: each reading is recorded once.
    - Locks of the NFS server: for every sequence of requests and whatever the file system
      below answers, no memory is used after its release and locks of different owners
      are compatible, if messages to the granting thread can be scheduled; a lock and an
      unlock change exactly their bytes.
    - Requests of the NFS server: in every order of events no session, reply or mutex is
      misused and all counts are exact; a request that is sent again is not run again and
      gets the reply that its slot kept; a reply ends with the first operation that failed;
      the check of names accepts exactly the well-formed ones.
    - Client ids of the NFS server: in every order of operations no client id, record or
      session is used after its release, and sessions that can be found belong to confirmed
      client ids; a CREATE_SESSION that is sent again is not run again; a client that
      introduces itself gets a session; a new client id of an owner takes the place of the
      old one and of nobody else's; EXCHANGE_ID and DESTROY_CLIENTID take away only what
      they may. An owner has at most one confirmed client id ([owner_confirmed_once]).
    - Access to files in the NFS server: the check of an ACL grants exactly what the first
      entry for the user and the privileges of owner and superuser grant; the reply to ACCESS
      says exactly what the user may do; the ACL made from a mode allows what the mode allows;
      a new object inherits exactly the entries meant for it. In every order of opens,
      reopens, closes and merges share counters are exact and a share is accepted exactly
      if it goes together with all others; no state does what another denies until a reopen
      that gave up a flag fails ([denied_share_restored]).

    Lemmas that show a fault have no claim number; they are the examples next to the
    definitions, such as [cleared_name_crashes], [late_job_crashes], [restart_leaks] or
    [mode_written_behind].

    ** Bounds and fuel

    The parser's fuel is three times the length of the text plus four, which is proved
    to be enough. The recursion through TOML tables takes the rank of the table, which
    every table has by the laws of [Toml]. The loops of [ping_client] and of the wait
    for the registry take the number of attempts the counter allows. The loop that
    merges locks takes twice the number of entries: an entry is split at most once. The loop
    over the operations of a COMPOUND takes their number. A client id is freed when no session
    refers to it, so that giving one back recurses one step ([dec_client_id_ref]), which is
    proved to be enough. Client ids have numbers of 32 bits and sessions of 64: the results on client
    ids are for fewer than 2^32 events, within which no number comes twice. Share counters
    have 32 bits, and a file fewer than 2^31 states. The
    loop over the keys of a table and the elements of an array takes a bound on their number. All
    other recursion is structural.

    ** Not modelled

    Freeing of memory outside of the device map and the schedules, TLS options, the usage
    texts, the choice of the log's destination, the example drivers that only differ in
    their device, and code under [#if 0]. Of the NFS server only the parts named above; its
    operations on files, file systems and caches are not there, of the locks not the
    upcalls of a file system with blocking locks of its own, and of the client ids not those
    of NFSv4.0 (SETCLIENTID). What a file system answers when it is asked for attributes,
    and whether it can open a file, is an argument of the definitions on access; the cache of
    equal ACLs is not there. The files that a client has open, their release when it
    expires, the recovery database and the back channel are the class [Nfs4Clients]. The
    theorems on COMPOUND requests have sessions from the start; those on client ids let a
    request hold its session, but do not run its operations on files. The two copies of nfs-utils
    are imported releases that are not used; [src/ns-3] has
    example programs for a simulator that is not there; [src/PHP], [src/webpage] and
    [src/new_tracking] are queries, pages and database files. *)

From stdpp Require Export base gmap strings list list_numbers fin_maps.
From Stdlib Require Export ZArith Lia ZifyBool.
From Stdlib Require Import Ascii.

#[export] Set Default Proof Using "Type".

Declare Scope sdk_scope.
Delimit Scope sdk_scope with sdk.

(** The calls that change an object, in the order of the code. *)
Notation "o ;> f" := (f o) (at level 62, left associativity, only parsing) : sdk_scope.

(** ** Machine integers

    A C integer of [w] bits is a [Z]; every operation that can leave its range
    is followed by one of the two conversions below. *)

Definition wrap_u (w x : Z) : Z := (x mod 2 ^ w)%Z.

Definition wrap_s (w x : Z) : Z :=
  ((x + 2 ^ (w - 1)) mod 2 ^ w - 2 ^ (w - 1))%Z.

Definition in_u (w x : Z) : bool := ((0 <=? x) && (x <? 2 ^ w))%Z.

Definition in_s (w x : Z) : bool := ((- 2 ^ (w - 1) <=? x) && (x <? 2 ^ (w - 1)))%Z.

Lemma wrap_u_small w x : (0 <= x < 2 ^ w)%Z -> wrap_u w x = x.
Proof. intros H. unfold wrap_u. by apply Z.mod_small. Qed.

Lemma wrap_u_range w x : (0 <= w)%Z -> (0 <= wrap_u w x < 2 ^ w)%Z.
Proof. intros H. unfold wrap_u. apply Z.mod_pos_bound. lia. Qed.

Lemma pow2_split w : (0 < w)%Z -> (2 ^ w = 2 * 2 ^ (w - 1))%Z.
Proof.
  intros H. replace w with (Z.succ (w - 1)) at 1 by lia.
  rewrite Z.pow_succ_r; lia.
Qed.

Lemma wrap_s_small w x :
  (0 < w)%Z -> (- 2 ^ (w - 1) <= x < 2 ^ (w - 1))%Z -> wrap_s w x = x.
Proof.
  intros Hw H. unfold wrap_s.
  pose proof (pow2_split w Hw). rewrite Z.mod_small; lia.
Qed.

Lemma wrap_s_range w x :
  (0 < w)%Z -> (- 2 ^ (w - 1) <= wrap_s w x < 2 ^ (w - 1))%Z.
Proof.
  intros Hw. unfold wrap_s. pose proof (pow2_split w Hw).
  pose proof (Z.mod_pos_bound (x + 2 ^ (w - 1)) (2 ^ w)). lia.
Qed.

Lemma in_u_spec w x : in_u w x = true <-> (0 <= x < 2 ^ w)%Z.
Proof. unfold in_u. rewrite andb_true_iff, Z.leb_le, Z.ltb_lt. done. Qed.

Lemma in_s_spec w x :
  in_s w x = true <-> (- 2 ^ (w - 1) <= x < 2 ^ (w - 1))%Z.
Proof. unfold in_s. rewrite andb_true_iff, Z.leb_le, Z.ltb_lt. done. Qed.

(** ** Strings *)

#[global] Arguments String.append !_ _ / : simpl nomatch.

Lemma append_cons c (s t : string) : String c s +:+ t = String c (s +:+ t).
Proof. done. Qed.

Lemma append_nil_l (s : string) : EmptyString +:+ s = s.
Proof. done. Qed.

Lemma append_nil_r (s : string) : s +:+ EmptyString = s.
Proof. induction s as [|c s IH]; [done|]. simpl. by rewrite IH. Qed.

Lemma append_assoc (a b c : string) : (a +:+ b) +:+ c = a +:+ (b +:+ c).
Proof. induction a as [|x a IH]; [done|]. simpl. by rewrite IH. Qed.

Lemma length_append (a b : string) :
  String.length (a +:+ b) = (String.length a + String.length b)%nat.
Proof. induction a as [|x a IH]; [done|]. simpl. by rewrite IH. Qed.

Lemma append_inj_l (a b c : string) : a +:+ b = a +:+ c -> b = c.
Proof. induction a as [|x a IH]; [done|]. simpl. intros [= H]. auto. Qed.

(** ** Outcomes

    A call returns a value, or reports an error (a NULL result or a false status,
    with a message in the log), or has undefined behaviour: a NULL pointer that is
    dereferenced, an access to released memory. *)

Inductive res (A : Type) :=
| Ret (a : A)
| Fail
| Crash.
Arguments Ret {A} a.
Arguments Fail {A}.
Arguments Crash {A}.

#[export] Instance res_ret : MRet res := @Ret.
#[export] Instance res_bind : MBind res := fun A B f m =>
  match m with Ret a => f a | Fail => Fail | Crash => Crash end.
#[export] Instance res_fmap : FMap res := fun A B f m =>
  match m with Ret a => Ret (f a) | Fail => Fail | Crash => Crash end.

(** A NULL pointer that is dereferenced. *)
Definition deref {A} (o : option A) : res A :=
  match o with Some a => Ret a | None => Crash end.

(** A call on each element in order, up to the first that does not return. *)
Fixpoint res_map {A B} (f : A -> res B) (l : list A) : res (list B) :=
  match l with
  | [] => Ret []
  | x :: l' => y ← f x; ys ← res_map f l'; mret (y :: ys)
  end.

(** A loop over the elements with an accumulator. *)
Fixpoint res_foldl {A B} (f : B -> A -> res B) (acc : B) (l : list A) : res B :=
  match l with
  | [] => Ret acc
  | x :: l' => acc ← f acc x; res_foldl f acc l'
  end.

Lemma res_bind_ret {A B} (a : A) (f : A -> res B) : (Ret a ≫= f) = f a.
Proof. done. Qed.

Lemma res_map_ret {A B} (f : A -> res B) (g : A -> B) l :
  Forall (fun x => f x = Ret (g x)) l -> res_map f l = Ret (map g l).
Proof.
  induction 1 as [|x l Hx _ IH]; [done|]. cbn [res_map map]. by rewrite Hx, res_bind_ret, IH.
Qed.

Lemma res_map_total {A B} (f : A -> res B) l :
  Forall (fun x => exists y, f x = Ret y) l -> exists ys, res_map f l = Ret ys.
Proof.
  induction 1 as [|x l [y Hy] _ [ys IH]]; [by eexists|]. cbn [res_map].
  rewrite Hy, res_bind_ret, IH, res_bind_ret. by eexists.
Qed.

Lemma res_map_Forall {A B} (f : A -> res B) (P : B -> Prop) l ys :
  (forall x y, f x = Ret y -> P y) -> res_map f l = Ret ys -> Forall P ys.
Proof.
  intros HP. revert ys. induction l as [|x l IH]; intros ys H; cbn [res_map] in H.
  - injection H as <-. constructor.
  - destruct (f x) as [y| |] eqn:E; [|done..]. rewrite res_bind_ret in H.
    destruct (res_map f l) as [ys'| |] eqn:E'; [|done..]. rewrite res_bind_ret in H. injection H as <-.
    constructor; eauto.
Qed.

(** ** Automation *)

Create HintDb sdk.
#[export] Hint Resolve wrap_u_small wrap_s_small : sdk.

(** Case analysis on the guards of the code, keeping the equations. *)
Ltac guards :=
  repeat match goal with
         | |- context [if ?b then _ else _] => destruct b eqn:?
         | |- context [match ?o with Some _ => _ | None => _ end] => destruct o eqn:?
         end.

(** The comparisons of the code as propositions. *)
Ltac bool_to_prop :=
  repeat match goal with
         | H : (_ && _)%bool = true |- _ => apply andb_true_iff in H as [??]
         | H : (_ || _)%bool = false |- _ => apply orb_false_iff in H as [??]
         | H : (_ =? _)%Z = true |- _ => apply Z.eqb_eq in H
         | H : (_ =? _)%Z = false |- _ => apply Z.eqb_neq in H
         | H : (_ <=? _)%Z = true |- _ => apply Z.leb_le in H
         | H : (_ <=? _)%Z = false |- _ => apply Z.leb_gt in H
         | H : (_ <? _)%Z = true |- _ => apply Z.ltb_lt in H
         | H : (_ <? _)%Z = false |- _ => apply Z.ltb_ge in H
         | H : String.eqb _ _ = true |- _ => apply String.eqb_eq in H
         | H : String.eqb _ _ = false |- _ => apply String.eqb_neq in H
         | H : negb _ = true |- _ => apply negb_true_iff in H
         | H : negb _ = false |- _ => apply negb_false_iff in H
         end.
