(* ===== verification/CLib.v ===== *)
(** * The part of the C library the SDK uses

    Characters and NUL-terminated strings ([<string.h>], [<strings.h>],
    [<ctype.h>]), the integer conversions of [<stdlib.h>] ([strtol], [strtoul],
    [strtoull], which agree on LP64 but for signedness), the integer directives of
    [sscanf] as glibc implements them, and decimal output.

    A [char *] is a [string] (the bytes before the terminating NUL); a pointer
    that can be NULL is an [option string]. *)

From S2P Require Import Prelude.
From Stdlib Require Import Ascii.
Local Open Scope Z_scope.

(** ** Characters *)

Definition uchar (c : ascii) : Z := Z.of_N (N_of_ascii c).

(** [char] is signed on the supported platforms. *)
Definition schar (c : ascii) : Z := wrap_s 8 (uchar c).

Definition chr (z : Z) : ascii := ascii_of_N (Z.to_N z).

Definition isspace (c : ascii) : bool :=
  let u := uchar c in (u =? 32) || ((9 <=? u) && (u <=? 13)).

Definition isdigit (c : ascii) : bool :=
  let u := uchar c in (48 <=? u) && (u <=? 57).

Definition islower (c : ascii) : bool :=
  let u := uchar c in (97 <=? u) && (u <=? 122).

Definition isupper (c : ascii) : bool :=
  let u := uchar c in (65 <=? u) && (u <=? 90).

Definition toupper (c : ascii) : ascii := if islower c then chr (uchar c - 32) else c.

Definition tolower (c : ascii) : ascii := if isupper c then chr (uchar c + 32) else c.

(** ** Strings *)

Fixpoint strcasecmp_eq (a b : string) : bool :=
  match a, b with
  | EmptyString, EmptyString => true
  | String x a', String y b' => Ascii.eqb (tolower x) (tolower y) && strcasecmp_eq a' b'
  | _, _ => false
  end.

(** [strncmp (s, p, strlen (p)) == 0] *)
Definition starts_with (p s : string) : bool := String.prefix p s.

(** The suffix of [s] from index [n] on: [s + n]. *)
Fixpoint str_drop (n : nat) (s : string) : string :=
  match n, s with
  | O, _ => s
  | S n', String _ s' => str_drop n' s'
  | S _, EmptyString => EmptyString
  end.
#[global] Arguments str_drop !_ !_ / : simpl nomatch.

(** [strchr (s, c)] as the pair of the text before the first [c] and the text
    after it. *)
Fixpoint str_split (c : ascii) (s : string) : option (string * string) :=
  match s with
  | EmptyString => None
  | String x s' =>
      if Ascii.eqb x c then Some (EmptyString, s')
      else match str_split c s' with
           | Some (a, b) => Some (String x a, b)
           | None => None
           end
  end.

Definition strchr (s : string) (c : ascii) : bool := bool_decide (is_Some (str_split c s)).

Lemma str_split_app c a b : str_split c a = None -> str_split c (a +:+ String c b) = Some (a, b).
Proof.
  induction a as [|x a IH]; cbn; [by rewrite Ascii.eqb_refl|]. destruct (Ascii.eqb x c); [done|].
  destruct (str_split c a) as [[? ?]|]; [done|]. intros _. by rewrite IH.
Qed.

Lemma starts_with_app a b : starts_with a (a +:+ b) = true.
Proof. unfold starts_with. induction a as [|x a IH]; [by destruct b|]. cbn. by destruct (ascii_dec x x). Qed.

Lemma drop_app_length (a b : string) : str_drop (String.length a) (a +:+ b) = b.
Proof. induction a as [|c a IH]; [by destruct b|]. cbn. apply IH. Qed.

(** ** Digits *)

(** The value of a digit in the bases up to 16, or [None]. *)
Definition digit_value (base : Z) (c : ascii) : option Z :=
  let u := uchar c in
  let v := if isdigit c then u - 48
           else if islower c then u - 97 + 10
           else if isupper c then u - 65 + 10
           else base in
  if v <? base then Some v else None.

Fixpoint skip_space (s : string) : string :=
  match s with
  | String c s' => if isspace c then skip_space s' else s
  | EmptyString => s
  end.

(** Reads the longest run of digits: its value from [acc] on, their number and
    the rest of the text. *)
Fixpoint read_digits (base acc : Z) (n : nat) (s : string) : Z * nat * string :=
  match s with
  | String c s' =>
      match digit_value base c with
      | Some d => read_digits base (acc * base + d) (S n) s'
      | None => (acc, n, s)
      end
  | EmptyString => (acc, n, s)
  end.

Definition read_sign (s : string) : bool * string :=
  match s with
  | String c s' =>
      if Ascii.eqb c "-" then (true, s')
      else if Ascii.eqb c "+" then (false, s')
      else (false, s)
  | EmptyString => (false, s)
  end.

(** The base [strtol] uses and the text its digits start at: with base 0 a
    leading [0x] followed by a hexadecimal digit selects 16, a leading [0]
    selects 8. *)
Definition select_base (base : Z) (s : string) : Z * string :=
  if base =? 0 then
    match s with
    | String z (String x (String d s')) =>
        if Ascii.eqb z "0" && (Ascii.eqb x "x" || Ascii.eqb x "X")
           && bool_decide (is_Some (digit_value 16 d))
        then (16, String d s')
        else if Ascii.eqb z "0" then (8, s) else (10, s)
    | String z _ => if Ascii.eqb z "0" then (8, s) else (10, s)
    | EmptyString => (10, s)
    end
  else (base, s).

(** Result of a [strto*] call: the value, where it stopped, whether [errno] was
    set to [ERANGE]. *)
Record strto_result := { st_val : Z; st_end : string; st_erange : bool }.

(** [strtoul]/[strtoull] on 64 bits: a minus sign negates modulo 2^64, a
    magnitude out of range gives [ULONG_MAX] with [ERANGE]; with no digits the
    result is 0 and the end is the start. *)
Definition strtoul (base : Z) (s : string) : strto_result :=
  let '(neg, s1) := read_sign (skip_space s) in
  let '(b, s2) := select_base base s1 in
  let '(v, n, rest) := read_digits b 0 0 s2 in
  if Nat.eqb n 0 then {| st_val := 0; st_end := s; st_erange := false |}
  else if 2 ^ 64 <=? v then {| st_val := 2 ^ 64 - 1; st_end := rest; st_erange := true |}
  else {| st_val := if neg then wrap_u 64 (- v) else v; st_end := rest; st_erange := false |}.

(** [strtol]: saturates at the bounds of [long]. *)
Definition strtol (base : Z) (s : string) : strto_result :=
  let '(neg, s1) := read_sign (skip_space s) in
  let '(b, s2) := select_base base s1 in
  let '(v, n, rest) := read_digits b 0 0 s2 in
  let v := if neg then - v else v in
  if Nat.eqb n 0 then {| st_val := 0; st_end := s; st_erange := false |}
  else if v <? - 2 ^ 63 then {| st_val := - 2 ^ 63; st_end := rest; st_erange := true |}
  else if 2 ^ 63 <=? v then {| st_val := 2 ^ 63 - 1; st_end := rest; st_erange := true |}
  else {| st_val := v; st_end := rest; st_erange := false |}.

(** [sscanf] with [%i] (base 0) or [%u] (base 10) and a length modifier of [w]
    bits. glibc collects the text of the number, converts it at 64 bits with the
    saturation of [strtol]/[strtoul] and stores the low [w] bits; text after the
    number is ignored. [None] is a return value other than 1. *)
Definition scan_base (base : Z) (s : string) : Z * nat * string :=
  if base =? 0 then
    match s with
    | String z s' =>
        if Ascii.eqb z "0" then
          match s' with
          | String x s'' =>
              if Ascii.eqb x "x" || Ascii.eqb x "X" then (16, 1%nat, s'')
              else (8, 1%nat, s')
          | EmptyString => (8, 1%nat, s')
          end
        else (10, 0%nat, s)
    | EmptyString => (10, 0%nat, s)
    end
  else (base, 0%nat, s).

Definition scan_digits (base : Z) (s : string) : option (bool * Z) :=
  let '(neg, s1) := read_sign (skip_space s) in
  let '(b, n0, s2) := scan_base base s1 in
  let '(v, n, _) := read_digits b 0 n0 s2 in
  if Nat.eqb n 0 then None else Some (neg, v).

Definition sscanf_i (w : Z) (s : string) : option Z :=
  match scan_digits 0 s with
  | Some (neg, v) =>
      Some (wrap_s w (Z.max (- 2 ^ 63) (Z.min (2 ^ 63 - 1) (if neg then - v else v))))
  | None => None
  end.

Definition sscanf_u (w : Z) (s : string) : option Z :=
  match scan_digits 10 s with
  | Some (neg, v) =>
      Some (wrap_u w (if 2 ^ 64 <=? v then 2 ^ 64 - 1
                      else if neg then wrap_u 64 (- v) else v))
  | None => None
  end.

(** ** Decimal output *)

Fixpoint dec_digits (fuel : nat) (n : Z) (acc : string) : string :=
  match fuel with
  | O => acc
  | S f =>
      let acc := String (chr (48 + n mod 10)) acc in
      if n / 10 =? 0 then acc else dec_digits f (n / 10) acc
  end.

(** [sprintf ("%" PRIu64)]; the fuel is more than the number of digits. *)
Definition print_u (n : Z) : string := dec_digits (S (Z.to_nat (Z.log2 n))) n EmptyString.

(** [sprintf ("%" PRIi64)] *)
Definition print_i (n : Z) : string :=
  if n <? 0 then String "-" (print_u (- n)) else print_u n.

(** ** Lemmas *)

Lemma uchar_range c : 0 <= uchar c < 256.
Proof. unfold uchar. pose proof (N_ascii_bounded c). lia. Qed.

Lemma uchar_chr z : 0 <= z < 256 -> uchar (chr z) = z.
Proof. intros H. unfold uchar, chr. rewrite N_ascii_embedding; lia. Qed.

Lemma chr_uchar c : chr (uchar c) = c.
Proof. unfold uchar, chr. rewrite N2Z.id. apply ascii_N_embedding. Qed.

Lemma uchar_inj a b : uchar a = uchar b -> a = b.
Proof. intros H. by rewrite <-(chr_uchar a), <-(chr_uchar b), H. Qed.

Lemma isdigit_chr d : 0 <= d < 10 -> isdigit (chr (48 + d)) = true.
Proof. intros H. unfold isdigit. rewrite uchar_chr by lia. lia. Qed.

Lemma digit_value_chr d : 0 <= d < 10 -> digit_value 10 (chr (48 + d)) = Some d.
Proof.
  intros H. unfold digit_value. rewrite isdigit_chr, uchar_chr by lia.
  replace (48 + d - 48) with d by lia. rewrite (proj2 (Z.ltb_lt _ _)); done || lia.
Qed.

(** Reading the digits [print_u] writes adds them to the accumulator. *)
Lemma dec_digits_read f n acc :
  0 <= n < 10 ^ Z.of_nat f -> (0 < f)%nat ->
  exists k, (0 < k)%nat /\
    forall a m, read_digits 10 a m (dec_digits f n acc)
                = read_digits 10 (a * 10 ^ Z.of_nat k + n) (m + k) acc.
Proof.
  revert n acc. induction f as [|f IH]; intros n acc Hn Hf; [lia|].
  pose proof (Z.div_mod n 10 ltac:(lia)).
  pose proof (Z.mod_pos_bound n 10 ltac:(lia)).
  rewrite Nat2Z.inj_succ, Z.pow_succ_r in Hn by lia. cbn [dec_digits].
  destruct (n / 10 =? 0) eqn:E; bool_to_prop.
  - exists 1%nat. split; [lia|]. intros a m. cbn [read_digits].
    rewrite digit_value_chr by lia. f_equal; lia.
  - assert (0 < f)%nat as Hf' by (destruct f; [simpl in Hn; lia|lia]).
    destruct (IH (n / 10) (String (chr (48 + n mod 10)) acc)) as (k & Hk & Hread);
      [lia|done|].
    exists (S k). split; [lia|]. intros a m. rewrite Hread. cbn [read_digits].
    rewrite digit_value_chr by lia. rewrite Nat2Z.inj_succ, Z.pow_succ_r by lia.
    f_equal; lia.
Qed.

Lemma dec_fuel n : 0 <= n -> n < 10 ^ Z.of_nat (S (Z.to_nat (Z.log2 n))).
Proof.
  intros Hn. rewrite Nat2Z.inj_succ, Z2Nat.id by apply Z.log2_nonneg.
  destruct (Z.eq_dec n 0) as [->|Hne]; [done|].
  pose proof (Z.log2_spec n ltac:(lia)) as [_ H].
  eapply Z.lt_le_trans; [exact H|].
  apply Z.pow_le_mono_l. lia.
Qed.

Lemma dec_digits_app f n acc rest :
  dec_digits f n (acc +:+ rest) = dec_digits f n acc +:+ rest.
Proof.
  revert n acc. induction f as [|f IH]; intros n acc; [done|]. cbn [dec_digits].
  destruct (n / 10 =? 0); [done|]. by rewrite <-IH.
Qed.

(** Decimal output is read back by the digit reader, whatever follows it. *)
Lemma print_u_read n rest :
  0 <= n -> exists k, (0 < k)%nat /\
    read_digits 10 0 0 (print_u n +:+ rest) = read_digits 10 n k rest.
Proof.
  intros Hn. unfold print_u. rewrite <-dec_digits_app. simpl.
  destruct (dec_digits_read (S (Z.to_nat (Z.log2 n))) n rest) as (k & Hk & Hread);
    [split; [done|by apply dec_fuel]|lia|].
  exists k. split; [done|]. rewrite Hread. f_equal; lia.
Qed.

(** A text that does not go on with a decimal digit. *)
Definition no_digit (s : string) : Prop :=
  match s with String c _ => digit_value 10 c = None | EmptyString => True end.

Lemma read_digits_stop a n s : no_digit s -> read_digits 10 a n s = (a, n, s).
Proof. destruct s as [|c s]; [done|]. simpl. by intros ->. Qed.

Lemma dec_digits_head f n acc :
  0 <= n < 10 ^ Z.of_nat f -> (0 < f)%nat ->
  exists d s, dec_digits f n acc = String (chr (48 + d)) s /\ 0 <= d < 10 /\
              (d = 0 -> n = 0 /\ s = acc).
Proof.
  revert n acc. induction f as [|f IH]; intros n acc Hn Hf; [lia|].
  pose proof (Z.div_mod n 10 ltac:(lia)).
  pose proof (Z.mod_pos_bound n 10 ltac:(lia)).
  rewrite Nat2Z.inj_succ, Z.pow_succ_r in Hn by lia. cbn [dec_digits].
  destruct (n / 10 =? 0) eqn:E; bool_to_prop.
  - exists (n mod 10), acc. split_and!; try done; try lia. intros. split; [lia|done].
  - assert (0 < f)%nat as Hf' by (destruct f; [simpl in Hn; lia|lia]).
    destruct (IH (n / 10) (String (chr (48 + n mod 10)) acc)) as (d & s & -> & ? & Hz);
      [lia|done|].
    exists d, s. split_and!; try done; lia.
Qed.

(** The first character of the output is a digit, and a zero only for 0. *)
Lemma print_u_head n :
  0 <= n -> exists d s, print_u n = String (chr (48 + d)) s /\ 0 <= d < 10 /\
                        (d = 0 -> n = 0 /\ s = EmptyString).
Proof.
  intros Hn. unfold print_u. apply dec_digits_head; [|lia].
  split; [done|by apply dec_fuel].
Qed.

Lemma chr_ne d (c : ascii) : 0 <= d < 10 -> isdigit c = false -> chr (48 + d) <> c.
Proof. intros Hd Hc <-. by rewrite isdigit_chr in Hc. Qed.

Lemma read_sign_digit d s :
  0 <= d < 10 -> read_sign (String (chr (48 + d)) s) = (false, String (chr (48 + d)) s).
Proof.
  intros Hd. cbn [read_sign].
  rewrite (proj2 (Ascii.eqb_neq _ _)) by (apply chr_ne; done).
  rewrite (proj2 (Ascii.eqb_neq _ _)) by (apply chr_ne; done). done.
Qed.

Lemma skip_space_digit d s :
  0 <= d < 10 -> skip_space (String (chr (48 + d)) s) = String (chr (48 + d)) s.
Proof.
  intros Hd. cbn [skip_space]. unfold isspace. rewrite uchar_chr by lia.
  destruct (_ || _) eqn:E; [lia|done].
Qed.

(** [strtoul] in base 10 reads back what [PRIu64] prints. *)
Lemma strtoul_print_u n rest :
  0 <= n < 2 ^ 64 -> no_digit rest ->
  strtoul 10 (print_u n +:+ rest)
  = {| st_val := n; st_end := rest; st_erange := false |}.
Proof.
  intros Hn Hrest. unfold strtoul.
  destruct (print_u_head n ltac:(lia)) as (d & s & E & Hd & _).
  destruct (print_u_read n rest ltac:(lia)) as (k & Hk & Hread).
  rewrite E, append_cons in *.
  rewrite skip_space_digit, read_sign_digit by done.
  change (select_base 10 ?x) with (10, x). cbv beta iota.
  rewrite Hread, read_digits_stop by done.
  destruct (Nat.eqb k 0) eqn:Ek; [apply Nat.eqb_eq in Ek; lia|].
  destruct (2 ^ 64 <=? n) eqn:El; [lia|done].
Qed.

(** In base 0 too: no decimal text but that of 0 starts with a zero. *)
Lemma strtoul_decimal n :
  0 <= n ->
  st_val (strtoul 0 (print_u n)) = (if n <? 2 ^ 64 then n else 2 ^ 64 - 1) /\
  st_erange (strtoul 0 (print_u n)) = negb (n <? 2 ^ 64).
Proof.
  intros Hn. destruct (print_u_head n Hn) as (d & s & E & Hd & H0).
  destruct (Z.eq_dec d 0) as [->|Hne]; [by destruct (H0 eq_refl) as [-> _]|].
  destruct (print_u_read n EmptyString Hn) as (k & Hk & Hread). rewrite append_nil_r in Hread. unfold strtoul.
  rewrite E in *. rewrite skip_space_digit, read_sign_digit by done.
  assert (select_base 0 (String (chr (48 + d)) s) = (10, String (chr (48 + d)) s)) as ->.
  { assert (d = 1 \/ d = 2 \/ d = 3 \/ d = 4 \/ d = 5 \/ d = 6 \/ d = 7 \/ d = 8 \/ d = 9) as Hcases by lia.
    destruct s as [|x [|y s]]; repeat destruct Hcases as [->|Hcases]; try reflexivity; by subst. }
  rewrite Hread. cbn [read_digits]. destruct (Nat.eqb k 0) eqn:Ek; [apply Nat.eqb_eq in Ek; lia|].
  destruct (2 ^ 64 <=? n) eqn:El, (n <? 2 ^ 64) eqn:El2; bool_to_prop; try lia; done.
Qed.

Lemma digit_value_nonneg base c d : digit_value base c = Some d -> 0 <= d < base.
Proof.
  unfold digit_value. destruct (isdigit c) eqn:E1; [|destruct (islower c) eqn:E2; [|destruct (isupper c) eqn:E3]];
    try unfold isdigit in E1; try unfold islower in E2; try unfold isupper in E3;
    match goal with |- context [if ?b then _ else _] => destruct b eqn:E end;
    try done; intros [= <-]; lia.
Qed.

Lemma read_digits_nonneg base a n s :
  0 <= a -> 0 <= base -> 0 <= fst (fst (read_digits base a n s)).
Proof.
  revert a n. induction s as [|c s IH]; intros a n Ha Hb; [done|]. cbn [read_digits].
  destruct (digit_value base c) as [d|] eqn:E; [|done]. apply digit_value_nonneg in E.
  apply IH; nia.
Qed.

Lemma strtoul_range base s : 0 <= base -> 0 <= st_val (strtoul base s) < 2 ^ 64.
Proof.
  intros Hb. unfold strtoul. destruct (read_sign _) as [neg s1].
  assert (0 <= fst (select_base base s1)) as Hb'.
  { unfold select_base. destruct (base =? 0); [|done].
    destruct s1 as [|z [|x [|d s']]]; repeat case_match; simpl; lia. }
  destruct (select_base base s1) as [b s2]. cbn [fst] in Hb'.
  pose proof (read_digits_nonneg b 0 0 s2 ltac:(lia) Hb') as Hv.
  destruct (read_digits b 0 0 s2) as [[v n] rest]. cbn [fst] in Hv.
  destruct (Nat.eqb n 0); cbn [st_val]; [lia|].
  destruct (2 ^ 64 <=? v) eqn:E; cbn [st_val]; [lia|]. bool_to_prop.
  destruct neg; [apply wrap_u_range|]; lia.
Qed.

Lemma dec_digits_length f n acc k :
  0 <= n < 10 ^ Z.of_nat (S k) ->
  (String.length (dec_digits f n acc) <= S k + String.length acc)%nat.
Proof.
  revert n acc k. induction f as [|f IH]; intros n acc k Hn; cbn [dec_digits]; [lia|].
  destruct (n / 10 =? 0) eqn:E; bool_to_prop; [simpl; lia|].
  destruct k as [|k].
  - exfalso. change (10 ^ Z.of_nat 1) with 10 in Hn. apply E, Z.div_small. lia.
  - specialize (IH (n / 10) (String (chr (48 + n mod 10)) acc) k). cbn [String.length] in *.
    etransitivity; [apply IH|lia]. rewrite (Nat2Z.inj_succ (S k)), Z.pow_succ_r in Hn by lia.
    split; [apply Z.div_pos; lia|apply Z.div_lt_upper_bound; lia].
Qed.

Lemma print_u_length n k :
  0 <= n < 10 ^ Z.of_nat (S k) -> (String.length (print_u n) <= S k)%nat.
Proof. intros Hn. unfold print_u. etransitivity; [by apply dec_digits_length|]. simpl. lia. Qed.

Lemma read_digits_bound s n k :
  (String.length s <= k)%nat ->
  0 <= n -> fst (fst (read_digits 10 n 0 s)) < (n + 1) * 10 ^ Z.of_nat k.
Proof.
  intros Hs Hn. generalize 0%nat as c. revert n k Hs Hn. induction s as [|ch s IH]; intros n k Hs Hn c.
  - cbn [read_digits fst]. nia.
  - cbn [read_digits]. destruct k as [|k]; [simpl in Hs; lia|].
    rewrite Nat2Z.inj_succ, Z.pow_succ_r by lia.
    destruct (digit_value 10 ch) as [d|] eqn:E; [|cbn [fst]; nia].
    apply digit_value_nonneg in E. specialize (IH (n * 10 + d) k). simpl in Hs.
    pose proof (IH ltac:(lia) ltac:(lia) (S c)). nia.
Qed.

(** The number of digits bounds the number. *)
Lemma print_u_bound n : 0 <= n -> n < 10 ^ Z.of_nat (String.length (print_u n)).
Proof.
  intros Hn. destruct (print_u_read n EmptyString Hn) as (k & _ & Hread).
  rewrite append_nil_r in Hread. cbn [read_digits] in Hread.
  pose proof (read_digits_bound (print_u n) 0 _ (le_n _) ltac:(lia)) as Hb. rewrite Hread in Hb.
  cbn [fst] in Hb. lia.
Qed.

Lemma print_u_lower n : 0 < n -> 10 ^ (Z.of_nat (String.length (print_u n)) - 1) <= n.
Proof.
  intros Hn. destruct (Z.le_gt_cases (10 ^ (Z.of_nat (String.length (print_u n)) - 1)) n) as [|Hlt]; [done|].
  exfalso. remember (String.length (print_u n)) as l eqn:Hl.
  destruct l as [|[|k]].
  - destruct (print_u_head n ltac:(lia)) as (d & s & Heq & _). rewrite Heq in Hl. simpl in Hl. lia.
  - change (10 ^ (Z.of_nat 1 - 1)) with 1 in Hlt. lia.
  - replace (Z.of_nat (S (S k)) - 1) with (Z.of_nat (S k)) in Hlt by lia.
    pose proof (print_u_length n k ltac:(lia)). lia.
Qed.
