(* ===== verification/HashMap.v ===== *)
(** * The string-keyed hash map (src/device-sdk-c/src/c/map.c)

    The map is an array of [nbuckets] chains of nodes, [nbuckets] zero or a power of two.
    A chain is a list, its head the head of the linked list; a node carries the
    hash it was made with, its key and its value. The map is refined to a
    [gmap string V] by [to_gmap]. *)

From S2P Require Import Prelude CLib.
From Stdlib Require Import Ascii.
Local Open Scope Z_scope.

(** The outcomes of the allocator: whether a request of that many bytes
    succeeds. glibc refuses requests above [PTRDIFF_MAX]. *)
Record allocator := { malloc_ok : Z -> bool; realloc_ok : Z -> bool }.

Definition PTRDIFF_MAX : Z := 2 ^ 63 - 1.

(** An allocator that grants every request. *)
Definition big_memory : allocator :=
  {| malloc_ok := fun _ => true; realloc_ok := fun _ => true |}.

Fixpoint edgex_hash_loop (hash : Z) (str : string) : Z :=
  match str with
  | EmptyString => hash
  | String c str' =>
      edgex_hash_loop
        (Z.lxor (wrap_u 32 (wrap_u 32 (Z.shiftl hash 5) + hash)) (wrap_u 32 (schar c))) str'
  end.

Definition edgex_hash (str : string) : Z := edgex_hash_loop 5381 str.

Record edgex_map_node (V : Type) := MkNode { nd_hash : Z; nd_key : string; nd_value : V }.
Arguments MkNode {V} _ _ _.
Arguments nd_hash {V} _.
Arguments nd_key {V} _.
Arguments nd_value {V} _.

Record edgex_map_base (V : Type) := MkMap {
  buckets : list (list (edgex_map_node V));
  nbuckets : Z;
  nnodes : Z
}.
Arguments MkMap {V} _ _ _.
Arguments buckets {V} _.
Arguments nbuckets {V} _.
Arguments nnodes {V} _.

(** The iterator: the index of a bucket and the node it stands at, named by its
    key (the keys of a map are distinct). *)
Record edgex_map_iter := MkIter { bucketidx : Z; it_node : option string }.

Section Operations.
Context {V : Type}.
Implicit Types (m : edgex_map_base V) (nd : edgex_map_node V).

Definition edgex_map_init : edgex_map_base V := MkMap [] 0 0.

(** The length of the key is an [int] in the code: keys are taken to be shorter than
    2 GB. *)
Definition edgex_map_newnode (mem : allocator) (key : string) (value : V) (vsize : Z) :
    option (edgex_map_node V) :=
  let ksize := Z.of_nat (String.length key) + 1 in
  let voffset := ksize + (wrap_u 64 (8 - ksize)) mod 8 in
  if malloc_ok mem (24 + voffset + vsize)
  then Some (MkNode (edgex_hash key) key value)
  else None.

Definition edgex_map_bucketidx (nb hash : Z) : nat :=
  Z.to_nat (wrap_s 32 (Z.land hash (wrap_u 32 (nb - 1)))).

Definition edgex_map_addnode m nd : edgex_map_base V :=
  let n := edgex_map_bucketidx (nbuckets m) (nd_hash nd) in
  MkMap (alter (cons nd) n (buckets m)) (nbuckets m) (nnodes m).

(** The two nested loops that chain all nodes together, last bucket first. *)
Definition chain_nodes (bs : list (list (edgex_map_node V))) : list (edgex_map_node V) :=
  fold_left (fun nodes b => fold_left (fun ns nd => nd :: ns) b nodes) (reverse bs) [].

Definition edgex_map_resize (mem : allocator) m (n : Z) : Z * edgex_map_base V :=
  let nodes := chain_nodes (buckets m) in
  let size := wrap_u 64 (8 * wrap_u 64 n) in
  if (size <=? PTRDIFF_MAX) && realloc_ok mem size then
    let m' := MkMap (replicate (Z.to_nat n) []) (wrap_u 32 n) (nnodes m) in
    (0, fold_left edgex_map_addnode nodes m')
  else if nbuckets m =? 0 then (-1, m)
  else
    let m' := MkMap (replicate (Z.to_nat (nbuckets m)) []) (nbuckets m) (nnodes m) in
    (-1, fold_left edgex_map_addnode nodes m').

Fixpoint find_node (hash : Z) (key : string) (b : list (edgex_map_node V)) : option nat :=
  match b with
  | [] => None
  | nd :: b' =>
      if (nd_hash nd =? hash) && String.eqb (nd_key nd) key then Some O
      else S <$> find_node hash key b'
  end.

(** The place of a node: its bucket and its position in the chain. *)
Definition edgex_map_getref m (key : string) : option (nat * nat) :=
  let hash := edgex_hash key in
  if 0 <? nbuckets m then
    let i := edgex_map_bucketidx (nbuckets m) hash in
    b ← buckets m !! i; j ← find_node hash key b; Some (i, j)
  else None.

Definition edgex_map_get m (key : string) : option V :=
  '(i, j) ← edgex_map_getref m key;
  b ← buckets m !! i; nd ← b !! j; Some (nd_value nd).

Definition set_value (v : V) nd : edgex_map_node V := MkNode (nd_hash nd) (nd_key nd) v.

Definition edgex_map_set_ (mem : allocator) m (key : string) (value : V) (vsize : Z) :
    Z * edgex_map_base V :=
  match edgex_map_getref m key with
  | Some (i, j) =>
      (0, MkMap (alter (alter (set_value value) j) i (buckets m)) (nbuckets m) (nnodes m))
  | None =>
      match edgex_map_newnode mem key value vsize with
      | None => (-1, m)
      | Some nd =>
          let '(err, m1) :=
            if nbuckets m <=? nnodes m then
              let n := if 0 <? nbuckets m
                       then wrap_s 32 (wrap_u 32 (Z.shiftl (nbuckets m) 1)) else 1 in
              edgex_map_resize mem m n
            else (0, m) in
          if err =? 0 then
            let m2 := edgex_map_addnode m1 nd in
            (0, MkMap (buckets m2) (nbuckets m2) (wrap_u 32 (nnodes m2 + 1)))
          else (-1, m1)
      end
  end.

Definition edgex_map_remove m (key : string) : edgex_map_base V :=
  match edgex_map_getref m key with
  | Some (i, j) => MkMap (alter (delete j) i (buckets m)) (nbuckets m) (wrap_u 32 (nnodes m - 1))
  | None => m
  end.

Definition edgex_map_iter_ : edgex_map_iter := MkIter (wrap_u 32 (-1)) None.

(** The node after the one with key [k] in its chain. *)
Fixpoint next_in_chain (k : string) (b : list (edgex_map_node V)) : option string :=
  match b with
  | [] => None
  | nd :: b' =>
      if String.eqb (nd_key nd) k then nd_key <$> head b' else next_in_chain k b'
  end.

(** The [nextBucket] loop: the first node of the next bucket that has one. *)
Fixpoint next_bucket (fuel : nat) m (idx : Z) : option string * edgex_map_iter :=
  match fuel with
  | O => (None, MkIter idx None)
  | S f =>
      let idx := wrap_u 32 (idx + 1) in
      if nbuckets m <=? idx then (None, MkIter idx None)
      else match buckets m !! Z.to_nat idx with
           | Some (nd :: _) => (Some (nd_key nd), MkIter idx (Some (nd_key nd)))
           | _ => next_bucket f m idx
           end
  end.

Definition edgex_map_next m (it : edgex_map_iter) : option string * edgex_map_iter :=
  let fuel := S (length (buckets m)) in
  match it_node it with
  | Some k =>
      match next_in_chain k (default [] (buckets m !! Z.to_nat (bucketidx it))) with
      | Some k' => (Some k', MkIter (bucketidx it) (Some k'))
      | None => next_bucket fuel m (bucketidx it)
      end
  | None => next_bucket fuel m (bucketidx it)
  end.

(** [while ((key = edgex_map_next (m, &iter)))]: the keys such a loop visits,
    the map unchanged. *)
Fixpoint keys_from (fuel : nat) m (it : edgex_map_iter) : list string :=
  match fuel with
  | O => []
  | S f => match edgex_map_next m it with
           | (Some k, it') => k :: keys_from f m it'
           | (None, _) => []
           end
  end.

Definition edgex_map_keys m : list string := keys_from (S (Z.to_nat (nnodes m))) m edgex_map_iter_.

End Operations.

(** ** The invariant and the abstraction *)

Definition pow2_buckets (nb : Z) : Prop := nb = 0 \/ exists k, 0 <= k <= 30 /\ nb = 2 ^ k.

(** Every node carries the hash of its key and is in the bucket of that hash. *)
Definition placed {V} (nb : Z) (bs : list (list (edgex_map_node V))) : Prop :=
  forall i b nd, bs !! i = Some b -> nd ∈ b ->
    nd_hash nd = edgex_hash (nd_key nd) /\ edgex_map_bucketidx nb (nd_hash nd) = i.

Record map_wf {V} (m : edgex_map_base V) : Prop := {
  wf_len : nbuckets m = Z.of_nat (length (buckets m));
  wf_pow : pow2_buckets (nbuckets m);
  wf_place : placed (nbuckets m) (buckets m);
  wf_nodup : NoDup (nd_key <$> concat (buckets m));
  wf_count : nnodes m = Z.of_nat (length (concat (buckets m)));
  wf_load : nnodes m <= nbuckets m
}.

Definition node_pair {V} (nd : edgex_map_node V) : string * V := (nd_key nd, nd_value nd).

Definition to_gmap {V} (m : edgex_map_base V) : gmap string V :=
  list_to_map (node_pair <$> concat (buckets m)).

(** ** Lists of chains *)

Section Chains.
Context {A : Type}.
Implicit Types (ls : list (list A)).

Lemma concat_alter_cons x i ls :
  (i < length ls)%nat -> concat (alter (cons x) i ls) ≡ₚ x :: concat ls.
Proof.
  revert i. induction ls as [|l ls IH]; intros i Hi; [simpl in Hi; lia|].
  destruct i as [|i]; [done|]. csimpl in *.
  rewrite IH by lia. by rewrite Permutation_middle.
Qed.

Lemma concat_alter_delete i j ls l x :
  ls !! i = Some l -> l !! j = Some x ->
  concat ls ≡ₚ x :: concat (alter (delete j) i ls).
Proof.
  revert i. induction ls as [|l' ls IH]; intros i Hi Hj; [done|].
  destruct i as [|i]; csimpl in *.
  - simplify_eq. apply (delete_Permutation l j x) in Hj. by rewrite Hj at 1.
  - rewrite (IH i) by done. by rewrite Permutation_middle.
Qed.

Lemma concat_alter_alter (f : A -> A) i j ls l x :
  ls !! i = Some l -> l !! j = Some x ->
  concat (alter (alter f j) i ls) ≡ₚ f x :: concat (alter (delete j) i ls).
Proof.
  revert i. induction ls as [|l' ls IH]; intros i Hi Hj; [done|].
  destruct i as [|i]; csimpl in *.
  - simplify_eq. clear IH. revert j Hj. induction l as [|y l IHl]; intros [|j] Hj;
      csimpl in *; simplify_eq; [done|].
    rewrite IHl by done. constructor.
  - rewrite (IH i) by done. by rewrite Permutation_middle.
Qed.

Lemma concat_replicate_nil n : concat (replicate n ([] : list A)) = [].
Proof. induction n; done. Qed.

Lemma elem_of_concat x ls : x ∈ concat ls <-> exists i l, ls !! i = Some l /\ x ∈ l.
Proof.
  rewrite list_elem_of_In, in_concat. split.
  - intros (l & Hl & Hx). apply list_elem_of_In in Hl.
    apply list_elem_of_lookup in Hl as [i Hi]. exists i, l.
    by rewrite list_elem_of_In.
  - intros (i & l & Hi & Hx). exists l. rewrite <-!list_elem_of_In. split; [|done].
    apply list_elem_of_lookup. eauto.
Qed.
End Chains.

(** ** Placement and lookup *)

Lemma bucketidx_range nb h :
  pow2_buckets nb -> 0 < nb -> (edgex_map_bucketidx nb h < Z.to_nat nb)%nat.
Proof.
  intros [->|(k & Hk & ->)] Hnb; [lia|]. unfold edgex_map_bucketidx.
  assert (2 ^ k <= 2 ^ 30) by (apply Z.pow_le_mono_r; lia).
  rewrite wrap_u_small by lia.
  replace (2 ^ k - 1) with (Z.ones k) by (rewrite Z.ones_equiv; lia).
  rewrite Z.land_ones by lia.
  pose proof (Z.mod_pos_bound h (2 ^ k)). rewrite wrap_s_small by lia. lia.
Qed.

Section Lookup.
Context {V : Type}.
Implicit Types (m : edgex_map_base V) (nd : edgex_map_node V) (l : list (edgex_map_node V)).

Lemma find_node_Some h k l j :
  find_node h k l = Some j -> exists nd, l !! j = Some nd /\ nd_key nd = k.
Proof.
  revert j. induction l as [|nd l IH]; intros j; [done|]. simpl.
  destruct (_ && _) eqn:E; intros H; bool_to_prop.
  - injection H as <-. by exists nd.
  - apply fmap_Some in H as (j' & Hj & ->). simpl. eauto.
Qed.

Lemma find_node_None k l :
  (forall nd, nd ∈ l -> nd_hash nd = edgex_hash (nd_key nd)) ->
  find_node (edgex_hash k) k l = None -> k ∉ nd_key <$> l.
Proof.
  induction l as [|nd l IH]; intros Hh; [by intros _ ?%elem_of_nil|]. simpl.
  destruct (_ && _) eqn:E; [done|]. intros H%fmap_None. csimpl.
  apply not_elem_of_cons. split; [|apply IH; [set_solver|done]].
  intros ->. rewrite (Hh nd), Z.eqb_refl, String.eqb_refl in E by set_solver. done.
Qed.

Lemma node_pair_keys l : (node_pair <$> l).*1 = nd_key <$> l.
Proof. rewrite <-list_fmap_compose. done. Qed.

Lemma to_gmap_Some m k v :
  map_wf m -> to_gmap m !! k = Some v <-> exists nd, nd ∈ concat (buckets m) /\ node_pair nd = (k, v).
Proof.
  intros Hwf. unfold to_gmap. rewrite <-elem_of_list_to_map.
  - rewrite list_elem_of_fmap. split; intros (nd & ? & ?); eauto.
  - rewrite node_pair_keys. apply Hwf.
Qed.

Lemma to_gmap_None m k : to_gmap m !! k = None <-> k ∉ nd_key <$> concat (buckets m).
Proof.
  unfold to_gmap. rewrite <-node_pair_keys. split.
  - apply not_elem_of_list_to_map_2.
  - apply not_elem_of_list_to_map_1.
Qed.

Lemma getref_Some m k i j :
  edgex_map_getref m k = Some (i, j) ->
  exists b nd, buckets m !! i = Some b /\ b !! j = Some nd /\ nd_key nd = k.
Proof.
  unfold edgex_map_getref. destruct (0 <? nbuckets m); [|done].
  intros (b & Hb & (j' & Hj & [= <- <-])%bind_Some)%bind_Some.
  apply find_node_Some in Hj as (nd & ? & ?). eauto.
Qed.

Lemma getref_None m k :
  map_wf m -> edgex_map_getref m k = None -> k ∉ nd_key <$> concat (buckets m).
Proof.
  intros Hwf. unfold edgex_map_getref. intros H (nd & -> & Hin)%list_elem_of_fmap.
  apply elem_of_concat in Hin as (i & b & Hi & Hnd).
  destruct (wf_place _ Hwf i b nd Hi Hnd) as [Hh Hidx].
  assert (0 < nbuckets m) as Hpos
    by (rewrite (wf_len _ Hwf); apply lookup_lt_Some in Hi; lia).
  rewrite (proj2 (Z.ltb_lt _ _) Hpos), <-Hh, Hidx, Hi in H. simpl in H.
  apply bind_None in H as [H|(?&?&?)]; [|done].
  rewrite Hh in H. apply find_node_None in H.
  - apply H, list_elem_of_fmap. eauto.
  - intros nd' Hnd'. by destruct (wf_place _ Hwf i b nd' Hi Hnd').
Qed.

Lemma get_refines m k : map_wf m -> edgex_map_get m k = to_gmap m !! k.
Proof.
  intros Hwf. unfold edgex_map_get.
  destruct (edgex_map_getref m k) as [[i j]|] eqn:E; simpl.
  - apply getref_Some in E as (b & nd & Hi & Hj & Hk). rewrite Hi. simpl. rewrite Hj. simpl.
    symmetry. apply to_gmap_Some; [done|]. exists nd. split; [|by rewrite <-Hk].
    apply elem_of_concat. exists i, b. split; [done|]. apply list_elem_of_lookup. eauto.
  - symmetry. apply to_gmap_None. by apply getref_None.
Qed.

(** Two maps with the same nodes up to order, keys distinct, are the same. *)
Lemma to_gmap_perm m l :
  map_wf m -> concat (buckets m) ≡ₚ l -> list_to_map (node_pair <$> l) = to_gmap m.
Proof.
  intros Hwf Hp. symmetry. apply list_to_map_proper; [|by rewrite Hp].
  rewrite node_pair_keys. apply Hwf.
Qed.
End Lookup.

(** ** Adding nodes and rehashing *)

Section Rehash.
Context {V : Type}.
Implicit Types (m : edgex_map_base V) (nd : edgex_map_node V) (l : list (edgex_map_node V)).

(** What adding nodes needs and keeps: a non-empty table of the size it says. *)
Definition table_ok m : Prop :=
  pow2_buckets (nbuckets m) /\ 0 < nbuckets m /\
  nbuckets m = Z.of_nat (length (buckets m)) /\ placed (nbuckets m) (buckets m).

Definition hashed nd : Prop := nd_hash nd = edgex_hash (nd_key nd).

Lemma addnode_spec m nd :
  table_ok m -> hashed nd ->
  let m' := edgex_map_addnode m nd in
  table_ok m' /\ nbuckets m' = nbuckets m /\ nnodes m' = nnodes m /\
  concat (buckets m') ≡ₚ nd :: concat (buckets m).
Proof.
  intros (Hp & Hpos & Hlen & Hpl) Hh. simpl.
  pose proof (bucketidx_range (nbuckets m) (nd_hash nd) Hp Hpos) as Hidx.
  assert (edgex_map_bucketidx (nbuckets m) (nd_hash nd) < length (buckets m))%nat by lia.
  split_and!; [|done|done|by apply concat_alter_cons].
  split_and!; simpl; [done|done|by rewrite length_alter|].
  intros i b nd' Hi Hnd'. rewrite list_lookup_alter in Hi. case_decide as Ei; [|by eauto].
  apply fmap_Some in Hi as (b0 & Hb0 & ->). apply elem_of_cons in Hnd' as [->|Hnd'].
  - split; [exact Hh|done].
  - subst i. eauto.
Qed.

Lemma addnodes_spec l m :
  table_ok m -> Forall hashed l ->
  let m' := fold_left edgex_map_addnode l m in
  table_ok m' /\ nbuckets m' = nbuckets m /\ nnodes m' = nnodes m /\
  concat (buckets m') ≡ₚ l ++ concat (buckets m).
Proof.
  revert m. induction l as [|nd l IH]; intros m Hok Hl; simpl; [done|].
  inversion Hl; subst.
  destruct (addnode_spec m nd) as (Hok' & Hn & Hc & Hp); [done..|].
  destruct (IH (edgex_map_addnode m nd)) as (Hok2 & Hn2 & Hc2 & Hp2); [done..|].
  split_and!; [done|congruence|congruence|].
  rewrite Hp2, Hp. by rewrite Permutation_middle.
Qed.

Lemma chain_bucket_perm l acc :
  fold_left (fun ns nd => nd :: ns) l acc ≡ₚ l ++ acc.
Proof.
  revert acc. induction l as [|nd l IH]; intros acc; [done|]. simpl.
  rewrite IH. by rewrite Permutation_middle.
Qed.

Lemma chain_nodes_perm (bs : list (list (edgex_map_node V))) : chain_nodes bs ≡ₚ concat bs.
Proof.
  unfold chain_nodes.
  assert (forall ls acc,
    fold_left (fun nodes b => fold_left (fun ns nd => nd :: ns) b nodes) ls acc
    ≡ₚ concat ls ++ acc) as H.
  { induction ls as [|l ls IH]; intros acc; [done|]. simpl.
    rewrite IH, chain_bucket_perm. solve_Permutation. }
  rewrite H, app_nil_r. clear H. induction bs as [|b bs IH]; [done|].
  rewrite reverse_cons, concat_app, IH. simpl. rewrite app_nil_r. apply Permutation_app_comm.
Qed.

Lemma placed_hashed nb (bs : list (list (edgex_map_node V))) :
  placed nb bs -> Forall hashed (concat bs).
Proof.
  intros Hpl. apply Forall_forall. intros nd (i & b & Hi & Hnd)%elem_of_concat.
  by destruct (Hpl i b nd Hi Hnd).
Qed.

Lemma empty_table_ok n c :
  pow2_buckets n -> 0 < n -> table_ok (MkMap (replicate (Z.to_nat n) ([] : list (edgex_map_node V))) n c).
Proof.
  intros Hp Hn. split_and!; simpl; [done|done|rewrite length_replicate; lia|].
  intros i b nd Hi Hnd. apply lookup_replicate in Hi as [-> _]. by apply elem_of_nil in Hnd.
Qed.

(** Rehashing keeps the nodes, whatever the new size. *)
Lemma rehash_spec m n c :
  placed (nbuckets m) (buckets m) -> pow2_buckets n -> 0 < n ->
  let m' := fold_left edgex_map_addnode (chain_nodes (buckets m))
              (MkMap (replicate (Z.to_nat n) []) n c) in
  table_ok m' /\ nbuckets m' = n /\ nnodes m' = c /\ concat (buckets m') ≡ₚ concat (buckets m).
Proof.
  intros Hpl Hp Hn.
  destruct (addnodes_spec (chain_nodes (buckets m)) (MkMap (replicate (Z.to_nat n) []) n c))
    as (Hok & Hnb & Hc & Hperm).
  - by apply empty_table_ok.
  - rewrite chain_nodes_perm. by eapply placed_hashed.
  - split_and!; [done|done|done|]. rewrite Hperm. simpl.
    by rewrite concat_replicate_nil, app_nil_r, chain_nodes_perm.
Qed.
End Rehash.

(** ** The operations refine those of a finite map *)

Section Refinement.
Context {V : Type}.
Implicit Types (m : edgex_map_base V) (nd : edgex_map_node V).

Lemma init_wf : map_wf (edgex_map_init : edgex_map_base V).
Proof. split; simpl; try done; [by left|constructor]. Qed.

Lemma init_empty : to_gmap (edgex_map_init : edgex_map_base V) = ∅.
Proof. done. Qed.

Lemma wf_table_ok m : map_wf m -> 0 < nbuckets m -> table_ok m.
Proof. intros Hwf Hpos. split_and!; [apply Hwf|done|apply Hwf|apply Hwf]. Qed.

(** A table with the nodes of a well-formed map is well formed and the same map. *)
Lemma same_nodes_wf m m' :
  map_wf m -> table_ok m' -> nnodes m' = nnodes m -> nnodes m <= nbuckets m' ->
  concat (buckets m') ≡ₚ concat (buckets m) ->
  map_wf m' /\ to_gmap m' = to_gmap m.
Proof.
  intros Hwf (Hp & Hpos & Hlen & Hpl) Hc Hload Hperm. split.
  - split; try done.
    + rewrite Hperm. apply Hwf.
    + rewrite Hc, (wf_count _ Hwf). by rewrite Hperm.
    + lia.
  - symmetry. apply list_to_map_proper; [|by rewrite Hperm].
    rewrite node_pair_keys. apply Hwf.
Qed.

(** The number of buckets a full map asks for. *)
Definition grown m : Z :=
  if 0 <? nbuckets m then wrap_s 32 (wrap_u 32 (Z.shiftl (nbuckets m) 1)) else 1.

Lemma grown_ok m :
  pow2_buckets (nbuckets m) ->
  wrap_u 64 (8 * wrap_u 64 (grown m)) <= PTRDIFF_MAX ->
  pow2_buckets (grown m) /\ 0 < grown m /\ nbuckets m < grown m < 2 ^ 31.
Proof.
  intros Hp. unfold grown. destruct Hp as [->|(k & Hk & ->)].
  { intros _. split_and!; try (simpl; lia). right. exists 0. split; [lia|done]. }
  rewrite (proj2 (Z.ltb_lt _ _)) by lia.
  rewrite Z.shiftl_mul_pow2, <-Z.pow_add_r by lia.
  assert (2 ^ (k + 1) <= 2 ^ 31) by (apply Z.pow_le_mono_r; lia).
  rewrite (wrap_u_small 32) by lia.
  destruct (Z.eq_dec k 30) as [->|Hne]; [vm_compute; intros H'; by exfalso|].
  assert (2 ^ (k + 1) <= 2 ^ 30) by (apply Z.pow_le_mono_r; lia).
  rewrite wrap_s_small by lia. intros _.
  assert (2 ^ (k + 1) = 2 * 2 ^ k) by (rewrite Z.pow_add_r; lia).
  split_and!; try lia. right. exists (k + 1). lia.
Qed.

(** Resizing keeps the map, whether or not the allocation succeeds. *)
Lemma resize_spec mem m :
  map_wf m ->
  let '(err, m') := edgex_map_resize mem m (grown m) in
  map_wf m' /\ to_gmap m' = to_gmap m /\ nnodes m' = nnodes m /\
  (err = 0 -> nnodes m' < nbuckets m') /\ (err = 0 \/ err = -1).
Proof.
  intros Hwf. unfold edgex_map_resize.
  destruct (_ && _) eqn:Emem; bool_to_prop.
  - destruct (grown_ok m) as (Hp & Hpos & Hlt); [apply Hwf|done|].
    rewrite wrap_u_small by lia.
    destruct (rehash_spec m (grown m) (nnodes m)) as (Hok & Hnb & Hc & Hperm);
      [apply Hwf|done|done|].
    pose proof (wf_load _ Hwf).
    destruct (same_nodes_wf m _ Hwf Hok Hc) as [Hwf' Hmap]; [lia|done|].
    split_and!; [done|done|done|lia|by left].
  - destruct (nbuckets m =? 0) eqn:Enb; bool_to_prop.
    { split_and!; [done|done|done|lia|by right]. }
    pose proof (wf_len _ Hwf).
    destruct (rehash_spec m (nbuckets m) (nnodes m)) as (Hok & Hnb & Hc & Hperm);
      [apply Hwf|apply Hwf|lia|].
    destruct (same_nodes_wf m _ Hwf Hok Hc) as [Hwf' Hmap];
      [rewrite Hnb; apply Hwf|done|].
    split_and!; [done|done|done|lia|by right].
Qed.

Lemma nbuckets_bound m : map_wf m -> 0 <= nnodes m /\ nnodes m <= nbuckets m /\ nbuckets m <= 2 ^ 30.
Proof.
  intros Hwf. pose proof (wf_load _ Hwf). pose proof (wf_count _ Hwf).
  destruct (wf_pow _ Hwf) as [Hz|(k & Hk & Hn)]; [lia|].
  assert (2 ^ k <= 2 ^ 30) by (apply Z.pow_le_mono_r; lia). lia.
Qed.

(** The map a table stands for, from its nodes in any order. *)
Lemma to_gmap_nodes m l :
  NoDup (nd_key <$> l) -> concat (buckets m) ≡ₚ l -> to_gmap m = list_to_map (node_pair <$> l).
Proof.
  intros Hnd Hp. symmetry. apply list_to_map_proper; [by rewrite node_pair_keys|by rewrite Hp].
Qed.

(** Adding a node with a fresh key to a table that has room. *)
Lemma insert_spec m nd :
  map_wf m -> nnodes m < nbuckets m -> hashed nd -> nd_key nd ∉ nd_key <$> concat (buckets m) ->
  let m2 := edgex_map_addnode m nd in
  let m' := MkMap (buckets m2) (nbuckets m2) (wrap_u 32 (nnodes m2 + 1)) in
  map_wf m' /\ to_gmap m' = <[nd_key nd := nd_value nd]> (to_gmap m).
Proof.
  intros Hwf Hroom Hh Hfresh. pose proof (nbuckets_bound m Hwf).
  destruct (addnode_spec m nd) as ((Hp & Hpos & Hlen & Hpl) & Hnb & Hc & Hperm);
    [apply wf_table_ok; [done|lia]|done|].
  simpl in *. rewrite wrap_u_small by lia.
  assert (NoDup (nd_key <$> nd :: concat (buckets m))) as Hnd
    by (csimpl; constructor; [done|apply Hwf]).
  split; [split; simpl; try done|].
  - by rewrite Hperm.
  - rewrite Hperm. simpl. rewrite (wf_count _ Hwf). lia.
  - lia.
  - by rewrite (to_gmap_nodes _ (nd :: concat (buckets m))).
Qed.

(** The nodes besides the one a reference names. *)
Lemma getref_split m k i j :
  map_wf m -> edgex_map_getref m k = Some (i, j) ->
  exists nd, nd_key nd = k /\ hashed nd /\ edgex_map_bucketidx (nbuckets m) (nd_hash nd) = i /\
    let rest := concat (alter (delete j) i (buckets m)) in
    concat (buckets m) ≡ₚ nd :: rest /\ (k ∉ nd_key <$> rest) /\ NoDup (nd_key <$> rest) /\
    forall f, concat (alter (alter f j) i (buckets m)) ≡ₚ f nd :: rest.
Proof.
  intros Hwf (b & nd & Hi & Hj & Hk)%getref_Some. exists nd.
  destruct (wf_place _ Hwf i b nd Hi) as [Hh Hidx]; [apply list_elem_of_lookup; eauto|].
  pose proof (concat_alter_delete i j _ _ _ Hi Hj) as Hperm.
  pose proof (wf_nodup _ Hwf) as Hnd. rewrite Hperm in Hnd. csimpl in Hnd.
  apply NoDup_cons in Hnd as [Hfresh Hnd]. rewrite Hk in Hfresh.
  do 3 (split; [done|]). intros rest. split_and!; try done.
  intros f. by eapply concat_alter_alter.
Qed.

Lemma placed_alter nb i (f : list (edgex_map_node V) -> list (edgex_map_node V)) bs :
  placed nb bs ->
  (forall b nd, nd ∈ f b -> exists nd0, nd0 ∈ b /\ nd_key nd0 = nd_key nd /\ nd_hash nd0 = nd_hash nd) ->
  placed nb (alter f i bs).
Proof.
  intros Hpl Hf i' b nd Hi Hnd. rewrite list_lookup_alter in Hi.
  case_decide; [|by eapply Hpl]. subst i'. apply fmap_Some in Hi as (b0 & Hb0 & ->).
  apply Hf in Hnd as (nd0 & Hin & <- & <-). by eapply Hpl.
Qed.

(** Overwriting the value of a node in place. *)
Lemma replace_spec m k v i j :
  map_wf m -> edgex_map_getref m k = Some (i, j) ->
  let m' := MkMap (alter (alter (set_value v) j) i (buckets m)) (nbuckets m) (nnodes m) in
  map_wf m' /\ to_gmap m' = <[k := v]> (to_gmap m).
Proof.
  intros Hwf Href. destruct (getref_split m k i j Hwf Href)
    as (nd & Hk & Hh & Hidx & Hperm & Hfresh & Hnd & Halter). simpl in *.
  set (rest := concat (alter (delete j) i (buckets m))) in *.
  specialize (Halter (set_value v)).
  assert (forall x, NoDup (nd_key <$> set_value x nd :: rest)) as Hnd'
    by (intros x; csimpl; rewrite Hk; by constructor).
  split; [split; simpl; try apply Hwf|].
  - rewrite length_alter. apply Hwf.
  - apply placed_alter; [apply Hwf|]. intros b nd' [j' Hj']%list_elem_of_lookup.
    rewrite list_lookup_alter in Hj'. case_decide.
    + apply fmap_Some in Hj' as (nd0 & Hj0 & ->). exists nd0. split_and!; try done.
      apply list_elem_of_lookup. eauto.
    + exists nd'. split_and!; try done. apply list_elem_of_lookup. eauto.
  - by rewrite Halter.
  - rewrite Halter. rewrite (wf_count _ Hwf), Hperm. done.
  - rewrite (to_gmap_nodes _ (set_value v nd :: rest)) by done.
    rewrite (to_gmap_nodes m (set_value (nd_value nd) nd :: rest));
      [|done|by destruct nd]. csimpl.
    change (node_pair (set_value ?x nd)) with (nd_key nd, x). csimpl.
    by rewrite Hk, insert_insert_eq.
Qed.

Lemma set_spec mem m k v vsize :
  map_wf m ->
  let '(ret, m') := edgex_map_set_ mem m k v vsize in
  map_wf m' /\ ((ret = 0 /\ to_gmap m' = <[k := v]> (to_gmap m)) \/
                (ret = -1 /\ to_gmap m' = to_gmap m)).
Proof.
  intros Hwf. unfold edgex_map_set_.
  destruct (edgex_map_getref m k) as [[i j]|] eqn:Href.
  { destruct (replace_spec m k v i j) as [? ?]; auto. }
  unfold edgex_map_newnode. destruct (malloc_ok mem _); [|by auto].
  fold (grown m). pose proof (getref_None m k Hwf Href) as Hfresh.
  destruct (nbuckets m <=? nnodes m) eqn:Efull; bool_to_prop.
  - pose proof (resize_spec mem m Hwf) as Hres.
    destruct (edgex_map_resize mem m (grown m)) as [err m1].
    destruct Hres as (Hwf1 & Hmap & Hcnt & Hroom & Herr).
    destruct (err =? 0) eqn:Ee; bool_to_prop; [|by auto].
    destruct (insert_spec m1 (MkNode (edgex_hash k) k v)) as [Hwf2 Hmap2];
      [done|auto|done|..].
    + simpl. apply to_gmap_None. rewrite Hmap. by apply to_gmap_None.
    + split; [done|left]. split; [done|]. rewrite Hmap2, Hmap. done.
  - simpl. destruct (insert_spec m (MkNode (edgex_hash k) k v)) as [Hwf2 Hmap2];
      try done; auto.
Qed.

Lemma remove_spec m k :
  map_wf m -> map_wf (edgex_map_remove m k) /\ to_gmap (edgex_map_remove m k) = delete k (to_gmap m).
Proof.
  intros Hwf. unfold edgex_map_remove.
  destruct (edgex_map_getref m k) as [[i j]|] eqn:Href.
  - destruct (getref_split m k i j Hwf Href)
      as (nd & Hk & Hh & Hidx & Hperm & Hfresh & Hnd & _). simpl in *.
    set (rest := concat (alter (delete j) i (buckets m))) in *.
    pose proof (nbuckets_bound m Hwf). pose proof (wf_count _ Hwf) as Hcnt.
    rewrite Hperm in Hcnt. simpl in Hcnt. rewrite wrap_u_small by lia.
    split; [split; simpl; try apply Hwf|].
    + rewrite length_alter. apply Hwf.
    + apply placed_alter; [apply Hwf|]. intros b nd' Hnd'. exists nd'. split_and!; try done.
      eapply elem_of_submseteq; [done|]. apply sublist_submseteq, sublist_delete.
    + done.
    + fold rest. lia.
    + lia.
    + rewrite (to_gmap_nodes m (nd :: rest)); [|csimpl; rewrite Hk; by constructor|done].
      csimpl. rewrite Hk, delete_insert_id; [done|].
      apply not_elem_of_list_to_map_1. by rewrite node_pair_keys.
  - split; [done|]. symmetry. apply delete_id. apply to_gmap_None. by apply getref_None.
Qed.
End Refinement.

(** ** Iteration *)

Section Iteration.
Context {V : Type} (m : edgex_map_base V) (Hwf : map_wf m).
Implicit Types (rest : list (edgex_map_node V)).

(** The nodes an iterator has still to visit. *)
Definition iter_rest (it : edgex_map_iter) rest : Prop :=
  match it_node it with
  | None => exists i, wrap_u 32 (bucketidx it + 1) = Z.of_nat i /\ rest = concat (drop i (buckets m))
  | Some k => exists i pre nd post,
      bucketidx it = Z.of_nat i /\ buckets m !! i = Some (pre ++ nd :: post) /\
      nd_key nd = k /\ rest = post ++ concat (drop (S i) (buckets m))
  end.

Definition next_ok (res : option string * edgex_map_iter) rest : Prop :=
  match rest with
  | [] => fst res = None
  | nd :: rest' => fst res = Some (nd_key nd) /\ iter_rest (snd res) rest'
  end.

Lemma length_buckets_bound : Z.of_nat (length (buckets m)) <= 2 ^ 30.
Proof using Hwf. rewrite <-(wf_len _ Hwf). by apply nbuckets_bound. Qed.

Lemma next_bucket_spec fuel i idx :
  wrap_u 32 (idx + 1) = Z.of_nat i -> (length (buckets m) - i < fuel)%nat ->
  next_ok (next_bucket fuel m idx) (concat (drop i (buckets m))).
Proof using Hwf.
  revert i idx. induction fuel as [|f IH]; intros i idx Hi Hf; [lia|].
  pose proof length_buckets_bound. cbn [next_bucket]. rewrite Hi, (wf_len _ Hwf), Nat2Z.id.
  destruct (buckets m !! i) as [b|] eqn:Eb.
  - pose proof (lookup_lt_Some _ _ _ Eb).
    destruct (_ <=? _) eqn:E; bool_to_prop; [lia|].
    rewrite (drop_S _ _ _ Eb). destruct b as [|nd b]; simpl.
    + apply IH; [|lia]. rewrite wrap_u_small; lia.
    + split; [done|]. exists i, [], nd, b. done.
  - apply lookup_ge_None in Eb. rewrite drop_ge by done.
    destruct (_ <=? _) eqn:E; bool_to_prop; [done|lia].
Qed.

Lemma next_in_chain_spec pre nd (post : list (edgex_map_node V)) :
  NoDup (nd_key <$> pre ++ nd :: post) ->
  next_in_chain (nd_key nd) (pre ++ nd :: post) = nd_key <$> head post.
Proof.
  clear dependent m. induction pre as [|x pre IH]; csimpl; intros Hnd.
  - by rewrite String.eqb_refl.
  - apply NoDup_cons in Hnd as [Hx Hnd]. rewrite (proj2 (String.eqb_neq _ _)); [by apply IH|].
    intros E. apply Hx. rewrite E, fmap_app. set_solver.
Qed.

Lemma bucket_nodup i b : buckets m !! i = Some b -> NoDup (nd_key <$> b).
Proof using Hwf.
  intros Hi. pose proof (wf_nodup _ Hwf) as Hnd.
  rewrite <-(take_drop_middle _ _ _ Hi), concat_app, fmap_app in Hnd. csimpl in Hnd.
  rewrite fmap_app in Hnd. by apply NoDup_app in Hnd as (_ & _ & (? & _ & _)%NoDup_app).
Qed.

Lemma next_spec it rest : iter_rest it rest -> next_ok (edgex_map_next m it) rest.
Proof using Hwf.
  pose proof length_buckets_bound. destruct it as [idx [k|]]; unfold iter_rest; simpl.
  - intros (i & pre & nd & post & -> & Hi & <- & ->).
    pose proof (lookup_lt_Some _ _ _ Hi). unfold edgex_map_next. cbn [it_node bucketidx].
    rewrite Nat2Z.id, Hi. change (default [] (Some ?x)) with x.
    rewrite next_in_chain_spec by (by eapply bucket_nodup).
    destruct post as [|nd' post].
    + apply next_bucket_spec; [rewrite wrap_u_small|]; lia.
    + split; [done|]. exists i, (pre ++ [nd]), nd', post.
      by rewrite <-app_assoc.
  - intros (i & Hi & ->). apply next_bucket_spec; [done|lia].
Qed.

Lemma keys_from_spec fuel it rest :
  iter_rest it rest -> (length rest < fuel)%nat -> keys_from fuel m it = nd_key <$> rest.
Proof using Hwf.
  revert it rest. induction fuel as [|f IH]; intros it rest Hit Hf; [lia|].
  apply next_spec in Hit. simpl. destruct (edgex_map_next m it) as [o it'].
  destruct rest as [|nd rest]; simpl in *; [by subst|].
  destruct Hit as [-> Hit]. csimpl. f_equal. apply IH; [done|lia].
Qed.

Lemma keys_spec : edgex_map_keys m = nd_key <$> concat (buckets m).
Proof using Hwf.
  apply keys_from_spec.
  - exists 0%nat. by rewrite drop_0.
  - rewrite (wf_count _ Hwf), Nat2Z.id. lia.
Qed.
End Iteration.

(** ** The promise to the clients

    The rest of the SDK uses the map through this interface: an abstraction
    function to [gmap], and operations that refine lookup, insertion, deletion
    and enumeration. Insertion is promised up to [sm_limit] entries. *)

Class StringMap (M : Type -> Type) := {
  sm_empty : forall {V}, M V;
  sm_get : forall {V}, M V -> string -> option V;
  sm_set : forall {V}, M V -> string -> V -> M V;
  sm_remove : forall {V}, M V -> string -> M V;
  sm_keys : forall {V}, M V -> list string;
  sm_wf : forall {V}, M V -> Prop;
  sm_abs : forall {V}, M V -> gmap string V;
  sm_limit : Z;
  sm_empty_ok : forall V, sm_wf (sm_empty : M V) /\ sm_abs (sm_empty : M V) = ∅;
  sm_get_ok : forall V (m : M V) k, sm_wf m -> sm_get m k = sm_abs m !! k;
  sm_set_ok : forall V (m : M V) k v, sm_wf m -> Z.of_nat (size (sm_abs m)) < sm_limit ->
    sm_wf (sm_set m k v) /\ sm_abs (sm_set m k v) = <[k := v]> (sm_abs m);
  sm_remove_ok : forall V (m : M V) k, sm_wf m ->
    sm_wf (sm_remove m k) /\ sm_abs (sm_remove m k) = delete k (sm_abs m);
  sm_keys_ok : forall V (m : M V), sm_wf m -> sm_keys m ≡ₚ (map_to_list (sm_abs m)).*1
}.

Section Promise.
Context {V : Type}.
Implicit Types (m : edgex_map_base V).

(** [edgex_map_set] as the SDK calls it: memory is available and the return
    value is ignored. *)
Definition edgex_map_set m (key : string) (value : V) : edgex_map_base V :=
  snd (edgex_map_set_ big_memory m key value 8).

Lemma nodes_map_to_list m :
  map_wf m -> nd_key <$> concat (buckets m) ≡ₚ (map_to_list (to_gmap m)).*1.
Proof.
  intros Hwf. rewrite <-node_pair_keys. apply fmap_Permutation. unfold to_gmap.
  rewrite map_to_list_to_map; [done|]. rewrite node_pair_keys. apply Hwf.
Qed.

Lemma nnodes_size m : map_wf m -> nnodes m = Z.of_nat (size (to_gmap m)).
Proof.
  intros Hwf. rewrite (wf_count _ Hwf). f_equal.
  rewrite <-length_map_to_list, <-(length_fmap fst (map_to_list _)), <-nodes_map_to_list by done.
  by rewrite length_fmap.
Qed.

Lemma set_succeeds mem m k v vsize :
  map_wf m -> (forall n, malloc_ok mem n = true) -> (forall n, realloc_ok mem n = true) ->
  nnodes m < 2 ^ 30 -> fst (edgex_map_set_ mem m k v vsize) = 0.
Proof.
  intros Hwf Hmal Hre Hlt. unfold edgex_map_set_.
  destruct (edgex_map_getref m k) as [[i j]|]; [done|].
  unfold edgex_map_newnode. rewrite Hmal. fold (grown m).
  destruct (nbuckets m <=? nnodes m) eqn:Efull; bool_to_prop; [|done].
  unfold edgex_map_resize. rewrite Hre. pose proof (nbuckets_bound m Hwf).
  assert (0 <= grown m < 2 ^ 32) as Hg.
  { unfold grown. destruct (0 <? nbuckets m); [|lia].
    rewrite Z.shiftl_mul_pow2, (wrap_u_small 32), wrap_s_small; lia. }
  rewrite (wrap_u_small 64 (grown m)), (wrap_u_small 64 (8 * grown m)) by lia.
  unfold PTRDIFF_MAX.
  rewrite (proj2 (Z.leb_le _ _)) by lia. done.
Qed.

Lemma set_big_spec m k v :
  map_wf m -> Z.of_nat (size (to_gmap m)) < 2 ^ 30 ->
  map_wf (edgex_map_set m k v) /\ to_gmap (edgex_map_set m k v) = <[k := v]> (to_gmap m).
Proof.
  intros Hwf Hlt. rewrite <-nnodes_size in Hlt by done.
  pose proof (set_succeeds big_memory m k v 8 Hwf ltac:(done) ltac:(done) Hlt) as Hret.
  pose proof (set_spec big_memory m k v 8 Hwf) as Hset. unfold edgex_map_set.
  destruct (edgex_map_set_ big_memory m k v 8) as [ret m']. simpl in *.
  destruct Hset as [? [[? ?]|[? ?]]]; [done|congruence].
Qed.
End Promise.

#[export] Instance edgex_StringMap : StringMap edgex_map_base.
Proof.
  refine {| sm_empty V := edgex_map_init; sm_get V := edgex_map_get; sm_set V := edgex_map_set;
            sm_remove V := edgex_map_remove; sm_keys V := edgex_map_keys;
            sm_wf V := map_wf; sm_abs V := to_gmap; sm_limit := 2 ^ 30 |}.
  - intros V. split; [apply init_wf|apply init_empty].
  - intros V m k. apply get_refines.
  - intros V m k v. apply set_big_spec.
  - intros V m k. apply remove_spec.
  - intros V m Hwf. rewrite (keys_spec m Hwf). by apply nodes_map_to_list.
Defined.

(** ** Runs of operations *)

Inductive map_op (V : Type) :=
| OpSet (mem : allocator) (key : string) (value : V) (vsize : Z)
| OpRemove (key : string).
Arguments OpSet {V} _ _ _ _.
Arguments OpRemove {V} _.

(** One call, on the table and on the finite map it stands for: a call of
    [edgex_map_set_] that reports failure changes nothing there. *)
Definition run_op {V} (st : edgex_map_base V * gmap string V) (op : map_op V) :
    edgex_map_base V * gmap string V :=
  let '(m, g) := st in
  match op with
  | OpSet mem k v vsize =>
      let '(ret, m') := edgex_map_set_ mem m k v vsize in
      (m', if ret =? 0 then <[k := v]> g else g)
  | OpRemove k => (edgex_map_remove m k, delete k g)
  end.

Definition run_ops {V} (ops : list (map_op V)) : edgex_map_base V * gmap string V :=
  fold_left run_op ops (edgex_map_init, ∅).

Lemma run_op_refines {V} (m : edgex_map_base V) (op : map_op V) :
  map_wf m -> let '(m', g') := run_op (m, to_gmap m) op in map_wf m' /\ to_gmap m' = g'.
Proof.
  intros Hwf. destruct op as [mem k v vsize|k]; simpl.
  - pose proof (set_spec mem m k v vsize Hwf) as H.
    destruct (edgex_map_set_ mem m k v vsize) as [ret m'].
    destruct H as [Hwf' [[-> Hm]|[-> Hm]]]; done.
  - by apply remove_spec.
Qed.

Lemma run_ops_refine {V} (ops : list (map_op V)) (m : edgex_map_base V) :
  map_wf m -> let '(m', g') := fold_left run_op ops (m, to_gmap m) in map_wf m' /\ to_gmap m' = g'.
Proof.
  revert m. induction ops as [|op ops IH]; intros m Hwf; [done|]. cbn [fold_left].
  pose proof (run_op_refines m op Hwf) as Hop. destruct (run_op (m, to_gmap m) op) as [m' g'].
  destruct Hop as [Hwf' <-]. by apply IH.
Qed.

(** C24. The hash map implements a finite map: after any sequence of sets and
    removals, with any outcome of the allocations in them, every lookup returns
    what the finite map holds, a loop over the iterator visits every key exactly
    once, the node count is the number of entries and the table is well formed
    (every node in the bucket of its hash, at most one node per bucket on
    average); a set that reports failure has changed no entry. *)
Theorem map_runs_refine_gmap {V} (ops : list (map_op V)) :
  let '(m, g) := run_ops ops in
  map_wf m /\ (forall k, edgex_map_get m k = g !! k) /\
  edgex_map_keys m ≡ₚ (map_to_list g).*1 /\ nnodes m = Z.of_nat (size g) /\
  nnodes m <= nbuckets m.
Proof.
  pose proof (run_ops_refine ops edgex_map_init init_wf) as H.
  rewrite init_empty in H. fold (run_ops ops) in H.
  destruct (run_ops ops) as [m g]. destruct H as [Hwf <-]. split_and!; [done|..].
  - intros k. by apply get_refines.
  - rewrite (keys_spec m Hwf). by apply nodes_map_to_list.
  - by apply nnodes_size.
  - apply Hwf.
Qed.

(** A set succeeds whenever the allocator grants its requests and the map
    holds fewer than 2^30 entries: it returns 0 and the entry is the one set,
    the others as before. *)
Theorem map_set_succeeds {V} mem (m : edgex_map_base V) k v vsize :
  map_wf m -> (forall n, malloc_ok mem n = true) -> (forall n, realloc_ok mem n = true) ->
  nnodes m < 2 ^ 30 ->
  fst (edgex_map_set_ mem m k v vsize) = 0 /\
  forall k', edgex_map_get (snd (edgex_map_set_ mem m k v vsize)) k'
             = if String.eqb k k' then Some v else edgex_map_get m k'.
Proof.
  intros Hwf Hmal Hre Hlt. pose proof (set_succeeds mem m k v vsize Hwf Hmal Hre Hlt) as Hret.
  split; [done|]. intros k'. pose proof (set_spec mem m k v vsize Hwf) as Hset.
  destruct (edgex_map_set_ mem m k v vsize) as [ret m']. simpl in *.
  destruct Hset as [Hwf' [[_ Hm]|[? ?]]]; [|congruence].
  rewrite !get_refines, Hm by done. destruct (String.eqb k k') eqn:E; bool_to_prop.
  - subst. apply lookup_insert_eq.
  - by rewrite lookup_insert_ne.
Qed.

Lemma map_set_succeeds_witness :
  fst (edgex_map_set_ big_memory edgex_map_init "Device01" 7 8) = 0.
Proof. apply (map_set_succeeds big_memory edgex_map_init "Device01" 7 8); try done. apply init_wf. Defined.
