(* ===== verification/CFloat.v ===== *)
(** * Floating point numbers of C

    IEEE 754 numbers as Rocq's executable [spec_float]: [float] is (24, 128),
    [double] (53, 1024) and the x86 [long double] (64, 16384). [strtod], the
    conversions between formats and the [printf] directives the SDK uses are
    defined on exact rationals and rounded once, as glibc does. *)

From S2P Require Import Prelude CLib.
From Stdlib Require Import Ascii.
From Stdlib Require Export SpecFloat.
Local Open Scope Z_scope.

(** ** Rounding *)

(** The number of format [(prec, emax)] nearest to [num / den], ties to even. *)
Definition of_ratio (prec emax : Z) (neg : bool) (num den : Z) : spec_float :=
  match num, den with
  | Zpos n, Zpos d =>
      let '(mz, ez, lz) := SFdiv_core_binary prec emax (Zpos n) 0 (Zpos d) 0 in
      binary_round_aux prec emax neg mz ez lz
  | _, _ => S754_zero neg
  end.

(** Conversion to format [(prec, emax)]. *)
Definition round_to (prec emax : Z) (x : spec_float) : spec_float :=
  match x with
  | S754_finite s m e => binary_round prec emax s m e
  | _ => x
  end.

Definition to_f32 : spec_float -> spec_float := round_to 24 128.
Definition to_f64 : spec_float -> spec_float := round_to 53 1024.
Definition to_f80 : spec_float -> spec_float := round_to 64 16384.

(** An integer as a number of the format. *)
Definition of_int (prec emax : Z) (n : Z) : spec_float :=
  of_ratio prec emax (n <? 0) (Z.abs n) 1.

Definition is_finite (x : spec_float) : bool :=
  match x with S754_finite _ _ _ | S754_zero _ => true | _ => false end.

(** The magnitude of a finite number as a ratio. *)
Definition magnitude (m : positive) (e : Z) : Z * Z :=
  if 0 <=? e then (Zpos m * 2 ^ e, 1) else (Zpos m, 2 ^ (- e)).

(** ** Interchange encoding *)

Definition emin_of (prec emax : Z) : Z := 3 - emax - prec.

(** The bits of a number of the format; a NaN is the quiet one. *)
Definition bits_of (prec emax : Z) (x : spec_float) : Z :=
  let mw := prec - 1 in
  let ew := Z.log2 emax + 1 in
  let signed (s : bool) b := if s then b + 2 ^ (mw + ew) else b in
  match x with
  | S754_zero s => signed s 0
  | S754_infinity s => signed s ((2 ^ ew - 1) * 2 ^ mw)
  | S754_nan => (2 ^ ew - 1) * 2 ^ mw + 2 ^ (mw - 1)
  | S754_finite s m e =>
      signed s (if Zpos m <? 2 ^ mw then Zpos m
                else (e - emin_of prec emax + 1) * 2 ^ mw + (Zpos m - 2 ^ mw))
  end.

Definition of_bits (prec emax : Z) (b : Z) : spec_float :=
  let mw := prec - 1 in
  let ew := Z.log2 emax + 1 in
  let s := Z.testbit b (mw + ew) in
  let m := b mod 2 ^ mw in
  let ex := (b / 2 ^ mw) mod 2 ^ ew in
  let fin m e := match m with Zpos p => S754_finite s p e | _ => S754_zero s end in
  if ex =? 2 ^ ew - 1 then (if m =? 0 then S754_infinity s else S754_nan)
  else if ex =? 0 then fin m (emin_of prec emax)
  else fin (m + 2 ^ mw) (ex - 1 + emin_of prec emax).

(** ** Reading *)

Record strtod_result := { sd_val : spec_float; sd_end : string; sd_erange : bool }.

(** [errno = ERANGE] for the value [num / den]: it is so large that it rounds to
    infinity, or it is below the least normal number after rounding to the
    precision, and is not a subnormal number. *)
Definition range_error (prec emax num den : Z) : bool :=
  ((2 ^ (prec + 1) - 1) * 2 ^ (emax - prec - 1) * den <=? num)
  || (negb (num =? 0)
      && (num * 2 ^ (emax + prec) <? den * (2 ^ (prec + 2) - 2))
      && negb ((num * 2 ^ (emax + prec - 3)) mod den =? 0)).

(** The optional exponent part: a letter, an optional sign and digits. Without
    digits nothing is consumed. *)
Definition read_exponent (letter : Z) (s : string) : Z * string :=
  match s with
  | String c s' =>
      if uchar (tolower c) =? letter then
        let '(neg, s1) := read_sign s' in
        let '(v, n, rest) := read_digits 10 0 0 s1 in
        if Nat.eqb n 0 then (0, s) else (if neg then - v else v, rest)
      else (0, s)
  | EmptyString => (0, s)
  end.

(** Digits with an optional fraction: the digits as one integer, how many came
    after the point, how many in all, the rest. *)
Definition read_mantissa (base : Z) (s : string) : Z * nat * nat * string :=
  let '(v, n, rest) := read_digits base 0 0 s in
  match rest with
  | String "." rest' =>
      let '(v2, n2, rest2) := read_digits base v 0 rest' in
      if Nat.eqb (n + n2) 0 then (v, 0%nat, n, rest) else (v2, n2, (n + n2)%nat, rest2)
  | _ => (v, 0%nat, n, rest)
  end.

Definition finish (prec emax : Z) (neg : bool) (num den : Z) (rest : string) : strtod_result :=
  {| sd_val := of_ratio prec emax neg num den; sd_end := rest;
     sd_erange := range_error prec emax num den |}.

Fixpoint strip_nocase (p s : string) : option string :=
  match p, s with
  | EmptyString, _ => Some s
  | String a p', String b s' =>
      if Ascii.eqb (tolower a) (tolower b) then strip_nocase p' s' else None
  | String _ _, EmptyString => None
  end.

Fixpoint nan_tail (s : string) : option string :=
  match s with
  | String ")" rest => Some rest
  | String c s' =>
      if isdigit c || islower c || isupper c || Ascii.eqb c "_" then nan_tail s' else None
  | EmptyString => None
  end.

(** The decimal form. [None]: no conversion. *)
Definition read_decimal (prec emax : Z) (neg : bool) (s : string) : option strtod_result :=
  let '(v, nfrac, n, rest) := read_mantissa 10 s in
  if Nat.eqb n 0 then None
  else
    let '(ex, rest) := read_exponent 101 rest in
    let ex := ex - Z.of_nat nfrac in
    Some (finish prec emax neg (v * 10 ^ Z.max 0 ex) (10 ^ Z.max 0 (- ex)) rest).

(** The hexadecimal form, after its [0x]. *)
Definition read_hex (prec emax : Z) (neg : bool) (s : string) : option strtod_result :=
  let '(v, nfrac, n, rest) := read_mantissa 16 s in
  if Nat.eqb n 0 then None
  else
    let '(ex, rest) := read_exponent 112 rest in
    let ex := ex - 4 * Z.of_nat nfrac in
    Some (finish prec emax neg (v * 2 ^ Z.max 0 ex) (2 ^ Z.max 0 (- ex)) rest).

Definition strtofp (prec emax : Z) (s : string) : strtod_result :=
  let none := {| sd_val := S754_zero false; sd_end := s; sd_erange := false |} in
  let '(neg, s1) := read_sign (skip_space s) in
  match strip_nocase "inf" s1 with
  | Some r =>
      {| sd_val := S754_infinity neg; sd_end := default r (strip_nocase "inity" r); sd_erange := false |}
  | None =>
  match strip_nocase "nan" s1 with
  | Some r =>
      let r' := match r with
                | String "(" t => default r (nan_tail t)
                | _ => r
                end in
      {| sd_val := S754_nan; sd_end := r'; sd_erange := false |}
  | None =>
  match (match strip_nocase "0x" s1 with Some r => read_hex prec emax neg r | None => None end) with
  | Some res => res
  | None => default none (read_decimal prec emax neg s1)
  end end end.

Definition strtod : string -> strtod_result := strtofp 53 1024.
Definition strtof : string -> strtod_result := strtofp 24 128.

(** [sscanf] with [%e] and [%le]: a conversion that consumed text. *)
Definition sscanf_e (prec emax : Z) (s : string) : option spec_float :=
  let r := strtofp prec emax s in
  if String.eqb (sd_end r) s then None else Some (sd_val r).

(** ** Writing *)

(** Division rounded to nearest, ties to even. *)
Definition rdiv (n d : Z) : Z :=
  let q := n / d in
  let r := n mod d in
  if 2 * r <? d then q else if d <? 2 * r then q + 1 else if Z.even q then q else q + 1.

Definition ndigits (n : Z) : Z := Z.of_nat (String.length (print_u n)).

(** The decimal exponent of [num / den > 0]. *)
Definition dec_exponent (num den : Z) : Z :=
  if den <=? num then ndigits (num / den) - 1 else - ndigits ((den - 1) / num).

(** The [p + 1] significant digits of [num / den] and the exponent of the first. *)
Definition sci_digits (p num den : Z) : Z * Z :=
  let k := dec_exponent num den in
  let d := rdiv (num * 10 ^ Z.max 0 (p - k)) (den * 10 ^ Z.max 0 (k - p)) in
  if 10 ^ (p + 1) <=? d then (d / 10, k + 1) else (d, k).

Fixpoint zeros (n : nat) : string :=
  match n with O => EmptyString | S n' => String "0" (zeros n') end.

(** [n] in at least [w] digits. *)
Definition print_pad (w n : Z) : string :=
  let t := print_u n in zeros (Z.to_nat (w - Z.of_nat (String.length t))) +:+ t.

Definition print_exp (k : Z) : string :=
  String "e" (String (if Z.ltb k 0 then "-" else "+")%char (print_pad 2 (Z.abs k))).

(** The digits with a point after the first. *)
Definition point_after_first (t : string) : string :=
  match t with
  | String c (String c2 t') => String c (String "." (String c2 t'))
  | _ => t
  end.

Definition sign_text (neg : bool) (t : string) : string := if neg then String "-" t else t.

(** [printf ("%.<p>e")], [p > 0] *)
Definition print_e (p : Z) (x : spec_float) : string :=
  match x with
  | S754_nan => "nan"
  | S754_infinity s => sign_text s "inf"
  | S754_zero s => sign_text s (point_after_first (zeros (Z.to_nat (p + 1))) +:+ print_exp 0)
  | S754_finite s m e =>
      let '(num, den) := magnitude m e in
      let '(d, k) := sci_digits p num den in
      sign_text s (point_after_first (print_pad (p + 1) d) +:+ print_exp k)
  end.

(** [printf ("%f")] *)
Definition print_f (x : spec_float) : string :=
  let fixed d := print_u (d / 10 ^ 6) +:+ String "." (print_pad 6 (d mod 10 ^ 6)) in
  match x with
  | S754_nan => "nan"
  | S754_infinity s => sign_text s "inf"
  | S754_zero s => sign_text s (fixed 0)
  | S754_finite s m e =>
      let '(num, den) := magnitude m e in sign_text s (fixed (rdiv (num * 10 ^ 6) den))
  end.

Fixpoint strip_zeros (fuel : nat) (d : Z) (n : Z) : Z * Z :=
  match fuel with
  | O => (d, n)
  | S f => if (d mod 10 =? 0) && (1 <? n) then strip_zeros f (d / 10) (n - 1) else (d, n)
  end.

(** [printf ("%1.17g")]: 17 significant digits without trailing zeros, in the
    fixed form when the exponent is in [-4, 17). *)
Definition print_g17 (x : spec_float) : string :=
  match x with
  | S754_nan => "nan"
  | S754_infinity s => sign_text s "inf"
  | S754_zero s => sign_text s "0"
  | S754_finite s m e =>
      let '(num, den) := magnitude m e in
      let '(d, k) := sci_digits 16 num den in
      let '(d, n) := strip_zeros 17 d 17 in
      sign_text s
        (if (-4 <=? k) && (k <? 17) then
           if k <? 0 then "0." +:+ zeros (Z.to_nat (- k - 1)) +:+ print_pad n d
           else if n <=? k + 1 then print_u (d * 10 ^ (k + 1 - n))
           else let f := 10 ^ (n - k - 1) in
                print_u (d / f) +:+ String "." (print_pad (n - k - 1) (d mod f))
         else point_after_first (print_pad n d) +:+ print_exp k)
  end.

(** Checks against values computed with glibc. *)
Example strtod_tenth : sd_val (strtod "0.1") = S754_finite false 7205759403792794 (-56).
Proof. vm_compute. reflexivity. Qed.

Example bits_samples :
  map (fun s => bits_of 53 1024 (sd_val (strtod s))) ["1"; "-2.5"; "5e-324"; "inf"]
  = [0x3FF0000000000000; 0xC004000000000000; 1; 0x7FF0000000000000] /\
  of_bits 53 1024 0xC004000000000000 = sd_val (strtod "-2.5").
Proof. vm_compute. split; reflexivity. Qed.

Example print_tenth : print_e 16 (sd_val (strtod "0.1")) = "1.0000000000000001e-01".
Proof. vm_compute. reflexivity. Qed.

Example print_g17_samples :
  map (fun s => print_g17 (sd_val (strtod s))) ["0.1"; "-2.5"; "1e21"; "123456"; "1e-5"; "0.001"]
  = ["0.10000000000000001"; "-2.5"; "1e+21"; "123456"; "1.0000000000000001e-05"; "0.001"].
Proof. vm_compute. reflexivity. Qed.

Example strtod_range :
  map (fun s => sd_erange (strtod s)) ["1e308"; "1.797693134862315708e308"; "1.797693134862315808e308"; "1e-320"; "0x1p-1074"; "2.2250738585072014e-308"; "0"]
  = [false; false; true; true; false; false; false].
Proof. vm_compute. reflexivity. Qed.

(** ** How much text is consumed *)

Lemma read_digits_length base a n s :
  (String.length (snd (read_digits base a n s)) <= String.length s)%nat.
Proof.
  revert a n. induction s as [|c s IH]; intros a n; [done|]. cbn [read_digits].
  destruct (digit_value base c); [|done]. etransitivity; [apply IH|]. simpl. lia.
Qed.

Lemma read_sign_length s : (String.length (snd (read_sign s)) <= String.length s)%nat.
Proof.
  destruct s as [|c s]; [done|]. cbn [read_sign].
  destruct (Ascii.eqb c "-"), (Ascii.eqb c "+"); simpl; lia.
Qed.

Lemma skip_space_length s : (String.length (skip_space s) <= String.length s)%nat.
Proof.
  induction s as [|c s IH]; [done|]. cbn [skip_space]. destruct (isspace c); simpl in *; lia.
Qed.

Lemma strip_nocase_length p s r :
  strip_nocase p s = Some r -> (String.length r <= String.length s)%nat.
Proof.
  revert s. induction p as [|a p IH]; intros [|b s]; cbn [strip_nocase];
    try (intros [= <-]; simpl; lia); try done.
  destruct (Ascii.eqb _ _); [|done]. intros ?%IH. simpl. lia.
Qed.

Lemma nan_tail_length s r : nan_tail s = Some r -> (String.length r <= String.length s)%nat.
Proof.
  induction s as [|c s IH]; [done|].
  intros H. assert (r = s \/ nan_tail s = Some r) as [->|H'].
  { destruct c as [[] [] [] [] [] [] [] []]; cbn in H;
      repeat match type of H with (if ?b then _ else _) = _ => destruct b end; naive_solver. }
  - simpl. lia.
  - apply IH in H'. simpl. lia.
Qed.

Lemma read_exponent_length l s :
  (String.length (snd (read_exponent l s)) <= String.length s)%nat.
Proof.
  destruct s as [|c s]; [done|]. cbn [read_exponent]. destruct (_ =? l); [|done].
  pose proof (read_sign_length s). destruct (read_sign s) as [neg s1].
  pose proof (read_digits_length 10 0 0 s1). destruct (read_digits 10 0 0 s1) as [[v n] rest].
  destruct (Nat.eqb n 0); simpl in *; lia.
Qed.

Lemma read_mantissa_length base s :
  (String.length (snd (read_mantissa base s)) <= String.length s)%nat.
Proof.
  unfold read_mantissa. pose proof (read_digits_length base 0 0 s) as H.
  destruct (read_digits base 0 0 s) as [[v n] rest]. cbn [snd] in H.
  destruct rest as [|c rest]; [done|].
  assert (String.length (snd (let '(v2, n2, rest2) := read_digits base v 0 rest in
            if Nat.eqb (n + n2) 0 then (v, 0%nat, n, String c rest) else (v2, n2, (n + n2)%nat, rest2)))
          <= String.length s)%nat.
  { pose proof (read_digits_length base v 0 rest).
    destruct (read_digits base v 0 rest) as [[v2 n2] rest2].
    destruct (Nat.eqb (n + n2) 0); simpl in *; lia. }
  destruct c as [[] [] [] [] [] [] [] []]; done.
Qed.

Lemma read_decimal_length prec emax neg s r :
  read_decimal prec emax neg s = Some r -> (String.length (sd_end r) <= String.length s)%nat.
Proof.
  unfold read_decimal. pose proof (read_mantissa_length 10 s).
  destruct (read_mantissa 10 s) as [[[v nf] n] rest]. destruct (Nat.eqb n 0); [done|].
  pose proof (read_exponent_length 101 rest). destruct (read_exponent 101 rest) as [ex rest'].
  intros [= <-]. cbn [finish sd_end snd] in *. lia.
Qed.

Lemma read_hex_length prec emax neg s r :
  read_hex prec emax neg s = Some r -> (String.length (sd_end r) <= String.length s)%nat.
Proof.
  unfold read_hex. pose proof (read_mantissa_length 16 s).
  destruct (read_mantissa 16 s) as [[[v nf] n] rest]. destruct (Nat.eqb n 0); [done|].
  pose proof (read_exponent_length 112 rest). destruct (read_exponent 112 rest) as [ex rest'].
  intros [= <-]. cbn [finish sd_end snd] in *. lia.
Qed.

Lemma strtofp_length prec emax s :
  (String.length (sd_end (strtofp prec emax s)) <= String.length s)%nat.
Proof.
  unfold strtofp. pose proof (skip_space_length s). pose proof (read_sign_length (skip_space s)).
  destruct (read_sign (skip_space s)) as [neg s1]. cbn [snd] in *.
  destruct (strip_nocase "inf" s1) as [r|] eqn:Einf; cbn [sd_end].
  { apply strip_nocase_length in Einf. destruct (strip_nocase "inity" r) as [r'|] eqn:E; simpl.
    - apply strip_nocase_length in E. lia.
    - lia. }
  destruct (strip_nocase "nan" s1) as [r|] eqn:Enan; cbn [sd_end].
  { apply strip_nocase_length in Enan. etransitivity; [|etransitivity; [exact Enan|lia]].
    destruct r as [|c r]; [done|].
    assert (String.length (default (String c r) (nan_tail r)) <= String.length (String c r))%nat.
    { destruct (nan_tail r) eqn:E; [apply nan_tail_length in E; simpl; lia|done]. }
    destruct c as [[] [] [] [] [] [] [] []]; done. }
  assert (String.length (sd_end (default {| sd_val := S754_zero false; sd_end := s; sd_erange := false |}
            (read_decimal prec emax neg s1))) <= String.length s)%nat as Hdec.
  { destruct (read_decimal prec emax neg s1) as [r|] eqn:E; simpl; [|done].
    apply read_decimal_length in E. lia. }
  destruct (strip_nocase "0x" s1) as [r|] eqn:Ex; [|exact Hdec].
  destruct (read_hex prec emax neg r) as [res|] eqn:E; [|exact Hdec].
  apply read_hex_length in E. apply strip_nocase_length in Ex. lia.
Qed.

(** ** How long the output is *)

(** Numbers of the format. *)
Definition fp_ok (prec emax : Z) (x : spec_float) : Prop :=
  match x with
  | S754_finite _ m e => Zpos m < 2 ^ prec /\ emin_of prec emax <= e <= emax - prec
  | _ => True
  end.

Lemma magnitude_pos m e : 0 < fst (magnitude m e) /\ 0 < snd (magnitude m e).
Proof.
  unfold magnitude. destruct (0 <=? e) eqn:E; bool_to_prop; cbn [fst snd]; split;
    first [apply Z.mul_pos_pos; [lia|] | idtac]; first [apply Z.pow_pos_nonneg; lia | lia].
Qed.

Lemma ndigits_upper n : 0 <= n -> n < 10 ^ ndigits n.
Proof. intros Hn. by apply print_u_bound. Qed.

Lemma ndigits_lower n : 0 < n -> 10 ^ (ndigits n - 1) <= n.
Proof. intros Hn. by apply print_u_lower. Qed.

Lemma ndigits_pos n : 0 <= n -> 1 <= ndigits n.
Proof.
  intros Hn. unfold ndigits. destruct (print_u_head n Hn) as (d & s & -> & _). simpl. lia.
Qed.

Lemma ndigits_le n k : 0 <= n < 10 ^ k -> 1 <= k -> ndigits n <= k.
Proof.
  intros Hn Hk. unfold ndigits. pose proof (print_u_length n (Z.to_nat (k - 1))) as H.
  replace (Z.of_nat (S (Z.to_nat (k - 1)))) with k in H by lia. specialize (H Hn). lia.
Qed.

(** [num / den] is below [10 ^ (k + 1)] for its decimal exponent [k]. *)
Lemma dec_exponent_upper num den p :
  0 < num -> 0 < den -> 0 <= p ->
  let k := dec_exponent num den in
  num * 10 ^ Z.max 0 (p - k) < 10 ^ (p + 1) * (den * 10 ^ Z.max 0 (k - p)).
Proof.
  intros Hn Hd Hp. unfold dec_exponent. destruct (den <=? num) eqn:E; bool_to_prop; cbn zeta.
  - set (q := num / den). pose proof (Z.div_le_lower_bound num den 1 Hd ltac:(lia)) as Hq1. fold q in Hq1.
    pose proof (ndigits_upper q ltac:(lia)) as Hu. pose proof (ndigits_pos q ltac:(lia)) as Hp1.
    pose proof (Z.mul_succ_div_gt num den Hd) as Hlt. fold q in Hlt.
    set (k := ndigits q - 1) in *. replace (ndigits q) with (k + 1) in Hu by lia.
    assert (num < den * 10 ^ (k + 1)) as Hb by nia.
    assert (0 < 10 ^ Z.max 0 (p - k)) by (apply Z.pow_pos_nonneg; lia).
    replace (10 ^ (p + 1) * (den * 10 ^ Z.max 0 (k - p)))
      with (den * (10 ^ (p + 1) * 10 ^ Z.max 0 (k - p))) by lia.
    rewrite <-Z.pow_add_r by lia.
    replace (p + 1 + Z.max 0 (k - p)) with (k + 1 + Z.max 0 (p - k)) by lia.
    rewrite Z.pow_add_r by lia. nia.
  - set (t := (den - 1) / num).
    assert (1 <= t) as Ht by (apply Z.div_le_lower_bound; lia).
    pose proof (ndigits_lower t ltac:(lia)) as Hl. pose proof (ndigits_pos t ltac:(lia)) as Hj.
    set (j := ndigits t) in *. pose proof (Z.mul_div_le (den - 1) num Hn) as Hm. fold t in Hm.
    assert (num * 10 ^ (j - 1) < den) as Hb by nia.
    rewrite (Z.max_r 0 (p - - j)), (Z.max_l 0 (- j - p)) by lia. rewrite Z.pow_0_r, Z.mul_1_r.
    replace (p - - j) with (j - 1 + (p + 1)) by lia. rewrite Z.pow_add_r by lia.
    assert (0 < 10 ^ (p + 1)) by (apply Z.pow_pos_nonneg; lia). nia.
Qed.

Lemma rdiv_bound n d b : 0 <= n -> 0 < d -> n < b * d -> 0 <= rdiv n d <= b.
Proof.
  intros Hn Hd Hb. unfold rdiv. pose proof (Z.div_pos n d Hn Hd).
  assert (n / d < b) by (apply Z.div_lt_upper_bound; lia).
  repeat case_match; lia.
Qed.

(** The digits fit, and the exponent is that of the number or one more. *)
Lemma sci_digits_bound p num den :
  0 < num -> 0 < den -> 0 <= p ->
  let k := dec_exponent num den in
  0 <= fst (sci_digits p num den) < 10 ^ (p + 1) /\
  (snd (sci_digits p num den) = k \/ snd (sci_digits p num den) = k + 1).
Proof.
  intros Hn Hd Hp. cbn zeta. unfold sci_digits.
  pose proof (dec_exponent_upper num den p Hn Hd Hp) as Hu. cbn zeta in Hu.
  set (k := dec_exponent num den) in *.
  assert (0 < 10 ^ Z.max 0 (k - p)) by (apply Z.pow_pos_nonneg; lia).
  assert (0 < 10 ^ Z.max 0 (p - k)) by (apply Z.pow_pos_nonneg; lia).
  pose proof (rdiv_bound (num * 10 ^ Z.max 0 (p - k)) (den * 10 ^ Z.max 0 (k - p)) (10 ^ (p + 1))
    ltac:(nia) ltac:(nia) Hu) as Hr.
  set (d := rdiv _ _) in *. assert (0 < 10 ^ (p + 1)) by (apply Z.pow_pos_nonneg; lia).
  destruct (10 ^ (p + 1) <=? d) eqn:E; bool_to_prop; cbn [fst snd]; (split; [|by auto]); [|lia].
  split; [apply Z.div_pos; lia|]. apply Z.div_lt_upper_bound; lia.
Qed.

Lemma zeros_length n : String.length (zeros n) = n.
Proof. induction n as [|n IH]; [done|]. simpl. by rewrite IH. Qed.

Lemma print_pad_length w n :
  0 <= n < 10 ^ w -> 1 <= w -> Z.of_nat (String.length (print_pad w n)) = w.
Proof.
  intros Hn Hw. unfold print_pad. rewrite length_append, zeros_length.
  pose proof (ndigits_le n w Hn Hw). unfold ndigits in *. lia.
Qed.

Lemma point_length t : (String.length (point_after_first t) <= S (String.length t))%nat.
Proof. destruct t as [|a [|b t]]; simpl; lia. Qed.

Lemma print_exp_length k : Z.abs k < 1000 -> (String.length (print_exp k) <= 5)%nat.
Proof.
  intros Hk. unfold print_exp, print_pad. cbn [String.length]. rewrite length_append, zeros_length.
  pose proof (print_u_length (Z.abs k) 2 ltac:(change (10 ^ Z.of_nat 3) with 1000; lia)). lia.
Qed.

(** A bound on the decimal exponent from one on the number. *)
Lemma dec_exponent_range num den :
  0 < num < 10 ^ 400 -> 0 < den < 10 ^ 400 -> Z.abs (dec_exponent num den) <= 400.
Proof.
  intros Hn Hd. unfold dec_exponent. destruct (den <=? num) eqn:E; bool_to_prop.
  - assert (1 <= num / den) by (apply Z.div_le_lower_bound; lia).
    assert (num / den < 10 ^ 400) by (apply Z.div_lt_upper_bound; nia).
    pose proof (ndigits_le (num / den) 400 ltac:(lia) ltac:(lia)).
    pose proof (ndigits_pos (num / den) ltac:(lia)). lia.
  - assert (0 <= (den - 1) / num) by (apply Z.div_pos; lia).
    assert ((den - 1) / num < 10 ^ 400) by (apply Z.div_lt_upper_bound; nia).
    pose proof (ndigits_le ((den - 1) / num) 400 ltac:(lia) ltac:(lia)).
    pose proof (ndigits_pos ((den - 1) / num) ltac:(lia)). lia.
Qed.

Lemma magnitude_range m e :
  fp_ok 53 1024 (S754_finite false m e) ->
  fst (magnitude m e) < 10 ^ 400 /\ snd (magnitude m e) < 10 ^ 400.
Proof.
  intros [Hm He]. change (emin_of 53 1024) with (-1074) in He. unfold magnitude.
  assert (2 ^ 53 * 2 ^ 971 < 10 ^ 400 /\ 2 ^ 1074 < 10 ^ 400) as [H1 H2] by (by vm_compute).
  destruct (0 <=? e) eqn:E; bool_to_prop; cbn [fst snd].
  - pose proof (Z.pow_le_mono_r 2 e 971 ltac:(lia) ltac:(lia)). split; [nia|lia].
  - pose proof (Z.pow_le_mono_r 2 (- e) 1074 ltac:(lia) ltac:(lia)). split; [nia|lia].
Qed.

Lemma sign_text_length s t : (String.length (sign_text s t) <= S (String.length t))%nat.
Proof. destruct s; simpl; lia. Qed.

(** A sign, the digits, the point and an exponent of at most three digits. *)
Lemma print_e_length p x :
  0 < p -> fp_ok 53 1024 x -> Z.of_nat (String.length (print_e p x)) <= p + 8.
Proof.
  intros Hp Hx. destruct x as [s|s| |s m e]; unfold print_e.
  - pose proof (sign_text_length s (point_after_first (zeros (Z.to_nat (p + 1))) +:+ print_exp 0)) as H.
    rewrite length_append in H. pose proof (point_length (zeros (Z.to_nat (p + 1)))) as H2.
    rewrite zeros_length in H2. pose proof (print_exp_length 0 ltac:(lia)). lia.
  - destruct s; simpl; lia.
  - simpl. lia.
  - assert (fp_ok 53 1024 (S754_finite false m e)) as Hx' by done.
    pose proof (magnitude_pos m e) as [Hn Hd]. pose proof (magnitude_range m e Hx') as [Hn' Hd'].
    destruct (magnitude m e) as [num den]. cbn [fst snd] in *.
    pose proof (sci_digits_bound p num den Hn Hd ltac:(lia)) as [Hdig Hk]. cbn zeta in Hk.
    pose proof (dec_exponent_range num den ltac:(lia) ltac:(lia)) as Hr.
    destruct (sci_digits p num den) as [d k]. cbn [fst snd] in *.
    pose proof (print_exp_length k ltac:(lia)) as He.
    pose proof (print_pad_length (p + 1) d Hdig ltac:(lia)) as Hl.
    pose proof (point_length (print_pad (p + 1) d)) as Hpt.
    pose proof (sign_text_length s (point_after_first (print_pad (p + 1) d) +:+ print_exp k)) as Hs.
    rewrite length_append in Hs. lia.
Qed.

(** Every bit pattern is a number of the format. *)
Lemma of_bits_ok prec emax b :
  1 < prec -> emin_of prec emax <= emax - prec -> 2 ^ (Z.log2 emax + 1) = 2 * emax ->
  fp_ok prec emax (of_bits prec emax b).
Proof.
  intros Hp Hle Hew. unfold of_bits. rewrite Hew.
  set (mw := prec - 1). set (m := b mod 2 ^ mw). set (ex := _ mod (2 * emax)).
  assert (0 < 2 * emax) as Hpos.
  { rewrite <-Hew. apply Z.pow_pos_nonneg; [lia|]. pose proof (Z.log2_nonneg emax). lia. }
  pose proof (Z.mod_pos_bound b (2 ^ mw) ltac:(apply Z.pow_pos_nonneg; lia)) as Hm. fold m in Hm.
  pose proof (Z.mod_pos_bound (b / 2 ^ mw) (2 * emax) Hpos) as Hex. fold ex in Hex.
  assert (2 ^ prec = 2 * 2 ^ mw) as Hprec.
  { replace prec with (Z.succ mw) by lia. apply Z.pow_succ_r. lia. }
  destruct (ex =? 2 * emax - 1) eqn:E1; [by destruct (m =? 0)|].
  destruct (ex =? 0) eqn:E2; bool_to_prop.
  - destruct m as [|q|q]; simpl; [done| |done]. lia.
  - destruct (m + 2 ^ mw) as [|q|q] eqn:E; simpl; [done| |done]. unfold emin_of in *. lia.
Qed.

Lemma fp_ok_f32 x : fp_ok 24 128 x -> fp_ok 53 1024 x.
Proof.
  destruct x as [s|s| |s m e]; simpl; try done. change (emin_of 24 128) with (-149).
  change (emin_of 53 1024) with (-1074). change (2 ^ 24) with 16777216. change (2 ^ 53) with 9007199254740992.
  lia.
Qed.
