(* ===== verification/Parson.v ===== *)
(** * JSON values and their accessors ([parson.c])

    The values, objects and arrays of the JSON library the SDK carries, and the
    operations on them. A [JSON_Value *] that can be NULL is an
    [option JSON_Value]. An object is the list of its name/value pairs in the
    order of [names]/[values]; the spare capacity of the two arrays, the parent
    pointers and the allocator's failures are left out: every value handed to a
    setter is a fresh one, as at each call of the SDK. *)

From S2P Require Import Prelude CLib CFloat.
From Stdlib Require Import Ascii.
Local Open Scope Z_scope.

(** ** Data *)

Inductive JSON_Value_Type :=
  JSONError | JSONNull | JSONString | JSONNumber | JSONObject | JSONArray | JSONBoolean | JSONUint.

#[export] Instance JSON_Value_Type_eq_dec : EqDecision JSON_Value_Type.
Proof. solve_decision. Defined.

Inductive JSON_Status := JSONSuccess | JSONFailure.

#[export] Instance JSON_Status_eq_dec : EqDecision JSON_Status.
Proof. solve_decision. Defined.

Unset Elimination Schemes.
Inductive JSON_Value :=
| VNull
| VString (s : string)
| VNumber (d : spec_float)
| VObject (o : list (string * JSON_Value))
| VArray (a : list JSON_Value)
| VBoolean (b : bool)
| VUint (u : Z).
Set Elimination Schemes.

Definition JSON_Object := list (string * JSON_Value).
Definition JSON_Array := list JSON_Value.

(** ** UTF-8 *)

Definition IS_CONT (b : Z) : bool := Z.land b 192 =? 128.

Definition num_bytes_in_utf8_sequence (c : Z) : Z :=
  if (c =? 192) || (c =? 193) || (244 <? c) || IS_CONT c then 0
  else if Z.land c 128 =? 0 then 1
  else if Z.land c 224 =? 192 then 2
  else if Z.land c 240 =? 224 then 3
  else if Z.land c 248 =? 240 then 4
  else 0.

(** The byte at index [i]; the terminating NUL at the end. *)
Definition byte_at (s : string) (i : nat) : Z :=
  match String.get i s with Some c => uchar c | None => 0 end.

(** The length of the sequence at the start of the string, when it is valid. *)
Definition verify_utf8_sequence (s : string) : option Z :=
  let b0 := byte_at s 0 in let b1 := byte_at s 1 in
  let b2 := byte_at s 2 in let b3 := byte_at s 3 in
  let len := num_bytes_in_utf8_sequence b0 in
  let cont b cp := Z.lor (Z.shiftl cp 6) (Z.land b 63) in
  let cp :=
    if len =? 1 then Some b0
    else if (len =? 2) && IS_CONT b1 then Some (cont b1 (Z.land b0 31))
    else if (len =? 3) && IS_CONT b1 && IS_CONT b2 then Some (cont b2 (cont b1 (Z.land b0 15)))
    else if (len =? 4) && IS_CONT b1 && IS_CONT b2 && IS_CONT b3
    then Some (cont b3 (cont b2 (cont b1 (Z.land b0 7))))
    else None in
  match cp with
  | None => None
  | Some cp =>
      if ((cp <? 128) && (1 <? len)) || ((cp <? 2048) && (2 <? len)) || ((cp <? 65536) && (3 <? len))
      then None
      else if 1114111 <? cp then None
      else if (55296 <=? cp) && (cp <=? 57343) then None
      else Some len
  end.

(** The loop advances by the length of each sequence; the fuel bounds the number
    of sequences. *)
Fixpoint is_valid_utf8_loop (fuel : nat) (s : string) : bool :=
  match s with
  | EmptyString => true
  | _ =>
      match fuel with
      | O => false
      | S f =>
          match verify_utf8_sequence s with
          | None => false
          | Some len => is_valid_utf8_loop f (str_drop (Z.to_nat len) s)
          end
      end
  end.

Definition is_valid_utf8 (s : string) : bool := is_valid_utf8_loop (String.length s) s.

(** ** Values *)

Definition json_value_get_type (v : option JSON_Value) : JSON_Value_Type :=
  match v with
  | None => JSONError
  | Some VNull => JSONNull
  | Some (VString _) => JSONString
  | Some (VNumber _) => JSONNumber
  | Some (VObject _) => JSONObject
  | Some (VArray _) => JSONArray
  | Some (VBoolean _) => JSONBoolean
  | Some (VUint _) => JSONUint
  end.

Definition json_value_get_object (v : option JSON_Value) : option JSON_Object :=
  match v with Some (VObject o) => Some o | _ => None end.

Definition json_value_get_array (v : option JSON_Value) : option JSON_Array :=
  match v with Some (VArray a) => Some a | _ => None end.

Definition json_value_get_string (v : option JSON_Value) : option string :=
  match v with Some (VString s) => Some s | _ => None end.

Definition json_value_get_number (v : option JSON_Value) : spec_float :=
  match v with
  | Some (VNumber d) => d
  | Some (VUint u) => of_int 53 1024 u
  | _ => S754_zero false
  end.

Definition json_value_get_uint (v : option JSON_Value) : Z :=
  match v with Some (VUint u) => u | _ => 0 end.

(** 1, 0, or -1 for a value that is not a boolean. *)
Definition json_value_get_boolean (v : option JSON_Value) : Z :=
  match v with Some (VBoolean b) => if b then 1 else 0 | _ => -1 end.

Definition json_value_init_object : JSON_Value := VObject [].
Definition json_value_init_array : JSON_Value := VArray [].

Definition json_value_init_string (s : option string) : option JSON_Value :=
  match s with
  | None => None
  | Some s => if is_valid_utf8 s then Some (VString s) else None
  end.

(** [(number * 0.0) != 0.0] holds exactly for NaN and the infinities. *)
Definition json_value_init_number (d : spec_float) : option JSON_Value :=
  if SFeqb (SFmul 53 1024 d (S754_zero false)) (S754_zero false) then Some (VNumber d) else None.

Definition json_value_init_uint (u : Z) : option JSON_Value := Some (VUint u).
Definition json_value_init_boolean (b : Z) : option JSON_Value := Some (VBoolean (negb (b =? 0))).
Definition json_value_init_null : option JSON_Value := Some VNull.

(** ** Reading objects *)

Fixpoint json_object_getn_value {A} (o : list (string * A)) (name : string) : option A :=
  match o with
  | [] => None
  | (n, v) :: o' => if String.eqb n name then Some v else json_object_getn_value o' name
  end.

Definition json_object_get_value (o : option JSON_Object) (name : string) : option JSON_Value :=
  match o with None => None | Some o => json_object_getn_value o name end.

Definition json_object_get_string (o : option JSON_Object) (name : string) : option string :=
  json_value_get_string (json_object_get_value o name).
Definition json_object_get_number (o : option JSON_Object) (name : string) : spec_float :=
  json_value_get_number (json_object_get_value o name).
Definition json_object_get_uint (o : option JSON_Object) (name : string) : Z :=
  json_value_get_uint (json_object_get_value o name).
Definition json_object_get_object (o : option JSON_Object) (name : string) : option JSON_Object :=
  json_value_get_object (json_object_get_value o name).
Definition json_object_get_array (o : option JSON_Object) (name : string) : option JSON_Array :=
  json_value_get_array (json_object_get_value o name).
Definition json_object_get_boolean (o : option JSON_Object) (name : string) : Z :=
  json_value_get_boolean (json_object_get_value o name).

Definition json_object_get_count (o : option JSON_Object) : nat :=
  match o with Some o => length o | None => O end.

Definition json_object_get_name (o : option JSON_Object) (i : nat) : option string :=
  match o with Some o => fst <$> o !! i | None => None end.

Definition json_object_get_value_at (o : option JSON_Object) (i : nat) : option JSON_Value :=
  match o with Some o => snd <$> o !! i | None => None end.

Definition json_object_has_value (o : option JSON_Object) (name : string) : bool :=
  bool_decide (is_Some (json_object_get_value o name)).

Definition has_type (v : option JSON_Value) (type : JSON_Value_Type) : bool :=
  match v with
  | None => false
  | Some _ =>
      bool_decide (json_value_get_type v = type)
      || (bool_decide (type = JSONNumber) && bool_decide (json_value_get_type v = JSONUint))
  end.

Definition json_object_has_value_of_type (o : option JSON_Object) (name : string)
    (type : JSON_Value_Type) : bool := has_type (json_object_get_value o name) type.

(** ** Reading through a dotted path

    The recursion is on the text after a dot; the fuel is the length of the
    path. *)
Fixpoint dotget (fuel : nat) (o : option JSON_Object) (name : string) : option JSON_Value :=
  match str_split "." name with
  | None => json_object_get_value o name
  | Some (head, tail) =>
      match fuel with
      | O => None
      | S f => dotget f (json_value_get_object (json_object_get_value o head)) tail
      end
  end.

Definition json_object_dotget_value (o : option JSON_Object) (name : string) : option JSON_Value :=
  dotget (String.length name) o name.

Definition json_object_dotget_string (o : option JSON_Object) (name : string) : option string :=
  json_value_get_string (json_object_dotget_value o name).
Definition json_object_dotget_number (o : option JSON_Object) (name : string) : spec_float :=
  json_value_get_number (json_object_dotget_value o name).
Definition json_object_dotget_uint (o : option JSON_Object) (name : string) : Z :=
  json_value_get_uint (json_object_dotget_value o name).
Definition json_object_dotget_object (o : option JSON_Object) (name : string) : option JSON_Object :=
  json_value_get_object (json_object_dotget_value o name).
Definition json_object_dotget_array (o : option JSON_Object) (name : string) : option JSON_Array :=
  json_value_get_array (json_object_dotget_value o name).
Definition json_object_dotget_boolean (o : option JSON_Object) (name : string) : Z :=
  json_value_get_boolean (json_object_dotget_value o name).
Definition json_object_dothas_value (o : option JSON_Object) (name : string) : bool :=
  bool_decide (is_Some (json_object_dotget_value o name)).
Definition json_object_dothas_value_of_type (o : option JSON_Object) (name : string)
    (type : JSON_Value_Type) : bool := has_type (json_object_dotget_value o name) type.

(** ** Reading arrays *)

Definition json_array_get_count (a : option JSON_Array) : nat :=
  match a with Some a => length a | None => O end.

Definition json_array_get_value (a : option JSON_Array) (i : nat) : option JSON_Value :=
  match a with Some a => a !! i | None => None end.

Definition json_array_get_string (a : option JSON_Array) (i : nat) : option string :=
  json_value_get_string (json_array_get_value a i).
Definition json_array_get_number (a : option JSON_Array) (i : nat) : spec_float :=
  json_value_get_number (json_array_get_value a i).
Definition json_array_get_uint (a : option JSON_Array) (i : nat) : Z :=
  json_value_get_uint (json_array_get_value a i).
Definition json_array_get_object (a : option JSON_Array) (i : nat) : option JSON_Object :=
  json_value_get_object (json_array_get_value a i).
Definition json_array_get_array (a : option JSON_Array) (i : nat) : option JSON_Array :=
  json_value_get_array (json_array_get_value a i).
Definition json_array_get_boolean (a : option JSON_Array) (i : nat) : Z :=
  json_value_get_boolean (json_array_get_value a i).

(** ** Changing objects

    [None] is [JSONFailure], which leaves the object as it was. *)

Definition json_object_addn (o : JSON_Object) (name : string) (v : option JSON_Value)
    : option JSON_Object :=
  match v with
  | None => None
  | Some v =>
      match json_object_getn_value o name with
      | Some _ => None
      | None => Some (o ++ [(name, v)])
      end
  end.

Definition json_object_add (o : JSON_Object) (name : option string) (v : option JSON_Value)
    : option JSON_Object :=
  match name with None => None | Some name => json_object_addn o name v end.

(** [object->values[i] = value] at the first [i] that has the name. *)
Fixpoint replace_first {A} (o : list (string * A)) (name : string) (v : A) : list (string * A) :=
  match o with
  | [] => []
  | (n, x) :: o' => if String.eqb n name then (n, v) :: o' else (n, x) :: replace_first o' name v
  end.

Definition json_object_set_value (o : JSON_Object) (name : string) (v : option JSON_Value)
    : option JSON_Object :=
  match v with
  | None => None
  | Some v =>
      match json_object_getn_value o name with
      | Some _ => Some (replace_first o name v)
      | None => json_object_add o (Some name) (Some v)
      end
  end.

Definition json_object_set_string (o : JSON_Object) (name : string) (s : option string)
    : option JSON_Object := json_object_set_value o name (json_value_init_string s).
Definition json_object_set_number (o : JSON_Object) (name : string) (d : spec_float)
    : option JSON_Object := json_object_set_value o name (json_value_init_number d).
Definition json_object_set_uint (o : JSON_Object) (name : string) (u : Z)
    : option JSON_Object := json_object_set_value o name (json_value_init_uint u).
Definition json_object_set_boolean (o : JSON_Object) (name : string) (b : Z)
    : option JSON_Object := json_object_set_value o name (json_value_init_boolean b).
Definition json_object_set_null (o : JSON_Object) (name : string)
    : option JSON_Object := json_object_set_value o name json_value_init_null.

(** The index of the first pair with the name. *)
Fixpoint name_index {A} (o : list (string * A)) (name : string) : option nat :=
  match o with
  | [] => None
  | (n, _) :: o' => if String.eqb n name then Some O else S <$> name_index o' name
  end.

(** The removed pair is replaced by the last one. *)
Definition json_object_remove_internal (o : JSON_Object) (name : string) : option JSON_Object :=
  match name_index o name with
  | None => None
  | Some i =>
      let last_item_index := Nat.pred (length o) in
      let o' := if Nat.eqb i last_item_index then o
                else match o !! last_item_index with
                     | Some e => <[i := e]> o
                     | None => o
                     end in
      Some (take last_item_index o')
  end.

Definition json_object_remove (o : JSON_Object) (name : string) : option JSON_Object :=
  json_object_remove_internal o name.

Definition json_object_clear (o : JSON_Object) : option JSON_Object := Some [].

(** ** Changing objects through a dotted path

    A nested object is changed in place: the pair that holds it gets the new
    object. *)

Fixpoint dotremove (fuel : nat) (o : JSON_Object) (name : string) : option JSON_Object :=
  match str_split "." name with
  | None => json_object_remove_internal o name
  | Some (head, tail) =>
      match fuel, json_object_getn_value o head with
      | S f, Some (VObject sub) =>
          match dotremove f sub tail with
          | Some sub' => Some (replace_first o head (VObject sub'))
          | None => None
          end
      | _, _ => None
      end
  end.

Definition json_object_dotremove (o : JSON_Object) (name : string) : option JSON_Object :=
  dotremove (String.length name) o name.

Fixpoint dotset (fuel : nat) (o : JSON_Object) (name : string) (v : option JSON_Value)
    : option JSON_Object :=
  match v with
  | None => None
  | Some _ =>
      match str_split "." name with
      | None => json_object_set_value o name v
      | Some (head, tail) =>
          match fuel with
          | O => None
          | S f =>
              match json_object_getn_value o head with
              | Some (VObject sub) =>
                  match dotset f sub tail v with
                  | Some sub' => Some (replace_first o head (VObject sub'))
                  | None => None
                  end
              | Some _ => None
              | None =>
                  match dotset f [] tail v with
                  | Some sub' => json_object_addn o head (Some (VObject sub'))
                  | None => None
                  end
              end
          end
      end
  end.

Definition json_object_dotset_value (o : JSON_Object) (name : string) (v : option JSON_Value)
    : option JSON_Object := dotset (String.length name) o name v.

Definition json_object_dotset_string (o : JSON_Object) (name : string) (s : option string)
    : option JSON_Object := json_object_dotset_value o name (json_value_init_string s).
Definition json_object_dotset_number (o : JSON_Object) (name : string) (d : spec_float)
    : option JSON_Object := json_object_dotset_value o name (json_value_init_number d).
Definition json_object_dotset_uint (o : JSON_Object) (name : string) (u : Z)
    : option JSON_Object := json_object_dotset_value o name (json_value_init_uint u).
Definition json_object_dotset_boolean (o : JSON_Object) (name : string) (b : Z)
    : option JSON_Object := json_object_dotset_value o name (json_value_init_boolean b).
Definition json_object_dotset_null (o : JSON_Object) (name : string)
    : option JSON_Object := json_object_dotset_value o name json_value_init_null.

(** ** Changing arrays *)

Definition json_array_add (a : JSON_Array) (v : JSON_Value) : JSON_Array := a ++ [v].

Definition json_array_remove (a : JSON_Array) (ix : nat) : option JSON_Array :=
  if Nat.leb (length a) ix then None else Some (take ix a ++ drop (S ix) a).

Definition json_array_replace_value (a : JSON_Array) (ix : nat) (v : option JSON_Value)
    : option JSON_Array :=
  match v with
  | None => None
  | Some v => if Nat.leb (length a) ix then None else Some (<[ix := v]> a)
  end.

Definition json_array_replace_string (a : JSON_Array) (i : nat) (s : option string)
    : option JSON_Array := json_array_replace_value a i (json_value_init_string s).
Definition json_array_replace_number (a : JSON_Array) (i : nat) (d : spec_float)
    : option JSON_Array := json_array_replace_value a i (json_value_init_number d).
Definition json_array_replace_uint (a : JSON_Array) (i : nat) (u : Z)
    : option JSON_Array := json_array_replace_value a i (json_value_init_uint u).
Definition json_array_replace_boolean (a : JSON_Array) (i : nat) (b : Z)
    : option JSON_Array := json_array_replace_value a i (json_value_init_boolean b).
Definition json_array_replace_null (a : JSON_Array) (i : nat)
    : option JSON_Array := json_array_replace_value a i json_value_init_null.

Definition json_array_clear (a : JSON_Array) : option JSON_Array := Some [].

Definition json_array_append_value (a : JSON_Array) (v : option JSON_Value) : option JSON_Array :=
  match v with None => None | Some v => Some (json_array_add a v) end.

Definition json_array_append_string (a : JSON_Array) (s : option string)
    : option JSON_Array := json_array_append_value a (json_value_init_string s).
Definition json_array_append_number (a : JSON_Array) (d : spec_float)
    : option JSON_Array := json_array_append_value a (json_value_init_number d).
Definition json_array_append_uint (a : JSON_Array) (u : Z)
    : option JSON_Array := json_array_append_value a (json_value_init_uint u).
Definition json_array_append_boolean (a : JSON_Array) (b : Z)
    : option JSON_Array := json_array_append_value a (json_value_init_boolean b).
Definition json_array_append_null (a : JSON_Array)
    : option JSON_Array := json_array_append_value a json_value_init_null.

(** ** Whole values *)

(** The loops over the items of an array and over the names of an object. The
    values of an object are looked up by name, so the recursive call is made
    through the list of the results of all pairs. *)
Section copy_loops.
  Variable copy : JSON_Value -> option JSON_Value.

Fixpoint copy_array (l : JSON_Array) (acc : JSON_Array) : option JSON_Value :=
  match l with
  | [] => Some (VArray acc)
  | x :: l' =>
      match copy x with
      | None => None
      | Some x' => copy_array l' (json_array_add acc x')
      end
  end.

Fixpoint copy_object (copies : list (string * option JSON_Value)) (names : list string)
    (acc : JSON_Object) : option JSON_Value :=
  match names with
  | [] => Some (VObject acc)
  | key :: names' =>
      match json_object_getn_value copies key with
      | Some (Some x') =>
          match json_object_add acc (Some key) (Some x') with
          | None => None
          | Some acc' => copy_object copies names' acc'
          end
      | _ => None
      end
  end.
End copy_loops.

Fixpoint json_value_deep_copy (v : JSON_Value) : option JSON_Value :=
  match v with
  | VArray a => copy_array json_value_deep_copy a []
  | VObject o =>
      copy_object (map (fun kv => (fst kv, json_value_deep_copy (snd kv))) o) (map fst o) []
  | VBoolean b => json_value_init_boolean (json_value_get_boolean (Some v))
  | VNumber d => json_value_init_number d
  | VUint u => json_value_init_uint u
  | VString s => Some (VString s)
  | VNull => json_value_init_null
  end.

(** The double [0.000001]. *)
Definition EPSILON : spec_float := Eval vm_compute in sd_val (strtod "0.000001").

Definition number_equals (x y : spec_float) : bool := SFltb (SFabs (SFsub 53 1024 x y)) EPSILON.

Section equals_loops.
  Variable equals : JSON_Value -> option JSON_Value -> bool.

Fixpoint equals_array (l : JSON_Array) (b : JSON_Array) (i : nat) : bool :=
  match l with
  | [] => true
  | x :: l' =>
      if negb (equals x (json_array_get_value (Some b) i)) then false
      else equals_array l' b (S i)
  end.

Fixpoint equals_object (tests : list (string * (option JSON_Value -> bool)))
    (names : list string) (b : JSON_Object) : bool :=
  match names with
  | [] => true
  | key :: names' =>
      match json_object_getn_value tests key with
      | Some test =>
          if negb (test (json_object_get_value (Some b) key)) then false
          else equals_object tests names' b
      | None => false
      end
  end.
End equals_loops.

Fixpoint value_equals (a : JSON_Value) (b : option JSON_Value) : bool :=
  match a, b with
  | VArray a_array, Some (VArray b_array) =>
      if negb (Nat.eqb (length a_array) (length b_array)) then false
      else equals_array value_equals a_array b_array O
  | VObject a_object, Some (VObject b_object) =>
      if negb (Nat.eqb (length a_object) (length b_object)) then false
      else equals_object (map (fun kv => (fst kv, value_equals (snd kv))) a_object)
                         (map fst a_object) b_object
  | VString s, Some (VString s') => String.eqb s s'
  | VBoolean x, Some (VBoolean y) => Bool.eqb x y
  | VNumber x, Some (VNumber y) => number_equals x y
  | VNumber x, Some (VUint u) => number_equals x (json_value_get_number (Some (VUint u)))
  | VUint u, Some (VNumber y) => number_equals (json_value_get_number (Some (VUint u))) y
  | VUint u, Some (VUint u') => u =? u'
  | VNull, Some VNull => true
  | _, _ => false
  end.

Definition json_value_equals (a b : option JSON_Value) : bool :=
  match a with
  | Some a => value_equals a b
  | None => bool_decide (json_value_get_type b = JSONError)
  end.

Fixpoint validate_items (test : JSON_Value -> JSON_Status) (l : JSON_Array) : JSON_Status :=
  match l with
  | [] => JSONSuccess
  | x :: l' =>
      match test x with
      | JSONFailure => JSONFailure
      | JSONSuccess => validate_items test l'
      end
  end.

Fixpoint validate_names (tests : list (string * (JSON_Value -> JSON_Status)))
    (names : list string) (value_object : JSON_Object) : JSON_Status :=
  match names with
  | [] => JSONSuccess
  | key :: names' =>
      match json_object_get_value (Some value_object) key, json_object_getn_value tests key with
      | Some x, Some test =>
          match test x with
          | JSONFailure => JSONFailure
          | JSONSuccess => validate_names tests names' value_object
          end
      | _, _ => JSONFailure
      end
  end.

Fixpoint validate (schema value : JSON_Value) : JSON_Status :=
  match schema with
  | VNull => JSONSuccess
  | VArray schema_array =>
      match value, schema_array with
      | VArray _, [] => JSONSuccess
      | VArray value_array, temp_schema_value :: _ =>
          validate_items (validate temp_schema_value) value_array
      | _, _ => JSONFailure
      end
  | VObject schema_object =>
      match value with
      | VObject value_object =>
          let count := length schema_object in
          if Nat.eqb count 0 then JSONSuccess
          else if Nat.ltb (length value_object) count then JSONFailure
          else validate_names (map (fun kv => (fst kv, validate (snd kv))) schema_object)
                              (map fst schema_object) value_object
      | _ => JSONFailure
      end
  | VString _ => match value with VString _ => JSONSuccess | _ => JSONFailure end
  | VNumber _ => match value with VNumber _ => JSONSuccess | _ => JSONFailure end
  | VBoolean _ => match value with VBoolean _ => JSONSuccess | _ => JSONFailure end
  | VUint _ => JSONFailure
  end.

Definition json_validate (schema value : option JSON_Value) : JSON_Status :=
  match schema, value with
  | Some s, Some v => validate s v
  | _, _ => JSONFailure
  end.

(** ** Well-formed values *)

(** A C string holds no NUL. *)
Fixpoint cstr (s : string) : Prop :=
  match s with String c s' => uchar c <> 0 /\ cstr s' | EmptyString => True end.

Fixpoint json_wf (v : JSON_Value) : Prop :=
  match v with
  | VString s => cstr s
  | VNumber d => is_finite d = true
  | VUint u => 0 <= u < 2 ^ 64
  | VObject o =>
      NoDup (map fst o) /\
      (fix all (l : list (string * JSON_Value)) : Prop :=
         match l with [] => True | (k, x) :: l' => cstr k /\ json_wf x /\ all l' end) o
  | VArray a =>
      (fix all (l : list JSON_Value) : Prop :=
         match l with [] => True | x :: l' => json_wf x /\ all l' end) a
  | _ => True
  end.

Section value_ind.
  Variable P : JSON_Value -> Prop.
  Hypothesis Hnull : P VNull.
  Hypothesis Hstring : forall s, P (VString s).
  Hypothesis Hnumber : forall d, P (VNumber d).
  Hypothesis Hobject : forall o, Forall (fun kv => P (snd kv)) o -> P (VObject o).
  Hypothesis Harray : forall a, Forall P a -> P (VArray a).
  Hypothesis Hboolean : forall b, P (VBoolean b).
  Hypothesis Huint : forall u, P (VUint u).

Fixpoint JSON_Value_ind (v : JSON_Value) : P v :=
  match v with
  | VNull => Hnull
  | VString s => Hstring s
  | VNumber d => Hnumber d
  | VObject o =>
      Hobject o ((fix all l : Forall (fun kv => P (snd kv)) l :=
                    match l with
                    | [] => List.Forall_nil _
                    | kv :: l' => List.Forall_cons _ _ _ (JSON_Value_ind (snd kv)) (all l')
                    end) o)
  | VArray a =>
      Harray a ((fix all l : Forall P l :=
                   match l with
                   | [] => List.Forall_nil _
                   | x :: l' => List.Forall_cons _ _ _ (JSON_Value_ind x) (all l')
                   end) a)
  | VBoolean b => Hboolean b
  | VUint u => Huint u
  end.
End value_ind.

Lemma json_wf_object o :
  json_wf (VObject o) <-> NoDup (map fst o) /\ Forall (fun kv => cstr (fst kv) /\ json_wf (snd kv)) o.
Proof.
  cbn [json_wf]. f_equiv. induction o as [|[k x] o IH]; [by rewrite Forall_nil|].
  rewrite Forall_cons, IH. simpl. tauto.
Qed.

Lemma json_wf_array a : json_wf (VArray a) <-> Forall json_wf a.
Proof.
  cbn [json_wf]. induction a as [|x a IH]; [by rewrite Forall_nil|].
  by rewrite Forall_cons, IH.
Qed.

(** ** Objects as finite maps *)

Definition object_map (o : JSON_Object) : gmap string JSON_Value := list_to_map o.

Lemma getn_value_map (o : JSON_Object) k : json_object_getn_value o k = object_map o !! k.
Proof.
  unfold object_map. induction o as [|[n v] o IH]; [done|].
  cbn [json_object_getn_value list_to_map foldr fst snd].
  destruct (String.eqb_spec n k) as [->|Hne].
  - by rewrite lookup_insert_eq.
  - by rewrite lookup_insert_ne.
Qed.

Lemma getn_value_none {A} (o : list (string * A)) k :
  json_object_getn_value o k = None <-> k ∉ map fst o.
Proof.
  induction o as [|[n v] o IH]; [by split; [intros _ ?%elem_of_nil|]|].
  cbn [json_object_getn_value map fst]. rewrite not_elem_of_cons.
  destruct (String.eqb_spec n k) as [->|Hne]; [by split; [|intros []]|]. rewrite IH.
  split; [done|tauto].
Qed.

Lemma getn_value_some {A} (o : list (string * A)) k v :
  json_object_getn_value o k = Some v -> (k, v) ∈ o.
Proof.
  induction o as [|[n x] o IH]; [done|]. cbn [json_object_getn_value].
  destruct (String.eqb_spec n k) as [->|Hne]; [intros [= ->]; by left|].
  intros H. right. auto.
Qed.

Lemma getn_value_nodup {A} (o : list (string * A)) k v :
  NoDup (map fst o) -> (k, v) ∈ o -> json_object_getn_value o k = Some v.
Proof.
  induction o as [|[n x] o IH]; intros Hnd Hin; [by apply elem_of_nil in Hin|].
  cbn [map fst] in Hnd. apply NoDup_cons in Hnd as [Hn Hnd].
  cbn [json_object_getn_value]. apply elem_of_cons in Hin as [[= -> ->]|Hin].
  - by rewrite String.eqb_refl.
  - destruct (String.eqb_spec n k) as [->|Hne]; [|auto].
    destruct Hn. by apply (list_elem_of_fmap_2 fst) in Hin.
Qed.

Lemma replace_first_keys {A} (o : list (string * A)) k v :
  map fst (replace_first o k v) = map fst o.
Proof.
  induction o as [|[n x] o IH]; [done|]. cbn [replace_first].
  destruct (String.eqb n k); simpl; by rewrite ?IH.
Qed.

Lemma replace_first_map (o : JSON_Object) k v :
  k ∈ map fst o -> object_map (replace_first o k v) = <[k := v]> (object_map o).
Proof.
  unfold object_map. induction o as [|[n x] o IH]; [by intros ?%elem_of_nil|].
  cbn [map fst replace_first]. intros Hin.
  destruct (String.eqb_spec n k) as [->|Hne]; cbn [list_to_map foldr fst snd].
  - by rewrite insert_insert_eq.
  - rewrite IH; [by apply insert_insert_ne|]. by apply elem_of_cons in Hin as [->|].
Qed.

Lemma app_map (o : JSON_Object) k v :
  k ∉ map fst o -> object_map (o ++ [(k, v)]) = <[k := v]> (object_map o).
Proof.
  unfold object_map. induction o as [|[n x] o IH]; [done|]. cbn [map fst].
  rewrite not_elem_of_cons. intros [Hne Hin]. cbn [app list_to_map foldr fst snd].
  rewrite IH by done. by apply insert_insert_ne.
Qed.

(** Setting a value changes the map at that name only and keeps the names
    distinct. *)
Lemma set_value_map o k v o' :
  NoDup (map fst o) -> json_object_set_value o k (Some v) = Some o' ->
  NoDup (map fst o') /\ object_map o' = <[k := v]> (object_map o).
Proof.
  intros Hnd. unfold json_object_set_value, json_object_add, json_object_addn.
  destruct (json_object_getn_value o k) as [x|] eqn:E; intros [= <-].
  - rewrite replace_first_keys. split; [done|]. apply replace_first_map.
    apply getn_value_some in E. by apply (list_elem_of_fmap_2 fst) in E.
  - apply getn_value_none in E. split; [|by apply app_map].
    rewrite map_app. apply NoDup_app. split_and!; [done| |apply NoDup_singleton].
    intros x Hx Hk. apply list_elem_of_singleton in Hk. by subst.
Qed.

Lemma set_value_total o k v : is_Some (json_object_set_value o k (Some v)).
Proof.
  unfold json_object_set_value, json_object_add, json_object_addn.
  destruct (json_object_getn_value o k); by eexists.
Qed.

Lemma name_index_spec (o : JSON_Object) k :
  match name_index o k with
  | Some i => exists v, o !! i = Some (k, v)
  | None => k ∉ map fst o
  end.
Proof.
  induction o as [|[n x] o IH]; [by intros ?%elem_of_nil|]. cbn [name_index map fst].
  destruct (String.eqb_spec n k) as [->|Hne]; [by exists x|].
  destruct (name_index o k) as [i|]; csimpl; [done|].
  rewrite not_elem_of_cons. by split.
Qed.

(** Taking the last pair to the place of a removed one gives a permutation of
    the other pairs. *)
Lemma swap_last_perm {A} (l : list A) i x :
  l !! i = Some x ->
  let last := Nat.pred (length l) in
  x :: take last (if Nat.eqb i last then l
                  else match l !! last with Some e => <[i := e]> l | None => l end) ≡ₚ l.
Proof.
  intros Hi last. assert (i < length l)%nat as Hlen by (by eapply lookup_lt_Some).
  destruct (nil_or_length_pos l) as [->|Hl]; [done|].
  destruct l as [|b l0 _] using rev_ind; [done|].
  subst last. rewrite length_app in *. simpl in *.
  replace (Nat.pred (length l0 + 1)) with (length l0) by lia.
  destruct (Nat.eqb_spec i (length l0)) as [->|Hne].
  - rewrite take_app_length. rewrite list_lookup_middle in Hi by done.
    injection Hi as ->. by rewrite Permutation_app_comm.
  - rewrite list_lookup_middle by done. rewrite insert_app_l by lia.
    rewrite <-(length_insert l0 i b), take_app_length.
    rewrite lookup_app_l in Hi by lia.
    rewrite <-(take_drop_middle l0 i x) at 2 by done.
    rewrite insert_take_drop by lia. solve_Permutation.
Qed.

Lemma remove_map o k o' :
  NoDup (map fst o) -> json_object_remove_internal o k = Some o' ->
  NoDup (map fst o') /\ object_map o' = delete k (object_map o).
Proof.
  intros Hnd. unfold json_object_remove_internal. pose proof (name_index_spec o k) as Hi.
  destruct (name_index o k) as [i|]; [|done]. destruct Hi as [v Hi]. intros [= <-].
  pose proof (swap_last_perm o i (k, v) Hi) as Hperm. cbn zeta in Hperm.
  match type of Hperm with _ :: ?r ≡ₚ _ => set (o' := r) in * end.
  assert (NoDup (map fst ((k, v) :: o'))) as Hnd' by (by rewrite Hperm).
  cbn [map fst] in Hnd'. apply NoDup_cons in Hnd' as [Hk Hnd'].
  split; [done|]. unfold object_map.
  rewrite <-(list_to_map_proper ((k, v) :: o') o); [|by cbn [fmap list_fmap map fst]; apply NoDup_cons|done].
  cbn [list_to_map foldr fst snd]. rewrite delete_insert_id; [done|].
  by apply not_elem_of_list_to_map_1.
Qed.

(** A call that changes an object, and its effect: a failed call leaves the
    object as it was. *)
Inductive object_op :=
| OpSet (name : string) (v : option JSON_Value)
| OpRemove (name : string)
| OpClear.

Definition run_object_op (o : JSON_Object) (op : object_op) : JSON_Object :=
  default o
    match op with
    | OpSet name v => json_object_set_value o name v
    | OpRemove name => json_object_remove o name
    | OpClear => json_object_clear o
    end.

Definition spec_object_op (m : gmap string JSON_Value) (op : object_op) : gmap string JSON_Value :=
  match op with
  | OpSet name (Some v) => <[name := v]> m
  | OpSet _ None => m
  | OpRemove name => delete name m
  | OpClear => ∅
  end.

Lemma run_object_op_refines o op :
  NoDup (map fst o) ->
  NoDup (map fst (run_object_op o op)) /\
  object_map (run_object_op o op) = spec_object_op (object_map o) op.
Proof.
  intros Hnd. destruct op as [k [v|]|k|]; unfold run_object_op; cbn [spec_object_op].
  - destruct (set_value_total o k v) as [o' E]. rewrite E. by apply set_value_map.
  - done.
  - unfold json_object_remove. destruct (json_object_remove_internal o k) as [o'|] eqn:E.
    + by apply remove_map.
    + cbn [default]. split; [done|]. unfold json_object_remove_internal in E.
      pose proof (name_index_spec o k) as Hi. destruct (name_index o k); [done|].
      rewrite delete_id; [done|]. by apply not_elem_of_list_to_map_1.
  - split; [apply NoDup_nil_2|done].
Qed.

(** After any sequence of setting, removing and clearing calls, failed ones
    included, an object that started empty has distinct names, and what
    [json_object_get_value] and [json_object_get_count] read is what the same
    calls leave in a finite map. *)
Theorem object_runs_refine_map (ops : list object_op) :
  let o := fold_left run_object_op ops [] in
  let m := fold_left spec_object_op ops (∅ : gmap string JSON_Value) in
  NoDup (map fst o) /\
  (forall name, json_object_get_value (Some o) name = m !! name) /\
  json_object_get_count (Some o) = size m.
Proof.
  assert (forall ops (o : JSON_Object), NoDup (map fst o) ->
    NoDup (map fst (fold_left run_object_op ops o)) /\
    object_map (fold_left run_object_op ops o) = fold_left spec_object_op ops (object_map o)) as Hrun.
  { intros l. induction l as [|op l IH]; intros o Hnd; [done|]. cbn [fold_left].
    destruct (run_object_op_refines o op Hnd) as [Hnd' <-]. by apply IH. }
  intros o m. destruct (Hrun ops [] NoDup_nil_2) as [Hnd Hm].
  fold o in Hnd, Hm. change (object_map []) with (∅ : gmap string JSON_Value) in Hm. fold m in Hm.
  split_and!; [done| |].
  - intros name. rewrite <-Hm. apply getn_value_map.
  - rewrite <-Hm. cbn [json_object_get_count]. unfold object_map.
    by rewrite map_size_list_to_map, <-(length_map fst).
Qed.

(** ** Copying and comparing *)

Lemma init_number_finite d : is_finite d = true -> json_value_init_number d = Some (VNumber d).
Proof. destruct d; done. Qed.

Lemma sub_self_small d : is_finite d = true -> number_equals d d = true.
Proof.
  destruct d as [[]| | |s m e]; try done; intros _.
  unfold number_equals, SFsub.
  replace (Z.sub _ _) with 0; [done|]. destruct s; cbn [cond_Zopp]; lia.
Qed.

Lemma getn_value_map_snd {A B} (f : A -> B) (o : list (string * A)) k :
  json_object_getn_value (map (fun kv => (fst kv, f (snd kv))) o) k
  = f <$> json_object_getn_value o k.
Proof.
  induction o as [|[n v] o IH]; [done|]. cbn [map fst snd json_object_getn_value].
  destruct (String.eqb n k); [done|apply IH].
Qed.

Lemma copy_array_id l acc :
  Forall (fun x => json_value_deep_copy x = Some x) l ->
  copy_array json_value_deep_copy l acc = Some (VArray (acc ++ l)).
Proof.
  revert acc. induction l as [|x l IH]; intros acc Hall; [by rewrite app_nil_r|].
  apply Forall_cons in Hall as [Hx Hall]. cbn [copy_array]. rewrite Hx, IH by done.
  unfold json_array_add. by rewrite <-app_assoc.
Qed.

Lemma copy_object_id (o : JSON_Object) l acc :
  NoDup (map fst o) -> Forall (fun kv => json_value_deep_copy (snd kv) = Some (snd kv)) o ->
  acc ++ l = o ->
  copy_object (map (fun kv => (fst kv, json_value_deep_copy (snd kv))) o) (map fst l) acc
  = Some (VObject o).
Proof.
  intros Hnd Hall. revert acc.
  induction l as [|[k x] l IH]; intros acc Ho; [by rewrite app_nil_r in Ho; subst|].
  assert ((k, x) ∈ o) as Hin by (rewrite <-Ho; set_solver).
  pose proof (proj1 (Forall_forall _ _) Hall _ Hin) as Hx. cbn [snd] in Hx.
  cbn [map fst copy_object]. rewrite getn_value_map_snd, (getn_value_nodup o k x) by done.
  cbn [fmap option_fmap option_map]. rewrite Hx. unfold json_object_add, json_object_addn.
  rewrite (proj2 (getn_value_none acc k)).
  2:{ rewrite <-Ho, map_app, NoDup_app in Hnd. destruct Hnd as (_ & Hd & _).
      intros Hk. apply (Hd _ Hk). by left. }
  apply IH. by rewrite <-app_assoc.
Qed.

Lemma deep_copy_id v : json_wf v -> json_value_deep_copy v = Some v.
Proof.
  induction v as [ | s | d | o IH | a IH | b | u ] using JSON_Value_ind; intros Hwf; try done.
  - by apply init_number_finite.
  - apply json_wf_object in Hwf as [Hnd Hall]. apply copy_object_id; [done| |done].
    eapply Forall_impl; [exact (List.Forall_and IH Hall)|]. naive_solver.
  - apply json_wf_array in Hwf. cbn [json_value_deep_copy]. rewrite copy_array_id; [done|].
    eapply Forall_impl; [exact (List.Forall_and IH Hwf)|]. naive_solver.
  - by destruct b.
Qed.

Lemma equals_array_refl l i b :
  Forall (fun x => value_equals x (Some x) = true) l ->
  (forall j x, l !! j = Some x -> b !! (i + j)%nat = Some x) ->
  equals_array value_equals l b i = true.
Proof.
  revert i. induction l as [|x l IH]; intros i Hall Hb; [done|].
  apply Forall_cons in Hall as [Hx Hall]. cbn [equals_array json_array_get_value].
  rewrite <-(Nat.add_0_r i) at 1. rewrite (Hb O x) by done. rewrite Hx. cbn [negb].
  apply IH; [done|]. intros j y Hj. rewrite Nat.add_succ_comm. by apply Hb.
Qed.

Lemma equals_object_refl (o o' : JSON_Object) names :
  NoDup (map fst o) -> o' ≡ₚ o ->
  Forall (fun kv => value_equals (snd kv) (Some (snd kv)) = true) o ->
  Forall (fun k => k ∈ map fst o) names ->
  equals_object (map (fun kv => (fst kv, value_equals (snd kv))) o) names o' = true.
Proof.
  intros Hnd Hperm Hall. induction names as [|k names IH]; [done|].
  intros [[[k' x] [-> Hin]]%list_elem_of_fmap Hns]%Forall_cons. cbn [equals_object fst].
  rewrite getn_value_map_snd, (getn_value_nodup o k' x) by done.
  cbn [fmap option_fmap option_map json_object_get_value].
  rewrite (getn_value_nodup o' k' x) by (by rewrite Hperm).
  pose proof (proj1 (Forall_forall _ _) Hall _ Hin) as Hx. cbn [snd] in Hx. rewrite Hx. by apply IH.
Qed.

Lemma value_equals_refl v : json_wf v -> value_equals v (Some v) = true.
Proof.
  induction v as [ | s | d | o IH | a IH | b | u ] using JSON_Value_ind; intros Hwf; cbn [value_equals].
  - done.
  - apply String.eqb_refl.
  - by apply sub_self_small.
  - apply json_wf_object in Hwf as [Hnd Hall]. rewrite Nat.eqb_refl. cbn [negb].
    apply equals_object_refl; [done|done| |by apply Forall_forall].
    eapply Forall_impl; [exact (List.Forall_and IH Hall)|]. naive_solver.
  - apply json_wf_array in Hwf. rewrite Nat.eqb_refl. cbn [negb].
    apply equals_array_refl; [|done].
    eapply Forall_impl; [exact (List.Forall_and IH Hwf)|]. naive_solver.
  - by destruct b.
  - apply Z.eqb_refl.
Qed.

(** [json_value_deep_copy] of a well-formed value returns the same value, and
    [json_value_equals] accepts the copy; for an object it does so whatever the
    order its pairs are in. *)
Theorem deep_copy_equals (v : JSON_Value) :
  json_wf v ->
  json_value_deep_copy v = Some v /\
  json_value_equals (json_value_deep_copy v) (Some v) = true /\
  (forall o o', v = VObject o -> o' ≡ₚ o -> json_value_equals (Some v) (Some (VObject o')) = true).
Proof.
  intros Hwf. rewrite deep_copy_id by done. split_and!; [done|by apply value_equals_refl|].
  intros o o' -> Hperm. apply json_wf_object in Hwf as [Hnd Hall]. cbn [json_value_equals value_equals].
  rewrite (Permutation_length Hperm), Nat.eqb_refl. cbn [negb].
  apply equals_object_refl; [done|done| |by apply Forall_forall].
  eapply Forall_impl; [exact Hall|]. intros [k x] [_ Hx]. by apply value_equals_refl.
Qed.

Lemma deep_copy_equals_witness :
  exists v, json_wf v /\ json_value_deep_copy v = Some v.
Proof.
  set (v := VObject [("a", VUint 3); ("b", VArray [VNull; VString "x"])]).
  assert (json_wf v) as H.
  { cbn. split_and!; try done; try lia. repeat constructor; set_solver. }
  exists v. split; [exact H|]. exact (proj1 (deep_copy_equals v H)).
Defined.

(** ** Dotted paths *)

Lemma replace_first_get {A} (o : list (string * A)) k v k' :
  k ∈ map fst o ->
  json_object_getn_value (replace_first o k v) k'
  = if String.eqb k k' then Some v else json_object_getn_value o k'.
Proof.
  induction o as [|[n x] o IH]; [by intros ?%elem_of_nil|]. cbn [map fst replace_first].
  intros Hin. destruct (String.eqb_spec n k) as [->|Hne]; cbn [json_object_getn_value].
  - by destruct (String.eqb k k').
  - rewrite IH by (by apply elem_of_cons in Hin as [->|]).
    destruct (String.eqb_spec n k') as [->|]; [|done].
    by rewrite (proj2 (String.eqb_neq _ _)) by done.
Qed.

Lemma app_get {A} (o : list (string * A)) k v k' :
  json_object_getn_value o k = None ->
  json_object_getn_value (o ++ [(k, v)]) k'
  = if String.eqb k k' then Some v else json_object_getn_value o k'.
Proof.
  induction o as [|[n x] o IH]; [by simpl|]. cbn [app json_object_getn_value].
  destruct (String.eqb_spec n k) as [->|Hne]; [done|]. intros H. rewrite IH by done.
  destruct (String.eqb_spec n k') as [->|]; [|done].
  by rewrite (proj2 (String.eqb_neq _ _)) by done.
Qed.

Lemma getn_value_in {A} (o : list (string * A)) k v :
  json_object_getn_value o k = Some v -> k ∈ map fst o.
Proof. intros H%getn_value_some. by apply (list_elem_of_fmap_2 fst) in H. Qed.

Lemma set_value_get o k v o' k' :
  json_object_set_value o k (Some v) = Some o' ->
  json_object_getn_value o' k' = if String.eqb k k' then Some v else json_object_getn_value o k'.
Proof.
  unfold json_object_set_value, json_object_add, json_object_addn.
  destruct (json_object_getn_value o k) as [x|] eqn:E; intros [= <-].
  - apply replace_first_get. by eapply getn_value_in.
  - by apply app_get.
Qed.

(** The first name of a dotted path. *)
Definition path_head (name : string) : string :=
  match str_split "." name with Some (head, _) => head | None => name end.

Lemma dotset_get fuel o name v o' :
  dotset fuel o name (Some v) = Some o' ->
  dotget fuel (Some o') name = Some v /\
  forall k, k <> path_head name -> json_object_getn_value o' k = json_object_getn_value o k.
Proof.
  revert o name o'. induction fuel as [|f IH]; intros o name o'; cbn [dotset dotget];
    unfold path_head; destruct (str_split "." name) as [[head tail]|] eqn:E; try done.
  1,3: intros Hset; pose proof (set_value_get o name v o') as H; split;
       [cbn [json_object_get_value]; by rewrite H, String.eqb_refl
       |intros k Hk; rewrite H by done; by rewrite (proj2 (String.eqb_neq _ _)) by done].
  destruct (json_object_getn_value o head) as [[]|] eqn:Eh; try done.
  - destruct (dotset f _ tail _) as [sub'|] eqn:Es; [|done]. intros [= <-].
    apply IH in Es as [Hget _]. apply getn_value_in in Eh.
    cbn [json_object_get_value]. split.
    + by rewrite replace_first_get, String.eqb_refl.
    + intros k Hk. rewrite replace_first_get by done. by rewrite (proj2 (String.eqb_neq _ _)) by done.
  - destruct (dotset f _ tail _) as [sub'|] eqn:Es; [|done].
    unfold json_object_addn. rewrite Eh. intros [= <-].
    apply IH in Es as [Hget _]. cbn [json_object_get_value]. split.
    + by rewrite app_get, String.eqb_refl.
    + intros k Hk. rewrite app_get by done. by rewrite (proj2 (String.eqb_neq _ _)) by done.
Qed.

(** When [json_object_dotset_value] succeeds, [json_object_dotget_value] reads
    the value back at the same path, and the members of the object other than the
    first name of the path are unchanged. *)
Theorem dotset_dotget (o o' : JSON_Object) (name : string) (v : JSON_Value) :
  json_object_dotset_value o name (Some v) = Some o' ->
  json_object_dotget_value (Some o') name = Some v /\
  (forall k, k <> path_head name ->
     json_object_get_value (Some o') k = json_object_get_value (Some o) k).
Proof. apply dotset_get. Qed.

Lemma dotset_dotget_witness :
  exists o', json_object_dotset_value [("a", VObject [("x", VNull)])] "a.b.c" (Some (VUint 7)) = Some o'
    /\ json_object_dotget_value (Some o') "a.b.c" = Some (VUint 7).
Proof.
  eexists. split; [vm_compute; reflexivity|].
  exact (proj1 (dotset_dotget [("a", VObject [("x", VNull)])] _ "a.b.c" (VUint 7) eq_refl)).
Defined.

(** [json_validate] rejects an unsigned integer against an integer schema, since
    its switch has no case for the type. *)
Lemma validate_uint_fails (a b : Z) : json_validate (Some (VUint a)) (Some (VUint b)) = JSONFailure.
Proof. done. Qed.
