(* ===== verification/ParsonText.v ===== *)
(** * Reading and writing JSON text ([parson.c])

    The recursive descent parser, with the text that is left as part of each
    result, and the serializer with its two passes (size, then text). *)

From S2P Require Import Prelude CLib CFloat Parson.
From Stdlib Require Import Ascii.
Local Open Scope Z_scope.

(** ** Characters that need no quoting in Rocq strings *)

Definition QUOTE : ascii := chr 34.
Definition BACKSLASH : ascii := chr 92.
Definition NEWLINE : ascii := chr 10.

(** ** Strings *)

Definition hex_char_to_int (c : ascii) : Z :=
  let u := uchar c in
  if (48 <=? u) && (u <=? 57) then u - 48
  else if (97 <=? u) && (u <=? 102) then u - 97 + 10
  else if (65 <=? u) && (u <=? 70) then u - 65 + 10
  else -1.

Definition parse_utf16_hex (s : string) : option Z :=
  match s with
  | String a (String b (String c (String d _))) =>
      let x1 := hex_char_to_int a in let x2 := hex_char_to_int b in
      let x3 := hex_char_to_int c in let x4 := hex_char_to_int d in
      if (x1 =? -1) || (x2 =? -1) || (x3 =? -1) || (x4 =? -1) then None
      else Some (Z.lor (Z.lor (Z.lor (Z.shiftl x1 12) (Z.shiftl x2 8)) (Z.shiftl x3 4)) x4)
  | _ => None
  end.

Fixpoint bytes (l : list Z) : string :=
  match l with [] => EmptyString | b :: l' => String (chr b) (bytes l') end.

(** The sequence after [\u]: the bytes it stands for and the text after it. *)
Definition parse_utf16 (s : string) : option (string * string) :=
  match parse_utf16_hex s with
  | None => None
  | Some cp =>
      let rest := str_drop 4 s in
      if cp <? 128 then Some (bytes [cp], rest)
      else if cp <? 2048 then
        Some (bytes [Z.lor (Z.land (Z.shiftr cp 6) 31) 192; Z.lor (Z.land cp 63) 128], rest)
      else if (cp <? 55296) || (57343 <? cp) then
        Some (bytes [Z.lor (Z.land (Z.shiftr cp 12) 15) 224;
                     Z.lor (Z.land (Z.shiftr cp 6) 63) 128; Z.lor (Z.land cp 63) 128], rest)
      else if (55296 <=? cp) && (cp <=? 56319) then
        match rest with
        | String b (String u rest2) =>
            if Ascii.eqb b BACKSLASH && Ascii.eqb u "u" then
              match parse_utf16_hex rest2 with
              | None => None
              | Some trail =>
                  if (trail <? 56320) || (57343 <? trail) then None
                  else
                    let cp := Z.lor (Z.shiftl (Z.land (cp - 55296) 1023) 10)
                                    (Z.land (trail - 56320) 1023) + 65536 in
                    Some (bytes [Z.lor (Z.land (Z.shiftr cp 18) 7) 240;
                                 Z.lor (Z.land (Z.shiftr cp 12) 63) 128;
                                 Z.lor (Z.land (Z.shiftr cp 6) 63) 128;
                                 Z.lor (Z.land cp 63) 128], str_drop 4 rest2)
              end
            else None
        | _ => None
        end
      else None
  end.

(** The character a one-letter escape stands for. *)
Definition simple_escape (c : ascii) : option ascii :=
  let u := uchar c in
  if (u =? 34) || (u =? 92) || (u =? 47) then Some c
  else if u =? 98 then Some (chr 8)
  else if u =? 102 then Some (chr 12)
  else if u =? 110 then Some (chr 10)
  else if u =? 114 then Some (chr 13)
  else if u =? 116 then Some (chr 9)
  else None.

(** The loop of [process_string] on the text between the quotes; every step
    consumes a character, so the length of the text is enough fuel. *)
Fixpoint process_loop (fuel : nat) (s : string) : option string :=
  match fuel, s with
  | _, EmptyString => Some EmptyString
  | O, _ => None
  | S f, String c s' =>
      if Ascii.eqb c BACKSLASH then
        match s' with
        | String e s'' =>
            match simple_escape e with
            | Some x => String x <$> process_loop f s''
            | None =>
                if Ascii.eqb e "u" then
                  match parse_utf16 s'' with
                  | Some (out, rest) => String.append out <$> process_loop f rest
                  | None => None
                  end
                else None
            end
        | EmptyString => None
        end
      else if uchar c <? 32 then None
      else String c <$> process_loop f s'
  end.

(** A buffer read as a C string ends at its first NUL. *)
Fixpoint c_string (s : string) : string :=
  match s with
  | String c s' => if uchar c =? 0 then EmptyString else String c (c_string s')
  | EmptyString => EmptyString
  end.

Definition process_string (s : string) : option string :=
  c_string <$> process_loop (String.length s) s.

(** After the opening quote: the text up to the closing one and what follows. *)
Fixpoint skip_to_quote (s : string) : option (string * string) :=
  match s with
  | EmptyString => None
  | String c s' =>
      if Ascii.eqb c QUOTE then Some (EmptyString, s')
      else if Ascii.eqb c BACKSLASH then
        match s' with
        | EmptyString => None
        | String e s'' =>
            match skip_to_quote s'' with
            | Some (raw, rest) => Some (String c (String e raw), rest)
            | None => None
            end
        end
      else match skip_to_quote s' with
           | Some (raw, rest) => Some (String c raw, rest)
           | None => None
           end
  end.

Definition skip_quotes (s : string) : option (string * string) :=
  match s with
  | String c s' => if Ascii.eqb c QUOTE then skip_to_quote s' else None
  | EmptyString => None
  end.

Definition get_quoted_string (s : string) : option (string * string) :=
  match skip_quotes s with
  | None => None
  | Some (raw, rest) =>
      match process_string raw with
      | Some out => Some (out, rest)
      | None => None
      end
  end.

(** ** Scalars *)

Fixpoint no_x (len : nat) (s : string) : bool :=
  match len, s with
  | S n, String c s' => negb (Ascii.eqb c "x" || Ascii.eqb c "X") && no_x n s'
  | _, _ => true
  end.

(** On the first [len] characters of [s]. *)
Definition is_decimal (s : string) (len : nat) : bool :=
  if Nat.ltb 1 len && (byte_at s 0 =? 48) && negb (byte_at s 1 =? 46) then false
  else if Nat.ltb 2 len && starts_with "-0" s && negb (byte_at s 2 =? 46) then false
  else no_x len s.

Definition parse_number_value (s : string) : option (JSON_Value * string) :=
  let number := strtod s in
  let consumed rest := (String.length s - String.length rest)%nat in
  if sd_erange number || negb (is_decimal s (consumed (sd_end number))) then None
  else
    let u_int := strtoul 10 s in
    let result :=
      if negb (st_erange u_int) && Nat.eqb (consumed (st_end u_int)) (consumed (sd_end number))
      then json_value_init_uint (st_val u_int)
      else json_value_init_number (sd_val number) in
    match result with
    | Some v => Some (v, sd_end number)
    | None => None
    end.

Definition parse_string_value (s : string) : option (JSON_Value * string) :=
  match get_quoted_string s with
  | Some (out, rest) => Some (VString out, rest)
  | None => None
  end.

Definition parse_boolean_value (s : string) : option (JSON_Value * string) :=
  if starts_with "true" s then Some (VBoolean true, str_drop 4 s)
  else if starts_with "false" s then Some (VBoolean false, str_drop 5 s)
  else None.

Definition parse_null_value (s : string) : option (JSON_Value * string) :=
  if starts_with "null" s then Some (VNull, str_drop 4 s) else None.

(** ** Values *)

Definition MAX_NESTING : Z := 2048.

Inductive parse_result :=
| POk (v : JSON_Value) (rest : string)
| PFail
| POutOfFuel.

Definition scalar (r : option (JSON_Value * string)) : parse_result :=
  match r with Some (v, rest) => POk v rest | None => PFail end.

Definition char_is (c : ascii) (s : string) : bool :=
  match s with String x _ => Ascii.eqb x c | EmptyString => false end.

(** [parse_members] and [parse_items] are the loops of [parse_object_value] and
    [parse_array_value]. *)
Fixpoint parse_value (fuel : nat) (s : string) (nesting : Z) : parse_result :=
  match fuel with
  | O => POutOfFuel
  | S f =>
      if MAX_NESTING <? nesting then PFail
      else
        let s := skip_space s in
        if char_is "{" s then parse_object_value f s (nesting + 1)
        else if char_is "[" s then parse_array_value f s (nesting + 1)
        else if char_is QUOTE s then scalar (parse_string_value s)
        else if char_is "f" s || char_is "t" s then scalar (parse_boolean_value s)
        else if char_is "-" s || match s with String c _ => isdigit c | _ => false end
        then scalar (parse_number_value s)
        else if char_is "n" s then scalar (parse_null_value s)
        else PFail
  end
with parse_object_value (fuel : nat) (s : string) (nesting : Z) : parse_result :=
  match fuel with
  | O => POutOfFuel
  | S f =>
      if negb (char_is "{" s) then PFail
      else
        let s := skip_space (str_drop 1 s) in
        if char_is "}" s then POk json_value_init_object (str_drop 1 s)
        else parse_members f s [] nesting
  end
with parse_members (fuel : nat) (s : string) (acc : JSON_Object) (nesting : Z) : parse_result :=
  match fuel with
  | O => POutOfFuel
  | S f =>
      match s with
      | EmptyString => PFail
      | _ =>
          match get_quoted_string s with
          | None => PFail
          | Some (new_key, s) =>
              let s := skip_space s in
              if negb (char_is ":" s) then PFail
              else
                match parse_value f (str_drop 1 s) nesting with
                | POk new_value s =>
                    match json_object_add acc (Some new_key) (Some new_value) with
                    | None => PFail
                    | Some acc =>
                        let s := skip_space s in
                        if char_is "," s then parse_members f (skip_space (str_drop 1 s)) acc nesting
                        else if char_is "}" s then POk (VObject acc) (str_drop 1 s)
                        else PFail
                    end
                | r => r
                end
          end
      end
  end
with parse_array_value (fuel : nat) (s : string) (nesting : Z) : parse_result :=
  match fuel with
  | O => POutOfFuel
  | S f =>
      if negb (char_is "[" s) then PFail
      else
        let s := skip_space (str_drop 1 s) in
        if char_is "]" s then POk json_value_init_array (str_drop 1 s)
        else parse_items f s [] nesting
  end
with parse_items (fuel : nat) (s : string) (acc : JSON_Array) (nesting : Z) : parse_result :=
  match fuel with
  | O => POutOfFuel
  | S f =>
      match s with
      | EmptyString => PFail
      | _ =>
          match parse_value f s nesting with
          | POk new_value s =>
              let acc := json_array_add acc new_value in
              let s := skip_space s in
              if char_is "," s then parse_items f (skip_space (str_drop 1 s)) acc nesting
              else if char_is "]" s then POk (VArray acc) (str_drop 1 s)
              else PFail
          | r => r
          end
      end
  end.

(** Enough fuel for a text of the length (see [parse_terminates]). *)
Definition parse_fuel (s : string) : nat := (3 * String.length s + 4)%nat.

Definition parse_text (s : string) : option JSON_Value :=
  match parse_value (parse_fuel s) s 0 with
  | POk v _ => Some v
  | _ => None
  end.

Definition json_parse_string (s : option string) : option JSON_Value :=
  match s with
  | None => None
  | Some s =>
      if (byte_at s 0 =? 239) && (byte_at s 1 =? 187) && (byte_at s 2 =? 191)
      then parse_text (str_drop 3 s)
      else parse_text s
  end.

(** ** Comments *)

(** [strstr]: the text before the first occurrence and the text from it on. *)
Fixpoint str_find (p s : string) : option (string * string) :=
  if starts_with p s then Some (EmptyString, s)
  else match s with
       | EmptyString => None
       | String c s' =>
           match str_find p s' with
           | Some (a, b) => Some (String c a, b)
           | None => None
           end
       end.

Fixpoint blanks (n : nat) : string :=
  match n with O => EmptyString | S n' => String " " (blanks n') end.

(** The text is changed in place: a comment becomes blanks of the same length.
    A comment that is not closed keeps its body, and the scan ends there. *)
Fixpoint remove_comments_loop (fuel : nat) (start_token end_token : string)
    (in_string escaped : bool) (s : string) : string :=
  match fuel, s with
  | S f, String c s' =>
      if Ascii.eqb c BACKSLASH && negb escaped then
        String c (remove_comments_loop f start_token end_token in_string true s')
      else if Ascii.eqb c QUOTE && negb escaped then
        String c (remove_comments_loop f start_token end_token (negb in_string) false s')
      else if negb in_string && starts_with start_token s then
        let body := str_drop (String.length start_token) s in
        match str_find end_token body with
        | None => blanks (String.length start_token) +:+ body
        | Some (before, after) =>
            blanks (String.length start_token + String.length before + String.length end_token)
            +:+ remove_comments_loop f start_token end_token in_string false
                  (str_drop (String.length end_token) after)
        end
      else String c (remove_comments_loop f start_token end_token in_string false s')
  | _, _ => s
  end.

Definition remove_comments (s start_token end_token : string) : string :=
  if String.eqb start_token EmptyString || String.eqb end_token EmptyString then s
  else remove_comments_loop (String.length s) start_token end_token false false s.

Definition json_parse_string_with_comments (s : string) : option JSON_Value :=
  let s := remove_comments s "/*" "*/" in
  let s := remove_comments s "//" (String NEWLINE EmptyString) in
  parse_text s.

(** ** Serialization

    The same code computes the size of the text (no buffer) and writes it. The
    count of written characters is an [int]. *)

Record writer := { w_buf : option string; w_total : Z }.

Definition append_string (w : writer) (t : string) : writer :=
  {| w_buf := (fun b => b +:+ t) <$> w_buf w;
     w_total := wrap_s 32 (w_total w + Z.of_nat (String.length t)) |}.

Fixpoint append_indent (w : writer) (level : nat) : writer :=
  match level with O => w | S l => append_indent (append_string w "    ") l end.

Definition hex_digit (d : Z) : ascii := if d <? 10 then chr (48 + d) else chr (97 + d - 10).

(** The text a character is written as. *)
Definition escape (c : ascii) : string :=
  let u := uchar c in
  let pair e := String BACKSLASH (String e EmptyString) in
  if u =? 34 then pair QUOTE
  else if u =? 92 then pair BACKSLASH
  else if u =? 8 then pair "b"%char
  else if u =? 12 then pair "f"%char
  else if u =? 10 then pair "n"%char
  else if u =? 13 then pair "r"%char
  else if u =? 9 then pair "t"%char
  else if u <? 32
  then String BACKSLASH ("u00" +:+ String (hex_digit (u / 16)) (String (hex_digit (u mod 16)) EmptyString))
  else String c EmptyString.

Fixpoint serialize_chars (s : string) (w : writer) : writer :=
  match s with
  | EmptyString => w
  | String c s' => serialize_chars s' (append_string w (escape c))
  end.

Definition json_serialize_string (s : string) (w : writer) : writer :=
  let w := append_string w (String QUOTE EmptyString) in
  let w := serialize_chars s w in
  append_string w (String QUOTE EmptyString).

Section serialize_loops.
  Variables (is_pretty : bool) (level : nat).

Definition newline (w : writer) : writer :=
  if is_pretty then append_string w (String NEWLINE EmptyString) else w.

Definition indent (w : writer) (level : nat) : writer :=
  if is_pretty then append_indent w level else w.

Fixpoint serialize_items (serialize : JSON_Value -> writer -> option writer)
    (l : JSON_Array) (w : writer) : option writer :=
  match l with
  | [] => Some w
  | x :: l' =>
      let w := indent w (S level) in
      match serialize x w with
      | None => None
      | Some w =>
          let w := match l' with [] => w | _ => append_string w "," end in
          serialize_items serialize l' (newline w)
      end
  end.

Fixpoint serialize_members (values : list (string * (writer -> option writer)))
    (names : list string) (w : writer) : option writer :=
  match names with
  | [] => Some w
  | key :: names' =>
      let w := indent w (S level) in
      let w := json_serialize_string key w in
      let w := append_string w ":" in
      let w := if is_pretty then append_string w " " else w in
      match json_object_getn_value values key with
      | None => None
      | Some serialize =>
          match serialize w with
          | None => None
          | Some w =>
              let w := match names' with [] => w | _ => append_string w "," end in
              serialize_members values names' (newline w)
          end
      end
  end.
End serialize_loops.

(** [count > 0 && is_pretty] *)
Definition some_pretty {A} (l : list A) (is_pretty : bool) : bool :=
  negb (Nat.eqb (length l) 0) && is_pretty.

Fixpoint json_serialize_to_buffer_r (v : JSON_Value) (level : nat) (is_pretty : bool) (w : writer)
    : option writer :=
  match v with
  | VArray a =>
      let w := append_string w "[" in
      let w := newline (some_pretty a is_pretty) w in
      match serialize_items is_pretty level
              (fun x => json_serialize_to_buffer_r x (S level) is_pretty) a w with
      | None => None
      | Some w => Some (append_string (indent (some_pretty a is_pretty) w level) "]")
      end
  | VObject o =>
      let w := append_string w "{" in
      let w := newline (some_pretty o is_pretty) w in
      match serialize_members is_pretty level
              (map (fun kv => (fst kv, json_serialize_to_buffer_r (snd kv) (S level) is_pretty)) o)
              (map fst o) w with
      | None => None
      | Some w => Some (append_string (indent (some_pretty o is_pretty) w level) "}")
      end
  | VString s => Some (json_serialize_string s w)
  | VBoolean b => Some (append_string w (if b then "true" else "false"))
  | VNumber d => Some (append_string w (print_g17 d))
  | VUint u => Some (append_string w (print_u u))
  | VNull => Some (append_string w "null")
  end.

Definition no_buffer : writer := {| w_buf := None; w_total := 0 |}.
Definition new_buffer : writer := {| w_buf := Some EmptyString; w_total := 0 |}.

(** The size to allocate, 0 on an error. *)
Definition serialization_size (is_pretty : bool) (v : option JSON_Value) : Z :=
  match v with
  | None => 0
  | Some v =>
      match json_serialize_to_buffer_r v 0 is_pretty no_buffer with
      | None => 0
      | Some w => if w_total w <? 0 then 0 else w_total w + 1
      end
  end.

(** The text written to a buffer of the size, with its terminating NUL. *)
Definition serialize_to_buffer (is_pretty : bool) (v : option JSON_Value) (buf_size_in_bytes : Z)
    : option string :=
  let needed := serialization_size is_pretty v in
  if (needed =? 0) || (buf_size_in_bytes <? needed) then None
  else
    match v with
    | None => None
    | Some v =>
        match json_serialize_to_buffer_r v 0 is_pretty new_buffer with
        | None => None
        | Some w => if w_total w <? 0 then None else w_buf w
        end
    end.

Definition serialize_to_string (is_pretty : bool) (v : option JSON_Value) : option string :=
  let buf_size_bytes := serialization_size is_pretty v in
  if buf_size_bytes =? 0 then None else serialize_to_buffer is_pretty v buf_size_bytes.

Definition json_serialization_size : option JSON_Value -> Z := serialization_size false.
Definition json_serialization_size_pretty : option JSON_Value -> Z := serialization_size true.
Definition json_serialize_to_buffer : option JSON_Value -> Z -> option string := serialize_to_buffer false.
Definition json_serialize_to_buffer_pretty : option JSON_Value -> Z -> option string :=
  serialize_to_buffer true.
Definition json_serialize_to_string : option JSON_Value -> option string := serialize_to_string false.
Definition json_serialize_to_string_pretty : option JSON_Value -> option string :=
  serialize_to_string true.

Definition sample_text : string :=
  String NEWLINE "{" +:+ String QUOTE "a" +:+ String QUOTE ": [1, -2.5, true, null], "
  +:+ String QUOTE (String BACKSLASH "u00e9") +:+ String QUOTE ":" +:+ String QUOTE "x" +:+ String QUOTE "}".

Example parse_sample :
  parse_text sample_text
  = Some (VObject [("a", VArray [VUint 1; VNumber (sd_val (strtod "-2.5")); VBoolean true; VNull]);
                   (bytes [195; 169], VString "x")]).
Proof. vm_compute. reflexivity. Qed.

Example reparse_sample :
  (json_parse_string (json_serialize_to_string_pretty (parse_text sample_text)))
  = parse_text sample_text.
Proof. vm_compute. reflexivity. Qed.
