(* ===== verification/ParsonProofs.v ===== *)
(** * Correctness of the JSON text layer

    The serializer writes a reference text whose size its first pass computes
    exactly; the parser stops on every text, returns well-formed values only, and
    reads back what the serializer wrote. *)

From S2P Require Import Prelude CLib CFloat Parson ParsonText.
From Stdlib Require Import Ascii.
Local Open Scope Z_scope.

(** ** The reference text of a value *)

Fixpoint spaces (level : nat) : string :=
  match level with O => EmptyString | S l => "    " +:+ spaces l end.

Definition nl_text (p : bool) : string := if p then String NEWLINE EmptyString else EmptyString.
Definition indent_text (p : bool) (level : nat) : string := if p then spaces level else EmptyString.

Fixpoint escape_all (s : string) : string :=
  match s with String c s' => escape c +:+ escape_all s' | EmptyString => EmptyString end.

Definition quoted (s : string) : string :=
  String QUOTE (escape_all s +:+ String QUOTE EmptyString).

(** The lines of a container: each one indented, all but the last with a comma. *)
Fixpoint lines_text (p : bool) (level : nat) (l : list string) : string :=
  match l with
  | [] => EmptyString
  | t :: l' =>
      indent_text p (S level) +:+ t +:+ (match l' with [] => EmptyString | _ => "," end)
      +:+ nl_text p +:+ lines_text p level l'
  end.

Definition container_text (p : bool) (level : nat) (op cl : string) (l : list string) : string :=
  op +:+ nl_text (some_pretty l p) +:+ lines_text p level l
  +:+ indent_text (some_pretty l p) level +:+ cl.

Definition member_text (p : bool) (key value : string) : string :=
  quoted key +:+ ":" +:+ (if p then " " else EmptyString) +:+ value.

Fixpoint json_text (p : bool) (level : nat) (v : JSON_Value) : string :=
  match v with
  | VArray a => container_text p level "[" "]" (map (json_text p (S level)) a)
  | VObject o =>
      container_text p level "{" "}"
        (map (fun kv => member_text p (fst kv) (json_text p (S level) (snd kv))) o)
  | VString s => quoted s
  | VBoolean b => if b then "true" else "false"
  | VNumber d => print_g17 d
  | VUint u => print_u u
  | VNull => "null"
  end.

(** ** The serializer writes the reference text *)

(** The writer after the text [t], with or without a buffer. *)
Definition written (b : bool) (t : string) : writer :=
  {| w_buf := if b then Some t else None;
     w_total := wrap_s 32 (Z.of_nat (String.length t)) |}.

Lemma wrap_s_add a b : wrap_s 32 (wrap_s 32 a + b) = wrap_s 32 (a + b).
Proof.
  unfold wrap_s. f_equal.
  replace ((a + 2 ^ (32 - 1)) mod 2 ^ 32 - 2 ^ (32 - 1) + b + 2 ^ (32 - 1))
    with ((a + 2 ^ (32 - 1)) mod 2 ^ 32 + b) by lia.
  rewrite Z.add_mod_idemp_l by lia. f_equal. lia.
Qed.

Lemma append_written b t u : append_string (written b t) u = written b (t +:+ u).
Proof.
  unfold append_string, written. f_equal; cbn [w_buf w_total].
  - by destruct b.
  - rewrite wrap_s_add, length_append. f_equal. lia.
Qed.

Lemma append_indent_written b t n : append_indent (written b t) n = written b (t +:+ spaces n).
Proof.
  revert t. induction n as [|n IH]; intros t; cbn [append_indent spaces].
  - by rewrite append_nil_r.
  - by rewrite append_written, IH, append_assoc.
Qed.

Lemma newline_written p b t : newline p (written b t) = written b (t +:+ nl_text p).
Proof. destruct p; cbn [newline nl_text]; by rewrite ?append_written, ?append_nil_r. Qed.

Lemma indent_written p b t n : indent p (written b t) n = written b (t +:+ indent_text p n).
Proof. destruct p; cbn [indent indent_text]; by rewrite ?append_indent_written, ?append_nil_r. Qed.

Lemma serialize_chars_written s b t :
  serialize_chars s (written b t) = written b (t +:+ escape_all s).
Proof.
  revert t. induction s as [|c s IH]; intros t; cbn [serialize_chars escape_all].
  - by rewrite append_nil_r.
  - by rewrite append_written, IH, append_assoc.
Qed.

Lemma serialize_string_written s b t :
  json_serialize_string s (written b t) = written b (t +:+ quoted s).
Proof.
  unfold json_serialize_string, quoted.
  by rewrite append_written, serialize_chars_written, append_written, !append_assoc.
Qed.

Lemma comma_written {A} (l : list A) b t :
  match l with [] => written b t | _ => append_string (written b t) "," end
  = written b (t +:+ match l with [] => EmptyString | _ => "," end).
Proof. destruct l; by rewrite ?append_written, ?append_nil_r. Qed.

Lemma items_written p level (ser : JSON_Value -> writer -> option writer) (text : JSON_Value -> string) l b t :
  Forall (fun x => forall t, ser x (written b t) = Some (written b (t +:+ text x))) l ->
  serialize_items p level ser l (written b t)
  = Some (written b (t +:+ lines_text p level (map text l))).
Proof.
  revert t. induction l as [|x l IH]; intros t Hall; cbn [serialize_items map lines_text].
  - by rewrite append_nil_r.
  - apply Forall_cons in Hall as [Hx Hall].
    rewrite indent_written, Hx, comma_written, newline_written, IH by done.
    rewrite !append_assoc. by destruct l.
Qed.

Lemma members_written p level (ser : JSON_Value -> writer -> option writer) (text : JSON_Value -> string)
    (o l : JSON_Object) b t :
  NoDup (map fst o) -> l ⊆ o ->
  Forall (fun kv => forall t, ser (snd kv) (written b t) = Some (written b (t +:+ text (snd kv)))) o ->
  serialize_members p level (map (fun kv => (fst kv, ser (snd kv))) o) (map fst l) (written b t)
  = Some (written b (t +:+ lines_text p level (map (fun kv => member_text p (fst kv) (text (snd kv))) l))).
Proof.
  intros Hnd Hsub Hall. revert t.
  induction l as [|[k x] l IH]; intros t; cbn [serialize_members map lines_text fst snd].
  - by rewrite append_nil_r.
  - assert ((k, x) ∈ o) as Hin by set_solver.
    pose proof (proj1 (Forall_forall _ _) Hall _ Hin) as Hx. cbn [snd] in Hx.
    rewrite getn_value_map_snd, (getn_value_nodup o k x) by done.
    cbn [fmap option_fmap option_map].
    rewrite indent_written, serialize_string_written, append_written.
    replace (if p then append_string _ " " else _)
      with (written b (((t +:+ indent_text p (S level)) +:+ quoted k) +:+ ":"
                       +:+ (if p then " " else EmptyString)))
      by (destruct p; by rewrite ?append_written, ?append_nil_r, ?append_assoc).
    rewrite Hx, comma_written, newline_written, IH by set_solver.
    unfold member_text. rewrite !append_assoc. by destruct l.
Qed.

Lemma some_pretty_map {A B} (f : A -> B) l p : some_pretty (map f l) p = some_pretty l p.
Proof. unfold some_pretty. by rewrite length_map. Qed.

Lemma serialize_written v p level b t :
  json_wf v ->
  json_serialize_to_buffer_r v level p (written b t) = Some (written b (t +:+ json_text p level v)).
Proof.
  revert level t. induction v as [ | s | d | o IH | a IH | [] | u ] using JSON_Value_ind;
    intros level t Hwf; cbn [json_serialize_to_buffer_r json_text];
    rewrite ?append_written, ?serialize_string_written; try done.
  - apply json_wf_object in Hwf as [Hnd Hall]. rewrite newline_written.
    rewrite (members_written p level (fun x => json_serialize_to_buffer_r x (S level) p)
               (json_text p (S level))); [|done|done|].
    + rewrite indent_written, append_written. unfold container_text.
      by rewrite some_pretty_map, !append_assoc.
    + eapply Forall_impl; [exact (List.Forall_and IH Hall)|].
      intros [k x] [Hx [_ Hw]] t'. by apply Hx.
  - apply json_wf_array in Hwf. rewrite newline_written.
    rewrite (items_written p level _ (json_text p (S level))).
    + rewrite indent_written, append_written. unfold container_text.
      by rewrite some_pretty_map, !append_assoc.
    + eapply Forall_impl; [exact (List.Forall_and IH Hwf)|].
      intros x [Hx Hw] t'. by apply Hx.
Qed.

(** The writers the two passes start from. *)
Lemma no_buffer_written : no_buffer = written false EmptyString.
Proof. done. Qed.

Lemma new_buffer_written : new_buffer = written true EmptyString.
Proof. done. Qed.

Lemma serialize_text p v :
  json_wf v -> Z.of_nat (String.length (json_text p 0 v)) < 2 ^ 31 - 1 ->
  serialization_size p (Some v) = Z.of_nat (String.length (json_text p 0 v)) + 1 /\
  serialize_to_string p (Some v) = Some (json_text p 0 v).
Proof.
  intros Hwf Hlen.
  assert (serialization_size p (Some v) = Z.of_nat (String.length (json_text p 0 v)) + 1) as Hsize.
  { cbn [serialization_size]. rewrite no_buffer_written, serialize_written by done.
    cbn [written w_total String.append]. rewrite wrap_s_small by lia.
    by rewrite (proj2 (Z.ltb_ge _ _)) by lia. }
  split; [done|]. unfold serialize_to_string, serialize_to_buffer. rewrite Hsize.
  rewrite (proj2 (Z.eqb_neq _ _)) by lia. rewrite Z.ltb_irrefl. cbn [orb].
  rewrite new_buffer_written, serialize_written by done.
  cbn [written w_total w_buf String.append]. rewrite wrap_s_small by lia.
  by rewrite (proj2 (Z.ltb_ge _ _)) by lia.
Qed.

(** C28. For a well-formed value whose text is shorter than [INT_MAX], compact or
    pretty, the size pass returns exactly the length of the text plus its NUL,
    [json_serialize_to_string] returns the text, and [json_serialize_to_buffer]
    writes it when the buffer has room for it and fails otherwise: no byte is
    written past the end of the buffer. *)
Theorem serialization_fits (p : bool) (v : JSON_Value) :
  json_wf v -> Z.of_nat (String.length (json_text p 0 v)) < 2 ^ 31 - 1 ->
  let text := json_text p 0 v in
  let needed := Z.of_nat (String.length text) + 1 in
  serialization_size p (Some v) = needed /\
  serialize_to_string p (Some v) = Some text /\
  (forall n, serialize_to_buffer p (Some v) n = if n <? needed then None else Some text).
Proof.
  intros Hwf Hlen. cbn zeta. destruct (serialize_text p v Hwf Hlen) as [Hsize Hstr].
  split_and!; [done|done|]. intros n. unfold serialize_to_string in Hstr.
  rewrite Hsize in Hstr. rewrite (proj2 (Z.eqb_neq _ _)) in Hstr by lia.
  unfold serialize_to_buffer in *. rewrite Hsize in *.
  rewrite (proj2 (Z.eqb_neq _ _)) in * by lia. rewrite Z.ltb_irrefl in Hstr. cbn [orb] in *.
  by destruct (n <? _).
Qed.

Lemma serialization_fits_witness :
  serialize_to_string true (Some (VArray [VUint 12; VString "a"]))
  = Some (json_text true 0 (VArray [VUint 12; VString "a"])).
Proof.
  assert (json_wf (VArray [VUint 12; VString "a"])) as H.
  { cbn. split_and!; try done; try lia. }
  apply (serialization_fits true _ H). vm_compute. reflexivity.
Defined.

(** ** The parser stops *)

Lemma char_is_length c s :
  char_is c s = true -> (String.length s = S (String.length (str_drop 1 s)))%nat.
Proof. by destruct s. Qed.

Lemma str_drop_length n s : (String.length (str_drop n s) = String.length s - n)%nat.
Proof. revert s. induction n as [|n IH]; intros [|c s]; simpl; [done|done|done|apply IH]. Qed.

Lemma skip_to_quote_shorter s raw rest :
  skip_to_quote s = Some (raw, rest) ->
  (String.length s = String.length raw + S (String.length rest))%nat.
Proof.
  remember (String.length s) as n eqn:Hn. revert s raw rest Hn.
  induction (lt_wf n) as [n _ IH]; intros [|c s] raw rest ->; [done|]. cbn [skip_to_quote].
  destruct (Ascii.eqb c QUOTE); [by intros [= <- <-]|].
  destruct (Ascii.eqb c BACKSLASH).
  - destruct s as [|e s]; [done|]. destruct (skip_to_quote s) as [[r1 r2]|] eqn:E; [|done].
    intros [= <- <-]. specialize (IH (String.length s) ltac:(simpl; lia) s r1 r2 eq_refl E). simpl. lia.
  - destruct (skip_to_quote s) as [[r1 r2]|] eqn:E; [|done].
    intros [= <- <-]. specialize (IH (String.length s) ltac:(simpl; lia) s r1 r2 eq_refl E). simpl. lia.
Qed.

Lemma get_quoted_string_shorter s out rest :
  get_quoted_string s = Some (out, rest) -> (String.length rest + 2 <= String.length s)%nat.
Proof.
  unfold get_quoted_string, skip_quotes. destruct s as [|c s]; [done|].
  destruct (Ascii.eqb c QUOTE); [|done].
  destruct (skip_to_quote s) as [[raw r]|] eqn:E; [|done]. apply skip_to_quote_shorter in E.
  destruct (process_string raw); [|done]. intros [= <- <-]. simpl. lia.
Qed.

Lemma scalar_shorter s r v rest :
  (r = parse_string_value s \/ r = parse_boolean_value s \/ r = parse_number_value s \/
   r = parse_null_value s) ->
  scalar r = POk v rest -> (String.length rest <= String.length s)%nat.
Proof.
  intros [->|[->|[->| ->]]].
  - unfold parse_string_value. destruct (get_quoted_string s) as [[o r]|] eqn:E; [|done].
    apply get_quoted_string_shorter in E. intros [= <- <-]. lia.
  - unfold parse_boolean_value.
    destruct (starts_with "true" s); [|destruct (starts_with "false" s); [|done]];
      intros [= <- <-]; rewrite str_drop_length; lia.
  - unfold parse_number_value. destruct (_ || _); [done|].
    match goal with |- context [match ?r with Some _ => _ | None => _ end] => destruct r; [|done] end.
    intros [= <- <-]. apply strtofp_length.
  - unfold parse_null_value. destruct (starts_with "null" s); [|done].
    intros [= <- <-]. rewrite str_drop_length. lia.
Qed.

(** The facts on lengths the parser's steps need. *)
Ltac lengths :=
  repeat match goal with
         | H : char_is ?c ?s = true |- _ => apply char_is_length in H
         | H : get_quoted_string _ = Some _ |- _ => apply get_quoted_string_shorter in H
         end;
  repeat match goal with
         | |- context [skip_space ?s] =>
             lazymatch goal with
             | _ : (String.length (skip_space s) <= String.length s)%nat |- _ => fail
             | _ => pose proof (skip_space_length s)
             end
         | H : context [skip_space ?s] |- _ =>
             lazymatch goal with
             | _ : (String.length (skip_space s) <= String.length s)%nat |- _ => fail
             | _ => pose proof (skip_space_length s)
             end
         end;
  rewrite ?str_drop_length in *; try lia.

(** Case analysis on the next guard of the parser. *)
Ltac parse_case :=
  match goal with
  | |- context [if ?b then _ else _] => destruct b eqn:?
  | |- context [match get_quoted_string ?s with Some _ => _ | None => _ end] =>
      destruct (get_quoted_string s) as [[??]|] eqn:?
  | |- context [match parse_value ?f ?s ?n with POk _ _ => _ | PFail => _ | POutOfFuel => _ end] =>
      let H := fresh "Hval" in destruct (parse_value f s n) eqn:H
  | |- context [match json_object_add ?a ?k ?v with Some _ => _ | None => _ end] =>
      let H := fresh "Hadd" in destruct (json_object_add a k v) eqn:H
  end.

Lemma parse_shorter f :
  (forall s n v rest, parse_value f s n = POk v rest -> (String.length rest <= String.length s)%nat) /\
  (forall s n v rest, parse_object_value f s n = POk v rest -> (String.length rest <= String.length s)%nat) /\
  (forall s acc n v rest, parse_members f s acc n = POk v rest -> (String.length rest <= String.length s)%nat) /\
  (forall s n v rest, parse_array_value f s n = POk v rest -> (String.length rest <= String.length s)%nat) /\
  (forall s acc n v rest, parse_items f s acc n = POk v rest -> (String.length rest <= String.length s)%nat).
Proof.
  induction f as [|f (IHv & IHo & IHm & IHa & IHi)]; [by split_and!|].
  split_and!; intros s; intros;
    repeat match goal with H : _ = POk _ _ |- _ => revert H end.
  - cbn [parse_value]. repeat parse_case; try done;
      (intros Hr; first [apply IHo in Hr | apply IHa in Hr | apply scalar_shorter with (s := skip_space s) in Hr];
       [lengths|try tauto ..]).
  - cbn [parse_object_value]. repeat parse_case; try done.
    + intros [= <- <-]. lengths.
    + intros Hr%IHm. lengths.
  - cbn [parse_members]. destruct s as [|c s]; [done|]. repeat parse_case; try done.
    + intros Hr%IHm. apply IHv in Hval as ?. lengths.
    + intros [= <- <-]. apply IHv in Hval as ?. lengths.
  - cbn [parse_array_value]. repeat parse_case; try done.
    + intros [= <- <-]. lengths.
    + intros Hr%IHi. lengths.
  - cbn [parse_items]. destruct s as [|c s]; [done|]. repeat parse_case; try done.
    + intros Hr%IHi. apply IHv in Hval as ?. lengths.
    + intros [= <- <-]. apply IHv in Hval as ?. lengths.
Qed.

Lemma value_shorter f s n v rest :
  parse_value f s n = POk v rest -> (String.length rest <= String.length s)%nat.
Proof. apply parse_shorter. Qed.

Lemma scalar_fuel r : scalar r <> POutOfFuel.
Proof. by destruct r as [[]|]. Qed.

Lemma parse_enough f :
  (forall s n, (3 * String.length s + 3 <= f)%nat -> parse_value f s n <> POutOfFuel) /\
  (forall s n, (3 * String.length s + 2 <= f)%nat -> parse_object_value f s n <> POutOfFuel) /\
  (forall s acc n, (3 * String.length s + 4 <= f)%nat -> parse_members f s acc n <> POutOfFuel) /\
  (forall s n, (3 * String.length s + 2 <= f)%nat -> parse_array_value f s n <> POutOfFuel) /\
  (forall s acc n, (3 * String.length s + 4 <= f)%nat -> parse_items f s acc n <> POutOfFuel).
Proof.
  induction f as [|f (IHv & IHo & IHm & IHa & IHi)]; [split_and!; intros; lia|].
  split_and!; intros s; intros.
  - cbn [parse_value]. repeat parse_case; try done; try apply scalar_fuel;
      first [apply IHo | apply IHa]; lengths.
  - cbn [parse_object_value]. repeat parse_case; try done. apply IHm. bool_to_prop. lengths.
  - cbn [parse_members]. destruct s as [|c s]; [done|].
    repeat parse_case; try done; bool_to_prop.
    + apply value_shorter in Hval. apply IHm. lengths.
    + exfalso. revert Hval. apply IHv. lengths.
  - cbn [parse_array_value]. repeat parse_case; try done. apply IHi. bool_to_prop. lengths.
  - cbn [parse_items]. destruct s as [|c s]; [done|]. repeat parse_case; try done.
    + apply value_shorter in Hval. apply IHi. lengths.
    + exfalso. revert Hval. apply IHv. lengths.
Qed.

(** More fuel does not change a result. *)
Lemma parse_more f :
  forall g, (f <= g)%nat ->
  (forall s n, parse_value f s n <> POutOfFuel -> parse_value g s n = parse_value f s n) /\
  (forall s n, parse_object_value f s n <> POutOfFuel ->
     parse_object_value g s n = parse_object_value f s n) /\
  (forall s acc n, parse_members f s acc n <> POutOfFuel ->
     parse_members g s acc n = parse_members f s acc n) /\
  (forall s n, parse_array_value f s n <> POutOfFuel ->
     parse_array_value g s n = parse_array_value f s n) /\
  (forall s acc n, parse_items f s acc n <> POutOfFuel ->
     parse_items g s acc n = parse_items f s acc n).
Proof.
  induction f as [|f IH]; intros [|g] Hle; [by split_and!|by split_and!|lia|].
  destruct (IH g ltac:(lia)) as (IHv & IHo & IHm & IHa & IHi).
  split_and!; intros s; intros; match goal with H : _ <> POutOfFuel |- _ => revert H end.
  - cbn [parse_value]. repeat parse_case; try done; intros H; first [by apply IHo | by apply IHa].
  - cbn [parse_object_value]. repeat parse_case; try done. intros H. by apply IHm.
  - cbn [parse_members]. destruct s as [|c s]; [done|].
    destruct (get_quoted_string _) as [[k s1]|]; [|done]. destruct (negb _); [done|]. intros H.
    rewrite (IHv (str_drop 1 (skip_space s1))) by (intros Heq; by rewrite Heq in H).
    destruct (parse_value f _ n) as [v s2| |]; try done.
    destruct (json_object_add _ _ _); [|done]. destruct (char_is "," _); [|done]. by apply IHm.
  - cbn [parse_array_value]. repeat parse_case; try done. intros H. by apply IHi.
  - cbn [parse_items]. destruct s as [|c s]; [done|]. intros H.
    rewrite (IHv (String c s)) by (intros Heq; by rewrite Heq in H).
    destruct (parse_value f _ n) as [v s2| |]; try done.
    destruct (char_is "," _); [|done]. by apply IHi.
Qed.

(** C29. The parser stops on every text at every nesting: with the fuel of
    [parse_fuel], three times the length of the text plus four, it ends with a
    value or a failure, which more fuel does not change. *)
Theorem parse_terminates (s : string) (nesting : Z) (f : nat) :
  (parse_fuel s <= f)%nat ->
  parse_value f s nesting <> POutOfFuel /\
  parse_value f s nesting = parse_value (parse_fuel s) s nesting.
Proof.
  unfold parse_fuel. intros Hf. split.
  - apply parse_enough. lia.
  - apply parse_more; [lia|]. apply parse_enough. lia.
Qed.

Lemma parse_terminates_witness :
  parse_value 100 "[[1], {}]" 0 <> POutOfFuel.
Proof. apply (parse_terminates "[[1], {}]" 0 100). vm_compute. lia. Defined.

(** ** The parser returns well-formed values *)

(** How deep the containers with members nest. *)
Fixpoint json_depth (v : JSON_Value) : Z :=
  match v with
  | VArray a => fold_right (fun x d => Z.max (1 + json_depth x) d) 0 a
  | VObject o => fold_right (fun kv d => Z.max (1 + json_depth (snd kv)) d) 0 o
  | _ => 0
  end.

Lemma c_string_cstr s : cstr (c_string s).
Proof.
  induction s as [|c s IH]; [done|]. cbn [c_string].
  destruct (uchar c =? 0) eqn:E; [done|]. by bool_to_prop.
Qed.

Lemma get_quoted_string_cstr s out rest : get_quoted_string s = Some (out, rest) -> cstr out.
Proof.
  unfold get_quoted_string. destruct (skip_quotes s) as [[raw r]|]; [|done].
  unfold process_string. destruct (process_loop _ raw); [|done].
  intros [= <- <-]. apply c_string_cstr.
Qed.

Lemma init_number_wf d v : json_value_init_number d = Some v -> json_wf v /\ json_depth v = 0.
Proof.
  unfold json_value_init_number. destruct (SFeqb _ _) eqn:E; [|done]. intros [= <-].
  split; [|done]. by destruct d as [[]|[]| |[] m e].
Qed.

Lemma scalar_wf s r v rest :
  (r = parse_string_value s \/ r = parse_boolean_value s \/ r = parse_number_value s \/
   r = parse_null_value s) ->
  scalar r = POk v rest -> json_wf v /\ json_depth v = 0.
Proof.
  intros [->|[->|[->| ->]]].
  - unfold parse_string_value. destruct (get_quoted_string s) as [[o r]|] eqn:E; [|done].
    apply get_quoted_string_cstr in E. by intros [= <- <-].
  - unfold parse_boolean_value.
    destruct (starts_with "true" s); [|destruct (starts_with "false" s); [|done]];
      by intros [= <- <-].
  - unfold parse_number_value. destruct (_ || _); [done|]. destruct (_ && _); cbn [json_value_init_uint].
    + intros [= <- <-]. split; [|done]. apply strtoul_range. lia.
    + destruct (json_value_init_number _) as [x|] eqn:E; [|done]. intros [= <- <-].
      by eapply init_number_wf.
  - unfold parse_null_value. destruct (starts_with "null" s); [|done]. by intros [= <- <-].
Qed.

(** What holds of the containers under construction. *)
Definition sound (n : Z) (v : JSON_Value) : Prop := json_wf v /\ n + json_depth v <= MAX_NESTING.

Lemma object_add_sound n acc k x acc' :
  sound (n - 1) (VObject acc) -> cstr k -> sound n x ->
  json_object_add acc (Some k) (Some x) = Some acc' -> sound (n - 1) (VObject acc').
Proof.
  unfold sound, json_object_add, json_object_addn. rewrite !json_wf_object.
  intros [[Hnd Hall] Hd] Hk [Hx Hdx].
  destruct (json_object_getn_value acc k) eqn:E; [done|]. intros [= <-].
  apply getn_value_none in E. split_and!.
  - rewrite map_app. apply NoDup_app. split_and!; [done| |apply NoDup_singleton].
    intros y Hy Hk'. apply list_elem_of_singleton in Hk'. by subst.
  - apply Forall_app. split; [done|]. by apply Forall_singleton.
  - cbn [json_depth] in *. rewrite foldr_app. cbn [foldr snd]. clear -Hd Hdx.
    induction acc as [|[k' y] acc IH]; simpl in *; lia.
Qed.

Lemma array_add_sound n acc x :
  sound (n - 1) (VArray acc) -> sound n x -> sound (n - 1) (VArray (json_array_add acc x)).
Proof.
  unfold sound, json_array_add. rewrite !json_wf_array. intros [Hall Hd] [Hx Hdx]. split.
  - apply Forall_app. split; [done|]. by apply Forall_singleton.
  - cbn [json_depth] in *. rewrite foldr_app. cbn [foldr]. clear -Hd Hdx.
    induction acc as [|y acc IH]; simpl in *; lia.
Qed.

Lemma parse_sound f :
  (forall s n v rest, parse_value f s n = POk v rest -> sound n v) /\
  (forall s n v rest, n - 1 <= MAX_NESTING -> parse_object_value f s n = POk v rest -> sound (n - 1) v) /\
  (forall s acc n v rest, sound (n - 1) (VObject acc) -> parse_members f s acc n = POk v rest -> sound (n - 1) v) /\
  (forall s n v rest, n - 1 <= MAX_NESTING -> parse_array_value f s n = POk v rest -> sound (n - 1) v) /\
  (forall s acc n v rest, sound (n - 1) (VArray acc) -> parse_items f s acc n = POk v rest -> sound (n - 1) v).
Proof.
  induction f as [|f (IHv & IHo & IHm & IHa & IHi)]; [by split_and!|].
  split_and!; intros s; intros; match goal with H : _ = POk _ _ |- _ => revert H end.
  - cbn [parse_value]. destruct (MAX_NESTING <? n) eqn:En; [done|]. bool_to_prop.
    repeat parse_case; try done; intros Hr;
      first [ apply IHo in Hr; [|lia] | apply IHa in Hr; [|lia]
            | apply scalar_wf with (s := skip_space s) in Hr; [destruct Hr; split; [done|lia]|tauto] ];
      by replace (n + 1 - 1) with n in Hr by lia.
  - cbn [parse_object_value]. repeat parse_case; try done.
    + intros [= <- <-]. split; [|cbn; lia]. apply json_wf_object. by split; [apply NoDup_nil_2|].
    + apply IHm. split; [|cbn; lia]. apply json_wf_object. by split; [apply NoDup_nil_2|].
  - cbn [parse_members]. destruct s as [|c s]; [done|]. repeat parse_case; try done.
    all: apply IHv in Hval; eapply object_add_sound in Hadd; [|done|by eapply get_quoted_string_cstr|done].
    + by apply IHm.
    + by intros [= <- <-].
  - cbn [parse_array_value]. repeat parse_case; try done.
    + intros [= <- <-]. by split; [|cbn; lia].
    + apply IHi. by split; [|cbn; lia].
  - cbn [parse_items]. destruct s as [|c s]; [done|]. repeat parse_case; try done.
    all: apply IHv in Hval; pose proof (array_add_sound n acc v0 ltac:(done) Hval).
    + by apply IHi.
    + by intros [= <- <-].
Qed.

(** C26. Whatever [json_parse_string] accepts is a well-formed value: distinct
    member names, NUL-free strings, finite numbers, integers of 64 bits, and
    containers nested at most [MAX_NESTING] deep. *)
Theorem parse_wf (s : string) (v : JSON_Value) :
  json_parse_string (Some s) = Some v -> json_wf v /\ json_depth v <= MAX_NESTING.
Proof.
  assert (forall s, parse_text s = Some v -> json_wf v /\ json_depth v <= MAX_NESTING) as H.
  { intros t. unfold parse_text. destruct (parse_value _ t 0) as [w rest| |] eqn:E; try done.
    intros [= <-]. apply parse_sound in E as [Hwf Hd]. split; [done|lia]. }
  cbn [json_parse_string]. destruct (_ && _); apply H.
Qed.

Lemma parse_wf_witness :
  json_parse_string (Some "[3, {}]") = Some (VArray [VUint 3; VObject []]) /\
  json_wf (VArray [VUint 3; VObject []]).
Proof. split; [vm_compute; reflexivity|]. apply (parse_wf "[3, {}]"). vm_compute. reflexivity. Defined.

(** ** Reading back strings *)

Lemma process_escape c f rest :
  uchar c <> 0 -> process_loop (S f) (escape c +:+ rest) = String c <$> process_loop f rest.
Proof.
  destruct c as [[] [] [] [] [] [] [] []]; cbn; intros Hc; try done;
    by destruct (process_loop f rest).
Qed.

Lemma skip_escape c t :
  skip_to_quote (escape c +:+ t)
  = match skip_to_quote t with
    | Some (raw, rest) => Some (escape c +:+ raw, rest)
    | None => None
    end.
Proof.
  destruct (skip_to_quote t) as [[raw rest]|] eqn:E; destruct c as [[] [] [] [] [] [] [] []];
    match goal with |- context [escape ?c] => let e := eval vm_compute in (escape c) in change (escape c) with e end;
    cbn; rewrite E; reflexivity.
Qed.

Lemma process_escape_all s f :
  cstr s -> (String.length s <= f)%nat -> process_loop f (escape_all s) = Some s.
Proof.
  revert f. induction s as [|c s IH]; intros f Hs Hf; [by destruct f|].
  destruct f as [|f]; [simpl in Hf; lia|]. destruct Hs as [Hc Hs]. cbn [escape_all].
  rewrite process_escape, IH by (done || simpl in Hf; lia). done.
Qed.

Lemma escape_length c : (1 <= String.length (escape c))%nat.
Proof. apply Nat.leb_le. by destruct c as [[] [] [] [] [] [] [] []]. Qed.

Lemma escape_all_length s : (String.length s <= String.length (escape_all s))%nat.
Proof.
  induction s as [|c s IH]; [done|]. cbn [escape_all]. rewrite length_append.
  pose proof (escape_length c). simpl. lia.
Qed.

Lemma skip_escape_all s rest :
  skip_to_quote (escape_all s +:+ String QUOTE rest) = Some (escape_all s, rest).
Proof.
  induction s as [|c s IH]; [done|]. cbn [escape_all]. by rewrite append_assoc, skip_escape, IH.
Qed.

Lemma c_string_id s : cstr s -> c_string s = s.
Proof.
  induction s as [|c s IH]; [done|]. intros [Hc Hs]. cbn [c_string].
  by rewrite (proj2 (Z.eqb_neq _ _)), IH.
Qed.

(** What is written for a string is read back as the string. *)
Lemma get_quoted_string_quoted s rest :
  cstr s -> get_quoted_string (quoted s +:+ rest) = Some (s, rest).
Proof.
  intros Hs. unfold quoted, get_quoted_string, skip_quotes. rewrite append_cons, append_assoc.
  rewrite Ascii.eqb_refl, append_cons, skip_escape_all. unfold process_string.
  rewrite process_escape_all by (done || apply escape_all_length).
  cbn [fmap option_fmap option_map String.append]. by rewrite c_string_id.
Qed.

(** ** Reading back integers *)

(** What can follow a value in the text of a container, or the end. *)
Definition ends (rest : string) : Prop :=
  match rest with
  | EmptyString => True
  | String c _ => c = ","%char \/ c = "]"%char \/ c = "}"%char \/ c = NEWLINE
  end.

Ltac ends_cases H :=
  match type of H with ends ?r => destruct r as [|? ?]; [|destruct H as [->|[->|[->| ->]]]] end.

Fixpoint all_digits (s : string) : Prop :=
  match s with String c s' => isdigit c = true /\ all_digits s' | EmptyString => True end.

Lemma dec_digits_all f n acc : 0 <= n -> all_digits acc -> all_digits (dec_digits f n acc).
Proof.
  revert n acc. induction f as [|f IH]; intros n acc Hn Hacc; [done|]. cbn [dec_digits].
  assert (all_digits (String (chr (48 + n mod 10)) acc)).
  { split; [|done]. apply isdigit_chr. apply Z.mod_pos_bound. lia. }
  destruct (n / 10 =? 0); [done|]. apply IH; [|done]. apply Z.div_pos; lia.
Qed.

Lemma no_x_digits s rest : all_digits s -> no_x (String.length s) (s +:+ rest) = true.
Proof.
  induction s as [|c s IH]; [by destruct rest|]. intros [Hc Hs]. simpl. rewrite IH by done.
  by destruct (Ascii.eqb_spec c "x") as [->|]; [|destruct (Ascii.eqb_spec c "X") as [->|]].
Qed.

Lemma strip_nocase_digit p a s d :
  0 <= d < 10 -> isdigit (tolower a) = false -> strip_nocase (String a p) (String (chr (48 + d)) s) = None.
Proof.
  intros Hd Ha. cbn [strip_nocase].
  replace (tolower (chr (48 + d))) with (chr (48 + d)).
  - rewrite (proj2 (Ascii.eqb_neq _ _)); [done|]. intros Heq. rewrite Heq, isdigit_chr in Ha by lia. done.
  - unfold tolower, isupper. by rewrite uchar_chr, (proj2 (Z.leb_gt 65 _)) by lia.
Qed.

Lemma strip_0x u rest :
  0 <= u -> ends rest -> strip_nocase "0x" (print_u u +:+ rest) = None.
Proof.
  intros Hu Hr. destruct (print_u_head u Hu) as (d & s & -> & Hd & Hz).
  destruct (Z.eq_dec d 0) as [->|Hne].
  - destruct (Hz eq_refl) as [_ ->]. by ends_cases Hr.
  - cbn [strip_nocase String.append].
    rewrite (proj2 (Ascii.eqb_neq _ _)); [done|].
    assert (tolower (chr (48 + d)) = chr (48 + d)) as ->.
    { unfold tolower, isupper. by rewrite uchar_chr, (proj2 (Z.leb_gt 65 _)) by lia. }
    intros Heq. apply (f_equal uchar) in Heq. rewrite uchar_chr in Heq by lia.
    change (uchar (tolower "0")) with 48 in Heq. lia.
Qed.

Lemma strtod_print_u u rest :
  0 <= u < 2 ^ 64 -> ends rest ->
  sd_end (strtod (print_u u +:+ rest)) = rest /\ sd_erange (strtod (print_u u +:+ rest)) = false.
Proof.
  intros Hu Hr. unfold strtod, strtofp.
  pose proof (strip_0x u rest ltac:(lia) Hr) as H0x.
  destruct (print_u_read u rest ltac:(lia)) as (k & Hk & Hread).
  destruct (print_u_head u ltac:(lia)) as (d & s & Heq & Hd & _).
  rewrite Heq in *. rewrite append_cons in *.
  rewrite skip_space_digit, read_sign_digit, !strip_nocase_digit by done. rewrite H0x.
  unfold read_decimal, read_mantissa. rewrite Hread.
  rewrite read_digits_stop by (by ends_cases Hr).
  replace (match rest with String "." rest' => _ | _ => _ end) with (u, 0%nat, k, rest)
    by (by ends_cases Hr).
  destruct k as [|k]; [lia|]. cbn [Nat.eqb].
  replace (read_exponent 101 rest) with (0, rest) by (by ends_cases Hr).
  cbn [default finish sd_end sd_erange]. split; [done|].
  change (0 - Z.of_nat 0) with 0. change (10 ^ Z.max 0 0) with 1. change (10 ^ Z.max 0 (- 0)) with 1.
  rewrite Z.mul_1_r. unfold range_error. apply orb_false_iff. split.
  - apply Z.leb_gt. eapply Z.lt_trans; [apply Hu|]. vm_compute. reflexivity.
  - destruct (Z.eqb_spec u 0) as [->|Hne]; [done|]. cbn [negb andb].
    rewrite (proj2 (Z.ltb_ge _ _)); [done|].
    transitivity (1 * 2 ^ (1024 + 53)); [vm_compute; congruence|]. nia.
Qed.

Lemma is_decimal_print_u u rest :
  0 <= u -> is_decimal (print_u u +:+ rest) (String.length (print_u u)) = true.
Proof.
  intros Hu. pose proof (no_x_digits (print_u u) rest (dec_digits_all _ u EmptyString Hu I)) as Hx.
  destruct (print_u_head u Hu) as (d & s & Heq & Hd & Hz). unfold is_decimal. rewrite Heq in *.
  rewrite Hx. cbn [String.append]. unfold starts_with, String.prefix.
  destruct (ascii_dec "-" (chr (48 + d))) as [He|_].
  { exfalso. by apply (chr_ne d "-" Hd). }
  rewrite andb_false_r, andb_false_l. unfold byte_at at 1. cbn [String.get]. rewrite uchar_chr by lia.
  destruct (Z.eq_dec d 0) as [->|Hne].
  - by destruct (Hz eq_refl) as [_ ->].
  - rewrite (proj2 (Z.eqb_neq _ _)) by lia. by rewrite andb_false_r.
Qed.

Lemma parse_number_print_u u rest :
  0 <= u < 2 ^ 64 -> ends rest -> parse_number_value (print_u u +:+ rest) = Some (VUint u, rest).
Proof.
  intros Hu Hr. unfold parse_number_value.
  destruct (strtod_print_u u rest Hu Hr) as [-> ->]. rewrite length_append, Nat.add_sub.
  rewrite is_decimal_print_u by lia. cbn [orb negb].
  rewrite strtoul_print_u by (done || by ends_cases Hr).
  cbn [st_val st_end st_erange]. by rewrite Nat.add_sub, Nat.eqb_refl.
Qed.

(** ** Reading back values *)

Fixpoint no_numbers (v : JSON_Value) : Prop :=
  match v with
  | VNumber _ => False
  | VArray a => fold_right (fun x P => no_numbers x /\ P) True a
  | VObject o => fold_right (fun kv P => no_numbers (snd kv) /\ P) True o
  | _ => True
  end.

Lemma no_numbers_array a : no_numbers (VArray a) <-> Forall no_numbers a.
Proof.
  cbn [no_numbers]. induction a as [|x a IH]; [by rewrite Forall_nil|].
  by rewrite Forall_cons, <-IH.
Qed.

Lemma no_numbers_object o : no_numbers (VObject o) <-> Forall (fun kv => no_numbers (snd kv)) o.
Proof.
  cbn [no_numbers]. induction o as [|x o IH]; [by rewrite Forall_nil|].
  by rewrite Forall_cons, <-IH.
Qed.

Fixpoint all_space (s : string) : Prop :=
  match s with String c s' => isspace c = true /\ all_space s' | EmptyString => True end.

Lemma skip_all_space a s : all_space a -> skip_space (a +:+ s) = skip_space s.
Proof. induction a as [|c a IH]; [done|]. intros [Hc Ha]. simpl. rewrite Hc. by apply IH. Qed.

Lemma nl_space p : all_space (nl_text p).
Proof. by destruct p. Qed.

Lemma indent_space p n : all_space (indent_text p n).
Proof. destruct p; [|done]. cbn [indent_text]. induction n as [|n IH]; [done|]. by split_and!. Qed.

#[local] Hint Resolve nl_space indent_space : sdk.

Lemma skip_space_idem s : skip_space (skip_space s) = skip_space s.
Proof.
  induction s as [|c s IH]; [done|]. cbn [skip_space]. destruct (isspace c) eqn:E; [done|].
  cbn [skip_space]. by rewrite E.
Qed.

Lemma parse_value_skip f s n : parse_value f (skip_space s) n = parse_value f s n.
Proof. destruct f as [|f]; [done|]. cbn [parse_value]. by rewrite skip_space_idem. Qed.

(** A text that starts a value: no space and no closing bracket. *)
Definition starts (t : string) : Prop :=
  match t with
  | String c _ => isspace c = false /\ c <> "]"%char
  | EmptyString => False
  end.

Lemma starts_skip t s : starts t -> skip_space (t +:+ s) = t +:+ s.
Proof. destruct t as [|c t]; [done|]. intros [Hc _]. simpl. by rewrite Hc. Qed.

Lemma json_text_starts p level v : json_wf v -> no_numbers v -> starts (json_text p level v).
Proof.
  destruct v as [ | s | d | o | a | [] | u ]; cbn [json_text json_wf]; intros Hwf Hnn; try done.
  destruct (print_u_head u ltac:(lia)) as (d & s & -> & Hd & _). split.
  - unfold isspace. rewrite uchar_chr by lia. lia.
  - by apply chr_ne.
Qed.

(** The parser reads the text [t] as [v] wherever a value can stand. *)
Definition reads (t : string) (v : JSON_Value) : Prop :=
  forall n rest, n + json_depth v <= MAX_NESTING -> ends rest ->
  exists f0, forall f, (f0 <= f)%nat -> parse_value f (t +:+ rest) n = POk v rest.

(** The text of the last element of a container is followed by the closing
    bracket after white space, the text of another one by a comma. *)
Lemma after_last p level cl rest :
  cl = "]" \/ cl = "}" ->
  ends (nl_text p +:+ indent_text p level +:+ cl +:+ rest) /\
  skip_space (nl_text p +:+ indent_text p level +:+ cl +:+ rest) = cl +:+ rest.
Proof.
  intros Hcl. split.
  - destruct p; simpl; [tauto|]. destruct Hcl as [-> | ->]; simpl; tauto.
  - rewrite !skip_all_space by auto with sdk. by destruct Hcl as [-> | ->].
Qed.

Lemma parse_items_step f s acc n :
  s <> EmptyString ->
  parse_items (S f) s acc n
  = match parse_value f s n with
    | POk v rest =>
        let s := skip_space rest in
        if char_is "," s then parse_items f (skip_space (str_drop 1 s)) (json_array_add acc v) n
        else if char_is "]" s then POk (VArray (json_array_add acc v)) (str_drop 1 s)
        else PFail
    | r => r
    end.
Proof. by destruct s. Qed.

Lemma starts_nonempty t s : starts t -> t +:+ s <> EmptyString.
Proof. by destruct t. Qed.

Lemma items_read p level n rest (text : JSON_Value -> string) l acc :
  l <> [] ->
  Forall (fun x => starts (text x) /\ reads (text x) x /\ n + json_depth x <= MAX_NESTING) l ->
  exists f0, forall f, (f0 <= f)%nat ->
    parse_items f (skip_space (lines_text p level (map text l) +:+ indent_text p level +:+ "]" +:+ rest)) acc n
    = POk (VArray (acc ++ l)) rest.
Proof.
  revert acc. induction l as [|x l IH]; intros acc Hne Hall; [done|].
  apply Forall_cons in Hall as [(Hst & Hx & Hd) Hall]. cbn [map lines_text].
  rewrite !append_assoc. rewrite skip_all_space by auto with sdk. rewrite starts_skip by done.
  destruct l as [|y l]; cbn [map].
  - cbn [lines_text]. rewrite !append_nil_l. destruct (after_last p level "]" rest) as [He Hs]; [by left|].
    destruct (Hx n _ Hd He) as [f0 Hf0]. exists (S f0). intros [|f] Hf; [lia|].
    rewrite parse_items_step by (by apply starts_nonempty). by rewrite Hf0, Hs by lia.
  - destruct (Hx n ("," +:+ nl_text p +:+ lines_text p level (map text (y :: l))
                    +:+ indent_text p level +:+ "]" +:+ rest) Hd) as [f0 Hf0]; [by left|].
    destruct (IH (acc ++ [x])) as [f1 Hf1]; [done|done|].
    exists (S (f0 + f1)). intros [|f] Hf; [lia|].
    specialize (Hf1 f ltac:(lia)). cbn [map] in Hf0.
    rewrite parse_items_step by (by apply starts_nonempty). rewrite Hf0 by lia.
    transitivity (parse_items f (skip_space (nl_text p +:+ lines_text p level (map text (y :: l))
                    +:+ indent_text p level +:+ "]" +:+ rest)) (acc ++ [x]) n); [done|].
    rewrite skip_all_space by auto with sdk. by rewrite Hf1, <-app_assoc.
Qed.

Lemma parse_members_step f s k after acc n v rest acc' :
  get_quoted_string s = Some (k, ":" +:+ after) -> parse_value f after n = POk v rest ->
  json_object_add acc (Some k) (Some v) = Some acc' ->
  parse_members (S f) s acc n
  = (let s := skip_space rest in
     if char_is "," s then parse_members f (skip_space (str_drop 1 s)) acc' n
     else if char_is "}" s then POk (VObject acc') (str_drop 1 s)
     else PFail).
Proof.
  intros Hq Hv Hadd. destruct s as [|c s]; [done|]. cbn [parse_members]. rewrite Hq.
  change (skip_space (":" +:+ after)) with (":" +:+ after).
  change (char_is ":" (":" +:+ after)) with true.
  change (str_drop 1 (":" +:+ after)) with after. cbn [negb]. by rewrite Hv, Hadd.
Qed.

Lemma parse_value_spaces f a s n : all_space a -> parse_value f (a +:+ s) n = parse_value f s n.
Proof. intros Ha. by rewrite <-parse_value_skip, skip_all_space, parse_value_skip. Qed.

Lemma members_read p level n rest (text : JSON_Value -> string) l acc :
  l <> [] -> NoDup (map fst (acc ++ l)) ->
  Forall (fun kv => cstr (fst kv) /\ starts (text (snd kv)) /\ reads (text (snd kv)) (snd kv) /\
                    n + json_depth (snd kv) <= MAX_NESTING) l ->
  exists f0, forall f, (f0 <= f)%nat ->
    parse_members f
      (skip_space (lines_text p level (map (fun kv => member_text p (fst kv) (text (snd kv))) l)
                   +:+ indent_text p level +:+ "}" +:+ rest)) acc n
    = POk (VObject (acc ++ l)) rest.
Proof.
  revert acc. induction l as [|[k x] l IH]; intros acc Hne Hnd Hall; [done|].
  apply Forall_cons in Hall as [(Hk & Hst & Hx & Hd) Hall]. cbn [map lines_text fst snd] in *.
  rewrite !append_assoc. rewrite skip_all_space by auto with sdk.
  assert (json_object_add acc (Some k) (Some x) = Some (acc ++ [(k, x)])) as Hadd.
  { cbn [json_object_add]. unfold json_object_addn. rewrite (proj2 (getn_value_none acc k)); [done|].
    rewrite map_app, NoDup_app in Hnd. destruct Hnd as (_ & Hn & _). intros Hin. apply (Hn _ Hin). by left. }
  assert (forall after f0, ends after ->
    (forall f, (f0 <= f)%nat -> parse_value f (text x +:+ after) n = POk x after) ->
    forall f, (f0 <= f)%nat ->
    parse_members (S f) (skip_space (member_text p k (text x) +:+ after)) acc n
    = (let s := skip_space after in
       if char_is "," s then parse_members f (skip_space (str_drop 1 s)) (acc ++ [(k, x)]) n
       else if char_is "}" s then POk (VObject (acc ++ [(k, x)])) (str_drop 1 s)
       else PFail)) as Hstep.
  { intros after f0 He Hf0 f Hf. unfold member_text. rewrite !append_assoc, starts_skip by done.
    eapply parse_members_step; [by apply get_quoted_string_quoted| |done].
    rewrite parse_value_spaces by (by destruct p). by apply Hf0. }
  destruct l as [|[k' y] l]; cbn [map].
  - cbn [lines_text]. rewrite !append_nil_l. destruct (after_last p level "}" rest) as [He Hs]; [by right|].
    destruct (Hx n _ Hd He) as [f0 Hf0]. exists (S f0). intros [|f] Hf; [lia|].
    rewrite (Hstep _ f0) by (done || lia). by rewrite Hs.
  - destruct (IH (acc ++ [(k, x)])) as [f1 Hf1]; [done|by rewrite <-app_assoc|done|].
    set (after := "," +:+ nl_text p +:+ _). destruct (Hx n after Hd) as [f0 Hf0]; [by left|].
    exists (S (f0 + f1)). intros [|f] Hf; [lia|]. specialize (Hf1 f ltac:(lia)).
    rewrite (Hstep _ f0) by (by left || done || lia).
    transitivity (parse_members f (skip_space (nl_text p
      +:+ lines_text p level (map (fun kv => member_text p (fst kv) (text (snd kv))) ((k', y) :: l))
      +:+ indent_text p level +:+ "}" +:+ rest)) (acc ++ [(k, x)]) n); [done|].
    rewrite skip_all_space by auto with sdk. by rewrite Hf1, <-app_assoc.
Qed.

Lemma parse_value_array f t n :
  n <= MAX_NESTING ->
  parse_value (S (S f)) ("[" +:+ t) n
  = (let s := skip_space t in
     if char_is "]" s then POk json_value_init_array (str_drop 1 s) else parse_items f s [] (n + 1)).
Proof. intros Hn. cbn [parse_value]. by rewrite (proj2 (Z.ltb_ge _ _)). Qed.

Lemma parse_value_object f t n :
  n <= MAX_NESTING ->
  parse_value (S (S f)) ("{" +:+ t) n
  = (let s := skip_space t in
     if char_is "}" s then POk json_value_init_object (str_drop 1 s) else parse_members f s [] (n + 1)).
Proof. intros Hn. cbn [parse_value]. by rewrite (proj2 (Z.ltb_ge _ _)). Qed.

Lemma parse_value_digit f d t n :
  n <= MAX_NESTING -> 0 <= d < 10 ->
  parse_value (S f) (String (chr (48 + d)) t) n = scalar (parse_number_value (String (chr (48 + d)) t)).
Proof.
  intros Hn Hd. cbn [parse_value]. rewrite (proj2 (Z.ltb_ge _ _)) by done.
  rewrite skip_space_digit by done. unfold char_is.
  rewrite isdigit_chr, orb_true_r by done.
  repeat rewrite (proj2 (Ascii.eqb_neq _ _)) by (by apply chr_ne). done.
Qed.

Lemma depth_array_in a x : x ∈ a -> 1 + json_depth x <= json_depth (VArray a).
Proof.
  cbn [json_depth]. induction a as [|y a IH]; [by intros ?%elem_of_nil|].
  intros [->|Hin]%elem_of_cons; simpl; [lia|]. specialize (IH Hin). lia.
Qed.

Lemma depth_object_in o kv : kv ∈ o -> 1 + json_depth (snd kv) <= json_depth (VObject o).
Proof.
  cbn [json_depth]. induction o as [|y o IH]; [by intros ?%elem_of_nil|].
  intros [->|Hin]%elem_of_cons; simpl; [lia|]. specialize (IH Hin). lia.
Qed.

(** The lines of a container with elements do not start with its closing
    bracket. *)
Lemma lines_open p level t l s :
  starts t ->
  char_is "]" (skip_space (lines_text p level (t :: l) +:+ s)) = false.
Proof.
  intros Ht. cbn [lines_text]. rewrite !append_assoc, skip_all_space by auto with sdk.
  rewrite starts_skip by done. destruct t as [|c t]; [done|]. destruct Ht as [_ Ht]. simpl.
  by apply Ascii.eqb_neq.
Qed.

Lemma lines_open_member p level k v l s :
  char_is "}" (skip_space (lines_text p level (member_text p k v :: l) +:+ s)) = false.
Proof. cbn [lines_text]. by rewrite !append_assoc, skip_all_space by auto with sdk. Qed.

Lemma depth_nonneg v : 0 <= json_depth v.
Proof.
  destruct v as [ | | |o|a| | ]; cbn [json_depth]; try lia.
  - induction o as [|x o IH]; simpl; lia.
  - induction a as [|x a IH]; simpl; lia.
Qed.

Lemma array_reads p level a :
  Forall (fun x => starts (json_text p (S level) x) /\ reads (json_text p (S level) x) x) a ->
  reads (json_text p level (VArray a)) (VArray a).
Proof.
  intros Hall n rest Hd He. pose proof (depth_nonneg (VArray a)).
  cbn [json_text]. unfold container_text. rewrite !append_assoc.
  destruct a as [|x a].
  - exists 2%nat. intros [|[|f]] Hf; try lia. by rewrite parse_value_array by lia.
  - set (body := lines_text _ _ _). change (some_pretty (map _ (x :: a)) p) with p.
    destruct (items_read p level (n + 1) rest (json_text p (S level)) (x :: a) []) as [f0 Hf0]; [done| |].
    { apply Forall_forall. intros y Hy. pose proof (depth_array_in _ _ Hy).
      pose proof (proj1 (Forall_forall _ _) Hall y Hy) as [??]. split_and!; [done|done|lia]. }
    exists (S (S f0)). intros [|[|f]] Hf; try lia. rewrite parse_value_array by lia. cbn zeta.
    rewrite skip_all_space by auto with sdk. subst body.
    apply Forall_cons in Hall as [[Hst _] _]. cbn [map].
    rewrite lines_open by done. apply Hf0. lia.
Qed.

Lemma object_reads p level o :
  NoDup (map fst o) ->
  Forall (fun kv => cstr (fst kv) /\ starts (json_text p (S level) (snd kv)) /\
                    reads (json_text p (S level) (snd kv)) (snd kv)) o ->
  reads (json_text p level (VObject o)) (VObject o).
Proof.
  intros Hnd Hall n rest Hd He. pose proof (depth_nonneg (VObject o)).
  cbn [json_text]. unfold container_text. rewrite !append_assoc.
  destruct o as [|[k x] o].
  - exists 2%nat. intros [|[|f]] Hf; try lia. by rewrite parse_value_object by lia.
  - set (body := lines_text _ _ _). change (some_pretty (map _ ((k, x) :: o)) p) with p.
    destruct (members_read p level (n + 1) rest (json_text p (S level)) ((k, x) :: o) []) as [f0 Hf0];
      [done|done| |].
    { apply Forall_forall. intros y Hy. pose proof (depth_object_in _ _ Hy).
      pose proof (proj1 (Forall_forall _ _) Hall y Hy) as (?&?&?). split_and!; [done|done|done|lia]. }
    exists (S (S f0)). intros [|[|f]] Hf; try lia. rewrite parse_value_object by lia. cbn zeta.
    rewrite skip_all_space by auto with sdk. subst body. cbn [map fst snd].
    rewrite lines_open_member by done. apply Hf0. lia.
Qed.

Lemma scalar_reads t v :
  json_depth v = 0 ->
  (forall f n rest, n <= MAX_NESTING -> ends rest -> parse_value (S f) (t +:+ rest) n = POk v rest) ->
  reads t v.
Proof. intros H0 H n rest Hd He. exists 1%nat. intros [|f] Hf; [lia|]. apply H; [lia|done]. Qed.

Lemma json_text_reads p v level : json_wf v -> no_numbers v -> reads (json_text p level v) v.
Proof.
  revert level. induction v as [ | s | d | o IH | a IH | b | u ] using JSON_Value_ind;
    intros level Hwf Hnn; try done.
  - apply scalar_reads; [done|]. intros f n rest Hn He. cbn [parse_value json_text].
    rewrite (proj2 (Z.ltb_ge _ _)) by done. destruct rest; reflexivity.
  - apply scalar_reads; [done|]. intros f n rest Hn He. cbn [parse_value json_text].
    rewrite (proj2 (Z.ltb_ge _ _)), starts_skip by done.
    change (if char_is "{" (quoted s +:+ rest) then _ else _)
      with (scalar (parse_string_value (quoted s +:+ rest))).
    unfold parse_string_value. by rewrite get_quoted_string_quoted.
  - apply json_wf_object in Hwf as [Hnd Hall]. apply no_numbers_object in Hnn.
    apply object_reads; [done|].
    eapply Forall_impl; [exact (List.Forall_and IH (List.Forall_and Hall Hnn))|].
    intros [k x] (Hr & [Hk Hw] & Hn). split_and!; [done|by apply json_text_starts|by apply Hr].
  - apply json_wf_array in Hwf. apply no_numbers_array in Hnn. apply array_reads.
    eapply Forall_impl; [exact (List.Forall_and IH (List.Forall_and Hwf Hnn))|].
    intros x (Hr & Hw & Hn). split_and!; [by apply json_text_starts|by apply Hr].
  - apply scalar_reads; [done|]. intros f n rest Hn He. cbn [parse_value json_text].
    rewrite (proj2 (Z.ltb_ge _ _)) by done. destruct b, rest; reflexivity.
  - apply scalar_reads; [done|]. intros f n rest Hn He. cbn [json_text json_wf] in *.
    pose proof (parse_number_print_u u rest Hwf He) as Hp.
    destruct (print_u_head u ltac:(lia)) as (d & s & Heq & Hd & _). rewrite Heq in *.
    rewrite append_cons in *. rewrite parse_value_digit by done. by rewrite Hp.
Qed.

Lemma parse_text_json_text p v :
  json_wf v -> no_numbers v -> json_depth v <= MAX_NESTING ->
  parse_text (json_text p 0 v) = Some v.
Proof.
  intros Hwf Hnn Hd. set (t := json_text p 0 v).
  destruct (json_text_reads p v 0 Hwf Hnn 0 EmptyString Hd I) as [f0 Hf0].
  rewrite append_nil_r in Hf0. fold t in Hf0.
  destruct (parse_enough (parse_fuel t)) as (He & _). specialize (He t 0 ltac:(unfold parse_fuel; lia)).
  destruct (parse_more (parse_fuel t) (Nat.max f0 (parse_fuel t)) ltac:(lia)) as (Hm & _).
  specialize (Hm t 0 He). rewrite Hf0 in Hm by lia. unfold parse_text. by rewrite <-Hm.
Qed.

Lemma no_bom p v :
  json_wf v -> no_numbers v -> (byte_at (json_text p 0 v) 0 =? 239) = false.
Proof.
  intros Hwf Hnn. destruct v as [ | s | d | o | a | [] | u ]; try done.
  cbn [json_text json_wf] in *. destruct (print_u_head u ltac:(lia)) as (d & s & -> & Hd & _).
  unfold byte_at. cbn [String.get]. rewrite uchar_chr by lia. lia.
Qed.

Lemma parse_string_json_text p v :
  json_wf v -> no_numbers v -> json_depth v <= MAX_NESTING ->
  json_parse_string (Some (json_text p 0 v)) = Some v.
Proof.
  intros Hwf Hnn Hd. cbn [json_parse_string]. rewrite no_bom by done. by apply parse_text_json_text.
Qed.

(** C25. Round trip: for every well-formed value without floating-point numbers,
    nested at most [MAX_NESTING] deep and whose text is shorter than [INT_MAX],
    [json_parse_string] of what [json_serialize_to_string] (or the pretty
    printing variant) returns is the value. *)
Theorem serialize_parse (p : bool) (v : JSON_Value) :
  json_wf v -> no_numbers v -> json_depth v <= MAX_NESTING ->
  Z.of_nat (String.length (json_text p 0 v)) < 2 ^ 31 - 1 ->
  exists t, serialize_to_string p (Some v) = Some t /\ json_parse_string (Some t) = Some v.
Proof.
  intros Hwf Hnn Hd Hlen. exists (json_text p 0 v). split; [by apply serialize_text|].
  by apply parse_string_json_text.
Qed.

Definition sample_value : JSON_Value :=
  VObject [("name", VString (String QUOTE (String NEWLINE "x"))); ("n", VUint 18446744073709551615);
           ("l", VArray [VNull; VBoolean true; VArray []])].

Lemma serialize_parse_witness :
  exists t, serialize_to_string true (Some sample_value) = Some t /\
            json_parse_string (Some t) = Some sample_value.
Proof.
  apply (serialize_parse true sample_value).
  - apply json_wf_object. split; [|repeat constructor; try done; cbn; lia].
    cbn [map fst]. repeat constructor; set_solver.
  - cbn. tauto.
  - vm_compute. congruence.
  - vm_compute. reflexivity.
Defined.

(** A negative integer is read through [strtoull] and becomes an unsigned value
    near 2^64. *)
Lemma negative_integer_parses_unsigned :
  json_parse_string (Some "-5") = Some (VUint 18446744073709551611).
Proof. vm_compute. reflexivity. Qed.

(** A lone minus sign is accepted as the value 0. *)
Lemma minus_sign_parses_zero : json_parse_string (Some "-") = Some (VUint 0).
Proof. vm_compute. reflexivity. Qed.

(** ** No NUL in the text *)

Lemma cstr_app a b : cstr (a +:+ b) <-> cstr a /\ cstr b.
Proof. induction a as [|c a IH]; cbn [String.append cstr]; [tauto|]. rewrite IH. tauto. Qed.

Lemma escape_cstr c : cstr (escape c).
Proof. destruct c as [[] [] [] [] [] [] [] []]; vm_compute; repeat split; discriminate. Qed.

Lemma quoted_cstr s : cstr (quoted s).
Proof.
  cbn [quoted cstr]. split; [done|]. apply cstr_app. split; [|done].
  induction s as [|c s IH]; [done|]. cbn [escape_all]. apply cstr_app. split; [apply escape_cstr|done].
Qed.

Lemma dec_digits_cstr f n acc : cstr acc -> cstr (dec_digits f n acc).
Proof.
  revert n acc. induction f as [|f IH]; intros n acc Hacc; [done|]. cbn [dec_digits].
  assert (cstr (String (chr (48 + n mod 10)) acc)).
  { split; [|done]. rewrite uchar_chr; pose proof (Z.mod_pos_bound n 10); lia. }
  case_match; auto.
Qed.

Lemma print_u_cstr n : cstr (print_u n).
Proof. by apply dec_digits_cstr. Qed.

Lemma spaces_cstr p level : cstr (indent_text p level).
Proof.
  destruct p; [|done]. cbn [indent_text]. induction level as [|l IH]; [done|]. cbn [spaces].
  apply cstr_app. split; [|done]. cbn. done.
Qed.

Lemma container_cstr p level op cl l :
  cstr op -> cstr cl -> Forall cstr l -> cstr (container_text p level op cl l).
Proof.
  intros Ho Hcl Hl. unfold container_text. rewrite !cstr_app. split_and!; [done|by destruct (some_pretty l p)| | |done].
  - induction Hl as [|t l Ht Hl IH]; [done|]. cbn [lines_text]. rewrite !cstr_app.
    split_and!; [apply spaces_cstr|done|by destruct l|by destruct p|done].
  - apply spaces_cstr.
Qed.

Lemma json_text_cstr p level v : no_numbers v -> cstr (json_text p level v).
Proof.
  revert level. induction v as [ | s | d | o IH | a IH | b | u ] using JSON_Value_ind;
    intros level Hnn; cbn [json_text]; try done.
  - apply quoted_cstr.
  - apply no_numbers_object in Hnn. apply container_cstr; [by split..|]. apply Forall_map.
    induction IH as [|kv o Hkv _ IHo]; [done|]. apply Forall_cons in Hnn as [Hv Hnn].
    constructor; [|by apply IHo]. unfold member_text. rewrite !cstr_app.
    split; [apply quoted_cstr|]. split; [by split|]. split; [by destruct p|by apply Hkv].
  - apply no_numbers_array in Hnn. apply container_cstr; [by split..|]. apply Forall_map.
    induction IH as [|x a Hx _ IHa]; [done|]. apply Forall_cons in Hnn as [Hv Hnn].
    constructor; [by apply Hx|by apply IHa].
  - by destruct b.
  - apply print_u_cstr.
Qed.
