(* ===== verification/DevTypes.v ===== *)
(** * The data of the SDK ([edgex.h], [edgex-base.h], [devsdk-base.c], [edgex-base.c])

    The structures that describe devices, profiles and services, and the
    operations on the lists they are made of. A linked list is a [list]; a
    [char *] field that every constructor of the structure sets is a [string], one
    that can be NULL an [option string]. *)

From S2P Require Import Prelude CLib CFloat.
From Stdlib Require Import Ascii.
Local Open Scope Z_scope.

(** ** Types of properties *)

Inductive edgex_propertytype :=
  Edgex_Int8 | Edgex_Uint8 | Edgex_Int16 | Edgex_Uint16 | Edgex_Int32 | Edgex_Uint32
| Edgex_Int64 | Edgex_Uint64 | Edgex_Float32 | Edgex_Float64 | Edgex_Bool | Edgex_String
| Edgex_Binary | Edgex_Unused1 | Edgex_Unused2
| Edgex_Int8Array | Edgex_Uint8Array | Edgex_Int16Array | Edgex_Uint16Array
| Edgex_Int32Array | Edgex_Uint32Array | Edgex_Int64Array | Edgex_Uint64Array
| Edgex_Float32Array | Edgex_Float64Array | Edgex_BoolArray.

#[export] Instance edgex_propertytype_eq_dec : EqDecision edgex_propertytype.
Proof. solve_decision. Defined.

Definition propertytypes : list edgex_propertytype :=
  [Edgex_Int8; Edgex_Uint8; Edgex_Int16; Edgex_Uint16; Edgex_Int32; Edgex_Uint32;
   Edgex_Int64; Edgex_Uint64; Edgex_Float32; Edgex_Float64; Edgex_Bool; Edgex_String;
   Edgex_Binary; Edgex_Unused1; Edgex_Unused2;
   Edgex_Int8Array; Edgex_Uint8Array; Edgex_Int16Array; Edgex_Uint16Array;
   Edgex_Int32Array; Edgex_Uint32Array; Edgex_Int64Array; Edgex_Uint64Array;
   Edgex_Float32Array; Edgex_Float64Array; Edgex_BoolArray].

(** [type >= Edgex_Int8 && type <= Edgex_Uint64] *)
Definition is_integer (t : edgex_propertytype) : bool :=
  match t with
  | Edgex_Int8 | Edgex_Uint8 | Edgex_Int16 | Edgex_Uint16
  | Edgex_Int32 | Edgex_Uint32 | Edgex_Int64 | Edgex_Uint64 => true
  | _ => false
  end.

Definition is_float (t : edgex_propertytype) : bool :=
  match t with Edgex_Float32 | Edgex_Float64 => true | _ => false end.

Inductive edgex_device_adminstate := LOCKED | UNLOCKED.
Inductive edgex_device_operatingstate := ENABLED | DISABLED.

#[export] Instance adminstate_eq_dec : EqDecision edgex_device_adminstate.
Proof. solve_decision. Defined.
#[export] Instance operatingstate_eq_dec : EqDecision edgex_device_operatingstate.
Proof. solve_decision. Defined.

(** ** Lists of strings and of named values *)

Definition devsdk_strings := list string.
Definition devsdk_nvpairs := list (string * string).
Definition devsdk_protocols := list (string * devsdk_nvpairs).

(** ** Structures *)

(** The union of a transform argument, read as an integer or as a double. *)
Inductive arg_value := AInt (i : Z) | AFloat (d : spec_float).

Definition arg_ival (v : arg_value) : Z :=
  match v with AInt i => i | AFloat d => wrap_s 64 (bits_of 53 1024 d) end.
Definition arg_dval (v : arg_value) : spec_float :=
  match v with AFloat d => d | AInt i => of_bits 53 1024 (wrap_u 64 i) end.

Record edgex_transformArg := MkArg { ta_enabled : bool; ta_value : arg_value }.

Definition no_arg : edgex_transformArg := {| ta_enabled := false; ta_value := AInt 0 |}.

Record edgex_addressable := MkAddressable {
  ad_address : option string; ad_created : Z; ad_id : option string; ad_method : option string;
  ad_modified : Z; ad_name : option string; ad_origin : Z; ad_password : option string;
  ad_path : option string; ad_port : Z; ad_protocol : option string;
  ad_publisher : option string; ad_topic : option string; ad_user : option string }.

Record edgex_deviceservice := MkService {
  ds_addressable : option edgex_addressable; ds_adminState : edgex_device_adminstate;
  ds_created : Z; ds_description : string; ds_id : string; ds_labels : devsdk_strings;
  ds_lastConnected : Z; ds_lastReported : Z; ds_modified : Z; ds_name : string;
  ds_operatingState : edgex_device_operatingstate; ds_origin : Z }.

Record edgex_resourceoperation := MkResop {
  ro_index : string; ro_operation : string; ro_object : string; ro_deviceResource : string;
  ro_property : string; ro_parameter : string; ro_resource : string; ro_deviceCommand : string;
  ro_secondary : devsdk_strings; ro_mappings : devsdk_nvpairs }.

Record edgex_propertyvalue := MkPropval {
  pv_type : edgex_propertytype; pv_readable : bool; pv_writable : bool;
  pv_minimum : string; pv_maximum : string; pv_defaultvalue : string; pv_lsb : string;
  pv_mask : edgex_transformArg; pv_shift : edgex_transformArg; pv_scale : edgex_transformArg;
  pv_offset : edgex_transformArg; pv_base : edgex_transformArg;
  pv_assertion : string; pv_precision : string; pv_mediaType : string; pv_floatAsBinary : bool }.

Record edgex_units := MkUnits { u_type : string; u_readwrite : string; u_defaultvalue : string }.

Record edgex_profileproperty := MkProperty { pp_value : edgex_propertyvalue; pp_units : edgex_units }.

Record edgex_deviceresource := MkResource {
  dr_description : string; dr_name : string; dr_tag : string;
  dr_properties : edgex_profileproperty; dr_attributes : devsdk_nvpairs }.

Record edgex_devicecommand := MkCommand {
  dc_name : string; dc_set : list edgex_resourceoperation; dc_get : list edgex_resourceoperation }.

Record edgex_deviceprofile := MkProfile {
  dp_id : string; dp_name : string; dp_description : string; dp_created : Z; dp_modified : Z;
  dp_origin : Z; dp_manufacturer : string; dp_model : string; dp_labels : devsdk_strings;
  dp_resources : list edgex_deviceresource; dp_commands : list edgex_devicecommand }.

Definition edgex_blocklist := list (string * devsdk_strings).

Record edgex_device_autoevents := MkAuto { ae_resource : string; ae_frequency : string; ae_onChange : bool }.

Record edgex_device := MkDevice {
  dev_protocols : devsdk_protocols; dev_adminState : edgex_device_adminstate; dev_created : Z;
  dev_description : string; dev_id : string; dev_labels : devsdk_strings;
  dev_lastConnected : Z; dev_lastReported : Z; dev_modified : Z; dev_name : string;
  dev_operatingState : edgex_device_operatingstate; dev_origin : Z;
  dev_autos : list edgex_device_autoevents;
  dev_service : edgex_deviceservice; dev_profile : edgex_deviceprofile }.

Record edgex_watcher := MkWatcher {
  w_id : string; w_name : string; w_identifiers : devsdk_nvpairs;
  w_blocking_identifiers : edgex_blocklist; w_profile : string;
  w_adminstate : edgex_device_adminstate }.

Record edgex_valuedescriptor := MkValueDescriptor {
  vd_created : Z; vd_defaultValue : string; vd_description : string; vd_formatting : string;
  vd_id : string; vd_labels : devsdk_strings; vd_max : string; vd_min : string; vd_modified : Z;
  vd_name : string; vd_origin : Z; vd_type : string; vd_uomLabel : string; vd_mediaType : string;
  vd_floatEncoding : string }.

(** ** Named values *)

Definition devsdk_nvpairs_new (name value : string) (l : devsdk_nvpairs) : devsdk_nvpairs :=
  (name, value) :: l.

Fixpoint assoc {A} (l : list (string * A)) (name : string) : option A :=
  match l with
  | [] => None
  | (n, v) :: l' => if String.eqb n name then Some v else assoc l' name
  end.

Definition devsdk_nvpairs_value (nvp : devsdk_nvpairs) (name : option string) : option string :=
  match name with None => None | Some name => assoc nvp name end.

(** A value that is present and not empty, converted; the conversion has to
    consume it all without a range error. *)
Definition devsdk_nvpairs_long_value (nvp : devsdk_nvpairs) (name : option string) : option Z :=
  match devsdk_nvpairs_value nvp name with
  | Some (String c v) =>
      let r := strtol 0 (String c v) in
      if negb (st_erange r) && String.eqb (st_end r) EmptyString then Some (st_val r) else None
  | _ => None
  end.

Definition devsdk_nvpairs_ulong_value (nvp : devsdk_nvpairs) (name : option string) : option Z :=
  match devsdk_nvpairs_value nvp name with
  | Some (String c v) =>
      let r := strtoul 0 (String c v) in
      if negb (st_erange r) && String.eqb (st_end r) EmptyString then Some (st_val r) else None
  | _ => None
  end.

Definition devsdk_nvpairs_float_value (nvp : devsdk_nvpairs) (name : option string) : option spec_float :=
  match devsdk_nvpairs_value nvp name with
  | Some (String c v) =>
      let r := strtof (String c v) in
      if negb (sd_erange r) && String.eqb (sd_end r) EmptyString then Some (sd_val r) else None
  | _ => None
  end.

Definition devsdk_nvpairs_dup (p : devsdk_nvpairs) : devsdk_nvpairs :=
  map (fun '(name, value) => (name, value)) p.

Definition devsdk_strings_dup (strs : devsdk_strings) : devsdk_strings := map (fun s => s) strs.

Definition devsdk_protocols_new (name : string) (properties : devsdk_nvpairs) (l : devsdk_protocols)
    : devsdk_protocols := (name, devsdk_nvpairs_dup properties) :: l.

Definition devsdk_protocols_properties (prots : devsdk_protocols) (name : option string)
    : option devsdk_nvpairs :=
  match name with None => None | Some name => assoc prots name end.

(** Each copy is put at the front of the result. *)
Definition devsdk_protocols_dup (e : devsdk_protocols) : devsdk_protocols :=
  fold_left (fun result '(name, properties) => (name, devsdk_nvpairs_dup properties) :: result) e [].

(** The comparison of lists that the macro [LIST_EQUAL_FUNCTION] generates: same
    length, and every element of the first list matches the first element of the
    second that has its name. *)
Definition list_equal {A} (name : A -> string) (cmp : A -> A -> bool) (l1 l2 : list A) : bool :=
  if negb (Nat.eqb (length l1) (length l2)) then false
  else forallb (fun l =>
         match List.find (fun found => String.eqb (name l) (name found)) l2 with
         | None => false
         | Some found => cmp l found
         end) l1.

Definition pair_equal (p1 p2 : string * string) : bool := String.eqb (snd p1) (snd p2).

Definition devsdk_nvpairs_equal : devsdk_nvpairs -> devsdk_nvpairs -> bool := list_equal fst pair_equal.

Definition protocol_equal (p1 p2 : string * devsdk_nvpairs) : bool :=
  devsdk_nvpairs_equal (snd p1) (snd p2).

Definition devsdk_protocols_equal : devsdk_protocols -> devsdk_protocols -> bool :=
  list_equal fst protocol_equal.

Definition autoevent_equal (e1 e2 : edgex_device_autoevents) : bool :=
  String.eqb (ae_frequency e1) (ae_frequency e2) && Bool.eqb (ae_onChange e1) (ae_onChange e2).

Definition edgex_device_autoevents_equal :
    list edgex_device_autoevents -> list edgex_device_autoevents -> bool :=
  list_equal ae_resource autoevent_equal.

(** The SDK's public names for the same functions. *)
Definition edgex_nvpairs_new := devsdk_nvpairs_new.
Definition edgex_nvpairs_value := devsdk_nvpairs_value.
Definition edgex_nvpairs_long_value := devsdk_nvpairs_long_value.
Definition edgex_nvpairs_ulong_value := devsdk_nvpairs_ulong_value.
Definition edgex_nvpairs_float_value := devsdk_nvpairs_float_value.
Definition edgex_protocols_properties := devsdk_protocols_properties.

(** ** Comparison of lists *)

Section list_equal.
  Context {A : Type} (name : A -> string) (cmp : A -> A -> bool).

Lemma find_name_some l2 n b :
  List.find (fun found => String.eqb n (name found)) l2 = Some b -> b ∈ l2 /\ name b = n.
Proof.
  intros H. pose proof (List.find_some _ _ H) as [Hin Heq]. split; [by apply list_elem_of_In|].
  apply String.eqb_eq in Heq. done.
Qed.

Lemma find_name_unique l2 b :
  NoDup (map name l2) -> b ∈ l2 ->
  List.find (fun found => String.eqb (name b) (name found)) l2 = Some b.
Proof.
  induction l2 as [|x l2 IH]; [by intros _ ?%elem_of_nil|].
  intros [Hx Hnd]%NoDup_cons [->|Hin]%elem_of_cons; cbn [List.find].
  - by rewrite String.eqb_refl.
  - destruct (String.eqb_spec (name b) (name x)) as [Heq|_]; [|auto].
    destruct Hx. rewrite <-Heq. by apply (list_elem_of_fmap_2 name).
Qed.

(** With distinct names, the comparison holds exactly when the lists match
    element by element up to the order of the second. *)
Lemma list_equal_spec l1 l2 :
  NoDup (map name l1) -> NoDup (map name l2) ->
  list_equal name cmp l1 l2 = true <->
  exists l2', l2' ≡ₚ l2 /\ Forall2 (fun a b => name a = name b /\ cmp a b = true) l1 l2'.
Proof.
  intros Hnd1 Hnd2. unfold list_equal. split.
  - destruct (Nat.eqb_spec (length l1) (length l2)) as [Hlen|]; cbn [negb]; [|done].
    intros Hall. rewrite forallb_forall in Hall.
    assert (exists l2', Forall2 (fun a b => b ∈ l2 /\ name a = name b /\ cmp a b = true) l1 l2') as [l2' Hf].
    { clear Hnd1 Hlen. induction l1 as [|a l1 IH]; [by exists []|].
      destruct IH as [l2' IH]; [intros x Hx; apply Hall; by right|].
      specialize (Hall a (or_introl eq_refl)).
      destruct (List.find _ l2) as [b|] eqn:E; [|done]. apply find_name_some in E as [Hin Hn].
      exists (b :: l2'). constructor; [|done]. by split_and!. }
    exists l2'. split.
    + assert (map name l2' = map name l1) as Hnames.
      { clear -Hf. induction Hf as [|a b l1 l2' (_ & Hn & _) _ IH]; [done|]. simpl. by rewrite Hn, IH. }
      apply submseteq_length_Permutation.
      * apply NoDup_submseteq; [eapply (NoDup_fmap_1 name); change (fmap name) with (map name); by rewrite Hnames|].
        intros b Hb. apply list_elem_of_lookup in Hb as [i Hi].
        by destruct (Forall2_lookup_r _ _ _ _ _ Hf Hi) as (a & _ & ? & _).
      * rewrite <-Hlen, (Forall2_length _ _ _ Hf). done.
    + eapply Forall2_impl; [exact Hf|]. by intros a b (_ & ? & ?).
  - intros (l2' & Hperm & Hf). rewrite (Forall2_length _ _ _ Hf), (Permutation_length Hperm), Nat.eqb_refl.
    cbn [negb]. apply forallb_forall. intros a Ha%list_elem_of_In.
    apply list_elem_of_lookup in Ha as [i Hi].
    destruct (Forall2_lookup_l _ _ _ _ _ Hf Hi) as (b & Hb & Hn & Hc).
    rewrite Hn, find_name_unique; [done|done|]. rewrite <-Hperm. by eapply list_elem_of_lookup_2.
Qed.
End list_equal.

Lemma nvpairs_equal_spec l1 l2 :
  NoDup (map fst l1) -> NoDup (map fst l2) -> devsdk_nvpairs_equal l1 l2 = true <-> l1 ≡ₚ l2.
Proof.
  intros H1 H2. unfold devsdk_nvpairs_equal. rewrite list_equal_spec by done. split.
  - intros (l2' & <- & Hf). replace l2' with l1; [done|]. clear H1 H2.
    induction Hf as [|[n v] [n' v'] l1 l2' [Hn Hc] _ IH]; [done|]. unfold pair_equal in Hc.
    cbn [fst snd] in *. apply String.eqb_eq in Hc. by subst.
  - intros Hp. exists l1. split; [done|]. clear. induction l1 as [|x l IH]; [done|].
    constructor; [|done]. split; [done|]. apply String.eqb_refl.
Qed.

(** The same protocols with the same properties, in any order. *)
Definition protocols_same (p1 p2 : devsdk_protocols) : Prop :=
  exists p2', p2' ≡ₚ p2 /\ Forall2 (fun a b => fst a = fst b /\ snd a ≡ₚ snd b) p1 p2'.

Definition protocols_distinct (p : devsdk_protocols) : Prop :=
  NoDup (map fst p) /\ Forall (fun a => NoDup (map fst (snd a))) p.

(** For protocol lists with distinct names, with distinct property names in
    each, [devsdk_protocols_equal] holds exactly when both describe the same
    protocols with the same properties, whatever the order of either list. *)
Theorem protocols_equal_correct (p1 p2 : devsdk_protocols) :
  protocols_distinct p1 -> protocols_distinct p2 ->
  devsdk_protocols_equal p1 p2 = true <-> protocols_same p1 p2.
Proof.
  intros [Hn1 Hd1] [Hn2 Hd2]. unfold devsdk_protocols_equal, protocols_same.
  rewrite list_equal_spec by done. f_equiv. intros l2'. split; intros [Hp Hf]; (split; [done|]).
  all: rewrite <-Hp in Hd2; clear Hp Hn1; revert Hd1 Hd2;
    induction Hf as [|a b l1 l2' [Hn Hc] Hf IH]; intros Hd1 Hd2; [done|];
    apply Forall_cons in Hd1 as [Ha Hd1]; apply Forall_cons in Hd2 as [Hb Hd2];
    (constructor; [|by apply IH]); (split; [done|]); by apply nvpairs_equal_spec.
Qed.

Definition sample_protocols : devsdk_protocols :=
  [("modbus", [("address", "10"); ("port", "502")]); ("serial", [])].

Lemma protocols_equal_correct_witness :
  devsdk_protocols_equal sample_protocols (rev sample_protocols) = true <->
  protocols_same sample_protocols (rev sample_protocols).
Proof.
  apply (protocols_equal_correct sample_protocols (rev sample_protocols));
    split; cbn; repeat constructor; cbn; set_solver.
Defined.

(** With a repeated name the comparison depends on the order of its arguments. *)
Lemma nvpairs_equal_not_symmetric :
  devsdk_nvpairs_equal [("a", "1"); ("a", "1")] [("a", "1"); ("b", "2")] = true /\
  devsdk_nvpairs_equal [("a", "1"); ("b", "2")] [("a", "1"); ("a", "1")] = false.
Proof. done. Qed.

(** ** Copies *)

Lemma nvpairs_dup_id p : devsdk_nvpairs_dup p = p.
Proof. induction p as [|[n v] p IH]; [done|]. cbn. f_equal. apply IH. Qed.

Lemma strings_dup_id s : devsdk_strings_dup s = s.
Proof. apply map_id. Qed.

Lemma protocols_dup_rev p : devsdk_protocols_dup p = rev p.
Proof.
  unfold devsdk_protocols_dup. rewrite <-(app_nil_r (rev p)). generalize (@nil (string * devsdk_nvpairs)).
  induction p as [|[n l] p IH]; intros acc; [done|]. cbn [fold_left rev].
  by rewrite IH, nvpairs_dup_id, <-app_assoc.
Qed.

Lemma assoc_nodup {A} (l : list (string * A)) k v :
  NoDup (map fst l) -> (k, v) ∈ l -> assoc l k = Some v.
Proof.
  induction l as [|[n x] l IH]; intros Hnd Hin; [by apply elem_of_nil in Hin|].
  cbn [map fst] in Hnd. apply NoDup_cons in Hnd as [Hn Hnd]. cbn [assoc].
  apply elem_of_cons in Hin as [[= -> ->]|Hin]; [by rewrite String.eqb_refl|].
  destruct (String.eqb_spec n k) as [->|]; [|auto]. destruct Hn.
  by apply (list_elem_of_fmap_2 fst) in Hin.
Qed.

Lemma assoc_none {A} (l : list (string * A)) k : assoc l k = None <-> k ∉ map fst l.
Proof.
  induction l as [|[n x] l IH]; [by split; [intros _ ?%elem_of_nil|]|].
  cbn [assoc map fst]. rewrite not_elem_of_cons.
  destruct (String.eqb_spec n k) as [->|]; [by split; [|intros []]|]. rewrite IH. split; [done|tauto].
Qed.

Lemma assoc_in {A} (l : list (string * A)) k v : assoc l k = Some v -> (k, v) ∈ l.
Proof.
  induction l as [|[n x] l IH]; [done|]. cbn [assoc].
  destruct (String.eqb_spec n k) as [->|]; [intros [= ->]; by left|right; auto].
Qed.

(** Lookup does not depend on the order when names are distinct. *)
Lemma assoc_perm {A} (l l' : list (string * A)) k :
  NoDup (map fst l) -> l ≡ₚ l' -> assoc l k = assoc l' k.
Proof.
  intros Hnd Hp. assert (NoDup (map fst l')) as Hnd' by (by rewrite <-Hp).
  destruct (assoc l k) as [v|] eqn:E.
  - apply assoc_in in E. rewrite Hp in E. by rewrite (assoc_nodup l' k v).
  - apply assoc_none in E. symmetry. apply assoc_none. by rewrite <-Hp.
Qed.
