(* ===== verification/EdgexRest.v ===== *)
(** * Conversion of the SDK's structures to and from JSON ([edgex-rest.c])

    One definition per [_read], [_write] and [_dup] function. A reader returns
    [Fail] where the code logs an error and returns NULL, and [Crash] where it
    dereferences a NULL pointer. *)

From S2P Require Import Prelude CLib CFloat Parson ParsonText DevTypes.
From Stdlib Require Import Ascii.
Local Open Scope Z_scope.
Local Open Scope sdk_scope.

(** ** Setters whose status the caller ignores *)

Definition put_value (name : string) (v : JSON_Value) (o : JSON_Object) : JSON_Object :=
  default o (json_object_set_value o name (Some v)).
Definition put_string (name : string) (s : option string) (o : JSON_Object) : JSON_Object :=
  default o (json_object_set_string o name s).
Definition put_uint (name : string) (u : Z) (o : JSON_Object) : JSON_Object :=
  default o (json_object_set_uint o name u).
Definition put_boolean (name : string) (b : bool) (o : JSON_Object) : JSON_Object :=
  default o (json_object_set_boolean o name (if b then 1 else 0)).

(** ** Helpers *)

Definition rwstrings (readable writable : bool) : string :=
  match readable, writable with
  | false, false => "" | false, true => "W" | true, false => "R" | true, true => "RW"
  end.

Definition get_string (obj : option JSON_Object) (name : string) : string :=
  default EmptyString (json_object_get_string obj name).

Definition get_array_string (array : option JSON_Array) (index : nat) : string :=
  default EmptyString (json_array_get_string array index).

Definition get_boolean (obj : option JSON_Object) (name : string) (dflt : bool) : bool :=
  let i := json_object_get_boolean obj name in
  if i =? -1 then dflt else negb (i =? 0).

Definition array_to_strings (array : option JSON_Array) : devsdk_strings :=
  map (get_array_string array) (seq 0 (json_array_get_count array)).

Definition strings_to_array (s : devsdk_strings) : JSON_Value :=
  VArray (fold_left (fun a str => default a (json_array_append_string a (Some str))) s []).

Definition nvpairs_write (e : devsdk_nvpairs) : JSON_Value :=
  VObject (fold_left (fun obj nv => put_string (fst nv) (Some (snd nv)) obj) e []).

(** The pairs are put at the front of the result one after the other; a value that
    is not a string is a NULL pointer given to [strdup]. *)
Fixpoint nvpairs_loop (obj : list (string * JSON_Value)) (result : devsdk_nvpairs) : res devsdk_nvpairs :=
  match obj with
  | [] => Ret result
  | (name, v) :: obj' =>
      value ← deref (json_value_get_string (Some v));
      nvpairs_loop obj' ((name, value) :: result)
  end.

Definition nvpairs_read (obj : option JSON_Object) : res devsdk_nvpairs :=
  match obj with None => Ret [] | Some o => nvpairs_loop o [] end.

(** ** Enumerations *)

Definition proptypes : list string :=
  ["int8"; "uint8"; "int16"; "uint16"; "int32"; "uint32"; "int64";
   "uint64"; "float32"; "float64"; "bool"; "string"; "binary"; "unused1"; "unused2";
   "int8array"; "uint8array"; "int16array"; "uint16array"; "int32array"; "uint32array"; "int64array";
   "uint64array"; "float32array"; "float64array"; "boolarray"].

Fixpoint type_index (l : list edgex_propertytype) (t : edgex_propertytype) : nat :=
  match l with
  | [] => O
  | x :: l' => if decide (x = t) then O else S (type_index l' t)
  end.

Definition edgex_propertytype_tostring (pt : edgex_propertytype) : string :=
  default EmptyString (proptypes !! type_index propertytypes pt).

Definition edgex_propertytype_fromstring (str : option string) : option edgex_propertytype :=
  match str with
  | None => None
  | Some str =>
      List.find (fun i => negb (bool_decide (i = Edgex_Unused1)) && negb (bool_decide (i = Edgex_Unused2))
                          && strcasecmp_eq str (edgex_propertytype_tostring i)) propertytypes
  end.

Definition edgex_adminstate_tostring (ad : edgex_device_adminstate) : string :=
  match ad with LOCKED => "LOCKED" | UNLOCKED => "UNLOCKED" end.

Definition edgex_adminstate_fromstring (str : option string) : edgex_device_adminstate :=
  match str with
  | Some s => if String.eqb s "LOCKED" then LOCKED else UNLOCKED
  | None => UNLOCKED
  end.

Definition edgex_operatingstate_tostring (op : edgex_device_operatingstate) : string :=
  match op with ENABLED => "ENABLED" | DISABLED => "DISABLED" end.

Definition edgex_operatingstate_fromstring (str : option string) : edgex_device_operatingstate :=
  match str with
  | Some s => if String.eqb s "DISABLED" then DISABLED else ENABLED
  | None => ENABLED
  end.

(** ** Property values *)

(** [None]: the argument cannot be parsed, or the type is not numeric. *)
Definition get_transformArg (obj : option JSON_Object) (name : string) (type : edgex_propertytype)
    : option edgex_transformArg :=
  match json_object_get_string obj name with
  | Some (String c s) =>
      let str := String c s in
      if is_integer type then
        let r := strtol 0 str in
        if st_erange r || negb (String.eqb (st_end r) EmptyString) then None
        else Some {| ta_enabled := true; ta_value := AInt (st_val r) |}
      else if is_float type then
        let r := strtod str in
        if sd_erange r || negb (String.eqb (sd_end r) EmptyString) then None
        else Some {| ta_enabled := true; ta_value := AFloat (sd_val r) |}
      else None
  | _ => Some no_arg
  end.

Definition propertyvalue_read (obj : option JSON_Object) : res edgex_propertyvalue :=
  match edgex_propertytype_fromstring (json_object_get_string obj "type") with
  | None => Fail
  | Some pt =>
      match get_transformArg obj "scale" pt, get_transformArg obj "offset" pt,
            get_transformArg obj "base" pt, get_transformArg obj "mask" pt,
            get_transformArg obj "shift" pt with
      | Some scale, Some offset, Some base, Some mask, Some shift =>
          if (ta_enabled mask || ta_enabled shift) && is_float pt then Fail
          else
            let '(readable, writable) :=
              match json_object_get_string obj "readWrite" with
              | Some (String c s) => (strchr (String c s) "R", strchr (String c s) "W")
              | _ => (true, true)
              end in
            let fe := json_object_get_string obj "floatEncoding" in
            Ret {| pv_type := pt; pv_readable := readable; pv_writable := writable;
                   pv_minimum := get_string obj "minimum"; pv_maximum := get_string obj "maximum";
                   pv_defaultvalue := get_string obj "defaultValue"; pv_lsb := get_string obj "lsb";
                   pv_mask := mask; pv_shift := shift; pv_scale := scale; pv_offset := offset;
                   pv_base := base; pv_assertion := get_string obj "assertion";
                   pv_precision := get_string obj "precision"; pv_mediaType := get_string obj "mediaType";
                   pv_floatAsBinary := negb (match fe with Some s => String.eqb s "eNotation" | None => false end) |}
      | _, _, _, _, _ => Fail
      end
  end.

(** [sprintf (tmp, PRId64, ...)]: the macro is the text ["ld"], with no directive. *)
Definition PRId64 : string := "ld".

Definition set_arg (name : string) (arg : edgex_transformArg) (pt : edgex_propertytype)
    (obj : JSON_Object) : JSON_Object :=
  if ta_enabled arg then
    let tmp := if is_float pt then print_f (arg_dval (ta_value arg)) else PRId64 in
    put_string name (Some tmp) obj
  else obj.

Definition propertyvalue_write (e : edgex_propertyvalue) : JSON_Value :=
  VObject (([] : JSON_Object)
    ;> put_string "type" (Some (edgex_propertytype_tostring (pv_type e)))
    ;> put_string "readWrite" (Some (rwstrings (pv_readable e) (pv_writable e)))
    ;> put_string "minimum" (Some (pv_minimum e))
    ;> put_string "maximum" (Some (pv_maximum e))
    ;> put_string "defaultValue" (Some (pv_defaultvalue e))
    ;> put_string "lsb" (Some (pv_lsb e))
    ;> set_arg "mask" (pv_mask e) (pv_type e)
    ;> set_arg "shift" (pv_shift e) (pv_type e)
    ;> set_arg "scale" (pv_scale e) (pv_type e)
    ;> set_arg "offset" (pv_offset e) (pv_type e)
    ;> set_arg "base" (pv_base e) (pv_type e)
    ;> put_string "assertion" (Some (pv_assertion e))
    ;> put_string "precision" (Some (pv_precision e))
    ;> put_string "floatEncoding" (Some (if pv_floatAsBinary e then "base64" else "eNotation"))
    ;> put_string "mediaType" (Some (pv_mediaType e))).

Definition propertyvalue_dup (pv : edgex_propertyvalue) : edgex_propertyvalue :=
  {| pv_type := pv_type pv; pv_readable := pv_readable pv; pv_writable := pv_writable pv;
     pv_minimum := pv_minimum pv; pv_maximum := pv_maximum pv; pv_defaultvalue := pv_defaultvalue pv;
     pv_lsb := pv_lsb pv; pv_mask := pv_mask pv; pv_shift := pv_shift pv; pv_scale := pv_scale pv;
     pv_offset := pv_offset pv; pv_base := pv_base pv; pv_assertion := pv_assertion pv;
     pv_precision := pv_precision pv; pv_mediaType := pv_mediaType pv;
     pv_floatAsBinary := pv_floatAsBinary pv |}.

Definition units_read (obj : option JSON_Object) : edgex_units :=
  {| u_type := get_string obj "type"; u_readwrite := get_string obj "readWrite";
     u_defaultvalue := get_string obj "defaultValue" |}.

Definition units_write (e : edgex_units) : JSON_Value :=
  VObject (([] : JSON_Object)
    ;> put_string "type" (Some (u_type e))
    ;> put_string "readWrite" (Some (u_readwrite e))
    ;> put_string "defaultValue" (Some (u_defaultvalue e))).

Definition units_dup (u : edgex_units) : edgex_units :=
  {| u_type := u_type u; u_readwrite := u_readwrite u; u_defaultvalue := u_defaultvalue u |}.

Definition profileproperty_read (obj : option JSON_Object) : res edgex_profileproperty :=
  val ← propertyvalue_read (json_object_get_object obj "value");
  mret {| pp_value := val; pp_units := units_read (json_object_get_object obj "units") |}.

Definition profileproperty_write (e : edgex_profileproperty) : JSON_Value :=
  VObject (([] : JSON_Object)
    ;> put_value "value" (propertyvalue_write (pp_value e))
    ;> put_value "units" (units_write (pp_units e))).

Definition profileproperty_dup (pp : edgex_profileproperty) : edgex_profileproperty :=
  {| pp_value := propertyvalue_dup (pp_value pp); pp_units := units_dup (pp_units pp) |}.

(** ** Resources *)

Definition deviceresource_read (obj : option JSON_Object) : res edgex_deviceresource :=
  pp ← profileproperty_read (json_object_get_object obj "properties");
  attributes ← nvpairs_read (json_object_get_object obj "attributes");
  mret {| dr_name := get_string obj "name"; dr_description := get_string obj "description";
          dr_tag := get_string obj "tag"; dr_properties := pp; dr_attributes := attributes |}.

Definition deviceresource_write (e : edgex_deviceresource) : JSON_Value :=
  VObject (([] : JSON_Object)
    ;> put_string "name" (Some (dr_name e))
    ;> put_string "description" (Some (dr_description e))
    ;> put_string "tag" (Some (dr_tag e))
    ;> put_value "properties" (profileproperty_write (dr_properties e))
    ;> put_value "attributes" (nvpairs_write (dr_attributes e))).

Definition deviceresource_dup1 (e : edgex_deviceresource) : edgex_deviceresource :=
  {| dr_name := dr_name e; dr_description := dr_description e; dr_tag := dr_tag e;
     dr_properties := profileproperty_dup (dr_properties e);
     dr_attributes := devsdk_nvpairs_dup (dr_attributes e) |}.

Definition edgex_deviceresource_dup (e : list edgex_deviceresource) : list edgex_deviceresource :=
  map deviceresource_dup1 e.

(** ** Commands *)

(** The deprecated fields stand in for empty ones. *)
Definition resourceoperation_read (obj : option JSON_Object) : res edgex_resourceoperation :=
  let object := get_string obj "object" in
  let deviceResource := get_string obj "deviceResource" in
  let resource := get_string obj "resource" in
  let deviceCommand := get_string obj "deviceCommand" in
  mappings ← nvpairs_read (json_object_get_object obj "mappings");
  mret {| ro_index := get_string obj "index"; ro_operation := get_string obj "operation";
          ro_object := object;
          ro_deviceResource :=
            if Nat.eqb (String.length deviceResource) 0 && negb (Nat.eqb (String.length object) 0)
            then object else deviceResource;
          ro_property := get_string obj "property"; ro_parameter := get_string obj "parameter";
          ro_resource := resource;
          ro_deviceCommand :=
            if Nat.eqb (String.length deviceCommand) 0 && negb (Nat.eqb (String.length resource) 0)
            then resource else deviceCommand;
          ro_secondary := array_to_strings (json_object_get_array obj "secondary");
          ro_mappings := mappings |}.

Definition resourceoperation_write (e : edgex_resourceoperation) : JSON_Value :=
  VObject (([] : JSON_Object)
    ;> put_string "index" (Some (ro_index e))
    ;> put_string "operation" (Some (ro_operation e))
    ;> put_string "object" (Some (ro_object e))
    ;> put_string "deviceResource" (Some (ro_deviceResource e))
    ;> put_string "property" (Some (ro_property e))
    ;> put_string "parameter" (Some (ro_parameter e))
    ;> put_string "resource" (Some (ro_resource e))
    ;> put_string "deviceCommand" (Some (ro_deviceCommand e))
    ;> put_value "secondary" (strings_to_array (ro_secondary e))
    ;> put_value "mappings" (nvpairs_write (ro_mappings e))).

Definition resourceoperation_dup (ro : list edgex_resourceoperation) : list edgex_resourceoperation :=
  map (fun ro =>
    {| ro_index := ro_index ro; ro_operation := ro_operation ro; ro_object := ro_object ro;
       ro_deviceResource := ro_deviceResource ro; ro_property := ro_property ro;
       ro_parameter := ro_parameter ro; ro_resource := ro_resource ro;
       ro_deviceCommand := ro_deviceCommand ro; ro_secondary := devsdk_strings_dup (ro_secondary ro);
       ro_mappings := devsdk_nvpairs_dup (ro_mappings ro) |}) ro.

(** The items of an array as objects, NULL for an item that is not one. *)
Definition array_objects (array : option JSON_Array) : list (option JSON_Object) :=
  map (json_array_get_object array) (seq 0 (json_array_get_count array)).

Definition devicecommand_read (obj : option JSON_Object) : res edgex_devicecommand :=
  set ← res_map resourceoperation_read (array_objects (json_object_get_array obj "set"));
  get ← res_map resourceoperation_read (array_objects (json_object_get_array obj "get"));
  mret {| dc_name := get_string obj "name"; dc_set := set; dc_get := get |}.

(** The two arrays live in a store: [array_val] at 0, [array_val2] at 1. Both
    [array] and [array2] are taken from [array_val]. *)
Definition append_all (array : nat) (ops : list edgex_resourceoperation) (store : list JSON_Array)
    : list JSON_Array :=
  fold_left (fun st op => alter (fun a => json_array_add a (resourceoperation_write op)) array st) ops store.

Definition devicecommand_write (e : edgex_devicecommand) : JSON_Value :=
  let array_val := O in
  let array := array_val in
  let array_val2 := 1%nat in
  let array2 := array_val in
  let store := [[]; []] in
  let store := append_all array (dc_set e) store in
  let store := append_all array2 (dc_get e) store in
  let contents v := VArray (default [] (store !! v)) in
  VObject (([] : JSON_Object)
    ;> put_string "name" (Some (dc_name e))
    ;> put_value "set" (contents array_val)
    ;> put_value "get" (contents array_val2)).

Definition devicecommand_dup (pr : list edgex_devicecommand) : list edgex_devicecommand :=
  map (fun pr => {| dc_name := dc_name pr; dc_set := resourceoperation_dup (dc_set pr);
                    dc_get := resourceoperation_dup (dc_get pr) |}) pr.

(** ** Profiles *)

Definition resourceop_validate (ros : list edgex_resourceoperation) (reslist : list edgex_deviceresource)
    : bool :=
  forallb (fun ro => existsb (fun r => String.eqb (ro_deviceResource ro) (dr_name r)) reslist) ros.

Definition devicecommand_read_valid (reslist : list edgex_deviceresource) (obj : option JSON_Object)
    : res edgex_devicecommand :=
  temp ← devicecommand_read obj;
  if resourceop_validate (dc_set temp) reslist && resourceop_validate (dc_get temp) reslist
  then mret temp else Fail.

Definition deviceprofile_read (obj : option JSON_Object) : res edgex_deviceprofile :=
  resources ← res_map deviceresource_read (array_objects (json_object_get_array obj "deviceResources"));
  commands ← res_map (devicecommand_read_valid resources)
                     (array_objects (json_object_get_array obj "deviceCommands"));
  mret {| dp_id := get_string obj "id"; dp_name := get_string obj "name";
          dp_description := get_string obj "description";
          dp_created := json_object_get_uint obj "created";
          dp_modified := json_object_get_uint obj "modified";
          dp_origin := json_object_get_uint obj "origin";
          dp_manufacturer := get_string obj "manufacturer"; dp_model := get_string obj "model";
          dp_labels := array_to_strings (json_object_get_array obj "labels");
          dp_resources := resources; dp_commands := commands |}.

Definition deviceprofile_write (e : edgex_deviceprofile) (create : bool) : JSON_Value :=
  let obj := if create then []
             else ([] : JSON_Object)
                    ;> put_string "id" (Some (dp_id e))
                    ;> put_uint "created" (dp_created e)
                    ;> put_uint "modified" (dp_modified e) in
  VObject (obj
    ;> put_string "name" (Some (dp_name e))
    ;> put_string "description" (Some (dp_description e))
    ;> put_uint "origin" (dp_origin e)
    ;> put_string "manufacturer" (Some (dp_manufacturer e))
    ;> put_string "model" (Some (dp_model e))
    ;> put_value "labels" (strings_to_array (dp_labels e))
    ;> put_value "deviceResources" (VArray (map deviceresource_write (dp_resources e)))
    ;> put_value "deviceCommands" (VArray (map devicecommand_write (dp_commands e)))).

Definition deviceprofile_write_name (e : edgex_deviceprofile) : JSON_Value :=
  VObject (([] : JSON_Object) ;> put_string "name" (Some (dp_name e))).

(** [json_parse_string], then a reader on the object, if the text is one. *)
Definition read_json {A} (read : option JSON_Object -> res A) (json : option string) : res A :=
  match json_value_get_object (json_parse_string json) with
  | Some obj => read (Some obj)
  | None => Fail
  end.

Definition edgex_deviceprofile_read : option string -> res edgex_deviceprofile :=
  read_json deviceprofile_read.

Definition edgex_deviceprofile_write (e : edgex_deviceprofile) (create : bool) : option string :=
  json_serialize_to_string (Some (deviceprofile_write e create)).

Definition edgex_deviceprofile_dup (src : edgex_deviceprofile) : edgex_deviceprofile :=
  {| dp_id := dp_id src; dp_name := dp_name src; dp_description := dp_description src;
     dp_created := dp_created src; dp_modified := dp_modified src; dp_origin := dp_origin src;
     dp_manufacturer := dp_manufacturer src; dp_model := dp_model src;
     dp_labels := devsdk_strings_dup (dp_labels src);
     dp_resources := edgex_deviceresource_dup (dp_resources src);
     dp_commands := devicecommand_dup (dp_commands src) |}.

(** ** Automatic events, protocols *)

Definition autoevent_read (obj : option JSON_Object) : edgex_device_autoevents :=
  {| ae_resource := get_string obj "resource"; ae_onChange := get_boolean obj "onChange" false;
     ae_frequency := get_string obj "frequency" |}.

Definition autoevents_write (e : list edgex_device_autoevents) : JSON_Value :=
  VArray (map (fun ae =>
    VObject (([] : JSON_Object)
      ;> put_string "resource" (Some (ae_resource ae))
      ;> put_string "frequency" (Some (ae_frequency ae))
      ;> put_boolean "onChange" (ae_onChange ae))) e).

Definition autoevents_dup (e : list edgex_device_autoevents) : list edgex_device_autoevents :=
  map (fun ae => {| ae_resource := ae_resource ae; ae_frequency := ae_frequency ae;
                    ae_onChange := ae_onChange ae |}) e.

Fixpoint protocols_loop (obj : list (string * JSON_Value)) (result : devsdk_protocols) : res devsdk_protocols :=
  match obj with
  | [] => Ret result
  | (name, pval) :: obj' =>
      properties ← nvpairs_read (json_value_get_object (Some pval));
      protocols_loop obj' ((name, properties) :: result)
  end.

Definition protocols_read (obj : option JSON_Object) : res devsdk_protocols :=
  match obj with None => Ret [] | Some o => protocols_loop o [] end.

Definition protocols_write (e : devsdk_protocols) : JSON_Value :=
  VObject (fold_left (fun obj prot => put_value (fst prot) (nvpairs_write (snd prot)) obj) e []).

(** ** Addressables and services *)

Definition addressable_read (obj : option JSON_Object) : edgex_addressable :=
  let str name := Some (get_string obj name) in
  {| ad_address := str "address"; ad_created := json_object_get_uint obj "created";
     ad_id := str "id"; ad_method := str "method"; ad_modified := json_object_get_uint obj "modified";
     ad_name := str "name"; ad_origin := json_object_get_uint obj "origin";
     ad_password := str "password"; ad_path := str "path"; ad_port := json_object_get_uint obj "port";
     ad_protocol := str "protocol"; ad_publisher := str "publisher"; ad_topic := str "topic";
     ad_user := str "user" |}.

Definition addressable_write (e : edgex_addressable) (create : bool) : JSON_Value :=
  let obj := if create then []
             else ([] : JSON_Object)
                    ;> put_string "id" (ad_id e)
                    ;> put_uint "created" (ad_created e)
                    ;> put_uint "modified" (ad_modified e) in
  VObject (obj
    ;> put_string "address" (ad_address e)
    ;> put_string "method" (ad_method e)
    ;> put_string "name" (ad_name e)
    ;> put_uint "origin" (ad_origin e)
    ;> put_string "password" (ad_password e)
    ;> put_string "path" (ad_path e)
    ;> put_uint "port" (ad_port e)
    ;> put_string "protocol" (ad_protocol e)
    ;> put_string "publisher" (ad_publisher e)
    ;> put_string "topic" (ad_topic e)
    ;> put_string "user" (ad_user e)).

Definition edgex_addressable_dup (addr : option edgex_addressable) : option edgex_addressable :=
  match addr with
  | None => None
  | Some a =>
      Some {| ad_name := ad_name a; ad_id := ad_id a; ad_address := ad_address a;
              ad_method := ad_method a; ad_path := ad_path a; ad_protocol := ad_protocol a;
              ad_user := ad_user a; ad_password := ad_password a; ad_topic := ad_topic a;
              ad_publisher := ad_publisher a; ad_created := ad_created a;
              ad_modified := ad_modified a; ad_origin := ad_origin a; ad_port := ad_port a |}
  end.

Definition deviceservice_read (obj : option JSON_Object) : edgex_deviceservice :=
  {| ds_addressable := Some (addressable_read (json_object_get_object obj "addressable"));
     ds_adminState := edgex_adminstate_fromstring (json_object_get_string obj "adminState");
     ds_created := json_object_get_uint obj "created";
     ds_description := get_string obj "description"; ds_id := get_string obj "id";
     ds_labels := array_to_strings (json_object_get_array obj "labels");
     ds_lastConnected := json_object_get_uint obj "lastConnected";
     ds_lastReported := json_object_get_uint obj "lastReported";
     ds_modified := json_object_get_uint obj "modified"; ds_name := get_string obj "name";
     ds_operatingState := edgex_operatingstate_fromstring (json_object_get_string obj "operatingState");
     ds_origin := json_object_get_uint obj "origin" |}.

(** The addressable is dereferenced. *)
Definition deviceservice_write (e : edgex_deviceservice) (create : bool) : res JSON_Value :=
  let obj := if create then []
             else ([] : JSON_Object)
                    ;> put_string "id" (Some (ds_id e))
                    ;> put_uint "created" (ds_created e)
                    ;> put_uint "modified" (ds_modified e) in
  addressable ← deref (ds_addressable e);
  mret (VObject (obj
    ;> put_value "addressable" (addressable_write addressable false)
    ;> put_string "adminState" (Some (edgex_adminstate_tostring (ds_adminState e)))
    ;> put_string "description" (Some (ds_description e))
    ;> put_value "labels" (strings_to_array (ds_labels e))
    ;> put_uint "lastConnected" (ds_lastConnected e)
    ;> put_uint "lastReported" (ds_lastReported e)
    ;> put_string "name" (Some (ds_name e))
    ;> put_string "operatingState" (Some (edgex_operatingstate_tostring (ds_operatingState e)))
    ;> put_uint "origin" (ds_origin e))).

Definition deviceservice_write_name (e : edgex_deviceservice) : JSON_Value :=
  VObject (([] : JSON_Object) ;> put_string "name" (Some (ds_name e))).

Definition edgex_deviceservice_dup (e : edgex_deviceservice) : edgex_deviceservice :=
  {| ds_name := ds_name e; ds_id := ds_id e; ds_description := ds_description e;
     ds_labels := devsdk_strings_dup (ds_labels e);
     ds_addressable := edgex_addressable_dup (ds_addressable e);
     ds_adminState := ds_adminState e; ds_operatingState := ds_operatingState e;
     ds_origin := ds_origin e; ds_created := ds_created e; ds_modified := ds_modified e;
     ds_lastConnected := ds_lastConnected e; ds_lastReported := ds_lastReported e |}.

Definition edgex_deviceservice_read : option string -> res edgex_deviceservice :=
  read_json (fun obj => Ret (deviceservice_read obj)).

Definition edgex_deviceservice_write (e : edgex_deviceservice) (create : bool) : res (option string) :=
  val ← deviceservice_write e create; mret (json_serialize_to_string (Some val)).

Definition edgex_addressable_read : option string -> res edgex_addressable :=
  read_json (fun obj => Ret (addressable_read obj)).

Definition edgex_addressable_write (e : edgex_addressable) (create : bool) : option string :=
  json_serialize_to_string (Some (addressable_write e create)).

(** ** Devices *)

Definition device_read (obj : option JSON_Object) : res edgex_device :=
  prof ← deviceprofile_read (json_object_get_object obj "profile");
  protocols ← protocols_read (json_object_get_object obj "protocols");
  mret {| dev_name := get_string obj "name"; dev_profile := prof; dev_protocols := protocols;
          dev_adminState := edgex_adminstate_fromstring (json_object_get_string obj "adminState");
          dev_created := json_object_get_uint obj "created";
          dev_description := get_string obj "description"; dev_id := get_string obj "id";
          dev_labels := array_to_strings (json_object_get_array obj "labels");
          dev_lastConnected := json_object_get_uint obj "lastConnected";
          dev_lastReported := json_object_get_uint obj "lastReported";
          dev_modified := json_object_get_uint obj "modified";
          dev_operatingState := edgex_operatingstate_fromstring (json_object_get_string obj "operatingState");
          dev_origin := json_object_get_uint obj "origin";
          dev_autos := fold_left (fun autos o => autoevent_read o :: autos)
                         (array_objects (json_object_get_array obj "autoEvents")) [];
          dev_service := deviceservice_read (json_object_get_object obj "service") |}.

Definition device_write (e : edgex_device) (create : bool) : res JSON_Value :=
  obj ←
    (if create then
       mret (([] : JSON_Object)
         ;> put_value "profile" (deviceprofile_write_name (dev_profile e))
         ;> put_value "service" (deviceservice_write_name (dev_service e))
         ;> put_uint "lastConnected" 0
         ;> put_uint "lastReported" 0)
     else
       service ← deviceservice_write (dev_service e) false;
       mret (([] : JSON_Object)
         ;> put_string "adminState" (Some (edgex_adminstate_tostring (dev_adminState e)))
         ;> put_string "operatingState" (Some (edgex_operatingstate_tostring (dev_operatingState e)))
         ;> put_string "id" (Some (dev_id e))
         ;> put_uint "created" (dev_created e)
         ;> put_uint "modified" (dev_modified e)
         ;> put_value "profile" (deviceprofile_write (dev_profile e) false)
         ;> put_value "service" service
         ;> put_uint "lastConnected" (dev_lastConnected e)
         ;> put_uint "lastReported" (dev_lastReported e)));
  mret (VObject (obj
    ;> put_value "protocols" (protocols_write (dev_protocols e))
    ;> put_value "autoevents" (autoevents_write (dev_autos e))
    ;> put_string "adminState" (Some (edgex_adminstate_tostring (dev_adminState e)))
    ;> put_string "name" (Some (dev_name e))
    ;> put_string "description" (Some (dev_description e))
    ;> put_value "labels" (strings_to_array (dev_labels e))
    ;> put_string "operatingState" (Some (edgex_operatingstate_tostring (dev_operatingState e)))
    ;> put_uint "origin" (dev_origin e))).

Definition edgex_device_dup (e : edgex_device) : edgex_device :=
  {| dev_name := dev_name e; dev_id := dev_id e; dev_description := dev_description e;
     dev_labels := devsdk_strings_dup (dev_labels e);
     dev_protocols := devsdk_protocols_dup (dev_protocols e); dev_autos := autoevents_dup (dev_autos e);
     dev_adminState := dev_adminState e; dev_operatingState := dev_operatingState e;
     dev_origin := dev_origin e; dev_created := dev_created e; dev_modified := dev_modified e;
     dev_lastConnected := dev_lastConnected e; dev_lastReported := dev_lastReported e;
     dev_service := edgex_deviceservice_dup (dev_service e);
     dev_profile := edgex_deviceprofile_dup (dev_profile e) |}.

Definition edgex_device_read : option string -> res edgex_device := read_json device_read.

Definition edgex_device_write (e : edgex_device) (create : bool) : res (option string) :=
  val ← device_write e create; mret (json_serialize_to_string (Some val)).

Definition put_if (name : string) (s : option string) (obj : JSON_Object) : JSON_Object :=
  match s with Some s => put_string name (Some s) obj | None => obj end.

Definition edgex_device_write_sparse (name id description : option string) (labels : devsdk_strings)
    (profile_name : option string) : option string :=
  let obj := ([] : JSON_Object) ;> put_if "name" name ;> put_if "id" id ;> put_if "description" description in
  let obj := match labels with [] => obj | _ => put_value "labels" (strings_to_array labels) obj end in
  let obj := match profile_name with
             | Some p => put_value "profile" (VObject (([] : JSON_Object) ;> put_string "name" (Some p))) obj
             | None => obj
             end in
  json_serialize_to_string (Some (VObject obj)).

(** A device that cannot be read is left out of the result. *)
Fixpoint devices_loop (l : list (option JSON_Object)) : res (list edgex_device) :=
  match l with
  | [] => Ret []
  | o :: l' =>
      match device_read o with
      | Ret d => ds ← devices_loop l'; mret (d :: ds)
      | Fail => devices_loop l'
      | Crash => Crash
      end
  end.

Definition edgex_devices_read (json : option string) : res (list edgex_device) :=
  match json_value_get_array (json_parse_string json) with
  | Some array => devices_loop (array_objects (Some array))
  | None => Ret []
  end.

(** ** Value descriptors *)

Definition valuedescriptor_read (obj : option JSON_Object) : edgex_valuedescriptor :=
  {| vd_created := json_object_get_uint obj "created"; vd_defaultValue := get_string obj "defaultValue";
     vd_description := get_string obj "description"; vd_formatting := get_string obj "formatting";
     vd_id := get_string obj "id"; vd_labels := array_to_strings (json_object_get_array obj "labels");
     vd_max := get_string obj "max"; vd_min := get_string obj "min";
     vd_modified := json_object_get_uint obj "modified"; vd_name := get_string obj "name";
     vd_origin := json_object_get_uint obj "origin"; vd_type := get_string obj "type";
     vd_uomLabel := get_string obj "uomLabel"; vd_mediaType := get_string obj "mediaType";
     vd_floatEncoding := get_string obj "floatEncoding" |}.

Definition valuedescriptor_write (e : edgex_valuedescriptor) : JSON_Value :=
  VObject (([] : JSON_Object)
    ;> put_uint "created" (vd_created e)
    ;> put_string "defaultValue" (Some (vd_defaultValue e))
    ;> put_string "description" (Some (vd_description e))
    ;> put_string "formatting" (Some (vd_formatting e))
    ;> put_string "id" (Some (vd_id e))
    ;> put_value "labels" (strings_to_array (vd_labels e))
    ;> put_string "max" (Some (vd_max e))
    ;> put_string "min" (Some (vd_min e))
    ;> put_uint "modified" (vd_modified e)
    ;> put_string "name" (Some (vd_name e))
    ;> put_uint "origin" (vd_origin e)
    ;> put_string "type" (Some (vd_type e))
    ;> put_string "uomLabel" (Some (vd_uomLabel e))
    ;> put_string "floatEncoding" (Some (vd_floatEncoding e))
    ;> put_string "mediaType" (Some (vd_mediaType e))).

Definition edgex_valuedescriptor_read : option string -> res edgex_valuedescriptor :=
  read_json (fun obj => Ret (valuedescriptor_read obj)).

Definition edgex_valuedescriptor_write (e : edgex_valuedescriptor) : option string :=
  json_serialize_to_string (Some (valuedescriptor_write e)).

(** ** Watchers *)

Definition blocklist_read (obj : option JSON_Object) : edgex_blocklist :=
  match obj with
  | None => []
  | Some o =>
      fold_left (fun result nv =>
        (fst nv, array_to_strings (json_value_get_array (Some (snd nv)))) :: result) o []
  end.

Definition edgex_blocklist_dup (e : edgex_blocklist) : edgex_blocklist :=
  map (fun bl => (fst bl, devsdk_strings_dup (snd bl))) e.

Definition watcher_read (obj : option JSON_Object) : res edgex_watcher :=
  identifiers ← match json_object_get_object obj "identifiers" with
                | Some idobj => nvpairs_read (Some idobj)
                | None => Ret []
                end;
  mret {| w_name := get_string obj "name"; w_id := get_string obj "id"; w_identifiers := identifiers;
          w_blocking_identifiers :=
            match json_object_get_object obj "blockingidentifiers" with
            | Some blockObj => blocklist_read (Some blockObj)
            | None => []
            end;
          w_profile := get_string (json_object_get_object obj "profile") "name";
          w_adminstate := edgex_adminstate_fromstring (json_object_get_string obj "adminState") |}.

Definition edgex_watcher_read : option string -> res edgex_watcher := read_json watcher_read.

Definition edgex_watchers_read (json : option string) : res (list edgex_watcher) :=
  match json_value_get_array (json_parse_string json) with
  | Some array => res_map watcher_read (array_objects (Some array))
  | None => Ret []
  end.

Definition edgex_watcher_dup (e : edgex_watcher) : edgex_watcher :=
  {| w_id := w_id e; w_name := w_name e; w_identifiers := devsdk_nvpairs_dup (w_identifiers e);
     w_blocking_identifiers := edgex_blocklist_dup (w_blocking_identifiers e);
     w_profile := w_profile e; w_adminstate := w_adminstate e |}.
