(* ===== verification/EdgexRestProofs.v ===== *)
(** * What survives a trip through JSON

    The readers undo the writers on every structure, but for the order of named
    values and the losses stated in the theorems. *)

From S2P Require Import Prelude CLib CFloat Parson ParsonText ParsonProofs DevTypes EdgexRest.
From Stdlib Require Import Ascii.
Local Open Scope Z_scope.
Local Open Scope sdk_scope.

(** ** Strings that can be written *)

Definition ok_str (s : string) : Prop := is_valid_utf8 s = true /\ cstr s.
Definition ok_uint (u : Z) : Prop := 0 <= u < 2 ^ 64.

(** Decides [ok_str] of a constant. *)
Ltac const_str := split; [vm_compute; reflexivity|cbn; repeat split; vm_compute; discriminate].

Lemma ok_type t : ok_str (edgex_propertytype_tostring t).
Proof. destruct t; const_str. Qed.
Lemma ok_admin s : ok_str (edgex_adminstate_tostring s).
Proof. destruct s; const_str. Qed.
Lemma ok_op s : ok_str (edgex_operatingstate_tostring s).
Proof. destruct s; const_str. Qed.
Lemma ok_rw r w : ok_str (rwstrings r w).
Proof. destruct r, w; const_str. Qed.
Lemma ok_fe (b : bool) : ok_str (if b then "base64" else "eNotation").
Proof. destruct b; const_str. Qed.

Create HintDb rest.
#[export] Hint Resolve ok_type ok_admin ok_op ok_rw ok_fe : rest.

Lemma put_string_ok n s o : ok_str s -> put_string n (Some s) o = put_value n (VString s) o.
Proof.
  intros [Hs _]. unfold put_string, put_value, json_object_set_string, json_value_init_string.
  by rewrite Hs.
Qed.

Lemma put_uint_value n u o : put_uint n u o = put_value n (VUint u) o.
Proof. done. Qed.

Lemma put_boolean_value n b o : put_boolean n b o = put_value n (VBoolean b) o.
Proof. by destruct b. Qed.

(** ** What is written is well formed *)

(** Values that survive the text: well formed, without floating-point numbers and
    of bounded depth. *)
Definition good (d : Z) (v : JSON_Value) : Prop :=
  json_wf v /\ no_numbers v /\ json_depth v <= d.

Lemma good_mono d d' v : d <= d' -> good d v -> good d' v.
Proof. intros Hd (?&?&?). split_and!; [done|done|lia]. Qed.

Lemma good_nil d : 0 <= d -> good d (VObject []).
Proof. intros Hd. split_and!; [|done|done]. apply json_wf_object. split; [apply NoDup_nil_2|done]. Qed.

Lemma good_object d o :
  0 <= d -> good (d + 1) (VObject o) <->
  NoDup (map fst o) /\ Forall (fun kv => cstr (fst kv) /\ good d (snd kv)) o.
Proof.
  intros Hd. unfold good. rewrite json_wf_object, no_numbers_object. split.
  - intros ((Hnd & Hwf) & Hnn & Hdep). split; [done|]. apply Forall_forall. intros kv Hin.
    pose proof (depth_object_in _ _ Hin). rewrite Forall_forall in Hwf, Hnn.
    destruct (Hwf _ Hin). split_and!; [done|done|by apply Hnn|lia].
  - intros [Hnd Hall]. split_and!; [done| | |].
    + eapply Forall_impl; [exact Hall|]. by intros kv (?&?&?&?).
    + eapply Forall_impl; [exact Hall|]. by intros kv (?&?&?&?).
    + cbn [json_depth]. clear Hnd. induction Hall as [|kv o (_&_&_&Hk) _ IH]; simpl; lia.
Qed.

Lemma good_array d a : 0 <= d -> Forall (good d) a -> good (d + 1) (VArray a).
Proof.
  intros Hd Hall. unfold good. rewrite json_wf_array, no_numbers_array. split_and!.
  - eapply Forall_impl; [exact Hall|]. by intros x (?&?&?).
  - eapply Forall_impl; [exact Hall|]. by intros x (?&?&?).
  - cbn [json_depth]. induction Hall as [|x a (_&_&Hk) _ IH]; simpl; lia.
Qed.

Lemma good_string s : ok_str s -> good 0 (VString s).
Proof. intros [_ Hs]. by split_and!. Qed.

Lemma good_uint u : ok_uint u -> good 0 (VUint u).
Proof. intros Hu. by split_and!. Qed.

Lemma put_value_get n v o k :
  json_object_getn_value (put_value n v o) k
  = if String.eqb n k then Some v else json_object_getn_value o k.
Proof.
  unfold put_value. destruct (set_value_total o n v) as [o' E]. rewrite E. by eapply set_value_get.
Qed.

Lemma replace_first_forall (P : string * JSON_Value -> Prop) o n v :
  Forall P o -> (forall k, k = n -> P (k, v)) -> Forall P (replace_first o n v).
Proof.
  intros Hall Hv. induction Hall as [|[k x] o Hx Hall IH]; [constructor|]. cbn [replace_first].
  destruct (String.eqb_spec k n); constructor; auto.
Qed.

Lemma good_put_value d n v o :
  0 <= d -> cstr n -> good d v -> good (d + 1) (VObject o) -> good (d + 1) (VObject (put_value n v o)).
Proof.
  intros Hd Hn Hv. rewrite !good_object by done. intros [Hnd Hall].
  unfold put_value, json_object_set_value, json_object_add, json_object_addn.
  destruct (json_object_getn_value o n) eqn:E; cbn [default from_option id].
  - rewrite replace_first_keys. split; [done|]. apply replace_first_forall; [done|]. by intros k ->.
  - apply getn_value_none in E. split.
    + rewrite map_app. apply NoDup_app. split_and!; [done| |apply NoDup_singleton].
      intros x Hx Hk. apply list_elem_of_singleton in Hk. by subst.
    + apply Forall_app. split; [done|]. by apply Forall_singleton.
Qed.

Lemma good_put_string d n s o :
  0 <= d -> cstr n -> ok_str s -> good (d + 1) (VObject o) ->
  good (d + 1) (VObject (put_string n (Some s) o)).
Proof.
  intros Hd Hn Hs Ho. rewrite put_string_ok by done. apply good_put_value; [done|done| |done].
  eapply good_mono; [|by apply good_string]. lia.
Qed.

Lemma good_put_uint d n u o :
  0 <= d -> cstr n -> ok_uint u -> good (d + 1) (VObject o) -> good (d + 1) (VObject (put_uint n u o)).
Proof.
  intros Hd Hn Hs Ho. rewrite put_uint_value. apply good_put_value; [done|done| |done].
  eapply good_mono; [|by apply good_uint]. lia.
Qed.

Lemma good_put_boolean d n b o :
  0 <= d -> cstr n -> good (d + 1) (VObject o) -> good (d + 1) (VObject (put_boolean n b o)).
Proof.
  intros Hd Hn Ho. rewrite put_boolean_value. apply good_put_value; [done|done| |done].
  by split_and!.
Qed.

(** ** Lists *)

Lemma strings_to_array_ok s : Forall ok_str s -> strings_to_array s = VArray (map VString s).
Proof.
  intros Hs. unfold strings_to_array. f_equal. rewrite <-(app_nil_l (map VString s)).
  generalize (@nil JSON_Value). induction Hs as [|x s [Hx _] Hs IH]; intros acc; cbn [fold_left map].
  - by rewrite app_nil_r.
  - assert (json_array_append_string acc (Some x) = Some (acc ++ [VString x])) as ->
      by (unfold json_array_append_string, json_value_init_string; by rewrite Hx).
    cbn. rewrite IH. by rewrite <-app_assoc.
Qed.

Lemma map_seq_lookup {A B} (f : option A -> B) (l : list A) :
  map (fun i => f (l !! i)) (seq 0 (length l)) = map (fun x => f (Some x)) l.
Proof.
  induction l as [|x l IH]; [done|]. cbn [length seq map]. f_equal.
  rewrite <-seq_shift, map_map. apply IH.
Qed.

Lemma array_to_strings_ok s : array_to_strings (Some (map VString s)) = s.
Proof.
  transitivity (map (fun x => default EmptyString (json_value_get_string (Some x))) (map VString s)).
  - apply (map_seq_lookup (fun v => default EmptyString (json_value_get_string v)) (map VString s)).
  - rewrite map_map. apply map_id.
Qed.

Lemma array_objects_map (a : JSON_Array) :
  array_objects (Some a) = map (fun v => json_value_get_object (Some v)) a.
Proof. apply (map_seq_lookup json_value_get_object a). Qed.

Definition ok_pairs (e : devsdk_nvpairs) : Prop :=
  NoDup (map fst e) /\ Forall (fun nv => cstr (fst nv) /\ ok_str (snd nv)) e.

(** Writing values under distinct names lists them in order. *)
Lemma put_fresh_fold {A} (f : A -> JSON_Value) (e : list (string * A)) acc :
  NoDup (map fst (acc ++ map (fun nv => (fst nv, f (snd nv))) e)) ->
  fold_left (fun obj nv => put_value (fst nv) (f (snd nv)) obj) e acc
  = acc ++ map (fun nv => (fst nv, f (snd nv))) e.
Proof.
  revert acc. induction e as [|[n x] e IH]; intros acc Hnd; cbn [fold_left map fst snd] in *.
  - by rewrite app_nil_r.
  - assert (put_value n (f x) acc = acc ++ [(n, f x)]) as ->.
    { unfold put_value, json_object_set_value, json_object_add, json_object_addn.
      rewrite (proj2 (getn_value_none acc n)); [done|].
      rewrite map_app, NoDup_app in Hnd. destruct Hnd as (_ & Hd & _). intros Hin.
      apply (Hd _ Hin). by left. }
    rewrite IH; by rewrite <-app_assoc.
Qed.

Lemma map_fst_second {A B} (f : A -> B) (e : list (string * A)) :
  map fst (map (fun nv => (fst nv, f (snd nv))) e) = map fst e.
Proof. by rewrite map_map. Qed.

Lemma nvpairs_write_ok e :
  ok_pairs e -> nvpairs_write e = VObject (map (fun nv => (fst nv, VString (snd nv))) e).
Proof.
  intros [Hnd Hall]. unfold nvpairs_write. f_equal.
  rewrite <-(app_nil_l (map _ e)), <-(put_fresh_fold VString e []) by (by rewrite app_nil_l, map_fst_second).
  generalize (@nil (string * JSON_Value)). clear Hnd.
  induction Hall as [|nv e [_ Hv] _ IH]; intros acc; [done|]. cbn [fold_left].
  by rewrite put_string_ok, IH.
Qed.

Lemma nvpairs_loop_strings e acc :
  nvpairs_loop (map (fun nv => (fst nv, VString (snd nv))) e) acc = Ret (rev e ++ acc).
Proof.
  revert acc. induction e as [|[n v] e IH]; intros acc; [done|]. cbn [map nvpairs_loop fst snd].
  cbn [json_value_get_string deref]. rewrite res_bind_ret, IH. cbn [rev]. by rewrite <-app_assoc.
Qed.

Lemma nvpairs_read_write e :
  ok_pairs e -> nvpairs_read (json_value_get_object (Some (nvpairs_write e))) = Ret (rev e).
Proof.
  intros He. rewrite nvpairs_write_ok by done. cbn [json_value_get_object nvpairs_read].
  by rewrite nvpairs_loop_strings, app_nil_r.
Qed.

Definition ok_protocols (p : devsdk_protocols) : Prop :=
  NoDup (map fst p) /\ Forall (fun pr => cstr (fst pr) /\ ok_pairs (snd pr)) p.

(** The protocols as they come back: both levels reversed. *)
Definition rev_protocols (p : devsdk_protocols) : devsdk_protocols :=
  rev (map (fun pr => (fst pr, rev (snd pr))) p).

Lemma protocols_write_ok p :
  NoDup (map fst p) ->
  protocols_write p = VObject (map (fun pr => (fst pr, nvpairs_write (snd pr))) p).
Proof.
  intros Hnd. unfold protocols_write. f_equal.
  rewrite (put_fresh_fold nvpairs_write p []); [done|]. by rewrite app_nil_l, map_fst_second.
Qed.

Lemma protocols_loop_ok p acc :
  Forall (fun pr => cstr (fst pr) /\ ok_pairs (snd pr)) p ->
  protocols_loop (map (fun pr => (fst pr, nvpairs_write (snd pr))) p) acc
  = Ret (rev_protocols p ++ acc).
Proof.
  intros Hall. revert acc. induction Hall as [|[n l] p [_ Hl] _ IH]; intros acc; [done|].
  cbn [map protocols_loop fst snd]. rewrite nvpairs_read_write by done.
  rewrite res_bind_ret, IH. unfold rev_protocols. cbn [map rev]. by rewrite <-app_assoc.
Qed.

Lemma protocols_read_write p :
  ok_protocols p ->
  protocols_read (json_value_get_object (Some (protocols_write p))) = Ret (rev_protocols p).
Proof.
  intros [Hnd Hall]. rewrite protocols_write_ok by done. cbn [json_value_get_object protocols_read].
  by rewrite protocols_loop_ok, app_nil_r.
Qed.

Lemma good_strings s : Forall ok_str s -> good 1 (strings_to_array s).
Proof.
  intros Hs. rewrite strings_to_array_ok by done. apply (good_array 0); [lia|].
  apply Forall_map. eapply Forall_impl; [exact Hs|]. intros x. apply good_string.
Qed.

Lemma good_nvpairs e : ok_pairs e -> good 1 (nvpairs_write e).
Proof.
  intros He. rewrite nvpairs_write_ok by done. destruct He as [Hnd Hall].
  apply (good_object 0); [lia|]. rewrite map_fst_second. split; [done|]. apply Forall_map.
  eapply Forall_impl; [exact Hall|]. intros nv [Hn Hv]. split; [done|by apply good_string].
Qed.

Lemma good_protocols p : ok_protocols p -> good 2 (protocols_write p).
Proof.
  intros [Hnd Hall]. rewrite protocols_write_ok by done.
  apply (good_object 1); [lia|]. rewrite map_fst_second. split; [done|]. apply Forall_map.
  eapply Forall_impl; [exact Hall|]. intros nv [Hn Hv]. split; [done|by apply good_nvpairs].
Qed.

#[export] Hint Resolve good_strings good_nvpairs good_protocols good_nil : rest.

(** Proves that a chain of setters builds a good value. *)
Ltac good_object :=
  repeat first
    [ apply good_put_string | apply good_put_uint | apply good_put_boolean | apply good_put_value
    | apply good_nil ];
  try lia; try done; eauto with rest.

(** Evaluates a chain of setters with constant names, and the lookups in it. *)
Ltac read_members :=
  cbv [put_value json_object_set_value json_object_add json_object_addn json_object_getn_value
       replace_first String.eqb Ascii.eqb Bool.eqb app default from_option id
       get_string json_object_get_string json_object_get_uint json_object_get_object
       json_object_get_array json_object_get_boolean json_object_get_value
       json_value_get_string json_value_get_uint json_value_get_boolean].

(** Turns every setter into one of a value. *)
Ltac all_values :=
  rewrite ?put_uint_value, ?put_boolean_value;
  rewrite ?put_string_ok by (assumption || auto with rest).

(** ** Units and property values *)

Definition ok_units (u : edgex_units) : Prop :=
  ok_str (u_type u) /\ ok_str (u_readwrite u) /\ ok_str (u_defaultvalue u).

Lemma units_rt u : ok_units u -> units_read (json_value_get_object (Some (units_write u))) = u.
Proof.
  intros (?&?&?). unfold units_write, units_read. all_values. cbn [json_value_get_object].
  read_members. by destruct u.
Qed.

Lemma good_units u : ok_units u -> good 1 (units_write u).
Proof. intros (?&?&?). unfold units_write. change 1 with (0 + 1). good_object. Qed.

Lemma fromstring_tostring t :
  t <> Edgex_Unused1 -> t <> Edgex_Unused2 ->
  edgex_propertytype_fromstring (Some (edgex_propertytype_tostring t)) = Some t.
Proof. by destruct t. Qed.

Definition ok_propertyvalue (pv : edgex_propertyvalue) : Prop :=
  pv_type pv <> Edgex_Unused1 /\ pv_type pv <> Edgex_Unused2 /\
  (pv_readable pv || pv_writable pv) = true /\
  (pv_mask pv = no_arg /\ pv_shift pv = no_arg /\ pv_scale pv = no_arg /\ pv_offset pv = no_arg /\
   pv_base pv = no_arg) /\
  Forall ok_str [pv_minimum pv; pv_maximum pv; pv_defaultvalue pv; pv_lsb pv; pv_assertion pv;
                 pv_precision pv; pv_mediaType pv].

Ltac destruct_ok :=
  repeat match goal with
         | H : _ /\ _ |- _ => destruct H
         | H : Forall ok_str (_ :: _) |- _ => apply Forall_cons in H as [??]
         end.

Lemma set_arg_none n t obj : set_arg n no_arg t obj = obj.
Proof. done. Qed.

Lemma propertyvalue_write_plain pv :
  ok_propertyvalue pv ->
  propertyvalue_write pv
  = VObject ([] ;> put_string "type" (Some (edgex_propertytype_tostring (pv_type pv)))
       ;> put_string "readWrite" (Some (rwstrings (pv_readable pv) (pv_writable pv)))
       ;> put_string "minimum" (Some (pv_minimum pv))
       ;> put_string "maximum" (Some (pv_maximum pv))
       ;> put_string "defaultValue" (Some (pv_defaultvalue pv))
       ;> put_string "lsb" (Some (pv_lsb pv))
       ;> put_string "assertion" (Some (pv_assertion pv))
       ;> put_string "precision" (Some (pv_precision pv))
       ;> put_string "floatEncoding" (Some (if pv_floatAsBinary pv then "base64" else "eNotation"))
       ;> put_string "mediaType" (Some (pv_mediaType pv))).
Proof.
  intros (_&_&_& (Hm & Hsh & Hsc & Ho & Hb) &_). unfold propertyvalue_write.
  by rewrite Hm, Hsh, Hsc, Ho, Hb, !set_arg_none.
Qed.

Lemma propertyvalue_rt pv :
  ok_propertyvalue pv -> propertyvalue_read (json_value_get_object (Some (propertyvalue_write pv))) = Ret pv.
Proof.
  intros Hok. rewrite propertyvalue_write_plain by done. unfold ok_propertyvalue in Hok. destruct_ok.
  all_values. cbn [json_value_get_object]. unfold propertyvalue_read, get_transformArg. read_members.
  rewrite fromstring_tostring by done. cbn [ta_enabled no_arg orb andb].
  destruct pv as [pt r w x1 x2 x3 x4 x5 x6 x7 x8 x9 x10 x11 x12 fb].
  cbn [pv_type pv_readable pv_writable pv_minimum pv_maximum pv_defaultvalue pv_lsb pv_mask pv_shift
       pv_scale pv_offset pv_base pv_assertion pv_precision pv_mediaType pv_floatAsBinary] in *.
  subst. destruct r, w, fb; done.
Qed.

Lemma good_propertyvalue pv : ok_propertyvalue pv -> good 1 (propertyvalue_write pv).
Proof.
  intros Hok. rewrite propertyvalue_write_plain by done. unfold ok_propertyvalue in Hok. destruct_ok.
  change 1 with (0 + 1). good_object.
Qed.

Definition ok_property (pp : edgex_profileproperty) : Prop :=
  ok_propertyvalue (pp_value pp) /\ ok_units (pp_units pp).

#[export] Hint Resolve good_propertyvalue good_units : rest.

Lemma profileproperty_rt pp :
  ok_property pp -> profileproperty_read (json_value_get_object (Some (profileproperty_write pp))) = Ret pp.
Proof.
  destruct pp as [v u]. intros [Hv Hu]. unfold profileproperty_write, profileproperty_read.
  cbn [json_value_get_object pp_value pp_units] in *. read_members.
  by rewrite propertyvalue_rt, units_rt.
Qed.

Lemma good_profileproperty pp : ok_property pp -> good 2 (profileproperty_write pp).
Proof. intros [Hv Hu]. unfold profileproperty_write. change 2 with (1 + 1). good_object. Qed.
#[export] Hint Resolve good_profileproperty : rest.

(** ** Resources *)

Definition ok_resource (r : edgex_deviceresource) : Prop :=
  Forall ok_str [dr_description r; dr_name r; dr_tag r] /\ ok_property (dr_properties r) /\
  ok_pairs (dr_attributes r).

(** A resource as it comes back: the attributes in reverse order. *)
Definition resource_back (r : edgex_deviceresource) : edgex_deviceresource :=
  {| dr_description := dr_description r; dr_name := dr_name r; dr_tag := dr_tag r;
     dr_properties := dr_properties r; dr_attributes := rev (dr_attributes r) |}.

Lemma deviceresource_rt r :
  ok_resource r ->
  deviceresource_read (json_value_get_object (Some (deviceresource_write r))) = Ret (resource_back r).
Proof.
  intros (Hs & Hp & Ha). destruct_ok. unfold deviceresource_write. all_values. cbn [json_value_get_object]. unfold deviceresource_read. read_members.
  by rewrite profileproperty_rt, res_bind_ret, nvpairs_read_write.
Qed.

Lemma good_resource r : ok_resource r -> good 3 (deviceresource_write r).
Proof.
  intros (Hs & Hp & Ha). destruct_ok. unfold deviceresource_write. change 3 with (2 + 1). good_object.
  eapply good_mono; [|by apply good_nvpairs]. lia.
Qed.

(** ** Commands *)

Definition ok_resop (o : edgex_resourceoperation) : Prop :=
  Forall ok_str [ro_index o; ro_operation o; ro_object o; ro_deviceResource o; ro_property o;
                 ro_parameter o; ro_resource o; ro_deviceCommand o] /\
  (ro_deviceResource o = EmptyString -> ro_object o = EmptyString) /\
  (ro_deviceCommand o = EmptyString -> ro_resource o = EmptyString) /\
  Forall ok_str (ro_secondary o) /\ ok_pairs (ro_mappings o).

Definition resop_back (o : edgex_resourceoperation) : edgex_resourceoperation :=
  {| ro_index := ro_index o; ro_operation := ro_operation o; ro_object := ro_object o;
     ro_deviceResource := ro_deviceResource o; ro_property := ro_property o;
     ro_parameter := ro_parameter o; ro_resource := ro_resource o;
     ro_deviceCommand := ro_deviceCommand o; ro_secondary := ro_secondary o;
     ro_mappings := rev (ro_mappings o) |}.

Lemma default_field (a b : string) :
  (a = EmptyString -> b = EmptyString) ->
  (if Nat.eqb (String.length a) 0 && negb (Nat.eqb (String.length b) 0) then b else a) = a.
Proof. destruct a as [|c a]; [|done]. intros H. by rewrite H. Qed.

Lemma resourceoperation_rt o :
  ok_resop o ->
  resourceoperation_read (json_value_get_object (Some (resourceoperation_write o))) = Ret (resop_back o).
Proof.
  intros (Hs & Hr & Hc & Hse & Hma). destruct_ok. unfold resourceoperation_write. all_values. cbn [json_value_get_object]. unfold resourceoperation_read. read_members.
  rewrite nvpairs_read_write, res_bind_ret by done. rewrite strings_to_array_ok by done.
  cbn [json_value_get_array]. rewrite array_to_strings_ok. by rewrite !default_field.
Qed.

Lemma good_resop o : ok_resop o -> good 2 (resourceoperation_write o).
Proof.
  intros (Hs & Hr & Hc & Hse & Hma). destruct_ok. unfold resourceoperation_write.
  change 2 with (1 + 1). good_object.
Qed.

Definition ok_command (c : edgex_devicecommand) : Prop :=
  ok_str (dc_name c) /\ Forall ok_resop (dc_set c) /\ Forall ok_resop (dc_get c).

(** A command as it comes back: the get operations follow the set operations in
    [set], and [get] is empty. *)
Definition command_back (c : edgex_devicecommand) : edgex_devicecommand :=
  {| dc_name := dc_name c; dc_set := map resop_back (dc_set c ++ dc_get c); dc_get := [] |}.

Lemma append_all_zero ops a b :
  append_all 0 ops [a; b] = [a ++ map resourceoperation_write ops; b].
Proof.
  unfold append_all. revert a. induction ops as [|o ops IH]; intros a; cbn [fold_left map].
  - by rewrite app_nil_r.
  - change (alter _ 0%nat [a; b]) with [json_array_add a (resourceoperation_write o); b].
    rewrite IH. unfold json_array_add. by rewrite <-app_assoc.
Qed.

Lemma devicecommand_write_eq c :
  devicecommand_write c
  = VObject ([] ;> put_string "name" (Some (dc_name c))
                ;> put_value "set" (VArray (map resourceoperation_write (dc_set c ++ dc_get c)))
                ;> put_value "get" (VArray [])).
Proof. unfold devicecommand_write. cbn zeta. by rewrite !append_all_zero, map_app. Qed.

Lemma read_objects {A B} (write : A -> JSON_Value) (read : option JSON_Object -> res B) (back : A -> B) l :
  Forall (fun x => read (json_value_get_object (Some (write x))) = Ret (back x)) l ->
  res_map read (array_objects (Some (map write l))) = Ret (map back l).
Proof.
  intros Hall. rewrite array_objects_map, map_map.
  induction Hall as [|x l Hx _ IH]; [done|]. cbn [map res_map]. by rewrite Hx, res_bind_ret, IH.
Qed.

Lemma devicecommand_rt c :
  ok_command c ->
  devicecommand_read (json_value_get_object (Some (devicecommand_write c))) = Ret (command_back c).
Proof.
  intros (Hn & Hs & Hg). rewrite devicecommand_write_eq. all_values. cbn [json_value_get_object].
  unfold devicecommand_read. read_members. cbn [json_value_get_array].
  rewrite (read_objects _ _ resop_back); [done|]. apply Forall_app. split.
  all: eapply Forall_impl; [eassumption|]; apply resourceoperation_rt.
Qed.

Lemma good_command c : ok_command c -> good 4 (devicecommand_write c).
Proof.
  intros (Hn & Hs & Hg). rewrite devicecommand_write_eq. change 4 with (3 + 1). good_object.
  change 3 with (2 + 1). apply good_array; [lia|]. apply Forall_map, Forall_app.
  split; (eapply Forall_impl; [eassumption|]); apply good_resop.
Qed.

(** ** Profiles *)

Definition ok_profile (p : edgex_deviceprofile) : Prop :=
  Forall ok_str [dp_id p; dp_name p; dp_description p; dp_manufacturer p; dp_model p] /\
  Forall ok_uint [dp_created p; dp_modified p; dp_origin p] /\
  Forall ok_str (dp_labels p) /\ Forall ok_resource (dp_resources p) /\
  Forall ok_command (dp_commands p) /\
  Forall (fun c => resourceop_validate (dc_set c) (dp_resources p) = true /\
                   resourceop_validate (dc_get c) (dp_resources p) = true) (dp_commands p).

Definition profile_back (p : edgex_deviceprofile) : edgex_deviceprofile :=
  {| dp_id := dp_id p; dp_name := dp_name p; dp_description := dp_description p;
     dp_created := dp_created p; dp_modified := dp_modified p; dp_origin := dp_origin p;
     dp_manufacturer := dp_manufacturer p; dp_model := dp_model p; dp_labels := dp_labels p;
     dp_resources := map resource_back (dp_resources p);
     dp_commands := map command_back (dp_commands p) |}.

Lemma validate_back ros rs :
  resourceop_validate (map resop_back ros) (map resource_back rs) = resourceop_validate ros rs.
Proof.
  unfold resourceop_validate. induction ros as [|o ros IH]; [done|]. cbn [map forallb]. rewrite IH.
  f_equal. clear IH. induction rs as [|r rs IHr]; [done|]. cbn [map existsb]. by rewrite IHr.
Qed.

Lemma validate_app a b rs :
  resourceop_validate (a ++ b) rs = resourceop_validate a rs && resourceop_validate b rs.
Proof. apply forallb_app. Qed.

Lemma command_read_valid_back c rs :
  ok_command c -> resourceop_validate (dc_set c) rs = true -> resourceop_validate (dc_get c) rs = true ->
  devicecommand_read_valid (map resource_back rs) (json_value_get_object (Some (devicecommand_write c)))
  = Ret (command_back c).
Proof.
  intros Hc Hs Hg. unfold devicecommand_read_valid. rewrite devicecommand_rt, res_bind_ret by done.
  cbn [command_back dc_set dc_get]. by rewrite validate_back, validate_app, Hs, Hg.
Qed.

Lemma deviceprofile_rt p :
  ok_profile p ->
  deviceprofile_read (json_value_get_object (Some (deviceprofile_write p false))) = Ret (profile_back p).
Proof.
  intros (Hs & Hu & Hl & Hr & Hc & Hv). destruct_ok. unfold deviceprofile_write. all_values. cbn [json_value_get_object]. unfold deviceprofile_read. read_members.
  rewrite strings_to_array_ok by done. cbn [json_value_get_array]. rewrite array_to_strings_ok.
  rewrite (read_objects _ _ resource_back) by (eapply Forall_impl; [eassumption|]; apply deviceresource_rt).
  rewrite res_bind_ret. rewrite (read_objects _ _ command_back); [done|].
  eapply Forall_impl; [exact (List.Forall_and Hc Hv)|]. intros c (?&?&?). by apply command_read_valid_back.
Qed.

Lemma good_map {A} d (write : A -> JSON_Value) l :
  0 <= d -> Forall (fun x => good d (write x)) l -> good (d + 1) (VArray (map write l)).
Proof. intros Hd Hall. apply good_array; [done|]. by apply Forall_map. Qed.

Ltac destruct_ok ::=
  repeat match goal with
         | H : _ /\ _ |- _ => destruct H
         | H : Forall ok_str (_ :: _) |- _ => apply Forall_cons in H as [??]
         | H : Forall ok_uint (_ :: _) |- _ => apply Forall_cons in H as [??]
         end.

Lemma good_profile p : ok_profile p -> good 6 (deviceprofile_write p false).
Proof.
  intros (Hs & Hu & Hl & Hr & Hc & Hv). clear Hv. destruct_ok. unfold deviceprofile_write.
  change 6 with (5 + 1). good_object.
  - change 5 with (4 + 1). apply good_map; [lia|]. eapply Forall_impl; [eassumption|]. apply good_command.
  - apply (good_mono (3 + 1)); [lia|]. apply good_map; [lia|].
    eapply Forall_impl; [eassumption|]. apply good_resource.
  - apply (good_mono 1); [lia|]. by apply good_strings.
Qed.

(** ** Services *)

Definition ok_addressable (a : edgex_addressable) : Prop :=
  exists ad idn me na pw pa pr pu tp us,
    [ad_address a; ad_id a; ad_method a; ad_name a; ad_password a; ad_path a; ad_protocol a;
     ad_publisher a; ad_topic a; ad_user a]
    = [Some ad; Some idn; Some me; Some na; Some pw; Some pa; Some pr; Some pu; Some tp; Some us] /\
    Forall ok_str [ad; idn; me; na; pw; pa; pr; pu; tp; us] /\
    Forall ok_uint [ad_created a; ad_modified a; ad_origin a; ad_port a].

Lemma ok_addressable_inv (P : edgex_addressable -> Prop) a :
  (forall ad cr idn me mo na og pw pa po pr pu tp us,
     Forall ok_str [ad; idn; me; na; pw; pa; pr; pu; tp; us] -> Forall ok_uint [cr; mo; og; po] ->
     P (MkAddressable (Some ad) cr (Some idn) (Some me) mo (Some na) og (Some pw) (Some pa) po (Some pr)
          (Some pu) (Some tp) (Some us))) ->
  ok_addressable a -> P a.
Proof.
  intros HP (ad & idn & me & na & pw & pa & pr & pu & tp & us & Heq & Hs & Hu).
  destruct a as [x1 x2 x3 x4 x5 x6 x7 x8 x9 x10 x11 x12 x13 x14].
  cbn [ad_address ad_id ad_method ad_name ad_password ad_path ad_protocol ad_publisher ad_topic ad_user
       ad_created ad_modified ad_origin ad_port] in *.
  injection Heq as -> -> -> -> -> -> -> -> -> ->. by apply HP.
Qed.

Lemma addressable_rt a :
  ok_addressable a -> addressable_read (json_value_get_object (Some (addressable_write a false))) = a.
Proof.
  intros Ha. pattern a. eapply ok_addressable_inv; [|exact Ha]. clear a Ha. intros * Hs Hu. destruct_ok. unfold addressable_write.
  cbn [ad_address ad_id ad_method ad_name ad_password ad_path ad_protocol ad_publisher ad_topic ad_user
       ad_created ad_modified ad_origin ad_port].
  all_values. cbn [json_value_get_object]. unfold addressable_read. by read_members.
Qed.

Lemma good_addressable a : ok_addressable a -> good 1 (addressable_write a false).
Proof.
  intros Ha. pattern a. eapply ok_addressable_inv; [|exact Ha]. clear a Ha. intros * Hs Hu. destruct_ok. unfold addressable_write.
  cbn [ad_address ad_id ad_method ad_name ad_password ad_path ad_protocol ad_publisher ad_topic ad_user
       ad_created ad_modified ad_origin ad_port].
  change 1 with (0 + 1). good_object.
Qed.

Definition ok_service (s : edgex_deviceservice) : Prop :=
  (exists a, ds_addressable s = Some a /\ ok_addressable a) /\
  Forall ok_str [ds_description s; ds_id s; ds_name s] /\ Forall ok_str (ds_labels s) /\
  Forall ok_uint [ds_created s; ds_lastConnected s; ds_lastReported s; ds_modified s; ds_origin s].

Lemma admin_rt a : edgex_adminstate_fromstring (Some (edgex_adminstate_tostring a)) = a.
Proof. by destruct a. Qed.

Lemma op_rt o : edgex_operatingstate_fromstring (Some (edgex_operatingstate_tostring o)) = o.
Proof. by destruct o. Qed.

Lemma deviceservice_rt s :
  ok_service s ->
  exists v, deviceservice_write s false = Ret v /\ good 2 v /\
            deviceservice_read (json_value_get_object (Some v)) = s.
Proof.
  intros ([a [Ha Hok]] & Hs & Hl & Hu). unfold deviceservice_write. rewrite Ha.
  eexists. split; [reflexivity|]. destruct_ok. split.
  - change 2 with (1 + 1). good_object. by apply good_addressable.
  - all_values. cbn [json_value_get_object]. unfold deviceservice_read. read_members.
    rewrite addressable_rt, admin_rt, op_rt, strings_to_array_ok by done.
    cbn [json_value_get_array]. rewrite array_to_strings_ok, <-Ha. by destruct s.
Qed.

(** ** Devices *)

Definition ok_device (d : edgex_device) : Prop :=
  Forall ok_str [dev_description d; dev_id d; dev_name d] /\
  Forall ok_uint [dev_created d; dev_lastConnected d; dev_lastReported d; dev_modified d; dev_origin d] /\
  Forall ok_str (dev_labels d) /\ ok_protocols (dev_protocols d) /\
  Forall (fun a => ok_str (ae_resource a) /\ ok_str (ae_frequency a)) (dev_autos d) /\
  ok_service (dev_service d) /\ ok_profile (dev_profile d).

(** A device as it comes back: protocols, properties, attributes and mappings in
    reverse order, the get operations of each command among its set operations,
    and no automatic events. *)
Definition device_back (d : edgex_device) : edgex_device :=
  {| dev_protocols := rev_protocols (dev_protocols d); dev_adminState := dev_adminState d;
     dev_created := dev_created d; dev_description := dev_description d; dev_id := dev_id d;
     dev_labels := dev_labels d; dev_lastConnected := dev_lastConnected d;
     dev_lastReported := dev_lastReported d; dev_modified := dev_modified d; dev_name := dev_name d;
     dev_operatingState := dev_operatingState d; dev_origin := dev_origin d; dev_autos := [];
     dev_service := dev_service d; dev_profile := profile_back (dev_profile d) |}.

Lemma good_autoevents e :
  Forall (fun a => ok_str (ae_resource a) /\ ok_str (ae_frequency a)) e -> good 2 (autoevents_write e).
Proof.
  intros He. unfold autoevents_write. change 2 with (1 + 1). apply good_map; [lia|].
  eapply Forall_impl; [exact He|]. intros a [Hr Hf]. change 1 with (0 + 1). good_object.
Qed.

Lemma device_rt d :
  ok_device d ->
  exists v, device_write d false = Ret v /\ good 7 v /\
            device_read (json_value_get_object (Some v)) = Ret (device_back d).
Proof.
  intros (Hs & Hu & Hl & Hp & Ha & Hsv & Hpr). destruct (deviceservice_rt _ Hsv) as (sv & Ew & Gs & Rs).
  unfold device_write. rewrite Ew, !res_bind_ret.
  eexists. split; [reflexivity|]. destruct_ok. split.
  - change 7 with (6 + 1). good_object.
    + apply (good_mono 1); [lia|]. by apply good_strings.
    + apply (good_mono 2); [lia|]. by apply good_autoevents.
    + apply (good_mono 2); [lia|]. by apply good_protocols.
    + apply (good_mono 2); [lia|]. done.
    + by apply good_profile.
  - all_values. cbn [json_value_get_object]. unfold device_read. read_members.
    rewrite deviceprofile_rt, res_bind_ret, protocols_read_write, res_bind_ret by done.
    rewrite Rs, admin_rt, op_rt, strings_to_array_ok by done.
    cbn [json_value_get_array]. by rewrite array_to_strings_ok.
Qed.

(** A reader on the text a value is written as. *)
Lemma read_text {A} (read : option JSON_Object -> res A) v r :
  good MAX_NESTING v -> is_Some (json_value_get_object (Some v)) ->
  Z.of_nat (String.length (json_text false 0 v)) < 2 ^ 31 - 1 ->
  read (json_value_get_object (Some v)) = r ->
  exists t, json_serialize_to_string (Some v) = Some t /\ cstr t /\ read_json read (Some t) = r.
Proof.
  intros (Hwf & Hnn & Hd) [o Ho] Hlen Hr. exists (json_text false 0 v). split; [by apply serialize_text|].
  split; [by apply json_text_cstr|].
  unfold read_json. rewrite parse_string_json_text by done. rewrite Ho in *. done.
Qed.

Lemma device_text d :
  ok_device d ->
  (forall v, device_write d false = Ret v -> Z.of_nat (String.length (json_text false 0 v)) < 2 ^ 31 - 1) ->
  exists t, edgex_device_write d false = Ret (Some t) /\ cstr t /\ edgex_device_read (Some t) = Ret (device_back d).
Proof.
  intros Hok Hlen. destruct (device_rt d Hok) as (v & Ew & Gv & Rv).
  assert (is_Some (json_value_get_object (Some v))) as Hobj.
  { unfold device_write in Ew. destruct (deviceservice_rt (dev_service d)) as (sv & E & _ & _);
      [apply Hok|]. rewrite E, !res_bind_ret in Ew. injection Ew as <-. by eexists. }
  assert (good MAX_NESTING v) as Gm by (apply (good_mono 7); [vm_compute; congruence|done]).
  destruct (read_text device_read v _ Gm Hobj (Hlen v Ew) Rv) as (t & Et & Hct & Hread).
  exists t. unfold edgex_device_write. rewrite Ew, res_bind_ret, Et. done.
Qed.

(** C30. A device written with [edgex_device_write] and read again with
    [edgex_device_read] comes back as [device_back] says: every identifier, state,
    time stamp, label, resource, operation, protocol and property is there; named
    values are in reverse order; the automatic events are lost and the get
    operations of each command are found among its set operations. The conditions of
    [ok_device]: strings are valid UTF-8, numbers fit 64 bits, named values are
    distinct, and each resource is readable or writable and has no mask, shift, scale,
    offset or base. A resource with one of these or without access does not come back
    ([integer_transform_unreadable], [no_access_becomes_rw]). The text is shorter than
    2 GB. *)
Theorem device_write_read (d : edgex_device) :
  ok_device d ->
  (forall v, device_write d false = Ret v -> Z.of_nat (String.length (json_text false 0 v)) < 2 ^ 31 - 1) ->
  exists t, edgex_device_write d false = Ret (Some t) /\ edgex_device_read (Some t) = Ret (device_back d).
Proof. intros Hok Hlen. destruct (device_text d Hok Hlen) as (t & Hw & _ & Hr). eauto. Qed.

Definition sample_resource : edgex_deviceresource :=
  {| dr_description := "room"; dr_name := "temp"; dr_tag := "";
     dr_properties :=
       {| pp_value := {| pv_type := Edgex_Int16; pv_readable := true; pv_writable := false;
                         pv_minimum := "-10"; pv_maximum := "50"; pv_defaultvalue := ""; pv_lsb := "";
                         pv_mask := no_arg; pv_shift := no_arg; pv_scale := no_arg; pv_offset := no_arg;
                         pv_base := no_arg; pv_assertion := ""; pv_precision := ""; pv_mediaType := "";
                         pv_floatAsBinary := true |};
          pp_units := {| u_type := "C"; u_readwrite := "R"; u_defaultvalue := "" |} |};
     dr_attributes := [("register", "7"); ("bank", "a")] |}.

Definition sample_op : edgex_resourceoperation :=
  {| ro_index := "1"; ro_operation := "get"; ro_object := ""; ro_deviceResource := "temp";
     ro_property := ""; ro_parameter := ""; ro_resource := ""; ro_deviceCommand := "";
     ro_secondary := []; ro_mappings := [("0", "cold")] |}.

Definition sample_device : edgex_device :=
  {| dev_protocols := sample_protocols; dev_adminState := UNLOCKED; dev_created := 5;
     dev_description := "d"; dev_id := "id0"; dev_labels := ["hot"]; dev_lastConnected := 0;
     dev_lastReported := 0; dev_modified := 6; dev_name := "dev0"; dev_operatingState := ENABLED;
     dev_origin := 0; dev_autos := [{| ae_resource := "temp"; ae_frequency := "5s"; ae_onChange := true |}];
     dev_service :=
       {| ds_addressable := Some (addressable_read None); ds_adminState := UNLOCKED; ds_created := 0;
          ds_description := ""; ds_id := "s0"; ds_labels := []; ds_lastConnected := 0;
          ds_lastReported := 0; ds_modified := 0; ds_name := "svc"; ds_operatingState := ENABLED;
          ds_origin := 0 |};
     dev_profile :=
       {| dp_id := "p0"; dp_name := "prof"; dp_description := ""; dp_created := 0; dp_modified := 0;
          dp_origin := 0; dp_manufacturer := ""; dp_model := ""; dp_labels := [];
          dp_resources := [sample_resource];
          dp_commands := [{| dc_name := "T"; dc_set := []; dc_get := [sample_op] |}] |} |}.

Ltac ok_sample :=
  repeat match goal with
         | |- _ /\ _ => split
         | |- ok_device _ => unfold ok_device
         | |- ok_service _ => unfold ok_service
         | |- ok_profile _ => unfold ok_profile
         | |- ok_resource _ => unfold ok_resource
         | |- ok_property _ => unfold ok_property
         | |- ok_propertyvalue _ => unfold ok_propertyvalue
         | |- ok_units _ => unfold ok_units
         | |- ok_command _ => unfold ok_command
         | |- ok_resop _ => unfold ok_resop
         | |- ok_protocols _ => unfold ok_protocols
         | |- ok_pairs _ => unfold ok_pairs
         | |- Forall _ ?l => let l' := eval hnf in l in change l with l'; constructor
         | |- ok_str _ => const_str
         | |- ok_uint _ => unfold ok_uint; cbn; lia
         | |- cstr _ => cbn; repeat split; vm_compute; discriminate
         | |- NoDup _ => cbn; repeat constructor; set_solver
         | |- _ <> _ => discriminate
         | |- _ = _ => reflexivity
         | |- _ -> _ => intros ?; try reflexivity; try discriminate
         end.

Lemma sample_device_ok : ok_device sample_device.
Proof.
  ok_sample. exists (addressable_read None). split; [done|]. do 10 eexists. split; [reflexivity|]. ok_sample.
Qed.

Lemma device_write_read_witness :
  exists t, edgex_device_write sample_device false = Ret (Some t) /\
            edgex_device_read (Some t) = Ret (device_back sample_device).
Proof.
  apply (device_write_read sample_device sample_device_ok).
  intros v Hv. vm_compute in Hv. injection Hv as <-. vm_compute. reflexivity.
Defined.

(** ** Losses *)

(** The automatic events of a device do not survive. *)
Lemma autoevents_lost :
  dev_autos sample_device <> [] /\
  (t ← edgex_device_write sample_device false; dev_autos <$> edgex_device_read t) = Ret [].
Proof. split; [done|vm_compute; reflexivity]. Qed.

(** A property with an integer transform cannot be read back, whatever the
    transform is: the text written for it is not a number. *)
Lemma integer_transform_unreadable pv i :
  is_integer (pv_type pv) = true -> pv_type pv <> Edgex_Unused1 -> pv_type pv <> Edgex_Unused2 ->
  Forall ok_str [pv_minimum pv; pv_maximum pv; pv_defaultvalue pv; pv_lsb pv; pv_assertion pv;
                 pv_precision pv; pv_mediaType pv] ->
  pv_scale pv = {| ta_enabled := true; ta_value := AInt i |} ->
  pv_mask pv = no_arg -> pv_shift pv = no_arg -> pv_offset pv = no_arg -> pv_base pv = no_arg ->
  propertyvalue_read (json_value_get_object (Some (propertyvalue_write pv))) = Fail.
Proof.
  intros Hint Hn1 Hn2 Hs Hsc Hm Hsh Ho Hb. destruct_ok. unfold propertyvalue_write.
  rewrite Hm, Hsh, Ho, Hb, Hsc, !set_arg_none. unfold set_arg. cbn [ta_enabled].
  assert (is_float (pv_type pv) = false) as -> by (by destruct (pv_type pv)).
  assert (ok_str PRId64) by const_str. all_values. cbn [json_value_get_object].
  unfold propertyvalue_read, get_transformArg. read_members.
  rewrite fromstring_tostring by done. rewrite Hint. reflexivity.
Qed.

(** A value of a named list that is not a string makes the reader dereference a
    NULL pointer. *)
Lemma nvpairs_loop_crash o acc :
  nvpairs_loop o acc = Crash <-> Exists (fun nv => json_value_get_string (Some (snd nv)) = None) o.
Proof.
  revert acc. induction o as [|[n v] o IH]; intros acc; cbn [nvpairs_loop].
  - split; [done|intros H; inversion H].
  - rewrite Exists_cons. cbn [snd]. destruct (json_value_get_string (Some v)) as [s|] eqn:E; cbn [deref].
    + rewrite res_bind_ret, IH. naive_solver.
    + split; [by left|done].
Qed.

(** [nvpairs_read], which reads attributes, mappings, identifiers and protocol
    properties, dereferences a NULL pointer exactly when the object has a member
    whose value is not a string. *)
Theorem nvpairs_read_crash (o : JSON_Object) :
  nvpairs_read (Some o) = Crash <-> Exists (fun nv => json_value_get_string (Some (snd nv)) = None) o.
Proof. apply nvpairs_loop_crash. Qed.

(** A profile with a numeric attribute brings the reader down. *)
Lemma profile_read_crash :
  deviceprofile_read
    (Some [("deviceResources",
            VArray [VObject [("properties", VObject [("value", VObject [("type", VString "Bool")])]);
                             ("attributes", VObject [("register", VUint 7)])]])]) = Crash.
Proof. vm_compute. reflexivity. Qed.

(** A property that is neither readable nor writable comes back as both. *)
Lemma no_access_becomes_rw :
  pv_readable <$>
    propertyvalue_read
      (json_value_get_object
         (Some (propertyvalue_write
            {| pv_type := Edgex_Bool; pv_readable := false; pv_writable := false; pv_minimum := "";
               pv_maximum := ""; pv_defaultvalue := ""; pv_lsb := ""; pv_mask := no_arg;
               pv_shift := no_arg; pv_scale := no_arg; pv_offset := no_arg; pv_base := no_arg;
               pv_assertion := ""; pv_precision := ""; pv_mediaType := ""; pv_floatAsBinary := true |})))
  = Ret true.
Proof. vm_compute. reflexivity. Qed.

(** ** Copies *)

Lemma resource_dup_id r : edgex_deviceresource_dup r = r.
Proof.
  unfold edgex_deviceresource_dup. rewrite <-(map_id r) at 2. apply map_ext.
  intros [d n t [v u] a]. unfold deviceresource_dup1, profileproperty_dup.
  cbn [dr_name dr_description dr_tag dr_properties dr_attributes pp_value pp_units].
  rewrite nvpairs_dup_id. by destruct v, u.
Qed.

Lemma resop_dup_id o : resourceoperation_dup o = o.
Proof.
  unfold resourceoperation_dup. rewrite <-(map_id o) at 2. apply map_ext.
  intros x. rewrite strings_dup_id, nvpairs_dup_id. by destruct x.
Qed.

Lemma command_dup_id c : devicecommand_dup c = c.
Proof.
  unfold devicecommand_dup. rewrite <-(map_id c) at 2. apply map_ext.
  intros x. rewrite !resop_dup_id. by destruct x.
Qed.

Lemma profile_dup_id p : edgex_deviceprofile_dup p = p.
Proof.
  unfold edgex_deviceprofile_dup. rewrite strings_dup_id, resource_dup_id, command_dup_id. by destruct p.
Qed.

Lemma service_dup_id s : edgex_deviceservice_dup s = s.
Proof.
  unfold edgex_deviceservice_dup. rewrite strings_dup_id.
  assert (edgex_addressable_dup (ds_addressable s) = ds_addressable s) as ->.
  { destruct (ds_addressable s) as [a|]; [|done]. cbn. by destruct a. }
  by destruct s.
Qed.

Lemma autoevents_dup_id a : autoevents_dup a = a.
Proof. unfold autoevents_dup. rewrite <-(map_id a) at 2. apply map_ext. by intros []. Qed.

(** The copy of a device differs from it in the order of the protocols only. *)
Lemma device_dup_protocols d :
  edgex_device_dup d
  = {| dev_protocols := rev (dev_protocols d); dev_adminState := dev_adminState d;
       dev_created := dev_created d; dev_description := dev_description d; dev_id := dev_id d;
       dev_labels := dev_labels d; dev_lastConnected := dev_lastConnected d;
       dev_lastReported := dev_lastReported d; dev_modified := dev_modified d; dev_name := dev_name d;
       dev_operatingState := dev_operatingState d; dev_origin := dev_origin d; dev_autos := dev_autos d;
       dev_service := dev_service d; dev_profile := dev_profile d |}.
Proof.
  unfold edgex_device_dup.
  by rewrite strings_dup_id, protocols_dup_rev, autoevents_dup_id, service_dup_id, profile_dup_id.
Qed.
