(* ===== verification/IotData.v ===== *)
(** * The interface of the iot library's data type ([iot/data.h], [iot/base64.h])

    [iot_data_t] and its functions belong to a library outside the repository; the
    SDK's code is modelled for any implementation of this interface, and what it
    relies on are the laws below, which state the documented behaviour of the
    functions: a value that was allocated with a type and a content has that type
    and gives that content back. [sample_iot] is an implementation that satisfies
    them. *)

From S2P Require Import Prelude CLib CFloat DevTypes.
From Stdlib Require Import Ascii.
Local Open Scope Z_scope.

Inductive iot_data_type_t :=
  IOT_DATA_INT8 | IOT_DATA_UINT8 | IOT_DATA_INT16 | IOT_DATA_UINT16 | IOT_DATA_INT32
| IOT_DATA_UINT32 | IOT_DATA_INT64 | IOT_DATA_UINT64 | IOT_DATA_FLOAT32 | IOT_DATA_FLOAT64
| IOT_DATA_BOOL | IOT_DATA_STRING | IOT_DATA_ARRAY | IOT_DATA_MAP | IOT_DATA_VECTOR.

#[export] Instance iot_data_type_eq_dec : EqDecision iot_data_type_t.
Proof. solve_decision. Defined.

(** The integer types, with their signedness and width. *)
Definition int_format (t : iot_data_type_t) : option (bool * Z) :=
  match t with
  | IOT_DATA_INT8 => Some (true, 8) | IOT_DATA_UINT8 => Some (false, 8)
  | IOT_DATA_INT16 => Some (true, 16) | IOT_DATA_UINT16 => Some (false, 16)
  | IOT_DATA_INT32 => Some (true, 32) | IOT_DATA_UINT32 => Some (false, 32)
  | IOT_DATA_INT64 => Some (true, 64) | IOT_DATA_UINT64 => Some (false, 64)
  | _ => None
  end.

Definition in_format (t : iot_data_type_t) (z : Z) : bool :=
  match int_format t with
  | Some (true, w) => in_s w z
  | Some (false, w) => in_u w z
  | None => false
  end.

(** The families [iot_data_i8] ... [iot_data_ui64] and [iot_data_alloc_i8] ...
    [iot_data_alloc_ui64] are indexed by the type. The contents of an array are its
    bytes in memory. *)
Class IotData := {
  iot_data_t : Type;
  iot_data_type : iot_data_t -> iot_data_type_t;
  iot_data_int : iot_data_type_t -> iot_data_t -> Z;
  iot_data_f32 : iot_data_t -> spec_float;
  iot_data_f64 : iot_data_t -> spec_float;
  iot_data_string : iot_data_t -> string;
  iot_data_alloc_int : iot_data_type_t -> Z -> iot_data_t;
  iot_data_alloc_f32 : spec_float -> iot_data_t;
  iot_data_alloc_f64 : spec_float -> iot_data_t;
  iot_data_alloc_bool : bool -> iot_data_t;
  iot_data_alloc_string : string -> iot_data_t;
  iot_data_alloc_array : list Z -> Z -> iot_data_type_t -> iot_data_t;
  iot_data_alloc_array_from_base64 : string -> option iot_data_t;
  iot_data_array_type : iot_data_t -> iot_data_type_t;
  iot_data_array_length : iot_data_t -> Z;
  iot_data_address : iot_data_t -> list Z;
  iot_data_get_metadata : iot_data_t -> option iot_data_t;
  iot_data_set_metadata : iot_data_t -> iot_data_t -> iot_data_t;
  iot_data_to_json : iot_data_t -> string;
  iot_data_equal : iot_data_t -> iot_data_t -> bool;
  iot_data_copy : iot_data_t -> iot_data_t;
  iot_b64_encode : list Z -> string;
  iot_b64_decode : string -> Z -> option (list Z)
}.

Class IotDataLaws (D : IotData) := {
  type_alloc_int t z : is_Some (int_format t) -> iot_data_type (iot_data_alloc_int t z) = t;
  int_alloc_int t z : in_format t z = true -> iot_data_int t (iot_data_alloc_int t z) = z;
  type_alloc_f32 x : iot_data_type (iot_data_alloc_f32 x) = IOT_DATA_FLOAT32;
  type_alloc_f64 x : iot_data_type (iot_data_alloc_f64 x) = IOT_DATA_FLOAT64;
  f32_alloc_f32 x : iot_data_f32 (iot_data_alloc_f32 x) = x;
  f64_alloc_f64 x : iot_data_f64 (iot_data_alloc_f64 x) = x;
  type_alloc_bool b : iot_data_type (iot_data_alloc_bool b) = IOT_DATA_BOOL;
  type_alloc_string s : iot_data_type (iot_data_alloc_string s) = IOT_DATA_STRING;
  string_alloc_string s : iot_data_string (iot_data_alloc_string s) = s;
  type_alloc_array bs n t : iot_data_type (iot_data_alloc_array bs n t) = IOT_DATA_ARRAY;
  array_type_alloc bs n t : iot_data_array_type (iot_data_alloc_array bs n t) = t;
  array_length_alloc bs n t : iot_data_array_length (iot_data_alloc_array bs n t) = n;
  address_alloc bs n t : iot_data_address (iot_data_alloc_array bs n t) = bs;
  metadata_alloc_array bs n t : iot_data_get_metadata (iot_data_alloc_array bs n t) = None;
  metadata_set v m : iot_data_get_metadata (iot_data_set_metadata v m) = Some m;
  type_set_metadata v m : iot_data_type (iot_data_set_metadata v m) = iot_data_type v;
  int_to_json t z : in_format t z = true -> iot_data_to_json (iot_data_alloc_int t z) = print_i z;
  copy_equal v : iot_data_equal (iot_data_copy v) v = true;
  equal_copy v : iot_data_equal v (iot_data_copy v) = true;
  b64_length bs : Z.of_nat (String.length (iot_b64_encode bs)) = 4 * ((Z.of_nat (length bs) + 2) / 3)
}.

(** The type of a property as the type of a value, and back. *)
Definition iot_type (t : edgex_propertytype) : option iot_data_type_t :=
  match t with
  | Edgex_Int8 => Some IOT_DATA_INT8 | Edgex_Uint8 => Some IOT_DATA_UINT8
  | Edgex_Int16 => Some IOT_DATA_INT16 | Edgex_Uint16 => Some IOT_DATA_UINT16
  | Edgex_Int32 => Some IOT_DATA_INT32 | Edgex_Uint32 => Some IOT_DATA_UINT32
  | Edgex_Int64 => Some IOT_DATA_INT64 | Edgex_Uint64 => Some IOT_DATA_UINT64
  | Edgex_Float32 => Some IOT_DATA_FLOAT32 | Edgex_Float64 => Some IOT_DATA_FLOAT64
  | Edgex_Bool => Some IOT_DATA_BOOL | Edgex_String => Some IOT_DATA_STRING
  | Edgex_Binary => Some IOT_DATA_ARRAY | Edgex_Unused1 => Some IOT_DATA_MAP
  | Edgex_Unused2 => Some IOT_DATA_VECTOR
  | _ => None
  end.

Definition property_of_iot (t : iot_data_type_t) : edgex_propertytype :=
  match t with
  | IOT_DATA_INT8 => Edgex_Int8 | IOT_DATA_UINT8 => Edgex_Uint8
  | IOT_DATA_INT16 => Edgex_Int16 | IOT_DATA_UINT16 => Edgex_Uint16
  | IOT_DATA_INT32 => Edgex_Int32 | IOT_DATA_UINT32 => Edgex_Uint32
  | IOT_DATA_INT64 => Edgex_Int64 | IOT_DATA_UINT64 => Edgex_Uint64
  | IOT_DATA_FLOAT32 => Edgex_Float32 | IOT_DATA_FLOAT64 => Edgex_Float64
  | IOT_DATA_BOOL => Edgex_Bool | IOT_DATA_STRING => Edgex_String
  | IOT_DATA_ARRAY => Edgex_Binary | IOT_DATA_MAP => Edgex_Unused1 | IOT_DATA_VECTOR => Edgex_Unused2
  end.

Definition typeForArray (at' : iot_data_type_t) : option edgex_propertytype :=
  match at' with
  | IOT_DATA_INT8 => Some Edgex_Int8Array | IOT_DATA_UINT8 => Some Edgex_Uint8Array
  | IOT_DATA_INT16 => Some Edgex_Int16Array | IOT_DATA_UINT16 => Some Edgex_Uint16Array
  | IOT_DATA_INT32 => Some Edgex_Int32Array | IOT_DATA_UINT32 => Some Edgex_Uint32Array
  | IOT_DATA_INT64 => Some Edgex_Int64Array | IOT_DATA_UINT64 => Some Edgex_Uint64Array
  | IOT_DATA_FLOAT32 => Some Edgex_Float32Array | IOT_DATA_FLOAT64 => Some Edgex_Float64Array
  | IOT_DATA_BOOL => Some Edgex_BoolArray
  | _ => None
  end.

(** An array without metadata is an array of its element type. *)
Definition edgex_propertytype_data `{IotData} (data : iot_data_t) : edgex_propertytype :=
  let res := property_of_iot (iot_data_type data) in
  if bool_decide (res = Edgex_Binary) && bool_decide (iot_data_get_metadata data = None)
  then default Edgex_Unused1 (typeForArray (iot_data_array_type data))
  else res.

(** ** An implementation *)

Inductive sample_content :=
| CInt (z : Z)
| CFloat (x : spec_float)
| CBool (b : bool)
| CStr (s : string)
| CArray (bytes : list Z) (n : Z) (t : iot_data_type_t).

Inductive sample_data := SData (t : iot_data_type_t) (c : sample_content) (meta : option sample_data).

Definition sample_type (d : sample_data) : iot_data_type_t := let '(SData t _ _) := d in t.
Definition sample_contents (d : sample_data) : sample_content := let '(SData _ c _) := d in c.
Definition sample_meta (d : sample_data) : option sample_data := let '(SData _ _ m) := d in m.

Definition b64_char (n : Z) : ascii :=
  chr (if n <? 26 then 65 + n else if n <? 52 then 71 + n else if n <? 62 then n - 4
       else if n =? 62 then 43 else 47).

Fixpoint b64_text (bs : list Z) : string :=
  match bs with
  | [] => EmptyString
  | [a] => String (b64_char (a / 4)) (String (b64_char (a mod 4 * 16)) "==")
  | [a; b] =>
      String (b64_char (a / 4)) (String (b64_char (a mod 4 * 16 + b / 16))
        (String (b64_char (b mod 16 * 4)) "="))
  | a :: b :: c :: bs' =>
      String (b64_char (a / 4)) (String (b64_char (a mod 4 * 16 + b / 16))
        (String (b64_char (b mod 16 * 4 + c / 64)) (String (b64_char (c mod 64)) (b64_text bs'))))
  end.

Definition sample_json (d : sample_data) : string :=
  match sample_contents d with
  | CInt z => print_i z
  | CFloat x => print_g17 x
  | CBool b => if b then "true" else "false"
  | CStr s => s
  | CArray _ _ _ => "[]"
  end.

#[export] Instance sample_iot : IotData := {
  iot_data_t := sample_data;
  iot_data_type := sample_type;
  iot_data_int t d := match sample_contents d with CInt z => z | _ => 0 end;
  iot_data_f32 d := match sample_contents d with CFloat x => x | _ => S754_zero false end;
  iot_data_f64 d := match sample_contents d with CFloat x => x | _ => S754_zero false end;
  iot_data_string d := match sample_contents d with CStr s => s | _ => EmptyString end;
  iot_data_alloc_int t z := SData t (CInt z) None;
  iot_data_alloc_f32 x := SData IOT_DATA_FLOAT32 (CFloat x) None;
  iot_data_alloc_f64 x := SData IOT_DATA_FLOAT64 (CFloat x) None;
  iot_data_alloc_bool b := SData IOT_DATA_BOOL (CBool b) None;
  iot_data_alloc_string s := SData IOT_DATA_STRING (CStr s) None;
  iot_data_alloc_array bs n t := SData IOT_DATA_ARRAY (CArray bs n t) None;
  iot_data_alloc_array_from_base64 s := None;
  iot_data_array_type d := match sample_contents d with CArray _ _ t => t | _ => IOT_DATA_INT8 end;
  iot_data_array_length d := match sample_contents d with CArray _ n _ => n | _ => 0 end;
  iot_data_address d := match sample_contents d with CArray bs _ _ => bs | _ => [] end;
  iot_data_get_metadata := sample_meta;
  iot_data_set_metadata d m := SData (sample_type d) (sample_contents d) (Some m);
  iot_data_to_json := sample_json;
  iot_data_equal a b := String.eqb (sample_json a) (sample_json b);
  iot_data_copy d := d;
  iot_b64_encode := b64_text;
  iot_b64_decode s n := None
}.

Lemma b64_text_length bs :
  Z.of_nat (String.length (b64_text bs)) = 4 * ((Z.of_nat (length bs) + 2) / 3).
Proof.
  assert (forall n bs, (length bs <= n)%nat ->
    Z.of_nat (String.length (b64_text bs)) = 4 * ((Z.of_nat (length bs) + 2) / 3)) as H.
  { intros n. induction n as [|n IH]; intros [|a [|b [|c l]]] Hn; simpl in Hn; try lia; try done.
    cbn [b64_text String.length length]. rewrite !Nat2Z.inj_succ, IH by lia.
    replace (Z.succ (Z.succ (Z.succ (Z.of_nat (length l)))) + 2) with (Z.of_nat (length l) + 2 + 1 * 3) by lia.
    rewrite Z.div_add by lia. lia. }
  by apply (H (length bs)).
Qed.

#[export] Instance sample_iot_laws : IotDataLaws sample_iot.
Proof. split; try done; [intros v; apply String.eqb_refl..|apply b64_text_length]. Qed.
