(* ===== verification/Transform.v ===== *)
(** * Conversion of values between device and service ([transform.c])

    Integer arithmetic is that of [long long int]: a result out of range, a shift by
    64 bits or more, a division by zero are undefined behaviour ([Crash]). Floating
    point is the 80-bit [long double]; [powl] and [logl] are parameters. *)

From S2P Require Import Prelude CLib CFloat DevTypes IotData.
From Stdlib Require Import Ascii.
Local Open Scope Z_scope.

(** ** Arithmetic of C *)

(** A result of signed 64-bit arithmetic. *)
Definition checked (z : Z) : res Z := if in_s 64 z then Ret z else Crash.

Definition shift_left (x n : Z) : res Z :=
  if (0 <=? n) && (n <? 64) then Ret (wrap_s 64 (Z.shiftl x n)) else Crash.

Definition shift_right (x n : Z) : res Z :=
  if (0 <=? n) && (n <? 64) then Ret (Z.shiftr x n) else Crash.

(** Division truncates. *)
Definition divide (x y : Z) : res Z := if y =? 0 then Crash else checked (Z.quot x y).

(** Conversion of a [long double] to [long long int]. *)
Definition to_llint (x : spec_float) : res Z :=
  match x with
  | S754_zero _ => Ret 0
  | S754_finite s m e =>
      let '(num, den) := magnitude m e in
      checked (if s then - (num / den) else num / den)
  | _ => Crash
  end.

(** [llroundl]: to the nearest integer, halves away from zero. *)
Definition llroundl (x : spec_float) : res Z :=
  match x with
  | S754_zero _ => Ret 0
  | S754_finite s m e =>
      let '(num, den) := magnitude m e in
      let r := (2 * num + den) / (2 * den) in
      checked (if s then - r else r)
  | _ => Crash
  end.

Definition ld_of_int (z : Z) : spec_float := of_int 64 16384 z.
Definition ld_mul : spec_float -> spec_float -> spec_float := SFmul 64 16384.
Definition ld_add : spec_float -> spec_float -> spec_float := SFadd 64 16384.
Definition ld_sub : spec_float -> spec_float -> spec_float := SFsub 64 16384.
Definition ld_div : spec_float -> spec_float -> spec_float := SFdiv 64 16384.

Definition FLT_MAX : spec_float := Eval vm_compute in to_f80 (SFmax_float 24 128).
Definition DBL_MAX : spec_float := Eval vm_compute in to_f80 (SFmax_float 53 1024).

Section transform.
  Context `{D : IotData}.
  (** The functions of the mathematics library. *)
  Variable powl : spec_float -> spec_float -> spec_float.
  Variable logl : spec_float -> spec_float.

Definition transformsOn (pv : edgex_propertyvalue) : bool :=
  ta_enabled (pv_offset pv) || ta_enabled (pv_scale pv) || ta_enabled (pv_base pv)
  || ta_enabled (pv_shift pv) || ta_enabled (pv_mask pv).

Definition getLongDouble (value : iot_data_t) (pt : edgex_propertytype) : spec_float :=
  to_f80 (if bool_decide (pt = Edgex_Float64) then iot_data_f64 value else iot_data_f32 value).

Definition setLongDouble (ldval : spec_float) (pt : edgex_propertytype) : option iot_data_t :=
  if bool_decide (pt = Edgex_Float64) then
    if SFleb ldval DBL_MAX && SFleb (SFopp DBL_MAX) ldval
    then Some (iot_data_alloc_f64 (to_f64 ldval)) else None
  else
    if SFleb ldval FLT_MAX && SFleb (SFopp FLT_MAX) ldval
    then Some (iot_data_alloc_f32 (to_f32 ldval)) else None.

(** The value as a [long long int]; an unsigned 64-bit value wraps. *)
Definition getLLInt (value : iot_data_t) (pt : edgex_propertytype) : res Z :=
  match iot_type pt with
  | Some t => if is_integer pt then Ret (wrap_s 64 (iot_data_int t value)) else Crash
  | None => Crash
  end.

Definition setLLInt (llival : Z) (pt : edgex_propertytype) : res (option iot_data_t) :=
  let range lo hi t :=
    Ret (if (lo <=? llival) && (llival <=? hi) then Some (iot_data_alloc_int t llival) else None) in
  match pt with
  | Edgex_Int8 => range (- 2 ^ 7) (2 ^ 7 - 1) IOT_DATA_INT8
  | Edgex_Uint8 => range 0 (2 ^ 8 - 1) IOT_DATA_UINT8
  | Edgex_Int16 => range (- 2 ^ 15) (2 ^ 15 - 1) IOT_DATA_INT16
  | Edgex_Uint16 => range 0 (2 ^ 16 - 1) IOT_DATA_UINT16
  | Edgex_Int32 => range (- 2 ^ 31) (2 ^ 31 - 1) IOT_DATA_INT32
  | Edgex_Uint32 => range 0 (2 ^ 32 - 1) IOT_DATA_UINT32
  | Edgex_Int64 => range (- 2 ^ 63) (2 ^ 63 - 1) IOT_DATA_INT64
  | Edgex_Uint64 => range 0 (2 ^ 64 - 1) IOT_DATA_UINT64
  | _ => Crash
  end.

Definition ival (a : edgex_transformArg) : Z := arg_ival (ta_value a).
Definition dval (a : edgex_transformArg) : spec_float := to_f80 (arg_dval (ta_value a)).

(** [if (arg.enabled) result = f (result)] *)
Definition when {A} (a : edgex_transformArg) (f : A -> res A) (x : A) : res A :=
  if ta_enabled a then f x else Ret x.

Definition outgoing_int (props : edgex_propertyvalue) (x : Z) : res Z :=
  x ← when (pv_mask props) (fun x => Ret (Z.land x (ival (pv_mask props)))) x;
  x ← when (pv_shift props) (fun x =>
        if ival (pv_shift props) <? 0 then shift_left x (- ival (pv_shift props))
        else shift_right x (ival (pv_shift props))) x;
  x ← when (pv_base props) (fun x => to_llint (powl (ld_of_int (ival (pv_base props))) (ld_of_int x))) x;
  x ← when (pv_scale props) (fun x => checked (x * ival (pv_scale props))) x;
  when (pv_offset props) (fun x => checked (x + ival (pv_offset props))) x.

Definition outgoing_float (props : edgex_propertyvalue) (x : spec_float) : res spec_float :=
  x ← when (pv_base props) (fun x => Ret (powl (dval (pv_base props)) x)) x;
  x ← when (pv_scale props) (fun x => Ret (ld_mul x (dval (pv_scale props)))) x;
  when (pv_offset props) (fun x => Ret (ld_add x (dval (pv_offset props)))) x.

(** A result that does not fit the type is replaced by the text "overflow". *)
Definition or_overflow (v : option iot_data_t) : iot_data_t :=
  default (iot_data_alloc_string "overflow") v.

Definition edgex_transform_outgoing (value : iot_data_t) (props : edgex_propertyvalue)
    (mappings : devsdk_nvpairs) : res iot_data_t :=
  let pt := edgex_propertytype_data value in
  if is_float pt then
    if transformsOn props then
      result ← outgoing_float props (getLongDouble value pt);
      mret (or_overflow (setLongDouble result pt))
    else mret value
  else if is_integer pt then
    if transformsOn props then
      x ← getLLInt value pt;
      result ← outgoing_int props x;
      v ← setLLInt result pt;
      mret (or_overflow v)
    else mret value
  else if bool_decide (pt = Edgex_String) then
    mret (match devsdk_nvpairs_value mappings (Some (iot_data_string value)) with
          | Some remap => iot_data_alloc_string remap
          | None => value
          end)
  else mret value.

Definition incoming_int (props : edgex_propertyvalue) (x : Z) : res Z :=
  x ← when (pv_offset props) (fun x => checked (x - ival (pv_offset props))) x;
  x ← when (pv_scale props) (fun x => divide x (ival (pv_scale props))) x;
  x ← when (pv_base props) (fun x =>
        llroundl (ld_div (logl (ld_of_int x)) (logl (ld_of_int (ival (pv_base props)))))) x;
  when (pv_shift props) (fun x =>
    if ival (pv_shift props) <? 0 then shift_right x (- ival (pv_shift props))
    else shift_left x (ival (pv_shift props))) x.

Definition incoming_float (props : edgex_propertyvalue) (x : spec_float) : res spec_float :=
  x ← when (pv_offset props) (fun x => Ret (ld_sub x (dval (pv_offset props)))) x;
  x ← when (pv_scale props) (fun x => Ret (ld_div x (dval (pv_scale props)))) x;
  when (pv_base props) (fun x => Ret (ld_div (logl x) (logl (dval (pv_base props))))) x.

(** [None]: the result does not fit the type. *)
Definition edgex_transform_incoming (value : iot_data_t) (props : edgex_propertyvalue)
    (mappings : devsdk_nvpairs) : res (option iot_data_t) :=
  let pt := pv_type props in
  if is_float pt then
    if transformsOn props then
      result ← incoming_float props (getLongDouble value pt);
      mret (setLongDouble result pt)
    else mret (Some value)
  else if is_integer pt then
    if transformsOn props then
      x ← getLLInt value pt;
      result ← incoming_int props x;
      setLLInt result pt
    else mret (Some value)
  else if bool_decide (pt = Edgex_String) then
    mret (match devsdk_nvpairs_value mappings (Some (iot_data_string value)) with
          | Some remap => Some (iot_data_alloc_string remap)
          | None => Some value
          end)
  else mret (Some value).
End transform.

(** ** Correctness *)

(** An argument that is not enabled counts as the neutral value. *)
Definition arg_or (a : edgex_transformArg) (d : Z) : Z := if ta_enabled a then ival a else d.

Lemma checked_ok z : in_s 64 z = true -> checked z = Ret z.
Proof. unfold checked. by intros ->. Qed.

Lemma in_s_true w z : - 2 ^ (w - 1) <= z < 2 ^ (w - 1) -> in_s w z = true.
Proof. apply in_s_spec. Qed.

Section facts.
  Context `{D : IotData} `{L : !IotDataLaws D}.
  Variables (powl : spec_float -> spec_float -> spec_float) (logl : spec_float -> spec_float).

Lemma outgoing_int_linear props x :
  ta_enabled (pv_base props) = false -> ta_enabled (pv_mask props) = false ->
  let n := arg_or (pv_shift props) 0 in
  let s := arg_or (pv_scale props) 1 in
  let o := arg_or (pv_offset props) 0 in
  0 <= n < 64 -> in_s 64 (Z.shiftr x n * s) = true -> in_s 64 (Z.shiftr x n * s + o) = true ->
  outgoing_int powl props x = Ret (Z.shiftr x n * s + o).
Proof.
  intros Hb Hm n s o Hn Hs Ho. unfold outgoing_int, when. rewrite Hm, res_bind_ret.
  assert ((if ta_enabled (pv_shift props)
           then (if ival (pv_shift props) <? 0 then shift_left x (- ival (pv_shift props))
                 else shift_right x (ival (pv_shift props))) else Ret x) = Ret (Z.shiftr x n)) as ->.
  { subst n. unfold arg_or in *. destruct (ta_enabled (pv_shift props)); [|by rewrite Z.shiftr_0_r].
    rewrite (proj2 (Z.ltb_ge _ _)) by lia. unfold shift_right.
    by rewrite (proj2 (Z.leb_le _ _)), (proj2 (Z.ltb_lt _ _)) by lia. }
  rewrite res_bind_ret, Hb, res_bind_ret.
  assert ((if ta_enabled (pv_scale props) then checked (Z.shiftr x n * ival (pv_scale props))
           else Ret (Z.shiftr x n)) = Ret (Z.shiftr x n * s)) as ->.
  { subst s. unfold arg_or in *. destruct (ta_enabled (pv_scale props)); [by apply checked_ok|].
    by rewrite Z.mul_1_r. }
  rewrite res_bind_ret. subst o. unfold arg_or in *.
  destruct (ta_enabled (pv_offset props)); [by apply checked_ok|]. by rewrite Z.add_0_r.
Qed.

Lemma incoming_int_linear props x :
  ta_enabled (pv_base props) = false ->
  let n := arg_or (pv_shift props) 0 in
  let s := arg_or (pv_scale props) 1 in
  let o := arg_or (pv_offset props) 0 in
  0 <= n < 64 -> s <> 0 -> in_s 64 (x - o) = true -> in_s 64 (Z.quot (x - o) s) = true ->
  in_s 64 (Z.quot (x - o) s * 2 ^ n) = true ->
  incoming_int logl props x = Ret (Z.quot (x - o) s * 2 ^ n).
Proof.
  intros Hb n s o Hn Hs0 Ho Hq Hsh. unfold incoming_int, when.
  assert ((if ta_enabled (pv_offset props) then checked (x - ival (pv_offset props)) else Ret x)
          = Ret (x - o)) as ->.
  { subst o. unfold arg_or in *. destruct (ta_enabled (pv_offset props)); [by apply checked_ok|].
    by rewrite Z.sub_0_r. }
  rewrite res_bind_ret.
  assert ((if ta_enabled (pv_scale props) then divide (x - o) (ival (pv_scale props)) else Ret (x - o))
          = Ret (Z.quot (x - o) s)) as ->.
  { subst s. unfold arg_or, divide in *. destruct (ta_enabled (pv_scale props)).
    - rewrite (proj2 (Z.eqb_neq _ _)) by done. by apply checked_ok.
    - by rewrite Z.quot_1_r. }
  rewrite res_bind_ret, Hb, res_bind_ret. subst n. unfold arg_or in *.
  destruct (ta_enabled (pv_shift props)).
  - rewrite (proj2 (Z.ltb_ge _ _)) by lia. unfold shift_left.
    rewrite (proj2 (Z.leb_le _ _)), (proj2 (Z.ltb_lt _ _)) by lia. cbn [andb].
    rewrite Z.shiftl_mul_pow2 by lia. apply in_s_spec in Hsh. by rewrite wrap_s_small by lia.
  - by rewrite Z.mul_1_r.
Qed.

(** The values of an integer property that [long long int] holds. *)
Definition fits (pt : edgex_propertytype) (z : Z) : bool :=
  match iot_type pt with Some t => in_format t z && in_s 64 z | None => false end.

Lemma if_ext {A} (a b : bool) (x y : A) : a = b -> (if a then x else y) = (if b then x else y).
Proof. by intros ->. Qed.

Lemma setLLInt_spec pt z :
  is_integer pt = true -> in_s 64 z = true ->
  exists t, iot_type pt = Some t /\ is_Some (int_format t) /\
    setLLInt z pt = Ret (if fits pt z then Some (iot_data_alloc_int t z) else None).
Proof.
  intros Hint Hz. destruct pt; try done; eexists; (split; [reflexivity|]); (split; [by eexists|]);
    unfold fits; cbn [iot_type in_format int_format]; rewrite Hz, andb_true_r; unfold in_s, in_u in *;
    unfold setLLInt; apply (f_equal Ret);
    first [apply if_ext; lia | apply (if_ext _ true); lia].
Qed.

Lemma propertytype_data_int t pt z :
  iot_type pt = Some t -> is_integer pt = true ->
  edgex_propertytype_data (iot_data_alloc_int t z) = pt.
Proof using L.
  intros Ht Hint. unfold edgex_propertytype_data. rewrite type_alloc_int.
  - by destruct pt; try done; injection Ht as <-.
  - destruct pt; try done; injection Ht as <-; by eexists.
Qed.

Lemma getLLInt_alloc pt t z :
  iot_type pt = Some t -> is_integer pt = true -> fits pt z = true ->
  getLLInt (iot_data_alloc_int t z) pt = Ret z.
Proof using L.
  intros Ht Hint Hf. unfold getLLInt, fits in *. rewrite Ht, Hint in *.
  apply andb_true_iff in Hf as [Hf Hs]. rewrite int_alloc_int by done.
  apply in_s_spec in Hs. by rewrite wrap_s_small.
Qed.

(** Reading an integer: with a shift, a scale and an offset whose exact
    results fit 64 bits, [edgex_transform_outgoing] returns [(x >> shift) * scale +
    offset] as a value of the same type when that is in the type's range, and the
    text "overflow" when it is not. *)
Theorem transform_outgoing_exact (pt : edgex_propertytype) (t : iot_data_type_t) (x : Z)
    (props : edgex_propertyvalue) (mappings : devsdk_nvpairs) :
  is_integer pt = true -> iot_type pt = Some t -> fits pt x = true ->
  transformsOn props = true ->
  ta_enabled (pv_base props) = false -> ta_enabled (pv_mask props) = false ->
  let n := arg_or (pv_shift props) 0 in
  let s := arg_or (pv_scale props) 1 in
  let o := arg_or (pv_offset props) 0 in
  let r := Z.shiftr x n * s + o in
  0 <= n < 64 -> in_s 64 (Z.shiftr x n * s) = true -> in_s 64 r = true ->
  edgex_transform_outgoing powl (iot_data_alloc_int t x) props mappings
  = Ret (if fits pt r then iot_data_alloc_int t r else iot_data_alloc_string "overflow").
Proof using L.
  intros Hint Ht Hx Hon Hb Hm n s o r Hn Hs Ho. unfold edgex_transform_outgoing.
  rewrite (propertytype_data_int t pt) by done. rewrite Hint, Hon.
  assert (is_float pt = false) as -> by (by destruct pt).
  rewrite (getLLInt_alloc pt t) by done. rewrite res_bind_ret.
  rewrite outgoing_int_linear by done. fold n s o r. rewrite res_bind_ret.
  destruct (setLLInt_spec pt r Hint Ho) as (t' & Ht' & _ & ->). rewrite Ht in Ht'. injection Ht' as <-.
  rewrite res_bind_ret. by destruct (fits pt r).
Qed.

(** Writing then reading an integer gives the value back: when
    [edgex_transform_incoming] accepts a value whose distance from the offset is a
    multiple of the scale and whose shift loses no bits, [edgex_transform_outgoing]
    of what it sends to the device is the value. *)
Theorem transform_write_read (t : iot_data_type_t) (x : Z) (d : iot_data_t)
    (props : edgex_propertyvalue) (mappings : devsdk_nvpairs) :
  is_integer (pv_type props) = true -> iot_type (pv_type props) = Some t ->
  fits (pv_type props) x = true -> transformsOn props = true ->
  ta_enabled (pv_base props) = false -> ta_enabled (pv_mask props) = false ->
  let n := arg_or (pv_shift props) 0 in
  let s := arg_or (pv_scale props) 1 in
  let o := arg_or (pv_offset props) 0 in
  let q := Z.quot (x - o) s in
  0 <= n < 64 -> s <> 0 -> x - o = q * s -> in_s 64 (x - o) = true -> in_s 64 q = true ->
  in_s 64 (q * 2 ^ n) = true ->
  edgex_transform_incoming logl (iot_data_alloc_int t x) props mappings = Ret (Some d) ->
  edgex_transform_outgoing powl d props mappings = Ret (iot_data_alloc_int t x).
Proof using L.
  intros Hint Ht Hx Hon Hb Hm n s o q Hn Hs Hdiv Ho Hq Hsh. unfold edgex_transform_incoming.
  assert (is_float (pv_type props) = false) as Hfl by (by destruct (pv_type props)).
  rewrite Hfl, Hint, Hon, (getLLInt_alloc _ t) by done. rewrite res_bind_ret.
  rewrite incoming_int_linear by done. fold n s o q. rewrite res_bind_ret.
  destruct (setLLInt_spec _ (q * 2 ^ n) Hint Hsh) as (t' & Ht' & _ & ->).
  rewrite Ht in Ht'. injection Ht' as <-. destruct (fits _ (q * 2 ^ n)) eqn:Hf; [|done]. intros [= <-].
  unfold edgex_transform_outgoing. rewrite (propertytype_data_int t (pv_type props)) by done.
  rewrite Hfl, Hint, Hon, (getLLInt_alloc _ t) by done. rewrite res_bind_ret.
  assert (Z.shiftr (q * 2 ^ n) n = q) as Hback
    by (rewrite Z.shiftr_div_pow2 by apply Hn; apply Z.div_mul, Z.pow_nonzero; [done|apply Hn]).
  assert (in_s 64 x = true) as Hx64.
  { unfold fits in Hx. rewrite Ht in Hx. by apply andb_true_iff in Hx as [_ Hx]. }
  rewrite outgoing_int_linear; try done; fold n s o; rewrite Hback; rewrite <-?Hdiv; try done.
  2: by rewrite Z.sub_add.
  rewrite Z.sub_add, res_bind_ret.
  destruct (setLLInt_spec _ x Hint Hx64) as (t' & Ht' & _ & ->). rewrite Ht in Ht'. injection Ht' as <-.
  by rewrite Hx, res_bind_ret.
Qed.
End facts.

(** ** Instances *)

Definition plain_value (pt : edgex_propertytype) : edgex_propertyvalue :=
  {| pv_type := pt; pv_readable := true; pv_writable := true; pv_minimum := ""; pv_maximum := "";
     pv_defaultvalue := ""; pv_lsb := ""; pv_mask := no_arg; pv_shift := no_arg; pv_scale := no_arg;
     pv_offset := no_arg; pv_base := no_arg; pv_assertion := ""; pv_precision := "";
     pv_mediaType := ""; pv_floatAsBinary := false |}.

(** A property with a shift, a scale and an offset. *)
Definition linear_value (pt : edgex_propertytype) (n s o : Z) : edgex_propertyvalue :=
  let arg z := {| ta_enabled := true; ta_value := AInt z |} in
  {| pv_type := pt; pv_readable := true; pv_writable := true; pv_minimum := ""; pv_maximum := "";
     pv_defaultvalue := ""; pv_lsb := ""; pv_mask := no_arg; pv_shift := arg n; pv_scale := arg s;
     pv_offset := arg o; pv_base := no_arg; pv_assertion := ""; pv_precision := "";
     pv_mediaType := ""; pv_floatAsBinary := false |}.

Lemma transform_outgoing_exact_witness :
  edgex_transform_outgoing (fun x _ => x) (iot_data_alloc_int IOT_DATA_INT16 1000)
    (linear_value Edgex_Int16 2 3 7) []
  = Ret (iot_data_alloc_int IOT_DATA_INT16 757).
Proof.
  apply (transform_outgoing_exact (fun x _ => x) Edgex_Int16 IOT_DATA_INT16 1000
           (linear_value Edgex_Int16 2 3 7) []); try reflexivity.
  split; [vm_compute; congruence|reflexivity].
Defined.

Lemma transform_write_read_witness :
  exists d,
    edgex_transform_incoming (fun x => x) (iot_data_alloc_int IOT_DATA_INT32 67)
      (linear_value Edgex_Int32 4 3 7) [] = Ret (Some d) /\
    edgex_transform_outgoing (fun x _ => x) d (linear_value Edgex_Int32 4 3 7) []
    = Ret (iot_data_alloc_int IOT_DATA_INT32 67).
Proof.
  exists (iot_data_alloc_int IOT_DATA_INT32 320). split; [reflexivity|].
  apply (transform_write_read (fun x _ => x) (fun x => x) IOT_DATA_INT32 67 _
           (linear_value Edgex_Int32 4 3 7) []); try reflexivity; try discriminate.
  split; [vm_compute; congruence|reflexivity].
Defined.

(** An unsigned value of 2^63 or more is taken as negative, and becomes "overflow"
    under transforms that do not change it. *)
Lemma large_unsigned_overflows :
  edgex_transform_outgoing (fun x _ => x) (iot_data_alloc_int IOT_DATA_UINT64 (2 ^ 63))
    (linear_value Edgex_Uint64 0 1 0) [] = Ret (iot_data_alloc_string "overflow").
Proof. reflexivity. Qed.

(** A scale of 0 in a profile divides by zero when a value is written. *)
Lemma zero_scale_crashes x :
  edgex_transform_incoming (fun x => x) (iot_data_alloc_int IOT_DATA_INT8 x)
    (linear_value Edgex_Int8 0 0 0) [] = Crash.
Proof.
  unfold edgex_transform_incoming. cbn [pv_type linear_value is_float is_integer].
  change (transformsOn (linear_value Edgex_Int8 0 0 0)) with true. cbn [getLLInt iot_type is_integer].
  rewrite res_bind_ret. unfold incoming_int, when. cbn -[checked wrap_s].
  unfold checked. by destruct (in_s 64 _).
Qed.
