(* ===== verification/Readings.v ===== *)
(** * Events and readings ([data.c], [cmdinfo.h])

    The readings of a command become an event: each value is transformed, checked
    against its assertion and written as text, and the event is written as JSON, or
    as CBOR when a resource is binary. The iot and CBOR libraries are interfaces. *)

From S2P Require Import Prelude CLib CFloat Parson ParsonText ParsonProofs DevTypes EdgexRest.
From S2P Require Import EdgexRestProofs IotData Transform.
From Stdlib Require Import Ascii.
Local Open Scope Z_scope.
Local Open Scope sdk_scope.

(** ** Commands *)

(** A type code is a type, or an array of a type. *)
Record iot_typecode_t := MkTypecode { tc_array : bool; tc_type : iot_data_type_t }.

(** What a command asks for one resource: the entry of [reqs], [pvals], [maps] and
    [dfls] at an index. *)
Record cmdreq := MkReq {
  rq_resname : string; rq_attributes : devsdk_nvpairs; rq_type : iot_typecode_t;
  rq_pval : edgex_propertyvalue; rq_map : devsdk_nvpairs; rq_dfl : option string }.

Record edgex_cmdinfo := MkCmdinfo { ci_name : string; ci_isget : bool; ci_reqs : list cmdreq }.

Definition nreqs (ci : edgex_cmdinfo) : Z := Z.of_nat (length (ci_reqs ci)).

(** ** The CBOR library

    [cbor_map_add] and [cbor_array_push] on a definite container return false and
    change nothing once the announced number of entries is reached. *)

Class Cbor := {
  cbor_item_t : Type;
  cbor_build_string : string -> cbor_item_t;
  cbor_build_bytestring : list Z -> cbor_item_t;
  cbor_build_uint64 : Z -> cbor_item_t;
  cbor_new_definite_map : Z -> cbor_item_t;
  cbor_map_add : cbor_item_t -> cbor_item_t * cbor_item_t -> cbor_item_t;
  cbor_map_handle : cbor_item_t -> list (cbor_item_t * cbor_item_t);
  cbor_map_allocated : cbor_item_t -> Z;
  cbor_new_definite_array : Z -> cbor_item_t;
  cbor_array_push : cbor_item_t -> cbor_item_t -> cbor_item_t;
  cbor_array_handle : cbor_item_t -> list cbor_item_t;
  cbor_array_allocated : cbor_item_t -> Z;
  cbor_serialize_alloc : cbor_item_t -> list Z
}.

Class CborLaws (C : Cbor) := {
  map_new n : cbor_map_handle (cbor_new_definite_map n) = [];
  map_new_allocated n : cbor_map_allocated (cbor_new_definite_map n) = n;
  map_add m p :
    cbor_map_handle (cbor_map_add m p)
    = if Z.of_nat (length (cbor_map_handle m)) <? cbor_map_allocated m
      then cbor_map_handle m ++ [p] else cbor_map_handle m;
  map_add_allocated m p : cbor_map_allocated (cbor_map_add m p) = cbor_map_allocated m;
  array_new n : cbor_array_handle (cbor_new_definite_array n) = [];
  array_new_allocated n : cbor_array_allocated (cbor_new_definite_array n) = n;
  array_push a x :
    cbor_array_handle (cbor_array_push a x)
    = if Z.of_nat (length (cbor_array_handle a)) <? cbor_array_allocated a
      then cbor_array_handle a ++ [x] else cbor_array_handle a;
  array_push_allocated a x : cbor_array_allocated (cbor_array_push a x) = cbor_array_allocated a
}.

(** ** Values as text *)

Definition BUFSIZE : Z := 32.

(** [strcat (buf, s)] and [sprintf (buf, ...)] with a buffer of [size] bytes. *)
Definition strcat (size : Z) (buf s : string) : res string :=
  let t := buf +:+ s in if Z.of_nat (String.length t) <? size then Ret t else Crash.

Definition sprintf (size : Z) (s : string) : res string := strcat size EmptyString s.

(** Memory is little-endian. *)
Fixpoint le_int (bs : list Z) : Z := match bs with [] => 0 | b :: bs' => b + 256 * le_int bs' end.

Definition elem (size : nat) (bs : list Z) (i : nat) : list Z := take size (drop (size * i) bs).

Section readings.
  Context `{D : IotData} `{C : Cbor}.
  Variables (powl : spec_float -> spec_float -> spec_float) (logl : spec_float -> spec_float).

(** One element of an array; [data] are the bytes of the array. *)
Definition elem_text (pt : edgex_propertytype) (binfloat : bool) (data : list Z) (i : nat) : string :=
  let signed n := print_i (wrap_s (8 * Z.of_nat n) (le_int (elem n data i))) in
  let unsigned n := print_u (wrap_u (8 * Z.of_nat n) (le_int (elem n data i))) in
  match pt with
  | Edgex_Int8Array => signed 1%nat
  | Edgex_Uint8Array => unsigned 1%nat
  | Edgex_Int16Array => signed 2%nat
  | Edgex_Uint16Array => unsigned 2%nat
  | Edgex_Int32Array => signed 4%nat
  | Edgex_Uint32Array => unsigned 4%nat
  | Edgex_Int64Array => signed 8%nat
  | Edgex_Uint64Array => unsigned 8%nat
  | Edgex_Float32Array =>
      if binfloat then iot_b64_encode (elem 4 data i)
      else print_e 8 (of_bits 24 128 (le_int (elem 4 data i)))
  | Edgex_Float64Array =>
      if binfloat then iot_b64_encode (elem 8 data i)
      else print_e 16 (of_bits 53 1024 (le_int (elem 8 data i)))
  | Edgex_BoolArray => if le_int (elem 1 data i) =? 0 then "false" else "true"
  | _ => "?"
  end.

Definition opening (i : nat) : string :=
  String (if Nat.eqb i 0 then "[" else ",")%char (String QUOTE EmptyString).

(** Body of the loop over the elements. *)
Definition add_elem (size : Z) (pt : edgex_propertytype) (binfloat : bool) (data : list Z)
    (buf : string) (i : nat) : res string :=
  vstr ← sprintf BUFSIZE (elem_text pt binfloat data i);
  buf ← strcat size buf (opening i);
  buf ← strcat size buf vstr;
  strcat size buf (String QUOTE EmptyString).

Fixpoint array_loop (size : Z) (pt : edgex_propertytype) (binfloat : bool) (data : list Z)
    (n i : nat) (buf : string) : res string :=
  match n with
  | O => strcat size buf "]"
  | S n' =>
      buf ← add_elem size pt binfloat data buf i;
      array_loop size pt binfloat data n' (S i) buf
  end.

(** The bytes of a number in memory. *)
Definition le_bytes (n : nat) (z : Z) : list Z :=
  map (fun i => Z.shiftr z (8 * Z.of_nat i) mod 256) (seq 0 n).

Definition edgex_value_tostring (value : iot_data_t) (binfloat : bool) : res string :=
  let pt := edgex_propertytype_data value in
  if bool_decide (iot_data_type value = IOT_DATA_ARRAY) && negb (bool_decide (pt = Edgex_Binary)) then
    let length := iot_data_array_length value in
    let size := wrap_u 32 (BUFSIZE * length) in
    buf ← sprintf size EmptyString;
    array_loop size pt binfloat (iot_data_address value) (Z.to_nat length) 0 buf
  else
    match pt with
    | Edgex_Float32 =>
        sprintf BUFSIZE
          (if binfloat then iot_b64_encode (le_bytes 4 (bits_of 24 128 (iot_data_f32 value)))
           else print_e 8 (iot_data_f32 value))
    | Edgex_Float64 =>
        sprintf BUFSIZE
          (if binfloat then iot_b64_encode (le_bytes 8 (bits_of 53 1024 (iot_data_f64 value)))
           else print_e 16 (iot_data_f64 value))
    | Edgex_String => Ret (iot_data_string value)
    | Edgex_Binary => Ret (iot_b64_encode (iot_data_address value))
    | _ => Ret (iot_data_to_json value)
    end.

(** ** Events *)

Record devsdk_commandresult := MkResult { cr_origin : Z; cr_value : iot_data_t }.

Inductive edgex_event_cooked :=
| CookedJSON (json : option string)
| CookedCBOR (data : list Z).

(** A value before it is sent: the mark of binary data, the transforms and the
    assertion. [None]: the assertion does not hold. *)
Definition prepare (doTransforms : bool) (rq : cmdreq) (v : devsdk_commandresult)
    : res (option devsdk_commandresult) :=
  let pv := rq_pval rq in
  let value :=
    if bool_decide (pv_type pv = Edgex_Binary)
    then iot_data_set_metadata (cr_value v) (iot_data_alloc_bool true) else cr_value v in
  value ← (if doTransforms then edgex_transform_outgoing powl value pv (rq_map rq) else Ret value);
  let v' := MkResult (cr_origin v) value in
  if String.eqb (pv_assertion pv) EmptyString then Ret (Some v')
  else
    reading ← edgex_value_tostring value (pv_floatAsBinary pv);
    Ret (if String.eqb reading (pv_assertion pv) then Some v' else None).

(** The first loop of [edgex_data_process_event]. *)
Fixpoint prepare_all (doTransforms : bool) (reqs : list cmdreq) (values : list devsdk_commandresult)
    : res (option (list devsdk_commandresult)) :=
  match reqs, values with
  | [], _ => Ret (Some [])
  | _ :: _, [] => Crash
  | rq :: reqs', v :: values' =>
      o ← prepare doTransforms rq v;
      match o with
      | None => Ret None
      | Some v' =>
          os ← prepare_all doTransforms reqs' values';
          Ret (match os with Some vs => Some (v' :: vs) | None => None end)
      end
  end.

Definition origin_of (timenow : Z) (v : devsdk_commandresult) : Z :=
  if cr_origin v =? 0 then timenow else cr_origin v.

Definition is_floating (pt : edgex_propertytype) : bool :=
  match pt with
  | Edgex_Float32 | Edgex_Float64 | Edgex_Float32Array | Edgex_Float64Array => true
  | _ => false
  end.

Definition encoding_name (binfloat : bool) : string := if binfloat then "base64" else "eNotation".

Definition reading_cbor (timenow : Z) (rq : cmdreq) (v : devsdk_commandresult) : res cbor_item_t :=
  let pt := edgex_propertytype_data (cr_value v) in
  let add k x crdg := cbor_map_add crdg (cbor_build_string k, x) in
  crdg ← (if bool_decide (pt = Edgex_Binary) then
            Ret (cbor_new_definite_map 3
                 ;> add "binaryValue" (cbor_build_bytestring (iot_data_address (cr_value v)))
                 ;> add "mediaType" (cbor_build_string (pv_mediaType (rq_pval rq))))
          else
            reading ← edgex_value_tostring (cr_value v) (pv_floatAsBinary (rq_pval rq));
            Ret (cbor_new_definite_map 3 ;> add "value" (cbor_build_string reading)));
  let crdg := crdg ;> add "name" (cbor_build_string (rq_resname rq))
                   ;> add "valueType" (cbor_build_string (edgex_propertytype_tostring pt)) in
  let crdg := if is_floating pt
              then add "floatEncoding" (cbor_build_string (encoding_name (pv_floatAsBinary (rq_pval rq)))) crdg
              else crdg in
  Ret (crdg ;> add "origin" (cbor_build_uint64 (origin_of timenow v))).

Definition event_cbor (device_name : string) (timenow : Z) (reqs : list cmdreq)
    (values : list devsdk_commandresult) : res cbor_item_t :=
  readings ← res_map (fun p => reading_cbor timenow (fst p) (snd p)) (zip reqs values);
  let crdgs := foldl cbor_array_push (cbor_new_definite_array (Z.of_nat (length reqs))) readings in
  let add k x crdg := cbor_map_add crdg (cbor_build_string k, x) in
  Ret (cbor_new_definite_map 3 ;> add "device" (cbor_build_string device_name)
       ;> add "origin" (cbor_build_uint64 timenow) ;> add "readings" crdgs).

Definition reading_json (timenow : Z) (rq : cmdreq) (v : devsdk_commandresult) : res JSON_Value :=
  let pt := edgex_propertytype_data (cr_value v) in
  reading ← edgex_value_tostring (cr_value v) (pv_floatAsBinary (rq_pval rq));
  let robj := [] ;> put_string "name" (Some (rq_resname rq)) ;> put_string "value" (Some reading)
                 ;> put_uint "origin" (origin_of timenow v)
                 ;> put_string "valueType" (Some (edgex_propertytype_tostring pt)) in
  Ret (VObject
    (if is_floating pt
     then put_string "floatEncoding" (Some (encoding_name (pv_floatAsBinary (rq_pval rq)))) robj
     else if bool_decide (pt = Edgex_Binary)
     then put_string "mediaType" (Some (pv_mediaType (rq_pval rq))) robj
     else robj)).

Definition event_json (device_name : string) (timenow : Z) (reqs : list cmdreq)
    (values : list devsdk_commandresult) : res JSON_Value :=
  jrdgs ← res_map (fun p => reading_json timenow (fst p) (snd p)) (zip reqs values);
  Ret (VObject ([] ;> put_string "device" (Some device_name) ;> put_uint "origin" timenow
                   ;> put_value "readings" (VArray jrdgs))).

Definition useCBOR (reqs : list cmdreq) : bool :=
  existsb (fun rq => bool_decide (pv_type (rq_pval rq) = Edgex_Binary)) reqs.

(** [None]: an assertion failed. *)
Definition edgex_data_process_event (device_name : string) (commandinfo : edgex_cmdinfo)
    (values : list devsdk_commandresult) (doTransforms : bool) (timenow : Z)
    : res (option edgex_event_cooked) :=
  let reqs := ci_reqs commandinfo in
  o ← prepare_all doTransforms reqs values;
  match o with
  | None => Ret None
  | Some values' =>
      if useCBOR reqs then
        cevent ← event_cbor device_name timenow reqs values';
        Ret (Some (CookedCBOR (cbor_serialize_alloc cevent)))
      else
        jevent ← event_json device_name timenow reqs values';
        Ret (Some (CookedJSON (json_serialize_to_string (Some jevent))))
  end.

(** Only the values are copied. *)
Definition devsdk_commandresult_dup (l : list devsdk_commandresult) : list devsdk_commandresult :=
  map (fun r => MkResult 0 (iot_data_copy (cr_value r))) l.

(** The arrays have the [n] entries of the command. *)
Fixpoint devsdk_commandresult_equal (lhs rhs : list devsdk_commandresult) (n : nat) : bool :=
  match n, lhs, rhs with
  | S n', a :: lhs', b :: rhs' =>
      if iot_data_equal (cr_value a) (cr_value b) then devsdk_commandresult_equal lhs' rhs' n' else false
  | _, _, _ => true
  end.

End readings.

(** ** The text of an array fits its buffer *)

Section facts.
  Context `{D : IotData} `{L : !IotDataLaws D}.

(** The text of an element with its quotes. *)
Definition quoted (pt : edgex_propertytype) (binfloat : bool) (data : list Z) (i : nat) : string :=
  String QUOTE (elem_text pt binfloat data i +:+ String QUOTE EmptyString).

Lemma print_i_length z : - 2 ^ 63 <= z < 2 ^ 63 -> (String.length (print_i z) <= 20)%nat.
Proof.
  intros Hz. assert (2 ^ 63 < 10 ^ Z.of_nat 19) by (by vm_compute). unfold print_i.
  destruct (z <? 0) eqn:E; bool_to_prop; cbn [String.length].
  - pose proof (print_u_length (- z) 18 ltac:(lia)). lia.
  - pose proof (print_u_length z 18 ltac:(lia)). lia.
Qed.

Lemma signed_length n (z : Z) : (1 <= n <= 8)%nat ->
  (String.length (print_i (wrap_s (8 * Z.of_nat n) z)) <= 24)%nat.
Proof.
  intros Hn. pose proof (wrap_s_range (8 * Z.of_nat n) z ltac:(lia)) as Hr.
  pose proof (Z.pow_le_mono_r 2 (8 * Z.of_nat n - 1) 63 ltac:(lia) ltac:(lia)).
  pose proof (print_i_length (wrap_s (8 * Z.of_nat n) z) ltac:(lia)). lia.
Qed.

Lemma unsigned_length n (z : Z) : (1 <= n <= 8)%nat ->
  (String.length (print_u (wrap_u (8 * Z.of_nat n) z)) <= 24)%nat.
Proof.
  intros Hn. pose proof (wrap_u_range (8 * Z.of_nat n) z ltac:(lia)) as Hr.
  pose proof (Z.pow_le_mono_r 2 (8 * Z.of_nat n) 64 ltac:(lia) ltac:(lia)).
  assert (2 ^ 64 < 10 ^ Z.of_nat 20) by (by vm_compute).
  pose proof (print_u_length (wrap_u (8 * Z.of_nat n) z) 19 ltac:(lia)). lia.
Qed.

Lemma b64_elem_length n data i :
  (n <= 8)%nat -> (String.length (iot_b64_encode (elem n data i)) <= 24)%nat.
Proof using L.
  intros Hn. pose proof (b64_length (elem n data i)) as H. unfold elem in *.
  rewrite length_take in H. pose proof (Z.div_le_mono
    (Z.of_nat (n `min` length (drop (n * i) data)) + 2) 10 3 ltac:(lia) ltac:(lia)) as H2.
  change (10 / 3) with 3 in H2. lia.
Qed.

Lemma elem_text_length pt bf data i : (String.length (elem_text pt bf data i) <= 24)%nat.
Proof using L.
  unfold elem_text. destruct pt; try (by simpl; lia);
    try (apply signed_length; lia); try (apply unsigned_length; lia).
  - destruct bf; [apply b64_elem_length; lia|].
    pose proof (print_e_length 8 (of_bits 24 128 (le_int (elem 4 data i))) ltac:(lia)
      ltac:(apply fp_ok_f32, of_bits_ok; by vm_compute)). lia.
  - destruct bf; [apply b64_elem_length; lia|].
    pose proof (print_e_length 16 (of_bits 53 1024 (le_int (elem 8 data i))) ltac:(lia)
      ltac:(apply of_bits_ok; by vm_compute)). lia.
  - destruct (le_int _ =? 0); simpl; lia.
Qed.

Lemma strcat_ok size buf s :
  Z.of_nat (String.length buf) + Z.of_nat (String.length s) < size -> strcat size buf s = Ret (buf +:+ s).
Proof.
  intros H. unfold strcat. rewrite length_append. destruct (_ <? size) eqn:E; bool_to_prop; [done|lia].
Qed.

Lemma add_elem_ok size pt bf data buf i :
  Z.of_nat (String.length buf) + 28 <= size ->
  add_elem size pt bf data buf i
  = Ret (buf +:+ String (if Nat.eqb i 0 then "[" else ",")%char (quoted pt bf data i)).
Proof using L.
  intros Hs. pose proof (elem_text_length pt bf data i) as Hl. unfold add_elem, sprintf.
  assert (String.length (opening i) = 2%nat) as Ho by done.
  rewrite (strcat_ok BUFSIZE) by (unfold BUFSIZE; simpl; lia). rewrite res_bind_ret, append_nil_l.
  rewrite strcat_ok by lia. rewrite res_bind_ret.
  rewrite strcat_ok by (rewrite length_append; lia). rewrite res_bind_ret.
  rewrite strcat_ok by (rewrite !length_append; simpl; lia).
  unfold opening, quoted. by rewrite !append_assoc.
Qed.

Lemma quoted_length pt bf data i : (String.length (quoted pt bf data i) <= 26)%nat.
Proof using L.
  unfold quoted. cbn [String.length]. rewrite length_append. pose proof (elem_text_length pt bf data i).
  simpl. lia.
Qed.

(** The elements after the first. *)
Lemma array_loop_ok size pt bf data n i buf :
  (0 < i)%nat -> Z.of_nat (String.length buf) + 27 * Z.of_nat n + 2 <= size ->
  array_loop size pt bf data n i buf
  = Ret (foldl (fun b j => b +:+ String "," (quoted pt bf data j)) buf (seq i n) +:+ "]").
Proof using L.
  revert i buf. induction n as [|n IH]; intros i buf Hi Hs; cbn [array_loop seq foldl].
  - apply strcat_ok. simpl. lia.
  - rewrite add_elem_ok by lia. rewrite res_bind_ret. destruct i as [|i]; [lia|]. cbn [Nat.eqb].
    apply IH; [lia|]. rewrite length_append. cbn [String.length].
    pose proof (quoted_length pt bf data (S i)). lia.
Qed.

Lemma foldl_concat (f : nat -> string) l b x :
  foldl (fun b j => b +:+ String "," (f j)) (b +:+ x) l = b +:+ String.concat "," (x :: map f l).
Proof.
  revert b x. induction l as [|j l IH]; intros b x; [done|]. cbn [foldl].
  rewrite append_assoc, IH. destruct l; cbn [map String.concat]; by rewrite ?append_assoc.
Qed.

Lemma array_text (value : iot_data_t) (binfloat : bool) (n : nat) :
  let pt := edgex_propertytype_data value in
  iot_data_type value = IOT_DATA_ARRAY -> pt <> Edgex_Binary ->
  iot_data_array_length value = Z.of_nat n -> Z.of_nat n < 2 ^ 27 ->
  edgex_value_tostring value binfloat
  = if Nat.eqb n 0 then Crash
    else Ret ("[" +:+ String.concat "," (map (quoted pt binfloat (iot_data_address value)) (seq 0 n))
              +:+ "]").
Proof using L.
  intros pt Ht Hpt Hlen Hn. unfold edgex_value_tostring. fold pt. rewrite Ht, Hlen.
  rewrite bool_decide_true, bool_decide_false by done. cbn [negb andb].
  unfold BUFSIZE. rewrite wrap_u_small by lia.
  destruct n as [|n]; [done|]. cbn [Nat.eqb]. unfold sprintf.
  rewrite strcat_ok by (simpl; lia). rewrite res_bind_ret, Nat2Z.id. cbn [array_loop append_nil_l].
  rewrite add_elem_ok by (simpl; lia). rewrite res_bind_ret. cbn [Nat.eqb].
  rewrite array_loop_ok; [|lia|].
  - cbn [String.append]. rewrite (foldl_concat (quoted pt binfloat (iot_data_address value)) _ "["
      (quoted pt binfloat (iot_data_address value) 0)). cbn [seq map]. by rewrite append_assoc.
  - cbn [String.append String.length]. pose proof (quoted_length pt binfloat (iot_data_address value) 0). lia.
Qed.

(** The text of an array value is the quoted elements between brackets. The
    buffer of 32 bytes an element is large enough for every element type and any
    content, up to 2^27 elements; for an array without elements no space is
    allocated and writing the text is out of bounds. *)
Theorem value_array_text (value : iot_data_t) (binfloat : bool) (n : nat) :
  let pt := edgex_propertytype_data value in
  iot_data_type value = IOT_DATA_ARRAY -> pt <> Edgex_Binary ->
  iot_data_array_length value = Z.of_nat n -> Z.of_nat n < 2 ^ 27 ->
  edgex_value_tostring value binfloat
  = if Nat.eqb n 0 then Crash
    else Ret ("[" +:+ String.concat "," (map (quoted pt binfloat (iot_data_address value)) (seq 0 n))
              +:+ "]").
Proof using L. intros pt. apply array_text. Qed.

(** ** The CBOR form of a reading *)

  Context `{C : Cbor} `{CL : !CborLaws C}.
  Variable (powl : spec_float -> spec_float -> spec_float).

Lemma map_add_room m p :
  Z.of_nat (length (cbor_map_handle m)) < cbor_map_allocated m ->
  cbor_map_handle (cbor_map_add m p) = cbor_map_handle m ++ [p].
Proof using CL. intros H. rewrite map_add. destruct (_ <? _) eqn:E; bool_to_prop; [done|lia]. Qed.

Lemma map_add_full m p :
  cbor_map_allocated m <= Z.of_nat (length (cbor_map_handle m)) ->
  cbor_map_handle (cbor_map_add m p) = cbor_map_handle m.
Proof using CL. intros H. rewrite map_add. destruct (_ <? _) eqn:E; bool_to_prop; [lia|done]. Qed.

Lemma map_three p1 p2 p3 :
  let m := cbor_map_add (cbor_map_add (cbor_map_add (cbor_new_definite_map 3) p1) p2) p3 in
  cbor_map_handle m = [p1; p2; p3] /\ cbor_map_allocated m = 3.
Proof using CL.
  cbn zeta. rewrite !map_add_allocated, map_new_allocated. split; [|done].
  assert (cbor_map_handle (cbor_map_add (cbor_new_definite_map 3) p1) = [p1]) as H1.
  { rewrite map_add_room; rewrite map_new; [done|]. rewrite map_new_allocated. done. }
  assert (cbor_map_handle (cbor_map_add (cbor_map_add (cbor_new_definite_map 3) p1) p2) = [p1; p2]) as H2.
  { rewrite map_add_room; rewrite H1; [done|]. by rewrite map_add_allocated, map_new_allocated. }
  rewrite map_add_room; rewrite H2; [done|]. by rewrite !map_add_allocated, map_new_allocated.
Qed.

(** A full map stays as it is. *)
Lemma map_full_keeps m ps :
  cbor_map_allocated m = 3 -> length (cbor_map_handle m) = 3%nat ->
  cbor_map_handle (foldl cbor_map_add m ps) = cbor_map_handle m.
Proof using CL.
  revert m. induction ps as [|p ps IH]; intros m Ha Hl; [done|]. cbn [foldl].
  assert (cbor_map_handle (cbor_map_add m p) = cbor_map_handle m) as Hp
    by (apply map_add_full; rewrite Ha, Hl; done).
  rewrite IH; [done| |]; rewrite ?map_add_allocated, ?Hp; done.
Qed.

(** A reading is sent as a CBOR map of three entries although up to five are
    added: a binary reading is its bytes, media type and name, any other reading its
    text, name and type. The origin never reaches the receiver, nor does the type of
    a binary reading or the encoding of a floating-point one. *)
Theorem cbor_reading_truncated (timenow : Z) (rq : cmdreq) (v : devsdk_commandresult)
    (item : cbor_item_t) :
  reading_cbor timenow rq v = Ret item ->
  let pt := edgex_propertytype_data (cr_value v) in
  let name := (cbor_build_string "name", cbor_build_string (rq_resname rq)) in
  if bool_decide (pt = Edgex_Binary) then
    cbor_map_handle item
    = [(cbor_build_string "binaryValue", cbor_build_bytestring (iot_data_address (cr_value v)));
       (cbor_build_string "mediaType", cbor_build_string (pv_mediaType (rq_pval rq))); name]
  else
    exists reading,
      edgex_value_tostring (cr_value v) (pv_floatAsBinary (rq_pval rq)) = Ret reading /\
      cbor_map_handle item
      = [(cbor_build_string "value", cbor_build_string reading); name;
         (cbor_build_string "valueType", cbor_build_string (edgex_propertytype_tostring pt))].
Proof using CL.
  intros H. cbn zeta. unfold reading_cbor in H. cbv zeta in H.
  destruct (bool_decide _) eqn:Eb.
  - apply bool_decide_eq_true in Eb. rewrite Eb, res_bind_ret in H. cbn [is_floating] in H.
    injection H as <-. pose proof (map_three
      (cbor_build_string "binaryValue", cbor_build_bytestring (iot_data_address (cr_value v)))
      (cbor_build_string "mediaType", cbor_build_string (pv_mediaType (rq_pval rq)))
      (cbor_build_string "name", cbor_build_string (rq_resname rq))) as [Hh Ha]. cbn zeta in *.
    rewrite <-Hh. exact (map_full_keeps _ [_; _] Ha ltac:(by rewrite Hh)).
  - destruct (edgex_value_tostring _ _) as [reading| |] eqn:Er; [|done..].
    exists reading. split; [done|]. rewrite !res_bind_ret in H.
    pose proof (map_three (cbor_build_string "value", cbor_build_string reading)
      (cbor_build_string "name", cbor_build_string (rq_resname rq))
      (cbor_build_string "valueType",
       cbor_build_string (edgex_propertytype_tostring (edgex_propertytype_data (cr_value v))))) as [Hh Ha].
    cbn zeta in *. injection H as <-. rewrite <-Hh.
    destruct (is_floating _).
    + exact (map_full_keeps _ [_; _] Ha ltac:(by rewrite Hh)).
    + exact (map_full_keeps _ [_] Ha ltac:(by rewrite Hh)).
Qed.

(** ** The JSON form of an event *)

(** The members of a reading, [text] being the text of the value. *)
Definition reading_members (timenow : Z) (rq : cmdreq) (v : devsdk_commandresult) (text : string)
    : JSON_Object :=
  let pt := edgex_propertytype_data (cr_value v) in
  [("name", VString (rq_resname rq)); ("value", VString text);
   ("origin", VUint (if cr_origin v =? 0 then timenow else cr_origin v));
   ("valueType", VString (edgex_propertytype_tostring pt))]
  ++ (if is_floating pt
      then [("floatEncoding", VString (if pv_floatAsBinary (rq_pval rq) then "base64" else "eNotation"))]
      else if bool_decide (pt = Edgex_Binary) then [("mediaType", VString (pv_mediaType (rq_pval rq)))]
      else []).

Definition event_value (device : string) (timenow : Z)
    (rs : list (cmdreq * devsdk_commandresult * string)) : JSON_Value :=
  VObject [("device", VString device); ("origin", VUint timenow);
           ("readings", VArray (map (fun '(rq, v, t) => VObject (reading_members timenow rq v t)) rs))].

(** The text of the value is known, and every string can be written. *)
Definition ok_reading (timenow : Z) (r : cmdreq * devsdk_commandresult * string) : Prop :=
  let '(rq, v, t) := r in
  edgex_value_tostring (cr_value v) (pv_floatAsBinary (rq_pval rq)) = Ret t /\
  ok_str t /\ ok_str (rq_resname rq) /\ ok_str (pv_mediaType (rq_pval rq)) /\ ok_uint (cr_origin v).

Lemma origin_ok timenow v : ok_uint timenow -> ok_uint (cr_origin v) -> ok_uint (origin_of timenow v).
Proof. intros. unfold origin_of. by destruct (_ =? 0). Qed.

Lemma reading_json_members timenow rq v t :
  ok_reading timenow (rq, v, t) ->
  reading_json timenow rq v = Ret (VObject (reading_members timenow rq v t)).
Proof.
  intros (Ht & Hs & Hn & Hm & Ho). unfold reading_json. rewrite Ht, res_bind_ret. apply (f_equal Ret).
  unfold reading_members, encoding_name. cbv zeta.
  destruct (is_floating _); [|destruct (bool_decide _)]; all_values; read_members; done.
Qed.

Lemma good_reading timenow rq v t :
  ok_uint timenow -> ok_reading timenow (rq, v, t) ->
  good 1 (VObject (reading_members timenow rq v t)).
Proof.
  intros Hnow Hok. pose proof (reading_json_members _ _ _ _ Hok) as Heq.
  destruct Hok as (Ht & Hs & Hn & Hm & Ho). unfold reading_json in Heq. rewrite Ht, res_bind_ret in Heq.
  injection Heq as <-. change 1 with (0 + 1).
  pose proof (origin_ok timenow v Hnow Ho). unfold encoding_name.
  destruct (is_floating _); [|destruct (bool_decide _)]; good_object.
Qed.

Lemma event_json_value device timenow rs :
  ok_str device -> Forall (ok_reading timenow) rs ->
  event_json device timenow (map (fun r => fst (fst r)) rs) (map (fun r => snd (fst r)) rs)
  = Ret (event_value device timenow rs).
Proof.
  intros Hd Hall. unfold event_json.
  assert (res_map (fun p => reading_json timenow (fst p) (snd p))
            (zip (map (fun r => fst (fst r)) rs) (map (fun r => snd (fst r)) rs))
          = Ret (map (fun '(rq, v, t) => VObject (reading_members timenow rq v t)) rs)) as ->.
  { induction Hall as [|[[rq v] t] rs Hr _ IH]; [done|]. cbn [map zip zip_with fst snd res_map].
    rewrite (reading_json_members _ _ _ t Hr), res_bind_ret, IH. done. }
  rewrite res_bind_ret. all_values. unfold event_value. by read_members.
Qed.

Lemma good_event device timenow rs :
  ok_str device -> ok_uint timenow -> Forall (ok_reading timenow) rs ->
  good 3 (event_value device timenow rs).
Proof.
  intros Hd Hnow Hall.
  assert (good 2 (VArray (map (fun '(rq, v, t) => VObject (reading_members timenow rq v t)) rs))) as Hr.
  { change 2 with (1 + 1). apply good_array; [lia|]. apply Forall_map. eapply Forall_impl; [exact Hall|].
    intros [[rq v] t] Hok. cbn. by apply good_reading. }
  set (jrdgs := map _ rs) in Hr.
  assert (event_value device timenow rs
          = VObject ([] ;> put_string "device" (Some device) ;> put_uint "origin" timenow
                        ;> put_value "readings" (VArray jrdgs))) as ->.
  { all_values. unfold event_value. by read_members. }
  change 3 with (2 + 1). good_object.
Qed.

Lemma event_text device timenow rs :
  ok_str device -> ok_uint timenow -> Forall (ok_reading timenow) rs ->
  Z.of_nat (String.length (json_text false 0 (event_value device timenow rs))) < 2 ^ 31 - 1 ->
  exists t, json_serialize_to_string (Some (event_value device timenow rs)) = Some t /\
            json_parse_string (Some t) = Some (event_value device timenow rs).
Proof.
  intros Hd Hnow Hall Hlen. destruct (good_event device timenow rs Hd Hnow Hall) as (Hwf & Hnn & Hdep).
  exists (json_text false 0 (event_value device timenow rs)). split.
  - unfold json_serialize_to_string. by rewrite (proj2 (serialize_text false _ Hwf Hlen)).
  - apply parse_string_json_text; [done|done|]. etransitivity; [exact Hdep|]. done.
Qed.

(** C39. When no resource is binary and every assertion holds, the event is JSON
    text that parses to an object with the device, the time and one reading for each
    request in order, with its name, the text of the transformed value, the origin
    given by the driver or else the time, and the type. *)
Theorem event_json_parses (device : string) (timenow : Z) (ci : edgex_cmdinfo) (doTransforms : bool)
    (values : list devsdk_commandresult) (rs : list (cmdreq * devsdk_commandresult * string)) :
  useCBOR (ci_reqs ci) = false ->
  prepare_all powl doTransforms (ci_reqs ci) values = Ret (Some (map (fun r => snd (fst r)) rs)) ->
  ci_reqs ci = map (fun r => fst (fst r)) rs ->
  Forall (ok_reading timenow) rs -> ok_str device -> ok_uint timenow ->
  Z.of_nat (String.length (json_text false 0 (event_value device timenow rs))) < 2 ^ 31 - 1 ->
  exists t,
    edgex_data_process_event powl device ci values doTransforms timenow = Ret (Some (CookedJSON (Some t)))
    /\ json_parse_string (Some t) = Some (event_value device timenow rs).
Proof.
  intros Hc Hp Hreqs Hall Hd Hnow Hlen. destruct (event_text device timenow rs Hd Hnow Hall Hlen) as (t & Ht & Hparse).
  exists t. split; [|done]. unfold edgex_data_process_event.
  by rewrite Hp, res_bind_ret, Hc, Hreqs, event_json_value, res_bind_ret, Ht.
Qed.

(** ** The assertion *)

Lemma prepare_plain rq v :
  pv_type (rq_pval rq) <> Edgex_Binary ->
  prepare powl false rq v
  = if String.eqb (pv_assertion (rq_pval rq)) EmptyString then Ret (Some v)
    else reading ← edgex_value_tostring (cr_value v) (pv_floatAsBinary (rq_pval rq));
         Ret (if String.eqb reading (pv_assertion (rq_pval rq)) then Some v else None).
Proof.
  intros Hb. unfold prepare. rewrite bool_decide_false by done. rewrite res_bind_ret. by destruct v.
Qed.

(** A reading that has no assertion, or the text its assertion asks for. *)
Definition asserted (r : cmdreq * devsdk_commandresult * string) : bool :=
  let '(rq, _, t) := r in
  String.eqb (pv_assertion (rq_pval rq)) EmptyString || String.eqb t (pv_assertion (rq_pval rq)).

Lemma prepare_all_asserted rs :
  Forall (fun '(rq, v, t) => pv_type (rq_pval rq) <> Edgex_Binary /\
    edgex_value_tostring (cr_value v) (pv_floatAsBinary (rq_pval rq)) = Ret t) rs ->
  prepare_all powl false (map (fun r => fst (fst r)) rs) (map (fun r => snd (fst r)) rs)
  = Ret (if forallb asserted rs then Some (map (fun r => snd (fst r)) rs) else None).
Proof.
  induction 1 as [|[[rq v] t] rs [Hb Ht] _ IH]; [done|]. cbn [map fst snd prepare_all forallb].
  rewrite prepare_plain, Ht, res_bind_ret by done. cbn [asserted].
  destruct (String.eqb (pv_assertion _) _); cbn [orb andb]; rewrite ?res_bind_ret.
  - rewrite IH, res_bind_ret. by destruct (forallb _ _).
  - destruct (String.eqb t _); rewrite ?res_bind_ret; [|done]. rewrite IH, res_bind_ret.
    by destruct (forallb _ _).
Qed.

(** Without transforms and binary resources an event is produced exactly when
    every resource that has an assertion reads as that text. *)
Theorem event_asserted (device : string) (timenow : Z) (ci : edgex_cmdinfo)
    (rs : list (cmdreq * devsdk_commandresult * string)) :
  ci_reqs ci = map (fun r => fst (fst r)) rs ->
  Forall (fun '(rq, _, _) => pv_type (rq_pval rq) <> Edgex_Binary) rs ->
  Forall (ok_reading timenow) rs -> ok_str device ->
  edgex_data_process_event powl device ci (map (fun r => snd (fst r)) rs) false timenow
  = Ret (if forallb asserted rs
         then Some (CookedJSON (json_serialize_to_string (Some (event_value device timenow rs))))
         else None).
Proof.
  intros Hreqs Hb Hall Hd. unfold edgex_data_process_event. rewrite Hreqs, prepare_all_asserted, res_bind_ret.
  - destruct (forallb _ _); [|done].
    assert (useCBOR (map (fun r => fst (fst r)) rs) = false) as ->.
    { clear Hall Hreqs. induction Hb as [|[[rq v] t] rs Hr _ IH]; [done|]. cbn [map fst].
      unfold useCBOR. cbn [existsb]. rewrite bool_decide_false by done. exact IH. }
    by rewrite event_json_value, res_bind_ret.
  - rewrite Forall_forall in *. intros [[rq v] t] Hin. specialize (Hb _ Hin). specialize (Hall _ Hin).
    cbn in *. naive_solver.
Qed.

(** ** The readings of a command *)

(** What a result becomes: the value the profile's transforms give for it. *)
Definition prepared (doTransforms : bool) (rq : cmdreq) (v v' : devsdk_commandresult) : Prop :=
  cr_origin v' = cr_origin v /\
  if doTransforms then edgex_transform_outgoing powl (cr_value v) (rq_pval rq) (rq_map rq) = Ret (cr_value v')
  else cr_value v' = cr_value v.

(** [results] answer the requests [reqs]: there is one for each, its value can be
    transformed and has a text, and the event is less than 2 GB of text. [rs] are the
    requests with the transformed results and their texts. *)
Definition read_as (device : string) (doTransforms : bool) (timenow : Z) (reqs : list cmdreq)
    (results : list devsdk_commandresult) (rs : list (cmdreq * devsdk_commandresult * string)) : Prop :=
  reqs = map (fun r => fst (fst r)) rs /\
  Forall2 (fun r v => prepared doTransforms (fst (fst r)) v (snd (fst r))) rs results /\
  Forall (ok_reading timenow) rs /\
  Z.of_nat (String.length (json_text false 0 (event_value device timenow rs))) < 2 ^ 31 - 1.

Lemma prepare_prepared doTransforms rq v v' :
  pv_type (rq_pval rq) <> Edgex_Binary -> prepared doTransforms rq v v' ->
  prepare powl doTransforms rq v = prepare powl false rq v'.
Proof.
  intros Hb [Ho Hv]. unfold prepare. rewrite !bool_decide_false, res_bind_ret by done.
  destruct v as [o x], v' as [o' x']. cbn [cr_origin cr_value] in *. subst o'.
  destruct doTransforms; [by rewrite Hv, res_bind_ret|by rewrite Hv, res_bind_ret].
Qed.

Lemma prepare_all_prepared doTransforms (rs : list (cmdreq * devsdk_commandresult * string)) results :
  Forall (fun r => pv_type (rq_pval (fst (fst r))) <> Edgex_Binary) rs ->
  Forall2 (fun r v => prepared doTransforms (fst (fst r)) v (snd (fst r))) rs results ->
  prepare_all powl doTransforms (map (fun r => fst (fst r)) rs) results
  = prepare_all powl false (map (fun r => fst (fst r)) rs) (map (fun r => snd (fst r)) rs).
Proof.
  intros Hb Hall. induction Hall as [|r v rs results Hr _ IH]; [done|]. apply Forall_cons in Hb as [Hr0 Hb].
  cbn [map prepare_all]. by rewrite (prepare_prepared doTransforms (fst (fst r)) v _ Hr0 Hr), (IH Hb).
Qed.

(** The event of results that answer the requests, unless an assertion fails. *)
Lemma event_read_as device doTransforms timenow ci results rs :
  Forall (fun rq => pv_type (rq_pval rq) <> Edgex_Binary) (ci_reqs ci) ->
  ok_str device -> ok_uint timenow -> read_as device doTransforms timenow (ci_reqs ci) results rs ->
  exists t, json_parse_string (Some t) = Some (event_value device timenow rs) /\
    edgex_data_process_event powl device ci results doTransforms timenow
    = Ret (if forallb asserted rs then Some (CookedJSON (Some t)) else None).
Proof.
  intros Hb Hd Hnow (Hreqs & Hp & Hall & Hlen). destruct (event_text device timenow rs Hd Hnow Hall Hlen) as (t & Ht & Hparse).
  exists t. split; [done|]. rewrite <-Ht, <-(event_asserted device timenow ci rs); [|done| |done..].
  - unfold edgex_data_process_event. rewrite Hreqs in *. rewrite (prepare_all_prepared _ rs); [done| |done].
    by rewrite Forall_map in Hb.
  - rewrite Hreqs, Forall_map in Hb. eapply Forall_impl; [exact Hb|]. by intros [[rq v] t'].
Qed.

(** ** Copies of results *)

Lemma commandresult_dup_equal (l : list devsdk_commandresult) (n : nat) :
  devsdk_commandresult_equal (devsdk_commandresult_dup l) l n = true.
Proof using L.
  revert n. induction l as [|r l IH]; intros [|n]; try done. cbn [devsdk_commandresult_dup map devsdk_commandresult_equal cr_value].
  rewrite copy_equal. apply IH.
Qed.

Lemma commandresult_equal_dup (l : list devsdk_commandresult) (n : nat) :
  devsdk_commandresult_equal l (devsdk_commandresult_dup l) n = true.
Proof using L.
  revert n. induction l as [|r l IH]; intros [|n]; try done. cbn [devsdk_commandresult_dup map devsdk_commandresult_equal cr_value].
  rewrite equal_copy. apply IH.
Qed.

End facts.

(** ** Instances and witnesses *)

Inductive sample_item :=
| CbText (s : string) | CbBytes (bs : list Z) | CbUint (n : Z)
| CbMap (n : Z) (l : list (sample_item * sample_item))
| CbArray (n : Z) (l : list sample_item).

#[export] Instance sample_cbor : Cbor := {
  cbor_item_t := sample_item;
  cbor_build_string := CbText; cbor_build_bytestring := CbBytes; cbor_build_uint64 := CbUint;
  cbor_new_definite_map n := CbMap n [];
  cbor_map_add m p :=
    match m with CbMap n l => CbMap n (if Z.of_nat (length l) <? n then l ++ [p] else l)
               | _ => m end;
  cbor_map_handle m := match m with CbMap _ l => l | _ => [] end;
  cbor_map_allocated m := match m with CbMap n _ => n | _ => 0 end;
  cbor_new_definite_array n := CbArray n [];
  cbor_array_push a x :=
    match a with CbArray n l => CbArray n (if Z.of_nat (length l) <? n then l ++ [x] else l)
               | _ => a end;
  cbor_array_handle a := match a with CbArray _ l => l | _ => [] end;
  cbor_array_allocated a := match a with CbArray n _ => n | _ => 0 end;
  cbor_serialize_alloc _ := []
}.

#[export] Instance sample_cbor_laws : CborLaws sample_cbor.
Proof. split; try done; intros []; done. Qed.

Definition sample_req (pt : edgex_propertytype) (name : string) : cmdreq :=
  MkReq name [] (MkTypecode false IOT_DATA_INT8) (plain_value pt) [] None.

Lemma value_array_text_witness :
  edgex_value_tostring (D := sample_iot) (iot_data_alloc_array [7; 0; 254; 255] 2 IOT_DATA_INT16) false
  = Ret ("[" +:+ String.concat "," [String QUOTE ("7" +:+ String QUOTE EmptyString);
                                    String QUOTE ("-2" +:+ String QUOTE EmptyString)] +:+ "]").
Proof.
  exact (value_array_text (D := sample_iot) (iot_data_alloc_array [7; 0; 254; 255] 2 IOT_DATA_INT16)
           false 2 eq_refl ltac:(discriminate) eq_refl eq_refl).
Defined.

(** A counter of 42 with the origin the driver gave. *)
Definition sample_result : devsdk_commandresult (D := sample_iot) :=
  MkResult 5 (iot_data_alloc_int IOT_DATA_INT32 42).

Lemma cbor_reading_truncated_witness :
  cbor_map_handle (CbMap 3 [(CbText "value", CbText "42"); (CbText "name", CbText "counter");
                            (CbText "valueType", CbText "int32")])
  = [(CbText "value", CbText "42"); (CbText "name", CbText "counter");
     (CbText "valueType", CbText "int32")].
Proof.
  destruct (cbor_reading_truncated (D := sample_iot) (C := sample_cbor) 9 (sample_req Edgex_Int32 "counter")
    sample_result (CbMap 3 [(CbText "value", CbText "42"); (CbText "name", CbText "counter");
                            (CbText "valueType", CbText "int32")]) ltac:(vm_compute; reflexivity))
    as (reading & Hr & Hh).
  vm_compute in Hr. injection Hr as <-. exact Hh.
Defined.

Definition sample_readings : list (cmdreq * devsdk_commandresult (D := sample_iot) * string) :=
  [(sample_req Edgex_Int32 "counter", sample_result, "42")].

Definition sample_command : edgex_cmdinfo := MkCmdinfo "counter" true [sample_req Edgex_Int32 "counter"].

Lemma sample_readings_ok : Forall (ok_reading 9) sample_readings.
Proof.
  apply Forall_singleton. split_and!; [vm_compute; reflexivity|const_str..|done|done].
Qed.

Lemma event_json_parses_witness :
  exists t,
    edgex_data_process_event (fun x _ => x) "dev" sample_command [sample_result] true 9
    = Ret (Some (CookedJSON (Some t)))
    /\ json_parse_string (Some t) = Some (event_value "dev" 9 sample_readings).
Proof.
  apply (event_json_parses (fun x _ => x) "dev" 9 sample_command true [sample_result] sample_readings).
  - reflexivity.
  - reflexivity.
  - reflexivity.
  - apply sample_readings_ok.
  - const_str.
  - split; done.
  - vm_compute. reflexivity.
Defined.

Lemma event_asserted_witness :
  edgex_data_process_event (fun x _ => x) "dev" sample_command [sample_result] false 9
  = Ret (Some (CookedJSON (json_serialize_to_string (Some (event_value "dev" 9 sample_readings))))).
Proof.
  apply (event_asserted (fun x _ => x) "dev" 9 sample_command sample_readings).
  - reflexivity.
  - repeat constructor; discriminate.
  - apply sample_readings_ok.
  - const_str.
Defined.
