(* ===== verification/CmdInfo.v ===== *)
(** * The commands of a profile ([device.c], [findDevResource] to
    [edgex_deviceprofile_findcommand])

    A profile offers its device commands, and each resource that no command hides
    as a command of its own. The list is built once and kept in the profile; the
    profile does not change, so it is a function of the profile here. *)

From S2P Require Import Prelude CLib Parson DevTypes EdgexRest EdgexRestProofs IotData Transform Readings.
Local Open Scope Z_scope.

Definition findDevResource (l : list edgex_deviceresource) (name : string) : option edgex_deviceresource :=
  find (fun r => String.eqb (dr_name r) name) l.

(** The array types are the element types at a fixed distance. *)
Definition element_type (pt : edgex_propertytype) : option iot_data_type_t :=
  match pt with
  | Edgex_Int8Array => Some IOT_DATA_INT8 | Edgex_Uint8Array => Some IOT_DATA_UINT8
  | Edgex_Int16Array => Some IOT_DATA_INT16 | Edgex_Uint16Array => Some IOT_DATA_UINT16
  | Edgex_Int32Array => Some IOT_DATA_INT32 | Edgex_Uint32Array => Some IOT_DATA_UINT32
  | Edgex_Int64Array => Some IOT_DATA_INT64 | Edgex_Uint64Array => Some IOT_DATA_UINT64
  | Edgex_Float32Array => Some IOT_DATA_FLOAT32 | Edgex_Float64Array => Some IOT_DATA_FLOAT64
  | Edgex_BoolArray => Some IOT_DATA_BOOL
  | _ => None
  end.

(** The reserved types are no types of a resource. *)
Definition typecodeFromType (pt : edgex_propertytype) : iot_typecode_t :=
  if bool_decide (pt = Edgex_Binary) then MkTypecode true IOT_DATA_UINT8
  else match element_type pt with
       | Some t => MkTypecode true t
       | None => MkTypecode false (default IOT_DATA_STRING (iot_type pt))
       end.

Definition value_of (r : edgex_deviceresource) : edgex_propertyvalue := pp_value (dr_properties r).

Definition nonempty (s : string) : option string := if String.eqb s EmptyString then None else Some s.

(** The entry of a command for an operation. *)
Definition req_for_op (prof : edgex_deviceprofile) (ro : edgex_resourceoperation) : res cmdreq :=
  devres ← deref (findDevResource (dp_resources prof) (ro_deviceResource ro));
  mret (MkReq (dr_name devres) (dr_attributes devres) (typecodeFromType (pv_type (value_of devres)))
          (value_of devres) (ro_mappings ro)
          (match nonempty (ro_parameter ro) with
           | Some p => Some p
           | None => nonempty (pv_defaultvalue (value_of devres))
           end)).

Definition ops_of (cmd : edgex_devicecommand) (forGet : bool) : list edgex_resourceoperation :=
  if forGet then dc_get cmd else dc_set cmd.

Definition infoForRes (prof : edgex_deviceprofile) (cmd : edgex_devicecommand) (forGet : bool)
    : res edgex_cmdinfo :=
  reqs ← res_map (req_for_op prof) (ops_of cmd forGet);
  mret (MkCmdinfo (dc_name cmd) forGet reqs).

Definition infoForDevRes (devres : edgex_deviceresource) (forGet : bool) : edgex_cmdinfo :=
  MkCmdinfo (dr_name devres) forGet
    [MkReq (dr_name devres) (dr_attributes devres) (typecodeFromType (pv_type (value_of devres)))
       (value_of devres) [] (nonempty (pv_defaultvalue (value_of devres)))].

Definition command_infos (prof : edgex_deviceprofile) (cmd : edgex_devicecommand) : res (list edgex_cmdinfo) :=
  g ← (match dc_get cmd with [] => mret [] | _ => i ← infoForRes prof cmd true; mret [i] end);
  s ← (match dc_set cmd with [] => mret [] | _ => i ← infoForRes prof cmd false; mret [i] end);
  mret (g ++ s).

Definition accessible (devres : edgex_deviceresource) (forGet : bool) : bool :=
  if forGet then pv_readable (value_of devres) else pv_writable (value_of devres).

Definition resource_infos (prof : edgex_deviceprofile) (devres : edgex_deviceresource) : list edgex_cmdinfo :=
  if existsb (fun dc => String.eqb (dc_name dc) (dr_name devres)) (dp_commands prof) then []
  else (if accessible devres true then [infoForDevRes devres true] else [])
       ++ (if accessible devres false then [infoForDevRes devres false] else []).

Definition populateCmdInfo (prof : edgex_deviceprofile) : res (list edgex_cmdinfo) :=
  cmds ← res_map (command_infos prof) (dp_commands prof);
  mret (concat cmds ++ concat (map (resource_infos prof) (dp_resources prof))).

Definition matches (name : string) (forGet : bool) (ci : edgex_cmdinfo) : bool :=
  String.eqb (ci_name ci) name && Bool.eqb forGet (ci_isget ci).

Definition edgex_deviceprofile_findcommand (name : string) (prof : edgex_deviceprofile) (forGet : bool)
    : res (option edgex_cmdinfo) :=
  infos ← populateCmdInfo prof;
  mret (find (matches name forGet) infos).

(** ** What a name stands for *)

(** A device command if there is one with operations for the method; otherwise a
    resource of that name, unless a device command has the name. *)
Definition command_for (name : string) (prof : edgex_deviceprofile) (forGet : bool) : res (option edgex_cmdinfo) :=
  match find (fun dc => String.eqb (dc_name dc) name) (dp_commands prof) with
  | Some cmd =>
      match ops_of cmd forGet with
      | [] => mret None
      | _ => i ← infoForRes prof cmd forGet; mret (Some i)
      end
  | None =>
      match findDevResource (dp_resources prof) name with
      | Some r => mret (if accessible r forGet then Some (infoForDevRes r forGet) else None)
      | None => mret None
      end
  end.

(** Every operation names a resource of the profile. *)
Definition resolved (prof : edgex_deviceprofile) : Prop :=
  Forall (fun cmd => resourceop_validate (dc_set cmd) (dp_resources prof) = true /\
                     resourceop_validate (dc_get cmd) (dp_resources prof) = true) (dp_commands prof).

Lemma find_dev_resource_some l name :
  existsb (fun r => String.eqb name (dr_name r)) l = true -> is_Some (findDevResource l name).
Proof.
  unfold findDevResource. induction l as [|r l IH]; [done|]. cbn [existsb find].
  rewrite String.eqb_sym. destruct (String.eqb _ _); [by eexists|done].
Qed.

Lemma req_for_op_ok prof ro :
  existsb (fun r => String.eqb (ro_deviceResource ro) (dr_name r)) (dp_resources prof) = true ->
  exists rq, req_for_op prof ro = Ret rq.
Proof.
  intros Hr. apply find_dev_resource_some in Hr as [r Hr]. unfold req_for_op. rewrite Hr. by eexists.
Qed.

Lemma infoForRes_ok prof cmd forGet :
  resourceop_validate (ops_of cmd forGet) (dp_resources prof) = true ->
  exists reqs, infoForRes prof cmd forGet = Ret (MkCmdinfo (dc_name cmd) forGet reqs).
Proof.
  intros Hv. unfold infoForRes.
  destruct (res_map_total (req_for_op prof) (ops_of cmd forGet)) as [reqs ->]; [|by eexists].
  apply Forall_forall. intros ro Hin. apply req_for_op_ok.
  unfold resourceop_validate in Hv. rewrite forallb_forall in Hv. apply Hv. by apply list_elem_of_In.
Qed.

(** The entries of one command, when its operations are resolved. *)
Lemma command_infos_ok prof cmd :
  resourceop_validate (dc_set cmd) (dp_resources prof) = true ->
  resourceop_validate (dc_get cmd) (dp_resources prof) = true ->
  exists l, command_infos prof cmd = Ret l /\
    (forall name forGet, dc_name cmd <> name -> find (matches name forGet) l = None) /\
    (forall forGet, match ops_of cmd forGet with
                    | [] => find (matches (dc_name cmd) forGet) l = None
                    | _ => exists i, infoForRes prof cmd forGet = Ret i /\
                                     find (matches (dc_name cmd) forGet) l = Some i
                    end).
Proof.
  intros Hs Hg. destruct (infoForRes_ok prof cmd true Hg) as [rg Eg].
  destruct (infoForRes_ok prof cmd false Hs) as [rs Es]. unfold command_infos, matches.
  rewrite Eg, Es. unfold ops_of.
  destruct (dc_get cmd) as [|g gs], (dc_set cmd) as [|s ss]; (eexists; split; [reflexivity|]); split;
    try (intros name forGet Hne; cbn; rewrite ?(proj2 (String.eqb_neq _ _) Hne); done);
    intros []; cbn; rewrite ?String.eqb_refl; cbn; rewrite ?Eg, ?Es; eauto.
Qed.

Lemma find_app {A} (f : A -> bool) l1 l2 :
  find f (l1 ++ l2) = match find f l1 with Some x => Some x | None => find f l2 end.
Proof. induction l1 as [|x l1 IH]; [done|]. cbn. by destruct (f x). Qed.

(** The entries of the device commands: those of the first command of the name. *)
Lemma commands_ok prof cmds :
  Forall (fun cmd => resourceop_validate (dc_set cmd) (dp_resources prof) = true /\
                     resourceop_validate (dc_get cmd) (dp_resources prof) = true) cmds ->
  NoDup (map dc_name cmds) ->
  exists ls, res_map (command_infos prof) cmds = Ret ls /\
    forall name forGet,
      match find (fun dc => String.eqb (dc_name dc) name) cmds with
      | None => find (matches name forGet) (concat ls) = None
      | Some cmd =>
          match ops_of cmd forGet with
          | [] => find (matches name forGet) (concat ls) = None
          | _ => exists i, infoForRes prof cmd forGet = Ret i /\
                           find (matches name forGet) (concat ls) = Some i
          end
      end.
Proof.
  induction 1 as [|cmd cmds [Hs Hg] _ IH]; intros Hnd.
  { exists []. split; [done|]. intros name forGet. done. }
  cbn [map] in Hnd. apply NoDup_cons in Hnd as [Hin Hnd]. destruct (IH Hnd) as (ls & Els & Hls).
  destruct (command_infos_ok prof cmd Hs Hg) as (l & El & Hother & Hself).
  exists (l :: ls). cbn [res_map]. rewrite El, res_bind_ret, Els, res_bind_ret. split; [done|].
  intros name forGet. cbn [find concat]. rewrite find_app.
  destruct (String.eqb_spec (dc_name cmd) name) as [<-|Hne].
  - specialize (Hls (dc_name cmd) forGet).
    assert (find (fun dc => String.eqb (dc_name dc) (dc_name cmd)) cmds = None) as Hnone.
    { destruct (find _ cmds) as [c|] eqn:E; [|done]. apply find_some in E as [Hc Hn]. bool_to_prop.
      exfalso. apply Hin, list_elem_of_fmap. exists c. split; [done|]. by apply list_elem_of_In. }
    rewrite Hnone in Hls. specialize (Hself forGet). destruct (ops_of cmd forGet).
    + by rewrite Hself.
    + destruct Hself as (i & Ei & ->). by exists i.
  - rewrite (Hother name forGet Hne). apply Hls.
Qed.

(** The entries of the resources: those of the first of the name that no command hides. *)
Lemma resources_ok prof name forGet rs :
  NoDup (map dr_name rs) ->
  find (matches name forGet) (concat (map (resource_infos prof) rs))
  = if existsb (fun dc => String.eqb (dc_name dc) name) (dp_commands prof) then None
    else match findDevResource rs name with
         | Some r => if accessible r forGet then Some (infoForDevRes r forGet) else None
         | None => None
         end.
Proof.
  unfold findDevResource. induction rs as [|r rs IH]; intros Hnd; [by destruct (existsb _ _)|].
  cbn [map] in Hnd. apply NoDup_cons in Hnd as [Hin Hnd]. specialize (IH Hnd).
  cbn [map concat find]. rewrite find_app, IH. clear IH.
  assert (find (matches name forGet) (resource_infos prof r)
          = if String.eqb (dr_name r) name && negb (existsb (fun dc => String.eqb (dc_name dc) name) (dp_commands prof))
               && accessible r forGet then Some (infoForDevRes r forGet) else None) as ->.
  { unfold resource_infos, matches. destruct (String.eqb_spec (dr_name r) name) as [<-|Hne].
    - destruct (existsb _ _); [done|]. destruct forGet, (accessible r true), (accessible r false); cbn;
        rewrite ?String.eqb_refl; done.
    - apply String.eqb_neq in Hne.
      destruct (existsb _ _), (accessible r true), (accessible r false); cbn; rewrite ?Hne; done. }
  destruct (String.eqb_spec (dr_name r) name) as [<-|Hne]; [|done]. cbn [andb].
  assert (find (fun r0 => String.eqb (dr_name r0) (dr_name r)) rs = None) as ->.
  { destruct (find _ rs) as [c|] eqn:E; [|done]. apply find_some in E as [Hc Hn]. bool_to_prop.
    exfalso. apply Hin, list_elem_of_fmap. exists c. split; [done|]. by apply list_elem_of_In. }
  destruct (existsb _ _), (accessible r forGet); done.
Qed.

Lemma existsb_find_none {A} (f : A -> bool) l : find f l = None -> existsb f l = false.
Proof. induction l as [|x l IH]; [done|]. cbn. by destruct (f x). Qed.

Lemma existsb_find_some {A} (f : A -> bool) l x : find f l = Some x -> existsb f l = true.
Proof. intros H. apply find_some in H as [Hin Hf]. apply existsb_exists. by exists x. Qed.

Lemma findcommand_ok (name : string) (prof : edgex_deviceprofile) (forGet : bool) :
  resolved prof -> NoDup (map dc_name (dp_commands prof)) -> NoDup (map dr_name (dp_resources prof)) ->
  exists o, edgex_deviceprofile_findcommand name prof forGet = Ret o /\ command_for name prof forGet = Ret o.
Proof.
  intros Hres Hc Hr. unfold edgex_deviceprofile_findcommand, populateCmdInfo, command_for.
  destruct (commands_ok prof _ Hres Hc) as (ls & -> & Hls). rewrite !res_bind_ret.
  specialize (Hls name forGet). eexists. split; [reflexivity|].
  rewrite find_app, (resources_ok prof name forGet _ Hr).
  destruct (find _ (dp_commands prof)) as [cmd|] eqn:Ef.
  - rewrite (existsb_find_some _ _ _ Ef). destruct (ops_of cmd forGet); [by rewrite Hls|].
    destruct Hls as (i & -> & ->). done.
  - rewrite Hls, (existsb_find_none _ _ Ef). by destruct (findDevResource _ _).
Qed.

(** C40. When the operations of a profile name its resources and the names of
    commands and of resources are distinct, looking up a command does not fail: it
    finds the device command of that name if it has operations for the method, and a
    resource of that name with the right access only if no device command has the
    name. *)
Theorem findcommand_spec (name : string) (prof : edgex_deviceprofile) (forGet : bool) :
  resolved prof -> NoDup (map dc_name (dp_commands prof)) -> NoDup (map dr_name (dp_resources prof)) ->
  exists o, edgex_deviceprofile_findcommand name prof forGet = Ret o /\ command_for name prof forGet = Ret o.
Proof. apply findcommand_ok. Qed.

(** Without a command for the method, the name is that of a command for the other one
    or of none. *)
Lemma other_method name forGet infos :
  find (matches name forGet) infos = None ->
  existsb (fun ci => String.eqb (ci_name ci) name) infos = bool_decide (is_Some (find (matches name (negb forGet)) infos)).
Proof.
  intros Hf. induction infos as [|ci infos IH]; [done|]. cbn [find existsb] in *. unfold matches in *.
  destruct (String.eqb (ci_name ci) name); cbn [andb orb] in *; [|by apply IH].
  destruct forGet, (ci_isget ci); cbn [Bool.eqb negb] in *; try done; symmetry; apply bool_decide_eq_true; by eexists.
Qed.


(** A profile that was read has its operations resolved. *)
Lemma profile_read_resolved obj prof : deviceprofile_read obj = Ret prof -> resolved prof.
Proof.
  unfold deviceprofile_read. intros H. destruct (res_map deviceresource_read _) as [rs| |]; [|done..].
  rewrite res_bind_ret in H. destruct (res_map (devicecommand_read_valid rs) _) as [cs| |] eqn:E; [|done..].
  rewrite res_bind_ret in H. injection H as <-. unfold resolved. cbn [dp_commands dp_resources].
  eapply res_map_Forall; [|exact E]. intros o cmd Hc. unfold devicecommand_read_valid in Hc.
  destruct (devicecommand_read o) as [c| |]; [|done..]. rewrite res_bind_ret in Hc.
  destruct (_ && _) eqn:Ev; [|done]. injection Hc as <-. by apply andb_true_iff in Ev.
Qed.

Lemma findcommand_total name prof forGet :
  resolved prof -> exists o, edgex_deviceprofile_findcommand name prof forGet = Ret o.
Proof.
  intros Hres. unfold edgex_deviceprofile_findcommand, populateCmdInfo.
  destruct (res_map_total (command_infos prof) (dp_commands prof)) as [ls ->]; [|by eexists].
  eapply Forall_impl; [exact Hres|]. intros cmd [Hs Hg].
  destruct (command_infos_ok prof cmd Hs Hg) as (l & El & _). by exists l.
Qed.

(** The command table of any profile that was read from JSON is built without
    dereferencing a missing resource, whatever name is looked up. *)
Theorem read_profile_commands (obj : option JSON_Object) (prof : edgex_deviceprofile) (name : string)
    (forGet : bool) :
  deviceprofile_read obj = Ret prof ->
  exists o, edgex_deviceprofile_findcommand name prof forGet = Ret o.
Proof. intros Hread. eapply findcommand_total, profile_read_resolved, Hread. Qed.

(** ** Witnesses *)

Definition sample_profile : edgex_deviceprofile := dev_profile sample_device.

Lemma findcommand_spec_witness :
  exists o, edgex_deviceprofile_findcommand "T" sample_profile true = Ret o /\
            command_for "T" sample_profile true = Ret o.
Proof.
  apply (findcommand_spec "T" sample_profile true).
  - repeat constructor.
  - apply NoDup_singleton.
  - apply NoDup_singleton.
Defined.

(** The command runs the operation on the resource; the resource is also a command
    of its own for reading. *)
Example sample_commands :
  (fmap (map (fun ci => (ci_name ci, ci_isget ci, map rq_resname (ci_reqs ci)))) (populateCmdInfo sample_profile))
  = Ret [("T", true, ["temp"]); ("temp", true, ["temp"])].
Proof. vm_compute. reflexivity. Qed.

Lemma read_profile_commands_witness :
  exists o, edgex_deviceprofile_findcommand "x"
              (default sample_profile (match deviceprofile_read None with Ret p => Some p | _ => None end))
              false = Ret o.
Proof. apply (read_profile_commands None _ "x" false). vm_compute. reflexivity. Defined.
