(* ===== verification/Values.v ===== *)
(** * Values from text ([device.c], [readFloat32] to [populateValue])

    The text of a PUT becomes a value of the type of the resource. What a GET writes
    for an integer or for an array of integers is read back as the same value. *)

From S2P Require Import Prelude CLib CFloat Parson ParsonText ParsonProofs DevTypes EdgexRest.
From S2P Require Import EdgexRestProofs IotData Transform Readings CmdInfo.
From Stdlib Require Import Ascii.
Local Open Scope Z_scope.

Definition char_at (s : string) (i : nat) (c : ascii) : bool :=
  match String.get i s with Some x => Ascii.eqb x c | None => false end.

Section values.
  Context `{D : IotData}.

Definition readFloat32 (val : string) : option spec_float :=
  if Nat.eqb (String.length val) 8 && char_at val 6 "=" && char_at val 7 "="
  then (fun bs => of_bits 24 128 (le_int bs)) <$> iot_b64_decode val 4
  else sscanf_e 24 128 val.

Definition readFloat64 (val : string) : option spec_float :=
  if Nat.eqb (String.length val) 12 && char_at val 11 "="
  then (fun bs => of_bits 53 1024 (le_int bs)) <$> iot_b64_decode val 8
  else sscanf_e 53 1024 val.

(** The elements of the arrays as bytes in memory. *)
Definition elem_bytes (pt : edgex_propertytype) (val : string) : option (list Z) :=
  match pt with
  | Edgex_Int8Array => le_bytes 1 <$> sscanf_i 8 val
  | Edgex_Uint8Array => le_bytes 1 <$> sscanf_u 8 val
  | Edgex_Int16Array => le_bytes 2 <$> sscanf_i 16 val
  | Edgex_Uint16Array => le_bytes 2 <$> sscanf_u 16 val
  | Edgex_Int32Array => le_bytes 4 <$> sscanf_i 32 val
  | Edgex_Uint32Array => le_bytes 4 <$> sscanf_u 32 val
  | Edgex_Int64Array => le_bytes 8 <$> sscanf_i 64 val
  | Edgex_Uint64Array => le_bytes 8 <$> sscanf_u 64 val
  | Edgex_Float32Array => (fun x => le_bytes 4 (bits_of 24 128 x)) <$> readFloat32 val
  | Edgex_Float64Array => (fun x => le_bytes 8 (bits_of 53 1024 x)) <$> readFloat64 val
  | Edgex_BoolArray => Some [if strcasecmp_eq val "true" then 1 else 0]
  | _ => None
  end.

(** The loop over the JSON array: an element that is not a string is a NULL pointer. *)
Fixpoint read_elems (pt : edgex_propertytype) (jarr : list JSON_Value) : res (option (list Z)) :=
  match jarr with
  | [] => Ret (Some [])
  | v :: jarr' =>
      val ← deref (json_value_get_string (Some v));
      match elem_bytes pt val with
      | None => Ret None
      | Some b => rest ← read_elems pt jarr'; Ret (option_map (app b) rest)
      end
  end.

(** [None]: the text is no value of the type. *)
Definition populateValue (rtype : edgex_propertytype) (val : string) : res (option iot_data_t) :=
  match element_type rtype with
  | Some t =>
      match json_value_get_array (json_parse_string (Some val)) with
      | None => Ret None
      | Some jarr =>
          bytes ← read_elems rtype jarr;
          Ret (option_map (fun bs => iot_data_alloc_array bs (Z.of_nat (length jarr)) t) bytes)
      end
  | None =>
      match rtype with
      | Edgex_Uint8 => Ret (option_map (iot_data_alloc_int IOT_DATA_UINT8) (sscanf_u 8 val))
      | Edgex_Int8 => Ret (option_map (iot_data_alloc_int IOT_DATA_INT8) (sscanf_i 8 val))
      | Edgex_Uint16 => Ret (option_map (iot_data_alloc_int IOT_DATA_UINT16) (sscanf_u 16 val))
      | Edgex_Int16 => Ret (option_map (iot_data_alloc_int IOT_DATA_INT16) (sscanf_i 16 val))
      | Edgex_Uint32 => Ret (option_map (iot_data_alloc_int IOT_DATA_UINT32) (sscanf_u 32 val))
      | Edgex_Int32 => Ret (option_map (iot_data_alloc_int IOT_DATA_INT32) (sscanf_i 32 val))
      | Edgex_Uint64 => Ret (option_map (iot_data_alloc_int IOT_DATA_UINT64) (sscanf_u 64 val))
      | Edgex_Int64 => Ret (option_map (iot_data_alloc_int IOT_DATA_INT64) (sscanf_i 64 val))
      | Edgex_Float32 => Ret (option_map iot_data_alloc_f32 (readFloat32 val))
      | Edgex_Float64 => Ret (option_map iot_data_alloc_f64 (readFloat64 val))
      | Edgex_String => Ret (Some (iot_data_alloc_string val))
      | Edgex_Bool => Ret (Some (iot_data_alloc_bool (strcasecmp_eq val "true")))
      | Edgex_Binary =>
          v ← deref (iot_data_alloc_array_from_base64 val);
          Ret (Some (iot_data_set_metadata v (iot_data_alloc_bool true)))
      | _ => Ret None
      end
  end.

End values.

(** ** Reading what was printed *)

Lemma scan_digits_print_u base n :
  0 <= n -> base = 10 \/ base = 0 -> scan_digits base (print_u n) = Some (false, n).
Proof.
  intros Hn Hb. unfold scan_digits. destruct (print_u_head n Hn) as (d & s & E & Hd & H0).
  destruct (print_u_read n EmptyString Hn) as (k & Hk & Hread). rewrite append_nil_r in Hread.
  rewrite E in *. rewrite skip_space_digit, read_sign_digit by done.
  assert (scan_base base (String (chr (48 + d)) s) = (10, 0%nat, String (chr (48 + d)) s) \/
          n = 0 /\ scan_base base (String (chr (48 + d)) s) = (8, 1%nat, EmptyString)) as [->|[-> ->]].
  - unfold scan_base. destruct Hb as [->| ->]; [by left|]. cbn [Z.eqb].
    destruct (Ascii.eqb_spec (chr (48 + d)) "0") as [Hz|]; [|by left]. right.
    destruct (Z.eq_dec d 0) as [->|Hne]; [by destruct (H0 eq_refl) as [-> ->]|].
    exfalso. assert (d = 1 \/ d = 2 \/ d = 3 \/ d = 4 \/ d = 5 \/ d = 6 \/ d = 7 \/ d = 8 \/ d = 9) as Hcases by lia.
    repeat destruct Hcases as [->|Hcases]; try discriminate. by rewrite Hcases in Hz.
  - rewrite Hread. cbn [read_digits]. destruct k; [lia|done].
  - done.
Qed.

Lemma scan_digits_print_i z : scan_digits 0 (print_i z) = Some (z <? 0, Z.abs z).
Proof.
  unfold print_i. destruct (z <? 0) eqn:E; bool_to_prop.
  - pose proof (scan_digits_print_u 0 (- z) ltac:(lia) ltac:(by right)) as H. unfold scan_digits in *.
    destruct (print_u_head (- z) ltac:(lia)) as (d & s & Es & Hd & _). rewrite Es in *.
    rewrite skip_space_digit, read_sign_digit in H by done.
    change (skip_space (String "-" (String (chr (48 + d)) s))) with (String "-" (String (chr (48 + d)) s)).
    cbn [read_sign Ascii.eqb Bool.eqb]. destruct (scan_base 0 _) as [[b n0] s2].
    destruct (read_digits b 0 n0 s2) as [[v n] r]. destruct (Nat.eqb n 0); [done|]. injection H as ->.
    by rewrite Z.abs_neq by lia.
  - rewrite scan_digits_print_u by (lia || by right). by rewrite Z.abs_eq by lia.
Qed.

Lemma sscanf_i_print w z : 0 < w <= 64 -> in_s w z = true -> sscanf_i w (print_i z) = Some z.
Proof.
  intros Hw Hz. apply in_s_spec in Hz. unfold sscanf_i. rewrite scan_digits_print_i.
  pose proof (Z.pow_le_mono_r 2 (w - 1) 63 ltac:(lia) ltac:(lia)).
  assert ((if z <? 0 then - Z.abs z else Z.abs z) = z) as -> by (destruct (z <? 0) eqn:E; bool_to_prop; lia).
  rewrite Z.min_r, Z.max_r by lia. by rewrite wrap_s_small by lia.
Qed.

Lemma sscanf_u_print w n : 0 < w <= 64 -> in_u w n = true -> sscanf_u w (print_u n) = Some n.
Proof.
  intros Hw Hn. apply in_u_spec in Hn. unfold sscanf_u. rewrite scan_digits_print_u by (lia || by left).
  pose proof (Z.pow_le_mono_r 2 w 64 ltac:(lia) ltac:(lia)).
  destruct (2 ^ 64 <=? n) eqn:E; bool_to_prop; [lia|]. by rewrite wrap_u_small.
Qed.

(** Digits and signs stand for themselves in JSON. *)
Fixpoint plain (s : string) : Prop :=
  match s with
  | String c s' => escape c = String c EmptyString /\ uchar c <> 0 /\ plain s'
  | EmptyString => True
  end.

Lemma plain_digit d : 0 <= d < 10 -> escape (chr (48 + d)) = String (chr (48 + d)) EmptyString /\ uchar (chr (48 + d)) <> 0.
Proof.
  intros Hd. assert (d = 0 \/ d = 1 \/ d = 2 \/ d = 3 \/ d = 4 \/ d = 5 \/ d = 6 \/ d = 7 \/ d = 8 \/ d = 9) as Hcases by lia.
  repeat destruct Hcases as [->|Hcases]; try (split; [reflexivity|discriminate]). subst. split; [reflexivity|discriminate].
Qed.

Lemma plain_dec_digits f n acc : plain acc -> plain (dec_digits f n acc).
Proof.
  revert n acc. induction f as [|f IH]; intros n acc Hacc; cbn [dec_digits]; [done|].
  assert (plain (String (chr (48 + n mod 10)) acc)) as Hp.
  { destruct (plain_digit (n mod 10)) as [H1 H2]; [apply Z.mod_pos_bound; lia|]. by split_and!. }
  destruct (_ =? 0); [done|]. by apply IH.
Qed.

Lemma plain_print_i z : plain (print_i z).
Proof.
  unfold print_i. destruct (z <? 0); [|by apply plain_dec_digits].
  split_and!; [done|done|by apply plain_dec_digits].
Qed.

Lemma plain_print_u n : plain (print_u n).
Proof. by apply plain_dec_digits. Qed.

Lemma plain_escape s : plain s -> escape_all s = s.
Proof. induction s as [|c s IH]; [done|]. intros (He & _ & Hs). cbn [escape_all]. by rewrite He, IH. Qed.

Lemma plain_cstr s : plain s -> cstr s.
Proof. induction s as [|c s IH]; [done|]. intros (_ & Hc & Hs). by split; [|apply IH]. Qed.

(** The JSON text of an array of such strings. *)
Lemma lines_text_concat level l : lines_text false level l = String.concat "," l.
Proof.
  induction l as [|t l IH]; [done|]. cbn [lines_text indent_text nl_text]. rewrite !append_nil_l, IH.
  destruct l; [by rewrite append_nil_r|done].
Qed.

Lemma array_json_text ts :
  Forall plain ts ->
  json_text false 0 (VArray (map VString ts))
  = "[" +:+ String.concat "," (map (fun t => String QUOTE (t +:+ String QUOTE EmptyString)) ts) +:+ "]".
Proof.
  intros Hp. cbn [json_text]. unfold container_text, some_pretty. rewrite andb_false_r. cbn [nl_text indent_text].
  rewrite !append_nil_l, lines_text_concat, map_map. f_equal. f_equal. f_equal.
  apply map_ext_Forall. eapply Forall_impl; [exact Hp|]. intros t Ht. cbn [json_text]. unfold ParsonProofs.quoted.
  by rewrite plain_escape.
Qed.

Lemma array_parses ts :
  Forall plain ts ->
  json_parse_string (Some ("[" +:+ String.concat ","
    (map (fun t => String QUOTE (t +:+ String QUOTE EmptyString)) ts) +:+ "]")) = Some (VArray (map VString ts)).
Proof.
  intros Hp. rewrite <-array_json_text by done.
  assert (good 1 (VArray (map VString ts))) as (Hwf & Hnn & Hd).
  { change 1 with (0 + 1). apply good_array; [done|]. apply Forall_map. eapply Forall_impl; [exact Hp|].
    intros t Ht. split_and!; [by apply plain_cstr|done|done]. }
  apply parse_string_json_text; [done|done|]. etransitivity; [exact Hd|]. done.
Qed.

(** ** Numbers as bytes *)

Lemma le_bytes_S n z : le_bytes (S n) z = z mod 256 :: le_bytes n (z / 256).
Proof.
  unfold le_bytes. cbn [seq map]. rewrite Z.mul_0_r, Z.shiftr_0_r. f_equal.
  rewrite <-seq_shift, map_map. apply map_ext. intros i. f_equal.
  rewrite !Z.shiftr_div_pow2 by lia. replace (8 * Z.of_nat (S i)) with (8 + 8 * Z.of_nat i) by lia.
  rewrite Z.pow_add_r, <-Z.div_div by lia. done.
Qed.

Lemma le_bytes_le_int bs :
  Forall (fun b => 0 <= b < 256) bs -> le_bytes (length bs) (le_int bs) = bs.
Proof.
  induction 1 as [|b bs Hb _ IH]; [done|]. cbn [length le_int]. rewrite le_bytes_S.
  rewrite Z.mul_comm, Z.mod_add, Z.mod_small, Z.div_add, Z.div_small by lia. by rewrite Z.add_0_l, IH.
Qed.

Lemma le_bytes_mod n z : le_bytes n (z mod 2 ^ (8 * Z.of_nat n)) = le_bytes n z.
Proof.
  revert z. induction n as [|n IH]; intros z; [done|]. rewrite !le_bytes_S.
  replace (2 ^ (8 * Z.of_nat (S n))) with (256 * 2 ^ (8 * Z.of_nat n))
    by (replace (8 * Z.of_nat (S n)) with (8 + 8 * Z.of_nat n) by lia; rewrite Z.pow_add_r by lia; done).
  rewrite Z.rem_mul_r by lia. f_equal.
  - rewrite Z.mul_comm, Z.mod_add by lia. by rewrite Z.mod_mod by lia.
  - rewrite Z.mul_comm, Z.div_add by lia.
    rewrite (Z.div_small (z mod 256)) by (apply Z.mod_pos_bound; lia). by rewrite Z.add_0_l, IH.
Qed.

Lemma le_bytes_wrap_s n z : le_bytes n (wrap_s (8 * Z.of_nat n) z) = le_bytes n z.
Proof.
  rewrite <-le_bytes_mod, <-(le_bytes_mod n z). f_equal. unfold wrap_s. set (w := 8 * Z.of_nat n).
  rewrite Zminus_mod_idemp_l. f_equal. lia.
Qed.

Lemma le_bytes_wrap_u n z : le_bytes n (wrap_u (8 * Z.of_nat n) z) = le_bytes n z.
Proof. apply le_bytes_mod. Qed.

Lemma concat_elems sz data n : concat (map (elem sz data) (seq 0 n)) = take (sz * n) data.
Proof.
  induction n as [|n IH]; [by rewrite Nat.mul_0_r|].
  rewrite seq_S, map_app, concat_app, IH. cbn [Nat.add map concat]. unfold elem. rewrite app_nil_r.
  replace (sz * S n)%nat with (sz * n + sz)%nat by lia. by rewrite take_take_drop.
Qed.

(** ** What was read can be written *)

Section roundtrip.
  Context `{D : IotData} `{L : !IotDataLaws D}.

(** The arrays of integers: signedness and bytes of an element. *)
Definition int_array (pt : edgex_propertytype) : option (bool * nat) :=
  match pt with
  | Edgex_Int8Array => Some (true, 1%nat) | Edgex_Uint8Array => Some (false, 1%nat)
  | Edgex_Int16Array => Some (true, 2%nat) | Edgex_Uint16Array => Some (false, 2%nat)
  | Edgex_Int32Array => Some (true, 4%nat) | Edgex_Uint32Array => Some (false, 4%nat)
  | Edgex_Int64Array => Some (true, 8%nat) | Edgex_Uint64Array => Some (false, 8%nat)
  | _ => None
  end.

Lemma elem_text_int pt sg sz bf data i :
  int_array pt = Some (sg, sz) ->
  elem_text pt bf data i
  = if sg : bool then print_i (wrap_s (8 * Z.of_nat sz) (le_int (elem sz data i)))
    else print_u (wrap_u (8 * Z.of_nat sz) (le_int (elem sz data i))).
Proof. intros H. destruct pt; try done; injection H as <- <-; done. Qed.

Lemma elem_bytes_int pt sg sz s :
  int_array pt = Some (sg, sz) ->
  elem_bytes pt s = le_bytes sz <$> (if sg : bool then sscanf_i (8 * Z.of_nat sz) s else sscanf_u (8 * Z.of_nat sz) s).
Proof. intros H. destruct pt; try done; injection H as <- <-; done. Qed.

Lemma int_array_size pt sg sz : int_array pt = Some (sg, sz) -> (0 < sz <= 8)%nat.
Proof. intros H. destruct pt; try done; injection H as <- <-; lia. Qed.

(** An element is read back from its text. *)
Lemma elem_roundtrip pt sg sz bf data i :
  int_array pt = Some (sg, sz) -> Forall (fun b => 0 <= b < 256) data ->
  (sz * i + sz <= length data)%nat ->
  plain (elem_text pt bf data i) /\ elem_bytes pt (elem_text pt bf data i) = Some (elem sz data i).
Proof.
  intros Hpt Hb Hi. pose proof (int_array_size _ _ _ Hpt).
  assert (length (elem sz data i) = sz) as Hlen by (unfold elem; rewrite length_take, length_drop; lia).
  assert (le_bytes sz (le_int (elem sz data i)) = elem sz data i) as Hle.
  { rewrite <-Hlen at 1. apply le_bytes_le_int. unfold elem. by apply Forall_take, Forall_drop. }
  rewrite (elem_text_int _ _ _ _ _ _ Hpt), (elem_bytes_int _ _ _ _ Hpt).
  set (w := 8 * Z.of_nat sz). set (x := le_int _) in *. destruct sg.
  - split; [apply plain_print_i|]. rewrite sscanf_i_print; [|lia|apply in_s_spec, wrap_s_range; lia].
    cbn. unfold w. by rewrite le_bytes_wrap_s, Hle.
  - split; [apply plain_print_u|]. rewrite sscanf_u_print; [|lia|apply in_u_spec, wrap_u_range; lia].
    cbn. unfold w. by rewrite le_bytes_wrap_u, Hle.
Qed.

Lemma read_elems_texts pt sg sz bf data is' :
  int_array pt = Some (sg, sz) -> Forall (fun b => 0 <= b < 256) data ->
  Forall (fun i => (sz * i + sz <= length data)%nat) is' ->
  read_elems pt (map VString (map (elem_text pt bf data) is')) = Ret (Some (concat (map (elem sz data) is'))).
Proof.
  intros Hpt Hb. induction 1 as [|i is' Hi _ IH]; [done|]. cbn [map read_elems json_value_get_string deref concat].
  rewrite res_bind_ret. rewrite (proj2 (elem_roundtrip pt sg sz bf data i Hpt Hb Hi)), IH, res_bind_ret. done.
Qed.

Lemma array_value_type pt sg sz t data n :
  int_array pt = Some (sg, sz) -> element_type pt = Some t ->
  edgex_propertytype_data (iot_data_alloc_array data n t) = pt.
Proof using L.
  intros Hpt Ht. unfold edgex_propertytype_data. rewrite type_alloc_array, metadata_alloc_array, array_type_alloc.
  cbn [property_of_iot]. rewrite !bool_decide_true by done. cbn [andb].
  destruct pt; try done; injection Ht as <-; done.
Qed.

(** The text a GET returns for an array of integers of any width is accepted by
    a PUT and gives the same array back, byte for byte. *)
Theorem array_text_populates (pt : edgex_propertytype) (t : iot_data_type_t) (sg : bool) (sz n : nat)
    (data : list Z) (binfloat : bool) :
  int_array pt = Some (sg, sz) -> element_type pt = Some t ->
  Forall (fun b => 0 <= b < 256) data -> length data = (sz * n)%nat -> (0 < n)%nat -> Z.of_nat n < 2 ^ 27 ->
  let value := iot_data_alloc_array data (Z.of_nat n) t in
  exists text, edgex_value_tostring value binfloat = Ret text /\ populateValue pt text = Ret (Some value).
Proof using L.
  intros Hpt Ht Hb Hlen Hn Hlim value. pose proof (array_value_type pt sg sz t data (Z.of_nat n) Hpt Ht) as Hty.
  assert (Forall (fun i => (sz * i + sz <= length data)%nat) (seq 0 n)) as Hin.
  { apply Forall_seq. intros i Hi. rewrite Hlen. nia. }
  rewrite (array_text value binfloat n); fold value in Hty |- *; cycle 1.
  { apply type_alloc_array. } { rewrite Hty. by destruct pt. } { apply array_length_alloc. } { done. }
  rewrite Hty. destruct n as [|n]; [lia|]. cbn [Nat.eqb]. eexists. split; [reflexivity|].
  unfold value at 1. rewrite address_alloc. unfold quoted. rewrite <-(map_map (elem_text pt binfloat data)
    (fun t => String QUOTE (t +:+ String QUOTE EmptyString))).
  unfold populateValue. rewrite Ht, array_parses.
  - cbn [json_value_get_array]. rewrite (read_elems_texts pt sg sz) by done. rewrite res_bind_ret.
    cbn [option_map]. rewrite !length_map, length_seq, concat_elems, take_ge by lia. done.
  - apply Forall_map. eapply Forall_impl; [exact Hin|]. intros i Hi. by eapply elem_roundtrip.
Qed.

(** The text a GET returns for an integer is accepted by a PUT and gives the
    same value back. *)
Theorem integer_text_populates (pt : edgex_propertytype) (t : iot_data_type_t) (z : Z) (binfloat : bool) :
  is_integer pt = true -> iot_type pt = Some t -> in_format t z = true ->
  exists text, edgex_value_tostring (iot_data_alloc_int t z) binfloat = Ret text /\
               populateValue pt text = Ret (Some (iot_data_alloc_int t z)).
Proof using L.
  intros Hint Ht Hz. exists (print_i z).
  assert (is_Some (int_format t)) as Hf by (unfold in_format in Hz; by destruct (int_format t)).
  pose proof (type_alloc_int t z Hf) as Hty. split.
  - unfold edgex_value_tostring, edgex_propertytype_data. rewrite Hty, <-(int_to_json t z Hz).
    destruct pt; try done; injection Ht as <-; reflexivity.
  - assert (0 <= z -> print_i z = print_u z) as Hu.
    { intros H. unfold print_i. destruct (z <? 0) eqn:E; bool_to_prop; [lia|done]. }
    destruct pt; try done; injection Ht as <-; cbn [populateValue element_type]; unfold in_format in Hz; cbn in Hz.
    all: first [rewrite sscanf_i_print by (lia || done) |
                rewrite Hu by (apply in_u_spec in Hz; lia); rewrite sscanf_u_print by (lia || done)]; done.
Qed.

End roundtrip.

Lemma array_text_populates_witness :
  exists text,
    edgex_value_tostring (iot_data_alloc_array [7; 0; 254; 255] 2 IOT_DATA_INT16) false = Ret text /\
    populateValue Edgex_Int16Array text = Ret (Some (iot_data_alloc_array [7; 0; 254; 255] 2 IOT_DATA_INT16)).
Proof.
  apply (array_text_populates Edgex_Int16Array IOT_DATA_INT16 true 2 2 [7; 0; 254; 255] false);
    [done|done| |done|lia|done].
  repeat constructor; lia.
Defined.

Lemma integer_text_populates_witness :
  exists text, edgex_value_tostring (iot_data_alloc_int IOT_DATA_INT64 (-5)) true = Ret text /\
               populateValue Edgex_Int64 text = Ret (Some (iot_data_alloc_int IOT_DATA_INT64 (-5))).
Proof. apply (integer_text_populates Edgex_Int64 IOT_DATA_INT64 (-5) true); reflexivity. Defined.

(** ** Defects *)

(** The text is not checked against the range of the type: 300 is stored in a byte
    as 44, and text after a number is ignored. *)
Lemma value_out_of_range :
  populateValue Edgex_Uint8 "300" = Ret (Some (iot_data_alloc_int IOT_DATA_UINT8 44)) /\
  populateValue Edgex_Int16 "12 apples" = Ret (Some (iot_data_alloc_int IOT_DATA_INT16 12)).
Proof. split; reflexivity. Qed.

(** A number in the JSON array instead of a string is a NULL pointer. *)
Lemma array_of_numbers_crashes : populateValue Edgex_Uint8Array "[1,2]" = Crash.
Proof. reflexivity. Qed.
