(* ===== verification/AutoEvent.v ===== *)
(** * Scheduling automatic events ([autoevent.c], [parseTime] to
    [edgex_device_autoevent_start])

    A device lists resources to be read at an interval. When the device enters the
    device map a schedule is created for each entry whose resource and interval make
    sense. What a schedule does when it fires is in [AutoRun]. *)

From S2P Require Import Prelude CLib DevTypes EdgexRest EdgexRestProofs IotData Transform Readings CmdInfo.
From Stdlib Require Import Ascii.
Local Open Scope Z_scope.

Definition suffixes : list (string * Z) := [("ms", 1); ("s", 1000); ("m", 60000); ("h", 3600000)].

(** The interval in milliseconds; 0 is an error. *)
Definition parseTime (spec : string) : Z :=
  let r := strtoul 10 spec in
  match find (fun sfx => String.eqb (st_end r) (fst sfx)) suffixes with
  | Some (_, factor) => wrap_u 64 (st_val r * factor)
  | None => 0
  end.

Record edgex_autoimpl := MkImpl {
  ai_interval : Z; ai_resource : edgex_cmdinfo; ai_device : string;
  ai_protocols : devsdk_protocols; ai_onChange : bool }.

(** One entry: it is skipped when the resource cannot be read or the interval is
    not understood. *)
Definition start_one (dev : edgex_device) (ae : edgex_device_autoevents) : res (list edgex_autoimpl) :=
  cmd ← edgex_deviceprofile_findcommand (ae_resource ae) (dev_profile dev) true;
  match cmd with
  | None => mret []
  | Some cmd =>
      let interval := parseTime (ae_frequency ae) in
      if interval =? 0 then mret []
      else mret [MkImpl interval cmd (dev_name dev) (devsdk_protocols_dup (dev_protocols dev)) (ae_onChange ae)]
  end.

(** The schedules that are created, in order. *)
Definition edgex_device_autoevent_start (dev : edgex_device) : res (list edgex_autoimpl) :=
  ls ← res_map (start_one dev) (dev_autos dev);
  mret (concat ls).

(** ** Facts *)

(** A number followed by a unit is read as that many milliseconds modulo 2^64;
    any other text after the number is an error. *)
Theorem parseTime_units (n : Z) (unit : string) :
  0 <= n < 2 ^ 64 -> no_digit unit ->
  parseTime (print_u n +:+ unit)
  = match find (fun sfx => String.eqb unit (fst sfx)) suffixes with
    | Some (_, factor) => (n * factor) mod 2 ^ 64
    | None => 0
    end.
Proof. intros Hn Hu. unfold parseTime. by rewrite strtoul_print_u. Qed.

Lemma parseTime_units_witness : parseTime (print_u 90 +:+ "m") = 5400000.
Proof. rewrite (parseTime_units 90 "m"); [vm_compute; reflexivity|lia|done]. Defined.

(** Overflow and signs are not detected: five million million hours are less
    than an hour, and a negative number of milliseconds is more than 500 million years. *)
Lemma parse_time_wraps : parseTime "5124095576031h" = 2048384 /\ parseTime "-1ms" = 2 ^ 64 - 1.
Proof. split; vm_compute; reflexivity. Qed.

(** With a profile whose commands resolve, nothing goes wrong. *)
Lemma autoevent_start_ok dev :
  resolved (dev_profile dev) -> exists l, edgex_device_autoevent_start dev = Ret l.
Proof.
  intros Hres. unfold edgex_device_autoevent_start.
  destruct (res_map_total (start_one dev) (dev_autos dev)) as [ls ->]; [|by eexists].
  apply Forall_forall. intros ae _.
  destruct (findcommand_total (ae_resource ae) (dev_profile dev) true Hres) as [cmd Hcmd].
  unfold start_one. rewrite Hcmd, res_bind_ret. destruct cmd as [cmd|]; [destruct (_ =? 0)|]; by eexists.
Qed.
