(* ===== verification/DevMap.v ===== *)
(** * The device map ([devmap.c])

    The service keeps its devices in a map by identifier, an index from names to
    identifiers, and the profiles by name; devices point to profiles. The memory is
    explicit: pointers are numbers, the heap holds the objects that are allocated,
    and using a pointer to a released object is undefined behaviour. A device has a
    count of the references to it: one for the map and one for each caller that
    looked it up and has not released it yet. Every operation runs under the lock of
    the map, so an operation is one step. The hash maps are used through the
    interface [StringMap]. *)

From S2P Require Import Prelude CLib HashMap DevTypes EdgexRest EdgexRestProofs IotData Transform Readings.
From S2P Require Import CmdInfo AutoEvent.
Local Open Scope Z_scope.

Abbreviation ptr := nat (only parsing).

(** A device in memory. Its profile is the object [hd_profile] points to; the field
    [dev_profile] of [hd_dev] is not used. *)
Record hdev := MkHdev { hd_dev : edgex_device; hd_profile : ptr; hd_refs : Z }.

Inductive edgex_devmap_outcome_t := UPDATED_SDK | UPDATED_DRIVER | CREATED.

Section devmap.
  Context {M : Type -> Type} `{SM : StringMap M}.

(** [name_to_id] maps a name to the identifier string inside a device, which lives as
    long as that device. [dm_schedule] are the automatic events that run, with the
    device each belongs to. *)
Record edgex_devmap_t := MkDevmap {
  dm_devices : M ptr; dm_name_to_id : M ptr; dm_profiles : M ptr;
  dm_heap : gmap ptr hdev; dm_pheap : gmap ptr edgex_deviceprofile; dm_next : ptr;
  dm_schedule : list (ptr * edgex_autoimpl) }.

Definition edgex_devmap_alloc : edgex_devmap_t :=
  MkDevmap sm_empty sm_empty sm_empty ∅ ∅ 0%nat [].

Definition set_heap (m : edgex_devmap_t) (h : gmap ptr hdev) : edgex_devmap_t :=
  MkDevmap (dm_devices m) (dm_name_to_id m) (dm_profiles m) h (dm_pheap m) (dm_next m) (dm_schedule m).

Definition device_at (m : edgex_devmap_t) (p : ptr) : res hdev := deref (dm_heap m !! p).
Definition profile_at (m : edgex_devmap_t) (hd : hdev) : res edgex_deviceprofile :=
  deref (dm_pheap m !! hd_profile hd).

Definition with_profile (d : edgex_device) (prof : edgex_deviceprofile) : edgex_device :=
  {| dev_protocols := dev_protocols d; dev_adminState := dev_adminState d; dev_created := dev_created d;
     dev_description := dev_description d; dev_id := dev_id d; dev_labels := dev_labels d;
     dev_lastConnected := dev_lastConnected d; dev_lastReported := dev_lastReported d;
     dev_modified := dev_modified d; dev_name := dev_name d; dev_operatingState := dev_operatingState d;
     dev_origin := dev_origin d; dev_autos := dev_autos d; dev_service := dev_service d;
     dev_profile := prof |}.

(** The device with its profile. *)
Definition view (m : edgex_devmap_t) (hd : hdev) : res edgex_device :=
  prof ← profile_at m hd; mret (with_profile (hd_dev hd) prof).

Definition add_locked (m : edgex_devmap_t) (newdev : edgex_device) : res edgex_devmap_t :=
  let dup := edgex_device_dup newdev in
  let p := dm_next m in
  let pname := dp_name (dev_profile dup) in
  let '(q, profiles, pheap, next) :=
    match sm_get (dm_profiles m) pname with
    | Some q => (q, dm_profiles m, dm_pheap m, S p)
    | None => (S p, sm_set (dm_profiles m) pname (S p), <[S p := dev_profile dup]> (dm_pheap m), S (S p))
    end in
  let hd := MkHdev dup q 1 in
  let m1 := MkDevmap (sm_set (dm_devices m) (dev_id dup) p) (sm_set (dm_name_to_id m) (dev_name dup) p)
              profiles (<[p := hd]> (dm_heap m)) pheap next (dm_schedule m) in
  dev ← view m1 hd;
  impls ← edgex_device_autoevent_start dev;
  mret (MkDevmap (dm_devices m1) (dm_name_to_id m1) profiles (dm_heap m1) pheap next
          (dm_schedule m1 ++ map (pair p) impls)).

Fixpoint edgex_devmap_populate_devices (m : edgex_devmap_t) (devs : list edgex_device) : res edgex_devmap_t :=
  match devs with
  | [] => mret m
  | d :: devs' =>
      m ← (match sm_get (dm_name_to_id m) (dev_name d) with None => add_locked m d | Some _ => mret m end);
      edgex_devmap_populate_devices m devs'
  end.

(** The automatic events are stopped and the memory released with the last reference. *)
Definition edgex_device_release (m : edgex_devmap_t) (p : ptr) : res edgex_devmap_t :=
  hd ← device_at m p;
  if hd_refs hd =? 1 then
    mret (MkDevmap (dm_devices m) (dm_name_to_id m) (dm_profiles m) (delete p (dm_heap m)) (dm_pheap m)
            (dm_next m) (filter (fun e => e.1 <> p) (dm_schedule m)))
  else mret (set_heap m (<[p := MkHdev (hd_dev hd) (hd_profile hd) (hd_refs hd - 1)]> (dm_heap m))).

Definition add_ref (m : edgex_devmap_t) (p : ptr) : res edgex_devmap_t :=
  hd ← device_at m p;
  mret (set_heap m (<[p := MkHdev (hd_dev hd) (hd_profile hd) (hd_refs hd + 1)]> (dm_heap m))).

Definition remove_locked (m : edgex_devmap_t) (p : ptr) : res edgex_devmap_t :=
  hd ← device_at m p;
  edgex_device_release
    (MkDevmap (sm_remove (dm_devices m) (dev_id (hd_dev hd)))
       (sm_remove (dm_name_to_id m) (dev_name (hd_dev hd))) (dm_profiles m) (dm_heap m) (dm_pheap m)
       (dm_next m) (dm_schedule m)) p.

(** One device after the other is released and removed; the names stay. *)
Fixpoint clear_loop (m : edgex_devmap_t) (keys : list string) : res edgex_devmap_t :=
  match keys with
  | [] => mret m
  | key :: keys' =>
      p ← deref (sm_get (dm_devices m) key);
      m ← edgex_device_release m p;
      clear_loop (MkDevmap (sm_remove (dm_devices m) key) (dm_name_to_id m) (dm_profiles m) (dm_heap m)
                    (dm_pheap m) (dm_next m) (dm_schedule m)) keys'
  end.

Definition edgex_devmap_clear (m : edgex_devmap_t) : res edgex_devmap_t :=
  clear_loop m (sm_keys (dm_devices m)).

(** The devices behind a list of keys of the map. *)
Definition mapped_device (m : edgex_devmap_t) (key : string) : res (ptr * hdev) :=
  p ← deref (sm_get (dm_devices m) key);
  hd ← device_at m p;
  mret (p, hd).

Definition edgex_devmap_copydevices (m : edgex_devmap_t) : res (list edgex_device) :=
  l ← res_map (fun key => '(_, hd) ← mapped_device m key; d ← view m hd; mret (edgex_device_dup d))
              (sm_keys (dm_devices m));
  mret (rev l).

Definition mapped_profile (m : edgex_devmap_t) (key : string) : res (ptr * edgex_deviceprofile) :=
  q ← deref (sm_get (dm_profiles m) key);
  prof ← deref (dm_pheap m !! q);
  mret (q, prof).

Definition edgex_devmap_copyprofiles (m : edgex_devmap_t) : res (list edgex_deviceprofile) :=
  l ← res_map (fun key => '(_, prof) ← mapped_profile m key; mret (edgex_deviceprofile_dup prof))
              (sm_keys (dm_profiles m));
  mret (rev l).

(** No device of the map has a profile with the identifier. *)
Fixpoint profile_unused (m : edgex_devmap_t) (id : string) (keys : list string) : res bool :=
  match keys with
  | [] => mret true
  | key :: keys' =>
      '(_, hd) ← mapped_device m key;
      prof ← profile_at m hd;
      if String.eqb (dp_id prof) id then mret false else profile_unused m id keys'
  end.

Fixpoint remove_profile_loop (m : edgex_devmap_t) (id : string) (keys : list string) : res edgex_devmap_t :=
  match keys with
  | [] => mret m
  | key :: keys' =>
      '(q, prof) ← mapped_profile m key;
      if String.eqb (dp_id prof) id then
        mret (MkDevmap (dm_devices m) (dm_name_to_id m) (sm_remove (dm_profiles m) key) (dm_heap m)
                (delete q (dm_pheap m)) (dm_next m) (dm_schedule m))
      else remove_profile_loop m id keys'
  end.

Definition edgex_devmap_remove_profile (m : edgex_devmap_t) (id : string) : res (edgex_devmap_t * bool) :=
  result ← profile_unused m id (sm_keys (dm_devices m));
  if result : bool then m ← remove_profile_loop m id (sm_keys (dm_profiles m)); mret (m, true)
  else mret (m, false).

Definition edgex_devmap_profile (m : edgex_devmap_t) (name : string) : option ptr :=
  sm_get (dm_profiles m) name.

(** The fields that are copied when the device stays in place. *)
Definition update_fields (dest src : edgex_device) : edgex_device :=
  {| dev_protocols := dev_protocols dest; dev_adminState := dev_adminState dest; dev_created := dev_created src;
     dev_description := dev_description src; dev_id := dev_id dest;
     dev_labels := devsdk_strings_dup (dev_labels src);
     dev_lastConnected := dev_lastConnected src; dev_lastReported := dev_lastReported src;
     dev_modified := dev_modified src; dev_name := dev_name dest; dev_operatingState := dev_operatingState src;
     dev_origin := dev_origin src; dev_autos := dev_autos dest; dev_service := dev_service dest;
     dev_profile := dev_profile dest |}.

Definition set_admin (dest : edgex_device) (s : edgex_device_adminstate) : edgex_device :=
  {| dev_protocols := dev_protocols dest; dev_adminState := s; dev_created := dev_created dest;
     dev_description := dev_description dest; dev_id := dev_id dest; dev_labels := dev_labels dest;
     dev_lastConnected := dev_lastConnected dest; dev_lastReported := dev_lastReported dest;
     dev_modified := dev_modified dest; dev_name := dev_name dest;
     dev_operatingState := dev_operatingState dest; dev_origin := dev_origin dest;
     dev_autos := dev_autos dest; dev_service := dev_service dest; dev_profile := dev_profile dest |}.

(** The device after the attempt, the outcome, and whether the update is complete. *)
Definition update_in_place (m : edgex_devmap_t) (hd : hdev) (src : edgex_device)
    : res (edgex_device * edgex_devmap_outcome_t * bool) :=
  let dest := hd_dev hd in
  if negb (devsdk_protocols_equal (dev_protocols dest) (dev_protocols src)) then mret (dest, UPDATED_DRIVER, false)
  else if negb (String.eqb (dev_name dest) (dev_name src)) then mret (dest, UPDATED_DRIVER, false)
  else
    let outcome := if bool_decide (dev_adminState dest = dev_adminState src) then UPDATED_SDK
                   else UPDATED_DRIVER in
    let dest := set_admin dest (dev_adminState src) in
    prof ← profile_at m hd;
    if negb (String.eqb (dp_name prof) (dp_name (dev_profile src))) then mret (dest, outcome, false)
    else if negb (edgex_device_autoevents_equal (dev_autos dest) (dev_autos src)) then mret (dest, outcome, false)
    else mret (update_fields dest src, outcome, true).

Definition edgex_devmap_replace_device (m : edgex_devmap_t) (dev : edgex_device)
    : res (edgex_devmap_t * edgex_devmap_outcome_t) :=
  match sm_get (dm_devices m) (dev_id dev) with
  | None => m ← add_locked m dev; mret (m, CREATED)
  | Some p =>
      hd ← device_at m p;
      '(d, outcome, complete) ← update_in_place m hd dev;
      let m := set_heap m (<[p := MkHdev d (hd_profile hd) (hd_refs hd)]> (dm_heap m)) in
      if complete : bool then mret (m, outcome)
      else m ← remove_locked m p; m ← add_locked m dev; mret (m, outcome)
  end.

Definition edgex_devmap_device_byid (m : edgex_devmap_t) (id : string) : res (edgex_devmap_t * option ptr) :=
  match sm_get (dm_devices m) id with
  | None => mret (m, None)
  | Some p => m ← add_ref m p; mret (m, Some p)
  end.

(** The identifier is read from the device that owns the string. *)
Definition id_of_name (m : edgex_devmap_t) (name : string) : res (option string) :=
  match sm_get (dm_name_to_id m) name with
  | None => mret None
  | Some owner => hd ← device_at m owner; mret (Some (dev_id (hd_dev hd)))
  end.

Definition edgex_devmap_device_byname (m : edgex_devmap_t) (name : string) : res (edgex_devmap_t * option ptr) :=
  id ← id_of_name m name;
  match id with
  | None => mret (m, None)
  | Some id => p ← deref (sm_get (dm_devices m) id); m ← add_ref m p; mret (m, Some p)
  end.

Definition edgex_devmap_removedevice_byname (m : edgex_devmap_t) (name : string) : res edgex_devmap_t :=
  id ← id_of_name m name;
  match id with
  | None => mret m
  | Some id => p ← deref (sm_get (dm_devices m) id); remove_locked m p
  end.

Definition edgex_devmap_removedevice_byid (m : edgex_devmap_t) (id : string) : res edgex_devmap_t :=
  match sm_get (dm_devices m) id with
  | None => mret m
  | Some p => remove_locked m p
  end.

(** The profile is owned by the map from now on; one of the same name stays in memory. *)
Definition edgex_devmap_add_profile (m : edgex_devmap_t) (dp : edgex_deviceprofile) : edgex_devmap_t :=
  MkDevmap (dm_devices m) (dm_name_to_id m) (sm_set (dm_profiles m) (dp_name dp) (dm_next m)) (dm_heap m)
    (<[dm_next m := dp]> (dm_pheap m)) (S (dm_next m)) (dm_schedule m).

(** The devices that are unlocked and enabled and have the command, last one first. *)
Fixpoint forcmd_loop (m : edgex_devmap_t) (cmd : string) (forGet : bool) (keys : list string)
    (result : list (ptr * edgex_cmdinfo)) : res (edgex_devmap_t * list (ptr * edgex_cmdinfo)) :=
  match keys with
  | [] => mret (m, result)
  | key :: keys' =>
      '(p, hd) ← mapped_device m key;
      if bool_decide (dev_operatingState (hd_dev hd) = ENABLED)
         && bool_decide (dev_adminState (hd_dev hd) = UNLOCKED) then
        prof ← profile_at m hd;
        command ← edgex_deviceprofile_findcommand cmd prof forGet;
        match command with
        | Some c => m ← add_ref m p; forcmd_loop m cmd forGet keys' ((p, c) :: result)
        | None => forcmd_loop m cmd forGet keys' result
        end
      else forcmd_loop m cmd forGet keys' result
  end.

Definition edgex_devmap_device_forcmd (m : edgex_devmap_t) (cmd : string) (forGet : bool)
    : res (edgex_devmap_t * list (ptr * edgex_cmdinfo)) :=
  forcmd_loop m cmd forGet (sm_keys (dm_devices m)) [].

End devmap.
