(* ===== verification/DevMapProofs.v ===== *)
(** * The device map is a map of devices

    What the device map promises: a finite map from identifiers to devices and one
    from names to profiles. The operations of [DevMap] implement it, without using
    released memory, as long as no two identifiers share a name and callers release
    only what they hold. *)

From S2P Require Import Prelude CLib HashMap DevTypes EdgexRest EdgexRestProofs IotData Transform Readings.
From S2P Require Import CmdInfo AutoEvent DevMap.
Local Open Scope Z_scope.

(** ** The abstract state *)

Record dstate := MkState { st_devs : gmap string edgex_device; st_profs : gmap string edgex_deviceprofile }.

(** A profile that is known by name is not replaced by the one of a new device. *)
Definition spec_add (s : dstate) (d : edgex_device) : dstate :=
  let pname := dp_name (dev_profile d) in
  let prof := default (dev_profile d) (st_profs s !! pname) in
  MkState (<[dev_id d := with_profile (edgex_device_dup d) prof]> (st_devs s))
          (<[pname := prof]> (st_profs s)).

Definition held_add (held : ptr -> Z) (p : ptr) (n : Z) : ptr -> Z :=
  fun x => if decide (x = p) then held x + n else held x.

Lemma held_add_self held p n : held_add held p n p = held p + n.
Proof. unfold held_add. by rewrite decide_True. Qed.
Lemma held_add_other held p n x : x <> p -> held_add held p n x = held x.
Proof. intros H. unfold held_add. by rewrite decide_False. Qed.

Section invariant.
  Context {M : Type -> Type} `{SM : StringMap M}.
  Implicit Types m : edgex_devmap_t (M := M).

(** The device at a pointer, with its profile. *)
Definition look m (p : ptr) : option edgex_device :=
  hd ← dm_heap m !! p; prof ← dm_pheap m !! hd_profile hd; Some (with_profile (hd_dev hd) prof).

Definition abs m : dstate :=
  MkState (omap (look m) (sm_abs (dm_devices m))) (omap (fun q => dm_pheap m !! q) (sm_abs (dm_profiles m))).

Definition mapped m (p : ptr) (hd : hdev) : bool :=
  bool_decide (sm_abs (dm_devices m) !! dev_id (hd_dev hd) = Some p).

(** The invariant; [held] counts the references of the callers. *)
Record devmap_ok m (held : ptr -> Z) : Prop := {
  ok_maps : sm_wf (dm_devices m) /\ sm_wf (dm_name_to_id m) /\ sm_wf (dm_profiles m);
  ok_dev : forall i p, sm_abs (dm_devices m) !! i = Some p ->
    exists hd prof, dm_heap m !! p = Some hd /\ dev_id (hd_dev hd) = i /\
      sm_abs (dm_name_to_id m) !! dev_name (hd_dev hd) = Some p /\
      dm_pheap m !! hd_profile hd = Some prof /\ resolved prof;
  ok_name : forall n p, sm_abs (dm_name_to_id m) !! n = Some p ->
    exists hd, dm_heap m !! p = Some hd /\ dev_name (hd_dev hd) = n /\
      sm_abs (dm_devices m) !! dev_id (hd_dev hd) = Some p;
  ok_refs : forall p hd, dm_heap m !! p = Some hd ->
    hd_refs hd = held p + (if mapped m p hd then 1 else 0) /\ 0 < hd_refs hd;
  ok_held : forall p, 0 <= held p /\ (0 < held p -> is_Some (dm_heap m !! p));
  ok_prof : forall n q, sm_abs (dm_profiles m) !! n = Some q ->
    exists prof, dm_pheap m !! q = Some prof /\ dp_name prof = n /\ resolved prof;
  ok_fresh : forall p, (dm_next m <= p)%nat -> dm_heap m !! p = None /\ dm_pheap m !! p = None;
  ok_sched : forall e, e ∈ dm_schedule m -> is_Some (dm_heap m !! e.1);
  ok_size : (size (sm_abs (dm_devices m)) <= dm_next m)%nat /\
            (size (sm_abs (dm_name_to_id m)) <= dm_next m)%nat /\
            (size (sm_abs (dm_profiles m)) <= dm_next m)%nat
}.

Lemma alloc_ok : devmap_ok edgex_devmap_alloc (fun _ => 0) /\ abs edgex_devmap_alloc = MkState ∅ ∅.
Proof.
  unfold edgex_devmap_alloc, abs.
  destruct (sm_empty_ok ptr) as [Hwf Habs]. split; [|cbn; by rewrite Habs, !omap_empty].
  split; cbn; rewrite ?Habs; try done.
  - intros e He. by apply not_elem_of_nil in He.
Qed.

(** ** Reading the state *)

Section one.
  Context m held (Hok : devmap_ok m held).

Lemma get_device i : sm_get (dm_devices m) i = sm_abs (dm_devices m) !! i.
Proof using Hok. apply sm_get_ok, Hok. Qed.
Lemma get_name n : sm_get (dm_name_to_id m) n = sm_abs (dm_name_to_id m) !! n.
Proof using Hok. apply sm_get_ok, Hok. Qed.
Lemma get_profile n : sm_get (dm_profiles m) n = sm_abs (dm_profiles m) !! n.
Proof using Hok. apply sm_get_ok, Hok. Qed.

(** A device of the map. *)
Lemma mapped_some i p :
  sm_abs (dm_devices m) !! i = Some p ->
  exists hd prof, dm_heap m !! p = Some hd /\ dm_pheap m !! hd_profile hd = Some prof /\
    dev_id (hd_dev hd) = i /\ sm_abs (dm_name_to_id m) !! dev_name (hd_dev hd) = Some p /\
    resolved prof /\ st_devs (abs m) !! i = Some (with_profile (hd_dev hd) prof).
Proof using Hok.
  intros Hi. destruct (ok_dev _ _ Hok i p Hi) as (hd & prof & Hh & Hid & Hn & Hp & Hr).
  exists hd, prof. split_and!; try done. unfold abs. cbn [st_devs]. rewrite lookup_omap, Hi. cbn.
  unfold look. rewrite Hh. cbn. by rewrite Hp.
Qed.

Lemma abs_none i : st_devs (abs m) !! i = None <-> sm_abs (dm_devices m) !! i = None.
Proof using Hok.
  unfold abs. cbn [st_devs]. rewrite lookup_omap. destruct (sm_abs (dm_devices m) !! i) as [p|] eqn:E; [|done].
  destruct (mapped_some i p E) as (hd & prof & Hh & Hp & _). cbn. unfold look. rewrite Hh. cbn. by rewrite Hp.
Qed.

Lemma abs_some i d :
  st_devs (abs m) !! i = Some d ->
  exists p hd prof, sm_abs (dm_devices m) !! i = Some p /\ dm_heap m !! p = Some hd /\
    dm_pheap m !! hd_profile hd = Some prof /\ dev_id (hd_dev hd) = i /\
    sm_abs (dm_name_to_id m) !! dev_name (hd_dev hd) = Some p /\ resolved prof /\
    d = with_profile (hd_dev hd) prof.
Proof using Hok.
  intros Hd. destruct (sm_abs (dm_devices m) !! i) as [p|] eqn:E.
  - destruct (mapped_some i p E) as (hd & prof & Hh & Hp & Hi & Hn & Hr & Ha).
    exists p, hd, prof. rewrite Ha in Hd. injection Hd as <-. by split_and!.
  - apply abs_none in E. by rewrite E in Hd.
Qed.

Lemma abs_profile n : st_profs (abs m) !! n = sm_abs (dm_profiles m) !! n ≫= (fun q => dm_pheap m !! q).
Proof. unfold abs. cbn [st_profs]. by rewrite lookup_omap. Qed.

Lemma abs_profile_some n q :
  sm_abs (dm_profiles m) !! n = Some q -> st_profs (abs m) !! n = dm_pheap m !! q.
Proof. intros E. by rewrite abs_profile, E. Qed.

Lemma abs_profile_none n : sm_abs (dm_profiles m) !! n = None -> st_profs (abs m) !! n = None.
Proof. intros E. by rewrite abs_profile, E. Qed.

(** A name is known exactly when a device of the map has it. *)
Lemma name_none n :
  sm_abs (dm_name_to_id m) !! n = None <-> forall i d, st_devs (abs m) !! i = Some d -> dev_name d <> n.
Proof using Hok.
  split.
  - intros Hn i d Hd <-. destruct (abs_some i d Hd) as (p & hd & prof & _ & _ & _ & _ & Hnm & _ & ->).
    cbn [dev_name with_profile] in Hn. by rewrite Hnm in Hn.
  - intros Hall. destruct (sm_abs (dm_name_to_id m) !! n) as [p|] eqn:E; [|done]. exfalso.
    destruct (ok_name _ _ Hok n p E) as (hd & Hh & Hn & Hi).
    destruct (mapped_some _ _ Hi) as (hd' & prof & Hh' & _ & _ & _ & _ & Ha). simplify_eq.
    by apply (Hall _ _ Ha).
Qed.

Lemma fresh_ne p hd : dm_heap m !! p = Some hd -> (p < dm_next m)%nat.
Proof using Hok.
  intros Hp. destruct (decide (dm_next m <= p)%nat) as [Hle|]; [|lia].
  destruct (ok_fresh _ _ Hok p Hle). congruence.
Qed.

Lemma fresh_ne_profile q prof : dm_pheap m !! q = Some prof -> (q < dm_next m)%nat.
Proof using Hok.
  intros Hp. destruct (decide (dm_next m <= q)%nat) as [Hle|]; [|lia].
  destruct (ok_fresh _ _ Hok q Hle). congruence.
Qed.

End one.

Lemma room n k lim : (n <= k)%nat -> Z.of_nat k < lim -> Z.of_nat n < lim.
Proof. lia. Qed.

(** ** Adding a device *)

(** The profile of a new device: the known one of the name, or its own. *)
Lemma profile_for m held pr :
  devmap_ok m held -> resolved pr -> Z.of_nat (dm_next m) < sm_limit (M := M) ->
  exists q profiles pheap next prof,
    match sm_get (dm_profiles m) (dp_name pr) with
    | Some q => (q, dm_profiles m, dm_pheap m, S (dm_next m))
    | None => (S (dm_next m), sm_set (dm_profiles m) (dp_name pr) (S (dm_next m)),
               <[S (dm_next m) := pr]> (dm_pheap m), S (S (dm_next m)))
    end = (q, profiles, pheap, next) /\
    sm_wf profiles /\ sm_abs profiles = <[dp_name pr := q]> (sm_abs (dm_profiles m)) /\
    pheap !! q = Some prof /\ prof = default pr (st_profs (abs m) !! dp_name pr) /\
    dp_name prof = dp_name pr /\ resolved prof /\
    (forall x y, dm_pheap m !! x = Some y -> pheap !! x = Some y) /\
    (forall x, (next <= x)%nat -> pheap !! x = None) /\
    (S (dm_next m) <= next <= S (S (dm_next m)))%nat /\ (size (sm_abs profiles) <= next)%nat.
Proof.
  intros Hok Hres Hlim. rewrite (get_profile _ _ Hok).
  destruct (ok_size _ _ Hok) as (_ & _ & Hsz).
  destruct (sm_abs (dm_profiles m) !! dp_name pr) as [q|] eqn:E.
  - destruct (ok_prof _ _ Hok _ _ E) as (prof & Hq & Hn & Hr).
    pose proof (abs_profile_some _ _ _ E) as Hap. rewrite Hq in Hap.
    exists q, (dm_profiles m), (dm_pheap m), (S (dm_next m)), prof. rewrite insert_id by done.
    split_and!; try done; try lia; [apply Hok|by rewrite Hap|].
    intros x Hx. apply (ok_fresh _ _ Hok). lia.
  - pose proof (abs_profile_none _ _ E) as Hap. destruct (sm_set_ok _ (dm_profiles m) (dp_name pr) (S (dm_next m))) as [Hwf Habs];
      [apply Hok|by eapply room|].
    exists (S (dm_next m)), (sm_set (dm_profiles m) (dp_name pr) (S (dm_next m))),
      (<[S (dm_next m) := pr]> (dm_pheap m)), (S (S (dm_next m))), pr.
    rewrite Habs, Hap, lookup_insert_eq, map_size_insert_None by done.
    split_and!; try done; try lia.
    + intros x y Hx. rewrite lookup_insert_ne; [done|]. pose proof (fresh_ne_profile _ _ Hok _ _ Hx). lia.
    + intros x Hx. rewrite lookup_insert_ne by lia. apply (ok_fresh _ _ Hok). lia.
Qed.

Lemma look_mono m m' p hd prof :
  dm_heap m !! p = Some hd -> dm_pheap m !! hd_profile hd = Some prof ->
  dm_heap m' !! p = Some hd -> dm_pheap m' !! hd_profile hd = Some prof -> look m' p = look m p.
Proof. intros H1 H2 H3 H4. unfold look. rewrite H1, H3. cbn. by rewrite H2, H4. Qed.

(** The maps after a device was added, in memory at [p]. *)
Lemma added_abs m held d q p devices names profiles pheap next prof sched :
  devmap_ok m held -> dm_heap m !! p = None -> sm_abs devices = <[dev_id d := p]> (sm_abs (dm_devices m)) ->
  sm_abs profiles = <[dp_name (dev_profile d) := q]> (sm_abs (dm_profiles m)) ->
  pheap !! q = Some prof -> prof = default (dev_profile d) (st_profs (abs m) !! dp_name (dev_profile d)) ->
  (forall x y, dm_pheap m !! x = Some y -> pheap !! x = Some y) ->
  abs (MkDevmap devices names profiles (<[p := MkHdev (edgex_device_dup d) q 1]> (dm_heap m)) pheap next sched) = spec_add (abs m) d.
Proof.
  intros Hok Hpf Had Hap Hq Hprof Hmono. assert (forall x hd, dm_heap m !! x = Some hd -> x <> p) as Hne by (intros x hd Hx ->; congruence).
  unfold spec_add. rewrite <-Hprof. unfold abs.
  cbn [dm_devices dm_name_to_id dm_profiles dm_heap dm_pheap st_devs st_profs].
  f_equal; apply map_eq; intros i.
  - rewrite lookup_omap, Had. destruct (decide (i = dev_id d)) as [->|Hne'].
    + rewrite !lookup_insert_eq. cbn. unfold look. cbn [dm_heap dm_pheap]. rewrite lookup_insert_eq. cbn.
      by rewrite Hq.
    + rewrite !lookup_insert_ne by done. rewrite lookup_omap.
      destruct (sm_abs (dm_devices m) !! i) as [x|] eqn:E; [|done]. cbn.
      destruct (ok_dev _ _ Hok i x E) as (hd & pr & Hh & Hid & Hnm & Hp & Hr).
      eapply look_mono; [done|done| |]; cbn; [|by eauto]. by rewrite lookup_insert_ne by (symmetry; eauto).
  - rewrite lookup_omap, Hap. destruct (decide (i = dp_name (dev_profile d))) as [->|Hne'].
    + by rewrite !lookup_insert_eq.
    + rewrite !lookup_insert_ne by done. rewrite lookup_omap.
      destruct (sm_abs (dm_profiles m) !! i) as [x|] eqn:E; [|done]. cbn.
      destruct (ok_prof _ _ Hok i x E) as (pr & H1 & _). rewrite H1. by eauto.
Qed.

(** The references after a device was added. *)
Lemma added_refs m held d p q x hd :
  devmap_ok m held -> dm_heap m !! p = None -> sm_abs (dm_devices m) !! dev_id d = None ->
  <[p := MkHdev (edgex_device_dup d) q 1]> (dm_heap m) !! x = Some hd ->
  hd_refs hd = held x + (if bool_decide (<[dev_id d := p]> (sm_abs (dm_devices m)) !! dev_id (hd_dev hd) = Some x) then 1 else 0) /\ 0 < hd_refs hd.
Proof.
  intros Hok Hpf Hi Hx.
  destruct (decide (x = p)) as [->|Hne'].
  - rewrite lookup_insert_eq in Hx. injection Hx as <-. cbn. rewrite lookup_insert_eq, bool_decide_true by done.
    destruct (ok_held _ _ Hok p) as [H0 H1]. destruct (decide (0 < held p)) as [Hlt|]; [|lia].
    destruct (H1 Hlt). congruence.
  - rewrite lookup_insert_ne in Hx by done. destruct (ok_refs _ _ Hok x hd Hx) as [Hr Hpos].
    split; [|done]. rewrite Hr. unfold mapped.
    destruct (decide (dev_id (hd_dev hd) = dev_id d)) as [->|Hne2].
    + rewrite lookup_insert_eq, Hi, !bool_decide_false by congruence. done.
    + by rewrite lookup_insert_ne by done.
Qed.

(** The state after a device was added, whatever its schedules are. *)
Lemma added_ok m held d q profiles pheap next prof impls :
  devmap_ok m held -> sm_abs (dm_devices m) !! dev_id d = None ->
  sm_abs (dm_name_to_id m) !! dev_name d = None -> Z.of_nat (dm_next m) < sm_limit (M := M) ->
  sm_wf profiles -> sm_abs profiles = <[dp_name (dev_profile d) := q]> (sm_abs (dm_profiles m)) ->
  pheap !! q = Some prof -> prof = default (dev_profile d) (st_profs (abs m) !! dp_name (dev_profile d)) ->
  dp_name prof = dp_name (dev_profile d) -> resolved prof ->
  (forall x y, dm_pheap m !! x = Some y -> pheap !! x = Some y) ->
  (forall x, (next <= x)%nat -> pheap !! x = None) ->
  (S (dm_next m) <= next <= S (S (dm_next m)))%nat -> (size (sm_abs profiles) <= next)%nat ->
  let p := dm_next m in
  let m' := MkDevmap (sm_set (dm_devices m) (dev_id d) p) (sm_set (dm_name_to_id m) (dev_name d) p) profiles
              (<[p := MkHdev (edgex_device_dup d) q 1]> (dm_heap m)) pheap next
              (dm_schedule m ++ map (pair p) impls) in
  devmap_ok m' held /\ abs m' = spec_add (abs m) d.
Proof.
  intros Hok Hi Hn Hlim Hwp Hap Hq Hprof Hpn Hres Hmono Hfr Hnext Hsz p m'.
  destruct (ok_size _ _ Hok) as (Hs1 & Hs2 & _).
  destruct (sm_set_ok _ (dm_devices m) (dev_id d) p) as [Hwd Had]; [apply Hok|by eapply room|].
  destruct (sm_set_ok _ (dm_name_to_id m) (dev_name d) p) as [Hwn Han]; [apply Hok|by eapply room|].
  assert (dm_heap m !! p = None) as Hpf by (apply (ok_fresh _ _ Hok); lia).
  assert (forall x hd, dm_heap m !! x = Some hd -> x <> p) as Hne by (intros x hd Hx ->; congruence).
  split.
  - split; subst m'; cbn [dm_devices dm_name_to_id dm_profiles dm_heap dm_pheap dm_next dm_schedule].
    + done.
    + intros i x. rewrite Had, Han. destruct (decide (i = dev_id d)) as [->|Hne'].
      * rewrite lookup_insert_eq. intros [= <-]. eexists _, prof. rewrite lookup_insert_eq.
        split_and!; [done|done| |done|done]. cbn. by rewrite lookup_insert_eq.
      * rewrite lookup_insert_ne by done. intros Hx.
        destruct (ok_dev _ _ Hok i x Hx) as (hd & pr & Hh & Hid & Hnm & Hp & Hr).
        exists hd, pr. rewrite lookup_insert_ne by (symmetry; eauto). split_and!; try done; [|by eauto].
        rewrite lookup_insert_ne; [done|]. intros Heq. by rewrite Heq, Hnm in Hn.
    + intros n x. rewrite Had, Han. destruct (decide (n = dev_name d)) as [->|Hne'].
      * rewrite lookup_insert_eq. intros [= <-]. eexists. rewrite lookup_insert_eq.
        split_and!; [done|done|]. cbn. by rewrite lookup_insert_eq.
      * rewrite lookup_insert_ne by done. intros Hx.
        destruct (ok_name _ _ Hok n x Hx) as (hd & Hh & Hnm & Hid). exists hd.
        rewrite lookup_insert_ne by (symmetry; eauto). split_and!; try done.
        rewrite lookup_insert_ne; [done|]. intros Heq. by rewrite Heq, Hid in Hi.
    + intros x hd Hx. unfold mapped. cbn [dm_devices]. rewrite Had. by eapply added_refs.
    + intros x. destruct (ok_held _ _ Hok x) as [H0 H1]. split; [done|]. intros Hlt.
      destruct (H1 Hlt) as [hd Hx]. rewrite lookup_insert_ne by (symmetry; eauto). by eexists.
    + intros n x. rewrite Hap. destruct (decide (n = dp_name (dev_profile d))) as [->|Hne'].
      * rewrite lookup_insert_eq. intros [= <-]. by exists prof.
      * rewrite lookup_insert_ne by done. intros Hx. destruct (ok_prof _ _ Hok n x Hx) as (pr & H1 & H2 & H3).
        exists pr. split_and!; eauto.
    + intros x Hx. split; [|by apply Hfr]. rewrite lookup_insert_ne by lia. apply (ok_fresh _ _ Hok). lia.
    + intros e He. apply elem_of_app in He as [He|He].
      * destruct (ok_sched _ _ Hok e He) as [hd Hx]. rewrite lookup_insert_ne by (symmetry; eauto). by eexists.
      * apply list_elem_of_fmap in He as (i & -> & _). cbn. rewrite lookup_insert_eq. by eexists.
    + rewrite Had, Han, !map_size_insert_None by done. lia.
  - by eapply added_abs.
Qed.

Lemma dup_profile d : dev_profile (edgex_device_dup d) = dev_profile d.
Proof. by rewrite device_dup_protocols. Qed.

Lemma add_locked_ok m held d :
  devmap_ok m held -> sm_abs (dm_devices m) !! dev_id d = None ->
  sm_abs (dm_name_to_id m) !! dev_name d = None -> resolved (dev_profile d) ->
  Z.of_nat (dm_next m) < sm_limit (M := M) ->
  exists m', add_locked m d = Ret m' /\ devmap_ok m' held /\ abs m' = spec_add (abs m) d /\
    (dm_next m' <= dm_next m + 2)%nat.
Proof.
  intros Hok Hi Hn Hres Hlim.
  destruct (profile_for m held (dev_profile d) Hok Hres Hlim)
    as (q & profiles & pheap & next & prof & Heq & Hwp & Hap & Hq & Hprof & Hpn & Hrp & Hmono & Hfr & Hnext & Hsz).
  assert (exists impls, edgex_device_autoevent_start (with_profile (edgex_device_dup d) prof) = Ret impls)
    as [impls Himpls] by (by apply autoevent_start_ok).
  destruct (added_ok m held d q profiles pheap next prof impls) as [Hok' Habs]; [done..|].
  eexists. split; [|split; [exact Hok'|split; [exact Habs|cbn; lia]]].
  unfold add_locked. cbv zeta. rewrite dup_profile, Heq. unfold view, profile_at. cbn [hd_profile dm_pheap].
  rewrite Hq. cbn [deref]. rewrite !res_bind_ret. cbn [hd_dev]. rewrite Himpls, res_bind_ret. reflexivity.
Qed.

(** ** Changing a device in memory *)

(** The device keeps its identifier, name and profile; references may change. *)
Lemma set_device_ok m held p hd d n :
  devmap_ok m held -> dm_heap m !! p = Some hd ->
  dev_id d = dev_id (hd_dev hd) -> dev_name d = dev_name (hd_dev hd) ->
  0 < hd_refs hd + n -> 0 <= held p + n ->
  devmap_ok (set_heap m (<[p := MkHdev d (hd_profile hd) (hd_refs hd + n)]> (dm_heap m))) (held_add held p n).
Proof.
  intros Hok Hp Hid Hnm Hr Hh. split; cbn [set_heap dm_devices dm_name_to_id dm_profiles dm_heap dm_pheap dm_next dm_schedule].
  - apply Hok.
  - intros i x Hx. destruct (ok_dev _ _ Hok i x Hx) as (hd' & prof & H1 & H2 & H3 & H4 & H5).
    destruct (decide (x = p)) as [->|Hne].
    + simplify_eq. exists (MkHdev d (hd_profile hd) (hd_refs hd + n)), prof. rewrite lookup_insert_eq.
      cbn [hd_dev hd_profile]. rewrite Hid, Hnm. by split_and!.
    + exists hd', prof. by rewrite lookup_insert_ne.
  - intros i x Hx. destruct (ok_name _ _ Hok i x Hx) as (hd' & H1 & H2 & H3).
    destruct (decide (x = p)) as [->|Hne].
    + simplify_eq. exists (MkHdev d (hd_profile hd) (hd_refs hd + n)). rewrite lookup_insert_eq.
      cbn [hd_dev]. rewrite Hid. by split_and!.
    + exists hd'. by rewrite lookup_insert_ne.
  - intros x hd' Hx. unfold mapped. cbn [set_heap dm_devices]. destruct (decide (x = p)) as [->|Hne].
    + rewrite lookup_insert_eq in Hx. injection Hx as <-. cbn [hd_refs hd_dev].
      destruct (ok_refs _ _ Hok p hd Hp) as [He _]. unfold mapped in He. rewrite held_add_self, Hid.
      split; [|done]. rewrite He. lia.
    + rewrite lookup_insert_ne in Hx by done. rewrite held_add_other by done. apply (ok_refs _ _ Hok x hd' Hx).
  - intros x. destruct (ok_held _ _ Hok x) as [H0 H1]. destruct (decide (x = p)) as [->|Hne].
    + rewrite held_add_self, lookup_insert_eq. split; [done|]. by eexists.
    + by rewrite held_add_other, lookup_insert_ne.
  - apply Hok.
  - intros x Hx. rewrite lookup_insert_ne; [by apply Hok|]. pose proof (fresh_ne _ _ Hok _ _ Hp). lia.
  - intros e He. destruct (decide (e.1 = p)) as [->|Hne].
    + rewrite lookup_insert_eq. by eexists.
    + rewrite lookup_insert_ne by done. by apply (ok_sched _ _ Hok).
  - apply Hok.
Qed.

Lemma set_device_abs m held p hd d r :
  devmap_ok m held -> dm_heap m !! p = Some hd -> dev_id d = dev_id (hd_dev hd) ->
  abs (set_heap m (<[p := MkHdev d (hd_profile hd) r]> (dm_heap m)))
  = MkState (if mapped m p hd
             then match dm_pheap m !! hd_profile hd with
                  | Some prof => <[dev_id d := with_profile d prof]> (st_devs (abs m))
                  | None => st_devs (abs m)
                  end
             else st_devs (abs m)) (st_profs (abs m)).
Proof.
  intros Hok Hp Hid. unfold abs. cbn [set_heap dm_devices dm_profiles dm_heap dm_pheap st_devs st_profs].
  f_equal. apply map_eq. intros i. rewrite lookup_omap.
  assert (forall x, x <> p -> look (set_heap m (<[p := MkHdev d (hd_profile hd) r]> (dm_heap m))) x = look m x) as Hl.
  { intros x Hx. unfold look. cbn [set_heap dm_heap dm_pheap]. by rewrite lookup_insert_ne. }
  unfold mapped. case_bool_decide as Hm.
  - destruct (ok_dev _ _ Hok _ _ Hm) as (hd' & prof & H1 & H2 & H3 & H4 & H5). simplify_eq. rewrite H4, Hid.
    destruct (decide (i = dev_id (hd_dev hd))) as [->|Hne].
    + rewrite lookup_insert_eq, Hm. cbn. unfold look. cbn [set_heap dm_heap dm_pheap]. rewrite lookup_insert_eq.
      cbn. by rewrite H4.
    + rewrite lookup_insert_ne, lookup_omap by done. destruct (sm_abs (dm_devices m) !! i) as [x|] eqn:E; [|done].
      cbn. apply Hl. intros ->. destruct (ok_dev _ _ Hok _ _ E) as (hd'' & ? & ? & ? & _). simplify_eq.
  - rewrite lookup_omap. destruct (sm_abs (dm_devices m) !! i) as [x|] eqn:E; [|done]. cbn. apply Hl. intros ->.
    destruct (ok_dev _ _ Hok _ _ E) as (hd'' & ? & ? & ? & _). simplify_eq.
Qed.

(** Only the references change. *)
Lemma set_refs_abs m held p hd r :
  devmap_ok m held -> dm_heap m !! p = Some hd ->
  abs (set_heap m (<[p := MkHdev (hd_dev hd) (hd_profile hd) r]> (dm_heap m))) = abs m.
Proof.
  intros Hok Hp. rewrite (set_device_abs m held) by done. unfold mapped. case_bool_decide as Hm; [|done].
  destruct (mapped_some _ _ Hok _ _ Hm) as (hd' & prof & H1 & H2 & _ & _ & _ & Ha). simplify_eq. rewrite H2.
  rewrite insert_id by done. done.
Qed.

Lemma add_ref_ok m held p hd :
  devmap_ok m held -> dm_heap m !! p = Some hd ->
  exists m', add_ref m p = Ret m' /\ devmap_ok m' (held_add held p 1) /\ abs m' = abs m /\
    dm_devices m' = dm_devices m /\ dm_next m' = dm_next m /\ look m' p = look m p.
Proof.
  intros Hok Hp. pose proof (ok_refs _ _ Hok p hd Hp). pose proof (ok_held _ _ Hok p).
  unfold add_ref, device_at. rewrite Hp. cbn [deref]. rewrite res_bind_ret. eexists. split; [reflexivity|].
  split_and!; [apply set_device_ok; try done; lia|by eapply set_refs_abs|done|done|].
  unfold look. cbn [set_heap dm_heap dm_pheap]. by rewrite lookup_insert_eq, Hp.
Qed.

(** ** Releasing a device *)

Lemma release_ok m held p :
  devmap_ok m held -> 0 < held p ->
  exists m', edgex_device_release m p = Ret m' /\ devmap_ok m' (held_add held p (-1)) /\ abs m' = abs m /\
    dm_devices m' = dm_devices m /\ dm_name_to_id m' = dm_name_to_id m /\ dm_next m' = dm_next m.
Proof.
  intros Hok Hh. destruct (ok_held _ _ Hok p) as [_ Hlive]. destruct (Hlive Hh) as [hd Hp].
  destruct (ok_refs _ _ Hok p hd Hp) as [Hr _].
  unfold edgex_device_release, device_at. rewrite Hp. cbn [deref]. rewrite res_bind_ret.
  destruct (hd_refs hd =? 1) eqn:E; bool_to_prop; (eexists; split; [reflexivity|]).
  - assert (mapped m p hd = false /\ held p = 1) as [Hm H1] by (destruct (mapped m p hd); split; lia || done).
    assert (forall i x, sm_abs (dm_devices m) !! i = Some x -> x <> p) as Hne.
    { intros i x Hx ->. destruct (ok_dev _ _ Hok _ _ Hx) as (hd' & ? & ? & ? & _). simplify_eq.
      unfold mapped in Hm. by case_bool_decide. }
    split_and!; try done; cbn [dm_devices dm_name_to_id dm_profiles dm_heap dm_pheap dm_next dm_schedule].
    + split; cbn [dm_devices dm_name_to_id dm_profiles dm_heap dm_pheap dm_next dm_schedule]; try apply Hok.
      * intros i x Hx. rewrite lookup_delete_ne by (symmetry; eauto). by apply Hok.
      * intros i x Hx. destruct (ok_name _ _ Hok i x Hx) as (hd' & ? & ? & ?). exists hd'.
        by rewrite lookup_delete_ne by (symmetry; eauto).
      * intros x hd' Hx. apply lookup_delete_Some in Hx as [Hxp Hx]. rewrite held_add_other by done.
        apply (ok_refs _ _ Hok x hd' Hx).
      * intros x. destruct (ok_held _ _ Hok x) as [H0 H2]. destruct (decide (x = p)) as [->|Hxp].
        -- rewrite held_add_self. lia.
        -- by rewrite held_add_other, lookup_delete_ne.
      * intros x Hx. rewrite lookup_delete_ne; [by apply Hok|]. pose proof (fresh_ne _ _ Hok _ _ Hp). lia.
      * intros e He. apply list_elem_of_filter in He as [He1 He2]. rewrite lookup_delete_ne by done. by apply (ok_sched _ _ Hok).
    + unfold abs. cbn [dm_devices dm_profiles dm_heap dm_pheap]. f_equal. apply map_eq. intros i.
      rewrite !lookup_omap. destruct (sm_abs (dm_devices m) !! i) as [x|] eqn:Ex; [|done]. cbn.
      unfold look. cbn [dm_heap dm_pheap]. by rewrite lookup_delete_ne by (symmetry; eauto).
  - split_and!; [apply set_device_ok; try done; destruct (mapped m p hd); lia|by eapply set_refs_abs|done|done|done].
Qed.

(** ** Removing a device *)

Lemma devmap_ok_ext m held held' :
  (forall x, held x = held' x) -> devmap_ok m held -> devmap_ok m held'.
Proof. intros He []. split; try done; intros; rewrite <-He; auto. Qed.

Lemma held_add_back held p n x : held_add (held_add held p n) p (- n) x = held x.
Proof. unfold held_add. destruct (decide (x = p)); lia. Qed.

(** Out of the map, the reference of the map is one more that is held. *)
Lemma unmapped_ok m held p hd :
  devmap_ok m held -> dm_heap m !! p = Some hd -> sm_abs (dm_devices m) !! dev_id (hd_dev hd) = Some p ->
  let m' := MkDevmap (sm_remove (dm_devices m) (dev_id (hd_dev hd)))
              (sm_remove (dm_name_to_id m) (dev_name (hd_dev hd))) (dm_profiles m) (dm_heap m) (dm_pheap m)
              (dm_next m) (dm_schedule m) in
  devmap_ok m' (held_add held p 1) /\
  abs m' = MkState (delete (dev_id (hd_dev hd)) (st_devs (abs m))) (st_profs (abs m)).
Proof.
  intros Hok Hp Hi m'.
  destruct (ok_dev _ _ Hok _ _ Hi) as (hd0 & prof & H1 & _ & Hn & Hpr & Hres). simplify_eq.
  destruct (ok_maps _ _ Hok) as (Hw1 & Hw2 & Hw3). destruct (ok_size _ _ Hok) as (Hs1 & Hs2 & Hs3).
  destruct (sm_remove_ok _ (dm_devices m) (dev_id (hd_dev hd)) Hw1) as [Hwd Had].
  destruct (sm_remove_ok _ (dm_name_to_id m) (dev_name (hd_dev hd)) Hw2) as [Hwn Han].
  split.
  - split; subst m'; cbn [dm_devices dm_name_to_id dm_profiles dm_heap dm_pheap dm_next dm_schedule]; try apply Hok.
    + done.
    + intros i x. rewrite Had, Han, lookup_delete_Some. intros [Hne Hx].
      destruct (ok_dev _ _ Hok _ _ Hx) as (hd' & pr & ? & ? & Hn' & ? & ?). exists hd', pr. split_and!; try done.
      rewrite lookup_delete_ne; [done|]. intros Heq. rewrite <-Heq in Hn'. simplify_eq.
    + intros n x. rewrite Had, Han, lookup_delete_Some. intros [Hne Hx].
      destruct (ok_name _ _ Hok _ _ Hx) as (hd' & ? & ? & Hi'). exists hd'. split_and!; try done.
      rewrite lookup_delete_ne; [done|]. intros Heq. rewrite <-Heq in Hi'. simplify_eq.
    + intros x hd' Hx. unfold mapped. cbn [dm_devices]. rewrite Had.
      destruct (ok_refs _ _ Hok x hd' Hx) as [Hr Hpos]. split; [|done]. rewrite Hr. unfold mapped.
      destruct (decide (x = p)) as [->|Hne].
      * simplify_eq. rewrite held_add_self, lookup_delete_eq, bool_decide_true, bool_decide_false by done. lia.
      * rewrite held_add_other by done. destruct (decide (dev_id (hd_dev hd') = dev_id (hd_dev hd))) as [->|Hne'].
        -- rewrite lookup_delete_eq, !bool_decide_false by congruence. done.
        -- by rewrite lookup_delete_ne by done.
    + intros x. destruct (ok_held _ _ Hok x) as [H0 H2]. destruct (decide (x = p)) as [->|Hne].
      * rewrite held_add_self. split; [lia|]. by eexists.
      * by rewrite held_add_other.
    + rewrite Had, Han, !map_size_delete_Some by (by eexists). lia.
  - subst m'. unfold abs. cbn [dm_devices dm_profiles dm_heap dm_pheap st_devs st_profs]. rewrite Had.
    f_equal. apply map_eq. intros i. destruct (decide (i = dev_id (hd_dev hd))) as [->|Hne].
    + by rewrite lookup_omap, !lookup_delete_eq.
    + by rewrite lookup_omap, !lookup_delete_ne, lookup_omap by done.
Qed.

Lemma remove_locked_ok m held i p :
  devmap_ok m held -> sm_abs (dm_devices m) !! i = Some p ->
  exists m', remove_locked m p = Ret m' /\ devmap_ok m' held /\ dm_next m' = dm_next m /\
    abs m' = MkState (delete i (st_devs (abs m))) (st_profs (abs m)).
Proof.
  intros Hok Hi. destruct (ok_dev _ _ Hok _ _ Hi) as (hd & prof & Hp & Hid & _). subst i.
  destruct (unmapped_ok m held p hd Hok Hp Hi) as [Hok1 Habs1]. cbn zeta in *.
  destruct (release_ok _ _ p Hok1) as (m' & Hrel & Hok' & Habs' & _ & _ & Hnext).
  { rewrite held_add_self. pose proof (ok_held _ _ Hok p). lia. }
  exists m'. unfold remove_locked, device_at. rewrite Hp. cbn [deref]. rewrite res_bind_ret.
  split_and!; [done| |done|by rewrite Habs'].
  eapply devmap_ok_ext; [|exact Hok']. intros x. apply (held_add_back held p 1).
Qed.

(** ** Looking devices up *)

Lemma mapped_device_ok m held i p :
  devmap_ok m held -> sm_abs (dm_devices m) !! i = Some p ->
  exists hd prof, mapped_device m i = Ret (p, hd) /\ dm_heap m !! p = Some hd /\
    dm_pheap m !! hd_profile hd = Some prof /\ resolved prof /\ dev_id (hd_dev hd) = i /\
    st_devs (abs m) !! i = Some (with_profile (hd_dev hd) prof).
Proof.
  intros Hok Hi. destruct (mapped_some _ _ Hok _ _ Hi) as (hd & prof & Hh & Hp & Hid & _ & Hr & Ha).
  exists hd, prof. unfold mapped_device, device_at. rewrite (get_device _ _ Hok), Hi. cbn [deref].
  rewrite res_bind_ret, Hh. by split_and!.
Qed.

(** The reference a lookup returns. *)
Definition found m (held held' : ptr -> Z) (o : option ptr) (d : option edgex_device) : Prop :=
  match o with
  | Some p => (forall x, held' x = held_add held p 1 x) /\ d <> None /\ look m p = d
  | None => (forall x, held' x = held x) /\ d = None
  end.

Lemma take_ref m held i p :
  devmap_ok m held -> sm_abs (dm_devices m) !! i = Some p ->
  exists m', add_ref m p = Ret m' /\ devmap_ok m' (held_add held p 1) /\ abs m' = abs m /\
    dm_next m' = dm_next m /\ look m' p = st_devs (abs m) !! i.
Proof.
  intros Hok Hi. destruct (mapped_some _ _ Hok _ _ Hi) as (hd & prof & Hh & Hp & _ & _ & _ & Ha).
  destruct (add_ref_ok m held p hd Hok Hh) as (m' & He & Hok' & Habs & _ & Hn & Hl).
  exists m'. split_and!; try done. rewrite Hl, Ha. unfold look. rewrite Hh. cbn. by rewrite Hp.
Qed.

Lemma byid_ok m held i :
  devmap_ok m held ->
  exists m' o held', edgex_devmap_device_byid m i = Ret (m', o) /\ devmap_ok m' held' /\ abs m' = abs m /\
    dm_next m' = dm_next m /\ found m' held held' o (st_devs (abs m) !! i).
Proof.
  intros Hok. unfold edgex_devmap_device_byid. rewrite (get_device _ _ Hok).
  destruct (sm_abs (dm_devices m) !! i) as [p|] eqn:Hi.
  - destruct (take_ref m held i p Hok Hi) as (m' & -> & Hok' & Habs & Hn & Hl). rewrite res_bind_ret.
    exists m', (Some p), (held_add held p 1). split_and!; try done.
    split_and!; [done| |done]. intros Hd. apply (abs_none _ _ Hok) in Hd. congruence.
  - exists m, None, held. split_and!; try done. split; [done|]. by apply (abs_none _ _ Hok).
Qed.

(** The identifier a name stands for. *)
Lemma id_of_name_ok m held n :
  devmap_ok m held ->
  match sm_abs (dm_name_to_id m) !! n with
  | None => id_of_name m n = Ret None /\ (forall i d, st_devs (abs m) !! i = Some d -> dev_name d <> n)
  | Some p => exists i d, id_of_name m n = Ret (Some i) /\ sm_abs (dm_devices m) !! i = Some p /\
                st_devs (abs m) !! i = Some d /\ dev_name d = n
  end.
Proof.
  intros Hok. unfold id_of_name. rewrite (get_name _ _ Hok).
  destruct (sm_abs (dm_name_to_id m) !! n) as [p|] eqn:Hn; [|by rewrite <-(name_none _ _ Hok)].
  destruct (ok_name _ _ Hok _ _ Hn) as (hd & Hp & Hnm & Hi).
  destruct (mapped_some _ _ Hok _ _ Hi) as (hd' & prof & Hh & _ & _ & _ & _ & Ha). simplify_eq.
  eexists _, _. unfold device_at. rewrite Hp. cbn [deref]. rewrite res_bind_ret. by split_and!.
Qed.

(** The device that has a name. *)
Definition with_name (s : dstate) (n : string) (d : option edgex_device) : Prop :=
  match d with
  | Some d => st_devs s !! dev_id d = Some d /\ dev_name d = n
  | None => forall i d, st_devs s !! i = Some d -> dev_name d <> n
  end.

Lemma abs_id m held i d : devmap_ok m held -> st_devs (abs m) !! i = Some d -> dev_id d = i.
Proof.
  intros Hok Hd. destruct (abs_some _ _ Hok i d Hd) as (p & hd & prof & _ & _ & _ & Hid & _ & _ & ->). done.
Qed.

Lemma byname_ok m held n :
  devmap_ok m held ->
  exists m' o held' d, edgex_devmap_device_byname m n = Ret (m', o) /\ devmap_ok m' held' /\ abs m' = abs m /\
    dm_next m' = dm_next m /\ found m' held held' o d /\ with_name (abs m) n d.
Proof.
  intros Hok. unfold edgex_devmap_device_byname. pose proof (id_of_name_ok m held n Hok) as Hid.
  destruct (sm_abs (dm_name_to_id m) !! n) as [p|].
  - destruct Hid as (i & d & -> & Hi & Hd & Hn). rewrite res_bind_ret, (get_device _ _ Hok), Hi. cbn [deref].
    rewrite res_bind_ret. destruct (take_ref m held i p Hok Hi) as (m' & -> & Hok' & Habs & Hnx & Hl).
    exists m', (Some p), (held_add held p 1), (Some d). rewrite res_bind_ret.
    split_and!; try done; [split_and!; [done..|by rewrite Hl]|]. cbn [with_name].
    by rewrite (abs_id _ _ _ _ Hok Hd).
  - destruct Hid as [-> Hn]. exists m, None, held, None. by split_and!.
Qed.

Lemma remove_byid_ok m held i :
  devmap_ok m held ->
  exists m', edgex_devmap_removedevice_byid m i = Ret m' /\ devmap_ok m' held /\ dm_next m' = dm_next m /\
    abs m' = MkState (delete i (st_devs (abs m))) (st_profs (abs m)).
Proof.
  intros Hok. unfold edgex_devmap_removedevice_byid. rewrite (get_device _ _ Hok).
  destruct (sm_abs (dm_devices m) !! i) as [p|] eqn:Hi; [by apply remove_locked_ok|].
  exists m. split_and!; try done. apply (abs_none _ _ Hok) in Hi. by rewrite delete_id.
Qed.

Lemma remove_byname_ok m held n :
  devmap_ok m held ->
  exists m' d, edgex_devmap_removedevice_byname m n = Ret m' /\ devmap_ok m' held /\ dm_next m' = dm_next m /\
    with_name (abs m) n d /\
    abs m' = match d with
             | Some d => MkState (delete (dev_id d) (st_devs (abs m))) (st_profs (abs m))
             | None => abs m
             end.
Proof.
  intros Hok. unfold edgex_devmap_removedevice_byname. pose proof (id_of_name_ok m held n Hok) as Hid.
  destruct (sm_abs (dm_name_to_id m) !! n) as [p|].
  - destruct Hid as (i & d & -> & Hi & Hd & Hn). rewrite res_bind_ret, (get_device _ _ Hok), Hi. cbn [deref].
    rewrite res_bind_ret. destruct (remove_locked_ok m held i p Hok Hi) as (m' & -> & Hok' & Hnx & Habs).
    exists m', (Some d). cbn [with_name]. rewrite (abs_id _ _ _ _ Hok Hd). by split_and!.
  - destruct Hid as [-> Hn]. exists m, None. by split_and!.
Qed.

(** ** Profiles *)

Lemma add_profile_ok m held dp :
  devmap_ok m held -> resolved dp -> Z.of_nat (dm_next m) < sm_limit (M := M) ->
  devmap_ok (edgex_devmap_add_profile m dp) held /\
  abs (edgex_devmap_add_profile m dp) = MkState (st_devs (abs m)) (<[dp_name dp := dp]> (st_profs (abs m))).
Proof.
  intros Hok Hres Hlim. destruct (ok_size _ _ Hok) as (Hs1 & Hs2 & Hs3).
  destruct (sm_set_ok _ (dm_profiles m) (dp_name dp) (dm_next m)) as [Hwp Hap]; [apply Hok|by eapply room|].
  assert (forall x y, dm_pheap m !! x = Some y -> <[dm_next m := dp]> (dm_pheap m) !! x = Some y) as Hmono.
  { intros x y Hx. rewrite lookup_insert_ne; [done|]. pose proof (fresh_ne_profile _ _ Hok _ _ Hx). lia. }
  split.
  - split; cbn [edgex_devmap_add_profile dm_devices dm_name_to_id dm_profiles dm_heap dm_pheap dm_next dm_schedule];
      try apply Hok.
    + destruct (ok_maps _ _ Hok) as (?&?&?). done.
    + intros i x Hx. destruct (ok_dev _ _ Hok _ _ Hx) as (hd & pr & ? & ? & ? & ? & ?). exists hd, pr.
      split_and!; eauto.
    + intros n q. rewrite Hap. destruct (decide (n = dp_name dp)) as [->|Hne].
      * rewrite lookup_insert_eq. intros [= <-]. exists dp. by rewrite lookup_insert_eq.
      * rewrite lookup_insert_ne by done. intros Hq. destruct (ok_prof _ _ Hok _ _ Hq) as (pr & ? & ? & ?).
        exists pr. split_and!; eauto.
    + intros x Hx. rewrite lookup_insert_ne by lia. apply (ok_fresh _ _ Hok). lia.
    + rewrite Hap. destruct (sm_abs (dm_profiles m) !! dp_name dp) eqn:E.
      * rewrite map_size_insert_Some by (by eexists). lia.
      * rewrite map_size_insert_None by done. lia.
  - unfold abs. cbn [edgex_devmap_add_profile dm_devices dm_profiles dm_heap dm_pheap st_devs st_profs]. rewrite Hap.
    f_equal; apply map_eq; intros i.
    + rewrite !lookup_omap. destruct (sm_abs (dm_devices m) !! i) as [x|] eqn:E; [|done]. cbn.
      destruct (ok_dev _ _ Hok _ _ E) as (hd & pr & ? & ? & ? & ? & ?). eapply look_mono; eauto.
    + rewrite lookup_omap. destruct (decide (i = dp_name dp)) as [->|Hne].
      * rewrite !lookup_insert_eq. cbn. by rewrite lookup_insert_eq.
      * rewrite !lookup_insert_ne, lookup_omap by done.
        destruct (sm_abs (dm_profiles m) !! i) as [x|] eqn:E; [|done]. cbn.
        destruct (ok_prof _ _ Hok _ _ E) as (pr & H1 & _). rewrite H1. by eauto.
Qed.

(** No device of the map has a profile with the identifier. *)
Definition unused (s : dstate) (id : string) : Prop :=
  forall i d, st_devs s !! i = Some d -> dp_id (dev_profile d) <> id.

Lemma keys_mapped {V} (mm : M V) k : sm_wf mm -> k ∈ sm_keys mm <-> is_Some (sm_abs mm !! k).
Proof.
  intros Hwf. rewrite (sm_keys_ok _ mm Hwf), list_elem_of_fmap. split.
  - intros ([k' v] & -> & Hin). apply elem_of_map_to_list in Hin. by eexists.
  - intros [v Hv]. exists (k, v). split; [done|]. by apply elem_of_map_to_list.
Qed.

Lemma profile_unused_ok m held id keys :
  devmap_ok m held -> (forall k, k ∈ keys -> is_Some (sm_abs (dm_devices m) !! k)) ->
  exists b, profile_unused m id keys = Ret b /\
    (b = true <-> forall k d, k ∈ keys -> st_devs (abs m) !! k = Some d -> dp_id (dev_profile d) <> id).
Proof.
  intros Hok. induction keys as [|k keys IH]; intros Hk; cbn [profile_unused].
  - exists true. split; [done|]. split; [|done]. intros _ k d Hin. by apply not_elem_of_nil in Hin.
  - destruct (Hk k) as [p Hp]; [by left|].
    destruct (mapped_device_ok m held k p Hok Hp) as (hd & prof & -> & Hh & Hpr & _ & _ & Ha).
    rewrite res_bind_ret. unfold profile_at. rewrite Hpr. cbn [deref]. rewrite res_bind_ret.
    destruct (String.eqb_spec (dp_id prof) id) as [<-|Hne].
    + exists false. split; [done|]. split; [done|]. intros Hall. exfalso.
      by apply (Hall k (with_profile (hd_dev hd) prof)); [left|done|].
    + destruct IH as (b & -> & Hb); [by intros k' Hk'; apply Hk; right|]. exists b. split; [done|].
      rewrite Hb. split.
      * intros Hall k' d Hin Hd. apply elem_of_cons in Hin as [->|Hin]; [|by eapply Hall].
        rewrite Ha in Hd. by injection Hd as <-.
      * intros Hall k' d Hin Hd. eapply Hall; [by right|done].
Qed.

(** Taking a profile no device of the map uses out of memory. *)
Lemma drop_profile_ok m held n q pr id :
  devmap_ok m held -> sm_abs (dm_profiles m) !! n = Some q -> dm_pheap m !! q = Some pr -> dp_id pr = id ->
  unused (abs m) id ->
  let m' := MkDevmap (dm_devices m) (dm_name_to_id m) (sm_remove (dm_profiles m) n) (dm_heap m)
              (delete q (dm_pheap m)) (dm_next m) (dm_schedule m) in
  devmap_ok m' held /\ abs m' = MkState (st_devs (abs m)) (delete n (st_profs (abs m))).
Proof.
  intros Hok Hn Hq Hid Hun m'. destruct (ok_maps _ _ Hok) as (Hw1 & Hw2 & Hw3).
  destruct (sm_remove_ok _ (dm_profiles m) n Hw3) as [Hwp Hap].
  assert (forall i x hd, sm_abs (dm_devices m) !! i = Some x -> dm_heap m !! x = Some hd -> hd_profile hd <> q) as Hne.
  { intros i x hd Hx Hh Heq. destruct (mapped_some _ _ Hok _ _ Hx) as (hd' & prof & H1 & H2 & _ & _ & _ & Ha).
    simplify_eq. by apply (Hun i _ Ha). }
  assert (forall n' q', sm_abs (dm_profiles m) !! n' = Some q' -> n' <> n -> q' <> q) as Hne'.
  { intros n' q' Hx Hnn ->. destruct (ok_prof _ _ Hok _ _ Hx) as (pr' & ? & ? & _).
    destruct (ok_prof _ _ Hok _ _ Hn) as (pr'' & ? & ? & _). simplify_eq. }
  split.
  - split; subst m'; cbn [dm_devices dm_name_to_id dm_profiles dm_heap dm_pheap dm_next dm_schedule]; try apply Hok.
    + done.
    + intros i x Hx. destruct (ok_dev _ _ Hok _ _ Hx) as (hd & prof & ? & ? & ? & ? & ?). exists hd, prof.
      split_and!; try done. rewrite lookup_delete_ne; [done|]. symmetry. by eapply Hne.
    + intros n' q'. rewrite Hap, lookup_delete_Some. intros [Hnn Hx].
      destruct (ok_prof _ _ Hok _ _ Hx) as (pr' & ? & ? & ?). exists pr'. split_and!; try done.
      rewrite lookup_delete_ne; [done|]. symmetry. by eapply Hne'.
    + intros x Hx. destruct (ok_fresh _ _ Hok x Hx) as [H1 H2]. split; [done|].
      apply lookup_delete_None. by right.
    + rewrite Hap, map_size_delete_Some by (by eexists). destruct (ok_size _ _ Hok) as (?&?&?). lia.
  - subst m'. unfold abs. cbn [dm_devices dm_profiles dm_heap dm_pheap st_devs st_profs]. rewrite Hap.
    f_equal; apply map_eq; intros i.
    + rewrite !lookup_omap. destruct (sm_abs (dm_devices m) !! i) as [x|] eqn:E; [|done]. cbn.
      destruct (ok_dev _ _ Hok _ _ E) as (hd & prof & ? & ? & ? & ? & ?). eapply look_mono; try done.
      cbn. rewrite lookup_delete_ne; [done|]. symmetry. by eapply Hne.
    + rewrite lookup_omap. destruct (decide (i = n)) as [->|Hi]; [by rewrite !lookup_delete_eq|].
      rewrite !lookup_delete_ne, lookup_omap by done.
      destruct (sm_abs (dm_profiles m) !! i) as [x|] eqn:E; [|done]. cbn.
      rewrite lookup_delete_ne; [done|]. symmetry. by eapply Hne'.
Qed.

(** What removing a profile does: it is refused while a device uses a profile of the
    identifier; otherwise one profile of the identifier goes, if there is one. *)
Definition spec_remove_profile (s : dstate) (id : string) (s' : dstate) (b : bool) : Prop :=
  (b = true <-> unused s id) /\
  (s' = s /\ (b = true -> forall n pr, st_profs s !! n = Some pr -> dp_id pr <> id) \/
   b = true /\ exists n pr, st_profs s !! n = Some pr /\ dp_id pr = id /\
                 s' = MkState (st_devs s) (delete n (st_profs s))).

Lemma remove_profile_loop_ok m held id keys :
  devmap_ok m held -> unused (abs m) id -> (forall k, k ∈ keys -> is_Some (sm_abs (dm_profiles m) !! k)) ->
  exists m', remove_profile_loop m id keys = Ret m' /\ devmap_ok m' held /\ dm_next m' = dm_next m /\
    (abs m' = abs m /\ (forall k pr, k ∈ keys -> st_profs (abs m) !! k = Some pr -> dp_id pr <> id) \/
     exists n pr, st_profs (abs m) !! n = Some pr /\ dp_id pr = id /\
       abs m' = MkState (st_devs (abs m)) (delete n (st_profs (abs m)))).
Proof.
  intros Hok Hun. induction keys as [|k keys IH]; intros Hk; cbn [remove_profile_loop].
  - exists m. split_and!; try done. left. split; [done|]. intros k pr Hin. by apply not_elem_of_nil in Hin.
  - destruct (Hk k) as [q Hq]; [by left|]. destruct (ok_prof _ _ Hok _ _ Hq) as (pr & Hpr & Hn & _).
    pose proof (abs_profile_some m _ _ Hq) as Ha. rewrite Hpr in Ha.
    unfold mapped_profile at 1. rewrite (get_profile _ _ Hok), Hq. cbn [deref]. rewrite res_bind_ret, Hpr.
    cbn [deref]. rewrite !res_bind_ret.
    destruct (String.eqb_spec (dp_id pr) id) as [Hid|Hne].
    + destruct (drop_profile_ok m held k q pr id Hok Hq Hpr Hid Hun) as [Hok' Habs]. eexists.
      split_and!; [done|exact Hok'|done|]. right. by exists k, pr.
    + destruct IH as (m' & -> & Hok' & Hnx & Hres); [by intros k' Hk'; apply Hk; right|].
      exists m'. split_and!; try done. destruct Hres as [[Habs Hall]|Hres]; [left|by right].
      split; [done|]. intros k' pr' Hin Hp. apply elem_of_cons in Hin as [->|Hin]; [|by eapply Hall].
      rewrite Ha in Hp. by injection Hp as <-.
Qed.

Lemma remove_profile_ok m held id :
  devmap_ok m held ->
  exists m' b, edgex_devmap_remove_profile m id = Ret (m', b) /\ devmap_ok m' held /\ dm_next m' = dm_next m /\
    spec_remove_profile (abs m) id (abs m') b.
Proof.
  intros Hok. destruct (ok_maps _ _ Hok) as (Hw1 & Hw2 & Hw3). unfold edgex_devmap_remove_profile.
  destruct (profile_unused_ok m held id (sm_keys (dm_devices m)) Hok) as (b & -> & Hb).
  { intros k Hk. by apply keys_mapped. }
  assert (b = true <-> unused (abs m) id) as Hun.
  { rewrite Hb. split; [|by intros H k d _; apply H]. intros Hall i d Hd. eapply Hall; [|done].
    apply keys_mapped; [done|]. destruct (abs_some _ _ Hok _ _ Hd) as (p & ? & ? & Hp & _). by exists p. }
  rewrite res_bind_ret. destruct b.
  - destruct (remove_profile_loop_ok m held id (sm_keys (dm_profiles m)) Hok) as (m' & -> & Hok' & Hnx & Hres).
    { by apply Hun. } { intros k Hk. by apply keys_mapped. }
    exists m', true. rewrite res_bind_ret. split_and!; try done. split; [done|].
    destruct Hres as [[Habs Hall]|Hres]; [left|by right]. split; [done|]. intros _ n pr Hp. eapply Hall; [|done].
    apply keys_mapped; [done|]. rewrite abs_profile in Hp.
    destruct (sm_abs (dm_profiles m) !! n); [by eexists|done].
  - exists m, false. split_and!; try done. split; [done|]. by left.
Qed.

(** ** Replacing a device *)

(** The update of a device in place, when that is possible. *)
Definition spec_update (dest src : edgex_device) : edgex_devmap_outcome_t * option edgex_device :=
  if negb (devsdk_protocols_equal (dev_protocols dest) (dev_protocols src)
           && String.eqb (dev_name dest) (dev_name src)) then (UPDATED_DRIVER, None)
  else (if bool_decide (dev_adminState dest = dev_adminState src) then UPDATED_SDK else UPDATED_DRIVER,
        if String.eqb (dp_name (dev_profile dest)) (dp_name (dev_profile src))
           && edgex_device_autoevents_equal (dev_autos dest) (dev_autos src)
        then Some (update_fields (set_admin dest (dev_adminState src)) src) else None).

Definition spec_replace (s : dstate) (d : edgex_device) : dstate * edgex_devmap_outcome_t :=
  match st_devs s !! dev_id d with
  | None => (spec_add s d, CREATED)
  | Some dest =>
      match spec_update dest d with
      | (o, Some dest') => (MkState (<[dev_id d := dest']> (st_devs s)) (st_profs s), o)
      | (o, None) => (spec_add s d, o)
      end
  end.

Lemma update_in_place_ok m hd prof src :
  dm_pheap m !! hd_profile hd = Some prof ->
  exists d o c, update_in_place m hd src = Ret (d, o, c) /\
    dev_id d = dev_id (hd_dev hd) /\ dev_name d = dev_name (hd_dev hd) /\
    spec_update (with_profile (hd_dev hd) prof) src = (o, if c then Some (with_profile d prof) else None).
Proof.
  intros Hp. unfold update_in_place, spec_update. cbn [with_profile dev_protocols dev_name dev_adminState dev_profile dev_autos].
  destruct (devsdk_protocols_equal _ _); cbn [negb andb]; [|eexists _, _, false; by split_and!].
  destruct (String.eqb _ _); cbn [negb andb]; [|eexists _, _, false; by split_and!].
  unfold profile_at. rewrite Hp. cbn [deref]. rewrite res_bind_ret.
  destruct (String.eqb _ _); cbn [negb andb]; [|eexists _, _, false; by split_and!].
  cbn [set_admin dev_autos].
  destruct (edgex_device_autoevents_equal _ _); cbn [negb]; [eexists _, _, true|eexists _, _, false]; by split_and!.
Qed.

Definition name_free (s : dstate) (d : edgex_device) : Prop :=
  forall i a, st_devs s !! i = Some a -> dev_name a = dev_name d -> i = dev_id d.

Lemma add_after_delete s d :
  spec_add (MkState (delete (dev_id d) (st_devs s)) (st_profs s)) d = spec_add s d.
Proof. unfold spec_add. cbn [st_devs st_profs]. by rewrite insert_delete_eq. Qed.

Lemma replace_ok m held d :
  devmap_ok m held -> name_free (abs m) d -> resolved (dev_profile d) -> Z.of_nat (dm_next m) < sm_limit (M := M) ->
  exists m' o, edgex_devmap_replace_device m d = Ret (m', o) /\ devmap_ok m' held /\
    (dm_next m' <= dm_next m + 2)%nat /\ (abs m', o) = spec_replace (abs m) d.
Proof.
  intros Hok Hfree Hres Hlim. unfold edgex_devmap_replace_device, spec_replace.
  rewrite (get_device _ _ Hok). destruct (sm_abs (dm_devices m) !! dev_id d) as [p|] eqn:Hi.
  - destruct (mapped_some _ _ Hok _ _ Hi) as (hd & prof & Hh & Hp & Hid & Hn & Hr & Ha). rewrite Ha.
    unfold device_at. rewrite Hh. cbn [deref]. rewrite res_bind_ret.
    destruct (update_in_place_ok m hd prof d Hp) as (d' & o & c & -> & Hid' & Hn' & ->). rewrite res_bind_ret.
    set (m1 := set_heap m (<[p := MkHdev d' (hd_profile hd) (hd_refs hd)]> (dm_heap m))).
    assert (mapped m p hd = true) as Hm by (unfold mapped; rewrite Hid, Hi; by apply bool_decide_true).
    assert (devmap_ok m1 held) as Hok1.
    { eapply (devmap_ok_ext _ (held_add held p 0)); [intros x; unfold held_add; destruct (decide _); lia|].
      unfold m1. rewrite <-(Z.add_0_r (hd_refs hd)). pose proof (ok_refs _ _ Hok p hd Hh).
      pose proof (ok_held _ _ Hok p). apply set_device_ok; try done; lia. }
    assert (abs m1 = MkState (<[dev_id d := with_profile d' prof]> (st_devs (abs m))) (st_profs (abs m))) as Habs1.
    { unfold m1. rewrite (set_device_abs m held) by done. by rewrite Hm, Hp, Hid', Hid. }
    destruct c.
    + exists m1, o. split_and!; [done|done|cbn; lia|by rewrite Habs1].
    + destruct (remove_locked_ok m1 held (dev_id d) p Hok1) as (m2 & -> & Hok2 & Hnx & Habs2); [done|].
      rewrite res_bind_ret. rewrite Habs1 in Habs2. cbn [st_devs st_profs] in Habs2. rewrite delete_insert_eq in Habs2.
      assert (dm_next m2 = dm_next m) as Hnx' by done.
      destruct (add_locked_ok m2 held d Hok2) as (m3 & -> & Hok3 & Habs3 & Hnx3); [| |done|by rewrite Hnx'|].
      * apply (abs_none _ _ Hok2). rewrite Habs2. apply lookup_delete_eq.
      * apply (name_none _ _ Hok2). intros i a. rewrite Habs2. cbn [st_devs]. rewrite lookup_delete_Some.
        intros [Hne Hia] Hnm. by apply Hne; symmetry; eapply Hfree.
      * exists m3, o. rewrite res_bind_ret. split_and!; [done|done|lia|].
        by rewrite Habs3, Habs2, (add_after_delete (abs m)).
  - pose proof (proj2 (abs_none _ _ Hok _) Hi) as ->.
    destruct (add_locked_ok m held d Hok Hi) as (m3 & -> & Hok3 & Habs3 & Hnx3); [|done|done|].
    + apply (name_none _ _ Hok). intros i a Hia Hnm. pose proof (Hfree i a Hia Hnm). subst i.
      apply (abs_none _ _ Hok) in Hi. congruence.
    + exists m3, CREATED. rewrite res_bind_ret. split_and!; [done|done|lia|by rewrite Habs3].
Qed.

(** ** Devices for a command *)

(** The command a device has to run, if it is able to. *)
Definition answer (s : dstate) (cmd : string) (forGet : bool) (id : string) : option (string * edgex_cmdinfo) :=
  d ← st_devs s !! id;
  if bool_decide (dev_operatingState d = ENABLED) && bool_decide (dev_adminState d = UNLOCKED) then
    match edgex_deviceprofile_findcommand cmd (dev_profile d) forGet with
    | Ret (Some c) => Some (id, c)
    | _ => None
    end
  else None.

Definition hold_all (held : ptr -> Z) (l : list (ptr * edgex_cmdinfo)) : ptr -> Z :=
  foldl (fun h e => held_add h e.1 1) held l.

Lemma forcmd_loop_ok m held cmd forGet keys acc :
  devmap_ok m held -> (forall k, k ∈ keys -> is_Some (sm_abs (dm_devices m) !! k)) ->
  exists m' l, forcmd_loop m cmd forGet keys acc = Ret (m', rev l ++ acc) /\ devmap_ok m' (hold_all held l) /\
    abs m' = abs m /\ dm_next m' = dm_next m /\
    Forall2 (fun a e => sm_abs (dm_devices m) !! a.1 = Some e.1 /\ a.2 = e.2)
      (omap (answer (abs m) cmd forGet) keys) l /\
    dm_devices m' = dm_devices m.
Proof.
  revert m held acc. induction keys as [|k keys IH]; intros m held acc Hok Hk; cbn [forcmd_loop].
  - exists m, []. by split_and!.
  - destruct (Hk k) as [p Hp]; [by left|].
    assert (forall k, k ∈ keys -> is_Some (sm_abs (dm_devices m) !! k)) as Hk' by (intros k' Hk'; apply Hk; by right).
    destruct (mapped_device_ok m held k p Hok Hp) as (hd & prof & -> & Hh & Hpr & Hres & _ & Ha).
    rewrite res_bind_ret. unfold omap. cbn [list_omap]. fold (omap (M := list) (answer (abs m) cmd forGet) keys).
    unfold answer at 1. rewrite Ha. cbn [mbind option_bind with_profile dev_operatingState dev_adminState dev_profile].
    destruct (_ && _); [|by apply IH].
    unfold profile_at. rewrite Hpr. cbn [deref]. rewrite res_bind_ret.
    destruct (findcommand_total cmd prof forGet Hres) as [c Hc]. rewrite Hc, res_bind_ret.
    destruct c as [c|]; [|by apply IH].
    destruct (add_ref_ok m held p hd Hok Hh) as (m1 & -> & Hok1 & Habs1 & Hd1 & Hn1 & _). rewrite res_bind_ret.
    destruct (IH m1 (held_add held p 1) ((p, c) :: acc) Hok1) as (m' & l & -> & Hok' & Habs & Hnx & Hall & Hdev);
      [by rewrite Hd1|].
    exists m', ((p, c) :: l). cbn [rev]. rewrite <-app_assoc. rewrite Habs1, Hd1 in Hall.
    split_and!; [done|done|by rewrite Habs|by rewrite Hnx|by constructor|by rewrite Hdev].
Qed.

Lemma forcmd_ok m held cmd forGet :
  devmap_ok m held ->
  exists m' l ids, edgex_devmap_device_forcmd m cmd forGet = Ret (m', l) /\ devmap_ok m' (hold_all held (rev l)) /\
    abs m' = abs m /\ dm_next m' = dm_next m /\
    ids ≡ₚ omap (answer (abs m) cmd forGet) (map_to_list (st_devs (abs m))).*1 /\
    Forall2 (fun a e => sm_abs (dm_devices m) !! a.1 = Some e.1 /\ a.2 = e.2) ids l /\
    dm_devices m' = dm_devices m.
Proof.
  intros Hok. destruct (ok_maps _ _ Hok) as (Hw1 & _). unfold edgex_devmap_device_forcmd.
  destruct (forcmd_loop_ok m held cmd forGet (sm_keys (dm_devices m)) [] Hok) as (m' & l & He & Hok' & Habs & Hnx & Hall & Hdev).
  { intros k Hk. by apply keys_mapped. }
  rewrite app_nil_r in He.
  exists m', (rev l), (rev (omap (answer (abs m) cmd forGet) (sm_keys (dm_devices m)))).
  rewrite rev_involutive. split_and!; try done.
  - rewrite <-Permutation_rev. apply omap_Permutation.
    rewrite (sm_keys_ok _ _ Hw1). apply NoDup_Permutation; [apply NoDup_fst_map_to_list..|].
    intros k. rewrite !list_elem_of_fmap. split.
    + intros ([k' p] & -> & Hin). apply elem_of_map_to_list in Hin.
      destruct (mapped_some _ _ Hok _ _ Hin) as (? & ? & _ & _ & _ & _ & _ & Ha). eexists (_, _).
      split; [done|]. apply elem_of_map_to_list. exact Ha.
    + intros ([k' d] & -> & Hin). apply elem_of_map_to_list in Hin.
      destruct (abs_some _ _ Hok _ _ Hin) as (p & ? & ? & Hp & _). exists (k', p). split; [done|].
      by apply elem_of_map_to_list.
  - rewrite !rev_alt. by apply Forall2_reverse.
Qed.

(** ** Populating the map *)

Definition has_name (s : dstate) (n : string) : bool :=
  existsb (fun kv => String.eqb (dev_name (snd kv)) n) (map_to_list (st_devs s)).

Lemma has_name_false s n :
  has_name s n = false <-> forall i d, st_devs s !! i = Some d -> dev_name d <> n.
Proof.
  unfold has_name. rewrite <-not_true_iff_false, existsb_exists. split.
  - intros Hn i d Hd <-. apply Hn. exists (i, d). split; [|apply String.eqb_refl].
    by apply list_elem_of_In, elem_of_map_to_list.
  - intros Hall ([i d] & Hin & Heq). apply list_elem_of_In, elem_of_map_to_list in Hin. cbn in Heq.
    bool_to_prop. by eapply Hall.
Qed.

Definition spec_populate (s : dstate) (ds : list edgex_device) : dstate :=
  foldl (fun s d => if has_name s (dev_name d) then s else spec_add s d) s ds.

(** Devices whose name is new have a new identifier. *)
Fixpoint populate_free (s : dstate) (ds : list edgex_device) : Prop :=
  match ds with
  | [] => True
  | d :: ds' =>
      resolved (dev_profile d) /\ (has_name s (dev_name d) = false -> st_devs s !! dev_id d = None) /\
      populate_free (if has_name s (dev_name d) then s else spec_add s d) ds'
  end.

Lemma populate_ok m held ds :
  devmap_ok m held -> populate_free (abs m) ds ->
  Z.of_nat (dm_next m) + 2 * Z.of_nat (length ds) < sm_limit (M := M) + 2 ->
  exists m', edgex_devmap_populate_devices m ds = Ret m' /\ devmap_ok m' held /\
    (dm_next m' <= dm_next m + 2 * length ds)%nat /\ abs m' = spec_populate (abs m) ds.
Proof.
  revert m. induction ds as [|d ds IH]; intros m Hok Hfree Hlim; cbn [edgex_devmap_populate_devices length] in *.
  { exists m. split_and!; try done. lia. }
  destruct Hfree as (Hres & Hid & Hfree). unfold spec_populate. cbn [foldl]. fold (spec_populate).
  rewrite (get_name _ _ Hok). destruct (sm_abs (dm_name_to_id m) !! dev_name d) as [p|] eqn:E.
  - assert (has_name (abs m) (dev_name d) = true) as Hn.
    { apply not_false_iff_true. rewrite has_name_false, <-(name_none _ _ Hok). congruence. }
    rewrite Hn in *. rewrite res_bind_ret. destruct (IH m Hok Hfree) as (m' & ? & ? & ? & ?); [lia|].
    exists m'. split_and!; try done. lia.
  - assert (has_name (abs m) (dev_name d) = false) as Hn by (rewrite has_name_false, <-(name_none _ _ Hok); done).
    rewrite Hn in *. destruct (add_locked_ok m held d Hok) as (m1 & -> & Hok1 & Habs1 & Hnx1); [|done|done|lia|].
    { apply (abs_none _ _ Hok). by apply Hid. }
    rewrite res_bind_ret. rewrite <-Habs1 in *.
    destruct (IH m1 Hok1 Hfree) as (m' & ? & ? & ? & ?); [lia|]. exists m'. split_and!; try done. lia.
Qed.

(** ** Runs of operations *)

Inductive devmap_op :=
| DPopulate (ds : list edgex_device)
| DReplace (d : edgex_device)
| DById (id : string)
| DByName (name : string)
| DForCmd (cmd : string) (forGet : bool)
| DRelease (p : ptr)
| DRemoveId (id : string)
| DRemoveName (name : string)
| DAddProfile (dp : edgex_deviceprofile)
| DRemoveProfile (id : string).

Inductive devmap_out :=
| ODone
| OOutcome (o : edgex_devmap_outcome_t)
| ODevice (p : option ptr) (d : option edgex_device)
| OQueue (l : list (ptr * edgex_cmdinfo))
| OBool (b : bool).

(** One call; a lookup also reads the device it returns. *)
Definition run_devmap (m : edgex_devmap_t (M := M)) (op : devmap_op) : res (edgex_devmap_t (M := M) * devmap_out) :=
  match op with
  | DPopulate ds => m ← edgex_devmap_populate_devices m ds; mret (m, ODone)
  | DReplace d => '(m, o) ← edgex_devmap_replace_device m d; mret (m, OOutcome o)
  | DById id => '(m, p) ← edgex_devmap_device_byid m id; mret (m, ODevice p (p ≫= look m))
  | DByName n => '(m, p) ← edgex_devmap_device_byname m n; mret (m, ODevice p (p ≫= look m))
  | DForCmd cmd forGet => '(m, l) ← edgex_devmap_device_forcmd m cmd forGet; mret (m, OQueue l)
  | DRelease p => m ← edgex_device_release m p; mret (m, ODone)
  | DRemoveId id => m ← edgex_devmap_removedevice_byid m id; mret (m, ODone)
  | DRemoveName n => m ← edgex_devmap_removedevice_byname m n; mret (m, ODone)
  | DAddProfile dp => mret (edgex_devmap_add_profile m dp, ODone)
  | DRemoveProfile id => '(m, b) ← edgex_devmap_remove_profile m id; mret (m, OBool b)
  end.

(** The references the callers hold after a call. *)
Definition held_after (held : ptr -> Z) (op : devmap_op) (out : devmap_out) : ptr -> Z :=
  match op, out with
  | DRelease p, _ => held_add held p (-1)
  | _, ODevice (Some p) _ => held_add held p 1
  | _, OQueue l => hold_all held (rev l)
  | _, _ => held
  end.

(** What the callers must respect: profiles whose commands resolve, names that belong
    to one identifier, and releasing only what is held. *)
Definition permitted (s : dstate) (held : ptr -> Z) (op : devmap_op) : Prop :=
  match op with
  | DPopulate ds => populate_free s ds
  | DReplace d => resolved (dev_profile d) /\ name_free s d
  | DRelease p => 0 < held p
  | DAddProfile dp => resolved dp
  | _ => True
  end.

(** What the call does to the abstract state, and what it returns. *)
Definition spec_step (s : dstate) (op : devmap_op) (s' : dstate) (out : devmap_out) : Prop :=
  match op with
  | DPopulate ds => s' = spec_populate s ds /\ out = ODone
  | DReplace d => exists o, (s', o) = spec_replace s d /\ out = OOutcome o
  | DById id => s' = s /\ exists p, out = ODevice p (st_devs s !! id)
  | DByName n => s' = s /\ exists p d, out = ODevice p d /\ with_name s n d
  | DForCmd cmd forGet =>
      s' = s /\ exists l, out = OQueue l /\
        l.*2 ≡ₚ (omap (answer s cmd forGet) (map_to_list (st_devs s)).*1).*2
  | DRelease _ => s' = s /\ out = ODone
  | DRemoveId id => s' = MkState (delete id (st_devs s)) (st_profs s) /\ out = ODone
  | DRemoveName n =>
      exists d, with_name s n d /\ out = ODone /\
        s' = match d with Some d => MkState (delete (dev_id d) (st_devs s)) (st_profs s) | None => s end
  | DAddProfile dp => s' = MkState (st_devs s) (<[dp_name dp := dp]> (st_profs s)) /\ out = ODone
  | DRemoveProfile id => exists b, spec_remove_profile s id s' b /\ out = OBool b
  end.

(** Memory a call may take. *)
Definition cost (op : devmap_op) : nat :=
  match op with DPopulate ds => 2 * length ds | DReplace _ => 2 | DAddProfile _ => 1 | _ => 0 end.

Lemma found_out m held held' o d :
  found m held held' o d -> (o ≫= look m) = d /\
  forall x, held' x = match o with Some p => held_add held p 1 | None => held end x.
Proof. destruct o as [p|]; cbn; [intros (?&?&?)|intros (?&->)]; done. Qed.

Lemma step_ok m held op :
  devmap_ok m held -> permitted (abs m) held op ->
  Z.of_nat (dm_next m + cost op) < sm_limit (M := M) ->
  exists m' out, run_devmap m op = Ret (m', out) /\ devmap_ok m' (held_after held op out) /\
    spec_step (abs m) op (abs m') out /\ (dm_next m' <= dm_next m + cost op)%nat.
Proof.
  intros Hok Hperm Hlim. destruct op as [ds|d|i|n|cmd g|p|i|n|dp|i]; cbn [run_devmap cost permitted] in *.
  - destruct (populate_ok m held ds Hok Hperm) as (m' & -> & Hok' & Hnx & Habs); [lia|].
    eexists _, _. split; [reflexivity|]. by split_and!.
  - destruct Hperm as [Hres Hfree]. destruct (replace_ok m held d Hok Hfree Hres) as (m' & o & -> & Hok' & Hnx & Habs); [lia|].
    eexists _, _. split; [reflexivity|]. split_and!; try done. by exists o.
  - destruct (byid_ok m held i Hok) as (m' & o & held' & -> & Hok' & Habs & Hnx & Hf). rewrite res_bind_ret.
    destruct (found_out _ _ _ _ _ Hf) as [Hl Hh]. rewrite Hl. eexists _, _. split; [reflexivity|].
    split_and!; [|split; [done|by eexists]|lia]. eapply devmap_ok_ext; [|exact Hok']. intros x. rewrite Hh. by destruct o.
  - destruct (byname_ok m held n Hok) as (m' & o & held' & d & -> & Hok' & Habs & Hnx & Hf & Hn). rewrite res_bind_ret.
    destruct (found_out _ _ _ _ _ Hf) as [Hl Hh]. rewrite Hl. eexists _, _. split; [reflexivity|].
    split_and!; [|split; [done|by eexists _, _]|lia]. eapply devmap_ok_ext; [|exact Hok']. intros x. rewrite Hh. by destruct o.
  - destruct (forcmd_ok m held cmd g Hok) as (m' & l & ids & -> & Hok' & Habs & Hnx & Hids & Hall & _). rewrite res_bind_ret.
    eexists _, _. split; [reflexivity|]. split_and!; [done| |lia]. split; [done|]. exists l. split; [done|].
    rewrite <-Hids. clear -Hall. induction Hall as [|a e ids l [_ He] _ IH]; [done|]. cbn. rewrite He. by apply Permutation_skip.
  - destruct (release_ok m held p Hok Hperm) as (m' & -> & Hok' & Habs & _ & _ & Hnx).
    eexists _, _. split; [reflexivity|]. split_and!; [done..|lia].
  - destruct (remove_byid_ok m held i Hok) as (m' & -> & Hok' & Hnx & Habs).
    eexists _, _. split; [reflexivity|]. split_and!; [done..|lia].
  - destruct (remove_byname_ok m held n Hok) as (m' & d & -> & Hok' & Hnx & Hn & Habs).
    eexists _, _. split; [reflexivity|]. split_and!; [done| |lia]. by exists d.
  - destruct (add_profile_ok m held dp Hok Hperm) as [Hok' Habs]; [lia|].
    eexists _, _. split; [reflexivity|]. split_and!; [done..|cbn; lia].
  - destruct (remove_profile_ok m held i Hok) as (m' & b & -> & Hok' & Hnx & Hs). rewrite res_bind_ret.
    eexists _, _. split; [reflexivity|]. split_and!; [done| |lia]. by exists b.
Qed.

(** The states the service can reach, with the references its callers hold and the
    memory the calls took. *)
Inductive devmap_reach : edgex_devmap_t (M := M) -> (ptr -> Z) -> nat -> Prop :=
| reach_init : devmap_reach edgex_devmap_alloc (fun _ => 0) 0
| reach_step m held n op m' out :
    devmap_reach m held n -> permitted (abs m) held op -> Z.of_nat (n + cost op) < sm_limit (M := M) ->
    run_devmap m op = Ret (m', out) -> devmap_reach m' (held_after held op out) (n + cost op).

Lemma reach_ok m held n : devmap_reach m held n -> devmap_ok m held /\ (dm_next m <= n)%nat.
Proof.
  induction 1 as [|m held n op m' out _ [Hok Hn] Hperm Hlim Hrun]; [split; [apply alloc_ok|done]|].
  destruct (step_ok m held op Hok Hperm) as (m1 & out1 & Hrun1 & Hok1 & _ & Hnx); [lia|].
  rewrite Hrun in Hrun1. injection Hrun1 as <- <-. split; [done|lia].
Qed.

(** C2. In every state the service can reach, a permitted call on the device map
    returns, without using released memory, and does what it does on the finite map
    of devices and the one of profiles: the lookups by identifier and by name agree,
    the devices that answer a command are the enabled ones that have it, and a device
    that a caller holds stays in memory, as do those whose automatic events run. *)
Theorem devmap_refines (m : edgex_devmap_t) (held : ptr -> Z) (n : nat) (op : devmap_op) :
  devmap_reach m held n -> permitted (abs m) held op -> Z.of_nat (n + cost op) < sm_limit (M := M) ->
  exists m' out, run_devmap m op = Ret (m', out) /\ spec_step (abs m) op (abs m') out /\
    (forall p, 0 < held_after held op out p -> is_Some (dm_heap m' !! p)) /\
    (forall e, e ∈ dm_schedule m' -> is_Some (dm_heap m' !! e.1)).
Proof.
  intros Hreach Hperm Hlim. destruct (reach_ok m held n Hreach) as [Hok Hn].
  destruct (step_ok m held op Hok Hperm) as (m' & out & Hrun & Hok' & Hs & _); [lia|].
  exists m', out. split_and!; try done; [|apply (ok_sched _ _ Hok')].
  intros p Hp. by apply (ok_held _ _ Hok').
Qed.

(** C35. In every state reached by permitted calls on the device map the memory of a
    device is released exactly when nothing refers to it: a device that is in memory is
    in the map or held by a caller, and its count is the number of these references.
    Permitted are calls that name no two devices alike, give profiles whose commands
    resolve and release only what is held; populating the map again with a device that
    changed its name is not, and leaks the old one ([populate_leaks]). *)
Theorem devmap_no_leak (m : edgex_devmap_t) (held : ptr -> Z) (n : nat) (p : ptr) (hd : hdev) :
  devmap_reach m held n -> dm_heap m !! p = Some hd ->
  hd_refs hd = held p + (if bool_decide (sm_get (dm_devices m) (dev_id (hd_dev hd)) = Some p) then 1 else 0) /\
  (0 < held p \/ sm_get (dm_devices m) (dev_id (hd_dev hd)) = Some p).
Proof.
  intros Hreach Hp. destruct (reach_ok m held n Hreach) as [Hok _]. rewrite (get_device _ _ Hok).
  destruct (ok_refs _ _ Hok p hd Hp) as [Hr Hpos]. unfold mapped in Hr. split; [done|].
  destruct (bool_decide _) eqn:E; [right; by apply bool_decide_eq_true in E|left; lia].
Qed.

End invariant.

(** ** Witnesses and defects

    With the hash map of the SDK. *)

Abbreviation sdk_devmap := (edgex_devmap_t (M := edgex_map_base)) (only parsing).

Lemma sample_resolved : resolved (dev_profile sample_device).
Proof. repeat constructor. Qed.

Lemma sample_permitted : permitted (abs (edgex_devmap_alloc : sdk_devmap)) (fun _ => 0) (DReplace sample_device).
Proof.
  split; [apply sample_resolved|]. rewrite (proj2 alloc_ok). intros i a Hi. cbn in Hi. by rewrite lookup_empty in Hi.
Qed.

Lemma devmap_refines_witness :
  exists m' out, run_devmap (edgex_devmap_alloc : sdk_devmap) (DReplace sample_device) = Ret (m', out) /\
    spec_step (abs (edgex_devmap_alloc : sdk_devmap)) (DReplace sample_device) (abs m') out /\
    (forall p, 0 < held_after (fun _ => 0) (DReplace sample_device) out p -> is_Some (dm_heap m' !! p)) /\
    (forall e, e ∈ dm_schedule m' -> is_Some (dm_heap m' !! e.1)).
Proof.
  apply (devmap_refines (edgex_devmap_alloc : sdk_devmap) (fun _ => 0) 0 (DReplace sample_device)).
  - apply reach_init.
  - apply sample_permitted.
  - reflexivity.
Defined.

(** The state with one device. *)
Definition sample_map : sdk_devmap :=
  match run_devmap edgex_devmap_alloc (DReplace sample_device) with
  | Ret (m, _) => m
  | _ => edgex_devmap_alloc
  end.

Definition sample_hdev : hdev := MkHdev (edgex_device_dup sample_device) 1%nat 1.

Lemma sample_reach : devmap_reach sample_map (fun _ => 0) 2.
Proof.
  apply (reach_step edgex_devmap_alloc (fun _ => 0) 0 (DReplace sample_device) _ (OOutcome CREATED)).
  - apply reach_init.
  - apply sample_permitted.
  - reflexivity.
  - unfold sample_map. vm_compute. reflexivity.
Qed.

Lemma sample_map_ok : devmap_ok sample_map (fun _ => 0).
Proof. apply (reach_ok sample_map (fun _ => 0) 2 sample_reach). Qed.

Lemma devmap_no_leak_witness :
  hd_refs sample_hdev
  = 0 + (if bool_decide (sm_get (dm_devices sample_map) "id0" = Some 0%nat) then 1 else 0) /\
  (0 < 0 \/ sm_get (dm_devices sample_map) "id0" = Some 0%nat).
Proof.
  apply (devmap_no_leak sample_map (fun _ => 0) 2 0 sample_hdev).
  - apply sample_reach.
  - vm_compute. reflexivity.
Defined.

(** Clearing the map leaves the names: looking up the name of a device that was
    released reads memory that is no longer allocated. *)
Lemma cleared_name_crashes :
  (m ← edgex_devmap_clear sample_map; edgex_devmap_device_byname m "dev0") = Crash.
Proof. vm_compute. reflexivity. Qed.

Definition rename (d : edgex_device) (id name : string) : edgex_device :=
  {| dev_protocols := dev_protocols d; dev_adminState := dev_adminState d; dev_created := dev_created d;
     dev_description := dev_description d; dev_id := id; dev_labels := dev_labels d;
     dev_lastConnected := dev_lastConnected d; dev_lastReported := dev_lastReported d;
     dev_modified := dev_modified d; dev_name := name; dev_operatingState := dev_operatingState d;
     dev_origin := dev_origin d; dev_autos := dev_autos d; dev_service := dev_service d;
     dev_profile := dev_profile d |}.

(** A second device with the name of the first: after it is removed the first can no
    longer be found by its name. *)
Lemma shared_name_lost :
  ('(m, _) ← edgex_devmap_replace_device sample_map (rename sample_device "id1" "dev0");
   m ← edgex_devmap_removedevice_byid m "id1";
   '(m, byid) ← edgex_devmap_device_byid m "id0";
   '(m, byname) ← edgex_devmap_device_byname m "dev0";
   mret (byid, byname)) = Ret (Some 0%nat, None).
Proof. vm_compute. reflexivity. Qed.

(** A caller holds a device while it and then its profile are removed: the profile is
    released although the caller still uses it. *)
Lemma held_profile_freed :
  ('(m, p) ← edgex_devmap_device_byid sample_map "id0";
   m ← edgex_devmap_removedevice_byid m "id0";
   '(m, b) ← edgex_devmap_remove_profile m "p0";
   hd ← device_at m 0%nat;
   mret (p, b, match view m hd with Crash => true | _ => false end)) = Ret (Some 0%nat, true, true).
Proof. vm_compute. reflexivity. Qed.

(** A device that was renamed and is populated again under the same identifier: the
    old object stays in memory with its automatic events and no one refers to it. *)
Lemma populate_leaks :
  (m ← edgex_devmap_populate_devices sample_map [rename sample_device "id0" "dev1"];
   mret (sm_get (dm_devices m) "id0", hd_refs <$> dm_heap m !! 0%nat, map fst (dm_schedule m)))
  = Ret (Some 2%nat, Some 1, [0%nat; 2%nat]).
Proof. vm_compute. reflexivity. Qed.
