(* ===== verification/Device.v ===== *)
(** * Device commands ([device.c], [edgex_device_runput] to
    [edgex_device_handler_device])

    A request names a device, or all of them, and a command. The driver, which the
    author of a service supplies, is a parameter with a state of its own; what the
    service sends to the other services is recorded. *)

From S2P Require Import Prelude CLib CFloat HashMap Parson ParsonText DevTypes EdgexRest IotData Transform Readings.
From S2P Require Import CmdInfo Values AutoEvent DevMap.
From Stdlib Require Import Ascii.
Local Open Scope Z_scope.

Inductive edgex_http_method := GET | POST | PUT | PATCH | DELETE | UNKNOWN.

Definition methStr (method : edgex_http_method) : string :=
  match method with
  | GET => "GET" | POST => "POST" | PUT => "PUT" | PATCH => "PATCH" | DELETE => "DELETE"
  | UNKNOWN => "UNKNOWN"
  end.

#[export] Instance http_method_eq_dec : EqDecision edgex_http_method.
Proof. solve_decision. Defined.

Definition MHD_HTTP_OK : Z := 200.
Definition MHD_HTTP_BAD_REQUEST : Z := 400.
Definition MHD_HTTP_NOT_FOUND : Z := 404.
Definition MHD_HTTP_METHOD_NOT_ALLOWED : Z := 405.
Definition MHD_HTTP_LOCKED : Z := 423.
Definition MHD_HTTP_INTERNAL_SERVER_ERROR : Z := 500.

Definition CONTENT_JSON : string := "application/json".
Definition CONTENT_CBOR : string := "application/cbor".
Definition CONTENT_PLAINTEXT : string := "text/plain".

(** The part of the configuration the commands use. *)
Record device_config := MkDevConfig { cf_datatransform : bool; cf_updatelastconnected : bool; cf_maxcmdops : Z }.

(** The body of a reply and its type. *)
Record reply := MkReply { rp_data : list Z; rp_type : string }.

Fixpoint bytes_of (s : string) : list Z :=
  match s with String c s' => uchar c :: bytes_of s' | EmptyString => [] end.

Section device.
  Context {M : Type -> Type} `{SM : StringMap M} `{D : IotData} `{C : Cbor}.
  Variables (powl : spec_float -> spec_float -> spec_float) (logl : spec_float -> spec_float).

(** The driver: its state, and the handlers for reading and writing. A handler
    returns false, possibly with a description of the error, or true; a read then
    has filled in one result for each request. *)
  Variable (impl : Type).
  Variables (gethandler : impl -> string -> devsdk_protocols -> list cmdreq -> devsdk_nvpairs ->
                          impl * option (list devsdk_commandresult) * option iot_data_t)
            (puthandler : impl -> string -> devsdk_protocols -> list cmdreq -> list iot_data_t ->
                          impl * bool * option iot_data_t).
  (** The clock, by the number of times it was read. *)
  Variable (iot_time_nsecs : nat -> Z).
  Variable (config : device_config).

(** Requests to the other services. *)
Inductive effect :=
| AddEvent (e : edgex_event_cooked)
| UpdateLastConnected (name : string)
| SetOpstate (id : string) (op : edgex_device_operatingstate).

Record world := MkWorld {
  w_map : edgex_devmap_t (M := M); w_impl : impl; w_ticks : nat; w_effects : list effect }.

Definition set_map (w : world) (m : edgex_devmap_t) : world := MkWorld m (w_impl w) (w_ticks w) (w_effects w).
Definition set_impl (w : world) (i : impl) : world := MkWorld (w_map w) i (w_ticks w) (w_effects w).
Definition tick (w : world) : world := MkWorld (w_map w) (w_impl w) (S (w_ticks w)) (w_effects w).
Definition emit (w : world) (e : effect) : world := MkWorld (w_map w) (w_impl w) (w_ticks w) (w_effects w ++ [e]).

(** ** Writing *)

(** The value for one request of a PUT, or the status of the failure. *)
Definition put_value_for (jobj : option JSON_Object) (rq : cmdreq) : res (Z + iot_data_t) :=
  if negb (pv_writable (rq_pval rq)) then Ret (inl MHD_HTTP_METHOD_NOT_ALLOWED)
  else
    let value := json_object_get_string jobj (rq_resname rq) in
    match (match value with Some v => Some v | None => rq_dfl rq end) with
    | None => Ret (inl MHD_HTTP_BAD_REQUEST)
    | Some text =>
        o ← populateValue (pv_type (rq_pval rq)) text;
        match o with
        | None => Ret (inl MHD_HTTP_BAD_REQUEST)
        | Some v =>
            if cf_datatransform config && bool_decide (is_Some value) then
              o ← edgex_transform_incoming logl v (rq_pval rq) (rq_map rq);
              Ret (match o with None => inl MHD_HTTP_BAD_REQUEST | Some v => inr v end)
            else Ret (inr v)
        end
    end.

(** The loop over the requests stops at the first failure. *)
Fixpoint put_values (jobj : option JSON_Object) (reqs : list cmdreq) : res (Z + list iot_data_t) :=
  match reqs with
  | [] => Ret (inr [])
  | rq :: reqs' =>
      r ← put_value_for jobj rq;
      match r with
      | inl code => Ret (inl code)
      | inr v =>
          rs ← put_values jobj reqs';
          Ret (match rs with inl code => inl code | inr vs => inr (v :: vs) end)
      end
  end.

Definition edgex_device_runput (w : world) (dev : edgex_device) (commandinfo : edgex_cmdinfo) (data : string)
    : res (world * Z * option string) :=
  match json_parse_string (Some data) with
  | None => Ret (w, MHD_HTTP_BAD_REQUEST, None)
  | Some jval =>
      r ← put_values (json_value_get_object (Some jval)) (ci_reqs commandinfo);
      match r with
      | inl code => Ret (w, code, None)
      | inr results =>
          let '(i, ok, e) := puthandler (w_impl w) (dev_name dev) (dev_protocols dev) (ci_reqs commandinfo) results in
          let w := set_impl w i in
          if ok : bool then
            Ret (if cf_updatelastconnected config then emit w (UpdateLastConnected (dev_name dev)) else w,
                 MHD_HTTP_OK, None)
          else Ret (w, MHD_HTTP_INTERNAL_SERVER_ERROR, option_map iot_data_to_json e)
      end
  end.

(** ** Reading *)

Definition edgex_device_runget (w : world) (dev : edgex_device) (cmdinfo : edgex_cmdinfo) (qparams : devsdk_nvpairs)
    : res (world * Z * option edgex_event_cooked * option string) :=
  if existsb (fun rq => negb (pv_readable (rq_pval rq))) (ci_reqs cmdinfo)
  then Ret (w, MHD_HTTP_METHOD_NOT_ALLOWED, None, None)
  else
    let '(i, r, e) := gethandler (w_impl w) (dev_name dev) (dev_protocols dev) (ci_reqs cmdinfo) qparams in
    let w := set_impl w i in
    match r with
    | None => Ret (w, MHD_HTTP_INTERNAL_SERVER_ERROR, None, option_map iot_data_to_json e)
    | Some results =>
        let now := iot_time_nsecs (w_ticks w) in
        let w := tick w in
        o ← edgex_data_process_event powl (dev_name dev) cmdinfo results (cf_datatransform config) now;
        match o with
        | Some ev =>
            let w := emit w (AddEvent ev) in
            Ret (if cf_updatelastconnected config then emit w (UpdateLastConnected (dev_name dev)) else w,
                 MHD_HTTP_OK, Some ev, None)
        | None => Ret (emit w (SetOpstate (dev_id dev) DISABLED), MHD_HTTP_INTERNAL_SERVER_ERROR, None, None)
        end
    end.

(** ** One device *)

Definition runOne (w : world) (dev : edgex_device) (command : edgex_cmdinfo) (qparams : devsdk_nvpairs)
    (upload_data : string) : res (world * Z * option edgex_event_cooked * option string) :=
  if bool_decide (dev_adminState dev = LOCKED) then Ret (w, MHD_HTTP_LOCKED, None, None)
  else if bool_decide (dev_operatingState dev = DISABLED) then Ret (w, MHD_HTTP_LOCKED, None, None)
  else if cf_maxcmdops config <? nreqs command then Ret (w, MHD_HTTP_INTERNAL_SERVER_ERROR, None, None)
  else if ci_isget command then edgex_device_runget w dev command qparams
  else if String.eqb upload_data EmptyString then Ret (w, MHD_HTTP_BAD_REQUEST, None, None)
  else '(w, code, exc) ← edgex_device_runput w dev command upload_data; Ret (w, code, None, exc).

(** ** All devices *)

Inductive edgex_event_encoding := JSON | CBOR.

(** The buffer of the reply: the bytes written so far, whether a NUL follows them,
    and the accounted size. *)
Record abuf := MkBuf { ab_bytes : list Z; ab_nul : bool; ab_size : Z; ab_enc : edgex_event_encoding; ab_count : nat }.

Definition START_CBOR : Z := 252.
Definition END_CBOR : Z := 255.

(** [strcat (buff, s)] in a buffer of [size] bytes: the buffer must hold a string. *)
Definition buf_strcat (size : Z) (nul : bool) (bytes s : list Z) : res (list Z) :=
  if nul && (Z.of_nat (length (bytes ++ s)) <? size) then Ret (bytes ++ s) else Crash.

Definition add_reply (b : abuf) (e : edgex_event_cooked) : res abuf :=
  match e with
  | CookedJSON json =>
      json ← deref json;
      let s := bytes_of json in
      let first := Nat.eqb (ab_count b) 0 in
      let size := ab_size b + (Z.of_nat (length s) + (if first then 0 else 1)) in
      bytes ← (if first then Ret (ab_bytes b) else buf_strcat size (ab_nul b) (ab_bytes b) [44]);
      bytes ← buf_strcat size (ab_nul b) bytes s;
      Ret (MkBuf bytes true size JSON (S (ab_count b)))
  | CookedCBOR data =>
      let size := ab_size b + Z.of_nat (length data) in
      let bytes := if Nat.eqb (ab_count b) 0 then <[0%nat := START_CBOR]> (ab_bytes b) else ab_bytes b in
      Ret (MkBuf (take (Z.to_nat (ab_size b - 2)) bytes ++ data) false size CBOR (S (ab_count b)))
  end.

Definition start_buf : abuf := MkBuf [91] true 3 JSON 0.

Definition finish_reply (b : abuf) : res reply :=
  match ab_enc b with
  | JSON => bytes ← buf_strcat (ab_size b) (ab_nul b) (ab_bytes b) [93]; Ret (MkReply bytes CONTENT_JSON)
  | CBOR => Ret (MkReply (take (Z.to_nat (ab_size b - 2)) (ab_bytes b) ++ [END_CBOR]) CONTENT_CBOR)
  end.

Fixpoint all_loop (w : world) (queue : list (ptr * edgex_cmdinfo)) (qparams : devsdk_nvpairs) (upload_data : string)
    (ret : Z) (b : abuf) : res (world * Z * abuf) :=
  match queue with
  | [] => Ret (w, ret, b)
  | (p, cmd) :: queue' =>
      hd ← device_at (w_map w) p;
      '(w, retOne, ereply, _) ← runOne w (hd_dev hd) cmd qparams upload_data;
      m ← edgex_device_release (w_map w) p;
      b ← (match ereply with Some e => add_reply b e | None => Ret b end);
      all_loop (set_map w m) queue' qparams upload_data (if ret =? MHD_HTTP_OK then ret else retOne) b
  end.

Definition allCommand (w : world) (cmd : string) (method : edgex_http_method) (qparams : devsdk_nvpairs)
    (upload_data : string) : res (world * Z * option reply) :=
  '(m, queue) ← edgex_devmap_device_forcmd (w_map w) cmd (bool_decide (method = GET));
  '(w, ret, b) ← all_loop (set_map w m) queue qparams upload_data MHD_HTTP_NOT_FOUND start_buf;
  if ret =? MHD_HTTP_OK then r ← finish_reply b; Ret (w, ret, Some r) else Ret (w, ret, None).

(** ** One command *)

Definition event_reply (e : edgex_event_cooked) : res reply :=
  match e with
  | CookedJSON json => json ← deref json; Ret (MkReply (bytes_of json) CONTENT_JSON)
  | CookedCBOR data => Ret (MkReply data CONTENT_CBOR)
  end.

(** The command on a device that was found; the reference is given back. *)
Definition found_command (w : world) (p : ptr) (cmd : string) (method : edgex_http_method)
    (qparams : devsdk_nvpairs) (upload_data : string) : res (world * Z * option reply) :=
  hd ← device_at (w_map w) p;
  prof ← profile_at (w_map w) hd;
  command ← edgex_deviceprofile_findcommand cmd prof (bool_decide (method = GET));
  match command with
  | Some command =>
      '(w, result, ereply, exc) ← runOne w (hd_dev hd) command qparams upload_data;
      m ← edgex_device_release (w_map w) p;
      r ← (match ereply with
           | Some e => r ← event_reply e; Ret (Some r)
           | None => Ret (option_map (fun s => MkReply (bytes_of s) CONTENT_PLAINTEXT) exc)
           end);
      Ret (set_map w m, result, r)
  | None =>
      infos ← populateCmdInfo prof;
      m ← edgex_device_release (w_map w) p;
      Ret (set_map w m,
           if existsb (fun ci => String.eqb (ci_name ci) cmd) infos
           then MHD_HTTP_METHOD_NOT_ALLOWED else MHD_HTTP_NOT_FOUND, None)
  end.

Definition oneCommand (w : world) (id : string) (byName : bool) (cmd : string) (method : edgex_http_method)
    (qparams : devsdk_nvpairs) (upload_data : string) : res (world * Z * option reply) :=
  '(m, p) ← (if byName then edgex_devmap_device_byname (w_map w) id else edgex_devmap_device_byid (w_map w) id);
  match p with
  | None => Ret (set_map w m, MHD_HTTP_NOT_FOUND, None)
  | Some p => found_command (set_map w m) p cmd method qparams upload_data
  end.

(** [url + n]: past the end of the string for a longer offset. *)
Definition advance (n : nat) (url : string) : res string :=
  if Nat.leb n (String.length url) then Ret (str_drop n url) else Crash.

Definition edgex_device_handler_device (w : world) (url : string) (qparams : devsdk_nvpairs)
    (method : edgex_http_method) (upload_data : string) : res (world * Z * option reply) :=
  if String.eqb url EmptyString then Ret (w, MHD_HTTP_NOT_FOUND, None)
  else if starts_with "all/" url then
    let cmd := str_drop 4 url in
    if String.eqb cmd EmptyString then Ret (w, MHD_HTTP_NOT_FOUND, None)
    else allCommand w cmd method qparams upload_data
  else
    let byName := starts_with "name" url in
    url ← (if byName then advance 5 url else Ret url);
    match str_split "/" url with
    | None => Ret (w, MHD_HTTP_NOT_FOUND, None)
    | Some (dev, cmd) =>
        if String.eqb cmd EmptyString then Ret (w, MHD_HTTP_NOT_FOUND, None)
        else oneCommand w dev byName cmd method qparams upload_data
    end.

End device.
