(* ===== verification/DeviceProofs.v ===== *)
(** * Requests on devices are answered and leave the device map as it was *)

From S2P Require Import Prelude CLib CFloat HashMap Parson ParsonText DevTypes EdgexRest EdgexRestProofs IotData.
From S2P Require Import Transform Readings CmdInfo Values AutoEvent DevMap DevMapProofs Device.
From Stdlib Require Import Ascii.
Local Open Scope Z_scope.

(** ** The reply for all devices *)

Definition json_bytes (js : list string) : list (list Z) := map bytes_of js.

Fixpoint comma_separated (l : list (list Z)) : list Z :=
  match l with [] => [] | [x] => x | x :: l' => x ++ 44 :: comma_separated l' end.

(** The replies are put into the buffer one after the other. *)
Definition add_replies (b : abuf) (es : list edgex_event_cooked) : res abuf :=
  foldl (fun b e => b ← b; add_reply b e) (Ret b) es.

Definition buf_ok (b : abuf) : Prop := Z.of_nat (length (ab_bytes b)) = ab_size b - 2.

Lemma buf_strcat_ok size bytes s :
  Z.of_nat (length bytes + length s) < size -> buf_strcat size true bytes s = Ret (bytes ++ s).
Proof.
  intros H. unfold buf_strcat. rewrite length_app. cbn [andb]. by rewrite (proj2 (Z.ltb_lt _ _)).
Qed.

Lemma add_reply_json b j :
  buf_ok b -> ab_nul b = true ->
  add_reply b (CookedJSON (Some j))
  = Ret (MkBuf (ab_bytes b ++ (if Nat.eqb (ab_count b) 0 then [] else [44]) ++ bytes_of j) true
           (ab_size b + (Z.of_nat (length (bytes_of j)) + (if Nat.eqb (ab_count b) 0 then 0 else 1))) JSON
           (S (ab_count b))).
Proof.
  unfold buf_ok. intros Hb Hn. cbn [add_reply deref]. rewrite res_bind_ret, Hn.
  destruct (Nat.eqb (ab_count b) 0).
  - rewrite res_bind_ret, buf_strcat_ok by lia. by rewrite res_bind_ret.
  - rewrite buf_strcat_ok by (cbn; lia). rewrite res_bind_ret, buf_strcat_ok by (rewrite length_app; cbn; lia).
    rewrite res_bind_ret. by rewrite <-app_assoc.
Qed.

Lemma add_replies_cons b e es b' : add_reply b e = Ret b' -> add_replies b (e :: es) = add_replies b' es.
Proof. intros H. unfold add_replies. cbn [foldl]. by rewrite res_bind_ret, H. Qed.

Lemma add_replies_json b js :
  buf_ok b -> ab_nul b = true -> (0 < ab_count b)%nat ->
  exists b', add_replies b (map (fun j => CookedJSON (Some j)) js) = Ret b' /\ buf_ok b' /\ ab_nul b' = true /\
    ab_enc b' = (match js with [] => ab_enc b | _ => JSON end) /\
    ab_bytes b' = ab_bytes b ++ concat (map (fun j => 44 :: bytes_of j) js).
Proof.
  revert b. induction js as [|j js IH]; intros b Hb Hn Hc.
  { exists b. cbn. rewrite app_nil_r. by split_and!. }
  cbn [map concat]. pose proof (add_reply_json b j Hb Hn) as Hadd. rewrite (add_replies_cons _ _ _ _ Hadd).
  destruct (ab_count b) as [|c] eqn:Ec; [lia|]. cbn [Nat.eqb] in *.
  destruct (IH (MkBuf (ab_bytes b ++ [44] ++ bytes_of j) true
    (ab_size b + (Z.of_nat (length (bytes_of j)) + 1)) JSON (S (S c)))) as (b' & Hb' & Hok & Hnul & Henc & Hbytes);
    [unfold buf_ok in *; cbn; rewrite length_app; cbn; lia|done|cbn; lia|].
  exists b'. split_and!; try done; [rewrite Henc; by destruct js|]. rewrite Hbytes. cbn. by rewrite <-app_assoc.
Qed.

Lemma comma_concat x l : comma_separated (x :: l) = x ++ concat (map (cons 44) l).
Proof.
  revert x. induction l as [|y l IH]; intros x; [by cbn; rewrite app_nil_r|].
  change (comma_separated (x :: y :: l)) with (x ++ 44 :: comma_separated (y :: l)). by rewrite IH.
Qed.

(** The reply to a command for all devices whose events are JSON is a JSON array
    of them, in a buffer that is large enough at every step. *)
Theorem all_json_reply (js : list string) :
  exists b, add_replies start_buf (map (fun j => CookedJSON (Some j)) js) = Ret b /\
    finish_reply b = Ret (MkReply ([91] ++ comma_separated (json_bytes js) ++ [93]) CONTENT_JSON).
Proof.
  destruct js as [|j js]; [by eexists|]. cbn [map].
  rewrite (add_replies_cons _ _ _ _ (add_reply_json start_buf j eq_refl eq_refl)). cbn [start_buf ab_bytes ab_size ab_count Nat.eqb].
  destruct (add_replies_json (MkBuf (91 :: bytes_of j) true (3 + (Z.of_nat (length (bytes_of j)) + 0)) JSON 1) js)
    as (b & Hb & Hok & Hnul & Henc & Hbytes); [unfold buf_ok; cbn [ab_bytes ab_size length]; lia|done|cbn; lia|].
  exists b. split; [exact Hb|]. unfold finish_reply. rewrite Henc. cbn [ab_enc].
  assert (match js with [] => JSON | _ => JSON end = JSON) as -> by (by destruct js).
  rewrite Hnul. unfold buf_ok in Hok. rewrite buf_strcat_ok by (cbn; lia). rewrite res_bind_ret, Hbytes.
  unfold json_bytes. cbn [map ab_bytes]. rewrite comma_concat, map_map. cbn [app]. by rewrite <-!app_assoc.
Qed.

Lemma add_replies_cbor b ds :
  buf_ok b -> (0 < ab_count b)%nat ->
  exists b', add_replies b (map CookedCBOR ds) = Ret b' /\ buf_ok b' /\
    ab_enc b' = (match ds with [] => ab_enc b | _ => CBOR end) /\ ab_bytes b' = ab_bytes b ++ concat ds.
Proof.
  revert b. induction ds as [|d ds IH]; intros b Hb Hc.
  { exists b. cbn. rewrite app_nil_r. by split_and!. }
  destruct (ab_count b) as [|c] eqn:Ec; [lia|]. unfold buf_ok in Hb.
  assert (add_reply b (CookedCBOR d)
          = Ret (MkBuf (ab_bytes b ++ d) false (ab_size b + Z.of_nat (length d)) CBOR (S (S c)))) as Hadd.
  { cbn [add_reply]. rewrite Ec. cbn [Nat.eqb]. by rewrite take_ge by lia. }
  cbn [map concat]. rewrite (add_replies_cons _ _ _ _ Hadd).
  destruct (IH (MkBuf (ab_bytes b ++ d) false (ab_size b + Z.of_nat (length d)) CBOR (S (S c))))
    as (b' & Hb' & Hok & Henc & Hbytes); [unfold buf_ok; cbn; rewrite length_app; lia|cbn; lia|].
  exists b'. split_and!; try done; [rewrite Henc; by destruct ds|]. rewrite Hbytes. cbn. by rewrite <-app_assoc.
Qed.

(** When the events are CBOR the reply is the events between the bytes FC and FF.
    FF ends an array of indefinite length, which FC does not start. *)
Theorem all_cbor_reply (d : list Z) (ds : list (list Z)) :
  exists b, add_replies start_buf (map CookedCBOR (d :: ds)) = Ret b /\
    finish_reply b = Ret (MkReply ([252] ++ concat (d :: ds) ++ [255]) CONTENT_CBOR).
Proof.
  cbn [map]. rewrite (add_replies_cons start_buf (CookedCBOR d) _
    (MkBuf (252 :: d) false (3 + Z.of_nat (length d)) CBOR 1) eq_refl).
  destruct (add_replies_cbor (MkBuf (252 :: d) false (3 + Z.of_nat (length d)) CBOR 1) ds)
    as (b & Hb & Hok & Henc & Hbytes); [unfold buf_ok; cbn; lia|cbn; lia|].
  exists b. split; [exact Hb|]. unfold finish_reply. rewrite Henc. cbn [ab_enc].
  assert (match ds with [] => CBOR | _ => CBOR end = CBOR) as -> by (by destruct ds).
  unfold buf_ok in Hok. rewrite take_ge by lia. by rewrite Hbytes.
Qed.

(** A JSON event after a CBOR one is appended with string functions to a buffer that
    holds no string. *)
Lemma mixed_reply_crashes (d : list Z) (j : string) :
  add_replies start_buf [CookedCBOR d; CookedJSON (Some j)] = Crash.
Proof. reflexivity. Qed.

(** ** Requests *)

Section requests.
  Context {M : Type -> Type} `{SM : StringMap M} `{D : IotData} `{C : Cbor}.
  Variables (powl : spec_float -> spec_float -> spec_float) (logl : spec_float -> spec_float).
  Variable (impl : Type).
  Variables (gethandler : impl -> string -> devsdk_protocols -> list cmdreq -> devsdk_nvpairs ->
                          impl * option (list devsdk_commandresult) * option iot_data_t)
            (puthandler : impl -> string -> devsdk_protocols -> list cmdreq -> list iot_data_t ->
                          impl * bool * option iot_data_t).
  Variable (iot_time_nsecs : nat -> Z).
  Variable (config : device_config).

  Abbreviation world := (world (M := M) impl).
  Abbreviation run_one := (runOne powl logl impl gethandler puthandler iot_time_nsecs config).
  Abbreviation one_command := (oneCommand powl logl impl gethandler puthandler iot_time_nsecs config).
  Abbreviation all_command := (allCommand powl logl impl gethandler puthandler iot_time_nsecs config).
  Abbreviation handler := (edgex_device_handler_device powl logl impl gethandler puthandler iot_time_nsecs config).

(** Running a command does not touch the device map, and depends on it only through
    the device. *)
Lemma runOne_map (w : world) m d c q data :
  run_one (set_map impl w m) d c q data
  = '(w', code, ev, exc) ← run_one w d c q data; Ret (set_map impl w' m, code, ev, exc).
Proof.
  unfold runOne. destruct (bool_decide _); [done|]. destruct (bool_decide _); [done|].
  destruct (_ <? _); [done|]. destruct (ci_isget c).
  - unfold edgex_device_runget. destruct (existsb _ _); [done|]. cbn [set_map w_impl].
    destruct (gethandler _ _ _ _ _) as [[i r] e]. destruct r as [results|]; [|done].
    cbn [set_impl set_map tick w_ticks]. destruct (edgex_data_process_event _ _ _ _ _ _) as [o| |]; [|done..].
    rewrite !res_bind_ret. destruct o; [|done]. by destruct (cf_updatelastconnected config).
  - destruct (String.eqb _ _); [done|]. unfold edgex_device_runput.
    destruct (json_parse_string _) as [jval|]; [|done]. destruct (put_values _ _ _ _) as [r| |]; [|done..].
    rewrite !res_bind_ret. destruct r as [code|results]; [done|]. cbn [set_map w_impl].
    destruct (puthandler _ _ _ _ _) as [[i ok] e]. destruct ok; [|done]. by destruct (cf_updatelastconnected config).
Qed.

Lemma runOne_keeps (w w' : world) d c q data code ev exc :
  run_one w d c q data = Ret (w', code, ev, exc) -> w_map impl w' = w_map impl w.
Proof.
  intros H. assert (set_map impl w (w_map impl w) = w) as Hw by (by destruct w).
  pose proof (runOne_map w (w_map impl w) d c q data) as Hm. rewrite Hw, H, res_bind_ret in Hm.
  injection Hm as Hx. by rewrite Hx.
Qed.

(** ** What a command does *)

(** A resource that any text can be written to: no array, no binary data, and no
    transform of integers. *)
Definition writable_by_text (rq : cmdreq) : Prop :=
  let pv := rq_pval rq in
  element_type (pv_type pv) = None /\ pv_type pv <> Edgex_Binary /\
  (cf_datatransform config = false \/ transformsOn pv = false \/ is_integer (pv_type pv) = false).

(** What the driver and the profile have to keep to. A command that reads has no binary
    resource, and when the driver succeeds its results answer the requests; a command
    that writes has resources any text can be written to. *)
Record sound (d : edgex_device) (c : edgex_cmdinfo) : Prop := {
  so_name : ok_str (dev_name d);
  so_clock : forall n, ok_uint (iot_time_nsecs n);
  so_get : ci_isget c = true -> Forall (fun rq => pv_type (rq_pval rq) <> Edgex_Binary) (ci_reqs c);
  so_put : ci_isget c = false -> Forall writable_by_text (ci_reqs c);
  so_results : forall i q i' results e n, ci_isget c = true ->
    gethandler i (dev_name d) (dev_protocols d) (ci_reqs c) q = (i', Some results, e) ->
    exists rs, read_as powl (dev_name d) (cf_datatransform config) (iot_time_nsecs n) (ci_reqs c) results rs }.

Definition plain_text (x : iot_data_t) : reply := MkReply (bytes_of (iot_data_to_json x)) CONTENT_PLAINTEXT.

Definition connected (d : edgex_device) : list effect :=
  if cf_updatelastconnected config then [UpdateLastConnected (dev_name d)] else [].

(** Reading: the driver is asked once. Its results become an event with a reading for
    each request, which is sent to core-data and is the reply; a failed assertion
    disables the device; a failure of the driver is status 500 with its message. *)
Definition spec_get (w : world) (d : edgex_device) (c : edgex_cmdinfo) (q : devsdk_nvpairs)
    (w' : world) (code : Z) (r : option reply) : Prop :=
  match gethandler (w_impl impl w) (dev_name d) (dev_protocols d) (ci_reqs c) q with
  | (i, None, e) => w' = set_impl impl w i /\ code = 500 /\ r = option_map plain_text e
  | (i, Some results, _) =>
      let now := iot_time_nsecs (w_ticks impl w) in
      let sends l := w' = MkWorld impl (w_map impl w) i (S (w_ticks impl w)) (w_effects impl w ++ l) in
      exists rs, read_as powl (dev_name d) (cf_datatransform config) now (ci_reqs c) results rs /\
        if forallb asserted rs then
          exists t, json_parse_string (Some t) = Some (event_value (dev_name d) now rs) /\
            sends (AddEvent (CookedJSON (Some t)) :: connected d) /\
            code = 200 /\ r = Some (MkReply (bytes_of t) CONTENT_JSON)
        else sends [SetOpstate (dev_id d) DISABLED] /\ code = 500 /\ r = None
  end.

(** The text for a request: the member of the body, else the default. *)
Definition given (obj : option JSON_Object) (rq : cmdreq) : option string :=
  match json_object_get_string obj (rq_resname rq) with Some v => Some v | None => rq_dfl rq end.

(** The value of the text; a value from the body is transformed. *)
Definition converts (obj : option JSON_Object) (rq : cmdreq) (text : string) (o : option iot_data_t) : Prop :=
  exists o1, populateValue (pv_type (rq_pval rq)) text = Ret o1 /\
    match o1 with
    | None => o = None
    | Some v => if cf_datatransform config && bool_decide (is_Some (json_object_get_string obj (rq_resname rq)))
                then edgex_transform_incoming logl v (rq_pval rq) (rq_map rq) = Ret o else o = Some v
    end.

Definition accepts (obj : option JSON_Object) (rq : cmdreq) (v : iot_data_t) : Prop :=
  pv_writable (rq_pval rq) = true /\ exists text, given obj rq = Some text /\ converts obj rq text (Some v).

Definition refuses (obj : option JSON_Object) (rq : cmdreq) (code : Z) : Prop :=
  if pv_writable (rq_pval rq)
  then code = 400 /\ forall text, given obj rq = Some text -> converts obj rq text None
  else code = 405.

(** Writing: the first resource that cannot be written decides the status; otherwise
    the driver is given all the values. *)
Definition spec_put (w : world) (d : edgex_device) (c : edgex_cmdinfo) (data : string)
    (w' : world) (code : Z) (r : option reply) : Prop :=
  match json_parse_string (Some data) with
  | None => w' = w /\ code = 400 /\ r = None
  | Some jval =>
      let obj := json_value_get_object (Some jval) in
      (exists pre rq post vs, ci_reqs c = pre ++ rq :: post /\ Forall2 (accepts obj) pre vs /\ refuses obj rq code /\
         w' = w /\ r = None) \/
      (exists vs, Forall2 (accepts obj) (ci_reqs c) vs /\
         let '(i, ok, e) := puthandler (w_impl impl w) (dev_name d) (dev_protocols d) (ci_reqs c) vs in
         w_map impl w' = w_map impl w /\ w_impl impl w' = i /\ w_ticks impl w' = w_ticks impl w /\
         w_effects impl w' = w_effects impl w ++ (if ok : bool then connected d else []) /\
         code = (if ok then 200 else 500) /\ r = (if ok then None else option_map plain_text e))
  end.

(** A locked or disabled device is not touched, nor is one asked for too much. *)
Definition spec_run (w : world) (d : edgex_device) (c : edgex_cmdinfo) (q : devsdk_nvpairs) (data : string)
    (w' : world) (code : Z) (r : option reply) : Prop :=
  let fails k := w' = w /\ code = k /\ r = None in
  if bool_decide (dev_adminState d = LOCKED \/ dev_operatingState d = DISABLED) then fails 423
  else if cf_maxcmdops config <? nreqs c then fails 500
  else if ci_isget c then
    if forallb (fun rq => pv_readable (rq_pval rq)) (ci_reqs c) then spec_get w d c q w' code r else fails 405
  else if String.eqb data EmptyString then fails 400
  else spec_put w d c data w' code r.

(** What a request for one device does, given the meaning of the names of commands. *)
Definition spec_one (meaning : string -> edgex_deviceprofile -> bool -> res (option edgex_cmdinfo)) (w : world) (d : option edgex_device) (cmd : string) (method : edgex_http_method)
    (q : devsdk_nvpairs) (data : string) (w' : world) (code : Z) (r : option reply) : Prop :=
  let get := bool_decide (method = GET) in
  match d with
  | None => w' = w /\ code = 404 /\ r = None
  | Some d =>
      match meaning cmd (dev_profile d) get with
      | Ret (Some c) => spec_run w d c q data w' code r
      | Ret None =>
          w' = w /\ r = None /\
          code = match meaning cmd (dev_profile d) (negb get) with Ret (Some _) => 405 | _ => 404 end
      | _ => False
      end
  end.

(** The reply to a command that was run. *)
Definition reply_of (ev : option edgex_event_cooked) (exc : option string) : res (option reply) :=
  match ev with
  | Some e => r ← event_reply e; Ret (Some r)
  | None => Ret (option_map (fun s => MkReply (bytes_of s) CONTENT_PLAINTEXT) exc)
  end.

Definition json_event (ev : option edgex_event_cooked) : Prop :=
  match ev with Some (CookedJSON (Some _)) | None => True | _ => False end.

(** The command runs as specified. *)
Definition runs (w : world) (d : edgex_device) (c : edgex_cmdinfo) (q : devsdk_nvpairs) (data : string) : Prop :=
  exists w' code ev exc r, run_one w d c q data = Ret (w', code, ev, exc) /\ json_event ev /\
    reply_of ev exc = Ret r /\ spec_run w d c q data w' code r.

Lemma runget_ok w d c q :
  sound d c -> ci_isget c = true -> forallb (fun rq => pv_readable (rq_pval rq)) (ci_reqs c) = true ->
  exists w' code ev exc r,
    edgex_device_runget powl impl gethandler iot_time_nsecs config w d c q = Ret (w', code, ev, exc) /\ json_event ev /\
    reply_of ev exc = Ret r /\ spec_get w d c q w' code r.
Proof.
  intros Hs Hg Hread. unfold edgex_device_runget, spec_get.
  assert (existsb (fun rq => negb (pv_readable (rq_pval rq))) (ci_reqs c) = false) as ->.
  { destruct (existsb _ _) eqn:E; [|done]. apply existsb_exists in E as (rq & Hin & Hn).
    rewrite forallb_forall in Hread. by rewrite (Hread rq Hin) in Hn. }
  destruct (gethandler _ _ _ _ _) as [[i [results|]] e] eqn:Eg.
  - destruct (so_results d c Hs _ _ _ _ _ (w_ticks impl w) Hg Eg) as [rs Hrs].
    destruct (event_read_as powl _ _ _ c results rs (so_get d c Hs Hg) (so_name d c Hs) (so_clock d c Hs _) Hrs)
      as (t & Ht & Hev).
    cbn [set_impl tick w_ticks]. rewrite Hev, res_bind_ret.
    destruct (forallb asserted rs) eqn:Ea.
    + eexists _, _, _, _, _. split; [reflexivity|]. split; [done|]. split; [reflexivity|].
      exists rs. split; [done|]. rewrite Ea. exists t. split_and!; try done. unfold connected.
      unfold emit. cbn [w_map w_impl w_ticks w_effects tick set_impl].
      destruct (cf_updatelastconnected config); [by rewrite <-app_assoc|done].
    + eexists _, _, _, _, _. split; [reflexivity|]. split; [done|]. split; [reflexivity|].
      exists rs. split; [done|]. by rewrite Ea.
  - eexists _, _, _, _, _. split; [reflexivity|]. split; [done|]. split; [reflexivity|]. split_and!; try done. by destruct e.
Qed.

Lemma populate_total pt text : element_type pt = None -> pt <> Edgex_Binary -> exists o, populateValue pt text = Ret o.
Proof. intros He Hb. unfold populateValue. rewrite He. destruct pt; try done; by eexists. Qed.

Lemma incoming_total v rq :
  transformsOn (rq_pval rq) = false \/ is_integer (pv_type (rq_pval rq)) = false ->
  exists o, edgex_transform_incoming logl v (rq_pval rq) (rq_map rq) = Ret o.
Proof.
  intros H. unfold edgex_transform_incoming, incoming_float, when.
  destruct (is_float _).
  { destruct (transformsOn _); [|by eexists].
    destruct (ta_enabled (pv_offset _)), (ta_enabled (pv_scale _)), (ta_enabled (pv_base _)); by eexists. }
  destruct (is_integer _); [destruct H as [->|]; [by eexists|done]|]. destruct (bool_decide _); by eexists.
Qed.

Lemma converts_total obj rq text : writable_by_text rq -> exists o, converts obj rq text o.
Proof.
  intros (He & Hb & Ht). destruct (populate_total _ text He Hb) as [[v|] Hp]; [|exists None; by exists None].
  destruct (cf_datatransform config && bool_decide (is_Some (json_object_get_string obj (rq_resname rq)))) eqn:E.
  - destruct (incoming_total v rq) as [o Ho]; [apply andb_prop in E as [E _]; destruct Ht as [Ht|Ht]; [congruence|done]|].
    exists o, (Some v). by rewrite E.
  - exists (Some v), (Some v). by rewrite E.
Qed.

Lemma put_value_ok obj rq :
  writable_by_text rq ->
  exists x, put_value_for logl config obj rq = Ret x /\
    match x with inl code => refuses obj rq code | inr v => accepts obj rq v end.
Proof.
  intros Hw. unfold put_value_for, refuses, accepts. destruct (pv_writable (rq_pval rq)); [|by eexists]. cbn [negb].
  fold (given obj rq). destruct (given obj rq) as [text|] eqn:Eg; [|by eexists].
  destruct (converts_total obj rq text Hw) as (o & o1 & Hp & Ho). rewrite Hp, res_bind_ret.
  assert (converts obj rq text o) as Hc by (by exists o1). destruct o1 as [v|].
  - destruct (_ && _); [rewrite Ho, res_bind_ret|subst o]; (eexists; split; [reflexivity|]).
    + destruct o as [v'|]; [split; [done|]; eauto|]. split; [done|]. by intros ? [= <-].
    + split; [done|]. eauto.
  - subst o. eexists. split; [reflexivity|]. split; [done|]. by intros ? [= <-].
Qed.

Lemma put_values_ok obj reqs :
  Forall writable_by_text reqs ->
  exists x, put_values logl config obj reqs = Ret x /\
    match x with
    | inl code => exists pre rq post vs, reqs = pre ++ rq :: post /\ Forall2 (accepts obj) pre vs /\ refuses obj rq code
    | inr vs => Forall2 (accepts obj) reqs vs
    end.
Proof.
  induction 1 as [|rq reqs Hw _ IH]; cbn [put_values]; [exists (inr []); split; [done|constructor]|].
  destruct (put_value_ok obj rq Hw) as ([code|v] & -> & Hx); rewrite res_bind_ret.
  { eexists. split; [reflexivity|]. exists [], rq, reqs, []. by split_and!. }
  destruct IH as ([code|vs] & -> & Hy); rewrite res_bind_ret; (eexists; split; [reflexivity|]); [|by constructor].
  destruct Hy as (pre & rq' & post & vs & -> & Hpre & Hr). exists (rq :: pre), rq', post, (v :: vs).
  split_and!; [done|by constructor|done].
Qed.

Lemma runput_ok w d c data :
  Forall writable_by_text (ci_reqs c) ->
  exists w' code exc, edgex_device_runput logl impl puthandler config w d c data = Ret (w', code, exc) /\
    spec_put w d c data w' code (option_map (fun s => MkReply (bytes_of s) CONTENT_PLAINTEXT) exc).
Proof.
  intros Hw. unfold edgex_device_runput, spec_put. destruct (json_parse_string _) as [jval|]; [|by eexists _, _, _].
  destruct (put_values_ok (json_value_get_object (Some jval)) _ Hw) as ([code|vs] & -> & Hx); rewrite res_bind_ret.
  { eexists _, _, _. split; [reflexivity|]. left. destruct Hx as (pre & rq & post & vs & ? & ? & ?).
    by exists pre, rq, post, vs. }
  destruct (puthandler _ _ _ _ _) as [[i ok] e] eqn:Ep.
  destruct ok; (eexists _, _, _; split; [reflexivity|]; right; exists vs; rewrite Ep; split; [done|]).
  - unfold connected. destruct (cf_updatelastconnected config); split_and!; cbn; rewrite ?app_nil_r; done.
  - split_and!; cbn; rewrite ?app_nil_r; try done. by destruct e.
Qed.

Lemma runOne_ok w d c q data : sound d c -> runs w d c q data.
Proof.
  intros Hs. unfold runs, runOne, spec_run.
  assert (bool_decide (dev_adminState d = LOCKED \/ dev_operatingState d = DISABLED)
          = bool_decide (dev_adminState d = LOCKED) || bool_decide (dev_operatingState d = DISABLED)) as ->
    by (rewrite <-bool_decide_or; done).
  destruct (bool_decide (_ = LOCKED)); [by eexists _, _, _, _, _|].
  destruct (bool_decide (_ = DISABLED)); [by eexists _, _, _, _, _|]. cbn [orb].
  destruct (_ <? _); [by eexists _, _, _, _, _|]. destruct (ci_isget c) eqn:Eg.
  - destruct (forallb _ _) eqn:Er; [by apply runget_ok|]. unfold edgex_device_runget.
    assert (existsb (fun rq => negb (pv_readable (rq_pval rq))) (ci_reqs c) = true) as ->.
    { clear Eg Hs. induction (ci_reqs c) as [|rq l IH]; [done|]. cbn [forallb existsb] in *.
      destruct (pv_readable _); [by apply IH|done]. }
    by eexists _, _, _, _, _.
  - destruct (String.eqb _ _); [by eexists _, _, _, _, _|].
    destruct (runput_ok w d c data (so_put d c Hs Eg)) as (w' & code & exc & -> & Hp). rewrite res_bind_ret.
    by eexists _, _, _, _, _.
Qed.

(** A device taken by a lookup: the command runs and the reference is given back. *)
Lemma found_command_ok (w : world) m1 held p d cmd method q data :
  devmap_ok m1 (held_add held p 1) -> 0 <= held p -> look m1 p = Some d -> resolved (dev_profile d) ->
  (forall c, edgex_deviceprofile_findcommand cmd (dev_profile d) (bool_decide (method = GET)) = Ret (Some c) ->
             sound d c) ->
  exists w' code r m',
    found_command powl logl impl gethandler puthandler iot_time_nsecs config (set_map impl w m1) p cmd method q data
    = Ret (set_map impl w' m', code, r) /\
    spec_one edgex_deviceprofile_findcommand w (Some d) cmd method q data w' code r /\ devmap_ok m' held /\ abs m' = abs m1.
Proof.
  intros Hok Hheld Hl Hres Hrun. unfold look in Hl.
  destruct (dm_heap m1 !! p) as [hd|] eqn:Hh; [|done]. cbn in Hl.
  destruct (dm_pheap m1 !! hd_profile hd) as [prof|] eqn:Hpr; [|done]. cbn in Hl. injection Hl as <-.
  destruct (release_ok m1 _ p Hok) as (m' & Hrel & Hok' & Habs' & _); [rewrite held_add_self; lia|].
  assert (devmap_ok m' held) as Hok2.
  { eapply devmap_ok_ext; [|exact Hok']. intros x. apply (held_add_back held p 1). }
  unfold found_command, spec_one, device_at, profile_at. cbn [set_map w_map dev_profile with_profile] in *.
  rewrite Hh. cbn [deref]. rewrite res_bind_ret, Hpr. cbn [deref]. rewrite res_bind_ret.
  destruct (findcommand_total cmd prof (bool_decide (method = GET)) Hres) as [o Ho]. rewrite Ho, !res_bind_ret.
  destruct o as [c|].
  - destruct (runOne_ok w _ c q data (Hrun c Ho)) as (w' & code & ev & exc & r & Hr & _ & Hre & Hspec). rewrite runOne_map.
    change (run_one w (hd_dev hd) c q data) with (run_one w (with_profile (hd_dev hd) prof) c q data).
    rewrite Hr, !res_bind_ret. cbn [set_map w_map]. rewrite Hrel, res_bind_ret. fold (reply_of ev exc). rewrite Hre, res_bind_ret.
    exists w', code, r, m'. by split_and!.
  - unfold edgex_deviceprofile_findcommand in *. destruct (populateCmdInfo prof) as [infos| |]; [|done..].
    rewrite !res_bind_ret in *. injection Ho as Ho. rewrite (other_method cmd _ infos Ho), Hrel, res_bind_ret.
    eexists w, _, None, m'. split; [reflexivity|]. split_and!; try done. rewrite ?res_bind_ret. by destruct (find (matches cmd (negb _)) infos).
Qed.

Lemma one_command_ok (w : world) (held : ptr -> Z) (id : string) (byName : bool) (cmd : string)
    (method : edgex_http_method) (q : devsdk_nvpairs) (data : string) :
  devmap_ok (w_map impl w) held ->
  (forall i d c, st_devs (abs (w_map impl w)) !! i = Some d ->
     edgex_deviceprofile_findcommand cmd (dev_profile d) (bool_decide (method = GET)) = Ret (Some c) ->
     sound d c) ->
  exists d w' code r m',
    (if byName then with_name (abs (w_map impl w)) id d else d = st_devs (abs (w_map impl w)) !! id) /\
    one_command w id byName cmd method q data = Ret (set_map impl w' m', code, r) /\
    spec_one edgex_deviceprofile_findcommand w d cmd method q data w' code r /\
    devmap_ok m' held /\ abs m' = abs (w_map impl w) /\
    (forall d', d = Some d' -> exists i, st_devs (abs (w_map impl w)) !! i = Some d').
Proof.
  intros Hok Hrun. set (m := w_map impl w) in *.
  assert (exists m1 o held1 d,
    (if byName then edgex_devmap_device_byname m id else edgex_devmap_device_byid m id) = Ret (m1, o) /\
    devmap_ok m1 held1 /\ abs m1 = abs m /\ found m1 held held1 o d /\
    (if byName then with_name (abs m) id d else d = st_devs (abs m) !! id) /\
    (forall d', d = Some d' -> exists i, st_devs (abs m) !! i = Some d')) as
    (m1 & o & held1 & d & Hlook & Hok1 & Habs1 & Hf & Hd & Hin).
  { destruct byName.
    - destruct (byname_ok m held id Hok) as (m1 & o & held1 & d & ? & ? & ? & _ & ? & Hn).
      exists m1, o, held1, d. split_and!; try done. intros d' ->. exists (dev_id d'). apply Hn.
    - destruct (byid_ok m held id Hok) as (m1 & o & held1 & ? & ? & ? & _ & ?).
      exists m1, o, held1, (st_devs (abs m) !! id). split_and!; try done. intros d' Hd'. by exists id. }
  unfold oneCommand. fold m. rewrite Hlook, res_bind_ret. destruct o as [p|].
  - destruct Hf as (Hheld & Hne & Hl). destruct d as [d|]; [|done]. destruct (Hin d eq_refl) as [i Hi].
    destruct (abs_some _ _ Hok _ _ Hi) as (? & hd & prof & _ & _ & _ & _ & _ & Hres & Hdd).
    destruct (found_command_ok w m1 held p d cmd method q data) as (w' & code & r & m' & Hfc & Hs & Hok' & Habs').
    + eapply devmap_ok_ext; [exact Hheld|done].
    + apply (ok_held _ _ Hok).
    + done.
    + by rewrite Hdd.
    + intros c Hc. by eapply Hrun.
    + exists (Some d), w', code, r, m'. rewrite Hfc, Habs', Habs1. by split_and!.
  - destruct Hf as [Hheld ->]. exists None, w, MHD_HTTP_NOT_FOUND, None, m1. split_and!; try done.
    eapply devmap_ok_ext; [|exact Hok1]. done.
Qed.



(** ** All devices *)

Definition count (p : ptr) (l : list (ptr * edgex_cmdinfo)) : Z :=
  Z.of_nat (length (filter (fun e => e.1 = p) l)).

Lemma hold_all_count held l x : hold_all held l x = held x + count x l.
Proof.
  revert held. induction l as [|e l IH]; intros held; cbn [hold_all foldl]; unfold count in *.
  { cbn. lia. }
  rewrite filter_cons. unfold hold_all in IH. rewrite IH. unfold held_add.
  destruct (decide (x = e.1)) as [->|Hne].
  - rewrite decide_True by done. cbn [length]. lia.
  - by rewrite decide_False by done.
Qed.

Lemma count_cons x p c l : count x ((p, c) :: l) = (if decide (x = p) then 1 else 0) + count x l.
Proof.
  unfold count. rewrite filter_cons. cbn [fst]. destruct (decide (x = p)) as [->|Hne].
  - rewrite decide_True by done. cbn [length]. lia.
  - by rewrite decide_False by done.
Qed.

Lemma count_rev x l : count x (rev l) = count x l.
Proof. unfold count. by rewrite <-Permutation_rev. Qed.

Lemma all_loop_ok (w : world) held queue q data ret b :
  devmap_ok (w_map impl w) (hold_all held queue) -> (forall p, 0 <= held p) ->
  (forall p c, (p, c) ∈ queue -> exists i d, sm_abs (dm_devices (w_map impl w)) !! i = Some p /\
     st_devs (abs (w_map impl w)) !! i = Some d /\ sound d c) ->
  buf_ok b -> ab_nul b = true -> ab_enc b = JSON ->
  exists w' ret' b',
    all_loop powl logl impl gethandler puthandler iot_time_nsecs config w queue q data ret b = Ret (w', ret', b') /\
    devmap_ok (w_map impl w') held /\ abs (w_map impl w') = abs (w_map impl w) /\
    buf_ok b' /\ ab_nul b' = true /\ ab_enc b' = JSON.
Proof.
  revert w ret b. induction queue as [|[p c] queue IH]; intros w ret b Hok Hheld Hq Hb Hn He; cbn [all_loop].
  { exists w, ret, b. by split_and!. }
  destruct (Hq p c) as (i & d & Hp & Hd & Hrun); [by left|].
  destruct (mapped_some _ _ Hok _ _ Hp) as (hd & prof & Hh & Hpr & _ & _ & _ & Ha). rewrite Hd in Ha. injection Ha as ->.
  unfold device_at. rewrite Hh. cbn [deref]. rewrite res_bind_ret.
  destruct (runOne_ok w _ c q data Hrun) as (w1 & code & ev & exc & _ & Hr & Hev & _).
  change (run_one w (with_profile (hd_dev hd) prof) c q data) with (run_one w (hd_dev hd) c q data) in Hr.
  pose proof (runOne_keeps _ _ _ _ _ _ _ _ _ Hr) as Hmap. rewrite Hr, res_bind_ret, Hmap.
  destruct (release_ok (w_map impl w) _ p Hok) as (m' & -> & Hok' & Habs' & Hdev' & _).
  { rewrite hold_all_count, count_cons, decide_True by done. unfold count. pose proof (Hheld p). lia. }
  rewrite res_bind_ret.
  assert (exists b1, (match ev with Some e => add_reply b e | None => Ret b end) = Ret b1 /\
            buf_ok b1 /\ ab_nul b1 = true /\ ab_enc b1 = JSON) as (b1 & -> & Hb1 & Hn1 & He1).
  { destruct ev as [[[j|]|data']|]; try done; [|by exists b]. rewrite add_reply_json by done. eexists.
    split; [reflexivity|]. unfold buf_ok in *. cbn [ab_bytes ab_size ab_nul ab_enc].
    split_and!; [|done|done]. rewrite !length_app. destruct (Nat.eqb _ _); cbn; lia. }
  rewrite res_bind_ret.
  destruct (IH (set_map impl w1 m') (if ret =? MHD_HTTP_OK then ret else code) b1)
    as (w' & ret' & b' & Hloop & Hok2 & Habs2 & ? & ? & ?); try done.
  - eapply devmap_ok_ext; [|exact Hok']. intros x. cbn [set_map w_map].
    unfold held_add. rewrite !hold_all_count, count_cons. destruct (decide (x = p)); lia.
  - intros p' c' Hin. cbn [set_map w_map]. rewrite Hdev', Habs'. apply Hq. by right.
  - exists w', ret', b'. cbn [set_map w_map] in Habs2. rewrite Habs2, Habs'. by split_and!.
Qed.

Lemma all_command_ok (w : world) held cmd method q data :
  devmap_ok (w_map impl w) held ->
  (forall i d c, st_devs (abs (w_map impl w)) !! i = Some d ->
     edgex_deviceprofile_findcommand cmd (dev_profile d) (bool_decide (method = GET)) = Ret (Some c) ->
     sound d c) ->
  exists w' code r, all_command w cmd method q data = Ret (w', code, r) /\
    devmap_ok (w_map impl w') held /\ abs (w_map impl w') = abs (w_map impl w).
Proof.
  intros Hok Hrun. unfold allCommand. set (g := bool_decide (method = GET)) in *.
  destruct (forcmd_ok (w_map impl w) held cmd g Hok) as (m1 & l & ids & -> & Hok1 & Habs1 & _ & Hids & Hall & Hdev).
  rewrite res_bind_ret.
  destruct (all_loop_ok (set_map impl w m1) held l q data MHD_HTTP_NOT_FOUND start_buf)
    as (w' & ret' & b' & -> & Hok' & Habs' & Hb & Hn & He); try done.
  - eapply devmap_ok_ext; [|exact Hok1]. intros x. by rewrite !hold_all_count, count_rev.
  - intros p. apply (ok_held _ _ Hok).
  - intros p c Hin. cbn [set_map w_map]. rewrite Hdev, Habs1.
    apply list_elem_of_lookup in Hin as [k Hk]. destruct (Forall2_lookup_r _ _ _ _ _ Hall Hk) as ([i c'] & Hi & Hp & Hc).
    cbn [fst snd] in Hp, Hc. subst c'. apply list_elem_of_lookup_2 in Hi. rewrite Hids in Hi.
    apply list_elem_of_omap in Hi as (i' & _ & Hans). unfold answer in Hans.
    destruct (st_devs (abs (w_map impl w)) !! i') as [d|] eqn:Hd; [|done]. cbn in Hans.
    destruct (_ && _); [|done].
    destruct (edgex_deviceprofile_findcommand cmd (dev_profile d) g) as [[c0|]| |] eqn:Hc; [|done..].
    injection Hans as -> ->. exists i, d. split_and!; try done. by eapply Hrun.
  - rewrite res_bind_ret. cbn [set_map w_map] in Habs'. rewrite Habs1 in Habs'.
    destruct (ret' =? MHD_HTTP_OK); [|by eexists _, _, _].
    unfold finish_reply. rewrite He, Hn. unfold buf_ok in Hb. rewrite buf_strcat_ok by (cbn; lia).
    rewrite !res_bind_ret. by eexists _, _, _.
Qed.

Lemma prefix_append p s : starts_with p s = true -> exists t, s = p +:+ t.
Proof.
  unfold starts_with. revert s. induction p as [|c p IH]; intros s H; [by exists s|].
  destruct s as [|c' s]; [done|]. cbn [String.prefix] in H. destruct (ascii_dec c c') as [<-|]; [|done].
  destruct (IH s H) as [t ->]. by exists t.
Qed.

(** C3. Every request on a device URL is answered, for one device or for all, whatever
    the URL and the body are, under these conditions: the URL is not the text "name"
    itself, which is read past its end ([name_url_crashes]); and every command the
    devices have for the method is [sound] on its device, that is, reads have no binary
    resource and what the driver returns has a text once transformed, in an event of
    less than 2 GB, and writes have no array, no binary and no transformed integer
    resource. (Outside these an array that holds no strings, a scale of zero and a CBOR
    event before a JSON one crash the service: [array_of_numbers_crashes],
    [zero_scale_crashes], [mixed_reply_crashes].) The devices and the references to
    them are what they were before. *)
Theorem handler_answers (w : world) (held : ptr -> Z) (url : string) (method : edgex_http_method)
    (q : devsdk_nvpairs) (data : string) :
  devmap_ok (w_map impl w) held -> url <> "name" ->
  (forall i d cmd c, st_devs (abs (w_map impl w)) !! i = Some d ->
     edgex_deviceprofile_findcommand cmd (dev_profile d) (bool_decide (method = GET)) = Ret (Some c) ->
     sound d c) ->
  exists w' code r, handler w url q method data = Ret (w', code, r) /\
    devmap_ok (w_map impl w') held /\ abs (w_map impl w') = abs (w_map impl w).
Proof.
  intros Hok Hurl Hrun. unfold edgex_device_handler_device.
  destruct (String.eqb url EmptyString); [by eexists _, _, _|].
  destruct (starts_with "all/" url).
  { destruct (String.eqb _ _); [by eexists _, _, _|]. apply all_command_ok; [done|]. eauto. }
  assert (exists url', (if starts_with "name" url then advance 5 url else Ret url) = Ret url') as [url' ->].
  { destruct (starts_with "name" url) eqn:Es; [|by eexists]. unfold advance.
    destruct (Nat.leb 5 (String.length url)) eqn:El; [by eexists|]. exfalso. apply Hurl.
    apply Nat.leb_gt in El. apply prefix_append in Es as [t ->]. rewrite length_append in El. cbn in El.
    destruct t; [done|]. cbn in El. lia. }
  rewrite res_bind_ret. destruct (str_split "/" url') as [[dev cmd]|]; [|by eexists _, _, _].
  destruct (String.eqb _ _); [by eexists _, _, _|].
  destruct (one_command_ok w held dev (starts_with "name" url) cmd method q data Hok)
    as (d & w' & code & r & m' & _ & -> & _ & Hok' & Habs' & _); [eauto|]. by eexists _, _, _.
Qed.

End requests.

(** ** Witnesses and defects *)

(** A sensor that always reads 21, and a driver that takes every value. *)
Definition sensor (i : unit) (_ : string) (_ : devsdk_protocols) (reqs : list cmdreq) (_ : devsdk_nvpairs)
    : unit * option (list (devsdk_commandresult (D := sample_iot))) * option (iot_data_t (IotData := sample_iot)) :=
  (i, Some (map (fun _ => MkResult 0 (iot_data_alloc_int IOT_DATA_INT16 21)) reqs), None).

Definition sink (i : unit) (_ : string) (_ : devsdk_protocols) (_ : list cmdreq)
    (_ : list (iot_data_t (IotData := sample_iot))) : unit * bool * option (iot_data_t (IotData := sample_iot)) :=
  (i, true, None).

(** The clock stands at 9. *)
Definition noon (_ : nat) : Z := 9.

Definition sample_config : device_config := MkDevConfig false false 128.

Definition sample_world : world (M := edgex_map_base) unit := MkWorld unit sample_map tt 0 [].

Definition sensor_readings (reqs : list cmdreq) : list (cmdreq * devsdk_commandresult (D := sample_iot) * string) :=
  map (fun rq => (rq, MkResult 0 (iot_data_alloc_int (IotData := sample_iot) IOT_DATA_INT16 21), "21")) reqs.

(** The one device of the map, and the commands of its profile. *)
Lemma sample_only i d : st_devs (abs sample_map) !! i = Some d -> d = edgex_device_dup sample_device.
Proof.
  assert (st_devs (abs sample_map) = {["id0" := edgex_device_dup sample_device]}) as -> by (vm_compute; reflexivity).
  intros H. by apply lookup_singleton_Some in H as [_ <-].
Qed.

Lemma sensor_sound d c :
  d = edgex_device_dup sample_device -> In c (match populateCmdInfo (dev_profile d) with Ret l => l | _ => [] end) ->
  sound (fun x _ => x) unit sensor noon sample_config d c.
Proof.
  intros -> Hc. vm_compute in Hc.
  assert (c = infoForDevRes sample_resource true \/ exists rq, c = MkCmdinfo "T" true [rq] /\ rq_resname rq = "temp" /\
            rq_pval rq = value_of sample_resource) as Hc'.
  { destruct Hc as [<-|[<-|[]]]; [right; eexists; split; [reflexivity|done]|by left]. }
  clear Hc. assert (exists n rq, c = MkCmdinfo n true [rq] /\ rq_resname rq = "temp" /\ rq_pval rq = value_of sample_resource)
    as (n & rq & -> & Hn & Hv).
  { destruct Hc' as [->|(rq & -> & ?)]; [eexists _, _; split; [reflexivity|done]|by exists "T", rq]. }
  split; cbn [ci_isget ci_reqs].
  - const_str.
  - done.
  - intros _. apply Forall_singleton. by rewrite Hv.
  - done.
  - intros i q i' results e t _ [= <- <- <-]. exists (sensor_readings [rq]). split_and!; [done| | |].
    + by repeat constructor.
    + apply Forall_singleton. unfold ok_reading. rewrite Hn, Hv. split_and!; [done|const_str|const_str|const_str|done].
    + unfold event_value, reading_members, sensor_readings. cbn [map]. rewrite Hn, Hv. vm_compute. reflexivity.
Qed.


Lemma handler_answers_witness :
  exists w' code r,
    edgex_device_handler_device (fun x _ => x) (fun x => x) unit sensor sink noon sample_config sample_world
      "all/T" [] GET "" = Ret (w', code, r) /\
    devmap_ok (w_map unit w') (fun _ => 0) /\ abs (w_map unit w') = abs sample_map.
Proof.
  apply (handler_answers (fun x _ => x) (fun x => x) unit sensor sink noon sample_config sample_world
           (fun _ => 0) "all/T" GET [] "").
  - apply sample_map_ok.
  - discriminate.
  - intros i d cmd c Hd Hc. rewrite (sample_only i d Hd) in *. apply sensor_sound; [done|].
    unfold edgex_deviceprofile_findcommand in Hc. destruct (populateCmdInfo _) as [l| |]; [|done..].
    rewrite res_bind_ret in Hc. injection Hc as Hc. by apply find_some in Hc as [Hin _].
Defined.

(** The test for the prefix "name/" compares four characters only: the URL "name" is
    read past its end, and a device whose identifier starts with "name" is looked up
    by a part of its identifier as if that were a name. *)
Lemma name_url_crashes :
  edgex_device_handler_device (fun x _ => x) (fun x => x) unit sensor sink noon sample_config sample_world
    "name" [] GET "" = Crash.
Proof. reflexivity. Qed.

Lemma name_prefix_misread :
  (fun r => snd (fst r)) <$>
    edgex_device_handler_device (fun x _ => x) (fun x => x) unit sensor sink noon sample_config sample_world
      "name-dev0/T" [] GET "" = Ret 200.
Proof. vm_compute. reflexivity. Qed.
