(* ===== verification/Watchers.v ===== *)
(** * Provision watchers ([watchers.c])

    A discovered device is added with the profile of the first watcher it matches:
    its properties match the patterns of the watcher, and none of them is blocked.
    The regular expressions of the C library are parameters: [regcomp] gives a
    compiled pattern or fails, [regexec] says whether a text matches. *)

From S2P Require Import Prelude CLib DevTypes EdgexRest.
Local Open Scope Z_scope.

Lemma watcher_dup_id w : edgex_watcher_dup w = w.
Proof.
  unfold edgex_watcher_dup. rewrite nvpairs_dup_id.
  assert (edgex_blocklist_dup (w_blocking_identifiers w) = w_blocking_identifiers w) as ->; [|by destruct w].
  unfold edgex_blocklist_dup, devsdk_strings_dup. etransitivity; [|apply map_id]. apply map_ext. intros [n l]. cbn.
  by rewrite map_id.
Qed.

Section watchers.
  Variables (regex_t : Type) (regcomp : string -> option regex_t) (regexec : regex_t -> string -> bool).

(** A watcher in the list, with its compiled patterns. *)
Record pwatcher := MkPwatcher { pw_watcher : edgex_watcher; pw_regs : list (string * regex_t) }.

Definition edgex_watchlist_t := list pwatcher.

Definition pw_id (pw : pwatcher) : string := w_id (pw_watcher pw).

Definition edgex_watchlist_alloc : edgex_watchlist_t := [].

Definition find_watcher (wl : edgex_watchlist_t) (id : string) : option pwatcher :=
  find (fun pw => String.eqb (pw_id pw) id) wl.

(** The loop over the identifiers: patterns that do not compile are left out. *)
Definition compile_regs (ids : devsdk_nvpairs) : list (string * regex_t) :=
  foldl (fun regs id => match regcomp (snd id) with Some r => (fst id, r) :: regs | None => regs end) [] ids.

Definition watchlist_add (wl : edgex_watchlist_t) (w : edgex_watcher) : edgex_watchlist_t :=
  let newelem := edgex_watcher_dup w in
  MkPwatcher newelem (compile_regs (w_identifiers newelem)) :: wl.

(** The first watcher with the identifier is unlinked. *)
Fixpoint unlink (id : string) (wl : edgex_watchlist_t) : edgex_watchlist_t :=
  match wl with
  | [] => []
  | pw :: wl' => if String.eqb (pw_id pw) id then wl' else pw :: unlink id wl'
  end.

Definition edgex_watchlist_remove_watcher (wl : edgex_watchlist_t) (id : string) : edgex_watchlist_t * bool :=
  match find_watcher wl id with
  | Some _ => (unlink id wl, true)
  | None => (wl, false)
  end.

(** The copy of the watcher takes the place of the old one; it has no patterns. *)
Fixpoint relink (updated : edgex_watcher) (wl : edgex_watchlist_t) : edgex_watchlist_t :=
  match wl with
  | [] => []
  | pw :: wl' =>
      if String.eqb (pw_id pw) (w_id updated) then MkPwatcher (edgex_watcher_dup updated) [] :: wl'
      else pw :: relink updated wl'
  end.

Definition edgex_watchlist_update_watcher (wl : edgex_watchlist_t) (updated : edgex_watcher) : edgex_watchlist_t :=
  match find_watcher wl (w_id updated) with
  | Some _ => relink updated wl
  | None => watchlist_add wl updated
  end.

Fixpoint edgex_watchlist_populate (wl : edgex_watchlist_t) (newlist : list edgex_watcher) (count : Z)
    : edgex_watchlist_t * Z :=
  match newlist with
  | [] => (wl, count)
  | w :: newlist' =>
      match find_watcher wl (w_id w) with
      | None => edgex_watchlist_populate (watchlist_add wl w) newlist' (wrap_u 32 (count + 1))
      | Some _ => edgex_watchlist_populate wl newlist' count
      end
  end.

Definition blocked (pw : edgex_watcher) (ids : devsdk_nvpairs) : bool :=
  existsb (fun b => match devsdk_nvpairs_value ids (Some (fst b)) with
                    | Some checkval => existsb (fun bv => String.eqb bv checkval) (snd b)
                    | None => false
                    end) (w_blocking_identifiers pw).

Definition matchpw (pw : pwatcher) (ids : devsdk_nvpairs) : bool :=
  forallb (fun m => match devsdk_nvpairs_value ids (Some (fst m)) with
                    | Some matchval => regexec (snd m) matchval
                    | None => false
                    end) (pw_regs pw)
  && negb (blocked (pw_watcher pw) ids).

Definition edgex_watchlist_match (wl : edgex_watchlist_t) (ids : devsdk_nvpairs) : option edgex_watcher :=
  option_map (fun pw => edgex_watcher_dup (pw_watcher pw)) (find (fun pw => matchpw pw ids) wl).

(** ** What the list promises *)

(** The patterns of a watcher all match, and nothing is blocked. *)
Definition matches_watcher (w : edgex_watcher) (ids : devsdk_nvpairs) : bool :=
  forallb (fun id => match regcomp (snd id) with
                     | None => true
                     | Some r => match devsdk_nvpairs_value ids (Some (fst id)) with
                                 | Some v => regexec r v
                                 | None => false
                                 end
                     end) (w_identifiers w)
  && negb (blocked w ids).

(** The patterns are those of the identifiers. *)
Definition compiled (pw : pwatcher) : Prop := pw_regs pw = compile_regs (w_identifiers (pw_watcher pw)).

Lemma compile_regs_forallb (f : string * regex_t -> bool) ids acc :
  forallb f (foldl (fun regs id => match regcomp (snd id) with Some r => (fst id, r) :: regs | None => regs end) acc ids)
  = forallb (fun id => match regcomp (snd id) with Some r => f (fst id, r) | None => true end) ids && forallb f acc.
Proof.
  revert acc. induction ids as [|[n v] ids IH]; intros acc; [done|]. cbn [foldl forallb fst snd]. rewrite IH.
  destruct (regcomp v); cbn [forallb]; [|done].
  by rewrite andb_assoc, (andb_comm (forallb _ ids)).
Qed.

Lemma matchpw_compiled pw ids : compiled pw -> matchpw pw ids = matches_watcher (pw_watcher pw) ids.
Proof.
  intros Hc. unfold matchpw, matches_watcher. rewrite Hc. unfold compile_regs. rewrite compile_regs_forallb.
  cbn [forallb]. rewrite andb_true_r. f_equal.
Qed.

(** Distinct identifiers, and every watcher with its patterns. *)
Definition watchlist_ok (wl : edgex_watchlist_t) : Prop := NoDup (map pw_id wl) /\ Forall compiled wl.

Lemma find_watcher_none wl id : find_watcher wl id = None <-> id ∉ map pw_id wl.
Proof.
  unfold find_watcher. induction wl as [|pw wl IH]; [split; [intros _; apply not_elem_of_nil|done]|].
  cbn [find map]. rewrite not_elem_of_cons. destruct (String.eqb_spec (pw_id pw) id) as [->|Hne].
  - split; [done|]. by intros [? _].
  - rewrite IH. split; [by split|]. by intros [_ ?].
Qed.

Lemma unlink_elem id wl x : x ∈ map pw_id (unlink id wl) -> x ∈ map pw_id wl.
Proof.
  induction wl as [|pw wl IH]; [done|]. cbn [unlink map]. destruct (String.eqb _ _); [by right|].
  cbn [map]. rewrite !elem_of_cons. intros [->|Hx]; [by left|right; by apply IH].
Qed.

Lemma unlink_ok id wl : watchlist_ok wl -> watchlist_ok (unlink id wl) /\ id ∉ map pw_id (unlink id wl).
Proof.
  intros [Hnd Hc]. induction wl as [|pw wl IH]; [split; [done|apply not_elem_of_nil]|].
  cbn [map] in Hnd. apply NoDup_cons in Hnd as [Hni Hnd]. apply Forall_cons in Hc as [Hpw Hc]. cbn [unlink].
  destruct (String.eqb_spec (pw_id pw) id) as [<-|Hne]; [by repeat split|].
  destruct (IH Hnd Hc) as [[Hnd' Hc'] Hni']. split; [split|].
  - cbn [map]. apply NoDup_cons. split; [|done]. intros Hin. by apply Hni, (unlink_elem id).
  - by apply Forall_cons.
  - cbn [map]. apply not_elem_of_cons. by split.
Qed.

Lemma add_ok wl w : watchlist_ok wl -> find_watcher wl (w_id w) = None -> watchlist_ok (watchlist_add wl w).
Proof.
  intros [Hnd Hc] Hf. apply find_watcher_none in Hf. split.
  - cbn [watchlist_add map]. apply NoDup_cons. by split.
  - apply Forall_cons. by split.
Qed.

(** The identifiers stay distinct, whatever the operation. *)
Lemma relink_ids w wl : map pw_id (relink w wl) = map pw_id wl.
Proof.
  induction wl as [|pw wl IH]; [done|]. cbn [relink]. destruct (String.eqb_spec (pw_id pw) (w_id w)) as [E|]; cbn [map].
  - by rewrite E.
  - by rewrite IH.
Qed.

Lemma add_ids wl w : NoDup (map pw_id wl) -> find_watcher wl (w_id w) = None -> NoDup (map pw_id (watchlist_add wl w)).
Proof. intros Hnd Hf%find_watcher_none. cbn [watchlist_add map]. apply NoDup_cons. by split. Qed.

Lemma update_ids wl w : NoDup (map pw_id wl) -> NoDup (map pw_id (edgex_watchlist_update_watcher wl w)).
Proof.
  intros Hnd. unfold edgex_watchlist_update_watcher. destruct (find_watcher wl (w_id w)) eqn:E.
  - by rewrite relink_ids.
  - by apply add_ids.
Qed.

Lemma populate_ids wl ws count : NoDup (map pw_id wl) -> NoDup (map pw_id (fst (edgex_watchlist_populate wl ws count))).
Proof.
  revert wl count. induction ws as [|w ws IH]; intros wl count Hnd; [done|]. cbn [edgex_watchlist_populate].
  destruct (find_watcher wl (w_id w)) eqn:E; apply IH; [done|by apply add_ids].
Qed.

Lemma remove_ids wl id : NoDup (map pw_id wl) -> NoDup (map pw_id (fst (edgex_watchlist_remove_watcher wl id))).
Proof.
  intros Hnd. unfold edgex_watchlist_remove_watcher. destruct (find_watcher wl id); [|done]. cbn [fst].
  induction wl as [|pw wl IH]; [done|]. cbn [map] in Hnd. apply NoDup_cons in Hnd as [Hni Hnd]. cbn [unlink].
  destruct (String.eqb _ _); [done|]. cbn [map]. apply NoDup_cons. split; [|by apply IH].
  intros Hin. by apply Hni, (unlink_elem id).
Qed.

(** Populating keeps the identifiers of the list distinct; each new
    identifier is added once, those that are known are left alone, and the number of
    watchers added is returned. *)
Theorem populate_adds (wl : edgex_watchlist_t) (ws : list edgex_watcher) (count : Z) :
  watchlist_ok wl -> 0 <= count -> count + Z.of_nat (length ws) < 2 ^ 32 ->
  let '(wl', n) := edgex_watchlist_populate wl ws count in
  watchlist_ok wl' /\
  n = count + Z.of_nat (length wl') - Z.of_nat (length wl) /\
  (forall id, id ∈ map pw_id wl' <-> id ∈ map pw_id wl \/ id ∈ map w_id ws) /\
  (forall pw, pw ∈ wl -> pw ∈ wl').
Proof.
  revert wl count. induction ws as [|w ws IH]; intros wl count Hok Hc Hlim; cbn [edgex_watchlist_populate].
  { split_and!; [done|lia| |done]. intros id. split; [by left|]. intros [|Hin]; [done|]. by apply not_elem_of_nil in Hin. }
  cbn [length] in Hlim. destruct (find_watcher wl (w_id w)) as [pw|] eqn:E.
  - specialize (IH wl count Hok Hc ltac:(lia)). destruct (edgex_watchlist_populate wl ws count) as [wl' n].
    destruct IH as (Hok' & Hn & Hids & Hin). split_and!; try done. intros id. rewrite Hids. cbn [map].
    rewrite elem_of_cons. split; [naive_solver|]. intros [?|[->|?]]; [by left| |by right]. left.
    destruct (decide (w_id w ∈ map pw_id wl)) as [|Hni]; [done|]. apply find_watcher_none in Hni. congruence.
  - rewrite wrap_u_small by lia. specialize (IH (watchlist_add wl w) (count + 1) (add_ok wl w Hok E) ltac:(lia) ltac:(lia)).
    destruct (edgex_watchlist_populate (watchlist_add wl w) ws (count + 1)) as [wl' n].
    destruct IH as (Hok' & Hn & Hids & Hin). split_and!; try done.
    + rewrite Hn. cbn [watchlist_add length]. lia.
    + intros id. rewrite Hids. cbn [watchlist_add map]. rewrite !elem_of_cons.
      change (pw_id _) with (w_id w). naive_solver.
    + intros pw Hpw. apply Hin. by right.
Qed.

(** A device is matched with the first watcher of the list all of whose patterns
    match its properties and that does not block it, if there is one. *)
Theorem match_first (wl : edgex_watchlist_t) (ids : devsdk_nvpairs) :
  watchlist_ok wl ->
  edgex_watchlist_match wl ids
  = option_map (fun pw => edgex_watcher_dup (pw_watcher pw)) (find (fun pw => matches_watcher (pw_watcher pw) ids) wl).
Proof.
  intros [_ Hc]. unfold edgex_watchlist_match. f_equal.
  induction Hc as [|pw wl Hpw _ IH]; [done|]. cbn [find]. by rewrite (matchpw_compiled pw ids Hpw), IH.
Qed.

(** A watcher takes a device with the properties [ids]: for each identifier with a
    pattern the property is there and matches, and no property has a blocked value. *)
Definition admits (w : edgex_watcher) (ids : devsdk_nvpairs) : Prop :=
  (forall name pattern r, (name, pattern) ∈ w_identifiers w -> regcomp pattern = Some r ->
     exists v, assoc ids name = Some v /\ regexec r v = true) /\
  (forall name values v, (name, values) ∈ w_blocking_identifiers w -> assoc ids name = Some v -> v ∉ values).

Lemma blocked_spec w ids :
  blocked w ids = true <->
  exists name values v, (name, values) ∈ w_blocking_identifiers w /\ assoc ids name = Some v /\ v ∈ values.
Proof.
  unfold blocked. rewrite existsb_exists. split.
  - intros ([name values] & Hin & Hb). cbn [fst snd devsdk_nvpairs_value] in Hb.
    destruct (assoc ids name) as [v|] eqn:E; [|done]. apply existsb_exists in Hb as (bv & Hbv & Heq). bool_to_prop. subst bv.
    exists name, values, v. split_and!; [by apply list_elem_of_In|done|by apply list_elem_of_In].
  - intros (name & values & v & Hin & Hv & Hmem). exists (name, values). split; [by apply list_elem_of_In|].
    cbn [fst snd devsdk_nvpairs_value]. rewrite Hv. apply existsb_exists. exists v.
    split; [by apply list_elem_of_In|by rewrite String.eqb_refl].
Qed.

Lemma matches_admits w ids : matches_watcher w ids = true <-> admits w ids.
Proof.
  unfold matches_watcher, admits. rewrite andb_true_iff, negb_true_iff, <-not_true_iff_false, blocked_spec, forallb_forall.
  assert ((forall x, In x (w_identifiers w) ->
             match regcomp x.2 with
             | Some r => match devsdk_nvpairs_value ids (Some x.1) with Some v => regexec r v | None => false end
             | None => true
             end = true) <->
          (forall name pattern r, (name, pattern) ∈ w_identifiers w -> regcomp pattern = Some r ->
             exists v, assoc ids name = Some v /\ regexec r v = true)) as ->; [|naive_solver]. split.
  - intros H name pattern r Hin Hr. apply list_elem_of_In in Hin. specialize (H _ Hin).
    cbn [fst snd devsdk_nvpairs_value] in H. rewrite Hr in H. destruct (assoc ids name); [by eexists|done].
  - intros H [name pattern] Hin. apply list_elem_of_In in Hin. cbn [fst snd devsdk_nvpairs_value].
    destruct (regcomp pattern) as [r|] eqn:Hr; [|done]. by destruct (H name pattern r Hin Hr) as (v & -> & ->).
Qed.

(** [w] is the first watcher of the list that takes a device with these properties. *)
Definition first_admitting (wl : edgex_watchlist_t) (ids : devsdk_nvpairs) (w : edgex_watcher) : Prop :=
  exists pre pw post, wl = pre ++ pw :: post /\ pw_watcher pw = w /\ admits w ids /\
    forall x, x ∈ pre -> ~ admits (pw_watcher x) ids.

Lemma match_admits (wl : edgex_watchlist_t) (ids : devsdk_nvpairs) :
  Forall compiled wl ->
  match edgex_watchlist_match wl ids with
  | Some w => first_admitting wl ids w
  | None => forall x, x ∈ wl -> ~ admits (pw_watcher x) ids
  end.
Proof.
  intros Hc. unfold edgex_watchlist_match. induction Hc as [|pw wl Hpw _ IH]; cbn [find option_map].
  { intros x Hx. by apply not_elem_of_nil in Hx. }
  rewrite (matchpw_compiled pw ids Hpw). destruct (matches_watcher (pw_watcher pw) ids) eqn:E; cbn [option_map].
  - exists [], pw, wl. rewrite watcher_dup_id. split_and!; [done|done|by apply matches_admits|].
    intros x Hx. by apply not_elem_of_nil in Hx.
  - assert (~ admits (pw_watcher pw) ids) as Hno by (rewrite <-matches_admits; congruence).
    destruct (find _ wl) as [pw'|]; cbn [option_map] in *.
    + destruct IH as (pre & x & post & -> & Hx & Ha & Hpre). exists (pw :: pre), x, post. split_and!; try done.
      intros y [->|Hy]%elem_of_cons; [done|by apply Hpre].
    + intros y [->|Hy]%elem_of_cons; [done|by apply IH].
Qed.

(** Updating a watcher drops its patterns: whatever they are, afterwards it matches
    every device it does not block. *)
Lemma updated_matches_all (wl : edgex_watchlist_t) (w : edgex_watcher) :
  is_Some (find_watcher wl (w_id w)) ->
  exists pw, find_watcher (edgex_watchlist_update_watcher wl w) (w_id w) = Some pw /\
    forall ids, matchpw pw ids = negb (blocked w ids).
Proof.
  intros [pw0 Hf]. unfold edgex_watchlist_update_watcher. rewrite Hf.
  exists (MkPwatcher (edgex_watcher_dup w) []). split; [|unfold matchpw; by rewrite watcher_dup_id].
  unfold find_watcher in *. induction wl as [|pw wl IH]; [done|]. cbn [find relink] in *.
  destruct (String.eqb (pw_id pw) (w_id w)) eqn:E.
  - cbn [find]. unfold pw_id at 1. cbn [pw_watcher edgex_watcher_dup w_id]. by rewrite String.eqb_refl.
  - cbn [find]. rewrite E. by apply IH.
Qed.

End watchers.

(** ** Witnesses, with patterns that are plain texts *)

Definition sample_watcher (id pattern : string) : edgex_watcher :=
  {| w_id := id; w_name := "w"; w_identifiers := [("host", pattern)];
     w_blocking_identifiers := [("port", ["99"])]; w_profile := "prof"; w_adminstate := UNLOCKED |}.

Lemma populate_adds_witness :
  let '(wl', n) := edgex_watchlist_populate string Some [] [sample_watcher "1" "a"; sample_watcher "2" "b"; sample_watcher "1" "c"] 0 in
  watchlist_ok string Some wl' /\
  n = 0 + Z.of_nat (length wl') - Z.of_nat (@length (pwatcher string) []) /\
  (forall id, id ∈ map (pw_id string) wl' <-> id ∈ map (pw_id string) [] \/ id ∈ map w_id [sample_watcher "1" "a"; sample_watcher "2" "b"; sample_watcher "1" "c"]) /\
  (forall pw, pw ∈ [] -> pw ∈ wl').
Proof.
  apply (populate_adds string Some [] [sample_watcher "1" "a"; sample_watcher "2" "b"; sample_watcher "1" "c"] 0).
  - split; [apply NoDup_nil_2|done].
  - done.
  - done.
Defined.

Lemma match_first_witness :
  edgex_watchlist_match string String.eqb (watchlist_add string Some [] (sample_watcher "1" "a")) [("host", "a")]
  = Some (sample_watcher "1" "a").
Proof.
  apply (match_first string Some String.eqb (watchlist_add string Some [] (sample_watcher "1" "a")) [("host", "a")]).
  split; [apply NoDup_singleton|by repeat constructor].
Defined.
