(* ===== verification/RestServer.v ===== *)
(** * The HTTP server ([rest-server.c])

    Handlers are registered for URLs; a URL that ends in a slash stands for all that
    start with it. A request goes to the first handler of the list, which is the one
    registered last, whose URL matches. The HTTP library calls [http_handler] for each
    piece of a request; it is the environment here. *)

From S2P Require Import Prelude CLib Parson DevTypes Device.
From Stdlib Require Import Ascii.
Local Open Scope Z_scope.

Definition MHD_HTTP_NOT_IMPLEMENTED : Z := 501.

Definition method_from_string (str : string) : edgex_http_method :=
  if String.eqb str "GET" then GET
  else if String.eqb str "POST" then POST
  else if String.eqb str "PUT" then PUT
  else if String.eqb str "PATCH" then PATCH
  else if String.eqb str "DELETE" then DELETE
  else UNKNOWN.

(** The values of the enumeration: one bit each. *)
Definition method_bit (m : edgex_http_method) : Z :=
  match m with GET => 1 | POST => 2 | PUT => 4 | PATCH => 8 | DELETE => 16 | UNKNOWN => 1024 end.

Definition SLASH : ascii := "/".

(** A slash is copied and those that follow it are skipped. *)
Fixpoint normalizeUrl (url : string) : string :=
  match url with
  | EmptyString => EmptyString
  | String c url' =>
      String c
        (if Ascii.eqb c SLASH
         then (fix skip (u : string) : string :=
                 match u with
                 | EmptyString => EmptyString
                 | String c' u' => if Ascii.eqb c' SLASH then skip u' else normalizeUrl u
                 end) url'
         else normalizeUrl url')
  end.

Definition EDGEX_DS_PREFIX : string := "ds-".

(** Parameters for the service itself are not passed on; the last one comes first. *)
Definition query_params (args : list (string * option string)) : devsdk_nvpairs :=
  foldl (fun l kv => if starts_with EDGEX_DS_PREFIX (fst kv) then l
                     else (fst kv, default EmptyString (snd kv)) :: l) [] args.

Section server.
  Variable (handler_fn : Type).

Record handler_list_entry := MkHandler { h_url : string; h_methods : Z; h_handler : handler_fn }.

Definition edgex_rest_server := list handler_list_entry.

Fixpoint last_char (s : string) : option ascii :=
  match s with
  | EmptyString => None
  | String c EmptyString => Some c
  | String _ s' => last_char s'
  end.

Definition ends_with_slash (s : string) : bool :=
  match last_char s with Some c => Ascii.eqb c SLASH | None => false end.

Definition url_matches (nurl : string) (h : handler_list_entry) : bool :=
  if ends_with_slash (h_url h) then starts_with (h_url h) nurl else String.eqb nurl (h_url h).

(** The loop that finds the handler. *)
Definition find_handler (svr : edgex_rest_server) (nurl : string) : option handler_list_entry :=
  find (url_matches nurl) svr.

(** A request: the status when no handler runs, or the handler with the rest of the URL. *)
Inductive route :=
| Status (code : Z)
| Listing (text : string)
| Call (f : handler_fn) (rest : string).

Definition listing (svr : edgex_rest_server) : string :=
  foldl (fun buff h => buff +:+ h_url h +:+ String (chr 10) EmptyString) EmptyString svr.

Definition http_route (svr : edgex_rest_server) (url : string) (methodname : string) : route :=
  let method := method_from_string methodname in
  if String.eqb url EmptyString || String.eqb url "/" then
    match method with GET => Listing (listing svr) | _ => Status MHD_HTTP_METHOD_NOT_ALLOWED end
  else
    let nurl := normalizeUrl url in
    match find_handler svr nurl with
    | None => Status MHD_HTTP_NOT_FOUND
    | Some h =>
        if Z.land (method_bit method) (h_methods h) =? 0 then Status MHD_HTTP_METHOD_NOT_ALLOWED
        else Call (h_handler h) (str_drop (String.length (h_url h)) nurl)
    end.

(** Equal up to the end of one of them, where one has a slash. *)
Fixpoint urlClash (u1 u2 : string) : bool :=
  match u1, u2 with
  | String c1 u1', String c2 u2' => if Ascii.eqb c1 c2 then urlClash u1' u2' else false
  | String c _, EmptyString | EmptyString, String c _ => Ascii.eqb c SLASH
  | EmptyString, EmptyString => false
  end.

Definition edgex_rest_server_register_handler (svr : edgex_rest_server) (url : string) (methods : Z)
    (handler : handler_fn) : edgex_rest_server * bool :=
  if existsb (fun match_ => urlClash (h_url match_) url) svr then (svr, false)
  else (MkHandler url methods handler :: svr, true).

End server.

(** The pieces of the body that the HTTP library delivers, each with the byte of its
    memory that follows the piece: one byte more than the piece is copied. *)
Definition upload (pieces : list (list Z * Z)) : list Z * Z :=
  foldl (fun acc p => (fst acc ++ fst p, snd p)) ([], 0) pieces.

(** The body as a string: the byte after it must be NUL. *)
Definition upload_string (pieces : list (list Z * Z)) : res (list Z) :=
  if snd (upload pieces) =? 0 then Ret (fst (upload pieces)) else Crash.

(** ** Normal URLs *)

Fixpoint no_double (s : string) : Prop :=
  match s with
  | String c s' =>
      (if Ascii.eqb c SLASH then match s' with String c' _ => Ascii.eqb c' SLASH = false | _ => True end else True)
      /\ no_double s'
  | EmptyString => True
  end.

(** The parts between the slashes that are not empty; [acc] is the part so far. *)
Fixpoint path_parts (acc s : string) : list string :=
  match s with
  | EmptyString => if String.eqb acc EmptyString then [] else [acc]
  | String c s' =>
      if Ascii.eqb c SLASH then (if String.eqb acc EmptyString then [] else [acc]) ++ path_parts EmptyString s'
      else path_parts (acc +:+ String c EmptyString) s'
  end.

(** What is left after the slashes at the start. *)
Fixpoint skip_slashes (s : string) : string :=
  match s with String c s' => if Ascii.eqb c SLASH then skip_slashes s' else s | EmptyString => EmptyString end.

Lemma normalize_slash s : normalizeUrl (String SLASH s) = String SLASH (normalizeUrl (skip_slashes s)).
Proof.
  cbn [normalizeUrl]. change (Ascii.eqb SLASH SLASH) with true. cbv iota. f_equal.
  induction s as [|c s IH]; [done|]. cbn [skip_slashes]. destruct (Ascii.eqb c SLASH) eqn:E; [exact IH|done].
Qed.

Lemma normalize_other c s : Ascii.eqb c SLASH = false -> normalizeUrl (String c s) = String c (normalizeUrl s).
Proof. intros H. cbn [normalizeUrl]. by rewrite H. Qed.

Lemma skip_slashes_length s : (String.length (skip_slashes s) <= String.length s)%nat.
Proof. induction s as [|c s IH]; [done|]. cbn. destruct (Ascii.eqb c SLASH); cbn; lia. Qed.

Lemma skip_slashes_head s : match skip_slashes s with String c _ => Ascii.eqb c SLASH = false | _ => True end.
Proof. induction s as [|c s IH]; [done|]. cbn. destruct (Ascii.eqb c SLASH) eqn:E; [done|]. by rewrite E. Qed.

Lemma skip_slashes_parts s : path_parts EmptyString (skip_slashes s) = path_parts EmptyString s.
Proof. induction s as [|c s IH]; [done|]. cbn. destruct (Ascii.eqb c SLASH) eqn:E; [done|]. cbn. by rewrite E. Qed.

Lemma normalize_head s : match normalizeUrl s, s with
                         | String c _, String c' _ => c = c'
                         | EmptyString, EmptyString => True
                         | _, _ => False
                         end.
Proof. by destruct s. Qed.

(** Induction on the pieces of a URL. *)
Lemma url_ind (P : string -> Prop) :
  P EmptyString -> (forall c s, Ascii.eqb c SLASH = false -> P s -> P (String c s)) ->
  (forall s, P (skip_slashes s) -> P (String SLASH s)) -> forall s, P s.
Proof.
  intros H0 Hc Hs s. remember (String.length s) as n eqn:Hn. assert (String.length s <= n)%nat as Hle by lia. clear Hn.
  revert s Hle. induction n as [|n IH]; intros [|c s] Hle; try done; cbn in Hle; [lia|].
  destruct (Ascii.eqb c SLASH) eqn:E.
  - apply Ascii.eqb_eq in E as ->. apply Hs, IH. pose proof (skip_slashes_length s). lia.
  - apply Hc; [done|]. apply IH. lia.
Qed.

(** Normalising a URL removes repeated slashes and nothing else: the result has
    none, its parts are the same, and a URL without repeated slashes is left alone,
    so normalising twice is normalising once. *)
Theorem normalize_url (s : string) :
  no_double (normalizeUrl s) /\ path_parts EmptyString (normalizeUrl s) = path_parts EmptyString s /\
  (no_double s -> normalizeUrl s = s) /\ normalizeUrl (normalizeUrl s) = normalizeUrl s.
Proof.
  assert (forall s, no_double (normalizeUrl s)) as H1.
  { induction s0 as [|c s0 Hc IH|s0 IH] using url_ind; [done| |].
    - rewrite normalize_other by done. cbn [no_double]. by rewrite Hc.
    - rewrite normalize_slash. cbn [no_double]. split; [|done]. change (Ascii.eqb SLASH SLASH) with true. cbv iota.
      pose proof (normalize_head (skip_slashes s0)) as Hh. pose proof (skip_slashes_head s0) as Hs.
      destruct (normalizeUrl (skip_slashes s0)), (skip_slashes s0); try done. by subst. }
  assert (forall s acc, path_parts acc (normalizeUrl s) = path_parts acc s) as H2.
  { induction s0 as [|c s0 Hc IH|s0 IH] using url_ind; intros acc; [done| |].
    - rewrite normalize_other by done. cbn [path_parts]. by rewrite Hc.
    - rewrite normalize_slash. cbn [path_parts]. change (Ascii.eqb SLASH SLASH) with true. cbv iota.
      by rewrite IH, skip_slashes_parts. }
  assert (forall s, no_double s -> normalizeUrl s = s) as H3.
  { induction s0 as [|c s0 Hc IH|s0 IH] using url_ind; [done| |].
    - rewrite normalize_other by done. cbn [no_double]. intros [_ Hnd]. by rewrite IH.
    - rewrite normalize_slash. cbn [no_double]. change (Ascii.eqb SLASH SLASH) with true. cbv iota.
      intros [Hh Hnd]. destruct s0 as [|c s0]; [done|]. cbn [skip_slashes] in *. rewrite Hh in *. by rewrite IH. }
  split_and!; auto.
Qed.

(** ** Dispatch *)

Lemma str_drop_append p t : str_drop (String.length p) (p +:+ t) = t.
Proof. induction p as [|c p IH]; [by destruct t|]. exact IH. Qed.

Lemma starts_with_append p s : starts_with p s = true <-> exists t, s = p +:+ t.
Proof.
  unfold starts_with. revert s. induction p as [|c p IH]; intros s.
  - split; [by exists s|by destruct s].
  - destruct s as [|c' s]; cbn [String.prefix].
    + split; [done|]. by intros [t ?].
    + destruct (ascii_dec c c') as [<-|Hne].
      * rewrite IH. split; intros [t Ht]; exists t; [by rewrite Ht|]. cbn in Ht. by injection Ht.
      * split; [done|]. intros [t Ht]. cbn in Ht. by injection Ht as ->.
Qed.

(** A request other than for the root goes to the last registered handler whose
    URL is the normal form of the request's URL, or a prefix of it when it ends in a
    slash; the handler gets the rest of the URL. The status is 404 when no URL
    matches and 405 when the handler is not registered for the method. *)
Theorem route_request {F : Type} (svr : edgex_rest_server F) (url m : string) :
  url <> EmptyString -> url <> "/" ->
  match http_route F svr url m with
  | Listing _ _ => False
  | Call _ f rest =>
      exists h, find_handler F svr (normalizeUrl url) = Some h /\ f = h_handler F h /\
        normalizeUrl url = h_url F h +:+ rest /\ (ends_with_slash (h_url F h) = false -> rest = EmptyString) /\
        Z.land (method_bit (method_from_string m)) (h_methods F h) <> 0
  | Status _ code =>
      code = MHD_HTTP_NOT_FOUND /\ Forall (fun h => url_matches F (normalizeUrl url) h = false) svr \/
      code = MHD_HTTP_METHOD_NOT_ALLOWED /\
      exists h, find_handler F svr (normalizeUrl url) = Some h /\
        Z.land (method_bit (method_from_string m)) (h_methods F h) = 0
  end.
Proof.
  intros H1 H2. unfold http_route. rewrite (proj2 (String.eqb_neq _ _) H1), (proj2 (String.eqb_neq _ _) H2). cbn [orb].
  destruct (find_handler F svr (normalizeUrl url)) as [h|] eqn:E.
  - destruct (_ =? 0) eqn:El; bool_to_prop; [right; split; [done|]; by exists h|].
    exists h. unfold find_handler in E. pose proof (find_some _ _ E) as [_ Hm]. unfold url_matches in Hm.
    destruct (ends_with_slash (h_url F h)) eqn:Es.
    + apply starts_with_append in Hm as [t Ht]. rewrite Ht, str_drop_append. by split_and!.
    + bool_to_prop. assert (str_drop (String.length (h_url F h)) (h_url F h) = EmptyString) as Hd
        by (rewrite <-(append_nil_r (h_url F h)) at 2; apply str_drop_append).
      rewrite Hm, Hd, append_nil_r. by split_and!.
  - left. split; [done|]. apply Forall_forall. intros h Hin. unfold find_handler in E.
    by eapply (find_none _ _ E), list_elem_of_In.
Qed.

(** ** Witness and defects *)

Definition sample_server : edgex_rest_server nat :=
  fst (edgex_rest_server_register_handler nat [] "/api/v1/device/" 7 1%nat).

Lemma route_request_witness :
  exists h, find_handler nat sample_server (normalizeUrl "/api//v1/device/x/y") = Some h /\ 1%nat = h_handler nat h /\
    normalizeUrl "/api//v1/device/x/y" = h_url nat h +:+ "x/y" /\
    (ends_with_slash (h_url nat h) = false -> "x/y" = EmptyString) /\
    Z.land (method_bit (method_from_string "GET")) (h_methods nat h) <> 0.
Proof. apply (route_request sample_server "/api//v1/device/x/y" "GET"); discriminate. Defined.

(** The test for conflicting URLs misses a URL below one that ends in a slash, and a
    URL that is registered twice; which handler runs depends on the order. *)
Lemma clash_missed :
  let '(svr, ok) := edgex_rest_server_register_handler nat sample_server "/api/v1/device/all" 7 2%nat in
  ok = true /\ Forall (fun h => url_matches nat "/api/v1/device/all" h = true) svr /\
  snd (edgex_rest_server_register_handler nat svr "/api/v1/device/all" 7 3%nat) = true.
Proof. vm_compute. repeat constructor. Qed.

(** The HTTP library does not promise a NUL after the data: the body is then no
    string. *)
Lemma unterminated_upload : upload_string [([123; 125], 13)] = Crash.
Proof. reflexivity. Qed.
