(* ===== verification/Rest.v ===== *)
(** * The HTTP client ([rest.c], [errorlist.h], [correlation.c])

    Requests to the other services of the system are made with libcurl, which is a
    parameter: [curl_easy_perform] takes the request that was set up and answers with
    a result code, a status, the header lines and the pieces of the body it hands to
    the callbacks. What is modelled is the code around it: the header list, the
    callbacks that collect the reply and supply the data of a PUT, and the errors. *)

From S2P Require Import Prelude CLib Parson ParsonText DevTypes Device.
From Stdlib Require Import Ascii.
Local Open Scope Z_scope.

(** ** Errors *)

Record devsdk_error := MkError { er_code : Z; er_reason : string }.

Definition EDGEX_OK : devsdk_error := MkError 0 "Success".
Definition EDGEX_INVALID_ARG : devsdk_error := MkError 9 "Invalid argument".
Definition EDGEX_PROFILE_PARSE_ERROR : devsdk_error := MkError 16 "Error while parsing device profile".
Definition EDGEX_HTTP_CONFLICT : devsdk_error := MkError 17 "HTTP 409 Conflict".
Definition EDGEX_CONSUL_RESPONSE : devsdk_error := MkError 18 "Unable to process response from consul".
Definition EDGEX_ASSERT_FAIL : devsdk_error :=
  MkError 20 "A reading did not match a specified assertion string".
Definition EDGEX_HTTP_ERROR : devsdk_error := MkError 21 "HTTP request failed".

(** ** The context of a request *)

(** A header that is wanted from the reply has a name and, once seen, a value. *)
Record edgex_ctx := MkCtx {
  cx_cacerts_file : option string; cx_verify_peer : bool; cx_tls_cert : option string; cx_tls_key : option string;
  cx_jwt_token : option string; cx_reqhdrs : devsdk_nvpairs; cx_rsphdrs : list (string * option string);
  cx_aborter : option bool; cx_buff : option string; cx_size : nat }.

(** [memset (&ctx, 0, sizeof (edgex_ctx))] *)
Definition ctx_zero : edgex_ctx := MkCtx None false None None None [] [] None None 0.

Definition set_buff (ctx : edgex_ctx) (b : option string) (n : nat) : edgex_ctx :=
  MkCtx (cx_cacerts_file ctx) (cx_verify_peer ctx) (cx_tls_cert ctx) (cx_tls_key ctx) (cx_jwt_token ctx) (cx_reqhdrs ctx)
    (cx_rsphdrs ctx) (cx_aborter ctx) b n.

Definition set_rsphdrs (ctx : edgex_ctx) (h : list (string * option string)) : edgex_ctx :=
  MkCtx (cx_cacerts_file ctx) (cx_verify_peer ctx) (cx_tls_cert ctx) (cx_tls_key ctx) (cx_jwt_token ctx) (cx_reqhdrs ctx)
    h (cx_aborter ctx) (cx_buff ctx) (cx_size ctx).

(** The first [n] bytes. *)
Fixpoint str_take (n : nat) (s : string) : string :=
  match n, s with
  | S n', String c s' => String c (str_take n' s')
  | _, _ => EmptyString
  end.

(** ** Request headers *)

Definition EDGEX_CRLID_HDR : string := "X-Correlation-ID".
Definition EDGEX_AUTH_HDR : string := "Authorization: Bearer ".
Definition MAX_TOKEN_LEN : nat := 600.

Definition edgex_add_hdr (slist : list string) (name value : string) : list string :=
  slist ++ [name +:+ ": " +:+ value].

(** [edgex_device_get_crlid] is the correlation identifier of the thread. *)
Definition edgex_add_crlid_hdr (crlid : option string) (slist : list string) : list string :=
  match crlid with Some id => edgex_add_hdr slist EDGEX_CRLID_HDR id | None => slist end.

Definition edgex_add_other_hdrs (slist : list string) (hdrs : devsdk_nvpairs) : list string :=
  foldl (fun s h => edgex_add_hdr s (fst h) (snd h)) slist hdrs.

Definition edgex_add_auth_hdr (ctx : edgex_ctx) (slist : list string) : list string :=
  match cx_jwt_token ctx with
  | Some token => slist ++ [EDGEX_AUTH_HDR +:+ str_take MAX_TOKEN_LEN token]
  | None => slist
  end.

(** The identifier of the thread: a request that brings none gets a new one. *)
Definition edgex_device_alloc_crlid (id : option string) (uuid : string) : option string :=
  Some (default uuid id).

Definition edgex_device_free_crlid : option string := None.

(** ** The reply *)

(** The loops over the blanks before and after a value, on indexes into the line. *)
Fixpoint skip_blanks (fuel : nat) (buffer : string) (start end_ : Z) : Z :=
  match fuel with
  | O => start
  | S fuel =>
      if (start <? end_) && (byte_at buffer (Z.to_nat start) =? 32)
      then skip_blanks fuel buffer (start + 1) end_ else start
  end.

Definition blank_end (b : Z) : bool := (b =? 10) || (b =? 32) || (b =? 13).

Fixpoint trim_end (fuel : nat) (buffer : string) (start end_ : Z) : Z :=
  match fuel with
  | O => end_
  | S fuel =>
      if (start <? end_) && blank_end (byte_at buffer (Z.to_nat end_))
      then trim_end fuel buffer start (end_ - 1) else end_
  end.

(** The end found for one wanted header is kept for those after it. *)
Fixpoint check_rsp_loop (buffer : string) (end_ : Z) (hdrs : list (string * option string))
    : list (string * option string) :=
  match hdrs with
  | [] => []
  | (name, value) :: hdrs' =>
      let len := String.length name in
      if (Z.of_nat len <? end_) && starts_with name buffer && (byte_at buffer len =? 58) then
        let start := skip_blanks (String.length buffer) buffer (Z.of_nat len + 1) end_ in
        let end_ := trim_end (String.length buffer) buffer start end_ in
        (name, Some (c_string (str_take (Z.to_nat (end_ - start + 1)) (str_drop (Z.to_nat start) buffer))))
          :: check_rsp_loop buffer end_ hdrs'
      else (name, value) :: check_rsp_loop buffer end_ hdrs'
  end.

Definition edgex_check_rsp_hdr (buffer : string) (ctx : edgex_ctx) : edgex_ctx :=
  set_rsphdrs ctx (check_rsp_loop buffer (Z.of_nat (String.length buffer) - 1) (cx_rsphdrs ctx)).

Definition edgex_http_write_cb (contents : string) (ctx : edgex_ctx) : edgex_ctx :=
  set_buff ctx (Some (str_take (cx_size ctx) (default EmptyString (cx_buff ctx)) +:+ contents))
    (cx_size ctx + String.length contents).

Definition edgex_discarder (contents : string) (ctx : edgex_ctx) : edgex_ctx := ctx.

(** The result of the progress callback: not 0 ends the transfer. *)
Definition abort_callback (flag : bool) : Z := if flag then 1 else 0.

(** The body of the reply as a C string; NULL when nothing was received. *)
Definition ctx_text (ctx : edgex_ctx) : option string := option_map c_string (cx_buff ctx).

(** ** The data of a PUT *)

Record put_data := MkPut { pd_data : string; pd_offset : nat; pd_remaining : nat }.

Definition read_callback (max_size : nat) (pd : put_data) : put_data * string :=
  let transferred := if (pd_remaining pd <? max_size)%nat then pd_remaining pd else max_size in
  if (0 <? transferred)%nat then
    (MkPut (pd_data pd) (pd_offset pd + transferred) (pd_remaining pd - transferred),
     str_take transferred (str_drop (pd_offset pd) (pd_data pd)))
  else (pd, EmptyString).

(** ** Requests *)

(** The body that is set up: none, the data of a POST, the source of a PUT (NULL when
    there is none), or the parts of a form, where a part is a file or a text. *)
Inductive http_body :=
| NoBody
| Fields (data : option string)
| Binary (data : list Z)
| Upload (src : option put_data)
| Form (parts : list (string * (string + string))).

Record http_request := MkRequest {
  hr_method : edgex_http_method; hr_url : string; hr_headers : list string; hr_body : http_body;
  hr_cainfo : option string; hr_cert : option (string * string); hr_aborter : option bool }.

Definition CURLE_OK : Z := 0.
Definition CURLE_ABORTED_BY_CALLBACK : Z := 42.

Record http_response := MkResponse {
  hs_rc : Z; hs_code : Z; hs_headers : list string; hs_body : list string }.

Section client.
  (** The state of the services that are asked, libcurl, and the identifier of the
      thread. *)
  Variables (net : Type) (curl_easy_perform : net -> http_request -> net * http_response).
  Variable (crlid : option string).

(** What is set up before: the method, the body and the first headers. *)
Definition edgex_run_curl (n : net) (ctx : edgex_ctx) (method : edgex_http_method) (body : http_body)
    (url : string) (writefunc : option (string -> edgex_ctx -> edgex_ctx)) (slist_in : list string)
    : net * edgex_ctx * Z * devsdk_error :=
  let ctx := set_buff ctx None 0 in
  let cainfo := match cx_cacerts_file ctx with
                | Some file => if cx_verify_peer ctx then Some file else None
                | None => None
                end in
  let cert := match cx_tls_cert ctx, cx_tls_key ctx with Some c, Some k => Some (c, k) | _, _ => None end in
  let slist := edgex_add_auth_hdr ctx slist_in in
  let slist := edgex_add_crlid_hdr crlid slist in
  let slist := edgex_add_other_hdrs slist (cx_reqhdrs ctx) in
  let '(n, rsp) := curl_easy_perform n (MkRequest method url slist body cainfo cert (cx_aborter ctx)) in
  let ctx := match cx_rsphdrs ctx with
             | [] => ctx
             | _ => foldl (fun c line => edgex_check_rsp_hdr line c) ctx (hs_headers rsp)
             end in
  let ctx := foldl (fun c piece => default edgex_discarder writefunc piece c) ctx (hs_body rsp) in
  if hs_rc rsp =? CURLE_OK then
    let http_code := hs_code rsp in
    let err := if http_code =? 409 then EDGEX_HTTP_CONFLICT
               else if (http_code <? 200) || (300 <=? http_code) then EDGEX_HTTP_ERROR
               else EDGEX_OK in
    (n, ctx, http_code, err)
  else if hs_rc rsp =? CURLE_ABORTED_BY_CALLBACK then (n, ctx, 0, EDGEX_OK)
  else (n, ctx, 0, EDGEX_HTTP_ERROR).

Definition edgex_http_get (n : net) (ctx : edgex_ctx) (url : string)
    (writefunc : option (string -> edgex_ctx -> edgex_ctx)) : net * edgex_ctx * Z * devsdk_error :=
  edgex_run_curl n ctx GET NoBody url writefunc [].

Definition edgex_http_delete (n : net) (ctx : edgex_ctx) (url : string)
    (writefunc : option (string -> edgex_ctx -> edgex_ctx)) : net * edgex_ctx * Z * devsdk_error :=
  edgex_run_curl n ctx DELETE NoBody url writefunc [].

Definition edgex_http_post (n : net) (ctx : edgex_ctx) (url : string) (data : option string)
    (writefunc : option (string -> edgex_ctx -> edgex_ctx)) : net * edgex_ctx * Z * devsdk_error :=
  edgex_run_curl n ctx POST (Fields data) url writefunc (edgex_add_hdr [] "Content-Type" CONTENT_JSON).

Definition edgex_http_postbin (n : net) (ctx : edgex_ctx) (url : string) (data : list Z) (mime : string)
    (writefunc : option (string -> edgex_ctx -> edgex_ctx)) : net * edgex_ctx * Z * devsdk_error :=
  edgex_run_curl n ctx POST (Binary data) url writefunc (edgex_add_hdr [] "Content-Type" mime).

Definition edgex_http_postfile (n : net) (ctx : edgex_ctx) (url fname : string)
    (writefunc : option (string -> edgex_ctx -> edgex_ctx)) : net * edgex_ctx * Z * devsdk_error :=
  edgex_run_curl n ctx POST
    (Form [("file", inl fname); ("filename", inr fname); ("submit", inr "send")]) url writefunc [].

Definition edgex_http_put (n : net) (ctx : edgex_ctx) (url : string) (data : option string)
    (writefunc : option (string -> edgex_ctx -> edgex_ctx)) : net * edgex_ctx * Z * devsdk_error :=
  edgex_run_curl n ctx PUT (Upload (option_map (fun d => MkPut d 0 (String.length d)) data)) url writefunc
    (edgex_add_hdr [] "Content-Type" CONTENT_JSON).

End client.

(** ** The reply is collected *)

Lemma str_take_app (a b : string) : str_take (String.length a) (a +:+ b) = a.
Proof. induction a as [|c a IH]; [by destruct b|]. cbn. by rewrite IH. Qed.

Lemma str_take_all (n : nat) (a : string) : (String.length a <= n)%nat -> str_take n a = a.
Proof.
  revert n. induction a as [|c a IH]; intros n Hn; [by destruct n|]. cbn in Hn. destruct n as [|n]; [lia|].
  cbn. rewrite IH; [done|lia].
Qed.

Lemma str_take_drop (n m : nat) (s : string) : str_take n s +:+ str_take m (str_drop n s) = str_take (n + m) s.
Proof.
  revert s. induction n as [|n IH]; intros s; [done|]. destruct s as [|c s]; [by destruct m|].
  cbn. by rewrite IH.
Qed.

Lemma str_take_length (n : nat) (s : string) : String.length (str_take n s) = (n `min` String.length s)%nat.
Proof. revert s. induction n as [|n IH]; intros [|c s]; cbn; [done..|]. by rewrite IH. Qed.

(** The pieces of a text in order. *)
Definition joined (pieces : list string) : string := foldr String.append EmptyString pieces.

Definition write_all (ctx : edgex_ctx) (pieces : list string) : edgex_ctx :=
  foldl (fun c piece => edgex_http_write_cb piece c) ctx pieces.

Lemma write_all_buff ctx b pieces :
  cx_buff ctx = Some b -> cx_size ctx = String.length b ->
  cx_buff (write_all ctx pieces) = Some (b +:+ joined pieces).
Proof.
  revert ctx b. induction pieces as [|x pieces IH]; intros ctx b Hb Hs; cbn [write_all foldl joined foldr].
  - by rewrite append_nil_r.
  - specialize (IH (edgex_http_write_cb x ctx) (b +:+ x)). unfold write_all in IH. rewrite IH.
    + by rewrite append_assoc.
    + cbn. by rewrite Hb, Hs, str_take_all.
    + cbn. by rewrite Hs, length_append.
Qed.

Lemma write_all_none ctx pieces :
  cx_buff ctx = None -> cx_size ctx = 0%nat ->
  cx_buff (write_all ctx pieces) = match pieces with [] => None | _ => Some (joined pieces) end.
Proof.
  intros Hb Hs. destruct pieces as [|x pieces]; [done|]. cbn [write_all foldl].
  apply (write_all_buff (edgex_http_write_cb x ctx) x pieces); cbn; by rewrite Hs.
Qed.

Lemma check_lines_buff ctx lines :
  let ctx' := foldl (fun c line => edgex_check_rsp_hdr line c) ctx lines in
  cx_buff ctx' = cx_buff ctx /\ cx_size ctx' = cx_size ctx.
Proof.
  revert ctx. induction lines as [|l lines IH]; intros ctx; [done|].
  exact (IH (edgex_check_rsp_hdr l ctx)).
Qed.

Lemma other_hdrs slist hdrs :
  edgex_add_other_hdrs slist hdrs = slist ++ map (fun h => fst h +:+ ": " +:+ snd h) hdrs.
Proof.
  unfold edgex_add_other_hdrs. revert slist. induction hdrs as [|h hdrs IH]; intros slist; cbn [foldl map].
  - by rewrite app_nil_r.
  - rewrite IH. unfold edgex_add_hdr. by rewrite <- app_assoc.
Qed.

(** The headers of a request. *)
Definition headers_of (ctx : edgex_ctx) (crlid : option string) (slist : list string) : list string :=
  slist ++ match cx_jwt_token ctx with
           | Some token => ["Authorization: Bearer " +:+ str_take 600 token]
           | None => []
           end
    ++ match crlid with Some id => ["X-Correlation-ID: " +:+ id] | None => [] end
    ++ map (fun h => fst h +:+ ": " +:+ snd h) (cx_reqhdrs ctx).

Lemma headers_ok ctx crlid slist :
  edgex_add_other_hdrs (edgex_add_crlid_hdr crlid (edgex_add_auth_hdr ctx slist)) (cx_reqhdrs ctx)
  = headers_of ctx crlid slist.
Proof.
  rewrite other_hdrs. unfold headers_of, edgex_add_crlid_hdr, edgex_add_auth_hdr, edgex_add_hdr.
  destruct (cx_jwt_token ctx), crlid; cbn [app]; by rewrite <- ?app_assoc.
Qed.

(** The request of a call with an empty context. *)
Lemma run_curl_sends {net} (perform : net -> http_request -> net * http_response) crlid n method body url wf slist :
  exists ctx' http_code err,
    edgex_run_curl net perform crlid n ctx_zero method body url wf slist
    = (fst (perform n (MkRequest method url (headers_of ctx_zero crlid slist) body None None None)), ctx', http_code, err).
Proof.
  unfold edgex_run_curl. rewrite (headers_ok (set_buff ctx_zero None 0)).
  cbn [ctx_zero set_buff cx_cacerts_file cx_tls_cert cx_aborter].
  destruct (perform _ _) as [n' rsp]. destruct (hs_rc rsp =? CURLE_OK); [by do 3 eexists|].
  destruct (hs_rc rsp =? CURLE_ABORTED_BY_CALLBACK); by do 3 eexists.
Qed.

(** A request is sent once, with the method, URL, body and headers given, the
    authorization, the correlation identifier and the headers of the context. The
    pieces of the reply are collected in order into the buffer, which is NULL when
    there are none. The error is 0 exactly when the transfer succeeded with a status
    from 200 to 299 or was aborted on demand, and a status of 409 is a conflict. *)
Theorem reply_collected {net} (perform : net -> http_request -> net * http_response) (crlid : option string)
    (n : net) (ctx : edgex_ctx) (method : edgex_http_method) (body : http_body) (url : string) (slist : list string) :
  let '(n', ctx', http_code, err) :=
    edgex_run_curl net perform crlid n ctx method body url (Some edgex_http_write_cb) slist in
  exists req rsp,
    perform n req = (n', rsp) /\
    hr_method req = method /\ hr_url req = url /\ hr_body req = body /\
    hr_headers req = headers_of ctx crlid slist /\
    cx_buff ctx' = match hs_body rsp with [] => None | _ => Some (joined (hs_body rsp)) end /\
    http_code = (if hs_rc rsp =? CURLE_OK then hs_code rsp else 0) /\
    (er_code err = 0 <-> hs_rc rsp = CURLE_OK /\ 200 <= hs_code rsp < 300 \/ hs_rc rsp = CURLE_ABORTED_BY_CALLBACK) /\
    (err = EDGEX_HTTP_CONFLICT <-> hs_rc rsp = CURLE_OK /\ hs_code rsp = 409).
Proof.
  unfold edgex_run_curl. rewrite (headers_ok (set_buff ctx None 0)).
  match goal with |- context [perform n ?r] => set (req := r) end.
  destruct (perform n req) as [n' rsp] eqn:E. cbn [default].
  set (ctx1 := match cx_rsphdrs _ with [] => _ | _ => _ end).
  assert (cx_buff ctx1 = None /\ cx_size ctx1 = 0%nat) as [Hb Hs].
  { subst ctx1. destruct (cx_rsphdrs _); [done|]. apply check_lines_buff. }
  pose proof (write_all_none ctx1 (hs_body rsp) Hb Hs) as Hbody. unfold write_all in Hbody.
  unfold CURLE_OK, CURLE_ABORTED_BY_CALLBACK.
  destruct (Z.eqb_spec (hs_rc rsp) 0) as [Hrc|Hrc]; [|destruct (Z.eqb_spec (hs_rc rsp) 42) as [Ha|Ha]];
    exists req, rsp; do 5 (split; [done|]);
    (split; [exact Hbody|split; [by destruct (Z.eqb_spec (hs_rc rsp) 0)|split]]).
  - destruct (Z.eqb_spec (hs_code rsp) 409); [split; cbn; lia|].
    destruct (_ || _)%bool eqn:Eb; split; cbn; try lia; intros _; left; lia.
  - destruct (Z.eqb_spec (hs_code rsp) 409); [done|]. destruct (_ || _)%bool; split; try done; lia.
  - split; cbn; lia.
  - split; [done|]. lia.
  - split; cbn; lia.
  - split; [done|]. lia.
Qed.

(** ** The data of a PUT is delivered *)

(** The calls of libcurl, one for each size of its buffer. *)
Fixpoint read_all (pd : put_data) (sizes : list nat) : put_data * list string :=
  match sizes with
  | [] => (pd, [])
  | n :: sizes' =>
      let '(pd, piece) := read_callback n pd in
      let '(pd, pieces) := read_all pd sizes' in (pd, piece :: pieces)
  end.

Lemma str_drop_drop (n m : nat) (s : string) : str_drop m (str_drop n s) = str_drop (n + m) s.
Proof.
  revert s. induction n as [|n IH]; intros s; [done|]. destruct s as [|c s]; [by destruct m|]. cbn. apply IH.
Qed.

Lemma read_all_ok data sizes offset :
  (offset <= String.length data)%nat ->
  let '(pd, pieces) := read_all (MkPut data offset (String.length data - offset)) sizes in
  let sent := (sum_list sizes `min` (String.length data - offset))%nat in
  pd = MkPut data (offset + sent) (String.length data - offset - sent) /\
  joined pieces = str_take sent (str_drop offset data).
Proof.
  revert offset. induction sizes as [|k sizes IH]; intros offset Ho; cbn [read_all].
  { change (sum_list []) with 0%nat. split; [f_equal; cbn; lia|done]. }
  unfold read_callback. cbn [pd_remaining pd_data pd_offset].
  set (t := if (_ <? k)%nat then _ else k).
  assert (t = k `min` (String.length data - offset))%nat as Ht
    by (subst t; destruct (Nat.ltb_spec (String.length data - offset) k); lia).
  change (sum_list (k :: sizes)) with (k + sum_list sizes)%nat.
  destruct (Nat.ltb_spec 0 t) as [Hpos|Hzero].
  - specialize (IH (offset + t)%nat ltac:(lia)).
    replace (String.length data - (offset + t))%nat with (String.length data - offset - t)%nat in IH by lia.
    destruct (read_all _ sizes) as [pd pieces]. cbn zeta in *. destruct IH as [-> Hj]. split; [f_equal; lia|].
    cbn [joined foldr]. fold (joined pieces). rewrite Hj, <- str_drop_drop, str_take_drop. f_equal. lia.
  - specialize (IH offset Ho). destruct (read_all _ sizes) as [pd pieces]. cbn zeta in *.
    destruct IH as [-> Hj]. split; [f_equal; lia|]. cbn [joined foldr]. fold (joined pieces).
    rewrite append_nil_l, Hj. f_equal. lia.
Qed.

(** Whatever the sizes of the buffers libcurl offers, the pieces that
    [read_callback] copies into them for a PUT make up the data from its start, all
    of it once the buffers are large enough together; after that it reports the end
    of the data. *)
Theorem put_delivered (data : string) (sizes : list nat) :
  let '(pd, pieces) := read_all (MkPut data 0 (String.length data)) sizes in
  joined pieces = str_take (sum_list sizes) data /\
  pd_remaining pd = (String.length data - sum_list sizes)%nat /\
  (joined pieces = data -> forall n, read_callback n pd = (pd, EmptyString)).
Proof.
  pose proof (read_all_ok data sizes 0 ltac:(lia)) as H. rewrite Nat.sub_0_r in H.
  destruct (read_all _ sizes) as [pd pieces]. cbn zeta in H. destruct H as [-> Hj]. cbn [str_drop] in Hj.
  assert (joined pieces = str_take (sum_list sizes) data) as Hj'.
  { rewrite Hj. destruct (Nat.le_ge_cases (sum_list sizes) (String.length data)) as [Hle|Hge].
    - by rewrite Nat.min_l.
    - rewrite Nat.min_r by lia. by rewrite !str_take_all. }
  split_and!; [done|cbn; lia|]. intros Hd n. rewrite Hj in Hd. apply (f_equal String.length) in Hd.
  rewrite str_take_length in Hd. unfold read_callback. cbn [pd_remaining].
  assert (String.length data - sum_list sizes `min` String.length data = 0)%nat as -> by lia. by destruct n.
Qed.

(** ** Headers of the reply *)

Definition header_line (name value : string) : string :=
  name +:+ ": " +:+ value +:+ String (chr 13) (String (chr 10) EmptyString).

(** The value of a header is found; an empty one reads as a carriage return, and a
    name in another case is not found. *)
Lemma header_value :
  cx_rsphdrs (edgex_check_rsp_hdr (header_line "X-Consul-Index" "42")
                (set_rsphdrs ctx_zero [("X-Other", None); ("X-Consul-Index", None)]))
  = [("X-Other", None); ("X-Consul-Index", Some "42")].
Proof. reflexivity. Qed.

Lemma empty_header_misread :
  cx_rsphdrs (edgex_check_rsp_hdr (header_line "X-Consul-Index" "") (set_rsphdrs ctx_zero [("X-Consul-Index", None)]))
  = [("X-Consul-Index", Some (String (chr 13) EmptyString))].
Proof. reflexivity. Qed.

Lemma header_case_missed :
  cx_rsphdrs (edgex_check_rsp_hdr (header_line "x-consul-index" "42") (set_rsphdrs ctx_zero [("X-Consul-Index", None)]))
  = [("X-Consul-Index", None)].
Proof. reflexivity. Qed.
