(* ===== verification/Metadata.v ===== *)
(** * The clients of core-metadata and core-data ([metadata.c], the client functions
    of [data.c])

    Each operation builds a URL in a buffer of [URL_BUF_SIZE] bytes, makes one request
    and reads the reply. Which names are escaped in the URL and how errors are
    reported is as in the code. [curl_easy_escape] is a parameter, like the rest of
    libcurl. *)

From S2P Require Import Prelude CLib Parson ParsonText ParsonProofs DevTypes EdgexRest EdgexRestProofs.
From S2P Require Import IotData Readings Device Rest.
From Stdlib Require Import Ascii.
Local Open Scope Z_scope.

Record edgex_device_service_endpoint := MkEndpoint { ep_host : string; ep_port : Z }.
Record edgex_service_endpoints := MkEndpoints {
  ep_data : edgex_device_service_endpoint; ep_metadata : edgex_device_service_endpoint;
  ep_logging : edgex_device_service_endpoint }.

Definition URL_BUF_SIZE : nat := 512.

(** [snprintf (url, URL_BUF_SIZE - 1, "http://%s:%u<path>", host, port, ...)]: one byte
    of the size is for the NUL. *)
Definition url_for (e : edgex_device_service_endpoint) (path : string) : string :=
  str_take (URL_BUF_SIZE - 2) ("http://" +:+ ep_host e +:+ ":" +:+ print_u (ep_port e) +:+ path).

Definition DQUOTE : string := String (chr 34) EmptyString.

(** [{"<name>":"<value>"}] *)
Definition json_pair (name value : string) : string :=
  "{" +:+ DQUOTE +:+ name +:+ DQUOTE +:+ ":" +:+ DQUOTE +:+ value +:+ DQUOTE +:+ "}".

(** [sprintf] into a buffer of the size. *)
Definition sprintf_in (size : nat) (text : string) : res string :=
  if (String.length text <? size)%nat then Ret text else Crash.

(** A reader that logs an error and returns NULL. *)
Definition or_null {A} (r : res A) : res (option A) :=
  match r with Ret a => Ret (Some a) | Fail => Ret None | Crash => Crash end.

Section metadata.
  Context `{D : IotData} `{C : Cbor}.
  Variables (net : Type) (curl_easy_perform : net -> http_request -> net * http_response).
  Variables (curl_easy_escape : string -> string) (crlid : option string).
  Variable (endpoints : edgex_service_endpoints).

Definition http_get := edgex_http_get net curl_easy_perform crlid.
Definition http_delete := edgex_http_delete net curl_easy_perform crlid.
Definition http_post := edgex_http_post net curl_easy_perform crlid.
Definition http_postbin := edgex_http_postbin net curl_easy_perform crlid.
Definition http_postfile := edgex_http_postfile net curl_easy_perform crlid.
Definition http_put := edgex_http_put net curl_easy_perform crlid.

Definition metadata_url (path : string) : string := url_for (ep_metadata endpoints) path.

(** A GET whose reply is read when there is no error. *)
Definition get_and_read {A} (n : net) (path : string) (read : option string -> res A)
    : res (net * option A * devsdk_error) :=
  let '(n, ctx, _, err) := http_get n ctx_zero (metadata_url path) (Some edgex_http_write_cb) in
  if er_code err =? 0 then result ← or_null (read (ctx_text ctx)); Ret (n, result, err)
  else Ret (n, None, err).

(** ** Profiles and configuration *)

Definition edgex_metadata_client_get_deviceprofile (n : net) (name : string)
    : res (net * option edgex_deviceprofile * devsdk_error) :=
  '(n, result, err) ← get_and_read n ("/api/v1/deviceprofile/name/" +:+ curl_easy_escape name) edgex_deviceprofile_read;
  Ret (n, result, match result with None => if er_code err =? 0 then EDGEX_PROFILE_PARSE_ERROR else err
                                  | Some _ => err end).

Definition edgex_metadata_client_get_config (n : net) : net * option JSON_Value * devsdk_error :=
  let '(n, ctx, _, err) := http_get n ctx_zero (metadata_url "/api/v1/config") (Some edgex_http_write_cb) in
  (n, if er_code err =? 0 then json_parse_string (ctx_text ctx) else None, err).

Definition edgex_metadata_client_create_deviceprofile (n : net) (newdp : edgex_deviceprofile)
    : net * option string * devsdk_error :=
  let json := edgex_deviceprofile_write newdp true in
  let '(n, ctx, _, err) := http_post n ctx_zero (metadata_url "/api/v1/deviceprofile") json (Some edgex_http_write_cb) in
  (n, ctx_text ctx, err).

Definition edgex_metadata_client_create_deviceprofile_file (n : net) (filename : string)
    : net * option string * devsdk_error :=
  let '(n, ctx, _, err) :=
    http_postfile n ctx_zero (metadata_url "/api/v1/deviceprofile/uploadfile") filename (Some edgex_http_write_cb) in
  (n, ctx_text ctx, err).

(** ** States of a device *)

Definition put_state (n : net) (path : string) (size : nat) (name value : string) : res (net * devsdk_error) :=
  data ← sprintf_in size (json_pair name value);
  let '(n, _, _, err) := http_put n ctx_zero (metadata_url path) (Some data) (Some edgex_http_write_cb) in
  Ret (n, err).

Definition OPSTATE_SIZE : nat := S (String.length "{*operatingstate*:*disabled*}").
Definition ADMINSTATE_SIZE : nat := S (String.length "{*adminstate*:*unlocked*}").

Definition edgex_metadata_client_set_device_opstate (n : net) (deviceid : string) (opstate : edgex_device_operatingstate)
    : res (net * devsdk_error) :=
  put_state n ("/api/v1/device/" +:+ deviceid) OPSTATE_SIZE "operatingstate"
    (match opstate with ENABLED => "enabled" | _ => "disabled" end).

Definition edgex_metadata_client_set_device_opstate_byname (n : net) (devicename : string)
    (opstate : edgex_device_operatingstate) : res (net * devsdk_error) :=
  put_state n ("/api/v1/device/name/" +:+ devicename) OPSTATE_SIZE "operatingstate"
    (match opstate with ENABLED => "enabled" | _ => "disabled" end).

Definition edgex_metadata_client_set_device_adminstate (n : net) (deviceid : string)
    (adminstate : edgex_device_adminstate) : res (net * devsdk_error) :=
  put_state n ("/api/v1/device/" +:+ deviceid) ADMINSTATE_SIZE "adminstate"
    (match adminstate with LOCKED => "locked" | _ => "unlocked" end).

Definition edgex_metadata_client_update_lastconnected (n : net) (devicename : string) (msecs : Z) : net * devsdk_error :=
  let url := metadata_url ("/api/v1/device/name/" +:+ devicename +:+ "/lastconnected/" +:+ print_i msecs) in
  let '(n, _, _, err) := http_put n ctx_zero url None (Some edgex_http_write_cb) in
  (n, err).

(** ** Device services *)

(** A service that is not found is no error; the text of that reply is read too. *)
Definition edgex_metadata_client_get_deviceservice (n : net) (name : string)
    : res (net * option edgex_deviceservice * devsdk_error) :=
  let url := metadata_url ("/api/v1/deviceservice/name/" +:+ curl_easy_escape name) in
  let '(n, ctx, rc, err) := http_get n ctx_zero url (Some edgex_http_write_cb) in
  let err := if rc =? 404 then EDGEX_OK else err in
  if er_code err =? 0 then result ← or_null (edgex_deviceservice_read (ctx_text ctx)); Ret (n, result, err)
  else Ret (n, None, err).

Definition edgex_metadata_client_create_deviceservice (n : net) (newds : edgex_deviceservice)
    : res (net * option string * devsdk_error) :=
  json ← edgex_deviceservice_write newds true;
  let '(n, ctx, _, err) := http_post n ctx_zero (metadata_url "/api/v1/deviceservice") json (Some edgex_http_write_cb) in
  Ret (n, ctx_text ctx, err).

(** ** Devices *)

Definition edgex_metadata_client_get_devices (n : net) (servicename : string)
    : res (net * list edgex_device * devsdk_error) :=
  '(n, result, err) ← get_and_read n ("/api/v1/device/servicename/" +:+ curl_easy_escape servicename) edgex_devices_read;
  Ret (n, default [] result, err).

(** The device that is written: [memset] to 0, then the fields that are given. With
    [create] only the names of the service and the profile are written. *)
Definition new_device (name description : string) (labels : devsdk_strings) (adminstate : edgex_device_adminstate)
    (protocols : devsdk_protocols) (autos : list edgex_device_autoevents) (service_name profile_name : string)
    : edgex_device :=
  {| dev_protocols := protocols; dev_adminState := adminstate; dev_created := 0; dev_description := description;
     dev_id := EmptyString; dev_labels := labels; dev_lastConnected := 0; dev_lastReported := 0; dev_modified := 0;
     dev_name := name; dev_operatingState := ENABLED; dev_origin := 0; dev_autos := autos;
     dev_service := {| ds_addressable := None; ds_adminState := LOCKED; ds_created := 0;
                       ds_description := EmptyString; ds_id := EmptyString; ds_labels := []; ds_lastConnected := 0;
                       ds_lastReported := 0; ds_modified := 0; ds_name := service_name;
                       ds_operatingState := ENABLED; ds_origin := 0 |};
     dev_profile := {| dp_id := EmptyString; dp_name := profile_name; dp_description := EmptyString; dp_created := 0;
                       dp_modified := 0; dp_origin := 0; dp_manufacturer := EmptyString; dp_model := EmptyString;
                       dp_labels := []; dp_resources := []; dp_commands := [] |} |}.

Definition edgex_metadata_client_add_device (n : net) (name description : string) (labels : devsdk_strings)
    (adminstate : edgex_device_adminstate) (protocols : devsdk_protocols) (autos : list edgex_device_autoevents)
    (service_name profile_name : string) : res (net * option string * devsdk_error) :=
  json ← edgex_device_write (new_device name description labels adminstate protocols autos service_name profile_name) true;
  let '(n, ctx, _, err) := http_post n ctx_zero (metadata_url "/api/v1/device") json (Some edgex_http_write_cb) in
  Ret (n, if er_code err =? 0 then ctx_text ctx else None, err).

(** The error stays [EDGEX_OK] when the text is not a device. *)
Definition edgex_metadata_client_get_device (n : net) (deviceid : string)
    : res (net * option edgex_device * devsdk_error) :=
  get_and_read n ("/api/v1/device/" +:+ deviceid) edgex_device_read.

Definition edgex_metadata_client_update_device (n : net) (name id description : option string) (labels : devsdk_strings)
    (profile_name : option string) : net * devsdk_error :=
  let json := edgex_device_write_sparse name id description labels profile_name in
  let '(n, _, _, err) := http_put n ctx_zero (metadata_url "/api/v1/device") json (Some edgex_http_write_cb) in
  (n, err).

Definition edgex_metadata_client_delete_device (n : net) (deviceid : string) : net * devsdk_error :=
  let '(n, _, _, err) :=
    http_delete n ctx_zero (metadata_url ("/api/v1/device/id/" +:+ deviceid)) (Some edgex_http_write_cb) in
  (n, err).

Definition edgex_metadata_client_delete_device_byname (n : net) (devicename : string) : net * devsdk_error :=
  let url := metadata_url ("/api/v1/device/name/" +:+ curl_easy_escape devicename) in
  let '(n, _, _, err) := http_delete n ctx_zero url (Some edgex_http_write_cb) in
  (n, err).

(** ** Provision watchers *)

Definition edgex_metadata_client_get_watchers (n : net) (servicename : string)
    : res (net * list edgex_watcher * devsdk_error) :=
  '(n, result, err) ←
    get_and_read n ("/api/v1/provisionwatcher/servicename/" +:+ curl_easy_escape servicename) edgex_watchers_read;
  Ret (n, default [] result, err).

Definition edgex_metadata_client_get_watcher (n : net) (watcherId : string)
    : res (net * option edgex_watcher * devsdk_error) :=
  get_and_read n ("/api/v1/provisionwatcher/" +:+ watcherId) edgex_watcher_read.

(** ** Addressables *)

(** An addressable that is not found is no error. *)
Definition edgex_metadata_client_get_addressable (n : net) (name : string)
    : res (net * option edgex_addressable * devsdk_error) :=
  let url := metadata_url ("/api/v1/addressable/name/" +:+ curl_easy_escape name) in
  let '(n, ctx, rc, err) := http_get n ctx_zero url (Some edgex_http_write_cb) in
  if er_code err =? 0 then result ← or_null (edgex_addressable_read (ctx_text ctx)); Ret (n, result, EDGEX_OK)
  else Ret (n, None, if rc =? 404 then EDGEX_OK else err).

Definition edgex_metadata_client_create_addressable (n : net) (newadd : edgex_addressable)
    : net * option string * devsdk_error :=
  let json := edgex_addressable_write newadd true in
  let '(n, ctx, _, err) := http_post n ctx_zero (metadata_url "/api/v1/addressable") json (Some edgex_http_write_cb) in
  (n, ctx_text ctx, err).

Definition edgex_metadata_client_update_addressable (n : net) (addressable : edgex_addressable) : net * devsdk_error :=
  let json := edgex_addressable_write addressable false in
  let '(n, _, _, err) := http_put n ctx_zero (metadata_url "/api/v1/addressable") json (Some edgex_http_write_cb) in
  (n, err).

(** ** Core-data *)

Definition data_url (path : string) : string := url_for (ep_data endpoints) path.

Definition edgex_data_client_add_event (n : net) (eventval : edgex_event_cooked) : net * devsdk_error :=
  let url := data_url "/api/v1/event" in
  let '(n, _, _, err) :=
    match eventval with
    | CookedJSON json => http_post n ctx_zero url json None
    | CookedCBOR bytes => http_postbin n ctx_zero url bytes CONTENT_CBOR None
    end in
  (n, err).

(** ** What the clients promise *)

(** The URL of a request before it is cut to the size of the buffer. *)
Definition full_url (e : edgex_device_service_endpoint) (path : string) : string :=
  "http://" +:+ ep_host e +:+ ":" +:+ print_u (ep_port e) +:+ path.

Lemma url_fits e path : (String.length (full_url e path) <= 510)%nat -> url_for e path = full_url e path.
Proof. intros H. by apply str_take_all. Qed.

(** A GET that the server answers. *)
Lemma get_answered n n' url code hdrs pieces :
  (forall req, hr_method req = GET -> hr_url req = url ->
   curl_easy_perform n req = (n', MkResponse CURLE_OK code hdrs pieces)) ->
  200 <= code < 300 ->
  exists ctx, http_get n ctx_zero url (Some edgex_http_write_cb) = (n', ctx, code, EDGEX_OK) /\
    cx_buff ctx = match pieces with [] => None | _ => Some (joined pieces) end.
Proof.
  intros Hreq Hcode. unfold http_get, edgex_http_get, edgex_run_curl. rewrite Hreq by done.
  cbn [hs_rc hs_code hs_headers hs_body ctx_zero set_buff cx_rsphdrs default].
  change (CURLE_OK =? CURLE_OK) with true. cbn match.
  destruct (Z.eqb_spec code 409); [lia|]. destruct (_ || _)%bool eqn:E; [lia|].
  eexists. split; [reflexivity|]. apply (write_all_none (set_buff ctx_zero None 0)); done.
Qed.

Lemma read_answered {A} (read : option string -> res A) n n' path code hdrs pieces a :
  (String.length (full_url (ep_metadata endpoints) path) <= 510)%nat ->
  (forall req, hr_method req = GET -> hr_url req = full_url (ep_metadata endpoints) path ->
   curl_easy_perform n req = (n', MkResponse CURLE_OK code hdrs pieces)) ->
  200 <= code < 300 -> pieces <> [] -> cstr (joined pieces) -> read (Some (joined pieces)) = Ret a ->
  get_and_read n path read = Ret (n', Some a, EDGEX_OK).
Proof.
  intros Hlen Hreq Hcode Hp Hc Hread. unfold get_and_read, metadata_url. rewrite url_fits by done.
  destruct (get_answered n n' _ code hdrs pieces Hreq Hcode) as (ctx & -> & Hb). cbn match.
  change (er_code EDGEX_OK =? 0) with true. cbn match. unfold ctx_text. rewrite Hb.
  destruct pieces as [|x pieces]; [done|]. cbn [option_map]. by rewrite c_string_id, Hread by done.
Qed.

(** When core-metadata answers the request for a device with the text of the
    device, in any number of pieces, the client returns the device as it comes back
    from that text and no error. *)
Theorem device_fetched (n n' : net) (id : string) (d : edgex_device) (hdrs pieces : list string) :
  ok_device d ->
  (forall v, device_write d false = Ret v -> Z.of_nat (String.length (json_text false 0 v)) < 2 ^ 31 - 1) ->
  edgex_device_write d false = Ret (Some (joined pieces)) ->
  (String.length (full_url (ep_metadata endpoints) ("/api/v1/device/" +:+ id)) <= 510)%nat ->
  (forall req, hr_method req = GET -> hr_url req = full_url (ep_metadata endpoints) ("/api/v1/device/" +:+ id) ->
   curl_easy_perform n req = (n', MkResponse CURLE_OK 200 hdrs pieces)) ->
  edgex_metadata_client_get_device n id = Ret (n', Some (device_back d), EDGEX_OK).
Proof.
  intros Hok Hlim Hw Hlen Hreq. destruct (device_text d Hok Hlim) as (t & Hw' & Hc & Hr).
  assert (t = joined pieces) as -> by congruence.
  eapply (read_answered edgex_device_read); [done|exact Hreq|lia| |done|done].
  intros ->. vm_compute in Hr. done.
Qed.

End metadata.

Definition sample_endpoint : edgex_device_service_endpoint := MkEndpoint "localhost" 48081.
Definition sample_endpoints : edgex_service_endpoints := MkEndpoints sample_endpoint sample_endpoint sample_endpoint.

(** The text of the sample device in two pieces. *)
Definition sample_pieces : list string :=
  match edgex_device_write sample_device false with
  | Ret (Some t) => [str_take 100 t; str_drop 100 t]
  | _ => []
  end.

(** A server that answers every request with a status and a body. *)
Definition answering (code : Z) (pieces : list string) (n : unit) (req : http_request) : unit * http_response :=
  (n, MkResponse CURLE_OK code [] pieces).

Lemma device_fetched_witness :
  edgex_metadata_client_get_device unit (answering 200 sample_pieces) None sample_endpoints tt "dev-1"
  = Ret (tt, Some (device_back sample_device), EDGEX_OK).
Proof.
  apply (device_fetched unit (answering 200 sample_pieces) None sample_endpoints tt tt "dev-1" sample_device [] sample_pieces).
  - exact sample_device_ok.
  - intros v Hv. vm_compute in Hv. injection Hv as <-. vm_compute. reflexivity.
  - vm_compute. reflexivity.
  - vm_compute. lia.
  - reflexivity.
Defined.

(** A service that does not exist, reported with a JSON object as the text of the
    error, is taken for a service without a name. *)
Lemma missing_service_found :
  exists ds, edgex_metadata_client_get_deviceservice unit (answering 404 ["{}"]) id None sample_endpoints tt "device-x"
             = Ret (tt, Some ds, EDGEX_OK) /\ ds_name ds = EmptyString.
Proof. eexists. split; vm_compute; reflexivity. Qed.

(** A device that is reported as added without a text has no identifier, and there is
    no error. *)
Lemma added_without_id :
  edgex_metadata_client_add_device unit (answering 200 []) None sample_endpoints tt "dev" "" [] UNLOCKED [] [] "svc" "prof"
  = Ret (tt, None, EDGEX_OK).
Proof. vm_compute. reflexivity. Qed.

(** A server that keeps the requests. *)
Definition recording (n : list http_request) (req : http_request) : list http_request * http_response :=
  (n ++ [req], MkResponse CURLE_OK 200 [] []).

(** The name of a device stands as it is in the URL of the request for its state: what
    follows a question mark is then a query and not part of the name. *)
Lemma name_not_escaped :
  ('(n, _) ← edgex_metadata_client_set_device_opstate_byname (list http_request) recording None sample_endpoints []
               "pump?2" DISABLED;
   Ret (map hr_url n)) = Ret ["http://localhost:48081/api/v1/device/name/pump?2"].
Proof. vm_compute. reflexivity. Qed.
