(* ===== verification/DevMan.v ===== *)
(** * Management of devices ([devman.c])

    The functions a driver calls to add, look up, update and remove devices, and to
    report devices it discovered. A device is added or removed in core-metadata only:
    the map changes when core-metadata calls back. *)

From S2P Require Import Prelude CLib HashMap Parson ParsonText DevTypes EdgexRest EdgexRestProofs IotData Readings.
From S2P Require Import CmdInfo AutoEvent DevMap DevMapProofs Device Watchers Rest Metadata.
Local Open Scope Z_scope.

(** A device a driver found. *)
Record devsdk_discovered_device := MkDiscovered {
  dd_name : string; dd_protocols : devsdk_protocols; dd_description : string; dd_labels : devsdk_strings }.

Section devman.
  Context {M : Type -> Type} `{SM : StringMap M}.
  Variables (regex_t : Type) (regcomp : string -> option regex_t) (regexec : regex_t -> string -> bool).
  Variables (net : Type) (curl_easy_perform : net -> http_request -> net * http_response).
  Variables (curl_easy_escape : string -> string) (crlid : option string).
  Variable (impl : Type).

(** The parts of [devsdk_service_t] that change, and the state of the other services
    and of the driver. *)
Record service := MkService {
  sv_devices : edgex_devmap_t (M := M); sv_watchlist : edgex_watchlist_t regex_t; sv_net : net; sv_impl : impl }.

Definition sv_set_devices (sv : service) (m : edgex_devmap_t) : service :=
  MkService m (sv_watchlist sv) (sv_net sv) (sv_impl sv).
Definition sv_set_watchlist (sv : service) (wl : edgex_watchlist_t regex_t) : service :=
  MkService (sv_devices sv) wl (sv_net sv) (sv_impl sv).
Definition sv_set_net (sv : service) (n : net) : service :=
  MkService (sv_devices sv) (sv_watchlist sv) n (sv_impl sv).
Definition sv_set_impl (sv : service) (i : impl) : service :=
  MkService (sv_devices sv) (sv_watchlist sv) (sv_net sv) i.

(** The name of the service and where the others are. *)
  Variables (svc_name : string) (endpoints : edgex_service_endpoints).

Definition edgex_add_device (sv : service) (name description : string) (labels : devsdk_strings)
    (profile_name : string) (protocols : devsdk_protocols) (locked : bool) (autos : list edgex_device_autoevents)
    : res (service * option string * devsdk_error) :=
  '(m, existing) ← edgex_devmap_device_byname (sv_devices sv) name;
  match existing with
  | Some p =>
      hd ← device_at m p;
      m ← edgex_device_release m p;
      Ret (sv_set_devices sv m, Some (dev_id (hd_dev hd)), EDGEX_OK)
  | None =>
      '(n, result, err) ←
        edgex_metadata_client_add_device net curl_easy_perform crlid endpoints (sv_net sv) name description labels
          (if locked then LOCKED else UNLOCKED) protocols autos svc_name profile_name;
      Ret (sv_set_net (sv_set_devices sv m) n, result, err)
  end.

Definition edgex_devices (sv : service) : res (list edgex_device) := edgex_devmap_copydevices (sv_devices sv).

(** The copy of a device that was looked up; the reference is given back. *)
Definition copy_and_release (sv : service) (found : edgex_devmap_t * option ptr) : res (service * option edgex_device) :=
  let '(m, internal) := found in
  match internal with
  | Some p =>
      hd ← device_at m p;
      dev ← view m hd;
      m ← edgex_device_release m p;
      Ret (sv_set_devices sv m, Some (edgex_device_dup dev))
  | None => Ret (sv_set_devices sv m, None)
  end.

Definition edgex_get_device (sv : service) (id : string) : res (service * option edgex_device) :=
  f ← edgex_devmap_device_byid (sv_devices sv) id; copy_and_release sv f.

Definition edgex_get_device_byname (sv : service) (name : string) : res (service * option edgex_device) :=
  f ← edgex_devmap_device_byname (sv_devices sv) name; copy_and_release sv f.

Definition edgex_remove_device (sv : service) (id : string) : service * devsdk_error :=
  let '(n, err) := edgex_metadata_client_delete_device net curl_easy_perform crlid endpoints (sv_net sv) id in
  (sv_set_net sv n, err).

Definition edgex_remove_device_byname (sv : service) (name : string) : service * devsdk_error :=
  let '(n, err) :=
    edgex_metadata_client_delete_device_byname net curl_easy_perform curl_easy_escape crlid endpoints (sv_net sv) name in
  (sv_set_net sv n, err).

Definition edgex_update_device (sv : service) (id name description : option string) (labels : devsdk_strings)
    (profile_name : option string) : service * devsdk_error :=
  let '(n, err) :=
    edgex_metadata_client_update_device net curl_easy_perform crlid endpoints (sv_net sv) name id description labels
      profile_name in
  (sv_set_net sv n, err).

Definition edgex_set_device_opstate (sv : service) (devname : string) (operational : bool) : res (service * devsdk_error) :=
  '(n, err) ←
    edgex_metadata_client_set_device_opstate_byname net curl_easy_perform crlid endpoints (sv_net sv) devname
      (if operational then ENABLED else DISABLED);
  Ret (sv_set_net sv n, err).

(** ** Discovery *)

(** The watcher of the first protocol that is matched. *)
Fixpoint protocol_watcher (wl : edgex_watchlist_t regex_t) (prots : devsdk_protocols) : option edgex_watcher :=
  match prots with
  | [] => None
  | (_, properties) :: prots' =>
      match edgex_watchlist_match regex_t regexec wl properties with
      | Some w => Some w
      | None => protocol_watcher wl prots'
      end
  end.

Fixpoint devsdk_add_discovered_devices (sv : service) (devices : list devsdk_discovered_device) : res service :=
  match devices with
  | [] => Ret sv
  | d :: devices' =>
      sv ← match protocol_watcher (sv_watchlist sv) (dd_protocols d) with
           | Some w =>
               '(sv, _, _) ←
                 edgex_add_device sv (dd_name d) (dd_description d) (dd_labels d) (w_profile w) (dd_protocols d)
                   (bool_decide (w_adminstate w = LOCKED)) [];
               Ret sv
           | None => Ret sv
           end;
      devsdk_add_discovered_devices sv devices'
  end.

(** ** What the functions promise *)

(** A device that was looked up can be read and given back. *)
Lemma give_back m m1 held held1 p d :
  devmap_ok (M := M) m held -> devmap_ok m1 held1 -> found m1 held held1 (Some p) d ->
  exists hd dv m', d = Some dv /\ device_at m1 p = Ret hd /\ view m1 hd = Ret dv /\
    dev_id dv = dev_id (hd_dev hd) /\
    dev_name dv = dev_name (hd_dev hd) /\ dev_protocols dv = dev_protocols (hd_dev hd) /\
    edgex_device_release m1 p = Ret m' /\ devmap_ok m' held /\ abs m' = abs m1 /\ dm_next m' = dm_next m1.
Proof.
  intros Hok Hok1 (Hheld & Hne & Hl). destruct d as [dv|]; [|done]. unfold look in Hl.
  destruct (dm_heap m1 !! p) as [hd|] eqn:Hp; [|done]. cbn in Hl.
  destruct (dm_pheap m1 !! hd_profile hd) as [prof|] eqn:Hpr; [|done]. cbn in Hl. injection Hl as <-.
  destruct (release_ok m1 held1 p Hok1) as (m' & Hrel & Hok' & Habs & _ & _ & Hn).
  { rewrite Hheld, held_add_self. pose proof (proj1 (ok_held _ _ Hok p)). lia. }
  exists hd, (with_profile (hd_dev hd) prof), m'. unfold device_at, view, profile_at. rewrite Hp, Hpr.
  split_and!; try done. eapply devmap_ok_ext; [|exact Hok']. intros x.
  rewrite <-(held_add_back held p 1 x). unfold held_add at 1 2. by destruct (decide (x = p)); rewrite Hheld.
Qed.

(** What is sent to core-metadata for a new device. *)
Definition add_request (name description : string) (labels : devsdk_strings) (profile_name : string)
    (protocols : devsdk_protocols) (locked : bool) (autos : list edgex_device_autoevents) : option http_request :=
  match edgex_device_write (new_device name description labels (if locked then LOCKED else UNLOCKED) protocols autos
                              svc_name profile_name) true with
  | Ret json => Some (MkRequest POST (url_for (ep_metadata endpoints) "/api/v1/device")
                        (headers_of ctx_zero crlid ["Content-Type: application/json"]) (Fields json) None None None)
  | _ => None
  end.

Lemma add_device_ok sv held name description labels profile_name protocols locked autos :
  devmap_ok (sv_devices sv) held ->
  exists sv' r err, edgex_add_device sv name description labels profile_name protocols locked autos = Ret (sv', r, err) /\
    devmap_ok (sv_devices sv') held /\ abs (sv_devices sv') = abs (sv_devices sv) /\
    sv_watchlist sv' = sv_watchlist sv /\ sv_impl sv' = sv_impl sv /\
    if has_name (abs (sv_devices sv)) name then sv_net sv' = sv_net sv /\ err = EDGEX_OK /\
         exists d, with_name (abs (sv_devices sv)) name (Some d) /\ r = Some (dev_id d)
    else exists req, add_request name description labels profile_name protocols locked autos = Some req /\
         sv_net sv' = fst (curl_easy_perform (sv_net sv) req).
Proof.
  intros Hok. unfold edgex_add_device.
  destruct (byname_ok (sv_devices sv) held name Hok) as (m1 & o & held1 & d & -> & Hok1 & Habs1 & _ & Hf & Hn).
  rewrite res_bind_ret. destruct o as [p|].
  - destruct (give_back _ _ _ _ _ _ Hok Hok1 Hf) as (hd & dv & m' & -> & -> & _ & Hid & _ & _ & Hrel & Hok' & Habs' & _).
    rewrite res_bind_ret, Hrel, res_bind_ret. do 3 eexists. split; [reflexivity|].
    split_and!; [done|cbn; by rewrite Habs'|done|done|].
    destruct (has_name _ name) eqn:E.
    + split_and!; [done|done|]. exists dv. by rewrite Hid.
    + rewrite has_name_false in E. destruct Hn as [Hd Hnm]. by apply E in Hd.
  - destruct Hf as [Hheld ->]. cbn [with_name] in Hn. apply has_name_false in Hn. rewrite Hn.
    unfold edgex_metadata_client_add_device, add_request.
    match goal with |- context [edgex_device_write ?d true] => destruct (edgex_device_write d true) as [json| |] eqn:E end;
      [|done..].
    rewrite res_bind_ret. unfold http_post, edgex_http_post, metadata_url.
    match goal with |- context [edgex_run_curl _ _ _ ?n _ ?me ?b ?u ?w ?l] =>
      destruct (run_curl_sends curl_easy_perform crlid n me b u w l) as (ctx' & hc & err & ->) end.
    rewrite res_bind_ret. do 3 eexists. split; [reflexivity|]. split_and!.
    + eapply devmap_ok_ext; [|exact Hok1]. done.
    + exact Habs1.
    + reflexivity.
    + reflexivity.
    + eexists. split; reflexivity.
Qed.

(** What is sent for a list of devices. *)
Definition send_all (n : net) (reqs : list http_request) : net :=
  foldl (fun n req => fst (curl_easy_perform n req)) n reqs.

(** The watcher that takes a discovered device: the first one that takes the properties
    of a protocol, for the first protocol that is taken at all. *)
Definition taken_by (wl : edgex_watchlist_t regex_t) (prots : devsdk_protocols)
    (w : edgex_watcher) : Prop :=
  exists pre p post, prots = pre ++ p :: post /\ first_admitting regex_t regcomp regexec wl (snd p) w /\
    forall p' x, p' ∈ pre -> x ∈ wl -> ~ admits regex_t regcomp regexec (pw_watcher _ x) (snd p').

(** What is sent for a discovered device: if it is taken by a watcher and no device has
    its name, the request to add it with the profile and the state of the watcher. *)
Definition announced (s : dstate) (wl : edgex_watchlist_t regex_t)
    (d : devsdk_discovered_device) (sent : list http_request) : Prop :=
  (exists w req, taken_by wl (dd_protocols d) w /\
     (forall i x, st_devs s !! i = Some x -> dev_name x <> dd_name d) /\ sent = [req] /\
     add_request (dd_name d) (dd_description d) (dd_labels d) (w_profile w) (dd_protocols d)
       (bool_decide (w_adminstate w = LOCKED)) [] = Some req) \/
  (((forall p x, p ∈ dd_protocols d -> x ∈ wl -> ~ admits regex_t regcomp regexec (pw_watcher _ x) (snd p)) \/
    (exists i x, st_devs s !! i = Some x /\ dev_name x = dd_name d)) /\ sent = []).

Lemma protocol_watcher_taken wl prots :
  Forall (compiled regex_t regcomp) wl ->
  match protocol_watcher wl prots with
  | Some w => taken_by wl prots w
  | None => forall p x, p ∈ prots -> x ∈ wl -> ~ admits regex_t regcomp regexec (pw_watcher _ x) (snd p)
  end.
Proof.
  intros Hc. induction prots as [|[name props] prots IH]; cbn [protocol_watcher].
  { intros p x Hp. by apply not_elem_of_nil in Hp. }
  pose proof (match_admits regex_t regcomp regexec wl props Hc) as Hm. destruct (edgex_watchlist_match _ _ wl props) as [w|].
  - exists [], (name, props), prots. split_and!; [done|done|]. intros p' x Hp'. by apply not_elem_of_nil in Hp'.
  - destruct (protocol_watcher wl prots) as [w|].
    + destruct IH as (pre & p & post & -> & Hf & Hpre). exists ((name, props) :: pre), p, post. split_and!; [done|done|].
      intros p' x [->|Hp']%elem_of_cons Hx; [by apply Hm|by apply Hpre].
    + intros p x [->|Hp]%elem_of_cons Hx; [by apply Hm|by apply IH].
Qed.

(** C34. Each discovered device that is taken by a watcher and whose name is not in the
    map is sent to core-metadata once, in order, with the profile and the state of that
    watcher: the first watcher of the list all of whose patterns are matched by the
    properties of a protocol and none of whose blocked values occur, for the first
    protocol that has one. Nothing else is sent, and the map, the watchers and the
    references to devices stay as they are. The watchers have their patterns compiled,
    which holds until one is updated: that drops its patterns
    ([updated_matches_all]). *)
Theorem discovered_posted (sv : service) (held : ptr -> Z)
    (devices : list devsdk_discovered_device) :
  devmap_ok (sv_devices sv) held -> Forall (compiled regex_t regcomp) (sv_watchlist sv) ->
  exists sv' sent, devsdk_add_discovered_devices sv devices = Ret sv' /\
    devmap_ok (sv_devices sv') held /\ abs (sv_devices sv') = abs (sv_devices sv) /\
    sv_watchlist sv' = sv_watchlist sv /\ sv_impl sv' = sv_impl sv /\
    Forall2 (announced (abs (sv_devices sv)) (sv_watchlist sv)) devices sent /\
    sv_net sv' = send_all (sv_net sv) (concat sent).
Proof.
  revert sv. induction devices as [|d devices IH]; intros sv Hok Hc; cbn [devsdk_add_discovered_devices].
  { exists sv, []. split_and!; try done. }
  pose proof (protocol_watcher_taken _ (dd_protocols d) Hc) as Ht.
  destruct (protocol_watcher (sv_watchlist sv) (dd_protocols d)) as [w|].
  - destruct (add_device_ok sv held (dd_name d) (dd_description d) (dd_labels d) (w_profile w) (dd_protocols d)
                (bool_decide (w_adminstate w = LOCKED)) [] Hok) as (sv1 & r & err & -> & Hok1 & Habs & Hw & Hi & Hn).
    rewrite !res_bind_ret. destruct (IH sv1 Hok1 ltac:(by rewrite Hw)) as (sv' & sent & -> & Hok' & Habs' & Hw' & Hi' & Hall & Hn').
    rewrite Habs, Hw in *. destruct (has_name (abs (sv_devices sv)) (dd_name d)) eqn:E.
    + destruct Hn as (Hn & _ & dv & [Hdv Hname] & _). exists sv', ([] :: sent). rewrite Hn', Hn, Hi', Hi.
      split_and!; try done. constructor; [|done]. right. split; [|done]. right. by exists (dev_id dv), dv.
    + destruct Hn as (req & Hreq & Hn). exists sv', ([req] :: sent). rewrite Hn', Hn, Hi', Hi.
      split_and!; try done. constructor; [|done]. left. exists w, req. pose proof (proj1 (has_name_false _ _) E). by split_and!.
  - rewrite res_bind_ret. destruct (IH sv Hok Hc) as (sv' & sent & -> & Hok' & Habs' & Hw' & Hi' & Hall & Hn').
    exists sv', ([] :: sent). split_and!; try done. constructor; [|done]. right. split; [by left|done].
Qed.

(** A device that is looked up is returned as a copy, and the map and the references
    stay as they are. *)
Lemma get_device_copies sv held id :
  devmap_ok (sv_devices sv) held ->
  exists sv', edgex_get_device sv id = Ret (sv', edgex_device_dup <$> (st_devs (abs (sv_devices sv)) !! id)) /\
    devmap_ok (sv_devices sv') held /\ abs (sv_devices sv') = abs (sv_devices sv) /\ sv_net sv' = sv_net sv.
Proof.
  intros Hok. unfold edgex_get_device.
  destruct (byid_ok (sv_devices sv) held id Hok) as (m1 & o & held1 & -> & Hok1 & Habs1 & _ & Hf).
  rewrite res_bind_ret. unfold copy_and_release. destruct o as [p|].
  - destruct (give_back _ _ _ _ _ _ Hok Hok1 Hf) as (hd & dv & m' & -> & -> & Hv & _ & _ & _ & Hrel & Hok' & Habs' & _).
    rewrite res_bind_ret, Hv, res_bind_ret, Hrel, res_bind_ret. eexists. split; [reflexivity|].
    split_and!; [done|cbn; by rewrite Habs'|done].
  - destruct Hf as [Hheld ->]. eexists. split; [reflexivity|]. split_and!; [|done|done].
    eapply devmap_ok_ext; [|exact Hok1]. done.
Qed.

End devman.

(** ** Witness: a known device, a new one that is matched, one that is not *)

Definition sample_service : service (M := edgex_map_base) string (list http_request) unit :=
  MkService string (list http_request) unit sample_map (watchlist_add string Some [] (sample_watcher "1" "a")) [] tt.

Definition sample_found : list devsdk_discovered_device :=
  [MkDiscovered "dev0" [("TCP", [("host", "a")])] "known" [];
   MkDiscovered "dev1" [("OPC", [("node", "7")]); ("TCP", [("host", "a")])] "new" ["x"];
   MkDiscovered "dev2" [("TCP", [("host", "b")])] "other" []].

Lemma discovered_posted_witness :
  exists sv' sent,
    devsdk_add_discovered_devices string String.eqb _ recording None unit "svc" sample_endpoints sample_service sample_found = Ret sv' /\
    devmap_ok (sv_devices _ _ _ sv') (fun _ => 0) /\ abs (sv_devices _ _ _ sv') = abs sample_map /\
    sv_watchlist _ _ _ sv' = sv_watchlist _ _ _ sample_service /\ sv_impl _ _ _ sv' = tt /\
    Forall2 (announced string Some String.eqb None "svc" sample_endpoints (abs sample_map)
               (sv_watchlist _ _ _ sample_service)) sample_found sent /\
    sv_net _ _ _ sv' = send_all _ recording [] (concat sent).
Proof.
  apply (discovered_posted string Some String.eqb _ recording None unit "svc" sample_endpoints sample_service
           (fun _ => 0) sample_found).
  - exact sample_map_ok.
  - by repeat constructor.
Defined.

(** In that run one request is sent, for the second device. *)
Lemma sample_discovery :
  (sv ← devsdk_add_discovered_devices string String.eqb _ recording None unit "svc" sample_endpoints sample_service sample_found;
   Ret (length (sv_net _ _ _ sv))) = Ret 1%nat.
Proof. vm_compute. reflexivity. Qed.
