(* ===== verification/Callback.v ===== *)
(** * Callbacks from core-metadata ([callback.c])

    Core-metadata reports that a device, a provision watcher or a profile was added,
    changed or removed; the service fetches the object and updates its own state. *)

From S2P Require Import Prelude CLib HashMap Parson ParsonText DevTypes EdgexRest EdgexRestProofs IotData Readings.
From S2P Require Import CmdInfo AutoEvent DevMap DevMapProofs Device RestServer Watchers Rest Metadata DevMan.
Local Open Scope Z_scope.

(** The statuses of a callback. *)
Definition callback_statuses : list Z := [MHD_HTTP_OK; MHD_HTTP_BAD_REQUEST; MHD_HTTP_NOT_IMPLEMENTED].

Lemma status_ok : MHD_HTTP_OK ∈ callback_statuses.
Proof. by left. Qed.
Lemma status_bad : MHD_HTTP_BAD_REQUEST ∈ callback_statuses.
Proof. by right; left. Qed.
Lemma status_unknown : MHD_HTTP_NOT_IMPLEMENTED ∈ callback_statuses.
Proof. by right; right; left. Qed.
#[export] Hint Resolve status_ok status_bad status_unknown : sdk.

Section callback.
  Context {M : Type -> Type} `{SM : StringMap M}.
  Variables (regex_t : Type) (regcomp : string -> option regex_t).
  Variables (net : Type) (curl_easy_perform : net -> http_request -> net * http_response).
  Variables (crlid : option string) (impl : Type).
  Variables (svc_name : string) (endpoints : edgex_service_endpoints).
  (** The functions of the driver, each of which can be missing. *)
  Variables (device_added device_updated : option (impl -> string -> devsdk_protocols -> bool -> impl))
            (device_removed : option (impl -> string -> devsdk_protocols -> impl)).

Abbreviation service := (DevMan.service (M := M) regex_t net impl) (only parsing).
Abbreviation devices := (sv_devices regex_t net impl) (only parsing).
Abbreviation watchlist := (sv_watchlist regex_t net impl) (only parsing).

(** A C enumeration as a [bool]: LOCKED is 0. *)
Definition admin_bool (s : edgex_device_adminstate) : bool :=
  match s with LOCKED => false | UNLOCKED => true end.

(** The calls into the driver. *)
Definition note_added (i : impl) (d : edgex_device) : impl :=
  match device_added with
  | Some f => f i (dev_name d) (dev_protocols d) (admin_bool (dev_adminState d))
  | None => i
  end.
Definition note_updated (i : impl) (d : edgex_device) : impl :=
  match device_updated with
  | Some f => f i (dev_name d) (dev_protocols d) (admin_bool (dev_adminState d))
  | None => i
  end.
Definition note_removed (i : impl) (d : edgex_device) : impl :=
  match device_removed with Some f => f i (dev_name d) (dev_protocols d) | None => i end.

Definition with_devices (sv : service) (m : edgex_devmap_t) : service := sv_set_devices regex_t net impl sv m.
Definition with_net (sv : service) (n : net) : service := sv_set_net regex_t net impl sv n.
Definition with_impl (sv : service) (i : impl) : service := sv_set_impl regex_t net impl sv i.
Definition with_watchlist (sv : service) (wl : edgex_watchlist_t regex_t) : service :=
  sv_set_watchlist regex_t net impl sv wl.

(** ** Profiles *)

Definition updateProfile (sv : service) (method : edgex_http_method) (id : string) : res (service * Z) :=
  match method with
  | POST => Ret (sv, MHD_HTTP_OK)
  | PUT | DELETE =>
      '(m, removed) ← edgex_devmap_remove_profile (devices sv) id;
      Ret (with_devices sv m, if removed : bool then MHD_HTTP_OK else MHD_HTTP_BAD_REQUEST)
  | _ => Ret (sv, MHD_HTTP_NOT_IMPLEMENTED)
  end.

(** ** Provision watchers *)

Definition get_watcher := edgex_metadata_client_get_watcher net curl_easy_perform crlid endpoints.

Definition updateWatcher (sv : service) (method : edgex_http_method) (id : string) : res (service * Z) :=
  match method with
  | DELETE =>
      let '(wl, _) := edgex_watchlist_remove_watcher regex_t (watchlist sv) id in
      Ret (with_watchlist sv wl, MHD_HTTP_OK)
  | POST =>
      '(n, w, _) ← get_watcher (sv_net _ _ _ sv) id;
      let sv := with_net sv n in
      Ret (match w with
           | Some w => with_watchlist sv (fst (edgex_watchlist_populate regex_t regcomp (watchlist sv) [w] 0))
           | None => sv
           end, MHD_HTTP_OK)
  | PUT =>
      '(n, w, _) ← get_watcher (sv_net _ _ _ sv) id;
      let sv := with_net sv n in
      Ret (match w with
           | Some w => with_watchlist sv (edgex_watchlist_update_watcher regex_t regcomp (watchlist sv) w)
           | None => sv
           end, MHD_HTTP_OK)
  | _ => Ret (sv, MHD_HTTP_NOT_IMPLEMENTED)
  end.

(** ** Devices *)

Definition get_device := edgex_metadata_client_get_device net curl_easy_perform crlid endpoints.

Definition updateDevice (sv : service) (method : edgex_http_method) (id : string) : res (service * Z) :=
  match method with
  | DELETE =>
      match device_removed with
      | Some removed =>
          '(m, dev) ← edgex_devmap_device_byid (devices sv) id;
          match dev with
          | Some p =>
              m ← edgex_devmap_removedevice_byid m id;
              hd ← device_at m p;
              let i := removed (sv_impl _ _ _ sv) (dev_name (hd_dev hd)) (dev_protocols (hd_dev hd)) in
              m ← edgex_device_release m p;
              Ret (with_impl (with_devices sv m) i, MHD_HTTP_OK)
          | None => Ret (with_devices sv m, MHD_HTTP_OK)
          end
      | None =>
          m ← edgex_devmap_removedevice_byid (devices sv) id;
          Ret (with_devices sv m, MHD_HTTP_OK)
      end
  | POST | PUT =>
      '(n, newdev, _) ← get_device (sv_net _ _ _ sv) id;
      let sv := with_net sv n in
      match newdev with
      | None => Ret (sv, MHD_HTTP_OK)
      | Some newdev =>
          if negb (String.eqb (ds_name (dev_service newdev)) svc_name) then
            m ← edgex_devmap_removedevice_byid (devices sv) id;
            Ret (with_impl (with_devices sv m) (note_removed (sv_impl _ _ _ sv) newdev), MHD_HTTP_OK)
          else
            '(m, outcome) ← edgex_devmap_replace_device (devices sv) newdev;
            let i := match outcome with
                     | CREATED => note_added (sv_impl _ _ _ sv) newdev
                     | UPDATED_DRIVER => note_updated (sv_impl _ _ _ sv) newdev
                     | UPDATED_SDK => sv_impl _ _ _ sv
                     end in
            Ret (with_impl (with_devices sv m) i, MHD_HTTP_OK)
      end
  | _ => Ret (sv, MHD_HTTP_NOT_IMPLEMENTED)
  end.

(** ** The handler *)

Definition edgex_device_handler_callback (sv : service) (method : edgex_http_method) (upload_data : option string)
    : res (service * Z) :=
  match json_parse_string upload_data with
  | None => Ret (sv, MHD_HTTP_BAD_REQUEST)
  | Some jval =>
      let jobj := json_value_get_object (Some jval) in
      match json_object_get_string jobj "type", json_object_get_string jobj "id" with
      | Some action, Some id =>
          if String.eqb action "DEVICE" then updateDevice sv method id
          else if String.eqb action "PROVISIONWATCHER" then updateWatcher sv method id
          else if String.eqb action "PROFILE" then updateProfile sv method id
          else Ret (sv, MHD_HTTP_BAD_REQUEST)
      | _, _ => Ret (sv, MHD_HTTP_BAD_REQUEST)
      end
  end.

(** ** What the callbacks do *)

(** A device that was fetched has the operations of its profile resolved. *)
Lemma fetched_resolved n id n' d err : get_device n id = Ret (n', Some d, err) -> resolved (dev_profile d).
Proof.
  unfold get_device, edgex_metadata_client_get_device, get_and_read.
  destruct (http_get _ _ _ _ _ _ _) as [[[n1 ctx] c] e]. destruct (er_code e =? 0); [|done].
  destruct (edgex_device_read (ctx_text ctx)) as [dv| |] eqn:E; cbn [or_null]; rewrite ?res_bind_ret; [|done..].
  intros [= _ <- _]. unfold edgex_device_read, read_json in E.
  destruct (json_value_get_object _) as [obj|]; [|done]. unfold device_read in E.
  destruct (deviceprofile_read _) as [prof| |] eqn:Ep; [|done..]. rewrite res_bind_ret in E.
  destruct (protocols_read _); [|done..]. rewrite res_bind_ret in E. injection E as <-.
  by eapply profile_read_resolved.
Qed.

(** The effect on the devices and on the driver. *)
Definition spec_device (s : dstate) (i : impl) (method : edgex_http_method) (id : string)
    (newdev : option edgex_device) : dstate * impl :=
  match method, newdev with
  | DELETE, _ =>
      (MkState (delete id (st_devs s)) (st_profs s),
       match st_devs s !! id with Some d => note_removed i d | None => i end)
  | (POST | PUT), Some d =>
      if String.eqb (ds_name (dev_service d)) svc_name then
        let '(s', outcome) := spec_replace s d in
        (s', match outcome with
             | CREATED => note_added i d
             | UPDATED_DRIVER => note_updated i d
             | UPDATED_SDK => i
             end)
      else (MkState (delete id (st_devs s)) (st_profs s), note_removed i d)
  | _, _ => (s, i)
  end.

Definition device_status (method : edgex_http_method) : Z :=
  match method with POST | PUT | DELETE => MHD_HTTP_OK | _ => MHD_HTTP_NOT_IMPLEMENTED end.

(** Devices that stay in memory keep their contents when another reference goes. *)
Lemma release_look (m m' : edgex_devmap_t (M := M)) p x :
  edgex_device_release m p = Ret m' -> is_Some (dm_heap m' !! x) -> look m' x = look m x.
Proof.
  unfold edgex_device_release, device_at. destruct (dm_heap m !! p) as [hd|] eqn:Hp; [|done]. cbn [deref].
  rewrite res_bind_ret. destruct (hd_refs hd =? 1); intros [= <-] [y Hx]; unfold look; cbn [dm_heap dm_pheap set_heap] in *.
  - apply lookup_delete_Some in Hx as [Hne Hx]. by rewrite lookup_delete_ne.
  - destruct (decide (p = x)) as [<-|Hne]; [by rewrite lookup_insert_eq, Hp|by rewrite lookup_insert_ne].
Qed.

Lemma remove_byid_look (m m' : edgex_devmap_t (M := M)) id x :
  edgex_devmap_removedevice_byid m id = Ret m' -> is_Some (dm_heap m' !! x) -> look m' x = look m x.
Proof.
  unfold edgex_devmap_removedevice_byid. destruct (sm_get (dm_devices m) id) as [p|]; [|by intros [= <-]].
  unfold remove_locked, device_at at 1. destruct (dm_heap m !! p) as [hd|]; [|done]. cbn [deref].
  rewrite res_bind_ret. intros Hrel Hx. by rewrite (release_look _ _ _ _ Hrel Hx).
Qed.

Lemma delete_device_ok sv held id :
  devmap_ok (devices sv) held ->
  exists sv', updateDevice sv DELETE id = Ret (sv', MHD_HTTP_OK) /\ devmap_ok (devices sv') held /\
    (dm_next (devices sv') <= dm_next (devices sv) + 2)%nat /\ watchlist sv' = watchlist sv /\
    (abs (devices sv'), sv_impl _ _ _ sv') = spec_device (abs (devices sv)) (sv_impl _ _ _ sv) DELETE id None.
Proof.
  intros Hok. cbn [updateDevice spec_device]. unfold note_removed. destruct device_removed as [removed|].
  - destruct (byid_ok (devices sv) held id Hok) as (m1 & o & held1 & -> & Hok1 & Habs1 & Hn1 & Hf). rewrite res_bind_ret.
    destruct o as [p|].
    + destruct (remove_byid_ok m1 held1 id Hok1) as (m2 & Hrm & Hok2 & Hn2 & Habs2). rewrite Hrm, res_bind_ret.
      assert (found m2 held held1 (Some p) (st_devs (abs (devices sv)) !! id)) as Hf2.
      { destruct Hf as (Hheld & Hne & Hl). split_and!; [done|done|]. rewrite (remove_byid_look _ _ _ _ Hrm); [done|].
        apply (ok_held _ _ Hok2). rewrite Hheld, held_add_self. pose proof (proj1 (ok_held _ _ Hok p)). lia. }
      destruct (give_back _ _ _ _ _ _ Hok Hok2 Hf2) as (hd & dv & m' & -> & -> & _ & _ & -> & -> & Hrel & Hok' & Habs' & Hn').
      rewrite res_bind_ret, Hrel, res_bind_ret. eexists. split; [reflexivity|].
      split_and!; [done|cbn; lia|done|]. cbn. by rewrite Habs', Habs2, Habs1.
    + destruct Hf as [Hheld Hd]. eexists. split; [reflexivity|]. rewrite Hd.
      split_and!; [by eapply devmap_ok_ext|cbn; lia|done|]. cbn. rewrite Habs1, delete_id by done. by destruct (abs _).
  - destruct (remove_byid_ok (devices sv) held id Hok) as (m' & -> & Hok' & Hn & Habs). rewrite res_bind_ret.
    eexists. split; [reflexivity|]. split_and!; [done|cbn; lia|done|]. cbn. rewrite Habs. by destruct (_ !! _).
Qed.

Lemma update_device_ok sv held method id n' newdev err :
  devmap_ok (devices sv) held -> Z.of_nat (dm_next (devices sv)) < sm_limit (M := M) ->
  get_device (sv_net _ _ _ sv) id = Ret (n', newdev, err) ->
  (forall d, newdev = Some d -> name_free (abs (devices sv)) d) ->
  exists sv', updateDevice sv method id = Ret (sv', device_status method) /\ devmap_ok (devices sv') held /\
    (dm_next (devices sv') <= dm_next (devices sv) + 2)%nat /\ watchlist sv' = watchlist sv /\
    (abs (devices sv'), sv_impl _ _ _ sv') = spec_device (abs (devices sv)) (sv_impl _ _ _ sv) method id newdev.
Proof.
  intros Hok Hlim Hget Hfree. destruct (decide (method = DELETE)) as [->|Hnd]; [by apply delete_device_ok|].
  destruct (decide (method = POST \/ method = PUT)) as [Hpp|Hnp].
  2: { exists sv. destruct method; try done; try (by destruct Hnp; auto); cbn; (split_and!; [done|done|lia|done|done]). }
  assert (updateDevice sv method id = updateDevice sv PUT id /\ device_status method = MHD_HTTP_OK /\
          spec_device (abs (devices sv)) (sv_impl _ _ _ sv) method id newdev
          = spec_device (abs (devices sv)) (sv_impl _ _ _ sv) PUT id newdev) as (-> & -> & ->).
  { by destruct Hpp as [-> | ->]. }
  cbn [updateDevice spec_device]. rewrite Hget, res_bind_ret. destruct newdev as [d|].
  2: { eexists. split; [reflexivity|]. split_and!; [done|cbn; lia|done|done]. }
  destruct (String.eqb (ds_name (dev_service d)) svc_name); cbn [negb].
  - destruct (replace_ok (devices sv) held d Hok) as (m' & o & E & Hok' & Hn & Habs);
      [by apply Hfree|by eapply fetched_resolved|done|].
    change (devices (with_net sv n')) with (devices sv). rewrite E, res_bind_ret, <-Habs.
    eexists. split; [reflexivity|]. by split_and!.
  - destruct (remove_byid_ok (devices sv) held id Hok) as (m' & E & Hok' & Hn & Habs).
    change (devices (with_net sv n')) with (devices sv). rewrite E, res_bind_ret.
    eexists. split; [reflexivity|]. split_and!; [done|cbn; lia|done|]. cbn. by rewrite Habs.
Qed.

(** C31. A callback for a device changes the map of devices as the specification
    says: a device that was removed or moved to another service goes, one that was
    added or changed comes in or is updated with what core-metadata answers; the
    driver is told exactly once when that matters to it. The references to devices
    are the same as before, and methods other than POST, PUT and DELETE are refused.
    It is assumed that the reply of core-metadata can be read, which is not so for a
    reply with a member that is not a string among named values
    ([nvpairs_read_crash]), and that the name of the device is not that of another one
    in the map, which would lose the latter ([shared_name_lost]). *)
Theorem callback_device (sv : service) (held : ptr -> Z) (method : edgex_http_method) (id : string)
    (n' : net) (newdev : option edgex_device) (err : devsdk_error) :
  devmap_ok (devices sv) held -> Z.of_nat (dm_next (devices sv)) < sm_limit (M := M) ->
  get_device (sv_net _ _ _ sv) id = Ret (n', newdev, err) ->
  (forall d, newdev = Some d -> name_free (abs (devices sv)) d) ->
  exists sv', updateDevice sv method id = Ret (sv', device_status method) /\
    devmap_ok (devices sv') held /\ watchlist sv' = watchlist sv /\
    (abs (devices sv'), sv_impl _ _ _ sv') = spec_device (abs (devices sv)) (sv_impl _ _ _ sv) method id newdev.
Proof.
  intros Hok Hlim Hget Hfree. destruct (update_device_ok sv held method id n' newdev err Hok Hlim Hget Hfree)
    as (sv' & Hup & Hok' & _ & Hw & Habs). by exists sv'.
Qed.

(** What the service relies on core-metadata for: the texts it sends can be read, and
    a device it describes does not have the name of another one. *)
Definition metadata_sane (sv : service) : Prop :=
  (forall id, exists n' newdev err, get_device (sv_net _ _ _ sv) id = Ret (n', newdev, err) /\
              forall d, newdev = Some d -> name_free (abs (devices sv)) d) /\
  (forall id, exists n' w err, get_watcher (sv_net _ _ _ sv) id = Ret (n', w, err)).

Definition service_ok (sv : service) (held : ptr -> Z) : Prop :=
  devmap_ok (devices sv) held /\ NoDup (map (pw_id regex_t) (watchlist sv)).

(** The call returns with a known status and the state stays well-formed. *)
Definition answered (held : ptr -> Z) (r : res (service * Z)) : Prop :=
  exists sv' status, r = Ret (sv', status) /\ service_ok sv' held /\
    status ∈ callback_statuses.

Lemma answered_ret held sv status :
  service_ok sv held -> status ∈ callback_statuses ->
  answered held (Ret (sv, status)).
Proof. intros Hok Hs. by exists sv, status. Qed.

Lemma profile_answered sv held method id : service_ok sv held -> answered held (updateProfile sv method id).
Proof.
  intros [Hok Hnd]. destruct (remove_profile_ok (devices sv) held id Hok) as (m' & b & E & Hok' & _).
  unfold updateProfile. destruct method; rewrite ?E, ?res_bind_ret; try (apply answered_ret; [done|by auto with sdk]).
  all: apply answered_ret; [done|destruct b; by auto with sdk].
Qed.

Lemma watcher_answered sv held method id :
  service_ok sv held -> (exists n' w err, get_watcher (sv_net _ _ _ sv) id = Ret (n', w, err)) ->
  answered held (updateWatcher sv method id).
Proof.
  intros [Hok Hnd] (n' & w & err & E). unfold updateWatcher.
  destruct method; rewrite ?E, ?res_bind_ret; try (apply answered_ret; [done|by auto with sdk]).
  - apply answered_ret; [|by auto with sdk]. destruct w; (split; [done|]); [|done].
    exact (populate_ids regex_t regcomp (watchlist sv) _ 0 Hnd).
  - apply answered_ret; [|by auto with sdk]. destruct w; (split; [done|]); [|done].
    exact (update_ids regex_t regcomp (watchlist sv) _ Hnd).
  - pose proof (remove_ids regex_t (watchlist sv) id Hnd) as H. destruct (edgex_watchlist_remove_watcher _ _ _) as [wl b].
    apply answered_ret; [by split|by auto with sdk].
Qed.

Lemma device_answered sv held method id :
  service_ok sv held -> Z.of_nat (dm_next (devices sv)) < sm_limit (M := M) -> metadata_sane sv ->
  answered held (updateDevice sv method id).
Proof.
  intros [Hok Hnd] Hlim [Hdev _]. destruct (Hdev id) as (n' & newdev & err & Hget & Hfree).
  destruct (update_device_ok sv held method id n' newdev err Hok Hlim Hget Hfree) as (sv' & -> & Hok' & _ & Hw & _).
  apply answered_ret; [split; [done|by rewrite Hw]|destruct method; by auto with sdk].
Qed.

(** C23. Every callback is answered, whatever its text and method, when core-metadata is
    sane: the replies to the requests the callback makes can be read (one with a member
    that is not a string among named values crashes the service, [nvpairs_read_crash])
    and a device it describes does not have the name of another one
    ([shared_name_lost]). The status is 200, 400 or 501, the state of the service stays
    well-formed, and the references to devices are as before. A text that is not JSON
    changes nothing. *)
Theorem callback_handled (sv : service) (held : ptr -> Z) (method : edgex_http_method) (upload_data : option string) :
  service_ok sv held -> Z.of_nat (dm_next (devices sv)) < sm_limit (M := M) -> metadata_sane sv ->
  answered held (edgex_device_handler_callback sv method upload_data) /\
  (json_parse_string upload_data = None ->
   edgex_device_handler_callback sv method upload_data = Ret (sv, MHD_HTTP_BAD_REQUEST)).
Proof.
  intros Hok Hlim Hsane. unfold edgex_device_handler_callback.
  destruct (json_parse_string upload_data) as [jval|]; (split; [|done]); [|apply answered_ret; [done|by auto with sdk]].
  destruct (json_object_get_string _ "type") as [action|]; [|apply answered_ret; [done|by auto with sdk]].
  destruct (json_object_get_string _ "id") as [id|]; [|apply answered_ret; [done|by auto with sdk]].
  destruct (String.eqb action "DEVICE"); [by apply device_answered|].
  destruct (String.eqb action "PROVISIONWATCHER"); [by apply watcher_answered, Hsane|].
  destruct (String.eqb action "PROFILE"); [by apply profile_answered|]. apply answered_ret; [done|by auto with sdk].
Qed.

End callback.

(** ** Witnesses: a server that knows one device *)

Definition callback_service : DevMan.service (M := edgex_map_base) string unit (list string) :=
  MkService string unit (list string) sample_map [] tt [].

Definition tell (what : string) (log : list string) (name : string) (p : devsdk_protocols) (enabled : bool) : list string :=
  log ++ [what +:+ name].

Lemma sample_name_free d :
  dev_id d = "id0" -> name_free (abs sample_map) d.
Proof.
  intros Hd i a Hi _. assert (st_devs (abs sample_map) = {["id0" := edgex_device_dup sample_device]}) as E by (vm_compute; reflexivity).
  rewrite E in Hi. apply lookup_singleton_Some in Hi as [<- _]. done.
Qed.

Lemma callback_device_witness :
  exists sv', updateDevice string unit (answering 200 sample_pieces) None (list string) "svc" sample_endpoints
                (Some (tell "added ")) (Some (tell "updated ")) None callback_service PUT "id0" = Ret (sv', MHD_HTTP_OK) /\
    devmap_ok (sv_devices _ _ _ sv') (fun _ => 0) /\ sv_watchlist _ _ _ sv' = [] /\
    (abs (sv_devices _ _ _ sv'), sv_impl _ _ _ sv')
    = spec_device (list string) "svc" (Some (tell "added ")) (Some (tell "updated ")) None (abs sample_map) [] PUT "id0"
        (Some (device_back sample_device)).
Proof.
  apply (callback_device string unit (answering 200 sample_pieces) None (list string) "svc" sample_endpoints
           (Some (tell "added ")) (Some (tell "updated ")) None callback_service (fun _ => 0) PUT "id0" tt
           (Some (device_back sample_device)) EDGEX_OK).
  - exact sample_map_ok.
  - vm_compute. reflexivity.
  - vm_compute. reflexivity.
  - intros d [= <-]. by apply sample_name_free.
Defined.

(** The callback for a device: an object with its type and identifier. *)
Definition callback_text (id : string) : string :=
  let q s := DQUOTE +:+ s +:+ DQUOTE in
  "{" +:+ q "type" +:+ ":" +:+ q "DEVICE" +:+ "," +:+ q "id" +:+ ":" +:+ q id +:+ "}".

(** The text of the callback is read as meant: the device goes and the driver is told. *)
Example callback_changes :
  match edgex_device_handler_callback string Some unit (answering 200 sample_pieces) None (list string) "svc" sample_endpoints
          None None (Some (fun log name p => tell "removed " log name p true)) callback_service DELETE
          (Some (callback_text "id0")) with
  | Ret (sv', status) => (sv_impl _ _ _ sv', status, st_devs (abs (sv_devices _ _ _ sv')) !! "id0") | _ => ([], 0, None) end
  = (["removed dev0"], 200, None).
Proof. vm_compute. reflexivity. Qed.

Lemma callback_handled_witness :
  answered string unit (list string) (fun _ => 0)
    (edgex_device_handler_callback string Some unit (answering 200 sample_pieces) None (list string) "svc" sample_endpoints
       (Some (tell "added ")) (Some (tell "updated ")) None callback_service PUT (Some (callback_text "id0"))) /\
  (json_parse_string (Some (callback_text "id0")) = None ->
   edgex_device_handler_callback string Some unit (answering 200 sample_pieces) None (list string) "svc" sample_endpoints
     (Some (tell "added ")) (Some (tell "updated ")) None callback_service PUT (Some (callback_text "id0"))
   = Ret (callback_service, MHD_HTTP_BAD_REQUEST)).
Proof.
  apply (callback_handled string Some unit (answering 200 sample_pieces) None (list string) "svc" sample_endpoints
           (Some (tell "added ")) (Some (tell "updated ")) None callback_service (fun _ => 0) PUT (Some (callback_text "id0"))).
  - split; [exact sample_map_ok|apply NoDup_nil_2].
  - vm_compute. reflexivity.
  - split.
    + intros id. exists tt, (Some (device_back sample_device)), EDGEX_OK. split; [vm_compute; reflexivity|].
      intros d [= <-]. by apply sample_name_free.
    + intros id. do 3 eexists. vm_compute. reflexivity.
Defined.
