(* ===== verification/AutoRun.v ===== *)
(** * Running automatic events ([autoevent.c], [edgex_autoimpl_release] and [ae_runner])

    A schedule fires: the device is looked up by name, its resource is read, and the
    readings are sent to core-data. With [onChange] readings equal to those last sent
    are not sent again. The second part is the life of the memory of a schedule, which
    the threads that run it share with the one that stops it. *)

From S2P Require Import Prelude CLib CFloat HashMap Parson ParsonText DevTypes EdgexRest EdgexRestProofs IotData Transform.
From S2P Require Import Readings CmdInfo AutoEvent DevMap DevMapProofs Device DeviceProofs Watchers Rest Metadata DevMan.
Local Open Scope Z_scope.

Section autorun.
  Context {M : Type -> Type} `{SM : StringMap M} `{D : IotData} `{C : Cbor}.
  Variables (powl : spec_float -> spec_float -> spec_float).
  Variable (impl : Type).
  Variable (gethandler : impl -> string -> devsdk_protocols -> list cmdreq -> devsdk_nvpairs ->
                         impl * option (list devsdk_commandresult) * option iot_data_t).
  (** Clock and identifiers, by the number of times they were asked. *)
  Variables (iot_time_nsecs iot_time_msecs : nat -> Z) (uuid_generate : nat -> string).
  Variables (net : Type) (curl_easy_perform : net -> http_request -> net * http_response).
  Variables (config : device_config) (endpoints : edgex_service_endpoints).

(** [ar_last] are the readings last sent, [ar_scheduled] whether the schedule is still
    in place. *)
Record autostate := MkAutoState {
  ar_map : edgex_devmap_t (M := M); ar_impl : impl; ar_net : net; ar_ticks : nat;
  ar_last : option (list devsdk_commandresult); ar_scheduled : bool }.

Definition ar_set_map (s : autostate) (m : edgex_devmap_t) : autostate :=
  MkAutoState m (ar_impl s) (ar_net s) (ar_ticks s) (ar_last s) (ar_scheduled s).

(** The readings are those that were sent before. *)
Definition unchanged (ai : edgex_autoimpl) (s : autostate) (results : list devsdk_commandresult) : bool :=
  ai_onChange ai && match ar_last s with
                    | Some last => devsdk_commandresult_equal results last (length (ci_reqs (ai_resource ai)))
                    | None => false
                    end.

(** Sending the readings of a device. *)
Definition send_readings (ai : edgex_autoimpl) (s : autostate) (crlid : option string) (dev : edgex_device)
    (results : list devsdk_commandresult) : res autostate :=
  event ← edgex_data_process_event powl (dev_name dev) (ai_resource ai) results (cf_datatransform config)
            (iot_time_nsecs (ar_ticks s));
  match event with
  | Some event =>
      let '(n, err) := edgex_data_client_add_event net curl_easy_perform crlid endpoints (ar_net s) event in
      let last := if (er_code err =? 0) && ai_onChange ai then Some (devsdk_commandresult_dup results) else ar_last s in
      let n := if cf_updatelastconnected config
               then fst (edgex_metadata_client_update_lastconnected net curl_easy_perform crlid endpoints n (dev_name dev)
                           (iot_time_msecs (ar_ticks s)))
               else n in
      Ret (MkAutoState (ar_map s) (ar_impl s) n (S (ar_ticks s)) last (ar_scheduled s))
  | None =>
      '(n, _) ← edgex_metadata_client_set_device_opstate net curl_easy_perform crlid endpoints (ar_net s) (dev_id dev) DISABLED;
      Ret (MkAutoState (ar_map s) (ar_impl s) n (S (ar_ticks s)) (ar_last s) (ar_scheduled s))
  end.

(** The device is unlocked and enabled: it is read. *)
Definition run_device (ai : edgex_autoimpl) (s : autostate) (dev : edgex_device) : res autostate :=
  let crlid := edgex_device_alloc_crlid None (uuid_generate (ar_ticks s)) in
  let '(i, r, exc) := gethandler (ar_impl s) (dev_name dev) (dev_protocols dev) (ci_reqs (ai_resource ai)) [] in
  let s := MkAutoState (ar_map s) i (ar_net s) (ar_ticks s) (ar_last s) (ar_scheduled s) in
  match r with
  | Some results => if unchanged ai s results then Ret s else send_readings ai s crlid dev results
  | None => Ret s
  end.

Definition ae_runner (ai : edgex_autoimpl) (s : autostate) : res autostate :=
  '(m, dev) ← edgex_devmap_device_byname (ar_map s) (ai_device ai);
  match dev with
  | Some p =>
      hd ← device_at m p;
      if bool_decide (dev_adminState (hd_dev hd) = LOCKED) || bool_decide (dev_operatingState (hd_dev hd) = DISABLED)
      then m ← edgex_device_release m p; Ret (ar_set_map s m)
      else
        s ← run_device ai (ar_set_map s m) (hd_dev hd);
        m ← edgex_device_release (ar_map s) p;
        Ret (ar_set_map s m)
  | None => Ret (MkAutoState m (ar_impl s) (ar_net s) (ar_ticks s) (ar_last s) false)
  end.

Definition ready (d : edgex_device) : bool :=
  negb (bool_decide (dev_adminState d = LOCKED) || bool_decide (dev_operatingState d = DISABLED)).

(** Only the driver, the network, the clock and the last readings change. *)
Lemma run_device_frame ai s d s' :
  run_device ai s d = Ret s' ->
  ar_map s' = ar_map s /\ ar_scheduled s' = ar_scheduled s /\
  ar_impl s' = fst (fst (gethandler (ar_impl s) (dev_name d) (dev_protocols d) (ci_reqs (ai_resource ai)) [])).
Proof.
  unfold run_device, send_readings. destruct (gethandler _ _ _ _ _) as [[i [results|]] exc]; [|by intros [= <-]].
  destruct (unchanged _ _ _); [by intros [= <-]|].
  destruct (edgex_data_process_event _ _ _ _ _ _) as [[event|]| |]; rewrite ?res_bind_ret; [| |done..].
  - destruct (edgex_data_client_add_event _ _ _ _ _ _) as [n err]. by intros [= <-].
  - destruct (edgex_metadata_client_set_device_opstate _ _ _ _ _ _ _) as [[n err]| |]; rewrite ?res_bind_ret; [|done..].
    by intros [= <-].
Qed.

(** A run does not depend on the map. *)
Lemma run_device_set_map ai s d m s' :
  run_device ai s d = Ret s' -> run_device ai (ar_set_map s m) d = Ret (ar_set_map s' m).
Proof.
  unfold run_device, send_readings, unchanged. cbn [ar_set_map ar_impl ar_last ar_net ar_ticks].
  destruct (gethandler _ _ _ _ _) as [[i [results|]] exc]; [|by intros [= <-]]. cbn [ar_last ar_net ar_ticks ar_map ar_impl].
  destruct (_ && _)%bool; [by intros [= <-]|].
  destruct (edgex_data_process_event _ _ _ _ _ _) as [[event|]| |]; rewrite ?res_bind_ret; [| |done..].
  - destruct (edgex_data_client_add_event _ _ _ _ _ _) as [n err]. by intros [= <-].
  - destruct (edgex_metadata_client_set_device_opstate _ _ _ _ _ _ _) as [[n err]| |]; rewrite ?res_bind_ret; [|done..].
    by intros [= <-].
Qed.

(** ** What a run does *)

(** A request to another service and whether it was accepted. *)
Definition sends (n : net) (method : edgex_http_method) (url : string) (body : http_body) (n' : net) (accepted : bool) : Prop :=
  exists req rsp, hr_method req = method /\ hr_url req = url /\ hr_body req = body /\
    curl_easy_perform n req = (n', rsp) /\
    accepted = (hs_rc rsp =? CURLE_OK) && (200 <=? hs_code rsp) && (hs_code rsp <? 300)
               || (hs_rc rsp =? CURLE_ABORTED_BY_CALLBACK).

Definition upload (data : string) : http_body := Upload (Some (MkPut data 0 (String.length data))).

(** A device that is read: the driver is asked once for the resource. Readings that
    were sent before are not sent again with [onChange]; else the event with one reading
    for each request is posted to core-data, and kept as the last one sent if it was
    accepted. A failed assertion disables the device. When the driver fails nothing is
    sent. *)
Definition spec_read (ai : edgex_autoimpl) (s : autostate) (d : edgex_device) (s' : autostate) : Prop :=
  let reqs := ci_reqs (ai_resource ai) in
  let now := iot_time_nsecs (ar_ticks s) in
  match gethandler (ar_impl s) (dev_name d) (dev_protocols d) reqs [] with
  | (i, None, _) => s' = MkAutoState (ar_map s) i (ar_net s) (ar_ticks s) (ar_last s) (ar_scheduled s)
  | (i, Some results, _) =>
      if unchanged ai s results
      then s' = MkAutoState (ar_map s) i (ar_net s) (ar_ticks s) (ar_last s) (ar_scheduled s)
      else exists rs, read_as powl (dev_name d) (cf_datatransform config) now reqs results rs /\
        if forallb asserted rs then
          exists t n1 n2 accepted, json_parse_string (Some t) = Some (event_value (dev_name d) now rs) /\
            sends (ar_net s) POST (url_for (ep_data endpoints) "/api/v1/event") (Fields (Some t)) n1 accepted /\
            (if cf_updatelastconnected config
             then exists acc, sends n1 PUT (url_for (ep_metadata endpoints) ("/api/v1/device/name/" +:+ dev_name d +:+
                    "/lastconnected/" +:+ print_i (iot_time_msecs (ar_ticks s)))) (Upload None) n2 acc
             else n2 = n1) /\
            s' = MkAutoState (ar_map s) i n2 (S (ar_ticks s))
                   (if accepted && ai_onChange ai then Some (devsdk_commandresult_dup results) else ar_last s) (ar_scheduled s)
        else
          exists n1 accepted,
            sends (ar_net s) PUT (url_for (ep_metadata endpoints) ("/api/v1/device/" +:+ dev_id d))
              (upload (json_pair "operatingstate" "disabled")) n1 accepted /\
            s' = MkAutoState (ar_map s) i n1 (S (ar_ticks s)) (ar_last s) (ar_scheduled s)
  end.

(** The device that has the name decides. *)
Definition spec_run (ai : edgex_autoimpl) (s : autostate) (d : option edgex_device) (s' : autostate) : Prop :=
  match d with
  | None => s' = MkAutoState (ar_map s) (ar_impl s) (ar_net s) (ar_ticks s) (ar_last s) false
  | Some d => if ready d then spec_read ai s d s' else s' = s
  end.

(** A request that is made. *)
Lemma request_sent crlid n ctx method body url wf hdrs :
  exists n' ctx' code err accepted,
    edgex_run_curl net curl_easy_perform crlid n ctx method body url wf hdrs = (n', ctx', code, err) /\
    sends n method url body n' accepted /\ (er_code err =? 0) = accepted.
Proof.
  unfold edgex_run_curl, sends. destruct (curl_easy_perform n _) as [n' rsp] eqn:E.
  destruct (hs_rc rsp =? CURLE_OK) eqn:Eo.
  - eexists _, _, _, _, _. split; [reflexivity|]. split; [eexists _, rsp; split_and!; [..|exact E|reflexivity]; done|].
    rewrite Eo. destruct (Z.eqb_spec (hs_rc rsp) CURLE_ABORTED_BY_CALLBACK) as [Ha|]; [rewrite Ha in Eo; done|].
    destruct (Z.eqb_spec (hs_code rsp) 409) as [->|]; [done|].
    destruct (hs_code rsp <? 200) eqn:E2, (300 <=? hs_code rsp) eqn:E3, (200 <=? hs_code rsp) eqn:E4,
      (hs_code rsp <? 300) eqn:E5; try lia; done.
  - destruct (hs_rc rsp =? CURLE_ABORTED_BY_CALLBACK) eqn:Ea; (eexists _, _, _, _, _; split; [reflexivity|];
      split; [eexists _, rsp; split_and!; [..|exact E|reflexivity]; done|]); by rewrite Eo, Ea.
Qed.

Lemma send_readings_ok ai s crlid d results rs :
  Forall (fun rq => pv_type (rq_pval rq) <> Edgex_Binary) (ci_reqs (ai_resource ai)) -> ok_str (dev_name d) ->
  ok_uint (iot_time_nsecs (ar_ticks s)) ->
  read_as powl (dev_name d) (cf_datatransform config) (iot_time_nsecs (ar_ticks s)) (ci_reqs (ai_resource ai)) results rs ->
  exists s', send_readings ai s crlid d results = Ret s' /\
    if forallb asserted rs then
      exists t n1 n2 accepted, json_parse_string (Some t) = Some (event_value (dev_name d) (iot_time_nsecs (ar_ticks s)) rs) /\
        sends (ar_net s) POST (url_for (ep_data endpoints) "/api/v1/event") (Fields (Some t)) n1 accepted /\
        (if cf_updatelastconnected config
         then exists acc, sends n1 PUT (url_for (ep_metadata endpoints) ("/api/v1/device/name/" +:+ dev_name d +:+
                "/lastconnected/" +:+ print_i (iot_time_msecs (ar_ticks s)))) (Upload None) n2 acc
         else n2 = n1) /\
        s' = MkAutoState (ar_map s) (ar_impl s) n2 (S (ar_ticks s))
               (if accepted && ai_onChange ai then Some (devsdk_commandresult_dup results) else ar_last s) (ar_scheduled s)
    else
      exists n1 accepted,
        sends (ar_net s) PUT (url_for (ep_metadata endpoints) ("/api/v1/device/" +:+ dev_id d))
          (upload (json_pair "operatingstate" "disabled")) n1 accepted /\
        s' = MkAutoState (ar_map s) (ar_impl s) n1 (S (ar_ticks s)) (ar_last s) (ar_scheduled s).
Proof.
  intros Hb Hn Hnow Hrs. destruct (event_read_as powl _ _ _ _ results rs Hb Hn Hnow Hrs) as (t & Ht & Hev).
  unfold send_readings. rewrite Hev, res_bind_ret. destruct (forallb asserted rs).
  - unfold edgex_data_client_add_event, http_post, edgex_http_post.
    destruct (request_sent crlid (ar_net s) ctx_zero POST (Fields (Some t)) (data_url endpoints "/api/v1/event") None
      (edgex_add_hdr [] "Content-Type" CONTENT_JSON)) as (n1 & ? & ? & err & acc & -> & Hs & He).
    cbn match. rewrite He. destruct (cf_updatelastconnected config).
    + unfold edgex_metadata_client_update_lastconnected, http_put, edgex_http_put.
      edestruct (request_sent crlid n1 ctx_zero PUT) as (n2 & ? & ? & err2 & acc2 & -> & Hs2 & _).
      eexists. split; [reflexivity|]. exists t, n1, n2, acc. split_and!; [done|done|by exists acc2|done].
    + eexists. split; [reflexivity|]. by exists t, n1, n1, acc.
  - unfold edgex_metadata_client_set_device_opstate, put_state, http_put, edgex_http_put.
    assert (sprintf_in OPSTATE_SIZE (json_pair "operatingstate" "disabled") = Ret (json_pair "operatingstate" "disabled")) as ->
      by reflexivity.
    rewrite res_bind_ret. edestruct (request_sent crlid (ar_net s) ctx_zero PUT) as (n1 & ? & ? & err & acc & -> & Hs & _).
    rewrite res_bind_ret. eexists. split; [reflexivity|]. by exists n1, acc.
Qed.

Lemma run_device_ok ai s d :
  ci_isget (ai_resource ai) = true -> sound powl impl gethandler iot_time_nsecs config d (ai_resource ai) ->
  exists s', run_device ai s d = Ret s' /\ spec_read ai s d s'.
Proof.
  intros Hg Hs. unfold run_device, spec_read. destruct (gethandler _ _ _ _ _) as [[i [results|]] exc] eqn:Eg; [|by eexists].
  change (unchanged ai (MkAutoState (ar_map s) i (ar_net s) (ar_ticks s) (ar_last s) (ar_scheduled s)) results)
    with (unchanged ai s results). destruct (unchanged ai s results); [by eexists|].
  destruct (so_results _ _ _ _ _ _ _ Hs _ _ _ _ _ (ar_ticks s) Hg Eg) as [rs Hrs].
  destruct (send_readings_ok ai (MkAutoState (ar_map s) i (ar_net s) (ar_ticks s) (ar_last s) (ar_scheduled s))
    (edgex_device_alloc_crlid None (uuid_generate (ar_ticks s))) d results rs) as (s' & Hs' & Hspec).
  - apply (so_get _ _ _ _ _ _ _ Hs Hg).
  - apply (so_name _ _ _ _ _ _ _ Hs).
  - apply (so_clock _ _ _ _ _ _ _ Hs).
  - done.
  - exists s'. split; [done|]. by exists rs.
Qed.

(** C36. When a schedule fires, for a device and a driver that are [sound] (no binary
    resource, results that have a text once transformed): the device of its name is
    read if it is unlocked and enabled, which asks the driver once and posts the event
    of its readings, as [spec_read] says; nothing is done if it is locked or disabled,
    and the schedule is taken down if there is no such device. The map and the
    references to devices are as before. *)
Theorem autoevent_run (ai : edgex_autoimpl) (s : autostate) (held : ptr -> Z) :
  devmap_ok (ar_map s) held -> ci_isget (ai_resource ai) = true ->
  (forall d, with_name (abs (ar_map s)) (ai_device ai) (Some d) -> ready d = true ->
     sound powl impl gethandler iot_time_nsecs config d (ai_resource ai)) ->
  exists d s' m', with_name (abs (ar_map s)) (ai_device ai) d /\
    ae_runner ai s = Ret (ar_set_map s' m') /\ spec_run ai s d s' /\
    devmap_ok m' held /\ abs m' = abs (ar_map s).
Proof.
  intros Hok Hg Hrun. unfold ae_runner.
  destruct (byname_ok (ar_map s) held (ai_device ai) Hok) as (m1 & o & held1 & d & -> & Hok1 & Habs1 & _ & Hf & Hn).
  rewrite res_bind_ret. destruct o as [p|].
  - destruct (give_back _ _ _ _ _ _ Hok Hok1 Hf) as (hd & dv & m' & -> & -> & Hv & _ & _ & _ & Hrel & Hok' & Habs' & _).
    rewrite res_bind_ret. unfold view, profile_at in Hv. destruct (dm_pheap m1 !! hd_profile hd) as [prof|]; [|done].
    injection Hv as <-. specialize (Hrun _ Hn). unfold ready in Hrun. cbn [with_profile dev_adminState dev_operatingState] in Hrun.
    exists (Some (with_profile (hd_dev hd) prof)). unfold spec_run, ready. cbn [with_profile dev_adminState dev_operatingState].
    destruct (_ || _)%bool; cbn [negb] in *.
    + rewrite Hrel, res_bind_ret. exists s, m'. rewrite Habs', Habs1. by split_and!.
    + destruct (run_device_ok ai s _ Hg (Hrun eq_refl)) as (s' & Hs' & Hspec). pose proof (run_device_set_map _ _ _ m1 _ Hs') as Hs1.
      change (run_device ai (ar_set_map s m1) (with_profile (hd_dev hd) prof))
        with (run_device ai (ar_set_map s m1) (hd_dev hd)) in Hs1.
      rewrite Hs1, res_bind_ret. cbn [ar_set_map ar_map]. rewrite Hrel, res_bind_ret.
      exists s', m'. rewrite Habs', Habs1. by split_and!.
  - destruct Hf as [Hheld ->]. exists None, (MkAutoState (ar_map s) (ar_impl s) (ar_net s) (ar_ticks s) (ar_last s) false), m1.
    split_and!; try done. eapply devmap_ok_ext; [|exact Hok1]. done.
Qed.

(** Readings that were sent are not sent again while they do not change. *)
Lemma sent_once `{L : !IotDataLaws D} ai s d i results e i' e' :
  ai_onChange ai = true ->
  gethandler (ar_impl s) (dev_name d) (dev_protocols d) (ci_reqs (ai_resource ai)) [] = (i, Some results, e) ->
  gethandler i (dev_name d) (dev_protocols d) (ci_reqs (ai_resource ai)) [] = (i', Some results, e') ->
  forall s1, run_device ai s d = Ret s1 -> ar_last s1 = Some (devsdk_commandresult_dup results) ->
  exists s2, run_device ai s1 d = Ret s2 /\ ar_net s2 = ar_net s1 /\ ar_last s2 = ar_last s1.
Proof.
  intros Hon Hg Hg' s1 Hs1 Hlast.
  destruct (run_device_frame _ _ _ _ Hs1) as (_ & _ & Hi). rewrite Hg in Hi. cbn [fst] in Hi.
  unfold run_device. rewrite Hi, Hg'. unfold unchanged. cbn [ar_last].
  rewrite Hon, Hlast, commandresult_equal_dup. cbn [andb]. by eexists.
Qed.

End autorun.

(** ** The memory of a schedule *)

(** The count of references and whether the memory was released. *)
Record ai_mem := MkAiMem { am_refs : Z; am_freed : bool }.

(** [ae->impl] as [edgex_device_autoevent_start] leaves it. *)
Definition ai_mem_new : ai_mem := MkAiMem 1 false.

Definition edgex_autoimpl_release (a : ai_mem) : res ai_mem :=
  if am_freed a then Crash else Ret (MkAiMem (am_refs a - 1) (am_refs a =? 1)).

(** [atomic_fetch_add (&ai->refs, 1)], the first thing a run does. *)
Definition ae_runner_enter (a : ai_mem) : res ai_mem :=
  if am_freed a then Crash else Ret (MkAiMem (am_refs a + 1) false).

(** The threads of the pool: jobs that were handed out but have not entered
    [ae_runner] yet, runs in progress, and whether the schedule was stopped. *)
Record ai_sys := MkAiSys { as_mem : ai_mem; as_pending : nat; as_running : nat; as_stopped : bool }.

Definition ai_sys_new : ai_sys := MkAiSys ai_mem_new 0 0 false.

(** The scheduler hands out a job; a job enters [ae_runner]; a run ends; [stopper]
    deletes the schedule and gives up its reference. *)
Inductive ai_event := Fire | Enter | Leave | Stop.

Definition ai_step (s : ai_sys) (e : ai_event) : option (res ai_sys) :=
  match e, s with
  | Fire, MkAiSys a p r false => Some (Ret (MkAiSys a (S p) r false))
  | Enter, MkAiSys a (S p) r st => Some (a ← ae_runner_enter a; Ret (MkAiSys a p (S r) st))
  | Leave, MkAiSys a p (S r) st => Some (a ← edgex_autoimpl_release a; Ret (MkAiSys a p r st))
  | Stop, MkAiSys a p r false => Some (a ← edgex_autoimpl_release a; Ret (MkAiSys a p r true))
  | _, _ => None
  end.

Fixpoint ai_run (s : ai_sys) (es : list ai_event) : option (res ai_sys) :=
  match es with
  | [] => Some (Ret s)
  | e :: es' =>
      match ai_step s e with
      | Some (Ret s) => ai_run s es'
      | r => r
      end
  end.

(** One reference for the schedule and one for each run; the memory is released with
    the last one. *)
Definition ai_inv (s : ai_sys) : Prop :=
  am_refs (as_mem s) = Z.of_nat (as_running s) + (if as_stopped s then 0 else 1) /\
  am_freed (as_mem s) = (am_refs (as_mem s) =? 0).

(** The schedule was stopped and its last run ended: nothing holds the memory. *)
Definition let_go (s : ai_sys) : bool := as_stopped s && Nat.eqb (as_running s) 0.

Lemma ai_step_inv s e r :
  ai_inv s -> ai_step s e = Some r ->
  match r with
  | Ret s' => ai_inv s'
  | Crash => e = Enter /\ let_go s = true
  | Fail => False
  end.
Proof.
  destruct s as [[refs freed] p r0 st]. intros [Hr Hf] E. unfold ai_inv, let_go.
  cbn [as_mem as_running as_stopped am_refs am_freed] in *. subst freed refs.
  destruct e, p, r0, st; try done; cbn [ai_step] in E; unfold ae_runner_enter, edgex_autoimpl_release in E;
    cbn [am_freed am_refs] in E;
    repeat match type of E with context [if ?b then _ else _] => destruct b eqn:?; try lia end;
    rewrite ?res_bind_ret in E; apply (inj Some) in E; subst r; cbn [as_mem as_running as_stopped am_refs am_freed];
    try (split; lia); try (split; [done|reflexivity]).
Qed.

Lemma ai_run_inv s es r :
  ai_inv s -> ai_run s es = Some r ->
  match r with
  | Ret s' => ai_inv s'
  | Crash => exists pre post s', es = pre ++ Enter :: post /\ ai_run s pre = Some (Ret s') /\ let_go s' = true
  | Fail => False
  end.
Proof.
  revert s. induction es as [|e es IH]; intros s Hinv Hr; cbn [ai_run] in *; [by injection Hr as <-|].
  destruct (ai_step s e) as [r1|] eqn:E; [|done]. pose proof (ai_step_inv s e r1 Hinv E) as H1. destruct r1 as [s1| |].
  - specialize (IH s1 H1 Hr). destruct r; try done. destruct IH as (pre & post & s' & -> & Hpre & Hgo).
    exists (e :: pre), post, s'. split_and!; try done. cbn [ai_run]. by rewrite E.
  - done.
  - injection Hr as <-. destruct H1 as [-> Hgo]. by exists [], es, s.
Qed.

Lemma ai_leave_all s :
  ai_inv s -> as_stopped s = true ->
  exists s', ai_run s (repeat Leave (as_running s)) = Some (Ret s') /\ ai_inv s' /\ as_running s' = 0%nat /\ as_stopped s' = true.
Proof.
  destruct s as [a p r st]. cbn [as_stopped as_running]. intros Hinv ->. revert a Hinv.
  induction r as [|r IH]; intros a Hinv; cbn [repeat ai_run]; [by eexists|]. cbn [ai_step].
  pose proof (ai_step_inv (MkAiSys a p (S r) true) Leave _ Hinv eq_refl) as Hinv'.
  destruct (edgex_autoimpl_release a) as [a'| |]; rewrite ?res_bind_ret in *; [|done|by destruct Hinv'].
  by apply IH.
Qed.

Lemma ai_wind_up s :
  ai_inv s ->
  exists s', ai_run s ((if as_stopped s then [] else [Stop]) ++ repeat Leave (as_running s)) = Some (Ret s') /\
    am_freed (as_mem s') = true.
Proof.
  intros Hinv.
  assert (exists s1, ai_run s (if as_stopped s then [] else [Stop]) = Some (Ret s1) /\ ai_inv s1 /\
            as_stopped s1 = true /\ as_running s1 = as_running s) as (s1 & E1 & Hinv1 & Hst & Hrun).
  { destruct s as [a p n []]; cbn [as_stopped as_running ai_run ai_step].
    - by exists (MkAiSys a p n true).
    - pose proof (ai_step_inv (MkAiSys a p n false) Stop _ Hinv eq_refl) as Hinv'.
      destruct (edgex_autoimpl_release a) as [a'| |]; rewrite ?res_bind_ret in *; [|done|by destruct Hinv'].
      by eexists. }
  destruct (ai_leave_all s1 Hinv1 Hst) as (s' & E2 & [Hrefs Hfreed] & Hz & Hst'). exists s'. split.
  - rewrite <-Hrun. destruct (as_stopped s).
    + cbn [ai_run] in E1. by injection E1 as ->.
    + cbn [app ai_run] in *. destruct (ai_step s Stop) as [[]|]; [|done..]. by injection E1 as ->.
  - rewrite Hfreed, Hrefs, Hz, Hst'. done.
Qed.

(** C32. The reference count of a schedule, for every interleaving of the scheduler
    handing out jobs, jobs entering [ae_runner], runs ending and the stop: the memory
    is released exactly when the schedule was stopped and no run is in progress, never
    twice, and from every state stopping and ending the runs releases it. The one way
    to use it after that is a job that was handed out before and enters then, which
    does happen ([late_job_crashes]). *)
Theorem schedule_wound_up (es : list ai_event) (r : res ai_sys) :
  ai_run ai_sys_new es = Some r ->
  match r with
  | Ret s =>
      am_freed (as_mem s) = let_go s /\
      exists s', ai_run s ((if as_stopped s then [] else [Stop]) ++ repeat Leave (as_running s)) = Some (Ret s') /\
        am_freed (as_mem s') = true
  | Crash =>
      exists pre post s, es = pre ++ Enter :: post /\ ai_run ai_sys_new pre = Some (Ret s) /\ let_go s = true
  | Fail => False
  end.
Proof.
  intros Hr. pose proof (ai_run_inv ai_sys_new es r ltac:(by split) Hr) as H. destruct r as [s| |]; try done.
  split; [|by apply ai_wind_up]. destruct H as [Hrefs ->]. rewrite Hrefs. unfold let_go.
  destruct (as_stopped s); cbn [andb]; [|lia]. destruct (as_running s); [done|cbn; lia].
Qed.

(** A run that goes on while the schedule is stopped, with a second job behind it. *)
Lemma schedule_wound_up_witness :
  am_freed (MkAiMem 1 false) = let_go (MkAiSys (MkAiMem 1 false) 1 1 true) /\
  exists s', ai_run (MkAiSys (MkAiMem 1 false) 1 1 true) [Leave] = Some (Ret s') /\ am_freed (as_mem s') = true.
Proof.
  apply (schedule_wound_up [Fire; Fire; Enter; Stop] (Ret (MkAiSys (MkAiMem 1 false) 1 1 true))).
  reflexivity.
Defined.

(** A job that was handed out before the stop and enters after it uses memory that was
    released. *)
Lemma late_job_crashes : ai_run ai_sys_new [Fire; Stop; Enter] = Some Crash.
Proof. reflexivity. Qed.

(** ** Witness: a sensor that always reads 21 *)

Definition sample_command : edgex_cmdinfo :=
  match edgex_deviceprofile_findcommand "T" sample_profile true with
  | Ret (Some c) => c
  | _ => MkCmdinfo EmptyString true []
  end.

Definition sample_autoimpl : edgex_autoimpl := MkImpl 5000 sample_command "dev0" [] true.

Definition sample_autostate : autostate (M := edgex_map_base) (D := sample_iot) unit (list http_request) :=
  MkAutoState unit (list http_request) sample_map tt [] 0 None true.

Lemma autoevent_run_witness :
  exists d s' m', with_name (abs sample_map) "dev0" d /\
    ae_runner (fun x _ => x) unit sensor noon noon (fun _ => "uuid") (list http_request) recording
      sample_config sample_endpoints sample_autoimpl sample_autostate
    = Ret (ar_set_map unit (list http_request) s' m') /\
    spec_run (fun x _ => x) unit sensor noon noon (list http_request) recording
      sample_config sample_endpoints sample_autoimpl sample_autostate d s' /\
    devmap_ok m' (fun _ => 0) /\ abs m' = abs sample_map.
Proof.
  apply (autoevent_run (fun x _ => x) unit sensor noon noon (fun _ => "uuid") (list http_request) recording
           sample_config sample_endpoints sample_autoimpl sample_autostate (fun _ => 0)).
  - exact sample_map_ok.
  - reflexivity.
  - intros d Hd _. apply sensor_sound; [by eapply sample_only, Hd|].
    rewrite (sample_only (dev_id d) d) by apply Hd. vm_compute. by left.
Defined.
