(* ===== verification/Discovery.v ===== *)
(** * Dynamic discovery ([discovery.c])

    Discovery is requested over HTTP or by a timer. The driver's discovery function
    runs under a mutex; a request hands a job to the thread pool, which takes the mutex
    itself. The threads are a transition system. *)

From S2P Require Import Prelude CLib DevTypes Device RestServer.
Local Open Scope Z_scope.

Definition MHD_HTTP_ACCEPTED : Z := 202.
Definition MHD_HTTP_SERVICE_UNAVAILABLE : Z := 503.

Definition NL : string := String (chr 10) EmptyString.

(** The parts of the service that decide. *)
Record disco_config := MkDisco {
  dc_discover : bool; dc_adminstate : edgex_device_adminstate; dc_opstate : edgex_device_operatingstate;
  dc_enabled : bool }.

(** The mutex, the jobs in the thread pool, and the calls of the driver's discovery
    function that are in progress: for a job and for the timer. *)
Record disco_state := MkDiscoState {
  ds_locked : bool; ds_jobs : nat; ds_job_running : nat; ds_timer_running : nat }.

Definition disco_init : disco_state := MkDiscoState false 0 0 0.

Section discovery.
  Variable (cfg : disco_config).

(** [pthread_mutex_trylock] *)
Definition trylock (s : disco_state) : option disco_state :=
  if ds_locked s then None else Some (MkDiscoState true (ds_jobs s) (ds_job_running s) (ds_timer_running s)).

Definition unlock (s : disco_state) : disco_state :=
  MkDiscoState false (ds_jobs s) (ds_job_running s) (ds_timer_running s).

Definition add_work (s : disco_state) : disco_state :=
  MkDiscoState (ds_locked s) (S (ds_jobs s)) (ds_job_running s) (ds_timer_running s).

(** The states of the service and its configuration, [cfg], are taken not to change while
    discovery is in use. The handler holds the mutex only while it adds the job, so that
    is one step. *)
Definition edgex_device_handler_discovery (s : disco_state) : disco_state * string * Z :=
  if negb (dc_discover cfg) then
    (s, "Dynamic discovery is not implemented in this device service" +:+ NL, MHD_HTTP_NOT_IMPLEMENTED)
  else if bool_decide (dc_adminstate cfg = LOCKED) then
    (s, "Device service is administratively locked" +:+ NL, MHD_HTTP_LOCKED)
  else if bool_decide (dc_opstate cfg = DISABLED) then (s, "Device service is disabled" +:+ NL, MHD_HTTP_LOCKED)
  else if negb (dc_enabled cfg) then
    (s, "Discovery disabled by configuration" +:+ NL, MHD_HTTP_SERVICE_UNAVAILABLE)
  else match trylock s with
       | Some s => (unlock (add_work s), "Running discovery" +:+ NL, MHD_HTTP_ACCEPTED)
       | None => (s, "Discovery already running; ignoring new request" +:+ NL, MHD_HTTP_ACCEPTED)
       end.

(** A job of the pool takes the mutex and calls the driver; [None]: it has to wait. *)
Definition do_discovery_begin (s : disco_state) : option disco_state :=
  match ds_jobs s, trylock s with
  | S jobs, Some s => Some (MkDiscoState (ds_locked s) jobs (S (ds_job_running s)) (ds_timer_running s))
  | _, _ => None
  end.

Definition do_discovery_end (s : disco_state) : option disco_state :=
  match ds_job_running s with
  | S r => Some (unlock (MkDiscoState (ds_locked s) (ds_jobs s) r (ds_timer_running s)))
  | O => None
  end.

(** The timer: nothing happens when the service is locked, disabled, or busy. *)
Definition periodic_discovery_begin (s : disco_state) : disco_state :=
  if bool_decide (dc_adminstate cfg = LOCKED) || bool_decide (dc_opstate cfg = DISABLED) then s
  else match trylock s with
       | Some s => MkDiscoState (ds_locked s) (ds_jobs s) (ds_job_running s) (S (ds_timer_running s))
       | None => s
       end.

Definition periodic_discovery_end (s : disco_state) : option disco_state :=
  match ds_timer_running s with
  | S r => Some (unlock (MkDiscoState (ds_locked s) (ds_jobs s) (ds_job_running s) r))
  | O => None
  end.

(** ** The threads *)

Inductive disco_step : disco_state -> disco_state -> Prop :=
| step_request s : disco_step s (edgex_device_handler_discovery s).1.1
| step_job s s' : do_discovery_begin s = Some s' -> disco_step s s'
| step_job_end s s' : do_discovery_end s = Some s' -> disco_step s s'
| step_timer s : disco_step s (periodic_discovery_begin s)
| step_timer_end s s' : periodic_discovery_end s = Some s' -> disco_step s s'.

Inductive disco_reach : disco_state -> Prop :=
| disco_reach_init : disco_reach disco_init
| disco_reach_step s s' : disco_reach s -> disco_step s s' -> disco_reach s'.

(** The mutex is taken exactly while the driver is called. *)
Definition disco_inv (s : disco_state) : Prop :=
  (ds_job_running s + ds_timer_running s = if ds_locked s then 1 else 0)%nat.

Lemma disco_step_inv s s' : disco_inv s -> disco_step s s' -> disco_inv s'.
Proof.
  intros Hinv Hs. destruct Hs as [s|s s' E|s s' E|s|s s' E]; destruct s as [l j jr tr]; unfold disco_inv in *; cbn in Hinv.
  - unfold edgex_device_handler_discovery, trylock. cbn [ds_locked]. destruct l; cbn match; guards; cbn in *; lia.
  - unfold do_discovery_begin, trylock in E. cbn in E. destruct j, l; try done. injection E as <-. cbn. lia.
  - unfold do_discovery_end in E. cbn in E. destruct jr; [done|]. injection E as <-. cbn. destruct l; lia.
  - unfold periodic_discovery_begin, trylock. cbn [ds_locked]. destruct l; cbn match; guards; cbn in *; lia.
  - unfold periodic_discovery_end in E. cbn in E. destruct tr; [done|]. injection E as <-. cbn. destruct l; lia.
Qed.

Lemma disco_reach_inv s : disco_reach s -> disco_inv s.
Proof. induction 1; [done|by eapply disco_step_inv]. Qed.

(** A schedule that runs all pending jobs. *)
Fixpoint run_jobs (n : nat) (s : disco_state) : option disco_state :=
  match n with
  | O => Some s
  | S n =>
      match do_discovery_begin s with
      | Some s => match do_discovery_end s with Some s => run_jobs n s | None => None end
      | None => None
      end
  end.

Lemma run_jobs_ok j : exists s', run_jobs j (MkDiscoState false j 0 0) = Some s' /\ ds_jobs s' = 0%nat.
Proof. induction j as [|j IH]; [by eexists|]. cbn. apply IH. Qed.

(** C33. At most one call of the driver's discovery function is in progress, whatever the
    requests and timers do. A call in progress can end, and once none is, every job
    that was accepted gets to run. *)
Theorem discovery_exclusive (s : disco_state) :
  disco_reach s ->
  (ds_job_running s + ds_timer_running s <= 1)%nat /\
  (ds_locked s = true -> is_Some (do_discovery_end s) \/ is_Some (periodic_discovery_end s)) /\
  (ds_locked s = false -> exists s', run_jobs (ds_jobs s) s = Some s' /\ ds_jobs s' = 0%nat).
Proof.
  intros Hr. apply disco_reach_inv in Hr. destruct s as [l j jr tr]. unfold disco_inv in Hr. cbn in Hr. cbn.
  split_and!.
  - destruct l; lia.
  - intros ->. unfold do_discovery_end, periodic_discovery_end. cbn. destruct jr; [|left; by eexists].
    destruct tr; [lia|right; by eexists].
  - intros ->. assert (jr = 0 /\ tr = 0)%nat as [-> ->] by lia. apply run_jobs_ok.
Qed.

End discovery.

Definition sample_disco : disco_config := MkDisco true UNLOCKED ENABLED true.

Lemma discovery_exclusive_witness :
  (1 + 0 <= 1)%nat /\
  (true = true -> is_Some (do_discovery_end (MkDiscoState true 1 1 0)) \/ is_Some (periodic_discovery_end (MkDiscoState true 1 1 0))) /\
  (true = false -> exists s', run_jobs 1 (MkDiscoState true 1 1 0) = Some s' /\ ds_jobs s' = 0%nat).
Proof.
  apply (discovery_exclusive sample_disco (MkDiscoState true 1 1 0)).
  apply (disco_reach_step _ (MkDiscoState false 2 0 0)); [|by apply step_job].
  apply (disco_reach_step _ (MkDiscoState false 1 0 0)); [|exact (step_request sample_disco (MkDiscoState false 1 0 0))].
  apply (disco_reach_step _ disco_init); [apply disco_reach_init|exact (step_request sample_disco disco_init)].
Defined.

(** Two requests in a row are both answered as running: the second job waits. *)
Lemma second_request_runs :
  let '(s, r1, _) := edgex_device_handler_discovery sample_disco disco_init in
  let '(_, r2, _) := edgex_device_handler_discovery sample_disco s in r1 = r2.
Proof. reflexivity. Qed.
