(* ===== verification/Config.v ===== *)
(** * Configuration ([config.c])

    The configuration comes from a TOML file or from the registry as a list of named
    values, is overridden by environment variables, and fills in the record the service
    uses. The TOML library is an interface. *)

From S2P Require Import Prelude CLib CFloat Parson ParsonText ParsonProofs DevTypes EdgexRest EdgexRestProofs.
From S2P Require Import Device Rest Metadata.
From Stdlib Require Import Ascii.
Local Open Scope Z_scope.
Local Open Scope sdk_scope.

Definition EDGEX_NO_CONF_FILE : devsdk_error := MkError 1 "Unable to open configuration file".
Definition EDGEX_CONF_PARSE_ERROR : devsdk_error := MkError 2 "Error while parsing configuration file".
Definition EDGEX_BAD_CONFIG : devsdk_error := MkError 4 "Configuration is invalid".

(** ** The TOML library

    A table has keys, which are found by position, and each key a raw value, a table or
    an array; the conversions read a raw value as a string, an integer, a floating-point
    number or a boolean. What the code relies on: the positions of the keys and of the
    elements of an array end, and tables are not cyclic. *)
Class Toml := {
  toml_table_t : Type;
  toml_array_t : Type;
  toml_key_in : toml_table_t -> nat -> option string;
  toml_raw_in : toml_table_t -> string -> option string;
  toml_table_in : toml_table_t -> string -> option toml_table_t;
  toml_array_in : toml_table_t -> string -> option toml_array_t;
  toml_table_at : toml_array_t -> nat -> option toml_table_t;
  toml_raw_at : toml_array_t -> nat -> option string;
  toml_rtos : string -> option string;
  toml_rtoi : string -> option Z;
  toml_rtod : string -> option spec_float;
  toml_rtob : string -> option bool
}.

Class TomlLaws (T : Toml) := {
  toml_rank : toml_table_t -> nat;
  key_rank t i k : toml_key_in t i = Some k -> (i < toml_rank t)%nat;
  table_rank t k t' : toml_table_in t k = Some t' -> (toml_rank t' < toml_rank t)%nat;
  rtoi_range s z : toml_rtoi s = Some z -> - 2 ^ 63 <= z < 2 ^ 63
}.

(** ** The file *)

(** The name of the configuration file. *)
Definition config_filename (dir : string) (fname profile : option string) : string :=
  dir +:+ "/" +:+
  match fname with
  | Some (String _ _ as f) => f
  | _ => "configuration" +:+ match profile with Some (String _ _ as p) => "-" +:+ p | _ => EmptyString end +:+ ".toml"
  end.

Section toml.
  Context `{T : Toml}.

(** [toml_parse_file] on the file system: [None] when the file cannot be opened, and
    then [None] when it is not TOML. *)
Definition edgex_device_loadConfig (files : string -> option (option toml_table_t)) (dir : string)
    (fname profile : option string) : option toml_table_t * devsdk_error :=
  match files (config_filename dir fname profile) with
  | Some (Some t) => (Some t, EDGEX_OK)
  | Some None => (None, EDGEX_CONF_PARSE_ERROR)
  | None => (None, EDGEX_NO_CONF_FILE)
  end.

(** The keys of a table in order; [fuel] bounds their number. *)
Fixpoint table_keys (fuel : nat) (t : toml_table_t) (i : nat) : list string :=
  match fuel with
  | O => []
  | S fuel => match toml_key_in t i with Some k => k :: table_keys fuel t (S i) | None => [] end
  end.

(** A raw value as the text it is stored as; a number is printed into 32 bytes.
    [None]: the value is left out. *)
Definition value_text (raw : string) : res (option string) :=
  if String.eqb raw "true" || String.eqb raw "false" then Ret (Some raw)
  else match toml_rtoi raw with
       | Some i => v ← sprintf_in 32 (print_i i); Ret (Some v)
       | None =>
           match toml_rtod raw with
           | Some d => v ← sprintf_in 32 (print_f d); Ret (Some v)
           | None => Ret (match toml_rtos raw with Some (String _ _ as v) => Some v | _ => None end)
           end
       end.

Definition full_name (prefix key : string) : string :=
  match prefix with EmptyString => key | _ => prefix +:+ "/" +:+ key end.

Fixpoint processTable (fuel : nat) (config : toml_table_t) (result : devsdk_nvpairs) (prefix : string)
    : res devsdk_nvpairs :=
  if String.eqb prefix "Clients" then Ret result
  else match fuel with
       | O => Ret result
       | S fuel' =>
           res_foldl (fun result key =>
             let fullname := full_name prefix key in
             match toml_raw_in config key with
             | Some raw =>
                 v ← value_text raw;
                 Ret (match v with Some v => devsdk_nvpairs_new fullname v result | None => result end)
             | None =>
                 match toml_table_in config key with
                 | Some tab => processTable fuel' tab result fullname
                 | None => Ret result
                 end
             end) result (table_keys fuel config 0)
       end.

Definition edgex_device_parseToml (fuel : nat) (config : toml_table_t) : res devsdk_nvpairs :=
  processTable fuel config [] EmptyString.

(** ** The registry and the clients *)

Definition DEFAULTREG : string := "consul.http://localhost:8500".

Definition edgex_device_getRegURL (config : option toml_table_t) : string :=
  match config ≫= (fun c => toml_table_in c "Registry") with
  | Some table =>
      let rtype := toml_raw_in table "Type" ≫= toml_rtos in
      let rhost := toml_raw_in table "Host" ≫= toml_rtos in
      let rport := default 0 (toml_raw_in table "Port" ≫= toml_rtoi) in
      match rtype, rhost with
      | Some (String _ _ as rtype), Some (String _ _ as rhost) =>
          if rport =? 0 then DEFAULTREG else rtype +:+ "://" +:+ rhost +:+ ":" +:+ print_i rport
      | _, _ => DEFAULTREG
      end
  | None => DEFAULTREG
  end.

(** An endpoint while it is not complete: the host can be missing. *)
Record client_endpoint := MkClient { ce_host : option string; ce_port : Z }.
Record client_endpoints := MkClients { ce_data : client_endpoint; ce_metadata : client_endpoint; ce_logging : client_endpoint }.

Definition toml_rtos2 (s : option string) (ret : option string) : option string :=
  match s with
  | Some s => match toml_rtos s with Some EmptyString => None | Some v => Some v | None => ret end
  | None => ret
  end.

Definition toml_rtoui16 (raw : option string) (ret : Z) (err : devsdk_error) : Z * devsdk_error :=
  match raw with
  | Some raw =>
      match toml_rtoi raw with
      | Some v => if (0 <=? v) && (v <=? 65535) then (v, err) else (ret, EDGEX_BAD_CONFIG)
      | None => (ret, EDGEX_BAD_CONFIG)
      end
  | None => (ret, err)
  end.

Definition parseClient (client : option toml_table_t) (endpoint : client_endpoint) (err : devsdk_error)
    : client_endpoint * devsdk_error :=
  match client with
  | Some client =>
      let host := toml_rtos2 (toml_raw_in client "Host") (ce_host endpoint) in
      let '(port, err) := toml_rtoui16 (toml_raw_in client "Port") (ce_port endpoint) err in
      (MkClient host port, err)
  | None => (endpoint, err)
  end.

Definition edgex_device_parseTomlClients (clients : option toml_table_t) (endpoints : client_endpoints)
    (err : devsdk_error) : client_endpoints * devsdk_error :=
  match clients with
  | Some clients =>
      let '(data, err) := parseClient (toml_table_in clients "Data") (ce_data endpoints) err in
      let '(metadata, err) := parseClient (toml_table_in clients "Metadata") (ce_metadata endpoints) err in
      let '(logging, err) := parseClient (toml_table_in clients "Logging") (ce_logging endpoints) err in
      (MkClients data metadata logging, err)
  | None => (endpoints, err)
  end.

End toml.

(** ** Environment variables *)

Fixpoint string_map (f : ascii -> ascii) (s : string) : string :=
  match s with String c s' => String (f c) (string_map f s') | EmptyString => EmptyString end.

Definition slash_char (c : ascii) : ascii := if Ascii.eqb c "/" then "_"%char else c.
Definition dash_char (c : ascii) : ascii := if Ascii.eqb c "-" then "_"%char else c.

Section override.
  Variable (getenv : string -> option string).

(** The contents of the buffer afterwards, and the value that was found. *)
Definition checkOverride (qstr : string) : string * option string :=
  let qstr := string_map slash_char qstr in
  match getenv qstr with
  | Some env => (qstr, Some env)
  | None => let qstr := string_map toupper qstr in (qstr, getenv qstr)
  end.

(** One named value; the buffer is used for the three attempts. *)
Definition override_one (sname : string) (nv : string * string) : string * string :=
  let '(name, value) := nv in
  let '(query, found) := checkOverride (sname +:+ "_" +:+ name) in
  match found with
  | Some v => (name, v)
  | None =>
      let query := string_map dash_char sname +:+ str_drop (String.length sname) query in
      let '(query, found) := checkOverride query in
      match found with
      | Some v => (name, v)
      | None => (name, default value (snd (checkOverride name)))
      end
  end.

Definition edgex_device_overrideConfig (sname : string) (config : devsdk_nvpairs) : devsdk_nvpairs :=
  map (override_one sname) config.

End override.

(** ** Values *)

Definition get_nv_config_string (config : devsdk_nvpairs) (key : string) : option string :=
  option_map snd (find (fun nv => strcasecmp_eq (fst nv) key) config).

(** [strtoull] with base 0; [w] is the width of the result. *)
Definition get_nv_config_uint (w : Z) (config : devsdk_nvpairs) (key : string) (err : devsdk_error) : Z * devsdk_error :=
  match get_nv_config_string config key with
  | Some value =>
      let r := strtoul 0 value in
      if negb (st_erange r) && (st_val r <=? 2 ^ w - 1) then (st_val r, err) else (0, EDGEX_BAD_CONFIG)
  | None => (0, err)
  end.

Definition get_nv_config_uint32 := get_nv_config_uint 32.
Definition get_nv_config_uint16 := get_nv_config_uint 16.

Definition get_nv_config_bool (config : devsdk_nvpairs) (key : string) (dfl : bool) : bool :=
  match get_nv_config_string config key with Some v => strcasecmp_eq v "true" | None => dfl end.

(** ** Labels *)

(** The tokens [strtok_r] finds between commas; [acc] is the token so far. *)
Fixpoint tokens (acc s : string) : list string :=
  match s with
  | EmptyString => match acc with EmptyString => [] | _ => [acc] end
  | String c s' =>
      if Ascii.eqb c "," then match acc with EmptyString => tokens EmptyString s' | _ => acc :: tokens EmptyString s' end
      else tokens (acc +:+ String c EmptyString) s'
  end.

Fixpoint commas (s : string) : nat :=
  match s with String c s' => ((if Ascii.eqb c "," then 1 else 0) + commas s')%nat | EmptyString => 0%nat end.

(** The array has one place more than there are commas, and one for the NULL. Without
    a token [strdup] is given a NULL pointer. *)
Definition split_labels (lstr : string) : res (list string) :=
  match tokens EmptyString lstr with
  | [] => Crash
  | l => if (length l <=? S (commas lstr))%nat then Ret l else Crash
  end.

(** ** The configuration record *)

Record edgex_device_serviceinfo := MkServiceInfo {
  si_host : option string; si_port : Z; si_connectretries : Z; si_labels : list string;
  si_startupmsg : option string; si_timeout_sec : Z; si_timeout_nsec : Z; si_checkinterval : option string }.

Record edgex_device_deviceinfo := MkDeviceInfo {
  di_datatransform : bool; di_discovery_enabled : bool; di_discovery_interval : Z; di_initcmd : option string;
  di_initcmdargs : option string; di_maxcmdops : Z; di_maxcmdresultlen : Z; di_removecmd : option string;
  di_removecmdargs : option string; di_profilesdir : option string; di_sendreadingsonchanged : bool;
  di_updatelastconnected : bool }.

Record edgex_device_logginginfo := MkLoggingInfo { li_file : option string; li_useremote : bool; li_level : Z }.

(** [ec_driverconf] is what was added to the map for the driver, in order. *)
Record edgex_device_config := MkConfig {
  ec_service : edgex_device_serviceinfo; ec_device : edgex_device_deviceinfo;
  ec_logging : edgex_device_logginginfo; ec_driverconf : devsdk_nvpairs }.

(** ** Log levels ([edgex-logging.c]) *)

Definition edgex_log_levels : list string := [EmptyString; "ERROR"; "WARNING"; "INFO"; "DEBUG"; "TRACE"].
Definition IOT_LOG_ERROR : Z := 1.
Definition IOT_LOG_INFO : Z := 3.
Definition IOT_LOG_TRACE : Z := 5.

Definition edgex_logger_levelname (l : Z) : res string :=
  if (0 <=? l) && (l <=? IOT_LOG_TRACE) then deref (edgex_log_levels !! Z.to_nat l) else Crash.

(** The loop over the levels from ERROR to TRACE; a name that is none changes nothing. *)
Fixpoint find_level (fuel : nat) (l : Z) (lstr : string) : res (option Z) :=
  match fuel with
  | O => Ret None
  | S fuel =>
      if l <=? IOT_LOG_TRACE then
        name ← edgex_logger_levelname l;
        if strcasecmp_eq lstr name then Ret (Some l) else find_level fuel (l + 1) lstr
      else Ret None
  end.

Definition edgex_config_setloglevel (lstr : string) (level : Z) : res Z :=
  o ← find_level 6 IOT_LOG_ERROR lstr; Ret (default level o).

Definition edgex_device_updateConf (config : devsdk_nvpairs) (level : Z) : res Z :=
  match (match get_nv_config_string config "Writable/LogLevel" with
         | Some l => Some l
         | None => get_nv_config_string config "Logging/LogLevel"
         end) with
  | Some lname => edgex_config_setloglevel lname level
  | None => Ret level
  end.

(** The values for the driver, without the prefix of their names. *)
Definition driver_pairs (config : devsdk_nvpairs) : devsdk_nvpairs :=
  omap (fun nv => if starts_with "Driver/" (fst nv) then Some (str_drop 7 (fst nv), snd nv) else None) config.

(** [level] is the log level before. *)
Definition edgex_device_populateConfig (config : devsdk_nvpairs) (level : Z) (err : devsdk_error)
    : res (edgex_device_config * devsdk_error) :=
  let '(port, err) := get_nv_config_uint16 config "Service/Port" err in
  let '(tm, err) := get_nv_config_uint32 config "Service/Timeout" err in
  let '(retries, err) := get_nv_config_uint32 config "Service/ConnectRetries" err in
  labels ← match get_nv_config_string config "Service/Labels" with Some lstr => split_labels lstr | None => Ret [] end;
  let '(interval, err) := get_nv_config_uint32 config "Device/Discovery/Interval" err in
  let '(maxops, err) := get_nv_config_uint32 config "Device/MaxCmdOps" err in
  let '(maxlen, err) := get_nv_config_uint32 config "Device/MaxCmdResultLen" err in
  level ← edgex_device_updateConf config level;
  Ret (MkConfig
    (MkServiceInfo (get_nv_config_string config "Service/Host") port retries labels
       (get_nv_config_string config "Service/StartupMsg") (tm / 1000) (1000000 * (tm mod 1000))
       (get_nv_config_string config "Service/CheckInterval"))
    (MkDeviceInfo (get_nv_config_bool config "Device/DataTransform" true)
       (get_nv_config_bool config "Device/Discovery/Enabled" true) interval
       (get_nv_config_string config "Device/InitCmd") (get_nv_config_string config "Device/InitCmdArgs") maxops maxlen
       (get_nv_config_string config "Device/RemoveCmd") (get_nv_config_string config "Device/RemoveCmdArgs")
       (get_nv_config_string config "Device/ProfilesDir") (get_nv_config_bool config "Device/SendReadingsOnChanged" false)
       (get_nv_config_bool config "Device/UpdateLastConnected" false))
    (MkLoggingInfo (get_nv_config_string config "Logging/File") (get_nv_config_bool config "Logging/EnableRemote" false) level)
    (driver_pairs config), err).

(** ** The reply with the configuration *)

Definition endpoint_json (e : client_endpoint) : JSON_Value :=
  VObject ([] ;> put_string "Host" (ce_host e) ;> put_uint "Port" (ce_port e)).

(** [entries] is what the iteration over the map for the driver gives. *)
Definition config_json (cfg : edgex_device_config) (ep : client_endpoints) (entries : devsdk_nvpairs) : JSON_Value :=
  let s := ec_service cfg in
  let d := ec_device cfg in
  let clients := VObject ([] ;> put_value "Metadata" (endpoint_json (ce_metadata ep))
                             ;> put_value "Data" (endpoint_json (ce_data ep))
                             ;> put_value "Data" (endpoint_json (ce_logging ep))) in
  let logging := VObject ([] ;> put_string "File" (li_file (ec_logging cfg))
                             ;> put_boolean "EnableRemote" (li_useremote (ec_logging cfg))) in
  let tm := wrap_u 64 (si_timeout_nsec s / 1000000 + si_timeout_sec s * 1000) in
  let service := VObject ([] ;> put_string "Host" (si_host s) ;> put_uint "Port" (si_port s)
    ;> put_uint "Timeout" tm ;> put_uint "ConnectRetries" (si_connectretries s)
    ;> put_string "StartupMsg" (si_startupmsg s) ;> put_string "CheckInterval" (si_checkinterval s)
    ;> put_value "Labels" (strings_to_array (si_labels s))) in
  let discovery := VObject ([] ;> put_boolean "Enabled" (di_discovery_enabled d)
                               ;> put_uint "Interval" (di_discovery_interval d)) in
  let device := VObject ([] ;> put_value "Discovery" discovery
    ;> put_boolean "DataTransform" (di_datatransform d) ;> put_string "InitCmd" (di_initcmd d)
    ;> put_string "InitCmdArgs" (di_initcmdargs d) ;> put_uint "MaxCmdOps" (di_maxcmdops d)
    ;> put_uint "MaxCmdResultLen" (di_maxcmdresultlen d) ;> put_string "RemoveCmd" (di_removecmd d)
    ;> put_string "RemoveCmdArgs" (di_removecmdargs d) ;> put_string "ProfilesDir" (di_profilesdir d)
    ;> put_boolean "SendReadingsOnChanged" (di_sendreadingsonchanged d)
    ;> put_boolean "UpdateLastConnected" (di_updatelastconnected d)) in
  let driver := VObject (foldl (fun o nv => put_string (fst nv) (Some (snd nv)) o) [] entries) in
  VObject ([] ;> put_value "Clients" clients ;> put_value "Logging" logging ;> put_value "Service" service
              ;> put_value "Device" device ;> put_value "Driver" driver).

(** A NULL text is measured with [strlen]. *)
Definition edgex_device_handler_config (cfg : edgex_device_config) (ep : client_endpoints) (entries : devsdk_nvpairs)
    : res (string * string * Z) :=
  text ← deref (json_serialize_to_string (Some (config_json cfg ep entries)));
  Ret (text, CONTENT_JSON, MHD_HTTP_OK).
