(* ===== verification/ConfigProofs.v ===== *)
(** * Correctness of the configuration

    Which environment variables override a value, which values a TOML file leads to,
    and that the record is filled in within the ranges of its types. *)

From S2P Require Import Prelude CLib CFloat Parson ParsonText ParsonProofs DevTypes EdgexRest EdgexRestProofs.
From S2P Require Import Device Rest Metadata Config.
From Stdlib Require Import Ascii.
Local Open Scope Z_scope.

(** ** Environment variables *)

(** The names that are tried, in order. *)
Definition candidates (sname name : string) : list string :=
  let full := string_map slash_char (sname +:+ "_" +:+ name) in
  let mixed := string_map slash_char (string_map dash_char sname)
               +:+ string_map toupper (string_map slash_char ("_" +:+ name)) in
  let short := string_map slash_char name in
  [full; string_map toupper full; mixed; string_map toupper mixed; short; string_map toupper short].

Fixpoint first_env (getenv : string -> option string) (names : list string) : option string :=
  match names with
  | [] => None
  | n :: names' => match getenv n with Some v => Some v | None => first_env getenv names' end
  end.

Lemma string_map_app f a b : string_map f (a +:+ b) = string_map f a +:+ string_map f b.
Proof. induction a as [|c a IH]; [done|]. cbn. by rewrite IH. Qed.

Lemma string_map_length f s : String.length (string_map f s) = String.length s.
Proof. induction s as [|c s IH]; [done|]. cbn. by rewrite IH. Qed.

Lemma string_map_compose f g s : string_map f (string_map g s) = string_map (fun c => f (g c)) s.
Proof. induction s as [|c s IH]; [done|]. cbn. by rewrite IH. Qed.

Lemma string_map_ext f g s : (forall c, f c = g c) -> string_map f s = string_map g s.
Proof. intros H. induction s as [|c s IH]; [done|]. cbn. by rewrite H, IH. Qed.

Lemma slash_upper c : slash_char (toupper (slash_char c)) = toupper (slash_char c).
Proof. destruct c as [[] [] [] [] [] [] [] []]; reflexivity. Qed.

Lemma check_override getenv q :
  snd (checkOverride getenv q)
  = first_env getenv [string_map slash_char q; string_map toupper (string_map slash_char q)].
Proof. unfold checkOverride, first_env. destruct (getenv _); [done|]. cbn [snd]. by destruct (getenv _). Qed.

Lemma first_env_app getenv a b :
  first_env getenv (a ++ b) = match first_env getenv a with Some v => Some v | None => first_env getenv b end.
Proof. induction a as [|n a IH]; [done|]. cbn. by destruct (getenv n). Qed.

(** The buffer after an attempt that found nothing. *)
Lemma check_override_buffer getenv q q' :
  checkOverride getenv q = (q', None) -> q' = string_map toupper (string_map slash_char q).
Proof. unfold checkOverride. destruct (getenv _); [done|]. by intros [= <- _]. Qed.

(** A value of the configuration is replaced by the first environment variable that
    is set among: the name of the service and of the value, with underscores for
    slashes; that in upper case; the same with underscores for the dashes of the
    service name and the rest in upper case; all of it in upper case; the name of the
    value alone; that in upper case. *)
Theorem override_first (getenv : string -> option string) (sname : string) (config : devsdk_nvpairs) :
  edgex_device_overrideConfig getenv sname config
  = map (fun nv => (fst nv, default (snd nv) (first_env getenv (candidates sname (fst nv))))) config.
Proof.
  unfold edgex_device_overrideConfig. apply map_ext. intros [name value]. unfold override_one. cbn [fst snd].
  change (candidates sname name) with
    ([string_map slash_char (sname +:+ "_" +:+ name); string_map toupper (string_map slash_char (sname +:+ "_" +:+ name))]
     ++ (let mixed := string_map slash_char (string_map dash_char sname)
               +:+ string_map toupper (string_map slash_char ("_" +:+ name)) in [mixed; string_map toupper mixed])
     ++ [string_map slash_char name; string_map toupper (string_map slash_char name)]).
  rewrite !first_env_app, <-!check_override.
  destruct (checkOverride getenv (sname +:+ "_" +:+ name)) as [q1 [v|]] eqn:E1; [done|]. cbn [snd].
  apply check_override_buffer in E1. subst q1.
  set (rest := string_map toupper (string_map slash_char ("_" +:+ name))).
  assert (str_drop (String.length sname) (string_map toupper (string_map slash_char (sname +:+ "_" +:+ name))) = rest) as ->.
  { rewrite (string_map_app slash_char), string_map_app.
    rewrite <-(string_map_length slash_char sname), <-(string_map_length toupper (string_map slash_char sname)).
    apply drop_app_length. }
  pose proof (check_override getenv (string_map dash_char sname +:+ rest)) as Hc.
  assert (string_map slash_char rest = rest) as Hrest.
  { unfold rest. rewrite !string_map_compose. apply string_map_ext. intros c. apply slash_upper. }
  rewrite (string_map_app slash_char), Hrest in Hc. cbn zeta. rewrite <-Hc.
  destruct (checkOverride getenv (string_map dash_char sname +:+ rest)) as [q2 [v|]]; done.
Qed.

(** ** Values of a file *)

Section toml.
  Context `{T : Toml} `{L : !TomlLaws T}.

(** The value [v] is stored under the name [n] for the table [t] at [prefix]. *)
Inductive stored : toml_table_t -> string -> string -> string -> Prop :=
| stored_value t prefix i k raw v :
    prefix <> "Clients" -> toml_key_in t i = Some k -> toml_raw_in t k = Some raw -> value_text raw = Ret (Some v) ->
    stored t prefix (full_name prefix k) v
| stored_table t prefix i k tab n v :
    prefix <> "Clients" -> toml_key_in t i = Some k -> toml_raw_in t k = None -> toml_table_in t k = Some tab ->
    stored tab (full_name prefix k) n v -> stored t prefix n v.

(** The positions of the keys are without gaps: those the loop reaches. *)
Definition dense (t : toml_table_t) : Prop :=
  forall i k, toml_key_in t i = Some k -> forall j, (j < i)%nat -> is_Some (toml_key_in t j).

Lemma table_keys_elem fuel t i k :
  (toml_rank t <= fuel + i)%nat -> dense t ->
  (forall j, (j < i)%nat -> is_Some (toml_key_in t j)) ->
  k ∈ table_keys fuel t i <-> exists j, (i <= j)%nat /\ toml_key_in t j = Some k.
Proof.
  intros Hf Hd. revert i Hf. induction fuel as [|fuel IH]; intros i Hf Hi; cbn [table_keys].
  - split; [by intros ?%not_elem_of_nil|]. intros (j & Hj & E). apply key_rank in E. lia.
  - destruct (toml_key_in t i) as [k'|] eqn:E.
    + rewrite elem_of_cons, IH; [|lia|].
      * split.
        -- intros [->|(j & Hj & Ej)]; [by exists i|]. exists j. split; [lia|done].
        -- intros (j & Hj & Ej). destruct (decide (j = i)) as [->|Hne]; [left; congruence|].
           right. exists j. split; [lia|done].
      * intros j Hj. destruct (decide (j = i)) as [->|Hne]; [by eexists|]. apply Hi. lia.
    + split; [by intros ?%not_elem_of_nil|]. intros (j & Hj & Ej).
      destruct (decide (j = i)) as [->|Hne]; [congruence|].
      destruct (Hd j k Ej i ltac:(lia)) as [? ?]. congruence.
Qed.

Lemma foldl_stored {A} (f : devsdk_nvpairs -> A -> res devsdk_nvpairs) (P : A -> string * string -> Prop) acc l :
  (forall x acc, x ∈ l -> exists acc', f acc x = Ret acc' /\ forall nv, nv ∈ acc' <-> nv ∈ acc \/ P x nv) ->
  exists acc', res_foldl f acc l = Ret acc' /\ forall nv, nv ∈ acc' <-> nv ∈ acc \/ exists x, x ∈ l /\ P x nv.
Proof.
  revert acc. induction l as [|x l IH]; intros acc H; cbn [res_foldl].
  - exists acc. split; [done|]. intros nv. split; [by left|]. intros [|(x & ?%not_elem_of_nil & _)]; done.
  - destruct (H x acc) as (a1 & -> & H1); [by left|]. rewrite res_bind_ret.
    destruct (IH a1) as (a2 & -> & H2). { intros y a Hy. apply H. by right. }
    exists a2. split; [done|]. intros nv. rewrite H2, H1. split.
    + intros [[?|?]|(y & Hy & ?)]; [by left|right; exists x; split; [by left|done]|].
      right. exists y. split; [by right|done].
    + intros [?|(y & [->|Hy]%elem_of_cons & ?)]; [by left; left|by left; right|]. right. by exists y.
Qed.

(** The values print into their buffers, and the keys have no gaps. *)
Definition prints (t : toml_table_t) : Prop := forall k raw, toml_raw_in t k = Some raw -> exists o, value_text raw = Ret o.

Inductive reads_well : toml_table_t -> Prop :=
| reads_well_intro t :
    dense t -> prints t -> (forall k tab, toml_table_in t k = Some tab -> reads_well tab) -> reads_well t.

Lemma process_table_ok fuel t acc prefix :
  reads_well t -> (toml_rank t <= fuel)%nat ->
  exists acc', processTable fuel t acc prefix = Ret acc' /\
    forall n v, (n, v) ∈ acc' <-> (n, v) ∈ acc \/ stored t prefix n v.
Proof.
  intros Hr. revert fuel acc prefix. induction Hr as [t Hd Hp Ht IH]. intros fuel acc prefix Hf.
  destruct fuel as [|fuel]; cbn [processTable].
  { assert (forall n v, ~ stored t prefix n v) as Hno.
    { intros n v Hs. destruct Hs as [? ? i ? ? ? _ E|? ? i ? ? ? ? _ E]; apply key_rank in E; lia. }
    exists acc. split; [by destruct (String.eqb prefix "Clients")|]. intros n v. split; [by left|].
    intros [|Hs]; [done|]. by apply Hno in Hs. }
  destruct (String.eqb_spec prefix "Clients") as [->|Hne].
  { exists acc. split; [done|]. intros n v. split; [by left|]. intros [|Hs]; [done|].
    by inversion Hs. }
  match goal with |- context [res_foldl ?f acc ?l] =>
    destruct (foldl_stored f (fun k nv => match toml_raw_in t k with
                 | Some raw => value_text raw = Ret (Some (snd nv)) /\ fst nv = full_name prefix k
                 | None => exists tab, toml_table_in t k = Some tab /\ stored tab (full_name prefix k) (fst nv) (snd nv)
                 end) acc l) as (acc' & -> & Hacc) end.
  - intros k a Hk. destruct (toml_raw_in t k) as [raw|] eqn:Eraw.
    + destruct (Hp k raw Eraw) as [o Ho]. rewrite Ho, res_bind_ret. eexists. split; [reflexivity|].
      intros [n v]. cbn [fst snd]. destruct o as [v'|].
      * unfold devsdk_nvpairs_new. rewrite elem_of_cons. split.
        -- intros [[= -> ->]|?]; [by right|by left].
        -- intros [?|[[= ->] ->]]; [by right|by left].
      * split; [by left|]. by intros [?|[? _]].
    + destruct (toml_table_in t k) as [tab|] eqn:Etab.
      * pose proof (table_rank _ _ _ Etab).
        destruct (IH k tab Etab fuel a (full_name prefix k) ltac:(lia)) as (a' & -> & Ha').
        exists a'. split; [done|]. intros [n v]. rewrite Ha'. cbn [fst snd]. split.
        -- intros [?|?]; [by left|]. right. by exists tab.
        -- intros [?|(tab' & [= <-] & ?)]; [by left|by right].
      * exists a. split; [done|]. intros nv. split; [by left|]. by intros [?|(? & ? & _)].
  - exists acc'. split; [done|]. intros n v. rewrite Hacc. cbn [fst snd].
    assert (forall k, k ∈ table_keys (S fuel) t 0 <-> exists j, toml_key_in t j = Some k) as Hkeys.
    { intros k. rewrite table_keys_elem; [|lia|done|lia]. split; intros (j & Hj); exists j; [apply Hj|]. split; [lia|done]. }
    split; (intros [?|Hs]; [by left|]; right).
    + destruct Hs as (k & [j Hj]%Hkeys & Hs). destruct (toml_raw_in t k) as [raw|] eqn:Eraw.
      * destruct Hs as [Hv ->]. by eapply stored_value.
      * destruct Hs as (tab & Etab & Hs). by eapply stored_table.
    + destruct Hs as [t prefix i k raw v _ Ek Eraw Hv|t prefix i k tab n v _ Ek Eraw Etab Hs]; exists k;
        (split; [apply Hkeys; by exists i|]); rewrite Eraw; [done|by exists tab].
Qed.

(** A TOML file leads to exactly the values stored in its tables, each under the names
    of the tables that lead to it and its own, without the table of clients; the
    recursion ends for every file. *)
Theorem toml_values_stored (fuel : nat) (config : toml_table_t) :
  reads_well config -> (toml_rank config <= fuel)%nat ->
  exists l, edgex_device_parseToml fuel config = Ret l /\
    forall n v, (n, v) ∈ l <-> stored config EmptyString n v.
Proof.
  intros Hr Hf. destruct (process_table_ok fuel config [] EmptyString Hr Hf) as (l & Hl & Hs).
  exists l. split; [done|]. intros n v. rewrite Hs. split; [|by right]. intros [?%not_elem_of_nil|?]; done.
Qed.

End toml.

(** A library over trees of named values; numbers are decimal. *)
#[warnings="-register-all"] Inductive toml_tree := TomlTree (raws : list (string * string)) (subs : list (string * toml_tree)).

Definition tree_find {A} (k : string) (l : list (string * A)) : option A :=
  option_map snd (find (fun kv => String.eqb (fst kv) k) l).

Fixpoint tree_rank (t : toml_tree) : nat :=
  let '(TomlTree raws subs) := t in
  S (length raws + sum_list_with (fun kv => S (tree_rank (snd kv))) subs).

Definition decimal (s : string) : option Z :=
  match s with
  | EmptyString => None
  | String c _ =>
      let r := strtoul 10 s in
      if String.eqb (st_end r) EmptyString && (st_val r <? 2 ^ 63) && negb (Ascii.eqb c "-") then Some (st_val r) else None
  end.

Definition sample_toml : Toml := {|
  toml_table_t := toml_tree;
  toml_array_t := list toml_tree;
  toml_key_in := fun '(TomlTree raws subs) i => (map fst raws ++ map fst subs) !! i;
  toml_raw_in := fun '(TomlTree raws subs) k => tree_find k raws;
  toml_table_in := fun '(TomlTree raws subs) k => tree_find k subs;
  toml_array_in := fun _ _ => None;
  toml_table_at := fun a i => a !! i;
  toml_raw_at := fun _ _ => None;
  toml_rtos := Some;
  toml_rtoi := decimal;
  toml_rtod := fun _ => None;
  toml_rtob := fun s => if String.eqb s "true" then Some true else if String.eqb s "false" then Some false else None
|}.

Lemma tree_rank_sub k subs t : tree_find k subs = Some t -> (tree_rank t < S (sum_list_with (fun kv => S (tree_rank (snd kv))) subs))%nat.
Proof.
  unfold tree_find. induction subs as [|[n t'] subs IH]; [done|]. cbn [find fst].
  destruct (String.eqb n k); cbn [option_map snd sum_list_with].
  - intros [= <-]. lia.
  - intros H%IH. lia.
Qed.

Lemma subs_length (subs : list (string * toml_tree)) : (length subs <= sum_list_with (fun kv => S (tree_rank (snd kv))) subs)%nat.
Proof. induction subs as [|kv subs IH]; cbn [length sum_list_with]; lia. Qed.

Definition sample_toml_laws : TomlLaws sample_toml.
Proof.
  refine {| toml_rank := (tree_rank : @toml_table_t sample_toml -> nat) |}.
  - intros [raws subs] i k Hk%lookup_lt_Some. cbn [tree_rank]. rewrite length_app, !length_map in Hk.
    pose proof (subs_length subs). lia.
  - intros [raws subs] k t H%tree_rank_sub. cbn [tree_rank]. lia.
  - intros [|c s] z; [done|]. cbn -[Z.pow strtoul]. destruct (_ && _ && _) eqn:E; [|done]. intros [= <-].
    pose proof (strtoul_range 10 (String c s) ltac:(lia)). lia.
Defined.

Definition sample_file : toml_tree :=
  TomlTree [("Owner", "lab")]
    [("Service", TomlTree [("Port", "49999"); ("Labels", "virtual,demo")] []);
     ("Clients", TomlTree [] [("Data", TomlTree [("Host", "localhost")] [])]);
     ("Device", TomlTree [("DataTransform", "true")] [("Discovery", TomlTree [("Interval", "30")] [])])].

Lemma tree_dense t : dense (T := sample_toml) t.
Proof.
  destruct t as [raws subs]. intros i k Hi%lookup_lt_Some j Hj.
  apply (lookup_lt_is_Some_2 (map fst raws ++ map fst subs)). lia.
Qed.

Ltac tree_cases H :=
  cbn [toml_raw_in toml_table_in sample_toml sample_file] in H; unfold tree_find in H; cbn [find fst snd option_map] in H;
  repeat match type of H with
  | context [if String.eqb ?a ?b then _ else _] => destruct (String.eqb a b); cbn [option_map snd] in H
  end; try discriminate H; try (injection H as <-).

Ltac tree_reads := constructor; [apply tree_dense|
  let H := fresh in intros ? ? H; tree_cases H; eexists; vm_compute; reflexivity|
  let H := fresh in intros ? ? H; tree_cases H].

Lemma sample_reads_well : reads_well (T := sample_toml) sample_file.
Proof. repeat tree_reads. Qed.

Lemma toml_values_stored_witness :
  stored (T := sample_toml) sample_file EmptyString "Device/Discovery/Interval" "30" /\
  ~ stored (T := sample_toml) sample_file EmptyString "Clients/Data/Host" "localhost".
Proof.
  destruct (toml_values_stored (L := sample_toml_laws) 40 sample_file) as (l & Hl & H).
  - exact sample_reads_well.
  - vm_compute. lia.
  - vm_compute in Hl. injection Hl as <-. split; [apply H; repeat (first [by left|right])|].
    intros Hs%H. repeat (apply elem_of_cons in Hs as [[=]|Hs]). by apply not_elem_of_nil in Hs.
Defined.

(** ** The record *)

(** What the text of a numeric value says; 0 when it is missing. *)
Definition number_of (config : devsdk_nvpairs) (key : string) : Z :=
  match get_nv_config_string config key with Some v => st_val (strtoul 0 v) | None => 0 end.

(** The text of a numeric value does not fit [w] bits. *)
Definition too_large (config : devsdk_nvpairs) (w : Z) (key : string) : bool :=
  match get_nv_config_string config key with
  | Some v => st_erange (strtoul 0 v) || negb (st_val (strtoul 0 v) <=? 2 ^ w - 1)
  | None => false
  end.

Lemma get_uint_ok w config key :
  0 <= w ->
  exists v, 0 <= v < 2 ^ w /\ (too_large config w key = false -> v = number_of config key) /\
    forall err, get_nv_config_uint w config key err = (v, if too_large config w key then EDGEX_BAD_CONFIG else err).
Proof.
  intros Hw. pose proof (Z.pow_pos_nonneg 2 w ltac:(lia) Hw).
  unfold get_nv_config_uint, too_large, number_of. destruct (get_nv_config_string config key) as [v|].
  - pose proof (strtoul_range 0 v ltac:(lia)). destruct (st_erange _), (Z.leb_spec (st_val (strtoul 0 v)) (2 ^ w - 1));
      cbn [negb andb orb]; [exists 0|exists 0|exists (st_val (strtoul 0 v))|exists 0]; (split; [lia|done]).
  - exists 0. split; [lia|done].
Qed.

Lemma tokens_commas acc s : (length (tokens acc s) <= S (commas s))%nat.
Proof.
  revert acc. induction s as [|c s IH]; intros acc; cbn [tokens commas].
  - destruct acc; cbn; lia.
  - destruct (Ascii.eqb c ","); [|apply IH]. pose proof (IH EmptyString). destruct acc; cbn [length]; lia.
Qed.

(** The array of labels is large enough; the one text that is not handled has no label. *)
Lemma split_labels_ok lstr :
  split_labels lstr = match tokens EmptyString lstr with [] => Crash | l => Ret l end.
Proof.
  unfold split_labels. pose proof (tokens_commas EmptyString lstr) as H.
  destruct (tokens EmptyString lstr) as [|t l]; [done|]. by rewrite (proj2 (Nat.leb_le _ _) H).
Qed.

Lemma find_level_ok lstr : exists o, find_level 6 IOT_LOG_ERROR lstr = Ret o /\ forall l, o = Some l -> 1 <= l <= 5.
Proof.
  change (find_level 6 IOT_LOG_ERROR lstr) with
    (if strcasecmp_eq lstr "ERROR" then Ret (Some 1) else if strcasecmp_eq lstr "WARNING" then Ret (Some 2)
     else if strcasecmp_eq lstr "INFO" then Ret (Some 3) else if strcasecmp_eq lstr "DEBUG" then Ret (Some 4)
     else if strcasecmp_eq lstr "TRACE" then Ret (Some 5) else Ret None).
  repeat case_match; eexists; (split; [reflexivity|]); intros l Hl; try discriminate Hl; injection Hl as <-; lia.
Qed.

Lemma update_conf_ok config level :
  0 <= level <= 5 -> exists l, edgex_device_updateConf config level = Ret l /\ 0 <= l <= 5.
Proof.
  intros Hl. unfold edgex_device_updateConf, edgex_config_setloglevel.
  destruct (match get_nv_config_string config _ with Some _ => _ | None => _ end) as [n|]; [|by exists level].
  destruct (find_level_ok n) as ([l|] & -> & H); eexists; (split; [reflexivity|]); cbn [default]; [|done].
  specialize (H l eq_refl). unfold id. lia.
Qed.

(** Milliseconds as seconds and nanoseconds. *)
Lemma timeout_split tm :
  0 <= tm < 2 ^ 32 ->
  0 <= tm / 1000 < 2 ^ 32 /\ 0 <= 1000000 * (tm mod 1000) < 10 ^ 9 /\ tm / 1000 * 1000 + 1000000 * (tm mod 1000) / 10 ^ 6 = tm.
Proof.
  intros H. pose proof (Z.mod_pos_bound tm 1000 ltac:(lia)). pose proof (Z.div_mod tm 1000 ltac:(lia)).
  replace (1000000 * (tm mod 1000)) with (tm mod 1000 * 10 ^ 6) by lia. rewrite Z.div_mul by lia. lia.
Qed.

(** The fields are within the ranges of their C types. *)
Definition config_in_range (cfg : edgex_device_config) : Prop :=
  let s := ec_service cfg in
  let d := ec_device cfg in
  0 <= si_port s < 2 ^ 16 /\ 0 <= si_connectretries s < 2 ^ 32 /\
  0 <= si_timeout_sec s < 2 ^ 32 /\ 0 <= si_timeout_nsec s < 10 ^ 9 /\
  0 <= di_discovery_interval d < 2 ^ 32 /\ 0 <= di_maxcmdops d < 2 ^ 32 /\ 0 <= di_maxcmdresultlen d < 2 ^ 32 /\
  0 <= li_level (ec_logging cfg) <= IOT_LOG_TRACE.

(** The fields have these numbers; the timeout is in milliseconds there. *)
Definition config_as_given (number : string -> Z) (cfg : edgex_device_config) : Prop :=
  let s := ec_service cfg in
  let d := ec_device cfg in
  si_port s = number "Service/Port" /\
  si_timeout_sec s * 1000 + si_timeout_nsec s / 10 ^ 6 = number "Service/Timeout" /\
  si_connectretries s = number "Service/ConnectRetries" /\
  di_discovery_interval d = number "Device/Discovery/Interval" /\
  di_maxcmdops d = number "Device/MaxCmdOps" /\
  di_maxcmdresultlen d = number "Device/MaxCmdResultLen".

Definition numeric_keys : list (string * Z) :=
  [("Service/Port", 16); ("Service/Timeout", 32); ("Service/ConnectRetries", 32); ("Device/Discovery/Interval", 32);
   ("Device/MaxCmdOps", 32); ("Device/MaxCmdResultLen", 32)].

Definition some_too_large (config : devsdk_nvpairs) : bool :=
  existsb (fun kw => too_large config (snd kw) (fst kw)) numeric_keys.

Lemma populate_config_ok (config : devsdk_nvpairs) (level : Z) :
  0 <= level <= IOT_LOG_TRACE ->
  match edgex_device_populateConfig config level EDGEX_OK with
  | Ret (cfg, err) =>
      config_in_range cfg /\ err = (if some_too_large config then EDGEX_BAD_CONFIG else EDGEX_OK) /\
      (some_too_large config = false -> config_as_given (number_of config) cfg)
  | Crash => exists lstr, get_nv_config_string config "Service/Labels" = Some lstr /\ tokens EmptyString lstr = []
  | Fail => False
  end.
Proof.
  intros Hl. unfold edgex_device_populateConfig, get_nv_config_uint16, get_nv_config_uint32, some_too_large, numeric_keys.
  destruct (get_uint_ok 16 config "Service/Port") as (port & ? & Hport & Eport); [lia|].
  destruct (get_uint_ok 32 config "Service/Timeout") as (tm & ? & Htm & Etm); [lia|].
  destruct (get_uint_ok 32 config "Service/ConnectRetries") as (rt & ? & Hrt & Ert); [lia|].
  destruct (get_uint_ok 32 config "Device/Discovery/Interval") as (di & ? & Hdi & Edi); [lia|].
  destruct (get_uint_ok 32 config "Device/MaxCmdOps") as (mo & ? & Hmo & Emo); [lia|].
  destruct (get_uint_ok 32 config "Device/MaxCmdResultLen") as (ml & ? & Hml & Eml); [lia|].
  rewrite Eport, Etm, Ert, Edi, Emo, Eml. cbn [existsb fst snd].
  assert ((exists labels, match get_nv_config_string config "Service/Labels" with Some lstr => split_labels lstr | None => Ret [] end = Ret labels)
     \/ match get_nv_config_string config "Service/Labels" with Some lstr => split_labels lstr | None => Ret [] end = Crash /\
        exists lstr, get_nv_config_string config "Service/Labels" = Some lstr /\ tokens EmptyString lstr = [])
    as [[labels ->]|[-> H']]; [|rewrite res_bind_ret|done].
  { destruct (get_nv_config_string config "Service/Labels") as [lstr|]; [|left; by eexists]. rewrite split_labels_ok.
    destruct (tokens EmptyString lstr) eqn:E; [right|left; by eexists]. split; [done|]. by exists lstr. }
  destruct (update_conf_ok config level Hl) as (l & -> & ?). rewrite res_bind_ret.
  unfold config_in_range, config_as_given.
  cbn [ec_service ec_device ec_logging si_port si_connectretries si_timeout_sec si_timeout_nsec di_discovery_interval
       di_maxcmdops di_maxcmdresultlen li_level].
  destruct (timeout_split tm) as (? & ? & Etm'); [done|].
  split; [done|]. split.
  - by repeat destruct (too_large _ _ _).
  - rewrite !orb_false_iff. intros (?&?&?&?&?&?&_). rewrite Etm'. auto 10.
Qed.

(** The value of the key is the number [n] in decimal notation; 0 when it is missing. *)
Definition says (config : devsdk_nvpairs) (key : string) (n : Z) : Prop :=
  match get_nv_config_string config key with Some text => 0 <= n /\ text = print_u n | None => n = 0 end.

Lemma says_number config key n w :
  0 <= w <= 64 -> says config key n ->
  too_large config w key = negb (n <? 2 ^ w) /\ (n < 2 ^ w -> number_of config key = n).
Proof.
  intros Hw Hs. pose proof (Z.pow_le_mono_r 2 w 64 ltac:(lia) ltac:(lia)). pose proof (Z.pow_pos_nonneg 2 w ltac:(lia) ltac:(lia)).
  unfold says, too_large, number_of in *. destruct (get_nv_config_string config key) as [text|].
  - destruct Hs as [Hn ->]. destruct (strtoul_decimal n Hn) as [-> ->].
    destruct (n <? 2 ^ 64) eqn:E64, (n <? 2 ^ w) eqn:Ew; cbn [negb orb]; bool_to_prop; (split; [|lia]);
      apply negb_true_iff || apply negb_false_iff || idtac; bool_to_prop; lia.
  - subst n. by rewrite (proj2 (Z.ltb_lt _ _)).
Qed.

(** C37. Filling in the record from named values always ends, except for a value of the
    labels that has no label in it, and has every number within its type. If the numeric
    values are written in decimal notation, or missing, the error is set exactly when one
    of them is out of range for its field, and otherwise the fields have these numbers.
    (A text that is no number counts as 0 and a negative one wraps around:
    [text_as_number].) *)
Theorem config_filled (config : devsdk_nvpairs) (level : Z) :
  0 <= level <= IOT_LOG_TRACE ->
  match edgex_device_populateConfig config level EDGEX_OK with
  | Ret (cfg, err) =>
      config_in_range cfg /\
      forall number, (forall key w, (key, w) ∈ numeric_keys -> says config key (number key)) ->
        if forallb (fun kw => number (fst kw) <? 2 ^ snd kw) numeric_keys
        then err = EDGEX_OK /\ config_as_given number cfg else err = EDGEX_BAD_CONFIG
  | Crash => exists lstr, get_nv_config_string config "Service/Labels" = Some lstr /\ tokens EmptyString lstr = []
  | Fail => False
  end.
Proof.
  intros Hl. pose proof (populate_config_ok config level Hl) as H.
  destruct (edgex_device_populateConfig config level EDGEX_OK) as [[cfg err]| |]; [|done..].
  destruct H as (Hr & -> & Hg). split; [done|]. intros number Hs.
  assert (forall key w, (key, w) ∈ numeric_keys -> 0 <= w <= 64) as Hw.
  { intros key w Hin. by repeat (apply elem_of_cons in Hin as [[= -> ->]|Hin]; [done|]); apply not_elem_of_nil in Hin. }
  assert (some_too_large config = negb (forallb (fun kw => number (fst kw) <? 2 ^ snd kw) numeric_keys)) as E.
  { unfold some_too_large. clear Hg. induction numeric_keys as [|[key w] keys IH]; [done|]. cbn [existsb forallb fst snd].
    rewrite (proj1 (says_number config key (number key) w ltac:(eapply Hw; by left) ltac:(eapply Hs; by left))).
    rewrite IH; [by destruct (_ <? _)|..]; intros; [eapply Hs|eapply Hw]; by right. }
  rewrite E in *. destruct (forallb _ _) eqn:Ef; cbn [negb] in *; [|done]. split; [done|]. specialize (Hg eq_refl).
  assert (forall key w, (key, w) ∈ numeric_keys -> number_of config key = number key) as Hn.
  { intros key w Hin. apply (says_number config key (number key) w (Hw _ _ Hin) (Hs _ _ Hin)).
    rewrite forallb_forall in Ef. apply list_elem_of_In in Hin. specialize (Ef _ Hin). cbn [fst snd] in Ef. lia. }
  unfold config_as_given in *. rewrite !(Hn "Service/Port" 16), !(Hn _ 32) in Hg; [done|..]; repeat (first [by left|right]).
Qed.

Lemma config_filled_witness :
  exists cfg, edgex_device_populateConfig [("Service/Port", "49999"); ("Service/Timeout", "500")] 3 EDGEX_OK = Ret (cfg, EDGEX_OK) /\
    config_in_range cfg /\ si_port (ec_service cfg) = 49999.
Proof.
  pose proof (config_filled [("Service/Port", "49999"); ("Service/Timeout", "500")] 3 ltac:(vm_compute; split; discriminate)) as H.
  destruct (edgex_device_populateConfig _ 3 EDGEX_OK) as [[cfg err]| |] eqn:E; [|vm_compute in E; discriminate..].
  destruct H as (Hr & H). exists cfg.
  specialize (H (fun key => if String.eqb key "Service/Port" then 49999 else if String.eqb key "Service/Timeout" then 500 else 0)).
  destruct H as [-> Hg].
  - intros key w Hin. by repeat (apply elem_of_cons in Hin as [[= -> ->]|Hin]; [done|]); apply not_elem_of_nil in Hin.
  - split_and!; [reflexivity|exact Hr|apply Hg].
Defined.

(** A number that is not one is 0, and what follows a number is not looked at. *)
Lemma text_as_number :
  get_nv_config_uint16 [("Service/Port", "http")] "Service/Port" EDGEX_OK = (0, EDGEX_OK) /\
  get_nv_config_uint32 [("Service/Timeout", "5s")] "Service/Timeout" EDGEX_OK = (5, EDGEX_OK) /\
  get_nv_config_uint32 [("Service/Timeout", "-18446744073709551615")] "Service/Timeout" EDGEX_OK = (1, EDGEX_OK).
Proof. vm_compute. split_and!; reflexivity. Qed.

(** Labels without a label are not survived. *)
Lemma empty_labels : split_labels EmptyString = Crash /\ split_labels "," = Crash.
Proof. split; reflexivity. Qed.

(** A floating-point number with 25 digits before the point does not fit the 32 bytes
    it is printed into. *)
Lemma double_overflows `{T : Toml} raw d :
  raw <> "true" -> raw <> "false" -> toml_rtoi raw = None -> toml_rtod raw = Some d ->
  (32 <= String.length (print_f d))%nat -> value_text raw = Crash.
Proof.
  intros H1 H2 Hi Hd Hlen. unfold value_text. apply String.eqb_neq in H1, H2. rewrite H1, H2, Hi, Hd. cbn [orb].
  unfold sprintf_in. destruct (Nat.ltb_spec (String.length (print_f d)) 32); [lia|done].
Qed.

Lemma large_double : String.length (print_f (sd_val (strtod "2e24"))) = 32%nat.
Proof. vm_compute. reflexivity. Qed.

(** What the reply calls the data service is the endpoint of the logging service. *)
Lemma clients_reply cfg data metadata logging entries :
  match config_json cfg (MkClients data metadata logging) entries with
  | VObject o =>
      match json_object_get_value (Some o) "Clients" with
      | Some (VObject c) => json_object_get_value (Some c) "Data" = Some (endpoint_json logging)
      | _ => False
      end
  | _ => False
  end.
Proof. reflexivity. Qed.
