(* ===== verification/Registry.v ===== *)
(** * The registry ([registry.c], [consul.c])

    A registry is found by the scheme of its URL in a map of implementations; consul is
    the implementation that is there from the start. The base64 functions of the iot
    library are an interface, what is relied on is that text that was encoded is decoded
    to the bytes that it was made of. *)

From S2P Require Import Prelude CLib HashMap Parson ParsonText ParsonProofs DevTypes EdgexRest EdgexRestProofs.
From S2P Require Import IotData Device Rest Metadata Config.
From Stdlib Require Import Ascii.
Local Open Scope Z_scope.
Local Open Scope sdk_scope.

(** [maxdecodesize] is the number of bytes the decoder is given room for. *)
Class Base64 := {
  b64_encode : list Z -> string;
  b64_maxdecodesize : string -> Z;
  b64_decode : string -> Z -> option (list Z)
}.

Class Base64Laws (B : Base64) := {
  b64_decode_encode bs :
    Forall (fun b => 0 <= b < 256) bs -> b64_decode (b64_encode bs) (b64_maxdecodesize (b64_encode bs)) = Some bs;
  b64_utf8 bs : Forall (fun b => 0 <= b < 256) bs -> is_valid_utf8 (b64_encode bs) = true;
  b64_cstr bs : Forall (fun b => 0 <= b < 256) bs -> cstr (b64_encode bs)
}.

Fixpoint string_of (bs : list Z) : string :=
  match bs with b :: bs' => String (chr b) (string_of bs') | [] => EmptyString end.

(** ** Host and port *)

Record devsdk_registry_hostport := MkHostPort { hp_host : string; hp_port : Z }.

(** The port is a [uint16_t]. *)
Definition devsdk_registry_parse_simple_url (location : string) : option devsdk_registry_hostport :=
  match str_split ":" location with
  | Some (host, (String _ _ as rest)) =>
      let r := strtoul 10 rest in
      if String.eqb (st_end r) EmptyString then Some (MkHostPort host (wrap_u 16 (st_val r))) else None
  | _ => None
  end.

(** ** Consul *)

Definition CONF_PREFIX : string := "edgex/core/1.0/".

Section consul.
  Context `{B : Base64}.
  Variables (net : Type) (curl_easy_perform : net -> http_request -> net * http_response).
  Variable (crlid : option string).

(** The part of a key after the prefix and the name of the service. *)
Definition key_index (key : string) : option string :=
  if starts_with CONF_PREFIX key then
    match str_split "/" (str_drop (String.length CONF_PREFIX) key) with
    | Some (_, (String _ _ as name)) => Some name
    | _ => None
    end
  else None.

(** The loop over the objects; it ends at a key without a value. *)
Fixpoint read_loop (objs : list (option JSON_Object)) (result : devsdk_nvpairs) (err : devsdk_error)
    : devsdk_nvpairs * devsdk_error :=
  match objs with
  | [] => (result, err)
  | obj :: objs' =>
      match json_object_get_string obj "Key" with
      | Some key =>
          match key_index key with
          | Some name =>
              match json_object_get_string obj "Value" with
              | Some enc =>
                  match b64_decode enc (b64_maxdecodesize enc) with
                  | Some bs => read_loop objs' (devsdk_nvpairs_new name (c_string (string_of bs)) result) err
                  | None => read_loop objs' result EDGEX_CONSUL_RESPONSE
                  end
              | None => (result, EDGEX_CONSUL_RESPONSE)
              end
          | None => read_loop objs' result EDGEX_CONSUL_RESPONSE
          end
      | None => read_loop objs' result EDGEX_CONSUL_RESPONSE
      end
  end.

Definition read_pairs (json : option string) (err : devsdk_error) : devsdk_nvpairs * devsdk_error :=
  let configs := json_value_get_array (json_parse_string json) in
  read_loop (array_objects configs) [] err.

Definition consul_url (e : devsdk_registry_hostport) (path : string) : string :=
  url_for (MkEndpoint (hp_host e) (hp_port e)) path.

(** The name of the service, with the profile when there is one. *)
Definition service_key (servicename : string) (profile : option string) : string :=
  match profile with Some (String _ _ as p) => servicename +:+ ";" +:+ p | _ => servicename end.

(** *** Updates *)

(** What the thread works with: the buffer of [URL_BUF_SIZE] bytes for the URL, which
    has [pj_tail] as its first characters for good, and the value of the header. *)
Record updatejob := MkJob { pj_url : string; pj_tail : nat; pj_index : option string }.

(** One turn of the loop. [flag] is what the transfer sees of [updatedone], [done]
    what it is afterwards; [updater] is called with a configuration. *)
Definition poll_once {U} (updater : U -> devsdk_nvpairs -> U) (n : net) (u : U) (job : updatejob) (flag done : bool)
    : res (net * U * updatejob) :=
  url ← match pj_index job with
        | Some v =>
            tail ← sprintf_in (URL_BUF_SIZE - pj_tail job) ("&index=" +:+ v);
            Ret (str_take (pj_tail job) (pj_url job) +:+ tail)
        | None => Ret (pj_url job)
        end;
  let ctx := MkCtx None false None None None [] [("X-Consul-Index", None)] (Some flag) None 0 in
  let '(n, ctx, _, err) := edgex_http_get net curl_easy_perform crlid n ctx url (Some edgex_http_write_cb) in
  let job := MkJob url (pj_tail job) (head (cx_rsphdrs ctx) ≫= snd) in
  if done then Ret (n, u, job)
  else if er_code err =? 0 then
    let '(conf, err) := read_pairs (ctx_text ctx) EDGEX_OK in
    Ret (n, if er_code err =? 0 then updater u conf else u, job)
  else Ret (n, u, job).

(** The loop, for the values of the flag over time. *)
Fixpoint poll_consul {U} (updater : U -> devsdk_nvpairs -> U) (n : net) (u : U) (job : updatejob)
    (flags : list (bool * bool)) : res (net * U * updatejob) :=
  match flags with
  | [] => Ret (n, u, job)
  | (flag, done) :: flags' =>
      '(n, u, job) ← poll_once updater n u job flag done;
      if (done : bool) then Ret (n, u, job) else poll_consul updater n u job flags'
  end.

(** The result, which is empty for NULL, and the job that is given to the thread. *)
Definition edgex_consul_client_get_config (n : net) (endpoint : devsdk_registry_hostport) (servicename : string)
    (profile : option string) : net * devsdk_nvpairs * updatejob * devsdk_error :=
  let url := consul_url endpoint ("/v1/kv/" +:+ CONF_PREFIX +:+ service_key servicename profile +:+ "?recurse=true") in
  let '(n, ctx, _, err) := edgex_http_get net curl_easy_perform crlid n ctx_zero url (Some edgex_http_write_cb) in
  let '(result, err) :=
    if er_code err =? 0 then
      let '(result, err) := read_pairs (ctx_text ctx) err in
      (if er_code err =? 0 then result else [], err)
    else ([], err) in
  (n, result, MkJob url (String.length url) None, err).

(** *** Writing *)

Definition config_key (servicename : string) (profile : option string) (name : string) : string :=
  CONF_PREFIX +:+ service_key servicename profile +:+ "/" +:+ name.

(** The fields for one named value. *)
Definition kv_fields (servicename : string) (profile : option string) (nv : string * string) : JSON_Object :=
  [] ;> put_string "Verb" (Some "set")
     ;> put_string "Key" (Some (config_key servicename profile (fst nv)))
     ;> put_string "Value" (Some (b64_encode (bytes_of (snd nv)))).

Definition config_txn (servicename : string) (profile : option string) (config : devsdk_nvpairs) : JSON_Value :=
  VArray (map (fun nv => VObject ([] ;> put_value "KV" (VObject (kv_fields servicename profile nv)))) config).

Definition edgex_consul_client_write_config (n : net) (endpoint : devsdk_registry_hostport) (servicename : string)
    (profile : option string) (config : devsdk_nvpairs) : net * devsdk_error :=
  let json := json_serialize_to_string (Some (config_txn servicename profile config)) in
  let '(n, _, _, err) := edgex_http_put net curl_easy_perform crlid n ctx_zero (consul_url endpoint "/v1/txn") json
                           (Some edgex_http_write_cb) in
  (n, err).

(** *** Services *)

Definition service_check (servicename host : string) (port : Z) (interval : string) : JSON_Value :=
  VObject ([] ;> put_string "Name" (Some (str_take (URL_BUF_SIZE - 2) ("Health Check: " +:+ servicename)))
    ;> put_string "Interval" (Some interval)
    ;> put_string "HTTP" (Some (url_for (MkEndpoint host port) "/api/v1/ping"))).

Definition edgex_consul_client_register_service (n : net) (endpoint : devsdk_registry_hostport)
    (servicename host : string) (port : Z) (checkInterval : option string) : net * devsdk_error :=
  let obj := [] ;> put_string "Name" (Some servicename) ;> put_string "Address" (Some host) ;> put_uint "Port" port in
  let obj := match checkInterval with
             | Some interval => put_value "Check" (service_check servicename host port interval) obj
             | None => obj
             end in
  let json := json_serialize_to_string (Some (VObject obj)) in
  let '(n, _, _, err) := edgex_http_put net curl_easy_perform crlid n ctx_zero
                           (consul_url endpoint "/v1/agent/service/register") json (Some edgex_http_write_cb) in
  (n, err).

Definition edgex_consul_client_deregister_service (n : net) (endpoint : devsdk_registry_hostport) (servicename : string)
    : net * devsdk_error :=
  let '(n, _, _, err) := edgex_http_put net curl_easy_perform crlid n ctx_zero
                           (consul_url endpoint ("/v1/agent/service/deregister/" +:+ servicename)) None
                           (Some edgex_http_write_cb) in
  (n, err).

(** The address and the port that are stored for the caller. *)
Definition edgex_consul_client_query_service (n : net) (endpoint : devsdk_registry_hostport) (servicename : string)
    : net * option (string * Z) * devsdk_error :=
  let '(n, ctx, _, err) := edgex_http_get net curl_easy_perform crlid n ctx_zero
                             (consul_url endpoint ("/v1/catalog/service/" +:+ servicename)) (Some edgex_http_write_cb) in
  if er_code err =? 0 then
    let svcs := json_value_get_array (json_parse_string (ctx_text ctx)) in
    if Nat.eqb (json_array_get_count svcs) 0 then (n, None, EDGEX_BAD_CONFIG)
    else
      let obj := json_array_get_object svcs 0 in
      match json_object_get_string obj "ServiceAddress" with
      | Some name => (n, Some (name, wrap_u 16 (json_object_get_uint obj "ServicePort")), err)
      | None => (n, None, EDGEX_BAD_CONFIG)
      end
  else (n, None, err).

Definition edgex_consul_client_ping (n : net) (endpoint : devsdk_registry_hostport) : net * bool * devsdk_error :=
  let '(n, _, _, err) := edgex_http_get net curl_easy_perform crlid n ctx_zero (consul_url endpoint "/v1/status/leader") None in
  (n, er_code err =? 0, err).

End consul.

(** ** Implementations *)

(** The text before and after the first ["://"]. *)
Fixpoint scheme_split (url : string) : option (string * string) :=
  if starts_with "://" url then Some (EmptyString, str_drop 3 url)
  else match url with
       | String c url' => '(name, rest) ← scheme_split url'; Some (String c name, rest)
       | EmptyString => None
       end.

Section registry.
  Context {M : Type -> Type} `{SM : StringMap M} `{B : Base64}.
  Variables (net : Type) (curl_easy_perform : net -> http_request -> net * http_response).
  Variable (crlid : option string).

(** The functions of an implementation and what it makes of the rest of a URL. *)
Record devsdk_registry_impl := MkImpl {
  ri_loc : Type;
  ri_ping : net -> ri_loc -> net * bool * devsdk_error;
  ri_get_config : net -> ri_loc -> string -> option string -> net * devsdk_nvpairs * updatejob * devsdk_error;
  ri_put_config : net -> ri_loc -> string -> option string -> devsdk_nvpairs -> net * devsdk_error;
  ri_register_service : net -> ri_loc -> string -> string -> Z -> option string -> net * devsdk_error;
  ri_deregister_service : net -> ri_loc -> string -> net * devsdk_error;
  ri_query_service : net -> ri_loc -> string -> net * option (string * Z) * devsdk_error;
  ri_parser : string -> option ri_loc }.

Record devsdk_registry := MkRegistry { rg_impl : devsdk_registry_impl; rg_location : ri_loc rg_impl }.

Definition consulimpl : devsdk_registry_impl := {|
  ri_loc := devsdk_registry_hostport;
  ri_ping := edgex_consul_client_ping net curl_easy_perform crlid;
  ri_get_config := edgex_consul_client_get_config net curl_easy_perform crlid;
  ri_put_config := edgex_consul_client_write_config net curl_easy_perform crlid;
  ri_register_service := edgex_consul_client_register_service net curl_easy_perform crlid;
  ri_deregister_service := edgex_consul_client_deregister_service net curl_easy_perform crlid;
  ri_query_service := edgex_consul_client_query_service net curl_easy_perform crlid;
  ri_parser := devsdk_registry_parse_simple_url |}.

(** [regmap] is NULL until it is needed. *)
Definition regmap_t : Type := option (M devsdk_registry_impl).

Definition reginit (regmap : regmap_t) : M devsdk_registry_impl :=
  match regmap with
  | Some m => m
  | None => sm_set (sm_set sm_empty "consul" consulimpl) "consul.http" consulimpl
  end.

Definition devsdk_registry_get_registry (regmap : regmap_t) (url : string) : regmap_t * option devsdk_registry :=
  match scheme_split url with
  | Some (name, rest) =>
      let m := reginit regmap in
      (Some m, impl ← sm_get m name; loc ← ri_parser impl rest; Some (MkRegistry impl loc))
  | None => (regmap, None)
  end.

Definition devsdk_registry_add_impl (regmap : regmap_t) (name : string) (impl : devsdk_registry_impl) : regmap_t * bool :=
  let m := reginit regmap in
  match sm_get m name with
  | None => (Some (sm_set m name impl), true)
  | Some _ => (Some m, false)
  end.

Definition devsdk_registry_fini (regmap : regmap_t) : regmap_t := None.

Definition devsdk_registry_ping (n : net) (r : devsdk_registry) : net * bool * devsdk_error :=
  ri_ping (rg_impl r) n (rg_location r).

Definition devsdk_registry_get_config (n : net) (r : devsdk_registry) (servicename : string) (profile : option string)
    : net * devsdk_nvpairs * updatejob * devsdk_error :=
  ri_get_config (rg_impl r) n (rg_location r) servicename profile.

Definition devsdk_registry_put_config (n : net) (r : devsdk_registry) (servicename : string) (profile : option string)
    (config : devsdk_nvpairs) : net * devsdk_error :=
  ri_put_config (rg_impl r) n (rg_location r) servicename profile config.

Definition devsdk_registry_register_service (n : net) (r : devsdk_registry) (servicename hostname : string) (port : Z)
    (checkInterval : option string) : net * devsdk_error :=
  ri_register_service (rg_impl r) n (rg_location r) servicename hostname port checkInterval.

Definition devsdk_registry_deregister_service (n : net) (r : devsdk_registry) (servicename : string) : net * devsdk_error :=
  ri_deregister_service (rg_impl r) n (rg_location r) servicename.

Definition devsdk_registry_query_service (n : net) (r : devsdk_registry) (servicename : string)
    : net * option (string * Z) * devsdk_error :=
  ri_query_service (rg_impl r) n (rg_location r) servicename.

End registry.
