(* ===== verification/RegistryProofs.v ===== *)
(** * Correctness of the registry

    The configuration that is written to consul is the one that is read from it, and a
    registry is found by its URL whatever implementations were added. *)

From S2P Require Import Prelude CLib HashMap Parson ParsonText ParsonProofs DevTypes EdgexRest EdgexRestProofs.
From S2P Require Import IotData Device Rest Metadata Config ConfigProofs Registry.
From Stdlib Require Import Ascii.
Local Open Scope Z_scope.
Local Open Scope sdk_scope.

(** ** Strings and bytes *)

Lemma string_of_bytes s : string_of (bytes_of s) = s.
Proof.
  induction s as [|c s IH]; [done|]. cbn. rewrite IH. f_equal. unfold chr, uchar. by rewrite N2Z.id, ascii_N_embedding.
Qed.

Lemma bytes_of_range s : Forall (fun b => 0 <= b < 256) (bytes_of s).
Proof.
  induction s as [|c s IH]; cbn; [done|]. constructor; [|done]. unfold uchar.
  pose proof (N_ascii_bounded c). lia.
Qed.

(** ** Configuration *)

Section consul.
  Context `{B : Base64} `{L : !Base64Laws B}.
  Variables (net : Type) (curl_easy_perform : net -> http_request -> net * http_response).
  Variable (crlid : option string).

Lemma key_index_ok sname profile name :
  str_split "/" (service_key sname profile) = None -> name <> EmptyString ->
  key_index (config_key sname profile name) = Some name.
Proof.
  intros Hs Hn. unfold key_index, config_key. rewrite starts_with_app, drop_app_length.
  change ("/" +:+ name) with (String "/" name). rewrite str_split_app by done. by destruct name.
Qed.

(** Consul is a store of bytes under keys. A transaction is a list of objects that set a
    key; the value is in base64. *)
Definition is_set (op : JSON_Value) (kv : string * list Z) : Prop :=
  exists o f, op = VObject o /\ json_object_get_value (Some o) "KV" = Some (VObject f) /\
    json_object_get_string (Some f) "Verb" = Some "set" /\ json_object_get_string (Some f) "Key" = Some (fst kv) /\
    json_object_get_string (Some f) "Value" = Some (b64_encode (snd kv)).

(** An entry as it is listed. *)
Definition shows (item : JSON_Value) (kv : string * list Z) : Prop :=
  exists o, item = VObject o /\ json_object_get_string (Some o) "Key" = Some (fst kv) /\
    (snd kv <> [] -> json_object_get_string (Some o) "Value" = Some (b64_encode (snd kv))).

Definition set_all {V} (m : gmap string V) (kvs : list (string * V)) : gmap string V :=
  foldl (fun m kv => <[fst kv := snd kv]> m) m kvs.

(** The entries whose key has a prefix. *)
Definition under {V} (prefix : string) (m : gmap string V) : gmap string V :=
  filter (fun kv => starts_with prefix (fst kv) = true) m.

(** What consul promises: a transaction of at most 64 sets is applied in order if the
    contents it leads to are within the limits, [allowed]; listing a prefix gives every
    entry under it once, as JSON in any number of pieces, when there is one. *)
Record consul (endpoint : devsdk_registry_hostport) (store : net -> gmap string (list Z))
    (allowed : gmap string (list Z) -> Prop) : Prop := {
  consul_txn n text ops kvs :
    json_parse_string (Some text) = Some (VArray ops) -> Forall2 is_set ops kvs -> (length ops <= 64)%nat ->
    allowed (set_all (store n) kvs) ->
    exists n' hdrs pieces, store n' = set_all (store n) kvs /\
      forall req, hr_method req = PUT -> hr_url req = consul_url endpoint "/v1/txn" ->
        hr_body req = Upload (Some (MkPut text 0 (String.length text))) ->
        curl_easy_perform n req = (n', MkResponse CURLE_OK 200 hdrs pieces);
  consul_recurse n prefix :
    under prefix (store n) <> ∅ ->
    exists hdrs pieces items kvs, kvs ≡ₚ map_to_list (under prefix (store n)) /\
      cstr (joined pieces) /\ json_parse_string (Some (joined pieces)) = Some (VArray items) /\ Forall2 shows items kvs /\
      forall req, hr_method req = GET ->
        hr_url req = full_url (MkEndpoint (hp_host endpoint) (hp_port endpoint)) ("/v1/kv/" +:+ prefix +:+ "?recurse=true") ->
        curl_easy_perform n req = (n, MkResponse CURLE_OK 200 hdrs pieces)
}.

(** A value that can be stored: the key is a valid string, the text is not empty. *)
Definition storable (sname : string) (profile : option string) (nv : string * string) : Prop :=
  fst nv <> EmptyString /\ snd nv <> EmptyString /\ cstr (snd nv) /\ ok_str (config_key sname profile (fst nv)).

Definition entry (sname : string) (profile : option string) (nv : string * string) : string * list Z :=
  (config_key sname profile (fst nv), bytes_of (snd nv)).

(** The store has these values for the service, and nothing else under its prefix. *)
Definition holds (sname : string) (profile : option string) (store : gmap string (list Z)) (m : gmap string string) : Prop :=
  (forall name text, m !! name = Some text ->
     storable sname profile (name, text) /\ store !! config_key sname profile name = Some (bytes_of text)) /\
  (forall k bs, store !! k = Some bs -> starts_with (CONF_PREFIX +:+ service_key sname profile) k = true ->
     exists name, k = config_key sname profile name /\ is_Some (m !! name)).

#[local] Instance config_key_inj sname profile : Inj (=) (=) (config_key sname profile).
Proof.
  intros x y H. unfold config_key in H. apply append_inj_l in H. apply append_inj_l in H. by injection H.
Qed.

Lemma holds_set sname profile store m nv :
  storable sname profile nv -> holds sname profile store m ->
  holds sname profile (<[config_key sname profile (fst nv) := bytes_of (snd nv)]> store) (<[fst nv := snd nv]> m).
Proof.
  intros Hs [Hm Hst]. split.
  - intros name text [[<- <-]|[Hne H]]%lookup_insert_Some; [by rewrite lookup_insert_eq; destruct nv|].
    rewrite lookup_insert_ne; [by apply Hm|]. by intros ?%(inj _).
  - intros k bs [[<- _]|[Hne H]]%lookup_insert_Some Hp; [exists (fst nv); by rewrite lookup_insert_eq|].
    destruct (Hst k bs H Hp) as (name & -> & [t Ht]). exists name. split; [done|].
    destruct (decide (fst nv = name)) as [<-|]; [done|]. by rewrite lookup_insert_ne.
Qed.

Lemma holds_set_all sname profile store m config :
  Forall (storable sname profile) config -> holds sname profile store m ->
  holds sname profile (set_all store (map (entry sname profile) config)) (set_all m config).
Proof.
  intros Hc. revert store m. induction Hc as [|nv config Hs _ IH]; intros store m Hm; [done|].
  apply IH. by apply holds_set.
Qed.

(** What is listed are the values. *)
Lemma holds_under sname profile store m :
  holds sname profile store m ->
  map_to_list (under (CONF_PREFIX +:+ service_key sname profile) store) ≡ₚ map (entry sname profile) (map_to_list m).
Proof.
  intros [Hm Hst]. apply NoDup_Permutation.
  - apply NoDup_map_to_list.
  - apply (NoDup_fmap_1 fst). change (NoDup (fst <$> (entry sname profile <$> map_to_list m))).
    rewrite <-list_fmap_compose. change (NoDup ((config_key sname profile ∘ fst) <$> map_to_list m)).
    rewrite list_fmap_compose. apply NoDup_fmap_2; [apply _|apply NoDup_fst_map_to_list].
  - intros [k bs]. rewrite elem_of_map_to_list, list_elem_of_fmap. unfold under. rewrite map_lookup_filter_Some. cbn [fst]. split.
    + intros [Hk Hp]. destruct (Hst k bs Hk Hp) as (name & -> & [text Ht]). exists (name, text). rewrite elem_of_map_to_list.
      split; [|done]. unfold entry. cbn [fst snd]. destruct (Hm name text Ht) as [_ Hk']. congruence.
    + intros ([name text] & [= -> ->] & Hin). apply elem_of_map_to_list in Hin. cbn [fst snd] in *.
      split; [by apply Hm|]. unfold config_key. rewrite <-append_assoc. apply starts_with_app.
Qed.

Lemma read_loop_ok sname profile objs config acc err :
  str_split "/" (service_key sname profile) = None -> Forall (storable sname profile) config ->
  Forall2 (fun obj nv => exists o, obj = Some o /\ shows (VObject o) (entry sname profile nv)) objs config ->
  read_loop objs acc err = (rev config ++ acc, err).
Proof using L.
  intros Hs Hw H. revert acc. induction H as [|obj nv objs config (o & -> & o' & [= <-] & Hk & Hv) _ IH]; intros acc; [done|].
  apply Forall_cons in Hw as [(Hn & Ht & Hc & _) Hw]. cbn [read_loop entry fst snd] in *.
  rewrite Hk, key_index_ok, Hv by (done || by destruct (snd nv)). rewrite b64_decode_encode by apply bytes_of_range.
  rewrite string_of_bytes, c_string_id, IH by done. cbn [rev]. rewrite <-app_assoc. by destruct nv.
Qed.

Lemma read_pairs_ok sname profile json items config :
  str_split "/" (service_key sname profile) = None -> Forall (storable sname profile) config ->
  json_parse_string (Some json) = Some (VArray items) -> Forall2 shows items (map (entry sname profile) config) ->
  read_pairs (Some json) EDGEX_OK = (rev config, EDGEX_OK).
Proof using L.
  intros Hs Hw Hp H. unfold read_pairs. rewrite Hp. cbn [json_value_get_array]. rewrite array_objects_map.
  rewrite (read_loop_ok sname profile _ config), app_nil_r; [done|done|done|].
  apply Forall2_fmap_l. eapply Forall2_impl; [exact (proj1 (Forall2_fmap_r (entry sname profile) shows items config) H)|]. intros item nv (o & -> & Hk & Hv).
  exists o. split; [done|]. by exists o.
Qed.

(** The text of the transaction. *)
Lemma kv_fields_members sname profile nv :
  storable sname profile nv ->
  good 1 (VObject (kv_fields sname profile nv)) /\
  is_set (VObject (put_value "KV" (VObject (kv_fields sname profile nv)) [])) (entry sname profile nv).
Proof using L.
  intros (_ & _ & _ & Hk). pose proof (bytes_of_range (snd nv)) as Hb.
  assert (ok_str (b64_encode (bytes_of (snd nv)))) as He by (split; [by apply b64_utf8|by apply b64_cstr]).
  unfold kv_fields. split; [change 1 with (0 + 1); good_object|].
  eexists _, _. split; [reflexivity|]. split; [reflexivity|]. destruct Hk as [Hk _], He as [He _].
  unfold put_string, json_object_set_string, json_value_init_string. rewrite Hk, He. split_and!; reflexivity.
Qed.

Lemma txn_text sname profile config :
  Forall (storable sname profile) config ->
  Z.of_nat (String.length (json_text false 0 (config_txn sname profile config))) < 2 ^ 31 - 1 ->
  exists t, json_serialize_to_string (Some (config_txn sname profile config)) = Some t /\
            json_parse_string (Some t) = Some (config_txn sname profile config).
Proof using L.
  intros Hc Hlen. assert (good 3 (config_txn sname profile config)) as (Hwf & Hnn & Hd).
  { change 3 with (2 + 1). apply good_array; [lia|]. apply Forall_map. eapply Forall_impl; [exact Hc|].
    intros nv Hnv. change 2 with (1 + 1). apply good_put_value; [lia|done|by apply kv_fields_members|by apply good_nil]. }
  exists (json_text false 0 (config_txn sname profile config)). split.
  - unfold json_serialize_to_string. by rewrite (proj2 (serialize_text false _ Hwf Hlen)).
  - apply parse_string_json_text; [done|done|]. etransitivity; [exact Hd|]. done.
Qed.

Lemma write_ok n endpoint store allowed sname profile config m :
  consul endpoint store allowed -> allowed (set_all (store n) (map (entry sname profile) config)) -> holds sname profile (store n) m -> Forall (storable sname profile) config ->
  (length config <= 64)%nat ->
  Z.of_nat (String.length (json_text false 0 (config_txn sname profile config))) < 2 ^ 31 - 1 ->
  exists n', edgex_consul_client_write_config net curl_easy_perform crlid n endpoint sname profile config = (n', EDGEX_OK) /\
    holds sname profile (store n') (set_all m config).
Proof using L.
  intros HC Hal Hm Hc Hmax Hlen. destruct (txn_text sname profile config Hc Hlen) as (t & Ht & Hparse).
  destruct (consul_txn _ _ _ HC n t _ (map (entry sname profile) config) Hparse) as (n' & hdrs & pieces & Hst & Hreq).
  - apply Forall2_fmap_2, Forall_Forall2_diag. eapply Forall_impl; [exact Hc|]. intros nv Hnv. by apply kv_fields_members.
  - by rewrite length_map.
  - done.
  - exists n'. rewrite Hst. split; [|by apply holds_set_all].
    unfold edgex_consul_client_write_config, edgex_http_put, edgex_run_curl. rewrite Ht. cbn [option_map].
    by rewrite Hreq.
Qed.

Lemma read_ok n endpoint store allowed sname profile m :
  let url := full_url (MkEndpoint (hp_host endpoint) (hp_port endpoint))
               ("/v1/kv/" +:+ CONF_PREFIX +:+ service_key sname profile +:+ "?recurse=true") in
  consul endpoint store allowed -> holds sname profile (store n) m -> m <> ∅ ->
  (String.length url <= 510)%nat -> str_split "/" (service_key sname profile) = None ->
  exists result, edgex_consul_client_get_config net curl_easy_perform crlid n endpoint sname profile
      = (n, result, MkJob url (String.length url) None, EDGEX_OK) /\ result ≡ₚ map_to_list m.
Proof using L.
  intros url HC Hm Hne Hlen Hs. pose proof (holds_under _ _ _ _ Hm) as Hu.
  destruct (consul_recurse _ _ _ HC n (CONF_PREFIX +:+ service_key sname profile)) as (hdrs & pieces & items & kvs & Hk & Hc & Hp & Hall & Hreq).
  { intros He. rewrite He, map_to_list_empty in Hu. apply Permutation_nil in Hu. apply fmap_nil_inv in Hu.
    by apply map_to_list_empty_iff in Hu. }
  rewrite Hu in Hk. apply Permutation_map_inv in Hk as (l & -> & Hl).
  unfold edgex_consul_client_get_config, consul_url. rewrite url_fits by done. fold url.
  destruct (get_answered net curl_easy_perform crlid n n url 200 hdrs pieces) as (ctx & Hg & Hb); [|lia|].
  { intros req Hmth Hurl. apply Hreq; [done|]. rewrite Hurl. unfold url. by rewrite !append_assoc. }
  unfold http_get in Hg. rewrite Hg. cbn match. change (er_code EDGEX_OK =? 0) with true. cbn match.
  unfold ctx_text. rewrite Hb. destruct pieces as [|x pieces]; [by vm_compute in Hp|].
  cbn [option_map]. rewrite c_string_id, (read_pairs_ok sname profile _ items l); try done.
  - exists (rev l). split; [reflexivity|]. by rewrite <-Permutation_rev, Hl.
  - rewrite <-Hl. apply Forall_forall. intros [name text] Hin%elem_of_map_to_list. by apply Hm.
Qed.

(** C27. A configuration that is written to consul and read again: with consul as it
    promises, both calls succeed and the result has, once each, the values that were
    written and the ones the service had before under other names. The conditions: at
    most 64 values are written and consul has room for them, names and values are not empty, values are C strings and
    keys valid ones, the transaction is less than 2 GB of text and the URL fits its
    buffer; the name of the service has no slash ([slash_in_name]); and what is under
    the prefix of the service in the store is of this service, since another one whose
    name starts with that of the service would be read too ([other_service_read]). *)
Theorem config_round_trip (n : net) (endpoint : devsdk_registry_hostport) (store : net -> gmap string (list Z))
    (allowed : gmap string (list Z) -> Prop) (sname : string) (profile : option string) (old : gmap string string) (config : devsdk_nvpairs) :
  let url := full_url (MkEndpoint (hp_host endpoint) (hp_port endpoint))
               ("/v1/kv/" +:+ CONF_PREFIX +:+ service_key sname profile +:+ "?recurse=true") in
  consul endpoint store allowed -> allowed (set_all (store n) (map (entry sname profile) config)) ->
  holds sname profile (store n) old ->
  Forall (storable sname profile) config -> config <> [] -> (length config <= 64)%nat ->
  Z.of_nat (String.length (json_text false 0 (config_txn sname profile config))) < 2 ^ 31 - 1 ->
  (String.length url <= 510)%nat -> str_split "/" (service_key sname profile) = None ->
  exists n' result,
    edgex_consul_client_write_config net curl_easy_perform crlid n endpoint sname profile config = (n', EDGEX_OK) /\
    edgex_consul_client_get_config net curl_easy_perform crlid n' endpoint sname profile
    = (n', result, MkJob url (String.length url) None, EDGEX_OK) /\
    result ≡ₚ map_to_list (set_all old config).
Proof using L.
  intros url HC Hal Hm Hc Hne Hmax Hlen Hurl Hs.
  destruct (write_ok n endpoint store allowed sname profile config old HC Hal Hm Hc Hmax Hlen) as (n' & Hw & Hm').
  destruct (read_ok n' endpoint store allowed sname profile _ HC Hm') as (result & Hr & Hperm); [|done|done|by exists n', result].
  destruct config as [|nv config _] using rev_ind; [done|]. unfold set_all. rewrite foldl_snoc. apply insert_non_empty.
Qed.

End consul.

(** ** An implementation of base64 *)

Definition b64_value (c : ascii) : option Z :=
  let u := uchar c in
  if (65 <=? u) && (u <=? 90) then Some (u - 65) else if (97 <=? u) && (u <=? 122) then Some (u - 71)
  else if (48 <=? u) && (u <=? 57) then Some (u + 4) else if u =? 43 then Some 62 else if u =? 47 then Some 63 else None.

Fixpoint b64_read (s : string) : option (list Z) :=
  match s with
  | EmptyString => Some []
  | String a (String b (String c (String d rest))) =>
      x ← b64_value a; y ← b64_value b;
      match b64_value c, b64_value d, rest with
      | Some z, Some w, _ =>
          bs ← b64_read rest; Some (x * 4 + y / 16 :: y mod 16 * 16 + z / 4 :: z mod 4 * 64 + w :: bs)
      | Some z, None, EmptyString => Some [x * 4 + y / 16; y mod 16 * 16 + z / 4]
      | None, None, EmptyString => Some [x * 4 + y / 16]
      | _, _, _ => None
      end
  | _ => None
  end.

#[local] Instance sample_b64 : Base64 := {
  b64_encode := b64_text;
  b64_maxdecodesize s := Z.of_nat (String.length s);
  b64_decode s n := bs ← b64_read s; if Z.of_nat (length bs) <=? n then Some bs else None
}.

Lemma b64_value_char n : 0 <= n < 64 -> b64_value (b64_char n) = Some n.
Proof.
  intros H. assert (forallb (fun k => bool_decide (b64_value (b64_char (Z.of_nat k)) = Some (Z.of_nat k))) (seq 0 64) = true)
    as Hall by (vm_compute; reflexivity).
  rewrite forallb_forall in Hall. specialize (Hall (Z.to_nat n)). rewrite in_seq, Z2Nat.id in Hall by lia.
  eapply bool_decide_eq_true_1, Hall. lia.
Qed.

(** Three bytes at a time. *)
Lemma bytes_ind (P : list Z -> Prop) :
  P [] -> (forall a, P [a]) -> (forall a b, P [a; b]) -> (forall a b c bs, P bs -> P (a :: b :: c :: bs)) -> forall bs, P bs.
Proof.
  intros H0 H1 H2 H3. assert (forall n bs, (length bs <= n)%nat -> P bs) as H; [|by intros bs; apply (H (length bs))].
  induction n as [|n IH]; intros [|a [|b [|c bs]]] Hn; cbn in Hn; try done; try lia. apply H3, IH. lia.
Qed.

Ltac div_lia := Z.to_euclidean_division_equations; lia.

Lemma b64_read_text bs : Forall (fun b => 0 <= b < 256) bs -> b64_read (b64_text bs) = Some bs.
Proof.
  induction bs as [|a|a b|a b c bs IH] using bytes_ind; [done|intros Ha|intros H|intros H].
  - apply Forall_cons in Ha as [Ha _]. cbn [b64_text b64_read]. rewrite !b64_value_char by div_lia.
    change (b64_value "=") with (@None Z). cbn. repeat f_equal. div_lia.
  - repeat (apply Forall_cons in H as [? H]). cbn [b64_text b64_read]. rewrite !b64_value_char by div_lia.
    change (b64_value "=") with (@None Z). cbn. repeat f_equal; div_lia.
  - repeat (apply Forall_cons in H as [? H]). cbn [b64_text b64_read]. rewrite !b64_value_char by div_lia.
    cbn.
    rewrite IH by done. cbn. repeat f_equal; div_lia.
Qed.

Lemma b64_text_long bs : (length bs <= String.length (b64_text bs))%nat.
Proof. induction bs using bytes_ind; cbn; lia. Qed.

Lemma utf8_ascii c s : 0 < uchar c < 128 -> is_valid_utf8 (String c s) = is_valid_utf8 s.
Proof.
  intros H. unfold is_valid_utf8. cbn [String.length is_valid_utf8_loop].
  replace (verify_utf8_sequence (String c s)) with (Some 1); [done|].
  destruct c as [b0 b1 b2 b3 b4 b5 b6 []]; [|by destruct b0, b1, b2, b3, b4, b5, b6].
  exfalso. destruct b0, b1, b2, b3, b4, b5, b6; vm_compute in H; by destruct H.
Qed.

Lemma b64_char_ascii n : 0 <= n < 64 -> 0 < uchar (b64_char n) < 128.
Proof.
  intros H. assert (forallb (fun k => (0 <? uchar (b64_char (Z.of_nat k))) && (uchar (b64_char (Z.of_nat k)) <? 128)) (seq 0 64) = true)
    as Hall by (vm_compute; reflexivity).
  rewrite forallb_forall in Hall. specialize (Hall (Z.to_nat n)). rewrite in_seq, Z2Nat.id in Hall by lia. lia.
Qed.

Lemma b64_text_utf8 bs : Forall (fun b => 0 <= b < 256) bs -> is_valid_utf8 (b64_text bs) = true.
Proof.
  induction bs as [|a|a b|a b c bs IH] using bytes_ind; [done|intros H..]; repeat (apply Forall_cons in H as [? H]);
    cbn [b64_text]; rewrite !utf8_ascii by (apply b64_char_ascii; div_lia); [done|done|by apply IH].
Qed.

Lemma b64_text_cstr bs : Forall (fun b => 0 <= b < 256) bs -> cstr (b64_text bs).
Proof.
  assert (forall n, 0 <= n < 64 -> uchar (b64_char n) <> 0) as Hc by (intros n Hn; pose proof (b64_char_ascii n Hn); lia).
  induction bs as [|a|a b|a b c bs IH] using bytes_ind; [done|intros H..]; repeat (apply Forall_cons in H as [? H]);
    cbn [b64_text cstr]; split_and!; try (apply Hc; div_lia); try done; by apply IH.
Qed.

#[local] Instance sample_b64_laws : Base64Laws sample_b64.
Proof.
  split; [|exact b64_text_utf8|exact b64_text_cstr]. intros bs H. cbn. rewrite b64_read_text by done. cbn.
  pose proof (b64_text_long bs). destruct (Z.leb_spec (Z.of_nat (length bs)) (Z.of_nat (String.length (b64_text bs)))); [done|lia].
Qed.

Definition sample_config : devsdk_nvpairs := [("Service/Port", "49999"); ("Driver/Mode", "slow")].

(** A consul that takes this configuration and no other: it is empty, or has it. *)
Definition sample_entries : list (string * list Z) := map (entry "device-x" None) sample_config.

Definition sample_store (n : bool) : gmap string (list Z) := if n then list_to_map sample_entries else ∅.

Definition sample_head : string := full_url (MkEndpoint "localhost" 8500) "/v1/kv/".

(** The prefix in a URL that lists the entries under it. *)
Definition listed_prefix (url : string) : string :=
  let s := str_drop (String.length sample_head) url in str_take (String.length s - String.length "?recurse=true") s.

Definition entry_item (kv : string * list Z) : JSON_Value :=
  VObject ([] ;> put_string "Key" (Some (fst kv)) ;> put_string "Value" (Some (b64_encode (snd kv))) ;> put_uint "Flags" 0).

Definition sample_listing (n : bool) (prefix : string) : list (string * list Z) :=
  if n then filter (fun kv => starts_with prefix (fst kv) = true) sample_entries else [].

Definition sample_consul (n : bool) (req : http_request) : bool * http_response :=
  match hr_method req with
  | GET => (n, MkResponse CURLE_OK 200 []
              [default EmptyString (json_serialize_to_string
                 (Some (VArray (map entry_item (sample_listing n (listed_prefix (hr_url req)))))))])
  | _ => (true, MkResponse CURLE_OK 200 [] [])
  end.

Lemma listed_prefix_ok prefix :
  listed_prefix (full_url (MkEndpoint "localhost" 8500) ("/v1/kv/" +:+ prefix +:+ "?recurse=true")) = prefix.
Proof.
  assert (full_url (MkEndpoint "localhost" 8500) ("/v1/kv/" +:+ prefix +:+ "?recurse=true") = sample_head +:+ prefix +:+ "?recurse=true") as ->
    by (unfold sample_head, full_url; by rewrite !append_assoc).
  unfold listed_prefix. rewrite drop_app_length, length_append.
  replace (String.length prefix + String.length "?recurse=true" - String.length "?recurse=true")%nat with (String.length prefix) by lia.
  apply str_take_app.
Qed.

Lemma sample_listing_ok n prefix : sample_listing n prefix ≡ₚ map_to_list (under prefix (sample_store n)).
Proof.
  destruct n; cbn [sample_listing sample_store]; [|unfold under; by rewrite map_filter_empty, map_to_list_empty].
  assert (NoDup (fst <$> sample_entries)) as Hnd by (apply (bool_decide_unpack _); vm_compute; done).
  apply NoDup_Permutation; [by apply NoDup_filter, (NoDup_fmap_1 fst)|apply NoDup_map_to_list|].
  intros [k bs]. rewrite elem_of_map_to_list, list_elem_of_filter. unfold under. rewrite map_lookup_filter_Some.
  cbn [fst]. rewrite <-elem_of_list_to_map by done. naive_solver.
Qed.

Lemma filter_two {A} (P : A -> Prop) `{!forall x, Decision (P x)} x y :
  exists b1 b2 : bool, filter P [x; y] = (if b1 then [x] else []) ++ (if b2 then [y] else []).
Proof.
  rewrite !filter_cons, filter_nil. destruct (decide (P x)), (decide (P y));
    [by exists true, true|by exists true, false|by exists false, true|by exists false, false].
Qed.

Lemma sample_text n prefix :
  let text := default EmptyString (json_serialize_to_string (Some (VArray (map entry_item (sample_listing n prefix))))) in
  cstr (joined [text]) /\ json_parse_string (Some (joined [text])) = Some (VArray (map entry_item (sample_listing n prefix))) /\
  Forall2 shows (map entry_item (sample_listing n prefix)) (sample_listing n prefix).
Proof.
  assert (exists b1 b2 : bool, sample_listing n prefix
            = (if b1 then take 1 sample_entries else []) ++ (if b2 then drop 1 sample_entries else [])) as (b1 & b2 & ->).
  { destruct n; [|by exists false, false]. apply (filter_two (fun kv => starts_with prefix (fst kv) = true)). }
  destruct b1, b2; (split; [vm_compute; repeat split; discriminate|]); (split; [vm_compute; reflexivity|]);
    repeat constructor; eexists; (split; [reflexivity|split; [reflexivity|intros _; reflexivity]]).
Qed.

Lemma sample_consul_ok :
  consul bool sample_consul (MkHostPort "localhost" 8500) sample_store (fun s => s = list_to_map sample_entries).
Proof.
  split.
  - intros n text ops kvs _ _ _ Hal. exists true, [], []. split; [by rewrite Hal|]. intros req Hm _ _.
    unfold sample_consul. by rewrite Hm.
  - intros n prefix _. destruct (sample_text n prefix) as (Hc & Hp & Hall).
    eexists [], _, _, (sample_listing n prefix). split; [apply sample_listing_ok|]. split; [exact Hc|]. split; [exact Hp|].
    split; [exact Hall|]. intros req Hm Hurl. unfold sample_consul. cbn [hp_host hp_port] in Hurl.
    by rewrite Hm, Hurl, listed_prefix_ok.
Qed.

Lemma config_round_trip_witness :
  exists n' result url,
    edgex_consul_client_write_config bool sample_consul None false (MkHostPort "localhost" 8500) "device-x" None sample_config
    = (n', EDGEX_OK) /\
    edgex_consul_client_get_config bool sample_consul None n' (MkHostPort "localhost" 8500) "device-x" None
    = (n', result, MkJob url (String.length url) None, EDGEX_OK) /\
    result ≡ₚ map_to_list (set_all ∅ sample_config).
Proof.
  edestruct (config_round_trip bool sample_consul None false (MkHostPort "localhost" 8500) sample_store
    (fun s => s = list_to_map sample_entries) "device-x" None ∅ sample_config) as (n' & result & H).
  - exact sample_consul_ok.
  - apply (bool_decide_unpack _). vm_compute. done.
  - split; [intros name text H; by rewrite lookup_empty in H|intros k bs H; cbn [sample_store] in H; by rewrite lookup_empty in H].
  - repeat constructor; try discriminate; try (vm_compute; repeat split; discriminate); const_str.
  - discriminate.
  - vm_compute. lia.
  - vm_compute. reflexivity.
  - vm_compute. lia.
  - reflexivity.
  - exists n', result. eexists. exact H.
Defined.

(** ** Finding a registry *)

Lemma scheme_split_app name rest :
  str_split ":" name = None -> scheme_split (name +:+ "://" +:+ rest) = Some (name, rest).
Proof.
  induction name as [|c name IH]; cbn [str_split].
  - intros _. cbn. by destruct rest.
  - destruct (Ascii.eqb_spec c ":"); [done|]. destruct (str_split ":" name) as [[? ?]|] eqn:E; [done|]. intros _.
    change (String c name +:+ "://" +:+ rest) with (String c (name +:+ "://" +:+ rest)). cbn [scheme_split].
    replace (starts_with "://" (String c (name +:+ "://" +:+ rest))) with false; [by rewrite IH|].
    unfold starts_with. cbn [String.prefix]. by destruct (ascii_dec ":" c).
Qed.

(** A host and a port that were printed are found again. *)
Lemma simple_url_parses host port :
  str_split ":" host = None -> 0 <= port < 2 ^ 16 ->
  devsdk_registry_parse_simple_url (host +:+ ":" +:+ print_u port) = Some (MkHostPort host port).
Proof.
  intros Hh Hp. unfold devsdk_registry_parse_simple_url. change (":" +:+ print_u port) with (String ":" (print_u port)).
  rewrite str_split_app by done. pose proof (strtoul_print_u port EmptyString) as E.
  rewrite append_nil_r in E. rewrite E by (try done; lia). cbn [st_end st_val].
  destruct (print_u_head port) as (d & s & Ep & _); [lia|]. rewrite Ep. cbn [String.eqb]. unfold wrap_u.
  by rewrite Z.mod_small by lia.
Qed.

Section registry.
  Context {M : Type -> Type} `{SM : StringMap M} `{B : Base64}.
  Variables (net : Type) (curl_easy_perform : net -> http_request -> net * http_response).
  Variable (crlid : option string).

(** The registry after implementations were added in turn. *)
Definition after_adds (adds : list (string * devsdk_registry_impl net)) : regmap_t (M := M) net :=
  foldl (fun r ni => fst (devsdk_registry_add_impl net curl_easy_perform crlid r (fst ni) (snd ni))) None adds.

(** The implementation of a name: consul for its two names, otherwise the first that
    was added. *)
Definition first_impl (adds : list (string * devsdk_registry_impl net)) (name : string) : option (devsdk_registry_impl net) :=
  if String.eqb name "consul" || String.eqb name "consul.http" then Some (consulimpl net curl_easy_perform crlid)
  else option_map snd (find (fun ni => String.eqb (fst ni) name) adds).

Lemma reginit_empty :
  2 < sm_limit -> let m := reginit net curl_easy_perform crlid None in
  sm_wf m /\ (size (sm_abs m) <= 2)%nat /\ forall name, sm_abs m !! name = first_impl [] name.
Proof.
  intros Hlim. unfold reginit. destruct (sm_empty_ok (devsdk_registry_impl net)) as [Hw0 Ha0].
  destruct (sm_set_ok _ sm_empty "consul" (consulimpl net curl_easy_perform crlid) Hw0) as [Hw1 Ha1].
  { rewrite Ha0, map_size_empty. lia. }
  rewrite Ha0 in Ha1. destruct (sm_set_ok _ _ "consul.http" (consulimpl net curl_easy_perform crlid) Hw1) as [Hw2 Ha2].
  { rewrite Ha1, map_size_insert, map_size_empty, lookup_empty. cbn. lia. }
  rewrite Ha1 in Ha2. cbv zeta. rewrite Ha2. split; [done|]. split.
  - rewrite !map_size_insert, map_size_empty. unfold id; repeat case_match; lia.
  - intros name. unfold first_impl. destruct (String.eqb_spec name "consul.http") as [->|H1]; [by rewrite lookup_insert_eq|].
    rewrite lookup_insert_ne by done.
    destruct (String.eqb_spec name "consul") as [->|H2]; [by rewrite lookup_insert_eq|]. by rewrite lookup_insert_ne.
Qed.

Lemma first_impl_snoc adds ni name :
  first_impl (adds ++ [ni]) name
  = match first_impl adds name with Some i => Some i | None => if String.eqb (fst ni) name then Some (snd ni) else None end.
Proof.
  unfold first_impl. destruct (_ || _); [done|]. induction adds as [|a adds IH]; cbn [app find option_map].
  - by destruct (String.eqb (fst ni) name).
  - by destruct (String.eqb (fst a) name).
Qed.

Lemma after_adds_ok adds :
  2 + Z.of_nat (length adds) < sm_limit -> let m := reginit net curl_easy_perform crlid (after_adds adds) in
  sm_wf m /\ (size (sm_abs m) <= 2 + length adds)%nat /\ forall name, sm_abs m !! name = first_impl adds name.
Proof.
  induction adds as [|[name impl] adds IH] using rev_ind; intros Hlim; [apply reginit_empty; cbn in Hlim; lia|].
  rewrite length_app in Hlim. cbn [length] in Hlim. destruct IH as (Hw & Hsz & Hm); [lia|].
  unfold after_adds. rewrite foldl_snoc. fold (after_adds adds). cbn [fst snd].
  unfold devsdk_registry_add_impl. rewrite sm_get_ok, Hm by done.
  set (m := reginit net curl_easy_perform crlid (after_adds adds)) in *. rewrite length_app. cbn [length].
  destruct (first_impl adds name) as [i|] eqn:E; cbn [reginit fst].
  - split; [done|]. split; [lia|]. intros k. rewrite first_impl_snoc, Hm. cbn [fst snd].
    destruct (first_impl adds k) eqn:Ek; [done|]. destruct (String.eqb_spec name k) as [->|]; congruence.
  - destruct (sm_set_ok _ m name impl Hw) as [Hw' Ha']; [lia|]. split; [done|]. rewrite Ha'. split.
    + rewrite map_size_insert. unfold id. case_match; lia.
    + intros k. rewrite first_impl_snoc. cbn [fst snd]. destruct (String.eqb_spec name k) as [->|].
      * rewrite lookup_insert_eq. by rewrite E.
      * rewrite lookup_insert_ne, Hm by done. by destruct (first_impl adds k).
Qed.

(** After any additions a registry is found by the part of its URL before ["://"]: the
    names of consul always lead to it, any other name to the first implementation that
    was added for it, at the location that implementation reads from the rest. *)
Theorem registry_located (adds : list (string * devsdk_registry_impl net)) (name rest : string) :
  2 + Z.of_nat (length adds) < sm_limit -> str_split ":" name = None ->
  snd (devsdk_registry_get_registry net curl_easy_perform crlid (after_adds adds) (name +:+ "://" +:+ rest))
  = (impl ← first_impl adds name; MkRegistry net impl <$> ri_parser net impl rest).
Proof.
  intros Hlim Hn. destruct (after_adds_ok adds Hlim) as (Hw & _ & Hm).
  unfold devsdk_registry_get_registry. rewrite scheme_split_app by done. cbn [snd].
  rewrite sm_get_ok, Hm by done. destruct (first_impl adds name) as [impl|]; [|done]. cbn.
  by destruct (ri_parser net impl rest).
Qed.

End registry.

(** A registry in a file. *)
Definition file_impl : devsdk_registry_impl unit := {|
  ri_loc := string;
  ri_ping n loc := (n, true, EDGEX_OK);
  ri_get_config n loc sname profile := (n, [], MkJob EmptyString 0 None, EDGEX_OK);
  ri_put_config n loc sname profile config := (n, EDGEX_OK);
  ri_register_service n loc sname host port interval := (n, EDGEX_OK);
  ri_deregister_service n loc sname := (n, EDGEX_OK);
  ri_query_service n loc sname := (n, None, EDGEX_BAD_CONFIG);
  ri_parser s := Some s |}.

Lemma registry_located_witness :
  snd (devsdk_registry_get_registry unit (answering 200 []) None
         (after_adds (M := edgex_map_base) unit (answering 200 []) None [("file", file_impl); ("consul", file_impl)])
         "consul://localhost:8500")
  = Some (MkRegistry unit (consulimpl unit (answering 200 []) None) (MkHostPort "localhost" 8500)).
Proof.
  pose proof (registry_located (M := edgex_map_base) unit (answering 200 []) None
    [("file", file_impl); ("consul", file_impl)] "consul" "localhost:8500") as H.
  refine (eq_trans (H _ _) _); [vm_compute; reflexivity|reflexivity|reflexivity].
Defined.

(** The port of a registry is cut to 16 bits. *)
Lemma registry_port_cut :
  devsdk_registry_parse_simple_url "localhost:70000" = Some (MkHostPort "localhost" 4464) /\
  devsdk_registry_parse_simple_url "localhost:-1" = Some (MkHostPort "localhost" 65535).
Proof. split; vm_compute; reflexivity. Qed.

(** With a slash in the name of the service the values come back under other names. *)
Lemma slash_in_name : key_index (config_key "lab/device-x" None "Service/Port") = Some "device-x/Service/Port".
Proof. reflexivity. Qed.

(** What is listed for a service are the keys that start with its name: those of another
    service whose name starts with it are taken for its own. *)
Lemma other_service_read :
  starts_with (CONF_PREFIX +:+ service_key "device-x" None) (config_key "device-x2" None "Service/Port") = true /\
  key_index (config_key "device-x2" None "Service/Port") = Some "Service/Port".
Proof. split; reflexivity. Qed.

(** The index is added to the URL whatever room there is. *)
Lemma poll_overflows {net U} (perform : net -> http_request -> net * http_response) (updater : U -> devsdk_nvpairs -> U)
    n u job v flag done :
  pj_index job = Some v -> (512 <= pj_tail job + 7 + String.length v)%nat ->
  poll_once net perform None updater n u job flag done = Crash.
Proof.
  intros Hi Hlen. unfold poll_once, sprintf_in. rewrite Hi.
  destruct (Nat.ltb_spec (String.length ("&index=" +:+ v)) (URL_BUF_SIZE - pj_tail job)) as [H|]; [|done].
  cbn in H. unfold URL_BUF_SIZE in H. lia.
Qed.
