(* ===== verification/Profiles.v ===== *)
(** * Device profiles ([profiles.c], [edgex_data_client_add_valuedescriptor] of [data.c])

    Profiles are read from the YAML files of a directory; one that core-metadata does
    not have is uploaded and then retrieved. The directory and the YAML parser are
    parameters: a file gives a sequence of events, which ends with the end of the stream
    or with an error. *)

From S2P Require Import Prelude CLib HashMap Parson ParsonText ParsonProofs DevTypes EdgexRest EdgexRestProofs.
From S2P Require Import IotData Readings CmdInfo DevMap DevMapProofs Device Watchers Rest Metadata DevMan.
From Stdlib Require Import Ascii.
Local Open Scope Z_scope.
Local Open Scope sdk_scope.

Definition MAX_PATH_SIZE : Z := 256.
Definition EDGEX_PROFILES_DIRECTORY : devsdk_error := MkError 19 "Problem scanning profiles directory".

(** ** Files *)

(** An entry of a directory: the name, and the five bytes of the structure before it,
    of which the last one is the type of the file. *)
Record dirent := MkDirent { d_before : string; d_name : string }.

(** The comparison starts five characters before the end of the name, which can be
    before its start. *)
Definition yamlselect (d : dirent) : bool :=
  strcasecmp_eq (c_string (str_drop (String.length (d_name d)) (d_before d +:+ d_name d))) ".yaml".

Inductive yaml_event_t := YAML_SCALAR_EVENT (value : string) | YAML_OTHER_EVENT.

(** The events of a file before the end of the stream, or before an error when
    [ys_error] is set. *)
Record yaml_stream := MkStream { ys_events : list yaml_event_t; ys_error : bool }.

(** The loop over the events. *)
Fixpoint name_loop (lastWasName : bool) (events : list yaml_event_t) (failed : bool) (err : devsdk_error)
    : option string * devsdk_error :=
  match events with
  | [] => (None, if failed then EDGEX_PROFILE_PARSE_ERROR else err)
  | YAML_SCALAR_EVENT value :: events' =>
      if lastWasName then (Some value, err) else name_loop (strcasecmp_eq value "name") events' failed err
  | YAML_OTHER_EVENT :: events' => name_loop false events' failed err
  end.

(** [files] is [None] for a file that cannot be opened. *)
Definition getProfName (files : string -> option yaml_stream) (fname : string) (err : devsdk_error)
    : option string * devsdk_error :=
  match files fname with
  | Some ys =>
      match name_loop false (ys_events ys) (ys_error ys) err with
      | (None, err) => (None, if er_code err =? 0 then EDGEX_PROFILE_PARSE_ERROR else err)
      | r => r
      end
  | None => (None, EDGEX_PROFILE_PARSE_ERROR)
  end.

(** ** Value descriptors *)

(** The descriptor before it is sent: the identifier is NULL, the labels are empty. *)
Definition new_descriptor (name : string) (origin : Z) (min max type uomLabel defaultValue formatting description
    mediaType floatEncoding : string) : JSON_Value :=
  VObject ([] ;> put_uint "created" 0
    ;> put_string "defaultValue" (Some defaultValue) ;> put_string "description" (Some description)
    ;> put_string "formatting" (Some formatting) ;> put_string "id" None
    ;> put_value "labels" (strings_to_array []) ;> put_string "max" (Some max) ;> put_string "min" (Some min)
    ;> put_uint "modified" 0 ;> put_string "name" (Some name) ;> put_uint "origin" origin
    ;> put_string "type" (Some type) ;> put_string "uomLabel" (Some uomLabel)
    ;> put_string "floatEncoding" (Some floatEncoding) ;> put_string "mediaType" (Some mediaType)).

Section profiles.
  Context {M : Type -> Type} `{SM : StringMap M}.
  Variables (regex_t : Type).
  Variables (net : Type) (curl_easy_perform : net -> http_request -> net * http_response).
  Variables (curl_easy_escape : string -> string) (crlid : option string).
  Variable (impl : Type).
  Variable (endpoints : edgex_service_endpoints).
  Variables (scandir : string -> option (list dirent)) (files : string -> option yaml_stream).
  Variable (iot_time_msecs : Z).

Definition edgex_data_client_add_valuedescriptor (n : net) (name : string) (origin : Z)
    (min max type uomLabel defaultValue formatting description mediaType floatEncoding : string) : net * devsdk_error :=
  let json := json_serialize_to_string (Some (new_descriptor name origin min max type uomLabel defaultValue formatting
                description mediaType floatEncoding)) in
  let '(n, _, _, err) := edgex_http_post net curl_easy_perform crlid n ctx_zero
                           (url_for (ep_data endpoints) "/api/v1/valuedescriptor") json (Some edgex_http_write_cb) in
  (n, err).

Definition need_vds (n : net) : net * bool :=
  let '(n, metaconf, _) := edgex_metadata_client_get_config net curl_easy_perform crlid endpoints n in
  (n, match metaconf with
      | Some metaconf =>
          match json_object_get_object (json_value_get_object (Some metaconf)) "Writable" with
          | Some wr =>
              let enable := json_object_get_boolean (Some wr) "EnableValueDescriptorManagement" in
              if enable =? -1 then true else (enable =? 0)
          | None => true
          end
      | None => true
      end).

Definition generate_value_descriptors (n : net) (dp : edgex_deviceprofile) : net :=
  foldl (fun n res =>
    let pv := pp_value (dr_properties res) in
    fst (edgex_data_client_add_valuedescriptor n (dr_name res) iot_time_msecs (pv_minimum pv) (pv_maximum pv)
           (str_take 1 (edgex_propertytype_tostring (pv_type pv))) (u_defaultvalue (pp_units (dr_properties res)))
           (pv_defaultvalue pv) "%s" (dr_description res) (pv_mediaType pv)
           (if pv_floatAsBinary pv then "base64" else "eNotation"))) n (dp_resources dp).

(** ** Upload *)

#[local] Abbreviation service := (service (M := M) regex_t net impl).
#[local] Abbreviation devices := (sv_devices regex_t net impl).

(** The profile is in the map or comes from core-metadata and is added to the map. *)
Definition edgex_deviceprofile_get_internal (sv : service) (name : string) (err : devsdk_error)
    : res (service * option ptr * devsdk_error) :=
  match edgex_devmap_profile (devices sv) name with
  | Some p => Ret (sv, Some p, err)
  | None =>
      '(n, newdp, err) ← edgex_metadata_client_get_deviceprofile net curl_easy_perform curl_easy_escape crlid endpoints
                           (sv_net _ _ _ sv) name;
      let sv := sv_set_net _ _ _ sv n in
      Ret (match newdp with
           | Some newdp => (sv_set_devices _ _ _ sv (edgex_devmap_add_profile (devices sv) newdp),
                            Some (dm_next (devices sv)), err)
           | None => (sv, None, err)
           end)
  end.

Definition edgex_add_profile (sv : service) (fname : string) : res (service * devsdk_error) :=
  let '(profname, err) := getProfName files fname EDGEX_OK in
  match profname with
  | Some profname =>
      '(sv, dp, err) ← edgex_deviceprofile_get_internal sv profname err;
      match dp with
      | Some _ => Ret (sv, err)
      | None =>
          let '(n, _, err) := edgex_metadata_client_create_deviceprofile_file net curl_easy_perform crlid endpoints
                                (sv_net _ _ _ sv) fname in
          let sv := sv_set_net _ _ _ sv n in
          if er_code err =? 0 then
            '(sv, dp, err) ← edgex_deviceprofile_get_internal sv profname err;
            match dp with
            | Some q =>
                let '(n, need) := need_vds (sv_net _ _ _ sv) in
                if (need : bool) then
                  prof ← deref (dm_pheap (devices sv) !! q);
                  Ret (sv_set_net _ _ _ sv (generate_value_descriptors n prof), err)
                else Ret (sv_set_net _ _ _ sv n, err)
            | None => Ret (sv, err)
            end
          else Ret (sv, err)
      end
  | None => Ret (sv, err)
  end.

(** The loop over the files, last one first; after an error the rest is skipped. *)
Fixpoint upload_loop (profileDir : string) (names : list string) (sv : service) (err : devsdk_error)
    : res (service * devsdk_error) :=
  match names with
  | [] => Ret (sv, err)
  | fname :: names' =>
      if er_code err =? 0 then
        let pathname := profileDir +:+ "/" +:+ fname in
        if Z.of_nat (String.length pathname) <? MAX_PATH_SIZE then
          '(sv, err) ← edgex_add_profile sv pathname; upload_loop profileDir names' sv err
        else upload_loop profileDir names' sv EDGEX_PROFILE_PARSE_ERROR
      else upload_loop profileDir names' sv err
  end.

Definition edgex_device_profiles_upload (sv : service) (profileDir : string) : res (service * devsdk_error) :=
  match scandir profileDir with
  | Some entries => upload_loop profileDir (rev (map d_name (List.filter yamlselect entries))) sv EDGEX_OK
  | None => Ret (sv, EDGEX_PROFILES_DIRECTORY)
  end.

Definition edgex_get_deviceprofile_byname (sv : service) (name : string) : res (service * option edgex_deviceprofile) :=
  '(sv, dp, _) ← edgex_deviceprofile_get_internal sv name EDGEX_OK;
  match dp with
  | Some q => prof ← deref (dm_pheap (devices sv) !! q); Ret (sv, Some (edgex_deviceprofile_dup prof))
  | None => Ret (sv, None)
  end.

Definition edgex_profiles (sv : service) : res (list edgex_deviceprofile) := edgex_devmap_copyprofiles (devices sv).

(** ** What the upload achieves *)

Abbreviation fetch_profile :=
  (edgex_metadata_client_get_deviceprofile net curl_easy_perform curl_easy_escape crlid endpoints) (only parsing).

(** What the service relies on core-metadata for: a reply can be read, and a profile
    has the name it was asked for. *)
Definition profiles_sane : Prop :=
  forall n name, exists n' dp err, fetch_profile n name = Ret (n', dp, err) /\ forall p, dp = Some p -> dp_name p = name.

(** The devices are the same and no profile is lost. *)
Definition profiles_grow (m m' : edgex_devmap_t (M := M)) : Prop :=
  st_devs (abs m') = st_devs (abs m) /\ st_profs (abs m) ⊆ st_profs (abs m').

Lemma profiles_grow_refl m : profiles_grow m m.
Proof. split; [done|reflexivity]. Qed.

Lemma profiles_grow_trans m1 m2 m3 : profiles_grow m1 m2 -> profiles_grow m2 m3 -> profiles_grow m1 m3.
Proof. intros [E1 S1] [E2 S2]. split; [by rewrite E2|by etrans]. Qed.

(** A profile that was fetched is resolved, and without one there is an error. *)
Lemma fetched_profile n name n' dp err :
  fetch_profile n name = Ret (n', dp, err) ->
  (forall p, dp = Some p -> resolved p) /\ (dp = None -> er_code err <> 0).
Proof.
  unfold edgex_metadata_client_get_deviceprofile, get_and_read. destruct (http_get _ _ _ _ _ _ _) as [[[n1 ctx] code] e].
  destruct (er_code e =? 0) eqn:E.
  - destruct (edgex_deviceprofile_read (ctx_text ctx)) as [r| |] eqn:Er; [| |done].
    2: { cbn [or_null]. rewrite !res_bind_ret, E. intros [= <- <- <-]. by split. }
    intros [= <- <- <-]. split; [|done]. intros p [= <-].
    unfold edgex_deviceprofile_read, read_json in Er. destruct (json_parse_string _); [|done].
    destruct (json_value_get_object _); [|done]. by eapply profile_read_resolved.
  - rewrite res_bind_ret, E. intros [= <- <- <-]. split; [done|]. intros _. by apply Z.eqb_neq.
Qed.

Lemma get_internal_ok sv held name err :
  devmap_ok (devices sv) held -> Z.of_nat (dm_next (devices sv)) < sm_limit (M := M) -> profiles_sane ->
  exists sv' o err', edgex_deviceprofile_get_internal sv name err = Ret (sv', o, err') /\
    devmap_ok (devices sv') held /\ profiles_grow (devices sv) (devices sv') /\
    match o with
    | Some q => is_Some (dm_pheap (devices sv') !! q) /\ is_Some (st_profs (abs (devices sv')) !! name) /\
                (dm_next (devices sv') <= S (dm_next (devices sv)))%nat
    | None => devices sv' = devices sv /\ er_code err' <> 0
    end.
Proof.
  intros Hok Hlim Hsane. unfold edgex_deviceprofile_get_internal, edgex_devmap_profile.
  rewrite (get_profile _ _ Hok). destruct (sm_abs (dm_profiles (devices sv)) !! name) as [q|] eqn:E.
  - do 3 eexists. split; [reflexivity|]. split; [done|]. split; [apply profiles_grow_refl|].
    destruct (ok_prof _ _ Hok _ _ E) as (prof & Hq & _). rewrite (abs_profile_some _ _ _ E), Hq. split_and!; eauto.
  - destruct (Hsane (sv_net _ _ _ sv) name) as (n' & dp & err' & Hget & Hname). rewrite Hget, res_bind_ret.
    destruct (fetched_profile _ _ _ _ _ Hget) as [Hres Hnone]. destruct dp as [p|].
    + destruct (add_profile_ok (devices sv) held p Hok (Hres p eq_refl) Hlim) as [Hok' Habs].
      do 3 eexists. split; [reflexivity|]. split; [done|]. unfold profiles_grow. cbn [sv_devices sv_set_devices sv_set_net].
      rewrite Habs. cbn [st_devs st_profs]. rewrite (Hname p eq_refl). split; [split; [done|]|].
      * apply insert_subseteq. by apply abs_profile_none.
      * cbn [edgex_devmap_add_profile dm_pheap dm_next]. rewrite !lookup_insert_eq. split_and!; eauto.
    + do 3 eexists. split; [reflexivity|]. split; [done|]. split; [apply profiles_grow_refl|]. split; [done|by apply Hnone].
Qed.

(** The file names a profile that is known. *)
Definition file_known (m : edgex_devmap_t (M := M)) (fname : string) : Prop :=
  exists name, fst (getProfName files fname EDGEX_OK) = Some name /\ is_Some (st_profs (abs m) !! name).

Lemma file_known_grow m m' fname : profiles_grow m m' -> file_known m fname -> file_known m' fname.
Proof. intros [_ Hsub] (name & Hn & p & Hp). exists name. split; [done|]. exists p. by eapply lookup_weaken. Qed.

(** A file without a name for a profile is an error. *)
Lemma no_name_error fname err : getProfName files fname EDGEX_OK = (None, err) -> er_code err <> 0.
Proof.
  unfold getProfName. destruct (files fname) as [ys|]; [|by intros [= <-]].
  destruct (name_loop _ _ _ _) as [[name|] e]; [done|]. intros [= <-]. destruct (Z.eqb_spec (er_code e) 0); done.
Qed.

Lemma add_profile_file_ok sv held fname :
  devmap_ok (devices sv) held -> Z.of_nat (S (dm_next (devices sv))) < sm_limit (M := M) -> profiles_sane ->
  exists sv' err, edgex_add_profile sv fname = Ret (sv', err) /\
    devmap_ok (devices sv') held /\ profiles_grow (devices sv) (devices sv') /\ (dm_next (devices sv') <= S (dm_next (devices sv)))%nat /\
    (er_code err = 0 -> file_known (devices sv') fname).
Proof.
  intros Hok Hlim Hsane. unfold edgex_add_profile, file_known.
  destruct (getProfName files fname EDGEX_OK) as [[name|] err] eqn:En; cbn [fst].
  2: { do 2 eexists. split; [reflexivity|]. split_and!; [done|apply profiles_grow_refl|lia|].
       intros H. by destruct (no_name_error _ _ En). }
  destruct (get_internal_ok sv held name err Hok ltac:(lia) Hsane) as (sv1 & o & err1 & -> & Hok1 & Hg1 & Ho).
  rewrite res_bind_ret. destruct o as [q|].
  { destruct Ho as (_ & Hp & Hn). do 2 eexists. split; [reflexivity|]. split_and!; [done|done|done|]. intros _. by exists name. }
  destruct Ho as [Hd1 _].
  destruct (edgex_metadata_client_create_deviceprofile_file _ _ _ _ _ _) as [[n2 t2] err2].
  destruct (Z.eqb_spec (er_code err2) 0) as [H2|H2].
  2: { do 2 eexists. split; [reflexivity|]. split_and!; [done|done|cbn; rewrite Hd1; lia|done]. }
  destruct (get_internal_ok (sv_set_net _ _ _ sv1 n2) held name err2 Hok1) as (sv3 & o & err3 & -> & Hok3 & Hg3 & Ho).
  { cbn. rewrite Hd1. lia. }
  { done. }
  rewrite res_bind_ret. cbn [sv_devices sv_set_net] in *. rewrite Hd1 in *.
  destruct o as [q|].
  2: { do 2 eexists. split; [reflexivity|]. destruct Ho as [Hd3 He3]. rewrite Hd3 in *. split_and!; [done|done|lia|done]. }
  destruct Ho as ([prof Hq] & Hp & Hn). destruct (need_vds _) as [n4 need]. rewrite Hq. destruct need; cbn [deref];
    rewrite ?res_bind_ret; do 2 eexists; (split; [reflexivity|]); (split_and!; [done|done|done|]); intros _; by exists name.
Qed.

Lemma upload_loop_ok dir names sv held err :
  devmap_ok (devices sv) held -> Z.of_nat (dm_next (devices sv) + length names) < sm_limit (M := M) -> profiles_sane ->
  exists sv' err', upload_loop dir names sv err = Ret (sv', err') /\
    devmap_ok (devices sv') held /\ profiles_grow (devices sv) (devices sv') /\
    (dm_next (devices sv') <= dm_next (devices sv) + length names)%nat /\
    (er_code err' = 0 -> er_code err = 0 /\ Forall (fun f => file_known (devices sv') (dir +:+ "/" +:+ f)) names).
Proof.
  intros Hok Hlim Hsane. revert sv err Hok Hlim. induction names as [|f names IH]; intros sv err Hok Hlim; cbn [upload_loop].
  { do 2 eexists. split; [reflexivity|]. split_and!; [done|apply profiles_grow_refl|cbn; lia|]. intros ->. by split. }
  cbn [length] in Hlim. destruct (Z.eqb_spec (er_code err) 0) as [He|He].
  2: { destruct (IH sv err Hok ltac:(lia)) as (sv' & err' & -> & Hok' & Hg & Hn & H). do 2 eexists. split; [reflexivity|].
       split_and!; [done|done|cbn [length]; lia|]. intros [H0 _]%H. done. }
  destruct (_ <? MAX_PATH_SIZE).
  2: { destruct (IH sv EDGEX_PROFILE_PARSE_ERROR Hok ltac:(lia)) as (sv' & err' & -> & Hok' & Hg & Hn & H). do 2 eexists.
       split; [reflexivity|]. split_and!; [done|done|cbn [length]; lia|]. intros [H0 _]%H. done. }
  destruct (add_profile_file_ok sv held (dir +:+ "/" +:+ f) Hok ltac:(lia) Hsane) as (sv1 & err1 & -> & Hok1 & Hg1 & Hn1 & H1).
  rewrite res_bind_ret. destruct (IH sv1 err1 Hok1 ltac:(lia)) as (sv' & err' & -> & Hok' & Hg & Hn & H).
  do 2 eexists. split; [reflexivity|]. split_and!; [done|by eapply profiles_grow_trans|cbn [length]; lia|]. intros [H0 Hall]%H.
  split; [done|]. constructor; [|done]. eapply file_known_grow; [done|by apply H1].
Qed.

Lemma upload_ok sv held dir entries :
  devmap_ok (devices sv) held -> Z.of_nat (dm_next (devices sv) + length entries) < sm_limit (M := M) ->
  profiles_sane -> scandir dir = Some entries ->
  exists sv' err, edgex_device_profiles_upload sv dir = Ret (sv', err) /\
    devmap_ok (devices sv') held /\ profiles_grow (devices sv) (devices sv') /\
    (dm_next (devices sv') <= dm_next (devices sv) + length entries)%nat /\
    (er_code err = 0 ->
     forall e, e ∈ entries -> yamlselect e = true -> file_known (devices sv') (dir +:+ "/" +:+ d_name e)).
Proof.
  intros Hok Hlim Hsane Hdir. unfold edgex_device_profiles_upload. rewrite Hdir.
  assert (length (rev (map d_name (List.filter yamlselect entries))) <= length entries)%nat as Hlen.
  { rewrite length_rev, length_map. apply List.filter_length_le. }
  destruct (upload_loop_ok dir (rev (map d_name (List.filter yamlselect entries))) sv held EDGEX_OK Hok) as
    (sv' & err & -> & Hok' & Hg & Hn & H); [lia|done|].
  do 2 eexists. split; [reflexivity|]. split_and!; [done|done|lia|]. intros [_ Hall]%H e He Hsel.
  rewrite Forall_forall in Hall. apply Hall. apply list_elem_of_In. rewrite <-in_rev.
  apply in_map, filter_In. by rewrite <-list_elem_of_In.
Qed.

(** The upload has nothing to do with watchers. *)
Lemma get_internal_watchlist sv name err sv' o err' :
  edgex_deviceprofile_get_internal sv name err = Ret (sv', o, err') -> sv_watchlist _ _ _ sv' = sv_watchlist _ _ _ sv.
Proof.
  unfold edgex_deviceprofile_get_internal. destruct (edgex_devmap_profile _ _); [by intros [= <- _ _]|].
  destruct (edgex_metadata_client_get_deviceprofile _ _ _ _ _ _ _) as [[[n dp] e]| |]; [|done..].
  rewrite res_bind_ret. destruct dp; by intros [= <- _ _].
Qed.

Lemma add_profile_watchlist sv fname sv' err :
  edgex_add_profile sv fname = Ret (sv', err) -> sv_watchlist _ _ _ sv' = sv_watchlist _ _ _ sv.
Proof.
  unfold edgex_add_profile. destruct (getProfName files fname EDGEX_OK) as [[name|] e]; [|by intros [= <- _]].
  destruct (edgex_deviceprofile_get_internal sv name e) as [[[sv1 o1] e1]| |] eqn:E1; [|done..].
  apply get_internal_watchlist in E1. rewrite res_bind_ret. destruct o1; [by intros [= <- _]|].
  destruct (edgex_metadata_client_create_deviceprofile_file _ _ _ _ _ _) as [[n2 t2] e2].
  destruct (er_code e2 =? 0); [|intros [= <- _]; exact E1].
  destruct (edgex_deviceprofile_get_internal _ name e2) as [[[sv3 o3] e3]| |] eqn:E3; [|done..].
  apply get_internal_watchlist in E3. rewrite <-E1. rewrite res_bind_ret. destruct o3; [|intros [= <- _]; exact E3].
  destruct (need_vds _) as [n4 []]; [|intros [= <- _]; exact E3].
  destruct (dm_pheap _ !! _); [|done]. cbn [deref]. rewrite res_bind_ret. intros [= <- _]. exact E3.
Qed.

Lemma upload_watchlist dir sv sv' err :
  edgex_device_profiles_upload sv dir = Ret (sv', err) -> sv_watchlist _ _ _ sv' = sv_watchlist _ _ _ sv.
Proof.
  unfold edgex_device_profiles_upload. destruct (scandir dir) as [entries|]; [|by intros [= <- _]].
  generalize (rev (map d_name (List.filter yamlselect entries))) as names, EDGEX_OK as err0. intros names. revert sv.
  induction names as [|f names IH]; intros sv err0; cbn [upload_loop]; [by intros [= <- _]|].
  destruct (er_code err0 =? 0); [|apply IH]. destruct (_ <? _); [|apply IH].
  destruct (edgex_add_profile sv _) as [[sv1 e1]| |] eqn:E1; [|done..]. apply add_profile_watchlist in E1.
  rewrite res_bind_ret. intros H%IH. by rewrite H.
Qed.

(** The profiles of a directory are uploaded: the call returns whatever core-metadata
    answers; the devices stay as they are and no profile that was known is lost. When
    there is no error, each file that is selected names a profile and that profile is
    now known to the service. *)
Theorem profiles_available (sv : service) (held : ptr -> Z) (dir : string) (entries : list dirent) :
  devmap_ok (devices sv) held ->
  Z.of_nat (dm_next (devices sv) + length entries) < sm_limit (M := M) ->
  profiles_sane -> scandir dir = Some entries ->
  exists sv' err, edgex_device_profiles_upload sv dir = Ret (sv', err) /\
    devmap_ok (devices sv') held /\ profiles_grow (devices sv) (devices sv') /\
    (er_code err = 0 ->
     forall e, e ∈ entries -> yamlselect e = true -> file_known (devices sv') (dir +:+ "/" +:+ d_name e)).
Proof.
  intros Hok Hlim Hsane Hdir. destruct (upload_ok sv held dir entries Hok Hlim Hsane Hdir) as (sv' & err & ? & ? & ? & _ & ?).
  by exists sv', err.
Qed.

End profiles.

(** ** A directory with one profile *)

Definition sample_profile : edgex_deviceprofile := dev_profile sample_device.

Definition yaml_entry : dirent :=
  MkDirent (String (chr 1) (String (chr 0) (String (chr 32) (String (chr 0) (String (chr 8) EmptyString))))) "dev.YAML".

Definition sample_entries : list dirent :=
  [MkDirent (String (chr 1) (String (chr 0) (String (chr 24) (String (chr 0) (String (chr 4) EmptyString))))) "."; yaml_entry].

Definition sample_yaml : yaml_stream :=
  MkStream [YAML_OTHER_EVENT; YAML_SCALAR_EVENT "name"; YAML_SCALAR_EVENT (dp_name sample_profile)] false.

Definition profile_url : string :=
  url_for sample_endpoint ("/api/v1/deviceprofile/name/" +:+ dp_name sample_profile).

(** Core-metadata with one profile, once it was uploaded. *)
Definition one_profile (uploaded : bool) (req : http_request) : bool * http_response :=
  match hr_method req with
  | GET =>
      if uploaded && String.eqb (hr_url req) profile_url
      then (uploaded, MkResponse CURLE_OK 200 [] [default EmptyString (edgex_deviceprofile_write sample_profile false)])
      else (uploaded, MkResponse CURLE_OK 404 [] ["Not found"])
  | _ => (true, MkResponse CURLE_OK 200 [] ["id"])
  end.

Lemma profile_url_name name : url_for sample_endpoint ("/api/v1/deviceprofile/name/" +:+ name) = profile_url -> name = "prof".
Proof.
  intros E. destruct name as [|a [|b [|c [|d [|e s]]]]]; vm_compute in E; try discriminate E.
  by injection E as -> -> -> ->.
Qed.

Lemma one_profile_sane : profiles_sane bool one_profile id None sample_endpoints.
Proof.
  intros n name. unfold edgex_metadata_client_get_deviceprofile, get_and_read, http_get, edgex_http_get, edgex_run_curl.
  cbn -[url_for String.append]. unfold one_profile. cbn [hr_method hr_url].
  destruct (n && _) eqn:E; [|vm_compute; do 3 eexists; by split].
  apply andb_prop in E as [-> E]. apply String.eqb_eq, profile_url_name in E as ->.
  vm_compute. do 3 eexists. split; [reflexivity|]. by intros p [= <-].
Qed.

Definition sample_service : service (M := edgex_map_base) unit bool unit :=
  MkService unit bool unit edgex_devmap_alloc [] false tt.

Abbreviation sample_upload :=
  (edgex_device_profiles_upload unit bool one_profile id None unit sample_endpoints (fun _ => Some sample_entries)
     (fun _ => Some sample_yaml) 0 sample_service "res") (only parsing).

Lemma profiles_available_witness :
  match sample_upload with
  | Ret (sv, err) => er_code err = 0 /\ is_Some (st_profs (abs (sv_devices _ _ _ sv)) !! "prof")
  | _ => False
  end.
Proof.
  destruct (profiles_available unit bool one_profile id None unit sample_endpoints (fun _ => Some sample_entries)
              (fun _ => Some sample_yaml) 0 sample_service (fun _ => 0) "res" sample_entries) as (sv & err & E & _ & _ & H).
  - exact (proj1 alloc_ok).
  - reflexivity.
  - exact one_profile_sane.
  - reflexivity.
  - assert (er_code err = 0) as He.
    { transitivity (match sample_upload with Ret (_, e) => er_code e | _ => 1 end); [by rewrite E|vm_compute; reflexivity]. }
    rewrite E. split; [done|]. destruct (H He yaml_entry) as (name & [= <-] & Hp).
    + right. left.
    + reflexivity.
    + exact Hp.
Defined.

Lemma strcase_length a b : strcasecmp_eq a b = true -> String.length a = String.length b.
Proof.
  revert b. induction a as [|x a IH]; intros [|y b]; try done. cbn [strcasecmp_eq String.length].
  intros [_ H]%andb_prop. by rewrite (IH b).
Qed.

(** The characters of the extension are above the types of files, which are at most 14. *)
Lemma extension_chars a b c d e :
  strcasecmp_eq (String a (String b (String c (String d (String e EmptyString))))) ".yaml" = true ->
  14 < uchar a /\ 14 < uchar b /\ 14 < uchar c /\ 14 < uchar d /\ 14 < uchar e.
Proof.
  assert (forall x y, Ascii.eqb (tolower x) (tolower y) = true -> 14 < uchar (tolower y) -> 14 < uchar x) as H.
  { intros x y E%Ascii.eqb_eq Hy. rewrite <-E in Hy. unfold tolower, isupper in Hy.
    destruct ((65 <=? uchar x) && (uchar x <=? 90)) eqn:Ex; lia. }
  cbn [strcasecmp_eq]. rewrite !andb_true_iff. intros (Ha & Hb & Hc & Hd & He & _).
  repeat split; (eapply H; [eassumption|reflexivity]).
Qed.

(** A name of less than five characters is not selected, although the comparison starts
    before the name: what is there is the type of the file. *)
Lemma yamlselect_short (d : dirent) (pre : string) (type : ascii) :
  d_before d = pre +:+ String type EmptyString -> String.length pre = 4%nat -> uchar type <= 14 ->
  (String.length (d_name d) < 5)%nat -> yamlselect d = false.
Proof.
  intros Hb Hp Ht Hn. unfold yamlselect. rewrite Hb. apply not_true_iff_false. intros E.
  destruct pre as [|p1 [|p2 [|p3 [|p4 [|]]]]]; try discriminate Hp.
  destruct (d_name d) as [|n1 [|n2 [|n3 [|n4 [|n5 s]]]]]; [..|cbn in Hn; lia];
    cbn [String.append String.length str_drop c_string] in E;
    repeat match type of E with context [if ?b then _ else _] => destruct b end;
    pose proof (strcase_length _ _ E) as El; try discriminate El; apply extension_chars in E; lia.
Qed.
