(* ===== verification/CmdLine.v ===== *)
(** * The command line of a service ([service.c], up to [devsdk_service_new])

    The options of the SDK are taken out of the arguments, what is left is for the
    driver. Environment variables have the last word. *)

From S2P Require Import Prelude CLib DevTypes Rest Config.
From Stdlib Require Import Ascii.
Local Open Scope Z_scope.

Definition EDGEX_NO_DEVICE_IMPL : devsdk_error := MkError 3 "Device implementation data was null".
Definition EDGEX_NO_DEVICE_NAME : devsdk_error := MkError 6 "No Device name was specified".
Definition EDGEX_NO_DEVICE_VERSION : devsdk_error := MkError 7 "No Device version was specified".

(** The fields of the service the options set. *)
Record settings := MkSettings {
  sg_regURL : option string; sg_name : option string; sg_profile : option string; sg_confdir : option string;
  sg_conffile : option string; sg_overwrite : bool }.

Definition no_settings : settings := MkSettings None None None None None false.

(** The result of a test: [None] when the argument is another one, otherwise the new
    value of the variable and of [result]. *)
Definition testArgOpt (arg : string) (val : option string) (pshort plong : string) (var : option string) (result : bool)
    : option (option string * bool) :=
  if String.eqb arg pshort || String.eqb arg plong then
    match val with
    | Some (String c _ as v) =>
        if Ascii.eqb c "-" then Some (Some (default EmptyString var), false) else Some (Some v, result)
    | _ => Some (Some (default EmptyString var), false)
    end
  else None.

Definition testArg (arg : string) (val : option string) (pshort plong : string) (var : option string) (result : bool)
    : option (option string * bool) :=
  if String.eqb arg pshort || String.eqb arg plong then
    match val with Some (String _ _ as v) => Some (Some v, result) | _ => Some (var, false) end
  else None.

Definition testBool (arg pshort plong : string) : bool := String.eqb arg pshort || String.eqb arg plong.

(** The arguments after [start + nargs] move down; the count is reduced in any case. *)
Definition consumeArgs (argc : Z) (argv : list string) (start nargs : nat) : Z * list string :=
  (argc - Z.of_nat nargs, take start argv ++ drop (start + nargs) argv).

Definition checkEnv (getenv : string -> option string) (setting : option string) (varname : string)
    (altvar : option string) : option string :=
  match getenv varname with
  | Some v => Some v
  | None => match altvar ≫= getenv with Some v => Some v | None => setting end
  end.

Definition set_reg (s : settings) (v : option string) : settings :=
  MkSettings v (sg_name s) (sg_profile s) (sg_confdir s) (sg_conffile s) (sg_overwrite s).
Definition set_name (s : settings) (v : option string) : settings :=
  MkSettings (sg_regURL s) v (sg_profile s) (sg_confdir s) (sg_conffile s) (sg_overwrite s).
Definition set_profile (s : settings) (v : option string) : settings :=
  MkSettings (sg_regURL s) (sg_name s) v (sg_confdir s) (sg_conffile s) (sg_overwrite s).
Definition set_confdir (s : settings) (v : option string) : settings :=
  MkSettings (sg_regURL s) (sg_name s) (sg_profile s) v (sg_conffile s) (sg_overwrite s).
Definition set_conffile (s : settings) (v : option string) : settings :=
  MkSettings (sg_regURL s) (sg_name s) (sg_profile s) (sg_confdir s) v (sg_overwrite s).
Definition set_overwrite (s : settings) : settings :=
  MkSettings (sg_regURL s) (sg_name s) (sg_profile s) (sg_confdir s) (sg_conffile s) true.

(** The two tests for the registry, and the four for options with a value, in order. *)
Definition test_registry (s : settings) (arg : string) (val : option string) : option (settings * bool) :=
  match testArgOpt arg val "-r" "--registry" (sg_regURL s) true with
  | Some (v, r) => Some (set_reg s v, r)
  | None =>
      match testArgOpt arg val "-cp" "--configProvider" (sg_regURL s) true with
      | Some (v, r) => Some (set_reg s v, r)
      | None => None
      end
  end.

Definition test_values (s : settings) (arg : string) (val : option string) : option (settings * bool) :=
  match testArg arg val "-i" "--instance" (sg_name s) true with
  | Some (v, r) => Some (set_name s v, r)
  | None =>
  match testArg arg val "-p" "--profile" (sg_profile s) true with
  | Some (v, r) => Some (set_profile s v, r)
  | None =>
  match testArg arg val "-c" "--confdir" (sg_confdir s) true with
  | Some (v, r) => Some (set_confdir s v, r)
  | None =>
  match testArg arg val "-f" "--file" (sg_conffile s) true with
  | Some (v, r) => Some (set_conffile s v, r)
  | None => None
  end end end end.

(** The part of an argument before the first equals sign, and the value: what follows
    the sign, or the next argument. *)
Definition arg_value (argc : Z) (argv : list string) (n : nat) (whole : string) : string * option string * bool :=
  match str_split "=" whole with
  | Some (arg, val) => (arg, Some val, true)
  | None => (whole, if Z.of_nat n + 1 <? argc then argv !! S n else None, false)
  end.

(** The loop; each turn moves on or takes arguments away, so [fuel] of the number of
    arguments is enough. *)
Fixpoint cmd_loop (fuel : nat) (argc : Z) (argv : list string) (n : nat) (s : settings) (cpset : bool)
    : settings * Z * list string * bool :=
  match fuel with
  | O => (s, argc, argv, true)
  | S fuel =>
      if Z.of_nat n <? argc then
        let whole := default EmptyString (argv !! n) in
        let '(arg, val, eq) := arg_value argc argv n whole in
        match test_registry s arg val with
        | Some (s, result) =>
            let '(argc, argv) := consumeArgs argc argv n (if result then 2 else 1) in
            if cpset then (s, argc, argv, false) else cmd_loop fuel argc argv n s true
        | None =>
            match test_values s arg val with
            | Some (s, result) =>
                let '(argc, argv) := consumeArgs argc argv n (if eq then 1 else 2) in
                if result then cmd_loop fuel argc argv n s cpset else (s, argc, argv, false)
            | None =>
                if testBool arg "-o" "--overwrite" then
                  let '(argc, argv) := consumeArgs argc argv n 1 in
                  cmd_loop fuel argc argv n (set_overwrite s) cpset
                else cmd_loop fuel argc argv (S n) s cpset
            end
        end
      else (s, argc, argv, true)
  end.

Section env.
  Variable (getenv : string -> option string).

Definition check_env (s : settings) : settings :=
  MkSettings (checkEnv getenv (sg_regURL s) "EDGEX_CONFIGURATION_PROVIDER" (Some "edgex_registry"))
    (checkEnv getenv (sg_name s) "EDGEX_INSTANCE_NAME" None)
    (checkEnv getenv (sg_profile s) "EDGEX_PROFILE" (Some "edgex_profile"))
    (checkEnv getenv (sg_confdir s) "EDGEX_CONF_DIR" None)
    (checkEnv getenv (sg_conffile s) "EDGEX_CONFIG_FILE" None) (sg_overwrite s).

(** The settings, the count and the arguments afterwards, and whether they are right. *)
Definition processCmdLine (argv : list string) (s : settings) : settings * Z * list string * bool :=
  let '(s, argc, argv, result) := cmd_loop (length argv) (Z.of_nat (length argv)) argv 1 s false in
  (check_env s, argc, argv, result).

(** The settings of a new service: the name and the directory are there. *)
Record new_service := MkNew {
  nw_name : string; nw_version : string; nw_regURL : option string; nw_profile : option string; nw_confdir : string;
  nw_conffile : option string; nw_overwrite : bool }.

Definition devsdk_service_new (defaultname version : option string) (impldata : bool) (argv : list string)
    : option new_service * Z * list string * devsdk_error :=
  let argc := Z.of_nat (length argv) in
  if negb impldata then (None, argc, argv, EDGEX_NO_DEVICE_IMPL)
  else match defaultname, version with
       | Some (String _ _ as defaultname), Some (String _ _ as version) =>
           let '(s, argc, argv, ok) := processCmdLine argv no_settings in
           if ok then
             (Some (MkNew (match sg_name s with Some n => defaultname +:+ "_" +:+ n | None => defaultname end) version
                      (sg_regURL s) (sg_profile s) (default "res" (sg_confdir s)) (sg_conffile s) (sg_overwrite s)),
              argc, argv, EDGEX_OK)
           else (None, argc, argv, EDGEX_INVALID_ARG)
       | Some (String _ _), _ => (None, argc, argv, EDGEX_NO_DEVICE_VERSION)
       | _, _ => (None, argc, argv, EDGEX_NO_DEVICE_NAME)
       end.

End env.

(** ** What the options mean *)

Inductive value_option := ONameOpt | OProfileOpt | OConfdirOpt | OFileOpt.

Definition option_name (o : value_option) (short : bool) : string :=
  match o, short with
  | ONameOpt, true => "-i" | ONameOpt, false => "--instance"
  | OProfileOpt, true => "-p" | OProfileOpt, false => "--profile"
  | OConfdirOpt, true => "-c" | OConfdirOpt, false => "--confdir"
  | OFileOpt, true => "-f" | OFileOpt, false => "--file"
  end.

Definition registry_names : list string := ["-r"; "--registry"; "-cp"; "--configProvider"].

(** The parts of a command line: an option with a value, written with an equals sign or
    as two arguments; the registry with a URL, as two arguments; the option to
    overwrite; anything else. *)
Inductive cmd_item :=
| CValue (o : value_option) (short eq : bool) (v : string)
| CRegistry (name v : string)
| COverwrite (short : bool)
| COther (s : string).

Definition render (i : cmd_item) : list string :=
  match i with
  | CValue o short true v => [option_name o short +:+ "=" +:+ v]
  | CValue o short false v => [option_name o short; v]
  | CRegistry name v => [name; v]
  | COverwrite short => [if short then "-o" else "--overwrite"]
  | COther s => [s]
  end.

Definition all_names : list string :=
  registry_names ++ ["-i"; "--instance"; "-p"; "--profile"; "-c"; "--confdir"; "-f"; "--file"; "-o"; "--overwrite"].

Definition item_ok (i : cmd_item) : Prop :=
  match i with
  | CValue _ _ _ v => v <> EmptyString
  | CRegistry name v => name ∈ registry_names /\ v <> EmptyString /\ starts_with "-" v = false
  | COverwrite _ => True
  | COther s => match str_split "=" s with Some (arg, _) => arg | None => s end ∉ all_names
  end.

Definition apply_item (s : settings) (i : cmd_item) : settings :=
  match i with
  | CValue ONameOpt _ _ v => set_name s (Some v)
  | CValue OProfileOpt _ _ v => set_profile s (Some v)
  | CValue OConfdirOpt _ _ v => set_confdir s (Some v)
  | CValue OFileOpt _ _ v => set_conffile s (Some v)
  | CRegistry _ v => set_reg s (Some v)
  | COverwrite _ => set_overwrite s
  | COther _ => s
  end.

Definition is_registry (i : cmd_item) : bool := match i with CRegistry _ _ => true | _ => false end.
Definition rest_of (items : list cmd_item) : list string :=
  concat (map (fun i => match i with COther s => [s] | _ => [] end) items).

Lemma value_option_test s o short v :
  v <> EmptyString ->
  test_registry s (option_name o short) (Some v) = None /\
  forall eq, test_values s (option_name o short) (Some v) = Some (apply_item s (CValue o short eq v), true).
Proof. intros Hv. destruct v as [|c v]; [done|]. destruct o, short; split; reflexivity. Qed.

Lemma registry_test s name v :
  name ∈ registry_names -> v <> EmptyString -> starts_with "-" v = false ->
  test_registry s name (Some v) = Some (set_reg s (Some v), true) /\ str_split "=" name = None.
Proof.
  intros Hn Hv Hd. destruct v as [|c v]; [done|].
  assert (Ascii.eqb c "-" = false) as Hc.
  { unfold starts_with in Hd. cbn in Hd. destruct (ascii_dec "-" c) as [<-|Hne]; [by destruct v|]. by apply Ascii.eqb_neq. }
  unfold registry_names in Hn. repeat (apply elem_of_cons in Hn as [->|Hn]); [..|by apply not_elem_of_nil in Hn];
    (split; [|reflexivity]); unfold test_registry, testArgOpt; cbn; by rewrite Hc.
Qed.

Lemma other_test s arg val :
  arg ∉ all_names -> test_registry s arg val = None /\ test_values s arg val = None /\ testBool arg "-o" "--overwrite" = false.
Proof.
  intros H. assert (forall n, n ∈ all_names -> String.eqb arg n = false) as E.
  { intros n Hn. apply String.eqb_neq. by intros ->. }
  unfold test_registry, test_values, testArgOpt, testArg, testBool.
  rewrite !E by (unfold all_names, registry_names; cbn [app]; repeat (first [by left|right])). done.
Qed.

Lemma take_drop_consume (pre l : list string) k :
  take (length pre) (pre ++ l) ++ drop (length pre + k) (pre ++ l) = pre ++ drop k l.
Proof. by rewrite take_app_length, drop_app_add. Qed.

(** One turn of the loop on a list of arguments that starts at the current one. *)
Lemma cmd_loop_step fuel pre whole l s cpset :
  let argv := pre ++ whole :: l in
  cmd_loop (S fuel) (Z.of_nat (length argv)) argv (length pre) s cpset
  = let '(arg, val, eq) := match str_split "=" whole with
                           | Some (arg, val) => (arg, Some val, true)
                           | None => (whole, head l, false)
                           end in
    match test_registry s arg val with
    | Some (s, result) =>
        let k := if result then 2%nat else 1%nat in
        let argc := Z.of_nat (length argv) - Z.of_nat k in
        if cpset then (s, argc, pre ++ drop k (whole :: l), false)
        else cmd_loop fuel argc (pre ++ drop k (whole :: l)) (length pre) s true
    | None =>
        match test_values s arg val with
        | Some (s, result) =>
            let k := if (eq : bool) then 1%nat else 2%nat in
            let argc := Z.of_nat (length argv) - Z.of_nat k in
            if result then cmd_loop fuel argc (pre ++ drop k (whole :: l)) (length pre) s cpset
            else (s, argc, pre ++ drop k (whole :: l), false)
        | None =>
            if testBool arg "-o" "--overwrite"
            then cmd_loop fuel (Z.of_nat (length argv) - 1) (pre ++ l) (length pre) (set_overwrite s) cpset
            else cmd_loop fuel (Z.of_nat (length argv)) argv (S (length pre)) s cpset
        end
    end.
Proof.
  intros argv. cbn [cmd_loop]. assert (length argv = length pre + S (length l))%nat as Hlen.
  { unfold argv. by rewrite length_app. }
  destruct (Z.ltb_spec (Z.of_nat (length pre)) (Z.of_nat (length argv))); [|lia].
  unfold arg_value. replace (default EmptyString (argv !! length pre)) with whole.
  2: { unfold argv. by rewrite list_lookup_middle. }
  replace (if Z.of_nat (length pre) + 1 <? Z.of_nat (length argv) then argv !! S (length pre) else None) with (head l).
  2: { replace (argv !! S (length pre)) with (head l).
       - destruct l as [|x l]; [by destruct (_ <? _)|]. cbn [length] in Hlen.
         destruct (Z.ltb_spec (Z.of_nat (length pre) + 1) (Z.of_nat (length argv))); [done|lia].
       - unfold argv. rewrite lookup_app_r by lia. replace (S (length pre) - length pre)%nat with 1%nat by lia. by destruct l. }
  destruct (str_split "=" whole) as [[arg val]|].
  all: destruct (test_registry _ _ _) as [[s1 []]|]; [| |destruct (test_values _ _ _) as [[s1 r1]|]; [|destruct (testBool _ _ _)]];
    unfold consumeArgs, argv; rewrite ?take_drop_consume; reflexivity.
Qed.

Lemma cmd_loop_end fuel pre s cpset :
  cmd_loop fuel (Z.of_nat (length pre)) pre (length pre) s cpset = (s, Z.of_nat (length pre), pre, true).
Proof. destruct fuel; [done|]. cbn [cmd_loop]. by rewrite Z.ltb_irrefl. Qed.

Lemma cmd_loop_ok items pre s (cpset : bool) fuel :
  Forall item_ok items ->
  (length (List.filter is_registry items) + (if cpset then 1 else 0) <= 1)%nat ->
  (length (concat (map render items)) <= fuel)%nat ->
  let argv := pre ++ concat (map render items) in
  cmd_loop fuel (Z.of_nat (length argv)) argv (length pre) s cpset
  = (foldl apply_item s items, Z.of_nat (length (pre ++ rest_of items)), pre ++ rest_of items, true).
Proof.
  revert pre s cpset fuel. induction items as [|i items IH]; intros pre s cpset fuel Hok Hreg Hfuel argv; subst argv.
  { cbn [map concat rest_of foldl]. rewrite app_nil_r. apply cmd_loop_end. }
  apply Forall_cons in Hok as [Hi Hok]. cbn [map concat] in Hfuel |- *. rewrite length_app in Hfuel.
  destruct fuel as [|fuel]; [destruct i as [? ? [] ?| | |]; cbn in Hfuel; lia|].
  assert (forall whole l, Z.of_nat (length (pre ++ whole :: l)) - 1 = Z.of_nat (length (pre ++ l))) as E1.
  { intros. rewrite !length_app. cbn [length]. lia. }
  assert (forall whole v l, Z.of_nat (length (pre ++ whole :: v :: l)) - 2 = Z.of_nat (length (pre ++ l))) as E2.
  { intros. rewrite !length_app. cbn [length]. lia. }
  destruct i as [o short [] v|name v|short|x]; cbn [render app] in *; rewrite cmd_loop_step; cbn [head].
  - (* with an equals sign *)
    destruct (value_option_test s o short v Hi) as [Hr Hv].
    change (option_name o short +:+ "=" +:+ v) with (option_name o short +:+ String "=" v).
    rewrite str_split_app by (by destruct o, short). rewrite Hr, (Hv true). cbn [drop].
    change (Z.of_nat 1) with 1. rewrite E1. apply IH; [done|done|cbn in Hfuel; lia].
  - destruct (value_option_test s o short v Hi) as [Hr Hv].
    replace (str_split "=" (option_name o short)) with (@None (string * string)) by (by destruct o, short).
    rewrite Hr, (Hv false). cbn [drop]. change (Z.of_nat 2) with 2. rewrite E2. apply IH; [done|done|cbn in Hfuel; lia].
  - destruct Hi as (Hn & Hv & Hd). destruct (registry_test s name v Hn Hv Hd) as [Hr ->]. rewrite Hr.
    cbn [List.filter is_registry length] in Hreg. destruct cpset; [lia|]. cbn [drop]. change (Z.of_nat 2) with 2.
    rewrite E2. apply IH; [done|lia|cbn in Hfuel; lia].
  - destruct short; cbn [str_split Ascii.eqb]; cbn; rewrite E1; (apply IH; [done|done|cbn in Hfuel; lia]).
  - cbn [item_ok] in Hi. assert (forall l : list string, pre ++ x :: l = (pre ++ [x]) ++ l) as E by (intros; by rewrite <-app_assoc).
    assert (S (length pre) = length (pre ++ [x])) as -> by (rewrite length_app; cbn; lia).
    change (rest_of (COther x :: items)) with (x :: rest_of items). cbn [foldl apply_item].
    rewrite (E (rest_of items)), !(E (concat (map render items))).
    destruct (str_split "=" x) as [[arg val]|];
      [destruct (other_test s arg (Some val) Hi) as (-> & -> & ->)
      |destruct (other_test s x (head (concat (map render items))) Hi) as (-> & -> & ->)]; (apply IH; [done|done|cbn in Hfuel; lia]).
Qed.

(** Options in any order and with either spelling are taken out of the arguments, the
    last value of each counts, and what is left for the driver is the other arguments in
    their order; the environment is looked at afterwards. At most one option names a
    registry, with its URL as an argument of its own. *)
Theorem cmdline_parsed (getenv : string -> option string) (prog : string) (items : list cmd_item) (s : settings) :
  Forall item_ok items -> (length (List.filter is_registry items) <= 1)%nat ->
  processCmdLine getenv (prog :: concat (map render items)) s
  = (check_env getenv (foldl apply_item s items), Z.of_nat (S (length (rest_of items))), prog :: rest_of items, true).
Proof.
  intros Hok Hreg. unfold processCmdLine.
  pose proof (cmd_loop_ok items [prog] s false (length (prog :: concat (map render items))) Hok) as H.
  cbn [app length] in H |- *. rewrite H by lia. reflexivity.
Qed.

Lemma cmdline_parsed_witness :
  processCmdLine (fun _ => None) ["device-x"; "--confdir=etc"; "-v"; "-r"; "consul://h:1"; "-i"; "two"; "out=3"; "-o"] no_settings
  = (MkSettings (Some "consul://h:1") (Some "two") None (Some "etc") None true, 3, ["device-x"; "-v"; "out=3"], true).
Proof.
  apply (cmdline_parsed (fun _ => None) "device-x"
    [CValue OConfdirOpt false true "etc"; COther "-v"; CRegistry "-r" "consul://h:1"; CValue ONameOpt true false "two";
     COther "out=3"; COverwrite true] no_settings).
  - assert (forall x : string, (if decide (x ∈ all_names) then true else false) = false -> x ∉ all_names) as Hd.
    { intros x. by destruct (decide (x ∈ all_names)). }
    repeat constructor; try discriminate; apply Hd; reflexivity.
  - cbn. lia.
Defined.

(** A registry that is given with an equals sign takes the next argument with it. *)
Lemma registry_takes_two :
  processCmdLine (fun _ => None) ["device-x"; "--registry=consul://h:1"; "--confdir=etc"] no_settings
  = (MkSettings (Some "consul://h:1") None None None None false, 1, ["device-x"], true) /\
  processCmdLine (fun _ => None) ["device-x"; "--registry=consul://h:1"] no_settings
  = (MkSettings (Some "consul://h:1") None None None None false, 0, ["device-x"], true).
Proof. split; vm_compute; reflexivity. Qed.

(** The name of a new service and its directory. *)
Lemma service_new_names :
  devsdk_service_new (fun v => if String.eqb v "EDGEX_INSTANCE_NAME" then Some "b" else None)
    (Some "device-x") (Some "1.0") true ["device-x"; "-i"; "a"]
  = (Some (MkNew "device-x_b" "1.0" None None "res" None false), 1, ["device-x"], EDGEX_OK).
Proof. vm_compute. reflexivity. Qed.
