(* ===== verification/Configured.v ===== *)
(** * Devices of the configuration file ([edgex_device_process_configured_devices] of
    [config.c])

    Each table of the list describes a device; one that is not known is added to
    core-metadata. A text that is missing from the file is a NULL pointer: its member
    is left out of the JSON text. A name that is missing is never initialised. *)

From S2P Require Import Prelude CLib HashMap Parson ParsonText ParsonProofs DevTypes EdgexRest EdgexRestProofs IotData.
From S2P Require Import CmdInfo DevMap DevMapProofs Device Watchers Rest Metadata DevMan Config.
Local Open Scope Z_scope.
Local Open Scope sdk_scope.

(** An automatic event of the file. *)
Record config_auto := MkConfigAuto { ca_resource : option string; ca_frequency : option string; ca_onChange : bool }.

Definition autos_json (autos : list config_auto) : JSON_Value :=
  VArray (map (fun ae => VObject ([] ;> put_string "resource" (ca_resource ae) ;> put_string "frequency" (ca_frequency ae)
                                     ;> put_boolean "onChange" (ca_onChange ae))) autos).

(** [device_write] for a new device whose description and profile can be missing. *)
Definition configured_json (svc_name name : string) (description : option string) (labels : devsdk_strings)
    (profile_name : option string) (protocols : devsdk_protocols) (autos : list config_auto) : JSON_Value :=
  VObject ([] ;> put_value "profile" (VObject ([] ;> put_string "name" profile_name))
    ;> put_value "service" (VObject ([] ;> put_string "name" (Some svc_name)))
    ;> put_uint "lastConnected" 0 ;> put_uint "lastReported" 0
    ;> put_value "protocols" (protocols_write protocols) ;> put_value "autoevents" (autos_json autos)
    ;> put_string "adminState" (Some (edgex_adminstate_tostring UNLOCKED)) ;> put_string "name" (Some name)
    ;> put_string "description" description ;> put_value "labels" (strings_to_array labels)
    ;> put_string "operatingState" (Some (edgex_operatingstate_tostring ENABLED)) ;> put_uint "origin" 0).

(** With every text there, this is the device that is written otherwise. *)
Lemma configured_json_full svc_name name description labels profile_name protocols autos :
  device_write (new_device name description labels UNLOCKED protocols autos svc_name profile_name) true
  = Ret (configured_json svc_name name (Some description) labels (Some profile_name) protocols
           (map (fun ae => MkConfigAuto (Some (ae_resource ae)) (Some (ae_frequency ae)) (ae_onChange ae)) autos)).
Proof. unfold configured_json, autos_json. rewrite map_map. reflexivity. Qed.

Section configured.
  Context {M : Type -> Type} `{SM : StringMap M} `{T : Toml}.
  Variables (regex_t : Type).
  Variables (net : Type) (curl_easy_perform : net -> http_request -> net * http_response).
  Variable (crlid : option string).
  Variable (impl : Type).
  Variables (svc_name : string) (endpoints : edgex_service_endpoints).

#[local] Abbreviation service := (service (M := M) regex_t net impl).
#[local] Abbreviation devices := (sv_devices regex_t net impl).

(** The elements of an array up to the first that is missing; [fuel] bounds their
    number. *)
Fixpoint array_elems {A} (fuel : nat) (at_ : nat -> option A) (i : nat) : list A :=
  match fuel with
  | O => []
  | S fuel => match at_ i with Some x => x :: array_elems fuel at_ (S i) | None => [] end
  end.

(** A text that has to be there: otherwise a pointer is used that was never set. *)
Definition must_rtos (raw : string) : res (option string) :=
  match toml_rtos raw with
  | Some EmptyString => Ret None
  | Some v => Ret (Some v)
  | None => Crash
  end.

(** The properties of one protocol, and the protocols; [None]: one is not a table. *)
Definition proto_props (fuel : nat) (pprops : toml_table_t) : devsdk_nvpairs :=
  foldl (fun props pkey =>
    match toml_raw_in pprops pkey with
    | Some raw => devsdk_nvpairs_new pkey (default raw (toml_rtos raw)) props
    | None => props
    end) [] (table_keys fuel pprops 0).

Fixpoint proto_loop (fuel : nat) (pptable : toml_table_t) (keys : list string) (protocols : devsdk_protocols)
    : option devsdk_protocols :=
  match keys with
  | [] => Some protocols
  | key :: keys' =>
      match toml_table_in pptable key with
      | Some pprops => proto_loop fuel pptable keys' (devsdk_protocols_new key (proto_props fuel pprops) protocols)
      | None => None
      end
  end.

(** The automatic events, last one first. [onChange] that is no boolean is read from a
    variable that was never set. *)
Definition auto_of (aetable : toml_table_t) : res config_auto :=
  onChange ← match toml_raw_in aetable "OnChange" with
             | Some raw => deref (toml_rtob raw)
             | None => Ret false
             end;
  Ret (MkConfigAuto (toml_rtos2 (toml_raw_in aetable "Resource") None)
         (toml_rtos2 (toml_raw_in aetable "Frequency") None) onChange).

Definition autos_of (fuel : nat) (table : toml_table_t) : res (list config_auto) :=
  match toml_array_in table "AutoEvents" with
  | Some arr => l ← res_map auto_of (array_elems fuel (toml_table_at arr) 0); Ret (rev l)
  | None => Ret []
  end.

(** The labels, last one first; an empty one is NULL and is not written. *)
Definition labels_of (fuel : nat) (table : toml_table_t) : res devsdk_strings :=
  match toml_array_in table "Labels" with
  | Some arr => l ← res_map must_rtos (array_elems fuel (toml_raw_at arr) 0); Ret (rev (omap (fun o => o) l))
  | None => Ret []
  end.

(** [edgex_add_device] for a name that is not in the map. *)
Definition add_configured (n : net) (json : JSON_Value) : net * devsdk_error :=
  let '(n, _, _, err) :=
    edgex_http_post net curl_easy_perform crlid n ctx_zero (url_for (ep_metadata endpoints) "/api/v1/device")
      (json_serialize_to_string (Some json)) (Some edgex_http_write_cb) in
  (n, err).

(** One device; the second result is false when the loop ends. *)
Definition configured_device (fuel : nat) (sv : service) (table : toml_table_t) (err : devsdk_error)
    : res (service * bool * devsdk_error) :=
  raw ← deref (toml_raw_in table "Name");
  o ← must_rtos raw;
  devname ← deref o;
  '(m, existing) ← edgex_devmap_device_byname (devices sv) devname;
  match existing with
  | Some p => m ← edgex_device_release m p; Ret (sv_set_devices _ _ _ sv m, true, err)
  | None =>
      let sv := sv_set_devices _ _ _ sv m in
      match toml_table_in table "Protocols" with
      | Some pptable =>
          match proto_loop fuel pptable (table_keys fuel pptable 0) [] with
          | Some protocols =>
              autos ← autos_of fuel table;
              labels ← labels_of fuel table;
              let json := configured_json svc_name devname (toml_rtos2 (toml_raw_in table "Description") None) labels
                            (toml_rtos2 (toml_raw_in table "Profile") None) protocols autos in
              let '(n, err) := add_configured (sv_net _ _ _ sv) json in
              Ret (sv_set_net _ _ _ sv n, er_code err =? 0, err)
          | None => Ret (sv, false, EDGEX_BAD_CONFIG)
          end
      | None => Ret (sv, false, EDGEX_BAD_CONFIG)
      end
  end.

Fixpoint configured_loop (fuel : nat) (sv : service) (tables : list toml_table_t) (err : devsdk_error)
    : res (service * devsdk_error) :=
  match tables with
  | [] => Ret (sv, err)
  | table :: tables' =>
      '(sv, more, err) ← configured_device fuel sv table err;
      if (more : bool) then configured_loop fuel sv tables' err else Ret (sv, err)
  end.

Definition edgex_device_process_configured_devices (fuel : nat) (sv : service) (devs : option toml_array_t)
    (err : devsdk_error) : res (service * devsdk_error) :=
  match devs with
  | Some devs => configured_loop fuel sv (array_elems fuel (toml_table_at devs) 0) err
  | None => Ret (sv, err)
  end.

End configured.
