(* ===== verification/Service.v ===== *)
(** * Starting and stopping a service ([service.c], from [ping_client])

    Start-up reads the configuration from the registry or the file, waits for the
    services it depends on, registers with core-metadata, loads profiles, devices and
    watchers, and opens the HTTP server. The order of the steps and the returns on
    errors are those of the code. The driver, the clock, the HTTP daemon and
    [nanosleep] are parameters. *)

From S2P Require Import Prelude CLib CFloat HashMap Parson ParsonText ParsonProofs DevTypes EdgexRest EdgexRestProofs IotData.
From S2P Require Import Transform Readings CmdInfo AutoEvent DevMap DevMapProofs Device Watchers RestServer Rest Metadata.
From S2P Require Import DevMan Config Registry Profiles Configured CmdLine.
Local Open Scope Z_scope.
Local Open Scope sdk_scope.

Definition EDGEX_HTTP_SERVER_FAIL : devsdk_error := MkError 5 "Failed to start HTTP server".
Definition EDGEX_DRIVER_UNSTART : devsdk_error := MkError 14 "Protocol driver initialization failed".
Definition EDGEX_REMOTE_SERVER_DOWN : devsdk_error := MkError 15 "Remote server unresponsive".

Definition EDGEX_DEV_API_PING : string := "/api/v1/ping".
Definition EDGEX_DEV_API_VERSION : string := "/api/version".
Definition EDGEX_DEV_API_DISCOVERY : string := "/api/v1/discovery".
Definition EDGEX_DEV_API_DEVICE : string := "/api/v1/device/".
Definition EDGEX_DEV_API_CALLBACK : string := "/api/v1/callback".
Definition EDGEX_DEV_API_CONFIG : string := "/api/v1/config".
Definition EDGEX_DEV_API_METRICS : string := "/api/v1/metrics".

(** The functions that are registered, and those of the driver. *)
Inductive api_handler :=
| edgex_device_handler_callback_fn | edgex_device_handler_device_fn | edgex_device_handler_discovery_fn
| edgex_device_handler_metrics_fn | edgex_device_handler_config_fn | version_handler_fn | ping_handler_fn
| user_handler_fn (f : nat).

(** The reply of [ping_handler] and [version_handler]. *)
Definition ping_handler (version : string) : string * string * Z := (version, CONTENT_PLAINTEXT, MHD_HTTP_OK).

Definition version_handler (version sdk_version : string) : res (string * string * Z) :=
  text ← deref (json_serialize_to_string
    (Some (VObject ([] ;> put_string "version" (Some version) ;> put_string "sdk_version" (Some sdk_version)))));
  Ret (text, CONTENT_JSON, MHD_HTTP_OK).

(** ** Waiting *)

Section ping.
  Variables (net : Type) (curl_easy_perform : net -> http_request -> net * http_response) (crlid : option string).
  (** Time passes; false when the sleep is interrupted. *)
  Variable (nanosleep : net -> net * bool).

(** [again] more attempts after this one; [wraps] when the counter started below zero
    and overflows in the end. *)
Fixpoint ping_loop (again : nat) (wraps : bool) (n : net) (url : string) : res (net * bool * devsdk_error) :=
  let '(n, _, _, err) := edgex_http_get net curl_easy_perform crlid n ctx_zero url None in
  if er_code err =? 0 then Ret (n, true, err)
  else match again with
       | O => if wraps then Crash else Ret (n, false, EDGEX_REMOTE_SERVER_DOWN)
       | S again =>
           let '(n, slept) := nanosleep n in
           if (slept : bool) then ping_loop again wraps n url else Ret (n, false, EDGEX_REMOTE_SERVER_DOWN)
       end.

(** The number of retries is passed as an [int]. *)
Definition ping_client (n : net) (ep : client_endpoint) (retries : Z) : res (net * bool * devsdk_error) :=
  match ce_host ep with
  | Some host =>
      if ce_port ep =? 0 then Ret (n, false, EDGEX_BAD_CONFIG)
      else
        let url := url_for (MkEndpoint host (ce_port ep)) "/api/v1/ping" in
        let retries := wrap_s 32 retries in
        if retries <? 0 then ping_loop (Z.to_nat (retries + 2 ^ 31)) true n url
        else ping_loop (Z.to_nat retries) false n url
  | None => Ret (n, false, EDGEX_BAD_CONFIG)
  end.

(** The time between attempts to reach the registry, and their number. *)
Definition atoi (s : string) : Z := wrap_s 32 (st_val (strtol 10 s)).

Fixpoint first_set (getenv : string -> option string) (names : list string) : option string :=
  match names with
  | [] => None
  | name :: names' => match getenv name with Some v => Some v | None => first_set getenv names' end
  end.

Definition startup_retries (getenv : string -> option string) : Z * Z :=
  let secs := match first_set getenv ["EDGEX_STARTUP_INTERVAL"; "startup_interval"; "edgex_registry_retry_wait"] with
              | Some val => if 0 <? atoi val then atoi val else 1
              | None => 1
              end in
  let retries :=
    match first_set getenv ["EDGEX_STARTUP_DURATION"; "startup_duration"] with
    | Some val => if 0 <? atoi val then atoi val / secs else 5
    | None =>
        match getenv "edgex_registry_retry_count" with
        | Some val => if 0 <? atoi val then atoi val else 5
        | None => 5
        end
    end in
  (secs, retries).

(** [while (!ping () && --retries) nanosleep ();] with an unsigned counter: the counter
    afterwards. [fuel] is the number of attempts that are possible. *)
Fixpoint registry_loop (fuel : nat) (ping : net -> net * bool * devsdk_error) (n : net) (retries : Z)
    : net * Z * devsdk_error :=
  match fuel with
  | O => (n, retries, EDGEX_OK)
  | S fuel =>
      let '(n, found, err) := ping n in
      if (found : bool) then (n, retries, err)
      else
        let retries := wrap_u 32 (retries - 1) in
        if retries =? 0 then (n, retries, err) else registry_loop fuel ping (fst (nanosleep n)) retries
  end.

Definition registry_wait (ping : net -> net * bool * devsdk_error) (n : net) (retries : Z) : net * Z * devsdk_error :=
  registry_loop (Z.to_nat (if retries =? 0 then 2 ^ 32 else retries)) ping n retries.

End ping.

(** ** The service *)

Section service.
  Context {M : Type -> Type} `{SM : StringMap M} `{T : Toml} `{B : Base64} `{D : IotData} `{C : Cbor}.
  Variables (regex_t : Type) (regcomp : string -> option regex_t).
  Variables (net : Type) (curl_easy_perform : net -> http_request -> net * http_response).
  Variables (curl_easy_escape : string -> string) (crlid : option string) (nanosleep : net -> net * bool).
  Variable (impl : Type).
  (** The driver: initialisation, stopping, and whether there is discovery. *)
  Variables (init : impl -> devsdk_nvpairs -> impl * bool) (stop : impl -> bool -> impl) (discover : bool).
  (** The system: the clock, the name of the host, the environment, the HTTP daemon, the
      files of the configuration and of the profiles. *)
  Variables (iot_time_msecs : Z) (nodename : string) (getenv : string -> option string).
  Variable (MHD_start_daemon : Z -> bool).
  Variables (conf_files : string -> option (option toml_table_t)).
  Variables (scandir : string -> option (list dirent)) (yaml_files : string -> option yaml_stream).
  (** Bounds the tables and arrays of a configuration file. *)
  Variable (fuel : nat).
  Variable (settings : new_service).

#[local] Abbreviation service := (DevMan.service (M := M) regex_t net impl).
#[local] Abbreviation registry := (devsdk_registry net).

Definition svc_name : string := nw_name settings.

(** What else there is of [devsdk_service_t]. *)
Record running := MkRunning {
  rn_service : service;
  rn_starttime : Z;
  rn_config : edgex_device_config;
  rn_endpoints : client_endpoints;
  rn_registry : option registry;
  rn_job : option updatejob;
  rn_daemon : option (edgex_rest_server api_handler);
  rn_scheduler : bool;
  rn_discosched : option Z;
  rn_adminstate : edgex_device_adminstate;
  rn_opstate : edgex_device_operatingstate }.

Definition rn_set_service (r : running) (sv : service) : running :=
  MkRunning sv (rn_starttime r) (rn_config r) (rn_endpoints r) (rn_registry r) (rn_job r) (rn_daemon r) (rn_scheduler r)
    (rn_discosched r) (rn_adminstate r) (rn_opstate r).
Definition rn_set_net (r : running) (n : net) : running :=
  rn_set_service r (sv_set_net _ _ _ (rn_service r) n).
Definition rn_set_daemon (r : running) (d : option (edgex_rest_server api_handler)) : running :=
  MkRunning (rn_service r) (rn_starttime r) (rn_config r) (rn_endpoints r) (rn_registry r) (rn_job r) d (rn_scheduler r)
    (rn_discosched r) (rn_adminstate r) (rn_opstate r).
Definition rn_set_states (r : running) : running :=
  MkRunning (rn_service r) (rn_starttime r) (rn_config r) (rn_endpoints r) (rn_registry r) (rn_job r) (rn_daemon r)
    (rn_scheduler r) (rn_discosched r) UNLOCKED ENABLED.
Definition rn_set_scheduler (r : running) : running :=
  MkRunning (rn_service r) (rn_starttime r) (rn_config r) (rn_endpoints r) (rn_registry r) (rn_job r) (rn_daemon r) true
    (rn_discosched r) (rn_adminstate r) (rn_opstate r).
Definition rn_set_discosched (r : running) (d : option Z) : running :=
  MkRunning (rn_service r) (rn_starttime r) (rn_config r) (rn_endpoints r) (rn_registry r) (rn_job r) (rn_daemon r)
    (rn_scheduler r) d (rn_adminstate r) (rn_opstate r).

Definition rn_net (r : running) : net := sv_net _ _ _ (rn_service r).

(** The endpoints once the hosts are known; the one for logging can still be missing and
    is not used then. *)
Definition found_endpoint (e : client_endpoint) : edgex_device_service_endpoint :=
  MkEndpoint (default EmptyString (ce_host e)) (ce_port e).
Definition found_endpoints (e : client_endpoints) : edgex_service_endpoints :=
  MkEndpoints (found_endpoint (ce_data e)) (found_endpoint (ce_metadata e)) (found_endpoint (ce_logging e)).

(** ** Registration with core-metadata *)

Section register.
  Variables (endpoints : edgex_service_endpoints) (cfg : edgex_device_serviceinfo) (myhost : string).

(** The addressable of a new service: the fields that are not set are 0 or NULL. *)
Definition new_addressable : edgex_addressable :=
  {| ad_address := Some myhost; ad_created := 0; ad_id := None; ad_method := Some "POST"; ad_modified := 0;
     ad_name := Some svc_name; ad_origin := iot_time_msecs; ad_password := None; ad_path := Some EDGEX_DEV_API_CALLBACK;
     ad_port := si_port cfg; ad_protocol := Some "HTTP"; ad_publisher := None; ad_topic := None; ad_user := None |}.

Definition with_id (a : edgex_addressable) (id : option string) : edgex_addressable :=
  {| ad_address := ad_address a; ad_created := ad_created a; ad_id := id; ad_method := ad_method a;
     ad_modified := ad_modified a; ad_name := ad_name a; ad_origin := ad_origin a; ad_password := ad_password a;
     ad_path := ad_path a; ad_port := ad_port a; ad_protocol := ad_protocol a; ad_publisher := ad_publisher a;
     ad_topic := ad_topic a; ad_user := ad_user a |}.

Definition moved (a : edgex_addressable) : edgex_addressable :=
  {| ad_address := Some myhost; ad_created := ad_created a; ad_id := ad_id a; ad_method := ad_method a;
     ad_modified := ad_modified a; ad_name := ad_name a; ad_origin := ad_origin a; ad_password := ad_password a;
     ad_path := ad_path a; ad_port := si_port cfg; ad_protocol := ad_protocol a; ad_publisher := ad_publisher a;
     ad_topic := ad_topic a; ad_user := ad_user a |}.

(** [deviceservice_write] for the new service, whose description is NULL; the labels
    are in reverse. *)
Definition new_service_json (addr : edgex_addressable) : JSON_Value :=
  VObject ([] ;> put_value "addressable" (addressable_write addr false)
    ;> put_string "adminState" (Some (edgex_adminstate_tostring UNLOCKED)) ;> put_string "description" None
    ;> put_value "labels" (strings_to_array (rev (si_labels cfg))) ;> put_uint "lastConnected" 0
    ;> put_uint "lastReported" 0 ;> put_string "name" (Some svc_name)
    ;> put_string "operatingState" (Some (edgex_operatingstate_tostring ENABLED)) ;> put_uint "origin" 0).

Definition create_service (n : net) (addr : edgex_addressable) : net * devsdk_error :=
  let '(n, _, _, err) :=
    edgex_http_post net curl_easy_perform crlid n ctx_zero (url_for (ep_metadata endpoints) "/api/v1/deviceservice")
      (json_serialize_to_string (Some (new_service_json addr))) (Some edgex_http_write_cb) in
  (n, err).

(** The service is looked up; a new one is created with an addressable, one that moved
    is updated. *)
Definition register_service (n : net) : res (net * devsdk_error) :=
  '(n, ds, err) ← edgex_metadata_client_get_deviceservice net curl_easy_perform curl_easy_escape crlid endpoints n svc_name;
  if negb (er_code err =? 0) then Ret (n, err)
  else match ds with
  | None =>
      '(n, addr, err) ← edgex_metadata_client_get_addressable net curl_easy_perform curl_easy_escape crlid endpoints n svc_name;
      if negb (er_code err =? 0) then Ret (n, err)
      else
        let '(n, addr, err) :=
          match addr with
          | Some addr => (n, addr, err)
          | None =>
              let '(n, id, err) := edgex_metadata_client_create_addressable net curl_easy_perform crlid endpoints n new_addressable in
              (n, with_id new_addressable id, err)
          end in
        if negb (er_code err =? 0) then Ret (n, err) else Ret (create_service n addr)
  | Some ds =>
      addr ← deref (ds_addressable ds);
      same ← (if negb (ad_port addr =? si_port cfg) then Ret false
              else address ← deref (ad_address addr); Ret (String.eqb address myhost));
      if (same : bool) then Ret (n, err)
      else Ret (edgex_metadata_client_update_addressable net curl_easy_perform crlid endpoints n (moved addr))
  end.

End register.

(** ** Start-up once the configuration is known *)

Definition myhost (cfg : edgex_device_serviceinfo) : string := default nodename (si_host cfg).

Definition methods (ms : list edgex_http_method) : Z := foldl (fun acc m => Z.lor acc (method_bit m)) 0 ms.

(** The handlers in the order they are registered; the first one is registered before
    the devices of the configuration are added. *)
Definition api_handlers : list (string * list edgex_http_method * api_handler) :=
  [(EDGEX_DEV_API_DEVICE, [GET; PUT; POST], edgex_device_handler_device_fn);
   (EDGEX_DEV_API_DISCOVERY, [POST], edgex_device_handler_discovery_fn);
   (EDGEX_DEV_API_METRICS, [GET], edgex_device_handler_metrics_fn);
   (EDGEX_DEV_API_CONFIG, [GET], edgex_device_handler_config_fn);
   (EDGEX_DEV_API_VERSION, [GET], version_handler_fn);
   (EDGEX_DEV_API_PING, [GET], ping_handler_fn)].

Definition register_all (svr : edgex_rest_server api_handler)
    (hs : list (string * list edgex_http_method * api_handler)) : edgex_rest_server api_handler :=
  foldl (fun svr '(url, ms, h) => fst (edgex_rest_server_register_handler api_handler svr url (methods ms) h)) svr hs.

(** From the driver's initialisation on; nothing but the registry can fail after it. *)
Definition start_driver (r : running) : res (running * devsdk_error) :=
  let sv := rn_service r in
  let '(i, ok) := init (sv_impl _ _ _ sv) (ec_driverconf (rn_config r)) in
  let sv := sv_set_impl _ _ _ sv i in
  if negb ok then Ret (rn_set_service r sv, EDGEX_DRIVER_UNSTART)
  else
    '(n, ws, err) ← edgex_metadata_client_get_watchers net curl_easy_perform curl_easy_escape crlid
                      (found_endpoints (rn_endpoints r)) (sv_net _ _ _ sv) svc_name;
    let sv := sv_set_watchlist _ _ _ (sv_set_net _ _ _ sv n)
                (fst (edgex_watchlist_populate regex_t regcomp (sv_watchlist _ _ _ sv) ws 0)) in
    let r := rn_set_scheduler (rn_set_service r sv) in
    let r := rn_set_daemon r (option_map (fun svr => register_all svr api_handlers) (rn_daemon r)) in
    let info := ec_service (rn_config r) in
    let '(r, err) :=
      match rn_registry r with
      | Some reg =>
          let '(n, err) := devsdk_registry_register_service net (rn_net r) reg svc_name (myhost info) (si_port info)
                             (si_checkinterval info) in
          (rn_set_net r n, err)
      | None => (r, err)
      end in
    if match rn_registry r with Some _ => negb (er_code err =? 0) | None => false end then Ret (r, err)
    else
      let dev := ec_device (rn_config r) in
      let disco := di_discovery_enabled dev && negb (di_discovery_interval dev =? 0) && discover in
      Ret (rn_set_discosched r (if disco then Some (di_discovery_interval dev) else None), err).

(** From the upload of profiles to the devices of the configuration. *)
Definition start_devices (r : running) (config : option toml_table_t) : res (running * devsdk_error) :=
  let endpoints := found_endpoints (rn_endpoints r) in
  let profilesdir := default (nw_confdir settings) (di_profilesdir (ec_device (rn_config r))) in
  '(sv, err) ← edgex_device_profiles_upload regex_t net curl_easy_perform curl_easy_escape crlid impl endpoints scandir
                 yaml_files iot_time_msecs (rn_service r) profilesdir;
  if negb (er_code err =? 0) then Ret (rn_set_service r sv, err)
  else
    '(n, devs, err) ← edgex_metadata_client_get_devices net curl_easy_perform curl_easy_escape crlid endpoints
                        (sv_net _ _ _ sv) svc_name;
    let sv := sv_set_net _ _ _ sv n in
    if negb (er_code err =? 0) then Ret (rn_set_service r sv, err)
    else
      m ← edgex_devmap_populate_devices (sv_devices _ _ _ sv) devs;
      let r := rn_set_service r (sv_set_devices _ _ _ sv m) in
      if negb (MHD_start_daemon (si_port (ec_service (rn_config r)))) then Ret (rn_set_daemon r None, EDGEX_HTTP_SERVER_FAIL)
      else
        let svr := register_all [] [(EDGEX_DEV_API_CALLBACK, [PUT; POST; DELETE], edgex_device_handler_callback_fn)] in
        let r := rn_set_daemon r (Some svr) in
        '(sv, err) ← match config with
                     | Some config =>
                         edgex_device_process_configured_devices regex_t net curl_easy_perform crlid impl svc_name endpoints
                           fuel (rn_service r) (toml_array_in config "DeviceList") err
                     | None => Ret (rn_service r, err)
                     end;
        let r := rn_set_service r sv in
        if negb (er_code err =? 0) then Ret (r, err) else start_driver r.

(** Start-up is one thread: no request is taken to arrive between the start of the HTTP
    server, which serves callbacks from then on, and the end. *)
Definition startConfigured (r : running) (config : option toml_table_t) : res (running * devsdk_error) :=
  let r := rn_set_states r in
  let info := ec_service (rn_config r) in
  '(n, ok, err) ← ping_client net curl_easy_perform crlid nanosleep (rn_net r) (ce_data (rn_endpoints r)) (si_connectretries info);
  let r := rn_set_net r n in
  if negb ok then Ret (r, err)
  else
    '(n, ok, err) ← ping_client net curl_easy_perform crlid nanosleep (rn_net r) (ce_metadata (rn_endpoints r)) (si_connectretries info);
    let r := rn_set_net r n in
    if negb ok then Ret (r, err)
    else
      '(n, err) ← register_service (found_endpoints (rn_endpoints r)) info (myhost info) (rn_net r);
      let r := rn_set_net r n in
      if negb (er_code err =? 0) then Ret (r, err) else start_devices r config.

(** ** Configuration *)

(** A registry was found: its configuration, or [None] when the file is to be read and
    written to the registry. *)
Definition registry_config (r : running) (reg : registry) (level : Z)
    : res (running * option (option (edgex_device_config * devsdk_nvpairs)) * devsdk_error) :=
  let '(_, retries) := startup_retries getenv in
  let '(n, retries, err) := registry_wait net nanosleep (fun n => devsdk_registry_ping net n reg) (rn_net r) retries in
  let r := rn_set_net r n in
  if retries =? 0 then Ret (r, None, EDGEX_REMOTE_SERVER_DOWN)
  else if nw_overwrite settings then Ret (r, Some None, err)
  else
    let '(n, confpairs, job, err) := devsdk_registry_get_config net (rn_net r) reg svc_name (nw_profile settings) in
    let r := rn_set_net r n in
    let r := MkRunning (rn_service r) (rn_starttime r) (rn_config r) (rn_endpoints r) (rn_registry r) (Some job) (rn_daemon r)
               (rn_scheduler r) (rn_discosched r) (rn_adminstate r) (rn_opstate r) in
    match confpairs with
    | [] => Ret (r, Some None, EDGEX_OK)
    | _ =>
        let confpairs := edgex_device_overrideConfig getenv svc_name confpairs in
        '(cfg, err) ← edgex_device_populateConfig confpairs level err;
        Ret (r, Some (Some (cfg, confpairs)), err)
    end.

(** The configuration from the file; it goes to the registry when there is one. *)
Definition file_config (r : running) (config : toml_table_t) (level : Z) (upload : option registry)
    : res (running * edgex_device_config * devsdk_error) :=
  confpairs ← edgex_device_parseToml fuel config;
  let confpairs := edgex_device_overrideConfig getenv svc_name confpairs in
  '(cfg, err) ← edgex_device_populateConfig confpairs level EDGEX_OK;
  match upload with
  | Some reg =>
      let '(n, err) := devsdk_registry_put_config net (rn_net r) reg svc_name (nw_profile settings) confpairs in
      Ret (rn_set_net r n, cfg, err)
  | None => Ret (r, cfg, err)
  end.

(** The endpoints of the other services from the registry; one that is not found stays
    as it was. *)
Definition query_endpoint (n : net) (reg : registry) (name : string) (e : client_endpoint) : net * client_endpoint :=
  let '(n, found, _) := devsdk_registry_query_service net n reg name in
  (n, match found with Some (host, port) => MkClient (Some host) port | None => e end).

Definition query_endpoints (n : net) (reg : registry) (e : client_endpoints) : net * client_endpoints :=
  let '(n, metadata) := query_endpoint n reg "edgex-core-metadata" (ce_metadata e) in
  let '(n, data) := query_endpoint n reg "edgex-core-data" (ce_data e) in
  let '(n, logging) := query_endpoint n reg "edgex-support-logging" (ce_logging e) in
  (n, MkClients data metadata logging).

Definition set_conf (r : running) (cfg : edgex_device_config) : running :=
  MkRunning (rn_service r) (rn_starttime r) cfg (rn_endpoints r) (rn_registry r) (rn_job r) (rn_daemon r) (rn_scheduler r)
    (rn_discosched r) (rn_adminstate r) (rn_opstate r).
Definition set_endpoints (r : running) (e : client_endpoints) : running :=
  MkRunning (rn_service r) (rn_starttime r) (rn_config r) e (rn_registry r) (rn_job r) (rn_daemon r) (rn_scheduler r)
    (rn_discosched r) (rn_adminstate r) (rn_opstate r).
Definition set_registry (r : running) (reg : option registry) : running :=
  MkRunning (rn_service r) (rn_starttime r) (rn_config r) (rn_endpoints r) reg (rn_job r) (rn_daemon r) (rn_scheduler r)
    (rn_discosched r) (rn_adminstate r) (rn_opstate r).
Definition set_starttime (r : running) : running :=
  MkRunning (rn_service r) iot_time_msecs (rn_config r) (rn_endpoints r) (rn_registry r) (rn_job r) (rn_daemon r)
    (rn_scheduler r) (rn_discosched r) (rn_adminstate r) (rn_opstate r).

(** After the configuration: the endpoints, the remote log, then the rest. *)
Definition start_endpoints (r : running) (config : option toml_table_t) (err : devsdk_error) : res (running * devsdk_error) :=
  '(r, err) ←
    match rn_registry r, config with
    | Some reg, _ =>
        let '(n, e) := query_endpoints (rn_net r) reg (rn_endpoints r) in
        Ret (set_endpoints (rn_set_net r n) e, err)
    | None, Some config =>
        let '(e, err) := edgex_device_parseTomlClients (toml_table_in config "Clients") (rn_endpoints r) err in
        Ret (set_endpoints r e, err)
    | None, None => Crash
    end;
  if li_useremote (ec_logging (rn_config r)) then
    '(n, ok, err) ← ping_client net curl_easy_perform crlid nanosleep (rn_net r) (ce_logging (rn_endpoints r))
                      (si_connectretries (ec_service (rn_config r)));
    let r := rn_set_net r n in
    if (ok : bool) then startConfigured r config else Ret (r, err)
  else startConfigured r config.

(** [regmap] are the implementations of registries. *)
Definition devsdk_service_start (regmap : regmap_t (M := M) net) (r : running) (err : devsdk_error)
    : res (running * devsdk_error) :=
  if negb (rn_starttime r =? 0) then Ret (r, err)
  else
    let r := set_starttime r in
    let load := edgex_device_loadConfig conf_files (nw_confdir settings) (nw_conffile settings) (nw_profile settings) in
    let '(config, r, regfail) :=
      match nw_regURL settings with
      | None => (None, r, false)
      | Some url =>
          let '(config, url) := match url with
                                | EmptyString => (fst load, edgex_device_getRegURL (fst load))
                                | _ => (None, url)
                                end in
          let reg := snd (devsdk_registry_get_registry net curl_easy_perform crlid regmap url) in
          (config, set_registry r reg, match reg with None => true | Some _ => false end)
      end in
    if (regfail : bool) then Ret (r, EDGEX_INVALID_ARG)
    else
      let level := li_level (ec_logging (rn_config r)) in
      '(r, from, err) ← match rn_registry r with
                        | Some reg => registry_config r reg level
                        | None => Ret (r, Some None, EDGEX_OK)
                        end;
      match from with
      | None => Ret (r, err)
      | Some (Some (cfg, _)) =>
          let r := set_conf r cfg in
          if negb (er_code err =? 0) then Ret (r, err) else start_endpoints r config err
      | Some None =>
          let '(config, err) := match config with Some _ => (config, EDGEX_OK) | None => load end in
          match config with
          | None => Ret (r, err)
          | Some table =>
              '(r, cfg, err) ← file_config r table level (rn_registry r);
              let r := set_conf r cfg in
              if match rn_registry r with Some _ => negb (er_code err =? 0) | None => false end then Ret (r, err)
              else start_endpoints r config err
          end
      end.

(** ** While it runs *)

Definition devsdk_register_http_handler (r : running) (url : string) (method : Z) (handler : nat) : running * devsdk_error :=
  match rn_daemon r with
  | None => (r, EDGEX_HTTP_SERVER_FAIL)
  | Some svr =>
      let '(svr, ok) := edgex_rest_server_register_handler api_handler svr url method (user_handler_fn handler) in
      (rn_set_daemon r (Some svr), if ok then EDGEX_OK else EDGEX_INVALID_ARG)
  end.

(** The job that is given to the thread pool. *)
Record postparams := MkPost { pp_event : edgex_event_cooked; pp_devname : string }.

Definition doPost (endpoints : edgex_service_endpoints) (updatelastconnected : bool) (msecs : Z) (n : net) (pp : postparams) : net :=
  let n := fst (edgex_data_client_add_event net curl_easy_perform crlid endpoints n (pp_event pp)) in
  if updatelastconnected
  then fst (edgex_metadata_client_update_lastconnected net curl_easy_perform crlid endpoints n (pp_devname pp) msecs) else n.

(** The command is looked up while the device is held; the reference is given back
    before the event is made. *)
Definition devsdk_post_readings (powl : spec_float -> spec_float -> spec_float) (sv : service) (datatransform : bool)
    (devname resname : string) (values : list devsdk_commandresult) (timenow : Z) : res (service * option postparams) :=
  '(m, dev) ← edgex_devmap_device_byname (sv_devices _ _ _ sv) devname;
  match dev with
  | None => Ret (sv_set_devices _ _ _ sv m, None)
  | Some p =>
      hd ← device_at m p;
      prof ← profile_at m hd;
      command ← edgex_deviceprofile_findcommand resname prof true;
      m ← edgex_device_release m p;
      let sv := sv_set_devices _ _ _ sv m in
      match command with
      | Some command =>
          event ← edgex_data_process_event powl devname command values datatransform timenow;
          Ret (sv, option_map (fun e => MkPost e devname) event)
      | None => Ret (sv, None)
      end
  end.

(** ** Stopping *)

(** The schedule for discovery is deleted, the thread for updates told to end, the
    scheduler and the HTTP server stopped, the driver stopped, the devices released, and
    the service taken out of the registry. *)
Definition devsdk_service_stop (r : running) (force : bool) : res (running * devsdk_error) :=
  let sv := rn_service r in
  let sv := sv_set_impl _ _ _ sv (stop (sv_impl _ _ _ sv) force) in
  m ← edgex_devmap_clear (sv_devices _ _ _ sv);
  let sv := sv_set_devices _ _ _ sv m in
  let '(n, err) := match rn_registry r with
                   | Some reg => devsdk_registry_deregister_service net (sv_net _ _ _ sv) reg svc_name
                   | None => (sv_net _ _ _ sv, EDGEX_OK)
                   end in
  Ret (MkRunning (sv_set_net _ _ _ sv n) (rn_starttime r) (rn_config r) (rn_endpoints r) (rn_registry r) None None false None
         (rn_adminstate r) (rn_opstate r), err).

End service.
