(* ===== verification/ServiceProofs.v ===== *)
(** * Correctness of start-up

    How often a service is tried before it counts as down, that start-up returns with
    everything in place or an error, and what posting readings does. *)

From S2P Require Import Prelude CLib CFloat HashMap Parson ParsonText ParsonProofs DevTypes EdgexRest EdgexRestProofs IotData.
From S2P Require Import Transform Readings CmdInfo AutoEvent DevMap DevMapProofs Device Watchers RestServer Rest Metadata.
From S2P Require Import DevMan Config ConfigProofs Registry Profiles Configured CmdLine Service.
Local Open Scope Z_scope.

(** ** Waiting for another service *)

Section ping.
  Variables (net : Type) (curl_easy_perform : net -> http_request -> net * http_response) (crlid : option string).
  Variable (nanosleep : net -> net * bool).
  (** For how many requests the other service is still down. *)
  Variable (down : net -> nat).

(** Each request that fails brings the service one closer; a sleep does not matter. *)
Definition comes_up : Prop :=
  (forall n req, down n = O -> exists code hdrs body n', curl_easy_perform n req = (n', MkResponse CURLE_OK code hdrs body) /\ 200 <= code < 300) /\
  (forall n req k, down n = S k -> exists rc code hdrs body n',
     curl_easy_perform n req = (n', MkResponse rc code hdrs body) /\ down n' = k /\
     rc <> CURLE_ABORTED_BY_CALLBACK /\ (rc = CURLE_OK -> ~ 200 <= code < 300)) /\
  (forall n, exists n', nanosleep n = (n', true) /\ down n' = down n).

Lemma get_result n url :
  comes_up ->
  exists n' ctx code err, edgex_http_get net curl_easy_perform crlid n ctx_zero url None = (n', ctx, code, err) /\
    (er_code err = 0 <-> down n = O) /\ (down n <> O -> down n' = pred (down n)).
Proof.
  intros (Hup & Hdn & _). unfold edgex_http_get, edgex_run_curl. cbn [ctx_zero set_buff cx_rsphdrs].
  match goal with |- context [curl_easy_perform n ?r] => set (req := r) end.
  destruct (down n) as [|k] eqn:E.
  - destruct (Hup n req E) as (code & hdrs & body & n' & -> & Hc). cbn [hs_rc hs_code hs_headers hs_body].
    change (CURLE_OK =? CURLE_OK) with true. cbn match. destruct (Z.eqb_spec code 409); [lia|].
    destruct (_ || _)%bool eqn:Eb; [lia|]. do 4 eexists. split; [reflexivity|]. done.
  - destruct (Hdn n req k E) as (rc & code & hdrs & body & n' & -> & Hk & Ha & Hc). cbn [hs_rc hs_code hs_headers hs_body].
    destruct (Z.eqb_spec rc CURLE_OK) as [->|Hrc]; [|destruct (Z.eqb_spec rc CURLE_ABORTED_BY_CALLBACK); [done|]].
    + specialize (Hc eq_refl). destruct (Z.eqb_spec code 409); [do 4 eexists; split; [reflexivity|]; done|].
      destruct (_ || _)%bool eqn:Eb; [|lia]. do 4 eexists. split; [reflexivity|]. done.
    + do 4 eexists. split; [reflexivity|]. done.
Qed.

Lemma ping_loop_ok again n url :
  comes_up ->
  exists n' err, ping_loop net curl_easy_perform crlid nanosleep again false n url = Ret (n', (down n <=? again)%nat, err) /\
    er_code err = if (down n <=? again)%nat then 0 else er_code EDGEX_REMOTE_SERVER_DOWN.
Proof.
  intros Hup. revert n. induction again as [|again IH]; intros n; cbn [ping_loop];
    destruct (get_result n url Hup) as (n1 & ctx & code & err & -> & He & Hd).
  - destruct (Z.eqb_spec (er_code err) 0) as [E|E].
    + rewrite (proj1 He E). by do 2 eexists.
    + destruct (down n) eqn:Ed; [by destruct E; apply He|]. by do 2 eexists.
  - destruct (Z.eqb_spec (er_code err) 0) as [E|E].
    + rewrite (proj1 He E). by do 2 eexists.
    + destruct (down n) as [|k] eqn:Ed; [by destruct E; apply He|].
      destruct Hup as (? & ? & Hsl). destruct (Hsl n1) as (n2 & -> & Hn2).
      destruct (IH n2) as (n' & err' & -> & He'). rewrite Hn2, (Hd ltac:(done)) in *. cbn [pred] in *. by exists n', err'.
Qed.

(** A service that answers after a number of requests is found exactly when that number
    is at most the number of retries: it is tried once more than the configuration
    says. A host or port that is missing is an error of the configuration. *)
Theorem ping_attempts (n : net) (ep : client_endpoint) (retries : Z) :
  comes_up -> 0 <= retries < 2 ^ 31 ->
  exists n' ok err, ping_client net curl_easy_perform crlid nanosleep n ep retries = Ret (n', ok, err) /\
    (ok = true <-> er_code err = 0) /\
    match ce_host ep with
    | Some _ => if ce_port ep =? 0 then err = EDGEX_BAD_CONFIG
                else ok = bool_decide (Z.of_nat (down n) <= retries)
    | None => err = EDGEX_BAD_CONFIG
    end.
Proof.
  intros Hup Hr. unfold ping_client. destruct (ce_host ep) as [host|]; [|by do 3 eexists].
  destruct (ce_port ep =? 0); [by do 3 eexists|].
  rewrite wrap_s_small by lia. destruct (Z.ltb_spec retries 0); [lia|].
  destruct (ping_loop_ok (Z.to_nat retries) n (url_for (MkEndpoint host (ce_port ep)) "/api/v1/ping") Hup) as (n' & err & -> & He).
  do 3 eexists. split; [reflexivity|]. destruct (Nat.leb_spec (down n) (Z.to_nat retries)); rewrite He.
  - split; [done|]. symmetry. apply bool_decide_eq_true. lia.
  - split; [done|]. symmetry. apply bool_decide_eq_false. lia.
Qed.

End ping.

(** A service that is down for a number of requests. *)
Definition starting (n : nat) (req : http_request) : nat * http_response :=
  match n with
  | O => (O, MkResponse CURLE_OK 200 [] ["1.0"])
  | S k => (k, MkResponse 7 0 [] [])
  end.

Lemma starting_comes_up : comes_up nat starting (fun n => (n, true)) (fun n => n).
Proof.
  split_and!.
  - intros n req ->. do 4 eexists. split; [reflexivity|]. lia.
  - intros n req k ->. do 5 eexists. split; [reflexivity|]. by split_and!.
  - intros n. by eexists.
Qed.

Lemma ping_attempts_witness :
  exists n' err, ping_client nat starting None (fun n => (n, true)) 3%nat (MkClient (Some "localhost") 48080) 3 = Ret (n', true, err).
Proof.
  destruct (ping_attempts nat starting None (fun n => (n, true)) (fun n => n) 3%nat (MkClient (Some "localhost") 48080) 3)
    as (n' & ok & err & E & _ & ->).
  - exact starting_comes_up.
  - lia.
  - exists n', err. exact E.
Defined.

(** ** Waiting for the registry *)

Section registry.
  Variables (net : Type) (nanosleep : net -> net * bool) (down : net -> nat).
  Variable (ping : net -> net * bool * devsdk_error).
  Hypothesis ping_down : forall n, exists n' err, ping n = (n', Nat.eqb (down n) 0, err) /\ (down n <> 0%nat -> down n' = pred (down n)).
  Hypothesis sleep_down : forall n, down (fst (nanosleep n)) = down n.

Lemma registry_loop_ok fuel n retries :
  0 < retries < 2 ^ 32 -> Z.to_nat retries = fuel ->
  let '(_, left_over, _) := registry_loop net nanosleep fuel ping n retries in
  left_over = Z.max 0 (retries - Z.of_nat (down n)).
Proof using ping_down sleep_down.
  revert n retries. induction fuel as [|fuel IH]; intros n retries Hr Hf; [lia|]. cbn [registry_loop].
  destruct (ping_down n) as (n1 & err & -> & Hd). destruct (Nat.eqb_spec (down n) 0) as [E|E]; [rewrite E; lia|].
  rewrite wrap_u_small by lia. destruct (Z.eqb_spec (retries - 1) 0); [lia|].
  specialize (IH (fst (nanosleep n1)) (retries - 1) ltac:(lia) ltac:(lia)).
  destruct (registry_loop _ _ _ _ _ _) as [[n2 lo] err2]. rewrite IH, sleep_down, (Hd E). lia.
Qed.

(** A registry that is down for fewer requests than there are retries is found: the
    counter that is left is not zero. *)
Lemma registry_attempts n retries :
  0 < retries < 2 ^ 32 ->
  let '(_, left_over, _) := registry_wait net nanosleep ping n retries in
  left_over = Z.max 0 (retries - Z.of_nat (down n)).
Proof using ping_down sleep_down.
  intros Hr. unfold registry_wait. destruct (Z.eqb_spec retries 0); [lia|]. by apply registry_loop_ok.
Qed.

End registry.

(** An interval that is longer than the duration leaves no retries, and then a registry
    that answers at once counts as down. *)
Lemma no_retries_left :
  startup_retries (fun v => if String.eqb v "EDGEX_STARTUP_INTERVAL" then Some "10"
                            else if String.eqb v "EDGEX_STARTUP_DURATION" then Some "5" else None) = (10, 0) /\
  forall (net : Type) (nanosleep : net -> net * bool) (n : net) (ping : net -> net * bool * devsdk_error),
    ping n = (n, true, EDGEX_OK) -> registry_wait net nanosleep ping n 0 = (n, 0, EDGEX_OK).
Proof.
  split; [vm_compute; reflexivity|]. intros net nanosleep n ping Hp. unfold registry_wait. change (0 =? 0) with true. cbn match.
  replace (Z.to_nat (2 ^ 32)) with (S (Z.to_nat (2 ^ 32 - 1))) by lia. cbn [registry_loop]. by rewrite Hp.
Qed.

(** ** Devices of the configuration *)

Section configured.
  Context {M : Type -> Type} `{SM : StringMap M} `{T : Toml}.
  Variables (regex_t : Type) (net : Type) (curl_easy_perform : net -> http_request -> net * http_response).
  Variables (crlid : option string) (impl : Type) (svc_name : string) (endpoints : edgex_service_endpoints).

#[local] Abbreviation devices := (sv_devices (M := M) regex_t net impl).

(** What a table needs: a name that is a text, texts for labels, booleans for
    [OnChange]. *)
Definition entry_ok (fuel : nat) (table : toml_table_t) : Prop :=
  (exists raw c s, toml_raw_in table "Name" = Some raw /\ toml_rtos raw = Some (String c s)) /\
  (exists autos, autos_of fuel table = Ret autos) /\ (exists labels, labels_of fuel table = Ret labels).

(** The same devices, and the rest of the service as it was. *)
Definition same_devices (sv sv' : DevMan.service (M := M) regex_t net impl) (held : ptr -> Z) : Prop :=
  devmap_ok (devices sv') held /\ abs (devices sv') = abs (devices sv) /\
  sv_watchlist _ _ _ sv' = sv_watchlist _ _ _ sv /\ sv_impl _ _ _ sv' = sv_impl _ _ _ sv.

Lemma configured_device_ok fuel sv held table err :
  devmap_ok (devices sv) held -> entry_ok fuel table ->
  exists sv' more err', configured_device regex_t net curl_easy_perform crlid impl svc_name endpoints fuel sv table err
    = Ret (sv', more, err') /\ same_devices sv sv' held.
Proof.
  intros Hok ((raw & c & s & Hraw & Hn) & (autos & Ha) & (labels & Hl)). unfold configured_device, must_rtos.
  rewrite Hraw. cbn [deref]. rewrite res_bind_ret, Hn, res_bind_ret. cbn [deref]. rewrite res_bind_ret.
  destruct (byname_ok (devices sv) held (String c s) Hok) as (m1 & o & held1 & d & -> & Hok1 & Habs1 & _ & Hf & _).
  rewrite res_bind_ret. destruct o as [p|].
  - destruct (give_back _ _ _ _ _ _ Hok Hok1 Hf) as (hd & dv & m' & _ & _ & _ & _ & _ & _ & -> & Hok' & Habs' & _).
    rewrite res_bind_ret. do 3 eexists. split; [reflexivity|]. split_and!; [done|cbn; by rewrite Habs'|done|done].
  - destruct Hf as [Hheld _]. assert (devmap_ok m1 held) as Hok1' by (eapply devmap_ok_ext; [|exact Hok1]; done).
    destruct (toml_table_in table "Protocols") as [pptable|].
    2: { do 3 eexists. split; [reflexivity|]. by split_and!. }
    destruct (proto_loop _ _ _ _) as [protocols|].
    2: { do 3 eexists. split; [reflexivity|]. by split_and!. }
    rewrite Ha, res_bind_ret, Hl, res_bind_ret. destruct (add_configured _ _ _ _ _ _) as [n err'].
    do 3 eexists. split; [reflexivity|]. by split_and!.
Qed.

Lemma configured_ok fuel sv held devs err :
  devmap_ok (devices sv) held ->
  (forall arr, devs = Some arr -> Forall (entry_ok fuel) (array_elems fuel (toml_table_at arr) 0)) ->
  exists sv' err', edgex_device_process_configured_devices regex_t net curl_easy_perform crlid impl svc_name endpoints fuel
      sv devs err = Ret (sv', err') /\ same_devices sv sv' held.
Proof.
  intros Hok Hall. unfold edgex_device_process_configured_devices. destruct devs as [arr|]; [|by do 2 eexists].
  specialize (Hall arr eq_refl). revert sv err Hok. induction Hall as [|t ts Ht _ IH]; intros sv err Hok; cbn [configured_loop].
  - do 2 eexists. split; [reflexivity|]. by split_and!.
  - destruct (configured_device_ok fuel sv held t err Hok Ht) as (sv1 & more & err1 & -> & Hok1 & Habs1 & Hw1 & Hi1).
    rewrite res_bind_ret. destruct more; [|do 2 eexists; split; [reflexivity|]; by split_and!].
    destruct (IH sv1 err1 Hok1) as (sv' & err' & -> & Hok' & Habs' & Hw' & Hi'). do 2 eexists. split; [reflexivity|].
    split_and!; [done|by rewrite Habs'|by rewrite Hw'|by rewrite Hi'].
Qed.

End configured.

(** ** Start-up *)

Lemma ping_total {net} perform crlid nanosleep (n : net) ep retries :
  0 <= retries < 2 ^ 31 ->
  exists n' ok err, ping_client net perform crlid nanosleep n ep retries = Ret (n', ok, err) /\ (ok = true <-> er_code err = 0).
Proof.
  intros Hr. unfold ping_client. destruct (ce_host ep) as [host|]; [|by do 3 eexists].
  destruct (ce_port ep =? 0); [by do 3 eexists|]. rewrite wrap_s_small by lia. destruct (Z.ltb_spec retries 0); [lia|].
  generalize (url_for (MkEndpoint host (ce_port ep)) "/api/v1/ping"). intros url. revert n.
  induction (Z.to_nat retries) as [|k IH]; intros n; cbn [ping_loop]; destruct (edgex_http_get _ _ _ _ _ _ _) as [[[n1 ctx] code] err];
    (destruct (Z.eqb_spec (er_code err) 0); [by do 3 eexists|]); [by do 3 eexists|].
  destruct (nanosleep n1) as [n2 []]; [apply IH|by do 3 eexists].
Qed.

Definition method_name (m : edgex_http_method) : string :=
  match m with GET => "GET" | POST => "POST" | PUT => "PUT" | PATCH => "PATCH" | DELETE => "DELETE" | UNKNOWN => "UNKNOWN" end.

(** All that is served. *)
Definition served_handlers : list (string * list edgex_http_method * api_handler) :=
  (EDGEX_DEV_API_CALLBACK, [PUT; POST; DELETE], edgex_device_handler_callback_fn) :: api_handlers.

(** The URL of each handler leads to it with its methods, and with the others to an error. *)
Definition serves (svr : edgex_rest_server api_handler) : Prop :=
  forall url ms h m, (url, ms, h) ∈ served_handlers ->
    http_route api_handler svr url (method_name m)
    = if bool_decide (m ∈ ms) then Call api_handler h EmptyString else Status api_handler MHD_HTTP_METHOD_NOT_ALLOWED.

Lemma register_all_serves :
  serves (register_all (register_all [] [(EDGEX_DEV_API_CALLBACK, [PUT; POST; DELETE], edgex_device_handler_callback_fn)]) api_handlers).
Proof.
  intros url ms h m Hin. unfold served_handlers, api_handlers in Hin.
  repeat (apply elem_of_cons in Hin as [[= -> -> ->]|Hin]); [..|by apply not_elem_of_nil in Hin]; destruct m; vm_compute; reflexivity.
Qed.

Section start.
  Context {M : Type -> Type} `{SM : StringMap M} `{T : Toml} `{B : Base64} `{D : IotData} `{C : Cbor}.
  Variables (regex_t : Type) (regcomp : string -> option regex_t).
  Variables (net : Type) (curl_easy_perform : net -> http_request -> net * http_response).
  Variables (curl_easy_escape : string -> string) (crlid : option string) (nanosleep : net -> net * bool).
  Variable (impl : Type).
  Variables (init : impl -> devsdk_nvpairs -> impl * bool) (discover : bool).
  Variables (iot_time_msecs : Z) (nodename : string).
  Variable (MHD_start_daemon : Z -> bool).
  Variables (scandir : string -> option (list dirent)) (yaml_files : string -> option yaml_stream).
  Variable (fuel : nat).
  Variable (settings : new_service).

#[local] Abbreviation devices r := (sv_devices (M := M) regex_t net impl (rn_service regex_t net impl r)).
#[local] Abbreviation watchlist r := (sv_watchlist (M := M) regex_t net impl (rn_service regex_t net impl r)).
#[local] Abbreviation start :=
  (startConfigured regex_t regcomp net curl_easy_perform curl_easy_escape crlid nanosleep impl init discover iot_time_msecs nodename
     MHD_start_daemon scandir yaml_files fuel settings).

(** What the service relies on core-metadata for: its replies can be read, a service it
    knows has an address, and its devices have identifiers of their own and resolved
    profiles. *)
Record metadata_ready (e : edgex_service_endpoints) (max : nat) : Prop := {
  md_service : forall n, exists n' ds err,
    edgex_metadata_client_get_deviceservice net curl_easy_perform curl_easy_escape crlid e n (svc_name settings) = Ret (n', ds, err) /\
    forall d, ds = Some d -> exists a addr, ds_addressable d = Some a /\ ad_address a = Some addr;
  md_addressable : forall n, exists r,
    edgex_metadata_client_get_addressable net curl_easy_perform curl_easy_escape crlid e n (svc_name settings) = Ret r;
  md_profiles : profiles_sane net curl_easy_perform curl_easy_escape crlid e;
  md_devices : forall n, exists n' devs err,
    edgex_metadata_client_get_devices net curl_easy_perform curl_easy_escape crlid e n (svc_name settings) = Ret (n', devs, err) /\
    (length devs <= max)%nat /\ forall profs, populate_free (MkState ∅ profs) devs;
  md_watchers : forall n, exists r,
    edgex_metadata_client_get_watchers net curl_easy_perform curl_easy_escape crlid e n (svc_name settings) = Ret r
}.

Lemma register_total e max cfg host n :
  metadata_ready e max ->
  exists n' err, register_service net curl_easy_perform curl_easy_escape crlid iot_time_msecs settings e cfg host n = Ret (n', err).
Proof.
  intros Hm. unfold register_service. destruct (md_service _ _ Hm n) as (n1 & ds & err & -> & Hds). rewrite res_bind_ret.
  destruct (er_code err =? 0); cbn [negb]; [|by do 2 eexists]. destruct ds as [ds|].
  - destruct (Hds ds eq_refl) as (a & addr & -> & Ha). cbn [deref]. rewrite res_bind_ret, Ha.
    destruct (ad_port a =? si_port cfg); cbn [negb deref]; rewrite ?res_bind_ret.
    + destruct (String.eqb addr host); [by do 2 eexists|].
      destruct (edgex_metadata_client_update_addressable _ _ _ _ _ _) as [n2 e2]. by do 2 eexists.
    + destruct (edgex_metadata_client_update_addressable _ _ _ _ _ _) as [n2 e2]. by do 2 eexists.
  - destruct (md_addressable _ _ Hm n1) as ([[n2 a] err2] & ->). rewrite res_bind_ret.
    destruct (er_code err2 =? 0); cbn [negb]; [|by do 2 eexists]. destruct a as [a|].
    + destruct (er_code err2 =? 0); cbn [negb]; [|by do 2 eexists]. destruct (create_service _ _ _ _ _ _ _ _) as [n3 e3]. by do 2 eexists.
    + destruct (edgex_metadata_client_create_addressable _ _ _ _ _ _) as [[n3 id] e3].
      destruct (er_code e3 =? 0); cbn [negb]; [|by do 2 eexists]. destruct (create_service _ _ _ _ _ _ _ _) as [n4 e4]. by do 2 eexists.
Qed.

(** The HTTP server with the handler for callbacks only, and with all of them. *)
Definition callback_server : edgex_rest_server api_handler :=
  register_all [] [(EDGEX_DEV_API_CALLBACK, [PUT; POST; DELETE], edgex_device_handler_callback_fn)].

(** What holds of a service after start-up, with or without an error. *)
Definition sound (r : running (M := M) regex_t net impl) : Prop :=
  devmap_ok (devices r) (fun _ => 0) /\ NoDup (map (pw_id regex_t) (watchlist r)).

(** What holds in addition without an error. *)
Definition up (r : running (M := M) regex_t net impl) : Prop :=
  rn_daemon _ _ _ r = Some (register_all callback_server api_handlers) /\ rn_scheduler _ _ _ r = true.

Lemma start_driver_ok r max :
  sound r -> rn_daemon _ _ _ r = Some callback_server -> metadata_ready (found_endpoints (rn_endpoints _ _ _ r)) max ->
  exists r' err, start_driver regex_t regcomp net curl_easy_perform curl_easy_escape crlid impl init discover nodename settings r
      = Ret (r', err) /\
    sound r' /\ abs (devices r') = abs (devices r) /\
    rn_adminstate _ _ _ r' = rn_adminstate _ _ _ r /\ rn_opstate _ _ _ r' = rn_opstate _ _ _ r /\ (er_code err = 0 -> up r').
Proof.
  intros [Hok Hnd] Hd Hm. unfold start_driver. destruct (init _ _) as [i ok]. destruct ok; cbn [negb].
  2: { do 2 eexists. split; [reflexivity|]. by split_and!. }
  match goal with |- context [edgex_metadata_client_get_watchers _ _ _ _ _ ?n _] =>
    destruct (md_watchers _ _ Hm n) as ([[n1 ws] err1] & ->) end. rewrite res_bind_ret.
  pose proof (populate_ids regex_t regcomp (watchlist r) ws 0 Hnd) as Hnd'.
  cbn [rn_registry rn_set_daemon rn_set_scheduler rn_set_service rn_daemon rn_config]. rewrite Hd. cbn [option_map].
  destruct (rn_registry _ _ _ r) as [reg|] eqn:Er.
  - destruct (devsdk_registry_register_service _ _ _ _ _ _ _) as [n2 err2].
    cbn [rn_registry rn_set_net rn_set_daemon rn_set_scheduler rn_set_service]. rewrite Er.
    destruct (er_code err2 =? 0) eqn:E2; cbn [negb]; do 2 eexists; (split; [reflexivity|]); by split_and!.
  - cbn [rn_registry rn_set_net rn_set_daemon rn_set_scheduler rn_set_service]. rewrite Er. do 2 eexists.
    split; [reflexivity|]. by split_and!.
Qed.

(** The devices are those that core-metadata listed when it was asked. *)
Definition listed (e : edgex_service_endpoints) (m : edgex_devmap_t (M := M)) : Prop :=
  exists n n' devs err profs,
    edgex_metadata_client_get_devices net curl_easy_perform curl_easy_escape crlid e n (svc_name settings) = Ret (n', devs, err) /\
    er_code err = 0 /\ abs m = spec_populate (MkState ∅ profs) devs.

(** The tables of the devices in the configuration are complete. *)
Definition devices_complete (config : option toml_table_t) : Prop :=
  forall c arr, config = Some c -> toml_array_in c "DeviceList" = Some arr ->
    Forall (entry_ok fuel) (array_elems fuel (toml_table_at arr) 0).

(** The devices of the configuration, if there is one. *)
Lemma optional_configured_ok endpoints sv config err :
  devmap_ok (sv_devices _ _ _ sv) (fun _ => 0) -> devices_complete config ->
  exists sv' err', match config with
      | Some c => edgex_device_process_configured_devices regex_t net curl_easy_perform crlid impl (svc_name settings) endpoints fuel sv
                    (toml_array_in c "DeviceList") err
      | None => Ret (sv, err)
      end = Ret (sv', err') /\ same_devices regex_t net impl sv sv' (fun _ => 0).
Proof.
  intros Hok Hconf. destruct config as [c|]; [|do 2 eexists; split; [reflexivity|]; by split_and!].
  apply configured_ok; [done|]. intros arr Harr. by eapply Hconf.
Qed.

Lemma start_devices_ok r config max :
  sound r -> st_devs (abs (devices r)) = ∅ -> metadata_ready (found_endpoints (rn_endpoints _ _ _ r)) max -> devices_complete config ->
  (forall dir entries, scandir dir = Some entries ->
     Z.of_nat (dm_next (devices r) + length entries + 2 * max) < sm_limit (M := M)) ->
  exists r' err, start_devices regex_t regcomp net curl_easy_perform curl_easy_escape crlid impl init discover iot_time_msecs nodename
      MHD_start_daemon scandir yaml_files fuel settings r config = Ret (r', err) /\
    sound r' /\ rn_adminstate _ _ _ r' = rn_adminstate _ _ _ r /\ rn_opstate _ _ _ r' = rn_opstate _ _ _ r /\
    (er_code err = 0 -> up r' /\ listed (found_endpoints (rn_endpoints _ _ _ r)) (devices r')).
Proof.
  intros [Hok Hnd] Hempty Hm Hconf Hlim. unfold start_devices.
  match goal with |- context [edgex_device_profiles_upload _ _ _ _ _ _ _ _ _ _ _ ?d] => set (dir := d) end.
  destruct (scandir dir) as [entries|] eqn:Edir.
  2: { unfold edgex_device_profiles_upload. rewrite Edir, res_bind_ret. cbn. do 2 eexists. split; [reflexivity|]. by split_and!. }
  specialize (Hlim dir entries Edir).
  destruct (upload_ok regex_t net curl_easy_perform curl_easy_escape crlid impl (found_endpoints (rn_endpoints _ _ _ r)) scandir yaml_files
    iot_time_msecs (rn_service _ _ _ r) (fun _ => 0) dir entries Hok ltac:(lia) (md_profiles _ _ Hm) Edir)
    as (sv1 & err1 & Eup & Hok1 & [Hdevs1 _] & Hn1 & _).
  pose proof (upload_watchlist _ _ _ _ _ _ _ _ _ _ _ _ _ _ Eup) as Hw1. rewrite Eup.
  rewrite res_bind_ret. assert (sound (rn_set_service _ _ _ r sv1)) as Hs1 by (split; [done|cbn; by rewrite Hw1]).
  destruct (Z.eqb_spec (er_code err1) 0) as [E1|E1]; cbn [negb].
  2: { do 2 eexists. split; [reflexivity|]. by split_and!. }
  destruct (md_devices _ _ Hm (sv_net _ _ _ sv1)) as (n2 & devs & err2 & Edev & Hlen & Hfree). rewrite Edev, res_bind_ret.
  destruct (Z.eqb_spec (er_code err2) 0) as [E2|E2]; cbn [negb].
  2: { do 2 eexists. split; [reflexivity|]. by split_and!. }
  cbn [sv_devices sv_set_net].
  assert (abs (sv_devices _ _ _ sv1) = MkState ∅ (st_profs (abs (sv_devices _ _ _ sv1)))) as Habs1.
  { destruct (abs (sv_devices _ _ _ sv1)) as [ds ps]. cbn [st_devs st_profs] in Hdevs1 |- *. by rewrite Hdevs1, Hempty. }
  destruct (populate_ok (sv_devices _ _ _ sv1) (fun _ => 0) devs Hok1) as (m & -> & Hokm & _ & Habsm);
    [rewrite Habs1; apply Hfree|lia|]. rewrite res_bind_ret. rewrite Habs1 in Habsm.
  match goal with |- context [MHD_start_daemon ?p] => destruct (MHD_start_daemon p) end; cbn [negb].
  2: { do 2 eexists. split; [reflexivity|]. split_and!; try done. split; [done|]. cbn. by rewrite Hw1. }
  match goal with |- context [rn_set_daemon _ _ _ ?x (Some _)] => set (r1 := x) end.
  assert (sound (rn_set_daemon _ _ _ r1 (Some callback_server))) as Hsr by (split; [done|cbn; by rewrite Hw1]).
  destruct (optional_configured_ok (found_endpoints (rn_endpoints _ _ _ r)) (rn_service _ _ _ (rn_set_daemon _ _ _ r1 (Some callback_server))) config err2)
    as (sv3 & err3 & E3 & Hok3 & Habs3 & Hw3 & _); [done..|].
  change (register_all [] _) with callback_server. rewrite E3, res_bind_ret.
  destruct (Z.eqb_spec (er_code err3) 0) as [Ee3|Ee3]; cbn [negb].
  2: { do 2 eexists. split; [reflexivity|]. split_and!; try done. split; [done|]. cbn [rn_service rn_set_service]. rewrite Hw3. exact (proj2 Hsr). }
  destruct (start_driver_ok (rn_set_service _ _ _ (rn_set_daemon _ _ _ r1 (Some callback_server)) sv3) max)
    as (r' & err & -> & Hs' & Habs' & Ha' & Ho' & Hup); [split; [done|cbn [rn_service rn_set_service]; rewrite Hw3; exact (proj2 Hsr)]|done|done|].
  do 2 eexists. split; [reflexivity|]. split; [exact Hs'|]. split; [by rewrite Ha'|]. split; [by rewrite Ho'|].
  intros H. split; [by apply Hup|]. exists (sv_net _ _ _ sv1), n2, devs, err2, (st_profs (abs (sv_devices _ _ _ sv1))).
  split_and!; [done|done|]. rewrite Habs'. cbn. by rewrite Habs3.
Qed.

(** C1. Start-up with a configuration returns, with an error or without, and whatever
    statuses and errors the other services and the operating system answer with, under
    these conditions: the replies of core-metadata can be read (one with a member that
    is not a string among named values crashes the service, [nvpairs_read_crash]), the
    service it knows has an address, its devices have names of their own and profiles
    whose commands resolve, at most [max] of them; the number of retries is a
    non-negative [int]; the tables of the list of devices in the configuration are
    complete; and profiles and devices are fewer than the hash map can hold. No callback is
    handled while start-up is in progress. The map of devices is then well-formed,
    nothing of it is held, and the identifiers of the watchers are distinct. Without an
    error the HTTP server has a handler for each URL of the service, the scheduler runs,
    the service is unlocked and enabled, and the devices are those core-metadata
    listed. *)
Theorem service_started (r : running (M := M) regex_t net impl) (config : option toml_table_t) (max : nat) :
  devices r = edgex_devmap_alloc -> watchlist r = [] ->
  0 <= si_connectretries (ec_service (rn_config _ _ _ r)) < 2 ^ 31 ->
  metadata_ready (found_endpoints (rn_endpoints _ _ _ r)) max -> devices_complete config ->
  (forall dir entries, scandir dir = Some entries -> Z.of_nat (length entries + 2 * max) < sm_limit (M := M)) ->
  exists r' err, start r config = Ret (r', err) /\ sound r' /\
    (er_code err = 0 ->
     (exists svr, rn_daemon _ _ _ r' = Some svr /\ serves svr) /\ rn_scheduler _ _ _ r' = true /\
     rn_adminstate _ _ _ r' = UNLOCKED /\ rn_opstate _ _ _ r' = ENABLED /\
     listed (found_endpoints (rn_endpoints _ _ _ r)) (devices r')).
Proof.
  intros Hd Hw Hr Hm Hconf Hlim. unfold startConfigured.
  assert (sound r) as Hs. { split; [rewrite Hd; apply alloc_ok|rewrite Hw; constructor]. }
  cbn [rn_config rn_set_states].
  match goal with |- context [ping_client ?a ?b ?c ?d ?n ?e ?f] =>
    destruct (ping_total b c d n e f Hr) as (n1 & ok1 & err1 & -> & H1) end. rewrite res_bind_ret.
  destruct ok1; cbn [negb]. 2: { do 2 eexists. split; [reflexivity|]. split; [done|]. by intros ?%H1. }
  match goal with |- context [ping_client ?a ?b ?c ?d ?n ?e ?f] =>
    destruct (ping_total b c d n e f Hr) as (n2 & ok2 & err2 & -> & H2) end. rewrite res_bind_ret.
  destruct ok2; cbn [negb]. 2: { do 2 eexists. split; [reflexivity|]. split; [done|]. by intros ?%H2. }
  match goal with |- context [register_service _ _ _ _ _ _ ?e ?c ?h ?n] =>
    destruct (register_total e max c h n Hm) as (n3 & err3 & ->) end. rewrite res_bind_ret.
  destruct (Z.eqb_spec (er_code err3) 0) as [E3|E3]; cbn [negb].
  2: { do 2 eexists. split; [reflexivity|]. by split. }
  match goal with |- context [start_devices _ _ _ _ _ _ _ _ _ _ _ _ _ _ _ _ ?x _] => set (r1 := x) end.
  destruct (start_devices_ok r1 config max) as (r' & err & -> & Hs' & Ha & Ho & Hup).
  - exact Hs.
  - change (devices r1) with (devices r). rewrite Hd. by rewrite (proj2 alloc_ok).
  - exact Hm.
  - exact Hconf.
  - change (devices r1) with (devices r). rewrite Hd. exact Hlim.
  - do 2 eexists. split; [reflexivity|]. split; [done|]. intros [[Hdm Hsch] Hl]%Hup.
    split_and!; [|done|done|done|done]. eexists. split; [exact Hdm|]. apply register_all_serves.
Qed.

End start.

(** ** A service that starts *)

Definition sample_settings : new_service := MkNew "device-x" "1.0" None None "res" None false.

Definition devices_url : string := url_for sample_endpoint "/api/v1/device/servicename/device-x".

Definition devices_text : string :=
  match edgex_device_write sample_device false with Ret (Some t) => "[" +:+ t +:+ "]" | _ => EmptyString end.

(** Core-metadata that knows one device and nothing else. *)
Definition one_device (n : unit) (req : http_request) : unit * http_response :=
  match hr_method req with
  | GET =>
      if String.eqb (hr_url req) devices_url then (n, MkResponse CURLE_OK 200 [] [devices_text])
      else if String.eqb (hr_url req) (url_for sample_endpoint "/api/v1/ping") then (n, MkResponse CURLE_OK 200 [] ["1.0"])
      else if String.eqb (hr_url req) (url_for sample_endpoint "/api/v1/provisionwatcher/servicename/device-x")
      then (n, MkResponse CURLE_OK 200 [] ["[]"])
      else (n, MkResponse CURLE_OK 404 [] ["Not found"])
  | _ => (n, MkResponse CURLE_OK 200 [] ["id"])
  end.

Lemma one_device_ready : metadata_ready unit one_device id None sample_settings sample_endpoints 1.
Proof.
  split.
  - intros []. do 3 eexists. split; [vm_compute; reflexivity|done].
  - intros []. eexists. vm_compute. reflexivity.
  - intros [] name. do 3 eexists. split; [vm_compute; reflexivity|done].
  - intros []. do 3 eexists. split; [vm_compute; reflexivity|]. split; [cbn; lia|].
    intros profs. split_and!; [|done|done]. vm_compute. repeat constructor.
  - intros []. eexists. vm_compute. reflexivity.
Qed.

Definition sample_device_config : edgex_device_config :=
  MkConfig (MkServiceInfo (Some "localhost") 49999 2 ["demo"] None 1 0 None)
    (MkDeviceInfo true false 0 None None 0 0 None None None false false) (MkLoggingInfo None false 3) [].

Definition sample_client : client_endpoint := MkClient (Some "localhost") 48081.

Definition sample_running : running (M := edgex_map_base) unit unit unit :=
  MkRunning unit unit unit (MkService unit unit unit edgex_devmap_alloc [] tt tt) 1 sample_device_config
    (MkClients sample_client sample_client sample_client) None None None false None LOCKED DISABLED.

#[local] Instance no_toml : Toml := sample_toml.

Abbreviation sample_start :=
  (startConfigured unit (fun _ => Some tt) unit one_device id None (fun n => (n, true)) unit (fun i _ => (i, true)) false 0 "host"
     (fun _ => true) (fun _ => Some []) (fun _ => None) 10 sample_settings sample_running None) (only parsing).

Lemma service_started_witness :
  match sample_start with
  | Ret (r, err) => er_code err = 0 /\ (exists svr, rn_daemon _ _ _ r = Some svr /\ serves svr) /\ rn_scheduler _ _ _ r = true
  | _ => False
  end.
Proof.
  destruct (service_started unit (fun _ => Some tt) unit one_device id None (fun n => (n, true)) unit (fun i _ => (i, true)) false 0
              "host" (fun _ => true) (fun _ => Some []) (fun _ => None) 10 sample_settings sample_running None 1)
    as (r & err & E & _ & H).
  - reflexivity.
  - reflexivity.
  - cbn. lia.
  - exact one_device_ready.
  - done.
  - intros dir entries [= <-]. reflexivity.
  - assert (er_code err = 0) as He.
    { transitivity (match sample_start with Ret (_, e) => er_code e | _ => 1 end); [by rewrite E|vm_compute; reflexivity]. }
    rewrite E. destruct (H He) as (Hsvr & Hsch & _). split; [exact He|]. split; [exact Hsvr|exact Hsch].
Defined.

Definition wrong_port_file : toml_tree :=
  TomlTree [] [("Service", TomlTree [("Host", "localhost"); ("Port", "70000")] []);
               ("Clients", TomlTree [] [("Data", TomlTree [("Host", "localhost"); ("Port", "48081")] []);
                                        ("Metadata", TomlTree [("Host", "localhost"); ("Port", "48081")] [])])].

Definition not_started : running (M := edgex_map_base) unit unit unit :=
  MkRunning unit unit unit (MkService unit unit unit edgex_devmap_alloc [] tt tt) 0 sample_device_config
    (MkClients (MkClient None 0) (MkClient None 0) (MkClient None 0)) None None None false None LOCKED DISABLED.

#[local] Instance no_base64 : Base64 := {|
  b64_encode _ := EmptyString; b64_maxdecodesize _ := 0; b64_decode _ _ := None |}.

(** A port that is out of range in the file does not stop the service: it starts without
    an error on port 0. *)
Lemma wrong_port_starts :
  match devsdk_service_start unit (fun _ => Some tt) unit one_device id None (fun n => (n, true)) unit (fun i _ => (i, true)) false 5
          "host" (fun _ => None) (fun _ => true) (fun _ => Some (Some wrong_port_file)) (fun _ => Some []) (fun _ => None) 10
          sample_settings None not_started EDGEX_OK with
  | Ret (r, err) => err = EDGEX_OK /\ si_port (ec_service (rn_config _ _ _ r)) = 0
  | _ => False
  end.
Proof. vm_compute. split; reflexivity. Qed.

(** ** Readings from the driver *)

Section readings.
  Context {M : Type -> Type} `{SM : StringMap M} `{D : IotData} `{C : Cbor}.
  Variables (regex_t net impl : Type) (powl : spec_float -> spec_float -> spec_float).

(** What is given to the thread pool for a device. *)
Definition spec_post (d : option edgex_device) (datatransform : bool) (devname resname : string)
    (values : list devsdk_commandresult) (timenow : Z) : res (option postparams) :=
  match d with
  | None => Ret None
  | Some d =>
      command ← edgex_deviceprofile_findcommand resname (dev_profile d) true;
      match command with
      | Some command =>
          event ← edgex_data_process_event powl devname command values datatransform timenow;
          Ret (option_map (fun e => MkPost e devname) event)
      | None => Ret None
      end
  end.

(** Readings for a device that is known by its name become an event with the command of
    its profile; for an unknown device or resource nothing is sent. The reference to the
    device is given back and the map stays as it is. *)
Theorem readings_posted (sv : DevMan.service (M := M) regex_t net impl) (held : ptr -> Z) (datatransform : bool)
    (devname resname : string) (values : list devsdk_commandresult) (timenow : Z) :
  devmap_ok (sv_devices _ _ _ sv) held ->
  exists d m', with_name (abs (sv_devices _ _ _ sv)) devname d /\
    devmap_ok m' held /\ abs m' = abs (sv_devices _ _ _ sv) /\
    devsdk_post_readings regex_t net impl powl sv datatransform devname resname values timenow
    = (job ← spec_post d datatransform devname resname values timenow; Ret (sv_set_devices _ _ _ sv m', job)).
Proof.
  intros Hok. unfold devsdk_post_readings.
  destruct (byname_ok (sv_devices _ _ _ sv) held devname Hok) as (m1 & o & held1 & d & -> & Hok1 & Habs1 & _ & Hf & Hn).
  rewrite res_bind_ret. destruct o as [p|].
  - destruct (give_back _ _ _ _ _ _ Hok Hok1 Hf) as (hd & dv & m' & -> & Hhd & Hv & _ & _ & _ & Hrel & Hok' & Habs' & _).
    exists (Some dv), m'. split; [done|]. split; [done|]. split; [by rewrite Habs'|].
    rewrite Hhd, res_bind_ret. unfold view in Hv. destruct (profile_at m1 hd) as [prof| |] eqn:Hprof; [|done..].
    rewrite res_bind_ret. cbn in Hv. injection Hv as <-. cbn [spec_post with_profile dev_profile].
    destruct (edgex_deviceprofile_findcommand resname prof true) as [[command|]| |]; rewrite ?res_bind_ret; [| |done..];
      rewrite Hrel, !res_bind_ret; [|done].
    destruct (edgex_data_process_event _ _ _ _ _ _) as [event| |]; [|done..]. by rewrite !res_bind_ret.
  - destruct Hf as [Hheld ->]. exists None, m1. split_and!; try done. eapply devmap_ok_ext; [|exact Hok1]. done.
Qed.

End readings.

Lemma readings_posted_witness :
  exists d m', with_name (abs sample_map) "dev0" d /\ devmap_ok m' (fun _ => 0) /\ abs m' = abs sample_map /\
    devsdk_post_readings (M := edgex_map_base) unit unit unit (fun x _ => x) (MkService unit unit unit sample_map [] tt tt)
      false "dev0" "none" [] 0
    = (job ← spec_post (D := sample_iot) (fun x _ => x) d false "dev0" "none" [] 0;
       Ret (sv_set_devices unit unit unit (MkService unit unit unit sample_map [] tt tt) m', job)).
Proof.
  apply (readings_posted (M := edgex_map_base) unit unit unit (fun x _ => x) (MkService unit unit unit sample_map [] tt tt)
    (fun _ => 0) false "dev0" "none" [] 0). exact sample_map_ok.
Defined.
