(* ===== verification/V1Compat.v ===== *)
(** * Drivers written for the first version of the SDK ([v1compat.c])

    Their handlers get requests with the query of the URL as an attribute, and values
    as a type with a union. The functions here make such a driver into one for the
    current interface. *)

From S2P Require Import Prelude CLib CFloat DevTypes IotData Readings CmdInfo Rest Config CmdLine.
Local Open Scope Z_scope.

(** ** The query as text *)

(** A buffer that was allocated: its contents, its size, and how much of it counts as
    used. *)
Record nvbuf := MkNvbuf { nb_text : string; nb_size : Z; nb_used : Z }.

(** [strcat] into the buffer: there has to be room for the NUL. *)
Definition nb_cat (b : nvbuf) (s : string) : res nvbuf :=
  if Z.of_nat (String.length (nb_text b +:+ s)) <? nb_size b
  then Ret (MkNvbuf (nb_text b +:+ s) (nb_size b) (nb_used b)) else Crash.

Definition nb_add (b : nvbuf) (n : Z) : nvbuf := MkNvbuf (nb_text b) (nb_size b) (wrap_u 64 (nb_used b + n)).

Definition nv_step (b : nvbuf) (p : string * string) : res nvbuf :=
  let '(name, value) := p in
  let nsize := wrap_u 64 (nb_used b + Z.of_nat (String.length name) + Z.of_nat (String.length value) + 2) in
  let b := if nb_size b <? nsize then MkNvbuf (nb_text b) (wrap_u 64 (nsize + 256)) (nb_used b) else b in
  b ← (if nb_used b =? 1 then Ret b else b ← nb_cat b "&"; Ret (nb_add b 1));
  b ← nb_cat b name;
  let b := nb_add b (Z.of_nat (String.length name)) in
  b ← nb_cat b "=";
  b ← nb_cat b value;
  Ret (nb_add b (Z.of_nat (String.length value) + 1)).

Definition nvpsToStr (nvps : devsdk_nvpairs) : res string :=
  b ← res_foldl nv_step (MkNvbuf EmptyString 256 1) nvps; Ret (nb_text b).

(** ** Types and values *)

(** An array is an array of its element type. *)
Definition edgex_propertytype_typecode (tc : iot_typecode_t) : edgex_propertytype :=
  if tc_array tc then default Edgex_Unused1 (typeForArray (tc_type tc)) else property_of_iot (tc_type tc).

(** The members of the union; the integers share one constructor, with the value the
    member has. *)
Inductive edgex_device_resultvalue :=
| int_result (z : Z)
| f32_result (x : spec_float)
| f64_result (x : spec_float)
| bool_result (b : bool)
| string_result (s : string)
| binary_result (bytes : list Z) (size : Z).

Record edgex_device_commandresult := MkV1Result {
  vr_origin : Z; vr_type : edgex_propertytype; vr_value : edgex_device_resultvalue }.

Record edgex_device_commandrequest := MkV1Request {
  vq_resname : string; vq_attributes : devsdk_nvpairs; vq_type : edgex_propertytype }.

Section compat.
  Context `{D : IotData}.
  Variables (iot_data_bool : iot_data_t -> bool) (iot_data_array_size : iot_data_t -> Z).

(** [None]: a type of value that has no union member. A member that does not go with the
    type is outside of what is described here. *)
Definition data_from_reading (type : edgex_propertytype) (value : edgex_device_resultvalue) : res (option iot_data_t) :=
  match type, value with
  | (Edgex_Int8 | Edgex_Uint8 | Edgex_Int16 | Edgex_Uint16 | Edgex_Int32 | Edgex_Uint32 | Edgex_Int64 | Edgex_Uint64), int_result z =>
      t ← deref (iot_type type); Ret (Some (iot_data_alloc_int t z))
  | Edgex_Float32, f32_result x => Ret (Some (iot_data_alloc_f32 x))
  | Edgex_Float64, f64_result x => Ret (Some (iot_data_alloc_f64 x))
  | Edgex_Bool, bool_result b => Ret (Some (iot_data_alloc_bool b))
  | Edgex_String, string_result s => Ret (Some (iot_data_alloc_string s))
  | Edgex_Binary, binary_result bytes size => Ret (Some (iot_data_alloc_array bytes size IOT_DATA_UINT8))
  | (Edgex_Int8 | Edgex_Uint8 | Edgex_Int16 | Edgex_Uint16 | Edgex_Int32 | Edgex_Uint32 | Edgex_Int64 | Edgex_Uint64
     | Edgex_Float32 | Edgex_Float64 | Edgex_Bool | Edgex_String | Edgex_Binary), _ => Crash
  | _, _ => Ret None
  end.

(** The value that is handed to a driver. *)
Definition reading_from_data (v : iot_data_t) : option edgex_device_commandresult :=
  let t := property_of_iot (iot_data_type v) in
  match t with
  | Edgex_Int8 | Edgex_Uint8 | Edgex_Int16 | Edgex_Uint16 | Edgex_Int32 | Edgex_Uint32 | Edgex_Int64 | Edgex_Uint64 =>
      Some (MkV1Result 0 t (int_result (iot_data_int (iot_data_type v) v)))
  | Edgex_Float32 => Some (MkV1Result 0 t (f32_result (iot_data_f32 v)))
  | Edgex_Float64 => Some (MkV1Result 0 t (f64_result (iot_data_f64 v)))
  | Edgex_Bool => Some (MkV1Result 0 t (bool_result (iot_data_bool v)))
  | Edgex_String => Some (MkV1Result 0 t (string_result (iot_data_string v)))
  | Edgex_Binary => Some (MkV1Result 0 t (binary_result (iot_data_address v) (iot_data_array_size v)))
  | _ => None
  end.

(** ** The handlers *)

(** A driver of the first version: its handlers return false or fill in the results. *)
  Variable (impl : Type).
  Variables (gethandler : impl -> string -> devsdk_protocols -> list edgex_device_commandrequest ->
                          impl * option (list edgex_device_commandresult))
            (puthandler : impl -> string -> devsdk_protocols -> list edgex_device_commandrequest ->
                          list edgex_device_commandresult -> impl * bool).

Definition compat_map_requests (requests : list cmdreq) (qparams : devsdk_nvpairs) : res (list edgex_device_commandrequest) :=
  qstr ← match qparams with [] => Ret None | _ => s ← nvpsToStr qparams; Ret (Some s) end;
  Ret (map (fun r => MkV1Request (rq_resname r)
              (match qstr with Some q => devsdk_nvpairs_new "urlRawQuery" q (rq_attributes r) | None => rq_attributes r end)
              (edgex_propertytype_typecode (rq_type r))) requests).

(** The results in order; the loop ends at a value that cannot be converted. *)
Fixpoint map_readings (ereadings : list edgex_device_commandresult) : res (option (list devsdk_commandresult)) :=
  match ereadings with
  | [] => Ret (Some [])
  | e :: es =>
      v ← data_from_reading (vr_type e) (vr_value e);
      match v with
      | Some v => rest ← map_readings es; Ret (option_map (cons (MkResult (vr_origin e) v)) rest)
      | None => Ret None
      end
  end.

Definition compat_get_handler (i : impl) (devname : string) (protocols : devsdk_protocols) (requests : list cmdreq)
    (qparams : devsdk_nvpairs) : res (impl * option (list devsdk_commandresult) * option iot_data_t) :=
  erequests ← compat_map_requests requests qparams;
  let '(i, r) := gethandler i devname protocols erequests in
  match r with
  | Some ereadings =>
      readings ← map_readings ereadings;
      Ret (i, readings,
           match readings with
           | Some _ => None
           | None => Some (iot_data_alloc_string "Unsupported data type (map/array) returned by driver")
           end)
  | None => Ret (i, None, None)
  end.

Fixpoint map_values (values : list iot_data_t) : option (list edgex_device_commandresult) :=
  match values with
  | [] => Some []
  | v :: vs => match reading_from_data v with Some e => option_map (cons e) (map_values vs) | None => None end
  end.

Definition compat_put_handler (i : impl) (devname : string) (protocols : devsdk_protocols) (requests : list cmdreq)
    (values : list iot_data_t) : res (impl * bool * option iot_data_t) :=
  erequests ← compat_map_requests requests [];
  Ret (match map_values values with
       | Some evalues => let '(i, ok) := puthandler i devname protocols erequests evalues in (i, ok, None)
       | None => (i, false, Some (iot_data_alloc_string "Unsupported data type (map/array) generated in SDK"))
       end).

(** The configuration that is given to the driver: the entries of the map, last first. *)
Definition compat_init (init : impl -> devsdk_nvpairs -> impl * bool) (i : impl) (entries : devsdk_nvpairs) : impl * bool :=
  init i (foldl (fun l nv => devsdk_nvpairs_new (fst nv) (snd nv) l) [] entries).

(** A device that is unlocked is announced as enabled. *)
Definition compat_add_device (add_device : option (impl -> string -> devsdk_protocols -> edgex_device_operatingstate -> impl))
    (i : impl) (devname : string) (protocols : devsdk_protocols) (adminEnabled : bool) : impl :=
  match add_device with Some f => f i devname protocols (if adminEnabled then ENABLED else DISABLED) | None => i end.

Definition compat_update_device (update_device : option (impl -> string -> devsdk_protocols -> edgex_device_operatingstate -> impl))
    (i : impl) (devname : string) (protocols : devsdk_protocols) (adminEnabled : bool) : impl :=
  match update_device with Some f => f i devname protocols (if adminEnabled then ENABLED else DISABLED) | None => i end.

Definition compat_remove_device (remove_device : option (impl -> string -> devsdk_protocols -> impl))
    (i : impl) (devname : string) (protocols : devsdk_protocols) : impl :=
  match remove_device with Some f => f i devname protocols | None => i end.

End compat.

(** ** The command line *)

(** The arguments that are made up for [devsdk_service_new]; the first one is never set
    and never read. *)
Definition compat_argv (registryURL profile confDir : option string) (overwrite : bool) : list string :=
  [EmptyString] ++ match registryURL with Some u => ["--registry"; u] | None => [] end
    ++ match profile with Some p => ["--profile"; p] | None => [] end
    ++ match confDir with Some d => ["--confdir"; d] | None => [] end
    ++ (if overwrite then ["--overwrite"] else []).

(** The array has eight elements. *)
Definition edgex_device_service_start (getenv : string -> option string) (name version : string)
    (registryURL profile confDir : option string) (overwrite : bool) : res (option new_service * devsdk_error) :=
  let argv := compat_argv registryURL profile confDir overwrite in
  if (length argv <=? 8)%nat then
    let '(svc, _, _, err) := devsdk_service_new getenv (Some name) (Some version) true argv in Ret (svc, err)
  else Crash.

Record edgex_device_svcparams := MkParams {
  vp_svcname : option string; vp_regURL : option string; vp_profile : option string; vp_confdir : option string;
  vp_overwrite : bool }.

(** The options with a value, in order. *)
Definition test_params (s : edgex_device_svcparams) (arg : string) (val : option string)
    : option (edgex_device_svcparams * bool) :=
  match testArg arg val "-n" "--name" (vp_svcname s) true with
  | Some (v, r) => Some (MkParams v (vp_regURL s) (vp_profile s) (vp_confdir s) (vp_overwrite s), r)
  | None =>
  match testArg arg val "-p" "--profile" (vp_profile s) true with
  | Some (v, r) => Some (MkParams (vp_svcname s) (vp_regURL s) v (vp_confdir s) (vp_overwrite s), r)
  | None =>
  match testArg arg val "-c" "--confdir" (vp_confdir s) true with
  | Some (v, r) => Some (MkParams (vp_svcname s) (vp_regURL s) (vp_profile s) v (vp_overwrite s), r)
  | None => None
  end end end.

Fixpoint params_loop (fuel : nat) (argc : Z) (argv : list string) (n : nat) (s : edgex_device_svcparams)
    : edgex_device_svcparams * Z * list string * bool :=
  match fuel with
  | O => (s, argc, argv, true)
  | S fuel =>
      if Z.of_nat n <? argc then
        let '(arg, val, eq) := arg_value argc argv n (default EmptyString (argv !! n)) in
        match testArgOpt arg val "-r" "--registry" (vp_regURL s) true with
        | Some (v, result) =>
            let '(argc, argv) := consumeArgs argc argv n (if (result : bool) then 2 else 1) in
            params_loop fuel argc argv n (MkParams (vp_svcname s) v (vp_profile s) (vp_confdir s) (vp_overwrite s))
        | None =>
            match test_params s arg val with
            | Some (s, result) =>
                let '(argc, argv) := consumeArgs argc argv n (if eq then 1 else 2) in
                if result then params_loop fuel argc argv n s else (s, argc, argv, false)
            | None =>
                if testBool arg "-o" "--overwrite" then
                  let '(argc, argv) := consumeArgs argc argv n 1 in
                  params_loop fuel argc argv n (MkParams (vp_svcname s) (vp_regURL s) (vp_profile s) (vp_confdir s) true)
                else params_loop fuel argc argv (S n) s
            end
        end
      else (s, argc, argv, true)
  end.

Definition edgex_device_service_processparams (getenv : string -> option string) (argv : list string)
    (params : edgex_device_svcparams) : edgex_device_svcparams * Z * list string * bool :=
  let params := match getenv "edgex_registry" with
                | Some v => MkParams (vp_svcname params) (Some v) (vp_profile params) (vp_confdir params) (vp_overwrite params)
                | None => params
                end in
  params_loop (length argv) (Z.of_nat (length argv)) argv 1 params.

(** ** What the functions promise *)

(** The query as it was: names and values with equals signs, between ampersands. *)
Definition add_pair (t : string) (p : string * string) : string :=
  (match t with EmptyString => EmptyString | _ => t +:+ "&" end) +:+ fst p +:+ "=" +:+ snd p.

Definition pair_size (p : string * string) : Z := Z.of_nat (String.length (fst p)) + Z.of_nat (String.length (snd p)) + 2.

Definition nb_ok (b : nvbuf) : Prop :=
  nb_used b = 1 + Z.of_nat (String.length (nb_text b)) /\ nb_used b <= nb_size b < 2 ^ 64.

Lemma nb_cat_ok t size used s :
  Z.of_nat (String.length t) + Z.of_nat (String.length s) < size ->
  nb_cat (MkNvbuf t size used) s = Ret (MkNvbuf (t +:+ s) size used).
Proof.
  intros H. unfold nb_cat. cbn [nb_text nb_size nb_used]. rewrite length_append.
  destruct (Z.ltb_spec (Z.of_nat (String.length t + String.length s)) size); [done|lia].
Qed.

Lemma nb_add_ok t size used n : 0 <= used + n < 2 ^ 64 -> nb_add (MkNvbuf t size used) n = MkNvbuf t size (used + n).
Proof. intros H. unfold nb_add. cbn [nb_text nb_size nb_used]. by rewrite wrap_u_small. Qed.

Lemma nv_step_ok b p :
  nb_ok b -> nb_used b + pair_size p + 256 < 2 ^ 64 ->
  exists b', nv_step b p = Ret b' /\ nb_ok b' /\ nb_text b' = add_pair (nb_text b) p /\ nb_used b' <= nb_used b + pair_size p.
Proof.
  intros [Hu Hs] Hlim. destruct b as [t size used], p as [name value]. unfold pair_size in *.
  cbn [fst snd nb_text nb_size nb_used] in *. unfold nv_step. cbn [nb_text nb_size nb_used].
  rewrite (wrap_u_small 64 (used + _ + _ + 2)) by lia.
  set (nsize := used + Z.of_nat (String.length name) + Z.of_nat (String.length value) + 2) in *.
  rewrite (wrap_u_small 64 (nsize + 256)) by lia.
  assert (exists size', (if size <? nsize then MkNvbuf t (nsize + 256) used else MkNvbuf t size used) = MkNvbuf t size' used /\
            nsize <= size' < 2 ^ 64) as (size' & -> & Hs').
  { destruct (Z.ltb_spec size nsize); eexists; (split; [reflexivity|]); lia. }
  cbn [nb_used]. set (pre := match t with EmptyString => EmptyString | _ => "&" end).
  assert ((if used =? 1 then Ret (MkNvbuf t size' used) else b ← nb_cat (MkNvbuf t size' used) "&"; Ret (nb_add b 1))
          = Ret (MkNvbuf (t +:+ pre) size' (used + Z.of_nat (String.length pre)))) as ->.
  { subst pre. destruct (Z.eqb_spec used 1).
    - destruct t; [|cbn in Hu; lia]. cbn. by rewrite Z.add_0_r.
    - destruct t as [|c t]; [cbn in Hu; lia|]. rewrite nb_cat_ok by (cbn [String.length] in *; lia). rewrite res_bind_ret.
      by rewrite nb_add_ok by lia. }
  assert (String.length pre <= 1)%nat by (subst pre; destruct t; cbn; lia).
  rewrite res_bind_ret, nb_cat_ok by (rewrite length_append; lia). rewrite res_bind_ret.
  rewrite nb_add_ok by lia.
  rewrite nb_cat_ok by (rewrite !length_append; cbn [String.length]; lia).
  rewrite res_bind_ret, nb_cat_ok by (rewrite !length_append; cbn [String.length]; lia).
  rewrite res_bind_ret, nb_add_ok by lia.
  eexists. split; [reflexivity|]. unfold nb_ok, add_pair. cbn [nb_text nb_size nb_used fst snd].
  rewrite !length_append. cbn [String.length]. split_and!; try lia.
  subst pre. destruct t as [|c t]; cbn [String.append]; [by rewrite append_assoc|]. by rewrite !append_assoc.
Qed.

Fixpoint pairs_size (l : devsdk_nvpairs) : Z := match l with p :: l' => pair_size p + pairs_size l' | [] => 0 end.

(** The text of a query is made of its names and values in order, with equals signs and
    ampersands; every piece fits the buffer, which is extended in time. *)
Theorem query_text (nvps : devsdk_nvpairs) :
  pairs_size nvps < 2 ^ 63 -> nvpsToStr nvps = Ret (foldl add_pair EmptyString nvps).
Proof.
  intros Hlim. unfold nvpsToStr.
  assert (forall b, nb_ok b -> nb_used b + pairs_size nvps < 2 ^ 63 + 1 ->
            exists b', res_foldl nv_step b nvps = Ret b' /\ nb_text b' = foldl add_pair (nb_text b) nvps) as H.
  { clear Hlim. induction nvps as [|p l IH]; intros b Hb Hlim; [by exists b|]. cbn [pairs_size res_foldl foldl] in *.
    assert (0 <= pairs_size l) by (clear; induction l as [|q l IH]; cbn [pairs_size]; unfold pair_size; lia).
    destruct (nv_step_ok b p Hb) as (b1 & -> & Hb1 & Ht & Hu1); [unfold pair_size in *; lia|]. rewrite res_bind_ret, <-Ht.
    apply IH; [done|lia]. }
  destruct (H (MkNvbuf EmptyString 256 1)) as (b' & -> & Ht); [done|cbn; lia|]. by rewrite res_bind_ret, Ht.
Qed.

Lemma query_text_witness : nvpsToStr [("a", "1"); ("b", EmptyString)] = Ret "a=1&b=".
Proof. apply (query_text [("a", "1"); ("b", EmptyString)]). reflexivity. Defined.

(** A service of the first version is set up as if its parameters were options, which
    are not empty; the eight places for arguments are enough. *)
Lemma compat_start getenv name version registryURL profile confDir overwrite :
  exists r, edgex_device_service_start getenv name version registryURL profile confDir overwrite = Ret r.
Proof.
  unfold edgex_device_service_start.
  assert (length (compat_argv registryURL profile confDir overwrite) <= 8)%nat as H.
  { destruct registryURL, profile, confDir, overwrite; cbn; lia. }
  rewrite (proj2 (Nat.leb_le _ _) H). destruct (devsdk_service_new _ _ _ _ _) as [[[svc argc] argv] err]. by eexists.
Qed.

(** An empty profile is refused. *)
Lemma empty_profile_refused :
  edgex_device_service_start (fun _ => None) "device-x" "1.0" None (Some EmptyString) None false = Ret (None, EDGEX_INVALID_ARG).
Proof. vm_compute. reflexivity. Qed.

(** A resource of binary data is presented to the driver as an array of bytes. *)
Lemma binary_becomes_array : edgex_propertytype_typecode (typecodeFromType Edgex_Binary) = Edgex_Uint8Array.
Proof. reflexivity. Qed.
