(* ===== verification/Counter.v ===== *)
(** * A driver: counters ([examples/counters/device-counter.c])

    Each device of the driver is one of 256 counters, which a read returns and
    increments and a write sets. It is a driver of the first version, so the SDK calls
    it through [V1Compat]. *)

From S2P Require Import Prelude CLib DevTypes IotData Readings V1Compat.
Local Open Scope Z_scope.

Definition NCOUNTERS : nat := 256.

(** The counters, which are 64 bits wide. *)
Abbreviation counter_driver := (list Z).

Definition counter_init (driver : counter_driver) (config : devsdk_nvpairs) : counter_driver * bool :=
  (replicate NCOUNTERS 0, true).

Definition getDeviceAddress (protocols : devsdk_protocols) : option nat :=
  match edgex_protocols_properties protocols (Some "Counter") with
  | None => None
  | Some addr =>
      match edgex_nvpairs_ulong_value addr (Some "Index") with
      | None => None
      | Some i => if Z.of_nat NCOUNTERS <=? i then None else Some (Z.to_nat i)
      end
  end.

(** The loop of a read; the counter has changed when a later request fails. *)
Fixpoint counter_get_loop (driver : counter_driver) (index : nat) (requests : list edgex_device_commandrequest)
    : counter_driver * option (list edgex_device_commandresult) :=
  match requests with
  | [] => (driver, Some [])
  | r :: requests' =>
      match devsdk_nvpairs_value (vq_attributes r) (Some "register") with
      | None => (driver, None)
      | Some reg =>
          if String.eqb reg "count01" then
            let old := default 0 (driver !! index) in
            let driver := <[index := wrap_u 64 (old + 1)]> driver in
            let '(driver, rest) := counter_get_loop driver index requests' in
            (driver, option_map (cons (MkV1Result 0 Edgex_Uint32 (int_result (wrap_u 32 old)))) rest)
          else (driver, None)
      end
  end.

Definition counter_get_handler (driver : counter_driver) (devname : string) (protocols : devsdk_protocols)
    (requests : list edgex_device_commandrequest) : counter_driver * option (list edgex_device_commandresult) :=
  match getDeviceAddress protocols with
  | None => (driver, None)
  | Some index => counter_get_loop driver index requests
  end.

(** [ui32_result] of the union, whatever the type of the value is; another member than an
    integer has no value here. *)
Definition ui32_of (v : edgex_device_resultvalue) : option Z :=
  match v with int_result z => Some (wrap_u 32 z) | _ => None end.

Fixpoint counter_put_loop (driver : counter_driver) (index : nat)
    (requests : list (edgex_device_commandrequest * edgex_device_commandresult)) : counter_driver * bool :=
  match requests with
  | [] => (driver, true)
  | (r, v) :: requests' =>
      match devsdk_nvpairs_value (vq_attributes r) (Some "register") with
      | None => (driver, false)
      | Some reg =>
          if String.eqb reg "count01" then
            counter_put_loop (<[index := default 0 (ui32_of (vr_value v))]> driver) index requests'
          else (driver, false)
      end
  end.

Definition counter_put_handler (driver : counter_driver) (devname : string) (protocols : devsdk_protocols)
    (requests : list edgex_device_commandrequest) (values : list edgex_device_commandresult) : counter_driver * bool :=
  match getDeviceAddress protocols with
  | None => (driver, false)
  | Some index => counter_put_loop driver index (zip requests values)
  end.

(** ** Through the SDK *)

Section counting.
  Context `{D : IotData} `{L : !IotDataLaws D}.
  Variables (iot_data_bool : iot_data_t -> bool) (iot_data_array_size : iot_data_t -> Z).

(** Reads of a device, one after the other. *)
Fixpoint reads (k : nat) (driver : counter_driver) (devname : string) (protocols : devsdk_protocols) (req : cmdreq)
    : res (counter_driver * list (list devsdk_commandresult)) :=
  match k with
  | O => Ret (driver, [])
  | S k =>
      '(driver, r, _) ← compat_get_handler counter_driver counter_get_handler driver devname protocols [req] [];
      l ← deref r;
      '(driver, ls) ← reads k driver devname protocols req;
      Ret (driver, l :: ls)
  end.

(** The counter is wider than the reading. *)
Lemma wrap_32_64 a b : wrap_u 32 (wrap_u 64 a + b) = wrap_u 32 (a + b).
Proof.
  unfold wrap_u. pose proof (Z.div_mod a (2 ^ 64) ltac:(lia)) as E.
  replace (a mod 2 ^ 64 + b) with (a + b + (- (a / 2 ^ 64) * 2 ^ 32) * 2 ^ 32) by lia. by rewrite Z_mod_plus_full.
Qed.

Lemma wrap_64_64 a b : wrap_u 64 (wrap_u 64 a + b) = wrap_u 64 (a + b).
Proof. unfold wrap_u. by rewrite Zplus_mod_idemp_l. Qed.

Lemma read_one driver devname protocols req i z :
  getDeviceAddress protocols = Some i -> driver !! i = Some z ->
  devsdk_nvpairs_value (rq_attributes req) (Some "register") = Some "count01" ->
  compat_get_handler counter_driver counter_get_handler driver devname protocols [req] []
  = Ret (<[i := wrap_u 64 (z + 1)]> driver, Some [MkResult 0 (iot_data_alloc_int IOT_DATA_UINT32 (wrap_u 32 z))], None).
Proof.
  intros Ha Hz Hr. unfold compat_get_handler, compat_map_requests. cbn [map res_bind]. rewrite !res_bind_ret.
  unfold counter_get_handler. rewrite Ha. cbn [counter_get_loop vq_attributes]. rewrite Hr. cbn [String.eqb Ascii.eqb].
  change (String.eqb "count01" "count01") with true. cbn match. rewrite Hz. reflexivity.
Qed.

Lemma reads_count k driver devname protocols req i z :
  getDeviceAddress protocols = Some i -> driver !! i = Some z -> 0 <= z < 2 ^ 64 ->
  devsdk_nvpairs_value (rq_attributes req) (Some "register") = Some "count01" ->
  exists driver', reads k driver devname protocols req
    = Ret (driver', map (fun j => [MkResult 0 (iot_data_alloc_int IOT_DATA_UINT32 (wrap_u 32 (z + Z.of_nat j)))]) (seq 0 k)) /\
    driver' !! i = Some (wrap_u 64 (z + Z.of_nat k)) /\ forall j, j <> i -> driver' !! j = driver !! j.
Proof.
  intros Ha Hz Hrange Hr. revert driver z Hz Hrange. induction k as [|k IH]; intros driver z Hz Hrange.
  { exists driver. cbn. rewrite Z.add_0_r, wrap_u_small by lia. by split_and!. }
  cbn [reads]. rewrite (read_one driver devname protocols req i z Ha Hz Hr), res_bind_ret. cbn [deref]. rewrite res_bind_ret.
  destruct (IH (<[i := wrap_u 64 (z + 1)]> driver) (wrap_u 64 (z + 1))) as (d' & -> & Hd' & Ho).
  - rewrite list_lookup_insert_eq; [done|]. by eapply lookup_lt_Some.
  - apply wrap_u_range. lia.
  - exists d'. rewrite res_bind_ret. split_and!.
    + do 2 f_equal. cbn [seq map]. rewrite Z.add_0_r. f_equal. rewrite <-seq_shift, map_map. apply map_ext. intros j.
      by rewrite wrap_32_64, Nat2Z.inj_succ, <-Z.add_succ_comm.
    + by rewrite Hd', wrap_64_64, Nat2Z.inj_succ, <-Z.add_succ_comm.
    + intros j Hj. rewrite Ho by done. by rewrite list_lookup_insert_ne.
Qed.

(** A counter that was set through the SDK to a value reads as that value, then as the
    next one, and so on modulo 2^32, through any number of reads, and the other counters
    stay as they are. *)
Theorem counter_counts (driver : counter_driver) (devname : string) (protocols : devsdk_protocols) (req : cmdreq) (i k : nat) (v : Z) :
  length driver = NCOUNTERS -> getDeviceAddress protocols = Some i ->
  devsdk_nvpairs_value (rq_attributes req) (Some "register") = Some "count01" -> 0 <= v < 2 ^ 32 ->
  exists driver1 driver2,
    compat_put_handler iot_data_bool iot_data_array_size counter_driver counter_put_handler driver devname protocols [req]
      [iot_data_alloc_int IOT_DATA_UINT32 v] = Ret (driver1, true, None) /\
    reads k driver1 devname protocols req
    = Ret (driver2, map (fun j => [MkResult 0 (iot_data_alloc_int IOT_DATA_UINT32 (wrap_u 32 (v + Z.of_nat j)))]) (seq 0 k)) /\
    forall j, j <> i -> driver2 !! j = driver !! j.
Proof using L.
  intros Hlen Ha Hr Hv. exists (<[i := v]> driver).
  assert (i < NCOUNTERS)%nat as Hi.
  { unfold getDeviceAddress in Ha. destruct (edgex_protocols_properties _ _) as [addr|]; [|done].
    destruct (edgex_nvpairs_ulong_value _ _) as [x|]; [|done]. destruct (Z.leb_spec (Z.of_nat NCOUNTERS) x); [done|].
    injection Ha as <-. unfold NCOUNTERS in *. lia. }
  destruct (reads_count k (<[i := v]> driver) devname protocols req i v Ha) as (d2 & Hrd & _ & Ho); [|lia|done|].
  { rewrite list_lookup_insert_eq; [done|lia]. }
  exists d2. split_and!; [|done|intros j Hj; rewrite Ho by done; by rewrite list_lookup_insert_ne].
  unfold compat_put_handler, compat_map_requests. rewrite !res_bind_ret. cbn [map map_values].
  unfold reading_from_data. rewrite type_alloc_int by (by eexists). cbn [property_of_iot option_map].
  rewrite int_alloc_int by (unfold in_format; cbn [int_format]; unfold in_u; lia). unfold counter_put_handler. rewrite Ha. cbn [zip zip_with counter_put_loop vq_attributes].
  rewrite Hr. change (String.eqb "count01" "count01") with true. cbn match. cbn [vr_value ui32_of default].
  by rewrite wrap_u_small by lia.
Qed.

End counting.

Definition sample_counter_request : cmdreq :=
  MkReq "Counter01" [("register", "count01")] (MkTypecode false IOT_DATA_UINT32)
    (MkPropval Edgex_Uint32 true true EmptyString EmptyString EmptyString EmptyString no_arg no_arg no_arg
       no_arg no_arg EmptyString EmptyString EmptyString false) [] None.

Lemma counter_counts_witness :
  exists d1 d2,
    compat_put_handler (D := sample_iot) (fun _ => false) (fun _ => 0) counter_driver counter_put_handler (replicate 256 0) "c"
      [("Counter", [("Index", "7")])] [sample_counter_request] [iot_data_alloc_int IOT_DATA_UINT32 4294967295] = Ret (d1, true, None) /\
    reads 2 d1 "c" [("Counter", [("Index", "7")])] sample_counter_request
    = Ret (d2, [[MkResult 0 (iot_data_alloc_int IOT_DATA_UINT32 4294967295)]; [MkResult 0 (iot_data_alloc_int IOT_DATA_UINT32 0)]]).
Proof.
  destruct (counter_counts (D := sample_iot) (fun _ => false) (fun _ => 0) (replicate 256 0) "c" [("Counter", [("Index", "7")])]
              sample_counter_request 7 2 4294967295) as (d1 & d2 & H1 & H2 & _).
  - reflexivity.
  - reflexivity.
  - reflexivity.
  - lia.
  - exists d1, d2. split; [exact H1|exact H2].
Defined.
