(* ===== verification/ExampleDevice.v ===== *)
(** * The device service of the project ([example-device-c/template.c])

    A driver of the first version of the SDK: a reading is a random number, which is
    also written to a MySQL database. The client library of MySQL is a parameter. *)

From S2P Require Import Prelude CLib DevTypes IotData Readings Rest Metadata V1Compat.
Local Open Scope Z_scope.

Section template.
  (** The library with the database behind it, and its connections. *)
  Variables (mysql conn : Type).
  Variables (mysql_init : mysql -> mysql * option conn)
            (mysql_real_connect : mysql -> conn -> string -> string -> string -> string -> mysql * bool)
            (mysql_query : mysql -> conn -> string -> mysql)
            (mysql_close : mysql -> conn -> mysql).
  (** [rand] of the C library with its state. *)
  Variables (seed : Type) (rand : seed -> seed * Z).

Record template_driver := MkTemplate { td_mysql : mysql; td_seed : seed }.

(** A call of the driver returns, or it ends the process. *)
Inductive outcome (A : Type) := Returned (a : A) | Exited (code : Z).
Arguments Returned {A} a.
Arguments Exited {A} code.

Definition insert_text (v : Z) : string :=
  "INSERT INTO new_tracking.test (name,number) VALUES ('values'," +:+ print_i v +:+ ")".

(** The readings; what was written stays written when a later request fails. *)
Fixpoint template_get_loop (c : conn) (d : template_driver) (requests : list edgex_device_commandrequest)
    : res (template_driver * option (list edgex_device_commandresult)) :=
  match requests with
  | [] => Ret (d, Some [])
  | r :: requests' =>
      match devsdk_nvpairs_value (vq_attributes r) (Some "type") with
      | Some rdtype =>
          if String.eqb rdtype "random" then
            let '(sd, n) := rand (td_seed d) in
            let v := wrap_u 8 (Z.rem n 100) in
            query ← sprintf_in 100 (insert_text v);
            '(d, rest) ← template_get_loop c (MkTemplate (mysql_query (td_mysql d) c query) sd) requests';
            Ret (d, option_map (cons (MkV1Result 0 Edgex_Uint8 (int_result v))) rest)
          else Ret (d, None)
      | None => Ret (d, None)
      end
  end.

Definition template_get_handler (d : template_driver) (devname : string) (protocols : devsdk_protocols)
    (requests : list edgex_device_commandrequest)
    : res (outcome (template_driver * option (list edgex_device_commandresult))) :=
  let '(s, o) := mysql_init (td_mysql d) in
  match o with
  | None => Ret (Exited 1)
  | Some c =>
      let '(s, ok) := mysql_real_connect s c "localhost" "root" "pw" "new_tracking" in
      if (ok : bool) then
        '(d, readings) ← template_get_loop c (MkTemplate s (td_seed d)) requests;
        match readings with
        | Some _ => Ret (Returned (MkTemplate (mysql_close (td_mysql d) c) (td_seed d), readings))
        | None => Ret (Returned (d, None))
        end
      else Ret (Exited 1)
  end.

(** A value that is written is only logged. *)
Definition template_put_handler (d : template_driver) (devname : string) (protocols : devsdk_protocols)
    (requests : list edgex_device_commandrequest) (values : list edgex_device_commandresult) : template_driver * bool :=
  (d, true).

(** ** What is read and what is written *)

(** The numbers that [rand] gives next. *)
Fixpoint rands (k : nat) (sd : seed) : seed * list Z :=
  match k with
  | O => (sd, [])
  | S k => let '(sd, n) := rand sd in let '(sd, ns) := rands k sd in (sd, n :: ns)
  end.

Definition random_request (r : edgex_device_commandrequest) : Prop :=
  devsdk_nvpairs_value (vq_attributes r) (Some "type") = Some "random".

Definition reading_of (n : Z) : edgex_device_commandresult := MkV1Result 0 Edgex_Uint8 (int_result (n mod 100)).

Definition insert_all (s : mysql) (c : conn) (ns : list Z) : mysql :=
  foldl (fun s n => mysql_query s c (insert_text (n mod 100))) s ns.

Hypothesis rand_nonneg : forall sd, 0 <= snd (rand sd).

(** A number below 100 fits the type of the reading, and its statement the buffer. *)
Lemma small_reading n : 0 <= n -> wrap_u 8 (Z.rem n 100) = n mod 100.
Proof. intros Hn. rewrite Z.rem_mod_nonneg by lia. apply wrap_u_small. pose proof (Z.mod_pos_bound n 100). lia. Qed.

Lemma insert_fits v : 0 <= v < 100 -> (String.length (insert_text v) < 100)%nat.
Proof.
  intros Hv. unfold insert_text.
  assert (forall k : nat, (k < 100)%nat ->
    (String.length ("INSERT INTO new_tracking.test (name,number) VALUES ('values'," +:+ print_i (Z.of_nat k) +:+ ")") <? 100)%nat = true) as H.
  { assert (forallb (fun k : nat => (String.length ("INSERT INTO new_tracking.test (name,number) VALUES ('values'," +:+ print_i (Z.of_nat k) +:+ ")") <? 100)%nat)
              (seq 0 100) = true) as F by (vm_compute; reflexivity).
    intros k Hk. rewrite forallb_forall in F. apply F. apply in_seq. lia. }
  specialize (H (Z.to_nat v) ltac:(lia)). rewrite Z2Nat.id in H by lia. by apply Nat.ltb_lt in H.
Qed.

Lemma rands_length k sd : length (snd (rands k sd)) = k.
Proof using Type.
  revert sd. induction k as [|k IH]; intros sd; [done|]. cbn [rands]. destruct (rand sd) as [sd' n].
  specialize (IH sd'). destruct (rands k sd') as [sd'' ns]. cbn in *. by rewrite IH.
Qed.

Lemma get_loop_random c requests s sd :
  Forall random_request requests ->
  template_get_loop c (MkTemplate s sd) requests
  = let '(sd, ns) := rands (length requests) sd in Ret (MkTemplate (insert_all s c ns) sd, Some (map reading_of ns)).
Proof using rand_nonneg.
  intros H. revert s sd. induction H as [|r rs Hr _ IH]; intros s sd; [done|].
  cbn [template_get_loop length rands td_seed]. rewrite Hr. change (String.eqb "random" "random") with true. cbn match.
  pose proof (rand_nonneg sd) as Hn. destruct (rand sd) as [sd' n]. cbn [snd] in Hn. rewrite small_reading by done.
  unfold sprintf_in. pose proof (insert_fits (n mod 100) (Z.mod_pos_bound n 100 ltac:(lia))) as Hf.
  destruct (Nat.ltb_spec (String.length (insert_text (n mod 100))) 100) as [_|]; [|lia]. rewrite res_bind_ret, IH.
  cbn [td_mysql]. by destruct (rands (length rs) sd') as [sd'' ns].
Qed.

(** A read of random numbers returns one number from 0 to 99 for each request, in the
    order they were drawn; each is written to the database once, through a connection
    that is closed afterwards, and the SDK gets it as an unsigned value of 8 bits. *)
Theorem readings_recorded `{D : IotData} (d : template_driver) (devname : string) (protocols : devsdk_protocols)
    (requests : list edgex_device_commandrequest) (s1 s2 : mysql) (c : conn) :
  mysql_init (td_mysql d) = (s1, Some c) ->
  mysql_real_connect s1 c "localhost" "root" "pw" "new_tracking" = (s2, true) ->
  Forall random_request requests ->
  let '(sd, ns) := rands (length requests) (td_seed d) in
  let readings := map reading_of ns in
  template_get_handler d devname protocols requests
  = Ret (Returned (MkTemplate (mysql_close (insert_all s2 c ns) c) sd, Some readings)) /\
  length ns = length requests /\ Forall (fun n => 0 <= n mod 100 < 100) ns /\
  map_readings readings = Ret (Some (map (fun n => MkResult 0 (iot_data_alloc_int IOT_DATA_UINT8 (n mod 100))) ns)).
Proof using rand_nonneg.
  intros Hi Hc Hr. unfold template_get_handler. rewrite Hi, Hc. cbn match. rewrite get_loop_random by done.
  assert (length (snd (rands (length requests) (td_seed d))) = length requests) as Hlen by apply rands_length.
  destruct (rands (length requests) (td_seed d)) as [sd ns]. rewrite res_bind_ret. cbn [snd] in Hlen. split_and!; [done|done| |].
  - apply Forall_forall. intros n _. apply Z.mod_pos_bound. lia.
  - clear. induction ns as [|n ns IH]; [done|]. cbn [map map_readings]. by rewrite IH.
Qed.

(** When a request is for something else, the driver gives up and the connection stays
    open. *)
Lemma connection_left_open d devname protocols s1 s2 c r :
  mysql_init (td_mysql d) = (s1, Some c) ->
  mysql_real_connect s1 c "localhost" "root" "pw" "new_tracking" = (s2, true) ->
  devsdk_nvpairs_value (vq_attributes r) (Some "type") = None ->
  template_get_handler d devname protocols [r] = Ret (Returned (MkTemplate s2 (td_seed d), None)).
Proof using Type.
  intros Hi Hc Hr. unfold template_get_handler. rewrite Hi, Hc. cbn match. cbn [template_get_loop]. by rewrite Hr.
Qed.

End template.

(** ** A library that records the statements *)

Lemma readings_recorded_witness :
  template_get_handler (list string) unit (fun s => (s, Some tt)) (fun s _ _ _ _ _ => (s, true)) (fun s _ q => q :: s) (fun s _ => s)
    nat (fun n => (S n, 77 * Z.of_nat n)) (MkTemplate (list string) nat [] 1%nat) "dev" []
    [MkV1Request "randomnumber" [("type", "random")] Edgex_Int32; MkV1Request "randomnumber" [("type", "random")] Edgex_Int32]
  = Ret (Returned _ (MkTemplate (list string) nat [insert_text 54; insert_text 77] 3%nat, Some [reading_of 77; reading_of 154])).
Proof.
  apply (readings_recorded (list string) unit (fun s => (s, Some tt)) (fun s _ _ _ _ _ => (s, true)) (fun s _ q => q :: s)
           (fun s _ => s) nat (fun n => (S n, 77 * Z.of_nat n)) ltac:(intros n; cbn; lia) (D := sample_iot)
           (MkTemplate (list string) nat [] 1%nat) "dev" []
           [MkV1Request "randomnumber" [("type", "random")] Edgex_Int32; MkV1Request "randomnumber" [("type", "random")] Edgex_Int32]
           [] [] tt); [reflexivity|reflexivity|].
  repeat constructor.
Defined.
