(* ===== verification/Logging.v ===== *)
(** * Log lines and metrics ([edgex-logging.c], [metrics.c])

    A log line goes to a file or, as a JSON object, to the logging service; metrics are
    the reply to a request. The figures of the operating system are arguments. *)

From Stdlib Require Import Floats.SpecFloat.
From S2P Require Import Prelude CLib CFloat Parson ParsonText ParsonProofs DevTypes EdgexRest Rest Device Config.
Local Open Scope Z_scope.
Local Open Scope sdk_scope.

(** ** The time of a log line ([gmtime_r] and [strftime]) *)

(** The date of a day, counted from 1970-01-01: with March as the first month the leap
    day is the last of a year; 400 years have 146097 days. *)
Definition year_of_era (doe : Z) : Z := (doe - doe / 1460 + doe / 36524 - doe / 146096) / 365.
Definition day_of_year (doe : Z) : Z :=
  let yoe := year_of_era doe in doe - (365 * yoe + yoe / 4 - yoe / 100).

Definition date_of_day (day : Z) : Z * Z * Z :=
  let z := day + 719468 in
  let era := z / 146097 in
  let doe := z mod 146097 in
  let doy := day_of_year doe in
  let mp := (5 * doy + 2) / 153 in
  let month := if mp <? 10 then mp + 3 else mp - 9 in
  (year_of_era doe + era * 400 + (if month <=? 2 then 1 else 0), month, doy - (153 * mp + 2) / 5 + 1).

(** The day of a date. *)
Definition day_of_date (date : Z * Z * Z) : Z :=
  let '(y, m, d) := date in
  let y := if m <=? 2 then y - 1 else y in
  let era := y / 400 in
  let yoe := y mod 400 in
  let doy := (153 * (if 2 <? m then m - 3 else m + 9) + 2) / 5 + d - 1 in
  era * 146097 + (yoe * 365 + yoe / 4 - yoe / 100 + doy) - 719468.

(** [%FT%TZ] *)
Definition iso8601 (timestamp : Z) : string :=
  let '(y, m, d) := date_of_day (timestamp / 86400) in
  let s := timestamp mod 86400 in
  print_i y +:+ "-" +:+ print_pad 2 m +:+ "-" +:+ print_pad 2 d +:+ "T" +:+
  print_pad 2 (s / 3600) +:+ ":" +:+ print_pad 2 (s / 60 mod 60) +:+ ":" +:+ print_pad 2 (s mod 60) +:+ "Z".

Definition EDGEX_TSIZE : nat := 32.

(** ** Log lines *)

(** The text of a line; the correlation identifier is that of the thread. *)
Definition edgex_log_tofile (name : option string) (crlid : option string) (l : Z) (timestamp : Z) (message : string)
    : res string :=
  level ← edgex_logger_levelname l;
  Ret ("level=" +:+ level +:+ " ts=" +:+ iso8601 timestamp +:+ " app=" +:+ default "(default)" name +:+
       match crlid with Some id => " correlation-id=" +:+ id | None => EmptyString end +:+
       " msg=" +:+ String (chr 34) (message +:+ String (chr 34) (String (chr 10) EmptyString))).

Definition log_json (name : option string) (level : string) (timestamp : Z) (message : string) : JSON_Value :=
  VObject ([] ;> put_string "originService" name ;> put_string "logLevel" (Some level)
    ;> (fun o => default o (json_object_set_number o "created" (of_int 53 1024 timestamp)))
    ;> put_string "message" (Some message)).

Definition edgex_log_torest {net} (curl_easy_perform : net -> http_request -> net * http_response) (crlid : option string)
    (n : net) (name : option string) (to : string) (l : Z) (timestamp : Z) (message : string) : res net :=
  level ← edgex_logger_levelname l;
  let '(n, _, _, _) :=
    edgex_http_post net curl_easy_perform crlid n ctx_zero to
      (json_serialize_to_string (Some (log_json name level timestamp message))) None in
  Ret n.

(** ** Metrics *)

(** [struct mallinfo], whose fields are [int], and the parts of [struct rusage]. *)
Record mallinfo := MkMallinfo { mi_uordblks : Z; mi_arena : Z; mi_hblkhd : Z }.
Record rusage := MkRusage { ru_utime_sec : Z; ru_utime_usec : Z; ru_stime_sec : Z; ru_stime_usec : Z }.

Definition put_number (name : string) (d : spec_float) (o : JSON_Object) : JSON_Object :=
  default o (json_object_set_number o name d).

Definition f64 : Z -> spec_float := of_int 53 1024.

Definition cpu_time (r : rusage) : spec_float :=
  SFadd 53 1024 (f64 (ru_utime_sec r + ru_stime_sec r)) (SFdiv 53 1024 (f64 (ru_utime_usec r + ru_stime_usec r)) (f64 1000000)).

Definition metrics_json (mi : mallinfo) (load : option spec_float) (nprocs : Z) (usage : option rusage) (now starttime : Z)
    : res JSON_Value :=
  if in_s 32 (mi_arena mi + mi_hblkhd mi) then
    let obj := [] ;> put_value "Memory" (VObject ([] ;> put_uint "Alloc" (wrap_u 64 (mi_uordblks mi))
                                                    ;> put_uint "TotalAlloc" (wrap_u 64 (mi_arena mi + mi_hblkhd mi)))) in
    let obj := match load with
               | Some l => put_number "CpuLoadAvg" (SFdiv 53 1024 (SFmul 53 1024 l (f64 100)) (f64 nprocs)) obj
               | None => obj
               end in
    let obj := match usage with
               | Some r =>
                   let walltime := SFdiv 53 1024 (f64 (wrap_u 64 (now - starttime))) (f64 1000) in
                   obj ;> put_number "CpuTime" (cpu_time r) ;> put_number "CpuAvgUsage" (SFdiv 53 1024 (cpu_time r) walltime)
               | None => obj
               end in
    Ret (VObject obj)
  else Crash.

Definition edgex_device_handler_metrics (mi : mallinfo) (load : option spec_float) (nprocs : Z) (usage : option rusage)
    (now starttime : Z) : res (option string * Z) :=
  v ← metrics_json mi load nprocs usage now starttime; Ret (json_serialize_to_string (Some v), MHD_HTTP_OK).

(** ** The calendar *)

Fixpoint all_from (fuel : nat) (f : Z -> bool) (z : Z) : bool :=
  match fuel with O => true | S fuel => f z && all_from fuel f (z + 1) end.

Lemma all_from_spec fuel f z x : all_from fuel f z = true -> z <= x < z + Z.of_nat fuel -> f x = true.
Proof.
  revert z. induction fuel as [|fuel IH]; intros z H Hx; [lia|]. cbn [all_from] in H. apply andb_prop in H as [Hz H].
  destruct (Z.eq_dec z x) as [->|Hne]; [done|]. apply (IH (z + 1) H). lia.
Qed.

Lemma era_bounds doe : 0 <= doe < 146097 -> 0 <= day_of_year doe <= 365 /\ 0 <= year_of_era doe < 400.
Proof.
  intros H. unfold day_of_year. cbv zeta. unfold year_of_era.
  assert (doe / 36524 = 0 \/ doe / 36524 = 1 \/ doe / 36524 = 2 \/ doe / 36524 = 3 \/ doe / 36524 = 4) as Hb
    by (Z.to_euclidean_division_equations; lia).
  assert (doe / 146096 = 0 \/ doe / 146096 = 1) as Hc by (Z.to_euclidean_division_equations; lia).
  destruct Hb as [Hb|[Hb|[Hb|[Hb|Hb]]]], Hc as [Hc|Hc]; rewrite Hb, Hc; Z.to_euclidean_division_equations; lia.
Qed.

(** The date of a day is the date that has that day, in every year. *)
Lemma date_round_trip day : day_of_date (date_of_day day) = day.
Proof.
  unfold date_of_day, day_of_date. pose proof (Z.mod_pos_bound (day + 719468) 146097 ltac:(lia)) as Hdoe.
  pose proof (Z.div_mod (day + 719468) 146097 ltac:(lia)) as E. pose proof (era_bounds _ Hdoe) as [Hdoy Hyoe].
  set (doe := (day + 719468) mod 146097) in *. set (era := (day + 719468) / 146097) in *.
  assert (day_of_year doe = doe - (365 * year_of_era doe + year_of_era doe / 4 - year_of_era doe / 100)) as Ed by reflexivity.
  set (yoe := year_of_era doe) in *. set (doy := day_of_year doe) in *.
  set (mp := (5 * doy + 2) / 153). assert (0 <= mp <= 11) as Hmp by (unfold mp; Z.to_euclidean_division_equations; lia).
  set (month := if mp <? 10 then mp + 3 else mp - 9).
  assert ((if month <=? 2 then yoe + era * 400 + (if month <=? 2 then 1 else 0) - 1
           else yoe + era * 400 + (if month <=? 2 then 1 else 0)) = yoe + era * 400) as -> by (destruct (month <=? 2); lia).
  assert ((if 2 <? month then month - 3 else month + 9) = mp) as ->.
  { unfold month. destruct (Z.ltb_spec mp 10); [destruct (Z.ltb_spec 2 (mp + 3))|destruct (Z.ltb_spec 2 (mp - 9))]; lia. }
  rewrite Z.div_add, Z.mod_add by lia. rewrite (Z.div_small yoe), (Z.mod_small yoe) by lia. lia.
Qed.

(** A number of two digits. *)
Lemma two_digits n : 0 <= n < 100 -> String.length (print_pad 2 n) = 2%nat.
Proof.
  intros H. assert (all_from 100 (fun n => (String.length (print_pad 2 n) =? 2)%nat) 0 = true) as T by (vm_compute; reflexivity).
  apply Nat.eqb_eq. apply (all_from_spec _ _ _ n T). rewrite ?Z2Nat.id; lia.
Qed.

Lemma four_digits n : 1000 <= n < 10000 -> String.length (print_i n) = 4%nat.
Proof.
  intros H. assert (all_from (Z.to_nat 9000) (fun n => (String.length (print_i n) =? 4)%nat) 1000 = true) as T by (vm_compute; reflexivity).
  apply Nat.eqb_eq. apply (all_from_spec _ _ _ n T). rewrite ?Z2Nat.id; lia.
Qed.

(** Up to the year 9600 the time of a line has 20 characters, so it fits its buffer. *)
Lemma iso8601_fits timestamp :
  0 <= timestamp < 86400 * (24 * 146097 - 719468) ->
  String.length (iso8601 timestamp) = 20%nat /\ (String.length (iso8601 timestamp) < EDGEX_TSIZE)%nat.
Proof.
  intros H. assert (String.length (iso8601 timestamp) = 20%nat) as ->; [|unfold EDGEX_TSIZE; lia].
  unfold iso8601, date_of_day. set (z := timestamp / 86400 + 719468).
  assert (0 <= z < 24 * 146097) as Hz by (unfold z; Z.to_euclidean_division_equations; lia).
  pose proof (Z.mod_pos_bound z 146097 ltac:(lia)) as Hdoe. pose proof (era_bounds _ Hdoe) as [Hdoy Hyoe].
  assert (4 <= z / 146097 < 24) as Hera by (unfold z in *; Z.to_euclidean_division_equations; lia).
  set (doy := day_of_year _) in *. set (yoe := year_of_era _) in *. set (era := z / 146097) in *.
  set (mp := (5 * doy + 2) / 153). assert (0 <= mp <= 11) as Hmp by (unfold mp; Z.to_euclidean_division_equations; lia).
  assert (0 <= doy - (153 * mp + 2) / 5 + 1 < 100) as Hd by (unfold mp; Z.to_euclidean_division_equations; lia).
  set (month := if mp <? 10 then mp + 3 else mp - 9).
  assert (0 <= month < 100) as Hm by (unfold month; destruct (Z.ltb_spec mp 10); lia).
  assert (1000 <= yoe + era * 400 + (if month <=? 2 then 1 else 0) < 10000) as Hy by (destruct (month <=? 2); lia).
  rewrite !length_append, !two_digits, four_digits by (done || (Z.to_euclidean_division_equations; lia)). reflexivity.
Qed.

(** The memory in use is counted in an [int]: from 2 GiB on a size close to 2^64 is
    reported. *)
Lemma large_memory_misreported :
  match metrics_json (MkMallinfo (wrap_s 32 (3 * 2 ^ 30)) 0 0) None 1 None 0 0 with
  | Ret (VObject o) =>
      match json_object_get_value (Some o) "Memory" with
      | Some (VObject m) => json_object_get_value (Some m) "Alloc" = Some (VUint (2 ^ 64 - 2 ^ 30))
      | _ => False
      end
  | _ => False
  end.
Proof. vm_compute. reflexivity. Qed.
