(* ===== verification/NfsProto.v ===== *)
(** * The NFSv4 protocol: numbers and names ([src/nfs-ganesha/src/include/nfsv41.h])

    The statuses and operation numbers that the server compares with, and the check of
    the strings a client sends: [path_filter] of [Protocols/NFS/nfs_proto_tools.c] and
    [nfs4_utf8string_scan] of [include/nfs_proto_tools.h]. A string is the memory from
    its first byte on; a read behind its end is [Crash]. *)

From S2P Require Import Prelude.
Local Open Scope Z_scope.

(** ** Numbers *)

Definition NFS4_OK : Z := 0.
Definition NFS4ERR_ACCESS : Z := 13.
Definition NFS4ERR_INVAL : Z := 22.
Definition NFS4ERR_ROFS : Z := 30.
Definition NFS4ERR_NAMETOOLONG : Z := 63.
Definition NFS4ERR_NOTSUPP : Z := 10004.
Definition NFS4ERR_DENIED : Z := 10010.
Definition NFS4ERR_EXPIRED : Z := 10011.
Definition NFS4ERR_RESOURCE : Z := 10018.
Definition NFS4ERR_NOFILEHANDLE : Z := 10020.
Definition NFS4ERR_MINOR_VERS_MISMATCH : Z := 10021.
Definition NFS4ERR_BADCHAR : Z := 10040.
Definition NFS4ERR_BADNAME : Z := 10041.
Definition NFS4ERR_OP_ILLEGAL : Z := 10044.
Definition NFS4ERR_BADSESSION : Z := 10052.
Definition NFS4ERR_BADSLOT : Z := 10053.
Definition NFS4ERR_CONN_NOT_BOUND_TO_SESSION : Z := 10055.
Definition NFS4ERR_SEQ_MISORDERED : Z := 10063.
Definition NFS4ERR_SEQUENCE_POS : Z := 10064.
Definition NFS4ERR_REP_TOO_BIG : Z := 10066.
Definition NFS4ERR_REP_TOO_BIG_TO_CACHE : Z := 10067.
Definition NFS4ERR_RETRY_UNCACHED_REP : Z := 10068.
Definition NFS4ERR_TOO_MANY_OPS : Z := 10070.
Definition NFS4ERR_OP_NOT_IN_SESSION : Z := 10071.
Definition NFS4ERR_NOT_ONLY_OP : Z := 10081.

Definition NFS4_OP_PUTROOTFH : Z := 24.
Definition NFS4_OP_SETATTR : Z := 34.
Definition NFS4_OP_WRITE : Z := 38.
Definition NFS4_OP_RELEASE_LOCKOWNER : Z := 39.
Definition NFS4_OP_BIND_CONN_TO_SESSION : Z := 41.
Definition NFS4_OP_EXCHANGE_ID : Z := 42.
Definition NFS4_OP_CREATE_SESSION : Z := 43.
Definition NFS4_OP_DESTROY_SESSION : Z := 44.
Definition NFS4_OP_SEQUENCE : Z := 53.
Definition NFS4_OP_DESTROY_CLIENTID : Z := 57.
Definition NFS4_OP_RECLAIM_COMPLETE : Z := 58.
Definition NFS4_OP_REMOVEXATTR : Z := 75.
Definition NFS4_OP_ILLEGAL : Z := 10044.

(** ** Names *)

Definition UTF8_SCAN_NOSLASH : Z := 0x01.
Definition UTF8_SCAN_NODOT : Z := 0x02.
Definition UTF8_SCAN_CKUTF8 : Z := 0x04.
Definition UTF8_SCAN_PATH : Z := 0x10.

Definition MAXNAMLEN : Z := 255.
Definition MAXPATHLEN : Z := 4096.

(** A bit of the scan flags. *)
Definition scans (scan flag : Z) : bool := negb (Z.land scan flag =? 0).

(** A byte that is not of the form 10xxxxxx. *)
Definition no_continuation (b : Z) : bool := negb (Z.land b 0xc0 =? 0x80).

(** The name at [np], behind its first dot, is "." or "..". *)
Definition only_dots (np : list Z) : res bool :=
  c0 ← deref (np !! 0%nat);
  if c0 =? 0 then Ret true
  else if c0 =? 46 then c1 ← deref (np !! 1%nat); Ret (c1 =? 0)
  else Ret false.

Fixpoint path_filter_from (first : bool) (np : list Z) (scan : Z) : res Z :=
  match np with
  | [] => Crash
  | c :: np =>
    if c =? 0 then Ret NFS4_OK
    else if c <? 0x80 then
      if (c =? 47) && scans scan UTF8_SCAN_NOSLASH then Ret NFS4ERR_BADCHAR
      else if first && (c =? 46) && scans scan UTF8_SCAN_NODOT then
        dots ← only_dots np;
        if (dots : bool) then Ret NFS4ERR_BADNAME else path_filter_from false np scan
      else path_filter_from false np scan
    else if scans scan UTF8_SCAN_CKUTF8 then
      if Z.land c 0xe0 =? 0xc0 then
        match np with
        | [] => Crash
        | b0 :: np1 =>
          if no_continuation b0 || (Z.land c 0xfe =? 0xc0) then Ret NFS4ERR_INVAL
          else path_filter_from false np1 scan
        end
      else if Z.land c 0xf0 =? 0xe0 then
        match np with
        | [] => Crash
        | b0 :: np1 =>
          if no_continuation b0 then Ret NFS4ERR_INVAL
          else
            match np1 with
            | [] => Crash
            | b1 :: np2 =>
              if no_continuation b1
                 || ((c =? 0xe0) && (Z.land b0 0xe0 =? 0x80))
                 || ((c =? 0xed) && (Z.land b0 0xe0 =? 0xa0))
                 || ((c =? 0xef) && (b0 =? 0xbf) && (Z.land b1 0xfe =? 0xbe))
              then Ret NFS4ERR_INVAL
              else path_filter_from false np2 scan
            end
        end
      else if Z.land c 0xf8 =? 0xf0 then
        match np with
        | [] => Crash
        | b0 :: np1 =>
          if no_continuation b0 then Ret NFS4ERR_INVAL
          else
            match np1 with
            | [] => Crash
            | b1 :: np2 =>
              if no_continuation b1 then Ret NFS4ERR_INVAL
              else
                match np2 with
                | [] => Crash
                | b2 :: np3 =>
                  if no_continuation b2
                     || ((c =? 0xf0) && (Z.land b0 0xf0 =? 0x80))
                     || ((c =? 0xf4) && (0x8f <? b0)) || (0xf4 <? c)
                  then Ret NFS4ERR_INVAL
                  else path_filter_from false np3 scan
                end
            end
        end
      else Ret NFS4ERR_INVAL
    else path_filter_from false np scan
  end.

Definition path_filter (name : list Z) (scan : Z) : res Z := path_filter_from true name scan.

(** A [utf8string]: the address of its bytes, which are followed by a NUL, and its
    length. *)
Record utf8string := MkUtf8 { utf8string_len : Z; utf8string_val : option (list Z) }.

Definition nfs4_utf8string_scan (input : utf8string) (scan : Z) : res Z :=
  match utf8string_val input with
  | None => Ret NFS4ERR_INVAL
  | Some val =>
    if utf8string_len input =? 0 then Ret NFS4ERR_INVAL
    else if (scans scan UTF8_SCAN_PATH && (MAXPATHLEN <? utf8string_len input))
            || (negb (scans scan UTF8_SCAN_PATH) && (MAXNAMLEN <? utf8string_len input))
    then Ret NFS4ERR_NAMETOOLONG
    else if (scan =? 0) || (scan =? UTF8_SCAN_PATH) then Ret NFS4_OK
    else path_filter val scan
  end.

(** [l] bytes and the NUL behind them, copied to memory of their own. *)
Definition utf8string_dup (s : option (list Z)) (l : nat) : res utf8string :=
  match s with
  | None => Ret (MkUtf8 0 None)
  | Some s =>
    if (l =? 0)%nat then Ret (MkUtf8 0 None)
    else if (length s <? l + 1)%nat then Crash
    else Ret (MkUtf8 (Z.of_nat l) (Some (take (l + 1) s)))
  end.
