(* ===== verification/NfsNames.v ===== *)
(** * The names that the NFS server accepts

    [path_filter] against the definition of UTF-8: a string passes exactly when it is
    the encoding of Unicode scalar values and is not one of the names that the flags
    forbid; it never reads behind the NUL. *)

From Stdlib Require Import ZifyBool.
From S2P Require Import Prelude NfsProto.
Local Open Scope Z_scope.

(** ** UTF-8 (RFC 3629) *)

Definition utf8_encode (cp : Z) : list Z :=
  if cp <? 0x80 then [cp]
  else if cp <? 0x800 then [0xc0 + cp / 64; 0x80 + cp mod 64]
  else if cp <? 0x10000 then [0xe0 + cp / 4096; 0x80 + cp / 64 mod 64; 0x80 + cp mod 64]
  else [0xf0 + cp / 262144; 0x80 + cp / 4096 mod 64; 0x80 + cp / 64 mod 64; 0x80 + cp mod 64].

(** A scalar value that may stand in a name: no NUL, no surrogate, neither U+FFFE nor U+FFFF. *)
Definition scalar (cp : Z) : Prop :=
  0 < cp <= 0x10ffff /\ ~ (0xd800 <= cp <= 0xdfff) /\ cp <> 0xfffe /\ cp <> 0xffff.

Definition is_utf8 (s : list Z) : Prop := exists cps, Forall scalar cps /\ s = concat (map utf8_encode cps).

(** What the flags ask of the name [s]. *)
Definition good_name (scan : Z) (s : list Z) : Prop :=
  (scans scan UTF8_SCAN_NOSLASH = true -> 47 ∉ s)
  /\ (scans scan UTF8_SCAN_NODOT = true -> s <> [46] /\ s <> [46; 46])
  /\ (scans scan UTF8_SCAN_CKUTF8 = true -> is_utf8 s).

(** ** The sequences of bytes *)

Abbreviation cont b := (0x80 <= b < 0xc0).

Inductive utf8 : list Z -> Prop :=
| utf8_0 : utf8 []
| utf8_1 c s : 1 <= c < 0x80 -> utf8 s -> utf8 (c :: s)
| utf8_2 c b0 s : 0xc2 <= c < 0xe0 -> cont b0 -> utf8 s -> utf8 (c :: b0 :: s)
| utf8_3 c b0 b1 s : 0xe0 <= c < 0xf0 -> cont b0 -> cont b1 -> (c = 0xe0 -> 0xa0 <= b0) -> (c = 0xed -> b0 < 0xa0)
    -> ~ (c = 0xef /\ b0 = 0xbf /\ 0xbe <= b1) -> utf8 s -> utf8 (c :: b0 :: b1 :: s)
| utf8_4 c b0 b1 b2 s : 0xf0 <= c < 0xf5 -> cont b0 -> cont b1 -> cont b2 -> (c = 0xf0 -> 0x90 <= b0) -> (c = 0xf4 -> b0 < 0x90)
    -> utf8 s -> utf8 (c :: b0 :: b1 :: b2 :: s).

Lemma encode_utf8 cp s : scalar cp -> utf8 s -> utf8 (utf8_encode cp ++ s).
Proof.
  intros (Hr & Hs & H1 & H2) Hu. unfold utf8_encode. guards; bool_to_prop; cbn [app]; constructor; try done;
    Z.to_euclidean_division_equations; lia.
Qed.

(** The scalar value of a sequence. *)
Lemma utf8_head s : utf8 s -> s = [] \/ exists cp s', scalar cp /\ utf8 s' /\ s = utf8_encode cp ++ s' /\ (length s' < length s)%nat.
Proof.
  destruct 1 as [|c s|c b0 s|c b0 b1 s|c b0 b1 b2 s]; [by left|right..];
    [exists c, s|exists ((c - 0xc0) * 64 + (b0 - 0x80)), s
    |exists ((c - 0xe0) * 4096 + (b0 - 0x80) * 64 + (b1 - 0x80)), s
    |exists ((c - 0xf0) * 262144 + (b0 - 0x80) * 4096 + (b1 - 0x80) * 64 + (b2 - 0x80)), s];
    (split; [unfold scalar; lia|]); (split; [done|]); (split; [|cbn [length]; lia]);
    unfold utf8_encode; guards; bool_to_prop; try lia; cbn [app]; repeat f_equal;
    Z.to_euclidean_division_equations; lia.
Qed.

Lemma utf8_spec s : utf8 s <-> is_utf8 s.
Proof.
  split.
  - induction s as [s IH] using (induction_ltof1 _ (@length Z)); unfold ltof in IH. intros H.
    destruct (utf8_head s H) as [->|(cp & s' & Hc & Hu & -> & Hl)]; [by exists []|].
    destruct (IH s' Hl Hu) as (cps & Hf & ->). exists (cp :: cps). split; [by constructor|done].
  - intros (cps & Hf & ->). induction Hf as [|cp cps Hc _ IH]; [constructor|]. by apply encode_utf8.
Qed.

(** ** The tests on bytes *)

Lemma all_bytes (P : Z -> bool) c : forallb (fun n => P (Z.of_nat n)) (seq 0 256) = true -> 0 <= c < 256 -> P c = true.
Proof.
  intros H Hc. rewrite forallb_forall in H. specialize (H (Z.to_nat c)). rewrite Z2Nat.id in H by lia. apply H.
  apply in_seq. lia.
Qed.

Ltac byte_test :=
  match goal with
  | c : Z |- _ -> ?l = ?r =>
    let P := eval pattern c in (eqb l r) in
    match P with ?f _ => intros Hc; apply eqb_prop, (all_bytes f c); [vm_compute; reflexivity|exact Hc] end
  end.

Lemma test_cont c : 0 <= c < 256 -> no_continuation c = negb ((0x80 <=? c) && (c <? 0xc0)).
Proof. byte_test. Qed.
Lemma test_lead2 c : 0 <= c < 256 -> (Z.land c 0xe0 =? 0xc0) = ((0xc0 <=? c) && (c <? 0xe0)).
Proof. byte_test. Qed.
Lemma test_overlong2 c : 0 <= c < 256 -> (Z.land c 0xfe =? 0xc0) = ((0xc0 <=? c) && (c <? 0xc2)).
Proof. byte_test. Qed.
Lemma test_lead3 c : 0 <= c < 256 -> (Z.land c 0xf0 =? 0xe0) = ((0xe0 <=? c) && (c <? 0xf0)).
Proof. byte_test. Qed.
Lemma test_low c : 0 <= c < 256 -> (Z.land c 0xe0 =? 0x80) = ((0x80 <=? c) && (c <? 0xa0)).
Proof. byte_test. Qed.
Lemma test_high c : 0 <= c < 256 -> (Z.land c 0xe0 =? 0xa0) = ((0xa0 <=? c) && (c <? 0xc0)).
Proof. byte_test. Qed.
Lemma test_last2 c : 0 <= c < 256 -> (Z.land c 0xfe =? 0xbe) = ((0xbe <=? c) && (c <? 0xc0)).
Proof. byte_test. Qed.
Lemma test_lead4 c : 0 <= c < 256 -> (Z.land c 0xf8 =? 0xf0) = ((0xf0 <=? c) && (c <? 0xf8)).
Proof. byte_test. Qed.
Lemma test_low4 c : 0 <= c < 256 -> (Z.land c 0xf0 =? 0x80) = ((0x80 <=? c) && (c <? 0x90)).
Proof. byte_test. Qed.

(** ** The scan *)

(** What the scan asks of the rest [s] of a name; [first] when it is the whole name. *)
Definition fits (first : bool) (scan : Z) (s : list Z) : Prop :=
  (scans scan UTF8_SCAN_NOSLASH = true -> 47 ∉ s)
  /\ (first = true -> scans scan UTF8_SCAN_NODOT = true -> s <> [46] /\ s <> [46; 46])
  /\ (scans scan UTF8_SCAN_CKUTF8 = true -> utf8 s).

(** The run on the rest [s] ends, with success exactly when it fits. *)
Definition decides (first : bool) (scan : Z) (s t : list Z) : Prop :=
  exists st, path_filter_from first (s ++ 0 :: t) scan = Ret st /\ (st = NFS4_OK <-> fits first scan s).

Lemma fits_high first scan pre s :
  Forall (fun b => 0x80 <= b) pre -> pre <> [] -> (scans scan UTF8_SCAN_CKUTF8 = true -> utf8 (pre ++ s) <-> utf8 s) ->
  fits first scan (pre ++ s) <-> fits false scan s.
Proof.
  intros Hp Hne Hu. destruct pre as [|c pre]; [done|]. unfold fits.
  rewrite (not_elem_of_app (c :: pre)).
  assert (47 ∉ c :: pre) as Hno by (intros Hin; rewrite Forall_forall in Hp; specialize (Hp 47 Hin); lia).
  assert (0x80 <= c) as Hge by (by inversion Hp).
  assert (c :: pre ++ s <> [46] /\ c :: pre ++ s <> [46; 46]) as Hnd by (split; intros [= -> _]; lia).
  cbn [app] in *. split; (intros (H1 & H2 & H3); split; [|split]; [..|by intros Hs; apply (Hu Hs), H3]); try done.
  - intros Hs. by apply (H1 Hs).
  - intros Hs. split; [done|by apply H1].
Qed.

Lemma fits_bad first scan s : scans scan UTF8_SCAN_CKUTF8 = true -> ~ utf8 s -> ~ fits first scan s.
Proof. intros Hs Hn (_ & _ & H). by apply Hn, H. Qed.

Lemma decides_high first scan pre s t :
  Forall (fun b => 0x80 <= b) pre -> pre <> [] -> (scans scan UTF8_SCAN_CKUTF8 = true -> utf8 (pre ++ s) <-> utf8 s) ->
  path_filter_from first ((pre ++ s) ++ 0 :: t) scan = path_filter_from false (s ++ 0 :: t) scan ->
  decides false scan s t -> decides first scan (pre ++ s) t.
Proof. intros Hp Hne Hu Hrun (st & Hr & H). exists st. rewrite Hrun, Hr. by rewrite fits_high by done. Qed.

Lemma decides_bad first scan s t st :
  st <> NFS4_OK -> ~ fits first scan s -> path_filter_from first (s ++ 0 :: t) scan = Ret st -> decides first scan s t.
Proof. intros Hst Hn Hr. exists st. by rewrite Hr. Qed.

(** An ASCII character, on which the name does not fail. *)
Lemma fits_ascii first scan c s :
  1 <= c < 0x80 -> (scans scan UTF8_SCAN_NOSLASH = true -> c <> 47) ->
  (first = true -> scans scan UTF8_SCAN_NODOT = true -> c :: s <> [46] /\ c :: s <> [46; 46]) ->
  fits first scan (c :: s) <-> fits false scan s.
Proof.
  intros Hc H47 Hd. unfold fits. rewrite not_elem_of_cons.
  split; intros (H1 & H2 & H3); split; [|split|..|split]; try done.
  - intros Hs. by apply H1.
  - intros Hs. specialize (H3 Hs). inversion H3; subst; try lia; done.
  - intros Hs. split; [|by apply H1]. intros <-. by apply H47.
  - intros Hs. constructor; auto.
Qed.

Lemma only_dots_spec s t : Forall (fun b => 1 <= b < 256) s -> only_dots (s ++ 0 :: t) = Ret (bool_decide (s = [] \/ s = [46])).
Proof.
  intros Hs. destruct s as [|c s]; [done|]. inversion Hs as [|? ? Hc Hs']; subst.
  unfold only_dots. cbn [app lookup list_lookup deref]. rewrite res_bind_ret.
  rewrite (proj2 (Z.eqb_neq c 0)) by lia. destruct (Z.eqb_spec c 46) as [->|Hn].
  - destruct s as [|c' s]; [done|]. inversion Hs'; subst. cbn [app lookup list_lookup deref]. rewrite res_bind_ret.
    rewrite (proj2 (Z.eqb_neq c' 0)) by lia. by rewrite bool_decide_false by naive_solver.
  - by rewrite bool_decide_false by naive_solver.
Qed.

Ltac high_step :=
  cbn [app path_filter_from];
  rewrite (proj2 (Z.eqb_neq _ 0)), (proj2 (Z.ltb_ge _ 0x80)) by lia;
  repeat match goal with H : scans _ UTF8_SCAN_CKUTF8 = true |- _ => rewrite H end;
  rewrite ?test_lead2, ?test_lead3, ?test_lead4 by lia.

(** The tests on the bytes of a sequence decide between the two. *)
Ltac decide_bytes :=
  rewrite ?test_cont, ?test_overlong2, ?test_low, ?test_high, ?test_last2, ?test_low4 by lia;
  repeat match goal with
         | |- (if ?b then _ else _) = _ => (replace b with true by lia) || (replace b with false by lia)
         end; try reflexivity.

Section lead.
Context (first : bool) (scan c : Z) (s t : list Z).
Hypothesis Hck : scans scan UTF8_SCAN_CKUTF8 = true.
Hypothesis Hbytes : Forall (fun b => 1 <= b < 256) s.
Hypothesis Hrest : forall s', (length s' <= length s)%nat -> Forall (fun b => 1 <= b < 256) s' -> decides false scan s' t.

Ltac bad := apply (decides_bad _ _ _ _ NFS4ERR_INVAL); [done|apply fits_bad; [done|intros Hu; inversion Hu; subst; lia]|].
Ltac next pre rest :=
  apply (decides_high _ _ pre rest); [repeat constructor; lia|done| | |apply Hrest; [cbn [length]; lia|done]];
  [intros _; split; [intros Hu; inversion Hu; subst; (done || lia)|intros Hu; constructor; (done || lia)]|].

Lemma decides_lead2 : 0xc0 <= c < 0xe0 -> decides first scan (c :: s) t.
Proof using Hck Hbytes Hrest.
  intros Hc. destruct s as [|b0 s1]; [bad; high_step; decide_bytes|]. inversion Hbytes as [|? ? Hb Hs]; subst.
  destruct (decide (0xc2 <= c /\ cont b0)) as [[H2 Hb0]|Hn].
  - next [c; b0] s1. high_step. decide_bytes.
  - bad. high_step. decide_bytes.
Qed.

Lemma decides_lead3 : 0xe0 <= c < 0xf0 -> decides first scan (c :: s) t.
Proof using Hck Hbytes Hrest.
  intros Hc. destruct s as [|b0 s1]; [bad; high_step; decide_bytes|]. inversion Hbytes as [|? ? Hb Hs]; subst.
  destruct (decide (cont b0)) as [Hb0|]; [|bad; high_step; decide_bytes].
  destruct s1 as [|b1 s2]; [bad; high_step; decide_bytes|]. inversion Hs as [|? ? Hb' Hs2]; subst.
  destruct (decide (cont b1 /\ (c = 0xe0 -> 0xa0 <= b0) /\ (c = 0xed -> b0 < 0xa0) /\ ~ (c = 0xef /\ b0 = 0xbf /\ 0xbe <= b1)))
    as [(H1 & H2 & H3 & H4)|Hn].
  - next [c; b0; b1] s2. high_step. decide_bytes.
  - bad. high_step. decide_bytes.
Qed.

Lemma decides_lead4 : 0xf0 <= c < 0x100 -> decides first scan (c :: s) t.
Proof using Hck Hbytes Hrest.
  intros Hc. destruct (decide (c < 0xf8)) as [H8|]; [|bad; high_step; decide_bytes].
  destruct s as [|b0 s1]; [bad; high_step; decide_bytes|]. inversion Hbytes as [|? ? Hb Hs]; subst.
  destruct (decide (cont b0)) as [Hb0|]; [|bad; high_step; decide_bytes].
  destruct s1 as [|b1 s2]; [bad; high_step; decide_bytes|]. inversion Hs as [|? ? Hb' Hs2]; subst.
  destruct (decide (cont b1)) as [Hb1|]; [|bad; high_step; decide_bytes].
  destruct s2 as [|b2 s3]; [bad; high_step; decide_bytes|]. inversion Hs2 as [|? ? Hb'' Hs3]; subst.
  destruct (decide (cont b2 /\ c < 0xf5 /\ (c = 0xf0 -> 0x90 <= b0) /\ (c = 0xf4 -> b0 < 0x90))) as [(H1 & H2 & H3 & H4)|Hn].
  - next [c; b0; b1; b2] s3. high_step. decide_bytes.
  - bad. high_step. decide_bytes.
Qed.
End lead.

(** A byte of a name that is not checked for UTF-8. *)
Lemma decides_unchecked first scan c s t :
  scans scan UTF8_SCAN_CKUTF8 = false -> 0x80 <= c < 256 -> decides false scan s t -> decides first scan (c :: s) t.
Proof.
  intros Hck Hc. apply (decides_high first scan [c] s); [repeat constructor; lia|done|by rewrite Hck|].
  cbn [app path_filter_from]. by rewrite (proj2 (Z.eqb_neq _ 0)), (proj2 (Z.ltb_ge _ 0x80)), Hck by lia.
Qed.

Lemma decides_ascii first scan c s t :
  1 <= c < 0x80 -> Forall (fun b => 1 <= b < 256) s -> decides false scan s t -> decides first scan (c :: s) t.
Proof.
  intros Hc Hs (st & Hr & Hst). unfold decides. cbn [app path_filter_from].
  rewrite (proj2 (Z.eqb_neq _ 0)), (proj2 (Z.ltb_lt _ 0x80)) by lia.
  destruct ((c =? 47) && _) eqn:Hslash.
  { apply andb_true_iff in Hslash as [->%Z.eqb_eq Hf]. exists NFS4ERR_BADCHAR. split; [done|]. split; [done|].
    intros (H & _). by destruct (H Hf); constructor. }
  assert (scans scan UTF8_SCAN_NOSLASH = true -> c <> 47) as H47 by (intros Hf ->; by rewrite Hf in Hslash).
  destruct (first && (c =? 46) && _) eqn:Hdot.
  - apply andb_true_iff in Hdot as [Hdot Hf]. apply andb_true_iff in Hdot as [-> ->%Z.eqb_eq].
    rewrite only_dots_spec, res_bind_ret by done. case_bool_decide as Hd.
    + exists NFS4ERR_BADNAME. split; [done|]. split; [done|]. intros (_ & H & _).
      destruct (H eq_refl Hf). by destruct Hd as [->| ->].
    + exists st. split; [done|]. rewrite Hst. symmetry. apply fits_ascii; [done..|]. intros _ _.
      split; intros [= ->]; apply Hd; auto.
  - exists st. split; [done|]. rewrite Hst. symmetry. apply fits_ascii; [done..|]. intros -> Hf. rewrite Hf in Hdot.
    destruct (Z.eqb_spec c 46); [done|]. split; congruence.
Qed.

Lemma decides_all n : forall first scan s t,
  (length s <= n)%nat -> Forall (fun b => 1 <= b < 256) s -> decides first scan s t.
Proof.
  induction n as [|n IH]; intros first scan [|c s] t Hn Hs; cbn [length] in Hn; try lia.
  1, 2: (exists NFS4_OK; split; [done|]; split; [|done]; intros _; split; [intros _; apply not_elem_of_nil|split; [done|constructor]]).
  inversion Hs as [|? ? Hc Hs']; subst.
  assert (forall s', (length s' <= length s)%nat -> Forall (fun b => 1 <= b < 256) s' -> decides false scan s' t) as Hrest
    by (intros; apply IH; [lia|done]).
  destruct (decide (c < 0x80)); [apply decides_ascii; [lia|done|by apply Hrest]|].
  destruct (scans scan UTF8_SCAN_CKUTF8) eqn:Hck; [|apply decides_unchecked; [done|lia|by apply Hrest]].
  destruct (decide (c < 0xc0)).
  - apply (decides_bad _ _ _ _ NFS4ERR_INVAL); [done|apply fits_bad; [done|intros Hu; inversion Hu; subst; lia]|].
    high_step. decide_bytes.
  - destruct (decide (c < 0xe0)); [by apply decides_lead2; [..|lia]|].
    destruct (decide (c < 0xf0)); [by apply decides_lead3; [..|lia]|by apply decides_lead4; [..|lia]].
Qed.

(** C22. A string of the client passes the scan exactly when its length is within the limit
    of the flags and the name up to its NUL is one that the flags allow: UTF-8 of
    scalar values where that is asked for, without a slash, and neither dot nor dotdot.
    The scan never reads behind the NUL. *)
Theorem name_accepted (scan len : Z) (s t : list Z) :
  Forall (fun b => 1 <= b < 256) s -> 0 <= len ->
  exists st, nfs4_utf8string_scan (MkUtf8 len (Some (s ++ 0 :: t))) scan = Ret st /\
    (st = NFS4_OK <->
     1 <= len <= (if scans scan UTF8_SCAN_PATH then MAXPATHLEN else MAXNAMLEN) /\ good_name scan s).
Proof.
  intros Hs Hlen. unfold nfs4_utf8string_scan. cbn [utf8string_val utf8string_len].
  destruct (Z.eqb_spec len 0) as [->|Hn]; [exists NFS4ERR_INVAL; split; [done|]; split; [done|lia]|].
  match goal with |- context [if ?b then Ret NFS4ERR_NAMETOOLONG else _] => destruct b eqn:Hlong end.
  { exists NFS4ERR_NAMETOOLONG. split; [done|]. split; [done|].
    destruct (scans scan UTF8_SCAN_PATH); cbn [andb orb negb] in Hlong; rewrite ?orb_false_r in Hlong; apply Z.ltb_lt in Hlong; lia. }
  assert (1 <= len <= (if scans scan UTF8_SCAN_PATH then MAXPATHLEN else MAXNAMLEN)) as Hl.
  { destruct (scans scan UTF8_SCAN_PATH); cbn [andb orb negb] in Hlong; rewrite ?orb_false_r in Hlong; apply Z.ltb_ge in Hlong; lia. }
  match goal with |- context [if ?b then Ret NFS4_OK else _] => destruct b eqn:Hnone end.
  { exists NFS4_OK. split; [done|]. split; [|done]. intros _. split; [done|].
    apply orb_true_iff in Hnone as [->%Z.eqb_eq| ->%Z.eqb_eq]; by split; [|split]. }
  destruct (decides_all (length s) true scan s t (le_n _) Hs) as (st & Hr & Hst). exists st. split; [done|].
  rewrite Hst. unfold fits, good_name. rewrite utf8_spec. intuition.
Qed.

(** A name in a directory: "é" is accepted, its overlong form and ".." are not. *)
Lemma name_accepted_witness :
  (exists st, nfs4_utf8string_scan (MkUtf8 2 (Some ([0xc3; 0xa9] ++ 0 :: []))) 7 = Ret st /\
     (st = NFS4_OK <-> 1 <= 2 <= (if scans 7 UTF8_SCAN_PATH then MAXPATHLEN else MAXNAMLEN) /\ good_name 7 [0xc3; 0xa9]))
  /\ nfs4_utf8string_scan (MkUtf8 2 (Some [0xc3; 0xa9; 0])) 7 = Ret NFS4_OK
  /\ nfs4_utf8string_scan (MkUtf8 2 (Some [0xc1; 0xa9; 0])) 7 = Ret NFS4ERR_INVAL
  /\ nfs4_utf8string_scan (MkUtf8 2 (Some [46; 46; 0])) 7 = Ret NFS4ERR_BADNAME.
Proof. split; [apply name_accepted; [repeat constructor; lia|lia]|]. split; [|split]; reflexivity. Defined.
