(* ===== verification/NfsLock.v ===== *)
(** * Byte-range locks of the NFS server ([src/nfs-ganesha/src/SAL/state_lock.c])

    A file has a list of locks: those that are granted, those that wait, and those that
    are being granted to an NLM client. The list is kept together with the file system
    below (the FSAL), which is a parameter, as are the owners of locks. Entries have an
    address: one that left the list lives on as long as a grant refers to it. Every
    function here runs with the mutex of the file held. *)

From S2P Require Import Prelude.
Local Open Scope Z_scope.

(** ** Data *)

Definition UINT64_MAX : Z := 2 ^ 64 - 1.

Inductive fsal_lock_t := FSAL_LOCK_R | FSAL_LOCK_W | FSAL_NO_LOCK.
#[export] Instance fsal_lock_t_eq_dec : EqDecision fsal_lock_t.
Proof. solve_decision. Defined.

Inductive fsal_lock_op_t := FSAL_OP_LOCKT | FSAL_OP_LOCK | FSAL_OP_LOCKB | FSAL_OP_UNLOCK | FSAL_OP_CANCEL.
#[export] Instance fsal_lock_op_t_eq_dec : EqDecision fsal_lock_op_t.
Proof. solve_decision. Defined.

Record fsal_lock_param_t := MkLock { lock_type : fsal_lock_t; lock_start : Z; lock_length : Z; lock_reclaim : bool }.

Inductive state_blocking_t :=
| STATE_NON_BLOCKING | STATE_NLM_BLOCKING | STATE_NFSV4_BLOCKING | STATE_GRANTING | STATE_CANCELED.
#[export] Instance state_blocking_t_eq_dec : EqDecision state_blocking_t.
Proof. solve_decision. Defined.

Inductive state_grant_type_t :=
| STATE_GRANT_NONE | STATE_GRANT_INTERNAL | STATE_GRANT_FSAL | STATE_GRANT_FSAL_AVAILABLE | STATE_GRANT_POLL.
#[export] Instance state_grant_type_t_eq_dec : EqDecision state_grant_type_t.
Proof. solve_decision. Defined.

Inductive state_block_type_t := STATE_BLOCK_NONE | STATE_BLOCK_INTERNAL | STATE_BLOCK_ASYNC | STATE_BLOCK_POLL.

(** The statuses the functions here look at; the rest of them are numbers. *)
Inductive state_status_t :=
| STATE_SUCCESS | STATE_LOCK_CONFLICT | STATE_LOCK_BLOCKED | STATE_INVALID_ARGUMENT | STATE_BAD_TYPE | STATE_FSAL_ERROR
| STATE_INCONSISTENT_ENTRY | STATE_BAD_COOKIE | STATE_OTHER (code : Z).
#[export] Instance state_status_t_eq_dec : EqDecision state_status_t.
Proof. solve_decision. Defined.

(** Data of a blocked lock, with the cookie of a grant that is under way. *)
Record state_block_data_t := MkBlock {
  sbd_grant_type : state_grant_type_t; sbd_block_type : state_block_type_t; sbd_blocked_cookie : option nat }.

(** ** Ranges *)

(** The last byte; a length of 0 means up to the end of the file. *)
Definition lock_end (lock : fsal_lock_param_t) : Z :=
  if lock_length lock =? 0 then UINT64_MAX else wrap_u 64 (lock_start lock + lock_length lock - 1).

Definition different_lock (lock1 lock2 : fsal_lock_param_t) : bool :=
  negb (bool_decide (lock_type lock1 = lock_type lock2)) || negb (lock_start lock1 =? lock_start lock2)
  || negb (lock_length lock1 =? lock_length lock2).

Definition set_range (lock : fsal_lock_param_t) (start length : Z) : fsal_lock_param_t :=
  MkLock (lock_type lock) start length (lock_reclaim lock).

Definition overlaps (l1 l2 : fsal_lock_param_t) : bool :=
  (lock_start l2 <=? lock_end l1) && (lock_start l1 <=? lock_end l2).

(** One iteration of the loop of [merge_lock_entry] on an entry of the owner: the lock
    that is merged afterwards, and what becomes of the entry. *)
Inductive merge_outcome :=
| Keep
| Shrink (lock : fsal_lock_param_t)
| Split (left right : fsal_lock_param_t)
| Absorb.

Definition merge_check (lock check : fsal_lock_param_t) : fsal_lock_param_t * merge_outcome :=
  let check_end := lock_end check in
  let end_ := lock_end lock in
  if wrap_u 64 (check_end + 1) <? lock_start lock then (lock, Keep)
  else if wrap_u 64 (end_ + 1) <? lock_start check then (lock, Keep)
  else if negb (bool_decide (lock_type check = lock_type lock)) && ((end_ <? check_end) || (lock_start check <? lock_start lock)) then
    let right := set_range check (wrap_u 64 (end_ + 1)) (check_end - end_) in
    let left c := set_range c (lock_start c) (lock_start lock - lock_start c) in
    (lock,
     if (end_ <? check_end) && (lock_start check <? lock_start lock) then Split (left check) right
     else if end_ <? check_end then Shrink right else Shrink (left check))
  else
    let end_ := if end_ <? check_end then check_end else end_ in
    let start := if lock_start check <? lock_start lock then lock_start check else lock_start lock in
    (set_range lock start (wrap_u 64 (end_ - start + 1)), Absorb).

(** The parts of an entry that are left when a range is taken out of it; [None]: it
    stays as it is. *)
Definition subtract_lock (found lock : fsal_lock_param_t) : option (list fsal_lock_param_t) :=
  let found_end := lock_end found in
  let range_end := lock_end lock in
  if range_end <? lock_start found then None
  else if found_end <? lock_start lock then None
  else if (lock_start lock <=? lock_start found) && (found_end <=? range_end) then Some []
  else
    Some ((if lock_start found <? lock_start lock
           then [set_range found (lock_start found) (lock_start lock - lock_start found)] else []) ++
          (if range_end <? found_end
           then [set_range found (wrap_u 64 (range_end + 1))
                   (if found_end =? UINT64_MAX then 0 else found_end - range_end)] else [])).

(** ** The list of a file *)

Section lock.
  (** Owners; two structures with the same contents are the same owner. *)
  Context {O : Type} `{EqDecision O}.
  (** The FSAL: whether it supports locks, and blocking locks of its own, and an operation
      on a lock with the status it is converted to and the lock in the way. *)
  Variables (F : Type) (fso_lock_support fso_lock_support_async_block : bool).
  Variable (lock_op2 : F -> O -> fsal_lock_op_t -> fsal_lock_param_t -> F * state_status_t * fsal_lock_param_t).
  (** Handing a GRANTED message to the thread that sends it, and whether an export is
      not being removed. *)
  Variables (state_async_schedule : F -> F * state_status_t) (export_ready : nat -> bool).

(** [sle_owner] is NULL once the entry was taken off the list. The state of an entry is
    its sequence number; there is none for some owners. *)
Record state_lock_entry_t := MkEntry {
  sle_addr : nat;
  sle_export : nat;
  sle_owner : option O;
  sle_state : option Z;
  sle_blocked : state_blocking_t;
  sle_block_data : option state_block_data_t;
  sle_ref_count : Z;
  sle_lock : fsal_lock_param_t }.

(** The list, the entries that are alive but not on it, the list of blocked locks, the
    references to the file that are held for the list, and the grants under way. *)
Record state_hdl := MkHdl {
  lock_list : list state_lock_entry_t;
  off_list : list state_lock_entry_t;
  next_addr : nat;
  state_blocked_locks : list nat;
  list_refs : Z;
  ht_lock_cookies : list (nat * nat);
  next_cookie : nat;
  fsal : F }.

Definition set_list (s : state_hdl) (l : list state_lock_entry_t) : state_hdl :=
  MkHdl l (off_list s) (next_addr s) (state_blocked_locks s) (list_refs s) (ht_lock_cookies s) (next_cookie s) (fsal s).
Definition set_off (s : state_hdl) (l : list state_lock_entry_t) : state_hdl :=
  MkHdl (lock_list s) l (next_addr s) (state_blocked_locks s) (list_refs s) (ht_lock_cookies s) (next_cookie s) (fsal s).
Definition set_next (s : state_hdl) (n : nat) : state_hdl :=
  MkHdl (lock_list s) (off_list s) n (state_blocked_locks s) (list_refs s) (ht_lock_cookies s) (next_cookie s) (fsal s).
Definition set_blocked (s : state_hdl) (l : list nat) : state_hdl :=
  MkHdl (lock_list s) (off_list s) (next_addr s) l (list_refs s) (ht_lock_cookies s) (next_cookie s) (fsal s).
Definition add_refs (s : state_hdl) (n : Z) : state_hdl :=
  MkHdl (lock_list s) (off_list s) (next_addr s) (state_blocked_locks s) (list_refs s + n) (ht_lock_cookies s) (next_cookie s) (fsal s).
Definition set_cookies (s : state_hdl) (c : list (nat * nat)) (n : nat) : state_hdl :=
  MkHdl (lock_list s) (off_list s) (next_addr s) (state_blocked_locks s) (list_refs s) c n (fsal s).
Definition set_fsal (s : state_hdl) (f : F) : state_hdl :=
  MkHdl (lock_list s) (off_list s) (next_addr s) (state_blocked_locks s) (list_refs s) (ht_lock_cookies s) (next_cookie s) f.

Definition with_lock (e : state_lock_entry_t) (l : fsal_lock_param_t) : state_lock_entry_t :=
  MkEntry (sle_addr e) (sle_export e) (sle_owner e) (sle_state e) (sle_blocked e) (sle_block_data e) (sle_ref_count e) l.
Definition with_blocked (e : state_lock_entry_t) (b : state_blocking_t) : state_lock_entry_t :=
  MkEntry (sle_addr e) (sle_export e) (sle_owner e) (sle_state e) b (sle_block_data e) (sle_ref_count e) (sle_lock e).
Definition with_block_data (e : state_lock_entry_t) (d : option state_block_data_t) : state_lock_entry_t :=
  MkEntry (sle_addr e) (sle_export e) (sle_owner e) (sle_state e) (sle_blocked e) d (sle_ref_count e) (sle_lock e).
Definition with_refs (e : state_lock_entry_t) (n : Z) : state_lock_entry_t :=
  MkEntry (sle_addr e) (sle_export e) (sle_owner e) (sle_state e) (sle_blocked e) (sle_block_data e) n (sle_lock e).
Definition with_owner (e : state_lock_entry_t) (o : option O) : state_lock_entry_t :=
  MkEntry (sle_addr e) (sle_export e) o (sle_state e) (sle_blocked e) (sle_block_data e) (sle_ref_count e) (sle_lock e).

(** Two owners are never the same when one of them is NULL. *)
Definition different_owners (o1 o2 : option O) : bool :=
  match o1, o2 with Some a, Some b => negb (bool_decide (a = b)) | _, _ => true end.

Definition at_addr (a : nat) (e : state_lock_entry_t) : bool := Nat.eqb (sle_addr e) a.

(** An entry that is alive, and a change of it where it is. *)
Definition entry_at (s : state_hdl) (a : nat) : option state_lock_entry_t :=
  List.find (at_addr a) (lock_list s ++ off_list s).

Definition update_at (s : state_hdl) (a : nat) (f : state_lock_entry_t -> state_lock_entry_t) : state_hdl :=
  let upd := map (fun e => if at_addr a e then f e else e) in
  set_off (set_list s (upd (lock_list s))) (upd (off_list s)).

(** ** Entries *)

Definition create_state_lock_entry (s : state_hdl) (export : nat) (blocked : state_blocking_t) (owner : option O) (state : option Z)
    (lock : fsal_lock_param_t) : state_hdl * state_lock_entry_t :=
  (set_next s (S (next_addr s)), MkEntry (next_addr s) export owner state blocked None 1 lock).

Definition state_lock_entry_t_dup (s : state_hdl) (e : state_lock_entry_t) : state_hdl * state_lock_entry_t :=
  create_state_lock_entry s (sle_export e) (sle_blocked e) (sle_owner e) (sle_state e) (sle_lock e).

Definition lock_entry_inc_ref (s : state_hdl) (a : nat) : state_hdl :=
  update_at s a (fun e => with_refs e (sle_ref_count e + 1)).

(** The last reference: the blocked data is taken off the list of blocked locks and the
    memory is released. *)
Definition lock_entry_dec_ref (s : state_hdl) (a : nat) : state_hdl :=
  match entry_at s a with
  | None => s
  | Some e =>
      if sle_ref_count e =? 1 then
        let s := match sle_block_data e with
                 | Some _ => set_blocked s (List.filter (fun b => negb (Nat.eqb b a)) (state_blocked_locks s))
                 | None => s
                 end in
        set_off (set_list s (List.filter (fun e => negb (at_addr a e)) (lock_list s)))
          (List.filter (fun e => negb (at_addr a e)) (off_list s))
      else update_at s a (fun e => with_refs e (sle_ref_count e - 1))
  end.

(** An entry that was taken off the list lives on only if something else refers to it. *)
Definition discard (s : state_hdl) (e : state_lock_entry_t) : state_hdl :=
  if sle_ref_count e =? 1 then
    match sle_block_data e with
    | Some _ => set_blocked s (List.filter (fun b => negb (Nat.eqb b (sle_addr e))) (state_blocked_locks s))
    | None => s
    end
  else set_off s (with_refs (with_owner e None) (sle_ref_count e - 1) :: off_list s).

Definition unlink_entry (s : state_hdl) (a : nat) : state_hdl :=
  set_off (set_list s (List.filter (fun e => negb (at_addr a e)) (lock_list s)))
    (List.filter (fun e => negb (at_addr a e)) (off_list s)).

Definition remove_from_locklist (s : state_hdl) (a : nat) : state_hdl :=
  match entry_at s a with
  | None => s
  | Some e => discard (unlink_entry s a) e
  end.

(** ** Conflicts, merging and splitting *)

Definition waits (b : state_blocking_t) : bool :=
  match b with STATE_NLM_BLOCKING | STATE_NFSV4_BLOCKING | STATE_CANCELED => true | _ => false end.

Definition conflicts (e : state_lock_entry_t) (owner : option O) (lock : fsal_lock_param_t) : bool :=
  overlaps (sle_lock e) lock
  && (bool_decide (lock_type (sle_lock e) = FSAL_LOCK_W) || bool_decide (lock_type lock = FSAL_LOCK_W))
  && different_owners (sle_owner e) owner.

Definition get_overlapping_entry (s : state_hdl) (owner : option O) (lock : fsal_lock_param_t) : option state_lock_entry_t :=
  List.find (fun e => negb (waits (sle_blocked e)) && conflicts e owner lock) (lock_list s).

(** Whether the loop of [merge_lock_entry] looks at an entry. *)
Definition merges_with (a : nat) (owner : option O) (e : state_lock_entry_t) : bool :=
  negb (at_addr a e) && negb (different_owners (sle_owner e) owner) && bool_decide (sle_blocked e = STATE_NON_BLOCKING).

(** The loop over the list: [seen] is behind the loop, in reverse. The right part of an
    entry that is split goes to the end of the list; the loop gets there unless it is at
    the last entry. [fuel] bounds the entries that are looked at. *)
Fixpoint merge_loop (fuel : nat) (s : state_hdl) (a : nat) (owner : option O) (lock : fsal_lock_param_t)
    (seen todo removed : list state_lock_entry_t)
    : state_hdl * fsal_lock_param_t * list state_lock_entry_t * list state_lock_entry_t :=
  match fuel, todo with
  | S fuel, e :: todo' =>
      if merges_with a owner e then
        let '(lock, out) := merge_check lock (sle_lock e) in
        match out with
        | Keep => merge_loop fuel s a owner lock (e :: seen) todo' removed
        | Shrink l => merge_loop fuel s a owner lock (with_lock e l :: seen) todo' removed
        | Split lpart rpart =>
            let '(s, dup) := state_lock_entry_t_dup s e in
            let seen := with_lock e lpart :: seen in
            match todo' with
            | [] => (s, lock, rev seen ++ [with_lock dup rpart], removed)
            | _ => merge_loop fuel s a owner lock seen (todo' ++ [with_lock dup rpart]) removed
            end
        | Absorb => merge_loop fuel s a owner lock seen todo' (e :: removed)
        end
      else merge_loop fuel s a owner lock (e :: seen) todo' removed
  | _, _ => (s, lock, rev seen ++ todo, removed)
  end.

(** The entry [a] is merged; it can be on the list or not. Entries that were absorbed are
    removed. *)
Definition merge_lock_entry (s : state_hdl) (a : nat) : state_hdl :=
  match entry_at s a with
  | None => s
  | Some e =>
      let '(s, lock, l, removed) :=
        merge_loop (2 * length (lock_list s)) s a (sle_owner e) (sle_lock e) [] (lock_list s) [] in
      update_at (foldl discard (set_list s l) (rev removed)) a (fun e => with_lock e lock)
  end.

(** Entries of the range are taken off the list; the parts that are left are new entries at
    its end. [None] as owner stands for all of them. [state_applies] is set for owners whose
    entries have a state. *)
Definition subtracts (owner : option O) (state_applies : bool) (state : Z) (e : state_lock_entry_t) : bool :=
  match owner with Some _ => negb (different_owners (sle_owner e) owner) | None => true end
  && bool_decide (sle_blocked e = STATE_NON_BLOCKING)
  && negb (state_applies && bool_decide (sle_state e = Some state)).

Fixpoint split_entry (s : state_hdl) (e : state_lock_entry_t) (parts : list fsal_lock_param_t)
    : state_hdl * list state_lock_entry_t :=
  match parts with
  | [] => (s, [])
  | l :: parts =>
      let '(s, dup) := state_lock_entry_t_dup s e in
      let '(s, new) := split_entry s e parts in
      (s, with_lock dup l :: new)
  end.

(** The entries that stay, the parts of those that do not, and those that do not. *)
Fixpoint subtract_loop (s : state_hdl) (owner : option O) (state_applies : bool) (state : Z) (lock : fsal_lock_param_t)
    (todo : list state_lock_entry_t)
    : state_hdl * list state_lock_entry_t * list state_lock_entry_t * list state_lock_entry_t :=
  match todo with
  | [] => (s, [], [], [])
  | e :: todo =>
      match (if subtracts owner state_applies state e then subtract_lock (sle_lock e) lock else None) with
      | None =>
          let '(s, kept, split, removed) := subtract_loop s owner state_applies state lock todo in
          (s, e :: kept, split, removed)
      | Some parts =>
          let '(s, new) := split_entry s e parts in
          let '(s, kept, split, removed) := subtract_loop s owner state_applies state lock todo in
          (s, kept, new ++ split, e :: removed)
      end
  end.

(** Memory is never short ([gsh_malloc] aborts), so the status is always success. *)
Definition subtract_lock_from_list (s : state_hdl) (owner : option O) (state_applies : bool) (state : Z) (lock : fsal_lock_param_t)
    : state_hdl * bool :=
  let '(s, kept, split, removed) := subtract_loop s owner state_applies state lock (lock_list s) in
  let s := foldl discard (set_list s kept) removed in
  (set_list s (lock_list s ++ split), negb (bool_decide (removed = []))).

(** ** The FSAL *)

(** The second result is the lock in the way, of an owner that is not known. *)
Definition do_lock_op (s : state_hdl) (lock_op : fsal_lock_op_t) (owner : option O) (lock : fsal_lock_param_t)
    : res (state_hdl * state_status_t * option fsal_lock_param_t) :=
  if negb fso_lock_support || (negb fso_lock_support_async_block && bool_decide (lock_op = FSAL_OP_CANCEL))
  then Ret (s, STATE_SUCCESS, None)
  else
    o ← deref owner;
    let op := if bool_decide (lock_op = FSAL_OP_LOCKB) && negb fso_lock_support_async_block then FSAL_OP_LOCK else lock_op in
    let '(f, status, conflicting) := lock_op2 (fsal s) o op lock in
    let status :=
      if bool_decide (status = STATE_LOCK_BLOCKED) && negb (bool_decide (op = FSAL_OP_LOCKB)) then STATE_FSAL_ERROR
      else if bool_decide (status = STATE_LOCK_CONFLICT) && bool_decide (lock_op = FSAL_OP_LOCKB) then STATE_LOCK_BLOCKED
      else status in
    Ret (set_fsal s f, status, if bool_decide (status = STATE_LOCK_CONFLICT) then Some conflicting else None).

(** ** Grants *)

Definition set_cookie (s : state_hdl) (a : nat) (c : option nat) : state_hdl :=
  update_at s a (fun e => with_block_data e (option_map (fun d => MkBlock (sbd_grant_type d) (sbd_block_type d) c) (sle_block_data e))).
Definition set_grant_type (s : state_hdl) (a : nat) (t : state_grant_type_t) : state_hdl :=
  update_at s a (fun e => with_block_data e (option_map (fun d => MkBlock t (sbd_block_type d) (sbd_blocked_cookie d)) (sle_block_data e))).

Definition mark (s : state_hdl) (a : nat) (b : state_blocking_t) : state_hdl := update_at s a (fun e => with_blocked e b).

(** The entry of a cookie that is no longer in the table gives its reference back. *)
Definition free_cookie (s : state_hdl) (a : nat) : state_hdl := lock_entry_dec_ref (set_cookie s a None) a.

(** The table of cookies hands out each cookie once. *)
Definition state_find_grant (s : state_hdl) (cookie : nat) : state_hdl * option nat :=
  match List.find (fun c => Nat.eqb (fst c) cookie) (ht_lock_cookies s) with
  | Some (_, a) => (set_cookies s (List.filter (fun c => negb (Nat.eqb (fst c) cookie)) (ht_lock_cookies s)) (next_cookie s), Some a)
  | None => (s, None)
  end.

(** A cookie for the entry [a], which is being granted, and the lock of the FSAL. *)
Definition state_add_grant_cookie (s : state_hdl) (a : nat) : res (state_hdl * state_status_t * nat) :=
  e ← deref (entry_at s a);
  match sle_block_data e with
  | None => Ret (s, STATE_INCONSISTENT_ENTRY, 0%nat)
  | Some d =>
      let cookie := next_cookie s in
      let s := set_cookies s ((cookie, a) :: ht_lock_cookies s) (S cookie) in
      '(s, status) ← match sbd_grant_type d with
                     | STATE_GRANT_NONE => Ret (s, STATE_INCONSISTENT_ENTRY)
                     | STATE_GRANT_POLL | STATE_GRANT_FSAL_AVAILABLE =>
                         '(s, status, _) ← do_lock_op s FSAL_OP_LOCKB (sle_owner e) (sle_lock e); Ret (s, status)
                     | STATE_GRANT_INTERNAL =>
                         '(s, status, _) ← do_lock_op s FSAL_OP_LOCK (sle_owner e) (sle_lock e); Ret (s, status)
                     | STATE_GRANT_FSAL => Ret (s, STATE_SUCCESS)
                     end;
      if bool_decide (status = STATE_SUCCESS) then Ret (set_cookie (lock_entry_inc_ref s a) a (Some cookie), status, cookie)
      else Ret (fst (state_find_grant s cookie), status, cookie)
  end.

Definition state_cancel_grant (s : state_hdl) (a : nat) : res (state_hdl * state_status_t) :=
  e ← deref (entry_at s a);
  '(s, status, _) ← do_lock_op s FSAL_OP_UNLOCK (sle_owner e) (sle_lock e);
  Ret (free_cookie s a, status).

(** [nlm_granted_callback] of [nlm_util.c]: the message is scheduled; when that fails the
    grant is cancelled, with its cookie still in the table. *)
Definition nlm_granted_callback (s : state_hdl) (a : nat) : res (state_hdl * state_status_t) :=
  '(s, status, _) ← state_add_grant_cookie s a;
  if bool_decide (status = STATE_SUCCESS) then
    let '(f, status) := state_async_schedule (fsal s) in
    let s := set_fsal s f in
    if bool_decide (status = STATE_SUCCESS) then Ret (s, status)
    else '(s, _) ← state_cancel_grant s a; Ret (s, status)
  else Ret (s, status).

Definition try_to_grant_lock (s : state_hdl) (a : nat) : res state_hdl :=
  e ← deref (entry_at s a);
  match sle_block_data e with
  | Some d =>
      if bool_decide (sle_blocked e = STATE_CANCELED) || negb (export_ready (sle_export e)) then Ret (remove_from_locklist s a)
      else
        let s := mark s a STATE_GRANTING in
        let s := match sbd_grant_type d with STATE_GRANT_NONE => set_grant_type s a STATE_GRANT_INTERNAL | _ => s end in
        '(s, status) ← nlm_granted_callback s a;
        if bool_decide (status = STATE_LOCK_BLOCKED) then Ret (set_grant_type (mark s a (sle_blocked e)) a STATE_GRANT_NONE)
        else
          let s := set_blocked s (List.filter (fun b => negb (Nat.eqb b a)) (state_blocked_locks s)) in
          Ret (if bool_decide (status = STATE_SUCCESS) then s else remove_from_locklist s a)
  | None => Ret (remove_from_locklist s a)
  end.

(** Only the entry that is looked at can leave the list, so the loop runs over the list as
    it was. *)
Definition grant_one (s : state_hdl) (a : nat) : res state_hdl :=
  match entry_at s a with
  | None => Ret s
  | Some e =>
      match sle_blocked e with
      | STATE_NLM_BLOCKING | STATE_NFSV4_BLOCKING =>
          match get_overlapping_entry s (sle_owner e) (sle_lock e) with
          | Some _ => Ret s
          | None => try_to_grant_lock s a
          end
      | _ => Ret s
      end
  end.

Definition grant_blocked_locks (s : state_hdl) : res state_hdl :=
  if fso_lock_support_async_block then Ret s else res_foldl grant_one s (map sle_addr (lock_list s)).

Definition grant_blocked_lock_immediate (s : state_hdl) (a : nat) : res state_hdl :=
  e ← deref (entry_at s a);
  let granted s := grant_blocked_locks (merge_lock_entry (mark s a STATE_NON_BLOCKING) a) in
  match sle_block_data e with
  | Some d =>
      match sbd_blocked_cookie d with
      | Some cookie =>
          match state_find_grant s cookie with
          | (s, Some b) => granted (free_cookie s b)
          | (s, None) => Ret s
          end
      | None => granted (update_at s a (fun e => with_block_data e None))
      end
  | None => granted s
  end.

(** The client answered the GRANTED message. *)
Definition state_complete_grant (s : state_hdl) (a : nat) : res state_hdl :=
  e ← deref (entry_at s a);
  s ← (if bool_decide (sle_blocked e = STATE_GRANTING)
       then grant_blocked_locks (merge_lock_entry (mark s a STATE_NON_BLOCKING) a) else Ret s);
  Ret (free_cookie s a).

(** The client did not take the lock. *)
Definition state_release_grant (s : state_hdl) (a : nat) : res (state_hdl * state_status_t) :=
  e ← deref (entry_at s a);
  '(s, status) ←
    (if bool_decide (sle_blocked e = STATE_GRANTING) then
       '(s, status, _) ← do_lock_op (mark s a STATE_CANCELED) FSAL_OP_UNLOCK (sle_owner e) (sle_lock e);
       Ret (if bool_decide (status = STATE_SUCCESS) then remove_from_locklist s a else s, status)
     else Ret (s, STATE_SUCCESS));
  s ← grant_blocked_locks (free_cookie s a);
  Ret (match lock_list s with [] => add_refs s (-1) | _ => s end, status).

(** [nlm4_Granted_Res] of [nlm_Granted_Res.c]: the answer to the message, with the cookie. *)
Definition nlm4_Granted_Res (s : state_hdl) (cookie : nat) (granted : bool) : res state_hdl :=
  match state_find_grant s cookie with
  | (s, None) => Ret s
  | (s, Some a) =>
      e ← deref (entry_at s a);
      match sle_block_data e with
      | None => Ret s
      | Some _ =>
          if negb granted || negb (export_ready (sle_export e)) then '(s, _) ← state_release_grant s a; Ret s
          else state_complete_grant s a
      end
  end.

(** [nlm4_send_grant_msg] of [nlm_util.c], in the thread that sends; [sent]: the call of the
    client succeeded. *)
Definition nlm4_send_grant_msg (s : state_hdl) (cookie : nat) (sent : bool) : res state_hdl :=
  if sent then Ret s
  else match state_find_grant s cookie with
       | (s, None) => Ret s
       | (s, Some a) =>
           e ← deref (entry_at s a);
           match sle_block_data e with
           | None => Ret s
           | Some _ => '(s, _) ← state_release_grant s a; Ret s
           end
       end.

(** ** Cancelling *)

Definition cancel_blocked_lock (s : state_hdl) (a : nat) : res state_hdl :=
  e ← deref (entry_at s a);
  let s := mark s a STATE_CANCELED in
  match sle_block_data e ≫= sbd_blocked_cookie with
  | Some cookie =>
      match state_find_grant s cookie with
      | (s, Some b) => Ret (remove_from_locklist (free_cookie s b) a)
      | (s, None) => Ret (remove_from_locklist s a)
      end
  | None =>
      '(s, status, _) ← do_lock_op s FSAL_OP_CANCEL (sle_owner e) (sle_lock e);
      Ret (if bool_decide (status = STATE_SUCCESS) then remove_from_locklist s a else s)
  end.

Definition cancels (owner : option O) (state_applies : bool) (state : Z) (lock : fsal_lock_param_t) (e : state_lock_entry_t) : bool :=
  match owner with Some _ => negb (different_owners (sle_owner e) owner) | None => true end
  && negb (state_applies && bool_decide (sle_state e = Some state))
  && negb (bool_decide (sle_blocked e = STATE_NON_BLOCKING)) && overlaps (sle_lock e) lock.

Definition cancel_blocked_locks_range (s : state_hdl) (owner : option O) (state_applies : bool) (state : Z) (lock : fsal_lock_param_t)
    : res state_hdl :=
  res_foldl (fun s a => match entry_at s a with
                        | Some e => if cancels owner state_applies state lock e then cancel_blocked_lock s a else Ret s
                        | None => Ret s
                        end) s (map sle_addr (lock_list s)).

(** ** The operations on locks *)

(** The holder of a lock in the way, [None] when it is not known, and the lock. *)
Definition conflict_t : Type := option (option O * fsal_lock_param_t).

Definition copy_conflict (e : state_lock_entry_t) : conflict_t := Some (sle_owner e, sle_lock e).

Definition state_test (s : state_hdl) (owner : O) (lock : fsal_lock_param_t) : res (state_hdl * state_status_t * conflict_t) :=
  match get_overlapping_entry s (Some owner) lock with
  | Some e => Ret (s, STATE_LOCK_CONFLICT, copy_conflict e)
  | None =>
      '(s, status, c) ← do_lock_op s FSAL_OP_LOCKT (Some owner) lock;
      Ret (s, status, option_map (fun l => (None, l)) c)
  end.

(** A request that waits already, or a lock of the owner through another export. *)
Fixpoint find_blocked (l : list state_lock_entry_t) (cur_export : nat) (owner : O) (blocking : state_blocking_t)
    (lock : fsal_lock_param_t) : option state_status_t :=
  match l with
  | [] => None
  | e :: l =>
      if different_owners (sle_owner e) (Some owner) then find_blocked l cur_export owner blocking lock
      else if negb (Nat.eqb (sle_export e) cur_export) then Some STATE_INVALID_ARGUMENT
      else if negb (bool_decide (sle_blocked e = blocking)) || different_lock (sle_lock e) lock
      then find_blocked l cur_export owner blocking lock
      else Some STATE_LOCK_BLOCKED
  end.

(** What the loop over the list finds: a reason to refuse, a lock of the owner that is
    large enough, or whether the lock is allowed, with an entry in the way. *)
Inductive scan_result :=
| ScanRefused
| ScanExisting (e : state_lock_entry_t)
| ScanDone (allow overlap : bool) (conflict : option state_lock_entry_t).

Definition covers (found lock : fsal_lock_param_t) : bool :=
  (lock_end lock <=? lock_end found) && (lock_start found <=? lock_start lock)
  && bool_decide (lock_type found = lock_type lock).

Definition has_lock (b : state_blocking_t) : bool :=
  match b with STATE_NON_BLOCKING | STATE_GRANTING => true | _ => false end.

Fixpoint scan_locks (l : list state_lock_entry_t) (cur_export : nat) (owner : O) (lock : fsal_lock_param_t) (overlap : bool)
    : scan_result :=
  match l with
  | [] => ScanDone true overlap None
  | e :: l =>
      if negb (Nat.eqb (sle_export e) cur_export) && negb (different_owners (sle_owner e) (Some owner)) then ScanRefused
      else if negb (lock_reclaim lock) && conflicts e (Some owner) lock then ScanDone false true (Some e)
      else if covers (sle_lock e) lock && has_lock (sle_blocked e) then
        if negb (different_owners (sle_owner e) (Some owner)) then ScanExisting e else scan_locks l cur_export owner lock true
      else scan_locks l cur_export owner lock overlap
  end.

(** A new entry is alive before it is on the list. *)
Definition keep_off (s : state_hdl) (e : state_lock_entry_t) : state_hdl := set_off s (e :: off_list s).

Definition add_tail (s : state_hdl) (a : nat) : state_hdl :=
  match List.find (at_addr a) (off_list s) with
  | Some e => set_off (set_list s (lock_list s ++ [e])) (List.filter (fun e => negb (at_addr a e)) (off_list s))
  | None => s
  end.

(** The entry [a] was made for the request; the FSAL granted it. *)
Definition lock_acquired (s : state_hdl) (a : nat) : res state_hdl :=
  let s := match lock_list s with [] => add_refs s 1 | _ => s end in
  grant_blocked_locks (add_tail (merge_lock_entry s a) a).

Definition lock_blocks (s : state_hdl) (a : nat) (blocking : state_blocking_t) (type : state_block_type_t) : state_hdl :=
  let s := update_at s a (fun e => with_blocked (with_block_data e (Some (MkBlock STATE_GRANT_NONE type None))) blocking) in
  let s := add_tail s a in
  set_blocked s (state_blocked_locks s ++ [a]).

(** A request for a lock. It is one step: the caller holds the lock of the object. *)
Definition state_lock (s : state_hdl) (cur_export : nat) (owner : O) (state : option Z) (blocking : state_blocking_t)
    (lock : fsal_lock_param_t) : res (state_hdl * state_status_t * conflict_t) :=
  match (if bool_decide (blocking = STATE_NON_BLOCKING) then None else find_blocked (lock_list s) cur_export owner blocking lock) with
  | Some status => Ret (s, status, None)
  | None =>
      match scan_locks (lock_list s) cur_export owner lock false with
      | ScanRefused => Ret (s, STATE_INVALID_ARGUMENT, None)
      | ScanExisting e =>
          s ← (if bool_decide (sle_blocked e = STATE_GRANTING) then grant_blocked_lock_immediate s (sle_addr e) else Ret s);
          Ret (s, STATE_SUCCESS, None)
      | ScanDone allow _ found =>
          let nlm := bool_decide (blocking = STATE_NLM_BLOCKING) in
          let conflict := match found with Some e => if nlm then None else copy_conflict e | None => None end in
          if negb nlm && negb allow then Ret (s, STATE_LOCK_CONFLICT, conflict)
          else
            let lock_op := if nlm then FSAL_OP_LOCKB else FSAL_OP_LOCK in
            let '(s, e) := create_state_lock_entry s cur_export STATE_NON_BLOCKING (Some owner) state lock in
            let s := keep_off s e in
            '(s, status, c) ← (if allow || fso_lock_support_async_block then do_lock_op s lock_op (Some owner) lock
                               else Ret (s, STATE_LOCK_BLOCKED, None));
            let conflict := if allow then match c with Some l => Some (None, l) | None => conflict end else conflict in
            match status with
            | STATE_SUCCESS => s ← lock_acquired s (sle_addr e); Ret (s, status, conflict)
            | STATE_LOCK_BLOCKED =>
                let type := if fso_lock_support_async_block then STATE_BLOCK_ASYNC
                            else if allow then STATE_BLOCK_POLL else STATE_BLOCK_INTERNAL in
                Ret (lock_blocks s (sle_addr e) blocking type, status, conflict)
            | _ => Ret (remove_from_locklist s (sle_addr e), status, conflict)
            end
      end
  end.

(** The lock of a regular file is given up. *)
Definition state_unlock (s : state_hdl) (owner : O) (state_applies : bool) (nsm_state : Z) (lock : fsal_lock_param_t)
    : res (state_hdl * state_status_t) :=
  match lock_list s with
  | [] => Ret (s, STATE_SUCCESS)
  | _ =>
      s ← cancel_blocked_locks_range s (Some owner) state_applies nsm_state lock;
      let '(s, _) := subtract_lock_from_list s (Some owner) state_applies nsm_state lock in
      let s := match lock_list s with [] => add_refs s (-1) | _ => s end in
      '(s, status, _) ← do_lock_op s FSAL_OP_UNLOCK (Some owner) lock;
      s ← grant_blocked_locks s;
      Ret (s, status)
  end.

Definition state_cancel (s : state_hdl) (owner : O) (lock : fsal_lock_param_t) : res state_hdl :=
  match List.find (fun e => negb (different_owners (sle_owner e) (Some owner))
                            && negb (bool_decide (sle_blocked e = STATE_NON_BLOCKING))
                            && negb (different_lock (sle_lock e) lock)) (lock_list s) with
  | Some e => s ← cancel_blocked_lock s (sle_addr e); grant_blocked_locks s
  | None => Ret s
  end.

Definition state_lock_wipe (s : state_hdl) : state_hdl * bool :=
  match lock_list s with
  | [] => (s, false)
  | _ => (foldl remove_from_locklist s (map sle_addr (lock_list s)), true)
  end.

End lock.
