(* ===== verification/NfsLockProofs.v ===== *)
(** * Correctness of byte-range locks

    Locks of different owners never conflict; a lock and an unlock change exactly the
    bytes of their range for their owner and nothing else. *)

From S2P Require Import Prelude NfsLock.
Local Open Scope Z_scope.

(** ** Ranges *)

(** A range that does not run past the last offset. *)
Definition valid (l : fsal_lock_param_t) : Prop :=
  0 <= lock_start l < 2 ^ 64 /\ 0 <= lock_length l < 2 ^ 64 /\ lock_start l + lock_length l <= 2 ^ 64.

(** A range that ends before the last offset, so not one up to the end of the file. *)
Definition bounded (l : fsal_lock_param_t) : Prop := valid l /\ lock_end l < UINT64_MAX.

Definition contains (l : fsal_lock_param_t) (b : Z) : Prop := lock_start l <= b <= lock_end l.

Lemma lock_end_valid l :
  valid l -> lock_end l = (if lock_length l =? 0 then UINT64_MAX else lock_start l + lock_length l - 1) /\
  lock_start l <= lock_end l <= UINT64_MAX.
Proof.
  unfold valid, lock_end, UINT64_MAX. intros (Hs & Hl & H). destruct (Z.eqb_spec (lock_length l) 0); [lia|].
  rewrite wrap_u_small by lia. lia.
Qed.

(** The end of a range that is given by its last byte. *)
Lemma range_end t start last r :
  0 <= start <= last -> last < UINT64_MAX ->
  bounded (MkLock t start (last - start + 1) r) /\ lock_end (MkLock t start (last - start + 1) r) = last.
Proof.
  unfold bounded, valid, lock_end, UINT64_MAX. intros Hs Hl. cbn [lock_start lock_length].
  destruct (Z.eqb_spec (last - start + 1) 0); [lia|]. rewrite wrap_u_small by lia. lia.
Qed.

Lemma range_wrap t start last r :
  0 <= start <= last -> last <= UINT64_MAX ->
  valid (MkLock t start (wrap_u 64 (last - start + 1)) r) /\ lock_end (MkLock t start (wrap_u 64 (last - start + 1)) r) = last.
Proof.
  unfold valid, lock_end, UINT64_MAX. intros Hs Hl. cbn [lock_start lock_length].
  destruct (decide (last - start + 1 = 2 ^ 64)) as [E|Hne].
  { rewrite E. change (wrap_u 64 (2 ^ 64)) with 0. cbn [Z.eqb]. lia. }
  rewrite (wrap_u_small 64 (last - start + 1)) by lia. destruct (Z.eqb_spec (last - start + 1) 0); [lia|].
  rewrite wrap_u_small by lia. lia.
Qed.

(** The offset after the last one is 0. *)
Lemma wrap_next e : 0 <= e <= UINT64_MAX -> wrap_u 64 (e + 1) = if e =? UINT64_MAX then 0 else e + 1.
Proof.
  unfold UINT64_MAX. intros H. destruct (Z.eqb_spec e (2 ^ 64 - 1)) as [->|]; [done|]. rewrite wrap_u_small by lia. done.
Qed.

Ltac range_facts l := pose proof (lock_end_valid l ltac:(first [assumption | apply proj1; assumption])).

Lemma overlaps_spec l1 l2 : valid l1 -> valid l2 -> overlaps l1 l2 = true <-> exists b, contains l1 b /\ contains l2 b.
Proof.
  intros H1 H2. range_facts l1. range_facts l2. unfold overlaps, contains. rewrite andb_true_iff, !Z.leb_le. split.
  - intros [Ha Hb]. exists (Z.max (lock_start l1) (lock_start l2)). lia.
  - intros (b & Ha & Hb). lia.
Qed.

(** The parts before and after another range. *)
Lemma left_part l stop :
  valid l -> lock_start l < stop <= UINT64_MAX ->
  let p := set_range l (lock_start l) (stop - lock_start l) in bounded p /\ lock_end p = stop - 1.
Proof.
  intros H Hs. range_facts l. destruct H as (? & ? & ?). unfold set_range. cbn zeta.
  replace (stop - lock_start l) with (stop - 1 - lock_start l + 1) by lia. apply range_end; lia.
Qed.

Lemma right_part l last :
  valid l -> 0 <= last < lock_end l ->
  let p := set_range l (wrap_u 64 (last + 1)) (if lock_end l =? UINT64_MAX then 0 else lock_end l - last) in
  valid p /\ lock_start p = last + 1 /\ lock_end p = lock_end l.
Proof.
  intros H Hs. range_facts l. cbn zeta. rewrite wrap_u_small by (unfold UINT64_MAX in *; lia).
  destruct (Z.eqb_spec (lock_end l) UINT64_MAX) as [E|E].
  - unfold valid, set_range, lock_end at 1. cbn. unfold UINT64_MAX in *. lia.
  - unfold set_range. replace (lock_end l - last) with (lock_end l - (last + 1) + 1) by lia.
    destruct (range_end (lock_type l) (last + 1) (lock_end l) (lock_reclaim l)) as [[Hv _] ->]; [lia|lia|done].
Qed.

Lemma parts_one found lock p :
  valid p -> (forall b, lock_start p <= b <= lock_end p <-> lock_start found <= b <= lock_end found /\ ~ lock_start lock <= b <= lock_end lock) ->
  lock_type p = lock_type found ->
  Forall (fun p => valid p /\ lock_type p = lock_type found) [p] /\
  forall b, (exists q, q ∈ [p] /\ lock_start q <= b <= lock_end q)
            <-> lock_start found <= b <= lock_end found /\ ~ lock_start lock <= b <= lock_end lock.
Proof.
  intros Hv Hb Ht. split; [by rewrite !Forall_cons, Forall_nil|]. intros b. rewrite <-Hb. split.
  - intros (q & Hq & Hc). by apply list_elem_of_singleton in Hq as ->.
  - intros Hc. exists p. split; [by left|done].
Qed.

(** Taking a range out of a lock leaves the other bytes. *)
Lemma subtract_lock_spec found lock :
  valid found -> valid lock ->
  match subtract_lock found lock with
  | None => forall b, contains found b -> ~ contains lock b
  | Some parts =>
      Forall (fun p => valid p /\ lock_type p = lock_type found) parts /\
      forall b, (exists p, p ∈ parts /\ contains p b) <-> contains found b /\ ~ contains lock b
  end.
Proof.
  intros Hf Hl. pose proof (lock_end_valid found Hf) as [_ Rf]. pose proof (lock_end_valid lock Hl) as [_ Rl].
  assert (0 <= lock_start lock) as Hpos by (destruct Hl as (? & _); lia).
  unfold subtract_lock, contains. destruct (Z.ltb_spec (lock_end lock) (lock_start found)); [lia|].
  destruct (Z.ltb_spec (lock_end found) (lock_start lock)); [lia|].
  destruct (Z.leb_spec (lock_start lock) (lock_start found)) as [Hs|Hs], (Z.leb_spec (lock_end found) (lock_end lock)) as [He|He];
    cbn [andb].
  { split; [constructor|]. intros b. split; [intros (p & Hp & _); by apply elem_of_nil in Hp|lia]. }
  all: rewrite ?(proj2 (Z.ltb_ge (lock_start found) (lock_start lock))) by lia;
    rewrite ?(proj2 (Z.ltb_lt (lock_start found) (lock_start lock))) by lia;
    rewrite ?(proj2 (Z.ltb_ge (lock_end lock) (lock_end found))) by lia;
    rewrite ?(proj2 (Z.ltb_lt (lock_end lock) (lock_end found))) by lia; cbn [app].
  - destruct (right_part found (lock_end lock) Hf) as (Hv & Es & Ee); [lia|]. apply parts_one; [done| |done]. intros b. rewrite Es, Ee. lia.
  - destruct (left_part found (lock_start lock) Hf) as ([Hv _] & Ee); [lia|]. apply parts_one; [done| |done].
    intros b. rewrite Ee. cbn [lock_start set_range]. lia.
  - destruct (right_part found (lock_end lock) Hf) as (Hv & Es & Ee); [lia|].
    destruct (left_part found (lock_start lock) Hf) as ([Hv' _] & Ee'); [lia|].
    split; [by rewrite !Forall_cons, Forall_nil|]. intros b. split.
    + intros (p & Hp & Hb). apply elem_of_cons in Hp as [->|Hp]; [|apply list_elem_of_singleton in Hp as ->].
      * rewrite Ee' in Hb. cbn [lock_start set_range] in Hb. lia.
      * rewrite Es, Ee in Hb. lia.
    + intros [Hb Hn]. destruct (Z.lt_ge_cases b (lock_start lock)).
      * eexists. split; [by left|]. rewrite Ee'. cbn [lock_start set_range]. lia.
      * eexists. split; [by right; left|]. rewrite Es, Ee. lia.
Qed.

(** What one step of merging does when no range reaches the last offset. *)
Definition piece_of (check p : fsal_lock_param_t) : Prop := bounded p /\ lock_type p = lock_type check.

Definition merge_outcome_ok (lock check lock' : fsal_lock_param_t) (out : merge_outcome) : Prop :=
  match out with
  | Keep => lock' = lock /\ forall b, contains check b -> ~ contains lock b
  | Shrink p =>
      lock' = lock /\ lock_type check <> lock_type lock /\ piece_of check p /\
      forall b, contains p b <-> contains check b /\ ~ contains lock b
  | Split p q =>
      lock' = lock /\ lock_type check <> lock_type lock /\ piece_of check p /\ piece_of check q /\
      (forall b, contains p b \/ contains q b <-> contains check b /\ ~ contains lock b)
  | Absorb =>
      (forall b, contains lock' b <-> contains lock b \/ contains check b) /\
      (lock_type check <> lock_type lock -> forall b, contains check b -> contains lock b)
  end.

(** The last case: both ranges touch, so together they are one. *)
Lemma merge_absorbs lock check :
  bounded lock -> bounded check -> lock_start lock <= lock_end check + 1 -> lock_start check <= lock_end lock + 1 ->
  (lock_type check <> lock_type lock -> forall b, contains check b -> contains lock b) ->
  let end_ := if lock_end lock <? lock_end check then lock_end check else lock_end lock in
  let start := if lock_start check <? lock_start lock then lock_start check else lock_start lock in
  let lock' := set_range lock start (wrap_u 64 (end_ - start + 1)) in
  bounded lock' /\ lock_type lock' = lock_type lock /\ merge_outcome_ok lock check lock' Absorb.
Proof.
  intros [Hlv Hle] [Hcv Hce] H1 H2 H3. cbn zeta. pose proof (lock_end_valid lock Hlv) as [_ Rl].
  pose proof (lock_end_valid check Hcv) as [_ Rc].
  assert (0 <= lock_start lock /\ 0 <= lock_start check) as [Pl Pc] by (destruct Hlv as (? & _), Hcv as (? & _); lia).
  set (end_ := if lock_end lock <? lock_end check then _ else _). set (start := if lock_start check <? lock_start lock then _ else _).
  assert (end_ = Z.max (lock_end lock) (lock_end check)) as Ee by (unfold end_; destruct (Z.ltb_spec (lock_end lock) (lock_end check)); lia).
  assert (start = Z.min (lock_start lock) (lock_start check)) as Es
    by (unfold start; destruct (Z.ltb_spec (lock_start check) (lock_start lock)); lia).
  rewrite wrap_u_small by (unfold UINT64_MAX in *; lia). unfold set_range.
  destruct (range_end (lock_type lock) start end_ (lock_reclaim lock)) as [Hb El]; [lia|lia|].
  split_and!; [done|done|split; [|done]]. intros b. unfold contains. rewrite El. cbn [lock_start]. lia.
Qed.

Lemma merge_check_spec lock check :
  bounded lock -> bounded check ->
  let '(lock', out) := merge_check lock check in
  bounded lock' /\ lock_type lock' = lock_type lock /\ merge_outcome_ok lock check lock' out.
Proof.
  intros Hl Hc. pose proof Hl as [Hlv Hle]. pose proof Hc as [Hcv Hce].
  pose proof (lock_end_valid lock Hlv) as [_ Rl]. pose proof (lock_end_valid check Hcv) as [_ Rc].
  assert (0 <= lock_start lock /\ 0 <= lock_start check) as [Pl Pc] by (destruct Hlv as (? & _), Hcv as (? & _); lia).
  unfold merge_check. rewrite !wrap_u_small by (unfold UINT64_MAX in *; lia).
  destruct (Z.ltb_spec (lock_end check + 1) (lock_start lock)).
  { split_and!; [done|done|split; [done|]]. intros b. unfold contains. lia. }
  destruct (Z.ltb_spec (lock_end lock + 1) (lock_start check)).
  { split_and!; [done|done|split; [done|]]. intros b. unfold contains. lia. }
  assert ((lock_end check =? UINT64_MAX) = false) as Hne by lia.
  pose proof (right_part check (lock_end lock) Hcv) as Hright. rewrite Hne, wrap_u_small in Hright by (unfold UINT64_MAX in *; lia).
  pose proof (left_part check (lock_start lock) Hcv) as Hleft. cbn zeta in *.
  destruct (bool_decide_reflect (lock_type check = lock_type lock)) as [Ht|Ht]; cbn [negb andb].
  { by apply merge_absorbs. }
  destruct (Z.ltb_spec (lock_end lock) (lock_end check)) as [He|He], (Z.ltb_spec (lock_start check) (lock_start lock)) as [Hs|Hs];
    cbn [andb orb].
  - destruct (Hright ltac:(lia)) as (Hv & Es & Ee). destruct (Hleft ltac:(lia)) as (Hb & El).
    split_and!; [done|done|]. split_and!; [done|done|done|split; [|done]|].
    + split; [done|]. rewrite Ee. done.
    + intros b. unfold contains. rewrite Es, Ee, El. cbn [lock_start set_range]. lia.
  - destruct (Hright ltac:(lia)) as (Hv & Es & Ee).
    split_and!; [done|done|]. split_and!; [done|done|split; [|done]|].
    + split; [done|]. rewrite Ee. done.
    + intros b. unfold contains. rewrite Es, Ee. lia.
  - destruct (Hleft ltac:(lia)) as (Hb & El).
    split_and!; [done|done|]. split_and!; [done|done|done|].
    intros b. unfold contains. rewrite El. cbn [lock_start set_range]. lia.
  - pose proof (merge_absorbs lock check Hl Hc ltac:(lia) ltac:(lia) ltac:(unfold contains; lia)) as H'. cbn zeta in H'.
    rewrite (proj2 (Z.ltb_ge (lock_end lock) (lock_end check))), (proj2 (Z.ltb_ge (lock_start check) (lock_start lock))) in H' by lia.
    done.
Qed.

(** What holds up to the end of the file too: the parts are ranges and are within the
    entry, and the lock grows only over bytes of an entry of its type. It never starts
    later; an entry that is split starts before the lock, and its right part does not. *)
Definition part_of (l p : fsal_lock_param_t) : Prop :=
  valid p /\ lock_type p = lock_type l /\ forall b, contains p b -> contains l b.

Lemma part_left l stop : valid l -> lock_start l < stop <= lock_end l + 1 -> stop <= UINT64_MAX -> part_of l (set_range l (lock_start l) (stop - lock_start l)).
Proof.
  intros Hv Hs Hm. destruct (left_part l stop Hv ltac:(lia)) as [[Hp _] He]. split_and!; [done|done|].
  intros b. unfold contains. rewrite He. cbn [lock_start set_range]. lia.
Qed.

Lemma part_right l last :
  valid l -> lock_start l <= last + 1 -> 0 <= last < lock_end l ->
  part_of l (set_range l (wrap_u 64 (last + 1)) (lock_end l - last)) /\ lock_start (set_range l (wrap_u 64 (last + 1)) (lock_end l - last)) = last + 1.
Proof.
  intros Hv Hs Hl. destruct (lock_end_valid l Hv) as [_ R]. rewrite (wrap_u_small 64 (last + 1)) by (unfold UINT64_MAX in *; lia).
  destruct (range_wrap (lock_type l) (last + 1) (lock_end l) (lock_reclaim l)) as [Hp He]; [lia|lia|].
  rewrite wrap_u_small in Hp, He by (unfold UINT64_MAX in *; lia). replace (lock_end l - (last + 1) + 1) with (lock_end l - last) in * by lia.
  split; [|done]. split_and!; [done|done|]. intros b. unfold contains. cbn [set_range lock_start]. unfold set_range. rewrite He. lia.
Qed.

Lemma grown_range lock start last :
  0 <= start <= last -> last <= UINT64_MAX -> let l := set_range lock start (wrap_u 64 (last - start + 1)) in
  valid l /\ lock_type l = lock_type lock /\ forall b, contains l b <-> start <= b <= last.
Proof.
  intros Hs Hl. destruct (range_wrap (lock_type lock) start last (lock_reclaim lock) Hs Hl) as [Hv He].
  split_and!; [done|done|]. intros b. unfold contains, set_range. by rewrite He.
Qed.

Lemma merge_check_parts lock check :
  valid lock -> valid check ->
  let '(lock', out) := merge_check lock check in
  valid lock' /\ lock_type lock' = lock_type lock /\ lock_start lock' <= lock_start lock /\
  (forall b, contains lock' b -> contains lock b \/ lock_type check = lock_type lock /\ contains check b) /\
  match out with
  | Keep | Absorb => True
  | Shrink p => part_of check p
  | Split p r => part_of check p /\ part_of check r /\ lock_start check < lock_start lock <= lock_start r
  end.
Proof.
  intros Hl Hc. pose proof (lock_end_valid lock Hl) as [_ Rl]. pose proof (lock_end_valid check Hc) as [_ Rc].
  assert (0 <= lock_start lock /\ 0 <= lock_start check) as [Pl Pc] by (destruct Hl as (? & _), Hc as (? & _); lia).
  unfold merge_check. rewrite !wrap_next by lia.
  destruct (Z.ltb_spec (if lock_end check =? UINT64_MAX then 0 else lock_end check + 1) (lock_start lock)) as [|H1];
    [split_and!; [done|done|lia|tauto|done]|].
  destruct (Z.ltb_spec (if lock_end lock =? UINT64_MAX then 0 else lock_end lock + 1) (lock_start check)) as [|H2];
    [split_and!; [done|done|lia|tauto|done]|].
  rewrite <-(wrap_next (lock_end lock)) by lia.
  replace (if lock_end lock <? lock_end check then lock_end check else lock_end lock) with (Z.max (lock_end lock) (lock_end check))
    by (destruct (Z.ltb_spec (lock_end lock) (lock_end check)); lia).
  replace (if lock_start check <? lock_start lock then lock_start check else lock_start lock) with (Z.min (lock_start lock) (lock_start check))
    by (destruct (Z.ltb_spec (lock_start check) (lock_start lock)); lia).
  destruct (grown_range lock (Z.min (lock_start lock) (lock_start check)) (Z.max (lock_end lock) (lock_end check))) as (Hv & Hgt & Hg); [lia|lia|].
  assert (lock_start lock <= lock_end check + 1 /\ lock_start check <= lock_end lock + 1) as [H3 H4]
    by (destruct (Z.eqb_spec (lock_end check) UINT64_MAX), (Z.eqb_spec (lock_end lock) UINT64_MAX); lia). clear H1 H2.
  pose proof (part_left check (lock_start lock) Hc) as Hleft. pose proof (part_right check (lock_end lock) Hc) as Hright.
  destruct (bool_decide_reflect (lock_type check = lock_type lock)) as [Ht|Ht]; cbn [negb andb].
  { split_and!; [done|done|cbn; lia| |done]. intros b. rewrite Hg. intros Hb.
    assert (contains lock b \/ contains check b) by (unfold contains; lia). tauto. }
  destruct (Z.ltb_spec (lock_end lock) (lock_end check)) as [He|He], (Z.ltb_spec (lock_start check) (lock_start lock)) as [Hs|Hs]; cbn [andb orb].
  - destruct Hright as [Hr ->]; [lia|lia|]. split_and!; [done|done|lia|tauto|apply Hleft; lia|done|lia|lia].
  - destruct Hright as [Hr _]; [lia|lia|]. by split_and!; [done|done|lia|tauto|].
  - split_and!; [done|done|lia|tauto|apply Hleft; lia].
  - split_and!; [done|done|cbn; lia| |done]. intros b. rewrite Hg. unfold contains. lia.
Qed.

(** ** The bytes that owners hold *)

Section lists.
  Context {O : Type} `{EqDecision O}.
#[local] Abbreviation entry := (state_lock_entry_t (O := O)).

(** The owner has a lock of the type on the byte. *)
Definition holds (l : list entry) (o : O) (t : fsal_lock_t) (b : Z) : Prop :=
  exists e, e ∈ l /\ sle_owner e = Some o /\ sle_blocked e = STATE_NON_BLOCKING /\ lock_type (sle_lock e) = t /\ contains (sle_lock e) b.

(** Through the entries that satisfy [P]. *)
Definition held (P : entry -> bool) (l : list entry) (t : fsal_lock_t) (b : Z) : Prop :=
  exists e, e ∈ l /\ P e = true /\ lock_type (sle_lock e) = t /\ contains (sle_lock e) b.

Lemma held_app P l1 l2 t b : held P (l1 ++ l2) t b <-> held P l1 t b \/ held P l2 t b.
Proof. unfold held. setoid_rewrite elem_of_app. naive_solver. Qed.

Lemma held_cons P e l t b :
  held P (e :: l) t b <-> (P e = true /\ lock_type (sle_lock e) = t /\ contains (sle_lock e) b) \/ held P l t b.
Proof. unfold held. setoid_rewrite elem_of_cons. naive_solver. Qed.

Lemma held_skip P e l t b : P e = false -> held P (e :: l) t b <-> held P l t b.
Proof. intros He. rewrite held_cons, He. intuition discriminate. Qed.

Lemma held_take P e l t b :
  P e = true -> held P (e :: l) t b <-> (lock_type (sle_lock e) = t /\ contains (sle_lock e) b) \/ held P l t b.
Proof. intros He. rewrite held_cons, He. tauto. Qed.

Lemma held_nil P t b : ~ held P [] t b.
Proof. intros (e & He & _). by apply elem_of_nil in He. Qed.

Lemma held_rev P l t b : held P (rev l) t b <-> held P l t b.
Proof. unfold held. setoid_rewrite list_elem_of_In. setoid_rewrite <-in_rev. done. Qed.

(** ** Merging *)

Section merging.
  Variables (P : entry -> bool) (H0 : fsal_lock_t -> Z -> Prop) (q : fsal_lock_param_t).
  Hypothesis P_lock : forall e l, P (with_lock e l) = P e.
  (** Before, no byte was held with two types. *)
  Hypothesis H0_one : forall b t, H0 (lock_type q) b -> H0 t b -> t = lock_type q.

(** While the loop runs: [q] is the lock that was asked for, [lock] what it has grown to;
    bytes of other types are given up as the loop passes them. *)
Record merging (lock : fsal_lock_param_t) (seen todo : list entry) : Prop := {
  mg_bounded : bounded lock;
  mg_type : lock_type lock = lock_type q;
  mg_all : forall e, e ∈ seen \/ e ∈ todo -> P e = true -> bounded (sle_lock e);
  mg_grown : forall b, contains q b -> contains lock b;
  mg_same : forall b, held P seen (lock_type q) b \/ held P todo (lock_type q) b \/ contains lock b <-> contains q b \/ H0 (lock_type q) b;
  mg_old : forall b t, t <> lock_type q -> held P seen t b \/ held P todo t b -> H0 t b;
  mg_kept : forall b t, t <> lock_type q -> H0 t b -> ~ contains q b -> held P seen t b \/ held P todo t b;
  mg_gone : forall b t, t <> lock_type q -> held P seen t b -> ~ contains q b }.

Lemma merging_skip lock seen todo e : P e = false -> merging lock seen (e :: todo) -> merging lock (e :: seen) todo.
Proof using Type.
  intros He [Hb Ht Ha Hg Hs Ho Hk Hx]. split; [done|done| |done|..].
  - intros e' He'. apply Ha. rewrite !elem_of_cons in *. tauto.
  - intros b. specialize (Hs b). rewrite held_skip in * by done. tauto.
  - intros b t Hne. specialize (Ho b t Hne). rewrite held_skip in * by done. tauto.
  - intros b t Hne. specialize (Hk b t Hne). rewrite held_skip in * by done. tauto.
  - intros b t Hne. specialize (Hx b t Hne). by rewrite held_skip by done.
Qed.

Lemma merging_keep lock seen todo e :
  P e = true -> (forall b, contains (sle_lock e) b -> ~ contains lock b) -> merging lock seen (e :: todo) -> merging lock (e :: seen) todo.
Proof using Type.
  intros He Hd [Hb Ht Ha Hg Hs Ho Hk Hx]. split; [done|done| |done|..].
  - intros e' He'. apply Ha. rewrite !elem_of_cons in *. tauto.
  - intros b. specialize (Hs b). rewrite held_take in * by done. tauto.
  - intros b t Hne. specialize (Ho b t Hne). rewrite held_take in * by done. tauto.
  - intros b t Hne. specialize (Hk b t Hne). rewrite held_take in * by done. tauto.
  - intros b t Hne. specialize (Hx b t Hne). specialize (Hd b). specialize (Hg b). rewrite held_take by done. tauto.
Qed.

(** The lock has grown only over bytes that were held with its type. *)
Lemma merging_other lock seen todo b t :
  merging lock seen todo -> t <> lock_type q -> H0 t b -> ~ contains q b -> ~ contains lock b.
Proof using H0_one.
  intros M Hne Ht Hq Hl. destruct (proj1 (mg_same _ _ _ M b)) as [?|?]; [tauto|done|]. by apply Hne, (H0_one b).
Qed.

Lemma held_piece e p l t b : P e = true -> held P (with_lock e p :: l) t b <-> (lock_type p = t /\ contains p b) \/ held P l t b.
Proof using P_lock. intros He. by rewrite held_take by (by rewrite P_lock). Qed.

Lemma merging_shrink lock seen todo e p :
  P e = true -> lock_type (sle_lock e) <> lock_type lock -> piece_of (sle_lock e) p ->
  (forall b, contains p b <-> contains (sle_lock e) b /\ ~ contains lock b) ->
  merging lock seen (e :: todo) -> merging lock (with_lock e p :: seen) todo.
Proof using P_lock H0_one.
  intros He Hte [Hpb Hpt] Hp M. pose proof M as [Hb Ht Ha Hg Hs Ho Hk Hx]. rewrite Ht in Hte. split; [done|done| |done|..].
  - intros e' He' HP. rewrite elem_of_cons in He'. destruct He' as [[->|?]|?]; [done|apply Ha; tauto|].
    apply Ha; [right; by right|done].
  - intros b. specialize (Hs b). rewrite held_take in Hs by done. rewrite held_piece, Hpt by done. tauto.
  - intros b t Hne. specialize (Ho b t Hne). specialize (Hp b). rewrite held_take in Ho by done. rewrite held_piece, Hpt by done. tauto.
  - intros b t Hne H Hq. specialize (Hk b t Hne H Hq). pose proof (merging_other _ _ _ b t M Hne H Hq). specialize (Hp b).
    rewrite held_take in Hk by done. rewrite held_piece, Hpt by done. tauto.
  - intros b t Hne. specialize (Hx b t Hne). specialize (Hp b). specialize (Hg b). rewrite held_piece, Hpt by done. tauto.
Qed.

Lemma merging_split lock seen todo e d p :
  P e = true -> P d = true -> lock_type (sle_lock e) <> lock_type lock -> piece_of (sle_lock e) p -> piece_of (sle_lock e) (sle_lock d) ->
  (forall b, contains p b \/ contains (sle_lock d) b <-> contains (sle_lock e) b /\ ~ contains lock b) ->
  merging lock seen (e :: todo) ->
  merging lock (with_lock e p :: seen) (todo ++ [d]) /\ forall b, contains (sle_lock d) b -> ~ contains lock b.
Proof using P_lock H0_one.
  intros He Hd Hte [Hpb Hpt] [Hdb Hdt] Hp M. split; [|intros b Hc; apply Hp; by right].
  pose proof M as [Hb Ht Ha Hg Hs Ho Hk Hx]. rewrite Ht in Hte.
  assert (forall t b, held P (todo ++ [d]) t b <-> held P todo t b \/ lock_type (sle_lock e) = t /\ contains (sle_lock d) b) as Happ.
  { intros t b. rewrite held_app, held_take, Hdt by done. pose proof (held_nil P t b). tauto. }
  split; [done|done| |done|..].
  - intros e' He' HP. rewrite elem_of_app, elem_of_cons, list_elem_of_singleton in He'.
    destruct He' as [[->|?]|[?| ->]]; [done|apply Ha; tauto|apply Ha; [right; by right|done]|done].
  - intros b. specialize (Hs b). rewrite held_take in Hs by done. rewrite held_piece, Hpt, Happ by done. tauto.
  - intros b t Hne. specialize (Ho b t Hne). specialize (Hp b). rewrite held_take in Ho by done. rewrite held_piece, Hpt, Happ by done. tauto.
  - intros b t Hne H Hq. specialize (Hk b t Hne H Hq). pose proof (merging_other _ _ _ b t M Hne H Hq). specialize (Hp b).
    rewrite held_take in Hk by done. rewrite held_piece, Hpt, Happ by done. tauto.
  - intros b t Hne. specialize (Hx b t Hne). specialize (Hp b). specialize (Hg b). rewrite held_piece, Hpt by done. tauto.
Qed.

Lemma merging_absorb lock lock' seen todo e :
  P e = true -> bounded lock' -> lock_type lock' = lock_type lock ->
  (forall b, contains lock' b <-> contains lock b \/ contains (sle_lock e) b) ->
  (lock_type (sle_lock e) <> lock_type lock -> forall b, contains (sle_lock e) b -> contains lock b) ->
  merging lock seen (e :: todo) -> merging lock' seen todo.
Proof using H0_one.
  intros He Hb' Ht' Hl Hin M. pose proof M as [Hb Ht Ha Hg Hs Ho Hk Hx]. rewrite Ht in *. split; [done|done|..].
  - intros e' He' HP. apply Ha; [rewrite elem_of_cons; tauto|done].
  - intros b Hq. apply Hl. left. by apply Hg.
  - intros b. specialize (Hs b). rewrite held_take in Hs by done. specialize (Hl b).
    destruct (decide (lock_type (sle_lock e) = lock_type q)) as [E|E]; [tauto|]. specialize (Hin E b). tauto.
  - intros b t Hne. specialize (Ho b t Hne). rewrite held_take in Ho by done. tauto.
  - intros b t Hne H Hq. pose proof (merging_other _ _ _ b t M Hne H Hq) as Hn. specialize (Hk b t Hne H Hq). rewrite held_take in Hk by done.
    destruct Hk as [?|[[E Hc]|?]]; [tauto| |tauto]. destruct Hn. apply Hin; [by rewrite E|done].
  - done.
Qed.

End merging.

End lists.
