(* ===== verification/NfsLockInv.v ===== *)
(** * The loop of [merge_lock_entry] and the invariant of the list of locks *)

From S2P Require Import Prelude NfsLock NfsLockProofs.
Local Open Scope Z_scope.

(** Membership in a list that is put together from others. *)
Ltac in_list := repeat first [rewrite elem_of_app | rewrite elem_of_cons | rewrite list_elem_of_singleton]; tauto.

Section loops.
  Context {O : Type} `{EqDecision O}.
  Variable (F : Type).
#[local] Abbreviation entry := (state_lock_entry_t (O := O)).
#[local] Abbreviation hdl := (state_hdl F (O := O)).

(** ** The loop ends with every entry looked at *)

(** An entry that can be split counts twice. *)
Definition weight (lock : fsal_lock_param_t) (l : list entry) : nat :=
  sum_list_with (fun e => if (lock_start (sle_lock e) <? lock_start lock)%Z then 2%nat else 1%nat) l.

Lemma weight_le lock lock' l : lock_start lock' <= lock_start lock -> (weight lock' l <= weight lock l)%nat.
Proof using Type.
  intros H. unfold weight. induction l as [|e l IH]; [done|]. cbn [sum_list_with].
  destruct (Z.ltb_spec (lock_start (sle_lock e)) (lock_start lock')), (Z.ltb_spec (lock_start (sle_lock e)) (lock_start lock)); lia.
Qed.

Lemma weight_pos lock e l : (S (weight lock l) <= weight lock (e :: l))%nat.
Proof using Type. unfold weight. cbn [sum_list_with]. destruct (_ <? _); lia. Qed.

Lemma weight_length lock l : (weight lock l <= 2 * length l)%nat.
Proof using Type. unfold weight. induction l as [|e l IH]; [done|]. cbn [sum_list_with length]. destruct (_ <? _); lia. Qed.

Lemma weight_split lock lock' e d l :
  lock_start lock' <= lock_start lock -> lock_start (sle_lock e) < lock_start lock -> lock_start lock <= lock_start (sle_lock d) ->
  (S (weight lock' (l ++ [d])) <= weight lock (e :: l))%nat.
Proof using Type.
  intros H He Hd. pose proof (weight_le lock lock' (l ++ [d]) H).
  assert (weight lock (l ++ [d]) = weight lock l + 1)%nat.
  { unfold weight. rewrite sum_list_with_app. cbn [sum_list_with].
    destruct (Z.ltb_spec (lock_start (sle_lock d)) (lock_start lock)); lia. }
  assert (weight lock (e :: l) = 2 + weight lock l)%nat; [|lia].
  unfold weight. cbn [sum_list_with]. destruct (Z.ltb_spec (lock_start (sle_lock e)) (lock_start lock)); lia.
Qed.

Section induction.
  Variables (a : nat) (owner : option O).
#[local] Abbreviation P := (merges_with a owner).
  (** What holds at the head of the loop. *)
  Variable (J : hdl -> fsal_lock_param_t -> list entry -> list entry -> list entry -> Prop).
  Hypothesis J_valid : forall s lock seen e todo rm, J s lock seen (e :: todo) rm -> P e = true -> valid lock /\ valid (sle_lock e).
  Hypothesis J_skip : forall s lock seen e todo rm, P e = false -> J s lock seen (e :: todo) rm -> J s lock (e :: seen) todo rm.
  Hypothesis J_step : forall s lock seen e todo rm,
    P e = true -> J s lock seen (e :: todo) rm ->
    let '(lock', out) := merge_check lock (sle_lock e) in
    match out with
    | Keep => J s lock' (e :: seen) todo rm
    | Shrink p => J s lock' (with_lock e p :: seen) todo rm
    | Split p r =>
        let '(s', dup) := state_lock_entry_t_dup F s e in
        J s' lock' (with_lock e p :: seen) (todo ++ [with_lock dup r]) rm /\
        (todo = [] -> J s' lock' (with_lock dup r :: with_lock e p :: seen) [] rm)
    | Absorb => J s lock' seen todo (e :: rm)
    end.

Lemma merge_loop_ind fuel s lock seen todo rm :
  (weight lock todo <= fuel)%nat -> J s lock seen todo rm ->
  let '(s', lock', l, rm') := merge_loop F fuel s a owner lock seen todo rm in J s' lock' (rev l) [] rm'.
Proof using J_valid J_skip J_step.
  revert s lock seen todo rm. induction fuel as [|fuel IH]; intros s lock seen [|e todo] rm Hw HJ; cbn [merge_loop];
    try (by rewrite app_nil_r, rev_involutive); [pose proof (weight_pos lock e todo); lia|].
  pose proof (weight_pos lock e todo) as Hp. destruct (P e) eqn:He; [|apply IH; [lia|by apply J_skip]].
  pose proof (J_step _ _ _ _ _ _ He HJ) as Hs. destruct (J_valid _ _ _ _ _ _ HJ He) as [Hl Hv].
  pose proof (merge_check_parts lock (sle_lock e) Hl Hv) as Hm. destruct (merge_check lock (sle_lock e)) as [lock' out].
  destruct Hm as (_ & _ & Hst & _ & Ho). pose proof (weight_le lock lock' todo Hst) as Hle.
  destruct out as [|p|p r|]; [apply IH; [lia|done]|apply IH; [lia|done]| |apply IH; [lia|done]].
  destruct (state_lock_entry_t_dup F s e) as [s' dup]. destruct Hs as [HJ' Hend], todo as [|e' todo].
  - replace (rev (rev (with_lock e p :: seen) ++ [with_lock dup r])) with (with_lock dup r :: with_lock e p :: seen); [by apply Hend|].
    by rewrite rev_app_distr, rev_involutive.
  - apply IH; [|done]. destruct Ho as (_ & _ & ?). pose proof (weight_split lock lock' e (with_lock dup r) (e' :: todo) Hst) as Hx.
    cbn [sle_lock with_lock] in Hx. specialize (Hx ltac:(lia) ltac:(lia)). lia.
Qed.

End induction.

(** ** What the loop does to the list *)

(** An entry that is left of an entry, or a new one for a part of it. *)
Definition comes_from (n : nat) (e0 e : entry) : Prop :=
  part_of (sle_lock e0) (sle_lock e) /\ sle_owner e = sle_owner e0 /\ sle_blocked e = sle_blocked e0 /\
  (sle_addr e = sle_addr e0 /\ sle_ref_count e = sle_ref_count e0 /\ sle_block_data e = sle_block_data e0 \/
   (n <= sle_addr e)%nat /\ sle_ref_count e = 1 /\ sle_block_data e = None).

Lemma part_of_refl l : valid l -> part_of l l.
Proof using Type. by unfold part_of. Qed.

Lemma comes_from_refl n e : valid (sle_lock e) -> comes_from n e e.
Proof using Type. intros Hv. split; [by apply part_of_refl|]. split_and!; [done|done|by left]. Qed.

Lemma comes_from_part n e0 e p : comes_from n e0 e -> part_of (sle_lock e) p -> comes_from n e0 (with_lock e p).
Proof using Type.
  intros ((_ & Ht & Hc) & Ho & Hb & Ha) (Hv' & Ht' & Hc').
  split; [|done]. split_and!; cbn; [done|congruence|]. intros b Hb'. by apply Hc, Hc'.
Qed.

Lemma comes_from_dup n m e0 e ex st p :
  comes_from n e0 e -> part_of (sle_lock e) p -> (n <= m)%nat ->
  comes_from n e0 (MkEntry m ex (sle_owner e) st (sle_blocked e) None 1 p).
Proof using Type.
  intros ((_ & Ht & Hc) & Ho & Hb & Ha) (Hv' & Ht' & Hc') Hm. split; [|split_and!; [done|done|by right]].
  split_and!; cbn; [done|congruence|]. intros b Hb'. by apply Hc, Hc'.
Qed.

Lemma comes_from_valid n e0 e : comes_from n e0 e -> valid (sle_lock e).
Proof using Type. by intros ((? & _) & _). Qed.

Definition others (P : entry -> bool) (l : list entry) : list entry := List.filter (fun e => negb (P e)) l.

Lemma others_app P l1 l2 : others P (l1 ++ l2) = others P l1 ++ others P l2.
Proof using Type. apply List.filter_app. Qed.

Lemma others_cons P e l : others P (e :: l) = if P e then others P l else e :: others P l.
Proof using Type. unfold others. cbn. by destruct (P e). Qed.

Lemma others_in P l e : e ∈ others P l <-> e ∈ l /\ P e = false.
Proof using Type. unfold others. rewrite !list_elem_of_In, filter_In. destruct (P e); naive_solver. Qed.

Section merge.
  Variables (a : nat) (o : O) (s0 : hdl) (lock0 : fsal_lock_param_t).
#[local] Abbreviation P := (merges_with a (Some o)).
#[local] Abbreviation l0 := (lock_list F s0).

Record merged (s : hdl) (lock : fsal_lock_param_t) (l rm : list entry) : Prop := {
  md_state : s = set_next F s0 (next_addr F s);
  md_next : (next_addr F s0 <= next_addr F s)%nat;
  md_valid : valid lock;
  md_type : lock_type lock = lock_type lock0;
  md_cover : forall b, contains lock b -> contains lock0 b \/ held P l0 (lock_type lock0) b;
  md_from : forall e, e ∈ l \/ e ∈ rm -> P e = true -> exists e0, e0 ∈ l0 /\ P e0 = true /\ comes_from (next_addr F s0) e0 e;
  md_nodup : NoDup (map sle_addr l);
  md_bound : forall e, e ∈ l -> (sle_addr e < next_addr F s)%nat;
  md_others : others P l = others P l0;
  md_removed : forall e, e ∈ rm -> P e = true }.

Lemma merges_with_lock e l : P (with_lock e l) = P e.
Proof using Type. done. Qed.

(** The lock grows over an entry of the list. *)
Lemma md_grow s lock lock' l rm e :
  merged s lock l rm -> e ∈ l -> P e = true ->
  (forall b, contains lock' b -> contains lock b \/ lock_type (sle_lock e) = lock_type lock /\ contains (sle_lock e) b) ->
  forall b, contains lock' b -> contains lock0 b \/ held P l0 (lock_type lock0) b.
Proof using Type.
  intros M He HP Hg b Hb. destruct (Hg b Hb) as [Hc|[Ht Hc]]; [by apply (md_cover _ _ _ _ M)|]. right.
  destruct (md_from _ _ _ _ M e (or_introl He) HP) as (e0 & H0 & HP0 & (_ & Ht0 & Hc0) & _).
  exists e0. rewrite <-(md_type _ _ _ _ M). split_and!; [done|done|congruence|by apply Hc0].
Qed.

Lemma merged_lock s lock lock' l rm :
  merged s lock l rm -> valid lock' -> lock_type lock' = lock_type lock ->
  (forall b, contains lock' b -> contains lock0 b \/ held P l0 (lock_type lock0) b) -> merged s lock' l rm.
Proof using Type. intros M Hv Ht Hc. destruct M. split; try done. congruence. Qed.

Lemma merged_replace s lock l1 e p l2 rm :
  merged s lock (l1 ++ e :: l2) rm -> P e = true -> part_of (sle_lock e) p -> merged s lock (l1 ++ with_lock e p :: l2) rm.
Proof using Type.
  intros M HP Hp. destruct M as [Hs Hn Hv Ht Hc Hf Hd Hb Ho Hr]. split; try done.
  - intros e' He' HP'. rewrite elem_of_app, elem_of_cons in He'. destruct He' as [[?|[->|?]]|?]; try (apply Hf; [in_list|done]).
    destruct (Hf e) as (e0 & ? & ? & ?); [in_list|done|]. exists e0. split_and!; [done|done|by apply comes_from_part].
  - rewrite map_app in *. done.
  - intros e' He'. rewrite elem_of_app, elem_of_cons in He'. destruct He' as [?|[->|?]]; [apply Hb; in_list| |apply Hb; in_list].
    apply (Hb e). in_list.
  - rewrite <-Ho. by rewrite !others_app, !others_cons, merges_with_lock, HP.
Qed.

(** The right part is a new entry at the end. *)
Lemma merged_dup s lock l e p rm :
  (a < next_addr F s0)%nat -> merged s lock l rm -> P e = true ->
  (exists e0, e0 ∈ l0 /\ P e0 = true /\ comes_from (next_addr F s0) e0 e) -> part_of (sle_lock e) p ->
  let '(s', dup) := state_lock_entry_t_dup F s e in merged s' lock (l ++ [with_lock dup p]) rm.
Proof using Type.
  intros Ha M HP (e0 & He0 & HP0 & Hf0) Hp. pose proof M as [Hs Hn Hv Ht Hc Hf Hd Hb Ho Hr]. cbn.
  assert (P (MkEntry (next_addr F s) (sle_export e) (sle_owner e) (sle_state e) (sle_blocked e) None 1 p) = true) as HPd.
  { unfold merges_with, at_addr in *. cbn. replace (Nat.eqb (next_addr F s) a) with false by (symmetry; apply Nat.eqb_neq; lia).
    by destruct (Nat.eqb (sle_addr e) a). }
  split; try done; cbn.
  - rewrite Hs. done.
  - lia.
  - intros e' He' HP'. rewrite elem_of_app, list_elem_of_singleton in He'. destruct He' as [[?| ->]|?]; try (apply Hf; [in_list|done]).
    exists e0. split_and!; [done|done|exact (comes_from_dup _ _ e0 e _ _ p Hf0 Hp Hn)].
  - rewrite map_app, NoDup_app. split_and!; [done| |apply NoDup_singleton].
    intros x (e' & -> & He')%list_elem_of_fmap Hx. apply list_elem_of_singleton in Hx. specialize (Hb e' He'). cbn in Hx. lia.
  - intros e'. rewrite elem_of_app, list_elem_of_singleton. intros [He'| ->]; cbn; [specialize (Hb e' He'); lia|lia].
  - rewrite others_app, others_cons. unfold with_lock. cbn [sle_addr sle_export sle_owner sle_state sle_blocked sle_block_data sle_ref_count].
    rewrite HPd. cbn. by rewrite app_nil_r.
Qed.

Lemma merged_remove s lock l1 e l2 rm :
  merged s lock (l1 ++ e :: l2) rm -> P e = true -> merged s lock (l1 ++ l2) (e :: rm).
Proof using Type.
  intros M HP. destruct M as [Hs Hn Hv Ht Hc Hf Hd Hb Ho Hr]. split; try done.
  - intros e' He'. apply Hf. rewrite elem_of_app, elem_of_cons in *. tauto.
  - rewrite map_app in *. cbn in Hd. rewrite <-Permutation_middle in Hd. by apply NoDup_cons in Hd as [_ Hd].
  - intros e' He'. apply Hb. rewrite elem_of_app, ?elem_of_cons in *. tauto.
  - rewrite <-Ho, !others_app, others_cons, HP. done.
  - intros e'. rewrite elem_of_cons. intros [->|?]; [done|by apply Hr].
Qed.

Lemma merge_loop_merged :
  (a < next_addr F s0)%nat -> valid lock0 -> (forall e, e ∈ l0 -> valid (sle_lock e)) ->
  NoDup (map sle_addr l0) -> (forall e, e ∈ l0 -> (sle_addr e < next_addr F s0)%nat) ->
  let '(s, lock, l, rm) := merge_loop F (2 * length l0) s0 a (Some o) lock0 [] l0 [] in merged s lock l rm.
Proof using Type.
  intros Ha Hv Hl Hd Hb.
  pose proof (merge_loop_ind a (Some o) (fun s lock seen todo rm => merged s lock (rev seen ++ todo) rm)) as Hi.
  assert (forall seen (e : entry) todo, rev (e :: seen) ++ todo = rev seen ++ e :: todo) as Hrev.
  { intros. cbn [rev]. by rewrite <-app_assoc. }
  specialize (fun J1 J2 J3 => Hi J1 J2 J3 (2 * length l0)%nat s0 lock0 [] l0 [] (weight_length _ _)).
  destruct (merge_loop _ _ _ _ _ _ _ _ _) as [[[s lock] l] rm]. cbn beta iota in Hi. rewrite rev_involutive, app_nil_r in Hi. apply Hi; clear Hi.
  - intros s' lock' seen e todo rm' M HP. split; [apply (md_valid _ _ _ _ M)|].
    destruct (md_from _ _ _ _ M e) as (e0 & _ & _ & Hf); [left; in_list|done|]. by apply comes_from_valid in Hf.
  - intros s' lock' seen e todo rm' HP M. by rewrite Hrev.
  - intros s' lock' seen e todo rm' HP M.
    destruct (md_from _ _ _ _ M e) as (e0 & H0 & HP0 & Hf); [left; in_list|done|].
    pose proof (merge_check_parts lock' (sle_lock e) (md_valid _ _ _ _ M) (comes_from_valid _ _ _ Hf)) as Hp.
    destruct (merge_check lock' (sle_lock e)) as [lock'' out]. destruct Hp as (Hv' & Ht' & _ & Hg & Hp).
    pose proof (merged_lock _ _ _ _ _ M Hv' Ht' (md_grow _ _ _ _ _ e M ltac:(in_list) HP Hg)) as M'.
    destruct out as [|p|p r|]; [by rewrite Hrev|rewrite Hrev; by apply merged_replace| |by apply merged_remove].
    destruct Hp as (Hpl & Hpr & _). pose proof (merged_dup _ _ _ e r _ Ha (merged_replace _ _ _ _ p _ _ M' HP Hpl) HP) as Hm.
    specialize (Hm ltac:(by exists e0) Hpr). destruct (state_lock_entry_t_dup F s' e) as [s'' dup].
    split; [rewrite Hrev; by rewrite <-app_assoc in Hm|]. intros ->. rewrite app_nil_r. cbn [rev]. done.
  - split; try done; [by destruct s0|tauto|..].
    + intros e [He|He]; [|by apply elem_of_nil in He]. intros HP. exists e. split_and!; [done|done|by apply comes_from_refl, Hl].
    + intros e He. by apply elem_of_nil in He.
Qed.

Lemma merging_dup s e p : (a < next_addr F s)%nat -> P e = true -> P (with_lock (snd (state_lock_entry_t_dup F s e)) p) = true.
Proof using Type.
  intros Ha HP. unfold merges_with, at_addr in *. cbn. replace (Nat.eqb (next_addr F s) a) with false by (symmetry; apply Nat.eqb_neq; lia).
  by destruct (Nat.eqb (sle_addr e) a).
Qed.

Lemma merging_end H0 lock seen : merging P H0 lock0 lock seen [] -> merging P H0 lock0 lock (rev seen) [].
Proof using Type.
  intros [Hb Ht Ha Hg Hs Ho Hk Hx]. split; [done|done| |done|..].
  - intros e He. apply Ha. rewrite list_elem_of_In, <-in_rev, <-list_elem_of_In in He. done.
  - intros b. by rewrite held_rev.
  - intros b t. by rewrite held_rev; apply Ho.
  - intros b t. by rewrite held_rev; apply Hk.
  - intros b t. by rewrite held_rev; apply Hx.
Qed.

(** The bytes of the owner, for ranges that do not go up to the end of the file. *)
Lemma merge_loop_merging (H0 : fsal_lock_t -> Z -> Prop) :
  (forall b t, H0 (lock_type lock0) b -> H0 t b -> t = lock_type lock0) ->
  (a < next_addr F s0)%nat -> merging P H0 lock0 lock0 [] l0 ->
  let '(s, lock, l, rm) := merge_loop F (2 * length l0) s0 a (Some o) lock0 [] l0 [] in merging P H0 lock0 lock l [].
Proof using Type.
  intros H1 Ha M0.
  pose proof (merge_loop_ind a (Some o) (fun s lock seen todo rm => (a < next_addr F s)%nat /\ merging P H0 lock0 lock seen todo)) as Hi.
  specialize (fun J1 J2 J3 => Hi J1 J2 J3 (2 * length l0)%nat s0 lock0 [] l0 [] (weight_length _ _)).
  destruct (merge_loop _ _ _ _ _ _ _ _ _) as [[[s lock] l] rm]. cbn beta iota in Hi.
  rewrite <-(rev_involutive l). apply merging_end. apply Hi; clear Hi.
  - intros s' lock' seen e todo rm' [_ M] HP. split; [apply (mg_bounded _ _ _ _ _ _ M)|].
    apply (mg_all _ _ _ _ _ _ M e); [right; in_list|done].
  - intros s' lock' seen e todo rm' HP [Ha' M]. split; [done|by apply merging_skip].
  - intros s' lock' seen e todo rm' HP [Ha' M].
    pose proof (merge_check_spec lock' (sle_lock e) (mg_bounded _ _ _ _ _ _ M) (mg_all _ _ _ _ _ _ M e ltac:(right; in_list) HP)) as Hm.
    destruct (merge_check lock' (sle_lock e)) as [lock'' out]. destruct Hm as (Hb & Ht & Hm), out as [|p|p r|].
    + destruct Hm as [-> Hm]. split; [done|by apply merging_keep].
    + destruct Hm as (-> & Hne & Hp & Hc). split; [done|by apply merging_shrink].
    + destruct Hm as (-> & Hne & Hp & Hr & Hc). pose proof (merging_dup s' e r Ha' HP) as HPd.
      destruct (merging_split P H0 lock0 ltac:(done) H1 lock' seen todo e (with_lock (snd (state_lock_entry_t_dup F s' e)) r) p) as [M' Hd]; try done.
      cbn in *. split; [split; [lia|done]|]. intros ->. split; [lia|]. by apply merging_keep.
    + destruct Hm as [Hc Hne]. split; [done|by eapply merging_absorb].
  - done.
Qed.

End merge.
End loops.
