(* ===== verification/NfsLockState.v ===== *)
(** * The state of the list of locks

    How the helpers of [NfsLock] act on a list that is split at an entry, and the
    invariant of the list. *)

From S2P Require Import Prelude NfsLock NfsLockProofs NfsLockInv.
Local Open Scope Z_scope.

Section state.
  Context {O : Type} `{EqDecision O}.
  Variable (F : Type).
#[local] Abbreviation entry := (state_lock_entry_t (O := O)).
#[local] Abbreviation hdl := (state_hdl F (O := O)).
#[local] Abbreviation MK := (MkHdl F (O := O)).

(** ** An entry at its address *)

Definition apart (a : nat) (l : list entry) : Prop := a ∉ map sle_addr l.

Lemma apart_cons a e l : apart a (e :: l) <-> sle_addr e <> a /\ apart a l.
Proof using Type. unfold apart. cbn. rewrite not_elem_of_cons. naive_solver. Qed.

Lemma find_apart a l l' : apart a l -> List.find (at_addr a) (l ++ l') = List.find (at_addr a) l'.
Proof using Type.
  induction l as [|e l IH]; [done|]. rewrite apart_cons. intros [He Hl]. cbn. unfold at_addr at 1.
  replace (Nat.eqb (sle_addr e) a) with false by (symmetry; by apply Nat.eqb_neq). by apply IH.
Qed.

Lemma upd_apart a (f : entry -> entry) l : apart a l -> map (fun e => if at_addr a e then f e else e) l = l.
Proof using Type.
  induction l as [|e l IH]; [done|]. rewrite apart_cons. intros [He Hl]. cbn. unfold at_addr at 1.
  replace (Nat.eqb (sle_addr e) a) with false by (symmetry; by apply Nat.eqb_neq). by rewrite IH.
Qed.

Lemma filter_apart a (l : list entry) : apart a l -> List.filter (fun e => negb (at_addr a e)) l = l.
Proof using Type.
  induction l as [|e l IH]; [done|]. rewrite apart_cons. intros [He Hl]. cbn. unfold at_addr at 1.
  replace (Nat.eqb (sle_addr e) a) with false by (symmetry; by apply Nat.eqb_neq). cbn. by rewrite IH.
Qed.

Lemma at_addr_same a (e : entry) : sle_addr e = a -> at_addr a e = true.
Proof using Type. intros <-. apply Nat.eqb_refl. Qed.

Definition drop_blocked (e : entry) (bl : list nat) : list nat :=
  match sle_block_data e with Some _ => List.filter (fun b => negb (Nat.eqb b (sle_addr e))) bl | None => bl end.

(** *** An entry of the list *)

Section listed.
  Variables (l1 l2 off : list entry) (a : nat).
  Hypotheses (A1 : apart a l1) (A2 : apart a l2) (A3 : apart a off).

Lemma find_mid e l : sle_addr e = a -> List.find (at_addr a) ((l1 ++ e :: l2) ++ l) = Some e.
Proof using A1.
  intros He. rewrite <-app_assoc, find_apart by done. cbn. by rewrite at_addr_same.
Qed.

Lemma upd_mid f e : sle_addr e = a -> map (fun e => if at_addr a e then f e else e) (l1 ++ e :: l2) = l1 ++ f e :: l2.
Proof using A1 A2. intros He. rewrite map_app. cbn. by rewrite at_addr_same, !upd_apart. Qed.

Lemma filter_mid e : sle_addr e = a -> List.filter (fun e => negb (at_addr a e)) (l1 ++ e :: l2) = l1 ++ l2.
Proof using A1 A2. intros He. rewrite List.filter_app. cbn. by rewrite at_addr_same, !filter_apart. Qed.

Lemma entry_at_mk e n bl lr ck nc f : sle_addr e = a -> entry_at F (MK (l1 ++ e :: l2) off n bl lr ck nc f) a = Some e.
Proof using A1. by apply find_mid. Qed.

Lemma update_at_mk e n bl lr ck nc f g :
  sle_addr e = a -> update_at F (MK (l1 ++ e :: l2) off n bl lr ck nc f) a g = MK (l1 ++ g e :: l2) off n bl lr ck nc f.
Proof using A1 A2 A3. intros He. unfold update_at, set_off, set_list. cbn. by rewrite upd_mid, upd_apart. Qed.

Lemma remove_mk e n bl lr ck nc f :
  sle_addr e = a ->
  remove_from_locklist F (MK (l1 ++ e :: l2) off n bl lr ck nc f) a =
  if sle_ref_count e =? 1 then MK (l1 ++ l2) off n (drop_blocked e bl) lr ck nc f
  else MK (l1 ++ l2) (with_refs (with_owner e None) (sle_ref_count e - 1) :: off) n bl lr ck nc f.
Proof using A1 A2 A3.
  intros He. unfold remove_from_locklist. rewrite entry_at_mk by done.
  unfold discard, unlink_entry, set_off, set_list, drop_blocked. cbn. rewrite filter_mid, filter_apart by done.
  destruct (_ =? 1); [|done]. by destruct (sle_block_data e).
Qed.

Lemma dec_ref_mk e n bl lr ck nc f :
  sle_addr e = a -> sle_ref_count e <> 1 ->
  lock_entry_dec_ref F (MK (l1 ++ e :: l2) off n bl lr ck nc f) a = MK (l1 ++ with_refs e (sle_ref_count e - 1) :: l2) off n bl lr ck nc f.
Proof using A1 A2 A3.
  intros He Hr. unfold lock_entry_dec_ref. rewrite entry_at_mk by done. apply Z.eqb_neq in Hr. rewrite Hr. by rewrite update_at_mk.
Qed.

End listed.

(** *** An entry off the list *)

Section unlisted.
  Variables (l : list entry) (e : entry).
  Hypothesis A : apart (sle_addr e) l.

Lemma entry_at_off n bl lr ck nc f : entry_at F (MK l [e] n bl lr ck nc f) (sle_addr e) = Some e.
Proof using A.
  unfold entry_at. cbn [lock_list off_list]. rewrite find_apart by done. cbn. by rewrite at_addr_same.
Qed.

Lemma update_at_off n bl lr ck nc f g : update_at F (MK l [e] n bl lr ck nc f) (sle_addr e) g = MK l [g e] n bl lr ck nc f.
Proof using A. unfold update_at, set_off, set_list. cbn. by rewrite upd_apart, at_addr_same. Qed.

Lemma remove_off n bl lr ck nc f :
  sle_ref_count e = 1 -> remove_from_locklist F (MK l [e] n bl lr ck nc f) (sle_addr e) = MK l [] n (drop_blocked e bl) lr ck nc f.
Proof using A.
  intros Hr. unfold remove_from_locklist. rewrite entry_at_off. unfold discard, unlink_entry, set_off, set_list, drop_blocked. cbn.
  rewrite Hr, filter_apart, at_addr_same by done. cbn. by destruct (sle_block_data e).
Qed.

Lemma dec_ref_off n bl lr ck nc f :
  sle_ref_count e = 1 -> lock_entry_dec_ref F (MK l [e] n bl lr ck nc f) (sle_addr e) = MK l [] n (drop_blocked e bl) lr ck nc f.
Proof using A.
  intros Hr. unfold lock_entry_dec_ref. rewrite entry_at_off. unfold set_off, set_list, drop_blocked. cbn.
  destruct (sle_block_data e); cbn; rewrite Hr; cbn; by rewrite filter_apart, at_addr_same.
Qed.

Lemma add_tail_off n bl lr ck nc f : add_tail F (MK l [e] n bl lr ck nc f) (sle_addr e) = MK (l ++ [e]) [] n bl lr ck nc f.
Proof using Type. unfold add_tail, set_off, set_list. cbn. by rewrite !at_addr_same. Qed.

End unlisted.

(** ** The invariant *)

Definition active (e : entry) : bool := negb (waits (sle_blocked e)).

(** The owner has, or is being given, a lock of the type on the byte. *)
Definition covers_byte (e : entry) (o : O) (t : fsal_lock_t) (b : Z) : Prop :=
  active e = true /\ sle_owner e = Some o /\ lock_type (sle_lock e) = t /\ contains (sle_lock e) b.

Definition covered (l : list entry) (o : O) (t : fsal_lock_t) (b : Z) : Prop := exists e, e ∈ l /\ covers_byte e o t b.

(** Nobody else has a lock on a byte that is locked for writing. *)
Definition compatible (l : list entry) : Prop :=
  forall o1 o2 t b, covered l o1 FSAL_LOCK_W b -> covered l o2 t b -> o1 = o2.

Definition cookie_of (e : entry) : option nat := sle_block_data e ≫= sbd_blocked_cookie.

Definition wants (e : entry) : bool :=
  match sle_blocked e with STATE_NLM_BLOCKING | STATE_NFSV4_BLOCKING => true | _ => false end.

(** An entry on the list: the list has a reference, and so has the cookie of an entry that
    is being granted; [x] is an entry whose cookie was taken out of the table. *)
Definition lock_entry_ok (table : list (nat * nat)) (x : option nat) (e : entry) : Prop :=
  (exists o, sle_owner e = Some o) /\ valid (sle_lock e) /\
  if bool_decide (x = Some (sle_addr e)) then sle_ref_count e = 2 /\ wants e = false
  else if bool_decide (sle_blocked e = STATE_GRANTING)
  then sle_ref_count e = 2 /\ exists c, cookie_of e = Some c /\ (c, sle_addr e) ∈ table
  else sle_ref_count e = 1 /\ cookie_of e = None.

Record inv (x : option nat) (s : hdl) : Prop := {
  i_nodup : NoDup (map sle_addr (lock_list F s) ++ map sle_addr (off_list F s));
  i_next : forall b, b ∈ map sle_addr (lock_list F s) ++ map sle_addr (off_list F s) -> (b < next_addr F s)%nat;
  i_list : forall e, e ∈ lock_list F s -> lock_entry_ok (ht_lock_cookies F s) x e;
  i_off : forall e, e ∈ off_list F s -> x = Some (sle_addr e) /\ sle_ref_count e = 1 /\ wants e = false;
  i_cookies : NoDup (map fst (ht_lock_cookies F s));
  i_table : forall c b, (c, b) ∈ ht_lock_cookies F s -> (c < next_cookie F s)%nat /\ x <> Some b /\
    exists e, e ∈ lock_list F s /\ sle_addr e = b /\ sle_blocked e = STATE_GRANTING /\ cookie_of e = Some c;
  i_compat : compatible (lock_list F s) }.

(** *** Compatibility when the list changes *)

Lemma covered_app l1 l2 o t b : covered (l1 ++ l2) o t b <-> covered l1 o t b \/ covered l2 o t b.
Proof using Type. unfold covered. setoid_rewrite elem_of_app. naive_solver. Qed.

Lemma covered_cons e l o t b : covered (e :: l) o t b <-> covers_byte e o t b \/ covered l o t b.
Proof using Type. unfold covered. setoid_rewrite elem_of_cons. naive_solver. Qed.

Lemma compatible_sub l l' : (forall o t b, covered l' o t b -> covered l o t b) -> compatible l -> compatible l'.
Proof using Type. intros Hs Hc o1 o2 t b H1 H2. by apply (Hc o1 o2 t b); apply Hs. Qed.

Lemma covered_mid l1 e l2 o t b : covered (l1 ++ e :: l2) o t b <-> covers_byte e o t b \/ covered (l1 ++ l2) o t b.
Proof using Type. rewrite !covered_app, covered_cons. tauto. Qed.

Lemma compatible_drop l1 e l2 : compatible (l1 ++ e :: l2) -> compatible (l1 ++ l2).
Proof using Type. apply compatible_sub. intros o t b. rewrite covered_mid. tauto. Qed.

Lemma compatible_replace l1 e e' l2 :
  (forall o t b, covers_byte e' o t b -> covers_byte e o t b) -> compatible (l1 ++ e :: l2) -> compatible (l1 ++ e' :: l2).
Proof using Type. intros H. apply compatible_sub. intros o t b. rewrite !covered_mid. specialize (H o t b). tauto. Qed.

(** An entry is added that is in conflict with none of the list. *)
Lemma compatible_add l e o :
  sle_owner e = Some o ->
  (forall o' t b, covered l o' t b -> contains (sle_lock e) b -> o' <> o -> t <> FSAL_LOCK_W /\ lock_type (sle_lock e) <> FSAL_LOCK_W) ->
  compatible l -> compatible (e :: l).
Proof using EqDecision0.
  intros Ho Hn Hc o1 o2 t b H1 H2. rewrite covered_cons in H1, H2. unfold covers_byte in H1, H2.
  destruct (decide (o1 = o2)) as [|Hne]; [done|].
  destruct H1 as [(_ & E1 & Ht1 & Hb1)|H1], H2 as [(_ & E2 & Ht2 & Hb2)|H2].
  - congruence.
  - destruct (Hn o2 t b H2 Hb1); [congruence|]. done.
  - destruct (Hn o1 FSAL_LOCK_W b H1 Hb2); [congruence|]. done.
  - by apply (Hc o1 o2 t b).
Qed.

Lemma compatible_perm l1 e l2 : compatible (e :: l1 ++ l2) -> compatible (l1 ++ e :: l2).
Proof using Type. apply compatible_sub. intros o t b. rewrite covered_mid, covered_cons. tauto. Qed.

(** *** One entry changes *)

Lemma lock_entry_ok_other ck ck' x x' a e :
  (forall b, b <> a -> x = Some b <-> x' = Some b) -> (forall c b, b <> a -> (c, b) ∈ ck' <-> (c, b) ∈ ck) ->
  sle_addr e <> a -> lock_entry_ok ck x e -> lock_entry_ok ck' x' e.
Proof using Type.
  intros Hx Hk Ha (Ho & Hv & H). split; [done|]. split; [done|].
  rewrite (bool_decide_ext (x' = Some (sle_addr e)) (x = Some (sle_addr e))) by (symmetry; by apply Hx). destruct (bool_decide (x = _)); [done|].
  destruct (bool_decide (sle_blocked e = _)); [|done]. destruct H as (Hr & c & Hc & Hin). split; [done|]. exists c. by rewrite Hk.
Qed.

Lemma inv_split x s e :
  inv x s -> e ∈ lock_list F s ->
  exists l1 l2, lock_list F s = l1 ++ e :: l2 /\ apart (sle_addr e) l1 /\ apart (sle_addr e) l2 /\ apart (sle_addr e) (off_list F s).
Proof using Type.
  intros I He. apply list_elem_of_split in He as (l1 & l2 & E). exists l1, l2. pose proof (i_nodup _ _ I) as Hd.
  rewrite E, map_app in Hd. cbn in Hd. rewrite <-app_assoc in Hd. cbn in Hd. rewrite <-Permutation_middle in Hd. apply NoDup_cons in Hd as [Hd _].
  rewrite !elem_of_app in Hd. unfold apart. tauto.
Qed.

Section change.
  Variables (x x' : option nat) (l1 l2 off : list entry) (e : entry).
  Variables (n : nat) (bl bl' : list nat) (lr lr' : Z) (ck ck' : list (nat * nat)) (nc nc' : nat) (f f' : F).
#[local] Abbreviation a := (sle_addr e).
  Hypothesis I : inv x (MK (l1 ++ e :: l2) off n bl lr ck nc f).
  Hypothesis Hx : forall b, b <> a -> x = Some b <-> x' = Some b.
  Hypothesis Hk : forall c b, b <> a -> (c, b) ∈ ck' <-> (c, b) ∈ ck.
  Hypothesis Hn : (nc <= nc')%nat.
  Hypothesis Hd : NoDup (map fst ck').

Lemma change_apart : apart a l1 /\ apart a l2 /\ apart a off.
Proof using I.
  pose proof (i_nodup _ _ I) as H. cbn in H. rewrite map_app, <-app_assoc in H. cbn in H. rewrite <-Permutation_middle in H.
  apply NoDup_cons in H as [H _]. rewrite !elem_of_app in H. unfold apart. tauto.
Qed.

Lemma change_rest e2 : e2 ∈ l1 \/ e2 ∈ l2 -> sle_addr e2 <> a /\ lock_entry_ok ck' x' e2.
Proof using I Hx Hk.
  intros He. destruct change_apart as (A1 & A2 & _).
  assert (sle_addr e2 <> a) as Hne.
  { intros E. destruct He as [He|He]; [apply A1|apply A2]; apply list_elem_of_fmap; by exists e2. }
  split; [done|]. apply (lock_entry_ok_other ck ck' x x' a); [done|done|done|]. apply (i_list _ _ I). cbn. in_list.
Qed.

Lemma change_off e2 : e2 ∈ off -> x' = Some (sle_addr e2) /\ sle_ref_count e2 = 1 /\ wants e2 = false.
Proof using I Hx.
  intros He. destruct change_apart as (_ & _ & A3). destruct (i_off _ _ I e2 He) as [Hx2 Hr]. split; [|done]. apply Hx; [|done].
  intros E. apply A3. apply list_elem_of_fmap. by exists e2.
Qed.

Lemma change_table c b :
  b <> a -> (c, b) ∈ ck' ->
  (c < nc')%nat /\ x' <> Some b /\
  exists e2, (e2 ∈ l1 \/ e2 ∈ l2) /\ sle_addr e2 = b /\ sle_blocked e2 = STATE_GRANTING /\ cookie_of e2 = Some c.
Proof using I Hx Hk Hn.
  intros Hb Hin. apply Hk in Hin; [|done]. destruct (i_table _ _ I c b Hin) as (Hc & Hxb & e2 & He2 & E & Hg). cbn in *.
  split_and!; [lia|by rewrite <-Hx|]. exists e2. split_and!; [|done|apply Hg|apply Hg].
  rewrite elem_of_app, elem_of_cons in He2. destruct He2 as [?|[->|?]]; [tauto|congruence|tauto].
Qed.

Lemma inv_replace e' :
  sle_addr e' = a ->
  (forall c, (c, a) ∈ ck' -> (c < nc')%nat /\ x' <> Some a /\ sle_blocked e' = STATE_GRANTING /\ cookie_of e' = Some c) ->
  lock_entry_ok ck' x' e' -> compatible (l1 ++ e' :: l2) -> inv x' (MK (l1 ++ e' :: l2) off n bl' lr' ck' nc' f').
Proof using I Hx Hk Hn Hd.
  intros Ha Ht He Hc.
  assert (map sle_addr (l1 ++ e' :: l2) = map sle_addr (l1 ++ e :: l2)) as Em by (rewrite !map_app; cbn; by rewrite Ha).
  split; cbn; rewrite ?Em; [apply (i_nodup _ _ I)|apply (i_next _ _ I)| |apply change_off|done| |done].
  - intros e2. rewrite elem_of_app, elem_of_cons. intros [?|[->|?]]; [apply change_rest; tauto|done|apply change_rest; tauto].
  - intros c b Hin. destruct (decide (b = a)) as [->|Hb].
    + destruct (Ht c Hin) as (? & ? & ? & ?). split_and!; [done|done|]. exists e'. split_and!; [in_list|done|done|done].
    + destruct (change_table c b Hb Hin) as (? & ? & e2 & He2 & ?). split_and!; [done|done|]. exists e2. split; [in_list|done].
Qed.

Lemma drop_nodup : NoDup (map sle_addr (l1 ++ l2) ++ map sle_addr off).
Proof using I.
  pose proof (i_nodup _ _ I) as H. cbn in H. rewrite map_app, <-app_assoc in H. cbn in H. rewrite <-Permutation_middle in H.
  apply NoDup_cons in H as [_ H]. by rewrite map_app, <-app_assoc.
Qed.

Lemma drop_next b : b ∈ map sle_addr (l1 ++ l2) ++ map sle_addr off -> (b < n)%nat.
Proof using I.
  intros Hb. apply (i_next _ _ I b). cbn. rewrite map_app, !elem_of_app in *. cbn. rewrite elem_of_cons. tauto.
Qed.

Lemma inv_drop : (forall c, (c, a) ∉ ck') -> x' <> Some a -> inv x' (MK (l1 ++ l2) off n bl' lr' ck' nc' f').
Proof using I Hx Hk Hn Hd.
  intros Ht Hxa. split; cbn; [apply drop_nodup|apply drop_next| |apply change_off|done| |].
  - intros e2. rewrite elem_of_app. intros ?. by apply change_rest.
  - intros c b Hin. assert (b <> a) as Hb by (intros ->; by destruct (Ht c)).
    destruct (change_table c b Hb Hin) as (? & ? & e2 & He2 & ?). split_and!; [done|done|]. exists e2. split; [in_list|done].
  - eapply compatible_drop. apply (i_compat _ _ I).
Qed.

(** The entry is kept by the cookie that was taken out of the table. *)
Lemma inv_unlist e' :
  sle_addr e' = a -> sle_ref_count e' = 1 -> wants e' = false -> x' = Some a -> (forall c, (c, a) ∉ ck') ->
  inv x' (MK (l1 ++ l2) (e' :: off) n bl' lr' ck' nc' f').
Proof using I Hx Hk Hn Hd.
  intros Ha Hr Hw Hxa Ht. split; cbn.
  - rewrite Ha, <-Permutation_middle. apply NoDup_cons. split; [|apply drop_nodup]. destruct change_apart as (A1 & A2 & A3).
    unfold apart in *. rewrite map_app, !elem_of_app. tauto.
  - intros b. rewrite elem_of_app, elem_of_cons, Ha. intros [?|[->|?]]; [apply drop_next; in_list| |apply drop_next; in_list].
    apply (i_next _ _ I). cbn. rewrite map_app, !elem_of_app. cbn. rewrite elem_of_cons. tauto.
  - intros e2. rewrite elem_of_app. intros ?. by apply change_rest.
  - intros e2. rewrite elem_of_cons. intros [->|?]; [by rewrite Ha|by apply change_off].
  - done.
  - intros c b Hin. assert (b <> a) as Hb by (intros ->; by destruct (Ht c)).
    destruct (change_table c b Hb Hin) as (? & ? & e2 & He2 & ?). split_and!; [done|done|]. exists e2. split; [in_list|done].
  - eapply compatible_drop. apply (i_compat _ _ I).
Qed.

End change.

End state.

(** ** Merging *)

Section discard.
  Context {O : Type} `{EqDecision O}.
  Variable (F : Type).
#[local] Abbreviation entry := (state_lock_entry_t (O := O)).
#[local] Abbreviation hdl := (state_hdl F (O := O)).

(** No cookie of the table is for an entry that is not being granted. *)
Lemma wants_table x (s : hdl) e c : inv F x s -> e ∈ lock_list F s -> sle_blocked e <> STATE_GRANTING -> (c, sle_addr e) ∉ ht_lock_cookies F s.
Proof using Type.
  intros I He Hb Hin. destruct (i_table _ _ _ I _ _ Hin) as (_ & _ & e' & He' & Ea & Hg & _).
  destruct (inv_split _ _ _ _ I He) as (l1 & l2 & E & A1 & A2 & _). rewrite E, elem_of_app, elem_of_cons in He'.
  destruct He' as [He'|[->|He']]; [apply A1|done|apply A2]; rewrite <-Ea; apply list_elem_of_fmap; by exists e'.
Qed.

Lemma discard_last (rm : list entry) (s : hdl) :
  (forall e, e ∈ rm -> sle_ref_count e = 1) -> exists bl, foldl (discard F) s rm = set_blocked F s bl.
Proof using Type.
  revert s. induction rm as [|e rm IH]; intros s H; cbn [foldl]; [exists (state_blocked_locks F s); by destruct s|].
  unfold discard at 2. rewrite (H e) by left. cbn [Z.eqb Pos.eqb].
  destruct (sle_block_data e); [edestruct IH as [bl ->]; [|by exists bl]|apply IH]; intros e' He'; apply H; by right.
Qed.

End discard.

Section merge.
  Context {O : Type} `{EqDecision O}.
  Variable (F : Type).
#[local] Abbreviation entry := (state_lock_entry_t (O := O)).
#[local] Abbreviation hdl := (state_hdl F (O := O)).
  Variables (x : option nat) (s : hdl) (a : nat) (o : O).
#[local] Abbreviation P := (merges_with a (Some o)).
  Hypotheses (I : inv F x s) (Hx : x = None \/ x = Some a).

Lemma merges_with_spec (e : entry) : P e = true <-> sle_addr e <> a /\ sle_owner e = Some o /\ sle_blocked e = STATE_NON_BLOCKING.
Proof using Type.
  unfold merges_with, at_addr, different_owners. rewrite !andb_true_iff, negb_true_iff, Nat.eqb_neq, bool_decide_eq_true.
  destruct (sle_owner e) as [o'|]; [rewrite negb_involutive, bool_decide_eq_true|]; naive_solver.
Qed.

Lemma merges_ok e : e ∈ lock_list F s -> P e = true -> sle_ref_count e = 1 /\ cookie_of e = None.
Proof using I Hx.
  intros He (Ha & Ho & Hb)%merges_with_spec. destruct (i_list _ _ _ I e He) as (_ & _ & H).
  rewrite bool_decide_false, bool_decide_false in H; [done|by rewrite Hb|destruct Hx; congruence].
Qed.

Lemma comes_from_ok e0 e :
  (a < next_addr F s)%nat -> e0 ∈ lock_list F s -> P e0 = true -> comes_from (next_addr F s) e0 e ->
  sle_ref_count e = 1 /\ lock_entry_ok (ht_lock_cookies F s) x e /\ forall o t b, covers_byte e o t b -> covers_byte e0 o t b.
Proof using I Hx.
  intros Hlt H0 HP ((Hv & Ht & Hc) & Ho & Hb & Hor). destruct (merges_ok e0 H0 HP) as [Hr Hk]. apply merges_with_spec in HP as (Ha & Ho0 & Hb0).
  assert (sle_ref_count e = 1) as Hr' by (destruct Hor as [(_ & -> & _)|(_ & -> & _)]; done).
  assert (cookie_of e = None) as Hk'. { unfold cookie_of in *. destruct Hor as [(_ & _ & ->)|(_ & _ & ->)]; done. }
  assert (sle_addr e <> a) as Ha' by (destruct Hor as [(-> & _)|(? & _)]; [done|lia]).
  split_and!; [done| |].
  - split; [exists o; congruence|]. split; [done|]. rewrite bool_decide_false by (destruct Hx; congruence).
    by rewrite bool_decide_false by congruence.
  - intros o' t b (Hact & Ho' & Ht' & Hb'). split_and!; [unfold active in *; congruence|congruence|congruence|by apply Hc].
Qed.

Lemma merged_inv lock0 s' lock l rm bl :
  (a < next_addr F s)%nat -> merged F a o s lock0 s' lock l rm ->
  inv F x (set_blocked F (set_list F s' l) bl) /\ (forall o' t b, covered l o' t b -> covered (lock_list F s) o' t b) /\
  forall e, e ∈ rm -> sle_ref_count e = 1.
Proof using I Hx.
  intros Hlt M.
  assert (forall e, e ∈ l -> e ∈ lock_list F s /\ P e = false \/ exists e0, e0 ∈ lock_list F s /\ P e0 = true /\ comes_from (next_addr F s) e0 e) as Hl.
  { intros e He. destruct (P e) eqn:HP; [right; by apply (md_from _ _ _ _ _ _ _ _ _ M e (or_introl He))|left].
    assert (e ∈ others P (lock_list F s)) as [? _]%others_in; [|done]. rewrite <-(md_others _ _ _ _ _ _ _ _ _ M). by apply others_in. }
  assert (forall o' t b, covered l o' t b -> covered (lock_list F s) o' t b) as Hcov.
  { intros o' t b (e & He & Hc). destruct (Hl e He) as [[? _]|(e0 & H0 & HP & Hf)]; [by exists e|].
    exists e0. split; [done|]. by apply (comes_from_ok e0 e Hlt H0 HP Hf). }
  split_and!; [|done|].
  - pose proof (md_next _ _ _ _ _ _ _ _ _ M) as Hn. rewrite (md_state _ _ _ _ _ _ _ _ _ M). split; cbn.
    + apply NoDup_app. pose proof (i_nodup _ _ _ I) as [_ [Hd Hoff]]%NoDup_app. split_and!; [apply (md_nodup _ _ _ _ _ _ _ _ _ M)| |done].
      intros b (e & -> & He)%list_elem_of_fmap Hb. destruct (Hl e He) as [[? _]|(e0 & H0 & HP & (_ & _ & _ & [(E & _)|(Hge & _)]))].
      * apply (Hd (sle_addr e)); [|done]. apply list_elem_of_fmap. by exists e.
      * apply (Hd (sle_addr e)); [|done]. rewrite E. apply list_elem_of_fmap. by exists e0.
      * pose proof (i_next _ _ _ I (sle_addr e) ltac:(apply elem_of_app; by right)). lia.
    + intros b [(e & -> & He)%list_elem_of_fmap|Hb]%elem_of_app; [by apply (md_bound _ _ _ _ _ _ _ _ _ M)|].
      pose proof (i_next _ _ _ I b ltac:(apply elem_of_app; by right)). lia.
    + intros e He. destruct (Hl e He) as [[? _]|(e0 & H0 & HP & Hf)]; [by apply (i_list _ _ _ I)|by apply (comes_from_ok e0 e Hlt H0 HP Hf)].
    + apply (i_off _ _ _ I).
    + apply (i_cookies _ _ _ I).
    + intros c b Hin. destruct (i_table _ _ _ I c b Hin) as (Hc & Hxb & e & He & E & Hg & Hk). split_and!; [done|done|].
      exists e. split_and!; [|done|done|done]. apply (others_in P). rewrite (md_others _ _ _ _ _ _ _ _ _ M). apply others_in. split; [done|].
      apply not_true_iff_false. rewrite merges_with_spec. intros (_ & _ & ?). congruence.
    + eapply compatible_sub; [exact Hcov|apply (i_compat _ _ _ I)].
  - intros e He. destruct (md_from _ _ _ _ _ _ _ _ _ M e (or_intror He) (md_removed _ _ _ _ _ _ _ _ _ M e He)) as (e0 & H0 & HP & Hf).
    by apply (comes_from_ok e0 e Hlt H0 HP Hf).
Qed.

(** What [merge_lock_entry] leaves, before the range of the entry is set. *)
Record merge_result (e : entry) (lock : fsal_lock_param_t) (l : list entry) (s' : hdl) : Prop := {
  mr_merged : exists s1 rm, merged F a o s (sle_lock e) s1 lock l rm;
  mr_inv : inv F x s';
  mr_list : lock_list F s' = l;
  mr_off : off_list F s' = off_list F s;
  mr_cover : forall o' t b, covered l o' t b -> covered (lock_list F s) o' t b;
  mr_merging : forall H0 : fsal_lock_t -> Z -> Prop,
    (forall b t, H0 (lock_type (sle_lock e)) b -> H0 t b -> t = lock_type (sle_lock e)) ->
    merging P H0 (sle_lock e) (sle_lock e) [] (lock_list F s) -> merging P H0 (sle_lock e) lock l [] }.

Lemma merge_lock_entry_result e :
  (a < next_addr F s)%nat -> entry_at F s a = Some e -> sle_owner e = Some o -> valid (sle_lock e) ->
  exists s' lock l, merge_lock_entry F s a = update_at F s' a (fun e => with_lock e lock) /\ merge_result e lock l s'.
Proof using I Hx.
  intros Hlt He Ho Hv. unfold merge_lock_entry. rewrite He, Ho.
  pose proof (merge_loop_merged F a o s (sle_lock e) Hlt Hv) as M.
  pose proof (fun H0 H1 => merge_loop_merging F a o s (sle_lock e) H0 H1 Hlt) as G.
  destruct (merge_loop _ _ _ _ _ _ _ _ _) as [[[s1 lock] l] rm].
  specialize (M ltac:(intros e' He'; by apply (i_list _ _ _ I))).
  specialize (M ltac:(by pose proof (i_nodup _ _ _ I) as [? _]%NoDup_app)).
  specialize (M ltac:(intros e' He'; apply (i_next _ _ _ I), elem_of_app; left; apply list_elem_of_fmap; by exists e')).
  destruct (merged_inv _ _ _ _ _ [] Hlt M) as (_ & Hc & Hr).
  destruct (discard_last F (rev rm) (set_list F s1 l)) as [bl ->].
  { intros e' He'. apply Hr. rewrite list_elem_of_In, <-in_rev, <-list_elem_of_In in He'. done. }
  exists (set_blocked F (set_list F s1 l) bl), lock, l. split; [done|]. split.
  - by exists s1, rm.
  - by apply (merged_inv _ _ _ _ _ bl Hlt M).
  - done.
  - rewrite (md_state _ _ _ _ _ _ _ _ _ M). done.
  - done.
  - exact G.
Qed.

(** The lock that is merged has the bytes it was asked for and bytes its owner has. *)
Lemma merged_covers e lock l s' b :
  merge_result e lock l s' -> contains lock b -> contains (sle_lock e) b \/ covered (lock_list F s) o (lock_type (sle_lock e)) b.
Proof using Type.
  intros [(s1 & rm & M) _ _ _ _ _] Hb. destruct (md_cover _ _ _ _ _ _ _ _ _ M b Hb) as [?|(e0 & H0 & HP & Ht & Hc)]; [by left|right].
  apply merges_with_spec in HP as (_ & Ho & Hbl). exists e0. split; [done|]. split_and!; [unfold active; by rewrite Hbl|done|done|done].
Qed.

(** The entry is on the list, as one that is held. *)
Lemma merge_listed e :
  e ∈ lock_list F s -> sle_addr e = a -> sle_owner e = Some o -> sle_blocked e = STATE_NON_BLOCKING ->
  inv F x (merge_lock_entry F s a) /\
  exists s' lock l, merge_result e lock l s' /\ forall e', e' ∈ lock_list F (merge_lock_entry F s a) <-> e' = with_lock e lock \/ e' ∈ l /\ sle_addr e' <> a.
Proof using I Hx.
  intros He Ha Ho Hb. pose proof (i_list _ _ _ I e He) as (_ & Hv & Hok).
  destruct (inv_split _ _ _ _ I He) as (k1 & k2 & Ek & A1 & A2 & A3). rewrite Ha in A1, A2, A3.
  assert (a < next_addr F s)%nat as Hlt. { apply (i_next _ _ _ I), elem_of_app. left. apply list_elem_of_fmap. by exists e. }
  assert (entry_at F s a = Some e) as Hat. { unfold entry_at. rewrite Ek. by apply find_mid. }
  destruct (merge_lock_entry_result e Hlt Hat Ho Hv) as (s' & lock & l & -> & R). pose proof (mr_inv _ _ _ _ R) as I'.
  destruct (mr_merged _ _ _ _ R) as (s1 & rm & M).
  assert (e ∈ lock_list F s') as He'.
  { rewrite (mr_list _ _ _ _ R). apply (others_in P). rewrite (md_others _ _ _ _ _ _ _ _ _ M). apply others_in. split; [done|].
    apply not_true_iff_false. rewrite merges_with_spec. tauto. }
  destruct (inv_split _ _ _ _ I' He') as (l1 & l2 & El & B1 & B2 & B3). rewrite Ha in B1, B2, B3.
  pose proof (fun b => merged_covers _ _ _ _ b R) as Hc. pose proof (mr_cover _ _ _ _ R) as Hcov.
  rewrite <-(mr_list _ _ _ _ R), El in Hcov. pose proof (i_list _ _ _ I' e He') as (_ & _ & Hok').
  pose proof (mr_list _ _ _ _ R) as Hl. rewrite El in Hl.
  assert (update_at F s' a (fun e => with_lock e lock) = set_list F s' (l1 ++ with_lock e lock :: l2)) as ->.
  { clear R. destruct s' as [l' off n bl lr ck nc f]. cbn in El, B3. subst l'. by rewrite update_at_mk. }
  split; [|exists s', lock, l; split; [done|]].
  2: { intros e'. cbn [set_list lock_list]. rewrite <-Hl, !elem_of_app, !elem_of_cons. unfold apart in *. rewrite list_elem_of_fmap in *.
    split; [intros [?|[->|?]]; [right|by left|right]|intros [->|[[?|[->|?]] ?]]; [by right; left|by left|done|by right; right]].
    all: split; [tauto|intros Ea; first [by apply B1; exists e'|by apply B2; exists e']]. }
  clear R. destruct s' as [l' off n bl lr ck nc f]. cbn in *. subst l'. unfold set_list. cbn.
  eapply inv_replace; [exact I'|done|done|done|apply (i_cookies _ _ _ I')|done|..].
  - intros c Hin. rewrite Ha in *. destruct (wants_table _ _ _ e c I'); [done|by rewrite Hb|by rewrite Ha].
  - split; [by exists o|]. split; [apply (md_valid _ _ _ _ _ _ _ _ _ M)|done].
  - eapply compatible_sub; [|apply (i_compat _ _ _ I)]. intros o' t b. rewrite covered_mid. intros [(_ & Ho' & Ht' & Hb')|Hcv].
    + cbn in *. destruct (Hc b Hb') as [?|?].
      * exists e. split; [done|]. split_and!; [unfold active; by rewrite Hb|done|rewrite <-Ht'; symmetry; apply (md_type _ _ _ _ _ _ _ _ _ M)|done].
      * rewrite (md_type _ _ _ _ _ _ _ _ _ M) in Ht'. congruence.
    + apply Hcov. rewrite covered_mid. by right.
Qed.

(** The entry is not on the list: it goes to its end. *)
Lemma inv_append l e e' n bl bl' lr lr' ck nc f f' :
  inv F (Some a) (MkHdl F l [e] n bl lr ck nc f) -> sle_addr e = a -> sle_addr e' = a -> sle_owner e' = Some o -> valid (sle_lock e') ->
  sle_ref_count e' = 1 -> cookie_of e' = None -> sle_blocked e' <> STATE_GRANTING -> compatible (l ++ [e']) ->
  inv F None (MkHdl F (l ++ [e']) [] n bl' lr' ck nc f').
Proof using Type.
  intros J He He' Ho Hv Hr Hk Hg Hc. pose proof (i_nodup _ _ _ J) as Hd. pose proof (i_next _ _ _ J) as Hn. cbn in Hd, Hn. split; cbn.
  - rewrite map_app, app_nil_r. cbn. congruence.
  - intros b. rewrite map_app, app_nil_r. cbn. rewrite He', <-He. apply Hn.
  - intros e2 [He2| ->%list_elem_of_singleton]%elem_of_app.
    + apply (lock_entry_ok_other ck ck (Some a) None a); [intros b Hb; split; [intros [= E]; congruence|done]|done| |by apply (i_list _ _ _ J)].
      apply NoDup_app in Hd as (_ & Hd & _). intros E. apply (Hd (sle_addr e2)); [apply list_elem_of_fmap; by exists e2|].
      rewrite E, <-He. by left.
    + split; [by exists o|]. split; [done|]. by rewrite bool_decide_false, bool_decide_false by done.
  - by intros e2 ?%elem_of_nil.
  - apply (i_cookies _ _ _ J).
  - intros c b Hin. destruct (i_table _ _ _ J c b Hin) as (Hlt & _ & e2 & He2 & Hx2). split_and!; [done|done|]. exists e2. split; [|done].
    apply elem_of_app. by left.
  - done.
Qed.

Lemma merge_new e :
  x = Some a -> off_list F s = [e] -> sle_addr e = a -> sle_owner e = Some o -> sle_blocked e = STATE_NON_BLOCKING ->
  sle_ref_count e = 1 -> sle_block_data e = None -> valid (sle_lock e) ->
  (forall o' t b, covered (lock_list F s) o' t b -> contains (sle_lock e) b -> o' <> o -> t <> FSAL_LOCK_W /\ lock_type (sle_lock e) <> FSAL_LOCK_W) ->
  exists s' lock l, merge_result e lock l s' /\ inv F None (add_tail F (merge_lock_entry F s a) a) /\
    forall e', e' ∈ lock_list F (add_tail F (merge_lock_entry F s a) a) <-> e' = with_lock e lock \/ e' ∈ l /\ sle_addr e' <> a.
Proof using I Hx.
  intros Hxa Hoff Ha Ho Hb Hr Hd Hv Hno.
  assert (a < next_addr F s)%nat as Hlt. { apply (i_next _ _ _ I), elem_of_app. right. rewrite Hoff. cbn. rewrite Ha. by left. }
  assert (apart a (lock_list F s)) as Hap.
  { intros Hin. pose proof (i_nodup _ _ _ I) as (_ & Hdis & _)%NoDup_app. apply (Hdis a Hin). rewrite Hoff, <-Ha. by left. }
  assert (entry_at F s a = Some e) as Hat. { unfold entry_at. rewrite find_apart, Hoff by done. cbn. by rewrite at_addr_same. }
  destruct (merge_lock_entry_result e Hlt Hat Ho Hv) as (s' & lock & l & -> & R). pose proof (mr_inv _ _ _ _ R) as I'.
  pose proof (fun b => merged_covers _ _ _ _ b R) as Hcv. pose proof (mr_cover _ _ _ _ R) as Hcov.
  pose proof (mr_off _ _ _ _ R) as Hoff'. rewrite Hoff in Hoff'. pose proof (mr_list _ _ _ _ R) as Hl. destruct (mr_merged _ _ _ _ R) as (s1 & rm & M).
  exists s', lock, l. split; [done|].
  assert (apart (sle_addr e) l) as Hap'.
  { intros Hin. pose proof (i_nodup _ _ _ I') as (_ & Hdis & _)%NoDup_app. rewrite Hl, Hoff' in Hdis. apply (Hdis _ Hin). by left. }
  clear R. destruct s' as [l' off n bl lr ck nc f]. cbn in *. subst l' off. rewrite <-Ha, update_at_off by done.
  change (sle_addr e) with (sle_addr (with_lock e lock)). rewrite add_tail_off. split.
  2: { intros e'. cbn [lock_list]. rewrite elem_of_app, list_elem_of_singleton. split; [|intros [->|[? _]]; [by right|by left]].
    intros [He'| ->]; [|by left]. right. split; [done|]. intros E. apply Hap'. apply list_elem_of_fmap. exists e'. by rewrite E. }
  rewrite Hxa in I'.
  eapply inv_append; [exact I'|done|done|done|apply (md_valid _ _ _ _ _ _ _ _ _ M)|done| |cbn; by rewrite Hb|].
  - unfold cookie_of. cbn. by rewrite Hd.
  - apply compatible_perm. rewrite app_nil_r. apply compatible_add with o; [done| |eapply compatible_sub, (i_compat _ _ _ I); done].
    cbn. intros o' t b Hc Hb' Hne. rewrite (md_type _ _ _ _ _ _ _ _ _ M). apply Hcov in Hc. destruct (Hcv b Hb') as [?|Hown]; [by apply (Hno o' t b)|].
    split; intros E; apply Hne; rewrite E in *; [|symmetry].
    + by apply (i_compat _ _ _ I _ _ _ _ Hc Hown).
    + by apply (i_compat _ _ _ I _ _ _ _ Hown Hc).
Qed.

(** *** The bytes that are held then *)

(** For its owner, the range replaces what there was; nothing changes for others. *)
Definition replaced (H : O -> fsal_lock_t -> Z -> Prop) (l' : list entry) (q : fsal_lock_param_t) : Prop :=
  forall o' t b, holds l' o' t b <->
    if decide (o' = o) then (t = lock_type q /\ contains q b) \/ (~ contains q b /\ H o t b) else H o' t b.

(** The bytes of the list without the entry [a]. *)
Definition holds_but (l : list entry) (o' : O) (t : fsal_lock_t) (b : Z) : Prop :=
  exists e, e ∈ l /\ sle_addr e <> a /\ sle_owner e = Some o' /\ sle_blocked e = STATE_NON_BLOCKING /\
    lock_type (sle_lock e) = t /\ contains (sle_lock e) b.

Lemma holds_but_held l t b : holds_but l o t b <-> held P l t b.
Proof using Type. clear I Hx. unfold holds_but, held. setoid_rewrite merges_with_spec. naive_solver. Qed.

Lemma holds_but_other l l' o' t b : o' <> o -> others P l' = others P l -> holds_but l o' t b -> holds_but l' o' t b.
Proof using Type.
  intros Hne E (e & He & Ha & Ho & Hr). exists e. split; [|done]. assert (e ∈ others P l') as [? _]%others_in; [|done]. rewrite E. apply others_in.
  split; [done|]. apply not_true_iff_false. rewrite merges_with_spec. intros (_ & Ho' & _). congruence.
Qed.

Lemma merged_holds e lock l s' lf :
  merge_result e lock l s' -> sle_owner e = Some o -> sle_blocked e = STATE_NON_BLOCKING ->
  (forall e', e' ∈ lf <-> e' = with_lock e lock \/ e' ∈ l /\ sle_addr e' <> a) ->
  bounded (sle_lock e) -> (forall e', e' ∈ lock_list F s -> bounded (sle_lock e')) ->
  (forall t1 t2 b, holds_but (lock_list F s) o t1 b -> holds_but (lock_list F s) o t2 b -> t1 = t2) ->
  replaced (holds_but (lock_list F s)) lf (sle_lock e) /\ forall e', e' ∈ lf -> bounded (sle_lock e').
Proof using Type.
  intros R Ho Hb Hlf Hbe Hbl Hone. destruct (mr_merged _ _ _ _ R) as (s1 & rm & M).
  pose proof (mr_merging _ _ _ _ R (held P (lock_list F s))) as G. clear I Hx.
  assert (merging P (held P (lock_list F s)) (sle_lock e) lock l []) as [Gb Gt Ga _ Gs Go Gk Gx].
  { pose proof (held_nil P) as Hnil. apply G; [intros b t H1 H2; symmetry; apply (Hone _ _ b); by apply holds_but_held|].
    split; try done.
    - intros e' [?%elem_of_nil|?] _; [done|auto].
    - intros b. specialize (Hnil (lock_type (sle_lock e)) b). tauto.
    - intros b t _. specialize (Hnil t b). tauto.
    - intros b t _. tauto.
    - by intros b t _ H%Hnil. }
  assert (forall e', e' ∈ l -> bounded (sle_lock e')) as Hl.
  { intros e' He'. destruct (P e') eqn:HP; [by apply Ga; [left|]|]. apply Hbl. assert (e' ∈ others P (lock_list F s)) as [? _]%others_in; [|done].
    rewrite <-(md_others _ _ _ _ _ _ _ _ _ M). by apply others_in. }
  split; [|intros e' [->|[? _]]%Hlf; auto].
  assert (forall o' t b, holds lf o' t b <-> (o' = o /\ lock_type lock = t /\ contains lock b) \/ holds_but l o' t b) as Hh.
  { intros o' t b. unfold holds, holds_but. setoid_rewrite Hlf. split.
    - intros (e' & [->|[? ?]] & Ho' & Hb' & Ht & Hc); [left; cbn in *; split_and!; [congruence|done|done]|right; exists e'; by split_and!].
    - intros [(-> & Ht & Hc)|(e' & He' & Ha' & Hr)]; [exists (with_lock e lock); by split_and!; [left|..]|exists e'; split; [right; done|done]]. }
  intros o' t b. rewrite Hh. destruct (decide (o' = o)) as [->|Hne].
  - rewrite !holds_but_held. specialize (Gs b). pose proof (held_nil P t b) as Hnil. destruct (decide (t = lock_type (sle_lock e))) as [->|Ht].
    + rewrite Gt. assert (contains (sle_lock e) b \/ ~ contains (sle_lock e) b) by (unfold contains; lia). tauto.
    + specialize (Go b t Ht). specialize (Gk b t Ht). specialize (Gx b t Ht). rewrite Gt. assert (lock_type (sle_lock e) <> t) by congruence. tauto.
  - pose proof (md_others _ _ _ _ _ _ _ _ _ M) as Eo. split; [|by right; apply (holds_but_other (lock_list F s))].
    intros [(? & _)|H]; [done|]. by apply (holds_but_other l).
Qed.

End merge.
