(* ===== verification/NfsLockSubtract.v ===== *)
(** * Taking a range off the list

    [subtract_lock_from_list] takes exactly the bytes of the range from the entries it is
    about, and keeps the invariant of the list. *)

From S2P Require Import Prelude NfsLock NfsLockProofs NfsLockInv NfsLockState.
Local Open Scope Z_scope.

Section subtract.
  Context {O : Type} `{EqDecision O}.
  Variable (F : Type).
#[local] Abbreviation entry := (state_lock_entry_t (O := O)).
#[local] Abbreviation hdl := (state_hdl F (O := O)).

(** A new entry for a part of an entry. *)
Definition part_entry (e : entry) (n m : nat) (p : fsal_lock_param_t) (d : entry) : Prop :=
  (n <= sle_addr d < m)%nat /\ d = MkEntry (sle_addr d) (sle_export e) (sle_owner e) (sle_state e) (sle_blocked e) None 1 p.

Lemma split_entry_spec (s : hdl) e parts :
  let '(s', new) := split_entry F s e parts in
  s' = set_next F s (next_addr F s') /\ (next_addr F s <= next_addr F s')%nat /\ NoDup (map sle_addr new) /\
  (forall d, d ∈ new -> exists p, p ∈ parts /\ part_entry e (next_addr F s) (next_addr F s') p d) /\
  (forall p, p ∈ parts -> exists d, d ∈ new /\ part_entry e (next_addr F s) (next_addr F s') p d).
Proof using Type.
  revert s. induction parts as [|p parts IH]; intros s; cbn [split_entry].
  { split_and!; [by destruct s|done|apply NoDup_nil_2|by intros d ?%elem_of_nil|by intros d ?%elem_of_nil]. }
  destruct (state_lock_entry_t_dup F s e) as [s1 dup] eqn:Ed. unfold state_lock_entry_t_dup, create_state_lock_entry in Ed. injection Ed as <- <-.
  specialize (IH (set_next F s (S (next_addr F s)))). destruct (split_entry F _ e parts) as [s' new]. cbn in IH.
  destruct IH as (Hs & Hn & Hd & Hnew & Hall). split_and!.
  - done.
  - lia.
  - cbn. apply NoDup_cons. split; [|done]. intros (d & E & Hin)%list_elem_of_fmap. destruct (Hnew d Hin) as (q & _ & Hr & _). lia.
  - intros d [->|Hin]%elem_of_cons.
    + exists p. split; [by left|]. split; [cbn; lia|done].
    + destruct (Hnew d Hin) as (q & Hq & Hr & E). exists q. split; [by right|]. split; [lia|done].
  - intros q [->|Hq]%elem_of_cons.
    + eexists. split; [by left|]. split; [cbn; lia|done].
    + destruct (Hall q Hq) as (d & Hin & Hr & E). exists d. split; [by right|]. split; [lia|done].
Qed.

Section loop.
  Variables (owner : option O) (state_applies : bool) (state : Z) (lock : fsal_lock_param_t).
  Hypothesis Hlock : valid lock.
#[local] Abbreviation Q := (subtracts owner state_applies state).

Record subtracted (s s' : hdl) (todo kept split rm : list entry) : Prop := {
  sb_state : s' = set_next F s (next_addr F s');
  sb_next : (next_addr F s <= next_addr F s')%nat;
  sb_kept : kept `sublist_of` todo;
  sb_others : others Q kept = others Q todo;
  sb_split : forall d, d ∈ split -> Q d = true /\ (next_addr F s <= sle_addr d < next_addr F s')%nat /\
    exists e0, e0 ∈ todo /\ Q e0 = true /\ comes_from (next_addr F s) e0 d;
  sb_nodup : NoDup (map sle_addr split);
  sb_removed : forall e, e ∈ rm -> e ∈ todo /\ Q e = true;
  sb_bytes : forall t b, held Q (kept ++ split) t b <-> held Q todo t b /\ ~ contains lock b }.

Lemma part_entry_subtracts e n m p d : part_entry e n m p d -> Q d = Q e.
Proof using Type. by intros [_ ->]. Qed.

Lemma subtracted_keep s s' e todo kept split rm :
  (Q e = true -> forall b, contains (sle_lock e) b -> ~ contains lock b) ->
  subtracted s s' todo kept split rm -> subtracted s s' (e :: todo) (e :: kept) split rm.
Proof using Type.
  intros Hd [Hs Hn Hk Ho Hsp Hnd Hr Hb]. split; try done.
  - by apply sublist_skip.
  - by rewrite !others_cons, Ho.
  - intros d Hin. destruct (Hsp d Hin) as (? & ? & e0 & ? & ? & ?). split_and!; [done|lia|lia|]. exists e0. split; [by right|done].
  - intros e' Hin. destruct (Hr e' Hin). split; [by right|done].
  - intros t b. specialize (Hb t b). rewrite <-app_comm_cons, !held_cons. specialize (fun H => Hd H b). tauto.
Qed.

Lemma held_parts e n m parts new t b :
  Q e = true -> Forall (fun p => valid p /\ lock_type p = lock_type (sle_lock e)) parts ->
  (forall d, d ∈ new -> exists p, p ∈ parts /\ part_entry e n m p d) -> (forall p, p ∈ parts -> exists d, d ∈ new /\ part_entry e n m p d) ->
  held Q new t b <-> lock_type (sle_lock e) = t /\ exists p, p ∈ parts /\ contains p b.
Proof using Type.
  intros HQ Hp H1 H2. rewrite Forall_forall in Hp. split.
  - intros (d & Hd & _ & Ht & Hc). destruct (H1 d Hd) as (p & Hin & _ & E). rewrite E in Ht, Hc. cbn in Ht, Hc.
    split; [by rewrite <-Ht; symmetry; apply Hp|by exists p].
  - intros (Ht & p & Hin & Hc). destruct (H2 p Hin) as (d & Hd & Hpe). exists d. split; [done|]. split; [by rewrite (part_entry_subtracts _ _ _ _ _ Hpe)|].
    destruct Hpe as [_ E]. rewrite E. cbn. split; [rewrite <-Ht; by apply Hp|done].
Qed.

Lemma subtracted_split s s1 s' e parts new todo kept split rm :
  Q e = true -> valid (sle_lock e) -> Forall (fun p => valid p /\ lock_type p = lock_type (sle_lock e)) parts ->
  (forall b, (exists p, p ∈ parts /\ contains p b) <-> contains (sle_lock e) b /\ ~ contains lock b) ->
  split_entry F s e parts = (s1, new) -> subtracted s1 s' todo kept split rm -> subtracted s s' (e :: todo) kept (new ++ split) (e :: rm).
Proof using Type.
  intros HQ Hv Hp Hb E [Hs Hn Hk Ho Hsp Hnd Hr Hby]. pose proof (split_entry_spec s e parts) as Hx. rewrite E in Hx.
  destruct Hx as (Hs1 & Hn1 & Hd1 & Hnew & Hall). split.
  - rewrite Hs, Hs1. done.
  - lia.
  - by apply sublist_cons.
  - by rewrite others_cons, HQ.
  - intros d [Hin|Hin]%elem_of_app.
    + destruct (Hnew d Hin) as (p & Hpin & Hpe). rewrite (part_entry_subtracts _ _ _ _ _ Hpe). destruct Hpe as [Hr1 Ed].
      split_and!; [done|lia|lia|]. exists e. split_and!; [by left|done|]. rewrite Ed. apply comes_from_dup; [by apply comes_from_refl| |lia].
      rewrite Forall_forall in Hp. destruct (Hp p Hpin) as [Hpv Hpt]. split_and!; [done|done|]. intros b Hc. apply Hb. by exists p.
    + destruct (Hsp d Hin) as (? & ? & e0 & ? & ? & Hf). split_and!; [done|lia|lia|]. exists e0. split_and!; [by right|done|].
      destruct Hf as (? & ? & ? & [?|(? & ?)]); split_and!; try done; [by left|right; split; [lia|done]].
  - rewrite map_app. apply NoDup_app. split_and!; [done| |done]. intros x (d & -> & Hd)%list_elem_of_fmap (d' & Ed & Hd')%list_elem_of_fmap.
    destruct (Hnew d Hd) as (p & _ & Hr1 & _). destruct (Hsp d' Hd') as (_ & Hr2 & _). lia.
  - intros e' [->|Hin]%elem_of_cons; [split; [by left|done]|]. destruct (Hr e' Hin). split; [by right|done].
  - intros t b. specialize (Hby t b). rewrite held_app in Hby. rewrite !held_app, held_cons, (held_parts e _ _ parts new t b HQ Hp Hnew Hall), Hb. tauto.
Qed.

Lemma subtract_loop_spec (s : hdl) todo :
  (forall e, e ∈ todo -> valid (sle_lock e)) ->
  let '(s', kept, split, rm) := subtract_loop F s owner state_applies state lock todo in subtracted s s' todo kept split rm.
Proof using Hlock.
  revert s. induction todo as [|e todo IH]; intros s Hv; cbn [subtract_loop].
  { split; [by destruct s|done|done|done|by intros d ?%elem_of_nil|apply NoDup_nil_2|by intros d ?%elem_of_nil|].
    intros t b. cbn. pose proof (held_nil Q t b). tauto. }
  assert (forall e', e' ∈ todo -> valid (sle_lock e')) as Hv' by (intros e' ?; apply Hv; by right).
  pose proof (Hv e ltac:(by left)) as Hve. pose proof (subtract_lock_spec (sle_lock e) lock Hve Hlock) as Hsub.
  destruct (Q e) eqn:HQ; [destruct (subtract_lock (sle_lock e) lock) as [parts|]|].
  - destruct Hsub as [Hp Hb], (split_entry F s e parts) as [s1 new] eqn:E. specialize (IH s1 Hv').
    destruct (subtract_loop F s1 _ _ _ _ todo) as [[[s' kept] split] rm]. by apply (subtracted_split s s1 s' e parts).
  - specialize (IH s Hv'). destruct (subtract_loop F s _ _ _ _ todo) as [[[s' kept] split] rm]. by apply subtracted_keep.
  - specialize (IH s Hv'). destruct (subtract_loop F s _ _ _ _ todo) as [[[s' kept] split] rm]. apply subtracted_keep; [congruence|done].
Qed.

Lemma subtracts_blocked e : Q e = true -> sle_blocked e = STATE_NON_BLOCKING.
Proof using Type. unfold subtracts. rewrite !andb_true_iff, bool_decide_eq_true. by intros [[_ ?] _]. Qed.

Lemma others_all l : (forall e, e ∈ l -> Q e = true) -> others Q l = [].
Proof using Type.
  induction l as [|e l IH]; intros H; [done|]. rewrite others_cons, (H e) by left. apply IH. intros e' ?. apply H. by right.
Qed.

(** An entry that comes from one that is held. *)
Lemma comes_from_held (s : hdl) e0 e :
  inv F None s -> e0 ∈ lock_list F s -> Q e0 = true -> comes_from (next_addr F s) e0 e ->
  lock_entry_ok (ht_lock_cookies F s) None e /\ forall o t b, covers_byte e o t b -> covers_byte e0 o t b.
Proof using Type.
  intros I He0 HQ ((Hv & Ht & Hc) & Ho & Hb & Hor). pose proof (subtracts_blocked e0 HQ) as Hb0.
  destruct (i_list _ _ _ I e0 He0) as (Hown & _ & H). rewrite bool_decide_false, (bool_decide_false (sle_blocked e0 = _)) in H by (done || by rewrite Hb0).
  destruct H as [Hr Hk]. split.
  - split; [by rewrite Ho|]. split; [done|]. rewrite bool_decide_false, (bool_decide_false (sle_blocked e = _)) by (done || congruence).
    unfold cookie_of in *. destruct Hor as [(_ & -> & ->)|(_ & -> & ->)]; done.
  - intros o t b (Hact & Ho' & Ht' & Hb'). split_and!; [unfold active in *; congruence|congruence|congruence|by apply Hc].
Qed.

Lemma subtract_from_list_spec (s : hdl) :
  inv F None s ->
  let '(s', _) := subtract_lock_from_list F s owner state_applies state lock in
  inv F None s' /\ others Q (lock_list F s') = others Q (lock_list F s) /\
  forall t b, held Q (lock_list F s') t b <-> held Q (lock_list F s) t b /\ ~ contains lock b.
Proof using Hlock.
  intros I. unfold subtract_lock_from_list. pose proof (subtract_loop_spec s (lock_list F s) ltac:(intros e He; by apply (i_list _ _ _ I))) as S.
  destruct (subtract_loop F s _ _ _ _ _) as [[[s1 kept] split] rm]. destruct S as [Hs Hn Hk Ho Hsp Hnd Hr Hb].
  destruct (discard_last F rm (set_list F s1 kept)) as [bl ->].
  { intros e He. destruct (Hr e He) as [Hin HQ]. pose proof (subtracts_blocked e HQ) as Hbl. destruct (i_list _ _ _ I e Hin) as (_ & _ & H).
    rewrite bool_decide_false, (bool_decide_false (sle_blocked e = _)) in H by (done || by rewrite Hbl). tauto. }
  cbn [set_list set_blocked lock_list]. split_and!; [|rewrite others_app, Ho, (others_all split), app_nil_r; [done|]; intros e ?; by apply Hsp|done].
  assert (off_list F s = []) as Hoff. { destruct (off_list F s) as [|e off] eqn:E; [done|]. destruct (i_off _ _ _ I e) as [? _]; [rewrite E; left|done]. }
  assert (forall e, e ∈ kept -> e ∈ lock_list F s) as Hin by (intros e He; by apply (elem_of_sublist kept)).
  pose proof (i_nodup _ _ _ I) as Hd. rewrite Hoff, app_nil_r in Hd. pose proof (i_next _ _ _ I) as Hnx. rewrite Hoff, app_nil_r in Hnx.
  rewrite Hs. split; cbn; rewrite ?Hoff, ?app_nil_r, ?map_app.
  - apply NoDup_app. split_and!; [eapply sublist_NoDup; [exact Hd|by apply (fmap_sublist sle_addr)]| |done].
    intros x (e & -> & He)%list_elem_of_fmap (d & Ed & Hd')%list_elem_of_fmap. destruct (Hsp d Hd') as (_ & ? & _).
    specialize (Hnx (sle_addr e) ltac:(apply list_elem_of_fmap; exists e; auto)). lia.
  - intros x [(e & -> & He)%list_elem_of_fmap|(d & -> & Hd')%list_elem_of_fmap]%elem_of_app.
    + specialize (Hnx (sle_addr e) ltac:(apply list_elem_of_fmap; exists e; auto)). lia.
    + destruct (Hsp d Hd') as (_ & ? & _). lia.
  - intros e [He|He]%elem_of_app; [by apply (i_list _ _ _ I), Hin|]. destruct (Hsp e He) as (_ & _ & e0 & H0 & HQ & Hf). by apply (comes_from_held s e0).
  - by intros e ?%elem_of_nil.
  - apply (i_cookies _ _ _ I).
  - intros c x Hx. destruct (i_table _ _ _ I c x Hx) as (Hc & Hxb & e & He & E & Hg & Hck). split_and!; [done|done|]. exists e. split_and!; [|done|done|done].
    apply elem_of_app. left. assert (e ∈ others Q kept) as [? _]%others_in; [|done]. rewrite Ho. apply others_in. split; [done|].
    apply not_true_iff_false. intros HQ%subtracts_blocked. congruence.
  - eapply compatible_sub; [|apply (i_compat _ _ _ I)]. intros o t b. rewrite covered_app. intros [(e & He & Hc)|(e & He & Hc)]; [exists e; auto|].
    destruct (Hsp e He) as (_ & _ & e0 & H0 & HQ & Hf). exists e0. split; [done|]. by apply (comes_from_held s e0 e).
Qed.

End loop.
End subtract.
