(* ===== verification/NfsLockSafe.v ===== *)
(** * Operations on locks keep the invariant

    Every operation returns, without a NULL pointer or an entry that was released being
    used, and locks of different owners stay compatible. The FSAL is any that has no
    blocking locks of its own; GRANTED messages can be handed to their thread. *)

From S2P Require Import Prelude NfsLock NfsLockProofs NfsLockInv NfsLockState.
Local Open Scope Z_scope.

Section safe.
  Context {O : Type} `{EqDecision O}.
  Variables (F : Type) (fso_lock_support : bool).
  Variable (lock_op2 : F -> O -> fsal_lock_op_t -> fsal_lock_param_t -> F * state_status_t * fsal_lock_param_t).
  Variables (state_async_schedule : F -> F * state_status_t) (export_ready : nat -> bool).
  Hypothesis scheduled : forall f, snd (state_async_schedule f) = STATE_SUCCESS.
#[local] Abbreviation entry := (state_lock_entry_t (O := O)).
#[local] Abbreviation hdl := (state_hdl F (O := O)).
#[local] Abbreviation MK := (MkHdl F (O := O)).
#[local] Abbreviation do_lock_op := (do_lock_op F fso_lock_support false lock_op2).
#[local] Abbreviation nlm_granted_callback := (nlm_granted_callback F fso_lock_support false lock_op2 state_async_schedule).
#[local] Abbreviation try_to_grant_lock := (try_to_grant_lock F fso_lock_support false lock_op2 state_async_schedule export_ready).
#[local] Abbreviation grant_one := (grant_one F fso_lock_support false lock_op2 state_async_schedule export_ready).
#[local] Abbreviation cancel_blocked_lock := (cancel_blocked_lock F fso_lock_support false lock_op2).
#[local] Abbreviation grant_blocked_locks := (grant_blocked_locks F fso_lock_support false lock_op2 state_async_schedule export_ready).

Lemma do_lock_op_ret s op o l :
  exists f st c, do_lock_op s op (Some o) l = Ret (set_fsal F s f, st, c) /\ (st = STATE_LOCK_BLOCKED -> op = FSAL_OP_LOCKB).
Proof using Type.
  unfold NfsLock.do_lock_op. destruct (negb fso_lock_support || _).
  { exists (fsal F s), STATE_SUCCESS, None. split; [by destruct s|done]. }
  cbn [deref]. rewrite res_bind_ret. destruct (lock_op2 _ _ _ _) as [[f st] c]. eexists f, _, _. split; [done|].
  rewrite andb_true_r. destruct (decide (op = FSAL_OP_LOCKB)) as [|Hne]; [done|].
  rewrite (bool_decide_false (op = FSAL_OP_LOCKB)), andb_false_r by done. cbn.
  destruct (bool_decide_reflect (st = STATE_LOCK_BLOCKED)); cbn; [|done]. by rewrite bool_decide_false by done.
Qed.

Lemma filter_cookies c (ck : list (nat * nat)) :
  (forall b, (c, b) ∉ ck) -> List.filter (fun p => negb (Nat.eqb (fst p) c)) ck = ck.
Proof using Type.
  induction ck as [|[c' b] ck IH]; intros Hc; [done|]. cbn. destruct (Nat.eqb_spec c' c) as [->|Hne]; cbn.
  - exfalso. apply (Hc b). left.
  - rewrite IH; [done|]. intros b' Hb'. apply (Hc b'). by right.
Qed.

(** The locks that are held are not touched. *)
Definition held_locks (l : list entry) : list (option O * fsal_lock_param_t) :=
  map (fun e => (sle_owner e, sle_lock e)) (List.filter (fun e => bool_decide (sle_blocked e = STATE_NON_BLOCKING)) l).

Lemma held_locks_mid l1 e e' l2 :
  sle_blocked e <> STATE_NON_BLOCKING -> sle_blocked e' <> STATE_NON_BLOCKING -> held_locks (l1 ++ e :: l2) = held_locks (l1 ++ e' :: l2).
Proof using Type. intros H1 H2. unfold held_locks. rewrite !List.filter_app, !map_app. cbn. by rewrite !bool_decide_false by done. Qed.

Lemma held_locks_drop l1 e l2 : sle_blocked e <> STATE_NON_BLOCKING -> held_locks (l1 ++ e :: l2) = held_locks (l1 ++ l2).
Proof using Type. intros H1. unfold held_locks. rewrite !List.filter_app, !map_app. cbn. by rewrite bool_decide_false by done. Qed.

(** The loops keep the invariant and leave the locks that are held as they are; the ranges
    of the rest stay too. *)
Definition same_locks (l' l : list entry) : Prop := held_locks l' = held_locks l /\ map sle_lock l' `sublist_of` map sle_lock l.

Definition keeps (x : option nat) (s : hdl) (m : res hdl) : Prop :=
  exists s', m = Ret s' /\ inv F x s' /\ same_locks (lock_list F s') (lock_list F s) /\
    forall e, x = Some (sle_addr e) -> e ∈ lock_list F s -> e ∈ lock_list F s'.

Lemma keeps_refl x s : inv F x s -> keeps x s (Ret s).
Proof using Type. intros I. by exists s. Qed.

Lemma stays_drop x l1 (e : entry) l2 :
  x <> Some (sle_addr e) -> forall e2, x = Some (sle_addr e2) -> e2 ∈ l1 ++ e :: l2 -> e2 ∈ l1 ++ l2.
Proof using Type. intros Hx e2 E. rewrite !elem_of_app, elem_of_cons. intros [?|[->|?]]; [by left|done|by right]. Qed.

Lemma stays_mid x l1 (e e' : entry) l2 :
  x <> Some (sle_addr e) -> forall e2, x = Some (sle_addr e2) -> e2 ∈ l1 ++ e :: l2 -> e2 ∈ l1 ++ e' :: l2.
Proof using Type. intros Hx e2 E. rewrite !elem_of_app, !elem_of_cons. intros [?|[->|?]]; [by left|done|by right; right]. Qed.

Lemma same_locks_refl l : same_locks l l.
Proof using Type. done. Qed.

Lemma same_locks_mid l1 e e' l2 :
  sle_blocked e <> STATE_NON_BLOCKING -> sle_blocked e' <> STATE_NON_BLOCKING -> sle_lock e' = sle_lock e -> same_locks (l1 ++ e' :: l2) (l1 ++ e :: l2).
Proof using Type. intros H1 H2 E. split; [by apply held_locks_mid|]. rewrite !map_app. cbn. by rewrite E. Qed.

Lemma same_locks_drop l1 e l2 : sle_blocked e <> STATE_NON_BLOCKING -> same_locks (l1 ++ l2) (l1 ++ e :: l2).
Proof using Type.
  intros H1. split; [by rewrite held_locks_drop|]. rewrite !map_app. apply sublist_app; [done|]. by apply sublist_cons.
Qed.

(** Same range, owner and kind, so the same lock. *)
Lemma same_locks_as l1 e e' l2 :
  sle_blocked e' = sle_blocked e -> sle_owner e' = sle_owner e -> sle_lock e' = sle_lock e -> same_locks (l1 ++ e' :: l2) (l1 ++ e :: l2).
Proof using Type.
  intros Hb Ho E. split; [|rewrite !map_app; cbn; by rewrite E]. unfold held_locks. rewrite !List.filter_app, !map_app. cbn. rewrite Hb.
  destruct (bool_decide _); cbn; by rewrite ?Ho, ?E.
Qed.

Lemma holds_held (l : list entry) o t b :
  holds l o t b <-> exists lock, (Some o, lock) ∈ held_locks l /\ lock_type lock = t /\ contains lock b.
Proof using Type.
  unfold holds, held_locks. setoid_rewrite list_elem_of_fmap. setoid_rewrite list_elem_of_In. setoid_rewrite filter_In.
  setoid_rewrite bool_decide_eq_true. split.
  - intros (e & He & Ho & Hb & Ht & Hc). exists (sle_lock e). split_and!; [|done|done]. exists e. by rewrite Ho.
  - intros (lock & (e & [= Ho ->] & He & Hb) & Ht & Hc). by exists e.
Qed.

Lemma same_locks_holds (l l' : list entry) o t b : same_locks l' l -> holds l' o t b <-> holds l o t b.
Proof using Type. intros [E _]. by rewrite !holds_held, E. Qed.

Lemma same_locks_trans l1 l2 l3 : same_locks l1 l2 -> same_locks l2 l3 -> same_locks l1 l3.
Proof using Type. intros [E1 S1] [E2 S2]. split; [congruence|by etrans]. Qed.

(** ** Grants *)

Section granting.
  Variables (l1 l2 off : list entry) (e : entry) (o : O) (d : state_block_data_t).
  Variables (n : nat) (bl : list nat) (lr : Z) (ck : list (nat * nat)) (nc : nat) (f : F).
  Hypotheses (A1 : apart (sle_addr e) l1) (A2 : apart (sle_addr e) l2) (A3 : apart (sle_addr e) off).
  Hypotheses (Ho : sle_owner e = Some o) (Hd : sle_block_data e = Some d) (Hn : forall c b, (c, b) ∈ ck -> (c < nc)%nat).

Definition with_cookie (c : nat) : entry :=
  with_block_data (with_refs e (sle_ref_count e + 1)) (Some (MkBlock (sbd_grant_type d) (sbd_block_type d) (Some c))).

Lemma state_add_grant_cookie_ret :
  exists f' st, 
  state_add_grant_cookie F fso_lock_support false lock_op2 (MK (l1 ++ e :: l2) off n bl lr ck nc f) (sle_addr e) =
  Ret (if bool_decide (st = STATE_SUCCESS) then MK (l1 ++ with_cookie nc :: l2) off n bl lr ((nc, sle_addr e) :: ck) (S nc) f'
       else MK (l1 ++ e :: l2) off n bl lr ck (S nc) f', st, nc).
Proof using A1 A2 A3 Ho Hd Hn.
  unfold state_add_grant_cookie. rewrite entry_at_mk by done. cbn [deref]. rewrite res_bind_ret, Hd. unfold set_cookies. cbn [lock_list off_list next_addr state_blocked_locks list_refs ht_lock_cookies next_cookie fsal].
  set (s := MK _ _ _ _ _ ((nc, _) :: ck) _ _).
  assert (exists f' st, (match sbd_grant_type d with
     | STATE_GRANT_NONE => Ret (s, STATE_INCONSISTENT_ENTRY)
     | STATE_GRANT_INTERNAL => '(s, status, _) ← do_lock_op s FSAL_OP_LOCK (sle_owner e) (sle_lock e); Ret (s, status)
     | STATE_GRANT_FSAL => Ret (s, STATE_SUCCESS)
     | _ => '(s, status, _) ← do_lock_op s FSAL_OP_LOCKB (sle_owner e) (sle_lock e); Ret (s, status)
     end = Ret (set_fsal F s f', st))) as (f' & st & ->).
  { rewrite Ho. destruct (sbd_grant_type d); try (by exists f; eexists);
      match goal with |- context [do_lock_op s ?op _ _] => destruct (do_lock_op_ret s op o (sle_lock e)) as (f' & st & c & -> & _) end;
      by exists f', st. }
  rewrite res_bind_ret. exists f', st. unfold set_fsal. cbn.
  destruct (bool_decide (st = STATE_SUCCESS)).
  - unfold lock_entry_inc_ref, set_cookie. rewrite !update_at_mk by done. cbn. rewrite Hd. done.
  - unfold state_find_grant. cbn. rewrite Nat.eqb_refl. cbn. unfold set_cookies. cbn. rewrite filter_cookies; [done|].
    intros b Hb. apply Hn in Hb. lia.
Qed.

Lemma nlm_granted_callback_ret :
  exists f' st, 
  nlm_granted_callback (MK (l1 ++ e :: l2) off n bl lr ck nc f) (sle_addr e) =
  Ret (if bool_decide (st = STATE_SUCCESS) then MK (l1 ++ with_cookie nc :: l2) off n bl lr ((nc, sle_addr e) :: ck) (S nc) f'
       else MK (l1 ++ e :: l2) off n bl lr ck (S nc) f', st).
Proof using A1 A2 A3 Ho Hd Hn scheduled.
  unfold NfsLock.nlm_granted_callback. destruct state_add_grant_cookie_ret as (f' & st & ->). rewrite res_bind_ret.
  destruct (bool_decide_reflect (st = STATE_SUCCESS)) as [->|Hst]; [|exists f', st; by rewrite bool_decide_false by done].
  unfold set_fsal. cbn [lock_list off_list next_addr state_blocked_locks list_refs ht_lock_cookies next_cookie fsal].
  pose proof (scheduled f') as Hs. destruct (state_async_schedule f') as [f'' st']. cbn in Hs. subst st'.
  exists f'', STATE_SUCCESS. done.
Qed.

End granting.

Lemma no_conflict (e : entry) (o o' : O) lock b :
  conflicts e (Some o) lock = false -> valid (sle_lock e) -> valid lock -> sle_owner e = Some o' -> o' <> o ->
  contains (sle_lock e) b -> contains lock b -> lock_type (sle_lock e) <> FSAL_LOCK_W /\ lock_type lock <> FSAL_LOCK_W.
Proof using Type.
  unfold conflicts. intros Hc Hv Hl Ho Hne Hb Hb'. rewrite Ho in Hc. cbn in Hc. rewrite (bool_decide_false (o' = o)) in Hc by done.
  rewrite (proj2 (overlaps_spec _ _ Hv Hl)) in Hc by (by exists b). cbn in Hc. rewrite andb_true_r in Hc.
  by destruct (bool_decide_reflect (lock_type (sle_lock e) = FSAL_LOCK_W)), (bool_decide_reflect (lock_type lock = FSAL_LOCK_W)).
Qed.

Lemma no_overlap x (s : hdl) (o : O) lock :
  inv F x s -> valid lock -> get_overlapping_entry F s (Some o) lock = None ->
  forall o' t b, covered (lock_list F s) o' t b -> contains lock b -> o' <> o -> t <> FSAL_LOCK_W /\ lock_type lock <> FSAL_LOCK_W.
Proof using Type.
  intros I Hv Hn o' t b (e & He & Ha & Ho & <- & Hb) Hb' Hne.
  pose proof (find_none _ _ Hn e ltac:(by apply list_elem_of_In)) as H. cbn in H. unfold active in Ha. rewrite Ha in H.
  apply (no_conflict e o o' lock b); try done. apply (i_list _ _ _ I e He).
Qed.

(** The entry that the grant is about has no cookie and one reference. *)
Lemma wants_ok ck x (e : entry) : wants e = true -> lock_entry_ok ck x e ->
  x <> Some (sle_addr e) /\ sle_ref_count e = 1 /\ cookie_of e = None /\ valid (sle_lock e) /\ exists o, sle_owner e = Some o.
Proof using Type.
  intros Hw (Ho & Hv & H). destruct (bool_decide_reflect (x = Some (sle_addr e))); [destruct H; congruence|].
  rewrite bool_decide_false in H by (intros E; unfold wants in Hw; by rewrite E in Hw). destruct H. done.
Qed.

(** [STATE_GRANT_INTERNAL] is the default. *)
Definition grant_data (d : state_block_data_t) : state_block_data_t :=
  match sbd_grant_type d with STATE_GRANT_NONE => MkBlock STATE_GRANT_INTERNAL (sbd_block_type d) (sbd_blocked_cookie d) | _ => d end.

Lemma grant_marked l1 l2 off e d n bl lr ck nc f :
  apart (sle_addr e) l1 -> apart (sle_addr e) l2 -> apart (sle_addr e) off -> sle_block_data e = Some d ->
  match sbd_grant_type d with
  | STATE_GRANT_NONE => set_grant_type F (MK (l1 ++ with_blocked e STATE_GRANTING :: l2) off n bl lr ck nc f) (sle_addr e) STATE_GRANT_INTERNAL
  | _ => MK (l1 ++ with_blocked e STATE_GRANTING :: l2) off n bl lr ck nc f
  end = MK (l1 ++ with_block_data (with_blocked e STATE_GRANTING) (Some (grant_data d)) :: l2) off n bl lr ck nc f.
Proof using Type.
  intros A1 A2 A3 Hd. unfold grant_data, set_grant_type, with_block_data, with_blocked. cbn.
  destruct (sbd_grant_type d); rewrite ?update_at_mk by done; cbn; by rewrite Hd.
Qed.

Lemma try_to_grant_keeps x (s : hdl) e :
  inv F x s -> e ∈ lock_list F s -> wants e = true -> get_overlapping_entry F s (sle_owner e) (sle_lock e) = None ->
  keeps x s (try_to_grant_lock s (sle_addr e)).
Proof using scheduled.
  intros I He Hw Hov. pose proof (fun c => wants_table F x s e c I He) as Htab. destruct (wants_ok _ _ _ Hw (i_list _ _ _ I e He)) as (Hx & Hr & Hc & Hv & o & Ho).
  pose proof (no_overlap x s o (sle_lock e) I Hv) as Hno. rewrite <-Ho in Hno. specialize (Hno Hov).
  assert (sle_blocked e <> STATE_NON_BLOCKING /\ sle_blocked e <> STATE_GRANTING) as [Hnb Hng] by (unfold wants in Hw; by destruct (sle_blocked e)).
  destruct (inv_split _ _ _ _ I He) as (l1 & l2 & E & A1 & A2 & A3). destruct s as [l off n bl lr ck nc f]. cbn in E, A3, Htab. subst l.
  assert (forall bl' nc' f', (nc <= nc')%nat -> inv F x (MK (l1 ++ l2) off n bl' lr ck nc' f')) as Hdrop.
  { intros bl' nc' f' Hle. eapply inv_drop; [exact I|done|done|done|apply (i_cookies _ _ _ I)|auto|done]. }
  unfold NfsLock.try_to_grant_lock. rewrite entry_at_mk by done. cbn [deref]. rewrite res_bind_ret.
  assert (keeps x (MK (l1 ++ e :: l2) off n bl lr ck nc f) (Ret (remove_from_locklist F (MK (l1 ++ e :: l2) off n bl lr ck nc f) (sle_addr e)))) as Hrem.
  { eexists. split; [done|]. rewrite remove_mk, Hr by done. cbn. split; [by apply Hdrop|]. split; [by apply same_locks_drop|by apply stays_drop]. }
  destruct (sle_block_data e) as [d|] eqn:Ed; [|done]. destruct (_ || _); [done|].
  unfold mark. rewrite update_at_mk by done.
  rewrite grant_marked by done. set (e2 := with_block_data (with_blocked e STATE_GRANTING) (Some (grant_data d))).
  destruct (nlm_granted_callback_ret l1 l2 off e2 o (grant_data d) n bl lr ck nc f) as (f' & st & Hcb); try done.
  { intros c b Hin. apply (i_table _ _ _ I c b Hin). }
  change (sle_addr e2) with (sle_addr e) in Hcb. rewrite Hcb, res_bind_ret.
  assert (sbd_blocked_cookie d = None) as Hdc by (unfold cookie_of in Hc; by rewrite Ed in Hc).
  destruct (bool_decide_reflect (st = STATE_LOCK_BLOCKED)) as [->|Hst].
  - cbn [bool_decide]. eexists. split; [done|]. rewrite bool_decide_false by done. unfold set_grant_type. rewrite !update_at_mk by done. cbn.
    split; [|split; [by apply same_locks_mid|by apply stays_mid]].
    eapply inv_replace; [exact I|done|done|lia|apply (i_cookies _ _ _ I)|done|..].
    + intros c Hin. by destruct (Htab c Hng).
    + split; [by exists o|]. split; [done|]. rewrite bool_decide_false, bool_decide_false by done.
      split; [done|]. unfold cookie_of. cbn. rewrite <-Hdc. unfold grant_data. by destruct (sbd_grant_type d).
    + eapply compatible_replace; [|apply (i_compat _ _ _ I)]. intros o' t b (Ha & _). unfold active in Ha. cbn in Ha.
      unfold wants in Hw. by destruct (sle_blocked e).
  - destruct (bool_decide_reflect (st = STATE_SUCCESS)) as [Hs|Hs]; (eexists; split; [done|]); unfold set_blocked;
      cbn [lock_list off_list next_addr state_blocked_locks list_refs ht_lock_cookies next_cookie fsal].
    + split; [|split; [by apply same_locks_mid|by apply stays_mid]]. eapply inv_replace; [exact I|done| |lia| |done|..].
      * intros c b Hb. rewrite elem_of_cons. split; [intros [[= _ ->]|]; done|tauto].
      * cbn. apply NoDup_cons. split; [|apply (i_cookies _ _ _ I)]. intros ([c b] & -> & Hin)%list_elem_of_fmap.
        destruct (i_table _ _ _ I _ _ Hin). cbn in *. lia.
      * intros c. rewrite elem_of_cons. intros [[= ->]|Hin]; [|by destruct (Htab c Hng)]. split_and!; [lia|done|done|done].
      * split; [by exists o|]. split; [done|]. rewrite bool_decide_false, bool_decide_true by done. cbn. rewrite Hr. split; [done|].
        exists nc. split; [done|]. left.
      * apply compatible_perm. apply compatible_add with o; [done| |eapply compatible_drop, (i_compat _ _ _ I)].
        intros o' t b Hcov. apply Hno. cbn. rewrite covered_mid. by right.
    + rewrite remove_mk by done. cbn. rewrite Hr. cbn. split; [apply Hdrop; lia|]. split; [by apply same_locks_drop|by apply stays_drop].
Qed.

Lemma entry_at_listed x (s : hdl) a e :
  inv F x s -> entry_at F s a = Some e -> sle_addr e = a /\ (e ∈ lock_list F s \/ e ∈ off_list F s /\ x = Some a).
Proof using Type.
  intros I [He Ha]%find_some. unfold at_addr in Ha. apply Nat.eqb_eq in Ha. split; [done|].
  rewrite <-list_elem_of_In, elem_of_app in He. destruct He as [He|He]; [by left|]. right. split; [done|].
  destruct (i_off _ _ _ I e He) as [-> _]. by rewrite Ha.
Qed.

Lemma keeps_foldl x (f : hdl -> nat -> res hdl) l (s : hdl) :
  (forall s a, inv F x s -> keeps x s (f s a)) -> inv F x s -> keeps x s (res_foldl f s l).
Proof using Type.
  intros Hf. revert s. induction l as [|a l IH]; intros s I; cbn [res_foldl]; [by exists s|].
  destruct (Hf s a I) as (s' & -> & I' & E & Hst). rewrite res_bind_ret. destruct (IH s' I') as (s'' & -> & I'' & E' & Hst'). exists s''.
  split_and!; [done|done|by eapply same_locks_trans|]. intros e Hx He. auto.
Qed.

Lemma grant_one_keeps x (s : hdl) a : inv F x s -> keeps x s (grant_one s a).
Proof using scheduled.
  intros I. unfold NfsLock.grant_one. destruct (entry_at F s a) as [e|] eqn:Ea; [|by exists s].
  destruct (entry_at_listed _ _ _ _ I Ea) as (<- & He).
  destruct (wants e) eqn:Hw; [|unfold wants in Hw; destruct (sle_blocked e); by try (by exists s)].
  assert (e ∈ lock_list F s) as Hl by (destruct He as [?|[He _]]; [done|destruct (i_off _ _ _ I e He) as (_ & _ & ?); congruence]).
  destruct (get_overlapping_entry F s (sle_owner e) (sle_lock e)) eqn:Hov; [destruct (sle_blocked e); by exists s|].
  pose proof (try_to_grant_keeps x s e I Hl Hw Hov) as H. unfold wants in Hw. by destruct (sle_blocked e).
Qed.

Lemma grant_blocked_keeps x (s : hdl) : inv F x s -> keeps x s (grant_blocked_locks s).
Proof using scheduled. apply keeps_foldl. intros. by apply grant_one_keeps. Qed.

(** ** Cookies *)

Definition without (c : nat) (ck : list (nat * nat)) : list (nat * nat) := List.filter (fun p => negb (Nat.eqb (fst p) c)) ck.

Lemma elem_without c ck c' b : (c', b) ∈ without c ck <-> (c', b) ∈ ck /\ c' <> c.
Proof using Type. unfold without. rewrite !list_elem_of_In, filter_In. cbn. by rewrite negb_true_iff, Nat.eqb_neq. Qed.

Lemma without_nodup c ck : NoDup (map fst ck) -> NoDup (map fst (without c ck)).
Proof using Type.
  unfold without. induction ck as [|[c' b] ck IH]; cbn; [done|]. intros [Hn Hd]%NoDup_cons. destruct (Nat.eqb c' c); cbn; [auto|].
  apply NoDup_cons. split; [|auto]. intros (p & E & Hp)%list_elem_of_fmap. apply Hn. apply list_elem_of_fmap. exists p. split; [done|].
  rewrite list_elem_of_In, filter_In in Hp. apply list_elem_of_In, Hp.
Qed.

Lemma find_cookie c a (ck : list (nat * nat)) : NoDup (map fst ck) -> (c, a) ∈ ck -> List.find (fun p => Nat.eqb (fst p) c) ck = Some (c, a).
Proof using Type.
  induction ck as [|[c' b] ck IH]; cbn; [by intros _ ?%elem_of_nil|]. intros [Hn Hd]%NoDup_cons. rewrite elem_of_cons.
  intros [[= -> ->]|Hin]; [by rewrite Nat.eqb_refl|]. destruct (Nat.eqb_spec c' c) as [->|]; [|by apply IH].
  exfalso. apply Hn. apply list_elem_of_fmap. by exists (c, a).
Qed.

Lemma cookie_unique c a b (ck : list (nat * nat)) : NoDup (map fst ck) -> (c, a) ∈ ck -> (c, b) ∈ ck -> a = b.
Proof using Type. intros Hd Ha%(find_cookie _ _ _ Hd) Hb%(find_cookie _ _ _ Hd). congruence. Qed.

(** The entry of a cookie is being granted. *)
Lemma granting_ok ck x (e : entry) : sle_blocked e = STATE_GRANTING -> x <> Some (sle_addr e) -> lock_entry_ok ck x e ->
  sle_ref_count e = 2 /\ exists c, cookie_of e = Some c /\ (c, sle_addr e) ∈ ck.
Proof using Type. intros Hg Hx (_ & _ & H). rewrite bool_decide_false, bool_decide_true in H by done. done. Qed.

(** The table without the cookie of an entry of the list. *)
Lemma without_table x l1 e l2 off n bl lr ck nc f c :
  inv F x (MK (l1 ++ e :: l2) off n bl lr ck nc f) -> (c, sle_addr e) ∈ ck ->
  (forall c' b, b <> sle_addr e -> (c', b) ∈ without c ck <-> (c', b) ∈ ck) /\ forall c', (c', sle_addr e) ∉ without c ck.
Proof using Type.
  intros I Hin. pose proof (i_cookies _ _ _ I) as Hd. cbn in Hd. split.
  - intros c' b Hb. rewrite elem_without. split; [by intros []|]. intros Hin'. split; [done|]. intros ->. apply Hb. by apply (cookie_unique c _ _ ck).
  - intros c'. rewrite elem_without. intros [Hin' Hne]. destruct (change_apart _ _ _ _ _ _ _ _ _ _ _ _ I) as (A1 & A2 & _).
    destruct (i_table _ _ _ I _ _ Hin) as (_ & _ & e1 & H1 & E1 & _ & C1), (i_table _ _ _ I _ _ Hin') as (_ & _ & e2 & H2 & E2 & _ & C2).
    assert (forall e', e' ∈ l1 ++ e :: l2 -> sle_addr e' = sle_addr e -> e' = e) as Hone.
    { intros e' He' Ea. rewrite elem_of_app, elem_of_cons in He'. destruct He' as [He'|[->|He']]; [destruct A1|done|destruct A2];
        rewrite <-Ea; apply list_elem_of_fmap; by exists e'. }
    cbn in H1, H2. rewrite (Hone e1 H1 E1) in C1. rewrite (Hone e2 H2 E2) in C2. congruence.
Qed.

(** A cookie is taken out of the table. *)
Lemma find_grant_inv (s : hdl) e :
  inv F None s -> e ∈ lock_list F s -> sle_blocked e = STATE_GRANTING ->
  exists c, cookie_of e = Some c /\
  state_find_grant F s c = (set_cookies F s (without c (ht_lock_cookies F s)) (next_cookie F s), Some (sle_addr e)) /\
  inv F (Some (sle_addr e)) (set_cookies F s (without c (ht_lock_cookies F s)) (next_cookie F s)).
Proof using Type.
  intros I He Hg. pose proof (i_list _ _ _ I e He) as Hok. destruct (granting_ok _ None _ Hg ltac:(done) Hok) as (Hr & c & Hc & Hin).
  exists c. split; [done|]. unfold state_find_grant. rewrite (find_cookie c (sle_addr e)) by (done || apply (i_cookies _ _ _ I)). split; [done|].
  destruct (inv_split _ _ _ _ I He) as (l1 & l2 & E & A1 & A2 & A3). destruct s as [l off n bl lr ck nc f]. cbn in *. subst l.
  destruct (without_table _ _ _ _ _ _ _ _ _ _ _ _ I Hin) as [Hw Hno].
  assert (off = []) as ->. { destruct off as [|e' off]; [done|]. by destruct (i_off _ _ _ I e') as [? _]; [cbn; left|]. }
  unfold set_cookies. cbn. eapply inv_replace; [exact I| |done|lia|by apply without_nodup, (i_cookies _ _ _ I)|done|..].
  - intros b Hb. split; [done|]. intros [= E]. congruence.
  - intros c' Hin'. by destruct (Hno c').
  - destruct Hok as (Ho & Hv & _). split; [done|]. split; [done|]. rewrite bool_decide_true by done. split; [done|].
    unfold wants. by rewrite Hg.
  - apply (i_compat _ _ _ I).
Qed.

Lemma cancel_blocked_keeps (s : hdl) e :
  inv F None s -> e ∈ lock_list F s -> sle_blocked e <> STATE_NON_BLOCKING -> keeps None s (cancel_blocked_lock s (sle_addr e)).
Proof using Type.
  intros I He Hb. pose proof (i_list _ _ _ I e He) as Hok. pose proof (fun c => wants_table F None s e c I He) as Htab.
  destruct (inv_split _ _ _ _ I He) as (l1 & l2 & E & A1 & A2 & A3). destruct s as [l off n bl lr ck nc f]. cbn in *. subst l.
  unfold NfsLock.cancel_blocked_lock. rewrite entry_at_mk by done. cbn [deref]. rewrite res_bind_ret. unfold mark. rewrite update_at_mk by done.
  change (sle_block_data e ≫= sbd_blocked_cookie) with (cookie_of e).
  destruct (decide (sle_blocked e = STATE_GRANTING)) as [Hg|Hg].
  - destruct (granting_ok _ None _ Hg ltac:(done) Hok) as (Hr & c & -> & Hin). unfold state_find_grant. cbn [ht_lock_cookies].
    rewrite (find_cookie c (sle_addr e)) by (done || apply (i_cookies _ _ _ I)). unfold set_cookies. cbn [lock_list off_list next_addr state_blocked_locks list_refs ht_lock_cookies next_cookie fsal].
    unfold free_cookie, set_cookie. rewrite update_at_mk, dec_ref_mk by (done || (cbn; lia)). rewrite remove_mk by done. cbn. rewrite Hr. cbn.
    eexists. split; [done|]. cbn. split; [|by split; [apply same_locks_drop|]].
    destruct (without_table _ _ _ _ _ _ _ _ _ _ _ _ I Hin) as [Hw Hno].
    by eapply inv_drop; [exact I|done|done|lia|apply without_nodup, (i_cookies _ _ _ I)|..].
  - destruct Hok as ((o & Ho) & Hv & H). rewrite bool_decide_false, bool_decide_false in H by done. destruct H as [Hr Hc]. rewrite Hc, Ho.
    destruct (do_lock_op_ret (MK (l1 ++ with_blocked e STATE_CANCELED :: l2) off n bl lr ck nc f) FSAL_OP_CANCEL o (sle_lock e)) as (f' & st & c & -> & _).
    rewrite res_bind_ret. unfold set_fsal. cbn [lock_list off_list next_addr state_blocked_locks list_refs ht_lock_cookies next_cookie fsal].
    eexists. split; [done|]. destruct (bool_decide (st = STATE_SUCCESS)).
    + rewrite remove_mk by done. cbn. rewrite Hr. cbn. split; [|by split; [apply same_locks_drop|]].
      eapply inv_drop; [exact I|done|done|lia|apply (i_cookies _ _ _ I)|auto|done].
    + cbn. split; [|by split; [apply same_locks_mid|]].
      eapply inv_replace; [exact I|done|done|lia|apply (i_cookies _ _ _ I)|done|..].
      * intros c' Hin. by destruct (Htab c').
      * split; [by exists o|]. split; [done|]. by rewrite bool_decide_false, bool_decide_false by done.
      * eapply compatible_replace; [|apply (i_compat _ _ _ I)]. by intros o' t b (Ha & _).
Qed.

End safe.
