(* ===== verification/NfsLockOps.v ===== *)
(** * The requests of clients

    What a lock, an unlock, a cancel and the answer to a grant do to the list of a file:
    each of them returns and keeps the invariant; a lock and an unlock change exactly
    the bytes of their range for their owner. *)

From S2P Require Import Prelude NfsLock NfsLockProofs NfsLockInv NfsLockState NfsLockSubtract NfsLockSafe.
Local Open Scope Z_scope.

(** ** Lists whose bytes are held with one type *)

Section tidy.
  Context {O : Type} `{EqDecision O} (F : Type).
#[local] Abbreviation entry := (state_lock_entry_t (O := O)).
#[local] Abbreviation hdl := (state_hdl F (O := O)).
#[local] Abbreviation MK := (MkHdl F (O := O)).

(** No range goes up to the end of the file, and no owner has a byte with two types. *)
Definition tidy (l : list entry) : Prop :=
  (forall e, e ∈ l -> bounded (sle_lock e)) /\ forall o t1 t2 b, holds l o t1 b -> holds l o t2 b -> t1 = t2.

Lemma tidy_same l l' : same_locks l' l -> tidy l -> tidy l'.
Proof using Type.
  intros S [Hb Ho]. split.
  - intros e He. destruct S as [_ S]. assert (sle_lock e ∈ map sle_lock l) as (e' & -> & He')%list_elem_of_fmap; [|by apply Hb].
    apply (elem_of_sublist (map sle_lock l')); [|done]. apply list_elem_of_fmap. by exists e.
  - intros o t1 t2 b. rewrite !(same_locks_holds l l') by done. apply Ho.
Qed.

Lemma replaced_ext o (H H' : O -> fsal_lock_t -> Z -> Prop) (l : list entry) q :
  (forall o t b, H o t b <-> H' o t b) -> replaced o H l q -> replaced o H' l q.
Proof using Type. intros E R o' t b. rewrite (R o' t b). destruct (decide (o' = o)); by rewrite E. Qed.

Lemma replaced_same o (H : O -> fsal_lock_t -> Z -> Prop) (l l' : list entry) q : same_locks l' l -> replaced o H l q -> replaced o H l' q.
Proof using Type. intros S R o' t b. by rewrite (same_locks_holds l l'). Qed.

Lemma tidy_replaced l o (H : O -> fsal_lock_t -> Z -> Prop) l' q :
  (forall e, e ∈ l' -> bounded (sle_lock e)) -> replaced o H l' q -> (forall o t b, H o t b -> holds l o t b) -> tidy l -> tidy l'.
Proof using Type.
  intros Hb Hr HH [_ Ho]. split; [done|]. intros o' t1 t2 b. rewrite !(Hr o'). destruct (decide (o' = o)) as [->|].
  - intros [[-> ?]|[? ?]] [[-> ?]|[? ?]]; [done|done|done|]. apply (Ho o _ _ b); by apply HH.
  - intros ? ?. apply (Ho o' _ _ b); by apply HH.
Qed.

Lemma apart_app a (l1 l2 : list entry) : apart a l1 -> apart a l2 -> apart a (l1 ++ l2).
Proof using Type. unfold apart. rewrite map_app, elem_of_app. tauto. Qed.

Lemma free_cookie_off (l : list entry) e n bl lr ck nc f :
  apart (sle_addr e) l -> sle_ref_count e = 1 -> exists bl', free_cookie F (MK l [e] n bl lr ck nc f) (sle_addr e) = MK l [] n bl' lr ck nc f.
Proof using Type.
  intros A Hr. unfold free_cookie, set_cookie. rewrite update_at_off by done. set (e' := with_block_data e _).
  change (sle_addr e) with (sle_addr e'). rewrite dec_ref_off by done. by eexists.
Qed.

Lemma off_empty (s : hdl) : inv F None s -> off_list F s = [].
Proof using Type. intros I. destruct (off_list F s) as [|e off] eqn:E; [done|]. destruct (i_off _ _ _ I e) as [? _]; [rewrite E; left|done]. Qed.

(** An entry that is made for a request, before it is on the list. *)
Lemma inv_new l n bl lr ck nc f e bl' lr' f' :
  inv F None (MK l [] n bl lr ck nc f) -> sle_addr e = n -> sle_ref_count e = 1 -> wants e = false -> inv F (Some n) (MK l [e] (S n) bl' lr' ck nc f').
Proof using Type.
  intros I Ha Hr Hw. pose proof (i_nodup _ _ _ I) as Hd. pose proof (i_next _ _ _ I) as Hn. cbn in Hd, Hn. rewrite app_nil_r in Hd, Hn.
  assert (forall e', e' ∈ l -> sle_addr e' <> n) as Hne.
  { intros e' He'. specialize (Hn (sle_addr e') ltac:(apply list_elem_of_fmap; by exists e')). lia. }
  split; cbn.
  - apply NoDup_app. split_and!; [done| |apply NoDup_singleton]. intros b (e' & -> & He')%list_elem_of_fmap Hb%list_elem_of_singleton.
    by apply (Hne e'); [|congruence].
  - intros b [Hb|Hb%list_elem_of_singleton]%elem_of_app; [specialize (Hn b Hb); lia|lia].
  - intros e' He'. apply (lock_entry_ok_other ck ck None (Some n) n); [|done|by apply Hne|by apply (i_list _ _ _ I)].
    intros b Hb. split; [done|]. intros [= ?]. congruence.
  - intros e' ->%list_elem_of_singleton. by rewrite Ha.
  - apply (i_cookies _ _ _ I).
  - intros c b Hin. destruct (i_table _ _ _ I c b Hin) as (? & _ & e' & He' & E & Hg). split_and!; [done| |by exists e'].
    intros [= <-]. by apply (Hne e').
  - apply (i_compat _ _ _ I).
Qed.

(** It is not kept. *)
Lemma inv_forget l n bl lr ck nc f e bl' lr' f' :
  inv F (Some (sle_addr e)) (MK l [e] n bl lr ck nc f) -> inv F None (MK l [] n bl' lr' ck nc f').
Proof using Type.
  intros I. pose proof (i_nodup _ _ _ I) as Hd. pose proof (i_next _ _ _ I) as Hn. cbn in Hd, Hn. split; cbn.
  - rewrite app_nil_r. by apply NoDup_app in Hd as [? _].
  - intros b. rewrite app_nil_r. intros Hb. apply Hn, elem_of_app. by left.
  - intros e' He'. apply (lock_entry_ok_other ck ck (Some (sle_addr e)) None (sle_addr e)); [|done| |by apply (i_list _ _ _ I)].
    + intros b Hb. split; [intros [= ?]; congruence|done].
    + intros E. apply NoDup_app in Hd as (_ & Hd & _). apply (Hd (sle_addr e)); [apply list_elem_of_fmap; by exists e'|by left].
  - by intros e' ?%elem_of_nil.
  - apply (i_cookies _ _ _ I).
  - intros c b Hin. destruct (i_table _ _ _ I c b Hin) as (? & _ & Hex). split_and!; [done|done|exact Hex].
  - apply (i_compat _ _ _ I).
Qed.

(** An entry of the list becomes one that is held and is merged. *)
Lemma merge_step x l1 e l2 off n bl lr ck nc f o :
  let s := MK (l1 ++ e :: l2) off n bl lr ck nc f in
  inv F x s -> x = None \/ x = Some (sle_addr e) -> sle_owner e = Some o -> sle_blocked e = STATE_NON_BLOCKING ->
  inv F x (merge_lock_entry F s (sle_addr e)) /\ exists lock, with_lock e lock ∈ lock_list F (merge_lock_entry F s (sle_addr e)) /\
  forall e0, sle_blocked e0 <> STATE_NON_BLOCKING -> sle_lock e0 = sle_lock e -> tidy (l1 ++ e0 :: l2) ->
    replaced o (holds (l1 ++ e0 :: l2)) (lock_list F (merge_lock_entry F s (sle_addr e))) (sle_lock e) /\
    tidy (lock_list F (merge_lock_entry F s (sle_addr e))).
Proof using Type.
  intros s I Hx Ho Hb. assert (e ∈ lock_list F s) as He by (cbn; in_list).
  destruct (merge_listed F x s (sle_addr e) o I Hx e He eq_refl Ho Hb) as (I' & s' & lock & l & R & Hl). split; [done|]. exists lock.
  split; [rewrite Hl; by left|]. intros e0 Hb0 El [Tb To].
  destruct (change_apart _ _ _ _ _ _ _ _ _ _ _ _ I) as (A1 & A2 & _).
  assert (forall o' t b, holds_but (sle_addr e) (lock_list F s) o' t b <-> holds (l1 ++ e0 :: l2) o' t b) as Hbut.
  { intros o' t b. unfold holds_but, holds. change (lock_list F s) with (l1 ++ e :: l2). split.
    - intros (e' & Hin & Ha & Hr). exists e'. split; [|done]. rewrite elem_of_app, elem_of_cons in Hin. destruct Hin as [?|[->|?]]; [in_list|done|in_list].
    - intros (e' & Hin & Hr). rewrite elem_of_app, elem_of_cons in Hin. assert (e' ∈ l1 \/ e' ∈ l2) as Hin'. { destruct Hin as [?|[->|?]]; [by left|by destruct Hr as (_ & ? & _)|by right]. }
      exists e'. split; [rewrite elem_of_app, elem_of_cons; clear -Hin'; tauto|]. split; [|done]. intros Ea. destruct Hin'; [apply A1|apply A2]; rewrite <-Ea; apply list_elem_of_fmap; by exists e'. }
  destruct (merged_holds F x s (sle_addr e) o e lock l s' _ R Ho Hb Hl) as [Hrep Hbd].
  - rewrite <-El. apply Tb. in_list.
  - cbn. intros e'. rewrite elem_of_app, elem_of_cons. intros [?|[->|?]]; [apply Tb; in_list|rewrite <-El; apply Tb; in_list|apply Tb; in_list].
  - intros t1 t2 b. rewrite !Hbut. apply To.
  - assert (replaced o (holds (l1 ++ e0 :: l2)) (lock_list F (merge_lock_entry F s (sle_addr e))) (sle_lock e)) as Hrep'.
    { eapply replaced_ext; [|exact Hrep]. done. }
    split; [done|]. by apply (tidy_replaced (l1 ++ e0 :: l2) o (holds (l1 ++ e0 :: l2)) _ (sle_lock e)).
Qed.

End tidy.

(** ** Operations *)

Section ops.
  Context {O : Type} `{EqDecision O}.
  Variables (F : Type) (fso_lock_support : bool).
  Variable (lock_op2 : F -> O -> fsal_lock_op_t -> fsal_lock_param_t -> F * state_status_t * fsal_lock_param_t).
  Variables (state_async_schedule : F -> F * state_status_t) (export_ready : nat -> bool).
  Hypothesis scheduled : forall f, snd (state_async_schedule f) = STATE_SUCCESS.
#[local] Abbreviation entry := (state_lock_entry_t (O := O)).
#[local] Abbreviation hdl := (state_hdl F (O := O)).
#[local] Abbreviation MK := (MkHdl F (O := O)).
#[local] Abbreviation do_lock_op := (do_lock_op F fso_lock_support false lock_op2).
#[local] Abbreviation grant_blocked_locks := (grant_blocked_locks F fso_lock_support false lock_op2 state_async_schedule export_ready).
#[local] Abbreviation cancel_blocked_locks_range := (cancel_blocked_locks_range F fso_lock_support false lock_op2).
#[local] Abbreviation state_unlock := (state_unlock F fso_lock_support false lock_op2 state_async_schedule export_ready).
#[local] Abbreviation state_cancel := (state_cancel F fso_lock_support false lock_op2 state_async_schedule export_ready).

#[local] Abbreviation state_complete_grant := (state_complete_grant F fso_lock_support false lock_op2 state_async_schedule export_ready).
#[local] Abbreviation state_release_grant := (state_release_grant F fso_lock_support false lock_op2 state_async_schedule export_ready).

#[local] Abbreviation nlm4_Granted_Res := (nlm4_Granted_Res F fso_lock_support false lock_op2 state_async_schedule export_ready).
#[local] Abbreviation nlm4_send_grant_msg := (nlm4_send_grant_msg F fso_lock_support false lock_op2 state_async_schedule export_ready).
#[local] Abbreviation grant_blocked_lock_immediate :=
  (grant_blocked_lock_immediate F fso_lock_support false lock_op2 state_async_schedule export_ready).

#[local] Abbreviation state_lock := (state_lock F fso_lock_support false lock_op2 state_async_schedule export_ready).
#[local] Abbreviation lock_acquired := (lock_acquired F fso_lock_support false lock_op2 state_async_schedule export_ready).

Lemma grant_keeps x (s : hdl) : inv F x s -> keeps F x s (grant_blocked_locks s).
Proof using scheduled. by apply grant_blocked_keeps. Qed.

Lemma listed_at (s : hdl) a e : inv F None s -> entry_at F s a = Some e -> sle_addr e = a /\ e ∈ lock_list F s.
Proof using Type. intros I Hat. destruct (entry_at_listed F _ _ _ _ I Hat) as (Ha & [?|[_ ?]]); done. Qed.

Lemma cancel_range_keeps (s : hdl) owner sa n lock : inv F None s -> keeps F None s (cancel_blocked_locks_range s owner sa n lock).
Proof using Type.
  apply keeps_foldl. intros s' a I. destruct (entry_at F s' a) as [e|] eqn:Hat; [|by apply keeps_refl].
  destruct (cancels owner sa n lock e) eqn:Hc; [|by apply keeps_refl]. destruct (listed_at s' a e I Hat) as [<- He].
  apply cancel_blocked_keeps; [done|done|]. intros Hb. unfold cancels in Hc.
  rewrite Hb, (bool_decide_true (STATE_NON_BLOCKING = _)), andb_false_r in Hc by done. done.
Qed.

(** *** Unlock *)

Lemma subtracts_owner o sa n (e : entry) :
  subtracts (Some o) sa n e = true -> sle_owner e = Some o /\ sle_blocked e = STATE_NON_BLOCKING.
Proof using Type.
  intros H. split; [|by apply (subtracts_blocked (Some o) sa n)]. unfold subtracts, different_owners in H. destruct (sle_owner e) as [o'|]; [|done].
  destruct (bool_decide_reflect (o' = o)) as [E|]; [by rewrite E|done].
Qed.

(** The bytes that are held when a range is taken off a list. *)
Lemma subtracted_holds (s2 : hdl) o sa n lock l1 :
  inv F None s2 -> others (subtracts (Some o) sa n) (lock_list F s2) = others (subtracts (Some o) sa n) l1 ->
  (forall t b, held (subtracts (Some o) sa n) (lock_list F s2) t b <-> held (subtracts (Some o) sa n) l1 t b /\ ~ contains lock b) ->
  (forall o' t b, holds (lock_list F s2) o' t b -> holds l1 o' t b) /\ (tidy l1 -> tidy (lock_list F s2)) /\
  (sa = false -> forall o' t b, holds (lock_list F s2) o' t b <-> holds l1 o' t b /\ ~ (o' = o /\ contains lock b)).
Proof using Type.
  set (Q := subtracts (Some o) sa n). intros I Ho Hby.
  assert (forall l o' t b, holds l o' t b -> held Q l t b /\ o' = o \/ exists e, e ∈ others Q l /\ sle_owner e = Some o' /\ sle_blocked e = STATE_NON_BLOCKING
            /\ lock_type (sle_lock e) = t /\ contains (sle_lock e) b) as Hcase.
  { intros l o' t b (e & He & Hr). destruct (Q e) eqn:HQ; [left|right; exists e; by rewrite others_in].
    destruct (subtracts_owner o sa n e HQ), Hr as (? & ? & ? & ?). split; [by exists e|congruence]. }
  assert (forall l t b, held Q l t b -> holds l o t b) as Hheld.
  { intros l t b (e & He & HQ & Ht & Hc). destruct (subtracts_owner o sa n e HQ). by exists e. }
  assert (forall l o' t b, (exists e, e ∈ others Q l /\ sle_owner e = Some o' /\ sle_blocked e = STATE_NON_BLOCKING
            /\ lock_type (sle_lock e) = t /\ contains (sle_lock e) b) -> holds l o' t b) as Hoth.
  { intros l o' t b (e & [He _]%others_in & Hr). by exists e. }
  assert (forall o' t b, holds (lock_list F s2) o' t b -> holds l1 o' t b) as Hsub.
  { intros o' t b [[[H _]%Hby ->]|H]%Hcase; [by apply Hheld|]. rewrite Ho in H. by apply Hoth. }
  split_and!; [done|intros [Hb Hone]; split|].
  - intros e He. destruct (Q e) eqn:HQ.
    + destruct (i_list _ _ _ I e He) as (_ & Hv & _). split; [done|]. pose proof (lock_end_valid _ Hv) as [_ R].
      destruct (proj1 (Hby (lock_type (sle_lock e)) (lock_end (sle_lock e)))) as [(e2 & He2 & _ & _ & Hc2) _].
      { exists e. split_and!; [done|done|done|]. unfold contains. lia. }
      destruct (Hb e2 He2) as [_ Hlt]. unfold contains in Hc2. lia.
    + apply Hb. assert (e ∈ others Q l1) as [? _]%others_in; [|done]. rewrite <-Ho. by apply others_in.
  - intros o' t1 t2 b H1 H2. apply (Hone o' _ _ b); by apply Hsub.
  - intros -> o' t b. split.
    + intros H. split; [by apply Hsub|]. apply Hcase in H as [[[_ Hn]%Hby ->]|(e & [He HQ]%others_in & Hoe & Hbe & _)]; [by intros [_ ?]|].
      intros [-> _]. unfold Q, subtracts, different_owners in HQ. by rewrite Hoe, !bool_decide_true in HQ.
    + intros [H Hn]. apply Hcase in H as [[H ->]|H]; [|apply Hoth; by rewrite Ho]. apply Hheld, Hby. split; [done|]. intros ?. by apply Hn.
Qed.

Lemma unlock_effect (s : hdl) o sa n lock :
  inv F None s -> valid lock ->
  exists s' st, state_unlock s o sa n lock = Ret (s', st) /\ inv F None s' /\ (tidy (lock_list F s) -> tidy (lock_list F s')) /\
    (sa = false -> forall o' t b, holds (lock_list F s') o' t b <-> holds (lock_list F s) o' t b /\ ~ (o' = o /\ contains lock b)).
Proof using scheduled.
  intros I Hv. unfold NfsLock.state_unlock. destruct (lock_list F s) as [|e0 l0] eqn:El.
  { exists s, STATE_SUCCESS. rewrite El. split_and!; [done|done|done|]. intros _ o' t b. split; [|by intros [? _]].
    by intros (e & ?%elem_of_nil & _). }
  rewrite <-El. clear El e0 l0. destruct (cancel_range_keeps s (Some o) sa n lock I) as (s1 & -> & I1 & S1 & _). rewrite res_bind_ret.
  pose proof (subtract_from_list_spec F (Some o) sa n lock Hv s1 I1) as Hsub.
  destruct (subtract_lock_from_list F s1 (Some o) sa n lock) as [s2 r]. destruct Hsub as (I2 & Hot & Hby).
  destruct (subtracted_holds s2 o sa n lock (lock_list F s1) I2 Hot Hby) as (_ & Ht & He).
  set (s3 := match lock_list F s2 with [] => _ | _ => _ end).
  assert (inv F None s3 /\ lock_list F s3 = lock_list F s2) as [I3 E3].
  { unfold s3. destruct (lock_list F s2) eqn:E; [|done]. split; [|done]. destruct I2. by split. }
  destruct (do_lock_op_ret F fso_lock_support lock_op2 s3 FSAL_OP_UNLOCK o lock) as (f & st & c & -> & _). rewrite res_bind_ret.
  assert (inv F None (set_fsal F s3 f)) as I4 by (destruct I3; by split).
  destruct (grant_keeps None _ I4) as (s5 & -> & I5 & S5 & _). rewrite res_bind_ret. exists s5, st. cbn in S5. rewrite E3 in S5.
  split_and!; [done|done| |].
  - intros T. apply (tidy_same (lock_list F s2)); [done|]. apply Ht. by apply (tidy_same (lock_list F s)).
  - intros Hsa o' t b. rewrite (same_locks_holds (lock_list F s2)), (He Hsa), (same_locks_holds (lock_list F s)) by done. done.
Qed.

(** *** Cancel *)

Lemma cancel_keeps (s : hdl) o lock : inv F None s -> keeps F None s (state_cancel s o lock).
Proof using scheduled.
  intros I. unfold NfsLock.state_cancel. destruct (List.find _ _) as [e|] eqn:Hf; [|by apply keeps_refl].
  apply find_some in Hf as [He%list_elem_of_In Hc].
  destruct (cancel_blocked_keeps F fso_lock_support lock_op2 s e I He) as (s1 & -> & I1 & S1 & _).
  { intros Hb. rewrite Hb, (bool_decide_true (STATE_NON_BLOCKING = _)), andb_false_r in Hc by done. done. }
  rewrite res_bind_ret. destruct (grant_keeps None s1 I1) as (s2 & -> & I2 & S2 & _). exists s2. split_and!; [done|done|by eapply same_locks_trans|done].
Qed.

(** *** Grants *)

Lemma off_listed (s : hdl) e : inv F (Some (sle_addr e)) s -> e ∈ lock_list F s -> off_list F s = [].
Proof using Type.
  intros I He. destruct (inv_split _ _ _ _ I He) as (l1 & l2 & E & A1 & A2 & A3). destruct (off_list F s) as [|e' off] eqn:Eo; [done|].
  destruct (i_off _ _ _ I e') as [[= Ea] _]; [rewrite Eo; left|]. destruct A3. apply list_elem_of_fmap. exists e'. split; [done|left].
Qed.

(** The reference of a cookie that was taken out of the table is given back. *)
Lemma free_cookie_inv (s : hdl) e :
  inv F (Some (sle_addr e)) s -> e ∈ lock_list F s -> sle_blocked e <> STATE_GRANTING ->
  inv F None (free_cookie F s (sle_addr e)) /\ same_locks (lock_list F (free_cookie F s (sle_addr e))) (lock_list F s).
Proof using Type.
  intros I He Hg. destruct (i_list _ _ _ I e He) as (Ho & Hv & Hok). rewrite bool_decide_true in Hok by done. destruct Hok as [Hr _].
  destruct (inv_split _ _ _ _ I He) as (l1 & l2 & E & A1 & A2 & A3). destruct s as [l off n bl lr ck nc f]. cbn in E, A3. subst l.
  pose proof (off_listed _ _ I He) as Hoff. cbn in Hoff. subst off.
  unfold free_cookie, set_cookie. rewrite update_at_mk, dec_ref_mk by (done || (cbn; lia)). cbn. split; [|by apply same_locks_as].
  eapply inv_replace; [exact I| |done|done|apply (i_cookies _ _ _ I)|done|..].
  - intros b Hb. split; [intros [= ?]; congruence|done].
  - intros c Hin. destruct (i_table _ _ _ I c (sle_addr e) Hin) as (_ & ? & _). done.
  - split; [done|]. split; [done|]. rewrite bool_decide_false, bool_decide_false by done. cbn. rewrite Hr. split; [done|].
    unfold cookie_of. cbn. by destruct (sle_block_data e).
  - eapply compatible_replace; [|apply (i_compat _ _ _ I)]. done.
Qed.

Lemma complete_effect (s : hdl) e o :
  inv F (Some (sle_addr e)) s -> e ∈ lock_list F s -> sle_blocked e = STATE_GRANTING -> sle_owner e = Some o ->
  exists s', state_complete_grant s (sle_addr e) = Ret s' /\ inv F None s' /\
    (tidy (lock_list F s) -> tidy (lock_list F s') /\ replaced o (holds (lock_list F s)) (lock_list F s') (sle_lock e)).
Proof using scheduled.
  intros I He Hg Ho. destruct (i_list _ _ _ I e He) as (_ & Hv & Hok). rewrite bool_decide_true in Hok by done. destruct Hok as [Hr _].
  destruct (inv_split _ _ _ _ I He) as (l1 & l2 & E & A1 & A2 & A3). destruct s as [l off n bl lr ck nc f]. cbn in E, A3. subst l.
  unfold NfsLock.state_complete_grant. rewrite entry_at_mk by done. cbn [deref]. rewrite res_bind_ret, bool_decide_true by done.
  unfold mark. rewrite update_at_mk by done. set (e1 := with_blocked e STATE_NON_BLOCKING).
  assert (inv F (Some (sle_addr e)) (MK (l1 ++ e1 :: l2) off n bl lr ck nc f)) as I1.
  { eapply inv_replace; [exact I|done|done|done|apply (i_cookies _ _ _ I)|done|..].
    - intros c Hin. destruct (i_table _ _ _ I c (sle_addr e) Hin) as (_ & ? & _). done.
    - split; [by exists o|]. split; [done|]. by rewrite bool_decide_true by done.
    - eapply compatible_replace; [|apply (i_compat _ _ _ I)]. intros o' t b (_ & Hr'). split; [unfold active; by rewrite Hg|done]. }
  destruct (merge_step F (Some (sle_addr e)) l1 e1 l2 off n bl lr ck nc f o I1 (or_intror eq_refl) Ho eq_refl) as (I2 & lock & Hin & Hrep).
  change (sle_addr e1) with (sle_addr e) in *. destruct (grant_keeps _ _ I2) as (s3 & -> & I3 & S3 & Hst). rewrite res_bind_ret.
  specialize (Hst (with_lock e1 lock) eq_refl Hin). destruct (free_cookie_inv s3 (with_lock e1 lock) I3 Hst ltac:(done)) as [I4 S4].
  eexists. split; [done|]. split; [exact I4|]. intros T. destruct (Hrep e) as [R T2]; [by rewrite Hg|done|done|].
  pose proof (same_locks_trans _ _ _ S4 S3) as S. split; [by eapply tidy_same|by eapply replaced_same].
Qed.

Lemma release_effect (s : hdl) e :
  inv F (Some (sle_addr e)) s -> e ∈ lock_list F s -> sle_blocked e = STATE_GRANTING ->
  exists s' st, state_release_grant s (sle_addr e) = Ret (s', st) /\ inv F None s' /\ same_locks (lock_list F s') (lock_list F s).
Proof using scheduled.
  intros I He Hg. destruct (i_list _ _ _ I e He) as ((o & Ho) & Hv & Hok). rewrite bool_decide_true in Hok by done. destruct Hok as [Hr _].
  destruct (inv_split _ _ _ _ I He) as (l1 & l2 & E & A1 & A2 & A3). destruct s as [l off n bl lr ck nc f]. cbn in E, A3. subst l.
  unfold NfsLock.state_release_grant. rewrite entry_at_mk by done. cbn [deref]. rewrite res_bind_ret, bool_decide_true by done.
  unfold mark. rewrite update_at_mk, Ho by done. set (e1 := with_blocked e STATE_CANCELED).
  destruct (do_lock_op_ret F fso_lock_support lock_op2 (MK (l1 ++ e1 :: l2) off n bl lr ck nc f) FSAL_OP_UNLOCK o (sle_lock e)) as (f' & st & c & -> & _).
  rewrite !res_bind_ret. unfold set_fsal. cbn [lock_list off_list next_addr state_blocked_locks list_refs ht_lock_cookies next_cookie fsal].
  assert (forall c', (c', sle_addr e) ∉ ck) as Hck by (intros c' Hin; by destruct (i_table _ _ _ I c' (sle_addr e) Hin) as (_ & ? & _)).
  pose proof (off_listed _ _ I He) as Hoff. cbn in Hoff. subst off.
  assert (forall s4, inv F None s4 -> same_locks (lock_list F s4) (l1 ++ e :: l2) ->
    exists s' st', (s0 ← grant_blocked_locks s4; Ret (match lock_list F s0 with [] => add_refs F s0 (-1) | _ :: _ => s0 end, st)) = Ret (s', st') /\
      inv F None s' /\ same_locks (lock_list F s') (l1 ++ e :: l2)) as Hend.
  { intros s4 I4 S4. destruct (grant_keeps _ _ I4) as (s5 & -> & I5 & S5 & _). rewrite res_bind_ret. eexists _, st. split; [done|].
    pose proof (same_locks_trans _ _ _ S5 S4) as S. destruct (lock_list F s5) eqn:E5; [|by rewrite E5]. cbn. rewrite E5. split; [destruct I5; by split|done]. }
  apply Hend; destruct (bool_decide (st = STATE_SUCCESS)).
  - rewrite remove_mk by done. cbn. rewrite Hr. cbn.
    destruct (free_cookie_off F (l1 ++ l2) (with_refs (with_owner e1 None) (2 - 1)) n bl lr ck nc f') as [bl' Ef]; [by apply apart_app|done|].
    change (sle_addr (with_refs (with_owner e1 None) (2 - 1))) with (sle_addr e) in Ef. rewrite Ef.
    eapply inv_drop; [exact I| |done|done|apply (i_cookies _ _ _ I)|done|done]. intros b Hb. split; [intros [= ?]; congruence|done].
  - assert (inv F (Some (sle_addr e1)) (MK (l1 ++ e1 :: l2) [] n bl lr ck nc f')) as I1; [|apply (free_cookie_inv _ e1 I1); [cbn; in_list|done]].
    eapply inv_replace; [exact I|done|done|done|apply (i_cookies _ _ _ I)|done|..].
    + intros c' Hin. by destruct (Hck c').
    + split; [by exists o|]. split; [done|]. by rewrite bool_decide_true by done.
    + eapply compatible_replace; [|apply (i_compat _ _ _ I)]. by intros o' t b (Ha & _).
  - rewrite remove_mk by done. cbn. rewrite Hr. cbn.
    destruct (free_cookie_off F (l1 ++ l2) (with_refs (with_owner e1 None) (2 - 1)) n bl lr ck nc f') as [bl' Ef]; [by apply apart_app|done|].
    change (sle_addr (with_refs (with_owner e1 None) (2 - 1))) with (sle_addr e) in Ef. rewrite Ef. apply same_locks_drop. by rewrite Hg.
  - unfold free_cookie, set_cookie. rewrite update_at_mk, dec_ref_mk by (done || (cbn; lia)). cbn. apply same_locks_mid; [by rewrite Hg|done|done].
Qed.

(** The operation returns, in a state with the invariant. *)
Definition goes_on (s : hdl) (m : res hdl) : Prop := exists s', m = Ret s' /\ inv F None s' /\ (tidy (lock_list F s) -> tidy (lock_list F s')).

Lemma keeps_goes_on (s : hdl) m : keeps F None s m -> goes_on s m.
Proof using Type. intros (s' & -> & I & S & _). exists s'. split_and!; [done|done|by apply tidy_same]. Qed.

(** A cookie from outside is not in the table, or is that of an entry that is being granted. *)
Lemma find_grant_cases (s : hdl) c :
  inv F None s ->
  state_find_grant F s c = (s, None) \/
  exists s1 e d, state_find_grant F s c = (s1, Some (sle_addr e)) /\ inv F (Some (sle_addr e)) s1 /\ entry_at F s1 (sle_addr e) = Some e /\
    e ∈ lock_list F s /\ lock_list F s1 = lock_list F s /\ sle_blocked e = STATE_GRANTING /\ sle_block_data e = Some d.
Proof using Type.
  intros I. destruct (List.find (fun p => Nat.eqb (fst p) c) (ht_lock_cookies F s)) as [[c' a]|] eqn:Hf; [|left; unfold state_find_grant; by rewrite Hf].
  right. apply find_some in Hf as [Hin%list_elem_of_In Ec]. cbn in Ec. apply Nat.eqb_eq in Ec as ->.
  destruct (i_table _ _ _ I c a Hin) as (_ & _ & e & He & <- & Hg & Hc). destruct (find_grant_inv F s e I He Hg) as (c2 & Hc2 & Hfg & I1).
  assert (c2 = c) as -> by congruence. unfold cookie_of in Hc. destruct (sle_block_data e) as [d|] eqn:Hd; [|done].
  eexists _, e, d. split_and!; [done|done| |done|done|done|done].
  destruct (inv_split _ _ _ _ I He) as (l1 & l2 & E & A1 & A2 & A3). unfold entry_at. cbn. rewrite E. by apply find_mid.
Qed.

Lemma granted_res_goes_on (s : hdl) c granted : inv F None s -> goes_on s (nlm4_Granted_Res s c granted).
Proof using scheduled.
  intros I. unfold NfsLock.nlm4_Granted_Res.
  destruct (find_grant_cases s c I) as [->|(s1 & e & d & -> & I1 & Hat & He & El & Hg & Hd)]; [by apply keeps_goes_on, keeps_refl|].
  rewrite Hat. cbn [deref]. rewrite res_bind_ret, Hd. rewrite <-El in He. destruct (i_list _ _ _ I1 e He) as ((o & Ho) & _). destruct (_ || _).
  - destruct (release_effect s1 e I1 He Hg) as (s' & st & -> & I' & S). exists s'. rewrite El in S. split_and!; [done|done|by apply tidy_same].
  - destruct (complete_effect s1 e o I1 He Hg Ho) as (s' & -> & I' & T). exists s'. rewrite El in T. split_and!; [done|done|]. intros ?. by apply T.
Qed.

Lemma send_grant_goes_on (s : hdl) c sent : inv F None s -> goes_on s (nlm4_send_grant_msg s c sent).
Proof using scheduled.
  intros I. unfold NfsLock.nlm4_send_grant_msg. destruct sent; [by apply keeps_goes_on, keeps_refl|].
  destruct (find_grant_cases s c I) as [->|(s1 & e & d & -> & I1 & Hat & He & El & Hg & Hd)]; [by apply keeps_goes_on, keeps_refl|].
  rewrite Hat. cbn [deref]. rewrite res_bind_ret, Hd. rewrite <-El in He.
  destruct (release_effect s1 e I1 He Hg) as (s' & st & -> & I' & S). exists s'. rewrite El in S. split_and!; [done|done|by apply tidy_same].
Qed.

(** *** Locks *)

Lemma immediate_effect (s : hdl) e o :
  inv F None s -> e ∈ lock_list F s -> sle_blocked e = STATE_GRANTING -> sle_owner e = Some o ->
  exists s', grant_blocked_lock_immediate s (sle_addr e) = Ret s' /\ inv F None s' /\
    (tidy (lock_list F s) -> tidy (lock_list F s') /\ replaced o (holds (lock_list F s)) (lock_list F s') (sle_lock e)).
Proof using scheduled.
  intros I He Hg Ho. destruct (granting_ok _ None e Hg ltac:(done) (i_list _ _ _ I e He)) as (Hr & _).
  destruct (find_grant_inv F s e I He Hg) as (c & Hc & Hf & I1). destruct (i_list _ _ _ I e He) as (_ & Hv & _).
  destruct (inv_split _ _ _ _ I He) as (l1 & l2 & E & A1 & A2 & A3). destruct s as [l off n bl lr ck nc f]. cbn in E, A3. subst l.
  unfold NfsLock.grant_blocked_lock_immediate. rewrite entry_at_mk by done. cbn [deref]. rewrite res_bind_ret.
  unfold cookie_of in Hc. destruct (sle_block_data e) as [d|] eqn:Hd; [|done]. cbn in Hc. rewrite Hc, Hf.
  unfold set_cookies. cbn [lock_list off_list next_addr state_blocked_locks list_refs ht_lock_cookies next_cookie fsal].
  unfold free_cookie, set_cookie, mark. rewrite update_at_mk, dec_ref_mk, update_at_mk by (done || (cbn; lia)). set (e1 := with_blocked _ STATE_NON_BLOCKING).
  assert (inv F None (MK (l1 ++ e1 :: l2) off n bl lr (without c ck) nc f)) as I2.
  { eapply inv_replace; [exact I1| |done|done|apply (i_cookies _ _ _ I1)|done|..].
    - intros b Hb. split; [intros [= ?]; congruence|done].
    - intros c' Hin. by destruct (i_table _ _ _ I1 c' (sle_addr e) Hin) as (_ & ? & _).
    - split; [by exists o|]. split; [done|]. rewrite bool_decide_false, bool_decide_false by done. cbn. rewrite Hr. split; [done|].
      unfold cookie_of, e1. cbn. by rewrite Hd.
    - eapply compatible_replace; [|apply (i_compat _ _ _ I)]. intros o' t b (_ & Hrest). split; [unfold active; by rewrite Hg|exact Hrest]. }
  destruct (merge_step F None l1 e1 l2 off n bl lr (without c ck) nc f o I2 (or_introl eq_refl) Ho eq_refl) as (I3 & lock & _ & Hrep).
  change (sle_addr e1) with (sle_addr e) in *. destruct (grant_keeps _ _ I3) as (s4 & -> & I4 & S4 & _). exists s4. split_and!; [done|done|].
  intros T. destruct (Hrep e) as [R T2]; [by rewrite Hg|done|done|]. split; [by eapply tidy_same|by eapply replaced_same].
Qed.

(** What the loop over the list tells. *)
Lemma scan_allows (l : list entry) ex o lock ov ov' c :
  lock_reclaim lock = false -> scan_locks l ex o lock ov = ScanDone true ov' c -> forall e, e ∈ l -> conflicts e (Some o) lock = false.
Proof using Type.
  intros Hr. revert ov. induction l as [|e l IH]; intros ov; cbn; [by intros _ e ?%elem_of_nil|]. rewrite Hr. cbn.
  destruct (negb _ && negb _); [done|]. destruct (conflicts e (Some o) lock) eqn:Hc; [done|].
  intros H e' [->|He']%elem_of_cons; [done|]. destruct (covers _ _ && _); [destruct (negb _); [done|]|]; by eapply IH.
Qed.

Lemma scan_existing (l : list entry) ex o lock ov e :
  scan_locks l ex o lock ov = ScanExisting e ->
  e ∈ l /\ covers (sle_lock e) lock = true /\ has_lock (sle_blocked e) = true /\ sle_owner e = Some o.
Proof using Type.
  revert ov. induction l as [|e' l IH]; intros ov; cbn; [done|].
  destruct (negb _ && negb _); [done|]. destruct (negb _ && conflicts _ _ _); [done|].
  destruct (covers (sle_lock e') lock && has_lock (sle_blocked e')) eqn:Hc.
  - destruct (different_owners (sle_owner e') (Some o)) eqn:Ho; cbn.
    + intros H. destruct (IH _ H) as (? & ?). split; [by right|done].
    + intros [= <-]. apply andb_true_iff in Hc as [? ?]. split_and!; [left|done|done|]. unfold different_owners in Ho.
      destruct (sle_owner e') as [o'|]; [|done]. destruct (bool_decide_reflect (o' = o)) as [E|]; [by rewrite E|done].
  - intros H. destruct (IH _ H) as (? & ?). split; [by right|done].
Qed.

Lemma holds_end (l : list entry) e o t b : sle_blocked e <> STATE_NON_BLOCKING -> holds (l ++ [e]) o t b <-> holds l o t b.
Proof using Type.
  intros Hb. unfold holds. split.
  - intros (e' & [He'| ->%list_elem_of_singleton]%elem_of_app & Hr); [by exists e'|]. by destruct Hr as (_ & ? & _).
  - intros (e' & He' & Hr). exists e'. split; [apply elem_of_app; by left|done].
Qed.

(** The new entry is granted: its range is merged into the list. *)
Lemma lock_acquired_effect l e n bl lr ck nc f o :
  inv F (Some (sle_addr e)) (MK l [e] n bl lr ck nc f) -> sle_owner e = Some o -> sle_blocked e = STATE_NON_BLOCKING ->
  sle_ref_count e = 1 -> sle_block_data e = None -> valid (sle_lock e) -> (forall e', e' ∈ l -> conflicts e' (Some o) (sle_lock e) = false) ->
  exists s', lock_acquired (MK l [e] n bl lr ck nc f) (sle_addr e) = Ret s' /\ inv F None s' /\
    (bounded (sle_lock e) -> tidy l -> tidy (lock_list F s') /\ replaced o (holds l) (lock_list F s') (sle_lock e)).
Proof using scheduled.
  intros I Ho Hb Hr Hd Hv Hno. unfold NfsLock.lock_acquired.
  set (s0 := match lock_list F (MK l [e] n bl lr ck nc f) with [] => _ | _ => _ end).
  assert (exists lr', s0 = MK l [e] n bl lr' ck nc f) as [lr' E0]. { unfold s0. cbn. destruct l; unfold add_refs; cbn; by eexists. }
  rewrite E0. assert (inv F (Some (sle_addr e)) (MK l [e] n bl lr' ck nc f)) as I0 by (destruct I; by split).
  destruct (merge_new F (Some (sle_addr e)) (MK l [e] n bl lr' ck nc f) (sle_addr e) o I0 (or_intror eq_refl) e) as (s1 & lock & k & R & I1 & Hl); try done.
  { intros o' t b (e' & He' & Ha & Ho' & <- & Hc) Hb' Hne. apply (no_conflict e' o o' (sle_lock e) b); try done; [by apply Hno|by apply (i_list _ _ _ I0)]. }
  destruct (grant_keeps _ _ I1) as (s2 & -> & I2 & S2 & _). exists s2. split_and!; [done|done|]. intros Hbd T. pose proof T as [Tb To].
  assert (forall o' t b, holds_but (sle_addr e) l o' t b <-> holds l o' t b) as Hbut.
  { intros o' t b. unfold holds_but, holds. split; intros (e' & He' & Hrest).
    - exists e'. split; [done|]. by destruct Hrest.
    - exists e'. split; [done|]. split; [|done]. intros E. pose proof (i_nodup _ _ _ I) as (_ & Hdis & _)%NoDup_app.
      apply (Hdis (sle_addr e)); [apply list_elem_of_fmap; by exists e'|cbn; by left]. }
  destruct (merged_holds F _ _ _ o e lock k s1 _ R Ho Hb Hl Hbd Tb) as [Hrep Hbd'].
  { intros t1 t2 b. cbn [lock_list]. rewrite !Hbut. apply To. }
  assert (replaced o (holds l) (lock_list F s2) (sle_lock e)) as Hrep'.
  { eapply replaced_same; [exact S2|]. eapply replaced_ext; [|exact Hrep]. exact Hbut. }
  split; [|done]. eapply tidy_same; [exact S2|]. eapply (tidy_replaced l o); [done|exact Hrep| |done]. intros o' t b. apply Hbut.
Qed.

(** The bytes after a request for a lock, by its status. *)
Definition lock_outcome (s s' : hdl) (o : O) (lock : fsal_lock_param_t) (status : state_status_t) : Prop :=
  tidy (lock_list F s') /\
  if bool_decide (status = STATE_SUCCESS)
  then (forall e, e ∈ lock_list F s -> sle_owner e = Some o -> sle_blocked e <> STATE_GRANTING) ->
       replaced o (holds (lock_list F s)) (lock_list F s') lock
  else forall o' t b, holds (lock_list F s') o' t b <-> holds (lock_list F s) o' t b.

Lemma outcome_same (s : hdl) o lock status : status <> STATE_SUCCESS -> tidy (lock_list F s) -> lock_outcome s s o lock status.
Proof using Type. intros Hs T. split; [done|]. by rewrite bool_decide_false. Qed.

(** The owner has a lock that is large enough. *)
Lemma covered_replaced (l : list entry) e o lock :
  tidy l -> e ∈ l -> covers (sle_lock e) lock = true -> sle_blocked e = STATE_NON_BLOCKING -> sle_owner e = Some o -> replaced o (holds l) l lock.
Proof using Type.
  intros [_ To] He Hc Hb Ho o' t b. destruct (decide (o' = o)) as [->|]; [|done].
  unfold covers in Hc. rewrite !andb_true_iff, !Z.leb_le, bool_decide_eq_true in Hc. destruct Hc as [[H1 H2] Ht].
  assert (contains lock b -> holds l o (lock_type lock) b) as Hin. { intros Hc. exists e. split_and!; try done. unfold contains in *. lia. }
  split; [|intros [[-> ?]|[_ ?]]; auto]. intros Hh. destruct (decide (lock_start lock <= b <= lock_end lock)) as [Hc|Hc]; [left|by right].
  split; [|done]. apply (To o _ _ b); [done|by apply Hin].
Qed.

(** An entry that waits goes to the end of the list. *)
Lemma lock_blocks_inv l e n bl lr ck nc f o type :
  inv F (Some (sle_addr e)) (MK l [e] n bl lr ck nc f) -> sle_owner e = Some o -> sle_ref_count e = 1 -> valid (sle_lock e) ->
  exists e', inv F None (lock_blocks F (MK l [e] n bl lr ck nc f) (sle_addr e) STATE_NLM_BLOCKING type) /\
    lock_list F (lock_blocks F (MK l [e] n bl lr ck nc f) (sle_addr e) STATE_NLM_BLOCKING type) = l ++ [e'] /\
    sle_lock e' = sle_lock e /\ sle_blocked e' = STATE_NLM_BLOCKING.
Proof using Type.
  intros I Ho Hr Hv.
  assert (apart (sle_addr e) l) as Hap. { intros Hin. pose proof (i_nodup _ _ _ I) as (_ & Hdis & _)%NoDup_app. apply (Hdis _ Hin). cbn. by left. }
  unfold lock_blocks. rewrite update_at_off by done. set (e' := with_blocked _ _). exists e'. change (sle_addr e) with (sle_addr e'). rewrite add_tail_off.
  unfold set_blocked. cbn. split; [|done]. eapply (inv_append F (sle_addr e) o); [exact I|done|done|done|done|done|done|done|].
  apply compatible_perm. rewrite app_nil_r. eapply compatible_sub; [|apply (i_compat _ _ _ I)]. intros o' t b. rewrite covered_cons.
  by intros [(Ha & _)|?].
Qed.

(** What the status of the FSAL leads to, for the entry that was made. *)
Lemma lock_status_effect (s : hdl) e n bl lr ck nc f o blocking type status (c : conflict_t (O := O)) :
  let s1 := MK (lock_list F s) [e] n bl lr ck nc f in
  inv F (Some (sle_addr e)) s1 -> sle_owner e = Some o -> sle_blocked e = STATE_NON_BLOCKING ->
  sle_ref_count e = 1 -> sle_block_data e = None -> valid (sle_lock e) ->
  (status = STATE_SUCCESS -> forall e', e' ∈ lock_list F s -> conflicts e' (Some o) (sle_lock e) = false) ->
  (status = STATE_LOCK_BLOCKED -> blocking = STATE_NLM_BLOCKING) ->
  exists s', match status with
    | STATE_SUCCESS => s ← lock_acquired s1 (sle_addr e); Ret (s, status, c)
    | STATE_LOCK_BLOCKED => Ret (lock_blocks F s1 (sle_addr e) blocking type, status, c)
    | _ => Ret (remove_from_locklist F s1 (sle_addr e), status, c)
    end = Ret (s', status, c) /\ inv F None s' /\
    (bounded (sle_lock e) -> tidy (lock_list F s) -> lock_outcome s s' o (sle_lock e) status).
Proof using scheduled.
  intros s1 I Ho Hb Hr Hd Hv Hok Hbl.
  assert (apart (sle_addr e) (lock_list F s)) as Hap.
  { intros Hin. pose proof (i_nodup _ _ _ I) as (_ & Hdis & _)%NoDup_app. apply (Hdis _ Hin). cbn. by left. }
  assert (status <> STATE_SUCCESS -> exists s', Ret (remove_from_locklist F s1 (sle_addr e), status, c) = Ret (s', status, c) /\ inv F None s' /\
    (bounded (sle_lock e) -> tidy (lock_list F s) -> lock_outcome s s' o (sle_lock e) status)) as Hrem.
  { intros Hs. eexists. split; [done|]. unfold s1. rewrite remove_off by done. split; [by eapply inv_forget|]. intros _ T.
    split; [done|]. by rewrite bool_decide_false by done. }
  destruct status; try (by apply Hrem).
  - unfold s1. destruct (lock_acquired_effect _ e n bl lr ck nc f o I Ho Hb Hr Hd Hv (Hok eq_refl)) as (s' & -> & I' & H). exists s'. split_and!; [done|done|].
    intros Hbd T. destruct (H Hbd T) as [T' R]. split; [done|]. cbn. intros _. done.
  - unfold s1. rewrite (Hbl eq_refl). destruct (lock_blocks_inv _ e n bl lr ck nc f o type I Ho Hr Hv) as (e' & I' & El & Ee & Hb'). eexists. split; [done|].
    split; [done|]. intros Hbd [Tb To].
    assert (forall o' t b, holds (lock_list F s ++ [e']) o' t b <-> holds (lock_list F s) o' t b) as Hh by (intros; apply holds_end; by rewrite Hb').
    split; [|rewrite bool_decide_false by done; by rewrite El]. rewrite El. split; [|intros o' t1 t2 b; rewrite !Hh; apply To].
    intros e2 [?| ->%list_elem_of_singleton]%elem_of_app; [by apply Tb|by rewrite Ee].
Qed.

Lemma lock_effect (s : hdl) ex o st blocking lock :
  inv F None s -> valid lock -> lock_reclaim lock = false ->
  exists s' status c, state_lock s ex o st blocking lock = Ret (s', status, c) /\ inv F None s' /\
    (bounded lock -> tidy (lock_list F s) -> lock_outcome s s' o lock status).
Proof using scheduled.
  intros I Hv Hrc. unfold NfsLock.state_lock. destruct (if bool_decide (blocking = _) then _ else _) as [status|] eqn:Hfb.
  { exists s, status, None. split_and!; [done|done|]. intros _ T. apply outcome_same; [|done]. intros ->.
    destruct (bool_decide _); [done|]. clear -Hfb. induction (lock_list F s) as [|e l IH]; [done|]. cbn in Hfb.
    destruct (different_owners _ _); [auto|]. destruct (negb (Nat.eqb _ _)); [done|]. destruct (_ || _); [auto|done]. }
  clear Hfb. destruct (scan_locks (lock_list F s) ex o lock false) as [|e|allow ov found] eqn:Hsc.
  - exists s, STATE_INVALID_ARGUMENT, None. split_and!; [done|done|]. intros _ T. by apply outcome_same.
  - destruct (scan_existing _ _ _ _ _ _ Hsc) as (He & Hc & Hl & Ho). destruct (bool_decide_reflect (sle_blocked e = STATE_GRANTING)) as [Hg|Hg].
    + destruct (immediate_effect s e o I He Hg Ho) as (s' & -> & I' & Ht). rewrite res_bind_ret. exists s', STATE_SUCCESS, None. split_and!; [done|done|].
      intros _ T. split; [by apply Ht|]. cbn. intros Hn. by destruct (Hn e He Ho).
    + rewrite res_bind_ret. exists s, STATE_SUCCESS, None. split_and!; [done|done|]. intros _ T. split; [done|]. cbn. intros _.
      apply (covered_replaced _ e); try done. by destruct (sle_blocked e).
  - destruct (negb _ && negb allow) eqn:Hcf.
    { eexists s, _, _. split_and!; [done|done|]. intros _ T. by apply outcome_same. }
    rewrite orb_false_r. pose proof (off_empty F s I) as Hoff.
    assert (allow = false -> blocking = STATE_NLM_BLOCKING) as Hnlm.
    { intros ->. by destruct (bool_decide_reflect (blocking = STATE_NLM_BLOCKING)). }
    set (e := MkEntry (next_addr F s) ex (Some o) st STATE_NON_BLOCKING None 1 lock).
    assert (forall f', exists n bl lr ck nc, set_fsal F (keep_off F (set_next F s (S (next_addr F s))) e) f' = MK (lock_list F s) [e] n bl lr ck nc f' /\
      inv F (Some (sle_addr e)) (MK (lock_list F s) [e] n bl lr ck nc f')) as Hnew.
    { intros f'. destruct s as [l off n bl lr ck nc f]. cbn in Hoff. subst off. eexists _, _, _, _, _. split; [done|]. by eapply inv_new. }
    cbn [create_state_lock_entry]. fold e. destruct allow.
    + destruct (do_lock_op_ret F fso_lock_support lock_op2 (keep_off F (set_next F s (S (next_addr F s))) e)
        (if bool_decide (blocking = STATE_NLM_BLOCKING) then FSAL_OP_LOCKB else FSAL_OP_LOCK) o lock) as (f' & status & cf & -> & Hst).
      rewrite res_bind_ret. destruct (Hnew f') as (n & bl & lr & ck & nc & -> & I1).
      edestruct (lock_status_effect s e n bl lr ck nc f' o blocking) as (s' & Hs' & I' & Hout); [exact I1|done|done|done|done|done| | |].
      * intros _. by apply (scan_allows _ ex o lock false ov found).
      * intros E. specialize (Hst E). by destruct (bool_decide_reflect (blocking = STATE_NLM_BLOCKING)).
      * exists s', status. eexists. split_and!; [exact Hs'|done|exact Hout].
    + rewrite res_bind_ret. destruct (Hnew (fsal F s)) as (n & bl & lr & ck & nc & Ek & I1).
      assert (keep_off F (set_next F s (S (next_addr F s))) e = MK (lock_list F s) [e] n bl lr ck nc (fsal F s)) as -> by (rewrite <-Ek; done).
      edestruct (lock_status_effect s e n bl lr ck nc (fsal F s) o blocking) with (status := STATE_LOCK_BLOCKED) as (s' & Hs' & I' & Hout);
        [exact I1|done|done|done|done|done|done|by intros _; apply Hnlm|].
      eexists s', _, _. split_and!; [exact Hs'|done|exact Hout].
Qed.

End ops.
