(* ===== verification/NfsLockSpec.v ===== *)
(** * What the locks of a file promise

    Runs of requests on a file: locks of different owners are always compatible, and a
    lock, an unlock and a grant change exactly the bytes they are about. Then cases in
    which the code does not do what it means to. *)

From S2P Require Import Prelude NfsLock NfsLockProofs NfsLockInv NfsLockState NfsLockSubtract NfsLockSafe NfsLockOps.
Local Open Scope Z_scope.

Section spec.
  Context {O : Type} `{EqDecision O}.
  Variables (F : Type) (fso_lock_support fso_lock_support_async_block : bool).
  Variable (lock_op2 : F -> O -> fsal_lock_op_t -> fsal_lock_param_t -> F * state_status_t * fsal_lock_param_t).
  Variables (state_async_schedule : F -> F * state_status_t) (export_ready : nat -> bool).
#[local] Abbreviation hdl := (state_hdl F (O := O)).

(** A file without locks. *)
Definition no_locks (f : F) : hdl := MkHdl F [] [] 0 [] 0 [] 0 f.

Inductive request :=
| RTest (owner : O) (lock : fsal_lock_param_t)
| RLock (cur_export : nat) (owner : O) (state : option Z) (blocking : state_blocking_t) (lock : fsal_lock_param_t)
| RUnlock (owner : O) (state_applies : bool) (nsm_state : Z) (lock : fsal_lock_param_t)
| RCancel (owner : O) (lock : fsal_lock_param_t)
| RGranted (cookie : nat) (granted : bool)
| RSent (cookie : nat) (sent : bool).

(** One request at a time, with the mutex of the file. *)
Definition serve (s : hdl) (r : request) : res hdl :=
  let async := fso_lock_support_async_block in
  match r with
  | RTest owner lock => '(s, _, _) ← state_test F fso_lock_support async lock_op2 s owner lock; Ret s
  | RLock cur_export owner state blocking lock =>
      '(s, _, _) ← state_lock F fso_lock_support async lock_op2 state_async_schedule export_ready s cur_export owner state blocking lock; Ret s
  | RUnlock owner state_applies nsm_state lock =>
      '(s, _) ← state_unlock F fso_lock_support async lock_op2 state_async_schedule export_ready s owner state_applies nsm_state lock; Ret s
  | RCancel owner lock => state_cancel F fso_lock_support async lock_op2 state_async_schedule export_ready s owner lock
  | RGranted cookie granted => nlm4_Granted_Res F fso_lock_support async lock_op2 state_async_schedule export_ready s cookie granted
  | RSent cookie sent => nlm4_send_grant_msg F fso_lock_support async lock_op2 state_async_schedule export_ready s cookie sent
  end.

Definition serve_all (f : F) (rs : list request) : res hdl := res_foldl serve (no_locks f) rs.

(** Ranges are within the offsets, and none is claimed back after a restart. *)
Definition request_ok (r : request) : Prop :=
  match r with
  | RLock _ _ _ _ lock => valid lock /\ lock_reclaim lock = false
  | RUnlock _ _ _ lock => valid lock
  | _ => True
  end.

(** No range goes up to the end of the file. *)
Definition request_bounded (r : request) : Prop :=
  match r with RLock _ _ _ _ lock => bounded lock | _ => True end.

End spec.

Section promises.
  Context {O : Type} `{EqDecision O}.
  Variables (F : Type) (fso_lock_support : bool).
  Variable (lock_op2 : F -> O -> fsal_lock_op_t -> fsal_lock_param_t -> F * state_status_t * fsal_lock_param_t).
  Variables (state_async_schedule : F -> F * state_status_t) (export_ready : nat -> bool).
  Hypothesis scheduled : forall f, snd (state_async_schedule f) = STATE_SUCCESS.
#[local] Abbreviation hdl := (state_hdl F (O := O)).
#[local] Abbreviation serve := (serve F fso_lock_support false lock_op2 state_async_schedule export_ready).
#[local] Abbreviation serve_all := (serve_all F fso_lock_support false lock_op2 state_async_schedule export_ready).

Lemma serve_step (s : hdl) r :
  inv F None s -> request_ok r ->
  exists s', serve s r = Ret s' /\ inv F None s' /\ (request_bounded r -> tidy (lock_list F s) -> tidy (lock_list F s')).
Proof using scheduled.
  intros I Hr. destruct r as [o lock|ex o st bl lock|o sa n lock|o lock|c g|c g]; cbn [NfsLockSpec.serve].
  - unfold state_test. destruct (get_overlapping_entry F s (Some o) lock); [rewrite res_bind_ret; by exists s|].
    destruct (do_lock_op_ret F fso_lock_support lock_op2 s FSAL_OP_LOCKT o lock) as (f & status & c & -> & _). rewrite !res_bind_ret.
    eexists. split; [done|]. split; [destruct I; by split|done].
  - destruct Hr as [Hv Hrc]. destruct (lock_effect F fso_lock_support lock_op2 state_async_schedule export_ready scheduled s ex o st bl lock I Hv Hrc)
      as (s' & status & c & -> & I' & H). rewrite res_bind_ret. exists s'. split_and!; [done|done|]. intros Hb T. by apply (H Hb T).
  - destruct (unlock_effect F fso_lock_support lock_op2 state_async_schedule export_ready scheduled s o sa n lock I Hr) as (s' & status & -> & I' & T & _).
    rewrite res_bind_ret. exists s'. by split_and!.
  - destruct (keeps_goes_on F s _ (cancel_keeps F fso_lock_support lock_op2 state_async_schedule export_ready scheduled s o lock I)) as (s' & -> & I' & T).
    exists s'. by split_and!.
  - destruct (granted_res_goes_on F fso_lock_support lock_op2 state_async_schedule export_ready scheduled s c g I) as (s' & -> & I' & T).
    exists s'. by split_and!.
  - destruct (send_grant_goes_on F fso_lock_support lock_op2 state_async_schedule export_ready scheduled s c g I) as (s' & -> & I' & T).
    exists s'. by split_and!.
Qed.

Lemma serve_run (s : hdl) rs :
  inv F None s -> Forall request_ok rs ->
  exists s', res_foldl serve s rs = Ret s' /\ inv F None s' /\ (Forall request_bounded rs -> tidy (lock_list F s) -> tidy (lock_list F s')).
Proof using scheduled.
  intros I Hok. revert s I. induction Hok as [|r rs Hr _ IH]; intros s I; cbn [res_foldl]; [exists s; by split_and!|].
  destruct (serve_step s r I Hr) as (s1 & -> & I1 & T1). rewrite res_bind_ret. destruct (IH s1 I1) as (s2 & -> & I2 & T2).
  exists s2. split_and!; [done|done|]. intros [Hb Hbs]%Forall_cons T. auto.
Qed.

Lemma no_locks_inv f : inv F None (no_locks F f : hdl) /\ tidy (lock_list F (no_locks F f : hdl)).
Proof using Type.
  split; [split; cbn|split; [by intros e ?%elem_of_nil|by intros o t1 t2 b (e & ?%elem_of_nil & _)]].
  - apply NoDup_nil_2.
  - by intros b ?%elem_of_nil.
  - by intros e ?%elem_of_nil.
  - by intros e ?%elem_of_nil.
  - apply NoDup_nil_2.
  - by intros c b ?%elem_of_nil.
  - by intros o1 o2 t b (e & ?%elem_of_nil & _).
Qed.

Lemma serve_all_inv f rs :
  Forall request_ok rs -> exists s, serve_all f rs = Ret s /\ inv F None s /\ (Forall request_bounded rs -> tidy (lock_list F s)).
Proof using scheduled.
  intros Hok. destruct (no_locks_inv f) as [I0 T0]. destruct (serve_run _ _ I0 Hok) as (s & E & I & T). exists s. split_and!; [done|done|auto].
Qed.

(** C6. Whatever requests clients send, in any order, and whatever the FSAL answers: the
    server never uses a NULL pointer or an entry that was released, no byte that an owner
    has locked for writing, or is being given, is locked by anybody else, and every
    cookie in the table is that of an entry on the list that is being granted. The
    conditions: the FSAL has no blocking locks of its own, the thread that grants locks
    can be handed its message ([scheduled]; a cookie is left dangling when it cannot,
    [dangling_cookie]), ranges are ranges of 64-bit offsets, and no request reclaims. *)
Theorem locks_compatible f rs :
  Forall request_ok rs ->
  exists s, serve_all f rs = Ret s /\ compatible (lock_list F s) /\ off_list F s = [] /\
    forall c a, (c, a) ∈ ht_lock_cookies F s ->
      exists e, e ∈ lock_list F s /\ sle_addr e = a /\ sle_blocked e = STATE_GRANTING /\ sle_ref_count e = 2.
Proof using scheduled.
  intros Hok. destruct (serve_all_inv f rs Hok) as (s & E & I & _). exists s. split_and!; [done|apply (i_compat _ _ _ I)|by apply off_empty|].
  intros c a Hin. destruct (i_table _ _ _ I c a Hin) as (_ & _ & e & He & Ha & Hg & _). exists e. split_and!; try done.
  by apply (granting_ok _ None e Hg ltac:(done) (i_list _ _ _ I e He)).
Qed.

(** C11. A request for a lock: when it succeeds, its owner has exactly the bytes of the
    range with the type that was asked for, and keeps the bytes it had outside of it;
    nothing changes for other owners. When it does not, nobody's bytes change. The
    conditions are those of [locks_compatible], and that this range and those of all
    requests before it end before the end of the file (up to there a request for a weaker
    type is ignored, [downgrade_to_eof_ignored]) and that the owner has no lock that is
    being granted. *)
Theorem lock_exact f rs :
  Forall request_ok rs -> Forall request_bounded rs ->
  exists s, serve_all f rs = Ret s /\ forall ex o st blocking lock,
    bounded lock -> lock_reclaim lock = false -> (forall e, e ∈ lock_list F s -> sle_owner e = Some o -> sle_blocked e <> STATE_GRANTING) ->
    exists s' status c,
      state_lock F fso_lock_support false lock_op2 state_async_schedule export_ready s ex o st blocking lock = Ret (s', status, c) /\
      forall o' t b, holds (lock_list F s') o' t b <->
        if bool_decide (status = STATE_SUCCESS) && bool_decide (o' = o)
        then (t = lock_type lock /\ contains lock b) \/ (~ contains lock b /\ holds (lock_list F s) o t b)
        else holds (lock_list F s) o' t b.
Proof using scheduled.
  intros Hok Hb. destruct (serve_all_inv f rs Hok) as (s & E & I & T). exists s. split; [done|]. intros ex o st blocking lock Hbl Hrc Hno.
  destruct (lock_effect F fso_lock_support lock_op2 state_async_schedule export_ready scheduled s ex o st blocking lock I (proj1 Hbl) Hrc)
    as (s' & status & c & Hl & _ & H). exists s', status, c. split; [done|]. destruct (H Hbl (T Hb)) as [_ Hout].
  intros o' t b. destruct (bool_decide (status = STATE_SUCCESS)); [|by apply Hout]. rewrite (Hout Hno o' t b). cbn.
  by destruct (decide (o' = o)), (bool_decide_reflect (o' = o)).
Qed.

(** C12. An unlock always returns and takes exactly the bytes of its range from the locks
    its owner holds: every other lock stays, those of other owners and the owner's bytes
    outside of the range. Locks that are waited for or being granted are not held;
    those of the owner that overlap the range are cancelled. Here ranges can go up to the
    end of the file. The number of the client's NSM state does not select locks
    ([state_applies] is false), and the conditions are those of [locks_compatible]. *)
Theorem unlock_exact f rs o nsm lock :
  Forall request_ok rs -> valid lock ->
  exists s s' status, serve_all f rs = Ret s /\
    state_unlock F fso_lock_support false lock_op2 state_async_schedule export_ready s o false nsm lock = Ret (s', status) /\
    forall o' t b, holds (lock_list F s') o' t b <-> holds (lock_list F s) o' t b /\ ~ (o' = o /\ contains lock b).
Proof using scheduled.
  intros Hok Hv. destruct (serve_all_inv f rs Hok) as (s & E & I & _).
  destruct (unlock_effect F fso_lock_support lock_op2 state_async_schedule export_ready scheduled s o false nsm lock I Hv) as (s' & status & Hu & _ & _ & He).
  exists s, s', status. split_and!; [done|done|by apply He].
Qed.

End promises.

(** ** Runs *)

Module Example.

(** An FSAL that grants everything and keeps what it was asked. *)
Definition log : Type := list (Z * fsal_lock_op_t * fsal_lock_param_t).
Definition grant_all (f : log) (o : Z) (op : fsal_lock_op_t) (lock : fsal_lock_param_t) : log * state_status_t * fsal_lock_param_t :=
  (f ++ [(o, op, lock)], STATE_SUCCESS, lock).
Definition sent (f : log) : log * state_status_t := (f, STATE_SUCCESS).
Definition not_sent (f : log) : log * state_status_t := (f, STATE_OTHER 22).

Definition range (t : fsal_lock_t) (start length : Z) : fsal_lock_param_t := MkLock t start length false.

(** One owner has a lock, another waits for a part of it and gets it. *)
Definition handover : list (request (O := Z)) :=
  [RLock 1 1 None STATE_NON_BLOCKING (range FSAL_LOCK_W 0 100); RLock 1 2 None STATE_NLM_BLOCKING (range FSAL_LOCK_W 50 10);
   RUnlock 1 false 0 (range FSAL_LOCK_W 40 30)].

#[local] Abbreviation run fsal_op sched := (serve_all log true false fsal_op sched (fun _ => true) []).

(** Conditions on concrete ranges. *)
Ltac concrete := repeat match goal with |- contains _ _ => unfold contains | |- _ /\ _ => split end; vm_compute; first [reflexivity | discriminate].

Lemma handover_ok : Forall request_ok handover /\ Forall request_bounded handover.
Proof. unfold handover. rewrite !Forall_cons, !Forall_nil. unfold request_ok, request_bounded, bounded, valid. split_and!; try exact I; concrete. Qed.

Lemma locks_compatible_witness :
  exists s, run grant_all sent (handover ++ [RGranted 0 true]) = Ret s /\ compatible (lock_list log s) /\
    map (fun e => (sle_owner e, lock_start (sle_lock e), lock_end (sle_lock e))) (lock_list log s) = [(Some 2, 50, 59); (Some 1, 0, 39); (Some 1, 70, 99)].
Proof.
  destruct (locks_compatible log true grant_all sent (fun _ => true) ltac:(done) [] (handover ++ [RGranted 0 true])) as (s & E & C & _).
  { apply Forall_app. split; [apply handover_ok|]. by rewrite Forall_cons, Forall_nil. }
  exists s. split; [exact E|]. split; [exact C|]. vm_compute in E. injection E as <-. reflexivity.
Defined.

Lemma lock_exact_witness :
  exists s s' status c, run grant_all sent handover = Ret s /\
    state_lock log true false grant_all sent (fun _ => true) s 1 1 None STATE_NON_BLOCKING (range FSAL_LOCK_R 20 10) = Ret (s', status, c) /\
    holds (lock_list log s') 1 FSAL_LOCK_R 25 /\ ~ holds (lock_list log s') 1 FSAL_LOCK_W 25 /\ holds (lock_list log s') 1 FSAL_LOCK_W 10.
Proof.
  destruct (lock_exact log true grant_all sent (fun _ => true) ltac:(done) [] handover (proj1 handover_ok) (proj2 handover_ok)) as (s & E & H).
  pose proof E as Es. vm_compute in Es. injection Es as Es.
  destruct (H 1%nat 1 None STATE_NON_BLOCKING (range FSAL_LOCK_R 20 10)) as (s' & status & c & El & Hh).
  { unfold bounded, valid. concrete. }
  { reflexivity. }
  { intros e He Ho Hg. rewrite <-Es in He. cbn in He. repeat (apply elem_of_cons in He as [->|He]; [discriminate|]). by apply elem_of_nil in He. }
  exists s, s', status, c. split; [exact E|]. split; [exact El|].
  assert (status = STATE_SUCCESS) as ->. { rewrite <-Es in El. vm_compute in El. by injection El. }
  assert (contains (range FSAL_LOCK_R 20 10) 25) as Hin by (unfold contains; concrete).
  split; [apply Hh; left; exact (conj eq_refl Hin)|]. split; [intros Hn; apply Hh in Hn as [[? _]|[Hc _]]; [discriminate|by apply Hc]|].
  apply Hh. right. split; [intros [Hc _]; vm_compute in Hc; by apply Hc|]. rewrite <-Es. eexists. split; [right; left|]. split_and!; concrete.
Defined.

Lemma unlock_exact_witness :
  exists s s' status, run grant_all sent handover = Ret s /\
    state_unlock log true false grant_all sent (fun _ => true) s 1 false 0 (range FSAL_LOCK_W 10 0) = Ret (s', status) /\
    holds (lock_list log s') 1 FSAL_LOCK_W 9 /\ ~ holds (lock_list log s') 1 FSAL_LOCK_W 80.
Proof.
  destruct (unlock_exact log true grant_all sent (fun _ => true) ltac:(done) [] handover 1 0 (range FSAL_LOCK_W 10 0) (proj1 handover_ok))
    as (s & s' & status & E & Eu & H).
  { unfold valid. concrete. }
  exists s, s', status. split; [exact E|]. split; [exact Eu|]. pose proof E as Es. vm_compute in Es. injection Es as Es. split.
  - apply H. split; [|intros [_ [Hc _]]; vm_compute in Hc; by apply Hc]. rewrite <-Es. eexists. split; [right; left|]. split_and!; concrete.
  - intros Hn. apply H in Hn as [_ Hn]. apply Hn. split; [done|]. unfold contains. concrete.
Defined.

(** ** Where the code does not do what it means to *)

(** A lock up to the end of the file is not replaced by a weaker one: the offset after its
    end wraps to 0, so the loop takes the two for ranges that do not touch. The owner
    keeps the lock for writing after a downgrade. *)
Lemma downgrade_to_eof_ignored :
  exists s s' c, run grant_all sent [RLock 1 1 None STATE_NON_BLOCKING (range FSAL_LOCK_W 100 0)] = Ret s /\
    state_lock log true false grant_all sent (fun _ => true) s 1 1 None STATE_NON_BLOCKING (range FSAL_LOCK_R 100 0) = Ret (s', STATE_SUCCESS, c) /\
    map (fun e => (sle_owner e, lock_type (sle_lock e), lock_start (sle_lock e))) (lock_list log s') =
      [(Some 1, FSAL_LOCK_W, 100); (Some 1, FSAL_LOCK_R, 100)].
Proof. eexists _, _, _. split; [vm_compute; reflexivity|]. split; vm_compute; reflexivity. Qed.

(** A downgrade of the same range with its length written out. *)
Lemma downgrade_replaces :
  exists s s' c, run grant_all sent [RLock 1 1 None STATE_NON_BLOCKING (range FSAL_LOCK_W 100 50)] = Ret s /\
    state_lock log true false grant_all sent (fun _ => true) s 1 1 None STATE_NON_BLOCKING (range FSAL_LOCK_R 100 50) = Ret (s', STATE_SUCCESS, c) /\
    map (fun e => (sle_owner e, lock_type (sle_lock e), lock_start (sle_lock e))) (lock_list log s') = [(Some 1, FSAL_LOCK_R, 100)].
Proof. eexists _, _, _. split; [vm_compute; reflexivity|]. split; vm_compute; reflexivity. Qed.

(** A lock that the FSAL refuses for now is the first of the list, without the reference to
    the file that the first lock takes; the unlock gives one back all the same. *)
Definition refuse (f : log) (o : Z) (op : fsal_lock_op_t) (lock : fsal_lock_param_t) : log * state_status_t * fsal_lock_param_t :=
  (f, match op with FSAL_OP_LOCK => STATE_LOCK_CONFLICT | _ => STATE_SUCCESS end, lock).

Lemma blocked_lock_unbalanced :
  exists s, run refuse sent [RLock 1 1 None STATE_NLM_BLOCKING (range FSAL_LOCK_W 0 10); RUnlock 1 false 0 (range FSAL_LOCK_W 0 10)] = Ret s /\
    lock_list log s = [] /\ list_refs log s = -1.
Proof. eexists. split; [vm_compute; reflexivity|]. split; vm_compute; reflexivity. Qed.

(** A lock that is being granted is cancelled: the FSAL, which has locked the range for it,
    is not told, and the reference of the list that is empty now is kept. *)
Lemma cancelled_grant_keeps_fsal_lock :
  exists s, run grant_all sent (handover ++ [RUnlock 1 false 0 (range FSAL_LOCK_W 0 0); RCancel 2 (range FSAL_LOCK_W 50 10)]) = Ret s /\
    lock_list log s = [] /\ list_refs log s = 1 /\
    map (fun '(o, op, l) => (o, op, lock_start l)) (fsal log s) =
      [(1, FSAL_OP_LOCK, 0); (1, FSAL_OP_UNLOCK, 40); (2, FSAL_OP_LOCK, 50); (1, FSAL_OP_UNLOCK, 0)].
Proof. eexists. split; [vm_compute; reflexivity|]. split_and!; vm_compute; reflexivity. Qed.

(** The FSAL still refuses a lock when it is to be granted: a grant that the server started
    asks without blocking, so the answer is a conflict and the entry is dropped instead
    of waiting on; its client is never told. *)
Definition refuse_second (f : log) (o : Z) (op : fsal_lock_op_t) (lock : fsal_lock_param_t) : log * state_status_t * fsal_lock_param_t :=
  (f ++ [(o, op, lock)], if (o =? 2) && bool_decide (op = FSAL_OP_LOCK) then STATE_LOCK_CONFLICT else STATE_SUCCESS, lock).

Lemma waiting_lock_dropped :
  exists s, run refuse_second sent handover = Ret s /\ map sle_owner (lock_list log s) = [Some 1; Some 1] /\ ht_lock_cookies log s = [].
Proof. eexists. split; [vm_compute; reflexivity|]. split; vm_compute; reflexivity. Qed.

(** The message cannot be handed to its thread: the entry is released while its cookie stays
    in the table, and an answer with that cookie uses the entry. *)
Lemma dangling_cookie :
  (exists s, run grant_all not_sent handover = Ret s /\ map sle_owner (lock_list log s) = [Some 1; Some 1] /\ ht_lock_cookies log s = [(0, 1)%nat]) /\
  run grant_all not_sent (handover ++ [RGranted 0 true]) = Crash.
Proof. split; [eexists; split; [vm_compute; reflexivity|]; split; vm_compute; reflexivity|vm_compute; reflexivity]. Qed.

End Example.
