(* ===== verification/NfsSession.v ===== *)
(** * Sessions of the NFS server ([src/nfs-ganesha/src/SAL/nfs41_session_id.c])

    The data of NFSv4.1 sessions: the sessions with their slots, the table of session
    ids, the leases of the clients ([SAL/nfs4_lease.c]) and the replies, which a slot
    caches for a request that is sent again. Sessions and replies are counted by
    reference and live at an address; one that is used after it was released is [Crash].
    A slot has a mutex: a request that finds it taken waits, which is [Fail] here. *)

From S2P Require Import Prelude NfsProto.
Local Open Scope Z_scope.

(** What the server is used with: the state that the operations on files act on, their
    arguments and results, the addresses of clients, and the configuration. *)
Class Nfs4Types := {
  argu : Type; resu : Type; fs : Type; handles : Type;
  sockaddr : Type; #[global] sockaddr_eq :: EqDecision sockaddr;
  lease_lifetime : Z;
  minor_versions : Z;
  enforce_utf8_vld : bool;
  sizeof : string -> Z }.

(** ** Data *)

Record channel_attrs4 := MkAttrs {
  ca_headerpadsize : Z; ca_maxrequestsize : Z; ca_maxresponsesize : Z; ca_maxresponsesize_cached : Z;
  ca_maxoperations : Z; ca_maxrequests : Z }.

Record session_slot := MkSlot { sl_sequence : Z; sl_lock : bool; sl_cached : option nat }.

Record SEQUENCE4args := MkSequence {
  sa_sessionid : list Z; sa_sequenceid : Z; sa_slotid : Z; sa_highest_slotid : Z; sa_cachethis : bool }.

Record SEQUENCE4resok := MkSequenceOk {
  sr_sessionid : list Z; sr_sequenceid : Z; sr_slotid : Z; sr_highest_slotid : Z; sr_target_highest_slotid : Z;
  sr_status_flags : Z }.

Section session.
Context `{Nfs4Types}.

Record nfs41_session := MkSession {
  session_id : list Z;
  fore_channel_attrs : channel_attrs4;
  connections : list sockaddr;
  clientid_record : nat;
  bc_up : bool;
  refcount : Z;
  nb_slots : Z;
  fc_slots : list session_slot }.

Record client_id := MkClient {
  cid_expired : bool; cid_lease_reservations : Z; cid_last_renew : Z; cb_session_list : list nat }.

(** The result of an operation: its status, and the rest of it. *)
Inductive resop_u := ZeroRes | SequenceRes (resok : SEQUENCE4resok) | OpRes (u : resu).
Record nfs_resop4 := MkResop { resop : Z; r_status : Z; r_body : resop_u }.

(** A reply; [cr_val] is the array that was allocated, [cr_len] the results that are sent. *)
Record COMPOUND4res := MkCompound { cr_status : Z; cr_tag : utf8string; cr_len : Z; cr_val : list nfs_resop4 }.
Record COMPOUND4res_extended := MkExtended { res_compound4 : COMPOUND4res; res_refcnt : Z }.

(** The members of the union that the operations modelled here read; the decoder fills the
    one that the number of the operation names. *)
Record nfs_argop4 := MkArgop { argop : Z; opsequence : SEQUENCE4args; opdestroy_session : list Z; op_other : argu }.

Record world := MkWorld {
  w_sessions : list (option nfs41_session);
  w_table : gmap (list Z) nat;
  w_clients : list client_id;
  w_results : list (option COMPOUND4res_extended);
  w_fs : fs;
  w_time : Z }.

(** ** The memory *)

Definition get_session (w : world) (a : nat) : res nfs41_session :=
  match w_sessions w !! a with Some (Some s) => Ret s | _ => Crash end.
Definition put_session (a : nat) (os : option nfs41_session) (w : world) : world :=
  MkWorld (<[a := os]> (w_sessions w)) (w_table w) (w_clients w) (w_results w) (w_fs w) (w_time w).

Definition get_result (w : world) (r : nat) : res COMPOUND4res_extended :=
  match w_results w !! r with Some (Some x) => Ret x | _ => Crash end.
Definition put_result (r : nat) (ox : option COMPOUND4res_extended) (w : world) : world :=
  MkWorld (w_sessions w) (w_table w) (w_clients w) (<[r := ox]> (w_results w)) (w_fs w) (w_time w).
Definition new_result (x : COMPOUND4res_extended) (w : world) : nat * world :=
  (length (w_results w),
   MkWorld (w_sessions w) (w_table w) (w_clients w) (w_results w ++ [Some x]) (w_fs w) (w_time w)).

Definition get_client (w : world) (c : nat) : res client_id := deref (w_clients w !! c).
Definition put_client (c : nat) (cl : client_id) (w : world) : world :=
  MkWorld (w_sessions w) (w_table w) (<[c := cl]> (w_clients w)) (w_results w) (w_fs w) (w_time w).

Definition set_table (t : gmap (list Z) nat) (w : world) : world :=
  MkWorld (w_sessions w) t (w_clients w) (w_results w) (w_fs w) (w_time w).
Definition set_fs (f : fs) (w : world) : world :=
  MkWorld (w_sessions w) (w_table w) (w_clients w) (w_results w) f (w_time w).

Definition set_refcount (n : Z) (s : nfs41_session) : nfs41_session :=
  MkSession (session_id s) (fore_channel_attrs s) (connections s) (clientid_record s) (bc_up s) n (nb_slots s) (fc_slots s).
Definition set_slots (l : list session_slot) (s : nfs41_session) : nfs41_session :=
  MkSession (session_id s) (fore_channel_attrs s) (connections s) (clientid_record s) (bc_up s) (refcount s) (nb_slots s) l.
Definition set_connections (l : list sockaddr) (s : nfs41_session) : nfs41_session :=
  MkSession (session_id s) (fore_channel_attrs s) l (clientid_record s) (bc_up s) (refcount s) (nb_slots s) (fc_slots s).

(** A slot is used through its address: its session and its index. *)
Definition get_slot (w : world) (p : nat * nat) : res session_slot :=
  s ← get_session w p.1; deref (fc_slots s !! p.2).
Definition put_slot (p : nat * nat) (sl : session_slot) (w : world) : res world :=
  s ← get_session w p.1;
  if (p.2 <? length (fc_slots s))%nat then Ret (put_session p.1 (Some (set_slots (<[p.2 := sl]> (fc_slots s)) s)) w) else Crash.

(** The mutex of a slot: only one that is taken is given back. *)
Definition lock_slot (p : nat * nat) (w : world) : res world :=
  sl ← get_slot w p;
  if sl_lock sl then Fail else put_slot p (MkSlot (sl_sequence sl) true (sl_cached sl)) w.
Definition unlock_slot (p : nat * nat) (w : world) : res world :=
  sl ← get_slot w p;
  if sl_lock sl then put_slot p (MkSlot (sl_sequence sl) false (sl_cached sl)) w else Crash.
Definition set_cached (p : nat * nat) (c : option nat) (w : world) : res world :=
  sl ← get_slot w p; put_slot p (MkSlot (sl_sequence sl) (sl_lock sl) c) w.

(** ** Replies *)

Definition inc_result (r : nat) (w : world) : res world :=
  x ← get_result w r; Ret (put_result r (Some (MkExtended (res_compound4 x) (res_refcnt x + 1))) w).

Definition release_nfs4_res_compound (r : nat) (w : world) : res world :=
  x ← get_result w r;
  if 0 <? res_refcnt x - 1 then Ret (put_result r (Some (MkExtended (res_compound4 x) (res_refcnt x - 1))) w)
  else Ret (put_result r None w).

Definition release_slot (p : nat * nat) (w : world) : res world :=
  sl ← get_slot w p;
  match sl_cached sl with
  | Some r => w ← release_nfs4_res_compound r w; set_cached p None w
  | None => Ret w
  end.

(** ** Leases *)

Definition valid_lease (cl : client_id) (t : Z) : Z :=
  if cid_expired cl then 0
  else if negb (cid_lease_reservations cl =? 0) then lease_lifetime
  else if t <? cid_last_renew cl + lease_lifetime then cid_last_renew cl + lease_lifetime - t
  else 0.

Definition reserve_lease (c : nat) (w : world) : res (bool * world) :=
  cl ← get_client w c;
  if negb (valid_lease cl (w_time w) =? 0)
  then Ret (true, put_client c (MkClient (cid_expired cl) (cid_lease_reservations cl + 1) (cid_last_renew cl) (cb_session_list cl)) w)
  else Ret (false, w).

Definition update_lease (c : nat) (w : world) : res world :=
  cl ← get_client w c;
  let n := cid_lease_reservations cl - 1 in
  Ret (put_client c (MkClient (cid_expired cl) n (if n =? 0 then w_time w else cid_last_renew cl) (cb_session_list cl)) w).

(** ** Sessions *)

Definition inc_session_ref (a : nat) (w : world) : res world :=
  s ← get_session w a; Ret (put_session a (Some (set_refcount (refcount s + 1) s)) w).

(** The slots of a session that is destroyed; its mutexes are not taken any more. *)
Fixpoint release_slots (a : nat) (l : list nat) (w : world) : res world :=
  match l with
  | [] => Ret w
  | i :: l =>
    sl ← get_slot w (a, i);
    if sl_lock sl then Crash else w ← release_slot (a, i) w; release_slots a l w
  end.

Definition dec_session_ref (a : nat) (w : world) : res world :=
  s ← get_session w a;
  let n := refcount s - 1 in
  let w := put_session a (Some (set_refcount n s)) w in
  if n =? 0 then
    cl ← get_client w (clientid_record s);
    let w := put_client (clientid_record s)
               (MkClient (cid_expired cl) (cid_lease_reservations cl) (cid_last_renew cl)
                         (filter (fun b => b <> a) (cb_session_list cl))) w in
    w ← release_slots a (seq 0 (Z.to_nat (nb_slots s))) w;
    Ret (put_session a None w)
  else Ret w.

Definition nfs41_Session_Set (a : nat) (w : world) : res (bool * world) :=
  s ← get_session w a;
  match w_table w !! session_id s with
  | Some _ => Ret (false, w)
  | None => Ret (true, set_table (<[session_id s := a]> (w_table w)) w)
  end.

Definition nfs41_Session_Get_Pointer (sessionid : list Z) (w : world) : res (option nat * world) :=
  match w_table w !! sessionid with
  | None => Ret (None, w)
  | Some a => w ← inc_session_ref a w; Ret (Some a, w)
  end.

Definition nfs41_Session_Del (sessionid : list Z) (w : world) : res (bool * world) :=
  match w_table w !! sessionid with
  | None => Ret (false, w)
  | Some a => w ← dec_session_ref a (set_table (delete sessionid (w_table w)) w); Ret (true, w)
  end.

Definition NFS41_MAX_CONNECTIONS : Z := 16.

Definition check_session_conn (a : nat) (addr : sockaddr) (can_associate : bool) (w : world) : res (bool * world) :=
  s ← get_session w a;
  if existsb (fun c => bool_decide (addr = c)) (connections s) then Ret (true, w)
  else if negb can_associate || (Z.of_nat (length (connections s)) =? NFS41_MAX_CONNECTIONS) then Ret (false, w)
  else Ret (true, put_session a (Some (set_connections (connections s ++ [addr]) s)) w).

(** The first session of the client with a working back channel; a client with sessions is
    not one of NFSv4.0. *)
Fixpoint find_bc (w : world) (l : list nat) : res (option nat) :=
  match l with
  | [] => Ret None
  | a :: l => s ← get_session w a; if bc_up s then Ret (Some a) else find_bc w l
  end.
Definition nfs_rpc_get_chan (c : nat) (w : world) : res (option nat) :=
  cl ← get_client w c; find_bc w (cb_session_list cl).
End session.
