(* ===== verification/NfsCompound.v ===== *)
(** * COMPOUND requests of the NFS server ([src/nfs-ganesha/src/Protocols/NFS/nfs4_Compound.c])

    A request is a list of operations, which run one after the other up to the first that
    fails. In NFSv4.1 the first is SEQUENCE ([nfs4_op_sequence.c]), which names a slot of
    a session and a sequence number: a number that the slot has seen is answered from the
    slot. The operations on files are a parameter, which acts on the state of the file
    system and on the current file handle; they may ask to be resumed later. SEQUENCE,
    DESTROY_SESSION, unknown and unsupported operations are the code's own. *)

From S2P Require Import Prelude NfsProto NfsSession.
Local Open Scope Z_scope.

(** ** The table of operations *)

Definition EXPORT_OPTION_READ_ACCESS : Z := 0x20.
Definition EXPORT_OPTION_WRITE_ACCESS : Z := 0x40.
Definition EXPORT_OPTION_MD_READ_ACCESS : Z := 0x80.
Definition EXPORT_OPTION_MD_WRITE_ACCESS : Z := 0x100.
Definition EXPORT_OPTION_MODIFY_ACCESS : Z := Z.lor EXPORT_OPTION_WRITE_ACCESS EXPORT_OPTION_MD_WRITE_ACCESS.
Definition EXPORT_OPTION_ACCESS_MASK : Z :=
  Z.lor (Z.lor EXPORT_OPTION_READ_ACCESS EXPORT_OPTION_WRITE_ACCESS)
        (Z.lor EXPORT_OPTION_MD_WRITE_ACCESS EXPORT_OPTION_MD_READ_ACCESS).

(** The name of an operation, its functions, the type of its result ([None] where the size
    varies) and the permissions of the export that it needs. *)
Record nfs4_op_desc := MkOp {
  op_name : string; op_fun : string; op_res : string; op_type : option string; exp_perm_flags : Z }.

(** The table from its first entry, from OPENATTR, from WRITE and from DESTROY_CLIENTID. *)
Definition optabv4_access : list nfs4_op_desc := [
  MkOp "OP_ILLEGAL" "nfs4_op_illegal" "nfs4_default_resume" (Some "ILLEGAL4res") 0;
  MkOp "OP_ILLEGAL" "nfs4_op_illegal" "nfs4_default_resume" (Some "ILLEGAL4res") 0;
  MkOp "OP_ILLEGAL" "nfs4_op_illegal" "nfs4_default_resume" (Some "ILLEGAL4res") 0;
  MkOp "OP_ACCESS" "nfs4_op_access" "nfs4_default_resume" (Some "ACCESS4res") EXPORT_OPTION_MD_READ_ACCESS;
  MkOp "OP_CLOSE" "nfs4_op_close" "nfs4_default_resume" (Some "CLOSE4res") EXPORT_OPTION_MD_READ_ACCESS;
  MkOp "OP_COMMIT" "nfs4_op_commit" "nfs4_default_resume" (Some "COMMIT4res") EXPORT_OPTION_MD_WRITE_ACCESS;
  MkOp "OP_CREATE" "nfs4_op_create" "nfs4_default_resume" (Some "CREATE4res") EXPORT_OPTION_MD_WRITE_ACCESS;
  MkOp "OP_DELEGPURGE" "nfs4_op_delegpurge" "nfs4_default_resume" (Some "DELEGPURGE4res") 0;
  MkOp "OP_DELEGRETURN" "nfs4_op_delegreturn" "nfs4_default_resume" (Some "DELEGRETURN4res") EXPORT_OPTION_MD_READ_ACCESS;
  MkOp "OP_GETATTR" "nfs4_op_getattr" "nfs4_default_resume" None EXPORT_OPTION_MD_READ_ACCESS;
  MkOp "OP_GETFH" "nfs4_op_getfh" "nfs4_default_resume" None 0;
  MkOp "OP_LINK" "nfs4_op_link" "nfs4_default_resume" (Some "LINK4res") EXPORT_OPTION_MD_WRITE_ACCESS;
  MkOp "OP_LOCK" "nfs4_op_lock" "nfs4_default_resume" None EXPORT_OPTION_MD_READ_ACCESS;
  MkOp "OP_LOCKT" "nfs4_op_lockt" "nfs4_default_resume" None EXPORT_OPTION_MD_READ_ACCESS;
  MkOp "OP_LOCKU" "nfs4_op_locku" "nfs4_default_resume" (Some "LOCKU4res") EXPORT_OPTION_MD_READ_ACCESS;
  MkOp "OP_LOOKUP" "nfs4_op_lookup" "nfs4_default_resume" (Some "LOOKUP4res") EXPORT_OPTION_MD_READ_ACCESS;
  MkOp "OP_LOOKUPP" "nfs4_op_lookupp" "nfs4_default_resume" (Some "LOOKUPP4res") EXPORT_OPTION_MD_READ_ACCESS;
  MkOp "OP_NVERIFY" "nfs4_op_nverify" "nfs4_default_resume" (Some "NVERIFY4res") EXPORT_OPTION_MD_READ_ACCESS;
  MkOp "OP_OPEN" "nfs4_op_open" "nfs4_default_resume" (Some "OPEN4res") EXPORT_OPTION_MD_READ_ACCESS].
Definition optabv4_openattr : list nfs4_op_desc := [
  MkOp "OP_OPENATTR" "nfs4_op_openattr" "nfs4_default_resume" (Some "OPENATTR4res") EXPORT_OPTION_MD_READ_ACCESS;
  MkOp "OP_OPEN_CONFIRM" "nfs4_op_open_confirm" "nfs4_default_resume" (Some "OPEN_CONFIRM4res") 0;
  MkOp "OP_OPEN_DOWNGRADE" "nfs4_op_open_downgrade" "nfs4_default_resume" (Some "OPEN_DOWNGRADE4res") EXPORT_OPTION_MD_READ_ACCESS;
  MkOp "OP_PUTFH" "nfs4_op_putfh" "nfs4_default_resume" (Some "PUTFH4res") 0;
  MkOp "OP_PUTPUBFH" "nfs4_op_putpubfh" "nfs4_default_resume" (Some "PUTPUBFH4res") 0;
  MkOp "OP_PUTROOTFH" "nfs4_op_putrootfh" "nfs4_default_resume" (Some "PUTROOTFH4res") 0;
  MkOp "OP_READ" "nfs4_op_read" "nfs4_op_read_resume" None EXPORT_OPTION_READ_ACCESS;
  MkOp "OP_READDIR" "nfs4_op_readdir" "nfs4_default_resume" None EXPORT_OPTION_MD_READ_ACCESS;
  MkOp "OP_READLINK" "nfs4_op_readlink" "nfs4_default_resume" None EXPORT_OPTION_MD_READ_ACCESS;
  MkOp "OP_REMOVE" "nfs4_op_remove" "nfs4_default_resume" (Some "REMOVE4res") EXPORT_OPTION_MD_WRITE_ACCESS;
  MkOp "OP_RENAME" "nfs4_op_rename" "nfs4_default_resume" (Some "RENAME4res") EXPORT_OPTION_MD_WRITE_ACCESS;
  MkOp "OP_RENEW" "nfs4_op_renew" "nfs4_default_resume" (Some "RENEW4res") 0;
  MkOp "OP_RESTOREFH" "nfs4_op_restorefh" "nfs4_default_resume" (Some "RESTOREFH4res") 0;
  MkOp "OP_SAVEFH" "nfs4_op_savefh" "nfs4_default_resume" (Some "SAVEFH4res") 0;
  MkOp "OP_SECINFO" "nfs4_op_secinfo" "nfs4_default_resume" None EXPORT_OPTION_MD_READ_ACCESS;
  MkOp "OP_SETATTR" "nfs4_op_setattr" "nfs4_default_resume" (Some "SETATTR4res") EXPORT_OPTION_MD_WRITE_ACCESS;
  MkOp "OP_SETCLIENTID" "nfs4_op_setclientid" "nfs4_default_resume" (Some "SETCLIENTID4res") 0;
  MkOp "OP_SETCLIENTID_CONFIRM" "nfs4_op_setclientid_confirm" "nfs4_default_resume" (Some "SETCLIENTID_CONFIRM4res") 0;
  MkOp "OP_VERIFY" "nfs4_op_verify" "nfs4_default_resume" (Some "VERIFY4res") EXPORT_OPTION_MD_READ_ACCESS].
Definition optabv4_write : list nfs4_op_desc := [
  MkOp "OP_WRITE" "nfs4_op_write" "nfs4_op_write_resume" (Some "WRITE4res") EXPORT_OPTION_WRITE_ACCESS;
  MkOp "OP_RELEASE_LOCKOWNER" "nfs4_op_release_lockowner" "nfs4_default_resume" (Some "RELEASE_LOCKOWNER4res") 0;
  MkOp "OP_BACKCHANNEL_CTL" "nfs4_op_illegal" "nfs4_default_resume" (Some "BACKCHANNEL_CTL4res") 0;
  MkOp "OP_BIND_CONN_TO_SESSION" "nfs4_op_bind_conn" "nfs4_default_resume" (Some "BIND_CONN_TO_SESSION4res") 0;
  MkOp "OP_EXCHANGE_ID" "nfs4_op_exchange_id" "nfs4_default_resume" None 0;
  MkOp "OP_CREATE_SESSION" "nfs4_op_create_session" "nfs4_default_resume" (Some "CREATE_SESSION4res") 0;
  MkOp "OP_DESTROY_SESSION" "nfs4_op_destroy_session" "nfs4_default_resume" (Some "DESTROY_SESSION4res") 0;
  MkOp "OP_FREE_STATEID" "nfs4_op_free_stateid" "nfs4_default_resume" (Some "FREE_STATEID4res") 0;
  MkOp "OP_GET_DIR_DELEGATION" "nfs4_op_illegal" "nfs4_default_resume" (Some "GET_DIR_DELEGATION4res") 0;
  MkOp "OP_GETDEVICEINFO" "nfs4_op_getdeviceinfo" "nfs4_default_resume" None 0;
  MkOp "OP_GETDEVICELIST" "nfs4_op_getdevicelist" "nfs4_default_resume" None EXPORT_OPTION_MD_READ_ACCESS;
  MkOp "OP_LAYOUTCOMMIT" "nfs4_op_layoutcommit" "nfs4_default_resume" (Some "LAYOUTCOMMIT4res") 0;
  MkOp "OP_LAYOUTGET" "nfs4_op_layoutget" "nfs4_default_resume" None EXPORT_OPTION_MD_READ_ACCESS;
  MkOp "OP_LAYOUTRETURN" "nfs4_op_layoutreturn" "nfs4_default_resume" (Some "LAYOUTRETURN4res") 0;
  MkOp "OP_SECINFO_NO_NAME" "nfs4_op_secinfo_no_name" "nfs4_default_resume" None EXPORT_OPTION_MD_READ_ACCESS;
  MkOp "OP_SEQUENCE" "nfs4_op_sequence" "nfs4_default_resume" (Some "SEQUENCE4res") 0;
  MkOp "OP_SET_SSV" "nfs4_op_set_ssv" "nfs4_default_resume" (Some "SET_SSV4res") 0;
  MkOp "OP_TEST_STATEID" "nfs4_op_test_stateid" "nfs4_default_resume" (Some "TEST_STATEID4res") 0;
  MkOp "OP_WANT_DELEGATION" "nfs4_op_illegal" "nfs4_default_resume" (Some "WANT_DELEGATION4res") EXPORT_OPTION_MD_READ_ACCESS].
Definition optabv4_destroy_clientid : list nfs4_op_desc := [
  MkOp "OP_DESTROY_CLIENTID" "nfs4_op_destroy_clientid" "nfs4_default_resume" (Some "DESTROY_CLIENTID4res") 0;
  MkOp "OP_RECLAIM_COMPLETE" "nfs4_op_reclaim_complete" "nfs4_default_resume" (Some "RECLAIM_COMPLETE4res") 0;
  MkOp "OP_ALLOCATE" "nfs4_op_allocate" "nfs4_default_resume" (Some "ALLOCATE4res") 0;
  MkOp "OP_COPY" "nfs4_op_notsupp" "nfs4_default_resume" (Some "COPY4res") 0;
  MkOp "OP_COPY_NOTIFY" "nfs4_op_notsupp" "nfs4_default_resume" (Some "COPY_NOTIFY4res") 0;
  MkOp "OP_DEALLOCATE" "nfs4_op_deallocate" "nfs4_default_resume" (Some "DEALLOCATE4res") 0;
  MkOp "OP_IO_ADVISE" "nfs4_op_io_advise" "nfs4_default_resume" (Some "IO_ADVISE4res") 0;
  MkOp "OP_LAYOUTERROR" "nfs4_op_layouterror" "nfs4_default_resume" (Some "LAYOUTERROR4res") 0;
  MkOp "OP_LAYOUTSTATS" "nfs4_op_layoutstats" "nfs4_default_resume" (Some "LAYOUTSTATS4res") 0;
  MkOp "OP_OFFLOAD_CANCEL" "nfs4_op_notsupp" "nfs4_default_resume" (Some "OFFLOAD_ABORT4res") 0;
  MkOp "OP_OFFLOAD_STATUS" "nfs4_op_notsupp" "nfs4_default_resume" (Some "OFFLOAD_STATUS4res") 0;
  MkOp "OP_READ_PLUS" "nfs4_op_read_plus" "nfs4_op_read_plus_resume" (Some "READ_PLUS4res") 0;
  MkOp "OP_SEEK" "nfs4_op_seek" "nfs4_default_resume" (Some "SEEK4res") 0;
  MkOp "OP_WRITE_SAME" "nfs4_op_write_same" "nfs4_default_resume" (Some "WRITE_SAME4res") 0;
  MkOp "OP_CLONE" "nfs4_op_notsupp" "nfs4_default_resume" (Some "ILLEGAL4res") 0;
  MkOp "OP_GETXATTR" "nfs4_op_getxattr" "nfs4_default_resume" (Some "GETXATTR4res") 0;
  MkOp "OP_SETXATTR" "nfs4_op_setxattr" "nfs4_default_resume" (Some "SETXATTR4res") 0;
  MkOp "OP_LISTXATTR" "nfs4_op_listxattr" "nfs4_default_resume" (Some "LISTXATTR4res") 0;
  MkOp "OP_REMOVEXATTR" "nfs4_op_removexattr" "nfs4_default_resume" (Some "REMOVEXATTR4res") 0].
Definition optabv4 : list nfs4_op_desc := optabv4_access ++ optabv4_openattr ++ optabv4_write ++ optabv4_destroy_clientid.

Definition LastOpcode : list Z := [NFS4_OP_RELEASE_LOCKOWNER; NFS4_OP_RECLAIM_COMPLETE; NFS4_OP_REMOVEXATTR].

Definition VARIABLE_RESP_SIZE : Z := 0.
Definition SIZEOF_nfsstat4 : Z := 4.
Definition SIZEOF_nfs_opnum4 : Z := 4.

Inductive nfs_req_result := NFS_REQ_OK | NFS_REQ_DROP | NFS_REQ_ERROR | NFS_REQ_REPLAY | NFS_REQ_ASYNC_WAIT.
#[export] Instance nfs_req_result_eq : EqDecision nfs_req_result.
Proof. solve_decision. Defined.

Definition nfsstat4_to_nfs_req_result (stat : Z) : nfs_req_result :=
  if stat =? NFS4_OK then NFS_REQ_OK else NFS_REQ_ERROR.

(** ** The data of a request *)

Section data.
Context `{Nfs4Types}.

(** What the operations on files see and change of it: the current file handle, the
    options of its export, and the rest of their handles, once one is set. *)
Record opview := MkView { currentFH : list Z; export_options : Z; v_handles : option handles }.

Definition nfs4_Is_Fh_Empty (fh : list Z) : Z := if (length fh =? 0)%nat then NFS4ERR_NOFILEHANDLE else NFS4_OK.

(** What an operation on files does: it ends, or it waits to be resumed. *)
Inductive op_ret := OpOk | OpError | OpWait.
Record op_outcome := MkOutcome { oo_ret : op_ret; oo_res : nfs_resop4; oo_size : Z; oo_view : opview; oo_fs : fs }.

(** What SEQUENCE sets. *)
Record sequence_data := MkSeqData {
  q_session : option nat; q_sequence : Z; q_slotid : Z; q_slot : option (nat * nat); q_cachethis : bool;
  q_preserved_clientid : option nat }.

Record compound_data := MkData {
  d_minorversion : Z;
  d_argarray : list nfs_argop4;
  d_xprt : sockaddr;
  d_res : nat;
  d_oppos : nat;
  d_opcode : Z;
  d_resp_size : Z;
  d_op_resp_size : Z;
  d_seq : sequence_data;
  d_view : opview }.

Definition set_pos (pos : nat) (opcode : Z) (d : compound_data) : compound_data :=
  MkData (d_minorversion d) (d_argarray d) (d_xprt d) (d_res d) pos opcode (d_resp_size d) (d_op_resp_size d) (d_seq d) (d_view d).
Definition set_sizes (resp op_resp : Z) (d : compound_data) : compound_data :=
  MkData (d_minorversion d) (d_argarray d) (d_xprt d) (d_res d) (d_oppos d) (d_opcode d) resp op_resp (d_seq d) (d_view d).
Definition set_seq (q : sequence_data) (d : compound_data) : compound_data :=
  MkData (d_minorversion d) (d_argarray d) (d_xprt d) (d_res d) (d_oppos d) (d_opcode d) (d_resp_size d) (d_op_resp_size d) q (d_view d).
Definition set_view (v : opview) (d : compound_data) : compound_data :=
  MkData (d_minorversion d) (d_argarray d) (d_xprt d) (d_res d) (d_oppos d) (d_opcode d) (d_resp_size d) (d_op_resp_size d) (d_seq d) v.
Definition set_res (r : nat) (d : compound_data) : compound_data :=
  MkData (d_minorversion d) (d_argarray d) (d_xprt d) r (d_oppos d) (d_opcode d) (d_resp_size d) (d_op_resp_size d) (d_seq d) (d_view d).

Definition no_sequence : sequence_data := MkSeqData None 0 0 None false None.
Definition preserve (c : nat) (q : sequence_data) : sequence_data :=
  MkSeqData (q_session q) (q_sequence q) (q_slotid q) (q_slot q) (q_cachethis q) (Some c).

(** The reply that the request writes to. *)
Definition write_reply (d : compound_data) (f : COMPOUND4res -> res COMPOUND4res) (w : world) : res world :=
  x ← get_result w (d_res d);
  c ← f (res_compound4 x);
  Ret (put_result (d_res d) (Some (MkExtended c (res_refcnt x))) w).
Definition store_resop (i : nat) (r : nfs_resop4) (c : COMPOUND4res) : res COMPOUND4res :=
  if (i <? length (cr_val c))%nat then Ret (MkCompound (cr_status c) (cr_tag c) (cr_len c) (<[i := r]> (cr_val c))) else Crash.
Definition set_len (n : Z) (c : COMPOUND4res) : res COMPOUND4res := Ret (MkCompound (cr_status c) (cr_tag c) n (cr_val c)).
Definition set_status (st : Z) (c : COMPOUND4res) : res COMPOUND4res := Ret (MkCompound st (cr_tag c) (cr_len c) (cr_val c)).

(** The session of a request, if it has one. *)
Definition session_attrs (d : compound_data) (w : world) : res (option channel_attrs4) :=
  match q_session (d_seq d) with
  | None => Ret None
  | Some a => s ← get_session w a; Ret (Some (fore_channel_attrs s))
  end.

(** ** The size of the reply *)

Definition check_resp_room (d : compound_data) (w : world) (op_resp_size : Z) : res Z :=
  let test_response_size := wrap_u 32 (d_resp_size d + SIZEOF_nfs_opnum4 + op_resp_size + SIZEOF_nfs_opnum4 + SIZEOF_nfsstat4) in
  if d_minorversion d =? 0 then Ret NFS4_OK
  else
    attrs ← session_attrs d w;
    match attrs with
    | None => Ret NFS4_OK
    | Some attrs =>
      if ca_maxresponsesize attrs <? test_response_size then Ret NFS4ERR_REP_TOO_BIG
      else if negb (q_cachethis (d_seq d)) then Ret NFS4_OK
      else if ca_maxresponsesize_cached attrs <? test_response_size then Ret NFS4ERR_REP_TOO_BIG_TO_CACHE
      else Ret NFS4_OK
    end.

(** ** Operations of the code *)

Definition SEQ4_STATUS_CB_PATH_DOWN : Z := 1.

Definition sequence_res (st : Z) (u : resop_u) : nfs_resop4 := MkResop NFS4_OP_SEQUENCE st u.

(** SEQUENCE on a slot whose mutex was taken. *)
Definition sequence_slot (arg : SEQUENCE4args) (a : nat) (p : nat * nat) (d : compound_data) (w : world)
  : res (nfs_req_result * nfs_resop4 * compound_data * world) :=
  let leave st (w : world) :=
    w ← unlock_slot p w; w ← dec_session_ref a w;
    Ret (NFS_REQ_ERROR, sequence_res st ZeroRes, d, w) in
  slot ← get_slot w p;
  if negb (wrap_u 32 (sl_sequence slot + 1) =? sa_sequenceid arg) then
    if sl_sequence slot =? sa_sequenceid arg then
      match sl_cached slot with
      | Some r =>
        let q := d_seq d in
        let d := set_seq (MkSeqData (q_session q) (q_sequence q) (q_slotid q) (Some p) (q_cachethis q) (q_preserved_clientid q)) d in
        w ← inc_result r w;
        w ← unlock_slot p w;
        w ← dec_session_ref a w;
        Ret (NFS_REQ_REPLAY, sequence_res NFS4_OK ZeroRes, d, w)
      | None => leave NFS4ERR_RETRY_UNCACHED_REP w
      end
    else leave NFS4ERR_SEQ_MISORDERED w
  else
    let sequence := wrap_u 32 (sl_sequence slot + 1) in
    w ← put_slot p (MkSlot sequence (sl_lock slot) (sl_cached slot)) w;
    w ← release_slot p w;
    session ← get_session w a;
    chan ← nfs_rpc_get_chan (clientid_record session) w;
    let resok := MkSequenceOk (sa_sessionid arg) sequence (sa_slotid arg)
                   (wrap_u 32 (nb_slots session - 1)) (wrap_u 32 (ca_maxrequests (fore_channel_attrs session) - 1))
                   (match chan with None => SEQ4_STATUS_CB_PATH_DOWN | Some _ => 0 end) in
    let q := MkSeqData (Some a) (sa_sequenceid arg) (sa_slotid arg) (Some p) (sa_cachethis arg) (q_preserved_clientid (d_seq d)) in
    let d := set_seq q d in
    status ← check_resp_room d w (d_op_resp_size d);
    if negb (status =? NFS4_OK) then
      let q := MkSeqData None (sa_sequenceid arg) (sa_slotid arg) (Some p) (sa_cachethis arg) (q_preserved_clientid (d_seq d)) in
      let d := set_seq q (set_sizes (d_resp_size d) SIZEOF_nfsstat4 d) in
      w ← unlock_slot p w;
      w ← dec_session_ref a w;
      Ret (NFS_REQ_ERROR, sequence_res status (SequenceRes resok), d, w)
    else
      '(_, w) ← check_session_conn a (d_xprt d) true w;
      Ret (NFS_REQ_OK, sequence_res NFS4_OK (SequenceRes resok), d, w).

Definition nfs4_op_sequence (arg : SEQUENCE4args) (d : compound_data) (w : world)
  : res (nfs_req_result * nfs_resop4 * compound_data * world) :=
  let fail st d w := Ret (NFS_REQ_ERROR, sequence_res st ZeroRes, d, w) in
  if d_minorversion d =? 0 then fail NFS4ERR_INVAL d w
  else
    '(found, w) ← nfs41_Session_Get_Pointer (sa_sessionid arg) w;
    match found with
    | None => fail NFS4ERR_BADSESSION d w
    | Some a =>
      session ← get_session w a;
      '(valid, w) ← reserve_lease (clientid_record session) w;
      if negb valid then w ← dec_session_ref a w; fail NFS4ERR_EXPIRED d w
      else
        let d := set_seq (preserve (clientid_record session) (d_seq d)) d in
        if ca_maxrequests (fore_channel_attrs session) <=? sa_slotid arg then
          w ← dec_session_ref a w; fail NFS4ERR_BADSLOT d w
        else
          let p := (a, Z.to_nat (sa_slotid arg)) in
          w ← lock_slot p w;
          sequence_slot arg a p d w
    end.

Definition nfs4_op_destroy_session (dsa_sessionid : list Z) (d : compound_data) (w : world)
  : res (nfs_req_result * nfs_resop4 * world) :=
  let ret st := (nfsstat4_to_nfs_req_result st, MkResop NFS4_OP_DESTROY_SESSION st ZeroRes) in
  if d_minorversion d =? 0 then Ret (ret NFS4ERR_INVAL, w)
  else
    '(found, w) ← nfs41_Session_Get_Pointer dsa_sessionid w;
    match found with
    | None => Ret (ret NFS4ERR_BADSESSION, w)
    | Some a =>
      '(bound, w) ← check_session_conn a (d_xprt d) false w;
      if negb bound then
        w ← dec_session_ref a w; Ret (ret NFS4ERR_CONN_NOT_BOUND_TO_SESSION, w)
      else
        '(deleted, w) ← nfs41_Session_Del dsa_sessionid w;
        w ← dec_session_ref a w;
        Ret (ret (if deleted : bool then NFS4_OK else NFS4ERR_BADSESSION), w)
    end.

Definition nfs4_op_illegal : nfs_resop4 := MkResop NFS4_OP_ILLEGAL NFS4ERR_OP_ILLEGAL ZeroRes.
Definition nfs4_op_notsupp (op : Z) : nfs_resop4 := MkResop op NFS4ERR_NOTSUPP ZeroRes.
End data.

(** The operations on files: given their arguments, the minor version, the result written
    so far and a check of the size of the reply. *)
Class Nfs4Ops `{Nfs4Types} := {
  op_funct : string -> argu -> Z -> nfs_resop4 -> (Z -> res Z) -> opview -> fs -> op_outcome;
  op_resume : string -> argu -> Z -> nfs_resop4 -> (Z -> res Z) -> opview -> fs -> op_outcome;
  release_handles : handles -> fs -> fs }.

(** ** Processing *)

Section compound.
Context `{Nfs4Ops}.

Definition resp_size_of (desc : nfs4_op_desc) : Z :=
  match op_type desc with Some t => sizeof t | None => VARIABLE_RESP_SIZE end.

Definition op_desc (opcode : Z) : res nfs4_op_desc := deref (optabv4 !! Z.to_nat opcode).

(** The result of an operation on files, written to the reply. *)
Definition op_done (o : op_outcome) (d : compound_data) (w : world)
  : res (nfs_req_result * nfs_resop4 * compound_data * world) :=
  let result := match oo_ret o with OpOk => NFS_REQ_OK | OpError => NFS_REQ_ERROR | OpWait => NFS_REQ_ASYNC_WAIT end in
  Ret (result, oo_res o, set_view (oo_view o) (set_sizes (d_resp_size d) (oo_size o) d), set_fs (oo_fs o) w).

Definition thisres (d : compound_data) (w : world) : res nfs_resop4 :=
  x ← get_result w (d_res d); deref (cr_val (res_compound4 x) !! d_oppos d).

(** The call through the table. *)
Definition call_op (desc : nfs4_op_desc) (thisarg : nfs_argop4) (d : compound_data) (w : world)
  : res (nfs_req_result * compound_data * world) :=
  '(result, r, d, w) ←
    (if String.eqb (op_fun desc) "nfs4_op_sequence" then nfs4_op_sequence (opsequence thisarg) d w
     else if String.eqb (op_fun desc) "nfs4_op_destroy_session" then
       '(result, r, w) ← nfs4_op_destroy_session (opdestroy_session thisarg) d w; Ret (result, r, d, w)
     else if String.eqb (op_fun desc) "nfs4_op_illegal" then Ret (NFS_REQ_ERROR, nfs4_op_illegal, d, w)
     else if String.eqb (op_fun desc) "nfs4_op_notsupp" then Ret (NFS_REQ_ERROR, nfs4_op_notsupp (argop thisarg), d, w)
     else
       r ← thisres d w;
       op_done (op_funct (op_fun desc) (op_other thisarg) (d_minorversion d) r (check_resp_room d w) (d_view d) (w_fs w)) d w);
  w ← write_reply d (store_resop (d_oppos d) r) w;
  Ret (result, d, w).

Definition complete_op (d : compound_data) (result : nfs_req_result) (w : world)
  : res (nfs_req_result * Z * compound_data * world) :=
  if bool_decide (result = NFS_REQ_REPLAY) then
    w ← release_nfs4_res_compound (d_res d) w;
    p ← deref (q_slot (d_seq d));
    slot ← get_slot w p;
    cached ← deref (sl_cached slot);
    x ← get_result w cached;
    Ret (result, cr_status (res_compound4 x), set_res cached d, w)
  else
    r ← thisres d w;
    let status := r_status r in
    desc ← op_desc (d_opcode d);
    let op_resp_size :=
      if negb (status =? NFS4_OK)
         && (negb (resp_size_of desc =? VARIABLE_RESP_SIZE) || (d_op_resp_size d =? VARIABLE_RESP_SIZE))
      then SIZEOF_nfsstat4 else d_op_resp_size d in
    let d := set_sizes (wrap_u 32 (d_resp_size d + SIZEOF_nfs_opnum4 + op_resp_size)) op_resp_size d in
    if bool_decide (result = NFS_REQ_ERROR) then
      w ← write_reply d (set_len (Z.of_nat (d_oppos d) + 1)) w;
      Ret (result, status, d, w)
    else Ret (result, status, d, w).

(** The permissions of the export that the operation needs. *)
Definition check_export_perms (desc : nfs4_op_desc) (v : opview) : Z :=
  let perm_flags := Z.land (exp_perm_flags desc) EXPORT_OPTION_ACCESS_MASK in
  if perm_flags =? 0 then NFS4_OK
  else if negb (nfs4_Is_Fh_Empty (currentFH v) =? NFS4_OK) then nfs4_Is_Fh_Empty (currentFH v)
  else if negb (Z.land (export_options v) perm_flags =? perm_flags) then
    if negb (Z.land perm_flags EXPORT_OPTION_MODIFY_ACCESS =? 0) then NFS4ERR_ROFS else NFS4ERR_ACCESS
  else NFS4_OK.

(** The checks before the call: the status of the first that fails. *)
Definition check_op (desc : nfs4_op_desc) (thisarg : nfs_argop4) (d : compound_data) (w : world) : res Z :=
  let later := (0 <? d_oppos d)%nat in
  if later && (d_opcode d =? NFS4_OP_BIND_CONN_TO_SESSION) then Ret NFS4ERR_NOT_ONLY_OP
  else if later && (d_opcode d =? NFS4_OP_SEQUENCE) then Ret NFS4ERR_SEQUENCE_POS
  else
    arg0 ← deref (d_argarray d !! 0%nat);
    if later && (d_opcode d =? NFS4_OP_DESTROY_SESSION)
       && bool_decide (sa_sessionid (opsequence arg0) = opdestroy_session thisarg)
       && negb (d_oppos d =? length (d_argarray d) - 1)%nat
    then Ret NFS4ERR_NOT_ONLY_OP
    else
      attrs ← (if 0 <? d_minorversion d then session_attrs d w else Ret None);
      if match attrs with Some attrs => ca_maxoperations attrs =? Z.of_nat (d_oppos d) | None => false end
      then Ret NFS4ERR_TOO_MANY_OPS
      else
        let status := check_export_perms desc (d_view d) in
        if negb (status =? NFS4_OK) then Ret status
        else check_resp_room d w (resp_size_of desc).

Definition process_one_op (d : compound_data) (w : world) : res (nfs_req_result * Z * compound_data * world) :=
  thisarg ← deref (d_argarray d !! d_oppos d);
  last ← deref (LastOpcode !! Z.to_nat (d_minorversion d));
  let opcode := if last <? argop thisarg then 0 else argop thisarg in
  let d := set_pos (d_oppos d) opcode (set_sizes (d_resp_size d) SIZEOF_nfsstat4 d) in
  desc ← op_desc opcode;
  status ← check_op desc thisarg d w;
  if negb (status =? NFS4_OK) then
    let d := set_sizes (wrap_u 32 (d_resp_size d + SIZEOF_nfs_opnum4 + SIZEOF_nfsstat4)) (d_op_resp_size d) d in
    r ← thisres d w;
    w ← write_reply d (store_resop (d_oppos d) (MkResop opcode status (r_body r))) w;
    w ← write_reply d (set_len (Z.of_nat (d_oppos d) + 1)) w;
    Ret (NFS_REQ_ERROR, status, d, w)
  else
    '(result, d, w) ← call_op desc thisarg (set_sizes (d_resp_size d) (resp_size_of desc) d) w;
    if bool_decide (result = NFS_REQ_ASYNC_WAIT) then Ret (result, status, d, w)
    else complete_op d result w.

(** The loop over the operations, from the result of the last one. *)
Fixpoint process_ops (fuel : nat) (result : nfs_req_result) (status : Z) (d : compound_data) (w : world)
  : res (nfs_req_result * Z * compound_data * world) :=
  match fuel with
  | O => Ret (result, status, d, w)
  | S fuel =>
    if bool_decide (result = NFS_REQ_OK) && (d_oppos d <? length (d_argarray d))%nat then
      '(result, status, d, w) ← process_one_op d w;
      if bool_decide (result = NFS_REQ_ASYNC_WAIT) then Ret (result, status, d, w)
      else process_ops fuel result status (set_pos (S (d_oppos d)) (d_opcode d) d) w
    else Ret (result, status, d, w)
  end.

(** The reply that a slot keeps when the client did not ask for it to be cached. *)
Definition uncached_reply (c : COMPOUND4res) : res COMPOUND4res :=
  tag ← utf8string_dup (utf8string_val (cr_tag c)) (Z.to_nat (utf8string_len (cr_tag c)));
  res0 ← deref (cr_val c !! 0%nat);
  if cr_len c =? 1 then Ret (MkCompound (r_status res0) tag 1 [res0])
  else
    res1 ← deref (cr_val c !! 1%nat);
    let st := if (r_status res1 =? NFS4_OK) || (r_status res1 =? NFS4ERR_DENIED) then NFS4ERR_RETRY_UNCACHED_REP else r_status res1 in
    Ret (MkCompound st tag 2 [res0; MkResop (resop res1) st (r_body res1)]).

Definition complete_nfs4_compound (d : compound_data) (status : Z) (result : nfs_req_result) (w : world) : res world :=
  w ← write_reply d (set_status status) w;
  w ←
    (if q_cachethis (d_seq d) then
       p ← deref (q_slot (d_seq d));
       w ← set_cached p (Some (d_res d)) w;
       inc_result (d_res d) w
     else
       arg0 ← deref (d_argarray d !! 0%nat);
       if (0 <? d_minorversion d) && negb (bool_decide (result = NFS_REQ_REPLAY)) && (argop arg0 =? NFS4_OP_SEQUENCE) then
         match q_slot (d_seq d) with
         | None => Ret w
         | Some p =>
           w ← release_slot p w;
           x ← get_result w (d_res d);
           c ← uncached_reply (res_compound4 x);
           let '(r, w) := new_result (MkExtended c 1) w in
           set_cached p (Some r) w
         end
       else Ret w);
  match q_preserved_clientid (d_seq d) with
  | Some c => update_lease c w
  | None => Ret w
  end.

Definition compound_data_Free (d : compound_data) (w : world) : res world :=
  let w := match v_handles (d_view d) with Some h => set_fs (release_handles h (w_fs w)) w | None => w end in
  match q_session (d_seq d) with
  | None => Ret w
  | Some a =>
    w ← (if negb (q_slotid (d_seq d) =? 2 ^ 32 - 1) then unlock_slot (a, Z.to_nat (q_slotid (d_seq d))) w else Ret w);
    dec_session_ref a w
  end.

(** What becomes of a request: its reply is sent, or it is dropped, or it waits. *)
Inductive outcome := Replied (r : nat) | Dropped (r : nat) | Suspended (d : compound_data).

(** The end of the loop, for a request that is not suspended. *)
Definition finish_ops (x : nfs_req_result * Z * compound_data * world) : res (outcome * world) :=
  let '(result, status, d, w) := x in
  if bool_decide (result = NFS_REQ_ASYNC_WAIT) then Ret (Suspended d, w)
  else
    w ← complete_nfs4_compound d status result w;
    w ← compound_data_Free d w;
    Ret (Replied (d_res d), w).

Definition nfs4_compound_resume (d : compound_data) (w : world) : res (outcome * world) :=
  desc ← op_desc (d_opcode d);
  thisarg ← deref (d_argarray d !! d_oppos d);
  r ← thisres d w;
  '(result, r, d, w) ←
    (if String.eqb (op_res desc) "nfs4_default_resume" then Ret (NFS_REQ_OK, r, d, w)
     else op_done (op_resume (op_res desc) (op_other thisarg) (d_minorversion d) r (check_resp_room d w) (d_view d) (w_fs w)) d w);
  w ← write_reply d (store_resop (d_oppos d) r) w;
  if bool_decide (result = NFS_REQ_ASYNC_WAIT) then Ret (Suspended d, w)
  else
    '(result, status, d, w) ← complete_op d result w;
    x ← process_ops (length (d_argarray d)) result status (set_pos (S (d_oppos d)) (d_opcode d) d) w;
    finish_ops x.

(** A request; [rq_cred] says whether its credential is well formed. *)
Record request := MkRequest {
  rq_minorversion : Z; rq_tag : utf8string; rq_argarray : list nfs_argop4; rq_xprt : sockaddr; rq_cred : bool }.

Definition zero_reply : COMPOUND4res := MkCompound 0 (MkUtf8 0 None) 0 [].
Definition zero_resop : nfs_resop4 := MkResop 0 0 ZeroRes.

(** NFSv4.1 allows few operations without SEQUENCE, and those only alone. *)
Definition starts_compound (op : Z) : bool :=
  existsb (Z.eqb op) [NFS4_OP_ILLEGAL; NFS4_OP_SEQUENCE; NFS4_OP_EXCHANGE_ID; NFS4_OP_CREATE_SESSION;
                      NFS4_OP_DESTROY_SESSION; NFS4_OP_BIND_CONN_TO_SESSION; NFS4_OP_DESTROY_CLIENTID].
Definition only_op (op : Z) : bool :=
  existsb (Z.eqb op) [NFS4_OP_EXCHANGE_ID; NFS4_OP_CREATE_SESSION; NFS4_OP_DESTROY_CLIENTID; NFS4_OP_DESTROY_SESSION;
                      NFS4_OP_BIND_CONN_TO_SESSION].

Definition UTF8_SCAN_STRICT : Z := if enforce_utf8_vld then UTF8_SCAN_CKUTF8 else 0.

(** The processing of a request up to its end or its suspension, as one step of the
    world. *)
Definition nfs4_Compound (arg : request) (w : world) : res (outcome * world) :=
  let '(r, w) := new_result (MkExtended zero_reply 1) w in
  let reply st tag vals (w : world) :=
    Ret (Replied r, put_result r (Some (MkExtended (MkCompound st tag 0 vals) 1)) w) in
  let argarray := rq_argarray arg in
  let len := length argarray in
  if 2 <? rq_minorversion arg then reply NFS4ERR_MINOR_VERS_MISMATCH (MkUtf8 0 None) [] w
  else if Z.land minor_versions (Z.shiftl 1 (rq_minorversion arg)) =? 0 then
    reply NFS4ERR_MINOR_VERS_MISMATCH (MkUtf8 0 None) [] w
  else
    tag ← utf8string_dup (utf8string_val (rq_tag arg)) (Z.to_nat (utf8string_len (rq_tag arg)));
    scan ← (if 0 <? utf8string_len tag then nfs4_utf8string_scan tag UTF8_SCAN_STRICT else Ret NFS4_OK);
    if negb (scan =? 0) then reply NFS4ERR_INVAL tag [] w
    else if (len =? 0)%nat then reply NFS4_OK tag [] w
    else if (100 <? len)%nat then reply NFS4ERR_RESOURCE tag [] w
    else if negb (rq_cred arg) then Ret (Dropped r, put_result r (Some (MkExtended (MkCompound 0 tag 0 []) 1)) w)
    else
      arg0 ← deref (argarray !! 0%nat);
      let tag := MkUtf8 (utf8string_len (rq_tag arg)) (utf8string_val tag) in
      let resarray := replicate len zero_resop in
      if (0 <? rq_minorversion arg) && negb (starts_compound (argop arg0)) then reply NFS4ERR_OP_NOT_IN_SESSION tag resarray w
      else if (0 <? rq_minorversion arg) && (1 <? len)%nat && only_op (argop arg0) then reply NFS4ERR_NOT_ONLY_OP tag resarray w
      else
        let w := put_result r (Some (MkExtended (MkCompound 0 tag (Z.of_nat len) resarray) 1)) w in
        let d := MkData (rq_minorversion arg) argarray (rq_xprt arg) r 0 0 (wrap_u 32 (sizeof "COMPOUND4res" - 8)) 0
                        no_sequence (MkView [] 0 None) in
        x ← process_ops len NFS_REQ_OK NFS4_OK d w;
        finish_ops x.

(** The reply was sent. *)
Definition nfs4_Compound_Free (r : nat) (w : world) : res world := release_nfs4_res_compound r w.
End compound.
