(* ===== verification/NfsSessionInv.v ===== *)
(** * References to sessions, slots, replies and leases

    Who holds what, as a list of tokens: a reference to a session, the mutex of a slot, a
    reference to a reply, a reply that a request still writes, a reservation of a lease.
    The invariant says that the counters and mutexes agree with the tokens; the lemmas
    say for each function which tokens it takes and gives. *)

From S2P Require Import Prelude NfsProto NfsSession.
Local Open Scope Z_scope.

(** ** Sums over lists *)

Fixpoint tally {A} (f : A -> Z) (l : list A) : Z :=
  match l with [] => 0 | x :: l => f x + tally f l end.

Lemma tally_app {A} (f : A -> Z) l k : tally f (l ++ k) = tally f l + tally f k.
Proof. induction l as [|x l IH]; cbn [tally app]; lia. Qed.

Lemma tally_insert {A} (f : A -> Z) l i x y : l !! i = Some x -> tally f (<[i := y]> l) = tally f l - f x + f y.
Proof.
  revert i. induction l as [|z l IH]; intros [|i] Hi; try done.
  - injection Hi as ->. cbn. lia.
  - change (<[S i := y]> (z :: l)) with (z :: <[i := y]> l). cbn [tally]. rewrite (IH i Hi). lia.
Qed.

Lemma tally_nonneg {A} (f : A -> Z) l : (forall x, 0 <= f x) -> 0 <= tally f l.
Proof. intros Hf. induction l as [|x l IH]; cbn [tally]; [lia|]. specialize (Hf x). lia. Qed.

Lemma tally_lookup {A} (f : A -> Z) l i x : (forall x, 0 <= f x) -> l !! i = Some x -> f x <= tally f l.
Proof.
  intros Hf. revert i. induction l as [|z l IH]; intros [|i] Hi; try done.
  - injection Hi as ->. cbn [tally]. pose proof (tally_nonneg f l Hf). lia.
  - cbn [tally]. specialize (IH i Hi). specialize (Hf z). lia.
Qed.

Lemma tally_ext {A} (f g : A -> Z) l : (forall x, x ∈ l -> f x = g x) -> tally f l = tally g l.
Proof.
  induction l as [|x l IH]; intros Hfg; [done|]. cbn [tally]. rewrite (Hfg x), IH; [done| |apply list_elem_of_here].
  intros y Hy. apply Hfg. by apply list_elem_of_further.
Qed.

(** ** Tokens *)

Inductive token := TSession (a : nat) | TLock (p : nat * nat) | TResult (r : nat) | TWriter (r : nat) | TLease (c : nat).
#[export] Instance token_eq : EqDecision token.
Proof. solve_decision. Defined.

Definition is_token (t u : token) : Z := if decide (u = t) then 1 else 0.
Definition cnt (t : token) (T : list token) : Z := tally (is_token t) T.

Lemma is_token_nonneg t u : 0 <= is_token t u.
Proof. unfold is_token. case_decide; lia. Qed.
Lemma cnt_nonneg t T : 0 <= cnt t T.
Proof. apply tally_nonneg, is_token_nonneg. Qed.
Lemma cnt_app t T U : cnt t (T ++ U) = cnt t T + cnt t U.
Proof. apply tally_app. Qed.
Lemma cnt_cons t u T : cnt t (u :: T) = is_token t u + cnt t T.
Proof. done. Qed.
Lemma cnt_nil t : cnt t [] = 0.
Proof. done. Qed.
Lemma is_token_same t : is_token t t = 1.
Proof. unfold is_token. by rewrite decide_True. Qed.
Lemma is_token_other t u : u <> t -> is_token t u = 0.
Proof. intros Hn. unfold is_token. by rewrite decide_False. Qed.

(** Counts of explicit lists of tokens. *)
Ltac count_step :=
  match goal with
  | |- context [is_token ?t ?t] => rewrite (is_token_same t)
  | H : context [is_token ?t ?t] |- _ => rewrite (is_token_same t) in H
  | |- context [is_token ?t ?u] => rewrite (is_token_other t u) by congruence
  | H : context [is_token ?t ?u] |- _ => rewrite (is_token_other t u) in H by congruence
  end.
Ltac counts := rewrite ?cnt_app, ?cnt_cons, ?cnt_nil in *; repeat count_step.

(** ** The invariant *)

Section inv.
Context `{Nfs4Types}.

Definition alive (w : world) (a : nat) (s : nfs41_session) : Prop := w_sessions w !! a = Some (Some s).
Definition result (w : world) (r : nat) (x : COMPOUND4res_extended) : Prop := w_results w !! r = Some (Some x).

Definition slot_refs (r : nat) (sl : session_slot) : Z := if decide (sl_cached sl = Some r) then 1 else 0.
Definition session_refs (r : nat) (os : option nfs41_session) : Z :=
  match os with Some s => tally (slot_refs r) (fc_slots s) | None => 0 end.
(** The slots that cache a reply. *)
Definition cached_refs (r : nat) (w : world) : Z := tally (session_refs r) (w_sessions w).

Definition table_refs (w : world) (a : nat) (s : nfs41_session) : Z :=
  if decide (w_table w !! session_id s = Some a) then 1 else 0.

(** The slots of a session, with the mutexes that are held. *)
Definition slots_ok (a : nat) (l : list session_slot) (T : list token) : Prop :=
  forall i sl, l !! i = Some sl -> 0 <= sl_sequence sl < 2 ^ 32 /\ cnt (TLock (a, i)) T = if sl_lock sl then 1 else 0.

Record session_ok (w : world) (a : nat) (s : nfs41_session) (T : list token) : Prop := {
  so_count : refcount s = table_refs w a s + cnt (TSession a) T;
  so_positive : 0 < refcount s;
  so_slots : Z.of_nat (length (fc_slots s)) = nb_slots s;
  so_requests : ca_maxrequests (fore_channel_attrs s) = nb_slots s;
  so_bound : nb_slots s < 2 ^ 32;
  so_client : (clientid_record s < length (w_clients w))%nat;
  so_locks : slots_ok a (fc_slots s) T }.

Record sess_inv (w : world) (T : list token) : Prop := {
  si_session : forall a s, alive w a s -> session_ok w a s T;
  si_table : forall sid a, w_table w !! sid = Some a -> exists s, alive w a s /\ session_id s = sid;
  si_held : forall a, 0 < cnt (TSession a) T -> exists s, alive w a s;
  si_locked : forall a i, 0 < cnt (TLock (a, i)) T -> 0 < cnt (TSession a) T /\ exists s sl, alive w a s /\ fc_slots s !! i = Some sl }.

(** A tag: empty, or its bytes and a NUL. *)
Definition tag_ok (t : utf8string) : Prop :=
  (utf8string_len t = 0 /\ utf8string_val t = None)
  \/ exists bytes, utf8string_val t = Some (bytes ++ [0]) /\ utf8string_len t = Z.of_nat (length bytes)
                   /\ Forall (fun b => 0 <= b < 256) bytes /\ bytes <> [].

Definition res_inv (w : world) (T : list token) : Prop :=
  forall r,
    match w_results w !! r with
    | Some (Some x) =>
      res_refcnt x = cached_refs r w + cnt (TResult r) T + cnt (TWriter r) T /\ 0 < res_refcnt x
      /\ tag_ok (cr_tag (res_compound4 x)) /\ (0 < cnt (TWriter r) T -> res_refcnt x = 1)
    | _ => cached_refs r w + cnt (TResult r) T + cnt (TWriter r) T = 0
    end.

Definition client_inv (w : world) (T : list token) : Prop :=
  forall c,
    match w_clients w !! c with
    | Some cl =>
      cid_lease_reservations cl = cnt (TLease c) T
      /\ forall a, a ∈ cb_session_list cl -> exists s, alive w a s /\ clientid_record s = c
    | None => cnt (TLease c) T = 0
    end.

Record inv (w : world) (T : list token) : Prop := {
  in_sess : sess_inv w T;
  in_res : res_inv w T;
  in_client : client_inv w T }.

(** The order of the tokens does not matter. *)
Definition same_tokens (T U : list token) : Prop := forall t, cnt t T = cnt t U.

(** Each part depends on some of the state and on its own tokens only. *)
Lemma sess_inv_frame w w' T T' :
  w_sessions w' = w_sessions w -> w_table w' = w_table w -> length (w_clients w') = length (w_clients w) ->
  (forall a, cnt (TSession a) T' = cnt (TSession a) T) -> (forall p, cnt (TLock p) T' = cnt (TLock p) T) ->
  sess_inv w T -> sess_inv w' T'.
Proof.
  intros Es Et Ec HS HL [H1 H2 H3 H4]. unfold alive in *. split; unfold alive; rewrite Es; try rewrite Et.
  - intros a s Hs. destruct (H1 a s Hs) as [? ? ? ? ? ? Hl]. split; try done; [unfold table_refs; by rewrite HS, Et|by rewrite Ec|].
    intros i sl Hi. rewrite HL. by apply Hl.
  - done.
  - intros a. rewrite HS. apply H3.
  - intros a i. rewrite HS, HL. apply H4.
Qed.

Lemma res_inv_frame w w' T T' :
  w_sessions w' = w_sessions w -> w_results w' = w_results w ->
  (forall r, cnt (TResult r) T' = cnt (TResult r) T) -> (forall r, cnt (TWriter r) T' = cnt (TWriter r) T) ->
  res_inv w T -> res_inv w' T'.
Proof. intros Es Er HR HW Hi r. specialize (Hi r). unfold cached_refs. rewrite Es, Er, HR, HW. done. Qed.

Lemma client_inv_frame w w' T T' :
  w_sessions w' = w_sessions w -> w_clients w' = w_clients w -> (forall c, cnt (TLease c) T' = cnt (TLease c) T) ->
  client_inv w T -> client_inv w' T'.
Proof. intros Es Ec HL Hi c. specialize (Hi c). unfold alive in *. by rewrite Es, Ec, HL. Qed.

Lemma inv_proper w T U : same_tokens T U -> inv w T -> inv w U.
Proof.
  intros E [H1 H2 H3]. split; [eapply sess_inv_frame|eapply res_inv_frame|eapply client_inv_frame]; try exact H1; try exact H2; try exact H3;
    intros; done || by rewrite E.
Qed.

Lemma slot_refs_nonneg r sl : 0 <= slot_refs r sl.
Proof. unfold slot_refs. case_decide; lia. Qed.
Lemma session_refs_nonneg r os : 0 <= session_refs r os.
Proof. destruct os; [apply tally_nonneg, slot_refs_nonneg|done]. Qed.
Lemma cached_refs_nonneg r w : 0 <= cached_refs r w.
Proof. apply tally_nonneg, session_refs_nonneg. Qed.

(** A reply that somebody refers to has not been released. *)
Lemma result_held w T r : res_inv w T -> 0 < cached_refs r w + cnt (TResult r) T + cnt (TWriter r) T -> exists x, result w r x.
Proof. intros Hi Hc. specialize (Hi r). unfold result. destruct (w_results w !! r) as [[x|]|]; [by eexists|lia..]. Qed.

Lemma cached_positive w a s i sl r : alive w a s -> fc_slots s !! i = Some sl -> sl_cached sl = Some r -> 0 < cached_refs r w.
Proof.
  intros Ha Hi Hr. unfold cached_refs.
  pose proof (tally_lookup (session_refs r) _ _ _ (session_refs_nonneg r) Ha) as H1. cbn [session_refs] in H1.
  pose proof (tally_lookup (slot_refs r) _ _ _ (slot_refs_nonneg r) Hi) as H2. unfold slot_refs at 1 in H2.
  rewrite decide_True in H2 by done. lia.
Qed.

Lemma get_session_alive w a s : alive w a s -> get_session w a = Ret s.
Proof. intros Ha. unfold get_session. by rewrite Ha. Qed.
Lemma get_result_live w r x : result w r x -> get_result w r = Ret x.
Proof. intros Ha. unfold get_result. by rewrite Ha. Qed.
Lemma get_slot_alive w a i s sl : alive w a s -> fc_slots s !! i = Some sl -> get_slot w (a, i) = Ret sl.
Proof. intros Ha Hi. unfold get_slot. cbn [fst snd]. rewrite (get_session_alive _ _ _ Ha), res_bind_ret. by rewrite Hi. Qed.
Lemma put_slot_alive w a i s sl sl' : alive w a s -> fc_slots s !! i = Some sl ->
  put_slot (a, i) sl' w = Ret (put_session a (Some (set_slots (<[i := sl']> (fc_slots s)) s)) w).
Proof.
  intros Ha Hi. unfold put_slot. cbn [fst snd]. rewrite (get_session_alive _ _ _ Ha), res_bind_ret.
  by rewrite (proj2 (Nat.ltb_lt _ _)) by (by eapply lookup_lt_Some).
Qed.
End inv.

(** ** How the memory evolves *)

Section evolves.
Context `{Nfs4Types}.

Definition slot_at (w : world) (a i : nat) (sl : session_slot) : Prop := exists s, alive w a s /\ fc_slots s !! i = Some sl.

(** The parts of a session that do not change. *)
Record alike (s s' : nfs41_session) : Prop := {
  al_id : session_id s' = session_id s;
  al_attrs : fore_channel_attrs s' = fore_channel_attrs s;
  al_client : clientid_record s' = clientid_record s;
  al_slots : nb_slots s' = nb_slots s;
  al_length : length (fc_slots s') = length (fc_slots s) }.

(** Replies are not changed except those of [W]; what was released stays so. *)
Definition replies_stay (W : list nat) (w w' : world) : Prop :=
  (length (w_results w) <= length (w_results w'))%nat
  /\ forall r x', (r < length (w_results w))%nat -> result w' r x' ->
       exists x, result w r x /\ (r ∉ W -> res_compound4 x' = res_compound4 x).

(** No session is added, and the slots that are not in [P] are not changed while their
    session lives. *)
Record evolves (P : list (nat * nat)) (W : list nat) (w w' : world) : Prop := {
  ev_table : forall sid a, w_table w' !! sid = Some a -> w_table w !! sid = Some a;
  ev_alive : forall a s', alive w' a s' -> exists s, alive w a s /\ alike s s';
  ev_slot : forall a s' i sl, alive w' a s' -> (a, i) ∉ P -> slot_at w a i sl -> slot_at w' a i sl;
  ev_replies : replies_stay W w w' }.

Lemma replies_stay_same W w w' : w_results w' = w_results w -> replies_stay W w w'.
Proof. intros E. split; [by rewrite E|]. intros r x' _ Hr. exists x'. unfold result in *. by rewrite <- E. Qed.

Lemma replies_stay_refl W w : replies_stay W w w.
Proof. by apply replies_stay_same. Qed.

Lemma replies_stay_trans W w1 w2 w3 : replies_stay W w1 w2 -> replies_stay W w2 w3 -> replies_stay W w1 w3.
Proof.
  intros [L1 H1] [L2 H2]. split; [lia|]. intros r x3 Hr H3.
  destruct (H2 r x3) as (x2 & Hx2 & E2); [lia|done|]. destruct (H1 r x2) as (x1 & Hx1 & E1); [done..|].
  exists x1. split; [done|]. intros Hn. by rewrite E2, E1.
Qed.

Lemma alike_trans s1 s2 s3 : alike s1 s2 -> alike s2 s3 -> alike s1 s3.
Proof. intros [? ? ? ? ?] [? ? ? ? ?]. split; congruence. Qed.

Lemma evolves_same P W w w' : w_table w' = w_table w -> w_sessions w' = w_sessions w -> replies_stay W w w' -> evolves P W w w'.
Proof.
  intros Et Es Hr. split; [by rewrite Et| | |done].
  - intros a s'. unfold alive. rewrite Es. intros Hs. by exists s'.
  - intros a s' i sl _ _. unfold slot_at, alive. by rewrite Es.
Qed.

Lemma evolves_refl P W w : evolves P W w w.
Proof. apply evolves_same; [done..|apply replies_stay_refl]. Qed.

Lemma evolves_trans P W w1 w2 w3 : evolves P W w1 w2 -> evolves P W w2 w3 -> evolves P W w1 w3.
Proof.
  intros [A1 B1 C1 D1] [A2 B2 C2 D2]. split; [auto| | |by eapply replies_stay_trans].
  - intros a s3 Hs3. destruct (B2 a s3 Hs3) as (s2 & Hs2 & E2). destruct (B1 a s2 Hs2) as (s1 & Hs1 & E1). exists s1.
    split; [done|by eapply alike_trans].
  - intros a s3 i sl Hs3 Hp Hs. destruct (B2 a s3 Hs3) as (s2 & Hs2 & _). by eapply C2, C1.
Qed.

Lemma evolves_weaken P W P' W' w w' : P ⊆ P' -> W ⊆ W' -> evolves P W w w' -> evolves P' W' w w'.
Proof.
  intros HP HW [A B C [L D]]. split; [done|done| |split; [done|]].
  - intros a s' i sl Hs Hp. apply (C a s'); [done|]. intros Hin. by apply Hp, HP.
  - intros r x' Hr Hx. destruct (D r x' Hr Hx) as (x & Hx0 & E). exists x. split; [done|]. intros Hn. apply E.
    intros Hin. by apply Hn, HW.
Qed.

(** The rest of the state, which the functions on sessions leave alone. *)
Definition same_rest (w w' : world) : Prop := w_fs w' = w_fs w /\ w_time w' = w_time w.

(** What a function does: the tokens afterwards, and how the memory evolved. *)
Definition moves (P : list (nat * nat)) (W : list nat) (w w' : world) (T' : list token) : Prop :=
  inv w' T' /\ evolves P W w w' /\ same_rest w w'.

Lemma moves_trans P W w1 w2 w3 T2 T3 : moves P W w1 w2 T2 -> moves P W w2 w3 T3 -> moves P W w1 w3 T3.
Proof.
  intros (_ & E1 & R1 & S1) (I2 & E2 & R2 & S2). split; [done|]. split; [by eapply evolves_trans|].
  split; congruence.
Qed.

Lemma moves_refl P W w T : inv w T -> moves P W w w T.
Proof. intros Hi. split; [done|]. split; [apply evolves_refl|done]. Qed.

Lemma moves_proper P W w w' T U : same_tokens T U -> moves P W w w' T -> moves P W w w' U.
Proof. intros E (I & R). split; [by eapply inv_proper|done]. Qed.
End evolves.

(** ** A session that is updated *)

Section update.
Context `{Nfs4Types}.

(** The tokens differ at most in those of the session. *)
Definition differ_at (a : nat) (T T' : list token) : Prop :=
  forall t, t <> TSession a -> (forall i, t <> TLock (a, i)) -> cnt t T' = cnt t T.

Lemma alive_put w a b os s : (a < length (w_sessions w))%nat ->
  alive (put_session a os w) b s <-> (a = b /\ os = Some s) \/ (a <> b /\ alive w b s).
Proof.
  intros Hl. unfold alive, put_session. cbn [w_sessions]. destruct (decide (a = b)) as [->|Hn].
  - rewrite list_lookup_insert_eq by done. split; [intros [= ->]; by left|]. intros [[_ ->]|[? _]]; done.
  - rewrite list_lookup_insert_ne by done. split; [by right|]. intros [[? _]|[_ ?]]; done.
Qed.

Lemma alive_length w a s : alive w a s -> (a < length (w_sessions w))%nat.
Proof. apply lookup_lt_Some. Qed.

Lemma cached_refs_put w a s os r : alive w a s ->
  cached_refs r (put_session a os w) = cached_refs r w - tally (slot_refs r) (fc_slots s) + session_refs r os.
Proof. intros Ha. unfold cached_refs, put_session. cbn [w_sessions]. by rewrite (tally_insert _ _ _ _ _ Ha). Qed.

Lemma alive_kept w a s s' b sb : alive w a s -> alike s s' -> alive w b sb ->
  exists sb', alive (put_session a (Some s') w) b sb' /\ alike sb sb'.
Proof.
  intros Ha Hal Hb. destruct (decide (a = b)) as [->|Hn].
  - exists s'. split; [apply alive_put; [by eapply alive_length|by left]|]. unfold alive in *. congruence.
  - exists sb. split; [apply alive_put; [by eapply alive_length|by right]|]. by split.
Qed.

Lemma put_session_sess w T T' a s s' :
  sess_inv w T -> alive w a s -> alike s s' -> differ_at a T T' ->
  refcount s' - refcount s = cnt (TSession a) T' - cnt (TSession a) T -> 0 < refcount s' ->
  slots_ok a (fc_slots s') T' ->
  (forall i, 0 < cnt (TLock (a, i)) T' -> 0 < cnt (TSession a) T' /\ (i < length (fc_slots s))%nat) ->
  sess_inv (put_session a (Some s') w) T'.
Proof.
  intros [H1 H2 H3 H4] Ha Hal Hd Hc Hpos Hsl Hl. pose proof (alive_length _ _ _ Ha) as Hlen.
  assert (forall b, b <> a -> cnt (TSession b) T' = cnt (TSession b) T) as Hb by (intros; apply Hd; congruence).
  assert (forall b i, b <> a -> cnt (TLock (b, i)) T' = cnt (TLock (b, i)) T) as Hbl by (intros; apply Hd; congruence).
  split.
  - intros b sb Hsb. apply alive_put in Hsb as [[<- [= <-]]|[Hn Hsb]]; [|destruct (H1 b sb Hsb)|done].
    + destruct (H1 a s Ha), Hal. split; unfold table_refs, put_session in *; cbn [w_table w_clients] in *; try congruence; try lia; [|done].
      rewrite al_id0. lia.
    + split; try done; [rewrite Hb by done; done|]. intros i sl Hi. rewrite Hbl by done. by apply so_locks0.
  - intros sid b Ht. destruct (H2 sid b Ht) as (sb & Hsb & Hid). destruct (alive_kept w a s s' b sb) as (sb' & Hsb' & [Hid' _ _ _ _]); [done..|].
    exists sb'. split; [done|congruence].
  - intros b Hp. destruct (decide (b = a)) as [->|Hn]; [exists s'; apply alive_put; [done|by left]|].
    rewrite Hb in Hp by done. destruct (H3 b Hp) as (sb & Hsb). destruct (alive_kept w a s s' b sb) as (sb' & ? & _); [done..|by exists sb'].
  - intros b i Hp. destruct (decide (b = a)) as [->|Hn].
    + destruct (Hl i Hp) as [Hp1 Hi]. split; [done|]. rewrite <- (al_length _ _ Hal) in Hi.
      apply lookup_lt_is_Some in Hi as [sl Hi]. exists s', sl. split; [|done]. apply alive_put; [done|by left].
    + rewrite Hbl in Hp by done. rewrite Hb by done. destruct (H4 b i Hp) as (Hp1 & sb & sl & Hsb & Hi). split; [done|].
      exists sb, sl. split; [|done]. apply alive_put; [done|by right].
Qed.

Lemma put_session_res w T T' a s s' :
  res_inv w T -> alive w a s -> differ_at a T T' ->
  (forall r, tally (slot_refs r) (fc_slots s') = tally (slot_refs r) (fc_slots s)) ->
  res_inv (put_session a (Some s') w) T'.
Proof.
  intros Hi Ha Hd Hr r. specialize (Hi r). rewrite (cached_refs_put _ _ s) by done. cbn [session_refs]. rewrite Hr.
  rewrite (Hd (TResult r)), (Hd (TWriter r)) by congruence. unfold put_session. cbn [w_results].
  destruct (w_results w !! r) as [[x|]|]; lia || (destruct Hi as (? & ? & ? & ?); split; [lia|done]).
Qed.

Lemma put_session_client w T T' a s s' :
  client_inv w T -> alive w a s -> alike s s' -> differ_at a T T' -> client_inv (put_session a (Some s') w) T'.
Proof.
  intros Hi Ha Hal Hd c. specialize (Hi c). rewrite (Hd (TLease c)) by congruence.
  change (w_clients (put_session a (Some s') w)) with (w_clients w).
  destruct (w_clients w !! c) as [cl|]; [|done]. destruct Hi as [Hc Hl]. split; [done|].
  intros b Hb. destruct (Hl b Hb) as (sb & Hsb & Hrec). destruct (alive_kept w a s s' b sb) as (sb' & ? & [? ? ? ? ?]); [done..|].
  exists sb'. split; [done|congruence].
Qed.

Lemma put_session_moves P W w T T' a s s' :
  inv w T -> alive w a s -> alike s s' -> differ_at a T T' ->
  refcount s' - refcount s = cnt (TSession a) T' - cnt (TSession a) T -> 0 < refcount s' ->
  slots_ok a (fc_slots s') T' ->
  (forall i, 0 < cnt (TLock (a, i)) T' -> 0 < cnt (TSession a) T' /\ (i < length (fc_slots s))%nat) ->
  (forall r, tally (slot_refs r) (fc_slots s') = tally (slot_refs r) (fc_slots s)) ->
  (forall i, (a, i) ∉ P -> fc_slots s' !! i = fc_slots s !! i) ->
  moves P W w (put_session a (Some s') w) T'.
Proof.
  intros [H1 H2 H3] Ha Hal Hd Hc Hpos Hsl Hl Hr HP. split; [split|split; [split|done]].
  - by eapply put_session_sess.
  - by eapply put_session_res.
  - by eapply put_session_client.
  - done.
  - intros b sb Hsb. apply alive_put in Hsb as [[<- [= <-]]|[Hn Hsb]]; [by exists s|by exists sb|by eapply alive_length].
  - intros b sb' i sl _ Hn (sb & Hsb & Hi). destruct (decide (b = a)) as [->|Hne].
    + exists s'. split; [apply alive_put; [by eapply alive_length|by left]|]. rewrite HP by done. unfold alive in *. congruence.
    + exists sb. split; [|done]. apply alive_put; [by eapply alive_length|]. right. done.
  - by apply replies_stay_same.
Qed.
End update.

Section restore.
Context `{Nfs4Types}.

(** A slot that is as it was has not changed. *)
Lemma evolves_restore W w w' a i :
  evolves [(a, i)] W w w' -> (forall sl, slot_at w a i sl -> slot_at w' a i sl) -> evolves [] W w w'.
Proof.
  intros [A B C D] Hr. split; [done|done| |done]. intros b s' j sl Hs _ Hsl. destruct (decide ((b, j) = (a, i))) as [[= -> ->]|Hn]; [by apply Hr|].
  apply (C b s'); [done| |done]. by intros [?|?%elem_of_nil]%elem_of_cons.
Qed.

Lemma moves_weaken P W P' W' w w' T : P ⊆ P' -> W ⊆ W' -> moves P W w w' T -> moves P' W' w w' T.
Proof. intros HP HW (I & E & R). split; [done|]. split; [by eapply evolves_weaken|done]. Qed.

Lemma moves_more P W w w' T : moves [] [] w w' T -> moves P W w w' T.
Proof. apply moves_weaken; apply list_subseteq_nil. Qed.

(** Slots across a change of others. *)
Lemma slot_at_moves P W w w' T a i sl s' : moves P W w w' T -> (a, i) ∉ P -> alive w' a s' -> slot_at w a i sl -> slot_at w' a i sl.
Proof. intros (_ & [_ _ C _] & _) Hp Ha. by apply (C a s'). Qed.

Lemma alive_in_table w T sid a : inv w T -> w_table w !! sid = Some a -> exists s, alive w a s /\ session_id s = sid.
Proof. intros Hi. apply (si_table _ _ (in_sess _ _ Hi)). Qed.
End restore.
