(* ===== verification/NfsSessionOps.v ===== *)
(** * The functions on sessions and the tokens they move *)

From S2P Require Import Prelude NfsProto NfsSession NfsSessionInv.
Local Open Scope Z_scope.

Section ops.
Context `{Nfs4Types}.
Implicit Types (w : world) (T : list token).

Lemma slot_at_det w a i sl1 sl2 : slot_at w a i sl1 -> slot_at w a i sl2 -> sl1 = sl2.
Proof. intros (s1 & H1 & E1) (s2 & H2 & E2). unfold alive in *. congruence. Qed.

Lemma slot_at_get w a i sl : slot_at w a i sl -> get_slot w (a, i) = Ret sl.
Proof. intros (s & Hs & Hi). by eapply get_slot_alive. Qed.

(** ** References to a session *)

Lemma slots_ok_tokens a l T T' : (forall i, cnt (TLock (a, i)) T' = cnt (TLock (a, i)) T) -> slots_ok a l T -> slots_ok a l T'.
Proof. intros E Hl i sl Hi. rewrite E. by apply Hl. Qed.

Lemma inc_session_ref_moves P W w T a s :
  inv w T -> alive w a s ->
  exists w', inc_session_ref a w = Ret w' /\ moves P W w w' (TSession a :: T) /\ w_table w' = w_table w /\ w_clients w' = w_clients w
    /\ alive w' a (set_refcount (refcount s + 1) s).
Proof.
  intros Hi Ha. unfold inc_session_ref. rewrite (get_session_alive _ _ _ Ha), res_bind_ret. eexists. split; [done|].
  split; [|split; [done|split; [done|apply alive_put; [by eapply alive_length|by left]]]].
  pose proof (si_session _ _ (in_sess _ _ Hi) a s Ha) as Hs.
  assert (forall i, cnt (TLock (a, i)) (TSession a :: T) = cnt (TLock (a, i)) T) as HL by (intros i; by counts).
  apply (put_session_moves P W w T _ a s); try done.
  - intros t Ht _. counts. done.
  - cbn [refcount set_refcount]. counts. lia.
  - cbn [refcount set_refcount]. pose proof (so_positive _ _ _ _ Hs). lia.
  - cbn [fc_slots set_refcount]. eapply slots_ok_tokens, so_locks; [apply HL|done].
  - intros i. rewrite HL. intros Hc. destruct (si_locked _ _ (in_sess _ _ Hi) a i Hc) as (Hp & s' & sl & Hs' & Hsl).
    split; [counts; lia|]. apply lookup_lt_Some in Hsl. unfold alive in *. congruence.
Qed.

Lemma get_pointer_moves P W w T sid :
  inv w T ->
  (w_table w !! sid = None /\ nfs41_Session_Get_Pointer sid w = Ret (None, w))
  \/ exists a s w', w_table w !! sid = Some a /\ alive w a s /\ nfs41_Session_Get_Pointer sid w = Ret (Some a, w')
       /\ moves P W w w' (TSession a :: T) /\ w_table w' = w_table w /\ w_clients w' = w_clients w
       /\ alive w' a (set_refcount (refcount s + 1) s).
Proof.
  intros Hi. unfold nfs41_Session_Get_Pointer. destruct (w_table w !! sid) as [a|] eqn:Ht; [|by left]. right.
  destruct (si_table _ _ (in_sess _ _ Hi) sid a Ht) as (s & Hs & _).
  destruct (inc_session_ref_moves P W w T a s Hi Hs) as (w' & -> & Hm & Htab & Hcl & Hal). exists a, s, w'. by rewrite res_bind_ret.
Qed.

(** ** Slots *)

(** A slot that is rewritten with the same cached reply. *)
Lemma put_slot_moves W w T T' a i sl sl' :
  inv w T -> slot_at w a i sl -> sl_cached sl' = sl_cached sl -> 0 <= sl_sequence sl' < 2 ^ 32 ->
  (forall t, t <> TLock (a, i) -> cnt t T' = cnt t T) ->
  cnt (TLock (a, i)) T' = (if sl_lock sl' then 1 else 0) -> (sl_lock sl' = true -> 0 < cnt (TSession a) T) ->
  exists w', put_slot (a, i) sl' w = Ret w' /\ moves [(a, i)] W w w' T' /\ slot_at w' a i sl' /\ w_table w' = w_table w.
Proof.
  intros Hi (s & Hs & Hsl) Hc Hq HT HL Hheld. rewrite (put_slot_alive _ _ _ _ _ _ Hs Hsl). eexists. split; [done|].
  pose proof (si_session _ _ (in_sess _ _ Hi) a s Hs) as Hok. pose proof (lookup_lt_Some _ _ _ Hsl) as Hlen.
  split; [|split; [|done]].
  - apply (put_session_moves _ W w T _ a s); try done.
    + split; try done. cbn [fc_slots set_slots]. by rewrite length_insert.
    + intros t _ Ht. by apply HT.
    + cbn [refcount set_slots]. rewrite HT by done. lia.
    + apply (so_positive _ _ _ _ Hok).
    + intros j slj Hj. cbn [fc_slots set_slots] in Hj. apply list_lookup_insert_Some in Hj as [(<- & <- & _)|[Hn Hj]]; [done|].
      rewrite HT by congruence. by apply (so_locks _ _ _ _ Hok).
    + intros j Hj. rewrite HT by done. destruct (decide (j = i)) as [->|Hn].
      * split; [|done]. apply Hheld. destruct (sl_lock sl'); [done|lia].
      * rewrite HT in Hj by congruence. destruct (si_locked _ _ (in_sess _ _ Hi) a j Hj) as (Hp & s' & slj & Hs' & Hslj).
        split; [done|]. apply lookup_lt_Some in Hslj. unfold alive in *. congruence.
    + intros r. cbn [fc_slots set_slots]. rewrite (tally_insert _ _ _ _ _ Hsl). unfold slot_refs. rewrite Hc. lia.
    + intros j Hj. cbn [fc_slots set_slots]. rewrite list_lookup_insert_ne; [done|]. intros ->. apply Hj, list_elem_of_here.
  - eexists. split; [apply alive_put; [by eapply alive_length|by left]|]. by apply list_lookup_insert_eq.
Qed.

Lemma slot_ok_at w T a i sl : inv w T -> slot_at w a i sl -> 0 <= sl_sequence sl < 2 ^ 32 /\ cnt (TLock (a, i)) T = if sl_lock sl then 1 else 0.
Proof. intros Hi (s & Hs & Hsl). by apply (so_locks _ _ _ _ (si_session _ _ (in_sess _ _ Hi) a s Hs)). Qed.

(** The tokens of the mutex, added or taken away. *)
Lemma lock_tokens p T t : t <> TLock p -> cnt t (TLock p :: T) = cnt t T.
Proof. intros Ht. counts. done. Qed.

Lemma lock_slot_moves W w T a i sl :
  inv w T -> slot_at w a i sl -> 0 < cnt (TSession a) T ->
  (sl_lock sl = true /\ lock_slot (a, i) w = Fail)
  \/ sl_lock sl = false /\ exists w', lock_slot (a, i) w = Ret w' /\ moves [(a, i)] W w w' (TLock (a, i) :: T)
       /\ slot_at w' a i (MkSlot (sl_sequence sl) true (sl_cached sl)) /\ w_table w' = w_table w.
Proof.
  intros Hi Hsl Hh. unfold lock_slot. rewrite (slot_at_get _ _ _ _ Hsl), res_bind_ret.
  destruct (slot_ok_at _ _ _ _ _ Hi Hsl) as [Hq Hl]. destruct (sl_lock sl); [by left|]. right. split; [done|].
  apply put_slot_moves with (T := T) (sl := sl); try done; [by intros; apply lock_tokens|]. counts. cbn [sl_lock]. lia.
Qed.

Lemma unlock_slot_moves W w T a i :
  inv w (TLock (a, i) :: T) ->
  exists sl w', slot_at w a i sl /\ sl_lock sl = true /\ unlock_slot (a, i) w = Ret w' /\ moves [(a, i)] W w w' T
    /\ slot_at w' a i (MkSlot (sl_sequence sl) false (sl_cached sl)) /\ w_table w' = w_table w.
Proof.
  intros Hi. assert (0 < cnt (TLock (a, i)) (TLock (a, i) :: T)) as Hc by (pose proof (cnt_nonneg (TLock (a, i)) T); counts; lia).
  destruct (si_locked _ _ (in_sess _ _ Hi) a i Hc) as (_ & s & sl & Hs & Hsl).
  assert (slot_at w a i sl) as Hat by (by exists s).
  destruct (slot_ok_at _ _ _ _ _ Hi Hat) as [Hq Hl]. destruct (sl_lock sl) eqn:El; [|lia].
  unfold unlock_slot. rewrite (slot_at_get _ _ _ _ Hat), res_bind_ret, El.
  destruct (put_slot_moves W w (TLock (a, i) :: T) T a i sl (MkSlot (sl_sequence sl) false (sl_cached sl))) as (w' & Hp & Hm & Ha & Ht);
    try done; [by intros; rewrite lock_tokens|counts; cbn [sl_lock]; lia|]. by exists sl, w'.
Qed.

(** The connection of a request is bound to its session. *)
Lemma check_session_conn_moves P W w T a s addr can :
  inv w T -> alive w a s -> exists b w', check_session_conn a addr can w = Ret (b, w') /\ moves P W w w' T /\ w_table w' = w_table w.
Proof.
  intros Hi Ha. unfold check_session_conn. rewrite (get_session_alive _ _ _ Ha), res_bind_ret.
  case_match; [exists true, w; split; [done|]; split; [by apply moves_refl|done]|].
  case_match; [exists false, w; split; [done|]; split; [by apply moves_refl|done]|]. eexists _, _. split; [done|]. split; [|done].
  pose proof (si_session _ _ (in_sess _ _ Hi) a s Ha) as Hs.
  apply (put_session_moves P W w T _ a s); try done; [cbn; lia|by apply (so_positive _ _ _ _ Hs)|by apply (so_locks _ _ _ _ Hs)|].
  intros i Hc. destruct (si_locked _ _ (in_sess _ _ Hi) a i Hc) as (Hp & s' & sl & Hs' & Hsl).
  split; [done|]. apply lookup_lt_Some in Hsl. unfold alive in *. congruence.
Qed.

Lemma get_chan_total w T c : inv w T -> (c < length (w_clients w))%nat -> exists o, nfs_rpc_get_chan c w = Ret o.
Proof.
  intros Hi Hc. unfold nfs_rpc_get_chan, get_client. apply lookup_lt_is_Some in Hc as [cl Hcl].
  pose proof (in_client _ _ Hi c) as Hl. rewrite Hcl in Hl |- *. destruct Hl as [_ Hl]. cbn [deref]. rewrite res_bind_ret.
  clear Hcl. induction (cb_session_list cl) as [|a l IH]; [by eexists|]. cbn [find_bc].
  destruct (Hl a) as (s & Hs & _); [apply list_elem_of_here|]. rewrite (get_session_alive _ _ _ Hs), res_bind_ret.
  destruct (bc_up s); [by eexists|]. apply IH. intros b Hb. apply Hl. by apply list_elem_of_further.
Qed.

(** ** Leases *)

Lemma put_client_moves P W w T T' c cl cl' :
  inv w T -> w_clients w !! c = Some cl -> cb_session_list cl' = cb_session_list cl ->
  (forall t, t <> TLease c -> cnt t T' = cnt t T) -> cid_lease_reservations cl' = cnt (TLease c) T' ->
  moves P W w (put_client c cl' w) T'.
Proof.
  intros [Hs Hr Hc] Hcl Hl HT Hn. pose proof (lookup_lt_Some _ _ _ Hcl) as Hlen.
  split; [split|split; [apply evolves_same; [done..|by apply replies_stay_same]|done]].
  - apply (sess_inv_frame w _ T); try done; [by cbn; rewrite length_insert|intros; by apply HT..].
  - apply (res_inv_frame w _ T); try done; intros; by apply HT.
  - intros b. cbn [put_client w_clients]. destruct (decide (b = c)) as [->|Hne].
    + rewrite list_lookup_insert_eq by done. split; [done|]. rewrite Hl. specialize (Hc c). rewrite Hcl in Hc. apply Hc.
    + rewrite list_lookup_insert_ne by done. rewrite HT by congruence. apply Hc.
Qed.

(** The lease of a client is still valid. *)
Definition leased (w : world) (c : nat) : Prop := exists cl, w_clients w !! c = Some cl /\ valid_lease cl (w_time w) <> 0.

Lemma reserve_lease_moves P W w T c :
  inv w T -> (c < length (w_clients w))%nat ->
  exists w', w_table w' = w_table w /\ w_sessions w' = w_sessions w
    /\ ((leased w c /\ reserve_lease c w = Ret (true, w') /\ moves P W w w' (TLease c :: T))
        \/ (~ leased w c /\ reserve_lease c w = Ret (false, w') /\ moves P W w w' T)).
Proof.
  intros Hi Hc. apply lookup_lt_is_Some in Hc as [cl Hcl]. unfold reserve_lease, get_client. rewrite Hcl. cbn [deref]. rewrite res_bind_ret.
  destruct (Z.eqb_spec (valid_lease cl (w_time w)) 0) as [Hz|Hn]; cbn [negb].
  - exists w. split; [done|]. split; [done|]. right. split; [|split; [done|by apply moves_refl]]. intros (cl' & Hcl' & Hv). congruence.
  - eexists (put_client c _ w). split; [done|]. split; [done|]. left. split; [by exists cl|]. split; [done|].
    eapply put_client_moves; try done; [intros t Ht; by counts|].
    cbn [cid_lease_reservations]. counts. pose proof (in_client _ _ Hi c) as Hx. rewrite Hcl in Hx. lia.
Qed.

Lemma update_lease_moves P W w T c :
  inv w (TLease c :: T) -> exists w', update_lease c w = Ret w' /\ moves P W w w' T /\ w_table w' = w_table w /\ w_sessions w' = w_sessions w.
Proof.
  intros Hi. pose proof (in_client _ _ Hi c) as Hx. pose proof (cnt_nonneg (TLease c) T). unfold update_lease, get_client.
  destruct (w_clients w !! c) as [cl|] eqn:Hcl; [|counts; lia]. cbn [deref]. rewrite res_bind_ret. eexists. split; [done|]. split; [|done].
  eapply put_client_moves; try done; [intros t Ht; by counts|]. cbn [cid_lease_reservations]. counts. lia.
Qed.

(** ** Replies *)

Lemma result_put w r ox q y : (r < length (w_results w))%nat ->
  result (put_result r ox w) q y <-> (r = q /\ ox = Some y) \/ (r <> q /\ result w q y).
Proof.
  intros Hl. unfold result, put_result. cbn [w_results]. destruct (decide (r = q)) as [->|Hn].
  - rewrite list_lookup_insert_eq by done. split; [intros [= ->]; by left|]. intros [[_ ->]|[? _]]; done.
  - rewrite list_lookup_insert_ne by done. split; [by right|]. intros [[? _]|[_ ?]]; done.
Qed.

(** A reply that is updated: its count follows the tokens. *)
Lemma put_result_moves P W w T T' r x ox :
  inv w T -> result w r x ->
  (forall t, t <> TResult r -> t <> TWriter r -> cnt t T' = cnt t T) ->
  match ox with
  | Some x' =>
    res_refcnt x' - res_refcnt x = cnt (TResult r) T' + cnt (TWriter r) T' - cnt (TResult r) T - cnt (TWriter r) T
    /\ 0 < res_refcnt x' /\ tag_ok (cr_tag (res_compound4 x')) /\ (0 < cnt (TWriter r) T' -> res_refcnt x' = 1)
    /\ (r ∉ W -> res_compound4 x' = res_compound4 x)
  | None => cached_refs r w + cnt (TResult r) T' + cnt (TWriter r) T' = 0
  end ->
  moves P W w (put_result r ox w) T'.
Proof.
  intros [Hs Hr Hc] Hx HT Hox. pose proof (lookup_lt_Some _ _ _ Hx) as Hlen.
  split; [split|split; [apply evolves_same; [done|done|]|done]].
  - apply (sess_inv_frame w _ T); try done; intros; by apply HT.
  - intros q. specialize (Hr q). change (cached_refs q (put_result r ox w)) with (cached_refs q w).
    cbn [put_result w_results]. destruct (decide (q = r)) as [->|Hn].
    + rewrite list_lookup_insert_eq by done. rewrite Hx in Hr. destruct ox as [x'|]; [|done]. destruct Hox as (? & ? & ? & ? & _). split_and!; try done. lia.
    + rewrite list_lookup_insert_ne by done. rewrite !HT by congruence. done.
  - apply (client_inv_frame w _ T); try done. intros; by apply HT.
  - split; [by cbn; rewrite length_insert|]. intros q y Hq Hy. apply result_put in Hy as [[<- ->]|[Hn Hy]]; [|by exists y|done].
    exists x. split; [done|]. apply Hox.
Qed.

Lemma inc_result_moves P W w T r :
  inv w T -> cnt (TWriter r) T = 0 -> 0 < cached_refs r w + cnt (TResult r) T ->
  exists w', inc_result r w = Ret w' /\ moves P W w w' (TResult r :: T) /\ w_table w' = w_table w /\ w_sessions w' = w_sessions w.
Proof.
  intros Hi Hw Hr. destruct (result_held w T r (in_res _ _ Hi)) as [x Hx]; [lia|]. pose proof (in_res _ _ Hi r) as Hok.
  unfold inc_result. rewrite (get_result_live _ _ _ Hx), res_bind_ret. eexists. split; [done|]. split; [|done].
  rewrite Hx in Hok. destruct Hok as (? & ? & ? & ?). eapply put_result_moves; [done|done|intros t ? ?; by counts|].
  cbn [res_refcnt res_compound4]. counts. split_and!; try done; lia.
Qed.

(** A reference to a reply is given back, by who writes it or who holds it. *)
Lemma release_result_moves P W w T r t :
  inv w (t :: T) -> t = TResult r \/ t = TWriter r -> cnt (TWriter r) T = 0 ->
  exists w', release_nfs4_res_compound r w = Ret w' /\ moves P W w w' T /\ w_table w' = w_table w /\ w_sessions w' = w_sessions w.
Proof.
  intros Hi Ht Hw. pose proof (cnt_nonneg (TResult r) T). pose proof (cnt_nonneg (TWriter r) T).
  pose proof (cached_refs_nonneg r w). pose proof (in_res _ _ Hi r) as Hok.
  assert (cnt (TResult r) (t :: T) + cnt (TWriter r) (t :: T) = 1 + cnt (TResult r) T) as Hsum by (destruct Ht as [->| ->]; counts; lia).
  destruct (result_held w (t :: T) r (in_res _ _ Hi)) as [x Hx]; [lia|]. rewrite Hx in Hok. destruct Hok as (Hc1 & Hc2 & Hc3 & Hc4).
  unfold release_nfs4_res_compound. rewrite (get_result_live _ _ _ Hx), res_bind_ret.
  assert (forall u, u <> TResult r -> u <> TWriter r -> cnt u T = cnt u (t :: T)) as HT by (intros u ? ?; destruct Ht as [->| ->]; by counts).
  destruct (Z.ltb_spec 0 (res_refcnt x - 1)); eexists; (split; [done|]); (split; [|done]); (eapply put_result_moves; [done|done|done|]).
  - cbn [res_refcnt res_compound4]. split_and!; try done; try lia.
  - lia.
Qed.

(** ** The reply that a slot caches *)

Definition uncache (i : nat) (sl : session_slot) (s : nfs41_session) : nfs41_session :=
  set_slots (<[i := MkSlot (sl_sequence sl) (sl_lock sl) None]> (fc_slots s)) s.

(** The state that the release of replies leaves alone. *)
Record same_tables (w w' : world) : Prop := {
  st_table : w_table w' = w_table w;
  st_clients : w_clients w' = w_clients w;
  st_rest : same_rest w w' }.

Lemma uncache_none s i sl : fc_slots s !! i = Some sl -> sl_cached sl = None -> uncache i sl s = s.
Proof.
  intros Hi Hn. unfold uncache. replace (MkSlot (sl_sequence sl) (sl_lock sl) None) with sl by (destruct sl; cbn in *; congruence).
  rewrite list_insert_id by done. by destruct s.
Qed.

Lemma slot_refs_uncache r s i sl : fc_slots s !! i = Some sl ->
  tally (slot_refs r) (fc_slots (uncache i sl s)) = tally (slot_refs r) (fc_slots s) - slot_refs r sl.
Proof. intros Hi. cbn [uncache set_slots fc_slots]. rewrite (tally_insert _ _ _ _ _ Hi). unfold slot_refs. cbn [sl_cached]. rewrite (decide_False (P := None = Some r)) by done. lia. Qed.

Lemma release_slot_spec W w T a s i sl :
  res_inv w T -> alive w a s -> fc_slots s !! i = Some sl ->
  exists w', release_slot (a, i) w = Ret w' /\ res_inv w' T /\ w_sessions w' = <[a := Some (uncache i sl s)]> (w_sessions w)
    /\ same_tables w w' /\ replies_stay W w w'.
Proof.
  intros Hi Ha Hsl. unfold release_slot. rewrite (get_slot_alive _ _ _ _ _ Ha Hsl), res_bind_ret.
  destruct (sl_cached sl) as [r|] eqn:Hr.
  2: { exists w. split; [done|]. split; [done|]. split; [|split; [done|apply replies_stay_refl]].
       rewrite uncache_none by done. by rewrite list_insert_id. }
  pose proof (cached_positive w a s i sl r Ha Hsl Hr) as Hpos. pose proof (cnt_nonneg (TResult r) T). pose proof (cnt_nonneg (TWriter r) T).
  destruct (result_held w T r Hi) as [x Hx]; [lia|]. pose proof (Hi r) as Hok. rewrite Hx in Hok. destruct Hok as (Hc1 & Hc2 & Hc3 & Hc4).
  pose proof (lookup_lt_Some _ _ _ Hx) as Hlen.
  unfold release_nfs4_res_compound. rewrite (get_result_live _ _ _ Hx), res_bind_ret.
  set (ox := if 0 <? res_refcnt x - 1 then Some (MkExtended (res_compound4 x) (res_refcnt x - 1)) else None).
  replace (if 0 <? res_refcnt x - 1 then _ else _) with (Ret (put_result r ox w)) by (unfold ox; by case_match).
  rewrite res_bind_ret. unfold set_cached. rewrite (get_slot_alive (put_result r ox w) a i s sl), res_bind_ret by done.
  rewrite (put_slot_alive (put_result r ox w) a i s sl) by done. eexists. split; [done|].
  split; [|split; [done|split; [done|]]].
  - intros q. specialize (Hi q). change (cached_refs q (put_session ?u ?v (put_result r ox w))) with (cached_refs q (put_session u v w)).
    rewrite (cached_refs_put w a s) by done. cbn [session_refs]. fold (uncache i sl s). rewrite slot_refs_uncache by done.
    cbn [put_session put_result w_results]. unfold slot_refs. rewrite Hr. destruct (decide (q = r)) as [->|Hn].
    + rewrite list_lookup_insert_eq by done. rewrite decide_True by done. unfold ox.
      destruct (Z.ltb_spec 0 (res_refcnt x - 1)); [|lia]. cbn [res_refcnt res_compound4]. split_and!; try done; lia.
    + rewrite list_lookup_insert_ne by done. rewrite decide_False by congruence.
      destruct (w_results w !! q) as [[y|]|]; lia || (destruct Hi as (? & ? & ? & ?); split; [lia|done]).
  - split; [by cbn; rewrite length_insert|]. intros q y Hq Hy. change (result (put_result r ox w) q y) in Hy.
    apply result_put in Hy as [[<- Hox]|[Hn Hy]]; [|by exists y|done]. exists x. split; [done|]. intros _.
    unfold ox in Hox. case_match; by simplify_eq.
Qed.

Lemma release_slot_moves W w T a i sl :
  inv w T -> slot_at w a i sl ->
  exists w', release_slot (a, i) w = Ret w' /\ moves [(a, i)] W w w' T /\ slot_at w' a i (MkSlot (sl_sequence sl) (sl_lock sl) None)
    /\ w_table w' = w_table w.
Proof.
  intros Hi (s & Ha & Hsl). destruct (release_slot_spec W w T a s i sl (in_res _ _ Hi) Ha Hsl) as (w' & E & Hr & Es & [Et Ec Er] & Hst).
  pose proof (lookup_lt_Some _ _ _ Hsl) as Hlen. pose proof (si_session _ _ (in_sess _ _ Hi) a s Ha) as Hok.
  assert (alike s (uncache i sl s)) as Hal by (split; try done; cbn; by rewrite length_insert).
  assert (sess_inv (put_session a (Some (uncache i sl s)) w) T) as Hs.
  { eapply (put_session_sess w T); [apply Hi|done|done|done|cbn; lia|by apply (so_positive _ _ _ _ Hok)| |].
    - intros j slj Hj. cbn in Hj. apply list_lookup_insert_Some in Hj as [(<- & <- & _)|[Hn Hj]];
        [apply (so_locks _ _ _ _ Hok i sl Hsl)|by apply (so_locks _ _ _ _ Hok)].
    - intros j Hj. destruct (si_locked _ _ (in_sess _ _ Hi) a j Hj) as (Hp & s' & slj & Hs' & Hslj).
      split; [done|]. apply lookup_lt_Some in Hslj. unfold alive in *. congruence. }
  exists w'. split; [done|]. split; [|split; [|done]]; [split; [split|split; [split|done]]|].
  - eapply sess_inv_frame; [| | | | |exact Hs]; try done. by rewrite Ec.
  - done.
  - eapply client_inv_frame; [| | |eapply (put_session_client w T T a s (uncache i sl s)); [apply Hi|done..]]; done.
  - by rewrite Et.
  - intros b sb Hsb. unfold alive in Hsb. rewrite Es in Hsb. apply list_lookup_insert_Some in Hsb as [(<- & [= <-] & _)|[_ Hsb]]; [by exists s|by exists sb].
  - intros b sb' j slj _ Hn (sb & Hsb & Hj). destruct (decide (b = a)) as [->|Hne].
    + exists (uncache i sl s). split; [unfold alive; rewrite Es; by apply list_lookup_insert_eq, (alive_length w a s)|].
      cbn. rewrite list_lookup_insert_ne; [unfold alive in *; congruence|]. intros ->. apply Hn, list_elem_of_here.
    + exists sb. split; [|done]. unfold alive in *. by rewrite Es, list_lookup_insert_ne.
  - done.
  - exists (uncache i sl s). split; [unfold alive; rewrite Es; by apply list_lookup_insert_eq, (alive_length w a s)|].
    cbn. by apply list_lookup_insert_eq.
Qed.

(** ** The last reference to a session *)

(** The slots of a session nobody uses any more: none is locked, and those of [l] are empty. *)
Definition emptied (l : list nat) (s s' : nfs41_session) : Prop :=
  session_id s' = session_id s /\ length (fc_slots s') = length (fc_slots s)
  /\ forall j slj, fc_slots s' !! j = Some slj -> sl_lock slj = false /\ (j ∈ l -> sl_cached slj = None).

Lemma release_slots_spec W T a l : forall w s done,
  res_inv w T -> alive w a s -> (forall i, i ∈ l -> (i < length (fc_slots s))%nat) -> emptied done s s ->
  exists w' s', release_slots a l w = Ret w' /\ res_inv w' T /\ w_sessions w' = <[a := Some s']> (w_sessions w)
    /\ emptied (l ++ done) s s' /\ same_tables w w' /\ replies_stay W w w'.
Proof.
  induction l as [|i l IH]; intros w s dn Hi Ha Hl He; cbn [release_slots].
  { exists w, s. split; [done|]. split; [done|]. split; [by rewrite list_insert_id|]. split; [done|]. split; [done|apply replies_stay_refl]. }
  destruct (lookup_lt_is_Some_2 (fc_slots s) i) as [sl Hsl]; [apply Hl, list_elem_of_here|].
  rewrite (get_slot_alive _ _ _ _ _ Ha Hsl), res_bind_ret. destruct (proj2 (proj2 He) i sl Hsl) as [-> _].
  destruct (release_slot_spec W w T a s i sl Hi Ha Hsl) as (w1 & -> & Hi1 & Es1 & [Et1 Ec1 [Ef1 Em1]] & Hst1). rewrite res_bind_ret.
  destruct (IH w1 (uncache i sl s) (i :: dn)) as (w2 & s2 & E2 & Hi2 & Es2 & He2 & [Et2 Ec2 [Ef2 Em2]] & Hst2); [done| | | |].
  - unfold alive. rewrite Es1. by apply list_lookup_insert_eq, (alive_length w a s).
  - intros j Hj. cbn. rewrite length_insert. apply Hl. by apply list_elem_of_further.
  - split; [done|]. split; [done|]. intros j slj Hj. cbn in Hj.
    apply list_lookup_insert_Some in Hj as [(<- & <- & _)|[Hn Hj]]; [by destruct (proj2 (proj2 He) i sl Hsl)|].
    destruct (proj2 (proj2 He) j slj Hj) as [H1 H2]. split; [done|]. intros [->|Hj']%elem_of_cons; [done|auto].
  - exists w2, s2. split; [done|]. split; [done|]. split; [by rewrite Es2, Es1, list_insert_insert_eq|]. split; [|split].
    + destruct He2 as (I2 & L2 & S2). split; [done|]. split; [rewrite L2; cbn; apply length_insert|]. intros j slj Hj.
      destruct (S2 j slj Hj) as [H1 H2]. split; [done|]. intros Hin. apply H2. rewrite elem_of_app, elem_of_cons in *. tauto.
    + split; [congruence..|split; congruence].
    + by eapply replies_stay_trans.
Qed.

Lemma emptied_refs r s s' : emptied (seq 0 (length (fc_slots s))) s s' -> tally (slot_refs r) (fc_slots s') = 0.
Proof.
  intros (_ & Hlen & He). rewrite (tally_ext _ (fun _ => 0)).
  - induction (fc_slots s') as [|x l IH] in |- *; cbn [tally]; lia.
  - intros sl [j Hj]%list_elem_of_lookup. destruct (He j sl Hj) as [_ Hn]. unfold slot_refs. rewrite decide_False; [done|].
    rewrite Hn; [done|]. apply elem_of_seq. apply lookup_lt_Some in Hj. lia.
Qed.

(** A session that is gone. *)
Lemma remove_session_sess w w' U T a s :
  sess_inv w U -> (forall t, t <> TSession a -> cnt t T = cnt t U) -> alive w a s -> cnt (TSession a) T = 0 ->
  w_table w !! session_id s <> Some a -> (forall i, 0 < cnt (TLock (a, i)) T -> 0 < cnt (TSession a) T) ->
  w_sessions w' = <[a := None]> (w_sessions w) -> w_table w' = w_table w -> length (w_clients w') = length (w_clients w) ->
  sess_inv w' T.
Proof.
  intros [H1 H2 H3 H4] HU Ha Hc Ht Hl Es Et Ec. pose proof (alive_length _ _ _ Ha) as Hlen.
  assert (forall b sb, alive w' b sb <-> b <> a /\ alive w b sb) as Hal.
  { intros b sb. unfold alive. rewrite Es. destruct (decide (a = b)) as [->|Hn].
    - rewrite list_lookup_insert_eq by done. split; [done|]. by intros [? _].
    - rewrite list_lookup_insert_ne by done. split; [by split|]. by intros [_ ?]. }
  split.
  - intros b sb [Hn Hb]%Hal. destruct (H1 b sb Hb) as [? ? ? ? ? ? Hlk]. split; try done; [unfold table_refs; rewrite Et, HU by congruence; done|by rewrite Ec|].
    intros i sl Hi. rewrite HU by done. by apply Hlk.
  - intros sid b. rewrite Et. intros Hb. destruct (H2 sid b Hb) as (sb & Hsb & Hid). exists sb. split; [|done]. apply Hal. split; [|done].
    intros ->. unfold alive in *. simplify_eq.
  - intros b Hb. assert (b <> a) as Hn by (intros ->; lia). rewrite HU in Hb by congruence. destruct (H3 b Hb) as (sb & Hsb). exists sb. by apply Hal.
  - intros b i Hb. assert (b <> a) as Hn by (intros ->; specialize (Hl i Hb); lia). rewrite HU in Hb by done. rewrite HU by congruence.
    destruct (H4 b i Hb) as (Hp & sb & sl & Hsb & Hsl). split; [done|]. exists sb, sl. split; [|done]. by apply Hal.
Qed.

Lemma remove_session_client w w' T T' a s cl :
  client_inv w T -> alive w a s -> w_clients w !! clientid_record s = Some cl -> (forall c, cnt (TLease c) T' = cnt (TLease c) T) ->
  w_sessions w' = <[a := None]> (w_sessions w) ->
  w_clients w' = <[clientid_record s := MkClient (cid_expired cl) (cid_lease_reservations cl) (cid_last_renew cl)
                                          (filter (fun b => b <> a) (cb_session_list cl))]> (w_clients w) ->
  client_inv w' T'.
Proof.
  intros Hi Ha Hcl HT Es Ec c. pose proof (lookup_lt_Some _ _ _ Hcl) as Hlen.
  assert (forall b sb, b <> a -> alive w b sb -> alive w' b sb) as Hal
    by (intros b sb Hn Hb; unfold alive in *; by rewrite Es, list_lookup_insert_ne).
  specialize (Hi c). rewrite Ec, HT. destruct (decide (c = clientid_record s)) as [->|Hn].
  - rewrite list_lookup_insert_eq by done. rewrite Hcl in Hi. destruct Hi as [Hc Hl]. split; [done|]. cbn [cb_session_list].
    intros b [Hne Hb]%list_elem_of_filter. destruct (Hl b Hb) as (sb & Hsb & Hrec). exists sb. auto.
  - rewrite list_lookup_insert_ne by done. destruct (w_clients w !! c) as [cl'|]; [|done]. destruct Hi as [Hc Hl]. split; [done|].
    intros b Hb. destruct (Hl b Hb) as (sb & Hsb & Hrec). exists sb. split; [|done]. apply Hal; [|done].
    intros ->. unfold alive in *. simplify_eq.
Qed.

Lemma last_reference P W w T a s :
  inv w (TSession a :: T) -> (forall i, 0 < cnt (TLock (a, i)) T -> 0 < cnt (TSession a) T) -> alive w a s -> refcount s - 1 = 0 ->
  exists w', dec_session_ref a w = Ret w' /\ moves P W w w' T /\ w_table w' = w_table w
    /\ w_sessions w' = <[a := None]> (w_sessions w)
    /\ exists cl, w_clients w !! clientid_record s = Some cl
         /\ w_clients w' = <[clientid_record s := MkClient (cid_expired cl) (cid_lease_reservations cl) (cid_last_renew cl)
                                                    (filter (fun b => b <> a) (cb_session_list cl))]> (w_clients w).
Proof.
  intros Hi Hl Ha Hn. pose proof (si_session _ _ (in_sess _ _ Hi) a s Ha) as [Hcnt _ Hlen _ _ Hcl Hlk].
  pose proof (cnt_nonneg (TSession a) T) as Hnn. unfold table_refs in Hcnt. counts. case_decide as Htab; [lia|].
  assert (cnt (TSession a) T = 0) as Hz by lia.
  assert (emptied [] (set_refcount 0 s) (set_refcount 0 s)) as Hemp.
  { split; [done|]. split; [done|]. intros j slj Hj. split; [|by intros ?%elem_of_nil]. destruct (Hlk j slj Hj) as [_ Hj']. counts.
    destruct (sl_lock slj); [|done]. specialize (Hl j). lia. }
  apply lookup_lt_is_Some in Hcl as [cl Hcl].
  unfold dec_session_ref. rewrite (get_session_alive _ _ _ Ha), res_bind_ret, Hn. cbn zeta. rewrite (proj2 (Z.eqb_eq 0 0)) by done.
  unfold get_client. cbn [put_session w_clients]. rewrite Hcl. cbn [deref]. rewrite res_bind_ret.
  set (w2 := put_client _ _ _).
  assert (alive w2 a (set_refcount 0 s)) as Ha2 by (apply (alive_put w a a); [by eapply alive_length|by left]).
  assert (res_inv w2 T) as Hr2.
  { eapply res_inv_frame; [| | | |eapply (put_session_res w (TSession a :: T) T a s (set_refcount 0 s)); [apply Hi|done| |done]]; try done.
    intros t Ht _. by counts. }
  destruct (release_slots_spec W T a (seq 0 (Z.to_nat (nb_slots s))) w2 (set_refcount 0 s) []) as
    (w3 & s3 & E3 & Hr3 & Es3 & He3 & [Et3 Ec3 [Ef3 Em3]] & Hst3); [done|done|intros i [_ Hi']%elem_of_seq; cbn; lia|done|].
  rewrite E3, res_bind_ret. rewrite app_nil_r, <- Hlen, Nat2Z.id in He3.
  assert (w_sessions (put_session a None w3) = <[a := None]> (w_sessions w)) as Es.
  { cbn [put_session w_sessions]. rewrite Es3. cbn. by rewrite !list_insert_insert_eq. }
  assert (w_table w3 = w_table w) as Et by (by rewrite Et3).
  eexists. split; [done|]. split; [|split; [done|split; [done|]]]; [|exists cl; split; [done|]; cbn [put_session w_clients]; by rewrite Ec3].
  split; [split|split; [split|by split]].
  - eapply (remove_session_sess w _ (TSession a :: T) T a s); try done; [apply Hi|intros t Ht; by counts|].
    cbn [put_session w_clients]. rewrite Ec3. cbn. by rewrite length_insert.
  - intros r. specialize (Hr3 r). rewrite (cached_refs_put w3 a s3) by (unfold alive; rewrite Es3; apply list_lookup_insert_eq, (alive_length _ _ _ Ha2)).
    cbn [session_refs]. rewrite (emptied_refs r _ _ He3), Z.sub_0_r, Z.add_0_r. done.
  - eapply (remove_session_client w _ (TSession a :: T) T a s cl); [apply Hi|done|done|intros c; by counts|done|].
    cbn [put_session w_clients]. by rewrite Ec3.
  - cbn [put_session w_table]. by rewrite Et.
  - intros b sb Hsb. unfold alive in Hsb. rewrite Es in Hsb. apply list_lookup_insert_Some in Hsb as [(_ & [=] & _)|[_ Hsb]]. by exists sb.
  - intros b sb' i sl Hsb' _ (sb & Hsb & Hsl). exists sb. split; [|done]. unfold alive in Hsb' |- *. rewrite Es in Hsb' |- *.
    apply list_lookup_insert_Some in Hsb' as [(_ & [=] & _)|[Hne _]]. by rewrite list_lookup_insert_ne.
  - destruct Hst3 as [L3 S3]. split; [done|]. intros r x' Hr Hx. by apply (S3 r x').
Qed.

Lemma dec_session_ref_moves P W w T a :
  inv w (TSession a :: T) -> (forall i, 0 < cnt (TLock (a, i)) T -> 0 < cnt (TSession a) T) ->
  exists w', dec_session_ref a w = Ret w' /\ moves P W w w' T /\ w_table w' = w_table w.
Proof.
  intros Hi Hl. assert (0 < cnt (TSession a) (TSession a :: T)) as Hh by (pose proof (cnt_nonneg (TSession a) T); counts; lia).
  destruct (si_held _ _ (in_sess _ _ Hi) a Hh) as [s Ha]. destruct (decide (refcount s - 1 = 0)) as [Hz|Hn]; 
    [destruct (last_reference P W w T a s) as (w' & ? & ? & ? & _); [done..|by exists w']|].
  pose proof (si_session _ _ (in_sess _ _ Hi) a s Ha) as Hs. pose proof (so_positive _ _ _ _ Hs).
  unfold dec_session_ref. rewrite (get_session_alive _ _ _ Ha), res_bind_ret. cbn zeta. rewrite (proj2 (Z.eqb_neq _ 0)) by done.
  eexists. split; [done|]. split; [|done].
  apply (put_session_moves P W w (TSession a :: T) T a s); try done.
  - intros t Ht _. by counts.
  - cbn [refcount set_refcount]. counts. lia.
  - cbn [refcount set_refcount]. lia.
  - eapply slots_ok_tokens, (so_locks _ _ _ _ Hs). intros i. by counts.
  - intros i Hc. split; [by eapply Hl|]. destruct (si_locked _ _ (in_sess _ _ Hi) a i) as (_ & s' & sl & Hs' & Hsl); [by counts|].
    apply lookup_lt_Some in Hsl. unfold alive in *. congruence.
Qed.

(** ** A session that is removed from the table *)

Lemma untable_inv w T sid a :
  inv w T -> w_table w !! sid = Some a -> inv (set_table (delete sid (w_table w)) w) (TSession a :: T).
Proof.
  intros Hi Ht. destruct (si_table _ _ (in_sess _ _ Hi) sid a Ht) as (s & Ha & Hid). split.
  - destruct (in_sess _ _ Hi) as [H1 H2 H3 H4]. split.
    + intros b sb Hb. change (alive w b sb) in Hb. destruct (H1 b sb Hb) as [Hc ? ? ? ? ? Hlk]. split; try done.
      unfold table_refs in *. cbn [set_table w_table]. destruct (decide (b = a)) as [->|Hn].
      * assert (sb = s) as -> by (unfold alive in *; congruence). rewrite Hid in Hc |- *. rewrite decide_True in Hc by done.
        rewrite lookup_delete_eq, decide_False by done. counts. lia.
      * destruct (decide (session_id sb = sid)) as [E|Hne].
        { rewrite E in Hc |- *. rewrite lookup_delete_eq, decide_False by done. rewrite decide_False in Hc by congruence. counts. lia. }
        { rewrite lookup_delete_ne by done. counts. lia. }
    + intros sid' b Hb. cbn [set_table w_table] in Hb. apply lookup_delete_Some in Hb as [_ Hb]. by apply H2.
    + intros b Hb. destruct (decide (b = a)) as [->|Hn]; [by exists s|]. counts. by apply H3.
    + intros b i Hb. counts. destruct (H4 b i Hb) as [? ?]. split; [|done]. pose proof (is_token_nonneg (TSession b) (TSession a)). lia.
  - eapply res_inv_frame; [| | | |apply Hi]; try done; intros; by counts.
  - eapply client_inv_frame; [| | |apply Hi]; try done; intros; by counts.
Qed.

Lemma session_del_moves P W w T sid :
  inv w T -> exists b w', nfs41_Session_Del sid w = Ret (b, w') /\ moves P W w w' T.
Proof.
  intros Hi. unfold nfs41_Session_Del. destruct (w_table w !! sid) as [a|] eqn:Ht; [|by exists false, w; split; [|apply moves_refl]].
  pose proof (untable_inv w T sid a Hi Ht) as Hi1. set (w1 := set_table (delete sid (w_table w)) w) in *.
  destruct (dec_session_ref_moves P W w1 T a Hi1) as (w2 & -> & (I2 & E2 & R2) & _).
  { intros i Hc. by apply (si_locked _ _ (in_sess _ _ Hi) a i). }
  rewrite res_bind_ret. exists true, w2. split; [done|]. split; [done|]. split; [|done].
  destruct E2 as [A B C D]. split; [|done|done|done]. intros sid' b Hb. specialize (A sid' b Hb). cbn [w1 set_table w_table] in A.
  by apply lookup_delete_Some in A as [_ A].
Qed.
End ops.
