(* ===== verification/NfsCompoundProofs.v ===== *)
(** * COMPOUND requests and the tokens they hold *)

From S2P Require Import Prelude NfsProto NfsNames NfsSession NfsSessionInv NfsSessionOps NfsCompound.
Local Open Scope Z_scope.

Section replies.
Context `{Nfs4Types}.
Implicit Types (w : world) (T : list token).

(** ** The reply of a request *)

Lemma new_result_moves P W w T c t :
  inv w T -> tag_ok (cr_tag c) -> t = TResult (length (w_results w)) \/ t = TWriter (length (w_results w)) ->
  exists w', new_result (MkExtended c 1) w = (length (w_results w), w') /\ moves P W w w' (t :: T)
    /\ result w' (length (w_results w)) (MkExtended c 1) /\ w_table w' = w_table w /\ w_sessions w' = w_sessions w
    /\ cnt (TResult (length (w_results w))) T = 0 /\ cnt (TWriter (length (w_results w))) T = 0.
Proof.
  intros Hi Htag Ht. set (r := length (w_results w)) in *. eexists. split; [done|].
  pose proof (cnt_nonneg (TResult r) T). pose proof (cnt_nonneg (TWriter r) T). pose proof (cached_refs_nonneg r w).
  pose proof (in_res _ _ Hi r) as Hr. rewrite (lookup_ge_None_2 (w_results w) r) in Hr by (unfold r; lia).
  assert (forall u, u <> TResult r -> u <> TWriter r -> cnt u (t :: T) = cnt u T) as HT by (intros u ? ?; destruct Ht as [->| ->]; by counts).
  split; [|split; [unfold result; cbn [w_results]; by rewrite lookup_app_r, Nat.sub_diag by (unfold r; lia)|split; [done|split; [done|lia]]]].
  split; [split|split; [apply evolves_same; [done|done|]|done]].
  - apply (sess_inv_frame w _ T); try done; [intros; by apply HT..|apply Hi].
  - intros q. pose proof (in_res _ _ Hi q) as Hq.
    change (cached_refs q (MkWorld _ _ _ _ _ _)) with (cached_refs q w). cbn [w_results]. destruct (decide (q = r)) as [->|Hn].
    + rewrite lookup_app_r, Nat.sub_diag by (unfold r; lia). cbn [lookup list_lookup res_refcnt res_compound4].
      destruct Ht as [->| ->]; counts; split_and!; try done; lia.
    + rewrite !HT by congruence. destruct (decide (q < r)%nat) as [Hl|Hl]; [by rewrite lookup_app_l|].
      rewrite lookup_ge_None_2 in Hq by (unfold r in *; lia). rewrite lookup_ge_None_2; [done|].
      rewrite length_app. cbn [length]. unfold r in *. lia.
  - apply (client_inv_frame w _ T); try done; [intros; by apply HT|apply Hi].
  - split; [cbn [w_results]; rewrite length_app; lia|]. intros q y Hq Hy. exists y. split; [|done].
    unfold result in *. cbn [w_results] in Hy. by rewrite lookup_app_l in Hy.
Qed.

Lemma write_reply_moves P w T d f x c :
  inv w T -> 0 < cnt (TWriter (d_res d)) T -> result w (d_res d) x -> f (res_compound4 x) = Ret c ->
  cr_tag c = cr_tag (res_compound4 x) ->
  exists w', write_reply d f w = Ret w' /\ moves P [d_res d] w w' T /\ result w' (d_res d) (MkExtended c 1)
    /\ w_table w' = w_table w /\ w_sessions w' = w_sessions w.
Proof.
  intros Hi Hw Hx Hf Htag. pose proof (in_res _ _ Hi (d_res d)) as Hr. rewrite Hx in Hr. destruct Hr as (Hc1 & Hc2 & Hc3 & Hc4).
  pose proof (lookup_lt_Some _ _ _ Hx) as Hlen. specialize (Hc4 Hw).
  unfold write_reply. rewrite (get_result_live _ _ _ Hx), res_bind_ret, Hf, res_bind_ret, Hc4. eexists. split; [done|].
  split; [|split; [apply result_put; [done|by left]|done]].
  apply (put_result_moves P _ w T T _ x); try done. cbn [res_refcnt res_compound4]. rewrite Htag.
  split_and!; try done; [lia|]. intros Hn. destruct Hn. apply list_elem_of_here.
Qed.

(** ** A reply goes to the cache of a slot *)

Definition cache (i r : nat) (sl : session_slot) (s : nfs41_session) : nfs41_session :=
  set_slots (<[i := MkSlot (sl_sequence sl) (sl_lock sl) (Some r)]> (fc_slots s)) s.

Lemma set_cached_moves W w T a i sl r :
  inv w (TResult r :: T) -> slot_at w a i sl -> sl_cached sl = None ->
  exists s w', alive w a s /\ set_cached (a, i) (Some r) w = Ret w' /\ w' = put_session a (Some (cache i r sl s)) w /\ moves [(a, i)] W w w' T
    /\ slot_at w' a i (MkSlot (sl_sequence sl) (sl_lock sl) (Some r)).
Proof.
  intros Hi (s & Ha & Hsl) Hn. pose proof (lookup_lt_Some _ _ _ Hsl) as Hlen.
  pose proof (si_session _ _ (in_sess _ _ Hi) a s Ha) as Hok.
  unfold set_cached. rewrite (get_slot_alive _ _ _ _ _ Ha Hsl), res_bind_ret, (put_slot_alive _ _ _ _ _ _ Ha Hsl).
  exists s. eexists. split; [done|]. split; [done|]. split; [done|].
  assert (alike s (cache i r sl s)) as Hal by (split; try done; cbn; by rewrite length_insert).
  assert (differ_at a (TResult r :: T) (TResult r :: T)) as Hd by done.
  split; [split; [split|split; [split|done]]|].
  - eapply sess_inv_frame with (T := TResult r :: T) (w := put_session a (Some (cache i r sl s)) w); try done.
    eapply (put_session_sess w (TResult r :: T)); [apply Hi|done|done|done|cbn; lia|by apply (so_positive _ _ _ _ Hok)| |].
    + intros j slj Hj. cbn in Hj. apply list_lookup_insert_Some in Hj as [(<- & <- & _)|[Hne Hj]];
        [apply (so_locks _ _ _ _ Hok i sl Hsl)|by apply (so_locks _ _ _ _ Hok)].
    + intros j Hj. destruct (si_locked _ _ (in_sess _ _ Hi) a j Hj) as (Hp & s' & slj & Hs' & Hslj).
      split; [done|]. apply lookup_lt_Some in Hslj. unfold alive in *. congruence.
  - intros q. pose proof (in_res _ _ Hi q) as Hq.
    assert (cached_refs q (put_session a (Some (cache i r sl s)) w) = cached_refs q w + if decide (r = q) then 1 else 0) as Ec.
    { rewrite (cached_refs_put w a s) by done. cbn [session_refs cache set_slots fc_slots]. rewrite (tally_insert _ _ _ _ _ Hsl).
      unfold slot_refs. rewrite Hn. cbn [sl_cached]. rewrite (decide_False (P := None = Some q)) by done.
      repeat case_decide; try lia; congruence. }
    fold (cache i r sl s). rewrite Ec. cbn [put_session w_results]. case_decide as Hd'; [subst q|]; counts;
      (destruct (w_results w !! _) as [[x|]|]; [|lia..]); destruct Hq as (? & ? & ? & ?); split_and!; try done; lia.
  - eapply client_inv_frame with (T := TResult r :: T); [| | |eapply (put_session_client w (TResult r :: T) _ a s (cache i r sl s)); [apply Hi|done..]]; done.
  - done.
  - intros b sb Hsb. apply alive_put in Hsb as [[<- [= <-]]|[_ Hsb]]; [by exists s|by exists sb|by eapply alive_length].
  - intros b sb' j slj _ Hp (sb & Hsb & Hj). destruct (decide (b = a)) as [->|Hne].
    + eexists. split; [apply alive_put; [by eapply alive_length|by left]|]. cbn.
      rewrite list_lookup_insert_ne; [unfold alive in *; congruence|]. intros ->. apply Hp, list_elem_of_here.
    + exists sb. split; [|done]. apply alive_put; [by eapply alive_length|]. by right.
  - by apply replies_stay_same.
  - eexists. split; [apply alive_put; [by eapply alive_length|by left]|]. by apply list_lookup_insert_eq.
Qed.

(** The reply of a request that ends is cached, and sent. *)
Lemma cache_reply_moves w T a i sl r x :
  inv w (TWriter r :: T) -> cnt (TWriter r) T = 0 -> result w r x -> slot_at w a i sl -> sl_cached sl = None ->
  exists w', (w1 ← set_cached (a, i) (Some r) w; inc_result r w1) = Ret w' /\ moves [(a, i)] [] w w' (TResult r :: T)
    /\ slot_at w' a i (MkSlot (sl_sequence sl) (sl_lock sl) (Some r)) /\ (exists n, result w' r (MkExtended (res_compound4 x) n)) /\ w_table w' = w_table w.
Proof.
  intros Hi Hw Hx Hsl Hn. pose proof (in_res _ _ Hi r) as Hr. rewrite Hx in Hr. destruct Hr as (Hc1 & Hc2 & Hc3 & Hc4).
  pose proof (cnt_nonneg (TResult r) T). pose proof (cached_refs_nonneg r w). pose proof (lookup_lt_Some _ _ _ Hx) as Hlen.
  assert (res_refcnt x = 1) as Hone by (apply Hc4; counts; lia). counts.
  set (w1 := put_result r (Some (MkExtended (res_compound4 x) (res_refcnt x + 1))) w).
  assert (moves [(a, i)] [] w w1 (TResult r :: TResult r :: T)) as Hm1.
  { eapply put_result_moves; [done|done|intros t ? ?; by counts|]. cbn [res_refcnt res_compound4]. counts. split_and!; try done; lia. }
  destruct (set_cached_moves [] w1 (TResult r :: T) a i sl r) as (s & w2 & Ha & E & -> & Hm2 & Hat); [apply Hm1|done|done|].
  exists (put_session a (Some (cache i r sl s)) w1). destruct Hsl as (s' & Ha' & Hsl). change (alive w a s) in Ha.
  assert (s' = s) as -> by (unfold alive in *; congruence).
  split; [|split; [by eapply moves_trans|split; [done|split; [|done]]]].
  - unfold set_cached. rewrite (get_slot_alive _ _ _ _ _ Ha Hsl), res_bind_ret, (put_slot_alive _ _ _ _ _ _ Ha Hsl), res_bind_ret.
    unfold inc_result. rewrite (get_result_live _ r x) by done. done.
  - eexists. apply (result_put w r); [done|by left].
Qed.
End replies.

(** ** SEQUENCE *)

Section sequence.
Context `{Nfs4Types}.
Implicit Types (w : world) (T U : list token).

Lemma session_attrs_ok w T d a : inv w T -> q_session (d_seq d) = Some a -> 0 < cnt (TSession a) T ->
  exists s, alive w a s /\ session_attrs d w = Ret (Some (fore_channel_attrs s)).
Proof.
  intros Hi Hq Hc. destruct (si_held _ _ (in_sess _ _ Hi) a Hc) as [s Hs]. exists s. split; [done|].
  unfold session_attrs. by rewrite Hq, (get_session_alive _ _ _ Hs), res_bind_ret.
Qed.

Lemma check_resp_room_total w d n : (forall a, q_session (d_seq d) = Some a -> exists s, alive w a s) -> exists st, check_resp_room d w n = Ret st.
Proof.
  intros Ha. unfold check_resp_room, session_attrs. destruct (d_minorversion d =? 0); [by eexists|].
  destruct (q_session (d_seq d)) as [a|]; [|by eexists].
  destruct (Ha a eq_refl) as [s Hs]. rewrite (get_session_alive _ _ _ Hs), !res_bind_ret. repeat case_match; by eexists.
Qed.

Lemma cached_no_writer w T r : inv w T -> 0 < cached_refs r w -> cnt (TWriter r) T = 0.
Proof.
  intros Hi Hc. pose proof (cnt_nonneg (TResult r) T). pose proof (cnt_nonneg (TWriter r) T).
  destruct (result_held w T r (in_res _ _ Hi)) as [x Hx]; [lia|]. pose proof (in_res _ _ Hi r) as Hr. rewrite Hx in Hr. lia.
Qed.

(** What SEQUENCE leaves in the data of a request that it lets go on. *)
Definition started (arg : SEQUENCE4args) (a : nat) (d : compound_data) : compound_data :=
  set_seq (MkSeqData (Some a) (sa_sequenceid arg) (sa_slotid arg) (Some (a, Z.to_nat (sa_slotid arg))) (sa_cachethis arg)
             (q_preserved_clientid (d_seq d))) d.
Definition too_big (arg : SEQUENCE4args) (a : nat) (d : compound_data) : compound_data :=
  set_seq (MkSeqData None (sa_sequenceid arg) (sa_slotid arg) (Some (a, Z.to_nat (sa_slotid arg))) (sa_cachethis arg)
             (q_preserved_clientid (d_seq d))) (set_sizes (d_resp_size d) SIZEOF_nfsstat4 d).
Definition replaying (p : nat * nat) (d : compound_data) : compound_data :=
  let q := d_seq d in
  set_seq (MkSeqData (q_session q) (q_sequence q) (q_slotid q) (Some p) (q_cachethis q) (q_preserved_clientid q)) d.

Definition next_seq (sl : session_slot) : Z := wrap_u 32 (sl_sequence sl + 1).

(** The locked slot is given back, and the session. *)
Lemma leave_slot W w U a i :
  inv w (TLock (a, i) :: TSession a :: U) -> (forall j, 0 < cnt (TLock (a, j)) U -> 0 < cnt (TSession a) U) ->
  forall sid, w_table w !! sid = Some a ->
  exists sl w1 w2, slot_at w a i sl /\ unlock_slot (a, i) w = Ret w1 /\ dec_session_ref a w1 = Ret w2 /\ moves [(a, i)] W w w2 U
    /\ slot_at w2 a i (MkSlot (sl_sequence sl) false (sl_cached sl)) /\ w_table w2 = w_table w.
Proof.
  intros Hi HU sid Ht. destruct (unlock_slot_moves W w (TSession a :: U) a i Hi) as (sl & w1 & Hsl & _ & E1 & M1 & Hsl1 & Ht1).
  destruct (dec_session_ref_moves [] W w1 U a) as (w2 & E2 & M2 & Ht2); [apply M1|done|].
  assert (w_table w2 !! sid = Some a) as Hin by (by rewrite Ht2, Ht1). destruct (alive_in_table w2 U sid a) as (s & Hs & _); [apply M2|done|].
  exists sl, w1, w2. split; [done|]. split; [done|]. split; [done|]. split; [|split; [|by rewrite Ht2, Ht1]].
  - eapply moves_trans; [exact M1|]. eapply moves_weaken; [apply list_subseteq_nil|reflexivity|exact M2].
  - eapply slot_at_moves; [exact M2|by intros ?%elem_of_nil|exact Hs|done].
Qed.

Section slot.
Context (arg : SEQUENCE4args) (d : compound_data) (w : world) (U : list token) (a : nat) (sl : session_slot) (sid : list Z).
Abbreviation i := (Z.to_nat (sa_slotid arg)).
Hypothesis Hi : inv w (TLock (a, i) :: TSession a :: U).
Hypothesis HU : forall j, 0 < cnt (TLock (a, j)) U -> 0 < cnt (TSession a) U.
Hypothesis Ht : w_table w !! sid = Some a.
Hypothesis Hsl : slot_at w a i sl.

(** The request before is sent again. *)
Lemma sequence_replay r :
  next_seq sl <> sa_sequenceid arg -> sl_sequence sl = sa_sequenceid arg -> sl_cached sl = Some r ->
  exists w', sequence_slot arg a (a, i) d w = Ret (NFS_REQ_REPLAY, sequence_res NFS4_OK ZeroRes, replaying (a, i) d, w')
    /\ moves [(a, i)] [] w w' (TResult r :: U) /\ slot_at w' a i (MkSlot (sl_sequence sl) false (sl_cached sl)) /\ w_table w' = w_table w.
Proof using Hi HU Ht Hsl.
  intros Hn Hq Hr. unfold sequence_slot. rewrite (slot_at_get _ _ _ _ Hsl), res_bind_ret. fold (next_seq sl).
  rewrite (proj2 (Z.eqb_neq _ _)) by done. rewrite (proj2 (Z.eqb_eq _ _)) by done. cbn [negb]. rewrite Hr.
  assert (0 < cached_refs r w) as Hc by (destruct Hsl as (s & Hs & Hsi); by eapply cached_positive).
  destruct (inc_result_moves [(a, i)] [] w (TLock (a, i) :: TSession a :: U) r) as (w1 & -> & M1 & Ht1 & Es1);
    [done|by apply (cached_no_writer w)|pose proof (cnt_nonneg (TResult r) (TLock (a, i) :: TSession a :: U)); lia|]. rewrite res_bind_ret.
  assert (slot_at w1 a i sl) as Hsl1 by (unfold slot_at, alive; by rewrite Es1).
  destruct (leave_slot [] w1 (TResult r :: U) a i) with (sid := sid) as (sl' & w2 & w3 & Hsl' & E2 & E3 & M3 & Hsl3 & Ht3).
  { eapply inv_proper; [|apply M1]. intros t. counts. lia. }
  { intros j. counts. apply HU. }
  { by rewrite Ht1. }
  rewrite E2, res_bind_ret, E3, res_bind_ret. rewrite (slot_at_det _ _ _ _ _ Hsl' Hsl1) in *.
  exists w3. split; [done|]. split; [by eapply moves_trans|]. split; [by rewrite <- Hr|by rewrite Ht3].
Qed.

(** Any other number that is not the next one is refused. *)
Lemma sequence_refuse :
  next_seq sl <> sa_sequenceid arg -> sl_sequence sl <> sa_sequenceid arg \/ sl_cached sl = None ->
  exists st w', sequence_slot arg a (a, i) d w = Ret (NFS_REQ_ERROR, sequence_res st ZeroRes, d, w') /\ st <> NFS4_OK
    /\ moves [(a, i)] [] w w' U /\ slot_at w' a i (MkSlot (sl_sequence sl) false (sl_cached sl)) /\ w_table w' = w_table w.
Proof using Hi HU Ht Hsl.
  intros Hn Hr. unfold sequence_slot. rewrite (slot_at_get _ _ _ _ Hsl), res_bind_ret. fold (next_seq sl).
  rewrite (proj2 (Z.eqb_neq _ _)) by done. cbn [negb].
  destruct (leave_slot [] w U a i Hi HU sid Ht) as (sl' & w2 & w3 & Hsl' & E2 & E3 & M3 & Hsl3 & Ht3).
  rewrite (slot_at_det _ _ _ _ _ Hsl' Hsl) in *. cbn zeta. rewrite !E2, !res_bind_ret, !E3, !res_bind_ret.
  destruct (Z.eqb_spec (sl_sequence sl) (sa_sequenceid arg)) as [Hq|Hq].
  - destruct Hr as [Hr|Hr]; [done|]. rewrite Hr. exists NFS4ERR_RETRY_UNCACHED_REP, w3. by rewrite <- Hr.
  - by exists NFS4ERR_SEQ_MISORDERED, w3.
Qed.

(** The next number: the request goes on, unless its reply is too big. *)
Lemma sequence_next :
  next_seq sl = sa_sequenceid arg ->
  exists w' u st, w_table w' = w_table w /\
    ((st = NFS4_OK /\ sequence_slot arg a (a, i) d w = Ret (NFS_REQ_OK, sequence_res st u, started arg a d, w')
      /\ moves [(a, i)] [] w w' (TLock (a, i) :: TSession a :: U) /\ slot_at w' a i (MkSlot (next_seq sl) true None))
     \/ (st <> NFS4_OK /\ sequence_slot arg a (a, i) d w = Ret (NFS_REQ_ERROR, sequence_res st u, too_big arg a d, w')
      /\ moves [(a, i)] [] w w' U /\ slot_at w' a i (MkSlot (next_seq sl) false None))).
Proof using Hi HU Ht Hsl.
  intros Hq. unfold sequence_slot. rewrite (slot_at_get _ _ _ _ Hsl), res_bind_ret. fold (next_seq sl).
  rewrite (proj2 (Z.eqb_eq _ _)) by done. cbn [negb]. cbn zeta.
  destruct (slot_ok_at _ _ _ _ _ Hi Hsl) as [Hrange Hlock].
  assert (sl_lock sl = true) as El.
  { pose proof (cnt_nonneg (TLock (a, i)) U). counts. destruct (sl_lock sl); [done|lia]. }
  destruct (put_slot_moves [] w _ (TLock (a, i) :: TSession a :: U) a i sl (MkSlot (next_seq sl) (sl_lock sl) (sl_cached sl)) Hi Hsl) as
    (w1 & -> & M1 & Hsl1 & Ht1); [done|by apply wrap_u_range|done|done|intros _; pose proof (cnt_nonneg (TSession a) U); counts; lia|].
  rewrite res_bind_ret. destruct (release_slot_moves [] w1 _ a i _ (proj1 M1) Hsl1) as (w2 & -> & M2 & Hsl2 & Ht2). rewrite res_bind_ret.
  cbn [sl_sequence sl_lock] in Hsl2. rewrite El in Hsl2. destruct Hsl2 as (s & Hs & Hsl2).
  rewrite (get_session_alive _ _ _ Hs), res_bind_ret. pose proof (si_session _ _ (in_sess _ _ (proj1 M2)) a s Hs) as Hok.
  destruct (get_chan_total w2 _ (clientid_record s) (proj1 M2) (so_client _ _ _ _ Hok)) as [chan ->]. rewrite res_bind_ret.
  fold (started arg a d). destruct (check_resp_room_total w2 (started arg a d) (d_op_resp_size (started arg a d))) as [st ->];
    [intros b [= <-]; by exists s|]. rewrite res_bind_ret.
  assert (slot_at w2 a i (MkSlot (next_seq sl) true None)) as Hsl2' by (by exists s).
  destruct (Z.eqb_spec st NFS4_OK) as [->|Hst]; cbn [negb].
  - destruct (check_session_conn_moves [] [] w2 _ a s (d_xprt (started arg a d)) true (proj1 M2) Hs) as (b & w3 & -> & M3 & Ht3).
    rewrite res_bind_ret. eexists w3, _, NFS4_OK. split; [congruence|]. left. split; [done|]. split; [done|].
    destruct (si_held _ _ (in_sess _ _ (proj1 M3)) a) as [s3 Hs3]; [pose proof (cnt_nonneg (TSession a) U); counts; lia|].
    split; [eapply moves_trans; [exact M1|eapply moves_trans; [exact M2|by apply moves_more]]|].
    eapply slot_at_moves; [exact M3|by intros ?%elem_of_nil|exact Hs3|done].
  - destruct (leave_slot [] w2 U a i (proj1 M2) HU sid) as (sl' & w3 & w4 & Hsl' & E3 & E4 & M4 & Hsl4 & Ht4); [by rewrite Ht2, Ht1|].
    rewrite E3, res_bind_ret, E4, res_bind_ret. rewrite (slot_at_det _ _ _ _ _ Hsl' Hsl2') in *.
    eexists w4, _, st. split; [congruence|]. right. split; [done|]. split; [done|]. split; [|done].
    eapply moves_trans; [exact M1|]. by eapply moves_trans.
Qed.
End slot.

(** The slot that a request names. *)
Definition names_slot (arg : SEQUENCE4args) (w : world) (a : nat) (s : nfs41_session) (sl : session_slot) : Prop :=
  w_table w !! sa_sessionid arg = Some a /\ alive w a s /\ sa_slotid arg < ca_maxrequests (fore_channel_attrs s)
  /\ fc_slots s !! Z.to_nat (sa_slotid arg) = Some sl.

(** Why SEQUENCE refuses a request. *)
Definition refuses (arg : SEQUENCE4args) (d : compound_data) (w : world) : Prop :=
  d_minorversion d = 0 \/ w_table w !! sa_sessionid arg = None
  \/ exists a s, w_table w !! sa_sessionid arg = Some a /\ alive w a s
     /\ (~ leased w (clientid_record s) \/ ca_maxrequests (fore_channel_attrs s) <= sa_slotid arg
         \/ exists sl, names_slot arg w a s sl /\ next_seq sl <> sa_sequenceid arg
            /\ (sl_sequence sl <> sa_sequenceid arg \/ sl_cached sl = None)).

Definition with_lease (c : nat) (d : compound_data) : compound_data := set_seq (preserve c (d_seq d)) d.

Inductive sequenced (arg : SEQUENCE4args) (d : compound_data) (w : world) (U : list token)
  : nfs_req_result -> nfs_resop4 -> compound_data -> world -> Prop :=
| sq_refused st w' : st <> NFS4_OK -> refuses arg d w -> moves [] [] w w' U -> w_table w' = w_table w ->
    sequenced arg d w U NFS_REQ_ERROR (sequence_res st ZeroRes) d w'
| sq_refused_lease st c w' : st <> NFS4_OK -> refuses arg d w -> moves [] [] w w' (TLease c :: U) -> w_table w' = w_table w ->
    sequenced arg d w U NFS_REQ_ERROR (sequence_res st ZeroRes) (with_lease c d) w'
| sq_replayed a s sl r w' : names_slot arg w a s sl -> sl_lock sl = false -> next_seq sl <> sa_sequenceid arg ->
    sl_sequence sl = sa_sequenceid arg -> sl_cached sl = Some r ->
    moves [] [] w w' (TResult r :: TLease (clientid_record s) :: U) -> w_table w' = w_table w ->
    sequenced arg d w U NFS_REQ_REPLAY (sequence_res NFS4_OK ZeroRes)
      (replaying (a, Z.to_nat (sa_slotid arg)) (with_lease (clientid_record s) d)) w'
| sq_too_big a s sl st u w' : names_slot arg w a s sl -> sl_lock sl = false -> next_seq sl = sa_sequenceid arg -> st <> NFS4_OK -> 0 < d_minorversion d ->
    moves [(a, Z.to_nat (sa_slotid arg))] [] w w' (TLease (clientid_record s) :: U) ->
    slot_at w' a (Z.to_nat (sa_slotid arg)) (MkSlot (next_seq sl) false None) -> w_table w' = w_table w ->
    sequenced arg d w U NFS_REQ_ERROR (sequence_res st u) (too_big arg a (with_lease (clientid_record s) d)) w'
| sq_started a s sl u w' : names_slot arg w a s sl -> sl_lock sl = false -> next_seq sl = sa_sequenceid arg -> 0 < d_minorversion d ->
    moves [(a, Z.to_nat (sa_slotid arg))] [] w w'
      (TLock (a, Z.to_nat (sa_slotid arg)) :: TSession a :: TLease (clientid_record s) :: U) ->
    slot_at w' a (Z.to_nat (sa_slotid arg)) (MkSlot (next_seq sl) true None) -> w_table w' = w_table w ->
    sequenced arg d w U NFS_REQ_OK (sequence_res NFS4_OK u) (started arg a (with_lease (clientid_record s) d)) w'.

(** From the point where the session and the lease are held. *)
Lemma sequence_locked arg d w w2 U a s sl :
  let c := clientid_record s in
  let p := (a, Z.to_nat (sa_slotid arg)) in
  inv w U -> moves [] [] w w2 (TSession a :: TLease c :: U) -> names_slot arg w a s sl -> slot_at w2 a (Z.to_nat (sa_slotid arg)) sl ->
  w_table w2 = w_table w -> 0 < d_minorversion d ->
  ((w3 ← lock_slot p w2; sequence_slot arg a p (with_lease c d) w3) = Fail /\ sl_lock sl = true)
  \/ exists result r d' w', (w3 ← lock_slot p w2; sequence_slot arg a p (with_lease c d) w3) = Ret (result, r, d', w')
     /\ sequenced arg d w U result r d' w'.
Proof.
  intros c p Hi M2 Hname Hsl2 Ht2 Hm. set (i := Z.to_nat (sa_slotid arg)) in *. set (V := TLease c :: U) in *.
  assert (forall j, 0 < cnt (TLock (a, j)) V -> 0 < cnt (TSession a) V) as HV
    by (intros j; unfold V; counts; intros Hj; by apply (si_locked _ _ (in_sess _ _ Hi) a j)).
  destruct (lock_slot_moves [] w2 _ a i sl (proj1 M2) Hsl2) as [[El E]|(El & w3 & E & M3 & Hsl3 & Ht3)];
    [pose proof (cnt_nonneg (TSession a) V); counts; lia|left; by unfold p; rewrite E|].
  unfold p. rewrite E, res_bind_ret. right. set (sl3 := MkSlot (sl_sequence sl) true (sl_cached sl)) in *.
  assert (w_table w3 !! sa_sessionid arg = Some a) as Ht3' by (rewrite Ht3, Ht2; apply Hname).
  assert (moves [(a, i)] [] w w3 (TLock (a, i) :: TSession a :: V)) as M3' by (eapply moves_trans; [by apply moves_more|exact M3]).
  assert (forall w' T', moves [(a, i)] [] w3 w' T' -> slot_at w' a i sl -> moves [] [] w w' T') as Hback.
  { intros w' T' M Hsl'. destruct (moves_trans _ _ _ _ _ _ _ M3' M) as (I & Ev & R). split; [done|]. split; [|done].
    eapply evolves_restore; [exact Ev|]. intros sl' Hsl0. rewrite (slot_at_det w a i sl' sl); [done|done|]. exists s. by destruct Hname as (? & ? & ? & ?). }
  assert (MkSlot (sl_sequence sl3) false (sl_cached sl3) = sl) as Esl by (destruct sl; cbn in *; congruence).
  destruct (decide (next_seq sl3 = sa_sequenceid arg)) as [Hq|Hq].
  - destruct (sequence_next arg (with_lease c d) w3 V a sl3 _ (proj1 M3) HV Ht3' Hsl3 Hq) as (w' & u & st & Ht' & [(-> & E' & M' & Hsl')|(Hst & E' & M' & Hsl')]);
      eexists _, _, _, _; (split; [exact E'|]).
    + eapply sq_started; try done; [by eapply moves_trans|congruence].
    + eapply sq_too_big; try done; [by eapply moves_trans|congruence].
  - destruct (decide (sl_sequence sl3 = sa_sequenceid arg)) as [Heq|Heq]; [destruct (sl_cached sl) as [r|] eqn:Hr|].
    + destruct (sequence_replay arg (with_lease c d) w3 V a sl3 _ (proj1 M3) HV Ht3' Hsl3 r Hq Heq) as (w' & E' & M' & Hsl' & Ht'); [done|].
      rewrite Esl in Hsl'. eexists _, _, _, _. split; [exact E'|]. eapply sq_replayed; try done; [by apply Hback|congruence].
    + destruct (sequence_refuse arg (with_lease c d) w3 V a sl3 _ (proj1 M3) HV Ht3' Hsl3 Hq) as (st & w' & E' & Hst & M' & Hsl' & Ht'); [by right|].
      rewrite Esl in Hsl'. eexists _, _, _, _. split; [exact E'|]. eapply sq_refused_lease; [done| |by apply Hback|congruence].
      right. right. exists a, s. split; [apply Hname|]. split; [apply Hname|]. right. right. exists sl. split; [done|]. split; [done|by right].
    + destruct (sequence_refuse arg (with_lease c d) w3 V a sl3 _ (proj1 M3) HV Ht3' Hsl3 Hq) as (st & w' & E' & Hst & M' & Hsl' & Ht'); [by left|].
      rewrite Esl in Hsl'. eexists _, _, _, _. split; [exact E'|]. eapply sq_refused_lease; [done| |by apply Hback|congruence].
      right. right. exists a, s. split; [apply Hname|]. split; [apply Hname|]. right. right. exists sl. split; [done|]. split; [done|by left].
Qed.

Lemma nfs4_op_sequence_spec arg d w U :
  inv w U -> 0 <= sa_slotid arg -> 0 <= d_minorversion d ->
  (nfs4_op_sequence arg d w = Fail /\ exists a s sl, names_slot arg w a s sl /\ sl_lock sl = true)
  \/ exists result r d' w', nfs4_op_sequence arg d w = Ret (result, r, d', w') /\ sequenced arg d w U result r d' w'.
Proof.
  intros Hi H0 Hm. unfold nfs4_op_sequence. destruct (Z.eqb_spec (d_minorversion d) 0) as [Hz|Hz].
  { right. eexists _, _, _, _. split; [done|]. apply sq_refused; [done|by left|by apply moves_refl|done]. }
  destruct (get_pointer_moves [] [] w U (sa_sessionid arg) Hi) as [[Ht E]|(a & s & w1 & Ht & Ha & E & M1 & Ht1 & Hc1 & Ha1)]; rewrite E, res_bind_ret.
  { right. eexists _, _, _, _. split; [done|]. apply sq_refused; [done|by right; left|by apply moves_refl|done]. }
  pose proof (si_session _ _ (in_sess _ _ Hi) a s Ha) as Hok.
  assert (forall T', moves [] [] w w1 T' -> leased w1 (clientid_record s) <-> leased w (clientid_record s)) as Hleq.
  { intros T' (_ & _ & _ & Htime). unfold leased. by rewrite Hc1, Htime. }
  assert (forall j, 0 < cnt (TLock (a, j)) U -> 0 < cnt (TSession a) U) as HU by (intros j Hj; by apply (si_locked _ _ (in_sess _ _ Hi) a j)).
  rewrite (get_session_alive _ _ _ Ha1), res_bind_ret.
  change (clientid_record (set_refcount (refcount s + 1) s)) with (clientid_record s).
  change (fore_channel_attrs (set_refcount (refcount s + 1) s)) with (fore_channel_attrs s).
  destruct (reserve_lease_moves [] [] w1 _ (clientid_record s) (proj1 M1)) as (w2 & Ht2 & Es2 & Hr); [rewrite Hc1; apply (so_client _ _ _ _ Hok)|].
  destruct Hr as [(Hl & -> & M2)|(Hl & -> & M2)]; rewrite res_bind_ret; cbn [negb].
  2: { destruct (dec_session_ref_moves [] [] w2 U a (proj1 M2) HU) as (w3 & -> & M3 & Ht3). rewrite res_bind_ret.
       right. eexists _, _, _, _. split; [done|]. apply sq_refused; [done| |eapply moves_trans; [exact M1|by eapply moves_trans]|congruence].
       right. right. exists a, s. split; [done|]. split; [done|]. left. by rewrite <- (Hleq _ M1). }
  set (c := clientid_record s) in *. set (V := TLease c :: U).
  assert (inv w2 (TSession a :: V)) as Hi2 by (eapply inv_proper; [|apply M2]; intros t; unfold V; counts; lia).
  assert (forall j, 0 < cnt (TLock (a, j)) V -> 0 < cnt (TSession a) V) as HV by (intros j; unfold V; counts; apply HU).
  assert (moves [] [] w w2 (TSession a :: V)) as M2'.
  { split; [done|]. split; [eapply evolves_trans; [apply M1|apply M2]|]. destruct M1 as (_ & _ & ? & ?), M2 as (_ & _ & ? & ?). split; congruence. }
  fold (with_lease c d). destruct (Z.leb_spec (ca_maxrequests (fore_channel_attrs s)) (sa_slotid arg)) as [Hmax|Hmax].
  { destruct (dec_session_ref_moves [] [] w2 V a Hi2 HV) as (w3 & -> & M3 & Ht3). rewrite res_bind_ret.
    right. eexists _, _, _, _. split; [done|]. eapply sq_refused_lease; [done| |by eapply moves_trans|congruence].
    right. right. exists a, s. split; [done|]. split; [done|]. right. by left. }
  assert (exists sl, fc_slots s !! Z.to_nat (sa_slotid arg) = Some sl) as [sl Hsl].
  { apply lookup_lt_is_Some. pose proof (so_slots _ _ _ _ Hok). pose proof (so_requests _ _ _ _ Hok). lia. }
  assert (names_slot arg w a s sl) as Hname by done.
  assert (slot_at w2 a (Z.to_nat (sa_slotid arg)) sl) as Hsl2.
  { eexists. split; [unfold alive; rewrite Es2; exact Ha1|done]. }
  destruct (sequence_locked arg d w w2 U a s sl Hi M2' Hname Hsl2) as [[E2 El]|Hs]; [congruence|lia|left; split; [done|by exists a, s, sl]|by right].
Qed.
End sequence.
