(* ===== verification/NfsCompoundRun.v ===== *)
(** * The operations of a request, one after the other *)

From S2P Require Import Prelude NfsProto NfsNames NfsSession NfsSessionInv NfsSessionOps NfsCompound NfsCompoundProofs.
Local Open Scope Z_scope.

Section destroy.
Context `{Nfs4Types}.

Lemma nfs4_op_destroy_session_spec sid d w U :
  inv w U ->
  exists r w', nfs4_op_destroy_session sid d w = Ret (nfsstat4_to_nfs_req_result (r_status r), r, w') /\ moves [] [] w w' U.
Proof.
  intros Hi. unfold nfs4_op_destroy_session. destruct (d_minorversion d =? 0); [eexists (MkResop _ _ _), _; split; [done|by apply moves_refl]|].
  destruct (get_pointer_moves [] [] w U sid Hi) as [[Ht E]|(a & s & w1 & Ht & Ha & E & M1 & Ht1 & _ & Ha1)]; rewrite E, res_bind_ret.
  { eexists (MkResop _ _ _), _. split; [done|by apply moves_refl]. }
  assert (forall j, 0 < cnt (TLock (a, j)) U -> 0 < cnt (TSession a) U) as HU by (intros j Hj; by apply (si_locked _ _ (in_sess _ _ Hi) a j)).
  destruct (check_session_conn_moves [] [] w1 _ a _ (d_xprt d) false (proj1 M1) Ha1) as (b & w2 & -> & M2 & _). rewrite res_bind_ret.
  destruct b; cbn [negb].
  - destruct (session_del_moves [] [] w2 _ sid (proj1 M2)) as (b & w3 & -> & M3). rewrite res_bind_ret.
    destruct (dec_session_ref_moves [] [] w3 U a (proj1 M3) HU) as (w4 & -> & M4 & _). rewrite res_bind_ret.
    eexists (MkResop _ _ _), _. split; [done|]. eapply moves_trans; [exact M1|]. eapply moves_trans; [exact M2|]. by eapply moves_trans.
  - destruct (dec_session_ref_moves [] [] w2 U a (proj1 M2) HU) as (w4 & -> & M4 & _). rewrite res_bind_ret.
    eexists (MkResop _ _ _), _. split; [done|]. eapply moves_trans; [exact M1|]. by eapply moves_trans.
Qed.
End destroy.

Section run.
Context `{Nfs4Ops}.
Implicit Types (w : world) (T U : list token) (d : compound_data).

(** The operations on files say that they failed exactly when their status does, and only
    those with a function to resume them wait. *)
Definition lawful (o : op_outcome) : Prop :=
  (oo_ret o = OpOk -> r_status (oo_res o) = NFS4_OK) /\ (oo_ret o = OpError -> r_status (oo_res o) <> NFS4_OK).
Definition ops_lawful : Prop :=
  (forall f u m r room v x, lawful (op_funct f u m r room v x)) /\ (forall f u m r room v x, lawful (op_resume f u m r room v x))
  /\ (forall desc u m r room v x, desc ∈ optabv4 -> op_res desc = "nfs4_default_resume"%string ->
      oo_ret (op_funct (op_fun desc) u m r room v x) <> OpWait).

(** The operation that waits can be resumed. *)
Definition resumable (d : compound_data) : Prop :=
  ops_lawful -> forall desc, op_desc (d_opcode d) = Ret desc -> op_res desc <> "nfs4_default_resume"%string.

(** ** What a request holds *)

Definition lease_of (d : compound_data) : list token := match q_preserved_clientid (d_seq d) with Some c => [TLease c] | None => [] end.
Definition held (d : compound_data) : list token :=
  match q_session (d_seq d) with Some a => [TLock (a, Z.to_nat (q_slotid (d_seq d))); TSession a] | None => [] end.
Definition tokens (d : compound_data) : list token := TWriter (d_res d) :: held d ++ lease_of d.

(** The slot of a request, locked and with its cache empty. *)
Definition has_slot (d : compound_data) (w : world) (a : nat) : Prop :=
  q_slot (d_seq d) = Some (a, Z.to_nat (q_slotid (d_seq d))) /\ 0 <= q_slotid (d_seq d) < 2 ^ 32 - 1 /\ 0 < d_minorversion d
  /\ slot_at w a (Z.to_nat (q_slotid (d_seq d))) (MkSlot (q_sequence (d_seq d)) true None)
  /\ exists arg0, d_argarray d !! 0%nat = Some arg0 /\ argop arg0 = NFS4_OP_SEQUENCE.

(** The reply so far: the operations before [n] succeeded. *)
Definition reply_so_far (d : compound_data) (w : world) (n : nat) (len : Z) : Prop :=
  exists x, result w (d_res d) x /\ length (cr_val (res_compound4 x)) = length (d_argarray d) /\ cr_len (res_compound4 x) = len
    /\ (ops_lawful -> forall j r, (j < n)%nat -> cr_val (res_compound4 x) !! j = Some r -> r_status r = NFS4_OK).

Definition well_formed (d : compound_data) : Prop :=
  0 <= d_minorversion d <= 2 /\ Forall (fun op => 0 <= argop op /\ 0 <= sa_slotid (opsequence op)) (d_argarray d).

(** Between two operations. *)
Record running (d : compound_data) (w : world) : Prop := {
  rn_wf : well_formed d;
  rn_seq : match q_session (d_seq d) with Some a => has_slot d w a /\ (0 < d_oppos d)%nat | None => d_seq d = no_sequence end;
  rn_reply : reply_so_far d w (d_oppos d) (Z.of_nat (length (d_argarray d)));
  rn_opcode : exists desc, op_desc (d_opcode d) = Ret desc }.

(** After the last operation. *)
Definition seq_end (d : compound_data) (w : world) : Prop :=
  match q_session (d_seq d), q_slot (d_seq d) with
  | Some a, _ => has_slot d w a
  | None, None => q_cachethis (d_seq d) = false
  | None, Some (a, i) =>
    i = Z.to_nat (q_slotid (d_seq d)) /\ slot_at w a i (MkSlot (q_sequence (d_seq d)) false None) /\ (exists sid, w_table w !! sid = Some a)
    /\ 0 < d_minorversion d /\ exists arg0, d_argarray d !! 0%nat = Some arg0 /\ argop arg0 = NFS4_OP_SEQUENCE
  end.

(** The reply of a request whose last operation has the status [st]. *)
Definition reply_end (d : compound_data) (w : world) (st : Z) : Prop :=
  exists x n, result w (d_res d) x /\ length (cr_val (res_compound4 x)) = length (d_argarray d)
    /\ cr_len (res_compound4 x) = Z.of_nat n /\ (0 < n <= length (d_argarray d))%nat
    /\ (ops_lawful -> exists r, cr_val (res_compound4 x) !! (n - 1)%nat = Some r /\ r_status r = st
        /\ (st = NFS4_OK -> n = length (d_argarray d))
        /\ forall j rj, (j < n - 1)%nat -> cr_val (res_compound4 x) !! j = Some rj -> r_status rj = NFS4_OK).

(** The slots that a request may change. *)
Definition slots_of (d : compound_data) : list (nat * nat) := match q_slot (d_seq d) with Some p => [p] | None => [] end.

(** The data of the same request. *)
Definition same_request (d d' : compound_data) : Prop :=
  d_minorversion d' = d_minorversion d /\ d_argarray d' = d_argarray d /\ d_res d' = d_res d.

Lemma check_op_total desc thisarg d w :
  (exists arg0, d_argarray d !! 0%nat = Some arg0) -> (forall a, q_session (d_seq d) = Some a -> exists s, alive w a s) ->
  exists st, check_op desc thisarg d w = Ret st.
Proof.
  intros [arg0 Harg] Ha. unfold check_op. rewrite Harg. cbn [deref]. rewrite res_bind_ret.
  repeat (case_match; [by eexists|]). unfold session_attrs.
  destruct (0 <? d_minorversion d); [destruct (q_session (d_seq d)) as [a|] eqn:Hq|].
  - destruct (Ha a eq_refl) as [s Hs]. rewrite (get_session_alive _ _ _ Hs), !res_bind_ret. repeat (case_match; [by eexists|]).
    apply check_resp_room_total. by rewrite Hq.
  - rewrite res_bind_ret. repeat (case_match; [by eexists|]). apply check_resp_room_total. by rewrite Hq.
  - rewrite res_bind_ret. repeat (case_match; [by eexists|]). by apply check_resp_room_total.
Qed.

Lemma optab_all opcode : 0 <= opcode <= 75 -> exists desc, op_desc opcode = Ret desc.
Proof.
  intros Ho. unfold op_desc. destruct (lookup_lt_is_Some_2 optabv4 (Z.to_nat opcode)) as [desc ->]; [|by eexists].
  change (length optabv4) with 76%nat. lia.
Qed.

(** ** Calls *)

(** The tokens afterwards, and how the memory evolved; the file system may change. *)
Definition goes (P : list (nat * nat)) (W : list nat) (w w' : world) (T : list token) : Prop := inv w' T /\ evolves P W w w'.

Lemma moves_goes P W w w' T : moves P W w w' T -> goes P W w w' T.
Proof. intros (I & E & _). by split. Qed.

Lemma goes_trans P W w1 w2 w3 T2 T3 : goes P W w1 w2 T2 -> goes P W w2 w3 T3 -> goes P W w1 w3 T3.
Proof. intros [_ E1] [I2 E2]. split; [done|by eapply evolves_trans]. Qed.

Lemma goes_weaken P W P' W' w w' T : P ⊆ P' -> W ⊆ W' -> goes P W w w' T -> goes P' W' w w' T.
Proof. intros HP HW [I E]. split; [done|by eapply evolves_weaken]. Qed.

Lemma goes_more P W w w' T : goes [] [] w w' T -> goes P W w w' T.
Proof. apply goes_weaken; apply list_subseteq_nil. Qed.

Lemma set_fs_goes P W w T f : inv w T -> goes P W w (set_fs f w) T.
Proof.
  intros [Hs Hr Hc]. split; [split|apply evolves_same; [done..|by apply replies_stay_same]].
  - by apply (sess_inv_frame w _ T).
  - by apply (res_inv_frame w _ T).
  - by apply (client_inv_frame w _ T).
Qed.

Lemma sequence_only k desc : optabv4 !! k = Some desc -> op_fun desc = "nfs4_op_sequence"%string -> k = 53%nat.
Proof.
  assert (forallb (fun n => match optabv4 !! n with
                            | Some op => implb (String.eqb (op_fun op) "nfs4_op_sequence") (n =? 53)%nat
                            | None => true
                            end) (seq 0 76) = true) as Hall by (vm_compute; reflexivity).
  rewrite forallb_forall in Hall. intros Hk Hf. specialize (Hall k). rewrite Hk, Hf in Hall. apply Nat.eqb_eq, Hall, in_seq.
  apply lookup_lt_Some in Hk. change (length optabv4) with 76%nat in Hk. lia.
Qed.

(** The request has run SEQUENCE, which took a slot. *)
Definition begins (arg : SEQUENCE4args) (w : world) (d : compound_data) : Prop :=
  exists a s sl, names_slot arg w a s sl /\ sl_lock sl = false /\ next_seq sl = sa_sequenceid arg
    /\ q_slot (d_seq d) = Some (a, Z.to_nat (sa_slotid arg)) /\ q_sequence (d_seq d) = sa_sequenceid arg
    /\ q_slotid (d_seq d) = sa_slotid arg /\ q_cachethis (d_seq d) = sa_cachethis arg.

(** SEQUENCE let nothing else run. *)
Definition stopped (arg : SEQUENCE4args) (d : compound_data) (w : world) (d' : compound_data) (w' : world) : Prop :=
  (begins arg w d' \/ refuses arg d w) /\ w_fs w' = w_fs w /\ d_view d' = d_view d.

(** What an operation does to what SEQUENCE sets: nothing, unless it is SEQUENCE. *)
Definition seq_step (thisarg : nfs_argop4) (w : world) (d d' : compound_data) : Prop :=
  d_seq d' = d_seq d
  \/ (d_oppos d = 0%nat /\ argop thisarg = NFS4_OP_SEQUENCE /\ ((0 < d_minorversion d /\ begins (opsequence thisarg) w d') \/ q_slot (d_seq d') = None)).

(** The state after a call, before its result is looked at. *)
Record called (d : compound_data) (w : world) (T : list token) (thisarg : nfs_argop4) (result : nfs_req_result) (r : nfs_resop4)
    (d' : compound_data) (w' : world) : Prop := {
  cl_same : same_request d d' /\ d_oppos d' = d_oppos d /\ d_opcode d' = d_opcode d;
  cl_result : result = NFS_REQ_OK \/ result = NFS_REQ_ERROR \/ result = NFS_REQ_ASYNC_WAIT;
  cl_status : ops_lawful -> (result = NFS_REQ_OK -> r_status r = NFS4_OK) /\ (result = NFS_REQ_ERROR -> r_status r <> NFS4_OK);
  cl_wait : result = NFS_REQ_ASYNC_WAIT -> resumable d;
  cl_seq : seq_step thisarg w d d';
  cl_end : if bool_decide (result = NFS_REQ_ERROR) then seq_end d' w'
           else match q_session (d_seq d') with Some a => has_slot d' w' a /\ (result = NFS_REQ_ASYNC_WAIT -> (0 < d_oppos d)%nat)
                | None => d_seq d' = no_sequence end;
  cl_goes : goes (slots_of d') [] w w' (tokens d' ++ T) }.

Lemma has_slot_goes d d' w w' T a :
  same_request d d' -> d_seq d' = d_seq d -> goes [] [] w w' T -> 0 < cnt (TSession a) T -> has_slot d w a -> has_slot d' w' a.
Proof.
  intros (Em & Ea & _) Eq [I E] Hc (H1 & H2 & H3 & H4 & H5). unfold has_slot. rewrite Eq, Em, Ea.
  split; [done|]. split; [done|]. split; [done|]. split; [|done].
  destruct (si_held _ _ (in_sess _ _ I) a Hc) as [s Hs]. eapply (ev_slot _ _ _ _ E); [exact Hs|by intros ?%elem_of_nil|done].
Qed.

Lemma held_count d T a : q_session (d_seq d) = Some a -> 0 < cnt (TSession a) (tokens d ++ T).
Proof.
  intros Hq. unfold tokens, held. rewrite Hq. pose proof (cnt_nonneg (TSession a) (lease_of d)). pose proof (cnt_nonneg (TSession a) T).
  cbn [app]. rewrite !cnt_cons, !cnt_app. count_step. count_step. count_step. lia.
Qed.

(** A call that leaves what SEQUENCE set alone. *)
Lemma call_plain d w T thisarg result r d' w' :
  running d w -> same_request d d' -> d_oppos d' = d_oppos d -> d_opcode d' = d_opcode d -> d_seq d' = d_seq d ->
  result = NFS_REQ_OK \/ result = NFS_REQ_ERROR \/ result = NFS_REQ_ASYNC_WAIT ->
  (ops_lawful -> (result = NFS_REQ_OK -> r_status r = NFS4_OK) /\ (result = NFS_REQ_ERROR -> r_status r <> NFS4_OK)) ->
  (result = NFS_REQ_ASYNC_WAIT -> resumable d) ->
  goes [] [] w w' (tokens d ++ T) -> called d w T thisarg result r d' w'.
Proof.
  intros [Hwf Hseq Hrep _] Hsame Hpos Hop Eq Hres Hst Hwait Hg.
  assert (tokens d' = tokens d) as Et by (unfold tokens, held, lease_of; destruct Hsame as (_ & _ & ->); by rewrite Eq).
  split; [done|done|done|done|by left| |rewrite Et; by apply goes_more].
  unfold seq_end. rewrite Eq. destruct (q_session (d_seq d)) as [a|] eqn:Hq.
  - destruct Hseq as [Hslot Hp]. assert (has_slot d' w' a) as Hs' by (eapply has_slot_goes; [done|done|exact Hg|by apply held_count|done]).
    by case_bool_decide.
  - rewrite Hseq. by case_bool_decide.
Qed.

(** Tokens of the data that SEQUENCE leaves, when it had none before. *)
Ltac seq_fields H :=
  cbn [started too_big replaying with_lease preserve set_seq set_sizes d_seq d_res q_session q_preserved_clientid q_slotid q_slot q_sequence
       q_cachethis d_argarray d_minorversion];
  rewrite ?H; cbn [no_sequence q_session q_preserved_clientid q_slotid q_slot q_sequence q_cachethis].
Ltac token_count H :=
  let t := fresh in
  intros t; unfold tokens, held, lease_of; seq_fields H; cbn [app];
  rewrite ?cnt_app, ?cnt_cons, ?cnt_app, ?cnt_nil; lia.

(** The answer of a slot to the request before. *)
Record replays (arg : SEQUENCE4args) (d : compound_data) (w : world) (T : list token) (d' : compound_data) (w' : world) (r : nat) : Prop := {
  rp_slot : exists a s sl, names_slot arg w a s sl /\ sl_lock sl = false /\ next_seq sl <> sa_sequenceid arg /\ sl_sequence sl = sa_sequenceid arg
            /\ sl_cached sl = Some r /\ d_seq d' = MkSeqData None 0 0 (Some (a, Z.to_nat (sa_slotid arg))) false (Some (clientid_record s));
  rp_same : same_request d d' /\ d_oppos d' = d_oppos d /\ d_view d' = d_view d;
  rp_moves : moves [] [] w w' (TResult r :: lease_of d' ++ TWriter (d_res d) :: T);
  rp_table : w_table w' = w_table w }.

Lemma call_sequence d w T thisarg :
  inv w (tokens d ++ T) -> well_formed d -> d_seq d = no_sequence -> d_oppos d = 0%nat -> d_argarray d !! 0%nat = Some thisarg ->
  argop thisarg = NFS4_OP_SEQUENCE ->
  (nfs4_op_sequence (opsequence thisarg) d w = Fail /\ exists a s sl, names_slot (opsequence thisarg) w a s sl /\ sl_lock sl = true)
  \/ exists result r d' w', nfs4_op_sequence (opsequence thisarg) d w = Ret (result, r, d', w')
       /\ ((called d w T thisarg result r d' w' /\ (result = NFS_REQ_ERROR -> stopped (opsequence thisarg) d w d' w')
            /\ (result <> NFS_REQ_ERROR -> begins (opsequence thisarg) w d'))
           \/ (result = NFS_REQ_REPLAY /\ exists c, replays (opsequence thisarg) d w T d' w' c)).
Proof.
  intros Hi [Hm Hargs] Hq Hpos Harg Hop.
  pose proof (proj1 (Forall_lookup _ _) Hargs 0%nat _ Harg) as [_ Hslot].
  assert (tokens d = [TWriter (d_res d)]) as Etok by (unfold tokens, held, lease_of; by rewrite Hq).
  destruct (nfs4_op_sequence_spec (opsequence thisarg) d w _ Hi Hslot) as [HF|(result & r & d' & w' & E & Hs)]; [lia|by left|].
  right. exists result, r, d', w'. split; [done|]. destruct Hs as
    [st w' Hst Hno M Ht|st c w' Hst Hno M Ht|a s sl c w' Hn Hl Hne Heq Hc M Ht|a s sl st u w' Hn Hl Hne Hst Hmin M Hsl Ht|a s sl u w' Hn Hl Hne Hmin M Hsl Ht].
  - left. split; [|by split; [intros _; split; [by right|split; [apply M|]]|]]. split; try done; [by right; left|by left| |by apply goes_more, moves_goes].
    rewrite bool_decide_true by done. unfold seq_end. by rewrite Hq.
  - left. split; [|by split; [intros _; split; [by right|split; [apply M|]]|]]. split; try done; [by right; left|right; split; [done|]; split; [done|]; right; cbn; by rewrite Hq| |].
    + rewrite bool_decide_true by done. unfold seq_end. cbn. by rewrite Hq.
    + unfold slots_of. seq_fields Hq. apply moves_goes. eapply moves_proper; [|exact M]. rewrite Etok. token_count Hq.
  - right. split; [done|]. exists c. split.
    + exists a, s, sl. split_and!; try done. cbn. by rewrite Hq.
    + done.
    + unfold lease_of. cbn [replaying with_lease set_seq d_seq preserve q_preserved_clientid]. eapply moves_proper; [|exact M]. rewrite Etok. token_count Hq.
    + done.
  - left. split; [|by split; [intros _; split; [left; by exists a, s, sl|split; [apply M|]]|]]. split; try done; [by right; left| | |].
    + right. split; [done|]. split; [done|]. left. split; [done|]. by exists a, s, sl.
    + rewrite bool_decide_true by done. unfold seq_end. seq_fields Hq.
      split; [done|]. rewrite <- Hne. split; [done|]. split; [exists (sa_sessionid (opsequence thisarg)); rewrite Ht; apply Hn|].
      split; [done|by exists thisarg].
    + unfold slots_of. seq_fields Hq. apply moves_goes. eapply moves_proper; [|exact M]. rewrite Etok. token_count Hq.
  - left. split; [|split; [done|intros _; by exists a, s, sl]]. split; try done; [by left| | |].
    + right. split; [done|]. split; [done|]. left. split; [done|]. by exists a, s, sl.
    + rewrite bool_decide_false by done. seq_fields Hq. split; [|done]. unfold has_slot. seq_fields Hq. split; [done|].
      split; [|split; [done|split; [by rewrite <- Hne|by exists thisarg]]].
      destruct Hn as (Hn & Ha & Hmax & _). pose proof (si_session _ _ (in_sess _ _ Hi) a s Ha) as [_ _ _ Hreq Hb _ _]. lia.
    + unfold slots_of. seq_fields Hq. apply moves_goes. eapply moves_proper; [|exact M]. rewrite Etok. token_count Hq.
Qed.

(** ** The result of an operation in the reply *)

Lemma reply_kept P W w w' T r x :
  goes P W w w' T -> 0 < cnt (TWriter r) T -> r ∉ W -> result w r x -> exists x', result w' r x' /\ res_compound4 x' = res_compound4 x.
Proof.
  intros [Hi He] Hc Hn Hx. pose proof (cached_refs_nonneg r w'). pose proof (cnt_nonneg (TResult r) T).
  destruct (result_held w' T r (in_res _ _ Hi)) as [x' Hx']; [lia|]. exists x'. split; [done|].
  destruct (proj2 (ev_replies _ _ _ _ He) r x') as (y & Hy & E); [by eapply lookup_lt_Some|done|]. rewrite E by done.
  unfold result in *. congruence.
Qed.

Lemma writer_count d T : 0 < cnt (TWriter (d_res d)) (tokens d ++ T).
Proof.
  unfold tokens. pose proof (cnt_nonneg (TWriter (d_res d)) (held d ++ lease_of d)). pose proof (cnt_nonneg (TWriter (d_res d)) T).
  cbn [app]. rewrite cnt_cons, cnt_app. count_step. lia.
Qed.

(** The result [r] of the operation [n] is in the reply, after those that succeeded. *)
Definition stored (d : compound_data) (w : world) (n : nat) (r : nfs_resop4) (len : Z) : Prop :=
  exists x, result w (d_res d) x /\ length (cr_val (res_compound4 x)) = length (d_argarray d) /\ cr_len (res_compound4 x) = len
    /\ cr_val (res_compound4 x) !! n = Some r
    /\ (ops_lawful -> forall j rj, (j < n)%nat -> cr_val (res_compound4 x) !! j = Some rj -> r_status rj = NFS4_OK).

Lemma reply_so_far_goes P W w w' T d n len :
  goes P W w w' T -> 0 < cnt (TWriter (d_res d)) T -> d_res d ∉ W -> reply_so_far d w n len -> reply_so_far d w' n len.
Proof.
  intros Hg Hc Hn (x & Hx & Hr). destruct (reply_kept _ _ _ _ _ _ _ Hg Hc Hn Hx) as (x' & Hx' & E). exists x'. by rewrite E.
Qed.

Lemma reply_same d d' w n len : same_request d d' -> reply_so_far d w n len -> reply_so_far d' w n len.
Proof. intros (_ & Ea & Er). unfold reply_so_far. by rewrite Ea, Er. Qed.

Lemma store_reply P d w T n r len :
  inv w T -> 0 < cnt (TWriter (d_res d)) T -> reply_so_far d w n len -> (n < length (d_argarray d))%nat ->
  exists w', write_reply d (store_resop n r) w = Ret w' /\ moves P [d_res d] w w' T /\ stored d w' n r len
    /\ w_sessions w' = w_sessions w /\ w_table w' = w_table w.
Proof.
  intros Hi Hc (x & Hx & Hlen & Hcr & Hok) Hn.
  destruct (write_reply_moves P w T d (store_resop n r) x
              (MkCompound (cr_status (res_compound4 x)) (cr_tag (res_compound4 x)) (cr_len (res_compound4 x)) (<[n := r]> (cr_val (res_compound4 x)))))
    as (w' & E & M & Hx' & Ht & Es); [done..|unfold store_resop; by rewrite (proj2 (Nat.ltb_lt _ _)) by lia|done|].
  exists w'. split; [done|]. split; [done|]. split; [|done]. eexists. split; [exact Hx'|]. cbn [res_compound4 cr_val cr_len].
  split; [by rewrite length_insert|]. split; [done|]. split; [apply list_lookup_insert_eq; lia|].
  intros Hl j rj Hj. rewrite list_lookup_insert_ne by lia. by apply Hok.
Qed.

Lemma set_len_reply P d w T n r len len' :
  inv w T -> 0 < cnt (TWriter (d_res d)) T -> stored d w n r len ->
  exists w', write_reply d (set_len len') w = Ret w' /\ moves P [d_res d] w w' T /\ stored d w' n r len'
    /\ w_sessions w' = w_sessions w /\ w_table w' = w_table w.
Proof.
  intros Hi Hc (x & Hx & Hlen & Hcr & Hr & Hok).
  destruct (write_reply_moves P w T d (set_len len') x
              (MkCompound (cr_status (res_compound4 x)) (cr_tag (res_compound4 x)) len' (cr_val (res_compound4 x))))
    as (w' & E & M & Hx' & Ht & Es); [done..|].
  exists w'. split; [done|]. split; [done|]. split; [|done]. eexists. split; [exact Hx'|]. by cbn [res_compound4 cr_val cr_len].
Qed.

(** The slot of a request does not depend on replies. *)
Lemma has_slot_frame d w w' a : w_sessions w' = w_sessions w -> has_slot d w a -> has_slot d w' a.
Proof. intros Es. unfold has_slot, slot_at, alive. by rewrite Es. Qed.

Lemma seq_end_frame d w w' : w_sessions w' = w_sessions w -> w_table w' = w_table w -> seq_end d w -> seq_end d w'.
Proof. intros Es Et. unfold seq_end, has_slot, slot_at, alive. by rewrite Es, Et. Qed.

Lemma stored_end d w n r st :
  stored d w n r (Z.of_nat n + 1) -> (n < length (d_argarray d))%nat -> (ops_lawful -> r_status r = st /\ st <> NFS4_OK) -> reply_end d w st.
Proof.
  intros (x & Hx & Hlen & Hcr & Hr & Hok) Hn Hst. exists x, (S n). split; [done|]. split; [done|]. split; [lia|]. split; [lia|].
  intros Hl. exists r. replace (S n - 1)%nat with n by lia. destruct (Hst Hl). split; [done|]. split; [done|]. split; [done|]. by apply Hok.
Qed.

Lemma stored_more d w n r len : stored d w n r len -> (ops_lawful -> r_status r = NFS4_OK) -> reply_so_far d w (S n) len.
Proof.
  intros (x & Hx & Hlen & Hcr & Hr & Hok) Hst. exists x. split; [done|]. split; [done|]. split; [done|]. intros Hl j rj Hj Hrj.
  destruct (decide (j = n)) as [->|Hne]; [|apply (Hok Hl j); [lia|done]]. rewrite Hr in Hrj. injection Hrj as <-. by apply Hst.
Qed.

Lemma stored_less d w n r len : stored d w n r len -> reply_so_far d w n len.
Proof. intros (x & Hx & Hlen & Hcr & Hr & Hok). by exists x. Qed.
End run.
