(* ===== verification/NfsCompoundStep.v ===== *)
(** * One operation of a request *)

From S2P Require Import Prelude NfsProto NfsNames NfsSession NfsSessionInv NfsSessionOps NfsCompound NfsCompoundProofs NfsCompoundRun.
Local Open Scope Z_scope.

Section step.
Context `{Nfs4Ops}.
Implicit Types (w : world) (T U : list token) (d : compound_data).

Lemma thisres_total d w n len : reply_so_far d w n len -> (d_oppos d < length (d_argarray d))%nat -> exists r, thisres d w = Ret r.
Proof.
  intros (x & Hx & Hlen & _) Hp. unfold thisres. rewrite (get_result_live _ _ _ Hx), res_bind_ret.
  destruct (lookup_lt_is_Some_2 (cr_val (res_compound4 x)) (d_oppos d)) as [r ->]; [lia|by exists r].
Qed.

(** An operation on files. *)
Lemma call_file d w T thisarg o :
  running d w -> inv w (tokens d ++ T) -> (ops_lawful -> lawful o) -> (oo_ret o = OpWait -> resumable d) ->
  exists result r d' w', op_done o d w = Ret (result, r, d', w') /\ called d w T thisarg result r d' w'.
Proof.
  intros Hr Hi Hl Hw. unfold op_done. eexists _, _, _, _. split; [done|].
  eapply call_plain; try done; [destruct (oo_ret o); auto| |by destruct (oo_ret o); auto|by apply set_fs_goes].
  intros Hlaw. destruct (Hl Hlaw) as [H1 H2]. destruct (oo_ret o); split; intros; try done; auto.
Qed.

Definition blocked (thisarg : nfs_argop4) (w : world) : Prop :=
  exists a s sl, names_slot (opsequence thisarg) w a s sl /\ sl_lock sl = true.

Section call.
Context (desc : nfs4_op_desc) (thisarg : nfs_argop4) (d : compound_data) (w : world) (T : list token).
Hypothesis Hrun : running d w.
Hypothesis Hi : inv w (tokens d ++ T).
Hypothesis Hpos : (d_oppos d < length (d_argarray d))%nat.
Hypothesis Harg : d_argarray d !! d_oppos d = Some thisarg.
Hypothesis Hdesc : op_desc (d_opcode d) = Ret desc.
Hypothesis Hseq : op_fun desc = "nfs4_op_sequence"%string -> d_oppos d = 0%nat /\ argop thisarg = NFS4_OP_SEQUENCE.

(** The result of SEQUENCE when it starts a request that was answered before. *)
Definition replayed (d' : compound_data) (w' : world) : Prop :=
  argop thisarg = NFS4_OP_SEQUENCE /\ d_oppos d = 0%nat /\ exists c, replays (opsequence thisarg) d w T d' w' c.

Definition refused_call (result : nfs_req_result) (d' : compound_data) (w' : world) : Prop :=
  op_fun desc = "nfs4_op_sequence"%string ->
  (result = NFS_REQ_ERROR -> stopped (opsequence thisarg) d w d' w') /\ (result <> NFS_REQ_ERROR -> begins (opsequence thisarg) w d').

(** The call was made and its result is in the reply. *)
Definition written (result : nfs_req_result) (d' : compound_data) (w' : world) : Prop :=
  exists r w1, called d w T thisarg result r d' w1 /\ moves (slots_of d') [d_res d] w1 w' (tokens d' ++ T)
    /\ stored d' w' (d_oppos d) r (Z.of_nat (length (d_argarray d))) /\ w_sessions w' = w_sessions w1 /\ w_table w' = w_table w1
    /\ refused_call result d' w'.

Lemma write_call result r d' w1 k :
  k = Ret (result, r, d', w1) -> called d w T thisarg result r d' w1 -> refused_call result d' w1 ->
  exists w', ('(result, r, d, w) ← k; w ← write_reply d (store_resop (d_oppos d) r) w; Ret (result, d, w)) = Ret (result, d', w')
    /\ written result d' w'.
Proof using Hrun Hpos.
  intros -> Hc Href. pose proof (rn_reply _ _ Hrun) as Hrep. rewrite res_bind_ret.
  destruct (cl_same _ _ _ _ _ _ _ _ Hc) as ((Em & Ea & Er) & Ep & _). pose proof (cl_goes _ _ _ _ _ _ _ _ Hc) as Hg.
  destruct (store_reply (slots_of d') d' w1 (tokens d' ++ T) (d_oppos d) r (Z.of_nat (length (d_argarray d)))) as (w' & E & M & Hst & Es & Et);
    [apply Hg|apply writer_count| |by rewrite Ea|].
  { apply (reply_same d); [by split|]. eapply reply_so_far_goes; [exact Hg|rewrite <- Er; apply writer_count|by intros ?%elem_of_nil|done]. }
  rewrite Ep, E, res_bind_ret. exists w'. split; [done|]. exists r, w1. rewrite Er in M. split; [done|]. split; [done|]. split; [done|].
  split; [done|]. split; [done|]. intros Hf. destruct (Href Hf) as [Hfs Hb]. split; [|done].
  intros Hres. destruct (Hfs Hres) as (Hno & Hfs' & ?). split; [done|]. split; [|done]. rewrite <- Hfs'. apply M.
Qed.

Lemma call_op_spec :
  (call_op desc thisarg d w = Fail /\ argop thisarg = NFS4_OP_SEQUENCE /\ d_oppos d = 0%nat /\ blocked thisarg w)
  \/ exists result d' w', call_op desc thisarg d w = Ret (result, d', w')
     /\ (written result d' w'
         \/ (result = NFS_REQ_REPLAY /\ exists w1 c, replays (opsequence thisarg) d w T d' w1 c /\ argop thisarg = NFS4_OP_SEQUENCE
            /\ d_oppos d = 0%nat /\ moves [] [d_res d] w1 w' (TResult c :: lease_of d' ++ TWriter (d_res d) :: T)
            /\ w_sessions w' = w_sessions w1 /\ w_table w' = w_table w1)).
Proof using Hrun Hi Hpos Harg Hdesc Hseq.
  pose proof (rn_reply _ _ Hrun) as Hrep. unfold call_op. destruct (String.eqb_spec (op_fun desc) "nfs4_op_sequence") as [Ef|Hnf].
  { destruct (Hseq Ef) as [Hp0 Hop]. assert (d_seq d = no_sequence) as Hq.
    { pose proof (rn_seq _ _ Hrun) as Hq. destruct (q_session (d_seq d)); [|done]. destruct Hq as [_ Hq]. lia. }
    rewrite Hp0 in Harg. destruct (call_sequence d w T thisarg Hi (rn_wf _ _ Hrun) Hq Hp0 Harg Hop) as [[-> Hb]|(result & r & d' & w1 & E & Hc)]; [by left|].
    right. exists result, d'. destruct Hc as [[Hc Href]|[-> [c Hrp]]].
    - destruct (write_call _ _ _ _ _ E Hc) as (w' & E' & Hx); [by intros _|]. exists w'. split; [done|by left].
    - destruct (rp_same _ _ _ _ _ _ _ Hrp) as ((Em & Ea & Er) & Ep & _). pose proof (rp_moves _ _ _ _ _ _ _ Hrp) as M1.
      assert (0 < cnt (TWriter (d_res d)) (TResult c :: lease_of d' ++ TWriter (d_res d) :: T)) as Hcw.
      { pose proof (cnt_nonneg (TWriter (d_res d)) (lease_of d')). pose proof (cnt_nonneg (TWriter (d_res d)) T). rewrite cnt_cons, cnt_app, cnt_cons. repeat count_step. lia. }
      destruct (store_reply [] d' w1 _ (d_oppos d) r (Z.of_nat (length (d_argarray d))) (proj1 M1)) as (w' & E' & M' & _ & Es & Et);
        [by rewrite Er| |by rewrite Ea|].
      { apply (reply_same d); [by split|]. eapply reply_so_far_goes; [by apply moves_goes|done|by intros ?%elem_of_nil|done]. }
      exists w'. rewrite E, res_bind_ret, Ep, E', res_bind_ret. split; [done|]. right. split; [done|]. exists w1, c. rewrite Er in M'. done. }
  right. assert (forall result d' w', refused_call result d' w') as Href by (intros ? ? ? ?; done).
  assert (forall result r d' w1 k, k = Ret (result, r, d', w1) -> called d w T thisarg result r d' w1 ->
    exists result d' w', ('(result, r, d, w) ← k; w ← write_reply d (store_resop (d_oppos d) r) w; Ret (result, d, w)) = Ret (result, d', w')
      /\ (written result d' w' \/ (result = NFS_REQ_REPLAY /\ exists w1 c, replays (opsequence thisarg) d w T d' w1 c /\ argop thisarg = NFS4_OP_SEQUENCE
            /\ d_oppos d = 0%nat /\ moves [] [d_res d] w1 w' (TResult c :: lease_of d' ++ TWriter (d_res d) :: T)
            /\ w_sessions w' = w_sessions w1 /\ w_table w' = w_table w1))) as Hw.
  { intros result r d' w1 k E Hc. destruct (write_call _ _ _ _ _ E Hc (Href _ _ _)) as (w' & E' & Hx). exists result, d', w'. split; [done|by left]. }
  repeat case_match.
  - destruct (nfs4_op_destroy_session_spec (opdestroy_session thisarg) d w _ Hi) as (r & w1 & E & M1).
    eapply Hw; [by rewrite E, res_bind_ret|].
    eapply call_plain; try done; [unfold nfsstat4_to_nfs_req_result; case_match; auto| |unfold nfsstat4_to_nfs_req_result; by case_match|by apply moves_goes].
    intros _. unfold nfsstat4_to_nfs_req_result. destruct (Z.eqb_spec (r_status r) NFS4_OK); split; done.
  - eapply Hw; [done|]. eapply call_plain; try done; [auto|by apply moves_goes, moves_refl].
  - eapply Hw; [done|]. eapply call_plain; try done; [auto|by apply moves_goes, moves_refl].
  - destruct (thisres_total d w _ _ Hrep Hpos) as [r ->]. rewrite res_bind_ret.
    destruct (call_file d w T thisarg (op_funct (op_fun desc) (op_other thisarg) (d_minorversion d) r (check_resp_room d w) (d_view d) (w_fs w)))
      as (result & r' & d' & w1 & E & Hc); [done|done|intros [Hl _]; apply Hl| |by eapply Hw].
    intros Hwait (_ & _ & Hl) desc' Hd Hres. rewrite Hdesc in Hd. injection Hd as <-. revert Hwait. apply Hl; [|done].
    unfold op_desc in Hdesc. destruct (optabv4 !! Z.to_nat (d_opcode d)) as [desc'|] eqn:Hk; [|done]. injection Hdesc as ->. by eapply list_elem_of_lookup_2.
Qed.
End call.

(** ** The end of an operation *)

Lemma writer_unique w r U : inv w (TWriter r :: U) -> cnt (TWriter r) U = 0 /\ cnt (TResult r) U = 0 /\ cached_refs r w = 0.
Proof.
  intros Hi. pose proof (cnt_nonneg (TWriter r) U). pose proof (cnt_nonneg (TResult r) U). pose proof (cached_refs_nonneg r w).
  pose proof (in_res _ _ Hi r) as Hr. rewrite !cnt_cons in Hr. repeat count_step.
  destruct (w_results w !! r) as [[x|]|]; [|lia..]. destruct Hr as (Hc1 & Hc2 & _ & Hc4). specialize (Hc4 ltac:(lia)). lia.
Qed.

(** The request is answered with the reply [c] of its slot. *)
Record answered (arg : SEQUENCE4args) (d : compound_data) (w : world) (T : list token) (d' : compound_data) (w' : world) (st : Z) : Prop := {
  an_slot : exists a s sl, names_slot arg w a s sl /\ sl_lock sl = false /\ next_seq sl <> sa_sequenceid arg /\ sl_sequence sl = sa_sequenceid arg
            /\ sl_cached sl = Some (d_res d') /\ d_seq d' = MkSeqData None 0 0 (Some (a, Z.to_nat (sa_slotid arg))) false (Some (clientid_record s));
  an_same : d_argarray d' = d_argarray d /\ d_view d' = d_view d;
  an_status : exists x, result w' (d_res d') x /\ cr_status (res_compound4 x) = st;
  an_moves : moves [] [d_res d] w w' (TResult (d_res d') :: lease_of d' ++ T) }.

Lemma complete_replay arg d w T d' w1 w2 c :
  replays arg d w T d' w1 c -> moves [] [d_res d] w1 w2 (TResult c :: lease_of d' ++ TWriter (d_res d) :: T)
  -> w_sessions w2 = w_sessions w1 -> w_table w2 = w_table w1 ->
  exists st w', complete_op d' NFS_REQ_REPLAY w2 = Ret (NFS_REQ_REPLAY, st, set_res c d', w') /\ answered arg d w T (set_res c d') w' st.
Proof.
  intros Hrp M2 Es2 Et2. pose proof (rp_table _ _ _ _ _ _ _ Hrp) as Et1. destruct (rp_slot _ _ _ _ _ _ _ Hrp) as (a & s & sl & Hn & Hl & Hne & Heq & Hc & Hq).
  destruct (rp_same _ _ _ _ _ _ _ Hrp) as ((Em & Ea & Er) & Ep & Ev). set (i := Z.to_nat (sa_slotid arg)) in *.
  assert (inv w2 (TWriter (d_res d) :: TResult c :: lease_of d' ++ T)) as Hi2.
  { eapply inv_proper; [|apply M2]. intros t. rewrite !cnt_cons, !cnt_app, !cnt_cons. lia. }
  destruct (writer_unique _ _ _ Hi2) as (Hw & _).
  destruct (release_result_moves [] [d_res d] w2 _ (d_res d) _ Hi2) as (w3 & E3 & M3 & Et3 & Es3); [by right|done|].
  assert (slot_at w3 a i sl) as Hsl.
  { destruct Hn as (Ht & Ha & _ & Hsl). destruct (alive_in_table w1 _ (sa_sessionid arg) a (proj1 (rp_moves _ _ _ _ _ _ _ Hrp))) as (s1 & Hs1 & _); [by rewrite Et1|].
    destruct (slot_at_moves _ _ _ _ _ a i sl s1 (rp_moves _ _ _ _ _ _ _ Hrp)) as (s1' & Hs1' & Hsl1); [by intros ?%elem_of_nil|done|by exists s|].
    exists s1'. split; [|done]. unfold alive. by rewrite Es3, Es2. }
  destruct (result_held w3 (TResult c :: lease_of d' ++ T) c (in_res _ _ (proj1 M3))) as [x Hx].
  { pose proof (cached_refs_nonneg c w3). pose proof (cnt_nonneg (TResult c) (lease_of d' ++ T)). pose proof (cnt_nonneg (TWriter c) (TResult c :: lease_of d' ++ T)).
    rewrite (cnt_cons (TResult c)). count_step. lia. }
  unfold complete_op. rewrite bool_decide_true by done. rewrite Er, E3, res_bind_ret, Hq. cbn [q_slot deref]. rewrite res_bind_ret.
  rewrite (slot_at_get _ _ _ _ Hsl), res_bind_ret, Hc. cbn [deref]. rewrite res_bind_ret, (get_result_live _ _ _ Hx), res_bind_ret.
  eexists _, w3. split; [done|]. split.
  - exists a, s, sl. by split_and!.
  - done.
  - by exists x.
  - eapply moves_trans; [eapply moves_weaken; [reflexivity|apply list_subseteq_nil|apply (rp_moves _ _ _ _ _ _ _ Hrp)]|]. by eapply moves_trans.
Qed.

(** ** One operation *)

Inductive processed (thisarg : nfs_argop4) (d : compound_data) (w : world) (T : list token)
  : nfs_req_result -> Z -> compound_data -> world -> Prop :=
| pr_ok st d' w' : same_request d d' -> d_oppos d' = d_oppos d -> running (set_pos (S (d_oppos d')) (d_opcode d') d') w' ->
    (exists r, stored d' w' (d_oppos d) r (Z.of_nat (length (d_argarray d))) /\ r_status r = st) -> seq_step thisarg w d d' ->
    (argop thisarg = NFS4_OP_SEQUENCE -> d_oppos d = 0%nat -> 0 < d_minorversion d -> begins (opsequence thisarg) w d') ->
    goes (slots_of d') [d_res d] w w' (tokens d' ++ T) -> processed thisarg d w T NFS_REQ_OK st d' w'
| pr_wait st d' w' : same_request d d' -> d_oppos d' = d_oppos d -> running d' w' -> resumable d' -> seq_step thisarg w d d' ->
    (argop thisarg = NFS4_OP_SEQUENCE -> d_oppos d = 0%nat -> 0 < d_minorversion d -> begins (opsequence thisarg) w d') ->
    goes (slots_of d') [d_res d] w w' (tokens d' ++ T) -> processed thisarg d w T NFS_REQ_ASYNC_WAIT st d' w'
| pr_error st d' w' : same_request d d' -> seq_end d' w' -> reply_end d' w' st -> seq_step thisarg w d d' ->
    goes (slots_of d') [d_res d] w w' (tokens d' ++ T) ->
    (argop thisarg = NFS4_OP_SEQUENCE -> d_oppos d = 0%nat -> 0 < d_minorversion d -> stopped (opsequence thisarg) d w d' w') ->
    processed thisarg d w T NFS_REQ_ERROR st d' w'
| pr_replay st d' w' : argop thisarg = NFS4_OP_SEQUENCE -> d_oppos d = 0%nat -> answered (opsequence thisarg) d w T d' w' st ->
    processed thisarg d w T NFS_REQ_REPLAY st d' w'.

Lemma has_slot_same d d' w a : d_minorversion d' = d_minorversion d -> d_argarray d' = d_argarray d -> d_seq d' = d_seq d -> has_slot d w a -> has_slot d' w a.
Proof. intros E1 E2 E3. unfold has_slot. by rewrite E1, E2, E3. Qed.

(** A call that did not start a request answered before ends. *)
Lemma complete_written desc thisarg d w T result d' w' :
  running d w -> (d_oppos d < length (d_argarray d))%nat ->
  written desc thisarg d w T result d' w' ->
  (argop thisarg = NFS4_OP_SEQUENCE -> d_oppos d = 0%nat -> 0 < d_minorversion d -> op_fun desc = "nfs4_op_sequence"%string) ->
  exists result' st d'' w'',
    (if bool_decide (result = NFS_REQ_ASYNC_WAIT) then Ret (result, NFS4_OK, d', w') else complete_op d' result w') = Ret (result', st, d'', w'')
    /\ processed thisarg d w T result' st d'' w''.
Proof.
  intros Hrun Hpos (r & w1 & Hc & M & Hst & Es & Et & Href) Hf.
  destruct Hc as [(Hsame & Ep & Eo) Hres Hlaw Hwait Hseq Hend Hg]. pose proof Hsame as (Em & Ea & Er). destruct (rn_opcode _ _ Hrun) as [desc' Hdesc].
  assert (goes (slots_of d') [d_res d] w w' (tokens d' ++ T)) as Hg'.
  { eapply goes_trans; [eapply goes_weaken; [reflexivity|apply list_subseteq_nil|exact Hg]|by apply moves_goes]. }
  destruct (decide (result = NFS_REQ_ASYNC_WAIT)) as [->|Hnw].
  { rewrite bool_decide_true by done. eexists _, _, _, _. split; [done|]. apply pr_wait; try done; [|by unfold resumable; rewrite Eo; apply Hwait|by intros Hop Hp0 Hmin; apply (Href (Hf Hop Hp0 Hmin))].
    rewrite bool_decide_false in Hend by done. split.
    - pose proof (rn_wf _ _ Hrun). unfold well_formed. by rewrite Em, Ea.
    - destruct (q_session (d_seq d')) as [a|]; [|done]. destruct Hend as [Hs Hp]. split; [by eapply has_slot_frame|rewrite Ep; auto].
    - rewrite Ep, Ea. by eapply stored_less.
    - rewrite Eo. by exists desc'. }
  rewrite bool_decide_false by done. unfold complete_op. rewrite bool_decide_false by (by destruct Hres as [->|[->| ->]]).
  destruct Hst as (x & Hx & Hlen & Hcr & Hr & Hok). unfold thisres. rewrite (get_result_live _ _ _ Hx), res_bind_ret, Ep, Hr. cbn [deref].
  rewrite res_bind_ret, Eo, Hdesc, res_bind_ret. cbn zeta. set (d2 := set_sizes _ _ d').
  assert (stored d2 w' (d_oppos d) r (Z.of_nat (length (d_argarray d)))) as Hst by (by exists x).
  destruct (decide (result = NFS_REQ_ERROR)) as [->|Hne].
  - rewrite bool_decide_true by done. rewrite bool_decide_true in Hend by done.
    destruct (set_len_reply (slots_of d') d2 w' (tokens d' ++ T) (d_oppos d) r (Z.of_nat (length (d_argarray d))) (Z.of_nat (d_oppos d) + 1) (proj1 Hg')) as (w2 & E2 & M2 & Hst2 & Es2 & Et2);
      [apply (writer_count d')|done|]. change (d_oppos d2) with (d_oppos d'). rewrite Ep, E2, res_bind_ret. eexists _, _, _, _. split; [done|].
    apply pr_error; try done.
    + eapply seq_end_frame; [by rewrite Es2|by rewrite Et2|]. by eapply (seq_end_frame d' w1).
    + eapply stored_end; [exact Hst2|by change (d_argarray d2) with (d_argarray d'); rewrite Ea|]. intros Hl. split; [done|]. by apply Hlaw.
    + eapply goes_trans; [exact Hg'|]. apply moves_goes. by rewrite <- Er.
    + intros Hop Hp0 Hmin. destruct (Href (Hf Hop Hp0 Hmin)) as [Hfs _]. destruct (Hfs eq_refl) as (Hno & Hfs' & Hv). split; [done|]. split; [|done]. rewrite <- Hfs'. apply M2.
  - rewrite bool_decide_false by done. eexists _, _, _, _. split; [done|]. assert (result = NFS_REQ_OK) as -> by (destruct Hres as [->|[->| ->]]; done).
    rewrite bool_decide_false in Hend by done. apply pr_ok; try done; [|by exists r|by intros Hop Hp0 Hmin; apply (Href (Hf Hop Hp0 Hmin))]. split.
    + pose proof (rn_wf _ _ Hrun). change (well_formed d'). unfold well_formed. by rewrite Em, Ea.
    + change (d_seq (set_pos (S (d_oppos d2)) (d_opcode d2) d2)) with (d_seq d'). destruct (q_session (d_seq d')) as [a|]; [|done].
      split; [|cbn; lia]. eapply has_slot_same with (d := d'); [done..|]. eapply has_slot_frame; [exact Es|apply Hend].
    + change (reply_so_far d2 w' (S (d_oppos d')) (Z.of_nat (length (d_argarray d')))). rewrite Ep, Ea. eapply stored_more; [exact Hst|].
      intros Hl. by apply Hlaw.
    + change (d_opcode (set_pos (S (d_oppos d2)) (d_opcode d2) d2)) with (d_opcode d'). rewrite Eo. by exists desc'.
Qed.

(** The size and the number of the operation play no part. *)
Lemma processed_same thisarg d d2 w T result st d' w' :
  same_request d d2 -> d_oppos d2 = d_oppos d -> d_seq d2 = d_seq d -> d_view d2 = d_view d ->
  processed thisarg d2 w T result st d' w' -> processed thisarg d w T result st d' w'.
Proof.
  intros (Em & Ea & Er) Ep Eq Ev.
  assert (forall d', same_request d2 d' -> same_request d d') as Hs by (intros e (? & ? & ?); split; [|split]; congruence).
  assert (forall d', seq_step thisarg w d2 d' -> seq_step thisarg w d d') as Hq by (intros e; unfold seq_step; by rewrite Ep, Eq, Em).
  destruct 1 as [st d' w' ? ? ? Hst ? Hb|st d' w' ? ? ? Hres Hst Hb|st d' w' ? ? ? ? ? Hf|st d' w' ? ? [? ? ? ?]].
  - rewrite Ep, Ea, Er, Em in *. by apply pr_ok; auto.
  - rewrite Ep, Er, Em in *. by apply pr_wait; auto.
  - unfold stopped, refuses in Hf. rewrite Ep, Em, Er, Ev in *. by apply pr_error; auto.
  - rewrite Ep in *. apply pr_replay; [done..|]. rewrite Ea, Er, Ev in *. by split.
Qed.

Lemma check_op_first desc thisarg d w : check_op desc thisarg d w = Ret NFS4_OK -> d_opcode d = NFS4_OP_SEQUENCE -> d_oppos d = 0%nat.
Proof.
  unfold check_op. intros Hc Ho. rewrite Ho in Hc. destruct (d_oppos d); [done|]. cbn in Hc. discriminate.
Qed.

(** No check stands before the SEQUENCE of a request. *)
Lemma check_op_sequence desc thisarg d w :
  d_opcode d = NFS4_OP_SEQUENCE -> d_oppos d = 0%nat -> d_seq d = no_sequence -> d_argarray d !! 0%nat = Some thisarg ->
  op_desc NFS4_OP_SEQUENCE = Ret desc -> check_op desc thisarg d w = Ret NFS4_OK.
Proof.
  intros Ho Hp Hq Ha [= <-]. unfold check_op, check_resp_room, session_attrs. rewrite Ho, Hp, Hq, Ha. cbn -[NFS4_OP_SEQUENCE].
  destruct (0 <? d_minorversion d); cbn; by destruct (d_minorversion d =? 0).
Qed.

Lemma last_opcode m : 0 <= m <= 2 -> exists last, LastOpcode !! Z.to_nat m = Some last /\ 0 <= last <= 75 /\ (0 < m -> 53 <= last).
Proof.
  intros Hm. assert (m = 0 \/ m = 1 \/ m = 2) as [->|[->| ->]] by lia; eexists; (split; [reflexivity|]); unfold NFS4_OP_RELEASE_LOCKOWNER, NFS4_OP_RECLAIM_COMPLETE, NFS4_OP_REMOVEXATTR; lia.
Qed.

Lemma sequence_desc desc : op_desc NFS4_OP_SEQUENCE = Ret desc -> op_fun desc = "nfs4_op_sequence"%string.
Proof. vm_compute. by intros [= <-]. Qed.

Lemma running_seq_end d w : running d w -> seq_end d w.
Proof.
  intros [_ Hq _ _]. unfold seq_end. destruct (q_session (d_seq d)); [apply Hq|]. by rewrite Hq.
Qed.

Lemma process_one_op_spec d w T thisarg :
  running d w -> inv w (tokens d ++ T) -> d_argarray d !! d_oppos d = Some thisarg ->
  (process_one_op d w = Fail /\ argop thisarg = NFS4_OP_SEQUENCE /\ d_oppos d = 0%nat /\ blocked thisarg w)
  \/ exists result st d' w', process_one_op d w = Ret (result, st, d', w') /\ processed thisarg d w T result st d' w'.
Proof.
  intros Hrun Hi Harg. pose proof (lookup_lt_Some _ _ _ Harg) as Hpos. destruct (rn_wf _ _ Hrun) as [Hm Hargs].
  pose proof (proj1 (Forall_lookup _ _) Hargs _ _ Harg) as [Hop0 _]. destruct (last_opcode _ Hm) as (last & Hlast & Hr & Hge).
  unfold process_one_op. rewrite Harg, Hlast. cbn [deref]. rewrite !res_bind_ret. cbn zeta.
  set (opcode := if last <? argop thisarg then 0 else argop thisarg).
  assert (0 <= opcode <= 75) as Hopc by (unfold opcode; destruct (Z.ltb_spec last (argop thisarg)); lia).
  destruct (optab_all opcode Hopc) as [desc Hdesc]. rewrite Hdesc, res_bind_ret.
  set (d1 := set_pos (d_oppos d) opcode _). assert (running d1 w) as Hrun1 by (destruct Hrun; split; [done..|by exists desc]).
  destruct (check_op_total desc thisarg d1 w) as [st Hst].
  { by apply lookup_lt_is_Some; cbn; lia. } { intros a Hq. eapply (si_held _ _ (in_sess _ _ Hi)), (held_count d T a Hq). }
  rewrite Hst, res_bind_ret. destruct (Z.eqb_spec st NFS4_OK) as [->|Hbad]; cbn [negb].
  - set (d2 := set_sizes _ _ d1). assert (running d2 w) as Hrun2 by (by destruct Hrun1).
    assert (op_fun desc = "nfs4_op_sequence"%string -> d_oppos d2 = 0%nat /\ argop thisarg = NFS4_OP_SEQUENCE) as Hs.
    { intros Hf. unfold op_desc in Hdesc. destruct (optabv4 !! Z.to_nat opcode) as [desc'|] eqn:Hk; [|done]. injection Hdesc as ->.
      apply (sequence_only _ _ Hk) in Hf. assert (opcode = 53) as Ho by lia. split; [by eapply check_op_first|].
      revert Ho. unfold opcode. case_match; [done|]. intros ->. done. }
    assert (argop thisarg = NFS4_OP_SEQUENCE -> 0 < d_minorversion d2 -> op_fun desc = "nfs4_op_sequence"%string) as Hf.
    { intros Ho Hmin. apply sequence_desc. rewrite <- Hdesc. unfold opcode. rewrite Ho. rewrite (proj2 (Z.ltb_ge _ _)); [done|]. by apply Hge. }
    destruct (call_op_spec desc thisarg d2 w T Hrun2 Hi Hpos Harg Hdesc Hs) as [[-> Hb]|(result & d' & w' & -> & Hc)]; [by left|]. rewrite res_bind_ret. right.
    destruct Hc as [Hc|[-> (w1 & c & Hrp & Ho & Hp0 & M & Es & Et)]].
    + destruct (complete_written desc thisarg d2 w T result d' w' Hrun2 Hpos) as (result' & st & d3 & w3 & E & Hp); [done|by intros ? _; apply Hf|].
      exists result', st, d3, w3. split; [exact E|]. by eapply processed_same; [..|exact Hp].
    + rewrite bool_decide_false by done. destruct (complete_replay _ _ _ _ _ _ _ _ Hrp M Es Et) as (st & w3 & E & Ha).
      eexists _, _, _, _. split; [exact E|]. eapply processed_same; [..|apply pr_replay; [done|exact Hp0|exact Ha]]; done.
  - right. set (d2 := set_sizes _ _ d1). assert (running d2 w) as Hrun2 by (by destruct Hrun1).
    destruct (thisres_total d2 w _ _ (rn_reply _ _ Hrun2) Hpos) as [r ->]. rewrite res_bind_ret.
    destruct (store_reply [] d2 w (tokens d ++ T) (d_oppos d) (MkResop opcode st (r_body r)) (Z.of_nat (length (d_argarray d))) Hi) as (w1 & E1 & M1 & Hst1 & Es1 & Et1);
      [exact (writer_count d T)|apply (rn_reply _ _ Hrun2)|done|]. change (d_oppos d2) with (d_oppos d). rewrite E1, res_bind_ret.
    destruct (set_len_reply [] d2 w1 (tokens d ++ T) _ _ _ (Z.of_nat (d_oppos d) + 1) (proj1 M1) (writer_count d T) Hst1) as (w2 & E2 & M2 & Hst2 & Es2 & Et2). rewrite E2, res_bind_ret. eexists _, _, _, _. split; [done|].
    assert (moves [] [d_res d] w w2 (tokens d ++ T)) as M by exact (moves_trans _ _ _ _ _ _ _ M1 M2).
    apply pr_error; try done.
    + apply (seq_end_frame d2 w w2); [by rewrite Es2, Es1|by rewrite Et2, Et1|]. by apply running_seq_end.
    + by eapply stored_end; [exact Hst2|..].
    + by left.
    + eapply goes_weaken; [apply list_subseteq_nil|reflexivity|by apply moves_goes].
    + intros Ho Hp0 Hmin. destruct Hbad. assert (opcode = NFS4_OP_SEQUENCE) as Hoc.
      { unfold opcode. rewrite Ho. rewrite (proj2 (Z.ltb_ge _ _)); [done|by apply Hge]. }
      rewrite (check_op_sequence desc thisarg d1 w) in Hst; [congruence|done..| |by rewrite <- Hp0|by rewrite <- Hoc].
      change (d_seq d = no_sequence). pose proof (rn_seq _ _ Hrun) as Hq. destruct (q_session (d_seq d)); [|done]. destruct Hq as [_ Hq]. lia.
Qed.
End step.
