(* ===== verification/NfsServer.v ===== *)
(** * The NFS server as a whole

    Requests come in any order; some wait for the file system and are resumed later, and
    replies are freed when they were sent. The state is the memory together with the
    requests that wait and the replies that are being sent. *)

From S2P Require Import Prelude NfsProto NfsNames NfsSession NfsSessionInv NfsSessionOps NfsCompound NfsCompoundProofs NfsCompoundRun.
From S2P Require Import NfsCompoundStep.
Local Open Scope Z_scope.

Section loop.
Context `{Nfs4Ops}.
Implicit Types (w : world) (T U : list token) (d : compound_data).

(** ** The loop over the operations *)

(** What SEQUENCE set stays, once it has run. *)
Definition seq_loop (d : compound_data) (w : world) (d' : compound_data) : Prop :=
  d_seq d' = d_seq d
  \/ (d_oppos d = 0%nat /\ exists arg0, d_argarray d !! 0%nat = Some arg0 /\ argop arg0 = NFS4_OP_SEQUENCE
      /\ ((0 < d_minorversion d /\ begins (opsequence arg0) w d') \/ q_slot (d_seq d') = None)).

(** A request that SEQUENCE did not let begin changes nothing. *)
Definition unbegun (d : compound_data) (w : world) (d' : compound_data) (w' : world) : Prop :=
  forall arg0, d_argarray d !! 0%nat = Some arg0 -> argop arg0 = NFS4_OP_SEQUENCE -> d_oppos d = 0%nat -> 0 < d_minorversion d ->
  begins (opsequence arg0) w d' \/ (refuses (opsequence arg0) d w /\ w_fs w' = w_fs w /\ d_view d' = d_view d).

Definition begun (d : compound_data) (w : world) (d' : compound_data) : Prop :=
  forall arg0, d_argarray d !! 0%nat = Some arg0 -> argop arg0 = NFS4_OP_SEQUENCE -> d_oppos d = 0%nat -> 0 < d_minorversion d ->
  begins (opsequence arg0) w d'.

(** A request that waits for the file system. *)
Record waiting (d : compound_data) (w : world) : Prop := {
  wt_running : running d w;
  wt_pos : (d_oppos d < length (d_argarray d))%nat;
  wt_resumable : resumable d;
  wt_first : d_oppos d = 0%nat -> 0 < d_minorversion d -> forall arg0, d_argarray d !! 0%nat = Some arg0 -> argop arg0 <> NFS4_OP_SEQUENCE }.

Inductive looped (d : compound_data) (w : world) (T : list token) : nfs_req_result -> Z -> compound_data -> world -> Prop :=
| lp_end result st d' w' : result = NFS_REQ_OK \/ result = NFS_REQ_ERROR -> same_request d d' -> seq_end d' w' -> reply_end d' w' st ->
    seq_loop d w d' -> goes (slots_of d') [d_res d] w w' (tokens d' ++ T) -> unbegun d w d' w' -> looped d w T result st d' w'
| lp_wait st d' w' : same_request d d' -> waiting d' w' -> seq_loop d w d' ->
    goes (slots_of d') [d_res d] w w' (tokens d' ++ T) -> begun d w d' -> looped d w T NFS_REQ_ASYNC_WAIT st d' w'
| lp_replay st d' w' arg0 : d_argarray d !! 0%nat = Some arg0 -> argop arg0 = NFS4_OP_SEQUENCE -> d_oppos d = 0%nat ->
    answered (opsequence arg0) d w T d' w' st -> looped d w T NFS_REQ_REPLAY st d' w'.

Lemma stored_last d w n r st :
  stored d w n r (Z.of_nat (length (d_argarray d))) -> r_status r = st -> S n = length (d_argarray d) -> reply_end d w st.
Proof.
  intros (x & Hx & Hlen & Hcr & Hr & Hok) Hst Hn. exists x, (S n). split; [done|]. split; [done|]. split; [by rewrite Hn|]. split; [lia|].
  intros Hl. exists r. replace (S n - 1)%nat with n by lia. split; [done|]. split; [done|]. split; [done|]. by apply Hok.
Qed.

(** Once past the first operation, what SEQUENCE set does not change. *)
Lemma seq_loop_later d w d' : seq_loop d w d' -> d_oppos d <> 0%nat -> d_seq d' = d_seq d.
Proof. intros [?|[? _]]; done. Qed.

Lemma begins_seq arg w d d' : d_seq d' = d_seq d -> begins arg w d -> begins arg w d'.
Proof. intros E. unfold begins. by rewrite E. Qed.

Lemma seq_step_loop thisarg w d d1 : seq_step thisarg w d d1 -> d_argarray d !! d_oppos d = Some thisarg -> seq_loop d w d1.
Proof. intros [?|(Hp & Ho & Hb)] Ha; [by left|]. right. split; [done|]. exists thisarg. rewrite Hp in Ha. done. Qed.

Lemma seq_loop_more d w d1 d' : seq_loop d w d1 -> d_seq d' = d_seq d1 -> seq_loop d w d'.
Proof.
  intros [E|(Hp & arg0 & Ha & Ho & Hb)] E'; [left; congruence|]. right. split; [done|]. exists arg0. split; [done|]. split; [done|].
  destruct Hb as [[Hm Hb]|Hb]; [left; split; [done|by eapply begins_seq]|right; congruence].
Qed.

(** The loop goes on after an operation that succeeded. *)
Lemma looped_step thisarg d w T st d1 w1 result st' d' w' :
  d_argarray d !! d_oppos d = Some thisarg -> processed thisarg d w T NFS_REQ_OK st d1 w1 ->
  looped (set_pos (S (d_oppos d1)) (d_opcode d1) d1) w1 T result st' d' w' -> looped d w T result st' d' w'.
Proof.
  intros Harg Hp Hl. inversion Hp as [? ? ? Hsame1 Ep Hrun _ Hs1 Hb1 Hg1| | |]; subst.
  assert (forall e, same_request (set_pos (S (d_oppos d1)) (d_opcode d1) d1) e -> same_request d e) as Hsame.
  { intros e (E1 & E2 & E3). destruct Hsame1 as (? & ? & ?). cbn in *. split; [|split]; congruence. }
  assert (forall e w2, same_request (set_pos (S (d_oppos d1)) (d_opcode d1) d1) e -> seq_loop (set_pos (S (d_oppos d1)) (d_opcode d1) d1) w1 e ->
    goes (slots_of e) [d_res (set_pos (S (d_oppos d1)) (d_opcode d1) d1)] w1 w2 (tokens e ++ T) ->
    seq_loop d w e /\ goes (slots_of e) [d_res d] w w2 (tokens e ++ T) /\ begun d w e) as Hnext.
  { intros e w2 Hse Hse2 Hg2. assert (d_seq e = d_seq d1) as Eq by (by apply (seq_loop_later _ _ _ Hse2)).
    assert (slots_of e = slots_of d1) as Esl by (unfold slots_of; by rewrite Eq). split; [|split].
    - eapply seq_loop_more; [by eapply seq_step_loop|done].
    - rewrite Esl in *. eapply goes_trans; [exact Hg1|]. destruct Hsame1 as (_ & _ & Er). cbn in Hg2. rewrite Er in Hg2. done.
    - intros arg0 Ha0 Ho Hp0 Hm. eapply begins_seq; [exact Eq|]. rewrite Hp0, Ha0 in Harg. injection Harg as ->. by apply Hb1. }
  inversion Hl as [? ? ? ? Hres Hs2 Hend Hrep Hq2 Hg2 _|? ? ? Hs2 Hw2 Hq2 Hg2 _|? ? ? ? ? ? Hp0]; subst.
  - destruct (Hnext d' w' Hs2 Hq2 Hg2) as (? & ? & Hbeg). apply lp_end; auto. intros arg0 Ha0 Ho Hp0 Hm. left. by apply Hbeg.
  - destruct (Hnext d' w' Hs2 Hq2 Hg2) as (? & ? & ?). apply lp_wait; auto.
  - done.
Qed.

Lemma process_ops_spec fuel : forall d w T st,
  running d w -> inv w (tokens d ++ T) -> (d_oppos d <= length (d_argarray d))%nat -> (length (d_argarray d) - d_oppos d <= fuel)%nat ->
  (d_oppos d = length (d_argarray d) -> reply_end d w st) ->
  (process_ops fuel NFS_REQ_OK st d w = Fail
   /\ exists arg0, d_argarray d !! 0%nat = Some arg0 /\ d_oppos d = 0%nat /\ argop arg0 = NFS4_OP_SEQUENCE /\ blocked arg0 w)
  \/ exists result st' d' w', process_ops fuel NFS_REQ_OK st d w = Ret (result, st', d', w') /\ looped d w T result st' d' w'.
Proof.
  assert (forall d w T st, running d w -> inv w (tokens d ++ T) -> d_oppos d = length (d_argarray d) -> reply_end d w st ->
    looped d w T NFS_REQ_OK st d w) as Hdone.
  { intros d w T st Hrun Hi He Hrep. apply lp_end; [by left|done|by apply running_seq_end|done|by left|split; [done|apply evolves_refl]|].
    intros arg0 Ha _ Hp. apply lookup_lt_Some in Ha. lia. }
  induction fuel as [|fuel IH]; intros d w T st Hrun Hi Hle Hf Hat; cbn [process_ops].
  { right. eexists _, _, _, _. split; [done|]. apply Hdone; [done..|lia|apply Hat; lia]. }
  rewrite bool_decide_true by done. cbn [andb]. destruct (Nat.ltb_spec (d_oppos d) (length (d_argarray d))) as [Hlt|Hge].
  2: { right. eexists _, _, _, _. split; [done|]. apply Hdone; [done..|lia|apply Hat; lia]. }
  destruct (lookup_lt_is_Some_2 _ _ Hlt) as [thisarg Harg].
  destruct (process_one_op_spec d w T thisarg Hrun Hi Harg) as [(-> & Ho & Hp0 & Hb)|(result & st1 & d1 & w1 & -> & Hp)].
  { left. split; [done|]. exists thisarg. by rewrite Hp0 in Harg. }
  rewrite res_bind_ret. destruct Hp as [st1 d1 w1 Hs Ep Hr Hst Hq Hb Hg|st1 d1 w1 Hs Ep Hr Hres Hq Hb Hg|st1 d1 w1 Hs He Hr Hq Hg Hfs|st1 d1 w1 Ho Hp0 Ha].
  - rewrite bool_decide_false by done. pose proof Hs as (Em & Ea & Er).
    edestruct (IH (set_pos (S (d_oppos d1)) (d_opcode d1) d1) w1 T st1 Hr (proj1 Hg)) as [[_ (? & _ & Habs & _)]|(result & st' & d' & w' & E & Hl)];
      [cbn; rewrite Ep, Ea; lia..| |done|].
    { cbn. rewrite Ep. intros Hn. destruct Hst as (r & Hst & Hrs). change (reply_end d1 w1 st1). eapply stored_last; [by rewrite Ea|done|congruence]. }
    right. exists result, st', d', w'. split; [done|]. eapply looped_step; [exact Harg| |exact Hl]. by apply pr_ok.
  - right. eexists _, _, _, _. split; [done|]. pose proof Hs as (Em & Ea & Er). apply lp_wait; [done| |by eapply seq_step_loop|done|].
    { split; [done|by rewrite Ep, Ea|done|]. rewrite Ep, Em, Ea. intros Hp0 Hm arg0 Ha0 Ho. rewrite Hp0, Ha0 in Harg. injection Harg as ->.
      destruct (Hb Ho Hp0 Hm) as (? & ? & ? & _ & _ & _ & Hsl & _). pose proof (rn_seq _ _ Hr) as Hrs.
      destruct (q_session (d_seq d1)); [destruct Hrs as [_ ?]; lia|by rewrite Hrs in Hsl]. }
    intros arg0 Ha0 Ho Hp0 Hm. rewrite Hp0, Ha0 in Harg. injection Harg as ->. by apply Hb.
  - right. rewrite bool_decide_false by done. exists NFS_REQ_ERROR, st1, (set_pos (S (d_oppos d1)) (d_opcode d1) d1), w1.
    split; [by destruct fuel|]. apply lp_end; [by right|done|done|done|by eapply (seq_step_loop thisarg w d d1)|done|].
    intros arg0 Ha0 Ho Hp0 Hm. rewrite Hp0, Ha0 in Harg. injection Harg as ->. destruct (Hfs Ho Hp0 Hm) as ([Hb|Hno] & Hv); [by left|by right].
  - right. rewrite bool_decide_false by done. exists NFS_REQ_REPLAY, st1, (set_pos (S (d_oppos d1)) (d_opcode d1) d1), w1.
    split; [by destruct fuel|]. rewrite Hp0 in Harg. eapply lp_replay; [done..|]. by destruct Ha.
Qed.
End loop.

(** ** The end of a request *)

Section finish.
Context `{Nfs4Ops}.
Implicit Types (w : world) (T U : list token) (d : compound_data).

Lemma rename_writer w r U : inv w (TWriter r :: U) -> inv w (TResult r :: U).
Proof.
  intros Hi. destruct (writer_unique _ _ _ Hi) as (Hw & _ & _). destruct Hi as [Hs Hr Hc]. split.
  - by apply (sess_inv_frame w _ (TWriter r :: U)).
  - intros q. specialize (Hr q). rewrite !cnt_cons in *. destruct (decide (q = r)) as [->|Hn]; repeat count_step.
    + destruct (w_results w !! r) as [[x|]|]; [|lia..]. destruct Hr as (? & ? & ? & ?). split_and!; try done; lia.
    + destruct (w_results w !! q) as [[x|]|]; [|lia..]. destruct Hr as (? & ? & ? & ?). split_and!; try done; lia.
  - by apply (client_inv_frame w _ (TWriter r :: U)).
Qed.

Lemma dup_tag t : tag_ok t -> utf8string_dup (utf8string_val t) (Z.to_nat (utf8string_len t)) = Ret t.
Proof.
  destruct t as [len val]. intros [[Hl Hv]|(bytes & Hv & Hl & _ & Hne)]; cbn in *; subst; [done|]. rewrite Nat2Z.id. unfold utf8string_dup.
  rewrite (proj2 (Nat.eqb_neq _ _)) by (by destruct bytes). rewrite length_app. cbn [length]. rewrite (proj2 (Nat.ltb_ge _ _)) by lia.
  do 3 f_equal. apply take_ge. rewrite length_app. cbn [length]. lia.
Qed.

(** The reply that a slot keeps for a request. *)
Definition kept_reply (d : compound_data) (c c' : COMPOUND4res) : Prop :=
  if q_cachethis (d_seq d) then c' = c else uncached_reply c = Ret c'.

Lemma uncached_total c n len :
  tag_ok (cr_tag c) -> length (cr_val c) = len -> cr_len c = Z.of_nat n -> (0 < n <= len)%nat ->
  exists c', uncached_reply c = Ret c' /\ tag_ok (cr_tag c').
Proof.
  intros Ht Hl Hc Hn. unfold uncached_reply. rewrite dup_tag, res_bind_ret by done.
  destruct (lookup_lt_is_Some_2 (cr_val c) 0) as [r0 ->]; [lia|]. cbn [deref]. rewrite res_bind_ret.
  destruct (Z.eqb_spec (cr_len c) 1) as [_|Hne]; [by eexists|].
  destruct (lookup_lt_is_Some_2 (cr_val c) 1) as [r1 ->]; [lia|]. cbn [deref]. rewrite res_bind_ret. by eexists.
Qed.

(** What the slot of a request holds at the end. *)
Definition slot_end (d : compound_data) (w w' : world) (c : COMPOUND4res) (lock : session_slot -> bool) : Prop :=
  match q_slot (d_seq d) with
  | None => True
  | Some (a, i) =>
    forall s', alive w' a s' -> exists sl r' x', slot_at w a i sl /\ slot_at w' a i (MkSlot (sl_sequence sl) (lock sl) (Some r'))
      /\ result w' r' x' /\ kept_reply d c (res_compound4 x')
  end.

Definition cache_result (d : compound_data) (result : nfs_req_result) (w : world) : res world :=
  if q_cachethis (d_seq d) then
    p ← deref (q_slot (d_seq d));
    w ← set_cached p (Some (d_res d)) w;
    inc_result (d_res d) w
  else
    arg0 ← deref (d_argarray d !! 0%nat);
    if (0 <? d_minorversion d) && negb (bool_decide (result = NFS_REQ_REPLAY)) && (argop arg0 =? NFS4_OP_SEQUENCE) then
      match q_slot (d_seq d) with
      | None => Ret w
      | Some p =>
        w ← release_slot p w;
        x ← get_result w (d_res d);
        c ← uncached_reply (res_compound4 x);
        let '(r, w) := new_result (MkExtended c 1) w in
        set_cached p (Some r) w
      end
    else Ret w.

Lemma seq_end_slot d w a i :
  seq_end d w -> q_slot (d_seq d) = Some (a, i) ->
  exists sl, slot_at w a i sl /\ sl_cached sl = None /\ sl_sequence sl = q_sequence (d_seq d)
    /\ sl_lock sl = match q_session (d_seq d) with Some _ => true | None => false end /\ 0 < d_minorversion d
    /\ exists arg0, d_argarray d !! 0%nat = Some arg0 /\ argop arg0 = NFS4_OP_SEQUENCE.
Proof.
  unfold seq_end. intros He Hq. rewrite Hq in He. destruct (q_session (d_seq d)) as [b|].
  - destruct He as (Hq' & _ & Hm & Hs & Ha). rewrite Hq in Hq'. injection Hq' as <- ->. eexists. by split; [exact Hs|].
  - destruct He as (-> & Hs & _ & Hm & Ha). eexists. by split; [exact Hs|].
Qed.

Lemma slots_of_slot d p : q_slot (d_seq d) = Some p -> slots_of d = [p].
Proof. intros Hq. unfold slots_of. by rewrite Hq. Qed.

(** The reply itself is cached. *)
Lemma cache_whole d rr w T x a i :
  q_slot (d_seq d) = Some (a, i) -> q_cachethis (d_seq d) = true -> seq_end d w -> result w (d_res d) x -> inv w (TWriter (d_res d) :: T) ->
  exists w', cache_result d rr w = Ret w' /\ moves (slots_of d) [] w w' (TResult (d_res d) :: T) /\ w_table w' = w_table w
    /\ (exists k, result w' (d_res d) (MkExtended (res_compound4 x) k)) /\ slot_end d w w' (res_compound4 x) sl_lock.
Proof.
  intros Hq Hc He Hx Hi. destruct (seq_end_slot d w a i He Hq) as (sl & Hsl & Hn & _). destruct (writer_unique _ _ _ Hi) as (Hw & _).
  destruct (cache_reply_moves w T a i sl (d_res d) x Hi Hw Hx Hsl Hn) as (w' & E & M & Hsl' & [k Hk] & Ht).
  exists w'. unfold cache_result. rewrite Hc, Hq. cbn [deref]. rewrite res_bind_ret. split; [done|]. rewrite (slots_of_slot _ _ Hq).
  split; [done|]. split; [done|]. split; [by exists k|]. unfold slot_end. rewrite Hq. intros _ _. exists sl, (d_res d). eexists.
  split; [done|]. split; [done|]. split; [exact Hk|]. unfold kept_reply. by rewrite Hc.
Qed.

(** The slot keeps a short reply of its own. *)
Lemma cache_short d rr w T x n a i :
  rr <> NFS_REQ_REPLAY -> q_slot (d_seq d) = Some (a, i) -> q_cachethis (d_seq d) = false -> seq_end d w -> result w (d_res d) x ->
  length (cr_val (res_compound4 x)) = length (d_argarray d) -> cr_len (res_compound4 x) = Z.of_nat n -> (0 < n <= length (d_argarray d))%nat ->
  inv w (TWriter (d_res d) :: T) ->
  exists w', cache_result d rr w = Ret w' /\ moves (slots_of d) [] w w' (TResult (d_res d) :: T) /\ w_table w' = w_table w
    /\ (exists k, result w' (d_res d) (MkExtended (res_compound4 x) k)) /\ slot_end d w w' (res_compound4 x) sl_lock.
Proof.
  intros Hrr Hq Hc He Hx Hlen Hcr Hn Hi. destruct (seq_end_slot d w a i He Hq) as (sl & Hsl & Hnone & _ & _ & Hm & arg0 & Ha0 & Ho).
  rewrite (slots_of_slot _ _ Hq). unfold cache_result, slot_end, kept_reply. rewrite Hc, Ha0, Hq. cbn [deref]. rewrite res_bind_ret.
  rewrite (proj2 (Z.ltb_lt _ _)), bool_decide_false, (proj2 (Z.eqb_eq _ _)) by done. cbn [negb andb].
  destruct (release_slot_moves [] w _ a i sl Hi Hsl) as (w1 & -> & M1 & Hsl1 & Ht1). rewrite res_bind_ret.
  assert (0 < cnt (TWriter (d_res d)) (TWriter (d_res d) :: T)) as Hcw by (pose proof (cnt_nonneg (TWriter (d_res d)) T); rewrite cnt_cons; count_step; lia).
  destruct (reply_kept _ _ _ _ _ (d_res d) x (moves_goes _ _ _ _ _ M1) Hcw) as (x1 & Hx1 & Ex1); [by intros ?%elem_of_nil|done|].
  pose proof (in_res _ _ (proj1 M1) (d_res d)) as Hr1. rewrite Hx1 in Hr1. destruct Hr1 as (_ & _ & Htag & _).
  rewrite (get_result_live _ _ _ Hx1), res_bind_ret, Ex1. rewrite Ex1 in Htag.
  destruct (uncached_total (res_compound4 x) n (length (d_argarray d)) Htag Hlen Hcr Hn) as (c & Hunc & Htag'). rewrite Hunc, res_bind_ret.
  destruct (new_result_moves [(a, i)] [] w1 _ c (TResult (length (w_results w1))) (proj1 M1) Htag') as (w2 & E2 & M2 & Hx2 & Ht2 & Es2 & _ & _); [by left|].
  rewrite E2. assert (slot_at w2 a i (MkSlot (sl_sequence sl) (sl_lock sl) None)) as Hsl2 by (unfold slot_at, alive; by rewrite Es2).
  destruct (set_cached_moves [] w2 _ a i _ _ (proj1 M2) Hsl2) as (s & w3 & Hs & -> & Ew3 & M3 & Hsl3); [done|].
  assert (moves [(a, i)] [] w w3 (TWriter (d_res d) :: T)) as M by (eapply moves_trans; [exact M1|by eapply moves_trans]).
  exists w3. split; [done|]. split; [split; [by apply rename_writer, M|apply M]|]. split; [by rewrite Ew3; cbn; rewrite Ht2|].
  destruct (reply_kept _ _ _ _ _ (d_res d) x (moves_goes _ _ _ _ _ M) Hcw) as ([c3 k] & Hx3 & Ex3); [by intros ?%elem_of_nil|done|].
  split; [exists k; cbn in Ex3; by rewrite <- Ex3|]. intros _ _. eexists sl, _, _. split; [done|]. split; [exact Hsl3|]. split; [by rewrite Ew3|done].
Qed.

Lemma cache_end d w T x n rr :
  rr <> NFS_REQ_REPLAY -> seq_end d w -> result w (d_res d) x -> length (cr_val (res_compound4 x)) = length (d_argarray d) ->
  cr_len (res_compound4 x) = Z.of_nat n -> (0 < n <= length (d_argarray d))%nat -> inv w (TWriter (d_res d) :: T) ->
  exists w', cache_result d rr w = Ret w' /\ moves (slots_of d) [] w w' (TResult (d_res d) :: T) /\ w_table w' = w_table w
    /\ (exists k, result w' (d_res d) (MkExtended (res_compound4 x) k)) /\ slot_end d w w' (res_compound4 x) sl_lock.
Proof.
  intros Hrr He Hx Hlen Hcr Hn Hi. destruct (q_slot (d_seq d)) as [[a i]|] eqn:Hq.
  { destruct (q_cachethis (d_seq d)) eqn:Hc; [by eapply cache_whole|by eapply cache_short]. }
  assert (q_cachethis (d_seq d) = false) as Hc.
  { revert He. unfold seq_end. destruct (q_session (d_seq d)) as [b|]; [|by rewrite Hq]. intros (Hq' & _). congruence. }
  destruct (lookup_lt_is_Some_2 (d_argarray d) 0) as [arg0 Ha0]; [lia|].
  exists w. unfold cache_result, slot_end. rewrite Hc, Ha0, Hq. cbn [deref]. rewrite res_bind_ret. split; [by case_match|].
  split; [|split; [done|split; [|done]]].
  - split; [by apply rename_writer|]. split; [apply evolves_refl|done].
  - exists (res_refcnt x). by destruct x.
Qed.

Definition released (d : compound_data) (f : fs) : fs := match v_handles (d_view d) with Some h => release_handles h f | None => f end.

(** What is left in the slot of a request that ended. *)
Definition slot_left (d : compound_data) (w : world) (c : COMPOUND4res) : Prop :=
  match q_slot (d_seq d) with
  | None => True
  | Some (a, i) =>
    forall s', alive w a s' -> exists r x, slot_at w a i (MkSlot (q_sequence (d_seq d)) false (Some r)) /\ result w r x /\ kept_reply d c (res_compound4 x)
  end.

(** A cached reply does not change while its slot stays. *)
Lemma cached_kept P W w w' T a i sl r x s' :
  goes P W w w' T -> slot_at w' a i sl -> sl_cached sl = Some r -> r ∉ W -> result w r x -> alive w' a s' ->
  exists x', result w' r x' /\ res_compound4 x' = res_compound4 x.
Proof.
  intros [Hi He] (s & Hs & Hsl) Hr Hn Hx _. pose proof (cached_positive w' a s i sl r Hs Hsl Hr) as Hp.
  pose proof (cnt_nonneg (TResult r) T). pose proof (cnt_nonneg (TWriter r) T).
  destruct (result_held w' T r (in_res _ _ Hi)) as [x' Hx']; [lia|]. exists x'. split; [done|].
  destruct (proj2 (ev_replies _ _ _ _ He) r x') as (y & Hy & E); [by eapply lookup_lt_Some|done|]. rewrite E by done. unfold result in *. congruence.
Qed.

(** The slot is unlocked and the session given back. *)
Lemma free_session d w T a c :
  inv w (TLock (a, Z.to_nat (q_slotid (d_seq d))) :: TSession a :: T) -> q_session (d_seq d) = Some a ->
  q_slot (d_seq d) = Some (a, Z.to_nat (q_slotid (d_seq d))) -> q_slotid (d_seq d) < 2 ^ 32 - 1 ->
  (forall j, 0 < cnt (TLock (a, j)) T -> 0 < cnt (TSession a) T) ->
  (exists r x, slot_at w a (Z.to_nat (q_slotid (d_seq d))) (MkSlot (q_sequence (d_seq d)) true (Some r)) /\ result w r x /\ kept_reply d c (res_compound4 x)) ->
  exists w', (w1 ← (if negb (q_slotid (d_seq d) =? 2 ^ 32 - 1) then unlock_slot (a, Z.to_nat (q_slotid (d_seq d))) w else Ret w); dec_session_ref a w1) = Ret w'
    /\ moves (slots_of d) [] w w' T /\ slot_left d w' c.
Proof.
  intros Hi Hq Hsl Hid HT (r & x & Hslot & Hx & Hk). set (i := Z.to_nat (q_slotid (d_seq d))) in *.
  rewrite (proj2 (Z.eqb_neq _ _)) by lia. cbn [negb].
  destruct (unlock_slot_moves [] w _ a i Hi) as (sl & w1 & Hsl1 & _ & -> & M1 & Hsl1' & Ht1). rewrite res_bind_ret.
  rewrite (slot_at_det _ _ _ _ _ Hsl1 Hslot) in Hsl1'. cbn in Hsl1'.
  destruct (dec_session_ref_moves [] [] w1 T a (proj1 M1) HT) as (w2 & E2 & M2 & Ht2). exists w2. split; [done|].
  rewrite (slots_of_slot _ _ Hsl). assert (moves [(a, i)] [] w w2 T) as M by (eapply moves_trans; [exact M1|by apply moves_more]). split; [done|].
  unfold slot_left. rewrite Hsl. intros s' Hs'. assert (slot_at w2 a i (MkSlot (q_sequence (d_seq d)) false (Some r))) as Hf.
  { eapply slot_at_moves; [exact M2|by intros ?%elem_of_nil|exact Hs'|done]. }
  destruct (cached_kept _ _ w w2 T a i _ r x s' (moves_goes _ _ _ _ _ M) Hf) as (x' & Hx' & Ex); [done|by intros ?%elem_of_nil|done|done|].
  exists r, x'. split; [done|]. split; [done|]. by rewrite Ex.
Qed.

(** Who holds a mutex holds its session. *)
Definition paired (T : list token) : Prop := forall a j, 0 < cnt (TLock (a, j)) T -> 0 < cnt (TSession a) T.

Definition ended (d : compound_data) (w w' : world) (T : list token) (st : Z) : Prop :=
  goes (slots_of d) [d_res d] w w' (TResult (d_res d) :: T) /\ w_fs w' = released d (w_fs w)
  /\ exists x c k, result w (d_res d) x /\ set_status st (res_compound4 x) = Ret c /\ result w' (d_res d) (MkExtended c k) /\ slot_left d w' c.

Lemma lease_end d w T r :
  inv w (r :: held d ++ lease_of d ++ T) ->
  exists w', match q_preserved_clientid (d_seq d) with Some c => update_lease c w | None => Ret w end = Ret w'
    /\ moves [] [] w w' (r :: held d ++ T) /\ w_sessions w' = w_sessions w /\ w_results w' = w_results w.
Proof.
  intros Hi. unfold lease_of in Hi. destruct (q_preserved_clientid (d_seq d)) as [c|].
  - destruct (update_lease_moves [] [] w (r :: held d ++ T) c) as (w' & E & M & _ & Es).
    + eapply inv_proper; [|exact Hi]. intros t. rewrite !cnt_cons, !cnt_app, !cnt_cons, !cnt_nil. lia.
    + exists w'. split; [done|]. split; [done|]. split; [done|]. revert E. unfold update_lease, get_client.
      destruct (w_clients w !! c); [|done]. cbn [deref]. rewrite res_bind_ret. by intros [= <-].
  - exists w. split; [done|]. split; [|done]. apply moves_refl. done.
Qed.

(** The slot of a request before its session is given back. *)
Definition slot_now (d : compound_data) (w : world) (c : COMPOUND4res) : Prop :=
  forall a i s', q_slot (d_seq d) = Some (a, i) -> alive w a s' ->
  exists r x, slot_at w a i (MkSlot (q_sequence (d_seq d)) (match q_session (d_seq d) with Some _ => true | None => false end) (Some r))
    /\ result w r x /\ kept_reply d c (res_compound4 x).

Lemma complete_end d w T st rr :
  rr = NFS_REQ_OK \/ rr = NFS_REQ_ERROR -> seq_end d w -> reply_end d w st -> inv w (tokens d ++ T) ->
  exists w' x c k, complete_nfs4_compound d st rr w = Ret w' /\ goes (slots_of d) [d_res d] w w' (TResult (d_res d) :: held d ++ T)
    /\ w_fs w' = w_fs w /\ result w (d_res d) x /\ set_status st (res_compound4 x) = Ret c /\ result w' (d_res d) (MkExtended c k) /\ slot_now d w' c.
Proof.
  intros Hrr He (x & n & Hx & Hlen & Hcr & Hn & _) Hi. assert (rr <> NFS_REQ_REPLAY) as Hr1 by (destruct Hrr as [->| ->]; done).
  unfold complete_nfs4_compound. fold (cache_result d rr).
  set (c := MkCompound st (cr_tag (res_compound4 x)) (cr_len (res_compound4 x)) (cr_val (res_compound4 x))).
  destruct (write_reply_moves [] w _ d (set_status st) x c Hi (writer_count d T) Hx) as (w1 & -> & M1 & Hx1 & Ht1 & Es1); [done|done|]. rewrite res_bind_ret.
  assert (inv w1 (TWriter (d_res d) :: held d ++ lease_of d ++ T)) as Hi1.
  { eapply inv_proper; [|apply M1]. intros t. unfold tokens. cbn [app]. by rewrite <- app_assoc. }
  destruct (cache_end d w1 _ (MkExtended c 1) n rr Hr1 (seq_end_frame _ _ _ Es1 Ht1 He) Hx1 Hlen Hcr Hn Hi1) as (w2 & E2 & M2 & Ht2 & [k Hk] & Hs2).
  unfold cache_result in E2. rewrite E2, res_bind_ret. destruct (lease_end d w2 T _ (proj1 M2)) as (w3 & E3 & M3 & Es3 & Er3).
  exists w3, x, c, k. split; [done|]. split; [|split; [|split; [done|split; [done|split]]]].
  - eapply goes_trans; [|by apply goes_more, moves_goes].
    eapply goes_trans; [eapply goes_weaken; [apply list_subseteq_nil|reflexivity|by apply moves_goes]|].
    eapply goes_weaken; [reflexivity|apply list_subseteq_nil|by apply moves_goes].
  - destruct M1 as (_ & _ & ? & _), M2 as (_ & _ & ? & _), M3 as (_ & _ & ? & _). congruence.
  - unfold result. by rewrite Er3.
  - intros a i s' Hq Hs'. unfold slot_end in Hs2. rewrite Hq in Hs2. unfold alive in Hs'. rewrite Es3 in Hs'.
    destruct (Hs2 s' Hs') as (sl & r & x' & Hsl & Hsl' & Hx' & Hkr). destruct (seq_end_slot d w a i He Hq) as (sl0 & Hsl0 & _ & Hseq & Hlock & _).
    assert (sl = sl0) as -> by (eapply slot_at_det; [exact Hsl|]; unfold slot_at, alive; by rewrite Es1).
    rewrite Hseq, Hlock in Hsl'. exists r, x'. unfold slot_at, alive, result. by rewrite Es3, Er3.
Qed.

Lemma free_end d w T c k :
  match q_session (d_seq d) with Some a => q_slot (d_seq d) = Some (a, Z.to_nat (q_slotid (d_seq d))) /\ q_slotid (d_seq d) < 2 ^ 32 - 1 | None => True end ->
  inv w (TResult (d_res d) :: held d ++ T) -> paired T -> slot_now d w c -> result w (d_res d) (MkExtended c k) ->
  exists w' k', compound_data_Free d w = Ret w' /\ goes (slots_of d) [] w w' (TResult (d_res d) :: T) /\ w_fs w' = released d (w_fs w)
    /\ result w' (d_res d) (MkExtended c k') /\ slot_left d w' c.
Proof.
  intros Hq Hi HT Hs Hk. unfold compound_data_Free.
  set (w1 := match v_handles (d_view d) with Some h => set_fs (release_handles h (w_fs w)) w | None => w end).
  assert (goes [] [] w w1 (TResult (d_res d) :: held d ++ T)) as G1.
  { unfold w1. destruct (v_handles (d_view d)); [by apply set_fs_goes|split; [done|apply evolves_refl]]. }
  assert (w_sessions w1 = w_sessions w /\ w_results w1 = w_results w /\ w_fs w1 = released d (w_fs w)) as (Es & Er & Ef)
    by (unfold w1, released; by destruct (v_handles (d_view d))).
  assert (slot_now d w1 c) as Hs1 by (intros a i s'; unfold slot_at, alive, result; rewrite Es, Er; apply Hs).
  destruct (q_session (d_seq d)) as [a|] eqn:Hses.
  - destruct Hq as [Hslot Hid]. unfold held in G1. rewrite Hses in G1.
    assert (inv w1 (TLock (a, Z.to_nat (q_slotid (d_seq d))) :: TSession a :: TResult (d_res d) :: T)) as Hi1.
    { eapply inv_proper; [|apply G1]. intros t. cbn [app]. rewrite !cnt_cons. lia. }
    destruct (si_held _ _ (in_sess _ _ Hi1) a) as [s Hsa]; [pose proof (cnt_nonneg (TSession a) (TResult (d_res d) :: T)); rewrite !cnt_cons in *; repeat count_step; lia|].
    destruct (free_session d w1 (TResult (d_res d) :: T) a c Hi1 Hses Hslot Hid) as (w' & E & M & Hl).
    { intros j. rewrite !cnt_cons. repeat count_step. intros Hj. specialize (HT a j). lia. }
    { specialize (Hs1 a _ s Hslot Hsa). rewrite Hses in Hs1. exact Hs1. }
    destruct (result_held w' (TResult (d_res d) :: T) (d_res d) (in_res _ _ (proj1 M))) as [[c' k'] Hx'].
    { pose proof (cnt_nonneg (TResult (d_res d)) T). pose proof (cnt_nonneg (TWriter (d_res d)) T). pose proof (cached_refs_nonneg (d_res d) w'). rewrite !cnt_cons. repeat count_step. lia. }
    destruct (proj2 (ev_replies _ _ _ _ (proj1 (proj2 M))) _ _ (lookup_lt_Some _ _ _ (eq_trans (f_equal (fun l => l !! d_res d) Er) Hk)) Hx') as (y & Hy & Ey).
    assert (c' = c) as ->.
    { specialize (Ey ltac:(by intros ?%elem_of_nil)). cbn in Ey. rewrite Ey. unfold result in Hy, Hk. rewrite Er in Hy. by simplify_eq. }
    exists w', k'. split; [done|]. split; [eapply goes_trans; [by apply goes_more|by apply moves_goes]|]. split; [|done]. rewrite <- Ef. apply M.
  - exists w1, k. unfold held in G1. rewrite Hses in G1. split; [done|]. split; [by apply goes_more|]. split; [done|]. split; [unfold result; by rewrite Er|].
    unfold slot_left. destruct (q_slot (d_seq d)) as [[a i]|] eqn:Hsl; [|done]. intros s' Hs'. specialize (Hs1 a i s' Hsl Hs'). rewrite Hses in Hs1. exact Hs1.
Qed.

Lemma finish_end d w T st rr :
  rr = NFS_REQ_OK \/ rr = NFS_REQ_ERROR -> seq_end d w -> reply_end d w st -> inv w (tokens d ++ T) -> paired T ->
  exists w', finish_ops (rr, st, d, w) = Ret (Replied (d_res d), w') /\ ended d w w' T st.
Proof.
  intros Hrr He Hr Hi HT. destruct (complete_end d w T st rr Hrr He Hr Hi) as (w1 & x & c & k & E1 & G1 & F1 & Hx & Hc & Hk & Hs).
  destruct (free_end d w1 T c k) as (w2 & k' & E2 & G2 & F2 & Hk' & Hl); [|apply G1|done|done|done|].
  { unfold seq_end in He. destruct (q_session (d_seq d)); [|done]. destruct He as (? & ? & _). split; [done|lia]. }
  unfold finish_ops. rewrite bool_decide_false by (destruct Hrr as [->| ->]; done). rewrite E1, res_bind_ret, E2, res_bind_ret.
  exists w2. split; [done|]. split; [|split; [by rewrite F2, F1|by exists x, c, k']].
  eapply goes_trans; [exact G1|]. eapply goes_weaken; [reflexivity|apply list_subseteq_nil|exact G2].
Qed.
End finish.
