(* ===== verification/NfsServerRun.v ===== *)
(** * Requests of the NFS server from their arrival to their reply *)

From S2P Require Import Prelude NfsProto NfsNames NfsSession NfsSessionInv NfsSessionOps NfsCompound NfsCompoundProofs NfsCompoundRun.
From S2P Require Import NfsCompoundStep NfsServer.
Local Open Scope Z_scope.

Section requests.
Context `{Nfs4Ops}.
Implicit Types (w : world) (T U : list token) (d : compound_data).

(** The ways a request can leave the loop, with its tokens. *)
Inductive left_loop (d : compound_data) (w : world) (T : list token) : outcome -> world -> Prop :=
| ll_replied st d' w1 w' : same_request d d' -> seq_loop d w d' -> goes (slots_of d') [d_res d] w w1 (tokens d' ++ T) -> reply_end d' w1 st ->
    unbegun d w d' w1 -> ended d' w1 w' T st -> left_loop d w T (Replied (d_res d)) w'
| ll_waits d' w' : same_request d d' -> seq_loop d w d' -> goes (slots_of d') [d_res d] w w' (tokens d' ++ T) -> waiting d' w' ->
    begun d w d' -> left_loop d w T (Suspended d') w'
| ll_answered d' w' arg0 a s sl : d_argarray d !! 0%nat = Some arg0 -> argop arg0 = NFS4_OP_SEQUENCE -> d_oppos d = 0%nat ->
    names_slot (opsequence arg0) w a s sl -> sl_lock sl = false -> next_seq sl <> sa_sequenceid (opsequence arg0) ->
    sl_sequence sl = sa_sequenceid (opsequence arg0) -> sl_cached sl = Some (d_res d') ->
    goes [] [d_res d] w w' (TResult (d_res d') :: T) -> w_fs w' = released d (w_fs w) -> left_loop d w T (Replied (d_res d')) w'.

Lemma finish_replay arg d w T d' w1 st :
  answered arg d w T d' w1 st -> d_argarray d <> [] ->
  exists w', finish_ops (NFS_REQ_REPLAY, st, d', w1) = Ret (Replied (d_res d'), w') /\ goes [] [d_res d] w w' (TResult (d_res d') :: T)
    /\ w_fs w' = released d (w_fs w).
Proof.
  intros [(a & s & sl & Hn & Hl & Hne & Heq & Hc & Hq) [Ea Ev] (x & Hx & Hst) M1] Hargs.
  unfold finish_ops. rewrite bool_decide_false by done. unfold complete_nfs4_compound. rewrite Hq. cbn [q_cachethis q_preserved_clientid q_slot].
  assert (write_reply d' (set_status st) w1 = Ret w1) as ->.
  { unfold write_reply. rewrite (get_result_live _ _ _ Hx), res_bind_ret. unfold set_status. rewrite res_bind_ret. f_equal.
    destruct x as [[xs xt xl xv] n]. cbn in Hst. subst xs. unfold put_result. cbn. rewrite list_insert_id by exact Hx. by destruct w1. }
  rewrite res_bind_ret. destruct (d_argarray d) as [|arg0 l] eqn:El; [done|]. rewrite Ea. cbn [lookup list_lookup deref]. rewrite res_bind_ret.
  rewrite bool_decide_true by done. cbn [negb]. rewrite andb_false_r. cbn [andb]. rewrite res_bind_ret.
  destruct (update_lease_moves [] [d_res d] w1 (TResult (d_res d') :: T) (clientid_record s)) as (w2 & -> & M2 & _ & _).
  { unfold lease_of in M1. rewrite Hq in M1. cbn [q_preserved_clientid] in M1. eapply inv_proper; [|apply M1]. intros t. cbn [app]. rewrite !cnt_cons. lia. }
  rewrite res_bind_ret. unfold compound_data_Free. rewrite Hq. cbn [q_session]. rewrite res_bind_ret, Ev. eexists. split; [done|].
  assert (w_fs w2 = w_fs w) as Ef by (destruct M1 as (_ & _ & ? & _), M2 as (_ & _ & ? & _); congruence).
  assert (goes [] [d_res d] w w2 (TResult (d_res d') :: T)) as G by (eapply goes_trans; by apply moves_goes).
  unfold released. destruct (v_handles (d_view d)); [|by rewrite Ef]. split; [|cbn; by rewrite Ef].
  eapply goes_trans; [exact G|]. apply set_fs_goes, G.
Qed.

(** The loop and what follows it. *)
Lemma leave_loop d w T rr st d' w1 :
  looped d w T rr st d' w1 -> inv w (tokens d ++ T) -> paired T -> exists o w', finish_ops (rr, st, d', w1) = Ret (o, w') /\ left_loop d w T o w'.
Proof.
  intros Hl Hi HT. destruct Hl as [rr st d' w1 Hrr Hs He Hr Hq Hg Hu|st d' w1 Hs Hw Hq Hg Hu|st d' w1 arg0 Ha Ho Hp Han].
  - destruct (finish_end d' w1 T st rr Hrr He Hr (proj1 Hg) HT) as (w' & E & He').
    pose proof Hs as (_ & _ & Er). exists (Replied (d_res d)), w'. rewrite <- Er. split; [done|]. rewrite Er. by eapply ll_replied.
  - unfold finish_ops. rewrite bool_decide_true by done. eexists _, _. split; [done|]. by apply ll_waits.
  - assert (d_argarray d <> []) as Hne by (intros E; by rewrite E in Ha). pose proof Han as [(a & s & sl & Hn & Hl & Hnext & Heq & Hc & Hq) _ _ _].
    destruct (finish_replay _ d w T d' w1 st Han Hne) as (w' & E & Hg & Hf). eexists _, _. split; [exact E|]. by eapply ll_answered.
Qed.

(** ** A request that is resumed *)

Lemma continue_loop thisarg d w T rr st d1 w1 :
  processed thisarg d w T rr st d1 w1 -> rr <> NFS_REQ_ASYNC_WAIT -> d_argarray d !! d_oppos d = Some thisarg ->
  exists rr' st' d' w', process_ops (length (d_argarray d1)) rr st (set_pos (S (d_oppos d1)) (d_opcode d1) d1) w1 = Ret (rr', st', d', w')
    /\ looped d w T rr' st' d' w'.
Proof.
  intros Hp Hnw Harg. pose proof (lookup_lt_Some _ _ _ Harg) as Hlt.
  destruct Hp as [st d1 w1 Hs Ep Hr Hst Hq Hb Hg|st d1 w1 Hs Ep Hr Hres Hq Hb Hg|st d1 w1 Hs He Hr Hq Hg Hfs|st d1 w1 Ho Hp0 Ha].
  - pose proof Hs as (Em & Ea & Er).
    destruct (process_ops_spec (length (d_argarray d1)) (set_pos (S (d_oppos d1)) (d_opcode d1) d1) w1 T st Hr (proj1 Hg)) as
      [[_ (? & _ & Habs & _)]|(rr & st' & d' & w' & E & Hl)]; [cbn; rewrite Ep, Ea; lia..| |done|].
    { cbn. rewrite Ep. intros Hn. destruct Hst as (r & Hst & Hrs). change (reply_end d1 w1 st). eapply stored_last; [by rewrite Ea|done|congruence]. }
    exists rr, st', d', w'. split; [done|]. eapply looped_step; [exact Harg| |exact Hl]. by apply pr_ok.
  - done.
  - exists NFS_REQ_ERROR, st, (set_pos (S (d_oppos d1)) (d_opcode d1) d1), w1. split; [by destruct (length (d_argarray d1))|].
    apply lp_end; [by right|done|done|done|by eapply (seq_step_loop thisarg w d d1)|done|].
    intros arg0 Ha0 Ho Hp0 Hm. rewrite Hp0, Ha0 in Harg. injection Harg as ->. destruct (Hfs Ho Hp0 Hm) as ([Hb|Hno] & Hv); [by left|by right].
  - exists NFS_REQ_REPLAY, st, (set_pos (S (d_oppos d1)) (d_opcode d1) d1), w1. split; [by destruct (length (d_argarray d1))|].
    rewrite Hp0 in Harg. eapply lp_replay; [done..|]. by destruct Ha.
Qed.

Lemma nfs4_compound_resume_spec d w T :
  waiting d w -> inv w (tokens d ++ T) -> paired T -> exists o w', nfs4_compound_resume d w = Ret (o, w') /\ left_loop d w T o w'.
Proof.
  intros [Hrun Hpos Hres Hfirst] Hi HT. destruct (rn_opcode _ _ Hrun) as [desc Hdesc]. destruct (lookup_lt_is_Some_2 _ _ Hpos) as [thisarg Harg].
  unfold nfs4_compound_resume. rewrite Hdesc, res_bind_ret, Harg. cbn [deref]. rewrite res_bind_ret.
  destruct (thisres_total d w _ _ (rn_reply _ _ Hrun) Hpos) as [r Hr]. rewrite Hr, res_bind_ret.
  set (k := if String.eqb _ _ then _ else _). set (plain := MkOp "" "" "" None 0).
  assert (exists rr r1 d1 w1, k = Ret (rr, r1, d1, w1) /\ called d w T thisarg rr r1 d1 w1) as (rr & r1 & d1 & w1 & Ek & Hc).
  { unfold k. destruct (String.eqb_spec (op_res desc) "nfs4_default_resume") as [Hdef|Hdef].
    - eexists _, _, _, _. split; [done|]. eapply call_plain; try done; [auto| |by apply moves_goes, moves_refl].
      intros Hl. by destruct (Hres Hl desc Hdesc).
    - destruct (call_file d w T thisarg (op_resume (op_res desc) (op_other thisarg) (d_minorversion d) r (check_resp_room d w) (d_view d) (w_fs w)))
        as (rr & r' & d1 & w1 & E & Hc); [done|done|intros (_ & Hl & _); apply Hl|done|]. by exists rr, r', d1, w1. }
  destruct (write_call plain thisarg d w T Hrun Hpos rr r1 d1 w1 k Ek Hc) as (w2 & E2 & Hw); [done|].
  rewrite Ek in E2 |- *. cbn [mbind res_bind] in E2 |- *.
  destruct (write_reply d1 (store_resop (d_oppos d1) r1) w1) as [w2'| |]; [|done..]. cbn [mbind res_bind] in E2 |- *.
  injection E2 as <-.
  destruct (complete_written plain thisarg d w T rr d1 w2' Hrun Hpos Hw) as (rr' & st & d3 & w3 & E & Hp).
  { intros Ho Hp0 Hm. rewrite Hp0 in Harg. by destruct (Hfirst Hp0 Hm thisarg Harg). }
  destruct (decide (rr = NFS_REQ_ASYNC_WAIT)) as [->|Hnw].
  - rewrite bool_decide_true in E |- * by done. injection E as <- <- <- <-. eexists _, _. split; [done|].
    inversion Hp as [|? ? ? Hs Ep Hr1 Hres1 Hq Hb Hg| |]; subst. pose proof Hs as (Em & Ea & Er).
    apply ll_waits; [done|by eapply seq_step_loop|done| |].
    + split; [done|by rewrite Ep, Ea|done|]. by rewrite Ep, Em, Ea.
    + intros arg0 Ha0 Ho Hp0 Hm. by destruct (Hfirst Hp0 Hm arg0 Ha0).
  - rewrite bool_decide_false in E |- * by done. rewrite E, res_bind_ret.
    assert (rr' <> NFS_REQ_ASYNC_WAIT) as Hnw'.
    { intros ->. revert E. unfold complete_op. case_bool_decide; [|case_bool_decide].
      all: repeat (match goal with |- (?m ≫= _) = _ -> _ => destruct m; [rewrite res_bind_ret|done..] end); intros; simplify_eq. }
    destruct (continue_loop thisarg d w T rr' st d3 w3 Hp Hnw' Harg) as (rr2 & st2 & d2 & w4 & E4 & Hl). rewrite E4, res_bind_ret. by apply leave_loop.
Qed.
End requests.

(** ** A request that arrives *)

Section arrival.
Context `{Nfs4Ops}.
Implicit Types (w : world) (T U : list token) (d : compound_data).

Lemma first_nul bytes : Forall (fun b => 0 <= b < 256) bytes -> exists s t, bytes ++ [0] = s ++ 0 :: t /\ Forall (fun b => 1 <= b < 256) s.
Proof.
  induction 1 as [|b l Hb _ (s & t & E & Hs)]; [by exists [], []|]. destruct (decide (b = 0)) as [->|Hn]; [by exists [], (l ++ [0])|].
  exists (b :: s), t. cbn [app]. rewrite E. split; [done|]. constructor; [lia|done].
Qed.

Lemma scan_total tag scan : tag_ok tag -> exists st, nfs4_utf8string_scan tag scan = Ret st.
Proof.
  destruct tag as [len val]. unfold nfs4_utf8string_scan. cbn [utf8string_val utf8string_len].
  intros [[Hl Hv]|(bytes & Hv & Hl & Hb & _)]; cbn in *; subst; [by eexists|].
  repeat (case_match; [by eexists|]). destruct (first_nul bytes Hb) as (s & t & -> & Hs). unfold path_filter.
  destruct (decides_all (length s) true scan s t (le_n _) Hs) as (st & -> & _). by eexists.
Qed.

Record request_ok (rq : request) : Prop := {
  rk_minor : 0 <= rq_minorversion rq;
  rk_tag : tag_ok (rq_tag rq);
  rk_args : Forall (fun op => 0 <= argop op /\ 0 <= sa_slotid (opsequence op)) (rq_argarray rq) }.

(** The data of a request before its first operation, and the memory with its reply. *)
Definition start_data (rq : request) (r : nat) : compound_data :=
  MkData (rq_minorversion rq) (rq_argarray rq) (rq_xprt rq) r 0 0 (wrap_u 32 (sizeof "COMPOUND4res" - 8)) 0 no_sequence (MkView [] 0 None).
Definition start_reply (rq : request) : COMPOUND4res :=
  MkCompound 0 (rq_tag rq) (Z.of_nat (length (rq_argarray rq))) (replicate (length (rq_argarray rq)) zero_resop).
Definition start_world (rq : request) (w : world) : world := snd (new_result (MkExtended (start_reply rq) 1) w).

Lemma put_new x y w : put_result (length (w_results w)) (Some y) (snd (new_result x w)) = snd (new_result y w).
Proof. unfold put_result, new_result. cbn. f_equal. by rewrite insert_app_r_alt, Nat.sub_diag by lia. Qed.

(** A reply without any operation. *)
Lemma early_reply w T c : inv w T -> tag_ok (cr_tag c) -> moves [] [] w (snd (new_result (MkExtended c 1) w)) (TResult (length (w_results w)) :: T).
Proof.
  intros Hi Ht. destruct (new_result_moves [] [] w T c (TResult (length (w_results w))) Hi Ht) as (w' & E & M & _); [by left|]. by rewrite E.
Qed.

Lemma start_running rq w T :
  inv w T -> request_ok rq -> rq_minorversion rq <= 2 -> rq_argarray rq <> [] ->
  running (start_data rq (length (w_results w))) (start_world rq w) /\ moves [] [] w (start_world rq w) (tokens (start_data rq (length (w_results w))) ++ T).
Proof.
  intros Hi [Hm Ht Ha] H2 Hne.
  destruct (new_result_moves [] [] w T (start_reply rq) (TWriter (length (w_results w))) Hi Ht) as (w' & E & M & Hx & _); [by right|].
  unfold start_world. rewrite E. cbn [snd]. split; [|done]. split; [split; [done|done]|done| |by eexists].
  eexists. split; [exact Hx|]. cbn. split; [apply length_replicate|]. split; [done|]. intros _ j r Hj. lia.
Qed.

(** The checks before the first operation. *)
Definition admitted (rq : request) : bool :=
  negb (2 <? rq_minorversion rq) && negb (Z.land minor_versions (Z.shiftl 1 (rq_minorversion rq)) =? 0)
  && (match (if 0 <? utf8string_len (rq_tag rq) then nfs4_utf8string_scan (rq_tag rq) UTF8_SCAN_STRICT else Ret NFS4_OK) with
      | Ret st => st =? 0 | _ => false end)
  && negb (length (rq_argarray rq) =? 0)%nat && negb (100 <? length (rq_argarray rq))%nat && rq_cred rq
  && match rq_argarray rq with
     | [] => false
     | arg0 :: _ =>
       negb ((0 <? rq_minorversion rq) && negb (starts_compound (argop arg0)))
       && negb ((0 <? rq_minorversion rq) && (1 <? length (rq_argarray rq))%nat && only_op (argop arg0))
     end.

Lemma tag_len tag : MkUtf8 (utf8string_len tag) (utf8string_val tag) = tag.
Proof. by destruct tag. Qed.

(** What becomes of a request: it is answered at once, or its operations run. *)
Definition runs_ops (rq : request) (w : world) : Prop :=
  nfs4_Compound rq w =
    (x ← process_ops (length (rq_argarray rq)) NFS_REQ_OK NFS4_OK (start_data rq (length (w_results w))) (start_world rq w); finish_ops x).
Definition replies_early (rq : request) (w : world) : Prop :=
  exists c o, tag_ok (cr_tag c) /\ cr_len c = 0 /\ (o = Replied (length (w_results w)) \/ o = Dropped (length (w_results w)))
    /\ nfs4_Compound rq w = Ret (o, snd (new_result (MkExtended c 1) w)).

(** The reply is written over the one that was allocated. *)
Lemma write_early w c o :
  tag_ok (cr_tag c) -> cr_len c = 0 -> o = Replied (length (w_results w)) \/ o = Dropped (length (w_results w)) ->
  exists c' o', tag_ok (cr_tag c') /\ cr_len c' = 0 /\ (o' = Replied (length (w_results w)) \/ o' = Dropped (length (w_results w)))
    /\ Ret (o, put_result (length (w_results w)) (Some (MkExtended c 1)) (snd (new_result (MkExtended zero_reply 1) w)))
       = Ret (o', snd (new_result (MkExtended c' 1) w)).
Proof. intros Ht Hl Ho. exists c, o. by rewrite put_new. Qed.

Lemma nfs4_Compound_cases rq w : request_ok rq -> if admitted rq then runs_ops rq w else replies_early rq w.
Proof.
  intros [Hm Ht Ha]. unfold admitted, runs_ops, replies_early, nfs4_Compound.
  assert (tag_ok (MkUtf8 0 None)) as Ht0 by (by left).
  assert (exists st, (if 0 <? utf8string_len (rq_tag rq) then nfs4_utf8string_scan (rq_tag rq) UTF8_SCAN_STRICT else Ret NFS4_OK) = Ret st) as [st Est].
  { case_match; [by apply scan_total|by eexists]. }
  change (new_result (MkExtended zero_reply 1) w) with (length (w_results w), snd (new_result (MkExtended zero_reply 1) w)). cbn zeta iota.
  rewrite (dup_tag _ Ht), res_bind_ret, Est, res_bind_ret, tag_len.
  destruct (2 <? rq_minorversion rq); [by apply write_early; auto|].
  destruct (Z.land minor_versions (Z.shiftl 1 (rq_minorversion rq)) =? 0); [by apply write_early; auto|].
  destruct (st =? 0); [|by apply write_early; auto]. cbn [negb andb].
  destruct (length (rq_argarray rq) =? 0)%nat eqn:Hlen; [by apply write_early; auto|].
  destruct (100 <? length (rq_argarray rq))%nat; [by apply write_early; auto|].
  destruct (rq_cred rq); [|by apply write_early; auto]. cbn [negb andb].
  destruct (rq_argarray rq) as [|arg0 l] eqn:Hargs; [done|]. cbn [lookup list_lookup deref]. rewrite res_bind_ret.
  destruct ((0 <? rq_minorversion rq) && negb (starts_compound (argop arg0))); [by apply write_early; auto|]. cbn [negb andb].
  destruct ((0 <? rq_minorversion rq) && (1 <? length (arg0 :: l))%nat && only_op (argop arg0)); [by apply write_early; auto|].
  cbn [negb andb]. rewrite put_new. unfold start_data, start_world, start_reply. by rewrite Hargs.
Qed.

Lemma admitted_bounds rq : admitted rq = true -> rq_minorversion rq <= 2 /\ rq_argarray rq <> [].
Proof.
  unfold admitted. intros Hadm. repeat (apply andb_true_iff in Hadm as [Hadm ?]). apply negb_true_iff, Z.ltb_ge in Hadm. split; [lia|].
  by destruct (rq_argarray rq).
Qed.

Lemma nfs4_Compound_refused rq w T :
  inv w T -> request_ok rq -> admitted rq = false ->
  exists o w', nfs4_Compound rq w = Ret (o, w') /\ (o = Replied (length (w_results w)) \/ o = Dropped (length (w_results w)))
    /\ moves [] [] w w' (TResult (length (w_results w)) :: T) /\ exists c, result w' (length (w_results w)) (MkExtended c 1) /\ cr_len c = 0.
Proof.
  intros Hi Hok Hadm. pose proof (nfs4_Compound_cases rq w Hok) as Hc. rewrite Hadm in Hc. destruct Hc as (c & o & Ht & Hl & Ho & E).
  eexists _, _. split; [exact E|]. split; [done|]. split; [by apply early_reply|]. exists c. split; [|done]. unfold result. cbn.
  by rewrite lookup_app_r, Nat.sub_diag by lia.
Qed.

Lemma nfs4_Compound_admitted rq w T :
  inv w T -> paired T -> request_ok rq -> admitted rq = true ->
  (nfs4_Compound rq w = Fail /\ exists arg0, rq_argarray rq !! 0%nat = Some arg0 /\ argop arg0 = NFS4_OP_SEQUENCE /\ blocked arg0 w)
  \/ exists o w', nfs4_Compound rq w = Ret (o, w') /\ left_loop (start_data rq (length (w_results w))) (start_world rq w) T o w'.
Proof.
  intros Hi HT Hok Hadm. pose proof (nfs4_Compound_cases rq w Hok) as Hc. rewrite Hadm in Hc. unfold runs_ops in Hc. rewrite Hc.
  destruct (admitted_bounds rq Hadm) as [H2 Hne]. destruct (start_running rq w T Hi Hok H2 Hne) as [Hrun M].
  destruct (process_ops_spec (length (rq_argarray rq)) _ _ T NFS4_OK Hrun (proj1 M)) as [(-> & arg0 & Ha & _ & Ho & Hb)|(rr & st & d' & w' & -> & Hl)].
  - cbn. lia.
  - cbn. lia.
  - cbn. intros E. by destruct (rq_argarray rq).
  - left. split; [done|]. by exists arg0.
  - right. rewrite res_bind_ret. eapply leave_loop; [exact Hl|apply M|done].
Qed.
End arrival.
