(* ===== verification/NfsServerSpec.v ===== *)
(** * What the NFS server promises its clients

    A server runs requests in any order, some of which wait for the file system, frees
    replies that were sent, and lets time pass. It never uses memory that was released
    or a mutex that is not held, and a request that is sent again is not run again. *)

From S2P Require Import Prelude NfsProto NfsNames NfsSession NfsSessionInv NfsSessionOps NfsCompound NfsCompoundProofs NfsCompoundRun.
From S2P Require Import NfsCompoundStep NfsServer NfsServerRun.
Local Open Scope Z_scope.

Section server.
Context `{Nfs4Ops}.
Implicit Types (w : world) (T U : list token) (d e : compound_data).

(** ** Events *)

(** The memory, the requests that wait, and the replies that are being sent. *)
Record server := MkServer { sv_world : world; sv_waiting : list compound_data; sv_sent : list nat }.

Inductive event := Request (rq : request) | Resume (n : nat) | Sent (n : nat) | Tick (seconds : Z).

Definition settle (o : outcome) (w : world) (waits : list compound_data) (sent : list nat) : server :=
  match o with
  | Replied r | Dropped r => MkServer w waits (r :: sent)
  | Suspended d => MkServer w (d :: waits) sent
  end.

Definition tick (t : Z) (w : world) : world := MkWorld (w_sessions w) (w_table w) (w_clients w) (w_results w) (w_fs w) (w_time w + t).

Definition serve (s : server) (ev : event) : res server :=
  match ev with
  | Request rq => '(o, w) ← nfs4_Compound rq (sv_world s); Ret (settle o w (sv_waiting s) (sv_sent s))
  | Resume n =>
    match sv_waiting s !! n with
    | None => Ret s
    | Some d => '(o, w) ← nfs4_compound_resume d (sv_world s); Ret (settle o w (delete n (sv_waiting s)) (sv_sent s))
    end
  | Sent n =>
    match sv_sent s !! n with
    | None => Ret s
    | Some r => w ← nfs4_Compound_Free r (sv_world s); Ret (MkServer w (sv_waiting s) (delete n (sv_sent s)))
    end
  | Tick t => Ret (MkServer (tick t (sv_world s)) (sv_waiting s) (sv_sent s))
  end.

Definition serve_all (s : server) (evs : list event) : res server := res_foldl serve s evs.

(** ** The invariant *)

Definition tokens_of (waits : list compound_data) (sent : list nat) : list token := concat (map tokens waits) ++ map TResult sent.

Record server_ok (s : server) : Prop := {
  sk_inv : inv (sv_world s) (tokens_of (sv_waiting s) (sv_sent s));
  sk_waiting : Forall (fun d => waiting d (sv_world s)) (sv_waiting s) }.

Definition event_ok (ev : event) : Prop := match ev with Request rq => request_ok rq | _ => True end.

Lemma cnt_concat t d waits : d ∈ waits -> cnt t (tokens d) <= cnt t (concat (map tokens waits)).
Proof.
  induction waits as [|e l IH]; [by intros ?%elem_of_nil|]. cbn [map concat]. rewrite cnt_app.
  pose proof (cnt_nonneg t (concat (map tokens l))). pose proof (cnt_nonneg t (tokens e)). intros [->|Hd]%elem_of_cons; [lia|]. specialize (IH Hd). lia.
Qed.

Lemma tokens_paired d : paired (tokens d).
Proof.
  intros a j. unfold tokens, held, lease_of. rewrite !cnt_cons, !cnt_app.
  pose proof (is_token_nonneg (TSession a) (TWriter (d_res d))) as Hw.
  set (L := match q_preserved_clientid (d_seq d) with Some c => [TLease c] | None => [] end).
  pose proof (cnt_nonneg (TSession a) L) as Hl. assert (cnt (TLock (a, j)) L = 0) as -> by (unfold L; by case_match).
  change (is_token (TLock (a, j)) (TWriter (d_res d))) with 0.
  destruct (q_session (d_seq d)) as [b|]; rewrite ?cnt_cons, ?cnt_nil; [|lia].
  change (is_token (TLock (a, j)) (TSession b)) with 0. change (is_token (TSession a) (TLock (b, Z.to_nat (q_slotid (d_seq d))))) with 0.
  unfold is_token in *. repeat case_decide; simplify_eq; lia.
Qed.

Lemma paired_app T U : paired T -> paired U -> paired (T ++ U).
Proof.
  intros HT HU a j. rewrite !cnt_app. specialize (HT a j). specialize (HU a j).
  pose proof (cnt_nonneg (TSession a) T). pose proof (cnt_nonneg (TSession a) U). pose proof (cnt_nonneg (TLock (a, j)) T).
  destruct (decide (0 < cnt (TLock (a, j)) T)); lia.
Qed.

Lemma all_paired waits sent : paired (tokens_of waits sent).
Proof.
  apply paired_app.
  - induction waits as [|d l IH]; [done|]. cbn [map concat]. apply paired_app; [apply tokens_paired|done].
  - induction sent as [|r l IH]; [done|]. intros a j. cbn [map]. rewrite !cnt_cons. repeat count_step. apply IH.
Qed.

(** Tokens of the outcome of a request. *)
Definition out_tokens (o : outcome) : list token := match o with Replied r | Dropped r => [TResult r] | Suspended d => tokens d end.

Lemma settle_tokens o w waits sent : same_tokens (out_tokens o ++ tokens_of waits sent) (tokens_of (sv_waiting (settle o w waits sent)) (sv_sent (settle o w waits sent))).
Proof.
  intros t. destruct o; cbn [settle sv_waiting sv_sent out_tokens]; unfold tokens_of; cbn [map concat]; rewrite ?cnt_app, ?cnt_cons, ?cnt_nil; lia.
Qed.

(** ** What a request changes *)

(** A slot that the request may change: it took it free, or it holds it. *)
Definition takes (d : compound_data) (w : world) (p : nat * nat) : Prop :=
  (exists arg0 d', d_argarray d !! 0%nat = Some arg0 /\ argop arg0 = NFS4_OP_SEQUENCE /\ d_oppos d = 0%nat /\ 0 < d_minorversion d
     /\ begins (opsequence arg0) w d' /\ q_slot (d_seq d') = Some p)
  \/ 0 < cnt (TLock p) (tokens d).

Definition took (d : compound_data) (w w' : world) (T : list token) (o : outcome) : Prop :=
  exists P, goes P [d_res d] w w' (out_tokens o ++ T) /\ forall p, p ∈ P -> takes d w p.

Lemma seq_loop_takes d w d' : running d w -> seq_loop d w d' -> forall p, p ∈ slots_of d' -> takes d w p.
Proof.
  intros Hrun Hs p Hp. unfold slots_of in Hp. destruct (q_slot (d_seq d')) as [p'|] eqn:Hq; [|by apply elem_of_nil in Hp].
  apply list_elem_of_singleton in Hp as ->. destruct Hs as [E|(Hp0 & arg0 & Ha & Ho & [[Hm Hb]|Hn])]; [|left; by exists arg0, d'|congruence].
  right. pose proof (rn_seq _ _ Hrun) as Hrs. rewrite E in Hq. destruct (q_session (d_seq d)) as [a|] eqn:Hses; [|by rewrite Hrs in Hq].
  destruct Hrs as [(Hsl & _) _]. rewrite Hq in Hsl. injection Hsl as ->. unfold tokens, held. rewrite Hses. cbn [app]. rewrite !cnt_cons.
  pose proof (cnt_nonneg (TLock (a, Z.to_nat (q_slotid (d_seq d)))) (lease_of d)). repeat count_step. lia.
Qed.

Lemma left_loop_took d w T o w' : running d w -> left_loop d w T o w' -> took d w w' T o.
Proof.
  intros Hrun Hl. destruct Hl as [st d' w1 w' Hs Hq Hg _ _ (Hg' & _)|d' w' Hs Hq Hg _ _|d' w' arg0 a s sl _ _ _ _ _ _ _ _ Hg _].
  - pose proof Hs as (_ & _ & Er). exists (slots_of d'). split; [|by apply seq_loop_takes]. rewrite Er in Hg'. by eapply goes_trans.
  - exists (slots_of d'). split; [done|by apply seq_loop_takes].
  - exists []. split; [done|]. by intros p ?%elem_of_nil.
Qed.

(** The next request on a slot takes it. *)
Definition takes_slot (arg : SEQUENCE4args) (w : world) (a i : nat) (sl : session_slot) : Prop :=
  (exists s, names_slot arg w a s sl) /\ i = Z.to_nat (sa_slotid arg) /\ sl_lock sl = false /\ next_seq sl = sa_sequenceid arg.

Definition starts_on (minor : Z) (args : list nfs_argop4) (w : world) (a i : nat) (sl : session_slot) : Prop :=
  exists arg0, args !! 0%nat = Some arg0 /\ argop arg0 = NFS4_OP_SEQUENCE /\ 0 < minor /\ takes_slot (opsequence arg0) w a i sl.

Lemma taken_sequence d w d' a i sl :
  running d w -> seq_loop d w d' -> q_slot (d_seq d') = Some (a, i) -> slot_at w a i sl ->
  (sl_lock sl = true /\ q_sequence (d_seq d') = sl_sequence sl)
  \/ (d_oppos d = 0%nat /\ starts_on (d_minorversion d) (d_argarray d) w a i sl /\ q_sequence (d_seq d') = next_seq sl).
Proof.
  intros Hrun [E|(Hp0 & arg0 & Ha & Ho & [[Hm (b & s & sl' & Hn & Hl & Hnx & Hq & Hqs & _)]|Hn])] Hsl Hat; [|right|congruence].
  - left. pose proof (rn_seq _ _ Hrun) as Hrs. rewrite E in *. destruct (q_session (d_seq d)) as [b|]; [|by rewrite Hrs in Hsl].
    destruct Hrs as [(Hq & _ & _ & Hat' & _) _]. rewrite Hsl in Hq. injection Hq as <- ->. by rewrite (slot_at_det _ _ _ _ _ Hat Hat').
  - rewrite Hsl in Hq. injection Hq as -> ->. assert (slot_at w b (Z.to_nat (sa_slotid (opsequence arg0))) sl') as Hat'.
    { destruct Hn as (_ & ? & _ & ?). by exists s. }
    rewrite (slot_at_det _ _ _ _ _ Hat Hat'). split; [done|]. split; [|congruence]. exists arg0. split; [done|]. split; [done|]. split; [done|].
    split; [by exists s|]. done.
Qed.

(** How a slot moves while a request runs. *)
Definition slot_moves (minor : Z) (args : list nfs_argop4) (w : world) (a i : nat) (sl sl' : session_slot) : Prop :=
  sl' = sl \/ (sl_lock sl = true /\ sl_sequence sl' = sl_sequence sl)
  \/ (starts_on minor args w a i sl /\ sl_sequence sl' = next_seq sl).

Lemma left_loop_slot d w T o w' a i sl s' :
  running d w -> left_loop d w T o w' -> slot_at w a i sl -> alive w' a s' ->
  exists sl', slot_at w' a i sl' /\ slot_moves (d_minorversion d) (d_argarray d) w a i sl sl'
    /\ (d_oppos d <> 0%nat -> sl' = sl \/ (sl_lock sl = true /\ sl_sequence sl' = sl_sequence sl)).
Proof.
  intros Hrun Hl Hat Ha'. pose proof (left_loop_took _ _ _ _ _ Hrun Hl) as Htook.
  assert (forall d', seq_loop d w d' -> goes (slots_of d') [d_res d] w w' (out_tokens o ++ T) ->
    (q_slot (d_seq d') = Some (a, i) -> exists sl', slot_at w' a i sl' /\ sl_sequence sl' = q_sequence (d_seq d')) ->
    exists sl', slot_at w' a i sl' /\ slot_moves (d_minorversion d) (d_argarray d) w a i sl sl'
      /\ (d_oppos d <> 0%nat -> sl' = sl \/ (sl_lock sl = true /\ sl_sequence sl' = sl_sequence sl))) as Hcase.
  { intros d' Hs Hg Hq. destruct (decide (q_slot (d_seq d') = Some (a, i))) as [E|E].
    - destruct (Hq E) as (sl' & Hat' & Es). exists sl'. split; [done|].
      destruct (taken_sequence _ _ _ _ _ _ Hrun Hs E Hat) as [[? ?]|(? & ? & ?)]; (split; [|intros Hp]).
      + right. left. split; [done|congruence].
      + right. split; [done|congruence].
      + right. right. split; [done|congruence].
      + done.
    - exists sl. split; [|split; [by left|by left]]. eapply (ev_slot _ _ _ _ (proj2 Hg)); [exact Ha'| |done]. unfold slots_of.
      destruct (q_slot (d_seq d')) as [p|]; [|by intros ?%elem_of_nil]. intros Hin%list_elem_of_singleton. congruence. }
  destruct Hl as [st d' w1 w' Hsame Hq Hg _ _ (Hg' & _ & x & c & k & _ & _ & _ & Hleft)|d' w' Hsame Hq Hg Hw _|d' w' arg0 b s sl0 _ _ _ _ _ _ _ _ Hg _].
  - apply (Hcase d' Hq); [pose proof Hsame as (_ & _ & Er); rewrite Er in Hg'; by eapply goes_trans|].
    intros E. unfold slot_left in Hleft. rewrite E in Hleft. destruct (Hleft s' Ha') as (r & y & Hat' & _). by eexists.
  - apply (Hcase d' Hq Hg). intros E. pose proof (rn_seq _ _ (wt_running _ _ Hw)) as Hrs.
    destruct (q_session (d_seq d')) as [b|]; [|by rewrite Hrs in E]. destruct Hrs as [(Hq' & _ & _ & Hat' & _) _].
    rewrite E in Hq'. injection Hq' as <- ->. by eexists.
  - exists sl. split; [|split; by left]. eapply (ev_slot _ _ _ _ (proj2 Hg)); [exact Ha'|by intros ?%elem_of_nil|done].
Qed.

(** ** The other requests *)

Lemma waiting_stays d w w' P W T :
  waiting d w -> goes P W w w' T -> (forall t, cnt t (tokens d) <= cnt t T) -> d_res d ∉ W ->
  (forall p, 0 < cnt (TLock p) (tokens d) -> p ∉ P) -> waiting d w'.
Proof.
  intros [[Hwf Hseq Hrep Hop] Hpos Hres Hfirst] Hg HT HW HP. split; [|done..]. split; [done| | |done].
  - destruct (q_session (d_seq d)) as [a|] eqn:Hq; [|done]. destruct Hseq as [(Hsl & Hid & Hm & Hat & Ha) Hp]. split; [|done].
    split; [done|]. split; [done|]. split; [done|]. split; [|done].
    assert (0 < cnt (TSession a) T) as Hc.
    { pose proof (held_count d [] a Hq) as Hh. rewrite app_nil_r in Hh. specialize (HT (TSession a)). lia. }
    destruct (si_held _ _ (in_sess _ _ (proj1 Hg)) a Hc) as [s Hs]. eapply (ev_slot _ _ _ _ (proj2 Hg)); [exact Hs| |done].
    apply HP. unfold tokens, held. rewrite Hq. cbn [app]. rewrite !cnt_cons.
    pose proof (cnt_nonneg (TLock (a, Z.to_nat (q_slotid (d_seq d)))) (lease_of d)). repeat count_step. lia.
  - eapply reply_so_far_goes; [exact Hg| |done|done]. pose proof (writer_count d []) as Hc. rewrite app_nil_r in Hc. specialize (HT (TWriter (d_res d))). lia.
Qed.

(** The mutex of a slot is held once. *)
Lemma lock_once w T a i : inv w T -> cnt (TLock (a, i)) T <= 1.
Proof.
  intros Hi. destruct (decide (0 < cnt (TLock (a, i)) T)) as [Hc|Hc]; [|lia].
  destruct (si_locked _ _ (in_sess _ _ Hi) a i Hc) as (_ & s & sl & Hs & Hsl).
  destruct (so_locks _ _ _ _ (si_session _ _ (in_sess _ _ Hi) a s Hs) i sl Hsl) as [_ ->]. case_match; lia.
Qed.

Lemma begins_free w T arg d p : inv w T -> begins arg w d -> q_slot (d_seq d) = Some p -> cnt (TLock p) T = 0.
Proof.
  intros Hi (a & s & sl & (_ & Ha & _ & Hsl) & Hl & _ & Hq & _) Hp. rewrite Hq in Hp. injection Hp as <-.
  destruct (so_locks _ _ _ _ (si_session _ _ (in_sess _ _ Hi) a s Ha) _ sl Hsl) as [_ ->]. by rewrite Hl.
Qed.

Lemma takes_free w d T p : inv w (tokens d ++ T) -> takes d w p -> cnt (TLock p) T = 0.
Proof.
  intros Hi Ht. pose proof (cnt_nonneg (TLock p) T). pose proof (cnt_nonneg (TLock p) (tokens d)).
  destruct Ht as [(arg0 & d' & _ & _ & _ & _ & Hb & Hq)|Hl].
  - pose proof (begins_free _ _ _ _ _ Hi Hb Hq) as Hz. rewrite cnt_app in Hz. lia.
  - destruct p as [a i]. pose proof (lock_once _ _ a i Hi) as Ho. rewrite cnt_app in Ho. lia.
Qed.

(** A request that took its slots and writes its reply leaves the others alone. *)
Lemma took_others d w w' waits sent o :
  inv w (tokens d ++ tokens_of waits sent) -> took d w w' (tokens_of waits sent) o -> Forall (fun e => waiting e w) waits ->
  Forall (fun e => waiting e w') waits.
Proof.
  intros Hi (P & Hg & HP) Hw. rewrite Forall_forall in *. intros e He.
  assert (forall t, cnt t (tokens e) <= cnt t (tokens_of waits sent)) as Hle.
  { intros t. unfold tokens_of. rewrite cnt_app. pose proof (cnt_concat t e waits He). pose proof (cnt_nonneg t (map TResult sent)). lia. }
  eapply waiting_stays; [by apply Hw|exact Hg| | |].
  - intros t. specialize (Hle t). rewrite cnt_app. pose proof (cnt_nonneg t (out_tokens o)). lia.
  - intros Hin%list_elem_of_singleton. assert (inv w (TWriter (d_res d) :: (held d ++ lease_of d) ++ tokens_of waits sent)) as Hi' by done.
    destruct (writer_unique _ _ _ Hi') as (Hz & _). rewrite cnt_app in Hz. pose proof (cnt_nonneg (TWriter (d_res d)) (held d ++ lease_of d)).
    specialize (Hle (TWriter (d_res d))). pose proof (writer_count e []) as Hc. rewrite app_nil_r, Hin in Hc. lia.
  - intros p Hp Hin. pose proof (takes_free w d _ p Hi (HP p Hin)). specialize (Hle (TLock p)). lia.
Qed.

(** ** One event *)

Lemma delete_waiting t n d waits sent : waits !! n = Some d -> cnt t (tokens_of waits sent) = cnt t (tokens d ++ tokens_of (delete n waits) sent).
Proof.
  intros Hn. unfold tokens_of. rewrite !cnt_app. revert n Hn. induction waits as [|e l IH]; intros [|n] Hn; try done.
  - injection Hn as ->. cbn [map concat delete list_delete]. rewrite cnt_app. change (delete 0%nat (d :: l)) with l. lia.
  - change (delete (S n) (e :: l)) with (e :: delete n l). cbn [map concat]. rewrite !cnt_app. specialize (IH n Hn). lia.
Qed.

Lemma delete_sent t n r waits sent : sent !! n = Some r -> cnt t (tokens_of waits sent) = cnt t (TResult r :: tokens_of waits (delete n sent)).
Proof.
  intros Hn. unfold tokens_of. rewrite cnt_cons, !cnt_app. revert n Hn. induction sent as [|q l IH]; intros [|n] Hn; try done.
  - injection Hn as ->. change (delete 0%nat (r :: l)) with l. cbn [map]. rewrite cnt_cons. lia.
  - change (delete (S n) (q :: l)) with (q :: delete n l). cbn [map]. rewrite !cnt_cons. specialize (IH n Hn). lia.
Qed.

Lemma tick_goes P W w T t : inv w T -> goes P W w (tick t w) T.
Proof.
  intros [Hs Hr Hc]. split; [split|apply evolves_same; [done..|by apply replies_stay_same]].
  - by apply (sess_inv_frame w _ T).
  - by apply (res_inv_frame w _ T).
  - by apply (client_inv_frame w _ T).
Qed.

(** What an event does to the slots and to the replies that they keep. *)
Definition event_moves (s : server) (ev : event) (a i : nat) (sl sl' : session_slot) : Prop :=
  sl' = sl \/ (sl_lock sl = true /\ sl_sequence sl' = sl_sequence sl)
  \/ exists rq, ev = Request rq /\ starts_on (rq_minorversion rq) (rq_argarray rq) (sv_world s) a i sl /\ sl_sequence sl' = next_seq sl.

Record served (s : server) (ev : event) (s' : server) : Prop := {
  sd_ok : server_ok s';
  sd_table : forall sid a, w_table (sv_world s') !! sid = Some a -> w_table (sv_world s) !! sid = Some a;
  sd_slot : forall a i sl se, slot_at (sv_world s) a i sl -> alive (sv_world s') a se ->
    exists sl', slot_at (sv_world s') a i sl' /\ event_moves s ev a i sl sl';
  sd_reply : forall r x x', 0 < cached_refs r (sv_world s) -> result (sv_world s) r x -> result (sv_world s') r x' ->
    res_compound4 x' = res_compound4 x }.

(** From the sets of slots and of replies that change. *)
Lemma reply_stays W w w' r x x' : replies_stay W w w' -> r ∉ W -> result w r x -> result w' r x' -> res_compound4 x' = res_compound4 x.
Proof.
  intros [_ Hr] Hn Hx Hx'. destruct (Hr r x') as (y & Hy & E); [by eapply lookup_lt_Some|done|]. rewrite E by done. unfold result in *. congruence.
Qed.

Lemma served_quiet s ev s' : server_ok s' -> evolves [] [] (sv_world s) (sv_world s') -> served s ev s'.
Proof.
  intros Hok He. split; [done|apply He| |].
  - intros a i sl se Hat Ha. exists sl. split; [|by left]. eapply (ev_slot _ _ _ _ He); [exact Ha|by intros ?%elem_of_nil|done].
  - intros r x x' _. eapply reply_stays; [apply He|by intros ?%elem_of_nil].
Qed.

Lemma settle_world o w waits sent : sv_world (settle o w waits sent) = w.
Proof. by destruct o. Qed.

Lemma settle_ok o w waits sent :
  inv w (out_tokens o ++ tokens_of waits sent) -> Forall (fun e => waiting e w) waits -> (forall d, o = Suspended d -> waiting d w) ->
  server_ok (settle o w waits sent).
Proof.
  intros Hi Hw Hd. split; rewrite settle_world.
  - eapply inv_proper; [apply settle_tokens|done].
  - destruct o; [done..|]. cbn. constructor; [by apply Hd|done].
Qed.

Lemma left_loop_waiting d w T o w' : left_loop d w T o w' -> forall e, o = Suspended e -> waiting e w'.
Proof. destruct 1; intros e Ho; simplify_eq. done. Qed.

Lemma all_stay w w' T waits sent :
  moves [] [] w w' T -> (forall t, cnt t (tokens_of waits sent) <= cnt t T) -> Forall (fun e => waiting e w) waits -> Forall (fun e => waiting e w') waits.
Proof.
  intros M HT Hw. rewrite Forall_forall in *. intros e He. eapply waiting_stays; [by apply Hw|by apply moves_goes| |by intros ?%elem_of_nil|by intros p _ ?%elem_of_nil].
  intros t. specialize (HT t). unfold tokens_of in HT. rewrite cnt_app in HT. pose proof (cnt_concat t e waits He). pose proof (cnt_nonneg t (map TResult sent)). lia.
Qed.

Lemma fresh_uncached w T : inv w T -> cached_refs (length (w_results w)) w = 0.
Proof.
  intros Hi. pose proof (in_res _ _ Hi (length (w_results w))) as Hr. rewrite lookup_ge_None_2 in Hr by lia.
  pose proof (cached_refs_nonneg (length (w_results w)) w). pose proof (cnt_nonneg (TResult (length (w_results w))) T).
  pose proof (cnt_nonneg (TWriter (length (w_results w))) T). lia.
Qed.

Lemma serve_request s rq :
  server_ok s -> request_ok rq ->
  (serve s (Request rq) = Fail /\ exists arg0, rq_argarray rq !! 0%nat = Some arg0 /\ argop arg0 = NFS4_OP_SEQUENCE /\ blocked arg0 (sv_world s))
  \/ exists s', serve s (Request rq) = Ret s' /\ served s (Request rq) s'.
Proof.
  intros [Hi Hw] Hok. cbn [serve]. set (w := sv_world s) in *. set (T := tokens_of (sv_waiting s) (sv_sent s)) in *. destruct (admitted rq) eqn:Hadm.
  - destruct (nfs4_Compound_admitted rq w T Hi (all_paired _ _) Hok Hadm) as [[-> Hb]|(o & w' & -> & Hl)]; [by left|]. right. rewrite res_bind_ret.
    eexists. split; [done|]. destruct (admitted_bounds rq Hadm) as [H2 Hne]. destruct (start_running rq w T Hi Hok H2 Hne) as [Hrun M].
    pose proof (left_loop_took _ _ _ _ _ Hrun Hl) as Ht. pose proof Ht as (P & Hg & HP). split.
    + apply settle_ok; [apply Hg| |by eapply left_loop_waiting]. eapply took_others; [apply M|exact Ht|]. eapply (all_stay _ _ _ _ (sv_sent s)); [exact M| |done].
      intros t. rewrite cnt_app. pose proof (cnt_nonneg t (tokens (start_data rq (length (w_results w))))). unfold T. lia.
    + rewrite settle_world. apply Hg.
    + rewrite settle_world. intros a i sl se Hat Ha. destruct (left_loop_slot _ _ _ _ _ a i sl se Hrun Hl Hat Ha) as (sl' & Hat' & Hmv & _).
      exists sl'. split; [done|]. destruct Hmv as [?|[?|[? ?]]]; [by left|by right; left|]. right. right. by exists rq.
    + rewrite settle_world. intros r x x' Hc Hx. eapply (reply_stays [length (w_results w)] (start_world rq w)); [apply Hg| |].
      * intros ->%list_elem_of_singleton. pose proof (fresh_uncached _ _ Hi) as Hz. fold w in Hc. lia.
      * unfold result, start_world. cbn. apply lookup_app_l_Some. exact Hx.
  - right. destruct (nfs4_Compound_refused rq w T Hi Hok Hadm) as (o & w' & -> & Ho & M & _). rewrite res_bind_ret. eexists. split; [done|]. apply served_quiet.
    + apply settle_ok; [destruct Ho as [->| ->]; apply M| |by destruct Ho as [->| ->]]. eapply (all_stay _ _ _ _ (sv_sent s)); [exact M| |done].
      intros t. rewrite cnt_cons. pose proof (is_token_nonneg t (TResult (length (w_results w)))). unfold T. lia.
    + rewrite settle_world. apply M.
Qed.

Lemma serve_resume s n d :
  server_ok s -> sv_waiting s !! n = Some d -> exists s', serve s (Resume n) = Ret s' /\ served s (Resume n) s'.
Proof.
  intros [Hi Hw] Hn. cbn [serve]. rewrite Hn. set (w := sv_world s) in *. set (T := tokens_of (delete n (sv_waiting s)) (sv_sent s)).
  assert (inv w (tokens d ++ T)) as Hi' by (eapply inv_proper; [|exact Hi]; intros t; by apply delete_waiting).
  assert (waiting d w) as Hd by (by apply (Forall_lookup_1 _ _ _ _ Hw Hn)). pose proof Hd as [Hrun Hpos _ Hfirst].
  destruct (nfs4_compound_resume_spec d w T Hd Hi' (all_paired _ _)) as (o & w' & -> & Hl). rewrite res_bind_ret. eexists. split; [done|].
  pose proof (left_loop_took _ _ _ _ _ Hrun Hl) as Ht. pose proof Ht as (P & Hg & HP). split.
  - apply settle_ok; [apply Hg| |by eapply left_loop_waiting]. eapply took_others; [exact Hi'|exact Ht|]. by apply Forall_delete.
  - rewrite settle_world. apply Hg.
  - rewrite settle_world. intros a i sl se Hat Ha. destruct (left_loop_slot _ _ _ _ _ a i sl se Hrun Hl Hat Ha) as (sl' & Hat' & Hmv & Hlater).
    exists sl'. split; [done|]. destruct Hmv as [?|[?|[(arg0 & Ha0 & Ho & Hm & _) _]]]; [by left|by right; left|].
    destruct (decide (d_oppos d = 0%nat)) as [Hp0|Hp0]; [by destruct (Hfirst Hp0 Hm arg0 Ha0)|]. destruct (Hlater Hp0); [by left|by right; left].
  - rewrite settle_world. intros r x x' Hc. eapply reply_stays; [apply Hg|]. intros ->%list_elem_of_singleton.
    destruct (writer_unique w _ ((held d ++ lease_of d) ++ T) Hi') as (_ & _ & Hz). fold w in Hc. lia.
Qed.

Lemma serve_sent s n r :
  server_ok s -> sv_sent s !! n = Some r -> exists s', serve s (Sent n) = Ret s' /\ served s (Sent n) s'.
Proof.
  intros [Hi Hw] Hn. cbn [serve]. rewrite Hn. set (w := sv_world s) in *. set (T := tokens_of (sv_waiting s) (delete n (sv_sent s))).
  assert (inv w (TResult r :: T)) as Hi' by (eapply inv_proper; [|exact Hi]; intros t; by apply delete_sent).
  assert (cnt (TWriter r) T = 0) as Hz.
  { pose proof (cnt_nonneg (TWriter r) T). pose proof (cnt_nonneg (TResult r) T). pose proof (cached_refs_nonneg r w). pose proof (in_res _ _ Hi' r) as Hr.
    rewrite !cnt_cons, is_token_same, (is_token_other (TWriter r)) in Hr by done. repeat case_match; lia. }
  destruct (release_result_moves [] [] w T r (TResult r) Hi') as (w' & E & M & _); [by left|done|].
  unfold nfs4_Compound_Free. rewrite E, res_bind_ret. eexists. split; [done|]. apply served_quiet; [split; cbn [sv_world sv_waiting sv_sent]|apply M].
  - apply M.
  - eapply (all_stay _ _ T _ (delete n (sv_sent s))); [exact M| |done]. intros t. unfold T. lia.
Qed.

Lemma served_still s ev : server_ok s -> served s ev s.
Proof. intros Hs. apply served_quiet; [done|apply evolves_refl]. Qed.

Definition waits_for_slot (s : server) (ev : event) : Prop :=
  exists rq arg0, ev = Request rq /\ rq_argarray rq !! 0%nat = Some arg0 /\ argop arg0 = NFS4_OP_SEQUENCE /\ blocked arg0 (sv_world s).

Lemma serve_spec s ev :
  server_ok s -> event_ok ev ->
  (serve s ev = Fail /\ waits_for_slot s ev) \/ exists s', serve s ev = Ret s' /\ served s ev s'.
Proof.
  intros Hs Hev. destruct ev as [rq|n|n|t].
  - destruct (serve_request s rq Hs Hev) as [(E & arg0 & Ha)|Hr]; [left|by right]. split; [done|]. by exists rq, arg0.
  - right. destruct (sv_waiting s !! n) eqn:E; [by eapply serve_resume|]. cbn [serve]. rewrite E. eexists. split; [done|by apply served_still].
  - right. destruct (sv_sent s !! n) eqn:E; [by eapply serve_sent|]. cbn [serve]. rewrite E. eexists. split; [done|by apply served_still].
  - right. eexists. split; [done|]. destruct Hs as [Hi Hw]. pose proof (tick_goes [] [] _ _ t Hi) as Hg. apply served_quiet; [|apply Hg].
    split; [apply Hg|]. cbn [sv_world sv_waiting]. rewrite Forall_forall in *. intros e He.
    eapply waiting_stays; [by apply Hw|exact Hg| |by intros ?%elem_of_nil|by intros p _ ?%elem_of_nil].
    intros u. unfold tokens_of. rewrite cnt_app. pose proof (cnt_concat u e _ He). pose proof (cnt_nonneg u (map TResult (sv_sent s))). lia.
Qed.

(** ** Sequences of events *)

Lemma serve_all_ok evs : forall s, server_ok s -> Forall event_ok evs -> serve_all s evs = Fail \/ exists s', serve_all s evs = Ret s' /\ server_ok s'.
Proof.
  unfold serve_all. induction evs as [|ev evs IH]; intros s Hs Hev; [right; by exists s|]. inversion Hev as [|? ? He Hl]; subst. cbn [res_foldl].
  destruct (serve_spec s ev Hs He) as [[-> _]|(s' & -> & Hs')]; [by left|]. rewrite res_bind_ret. apply IH; [apply Hs'|done].
Qed.
End server.
