(* ===== verification/NfsServerOnce.v ===== *)
(** * Requests that are sent again

    A client that does not get a reply sends its request again with the same session, slot
    and sequence number. Whatever the server did in between, the request is not run a
    second time, and the reply is the one that was kept in the slot. *)

From S2P Require Import Prelude NfsProto NfsNames NfsSession NfsSessionInv NfsSessionOps NfsCompound NfsCompoundProofs NfsCompoundRun.
From S2P Require Import NfsCompoundStep NfsServer NfsServerRun NfsServerSpec.
Local Open Scope Z_scope.

(** The request that begins with SEQUENCE. *)
Definition sequence_of `{Nfs4Types} (rq : request) : option SEQUENCE4args :=
  match rq_argarray rq with
  | arg0 :: _ => if (argop arg0 =? NFS4_OP_SEQUENCE) && (0 <? rq_minorversion rq) then Some (opsequence arg0) else None
  | [] => None
  end.

(** The event is not the next request on the slot of [arg]. *)
Definition not_next `{Nfs4Types} (arg : SEQUENCE4args) (ev : event) : bool :=
  match ev with
  | Request rq =>
    match sequence_of rq with
    | Some arg' => negb (bool_decide (sa_sessionid arg' = sa_sessionid arg) && (sa_slotid arg' =? sa_slotid arg)
                         && (sa_sequenceid arg' =? wrap_u 32 (sa_sequenceid arg + 1)))
    | None => true
    end
  | _ => true
  end.

Section once.
Context `{Nfs4Ops}.
Implicit Types (w : world) (T U : list token) (d : compound_data) (s : server).

Lemma sequence_of_arg rq (arg : SEQUENCE4args) : sequence_of rq = Some arg ->
  exists arg0, rq_argarray rq !! 0%nat = Some arg0 /\ argop arg0 = NFS4_OP_SEQUENCE /\ 0 < rq_minorversion rq /\ opsequence arg0 = arg.
Proof.
  unfold sequence_of. destruct (rq_argarray rq) as [|arg0 l]; [done|]. case_match eqn:E; [|done]. intros [= <-].
  apply andb_true_iff in E as [E1%Z.eqb_eq E2%Z.ltb_lt]. by exists arg0.
Qed.

Lemma next_seq_moves w T a i sl : inv w T -> slot_at w a i sl -> next_seq sl <> sl_sequence sl.
Proof.
  intros Hi (se & Ha & Hsl). destruct (so_locks _ _ _ _ (si_session _ _ (in_sess _ _ Hi) a se Ha) i sl Hsl) as [Hb _].
  unfold next_seq, wrap_u. destruct (decide (sl_sequence sl = 2 ^ 32 - 1)) as [->|Hn]; [done|]. rewrite Z.mod_small; lia.
Qed.

(** ** The number of a slot *)

(** The slot of [arg], while its session lasts, was last used with the number of [arg]. *)
Definition used (arg : SEQUENCE4args) (s : server) : Prop :=
  forall a, w_table (sv_world s) !! sa_sessionid arg = Some a ->
  exists sl, slot_at (sv_world s) a (Z.to_nat (sa_slotid arg)) sl /\ sl_sequence sl = sa_sequenceid arg.

(** The same, and the reply is kept. *)
Definition keeps (arg : SEQUENCE4args) (c : COMPOUND4res) (s : server) : Prop :=
  forall a, w_table (sv_world s) !! sa_sessionid arg = Some a ->
  exists r x, slot_at (sv_world s) a (Z.to_nat (sa_slotid arg)) (MkSlot (sa_sequenceid arg) false (Some r)) /\ result (sv_world s) r x
    /\ res_compound4 x = c.

(** A slot of a session changes its number only for the next request. *)
Lemma event_keeps_slot (arg : SEQUENCE4args) s ev s' a sl :
  server_ok s -> 0 <= sa_slotid arg -> event_ok ev -> served s ev s' -> not_next arg ev = true -> w_table (sv_world s') !! sa_sessionid arg = Some a ->
  slot_at (sv_world s) a (Z.to_nat (sa_slotid arg)) sl -> sl_sequence sl = sa_sequenceid arg ->
  exists sl', slot_at (sv_world s') a (Z.to_nat (sa_slotid arg)) sl' /\ (sl' = sl \/ (sl_lock sl = true /\ sl_sequence sl' = sl_sequence sl)).
Proof.
  intros Hs Hge0 Hev Hsv Hnn Ht Hat Hq. destruct (si_table _ _ (in_sess _ _ (sk_inv _ (sd_ok _ _ _ Hsv))) _ _ Ht) as (se & Ha & _).
  destruct (sd_slot _ _ _ Hsv _ _ _ _ Hat Ha) as (sl' & Hat' & Hmv). exists sl'. split; [done|].
  destruct Hmv as [?|[?|(rq & -> & (arg0 & Ha0 & Ho & Hm & ((s0 & Hn) & Hi & Hl & Hnx)) & _)]]; [by left|by right|]. exfalso.
  assert (sequence_of rq = Some (opsequence arg0)) as Esq.
  { unfold sequence_of. destruct (rq_argarray rq); [done|]. cbn in Ha0. injection Ha0 as ->. rewrite Ho. by rewrite (proj2 (Z.ltb_lt _ _) Hm). }
  cbn [not_next] in Hnn. rewrite Esq in Hnn. apply negb_true_iff in Hnn.
  pose proof (sd_table _ _ _ Hsv _ _ Ht) as Ht0. destruct Hn as (Htn & Han & _ & _).
  destruct (si_table _ _ (in_sess _ _ (sk_inv _ Hs)) _ _ Ht0) as (s1 & Ha1 & Hid1).
  destruct (si_table _ _ (in_sess _ _ (sk_inv _ Hs)) _ _ Htn) as (s2 & Ha2 & Hid2). assert (s1 = s2) as -> by (unfold alive in *; congruence).
  destruct Hev as [_ _ Hargs]. pose proof (proj1 (Forall_lookup _ _) Hargs _ _ Ha0) as [_ Hs0].
  rewrite bool_decide_true, (proj2 (Z.eqb_eq _ _)), (proj2 (Z.eqb_eq _ _)) in Hnn; [done|..|congruence].
  - rewrite <- Hnx, <- Hq. done.
  - lia.
Qed.

Lemma used_served (arg : SEQUENCE4args) s ev s' : server_ok s -> 0 <= sa_slotid arg -> event_ok ev -> served s ev s' -> not_next arg ev = true -> used arg s -> used arg s'.
Proof.
  intros Hs Hge0 Hev Hsv Hnn Hu a Ht. destruct (Hu a (sd_table _ _ _ Hsv _ _ Ht)) as (sl & Hat & Hq).
  destruct (event_keeps_slot arg s ev s' a sl Hs Hge0 Hev Hsv Hnn Ht Hat Hq) as (sl' & Hat' & Hmv). exists sl'. split; [done|].
  destruct Hmv as [->|[_ E]]; congruence.
Qed.

Lemma keeps_served (arg : SEQUENCE4args) c s ev s' :
  server_ok s -> 0 <= sa_slotid arg -> event_ok ev -> served s ev s' -> not_next arg ev = true -> keeps arg c s -> keeps arg c s'.
Proof.
  intros Hs Hge0 Hev Hsv Hnn Hk a Ht. destruct (Hk a (sd_table _ _ _ Hsv _ _ Ht)) as (r & x & Hat & Hx & Hc).
  destruct (event_keeps_slot arg s ev s' a _ Hs Hge0 Hev Hsv Hnn Ht Hat eq_refl) as (sl' & Hat' & [->|[? _]]); [|done].
  pose proof Hat as (se & Ha & Hsl). pose proof (cached_positive _ _ _ _ _ r Ha Hsl eq_refl) as Hpos.
  pose proof Hat' as (se' & Ha' & Hsl'). pose proof (cached_positive _ _ _ _ _ r Ha' Hsl' eq_refl) as Hpos'.
  destruct (result_held (sv_world s') _ r (in_res _ _ (sk_inv _ (sd_ok _ _ _ Hsv)))) as [x' Hx'].
  { pose proof (cnt_nonneg (TResult r) (tokens_of (sv_waiting s') (sv_sent s'))). pose proof (cnt_nonneg (TWriter r) (tokens_of (sv_waiting s') (sv_sent s'))). lia. }
  exists r, x'. split; [done|]. split; [done|]. rewrite <- Hc. by eapply (sd_reply _ _ _ Hsv).
Qed.

(** What holds before a sequence of events and is kept by each holds after it. *)
Lemma serve_all_keeps (Q : server -> Prop) (ok : event -> bool) evs : forall s s',
  (forall s ev s', server_ok s -> event_ok ev -> served s ev s' -> ok ev = true -> Q s -> Q s') ->
  server_ok s -> Forall event_ok evs -> forallb ok evs = true -> serve_all s evs = Ret s' -> Q s -> server_ok s' /\ Q s'.
Proof.
  unfold serve_all. induction evs as [|ev evs IH]; intros s s' HQ Hs Hev Hok E Hq; [by injection E as <-|]. cbn [res_foldl forallb] in *.
  inversion Hev as [|? ? He Hl]; subst. apply andb_true_iff in Hok as [Hok1 Hok2].
  destruct (serve_spec s ev Hs He) as [[E1 _]|(s1 & E1 & Hsv)]; rewrite E1 in E; [done|]. rewrite res_bind_ret in E.
  eapply (IH s1 s'); [done|apply Hsv|done..|]. by eapply HQ.
Qed.

(** ** A request with SEQUENCE *)

(** The reply that the slot of [arg] keeps of the reply [c]. *)
Definition kept_as (arg : SEQUENCE4args) (c c' : COMPOUND4res) : Prop :=
  if sa_cachethis arg then c' = c else uncached_reply c = Ret c'.

(** Nothing ran. *)
Record quiet s s' : Prop := {
  qt_fs : w_fs (sv_world s') = w_fs (sv_world s);
  qt_waiting : sv_waiting s' = sv_waiting s;
  qt_slots : forall a i sl se, slot_at (sv_world s) a i sl -> alive (sv_world s') a se -> slot_at (sv_world s') a i sl }.

Inductive sequence_outcome (rq : request) (arg : SEQUENCE4args) s s' : Prop :=
| so_refused : quiet s s' -> admitted rq = false \/ refuses arg (start_data rq 0) (sv_world s) -> sequence_outcome rq arg s s'
| so_answered a se sl r x x' : quiet s s' -> admitted rq = true -> names_slot arg (sv_world s) a se sl -> sl_lock sl = false ->
    sl_sequence sl = sa_sequenceid arg -> sl_cached sl = Some r -> sv_sent s' = r :: sv_sent s -> result (sv_world s) r x ->
    result (sv_world s') r x' -> res_compound4 x' = res_compound4 x -> sequence_outcome rq arg s s'
| so_taken a sl : admitted rq = true -> takes_slot arg (sv_world s) a (Z.to_nat (sa_slotid arg)) sl -> used arg s' ->
    (forall r, sv_sent s' = r :: sv_sent s -> exists x, result (sv_world s') r x
       /\ forall b, w_table (sv_world s') !! sa_sessionid arg = Some b -> exists c', kept_as arg (res_compound4 x) c' /\ keeps arg c' s') ->
    sequence_outcome rq arg s s'.

Lemma evolves_slots W w w' a i sl se : evolves [] W w w' -> slot_at w a i sl -> alive w' a se -> slot_at w' a i sl.
Proof. intros He Hat Ha. eapply (ev_slot _ _ _ _ He); [exact Ha|by intros ?%elem_of_nil|done]. Qed.

(** The slot after a request that took it. *)
Lemma used_slot (arg : SEQUENCE4args) s s' a sl' :
  (forall sid b, w_table (sv_world s') !! sid = Some b -> w_table (sv_world s) !! sid = Some b) -> w_table (sv_world s) !! sa_sessionid arg = Some a ->
  (forall se, alive (sv_world s') a se -> slot_at (sv_world s') a (Z.to_nat (sa_slotid arg)) sl') -> sl_sequence sl' = sa_sequenceid arg ->
  server_ok s' -> used arg s'.
Proof.
  intros Ht Ha Hsl Hq Hs' b Hb. assert (b = a) as -> by (specialize (Ht _ _ Hb); congruence).
  destruct (si_table _ _ (in_sess _ _ (sk_inv _ Hs')) _ _ Hb) as (se & Hse & _). exists sl'. split; [by apply (Hsl se)|done].
Qed.

Lemma begins_takes (arg : SEQUENCE4args) w d : begins arg w d ->
  exists a sl, takes_slot arg w a (Z.to_nat (sa_slotid arg)) sl /\ w_table w !! sa_sessionid arg = Some a
    /\ q_slot (d_seq d) = Some (a, Z.to_nat (sa_slotid arg)) /\ q_sequence (d_seq d) = sa_sequenceid arg /\ q_cachethis (d_seq d) = sa_cachethis arg.
Proof. intros (a & se & sl & Hn & Hl & Hx & Hq & Hs & _ & Hc). exists a, sl. split; [split; [by exists se|done]|]. split; [apply Hn|done]. Qed.

(** The loop of the request, by what SEQUENCE did. *)
Lemma started_taken rq (arg : SEQUENCE4args) s d' w' o :
  let r := length (w_results (sv_world s)) in
  begins arg (sv_world s) d' ->
  o = Suspended d' \/ (o = Replied r /\ exists x k, result w' r (MkExtended x k) /\ slot_left d' w' x) ->
  (forall d, o = Suspended d -> waiting d w') ->
  (forall sid b, w_table w' !! sid = Some b -> w_table (sv_world s) !! sid = Some b) ->
  admitted rq = true -> server_ok (settle o w' (sv_waiting s) (sv_sent s)) ->
  sequence_outcome rq arg s (settle o w' (sv_waiting s) (sv_sent s)).
Proof.
  intros r Hb Ho Hw Ht Hadm Hs'. destruct (begins_takes _ _ _ Hb) as (a & sl & Htake & Ha & Hq & Hqs & Hqc). destruct Ho as [->|(-> & c & k & Hx & Hleft)].
  - apply (so_taken _ _ _ _ a sl); [done..| |].
    + pose proof (Hw d' eq_refl) as Hwt. pose proof (rn_seq _ _ (wt_running _ _ Hwt)) as Hrs.
      destruct (q_session (d_seq d')) as [b|]; [|by rewrite Hrs in Hq]. destruct Hrs as [(Hq' & _ & _ & Hat & _) _].
      rewrite Hq in Hq'. injection Hq' as <- E. rewrite <- E in Hat. by eapply used_slot.
    + cbn. intros r' E. apply (f_equal length) in E. cbn in E. lia.
  - unfold slot_left in Hleft. rewrite Hq in Hleft. apply (so_taken _ _ _ _ a sl); [done..| |].
    + intros b Hbt. assert (b = a) as -> by (specialize (Ht _ _ Hbt); congruence).
      destruct (si_table _ _ (in_sess _ _ (sk_inv _ Hs')) _ _ Hbt) as (se & Hse & _). destruct (Hleft se Hse) as (r' & y & Hat & _). eexists. by split; [exact Hat|].
    + cbn. intros r' [= <-]. eexists. split; [exact Hx|]. intros b Hbt. assert (b = a) as -> by (specialize (Ht _ _ Hbt); congruence).
      destruct (si_table _ _ (in_sess _ _ (sk_inv _ Hs')) _ _ Hbt) as (se & Hse & _). destruct (Hleft se Hse) as (r' & y & Hat & Hy & Hk).
      exists (res_compound4 y). split; [unfold kept_as; unfold kept_reply in Hk; by rewrite Hqc in Hk|].
      intros b' Hb'. assert (b' = a) as -> by (specialize (Ht _ _ Hb'); congruence). exists r', y. by rewrite Hqs in Hat.
Qed.

Lemma sequence_spec rq (arg : SEQUENCE4args) s s' :
  server_ok s -> request_ok rq -> sequence_of rq = Some arg -> serve s (Request rq) = Ret s' -> sequence_outcome rq arg s s'.
Proof.
  intros Hs Hok Hsq E. destruct (serve_request s rq Hs Hok) as [[E' _]|(s1 & E' & Hsv)]; rewrite E in E'; [done|]. injection E' as <-.
  destruct (sequence_of_arg _ _ Hsq) as (arg0 & Ha0 & Ho & Hm & <-). destruct Hs as [Hi Hw]. set (w := sv_world s) in *.
  set (T := tokens_of (sv_waiting s) (sv_sent s)) in *. cbn [serve] in E. fold w in E. destruct (admitted rq) eqn:Hadm.
  2: { destruct (nfs4_Compound_refused rq w T Hi Hok Hadm) as (o & w' & Ec & Hor & M & _). rewrite Ec, res_bind_ret in E. injection E as <-.
       apply so_refused; [|by left]. split; rewrite ?settle_world; [apply M|by destruct Hor as [->| ->]|]. intros a i sl se. apply (evolves_slots [] w), M. }
  destruct (nfs4_Compound_admitted rq w T Hi (all_paired _ _) Hok Hadm) as [[Ec _]|(o & w' & Ec & Hl)]; rewrite Ec in E; [done|].
  rewrite res_bind_ret in E. injection E as <-. pose proof (sd_ok _ _ _ Hsv) as Hs'. pose proof (sd_table _ _ _ Hsv) as Ht. rewrite settle_world in Ht.
  pose proof (left_loop_waiting _ _ _ _ _ Hl) as Hwt.
  inversion Hl as [st d' w1 ? Hsame Hq Hg Hrep Hu (Hg' & Hfs & x & c & k & _ & _ & Hx & Hleft)|d' ? Hsame Hq Hg Hwd Hb|d' ? arg1 a se sl Ha1 _ _ Hn Hlk Hnx Hsl Hc Hg Hfs]; subst.
  - pose proof Hsame as (_ & _ & Er). rewrite Er in Hg', Hx. destruct (decide (q_slot (d_seq d') = None)) as [Hnone|Hsome].
    + destruct (Hu arg0 Ha0 Ho eq_refl Hm) as [(? & ? & ? & _ & _ & _ & Hslot & _)|(Hr & Hf & Hv)]; [by rewrite Hnone in Hslot|].
      apply so_refused; [|by right]. assert (evolves [] [length (w_results w)] (start_world rq w) w') as He.
      { unfold slots_of in *. rewrite Hnone in *. eapply evolves_trans; [apply Hg|apply Hg']. }
      split; rewrite ?settle_world; [|done|].
      * rewrite Hfs. unfold released. by rewrite Hv, Hf.
      * intros a i sl se. exact (evolves_slots _ (start_world rq w) w' a i sl se He).
    + destruct (Hu arg0 Ha0 Ho eq_refl Hm) as [Hb|(Hr & Hf & Hv)].
      * eapply (started_taken rq _ s d'); try done. right. split; [done|]. by exists c, k.
      * destruct Hq as [Hq|(_ & arg1 & Ha1 & _ & [[_ Hb]|Hq])]; [by rewrite Hq in Hsome| |done].
        cbn in Ha1. rewrite Ha0 in Ha1. injection Ha1 as <-. eapply (started_taken rq _ s d'); try done. right. split; [done|]. by exists c, k.
  - eapply (started_taken rq _ s d'); try done; [by apply Hb|by left].
  - cbn in Ha1. rewrite Ha0 in Ha1. injection Ha1 as <-.
    destruct (result_held w' _ (d_res d') (in_res _ _ (proj1 Hg))) as [x' Hx'].
    { pose proof (cached_refs_nonneg (d_res d') w'). pose proof (cnt_nonneg (TResult (d_res d')) T). pose proof (cnt_nonneg (TWriter (d_res d')) (TResult (d_res d') :: T)).
      rewrite (cnt_cons (TResult (d_res d'))). count_step. lia. }
    pose proof (cached_positive w _ _ _ _ (d_res d') (proj1 (proj2 Hn)) (proj2 (proj2 (proj2 Hn))) Hc) as Hpos.
    destruct (result_held w T (d_res d') (in_res _ _ Hi)) as [x Hx].
    { pose proof (cnt_nonneg (TResult (d_res d')) T). pose proof (cnt_nonneg (TWriter (d_res d')) T). lia. }
    eapply (so_answered rq _ s _ a se sl (d_res d') x x'); try done.
    + split; [exact Hfs|done|]. intros b i sl' se'. exact (evolves_slots _ (start_world rq w) w' b i sl' se' (proj2 Hg)).
    + eapply (sd_reply _ _ _ Hsv); [exact Hpos|done|done].
Qed.

(** ** Sending again *)

(** The number of a request that a slot has seen is not the next. *)
Lemma used_not_next (arg : SEQUENCE4args) s a sl : server_ok s -> used arg s -> ~ takes_slot arg (sv_world s) a (Z.to_nat (sa_slotid arg)) sl.
Proof.
  intros Hs Hu ([se (Ht & Ha & _ & Hsl)] & _ & _ & Hnx). destruct (Hu a Ht) as (sl' & Hat & Hq).
  assert (slot_at (sv_world s) a (Z.to_nat (sa_slotid arg)) sl) as Hat' by (by exists se). rewrite (slot_at_det _ _ _ _ _ Hat Hat') in Hq.
  apply (next_seq_moves _ _ _ _ _ (sk_inv _ Hs) Hat'). congruence.
Qed.

Lemma used_quiet rq (arg : SEQUENCE4args) s s' :
  server_ok s -> request_ok rq -> sequence_of rq = Some arg -> serve s (Request rq) = Ret s' -> used arg s -> quiet s s'.
Proof.
  intros Hs Hok Hsq E Hu. destruct (sequence_spec rq arg s s' Hs Hok Hsq E) as [?|? ? ? ? ? ? ?|a sl _ Ht _ _]; [done..|]. by destruct (used_not_next arg s a sl).
Qed.

Lemma sequence_bound rq (arg : SEQUENCE4args) : request_ok rq -> sequence_of rq = Some arg -> 0 <= sa_slotid arg.
Proof.
  intros [_ _ Ha] Hsq. destruct (sequence_of_arg _ _ Hsq) as (arg0 & Ha0 & _ & _ & <-). by apply (proj1 (Forall_lookup _ _) Ha _ _ Ha0).
Qed.
End once.
