(* ===== verification/NfsServerClaims.v ===== *)
(** * What the NFS server promises its clients

    The server is safe in any order of events, a request is not run twice, a request that
    is sent again gets the reply that was kept, and a reply ends with the first operation
    that failed. *)

From S2P Require Import Prelude NfsProto NfsNames NfsSession NfsSessionInv NfsSessionOps NfsCompound NfsCompoundProofs NfsCompoundRun.
From S2P Require Import NfsCompoundStep NfsServer NfsServerRun NfsServerSpec NfsServerOnce.
Local Open Scope Z_scope.

Section lemmas.
Context `{Nfs4Ops}.
Implicit Types (w : world) (d : compound_data) (s : server).

(** The mutex of a slot is held by a request that waits. *)
Lemma lock_holder s a se i sl :
  server_ok s -> alive (sv_world s) a se -> fc_slots se !! i = Some sl -> sl_lock sl = true ->
  exists d, d ∈ sv_waiting s /\ q_slot (d_seq d) = Some (a, i).
Proof.
  intros [Hi Hw] Ha Hsl Hl. destruct (so_locks _ _ _ _ (si_session _ _ (in_sess _ _ Hi) a se Ha) i sl Hsl) as [_ Hc]. rewrite Hl in Hc.
  unfold tokens_of in Hc. rewrite cnt_app in Hc. assert (cnt (TLock (a, i)) (map TResult (sv_sent s)) = 0) as Hz.
  { clear. induction (sv_sent s) as [|r l IH]; [done|]. cbn [map]. by rewrite cnt_cons, is_token_other. }
  assert (0 < cnt (TLock (a, i)) (concat (map tokens (sv_waiting s)))) as Hpos by lia. clear Hc Hz Hl Hsl Ha Hi.
  revert Hw Hpos. induction (sv_waiting s) as [|d l IH]; [done|]. intros Hw. inversion Hw as [|? ? Hd Hw']; subst. cbn [map concat]. rewrite cnt_app. intros Hpos.
  destruct (decide (0 < cnt (TLock (a, i)) (tokens d))) as [Hc|Hc].
  - exists d. split; [apply list_elem_of_here|]. pose proof (rn_seq _ _ (wt_running _ _ Hd)) as Hq. unfold tokens, held, lease_of in Hc.
    rewrite !cnt_cons, !cnt_app, is_token_other in Hc by done.
    assert (cnt (TLock (a, i)) (match q_preserved_clientid (d_seq d) with Some c => [TLease c] | None => [] end) = 0) as Hz
      by (by destruct (q_preserved_clientid (d_seq d))).
    destruct (q_session (d_seq d)) as [b|]; [|rewrite cnt_nil in Hc; lia]. destruct Hq as [(-> & _) _]. rewrite !cnt_cons in Hc.
    rewrite (is_token_other _ (TSession b)), cnt_nil in Hc by done. unfold is_token in Hc. case_decide; [|lia]. congruence.
  - destruct (IH Hw') as (e & He & Hq); [lia|]. exists e. split; [by apply list_elem_of_further|done].
Qed.

(** ** The number of a slot *)

Definition slot_number (w : world) (arg : SEQUENCE4args) : option Z :=
  match w_table w !! sa_sessionid arg with
  | Some a => match w_sessions w !! a with
              | Some (Some se) => sl_sequence <$> fc_slots se !! Z.to_nat (sa_slotid arg)
              | _ => None
              end
  | None => None
  end.

Lemma slot_number_at w (arg : SEQUENCE4args) a sl :
  w_table w !! sa_sessionid arg = Some a -> slot_at w a (Z.to_nat (sa_slotid arg)) sl -> slot_number w arg = Some (sl_sequence sl).
Proof. intros Ht (se & Ha & Hsl). unfold slot_number. rewrite Ht. unfold alive in Ha. by rewrite Ha, Hsl. Qed.




(** ** The shape of a reply *)

(** The results up to the first operation that failed; the status is that of the last. *)
Definition well_shaped (ops : nat) (c : COMPOUND4res) : Prop :=
  exists n r, cr_len c = Z.of_nat n /\ (0 < n <= ops)%nat /\ cr_val c !! (n - 1)%nat = Some r /\ cr_status c = r_status r
    /\ (cr_status c = NFS4_OK -> n = ops) /\ forall j rj, (j < n - 1)%nat -> cr_val c !! j = Some rj -> r_status rj = NFS4_OK.

Lemma reply_end_shaped d w st x c : ops_lawful -> reply_end d w st -> result w (d_res d) x -> set_status st (res_compound4 x) = Ret c ->
  well_shaped (length (d_argarray d)) c.
Proof.
  intros Hl (y & n & Hy & _ & Hlen & Hn & Hs) Hx [= <-]. assert (y = x) as -> by (unfold result in *; congruence).
  destruct (Hs Hl) as (r & Hr & Hst & Hok & Hb). by exists n, r.
Qed.

Lemma left_loop_shaped d w T w' : ops_lawful -> left_loop d w T (Replied (d_res d)) w' -> running d w -> inv w (tokens d ++ T) ->
  exists x, result w' (d_res d) x /\ well_shaped (length (d_argarray d)) (res_compound4 x).
Proof.
  intros Hlaw Hl Hrun Hi. inversion Hl as [st d' w1 ? Hsame _ _ Hrep _ (_ & _ & x & c & k & Hx & Hc & Hx' & _)| |d' ? arg0 a se sl _ _ _ Hn _ _ _ Hc _ _]; subst.
  - pose proof Hsame as (_ & Ea & Er). rewrite <- Er, <- Ea. eexists. split; [exact Hx'|]. by eapply reply_end_shaped.
  - exfalso. match goal with E : d_res d' = d_res d |- _ => rewrite E in Hc end. destruct Hn as (_ & Ha & _ & Hsl).
    pose proof (cached_positive _ _ _ _ _ _ Ha Hsl Hc) as Hpos. destruct (writer_unique w _ ((held d ++ lease_of d) ++ T) Hi) as (_ & _ & Hz). lia.
Qed.

(** ** Sessions as they are created *)

Record created (s : server) : Prop := {
  cd_idle : sv_waiting s = [] /\ sv_sent s = [] /\ w_results (sv_world s) = [];
  cd_table : forall sid a, w_table (sv_world s) !! sid = Some a -> exists se, alive (sv_world s) a se /\ session_id se = sid;
  cd_session : forall a se, alive (sv_world s) a se ->
    w_table (sv_world s) !! session_id se = Some a /\ refcount se = 1 /\ Z.of_nat (length (fc_slots se)) = nb_slots se
    /\ ca_maxrequests (fore_channel_attrs se) = nb_slots se /\ nb_slots se < 2 ^ 32 /\ (clientid_record se < length (w_clients (sv_world s)))%nat
    /\ Forall (fun sl => sl = MkSlot 0 false None) (fc_slots se);
  cd_client : forall c cl, w_clients (sv_world s) !! c = Some cl -> cid_lease_reservations cl = 0
    /\ forall a, a ∈ cb_session_list cl -> exists se, alive (sv_world s) a se /\ clientid_record se = c }.

Lemma created_uncached s r : created s -> cached_refs r (sv_world s) = 0.
Proof.
  intros Hc. unfold cached_refs. rewrite (tally_ext _ (fun _ => 0)); [by induction (w_sessions (sv_world s)) as [|? ? IH]; [|cbn in *; rewrite IH]|].
  intros [se|] Hin; [|done]. apply list_elem_of_lookup in Hin as [a Ha]. destruct (cd_session s Hc a se Ha) as (_ & _ & _ & _ & _ & _ & Hf).
  cbn [session_refs]. induction Hf as [|sl l -> _ IH]; [done|]. cbn in *. by rewrite IH.
Qed.

Lemma created_ok s : created s -> server_ok s.
Proof.
  intros Hc. destruct (cd_idle s Hc) as (Hw & Hs & Hr). split; rewrite Hw, ?Hs; [|done]. split.
  - split; [|apply (cd_table s Hc)|done|done]. intros a se Ha. destruct (cd_session s Hc a se Ha) as (Ht & Hn & Hl & Hm & Hb & Hcl & Hf).
    split; [|lia|done|done|done|done|].
    + unfold table_refs. rewrite decide_True by done. done.
    + intros i sl Hsl. rewrite (proj1 (Forall_lookup _ _) Hf i sl Hsl). done.
  - intros r. rewrite Hr, lookup_nil, (created_uncached s r Hc). done.
  - intros c. destruct (w_clients (sv_world s) !! c) as [cl|] eqn:Hcl; [|done]. apply (cd_client s Hc c cl Hcl).
Qed.
End lemmas.

(** ** The promises *)

Section promises.
Context `{Nfs4Ops}.
Implicit Types (s : server) (evs : list event).

(** The events up to the first request that has to wait. *)
Lemma serve_all_split evs : forall s, server_ok s -> Forall event_ok evs ->
  (exists s', serve_all s evs = Ret s' /\ server_ok s')
  \/ exists before ev after s', evs = before ++ ev :: after /\ serve_all s before = Ret s' /\ server_ok s' /\ serve s' ev = Fail /\ waits_for_slot s' ev.
Proof.
  unfold serve_all. induction evs as [|ev evs IH]; intros s Hs Hev; [left; by exists s|]. inversion Hev as [|? ? He Hl]; subst. cbn [res_foldl].
  destruct (serve_spec s ev Hs He) as [[E Hb]|(s1 & E & Hsv)]; [right; by exists [], ev, evs, s|]. rewrite E, res_bind_ret.
  destruct (IH s1 (sd_ok _ _ _ Hsv) Hl) as [?|(before & ev' & after & s' & -> & E' & Hx)]; [by left|]. right.
  exists (ev :: before), ev', after, s'. cbn [res_foldl app]. rewrite E, res_bind_ret. done.
Qed.

(** C4. Whatever requests arrive, are resumed or are answered, in whatever order, the
    server does not use a session or a reply that was released, does not give back a mutex
    that it does not hold, and keeps the counts of references exact. A request can only
    have to wait for the mutex of its slot, and then a suspended request holds it. What a
    thread does for a request between its arrival or resumption and its suspension or
    reply is one step here; [replay_race] is what can happen between two threads
    otherwise. Of the operations of a request SEQUENCE and DESTROY_SESSION act on the
    sessions; those that create or bind sessions are given by their results, and act on
    the sessions in [NfsClientServer]. *)
Theorem server_safe s evs :
  server_ok s -> Forall event_ok evs ->
  (exists s', serve_all s evs = Ret s' /\ server_ok s')
  \/ exists before rq after s' arg d a, evs = before ++ Request rq :: after /\ serve_all s before = Ret s' /\ server_ok s'
       /\ serve s' (Request rq) = Fail /\ rq_argarray rq !! 0%nat = Some arg /\ argop arg = NFS4_OP_SEQUENCE
       /\ w_table (sv_world s') !! sa_sessionid (opsequence arg) = Some a
       /\ d ∈ sv_waiting s' /\ q_slot (d_seq d) = Some (a, Z.to_nat (sa_slotid (opsequence arg))).
Proof.
  intros Hs Hev. destruct (serve_all_split evs s Hs Hev) as [?|(before & ev & after & s' & -> & E & Hs' & Ef & Hw)]; [by left|right].
  destruct Hw as (rq & arg & -> & Ha & Ho & b & se & sl & (Ht & Hab & _ & Hsl) & Hl). destruct (lock_holder s' b se _ sl Hs' Hab Hsl Hl) as (d & Hd & Hq).
  by exists before, rq, after, s', arg, d, b.
Qed.

(** C5. A request with a SEQUENCE that is sent again is run at most once: whatever happens
    in between, as long as the client does not use the slot for the next request, one of
    the two leaves the file system alone and starts nothing. *)
Theorem request_runs_once rq arg s0 s1 evs s2 s3 :
  server_ok s0 -> request_ok rq -> Forall event_ok evs -> sequence_of rq = Some arg -> forallb (not_next arg) evs = true ->
  serve s0 (Request rq) = Ret s1 -> serve_all s1 evs = Ret s2 -> serve s2 (Request rq) = Ret s3 ->
  (w_fs (sv_world s1) = w_fs (sv_world s0) /\ sv_waiting s1 = sv_waiting s0)
  \/ (w_fs (sv_world s3) = w_fs (sv_world s2) /\ sv_waiting s3 = sv_waiting s2).
Proof.
  intros Hs Hok Hev Hsq Hnn E1 E2 E3. destruct (serve_spec s0 (Request rq) Hs Hok) as [[E' _]|(s1' & E' & Hsv)]; rewrite E1 in E'; [done|]. injection E' as <-.
  destruct (sequence_spec rq arg s0 s1 Hs Hok Hsq E1) as [Hq _|? ? ? ? ? ? Hq|a sl _ _ Hu _]; [left; by destruct Hq..|right].
  destruct (serve_all_keeps (used arg) (not_next arg) evs s1 s2) as [Hs2 Hu2]; [|apply Hsv|done..|].
  { intros s ev s' ? ? ? ?. eapply used_served; try done. by eapply sequence_bound. }
  destruct (used_quiet rq arg s2 s3 Hs2 Hok Hsq E3 Hu2) as [? ? _]. done.
Qed.


(** The reply that an event writes, with the number of operations of its request. *)
Inductive writes (s : server) : event -> nat -> nat -> Prop :=
| writes_request rq : admitted rq = true -> writes s (Request rq) (length (w_results (sv_world s))) (length (rq_argarray rq))
| writes_resume n d : sv_waiting s !! n = Some d -> writes s (Resume n) (d_res d) (length (d_argarray d)).

(** C13. The reply of a request that ran has the results of its operations up to the first
    that failed: those before it succeeded, its status is that of the reply, and a reply
    with the status NFS4_OK has the results of all operations. This supposes that the
    operations on files return NFS_REQ_OK exactly with the status NFS4_OK. *)
Theorem reply_shape s ev s' r ops :
  server_ok s -> event_ok ev -> ops_lawful -> writes s ev r ops -> serve s ev = Ret s' -> sv_sent s' = r :: sv_sent s ->
  exists x, result (sv_world s') r x /\ well_shaped ops (res_compound4 x).
Proof.
  intros [Hi Hw] Hev Hlaw Hwr E Hsent. destruct Hwr as [rq Hadm|n d Hn]; cbn [serve] in E.
  - destruct (nfs4_Compound_admitted rq _ _ Hi (all_paired _ _) Hev Hadm) as [[Ec _]|(o & w' & Ec & Hl)]; rewrite Ec in E; [done|].
    rewrite res_bind_ret in E. injection E as <-. rewrite settle_world. destruct (admitted_bounds rq Hadm) as [H2 Hne].
    destruct (start_running rq _ _ Hi Hev H2 Hne) as [Hrun M]. assert (o = Replied (length (w_results (sv_world s)))) as ->.
    { destruct Hl; cbn in Hsent; [done| |by injection Hsent as ->]. apply (f_equal length) in Hsent. cbn in Hsent. lia. }
    by apply (left_loop_shaped _ _ _ _ Hlaw Hl Hrun), M.
  - rewrite Hn in E. assert (inv (sv_world s) (tokens d ++ tokens_of (delete n (sv_waiting s)) (sv_sent s))) as Hi'
      by (eapply inv_proper; [|exact Hi]; intros t; by apply delete_waiting).
    assert (waiting d (sv_world s)) as Hd by (by apply (Forall_lookup_1 _ _ _ _ Hw Hn)).
    destruct (nfs4_compound_resume_spec d _ _ Hd Hi' (all_paired _ _)) as (o & w' & Ec & Hl). rewrite Ec, res_bind_ret in E. injection E as <-. rewrite settle_world.
    assert (o = Replied (d_res d)) as ->.
    { destruct Hl; cbn in Hsent; [done| |by injection Hsent as ->]. apply (f_equal length) in Hsent. cbn in Hsent. lia. }
    by apply (left_loop_shaped _ _ _ _ Hlaw Hl (wt_running _ _ Hd)).
Qed.
End promises.

(** ** A server at work

    A file that holds a number: SETATTR adds to it at once, and WRITE adds to it when it is
    resumed. One client has a session with two slots. *)

Module Demo.

#[local] Instance demo_types : Nfs4Types :=
  {| argu := Z; resu := unit; fs := Z; handles := unit; sockaddr := Z; lease_lifetime := 60; minor_versions := 7;
     enforce_utf8_vld := true; sizeof := fun _ => 16 |}.

Definition demo_funct (f : string) (u m : Z) (r : nfs_resop4) (room : Z -> res Z) (v : opview) (x : Z) : op_outcome :=
  if String.eqb f "nfs4_op_putrootfh" then
    MkOutcome OpOk (MkResop NFS4_OP_PUTROOTFH NFS4_OK ZeroRes) 8 (MkView [1] EXPORT_OPTION_ACCESS_MASK (Some tt)) x
  else if String.eqb f "nfs4_op_setattr" then MkOutcome OpOk (MkResop NFS4_OP_SETATTR NFS4_OK (OpRes tt)) 16 v (x + u)
  else if String.eqb f "nfs4_op_write" then MkOutcome OpWait (MkResop NFS4_OP_WRITE NFS4_OK ZeroRes) 16 v x
  else MkOutcome OpError (MkResop NFS4_OP_ILLEGAL NFS4ERR_NOTSUPP ZeroRes) 8 v x.

Definition demo_resume (f : string) (u m : Z) (r : nfs_resop4) (room : Z -> res Z) (v : opview) (x : Z) : op_outcome :=
  MkOutcome OpOk (MkResop NFS4_OP_WRITE NFS4_OK (OpRes tt)) 16 v (x + u).

#[local] Instance demo_ops : Nfs4Ops := {| op_funct := demo_funct; op_resume := demo_resume; release_handles := fun _ x => x |}.

Lemma demo_lawful : ops_lawful.
Proof.
  split; [|split].
  - intros f u m r room v x. cbn. unfold demo_funct. repeat case_match; split; done.
  - intros f u m r room v x. by split.
  - intros desc u m r room v x Hin Hres. assert (Forall (fun e => op_res e = "nfs4_default_resume" -> op_fun e <> "nfs4_op_write")%string optabv4) as Hall.
    { apply Forall_forall. intros e He. assert (forallb (fun e => negb (String.eqb (op_res e) "nfs4_default_resume") || negb (String.eqb (op_fun e) "nfs4_op_write")) optabv4 = true) as Hb
        by (by vm_compute).
      rewrite forallb_forall in Hb. specialize (Hb e (proj1 (list_elem_of_In _ _) He)). intros Er Ef. by rewrite Er, Ef in Hb. }
    rewrite Forall_forall in Hall. specialize (Hall desc Hin Hres). cbn. unfold demo_funct. destruct (String.eqb_spec (op_fun desc) "nfs4_op_write"); [done|]. by repeat case_match.
Qed.

Definition sid : list Z := [7].
Definition session : nfs41_session :=
  MkSession sid (MkAttrs 0 1000 1000 1000 8 2) [] 0 true 1 2 [MkSlot 0 false None; MkSlot 0 false None].
Definition start : server :=
  MkServer (MkWorld [Some session] {[ sid := 0%nat ]} [MkClient false 0 0 [0%nat]] [] 0 0) [] [].

Lemma start_created : created start.
Proof.
  split; [done| | |].
  - intros i a Hi. cbn in Hi. apply lookup_singleton_Some in Hi as [<- <-]. by exists session.
  - intros [|a] se Ha; [|done]. injection Ha as <-. split_and!; try done; try (cbn; lia). by repeat constructor.
  - intros [|c] cl Hc; [|done]. injection Hc as <-. split; [done|]. intros a ->%list_elem_of_singleton. by exists session.
Qed.

Definition op (n : Z) (seq : SEQUENCE4args) (u : Z) : nfs_argop4 := MkArgop n seq [] u.
Definition none : SEQUENCE4args := MkSequence [] 0 0 0 false.
Definition sequence (slot seq : Z) (cache : bool) : SEQUENCE4args := MkSequence sid seq slot 1 cache.
Definition compound (slot seq : Z) (cache : bool) (o u : Z) : request :=
  MkRequest 1 (MkUtf8 0 None) [op NFS4_OP_SEQUENCE (sequence slot seq cache) 0; op NFS4_OP_PUTROOTFH none 0; op o none u] 5 true.

Definition get (r : res server) : server := match r with Ret s => s | _ => start end.

(** The same WRITE, while it waits, when it has been answered, and after more time. *)
Definition write : request := compound 0 1 true NFS4_OP_WRITE 5.
Definition setattr (cache : bool) : request := compound 0 1 cache NFS4_OP_SETATTR 5.
Definition other : request := compound 1 1 false NFS4_OP_SETATTR 3.

Lemma compound_ok slot seq cache o u : 0 <= slot -> 0 <= o -> request_ok (compound slot seq cache o u).
Proof. intros Hs Ho. split; [done|by left|]. repeat constructor; done. Qed.

Lemma demo_other : request_ok other.
Proof. by apply compound_ok. Qed.

Definition later : list event := [Request other; Sent 0; Resume 0; Tick 5; Sent 0; Request other].
Lemma later_ok : Forall event_ok later.
Proof. unfold later. repeat (apply Forall_cons; split); try done; apply demo_other. Qed.

Lemma serve_all_app l k : forall s, serve_all s (l ++ k) = s' ← serve_all s l; serve_all s' k.
Proof. unfold serve_all. induction l as [|ev l IH]; intros s; [done|]. cbn [app res_foldl]. destruct (serve s ev); [|done..]. rewrite !res_bind_ret. apply IH. Qed.

Lemma server_safe_witness :
  exists s', serve_all start (Request write :: later) = Ret s' /\ server_ok s' /\ w_fs (sv_world s') = 8.
Proof.
  destruct (server_safe start (Request write :: later) (created_ok _ start_created)) as [(s' & E & Hs')|(before & rq & after & s' & arg & d & a & E & E1 & _ & E2 & _)].
  - constructor; [by apply compound_ok|apply later_ok].
  - exists s'. split; [done|]. split; [done|]. change (w_fs (sv_world s')) with (w_fs (sv_world (get (Ret s')))). rewrite <- E. by vm_compute.
  - exfalso. assert (serve_all start (Request write :: later) = Fail) as Hf.
    { rewrite E, serve_all_app, E1, res_bind_ret. unfold serve_all. cbn [res_foldl]. by rewrite E2. }
    revert Hf. vm_compute. discriminate.
Defined.

Definition s1 : server := get (serve start (Request write)).
Definition s2 : server := get (serve_all s1 later).
Definition s3 : server := get (serve s2 (Request write)).

Lemma request_runs_once_witness :
  w_fs (sv_world start) = 0 /\ w_fs (sv_world s2) = 8 /\ w_fs (sv_world s3) = 8
  /\ ((w_fs (sv_world s1) = w_fs (sv_world start) /\ sv_waiting s1 = sv_waiting start)
      \/ (w_fs (sv_world s3) = w_fs (sv_world s2) /\ sv_waiting s3 = sv_waiting s2)).
Proof.
  split; [done|]. split; [by vm_compute|]. split; [by vm_compute|].
  apply (request_runs_once write (sequence 0 1 true) start s1 later s2 s3 (created_ok _ start_created));
    [by apply compound_ok|apply later_ok|by vm_compute..].
Defined.



(** The WRITE that was resumed. *)
Lemma reply_shape_witness : exists x, result (sv_world (get (serve s1 (Resume 0)))) 0 x /\ well_shaped 3 (res_compound4 x).
Proof.
  assert (server_ok s1) as Hs1.
  { destruct (serve_spec start (Request write) (created_ok _ start_created)) as [[E _]|(s' & E & Hsv)]; [by apply compound_ok|by vm_compute in E|].
    unfold s1. rewrite E. apply Hsv. }
  apply (reply_shape s1 (Resume 0) _ 0 3 Hs1 I demo_lawful); [|by vm_compute..].
  change 0%nat with (d_res (match sv_waiting s1 with d :: _ => d | [] => start_data write 0 end)) at 2.
  change 3%nat with (length (d_argarray (match sv_waiting s1 with d :: _ => d | [] => start_data write 0 end))).
  apply writes_resume. by vm_compute.
Defined.

(** ** Races

    SEQUENCE gives the mutex of the slot back before the reply that the slot keeps is
    looked up ([complete_op]). If the next request of the slot begins in between, the slot
    has no reply any more. *)

Definition r1 : world := sv_world (get (serve start (Request (setattr true)))).
Definition again : compound_data := start_data (setattr true) (length (w_results r1)).
Definition raced : res (nfs_req_result * Z * compound_data * world) :=
  desc ← op_desc NFS4_OP_SEQUENCE;
  '(result, d, w) ← call_op desc (op NFS4_OP_SEQUENCE (sequence 0 1 true) 0) again (start_world (setattr true) r1);
  '(_, w) ← nfs4_Compound (compound 0 2 true NFS4_OP_WRITE 1) w;
  complete_op d result w.

Lemma replay_race : raced = Crash.
Proof. vm_compute. reflexivity. Qed.
End Demo.

(** ** Read-only exports *)

Section read_only.
Context `{Nfs4Types}.

(** An operation that needs to modify is refused on an export that does not allow it. *)
Lemma read_only_refused desc (v : opview) :
  currentFH v <> [] -> Z.land (exp_perm_flags desc) EXPORT_OPTION_MODIFY_ACCESS <> 0 ->
  Z.land (export_options v) EXPORT_OPTION_MODIFY_ACCESS = 0 -> check_export_perms desc v = NFS4ERR_ROFS.
Proof.
  intros Hfh Hneed Hopt. unfold check_export_perms. set (p := Z.land (exp_perm_flags desc) EXPORT_OPTION_ACCESS_MASK).
  assert (Z.land p EXPORT_OPTION_MODIFY_ACCESS = Z.land (exp_perm_flags desc) EXPORT_OPTION_MODIFY_ACCESS) as Hp.
  { unfold p. rewrite <- Z.land_assoc. f_equal. }
  destruct (Z.eqb_spec p 0) as [E|_]; [rewrite E in Hp; by rewrite <- Hp in Hneed|].
  assert (nfs4_Is_Fh_Empty (currentFH v) = NFS4_OK) as -> by (unfold nfs4_Is_Fh_Empty; by destruct (currentFH v)). cbn [negb Z.eqb].
  destruct (Z.eqb_spec (Z.land (export_options v) p) p) as [E|_]; cbn [negb].
  - exfalso. apply Hneed. rewrite <- Hp, <- E, <- Z.land_assoc, (Z.land_comm p), Z.land_assoc, Hopt. apply Z.land_0_l.
  - destruct (Z.eqb_spec (Z.land p EXPORT_OPTION_MODIFY_ACCESS) 0) as [E|_]; [|done]. by rewrite Hp in E.
Qed.

(** SETXATTR and REMOVEXATTR need nothing. *)
Lemma xattr_not_refused desc (v : opview) :
  deref (optabv4 !! 73%nat) = Ret desc \/ deref (optabv4 !! 75%nat) = Ret desc ->
  (op_fun desc = "nfs4_op_setxattr" \/ op_fun desc = "nfs4_op_removexattr")%string /\ check_export_perms desc v = NFS4_OK.
Proof. intros [[= <-]|[= <-]]; split; by auto. Qed.
End read_only.
