(* ===== verification/NfsClient.v ===== *)
(** * Client ids of the NFS server ([src/nfs-ganesha/src/SAL/nfs4_clientid.c])

    A client of NFSv4.1 introduces itself with EXCHANGE_ID ([nfs4_op_exchange_id.c]), which
    makes an unconfirmed client id, and confirms it with its first CREATE_SESSION
    ([nfs4_op_create_session.c]). A record holds what is known of an owner: the confirmed
    and the unconfirmed client id. Client ids are also in two hash tables. Client ids and
    records are counted by reference; each of the two, and each session, lives at an
    address, and one that is used after it was released is [Crash], as is a failed
    [assert] and [LogFatal]. *)

From S2P Require Import Prelude NfsProto NfsSession NfsCompound.
Local Open Scope Z_scope.

Definition NFS4ERR_PERM : Z := 1.
Definition NFS4ERR_NOENT : Z := 2.
Definition NFS4ERR_TOOSMALL : Z := 10005.
Definition NFS4ERR_SERVERFAULT : Z := 10006.
Definition NFS4ERR_CLID_INUSE : Z := 10017.
Definition NFS4ERR_STALE_CLIENTID : Z := 10022.
Definition NFS4ERR_NOT_SAME : Z := 10027.
Definition NFS4ERR_CLIENTID_BUSY : Z := 10074.

Definition EXCHGID4_FLAG_SUPP_MOVED_REFER : Z := 0x00000001.
Definition EXCHGID4_FLAG_SUPP_MOVED_MIGR : Z := 0x00000002.
Definition EXCHGID4_FLAG_BIND_PRINC_STATEID : Z := 0x00000100.
Definition EXCHGID4_FLAG_USE_NON_PNFS : Z := 0x00010000.
Definition EXCHGID4_FLAG_USE_PNFS_MDS : Z := 0x00020000.
Definition EXCHGID4_FLAG_USE_PNFS_DS : Z := 0x00040000.
Definition EXCHGID4_FLAG_MASK_PNFS : Z := 0x00070000.
Definition EXCHGID4_FLAG_UPD_CONFIRMED_REC_A : Z := 0x40000000.
Definition EXCHGID4_FLAG_CONFIRMED_R : Z := 0x80000000.

Definition CREATE_SESSION4_FLAG_PERSIST : Z := 1.
Definition CREATE_SESSION4_FLAG_CONN_BACK_CHAN : Z := 2.
Definition CREATE_SESSION4_FLAG_CONN_RDMA : Z := 4.

Definition NFS41_MIN_REQUEST_SIZE : Z := 256.
Definition NFS41_MIN_RESPONSE_SIZE : Z := 256.
Definition NFS41_MIN_OPERATIONS : Z := 2.

Inductive nfs_clientid_confirm_state_t := CONFIRMED_CLIENT_ID | UNCONFIRMED_CLIENT_ID | EXPIRED_CLIENT_ID | STALE_CLIENT_ID.
#[export] Instance confirm_state_eq : EqDecision nfs_clientid_confirm_state_t.
Proof. solve_decision. Defined.

Inductive clientid_status_t :=
  CLIENT_ID_SUCCESS | CLIENT_ID_INSERT_MALLOC_ERROR | CLIENT_ID_INVALID_ARGUMENT | CLIENT_ID_EXPIRED | CLIENT_ID_STALE.

Definition clientid_error_to_nfsstat (err : clientid_status_t) : Z :=
  match err with
  | CLIENT_ID_SUCCESS => NFS4_OK
  | CLIENT_ID_INSERT_MALLOC_ERROR => NFS4ERR_RESOURCE
  | CLIENT_ID_INVALID_ARGUMENT => NFS4ERR_SERVERFAULT
  | CLIENT_ID_EXPIRED => NFS4ERR_EXPIRED
  | CLIENT_ID_STALE => NFS4ERR_STALE_CLIENTID
  end.

Definition clientid_error_to_nfsstat_no_expire (err : clientid_status_t) : Z :=
  let rc := clientid_error_to_nfsstat err in if rc =? NFS4ERR_EXPIRED then NFS4ERR_STALE_CLIENTID else rc.

(** What the client ids are used with: the names of GSS contexts, the hash of owners, the
    state that clients have on files with its release, the recovery database (which knows
    the tag of each client that is in it), the back channel, and the configuration. *)
Class Nfs4Clients `{Nfs4Types} := {
  gss_ctx : Type;
  gss_compare_names : gss_ctx -> gss_ctx -> bool;
  CityHash64WithSeed : list Z -> Z -> Z;
  client_id_has_state : Z -> fs -> bool;
  release_client_states : Z -> fs -> fs;
  nfs4_add_clid : Z -> fs -> fs;
  nfs4_chk_clid : Z -> fs -> fs;
  nfs4_rm_clid : Z -> fs -> fs;
  nfs_rpc_create_chan_v41 : sockaddr -> Z -> fs -> bool * fs;
  nfs_ServerEpoch : Z;
  pnfs_mds : bool; pnfs_ds : bool;
  param_nb_slots : Z;
  cid_server_owner : option (list Z) }.

(** ** Data *)

Section data.
Context `{Nfs4Clients}.

Inductive nfs_client_cred_t := AuthUnix (uid gid : Z) | RpcsecGss (ctx : gss_ctx) | AuthOther (flavor : Z) (len : nat) (bytes : list Z).

Definition nfs_compare_clientcred (cred1 cred2 : nfs_client_cred_t) : bool :=
  match cred1, cred2 with
  | AuthUnix u1 g1, AuthUnix u2 g2 => (u1 =? u2) && (g1 =? g2)
  | RpcsecGss c1, RpcsecGss c2 => gss_compare_names c1 c2
  | AuthOther f1 len b1, AuthOther f2 _ b2 => (f1 =? f2) && bool_decide (take len b1 = take len b2)
  | _, _ => false
  end.

Record CREATE_SESSION4resok := MkCreated {
  csr_sessionid : list Z; csr_sequence : Z; csr_flags : Z; csr_fore_chan_attrs : channel_attrs4; csr_back_chan_attrs : channel_attrs4 }.
Record CREATE_SESSION4res := MkCreate { csr_status : Z; csr_resok4 : option CREATE_SESSION4resok }.

Record nfs_client_id_t := MkClid {
  cid_clientid : Z;
  cid_incoming_verifier : list Z;
  cid_confirmed : nfs_clientid_confirm_state_t;
  cid_credential : nfs_client_cred_t;
  cid_client_record : option nat;
  cid_create_session_sequence : Z;
  cid_create_session_slot : CREATE_SESSION4res;
  cid_refcount : Z;
  cid_gsh_client : option Z }.

Record nfs_client_record_t := MkRecord {
  cr_refcount : Z;
  cr_confirmed_rec : option nat;
  cr_unconfirmed_rec : option nat;
  cr_server_addr : Z;
  cr_pnfs_flags : Z;
  cr_client_val : list Z }.

(** The memory of the sessions, where a client id has its lease and its list of sessions,
    and that of the client ids and records, with the hash tables and the counters. *)
Record cworld := MkCw {
  cw : world;
  cw_ids : list (option nfs_client_id_t);
  ht_confirmed_client_id : gmap Z nat;
  ht_unconfirmed_client_id : gmap Z nat;
  cw_records : list (option nfs_client_record_t);
  ht_client_record : gmap (Z * list Z * Z) nat;
  clientid_counter : Z;
  global_sequence : Z }.

Definition set_cw (w : world) (k : cworld) : cworld :=
  MkCw w (cw_ids k) (ht_confirmed_client_id k) (ht_unconfirmed_client_id k) (cw_records k) (ht_client_record k) (clientid_counter k) (global_sequence k).
Definition set_ids (ids : list (option nfs_client_id_t)) (k : cworld) : cworld :=
  MkCw (cw k) ids (ht_confirmed_client_id k) (ht_unconfirmed_client_id k) (cw_records k) (ht_client_record k) (clientid_counter k) (global_sequence k).
Definition set_confirmed (t : gmap Z nat) (k : cworld) : cworld :=
  MkCw (cw k) (cw_ids k) t (ht_unconfirmed_client_id k) (cw_records k) (ht_client_record k) (clientid_counter k) (global_sequence k).
Definition set_unconfirmed (t : gmap Z nat) (k : cworld) : cworld :=
  MkCw (cw k) (cw_ids k) (ht_confirmed_client_id k) t (cw_records k) (ht_client_record k) (clientid_counter k) (global_sequence k).
Definition set_records (rs : list (option nfs_client_record_t)) (t : gmap (Z * list Z * Z) nat) (k : cworld) : cworld :=
  MkCw (cw k) (cw_ids k) (ht_confirmed_client_id k) (ht_unconfirmed_client_id k) rs t (clientid_counter k) (global_sequence k).
Definition set_counters (n m : Z) (k : cworld) : cworld :=
  MkCw (cw k) (cw_ids k) (ht_confirmed_client_id k) (ht_unconfirmed_client_id k) (cw_records k) (ht_client_record k) n m.

Definition get_id (k : cworld) (c : nat) : res nfs_client_id_t :=
  match cw_ids k !! c with Some (Some x) => Ret x | _ => Crash end.
Definition put_id (c : nat) (ox : option nfs_client_id_t) (k : cworld) : cworld := set_ids (<[c := ox]> (cw_ids k)) k.
Definition get_record (k : cworld) (r : nat) : res nfs_client_record_t :=
  match cw_records k !! r with Some (Some x) => Ret x | _ => Crash end.
Definition put_record (r : nat) (oy : option nfs_client_record_t) (k : cworld) : cworld :=
  set_records (<[r := oy]> (cw_records k)) (ht_client_record k) k.

Definition id_refcount (n : Z) (x : nfs_client_id_t) : nfs_client_id_t :=
  MkClid (cid_clientid x) (cid_incoming_verifier x) (cid_confirmed x) (cid_credential x) (cid_client_record x)
         (cid_create_session_sequence x) (cid_create_session_slot x) n (cid_gsh_client x).
Definition id_state (st : nfs_clientid_confirm_state_t) (x : nfs_client_id_t) : nfs_client_id_t :=
  MkClid (cid_clientid x) (cid_incoming_verifier x) st (cid_credential x) (cid_client_record x)
         (cid_create_session_sequence x) (cid_create_session_slot x) (cid_refcount x) (cid_gsh_client x).
Definition id_unlink (x : nfs_client_id_t) : nfs_client_id_t :=
  MkClid (cid_clientid x) (cid_incoming_verifier x) (cid_confirmed x) (cid_credential x) None
         (cid_create_session_sequence x) (cid_create_session_slot x) (cid_refcount x) (cid_gsh_client x).
Definition id_slot (n : Z) (slot : CREATE_SESSION4res) (x : nfs_client_id_t) : nfs_client_id_t :=
  MkClid (cid_clientid x) (cid_incoming_verifier x) (cid_confirmed x) (cid_credential x) (cid_client_record x)
         n slot (cid_refcount x) (cid_gsh_client x).

Definition rec_refcount (n : Z) (y : nfs_client_record_t) : nfs_client_record_t :=
  MkRecord n (cr_confirmed_rec y) (cr_unconfirmed_rec y) (cr_server_addr y) (cr_pnfs_flags y) (cr_client_val y).
Definition rec_confirmed (o : option nat) (y : nfs_client_record_t) : nfs_client_record_t :=
  MkRecord (cr_refcount y) o (cr_unconfirmed_rec y) (cr_server_addr y) (cr_pnfs_flags y) (cr_client_val y).
Definition rec_unconfirmed (o : option nat) (y : nfs_client_record_t) : nfs_client_record_t :=
  MkRecord (cr_refcount y) (cr_confirmed_rec y) o (cr_server_addr y) (cr_pnfs_flags y) (cr_client_val y).
End data.

(** ** Records *)

Section records.
Context `{Nfs4Clients}.

Definition client_record_value_hash (y : nfs_client_record_t) : Z :=
  CityHash64WithSeed (cr_client_val y) (Z.lor (Z.shiftl (cr_pnfs_flags y) 32) (cr_server_addr y)).

(** The table finds a record by its hash and then by [compare_client_record]. *)
Definition record_key (y : nfs_client_record_t) : Z * list Z * Z := (client_record_value_hash y, cr_client_val y, cr_pnfs_flags y).

Definition inc_client_record_ref (r : nat) (k : cworld) : res cworld :=
  y ← get_record k r; Ret (put_record r (Some (rec_refcount (cr_refcount y + 1) y)) k).

Definition dec_client_record_ref (r : nat) (k : cworld) : res cworld :=
  y ← get_record k r;
  let n := cr_refcount y - 1 in
  let k := put_record r (Some (rec_refcount n y)) k in
  if 0 <? n then Ret k
  else if negb (n =? 0) then Crash
  else
    let t := ht_client_record k in
    let t := if bool_decide (t !! record_key y = Some r) then delete (record_key y) t else t in
    Ret (set_records (<[r := None]> (cw_records k)) t k).

Definition get_client_record (value : list Z) (pnfs_flags server_addr : Z) (k : cworld) : res (nat * cworld) :=
  if (length value =? 0)%nat then Crash
  else
    let record := MkRecord 1 None None server_addr pnfs_flags value in
    let insert k :=
      let r := length (cw_records k) in
      Ret (r, set_records (cw_records k ++ [Some record]) (<[record_key record := r]> (ht_client_record k)) k) in
    match ht_client_record k !! record_key record with
    | Some old =>
      y ← get_record k old;
      if cr_refcount y + 1 =? 1 then insert (set_records (cw_records k) (delete (record_key record) (ht_client_record k)) k)
      else Ret (old, put_record old (Some (rec_refcount (cr_refcount y + 1) y)) k)
    | None => insert k
    end.

(** ** References to client ids *)

Definition inc_client_id_ref (c : nat) (k : cworld) : res cworld :=
  x ← get_id k c; Ret (put_id c (Some (id_refcount (cid_refcount x + 1) x)) k).

(** Sessions give their client id back when they end. *)
Section sessions.
Variable dec_id : nat -> cworld -> res cworld.

Definition put_session_ref (a : nat) (k : cworld) : res cworld :=
  s ← get_session (cw k) a;
  w ← dec_session_ref a (cw k);
  let k := set_cw w k in
  if refcount s - 1 =? 0 then dec_id (clientid_record s) k else Ret k.

Definition session_del (sessionid : list Z) (k : cworld) : res (bool * cworld) :=
  match w_table (cw k) !! sessionid with
  | None => Ret (false, k)
  | Some a => k ← put_session_ref a (set_cw (set_table (delete sessionid (w_table (cw k))) (cw k)) k); Ret (true, k)
  end.

(** All sessions of a list, from their addresses. *)
Fixpoint del_sessions (l : list nat) (k : cworld) : res cworld :=
  match l with
  | [] => Ret k
  | a :: l => s ← get_session (cw k) a; '(_, k) ← session_del (session_id s) k; del_sessions l k
  end.

Definition free_client_id (c : nat) (k : cworld) : res cworld :=
  x ← get_id k c;
  if negb (cid_refcount x =? 0) then Crash
  else
    k ← (match cid_client_record x with Some r => dec_client_record_ref r k | None => Ret k end);
    cl ← get_client (cw k) c;
    k ← del_sessions (cb_session_list cl) k;
    Ret (put_id c None k).
End sessions.

(** The sessions of a client id have references to it, so that none is left when it is
    freed: the recursion goes one step deep. *)
Fixpoint dec_client_id_ref_n (depth : nat) (c : nat) (k : cworld) : res cworld :=
  match depth with
  | O => Crash
  | S depth =>
    x ← get_id k c;
    let n := cid_refcount x - 1 in
    let k := put_id c (Some (id_refcount n x)) k in
    if 0 <? n then Ret k
    else if bool_decide (cid_confirmed x = EXPIRED_CLIENT_ID) then free_client_id (dec_client_id_ref_n depth) c k
    else Crash
  end.
Definition dec_client_id_ref : nat -> cworld -> res cworld := dec_client_id_ref_n 1.

(** The state of a client id; that of its lease goes with it. *)
Definition set_state (c : nat) (st : nfs_clientid_confirm_state_t) (k : cworld) : res cworld :=
  x ← get_id k c;
  cl ← get_client (cw k) c;
  let cl := MkClient (bool_decide (st = EXPIRED_CLIENT_ID)) (cid_lease_reservations cl) (cid_last_renew cl) (cb_session_list cl) in
  Ret (put_id c (Some (id_state st x)) (set_cw (put_client c cl (cw k)) k)).

(** ** Client ids *)

Definition new_clientid (k : cworld) : Z * cworld :=
  let newid := wrap_u 32 (clientid_counter k + 1) in
  (newid + Z.shiftl (Z.land nfs_ServerEpoch (2 ^ 32 - 1)) 32, set_counters newid (global_sequence k) k).

Definition create_client_id (client_record : nat) (credential : nfs_client_cred_t) (client : option Z) (k : cworld) : res (nat * cworld) :=
  let '(clientid, k) := new_clientid k in
  gsh ← deref client;
  let x := MkClid clientid [] UNCONFIRMED_CLIENT_ID credential (Some client_record) 0 (MkCreate NFS4_OK None) 0 (Some gsh) in
  let c := length (cw_ids k) in
  let w := cw k in
  let cl := MkClient false 0 (w_time w) [] in
  let w := MkWorld (w_sessions w) (w_table w) (w_clients w ++ [cl]) (w_results w) (w_fs w) (w_time w) in
  k ← inc_client_record_ref client_record (set_ids (cw_ids k ++ [Some x]) (set_cw w k));
  Ret (c, k).

Definition nfs_client_id_insert (c : nat) (k : cworld) : res (clientid_status_t * cworld) :=
  x ← get_id k c;
  match ht_unconfirmed_client_id k !! cid_clientid x with
  | Some _ => k ← free_client_id dec_client_id_ref c k; Ret (CLIENT_ID_INSERT_MALLOC_ERROR, k)
  | None =>
    k ← inc_client_id_ref c (set_unconfirmed (<[cid_clientid x := c]> (ht_unconfirmed_client_id k)) k);
    r ← deref (cid_client_record x);
    y ← get_record k r;
    Ret (CLIENT_ID_SUCCESS, put_record r (Some (rec_unconfirmed (Some c) y)) k)
  end.

Definition remove_confirmed_client_id (c : nat) (k : cworld) : res cworld :=
  x ← get_id k c;
  match ht_confirmed_client_id k !! cid_clientid x with
  | None => Ret k
  | Some _ =>
    let k := set_confirmed (delete (cid_clientid x) (ht_confirmed_client_id k)) k in
    k ← (match cid_client_record x with
         | Some r => y ← get_record k r; Ret (put_record r (Some (rec_confirmed None y)) k)
         | None => Ret k
         end);
    k ← set_state c EXPIRED_CLIENT_ID k;
    dec_client_id_ref c k
  end.

Definition remove_unconfirmed_client_id (c : nat) (k : cworld) : res cworld :=
  x ← get_id k c;
  match ht_unconfirmed_client_id k !! cid_clientid x with
  | None => Ret k
  | Some _ =>
    let k := set_unconfirmed (delete (cid_clientid x) (ht_unconfirmed_client_id k)) k in
    k ← (match cid_client_record x with
         | Some r => y ← get_record k r; Ret (put_record r (Some (rec_unconfirmed None y)) k)
         | None => Ret k
         end);
    k ← set_state c EXPIRED_CLIENT_ID k;
    dec_client_id_ref c k
  end.

Definition nfs_client_id_confirm (c : nat) (k : cworld) : res (clientid_status_t * cworld) :=
  x ← get_id k c;
  r ← deref (cid_client_record x);
  y ← get_record k r;
  let k := put_record r (Some (rec_unconfirmed None y)) k in
  match ht_unconfirmed_client_id k !! cid_clientid x with
  | None => Ret (CLIENT_ID_INVALID_ARGUMENT, k)
  | Some old =>
    k ← set_state c CONFIRMED_CLIENT_ID (set_unconfirmed (delete (cid_clientid x) (ht_unconfirmed_client_id k)) k);
    match ht_confirmed_client_id k !! cid_clientid x with
    | Some _ =>
      k ← set_state c EXPIRED_CLIENT_ID k;
      k ← dec_client_id_ref c k;
      Ret (CLIENT_ID_INSERT_MALLOC_ERROR, k)
    | None =>
      let k := set_confirmed (<[cid_clientid x := old]> (ht_confirmed_client_id k)) k in
      y ← get_record k r;
      let k := put_record r (Some (rec_confirmed (Some c) y)) k in
      Ret (CLIENT_ID_SUCCESS, set_cw (set_fs (nfs4_add_clid (cid_clientid x) (w_fs (cw k))) (cw k)) k)
    end
  end.
End records.

(** ** Expiry and lookup *)

Section expiry.
Context `{Nfs4Clients}.

(** The record forgets a client id that is taken out of it. *)
Definition forget_client (c : nat) (y : nfs_client_record_t) : nfs_client_record_t :=
  let y := if bool_decide (cr_confirmed_rec y = Some c) then rec_confirmed None y else y in
  if bool_decide (cr_unconfirmed_rec y = Some c) then rec_unconfirmed None y else y.
Definition detach_record (c r : nat) (k : cworld) : res cworld :=
  y ← get_record k r; dec_client_record_ref r (put_record r (Some (forget_client c y)) k).

(** The client id [c], which is [x], leaves its record and gets its new state. *)
Definition expire_state (c : nat) (x : nfs_client_id_t) (make_stale : bool) (k : cworld) : res cworld :=
  let in_confirmed := bool_decide (cid_confirmed x = CONFIRMED_CLIENT_ID) || bool_decide (cid_confirmed x = STALE_CLIENT_ID) in
  let k := put_id c (Some (id_unlink x)) k in
  k ← (match cid_client_record x with Some r => detach_record c r k | None => Ret k end);
  if make_stale then set_state c STALE_CLIENT_ID k
  else
    k ← set_state c EXPIRED_CLIENT_ID k;
    let ht := if in_confirmed then ht_confirmed_client_id k else ht_unconfirmed_client_id k in
    match ht !! cid_clientid x with
    | None => Crash
    | Some _ =>
      Ret (if in_confirmed then set_confirmed (delete (cid_clientid x) (ht_confirmed_client_id k)) k
           else set_unconfirmed (delete (cid_clientid x) (ht_unconfirmed_client_id k)) k)
    end.

Definition nfs_client_id_expire (c : nat) (make_stale : bool) (k : cworld) : res (bool * cworld) :=
  x ← get_id k c;
  if bool_decide (cid_confirmed x = EXPIRED_CLIENT_ID) then Ret (false, k)
  else
    k ← expire_state c x make_stale k;
    let k := set_cw (set_fs (release_client_states (cid_clientid x) (w_fs (cw k))) (cw k)) k in
    cl ← get_client (cw k) c;
    k ← del_sessions dec_client_id_ref (cb_session_list cl) k;
    k ← (if make_stale then Ret k
         else dec_client_id_ref c (set_cw (set_fs (nfs4_rm_clid (cid_clientid x) (w_fs (cw k))) (cw k)) k));
    Ret (true, k).

Definition nfs_client_id_get (confirmed : bool) (clientid : Z) (k : cworld) : res (clientid_status_t * option nat * cworld) :=
  let epoch_low := Z.land nfs_ServerEpoch 0xFFFFFFFF in
  if negb (Z.shiftr clientid 32 =? epoch_low) then Ret (CLIENT_ID_STALE, None, k)
  else
    match (if confirmed then ht_confirmed_client_id k else ht_unconfirmed_client_id k) !! clientid with
    | None => Ret (CLIENT_ID_EXPIRED, None, k)
    | Some c =>
      k ← inc_client_id_ref c k;
      x ← get_id k c;
      if bool_decide (cid_confirmed x = STALE_CLIENT_ID) then k ← dec_client_id_ref c k; Ret (CLIENT_ID_STALE, None, k)
      else Ret (CLIENT_ID_SUCCESS, Some c, k)
    end.
Definition nfs_client_id_get_confirmed := nfs_client_id_get true.
Definition nfs_client_id_get_unconfirmed := nfs_client_id_get false.

(** One client id whose lease is over ([reap_hash_table]), and one whose address is taken
    away ([nfs_release_v4_clients]); the record is held meanwhile. *)
Definition holding_record (r : option nat) (f : cworld -> res cworld) (k : cworld) : res cworld :=
  match r with
  | None => f k
  | Some r => k ← inc_client_record_ref r k; k ← f k; dec_client_record_ref r k
  end.

Definition expire_held (c : nat) (make_stale : bool) (k : cworld) : res cworld :=
  x ← get_id k c;
  k ← inc_client_id_ref c k;
  k ← holding_record (cid_client_record x) (fun k => '(_, k) ← nfs_client_id_expire c make_stale k; Ret k) k;
  dec_client_id_ref c k.

Definition reap_client (c : nat) (k : cworld) : res cworld :=
  cl ← get_client (cw k) c;
  if negb (valid_lease cl (w_time (cw k)) =? 0) then Ret k else expire_held c false k.

Definition release_client (c : nat) (k : cworld) : res cworld :=
  x ← get_id k c;
  if bool_decide (cid_confirmed x = CONFIRMED_CLIENT_ID) then expire_held c true k else Ret k.
End expiry.

(** ** Operations *)

Section operations.
Context `{Nfs4Clients}.

Record EXCHANGE_ID4args := MkExchange { eia_flags : Z; co_verifier : list Z; co_ownerid : list Z }.
Record EXCHANGE_ID4resok := MkExchanged {
  eir_clientid : Z; eir_sequenceid : Z; eir_flags : Z; so_major_id : list Z; eir_server_scope : list Z }.

(** What an operation sees of its request: the data, the credential, the client's entry, and
    the address that the client connected to. *)
Record op_request := MkOpRequest { or_data : compound_data; or_credential : nfs_client_cred_t; or_client : option Z; or_raddr : Z }.

Definition BYTES_PER_XDR_UNIT : Z := 4.
Definition RNDUP (x : Z) : Z := (x + BYTES_PER_XDR_UNIT - 1) / BYTES_PER_XDR_UNIT * BYTES_PER_XDR_UNIT.
Definition SSV_PROT_INFO4_BASE_SIZE : Z := 2 * sizeof "bitmap4" + 5 * BYTES_PER_XDR_UNIT.
Definition STATE_PROTECT4_R_BASE_SIZE : Z := BYTES_PER_XDR_UNIT + sizeof "bitmap4" + SSV_PROT_INFO4_BASE_SIZE.
Definition EXCHANGE_ID_BASE_RESP_SIZE : Z :=
  BYTES_PER_XDR_UNIT + sizeof "clientid4" + 3 * BYTES_PER_XDR_UNIT + STATE_PROTECT4_R_BASE_SIZE + sizeof "uint64_t" + 3 * BYTES_PER_XDR_UNIT.
Definition cid_server_scope_suffix : list Z := [95; 78; 70; 83; 45; 71; 97; 110; 101; 115; 104; 97].

Definition exchange_flags : Z :=
  fold_right Z.lor 0 [EXCHGID4_FLAG_SUPP_MOVED_REFER; EXCHGID4_FLAG_SUPP_MOVED_MIGR; EXCHGID4_FLAG_BIND_PRINC_STATEID;
    EXCHGID4_FLAG_USE_NON_PNFS; EXCHGID4_FLAG_USE_PNFS_MDS; EXCHGID4_FLAG_USE_PNFS_DS; EXCHGID4_FLAG_UPD_CONFIRMED_REC_A].
Definition has_flag (flags flag : Z) : bool := negb (Z.land flags flag =? 0).

(** The roles of the server for a client that asked for [eia_flags]. *)
Definition pnfs_roles (eia_flags : Z) : Z :=
  let asked := Z.land eia_flags EXCHGID4_FLAG_MASK_PNFS in
  if asked =? 0 then
    let flags := if pnfs_mds then Z.lor asked EXCHGID4_FLAG_USE_PNFS_MDS else asked in
    let flags := if pnfs_ds then Z.lor flags EXCHGID4_FLAG_USE_PNFS_DS else flags in
    if negb (has_flag flags EXCHGID4_FLAG_USE_PNFS_MDS) then Z.lor flags EXCHGID4_FLAG_USE_NON_PNFS else flags
  else
    let server := if has_flag eia_flags EXCHGID4_FLAG_USE_PNFS_MDS && pnfs_mds then EXCHGID4_FLAG_USE_PNFS_MDS else 0 in
    let server := if has_flag eia_flags EXCHGID4_FLAG_USE_PNFS_DS && pnfs_ds then Z.lor server EXCHGID4_FLAG_USE_PNFS_DS else server in
    let server := if negb (has_flag server EXCHGID4_FLAG_USE_PNFS_MDS) then Z.lor server EXCHGID4_FLAG_USE_NON_PNFS else server in
    Z.land asked server.

(** The end of EXCHANGE_ID, for the client id [unconf]; one that is confirmed was held. *)
Definition exchange_ok (r unconf : nat) (confirmed : bool) (owner : list Z) (k : cworld) : res (Z * option EXCHANGE_ID4resok * cworld) :=
  x ← get_id k unconf;
  y ← get_record k r;
  let flags := if confirmed then EXCHGID4_FLAG_CONFIRMED_R else 0 in
  let ok := MkExchanged (cid_clientid x) (cid_create_session_sequence x)
              (Z.lor (Z.lor flags (cr_pnfs_flags y)) EXCHGID4_FLAG_SUPP_MOVED_REFER) owner (owner ++ cid_server_scope_suffix ++ [0]) in
  k ← (if confirmed then dec_client_id_ref unconf k else Ret k);
  Ret (NFS4_OK, Some ok, k).

(** A new unconfirmed client id, with what EXCHANGE_ID sets. *)
Definition exchange_insert (arg : EXCHANGE_ID4args) (rq : op_request) (r : nat) (k : cworld) : res (nat * clientid_status_t * cworld) :=
  '(unconf, k) ← create_client_id r (or_credential rq) (or_client rq) k;
  x ← get_id k unconf;
  let x := MkClid (cid_clientid x) (co_verifier arg) (cid_confirmed x) (cid_credential x) (cid_client_record x)
             1 (MkCreate NFS4ERR_SEQ_MISORDERED None) (cid_refcount x) (cid_gsh_client x) in
  '(rc, k) ← nfs_client_id_insert unconf (put_id unconf (Some x) k);
  Ret (unconf, rc, k).

(** It takes the place of the one that the record has. *)
Definition exchange_new (arg : EXCHANGE_ID4args) (rq : op_request) (r : nat) (owner : list Z) (k : cworld)
  : res (Z * option EXCHANGE_ID4resok * cworld) :=
  y ← get_record k r;
  k ← (match cr_unconfirmed_rec y with Some unconf => remove_unconfirmed_client_id unconf k | None => Ret k end);
  '(unconf, rc, k) ← exchange_insert arg rq r k;
  match rc with
  | CLIENT_ID_SUCCESS => exchange_ok r unconf false owner k
  | _ => Ret (clientid_error_to_nfsstat_no_expire rc, None, k)
  end.

(** The cases of RFC 5661, 18.35.4, with the record [r] of the owner. *)
Definition exchange_record (arg : EXCHANGE_ID4args) (rq : op_request) (r : nat) (owner : list Z) (k : cworld)
  : res (Z * option EXCHANGE_ID4resok * cworld) :=
  let update := has_flag (eia_flags arg) EXCHGID4_FLAG_UPD_CONFIRMED_REC_A in
  y ← get_record k r;
  match cr_confirmed_rec y with
  | None => if update then Ret (NFS4ERR_NOENT, None, k) else exchange_new arg rq r owner k
  | Some conf =>
    k ← inc_client_id_ref conf k;
    x ← get_id k conf;
    let same_cred := nfs_compare_clientcred (cid_credential x) (or_credential rq) in
    let same_verifier := bool_decide (co_verifier arg = cid_incoming_verifier x) in
    if negb update then
      if negb same_cred then
        cl ← get_client (cw k) conf;
        if (valid_lease cl (w_time (cw k)) =? 0) || negb (client_id_has_state (cid_clientid x) (w_fs (cw k))) then
          '(_, k) ← nfs_client_id_expire conf false k;
          k ← dec_client_id_ref conf k;
          exchange_new arg rq r owner k
        else k ← dec_client_id_ref conf k; Ret (NFS4ERR_CLID_INUSE, None, k)
      else if same_verifier then exchange_ok r conf true owner k
      else exchange_new arg rq r owner k
    else if same_verifier then
      if negb same_cred || bool_decide (or_client rq = None) || bool_decide (cid_gsh_client x = None)
         || negb (bool_decide (or_client rq = cid_gsh_client x)) then
        k ← dec_client_id_ref conf k; Ret (NFS4ERR_PERM, None, k)
      else exchange_ok r conf true owner k
    else k ← dec_client_id_ref conf k; Ret (NFS4ERR_NOT_SAME, None, k)
  end.

Definition nfs4_op_exchange_id (arg : EXCHANGE_ID4args) (rq : op_request) (k : cworld) : res (Z * option EXCHANGE_ID4resok * cworld) :=
  if d_minorversion (or_data rq) =? 0 then Ret (NFS4ERR_INVAL, None, k)
  else if negb (Z.land (eia_flags arg) (Z.lnot exchange_flags) =? 0) then Ret (NFS4ERR_INVAL, None, k)
  else
    match cid_server_owner with
    | None => Ret (NFS4ERR_SERVERFAULT, None, k)
    | Some owner =>
      let owner_len := Z.of_nat (length owner) in
      let scope_len := Z.of_nat (length cid_server_scope_suffix) in
      status ← check_resp_room (or_data rq) (cw k) (wrap_u 32 (EXCHANGE_ID_BASE_RESP_SIZE + RNDUP owner_len + RNDUP (owner_len + scope_len)));
      if negb (status =? NFS4_OK) then Ret (status, None, k)
      else
        '(r, k) ← get_client_record (co_ownerid arg) (pnfs_roles (eia_flags arg)) (or_raddr rq) k;
        '(st, ok, k) ← exchange_record arg rq r owner k;
        k ← dec_client_record_ref r k;
        Ret (st, ok, k)
    end.

Record CREATE_SESSION4args := MkCreateArgs {
  csa_clientid : Z; csa_sequence : Z; csa_flags : Z; csa_fore_chan_attrs : channel_attrs4; csa_back_chan_attrs : channel_attrs4; csa_cb_program : Z }.

(** Eight bytes of a number, the lowest first. *)
Definition bytes8 (n : Z) : list Z := map (fun i => Z.land (Z.shiftr n (8 * Z.of_nat i)) 255) (seq 0 8).
Definition nfs41_Build_sessionid (clientid : Z) (k : cworld) : list Z * cworld :=
  let seq := wrap_u 64 (global_sequence k + 1) in
  (bytes8 clientid ++ bytes8 seq, set_counters (clientid_counter k) seq k).

Definition attrs_too_small (a : channel_attrs4) : bool :=
  (ca_maxrequestsize a <? NFS41_MIN_REQUEST_SIZE) || (ca_maxresponsesize a <? NFS41_MIN_RESPONSE_SIZE)
  || (ca_maxoperations a <? NFS41_MIN_OPERATIONS) || (ca_maxrequests a =? 0).

Definition create_flags : Z :=
  Z.lor CREATE_SESSION4_FLAG_PERSIST (Z.lor CREATE_SESSION4_FLAG_CONN_BACK_CHAN CREATE_SESSION4_FLAG_CONN_RDMA).

Definition set_maxrequests (n : Z) (a : channel_attrs4) : channel_attrs4 :=
  MkAttrs (ca_headerpadsize a) (ca_maxrequestsize a) (ca_maxresponsesize a) (ca_maxresponsesize_cached a) (ca_maxoperations a) n.

(** The new session of the client id [found], not yet in the table; it has two references. *)
Definition new_session (arg : CREATE_SESSION4args) (xprt : sockaddr) (found : nat) (k : cworld) : res (nat * CREATE_SESSION4resok * cworld) :=
  let nb := Z.min param_nb_slots (ca_maxrequests (csa_fore_chan_attrs arg)) in
  let attrs := set_maxrequests nb (csa_fore_chan_attrs arg) in
  k ← inc_client_id_ref found k;
  cl ← get_client (cw k) found;
  let a := length (w_sessions (cw k)) in
  let '(sid, k) := nfs41_Build_sessionid (csa_clientid arg) k in
  let s := MkSession sid attrs [xprt] found false 2 nb (replicate (Z.to_nat nb) (MkSlot 0 false None)) in
  let w := put_client found (MkClient (cid_expired cl) (cid_lease_reservations cl) (cid_last_renew cl) (a :: cb_session_list cl)) (cw k) in
  let w := MkWorld (w_sessions w ++ [Some s]) (w_table w) (w_clients w) (w_results w) (w_fs w) (w_time w) in
  Ret (a, MkCreated sid (csa_sequence arg) 0 attrs (csa_back_chan_attrs arg), set_cw w k).

(** The confirmed client id of the owner, with a reference; one with another number expires. *)
Definition confirmed_client (arg : CREATE_SESSION4args) (r found : nat) (confirmed : bool) (k : cworld) : res (option nat * cworld) :=
  '(conf, k) ←
    (if confirmed then Ret (Some found, k)
     else
       y ← get_record k r;
       match cr_confirmed_rec y with
       | None => Ret (None, k)
       | Some conf => k ← inc_client_id_ref conf k; Ret (Some conf, k)
       end);
  match conf with
  | None => Ret (None, k)
  | Some conf =>
    x ← get_id k conf;
    if negb (cid_clientid x =? csa_clientid arg) then
      '(_, k) ← nfs_client_id_expire conf false k;
      k ← dec_client_id_ref conf k;
      Ret (None, k)
    else Ret (Some conf, k)
  end.

(** The client id that is confirmed in the end, whose reference is held, or the error. *)
Definition confirm_client (arg : CREATE_SESSION4args) (r found : nat) (confirmed : bool) (k : cworld)
  : res (clientid_status_t * nat * cworld) :=
  '(conf, k) ← confirmed_client arg r found confirmed k;
  match conf with
  | Some conf =>
    if confirmed then Ret (CLIENT_ID_SUCCESS, conf, k)
    else
      k ← remove_unconfirmed_client_id found k;
      k ← dec_client_id_ref found k;
      Ret (CLIENT_ID_SUCCESS, conf, k)
  | None =>
    '(rc, k) ← nfs_client_id_confirm found k;
    match rc with
    | CLIENT_ID_SUCCESS =>
      x ← get_id k found;
      Ret (CLIENT_ID_SUCCESS, found, set_cw (set_fs (nfs4_chk_clid (cid_clientid x) (w_fs (cw k))) (cw k)) k)
    | _ => Ret (rc, found, k)
    end
  end.

(** The back channel that the client asked for. *)
Definition create_channel (arg : CREATE_SESSION4args) (xprt : sockaddr) (a : nat) (ok : CREATE_SESSION4resok) (k : cworld)
  : res (CREATE_SESSION4resok * cworld) :=
  if has_flag (csa_flags arg) CREATE_SESSION4_FLAG_CONN_BACK_CHAN then
    let '(up, f) := nfs_rpc_create_chan_v41 xprt (csa_cb_program arg) (w_fs (cw k)) in
    let k := set_cw (set_fs f (cw k)) k in
    if up : bool then
      s ← get_session (cw k) a;
      let s := MkSession (session_id s) (fore_channel_attrs s) (connections s) (clientid_record s) true (refcount s) (nb_slots s) (fc_slots s) in
      Ret (MkCreated (csr_sessionid ok) (csr_sequence ok) (Z.lor (csr_flags ok) CREATE_SESSION4_FLAG_CONN_BACK_CHAN)
             (csr_fore_chan_attrs ok) (csr_back_chan_attrs ok),
           set_cw (put_session a (Some s) (cw k)) k)
    else Ret (ok, k)
  else Ret (ok, k).

(** The lease is renewed, the next number is expected, and the reply is kept. *)
Definition finish_create (arg : CREATE_SESSION4args) (xprt : sockaddr) (a conf : nat) (ok : CREATE_SESSION4resok) (k : cworld)
  : res (CREATE_SESSION4res * cworld) :=
  x ← get_id k conf;
  let n := wrap_u 32 (cid_create_session_sequence x + 1) in
  cl ← get_client (cw k) conf;
  let cl := MkClient (cid_expired cl) (cid_lease_reservations cl) (w_time (cw k)) (cb_session_list cl) in
  let k := put_id conf (Some (id_slot n (cid_create_session_slot x) x)) (set_cw (put_client conf cl (cw k)) k) in
  '(ok, k) ← create_channel arg xprt a ok k;
  let res := MkCreate NFS4_OK (Some ok) in
  x ← get_id k conf;
  Ret (res, put_id conf (Some (id_slot (cid_create_session_sequence x) res x)) k).

(** The answer to a request for which no session is made: the one that was kept, if the
    request is sent again, or an error. *)
Definition create_answer (arg : CREATE_SESSION4args) (rq : op_request) (x : nfs_client_id_t) : option CREATE_SESSION4res :=
  let fail st := Some (MkCreate st None) in
  if wrap_u 32 (csa_sequence arg + 1) =? cid_create_session_sequence x then Some (cid_create_session_slot x)
  else if negb (csa_sequence arg =? cid_create_session_sequence x) then fail NFS4ERR_SEQ_MISORDERED
  else if negb (nfs_compare_clientcred (cid_credential x) (or_credential rq)) then fail NFS4ERR_CLID_INUSE
  else if negb (Z.land (csa_flags arg) (Z.lnot create_flags) =? 0) then fail NFS4ERR_INVAL
  else if attrs_too_small (csa_fore_chan_attrs arg) || attrs_too_small (csa_back_chan_attrs arg) then fail NFS4ERR_TOOSMALL
  else None.

(** CREATE_SESSION for the client id [found]; the session that was made and the client id
    whose reference is held come back with the result. *)
Definition create_found (arg : CREATE_SESSION4args) (rq : op_request) (r found : nat) (confirmed : bool) (k : cworld)
  : res (CREATE_SESSION4res * option nat * nat * cworld) :=
  x ← get_id k found;
  match create_answer arg rq x with
  | Some res => Ret (res, None, found, k)
  | None =>
    let xprt := d_xprt (or_data rq) in
    '(a, ok, k) ← new_session arg xprt found k;
    '(set, w) ← nfs41_Session_Set a (cw k);
    let k := set_cw w k in
    if negb set then
      k ← put_session_ref dec_client_id_ref a k;
      Ret (MkCreate NFS4ERR_SERVERFAULT (Some ok), Some a, found, k)
    else
      '(rc, conf, k) ← confirm_client arg r found confirmed k;
      match rc with
      | CLIENT_ID_SUCCESS => '(res, k) ← finish_create arg xprt a conf ok k; Ret (res, Some a, conf, k)
      | _ =>
        '(_, k) ← session_del dec_client_id_ref (csr_sessionid ok) k;
        Ret (MkCreate (clientid_error_to_nfsstat_no_expire rc) (Some ok), Some a, conf, k)
      end
  end.

(** The lookups of CREATE_SESSION: first among the unconfirmed client ids. *)
Definition lookup_client (n : Z) (k : cworld) : res (clientid_status_t * option nat * bool * cworld) :=
  '(rc, unconf, k) ← nfs_client_id_get_unconfirmed n k;
  match unconf with
  | Some c => Ret (rc, Some c, false, k)
  | None => '(rc, conf, k) ← nfs_client_id_get_confirmed n k; Ret (rc, conf, true, k)
  end.

Definition nfs4_op_create_session (arg : CREATE_SESSION4args) (rq : op_request) (k : cworld) : res (CREATE_SESSION4res * cworld) :=
  if d_minorversion (or_data rq) =? 0 then Ret (MkCreate NFS4ERR_INVAL None, k)
  else
    '(rc, found, confirmed, k) ← lookup_client (csa_clientid arg) k;
    match found with
    | None => Ret (MkCreate (clientid_error_to_nfsstat_no_expire (match rc with CLIENT_ID_EXPIRED => CLIENT_ID_STALE | _ => rc end)) None, k)
    | Some found =>
      x ← get_id k found;
      r ← deref (cid_client_record x);
      k ← inc_client_record_ref r k;
      '(res, session, found, k) ← create_found arg rq r found confirmed k;
      k ← dec_client_id_ref found k;
      k ← (match session with Some a => put_session_ref dec_client_id_ref a k | None => Ret k end);
      k ← dec_client_record_ref r k;
      Ret (res, k)
    end.

(** The client id that is to be destroyed. *)
Definition destroy_lookup (clientid : Z) (k : cworld) : res (option nat * cworld) :=
  '(_, conf, k) ← nfs_client_id_get_confirmed clientid k;
  match conf with
  | Some c => Ret (Some c, k)
  | None =>
    '(_, unconf, k) ← nfs_client_id_get_unconfirmed clientid k;
    '(_, conf, k) ← nfs_client_id_get_confirmed clientid k;
    match conf with
    | Some c =>
      k ← (match unconf with Some u => dec_client_id_ref u k | None => Ret k end);
      Ret (Some c, k)
    | None => Ret (unconf, k)
    end
  end.

(** The confirmed client id of the record, if it has no sessions. *)
Definition destroy_confirmed (y : nfs_client_record_t) (k : cworld) : res (Z * cworld) :=
  match cr_confirmed_rec y with
  | None => Ret (NFS4_OK, k)
  | Some conf =>
    cl ← get_client (cw k) conf;
    match cb_session_list cl with
    | [] =>
      x ← get_id k conf;
      k ← remove_confirmed_client_id conf (set_cw (set_fs (nfs4_rm_clid (cid_clientid x) (w_fs (cw k))) (cw k)) k);
      Ret (NFS4_OK, k)
    | _ :: _ => Ret (NFS4ERR_CLIENTID_BUSY, k)
    end
  end.

Definition nfs4_op_destroy_clientid (clientid : Z) (k : cworld) : res (Z * cworld) :=
  '(found, k) ← destroy_lookup clientid k;
  match found with
  | None => Ret (NFS4ERR_STALE_CLIENTID, k)
  | Some found =>
    x ← get_id k found;
    match cid_client_record x with
    | None => Ret (NFS4ERR_STALE_CLIENTID, k)
    | Some r =>
      k ← inc_client_record_ref r k;
      y ← get_record k r;
      '(st, k) ← destroy_confirmed y k;
      k ← (match cr_unconfirmed_rec y with
           | Some unconf => if st =? NFS4_OK then remove_unconfirmed_client_id unconf k else Ret k
           | None => Ret k
           end);
      k ← dec_client_record_ref r k;
      k ← dec_client_id_ref found k;
      Ret (st, k)
    end
  end.
End operations.
