(* ===== verification/NfsClientInv.v ===== *)
(** * References to client ids and records

    Who holds what, as a list of references: to a client id, to a record. The invariant says
    that the counters agree with the references that are held, the hash tables, the live
    sessions and the links from client ids to their records; that a client id is in the table
    and in the field of its record that its state calls for; and that the sessions that can
    still be found belong to confirmed client ids. *)

From S2P Require Import Prelude NfsProto NfsSession NfsCompound NfsSessionInv NfsClient.
Local Open Scope Z_scope.

(** ** References *)

Inductive ref := KId (c : nat) | KRec (r : nat).
#[export] Instance ref_eq : EqDecision ref.
Proof. solve_decision. Defined.

Definition one (P : Prop) `{Decision P} : Z := if decide P then 1 else 0.
Definition is_ref (t u : ref) : Z := one (u = t).
Definition refs (t : ref) (U : list ref) : Z := tally (is_ref t) U.

Lemma one_nonneg (P : Prop) `{Decision P} : 0 <= one P.
Proof. unfold one. case_decide; lia. Qed.
Lemma one_true (P : Prop) `{Decision P} : P -> one P = 1.
Proof. intros. unfold one. by rewrite decide_True. Qed.
Lemma one_false (P : Prop) `{Decision P} : ~ P -> one P = 0.
Proof. intros. unfold one. by rewrite decide_False. Qed.
Lemma one_iff (P Q : Prop) `{Decision P, Decision Q} : (P <-> Q) -> one P = one Q.
Proof. intros. unfold one. repeat case_decide; tauto. Qed.
Lemma refs_nonneg t U : 0 <= refs t U.
Proof. apply tally_nonneg. intros u. apply one_nonneg. Qed.
Lemma refs_cons t u U : refs t (u :: U) = is_ref t u + refs t U.
Proof. done. Qed.
Lemma is_ref_same t : is_ref t t = 1.
Proof. by apply one_true. Qed.
Lemma is_ref_other t u : u <> t -> is_ref t u = 0.
Proof. intros. by apply one_false. Qed.
Lemma is_ref_nonneg t u : 0 <= is_ref t u.
Proof. apply one_nonneg. Qed.

(** Counts of explicit lists of references. *)
Ltac ref_step :=
  match goal with
  | |- context [is_ref ?t ?t] => rewrite (is_ref_same t)
  | H : context [is_ref ?t ?t] |- _ => rewrite (is_ref_same t) in H
  | |- context [is_ref ?t ?u] => rewrite (is_ref_other t u) by congruence
  | H : context [is_ref ?t ?u] |- _ => rewrite (is_ref_other t u) in H by congruence
  end.
Ltac refcounts := rewrite ?refs_cons in *; repeat ref_step.

(** The memory, written out field by field. *)
Ltac flat :=
  unfold put_id, put_record, set_cw, set_ids, set_confirmed, set_unconfirmed, set_records, set_counters;
  cbn [cw cw_ids ht_confirmed_client_id ht_unconfirmed_client_id cw_records ht_client_record clientid_counter global_sequence].

(** ** The invariant *)

Section inv.
Context `{Nfs4Clients}.

Definition id_at (k : cworld) (c : nat) (x : nfs_client_id_t) : Prop := cw_ids k !! c = Some (Some x).
Definition rec_at (k : cworld) (r : nat) (y : nfs_client_record_t) : Prop := cw_records k !! r = Some (Some y).

(** The references that are in the tables, the sessions and the client ids themselves. *)
Definition in_tables (k : cworld) (c : nat) (x : nfs_client_id_t) : Z :=
  one (ht_confirmed_client_id k !! cid_clientid x = Some c) + one (ht_unconfirmed_client_id k !! cid_clientid x = Some c).
Definition session_of (c : nat) (os : option nfs41_session) : Z := match os with Some s => one (clientid_record s = c) | None => 0 end.
Definition sessions_of (w : world) (c : nat) : Z := tally (session_of c) (w_sessions w).
Definition linked_to (r : nat) (ox : option nfs_client_id_t) : Z := match ox with Some x => one (cid_client_record x = Some r) | None => 0 end.
Definition linked (k : cworld) (r : nat) : Z := tally (linked_to r) (cw_ids k).

(** Where a client id is, by its state. *)
Definition placed (k : cworld) (c : nat) (x : nfs_client_id_t) : Prop :=
  let confirmed := ht_confirmed_client_id k !! cid_clientid x = Some c in
  let unconfirmed := ht_unconfirmed_client_id k !! cid_clientid x = Some c in
  match cid_confirmed x with
  | CONFIRMED_CLIENT_ID =>
    confirmed /\ ~ unconfirmed /\ exists r y, cid_client_record x = Some r /\ rec_at k r y /\ cr_confirmed_rec y = Some c
  | UNCONFIRMED_CLIENT_ID =>
    ~ confirmed /\ unconfirmed /\ exists r y, cid_client_record x = Some r /\ rec_at k r y /\ cr_unconfirmed_rec y = Some c
  | STALE_CLIENT_ID => confirmed /\ ~ unconfirmed /\ cid_client_record x = None
  | EXPIRED_CLIENT_ID => ~ confirmed /\ ~ unconfirmed
  end.

Record id_ok (k : cworld) (c : nat) (x : nfs_client_id_t) (U : list ref) : Prop := {
  io_count : cid_refcount x = in_tables k c x + sessions_of (cw k) c + refs (KId c) U;
  io_positive : 0 < cid_refcount x;
  io_placed : placed k c x;
  io_linked : forall r, cid_client_record x = Some r -> exists y, rec_at k r y }.

Record rec_ok (k : cworld) (r : nat) (y : nfs_client_record_t) (U : list ref) : Prop := {
  ro_count : cr_refcount y = linked k r + refs (KRec r) U;
  ro_positive : 0 < cr_refcount y;
  ro_table : ht_client_record k !! record_key y = Some r;
  ro_confirmed : forall c, cr_confirmed_rec y = Some c ->
    exists x, id_at k c x /\ cid_confirmed x = CONFIRMED_CLIENT_ID /\ cid_client_record x = Some r;
  ro_unconfirmed : forall c, cr_unconfirmed_rec y = Some c ->
    exists x, id_at k c x /\ cid_confirmed x = UNCONFIRMED_CLIENT_ID /\ cid_client_record x = Some r }.

(** The sessions, each in the list of its client id, and no two with the same name. *)
Record sessions_ok (w : world) (n : Z) : Prop := {
  ss_listed : forall a s, alive w a s -> exists cl, w_clients w !! clientid_record s = Some cl /\ a ∈ cb_session_list cl;
  ss_once : forall c cl, w_clients w !! c = Some cl -> NoDup (cb_session_list cl);
  ss_distinct : forall a b s s', alive w a s -> alive w b s' -> session_id s = session_id s' -> a = b;
  ss_numbered : forall a s, alive w a s -> exists i j, session_id s = bytes8 i ++ bytes8 j /\ 0 <= j <= n;
  ss_counter : 0 <= n }.

(** No two client ids have the same number. *)
Record names_ok (ids : list (option nfs_client_id_t)) (n : Z) : Prop := {
  na_number : forall c x, ids !! c = Some (Some x) -> exists i, cid_clientid x = i + Z.shiftl (Z.land nfs_ServerEpoch (2 ^ 32 - 1)) 32 /\ 0 <= i <= n;
  na_distinct : forall b c x y, ids !! b = Some (Some x) -> ids !! c = Some (Some y) -> cid_clientid x = cid_clientid y -> b = c;
  na_counter : 0 <= n }.

(** Sessions in the table belong to confirmed client ids, those of [E] aside. *)
Definition served (k : cworld) (E : list nat) : Prop :=
  forall sid a s x, w_table (cw k) !! sid = Some a -> alive (cw k) a s -> id_at k (clientid_record s) x ->
    clientid_record s ∈ E \/ cid_confirmed x = CONFIRMED_CLIENT_ID.

Record cinv (k : cworld) (T : list token) (U : list ref) (E : list nat) : Prop := {
  ci_inv : inv (cw k) T;
  ci_length : length (cw_ids k) = length (w_clients (cw k));
  ci_id : forall c x, id_at k c x -> id_ok k c x U;
  ci_held : forall c, 0 < refs (KId c) U -> exists x, id_at k c x;
  ci_confirmed : forall n c, ht_confirmed_client_id k !! n = Some c -> exists x, id_at k c x /\ cid_clientid x = n;
  ci_unconfirmed : forall n c, ht_unconfirmed_client_id k !! n = Some c -> exists x, id_at k c x /\ cid_clientid x = n;
  ci_rec : forall r y, rec_at k r y -> rec_ok k r y U;
  ci_rec_held : forall r, 0 < refs (KRec r) U -> exists y, rec_at k r y;
  ci_rec_table : forall key r, ht_client_record k !! key = Some r -> exists y, rec_at k r y /\ record_key y = key;
  ci_client : forall a s, alive (cw k) a s -> exists x, id_at k (clientid_record s) x;
  ci_sessions : sessions_ok (cw k) (global_sequence k);
  ci_names : names_ok (cw_ids k) (clientid_counter k);
  ci_served : served k E }.

Lemma get_id_at k c x : id_at k c x -> get_id k c = Ret x.
Proof. intros E. unfold get_id. by rewrite E. Qed.
Lemma get_record_at k r y : rec_at k r y -> get_record k r = Ret y.
Proof. intros E. unfold get_record. by rewrite E. Qed.

Lemma sessions_of_nonneg w c : 0 <= sessions_of w c.
Proof. apply tally_nonneg. intros [s|]; [apply one_nonneg|done]. Qed.
Lemma linked_to_nonneg r ox : 0 <= linked_to r ox.
Proof. destruct ox; [apply one_nonneg|done]. Qed.
Lemma linked_nonneg k r : 0 <= linked k r.
Proof. apply tally_nonneg, linked_to_nonneg. Qed.
Lemma in_tables_nonneg k c x : 0 <= in_tables k c x.
Proof. unfold in_tables. pose proof (one_nonneg (ht_confirmed_client_id k !! cid_clientid x = Some c)).
  pose proof (one_nonneg (ht_unconfirmed_client_id k !! cid_clientid x = Some c)). lia. Qed.

Lemma session_counted w a s : alive w a s -> 0 < sessions_of w (clientid_record s).
Proof.
  intros Ha. unfold sessions_of. pose proof (tally_lookup (session_of (clientid_record s)) (w_sessions w) a (Some s)) as Ht.
  cbn [session_of] in Ht. rewrite one_true in Ht by done. apply Z.lt_le_trans with 1; [lia|]. apply Ht; [|done].
  intros [s'|]; [apply one_nonneg|done].
Qed.

Lemma link_counted k c x r : id_at k c x -> cid_client_record x = Some r -> 0 < linked k r.
Proof.
  intros Hc Hr. unfold linked. pose proof (tally_lookup (linked_to r) (cw_ids k) c (Some x)) as Ht.
  cbn [linked_to] in Ht. rewrite one_true in Ht by done. apply Z.lt_le_trans with 1; [lia|]. apply Ht; [|done]. apply linked_to_nonneg.
Qed.

(** The order of the references does not matter. *)
Lemma cinv_refs k T U U' E : (forall t, refs t U' = refs t U) -> cinv k T U E -> cinv k T U' E.
Proof.
  intros HU [? ? Hid Hh ? ? Hr Hrh ? ? ? ? ?]. split; try done.
  - intros c x Hc. destruct (Hid c x Hc). split; try done. by rewrite HU.
  - intros c. rewrite HU. apply Hh.
  - intros r y Hy. destruct (Hr r y Hy). split; try done. by rewrite HU.
  - intros r. rewrite HU. apply Hrh.
Qed.

Lemma cinv_swap k T U E t u : cinv k T (t :: u :: U) E -> cinv k T (u :: t :: U) E.
Proof. apply cinv_refs. intros v. rewrite !refs_cons. lia. Qed.

Lemma cinv_exempt k T U E E' : E ⊆ E' -> cinv k T U E -> cinv k T U E'.
Proof.
  intros HE [? ? ? ? ? ? ? ? ? ? ? ? Hs]. split; try done. intros sid a s x Ht Ha Hx.
  destruct (Hs sid a s x Ht Ha Hx) as [Hin|]; [left; by apply HE|by right].
Qed.
End inv.

(** ** A client id that is changed *)

Section change.
Context `{Nfs4Clients}.

(** Two records that differ at most in whether they name [c]. *)
Record rec_beside (c : nat) (y y' : nfs_client_record_t) : Prop := {
  rb_count : cr_refcount y' = cr_refcount y;
  rb_key : record_key y' = record_key y;
  rb_confirmed : forall b, b <> c -> cr_confirmed_rec y' = Some b <-> cr_confirmed_rec y = Some b;
  rb_unconfirmed : forall b, b <> c -> cr_unconfirmed_rec y' = Some b <-> cr_unconfirmed_rec y = Some b }.

(** Nothing but the client id [c] is changed, which becomes [ox]. *)
Record beside (c : nat) (ox : option nfs_client_id_t) (k k' : cworld) : Prop := {
  be_ids : cw_ids k' = <[c := ox]> (cw_ids k);
  be_confirmed : forall n b, b <> c -> ht_confirmed_client_id k' !! n = Some b <-> ht_confirmed_client_id k !! n = Some b;
  be_unconfirmed : forall n b, b <> c -> ht_unconfirmed_client_id k' !! n = Some b <-> ht_unconfirmed_client_id k !! n = Some b;
  be_rec : forall r y, rec_at k r y -> exists y', rec_at k' r y' /\ rec_beside c y y';
  be_rec_back : forall r y', rec_at k' r y' -> exists y, rec_at k r y;
  be_rec_table : ht_client_record k' = ht_client_record k;
  be_sessions : w_sessions (cw k') = w_sessions (cw k);
  be_table : w_table (cw k') = w_table (cw k);
  be_clients : forall b cl', w_clients (cw k') !! b = Some cl' ->
    exists cl, w_clients (cw k) !! b = Some cl /\ cb_session_list cl = cb_session_list cl';
  be_length : length (w_clients (cw k')) = length (w_clients (cw k));
  be_sequence : global_sequence k' = global_sequence k;
  be_counter : clientid_counter k' = clientid_counter k }.

(** What holds of the changed client id. *)
Record changed (k' : cworld) (c : nat) (ox : option nfs_client_id_t) (U : list ref) (E : list nat) : Prop := {
  ch_some : forall x, ox = Some x -> id_ok k' c x U;
  ch_none : ox = None -> sessions_of (cw k') c = 0 /\ refs (KId c) U = 0;
  ch_confirmed : forall n, ht_confirmed_client_id k' !! n = Some c -> exists x, ox = Some x /\ cid_clientid x = n;
  ch_unconfirmed : forall n, ht_unconfirmed_client_id k' !! n = Some c -> exists x, ox = Some x /\ cid_clientid x = n;
  ch_rec : forall r y, rec_at k' r y -> cr_confirmed_rec y = Some c ->
    exists x, ox = Some x /\ cid_confirmed x = CONFIRMED_CLIENT_ID /\ cid_client_record x = Some r;
  ch_rec_unconfirmed : forall r y, rec_at k' r y -> cr_unconfirmed_rec y = Some c ->
    exists x, ox = Some x /\ cid_confirmed x = UNCONFIRMED_CLIENT_ID /\ cid_client_record x = Some r;
  ch_served : c ∈ E \/ (exists x, ox = Some x /\ cid_confirmed x = CONFIRMED_CLIENT_ID)
              \/ forall sid a s, w_table (cw k') !! sid = Some a -> alive (cw k') a s -> clientid_record s <> c }.

Lemma placed_beside c ox k k' b x : beside c ox k k' -> b <> c -> placed k b x -> placed k' b x.
Proof.
  intros Hb Hn. unfold placed. pose proof (be_confirmed _ _ _ _ Hb (cid_clientid x) b Hn) as Hc.
  pose proof (be_unconfirmed _ _ _ _ Hb (cid_clientid x) b Hn) as Hu.
  destruct (cid_confirmed x); cbn zeta; try tauto; intros (? & ? & r & y & ? & Hy & ?);
    destruct (be_rec _ _ _ _ Hb r y Hy) as (y' & Hy' & [? ? Rc Ru]); (split; [tauto|]); (split; [tauto|]); exists r, y';
    split_and!; try done; by (apply Rc || apply Ru).
Qed.

Lemma in_tables_beside c ox k k' b x : beside c ox k k' -> b <> c -> in_tables k' b x = in_tables k b x.
Proof.
  intros Hb Hn. unfold in_tables. f_equal; apply one_iff; [by apply (be_confirmed _ _ _ _ Hb)|by apply (be_unconfirmed _ _ _ _ Hb)].
Qed.

Lemma sessions_ok_beside c ox k k' n : beside c ox k k' -> sessions_ok (cw k) n -> sessions_ok (cw k') n.
Proof.
  intros Hb [H1 H2 H3 H4 H5].
  assert (forall b cl, w_clients (cw k) !! b = Some cl -> exists cl', w_clients (cw k') !! b = Some cl' /\ cb_session_list cl = cb_session_list cl') as Hc.
  { intros b cl Hcl. destruct (lookup_lt_is_Some_2 (w_clients (cw k')) b) as [cl' Hcl'].
    - rewrite (be_length _ _ _ _ Hb). by eapply lookup_lt_Some.
    - exists cl'. split; [done|]. destruct (be_clients _ _ _ _ Hb b cl' Hcl') as (cl2 & ? & ?). congruence. }
  unfold alive in *. split; try rewrite (be_sessions _ _ _ _ Hb); try done.
  - unfold alive. rewrite (be_sessions _ _ _ _ Hb). intros a s Ha. destruct (H1 a s Ha) as (cl & Hcl & Hin).
    destruct (Hc _ _ Hcl) as (cl' & ? & ?). exists cl'. split; [done|congruence].
  - intros b cl' Hcl'. destruct (be_clients _ _ _ _ Hb b cl' Hcl') as (cl & ? & <-). by eapply H2.
  - intros a b s s'. unfold alive. rewrite (be_sessions _ _ _ _ Hb). apply H3.
  - intros a s. unfold alive. rewrite (be_sessions _ _ _ _ Hb). apply H4.
Qed.

Lemma names_ok_put ids n c x ox :
  names_ok ids n -> ids !! c = Some (Some x) -> (forall x', ox = Some x' -> cid_clientid x' = cid_clientid x) -> names_ok (<[c := ox]> ids) n.
Proof.
  intros [N1 N2 N3] Hx Ho.
  assert (forall b z, <[c := ox]> ids !! b = Some (Some z) -> exists z', ids !! b = Some (Some z') /\ cid_clientid z = cid_clientid z') as Hb.
  { intros b z [(<- & -> & _)|[_ Hz]]%list_lookup_insert_Some; [exists x; auto|by exists z]. }
  split; [| |done].
  - intros b z Hz. destruct (Hb b z Hz) as (z' & Hz' & ->). by apply (N1 b).
  - intros b d z y Hz Hy Hn. destruct (Hb b z Hz) as (z' & Hz' & E1), (Hb d y Hy) as (y' & Hy' & E2). apply (N2 b d z' y'); congruence.
Qed.

Lemma change_rec k k' T U U' E E' c x ox r y' :
  cinv k T U E -> id_at k c x -> beside c ox k k' ->
  (forall r, linked_to r ox + refs (KRec r) U' = linked_to r (Some x) + refs (KRec r) U) ->
  changed k' c ox U' E' -> (forall b z, b <> c -> id_at k' b z <-> id_at k b z) -> (forall z, id_at k' c z <-> ox = Some z) ->
  rec_at k' r y' -> rec_ok k' r y' U'.
Proof.
  intros Hk Hx Hb HR Hch Hids Hidc Hy'.
  destruct (be_rec_back _ _ _ _ Hb r y' Hy') as (y & Hy). destruct (be_rec _ _ _ _ Hb r y Hy) as (y2 & Hy2 & Hrb).
  assert (y2 = y') as -> by (unfold rec_at in *; congruence). destruct Hrb as [Hcnt Hkey Hcf Huc].
  destruct (ci_rec _ _ _ _ Hk r y Hy) as [Rc Rp Rt Rcf Ruc]. split.
  - assert (linked k' r = linked k r - linked_to r (Some x) + linked_to r ox) as ->
      by (unfold linked; rewrite (be_ids _ _ _ _ Hb); by apply tally_insert).
    specialize (HR r). lia.
  - lia.
  - by rewrite (be_rec_table _ _ _ _ Hb), Hkey.
  - intros b Hbc. destruct (decide (b = c)) as [->|Hn].
    + destruct (ch_rec _ _ _ _ _ Hch r y' Hy' Hbc) as (z & ? & ? & ?). exists z. split; [by apply Hidc|done].
    + apply Hcf in Hbc; [|done]. destruct (Rcf b Hbc) as (z & ? & ?). exists z. split; [by apply Hids|done].
  - intros b Hbc. destruct (decide (b = c)) as [->|Hn].
    + destruct (ch_rec_unconfirmed _ _ _ _ _ Hch r y' Hy' Hbc) as (z & ? & ? & ?). exists z. split; [by apply Hidc|done].
    + apply Huc in Hbc; [|done]. destruct (Ruc b Hbc) as (z & ? & ?). exists z. split; [by apply Hids|done].
Qed.

Lemma ids_beside c ox k k' b z : beside c ox k k' -> b <> c -> id_at k' b z <-> id_at k b z.
Proof. intros Hb Hn. unfold id_at. by rewrite (be_ids _ _ _ _ Hb), list_lookup_insert_ne. Qed.

Lemma id_changed c ox k k' x z : beside c ox k k' -> id_at k c x -> id_at k' c z <-> ox = Some z.
Proof.
  intros Hb Hx. unfold id_at. rewrite (be_ids _ _ _ _ Hb), list_lookup_insert_eq by (by eapply lookup_lt_Some).
  split; [by intros [= ->]|by intros ->].
Qed.

Lemma change_rec_held k k' T U U' E c x ox r :
  cinv k T U E -> id_at k c x -> beside c ox k k' ->
  linked_to r ox + refs (KRec r) U' = linked_to r (Some x) + refs (KRec r) U -> 0 < refs (KRec r) U' -> exists y, rec_at k' r y.
Proof.
  intros Hk Hx Hb HR Hr. assert (exists y, rec_at k r y) as (y & Hy).
  { pose proof (linked_to_nonneg r ox). destruct (decide (cid_client_record x = Some r)) as [E0|Hn].
    - by apply (io_linked _ _ _ _ (ci_id _ _ _ _ Hk c x Hx)).
    - apply (ci_rec_held _ _ _ _ Hk). cbn [linked_to] in HR. rewrite (one_false (cid_client_record x = Some r)) in HR by done. lia. }
  destruct (be_rec _ _ _ _ Hb r y Hy) as (y' & ? & _). by exists y'.
Qed.

Lemma change_id k k' T U U' E E' c x ox :
  cinv k T U E -> id_at k c x -> beside c ox k k' -> inv (cw k') T ->
  (forall b, b <> c -> refs (KId b) U' = refs (KId b) U) ->
  (forall r, linked_to r ox + refs (KRec r) U' = linked_to r (Some x) + refs (KRec r) U) ->
  (forall b, b <> c -> b ∈ E -> b ∈ E') -> (forall x', ox = Some x' -> cid_clientid x' = cid_clientid x) ->
  changed k' c ox U' E' -> cinv k' T U' E'.
Proof.
  intros Hk Hx Hb Hinv HU HR HE Hnm Hch.
  pose proof (fun b z => ids_beside c ox k k' b z Hb) as Hids. pose proof (fun z => id_changed c ox k k' x z Hb Hx) as Hidc.
  assert (forall b, sessions_of (cw k') b = sessions_of (cw k) b) as Hso by (intros b; unfold sessions_of; by rewrite (be_sessions _ _ _ _ Hb)).
  split.
  - done.
  - rewrite (be_ids _ _ _ _ Hb), length_insert, (be_length _ _ _ _ Hb). apply Hk.
  - intros b z Hz. destruct (decide (b = c)) as [->|Hn]; [by apply Hch, Hidc|]. apply Hids in Hz; [|done].
    destruct (ci_id _ _ _ _ Hk b z Hz) as [Hc ? Hp Hr]. split; [|done|by eapply placed_beside|].
    + rewrite (in_tables_beside _ _ _ _ _ _ Hb), Hso, HU by done. done.
    + intros r E0. destruct (Hr r E0) as (y & Hy). destruct (be_rec _ _ _ _ Hb r y Hy) as (y' & ? & _). by exists y'.
  - intros b Hr. destruct (decide (b = c)) as [->|Hn].
    + destruct ox as [z|]; [exists z; by apply Hidc|]. destruct (ch_none _ _ _ _ _ Hch) as [_ ?]; [done|lia].
    + rewrite HU in Hr by done. destruct (ci_held _ _ _ _ Hk b Hr) as (z & ?). exists z. by apply Hids.
  - intros n b Hn. destruct (decide (b = c)) as [->|Hne].
    + destruct (ch_confirmed _ _ _ _ _ Hch n Hn) as (z & ? & ?). exists z. split; [by apply Hidc|done].
    + apply (be_confirmed _ _ _ _ Hb) in Hn; [|done]. destruct (ci_confirmed _ _ _ _ Hk n b Hn) as (z & ? & ?). exists z. split; [by apply Hids|done].
  - intros n b Hn. destruct (decide (b = c)) as [->|Hne].
    + destruct (ch_unconfirmed _ _ _ _ _ Hch n Hn) as (z & ? & ?). exists z. split; [by apply Hidc|done].
    + apply (be_unconfirmed _ _ _ _ Hb) in Hn; [|done]. destruct (ci_unconfirmed _ _ _ _ Hk n b Hn) as (z & ? & ?). exists z. split; [by apply Hids|done].
  - intros r y'. eapply (change_rec k k' T U U' E E' c x ox); try done.
  - intros r. by eapply change_rec_held.
  - intros key r. rewrite (be_rec_table _ _ _ _ Hb). intros Ht. destruct (ci_rec_table _ _ _ _ Hk key r Ht) as (y & Hy & Hkey).
    destruct (be_rec _ _ _ _ Hb r y Hy) as (y' & ? & [? Hk' ? ?]). exists y'. split; [done|congruence].
  - intros a s. unfold alive. rewrite (be_sessions _ _ _ _ Hb). intros Ha. destruct (decide (clientid_record s = c)) as [Hc|Hn].
    + destruct ox as [z|]; [exists z; rewrite Hc; by apply Hidc|]. destruct (ch_none _ _ _ _ _ Hch) as [Hz _]; [done|].
      rewrite Hso, <- Hc in Hz. pose proof (session_counted (cw k) a s Ha). lia.
    + destruct (ci_client _ _ _ _ Hk a s Ha) as (z & ?). exists z. by apply Hids.
  - rewrite (be_sequence _ _ _ _ Hb). eapply sessions_ok_beside; [done|apply Hk].
  - rewrite (be_ids _ _ _ _ Hb), (be_counter _ _ _ _ Hb). eapply names_ok_put; [apply Hk|done|done].
  - intros sid a s z Ht Ha Hz. destruct (decide (clientid_record s = c)) as [Hc|Hn].
    + destruct (ch_served _ _ _ _ _ Hch) as [?|[(z' & E0 & ?)|Hno]]; [left; by rewrite Hc|right|by destruct (Hno sid a s Ht Ha)].
      rewrite Hc in Hz. apply Hidc in Hz. congruence.
    + apply Hids in Hz; [|done]. unfold alive in *. rewrite (be_sessions _ _ _ _ Hb) in Ha. rewrite (be_table _ _ _ _ Hb) in Ht.
      destruct (ci_served _ _ _ _ Hk sid a s z Ht Ha Hz) as [?|?]; [left; by apply HE|by right].
Qed.
End change.

(** ** References that are taken and given *)

Section touch.
Context `{Nfs4Clients}.

(** The parts of a client id that references do not change. *)
Record same_core (x x' : nfs_client_id_t) : Prop := {
  sc_clientid : cid_clientid x' = cid_clientid x;
  sc_state : cid_confirmed x' = cid_confirmed x;
  sc_record : cid_client_record x' = cid_client_record x }.

Lemma rec_beside_refl c y : rec_beside c y y.
Proof. by split. Qed.

(** The memory around a client id that is changed in place. *)
Lemma beside_put k c ox : beside c ox k (put_id c ox k).
Proof. split; try done; [intros r y Hy; by exists y; split; [|apply rec_beside_refl]|intros r y Hy; by exists y|intros b cl Hcl; by exists cl]. Qed.

Lemma touch_id k T U U' E c x x' :
  cinv k T U E -> id_at k c x -> same_core x x' ->
  cid_refcount x' - cid_refcount x = refs (KId c) U' - refs (KId c) U -> 0 < cid_refcount x' ->
  (forall t, t <> KId c -> refs t U' = refs t U) ->
  cinv (put_id c (Some x') k) T U' E.
Proof.
  intros Hk Hx [E1 E2 E3] Hc Hp HU. pose proof (ci_id _ _ _ _ Hk c x Hx) as [Ic Ip Ipl Il].
  eapply (change_id k _ T U U' E E c x (Some x')); try done; [apply beside_put|apply Hk|intros; apply HU; congruence| |by intros ? [= <-]|split].
  - intros r. cbn [linked_to]. by rewrite E3, HU.
  - intros z [= <-]. split; [|done| |by rewrite E3].
    + unfold in_tables, put_id, set_ids in *. cbn [cw ht_confirmed_client_id ht_unconfirmed_client_id]. rewrite E1. lia.
    + unfold placed in *. rewrite E1, E2, E3. exact Ipl.
  - done.
  - intros n Hn. destruct (ci_confirmed _ _ _ _ Hk n c Hn) as (z & ? & ?). exists x'. split; [done|]. unfold id_at in *. congruence.
  - intros n Hn. destruct (ci_unconfirmed _ _ _ _ Hk n c Hn) as (z & ? & ?). exists x'. split; [done|]. unfold id_at in *. congruence.
  - intros r y Hy Hr. destruct (ro_confirmed _ _ _ _ (ci_rec _ _ _ _ Hk r y Hy) c Hr) as (z & ? & ? & ?). exists x'. split; [done|]. unfold id_at in *. split; congruence.
  - intros r y Hy Hr. destruct (ro_unconfirmed _ _ _ _ (ci_rec _ _ _ _ Hk r y Hy) c Hr) as (z & ? & ? & ?). exists x'. split; [done|]. unfold id_at in *. split; congruence.
  - destruct (decide (cid_confirmed x = CONFIRMED_CLIENT_ID)) as [Hs|Hs]; [right; left; exists x'; split; congruence|].
    destruct (decide (c ∈ E)) as [|Hn]; [by left|]. right. right. intros sid a s Ht Ha Hc'.
    destruct (ci_served _ _ _ _ Hk sid a s x) as [?|?]; [done|done|by rewrite Hc'|congruence|done].
Qed.

(** Records that are changed while client ids stay. *)
Lemma change_records k T U U' E rs t :
  let k' := set_records rs t k in
  cinv k T U E -> (forall c, refs (KId c) U' = refs (KId c) U) ->
  (forall c x, id_at k c x -> placed k' c x /\ forall r, cid_client_record x = Some r -> exists y, rec_at k' r y) ->
  (forall r y, rec_at k' r y -> rec_ok k' r y U') ->
  (forall r, 0 < refs (KRec r) U' -> exists y, rec_at k' r y) ->
  (forall key r, t !! key = Some r -> exists y, rec_at k' r y /\ record_key y = key) ->
  cinv k' T U' E.
Proof.
  intros k' [? ? Hid Hh ? ? ? ? ? ? ? ? ?] HU Hp Hr Hrh Ht. split; try done.
  - intros c x Hx. destruct (Hid c x Hx) as [Hc ? ? ?]. destruct (Hp c x Hx). split; try done. by rewrite HU.
  - intros c. rewrite HU. apply Hh.
Qed.

Definition same_fields (y y' : nfs_client_record_t) : Prop :=
  cr_confirmed_rec y' = cr_confirmed_rec y /\ cr_unconfirmed_rec y' = cr_unconfirmed_rec y /\ record_key y' = record_key y.

Lemma rec_at_put k r oy b y : (r < length (cw_records k))%nat ->
  rec_at (put_record r oy k) b y <-> (r = b /\ oy = Some y) \/ (r <> b /\ rec_at k b y).
Proof.
  intros Hl. unfold rec_at, put_record, set_records. cbn [cw_records]. destruct (decide (r = b)) as [->|Hn].
  - rewrite list_lookup_insert_eq by done. split; [intros [= ->]; by left|]. intros [[_ ->]|[? _]]; done.
  - rewrite list_lookup_insert_ne by done. split; [by right|]. intros [[? _]|[_ ?]]; done.
Qed.

(** A client id stays where it is as long as the records keep their fields. *)
Lemma placed_records k rs t c x :
  (forall r y, rec_at k r y -> cid_client_record x = Some r -> exists y', rec_at (set_records rs t k) r y' /\ same_fields y y') ->
  placed k c x -> placed (set_records rs t k) c x.
Proof.
  intros Hr. unfold placed. destruct (cid_confirmed x); try done; intros (? & ? & r & y & Hl & Hy & ?);
    destruct (Hr r y Hy Hl) as (y' & Hy' & Ec & Eu & _); (split; [done|]); (split; [done|]); exists r, y'; split_and!; congruence.
Qed.

Lemma touch_record k T U U' E r y y' :
  cinv k T U E -> rec_at k r y -> same_fields y y' ->
  cr_refcount y' - cr_refcount y = refs (KRec r) U' - refs (KRec r) U -> 0 < cr_refcount y' ->
  (forall t, t <> KRec r -> refs t U' = refs t U) ->
  cinv (put_record r (Some y') k) T U' E.
Proof.
  intros Hk Hy Hf Hc Hp HU. pose proof (lookup_lt_Some _ _ _ Hy) as Hlen. pose proof Hf as (Ec & Eu & Ek).
  assert (forall b z, rec_at k b z -> exists z', rec_at (put_record r (Some y') k) b z' /\ same_fields z z') as Hkeep.
  { intros b z Hz. destruct (decide (r = b)) as [->|Hn].
    - exists y'. split; [apply rec_at_put; [done|by left]|]. unfold rec_at in *. congruence.
    - exists z. split; [apply rec_at_put; [done|by right]|by split]. }
  apply (change_records k T U); [done|intros; apply HU; congruence| | | |].
  - intros c x Hx. destruct (ci_id _ _ _ _ Hk c x Hx) as [_ _ Hpl Hl]. split; [apply placed_records; [intros; by apply Hkeep|done]|].
    intros b Hb. destruct (Hl b Hb) as (z & Hz). destruct (Hkeep b z Hz) as (z' & ? & _). by exists z'.
  - intros b z Hz. apply rec_at_put in Hz as [[<- [= <-]]|[Hn Hz]]; [| |done].
    + destruct (ci_rec _ _ _ _ Hk r y Hy) as [Rc Rp Rt Rcf Ruc]. split; [|done|by rewrite Ek| |].
      * change (linked _ r) with (linked k r). lia.
      * rewrite Ec. apply Rcf.
      * rewrite Eu. apply Ruc.
    + destruct (ci_rec _ _ _ _ Hk b z Hz) as [Rc Rp Rt Rcf Ruc]. split; try done. rewrite HU by congruence. done.
  - intros b Hb. destruct (decide (r = b)) as [->|Hn]; [exists y'; apply rec_at_put; [done|by left]|].
    rewrite HU in Hb by congruence. destruct (ci_rec_held _ _ _ _ Hk b Hb) as (z & ?). exists z. apply rec_at_put; [done|by right].
  - intros key b Hb. destruct (ci_rec_table _ _ _ _ Hk key b Hb) as (z & Hz & <-). destruct (Hkeep b z Hz) as (z' & ? & _ & _ & ?). by exists z'.
Qed.

Lemma drop_record k T U U' E r y :
  cinv k T U E -> rec_at k r y -> linked k r = 0 -> refs (KRec r) U' = 0 ->
  (forall t, t <> KRec r -> refs t U' = refs t U) ->
  cinv (set_records (<[r := None]> (cw_records k)) (delete (record_key y) (ht_client_record k)) k) T U' E.
Proof.
  intros Hk Hy Hl Hz HU. pose proof (lookup_lt_Some _ _ _ Hy) as Hlen.
  assert (forall b z, b <> r -> rec_at k b z -> rec_at (put_record r None k) b z) as Hkeep
    by (intros b z Hn Hb; apply rec_at_put; [done|by right]).
  assert (forall c x, id_at k c x -> cid_client_record x <> Some r) as Hno
    by (intros c x Hx Hr; pose proof (link_counted k c x r Hx Hr); lia).
  apply (change_records k T U); [done|intros; apply HU; congruence| | | |].
  - intros c x Hx. destruct (ci_id _ _ _ _ Hk c x Hx) as [_ _ Hpl Hl']. specialize (Hno c x Hx). split.
    + apply placed_records; [|done]. intros b z Hz' Hb. exists z. split; [|done]. apply Hkeep; [congruence|done].
    + intros b Hb. destruct (Hl' b Hb) as (z & Hz'). exists z. apply Hkeep; [congruence|done].
  - intros b z Hz'. apply (rec_at_put k r None b z) in Hz' as [[_ [=]]|[Hn Hz']]; [|done].
    destruct (ci_rec _ _ _ _ Hk b z Hz') as [Rc Rp Rt Rcf Ruc]. split; try done; [by rewrite HU by congruence|].
    cbn [set_records ht_client_record]. rewrite lookup_delete_ne; [done|]. intros Hkey.
    pose proof (ro_table _ _ _ _ (ci_rec _ _ _ _ Hk r y Hy)) as Rr. congruence.
  - intros b Hb. assert (b <> r) as Hn by (intros ->; lia). rewrite HU in Hb by congruence.
    destruct (ci_rec_held _ _ _ _ Hk b Hb) as (z & ?). exists z. by apply Hkeep.
  - intros key b [Hn Hb]%lookup_delete_Some. destruct (ci_rec_table _ _ _ _ Hk key b Hb) as (z & Hz' & <-).
    exists z. split; [|done]. apply Hkeep; [|done]. intros ->. unfold rec_at in *. simplify_eq.
Qed.
End touch.
