(* ===== verification/NfsClientOps.v ===== *)
(** * The functions on client ids, records and their sessions

    For each function of [SAL/nfs4_clientid.c] modelled in [NfsClient]: it ends, which
    references it takes and gives, and what it leaves as it was. *)

From S2P Require Import Prelude NfsProto NfsSession NfsCompound NfsSessionInv NfsSessionOps NfsClient NfsClientInv.
Local Open Scope Z_scope.

(** ** Computations that end *)

(** [m] has a result, and [Q] holds of it. *)
Definition ends {A} (m : res A) (Q : A -> Prop) : Prop := match m with Ret a => Q a | _ => False end.

Lemma ends_bind {A B} (m : res A) (f : A -> res B) Q : ends m (fun a => ends (f a) Q) -> ends (m ≫= f) Q.
Proof. by destruct m. Qed.
Lemma ends_mono {A} (m : res A) (P Q : A -> Prop) : ends m P -> (forall a, P a -> Q a) -> ends m Q.
Proof. destruct m; cbn; auto. Qed.
Lemma ends_exists {A} (m : res A) (Q : A -> Prop) : ends m Q <-> exists a, m = Ret a /\ Q a.
Proof. destruct m; cbn; split; try done; try (intros (? & [=] & ?)); [by eexists|naive_solver]. Qed.
Lemma ends_then {A B} (m : res A) (f : A -> res B) P Q : ends m P -> (forall a, P a -> ends (f a) Q) -> ends (m ≫= f) Q.
Proof. intros Hm Hf. apply ends_bind. by eapply ends_mono. Qed.

Lemma ends_eq {A} (m : res A) (Q : A -> Prop) : ends m Q -> ends m (fun a => m = Ret a /\ Q a).
Proof. by destruct m. Qed.

(** ** What a function leaves as it was *)

Section steady.
Context `{Nfs4Clients}.

(** The client ids outside [C] keep everything but their count, if they are still there, and
    the sessions of those outside [S] can still be found; no client id or session comes to
    life again. *)
Record steady (C S : list nat) (k k' : cworld) : Prop := {
  st_length : length (cw_ids k') = length (cw_ids k);
  st_ids : forall b z', id_at k' b z' -> exists z, id_at k b z /\ (b ∉ C -> exists n, z' = id_refcount n z);
  st_table : forall sid a, w_table (cw k') !! sid = Some a -> w_table (cw k) !! sid = Some a;
  st_alive : forall a s', alive (cw k') a s' -> exists s, alive (cw k) a s /\ alike s s';
  st_kept : forall sid a s, w_table (cw k) !! sid = Some a -> alive (cw k) a s -> clientid_record s ∉ S ->
    w_table (cw k') !! sid = Some a /\ exists s', alive (cw k') a s' /\ alike s s';
  st_records : length (cw_records k') = length (cw_records k);
  st_counters : clientid_counter k' = clientid_counter k /\ global_sequence k' = global_sequence k }.

Lemma alike_refl s : alike s s.
Proof. by split. Qed.
Lemma refcount_same x : id_refcount (cid_refcount x) x = x.
Proof. by destruct x. Qed.

Lemma steady_refl C S k : steady C S k k.
Proof.
  split; try done.
  - intros b z Hz. exists z. split; [done|]. intros _. exists (cid_refcount z). by rewrite refcount_same.
  - intros a s Hs. exists s. split; [done|apply alike_refl].
  - intros sid a s Ht Ha _. split; [done|]. exists s. split; [done|apply alike_refl].
Qed.

Lemma steady_trans C S k1 k2 k3 : steady C S k1 k2 -> steady C S k2 k3 -> steady C S k1 k3.
Proof.
  intros [L1 I1 T1 A1 K1 R1 [N1 M1]] [L2 I2 T2 A2 K2 R2 [N2 M2]]. split; [congruence| |auto| | |congruence|split; congruence].
  - intros b z3 H3. destruct (I2 b z3 H3) as (z2 & H2 & E2). destruct (I1 b z2 H2) as (z1 & H1 & E1). exists z1. split; [done|].
    intros Hb. destruct (E2 Hb) as (n & ->), (E1 Hb) as (m & ->). by exists n.
  - intros a s3 H3. destruct (A2 a s3 H3) as (s2 & H2 & E2). destruct (A1 a s2 H2) as (s1 & H1 & E1). exists s1. split; [done|by eapply alike_trans].
  - intros sid a s Ht Ha Hc. destruct (K1 sid a s Ht Ha Hc) as (Ht1 & s1 & Ha1 & E1).
    destruct (K2 sid a s1 Ht1 Ha1) as (Ht2 & s2 & Ha2 & E2); [by rewrite (al_client _ _ E1)|].
    split; [done|]. exists s2. split; [done|by eapply alike_trans].
Qed.

Lemma steady_weaken C C' S S' k k' : C ⊆ C' -> S ⊆ S' -> steady C S k k' -> steady C' S' k k'.
Proof.
  intros HC HS [? I ? ? K ? ?]. split; try done.
  - intros b z Hz. destruct (I b z Hz) as (z0 & ? & Hn). exists z0. split; [done|]. intros Hb. apply Hn. intros ?. by apply Hb, HC.
  - intros sid a s Ht Ha Hn. apply K; [done..|]. intros ?. by apply Hn, HS.
Qed.

Lemma steady_nil C S k k' : steady [] [] k k' -> steady C S k k'.
Proof. apply steady_weaken; apply list_subseteq_nil. Qed.

(** Only references were taken or given. *)
Record quiet (k k' : cworld) : Prop := {
  qu_cw : cw k' = cw k;
  qu_confirmed : ht_confirmed_client_id k' = ht_confirmed_client_id k;
  qu_unconfirmed : ht_unconfirmed_client_id k' = ht_unconfirmed_client_id k;
  qu_steady : steady [] [] k k' }.

Lemma quiet_refl k : quiet k k.
Proof. split; try done. apply steady_refl. Qed.
Lemma quiet_trans k1 k2 k3 : quiet k1 k2 -> quiet k2 k3 -> quiet k1 k3.
Proof. intros [? ? ? ?] [? ? ? ?]. split; try congruence. by eapply steady_trans. Qed.

(** Ids are updated, the rest is as before. *)
Lemma steady_ids C S k k' :
  cw k' = cw k -> length (cw_ids k') = length (cw_ids k) -> length (cw_records k') = length (cw_records k) ->
  clientid_counter k' = clientid_counter k -> global_sequence k' = global_sequence k ->
  (forall b z', id_at k' b z' -> exists z, id_at k b z /\ (b ∉ C -> exists n, z' = id_refcount n z)) -> steady C S k k'.
Proof.
  intros Ec ? ? ? ? Hi. split; rewrite ?Ec; try done.
  - intros a s Hs. exists s. split; [done|apply alike_refl].
  - intros sid a s Ht Ha _. split; [done|]. exists s. split; [done|apply alike_refl].
Qed.

Lemma id_at_put k c ox b z : (c < length (cw_ids k))%nat ->
  id_at (put_id c ox k) b z <-> (c = b /\ ox = Some z) \/ (c <> b /\ id_at k b z).
Proof.
  intros Hl. unfold id_at, put_id, set_ids. cbn [cw_ids]. destruct (decide (c = b)) as [->|Hn].
  - rewrite list_lookup_insert_eq by done. split; [intros [= ->]; by left|]. intros [[_ ->]|[? _]]; done.
  - rewrite list_lookup_insert_ne by done. split; [by right|]. intros [[? _]|[_ ?]]; done.
Qed.

Lemma quiet_put_id k c x ox : id_at k c x -> (ox = None \/ exists n, ox = Some (id_refcount n x)) -> quiet k (put_id c ox k).
Proof.
  intros Hx Ho. pose proof (lookup_lt_Some _ _ _ Hx) as Hl. split; try done.
  apply steady_ids; try done; [cbn; by rewrite length_insert|]. intros b z Hz.
  apply id_at_put in Hz as [[<- ->]|[Hn Hz]]; [| |done].
  - exists x. split; [done|]. intros _. destruct Ho as [[=]|(n & [= ->])]. by exists n.
  - exists z. split; [done|]. intros _. exists (cid_refcount z). by rewrite refcount_same.
Qed.

Lemma quiet_records k rs t : length rs = length (cw_records k) -> quiet k (set_records rs t k).
Proof. intros Hl. split; try done. apply steady_ids; try done. intros b z Hz. exists z. split; [done|]. intros _. exists (cid_refcount z). by rewrite refcount_same. Qed.

(** ** References to records *)

Lemma inc_record_ends k T U E r y : cinv k T U E -> rec_at k r y ->
  ends (inc_client_record_ref r k) (fun k' => cinv k' T (KRec r :: U) E /\ quiet k k' /\ rec_at k' r (rec_refcount (cr_refcount y + 1) y)).
Proof.
  intros Hk Hy. unfold inc_client_record_ref. rewrite (get_record_at _ _ _ Hy), res_bind_ret. cbn [ends].
  pose proof (ro_positive _ _ _ _ (ci_rec _ _ _ _ Hk r y Hy)). split; [|split].
  - apply (touch_record k T U _ E r y); try done; cbn [cr_refcount rec_refcount]; [refcounts; lia|lia|]. intros t Ht. refcounts. lia.
  - apply quiet_records. by rewrite length_insert.
  - apply rec_at_put; [by eapply lookup_lt_Some|by left].
Qed.

Lemma held_record k T U E r : cinv k T (KRec r :: U) E -> exists y, rec_at k r y.
Proof. intros Hk. apply (ci_rec_held _ _ _ _ Hk). pose proof (refs_nonneg (KRec r) U). refcounts. lia. Qed.

Lemma held_id k T U E c : cinv k T (KId c :: U) E -> exists x, id_at k c x.
Proof. intros Hk. apply (ci_held _ _ _ _ Hk). pose proof (refs_nonneg (KId c) U). refcounts. lia. Qed.

Lemma dec_record_ends k T U E r : cinv k T (KRec r :: U) E ->
  ends (dec_client_record_ref r k) (fun k' => cinv k' T U E /\ quiet k k' /\ exists rs t, k' = set_records rs t k).
Proof.
  intros Hk. destruct (held_record _ _ _ _ _ Hk) as (y & Hy). pose proof (ci_rec _ _ _ _ Hk r y Hy) as [Rc Rp Rt _ _].
  pose proof (lookup_lt_Some _ _ _ Hy) as Hlen.
  unfold dec_client_record_ref. rewrite (get_record_at _ _ _ Hy), res_bind_ret. cbn zeta.
  destruct (Z.ltb_spec 0 (cr_refcount y - 1)) as [Hlt|Hge]; cbn [ends].
  - split; [|split; [apply quiet_records; by rewrite length_insert|by eexists _, _]].
    apply (touch_record k T (KRec r :: U) U E r y); try done; cbn [cr_refcount rec_refcount]; [refcounts; lia|].
    intros t Ht. refcounts. lia.
  - rewrite (proj2 (Z.eqb_eq _ _)) by lia. cbn [negb ends put_record set_records ht_client_record cw_records].
    rewrite bool_decide_true by done. pose proof (linked_nonneg k r). pose proof (refs_nonneg (KRec r) U). refcounts.
    rewrite list_insert_insert_eq. split; [|split; [apply (quiet_records k); by rewrite length_insert|by eexists _, _]].
    eapply (drop_record k T (KRec r :: U) U E r y); try done; [lia|lia|]. intros t Ht. refcounts. lia.
Qed.
End steady.

(** ** References to client ids *)

Section ids.
Context `{Nfs4Clients}.

Lemma inc_id_ends k T U E c x : cinv k T U E -> id_at k c x ->
  ends (inc_client_id_ref c k) (fun k' => cinv k' T (KId c :: U) E /\ quiet k k' /\ id_at k' c (id_refcount (cid_refcount x + 1) x)
    /\ cw_records k' = cw_records k).
Proof.
  intros Hk Hx. unfold inc_client_id_ref. rewrite (get_id_at _ _ _ Hx), res_bind_ret. cbn [ends].
  pose proof (io_positive _ _ _ _ (ci_id _ _ _ _ Hk c x Hx)). split; [|split; [|split; [|done]]].
  - apply (touch_id k T U _ E c x); try done; cbn [cid_refcount id_refcount]; [refcounts; lia|lia|]. intros t Ht. refcounts. lia.
  - eapply quiet_put_id; [done|right; by eexists].
  - apply id_at_put; [by eapply lookup_lt_Some|by left].
Qed.

(** The records of [k], and the rest of [k0]. *)
Definition with_records (k0 k : cworld) : cworld := set_records (cw_records k) (ht_client_record k) k0.

Lemma dec_record_frame k0 k r :
  dec_client_record_ref r (with_records k0 k) = (k' ← dec_client_record_ref r k; Ret (with_records k0 k')).
Proof.
  unfold dec_client_record_ref, get_record. cbn [with_records set_records cw_records].
  destruct (cw_records k !! r) as [[y|]|]; [|done|done]. rewrite !res_bind_ret. cbn zeta.
  destruct (0 <? cr_refcount y - 1); [done|]. destruct (cr_refcount y - 1 =? 0); done.
Qed.

(** A client id that nobody refers to is freed: its link to a record becomes a reference. *)
Definition link_refs (x : nfs_client_id_t) : list ref := match cid_client_record x with Some r => [KRec r] | None => [] end.

Lemma link_refs_count x r : refs (KRec r) (link_refs x) = linked_to r (Some x).
Proof.
  unfold link_refs. cbn [linked_to]. destruct (cid_client_record x) as [b|]; [|by rewrite one_false].
  refcounts. cbn. unfold is_ref. rewrite Z.add_0_r. apply one_iff. split; congruence.
Qed.
Lemma link_refs_id x c : refs (KId c) (link_refs x) = 0.
Proof. unfold link_refs. by destruct (cid_client_record x). Qed.
Lemma refs_app t U V : refs t (U ++ V) = refs t U + refs t V.
Proof. apply tally_app. Qed.

Lemma in_tables_expired k c x : cid_confirmed x = EXPIRED_CLIENT_ID -> placed k c x -> in_tables k c x = 0.
Proof. intros Hs. unfold placed, in_tables. rewrite Hs. intros [? ?]. by rewrite !one_false. Qed.

Lemma in_tables_live k c x : cid_confirmed x <> EXPIRED_CLIENT_ID -> placed k c x -> in_tables k c x = 1.
Proof.
  unfold placed, in_tables. intros Hs. destruct (cid_confirmed x); intros (? & ? & ?) || done; [rewrite one_true, one_false by done|rewrite one_false, one_true by done|rewrite one_true, one_false by done]; done.
Qed.

Lemma drop_id k T U E c x :
  cinv k T (KId c :: U) E -> id_at k c x -> cid_refcount x - 1 = 0 -> cid_confirmed x = EXPIRED_CLIENT_ID ->
  cinv (put_id c None k) T (link_refs x ++ U) E /\ sessions_of (cw k) c = 0.
Proof.
  intros Hk Hx Hc Hs. pose proof (ci_id _ _ _ _ Hk c x Hx) as [Ic Ip Ipl Il].
  rewrite (in_tables_expired k c x Hs Ipl) in Ic. pose proof (sessions_of_nonneg (cw k) c). pose proof (refs_nonneg (KId c) U).
  refcounts. assert (sessions_of (cw k) c = 0) as Hz by lia. split; [|done].
  unfold placed in Ipl. rewrite Hs in Ipl. destruct Ipl as [Nc Nu].
  eapply (change_id k _ T (KId c :: U) _ E E c x None); try done; [apply beside_put|apply Hk| | |split].
  - intros b Hb. rewrite refs_app, link_refs_id. refcounts. lia.
  - intros r. rewrite refs_app, link_refs_count. refcounts. cbn [linked_to]. lia.
  - done.
  - intros _. split; [done|]. rewrite refs_app, link_refs_id. lia.
  - intros n Hn. destruct (ci_confirmed _ _ _ _ Hk n c Hn) as (z & ? & ?). unfold id_at in *. by simplify_eq.
  - intros n Hn. destruct (ci_unconfirmed _ _ _ _ Hk n c Hn) as (z & ? & ?). unfold id_at in *. by simplify_eq.
  - intros r y Hy Hr. destruct (ro_confirmed _ _ _ _ (ci_rec _ _ _ _ Hk r y Hy) c Hr) as (z & ? & ? & ?). unfold id_at in *. simplify_eq; congruence.
  - intros r y Hy Hr. destruct (ro_unconfirmed _ _ _ _ (ci_rec _ _ _ _ Hk r y Hy) c Hr) as (z & ? & ? & ?). unfold id_at in *. simplify_eq; congruence.
  - right. right. intros sid a s _ Ha Hr. pose proof (session_counted _ _ _ Ha) as Hp. rewrite Hr in Hp. change (0 < sessions_of (cw k) c) in Hp. lia.
Qed.

(** A client id without sessions has an empty list of them. *)
Lemma no_sessions k T U E c : cinv k T U E -> sessions_of (cw k) c = 0 -> (c < length (w_clients (cw k)))%nat ->
  exists cl, get_client (cw k) c = Ret cl /\ cb_session_list cl = [].
Proof.
  intros Hk Hz Hl. apply lookup_lt_is_Some in Hl as [cl Hcl]. exists cl. unfold get_client. rewrite Hcl. split; [done|].
  pose proof (in_client _ _ (ci_inv _ _ _ _ Hk) c) as Hc. rewrite Hcl in Hc. destruct Hc as [_ Hc].
  destruct (cb_session_list cl) as [|a l]; [done|]. destruct (Hc a) as (s & Ha & <-); [apply list_elem_of_here|].
  pose proof (session_counted _ _ _ Ha). lia.
Qed.

Lemma free_id_ends dec_id k k0 T U E c x :
  cinv (put_id c None k) T (link_refs x ++ U) E -> id_at k0 c x -> cid_refcount x = 0 ->
  cw_records k0 = cw_records k -> ht_client_record k0 = ht_client_record k -> put_id c None k0 = put_id c None k ->
  sessions_of (cw k) c = 0 -> (c < length (w_clients (cw k)))%nat ->
  ends (free_client_id dec_id c k0) (fun k' => cinv k' T U E /\ quiet (put_id c None k) k').
Proof.
  intros Hk Hx Hc Er Et Ep Hz Hl. unfold free_client_id. rewrite (get_id_at _ _ _ Hx), res_bind_ret, Hc. cbn [negb Z.eqb].
  assert (cw k0 = cw k) as Ew by (by injection Ep).
  assert (forall k', cw k' = cw k -> (cl ← get_client (cw k') c; k' ← del_sessions dec_id (cb_session_list cl) k'; Ret (put_id c None k')) = Ret (put_id c None k')) as Hend.
  { intros k' Ek. rewrite Ek. destruct (no_sessions _ _ _ _ c Hk) as (cl & Hcl & Hnil); [done..|]. cbn [put_id set_ids cw] in Hcl.
    rewrite Hcl, res_bind_ret, Hnil. done. }
  unfold link_refs in Hk. destruct (cid_client_record x) as [r|].
  - pose proof (dec_record_ends _ _ _ _ _ Hk) as Hd. apply ends_exists in Hd as (k1 & Hd & Hk1 & Hq & rs & t & ->).
    assert (dec_client_record_ref r k0 = Ret (set_records rs t k0)) as ->.
    { replace k0 with (with_records k0 (put_id c None k)) at 1 by (unfold with_records, set_records; cbn; rewrite <- Er, <- Et; by destruct k0).
      rewrite dec_record_frame, Hd. done. }
    rewrite res_bind_ret, Hend by (cbn; done). cbn [ends].
    replace (put_id c None (set_records rs t k0)) with (set_records rs t (put_id c None k)); [done|]. by rewrite <- Ep.
  - rewrite res_bind_ret, Hend by done. cbn [ends]. rewrite Ep. split; [done|apply quiet_refl].
Qed.

Lemma dec_id_ends k T U E c : cinv k T (KId c :: U) E -> ends (dec_client_id_ref c k) (fun k' => cinv k' T U E /\ quiet k k').
Proof.
  intros Hk. destruct (held_id _ _ _ _ _ Hk) as (x & Hx). pose proof (ci_id _ _ _ _ Hk c x Hx) as [Ic Ip Ipl Il].
  pose proof (lookup_lt_Some _ _ _ Hx) as Hlen. unfold dec_client_id_ref. cbn [dec_client_id_ref_n].
  rewrite (get_id_at _ _ _ Hx), res_bind_ret. cbn zeta. destruct (Z.ltb_spec 0 (cid_refcount x - 1)) as [Hlt|Hge]; cbn [ends].
  - split; [|eapply quiet_put_id; [done|right; by eexists]].
    apply (touch_id k T (KId c :: U) U E c x); try done; cbn [cid_refcount id_refcount]; [refcounts; lia|]. intros t Ht. refcounts. lia.
  - destruct (decide (cid_confirmed x = EXPIRED_CLIENT_ID)) as [Hs|Hn].
    + rewrite bool_decide_true by done. destruct (drop_id k T U E c x Hk Hx) as [Hd Hz]; [lia|done|].
      eapply ends_mono; [eapply (free_id_ends _ k _ T U E c (id_refcount (cid_refcount x - 1) x)); try done|].
      * apply id_at_put; [done|by left].
      * cbn. lia.
      * unfold put_id, set_ids. cbn. by rewrite list_insert_insert_eq.
      * by rewrite <- (ci_length _ _ _ _ Hk).
      * intros k' [? ?]. split; [done|]. eapply quiet_trans; [|done]. eapply quiet_put_id; [done|by left].
    + exfalso. rewrite (in_tables_live k c x Hn Ipl) in Ic. pose proof (sessions_of_nonneg (cw k) c). pose proof (refs_nonneg (KId c) U).
      refcounts. lia.
Qed.
End ids.
