(* ===== verification/NfsClientSessions.v ===== *)
(** * Sessions and their client ids

    A session has a reference to its client id from [nfs4_op_create_session] until its own
    last reference is given back: how the functions on sessions act on client ids. *)

From S2P Require Import Prelude NfsProto NfsSession NfsCompound NfsSessionInv NfsSessionOps NfsClient NfsClientInv NfsClientOps.
Local Open Scope Z_scope.

Section world.
Context `{Nfs4Clients}.

Lemma session_exists w c : 0 < sessions_of w c -> exists a s, alive w a s /\ clientid_record s = c.
Proof.
  unfold sessions_of, alive. induction (w_sessions w) as [|os l IH]; cbn [tally]; [lia|]. intros Hp.
  destruct os as [s|]; cbn [session_of] in Hp.
  - destruct (decide (clientid_record s = c)) as [Hc|Hn]; [by exists 0%nat, s|]. rewrite one_false in Hp by done.
    destruct IH as (a & s' & ? & ?); [lia|]. by exists (S a), s'.
  - destruct IH as (a & s' & ? & ?); [lia|]. by exists (S a), s'.
Qed.

(** The memory of the sessions is changed, with the references of sessions to client ids. *)
Lemma change_world k T T' U U' E E' w n :
  let k' := set_counters (clientid_counter k) n (set_cw w k) in
  cinv k T U E -> inv w T' -> length (w_clients w) = length (w_clients (cw k)) ->
  (forall c, sessions_of w c + refs (KId c) U' = sessions_of (cw k) c + refs (KId c) U) ->
  (forall r, refs (KRec r) U' = refs (KRec r) U) ->
  (forall a s, alive w a s -> exists x, id_at k (clientid_record s) x) ->
  sessions_ok w n -> served k' E' -> cinv k' T' U' E'.
Proof.
  intros k' [? Hlen Hid Hh ? ? Hr Hrh ? Hcl ? ? ?] Hw Hl HU HR Ha Hs He. split; try done.
  - cbn. congruence.
  - intros c x Hx. destruct (Hid c x Hx) as [Hc ? ? ?]. split; try done.
    change (in_tables k' c x) with (in_tables k c x). change (cw k') with w. specialize (HU c). lia.
  - intros c Hp. destruct (decide (0 < refs (KId c) U)) as [Hu|Hu]; [by apply Hh|].
    destruct (session_exists (cw k) c) as (a & s & Hs' & <-); [|by apply (Hcl a)]. specialize (HU c).
    pose proof (sessions_of_nonneg w c). lia.
  - intros r y Hy. destruct (Hr r y Hy) as [Rc ? ? ? ?]. split; try done. by rewrite HR.
  - intros r. rewrite HR. apply Hrh.
Qed.

(** Sessions that keep their names and client ids, in the lists of client ids as before. *)
Lemma sessions_ok_same w w' n :
  sessions_ok w n -> (forall a s', alive w' a s' -> exists s, alive w a s /\ alike s s') ->
  (forall c cl', w_clients w' !! c = Some cl' -> exists cl, w_clients w !! c = Some cl /\ cb_session_list cl' = cb_session_list cl) ->
  length (w_clients w') = length (w_clients w) -> sessions_ok w' n.
Proof.
  intros [S1 S2 S3 S4 S5] Ha Hc Hl. split; [| | | |done].
  - intros a s' Hs'. destruct (Ha a s' Hs') as (s & Hs & Al). destruct (S1 a s Hs) as (cl & Hcl & Hin). rewrite (al_client _ _ Al).
    destruct (lookup_lt_is_Some_2 (w_clients w') (clientid_record s)) as [cl' Hcl']; [rewrite Hl; by eapply lookup_lt_Some|].
    exists cl'. split; [done|]. destruct (Hc _ cl' Hcl') as (cl2 & ? & ->). congruence.
  - intros c cl' Hcl'. destruct (Hc c cl' Hcl') as (cl & Hcl & ->). by eapply S2.
  - intros a b s s' Hs Hs' Hid. destruct (Ha a s Hs) as (s1 & ? & A1), (Ha b s' Hs') as (s2 & ? & A2).
    apply (S3 a b s1 s2); [done..|]. by rewrite <- (al_id _ _ A1), <- (al_id _ _ A2).
  - intros a s Hs. destruct (Ha a s Hs) as (s1 & ? & A1). rewrite (al_id _ _ A1). by eapply S4.
Qed.

Lemma sessions_of_put w a s os c : alive w a s ->
  sessions_of (put_session a os w) c = sessions_of w c - session_of c (Some s) + session_of c os.
Proof. intros Ha. unfold sessions_of, put_session. cbn [w_sessions]. by rewrite (tally_insert _ _ _ _ _ Ha). Qed.

Lemma sessions_of_alike w a s s' c : alive w a s -> alike s s' -> sessions_of (put_session a (Some s') w) c = sessions_of w c.
Proof. intros Ha Al. rewrite (sessions_of_put w a s) by done. cbn [session_of]. rewrite (al_client _ _ Al). lia. Qed.

(** Who holds the mutex of a slot holds its session. *)
Definition locks_held (T : list token) : Prop := forall a i, 0 < cnt (TLock (a, i)) T -> 0 < cnt (TSession a) T.
Lemma inv_locks_held w T : inv w T -> locks_held T.
Proof. intros Hi a i Hc. by apply (si_locked _ _ (in_sess _ _ Hi) a i). Qed.

(** A session that is changed in place. *)
Lemma put_session_cinv k T T' U E a s s' :
  cinv k T U E -> alive (cw k) a s -> alike s s' -> inv (put_session a (Some s') (cw k)) T' ->
  cinv (set_cw (put_session a (Some s') (cw k)) k) T' U E /\ steady [] [] k (set_cw (put_session a (Some s') (cw k)) k).
Proof.
  intros Hk Ha Al Hi. set (w := put_session a (Some s') (cw k)) in *.
  assert (forall b sb, alive w b sb -> exists s, alive (cw k) b s /\ alike s sb) as Hback.
  { intros b sb Hb. apply alive_put in Hb as [[<- [= <-]]|[Hn Hb]]; [by exists s|exists sb; split; [done|apply alike_refl]|by eapply alive_length]. }
  split.
  - apply (change_world k T T' U U E E w (global_sequence k)); try done.
    + intros c. f_equal. by apply (sessions_of_alike (cw k) a s s').
    + intros b sb Hb. destruct (Hback b sb Hb) as (s0 & Hs0 & A0). rewrite (al_client _ _ A0). by eapply ci_client.
    + eapply sessions_ok_same; [apply Hk|done|intros c cl Hcl; by exists cl|done].
    + intros sid b sb z Ht Hb Hz. destruct (Hback b sb Hb) as (s0 & Hs0 & A0). rewrite (al_client _ _ A0) in Hz |- *. by apply (ci_served _ _ _ _ Hk sid b s0 z).
  - split; try done.
    + intros b z Hz. exists z. split; [done|]. intros _. exists (cid_refcount z). by rewrite refcount_same.
    + intros sid b sb Ht Hb _. split; [done|]. destruct (alive_kept (cw k) a s s' b sb) as (sb' & ? & ?); [done..|]. by exists sb'.
Qed.
End world.

(** ** References to sessions *)

Section release.
Context `{Nfs4Clients}.

(** The last reference to a session: its client id is referred to by the caller now. *)
Lemma last_session k T U E a s :
  cinv k (TSession a :: T) U E -> locks_held T -> alive (cw k) a s -> refcount s - 1 = 0 ->
  exists w, dec_session_ref a (cw k) = Ret w /\ cinv (set_cw w k) T (KId (clientid_record s) :: U) E /\ steady [] [] k (set_cw w k)
    /\ w_table w = w_table (cw k) /\ forall b sb, b <> a -> alive (cw k) b sb -> alive w b sb.
Proof.
  intros Hk Hl Ha Hn. pose proof (si_session _ _ (in_sess _ _ (ci_inv _ _ _ _ Hk)) a s Ha) as Hso. pose proof (so_count _ _ _ _ Hso) as Hcnt.
  destruct (last_reference [] [] (cw k) T a s) as (w & E0 & M & Et & Es & cl & Hcl & Ec); [apply Hk|apply Hl|done|done|].
  assert (forall b sb, alive w b sb <-> b <> a /\ alive (cw k) b sb) as Hal.
  { intros b sb. unfold alive. rewrite Es. destruct (decide (a = b)) as [->|Hne].
    - rewrite list_lookup_insert_eq by (by eapply alive_length). split; [done|]. by intros [? _].
    - rewrite list_lookup_insert_ne by done. split; [by split|]. by intros [_ ?]. }
  assert (forall b sb, alive w b sb -> exists s0, alive (cw k) b s0 /\ alike s0 sb) as Hback
    by (intros b sb [_ Hb]%Hal; exists sb; split; [done|apply alike_refl]).
  assert (w_table (cw k) !! session_id s <> Some a) as Hnt.
  { intros Ht. unfold table_refs in Hcnt. rewrite decide_True in Hcnt by done. pose proof (cnt_nonneg (TSession a) T). counts. lia. }
  exists w. split; [done|]. split; [|split; [|split; [done|intros; by apply Hal]]].
  - apply (change_world k (TSession a :: T) T U _ E E w (global_sequence k)); try done.
    + apply M.
    + rewrite Ec. by rewrite length_insert.
    + intros c. unfold sessions_of. rewrite Es, (tally_insert _ _ _ _ _ Ha), refs_cons. cbn [session_of].
      replace (is_ref (KId c) (KId (clientid_record s))) with (one (clientid_record s = c)); [lia|]. apply one_iff. split; congruence.
    + intros b sb Hb. destruct (Hback b sb Hb) as (s0 & Hs0 & A0). rewrite (al_client _ _ A0). by eapply ci_client.
    + destruct (ci_sessions _ _ _ _ Hk) as [S1 S2 S3 S4 S5]. split; [| |intros b b' sb sb' [_ ?]%Hal [_ ?]%Hal; by apply S3|intros b sb [_ ?]%Hal; by eapply S4|done].
      * intros b sb [Hne Hb]%Hal. destruct (S1 b sb Hb) as (clb & Hclb & Hin). rewrite Ec.
        destruct (decide (clientid_record sb = clientid_record s)) as [Heq|Hd].
        { rewrite Heq in Hclb |- *. rewrite list_lookup_insert_eq by (by eapply lookup_lt_Some). eexists. split; [done|]. cbn.
          apply list_elem_of_filter. split; [done|]. congruence. }
        { rewrite list_lookup_insert_ne by done. by exists clb. }
      * intros c clc. rewrite Ec. intros [(_ & <- & _)|[_ Hc]]%list_lookup_insert_Some; [|by eapply S2]. apply NoDup_filter. by eapply S2.
    + intros sid b sb z Ht [_ Hb]%Hal Hz. change (w_table w !! sid = Some b) in Ht. rewrite Et in Ht. by apply (ci_served _ _ _ _ Hk sid b sb z).
  - split; try done.
    + intros b z Hz. exists z. split; [done|]. intros _. exists (cid_refcount z). by rewrite refcount_same.
    + cbn. by rewrite Et.
    + intros sid b sb Ht Hb _. cbn [set_cw cw]. rewrite Et. split; [done|]. exists sb. split; [|apply alike_refl]. apply Hal. split; [|done]. intros ->.
      destruct (si_table _ _ (in_sess _ _ (ci_inv _ _ _ _ Hk)) sid a Ht) as (s1 & Hs1 & <-). unfold alive in *. simplify_eq.
Qed.

Lemma put_session_ref_ends k T U E a :
  cinv k (TSession a :: T) U E -> locks_held T ->
  ends (put_session_ref dec_client_id_ref a k) (fun k' => cinv k' T U E /\ steady [] [] k k' /\ w_table (cw k') = w_table (cw k)
    /\ forall b sb, b <> a -> alive (cw k) b sb -> alive (cw k') b sb).
Proof.
  intros Hk Hl. destruct (si_held _ _ (in_sess _ _ (ci_inv _ _ _ _ Hk)) a) as (s & Ha).
  { pose proof (cnt_nonneg (TSession a) T). counts. lia. }
  unfold put_session_ref. rewrite (get_session_alive _ _ _ Ha), res_bind_ret.
  destruct (Z.eqb_spec (refcount s - 1) 0) as [Hz|Hn].
  - destruct (last_session k T U E a s Hk Hl Ha Hz) as (w & -> & Hk1 & St & Et & Hal). rewrite res_bind_ret. cbn zeta.
    eapply ends_mono; [by apply dec_id_ends|]. intros k' (Hk2 & [Q1 Q2 Q3 Q4]). split; [done|]. split; [by eapply steady_trans|].
    rewrite Q1. split; [done|]. intros b sb Hb Hsb. by apply Hal.
  - destruct (dec_session_ref_moves [] [] (cw k) T a) as (w & E0 & M & Et); [apply Hk|apply Hl|].
    assert (w = put_session a (Some (set_refcount (refcount s - 1) s)) (cw k)) as ->.
    { unfold dec_session_ref in E0. rewrite (get_session_alive _ _ _ Ha), res_bind_ret, (proj2 (Z.eqb_neq _ _) Hn) in E0. by injection E0. }
    rewrite E0, res_bind_ret. cbn [ends]. destruct (put_session_cinv k (TSession a :: T) T U E a s (set_refcount (refcount s - 1) s)) as [Hk' St]; [done|done|by split|apply M|].
    split; [done|]. split; [done|]. split; [done|]. intros b sb Hb Hsb. apply alive_put; [by eapply alive_length|by right].
Qed.
End release.

(** ** Sessions that are deleted *)

Section delete.
Context `{Nfs4Clients}.

Lemma untable k T U E sid a s :
  cinv k T U E -> w_table (cw k) !! sid = Some a -> alive (cw k) a s ->
  let k' := set_cw (set_table (delete sid (w_table (cw k))) (cw k)) k in
  cinv k' (TSession a :: T) U E /\ steady [] [clientid_record s] k k'.
Proof.
  intros Hk Ht Ha k'. split.
  - apply (change_world k T _ U U E E _ (global_sequence k)); try done.
    + by apply untable_inv, Ht; apply Hk.
    + intros b sb Hb. by apply (ci_client _ _ _ _ Hk b).
    + eapply sessions_ok_same; [apply Hk|intros b sb Hb; by exists sb; split; [|apply alike_refl]|intros c cl Hcl; by exists cl|done].
    + intros sid' b sb z Ht' Hb Hz. cbn in Ht'. apply lookup_delete_Some in Ht' as [_ Ht']. by apply (ci_served _ _ _ _ Hk sid' b sb z).
  - split; try done.
    + intros b z Hz. exists z. split; [done|]. intros _. exists (cid_refcount z). by rewrite refcount_same.
    + intros sid' b Hb. cbn in Hb. by apply lookup_delete_Some in Hb as [_ Hb].
    + intros b sb Hb. exists sb. split; [done|apply alike_refl].
    + intros sid' b sb Ht' Hb Hn. split; [|exists sb; split; [done|apply alike_refl]]. cbn. rewrite lookup_delete_ne; [done|]. intros ->.
      apply Hn. unfold alive in *. simplify_eq. apply list_elem_of_here.
Qed.

Lemma session_del_ends k T U E sid a s :
  cinv k T U E -> w_table (cw k) !! sid = Some a -> alive (cw k) a s ->
  ends (session_del dec_client_id_ref sid k) (fun '(b, k') => b = true /\ cinv k' T U E /\ steady [] [clientid_record s] k k'
    /\ w_table (cw k') = delete sid (w_table (cw k)) /\ forall b sb, b <> a -> alive (cw k) b sb -> alive (cw k') b sb).
Proof.
  intros Hk Ht Ha. unfold session_del. rewrite Ht. destruct (untable k T U E sid a s Hk Ht Ha) as [Hk1 S1].
  eapply ends_then; [apply put_session_ref_ends; [exact Hk1|eapply inv_locks_held, Hk]|]. intros k' (Hk' & S2 & Et & Hal). cbn [ends].
  split; [done|]. split; [done|]. split; [eapply steady_trans; [done|by apply steady_nil]|]. split; [by rewrite Et|]. intros b sb Hb Hsb. by apply Hal.
Qed.

(** No session of [l] can be found. *)
Definition none_found (k : cworld) (l : list nat) : Prop := forall sid a, w_table (cw k) !! sid = Some a -> a ∉ l.

Lemma not_in_table k T U E a s : cinv k T U E -> alive (cw k) a s -> w_table (cw k) !! session_id s = None -> none_found k [a].
Proof.
  intros Hk Ha Hn sid b Hb ->%list_elem_of_singleton. destruct (si_table _ _ (in_sess _ _ (ci_inv _ _ _ _ Hk)) sid a Hb) as (s' & Hs' & <-).
  unfold alive in *. simplify_eq.
Qed.

Lemma del_sessions_ends T U E c l : forall k,
  cinv k T U E -> NoDup l -> (forall a, a ∈ l -> exists s, alive (cw k) a s /\ clientid_record s = c) ->
  ends (del_sessions dec_client_id_ref l k) (fun k' => cinv k' T U E /\ steady [] [c] k k' /\ none_found k' l).
Proof.
  induction l as [|a l IH]; intros k Hk Hnd Hl; cbn [del_sessions].
  { split; [done|]. split; [apply steady_refl|]. intros sid a _. apply not_elem_of_nil. }
  apply NoDup_cons in Hnd as [Hna Hnd]. destruct (Hl a) as (s & Ha & Hc); [apply list_elem_of_here|].
  rewrite (get_session_alive _ _ _ Ha), res_bind_ret.
  assert (ends (session_del dec_client_id_ref (session_id s) k) (fun '(_, k') => cinv k' T U E /\ steady [] [c] k k' /\ none_found k' [a]
            /\ forall b sb, b <> a -> alive (cw k) b sb -> alive (cw k') b sb)) as Hd.
  { destruct (w_table (cw k) !! session_id s) as [b|] eqn:Ht.
    - destruct (si_table _ _ (in_sess _ _ (ci_inv _ _ _ _ Hk)) _ b Ht) as (sb & Hb & Hid).
      assert (b = a) as -> by (by eapply (ss_distinct _ _ (ci_sessions _ _ _ _ Hk) b a sb s)).
      eapply ends_mono; [by apply (session_del_ends k T U E _ a s)|]. intros [r k'] (_ & Hk' & St & Et & Hal). rewrite Hc in St.
      split_and!; try done. intros sid b Hb' ->%list_elem_of_singleton. rewrite Et in Hb'. apply lookup_delete_Some in Hb' as [Hne Hb'].
      destruct (si_table _ _ (in_sess _ _ (ci_inv _ _ _ _ Hk)) sid a Hb') as (s2 & Hs2 & Hid2). unfold alive in *. simplify_eq.
    - unfold session_del. rewrite Ht. cbn [ends]. split; [done|]. split; [apply steady_refl|]. split; [by eapply not_in_table|]. auto. }
  eapply ends_then; [exact Hd|]. intros [r k1] (Hk1 & S1 & Hf & Hal). eapply ends_mono; [apply (IH k1 Hk1 Hnd)|].
  - intros b Hb. destruct (Hl b) as (sb & Hsb & Hcb); [by apply list_elem_of_further|]. exists sb. split; [|done]. apply Hal; [|done].
    by intros ->.
  - intros k2 (Hk2 & S2 & Hf2). split; [done|]. split; [by eapply steady_trans|]. intros sid b Hb [->|Hin]%elem_of_cons.
    + apply (Hf sid a); [by apply (st_table _ _ _ _ S2)|apply list_elem_of_here].
    + by apply (Hf2 sid b).
Qed.
End delete.

(** ** The states of a client id

    A client id is unconfirmed, confirmed, stale, expired: how the functions that change its
    state act on the tables, the records and the references. *)

Section states.
Context `{Nfs4Clients}.

Lemma id_unique k c x y : id_at k c x -> id_at k c y -> x = y.
Proof. unfold id_at. congruence. Qed.
Lemma rec_unique k r x y : rec_at k r x -> rec_at k r y -> x = y.
Proof. unfold rec_at. congruence. Qed.

(** No session of [c] can be found. *)
Definition unserved (k : cworld) (c : nat) : Prop :=
  forall sid a s, w_table (cw k) !! sid = Some a -> alive (cw k) a s -> clientid_record s <> c.

Lemma unserved_sessions k c : sessions_of (cw k) c = 0 -> unserved k c.
Proof. intros Hz sid a s _ Ha <-. pose proof (session_counted _ _ _ Ha). lia. Qed.

Lemma unserved_state k T U E c x : cinv k T U E -> id_at k c x -> cid_confirmed x <> CONFIRMED_CLIENT_ID -> c ∉ E -> unserved k c.
Proof. intros Hk Hx Hs Hn sid a s Ht Ha <-. by destruct (ci_served _ _ _ _ Hk sid a s x) as [?|?]. Qed.

(** A client id whose sessions cannot be found needs no exception. *)
Lemma cinv_settle k T U E c : cinv k T U (c :: E) -> unserved k c -> cinv k T U E.
Proof.
  intros [? ? ? ? ? ? ? ? ? ? ? ? Hs] Hu. split; try done. intros sid a s x Ht Ha Hx.
  destruct (Hs sid a s x Ht Ha Hx) as [[Hc|?]%elem_of_cons|?]; [by destruct (Hu sid a s Ht Ha)|by left|by right].
Qed.

(** A client id that is confirmed needs none either. *)
Lemma cinv_settle_confirmed k T U E c x : cinv k T U (c :: E) -> id_at k c x -> cid_confirmed x = CONFIRMED_CLIENT_ID -> cinv k T U E.
Proof.
  intros [? ? ? ? ? ? ? ? ? ? ? ? Hs] Hx Hst. split; try done. intros sid a s z Ht Ha Hz.
  destruct (Hs sid a s z Ht Ha Hz) as [[Hc|?]%elem_of_cons|?]; [right|by left|by right]. rewrite Hc in Hz. by rewrite (id_unique _ _ _ _ Hz Hx).
Qed.

(** A client id that expires is in no table any more, and its reference there is the caller's. *)
Lemma retire k k' T U V E E' c x x' :
  cinv k T U E -> id_at k c x -> cid_confirmed x <> EXPIRED_CLIENT_ID -> beside c (Some x') k k' -> inv (cw k') T ->
  cid_clientid x' = cid_clientid x -> cid_refcount x' = cid_refcount x -> cid_confirmed x' = EXPIRED_CLIENT_ID ->
  (cid_client_record x' = cid_client_record x \/ cid_client_record x' = None) ->
  (forall n, ht_confirmed_client_id k' !! n <> Some c) -> (forall n, ht_unconfirmed_client_id k' !! n <> Some c) ->
  (forall r y, rec_at k' r y -> cr_confirmed_rec y <> Some c /\ cr_unconfirmed_rec y <> Some c) ->
  (forall r, linked_to r (Some x') + refs (KRec r) V = linked_to r (Some x)) -> (forall b, refs (KId b) V = 0) ->
  (forall b, b <> c -> b ∈ E -> b ∈ E') -> c ∈ E' \/ unserved k' c ->
  cinv k' T (KId c :: V ++ U) E'.
Proof.
  intros Hk Hx Hs Hb Hi E1 E2 E3 E4 Nc Nu Nr HV HV' HE Hsv. pose proof (ci_id _ _ _ _ Hk c x Hx) as [Ic Ip Ipl Il].
  rewrite (in_tables_live k c x Hs Ipl) in Ic.
  eapply (change_id k k' T U _ E E' c x (Some x')); try done.
  - intros b Hn. rewrite refs_cons, refs_app, HV'. refcounts. lia.
  - intros r. rewrite refs_cons, refs_app. specialize (HV r). refcounts. lia.
  - by intros ? [= <-].
  - assert (placed k' c x') as Hpl by (unfold placed; rewrite E3; split; [apply Nc|apply Nu]). split; try done.
    + intros z [= <-]. split; [|lia|done|].
      * rewrite (in_tables_expired k' c x' E3 Hpl), refs_cons, refs_app, HV'. refcounts.
        replace (sessions_of (cw k') c) with (sessions_of (cw k) c); [lia|]. unfold sessions_of. by rewrite (be_sessions _ _ _ _ Hb).
      * intros r Hr. destruct E4 as [E4|E4]; [|congruence]. rewrite E4 in Hr. destruct (Il r Hr) as (y & Hy).
        destruct (be_rec _ _ _ _ Hb r y Hy) as (y' & ? & _). by exists y'.
    + intros n Hn. by destruct (Nc n).
    + intros n Hn. by destruct (Nu n).
    + intros r y Hy Hr. by destruct (Nr r y Hy).
    + intros r y Hy Hr. by destruct (Nr r y Hy).
    + destruct Hsv; [by left|by right; right].
Qed.

(** *** The memory after a change of state *)

Lemma set_state_eq k T U E c x st : cinv k T U E -> id_at k c x -> exists cl, w_clients (cw k) !! c = Some cl
  /\ forall k', cw k' = cw k -> forall x', id_at k' c x' -> set_state c st k'
       = Ret (put_id c (Some (id_state st x')) (set_cw (put_client c (MkClient (bool_decide (st = EXPIRED_CLIENT_ID)) (cid_lease_reservations cl)
                                                     (cid_last_renew cl) (cb_session_list cl)) (cw k)) k')).
Proof.
  intros Hk Hx. destruct (lookup_lt_is_Some_2 (w_clients (cw k)) c) as [cl Hcl].
  { rewrite <- (ci_length _ _ _ _ Hk). by eapply lookup_lt_Some. }
  exists cl. split; [done|]. intros k' Ek x' Hx'. unfold set_state. rewrite (get_id_at _ _ _ Hx'), res_bind_ret, Ek. unfold get_client. rewrite Hcl. done.
Qed.

Lemma put_client_inv w T c cl b : inv w T -> w_clients w !! c = Some cl ->
  inv (put_client c (MkClient b (cid_lease_reservations cl) (cid_last_renew cl) (cb_session_list cl)) w) T.
Proof.
  intros Hi Hcl. eapply (put_client_moves [] [] w T T); try done. cbn.
  pose proof (in_client _ _ Hi c) as Hc. rewrite Hcl in Hc. apply Hc.
Qed.

Lemma put_client_lists w c cl cl' b clb : w_clients w !! c = Some cl -> cb_session_list cl' = cb_session_list cl ->
  w_clients (put_client c cl' w) !! b = Some clb -> exists cl0, w_clients w !! b = Some cl0 /\ cb_session_list cl0 = cb_session_list clb.
Proof.
  intros Hcl El. cbn. intros [(<- & <- & _)|[_ Hb]]%list_lookup_insert_Some; [by exists cl|by exists clb].
Qed.

(** A table without the entry of [c]. *)
Lemma delete_beside (t : gmap Z nat) n c m b : t !! n = Some c -> b <> c -> delete n t !! m = Some b <-> t !! m = Some b.
Proof.
  intros Hn Hb. destruct (decide (n = m)) as [->|Hne]; [|by rewrite lookup_delete_ne].
  rewrite lookup_delete_eq. split; [done|]. congruence.
Qed.
End states.

(** *** A client id that is taken out of the tables *)

Section remove.
Context `{Nfs4Clients}.

(** The client id [c] becomes [x], with other tables and records. *)
Definition moved (c : nat) (x : nfs_client_id_t) (cl : client_id) (tc tu : gmap Z nat) (rs : list (option nfs_client_record_t)) (k : cworld) : cworld :=
  MkCw (put_client c cl (cw k)) (<[c := Some x]> (cw_ids k)) tc tu rs (ht_client_record k) (clientid_counter k) (global_sequence k).

(** Records that differ at most in whether they name [c]. *)
Definition recs_beside (c : nat) (rs rs' : list (option nfs_client_record_t)) : Prop :=
  length rs' = length rs
  /\ (forall r y, rs !! r = Some (Some y) -> exists y', rs' !! r = Some (Some y') /\ rec_beside c y y')
  /\ forall r y', rs' !! r = Some (Some y') -> exists y, rs !! r = Some (Some y).

Lemma recs_beside_refl c rs : recs_beside c rs rs.
Proof. split; [done|]. split; [intros r y Hy; exists y; by split; [|apply rec_beside_refl]|intros r y Hy; by exists y]. Qed.

Lemma recs_beside_put c rs r y y' : rs !! r = Some (Some y) -> rec_beside c y y' -> recs_beside c rs (<[r := Some y']> rs).
Proof.
  intros Hy Hb. pose proof (lookup_lt_Some _ _ _ Hy) as Hl. split; [by rewrite length_insert|]. split.
  - intros b z Hz. destruct (decide (r = b)) as [->|Hn].
    + exists y'. rewrite list_lookup_insert_eq by done. split; [done|]. congruence.
    + exists z. rewrite list_lookup_insert_ne by done. split; [done|apply rec_beside_refl].
  - intros b z [(<- & _ & _)|[_ Hz]]%list_lookup_insert_Some; [by exists y|by exists z].
Qed.

Lemma moved_beside c x cl cl0 tc tu rs k :
  w_clients (cw k) !! c = Some cl0 -> cb_session_list cl = cb_session_list cl0 -> recs_beside c (cw_records k) rs ->
  (forall n b, b <> c -> tc !! n = Some b <-> ht_confirmed_client_id k !! n = Some b) ->
  (forall n b, b <> c -> tu !! n = Some b <-> ht_unconfirmed_client_id k !! n = Some b) ->
  beside c (Some x) k (moved c x cl tc tu rs k).
Proof.
  intros Hcl El (_ & R1 & R2) Hc Hu. split; try done.
  - intros b clb. by apply put_client_lists with cl0.
  - cbn. by rewrite length_insert.
Qed.

Lemma moved_steady c x cl tc tu rs k x0 : id_at k c x0 -> length rs = length (cw_records k) -> steady [c] [] k (moved c x cl tc tu rs k).
Proof.
  intros Hx Hl. pose proof (lookup_lt_Some _ _ _ Hx) as Hlen. split; try done.
  - cbn. by rewrite length_insert.
  - intros b z Hz. apply (id_at_put k c (Some x) b z) in Hz as [[<- _]|[_ Hz]]; [| |done].
    + exists x0. split; [done|]. intros Hn. by destruct Hn; apply list_elem_of_here.
    + exists z. split; [done|]. intros _. exists (cid_refcount z). by rewrite refcount_same.
  - intros a s Ha. exists s. split; [done|apply alike_refl].
  - intros sid a s Ht Ha _. split; [done|]. exists s. split; [done|apply alike_refl].
Qed.

(** The client id is released or has expired. *)
Definition gone (c : nat) (k : cworld) : Prop := forall z, id_at k c z -> cid_confirmed z = EXPIRED_CLIENT_ID.

Lemma gone_steady C S c k k' : steady C S k k' -> c ∉ C -> gone c k -> gone c k'.
Proof. intros St Hc Hg z Hz. destruct (st_ids _ _ _ _ St c z Hz) as (z0 & Hz0 & Hn). destruct (Hn Hc) as (n & ->). exact (Hg z0 Hz0). Qed.

Lemma id_at_insert c x k z : (c < length (cw_ids k))%nat -> <[c := Some x]> (cw_ids k) !! c = Some (Some z) -> z = x.
Proof. intros Hl. rewrite list_lookup_insert_eq by done. by intros [= ->]. Qed.

(** The record of a client id forgets it. *)
Lemma clear_confirmed c y : cr_confirmed_rec y = Some c -> rec_beside c y (rec_confirmed None y).
Proof. intros Hc. split; try done. intros b Hb. cbn. rewrite Hc. split; [done|congruence]. Qed.
Lemma clear_unconfirmed c y : cr_unconfirmed_rec y = Some c -> rec_beside c y (rec_unconfirmed None y).
Proof. intros Hc. split; try done. intros b Hb. cbn. rewrite Hc. split; [done|congruence]. Qed.

(** The record that names [c] is that of [c]. *)
Lemma named_by k T U E c x r y : cinv k T U E -> id_at k c x -> rec_at k r y -> cr_confirmed_rec y = Some c \/ cr_unconfirmed_rec y = Some c ->
  cid_client_record x = Some r.
Proof.
  intros Hk Hx Hy Hn. pose proof (ci_rec _ _ _ _ Hk r y Hy) as [_ _ _ Rc Ru].
  destruct Hn as [Hn|Hn]; [destruct (Rc c Hn) as (z & Hz & _ & ?)|destruct (Ru c Hn) as (z & Hz & _ & ?)]; by rewrite (id_unique _ _ _ _ Hx Hz).
Qed.

Lemma not_named k T U E c x r y : cinv k T U E -> id_at k c x -> rec_at k r y ->
  (cid_confirmed x <> CONFIRMED_CLIENT_ID -> cr_confirmed_rec y <> Some c) /\ (cid_confirmed x <> UNCONFIRMED_CLIENT_ID -> cr_unconfirmed_rec y <> Some c).
Proof.
  intros Hk Hx Hy. pose proof (ci_rec _ _ _ _ Hk r y Hy) as [_ _ _ Rc Ru].
  split; intros Hs Hn; [destruct (Rc c Hn) as (z & Hz & Hz' & ?)|destruct (Ru c Hn) as (z & Hz & Hz' & ?)];
    rewrite (id_unique _ _ _ _ Hz Hx) in Hz'; congruence.
Qed.

Lemma rec_put_lookup k r oy b y : (r < length (cw_records k))%nat ->
  <[r := oy]> (cw_records k) !! b = Some (Some y) <-> (r = b /\ oy = Some y) \/ (r <> b /\ rec_at k b y).
Proof. apply (rec_at_put k r oy b y). Qed.

(** The entry of [c] in a table is under its number. *)
Lemma own_entry_confirmed k T U E c x n : cinv k T U E -> id_at k c x -> ht_confirmed_client_id k !! n = Some c -> n = cid_clientid x.
Proof. intros Hk Hx Hn. destruct (ci_confirmed _ _ _ _ Hk n c Hn) as (z & Hz & <-). by rewrite (id_unique _ _ _ _ Hx Hz). Qed.
Lemma own_entry_unconfirmed k T U E c x n : cinv k T U E -> id_at k c x -> ht_unconfirmed_client_id k !! n = Some c -> n = cid_clientid x.
Proof. intros Hk Hx Hn. destruct (ci_unconfirmed _ _ _ _ Hk n c Hn) as (z & Hz & <-). by rewrite (id_unique _ _ _ _ Hx Hz). Qed.

Lemma remove_confirmed_ends k T U E c x :
  cinv k T U E -> id_at k c x -> cid_confirmed x = CONFIRMED_CLIENT_ID -> sessions_of (cw k) c = 0 ->
  ends (remove_confirmed_client_id c k) (fun k' => cinv k' T U E /\ steady [c] [] k k' /\ gone c k' /\ ht_unconfirmed_client_id k' = ht_unconfirmed_client_id k).
Proof.
  intros Hk Hx Hs Hz. pose proof (ci_id _ _ _ _ Hk c x Hx) as Hok. pose proof (io_placed _ _ _ _ Hok) as Hpl. unfold placed in Hpl. rewrite Hs in Hpl.
  destruct Hpl as (Hc & Hu & r & y & Hr & Hy & Hcy). pose proof (lookup_lt_Some _ _ _ Hy) as Hlr.
  unfold remove_confirmed_client_id. rewrite (get_id_at _ _ _ Hx), res_bind_ret, Hc, Hr. cbn zeta.
  rewrite (get_record_at _ _ _ Hy : get_record (set_confirmed _ k) r = Ret y), !res_bind_ret.
  destruct (set_state_eq k T U E c x EXPIRED_CLIENT_ID Hk Hx) as (cl & Hcl & Hst).
  rewrite (Hst (put_record r (Some (rec_confirmed None y)) (set_confirmed (delete (cid_clientid x) (ht_confirmed_client_id k)) k)) eq_refl x Hx), res_bind_ret.
  rewrite bool_decide_true by done.
  eapply ends_mono; [eapply (dec_id_ends (moved c (id_state EXPIRED_CLIENT_ID x) _ (delete (cid_clientid x) (ht_confirmed_client_id k))
     (ht_unconfirmed_client_id k) (<[r := Some (rec_confirmed None y)]> (cw_records k)) k) T U E c)|].
  - eapply (retire k _ T U [] E E c x (id_state EXPIRED_CLIENT_ID x)); try done; [by rewrite Hs|eapply moved_beside; try done| |by left| | | | |].
    + by eapply recs_beside_put, clear_confirmed.
    + intros n b Hb. by apply delete_beside with c.
    + apply put_client_inv; [apply Hk|done].
    + intros n Hn. cbn in Hn. apply lookup_delete_Some in Hn as [Hne Hn]. apply Hne. symmetry. by apply (own_entry_confirmed k T U E c).
    + intros n Hn. apply Hu. by rewrite <- (own_entry_unconfirmed k T U E c x n).
    + intros b z Hz'. apply rec_put_lookup in Hz' as [[<- [= <-]]|[Hn Hb]]; [| |done].
      * split; [done|]. apply (not_named k T U E c x r y); [done..|by rewrite Hs].
      * split; [intros Hcb|apply (not_named k T U E c x b z); [done..|by rewrite Hs]].
        pose proof (named_by k T U E c x b z Hk Hx Hb (or_introl Hcb)). congruence.
    + intros b. cbn [linked_to refs tally]. cbn. lia.
    + right. by apply unserved_sessions.
  - intros k' [Hk' [_ _ Eu Hq]]. split; [done|]. split; [|split; [|by rewrite Eu]].
    + eapply steady_trans; [|by apply steady_nil]. eapply moved_steady; [done|by rewrite length_insert].
    + eapply gone_steady; [exact Hq|apply not_elem_of_nil|]. intros z Hz'. rewrite (id_at_insert c _ k z (lookup_lt_Some _ _ _ Hx) Hz'). done.
Qed.

Lemma remove_unconfirmed_ends k T U E c x :
  cinv k T U E -> id_at k c x -> cid_confirmed x = UNCONFIRMED_CLIENT_ID ->
  ends (remove_unconfirmed_client_id c k) (fun k' => cinv k' T U E /\ steady [c] [] k k' /\ gone c k').
Proof.
  intros Hk Hx Hs. pose proof (ci_id _ _ _ _ Hk c x Hx) as Hok. pose proof (io_placed _ _ _ _ Hok) as Hpl. unfold placed in Hpl. rewrite Hs in Hpl.
  destruct Hpl as (Hc & Hu & r & y & Hr & Hy & Hcy). pose proof (lookup_lt_Some _ _ _ Hy) as Hlr.
  unfold remove_unconfirmed_client_id. rewrite (get_id_at _ _ _ Hx), res_bind_ret, Hu, Hr. cbn zeta.
  rewrite (get_record_at _ _ _ Hy : get_record (set_unconfirmed _ k) r = Ret y), !res_bind_ret.
  destruct (set_state_eq k T U E c x EXPIRED_CLIENT_ID Hk Hx) as (cl & Hcl & Hst).
  rewrite (Hst (put_record r (Some (rec_unconfirmed None y)) (set_unconfirmed (delete (cid_clientid x) (ht_unconfirmed_client_id k)) k)) eq_refl x Hx), res_bind_ret.
  rewrite bool_decide_true by done.
  eapply ends_mono; [eapply (dec_id_ends (moved c (id_state EXPIRED_CLIENT_ID x) _ (ht_confirmed_client_id k)
     (delete (cid_clientid x) (ht_unconfirmed_client_id k)) (<[r := Some (rec_unconfirmed None y)]> (cw_records k)) k) T U E c)|].
  - eapply (retire k _ T U [] E E c x (id_state EXPIRED_CLIENT_ID x)); try done; [by rewrite Hs|eapply moved_beside; try done| |by left| | | | |].
    + by eapply recs_beside_put, clear_unconfirmed.
    + intros n b Hb. by apply delete_beside with c.
    + apply put_client_inv; [apply Hk|done].
    + intros n Hn. apply Hc. by rewrite <- (own_entry_confirmed k T U E c x n).
    + intros n Hn. cbn in Hn. apply lookup_delete_Some in Hn as [Hne Hn]. apply Hne. symmetry. by apply (own_entry_unconfirmed k T U E c).
    + intros b z Hz'. apply rec_put_lookup in Hz' as [[<- [= <-]]|[Hn Hb]]; [| |done].
      * split; [|done]. apply (not_named k T U E c x r y); [done..|by rewrite Hs].
      * split; [apply (not_named k T U E c x b z); [done..|by rewrite Hs]|intros Hcb].
        pose proof (named_by k T U E c x b z Hk Hx Hb (or_intror Hcb)). congruence.
    + intros b. cbn [linked_to refs tally]. cbn. lia.
    + destruct (decide (c ∈ E)); [by left|right]. apply (unserved_state k T U E c x); [done|done|by rewrite Hs|done].
  - intros k' [Hk' [_ _ _ Hq]]. split; [done|]. split.
    + eapply steady_trans; [|by apply steady_nil]. eapply moved_steady; [done|by rewrite length_insert].
    + eapply gone_steady; [exact Hq|apply not_elem_of_nil|]. intros z Hz'. rewrite (id_at_insert c _ k z (lookup_lt_Some _ _ _ Hx) Hz'). done.
Qed.
End remove.
