(* ===== verification/NfsClientExpire.v ===== *)
(** * Client ids that expire, and client ids that are looked up

    [nfs_client_id_expire] and the functions that call it, and the lookups by number. *)

From S2P Require Import Prelude NfsProto NfsSession NfsCompound NfsSessionInv NfsSessionOps NfsClient NfsClientInv NfsClientOps.
From S2P Require Import NfsClientSessions.
Local Open Scope Z_scope.

Section detach.
Context `{Nfs4Clients}.

Definition detached (c : nat) (x : nfs_client_id_t) (rs : list (option nfs_client_record_t)) : list (option nfs_client_record_t) :=
  match cid_client_record x with
  | Some r => match rs !! r with Some (Some y) => <[r := Some (forget_client c y)]> rs | _ => rs end
  | None => rs
  end.

Lemma forget_beside c y : rec_beside c y (forget_client c y).
Proof.
  unfold forget_client. repeat case_bool_decide; split; try done; intros b Hb; cbn in *; split; congruence.
Qed.

Lemma forget_names c y : cr_confirmed_rec (forget_client c y) <> Some c /\ cr_unconfirmed_rec (forget_client c y) <> Some c.
Proof. unfold forget_client. repeat case_bool_decide; done. Qed.

Lemma detached_spec k T U E c x : cinv k T U E -> id_at k c x ->
  recs_beside c (cw_records k) (detached c x (cw_records k))
  /\ forall r y, detached c x (cw_records k) !! r = Some (Some y) -> cr_confirmed_rec y <> Some c /\ cr_unconfirmed_rec y <> Some c.
Proof.
  intros Hk Hx.
  assert (forall b z, cid_client_record x <> Some b -> rec_at k b z -> cr_confirmed_rec z <> Some c /\ cr_unconfirmed_rec z <> Some c) as Hno.
  { intros b z Hb Hz. split; intros Hn; apply Hb; apply (named_by k T U E c x b z); auto. }
  unfold detached. destruct (cid_client_record x) as [r|] eqn:Hr.
  - destruct (io_linked _ _ _ _ (ci_id _ _ _ _ Hk c x Hx) r Hr) as (y & Hy). unfold rec_at in Hy. rewrite !Hy. split; [eapply recs_beside_put; [done|apply forget_beside]|].
    intros b z Hz. apply rec_put_lookup in Hz as [[<- [= <-]]|[Hn Hz]]; [apply forget_names|apply (Hno b); [congruence|done]|by eapply lookup_lt_Some].
  - split; [apply recs_beside_refl|]. intros b z Hz. by apply (Hno b).
Qed.

Lemma detach_ends km T V E c x k1 :
  cinv km T (link_refs x ++ V) E -> cw_records km = detached c x (cw_records k1) -> ht_client_record km = ht_client_record k1 ->
  (forall r, cid_client_record x = Some r -> exists y, rec_at k1 r y) ->
  exists rs t, (match cid_client_record x with Some r => detach_record c r k1 | None => Ret k1 end) = Ret (set_records rs t k1)
    /\ cinv (set_records rs t km) T V E /\ quiet km (set_records rs t km).
Proof.
  intros Hk Er Et Hl. unfold link_refs, detached in *. destruct (cid_client_record x) as [r|].
  - destruct (Hl r eq_refl) as (y & Hy). rewrite Hy in Er. unfold detach_record. rewrite (get_record_at _ _ _ Hy), res_bind_ret.
    replace (put_record r _ k1) with (with_records k1 km) by (unfold with_records; by rewrite Er, Et). rewrite dec_record_frame.
    pose proof (dec_record_ends _ _ _ _ _ Hk) as Hd. apply ends_exists in Hd as (k' & -> & Hk' & Hq & rs & t & ->). by exists rs, t.
  - exists (cw_records km), (ht_client_record km). rewrite Er at 1. rewrite Et at 1. split; [by destruct k1|].
    replace (set_records _ _ km) with km by (by destruct km). split; [done|apply quiet_refl].
Qed.
End detach.

Section expire.
Context `{Nfs4Clients}.

Lemma fs_cinv k T U E f : cinv k T U E -> cinv (set_cw (set_fs f (cw k)) k) T U E /\ steady [] [] k (set_cw (set_fs f (cw k)) k).
Proof.
  intros Hk. split.
  - apply (change_world k T T U U E E _ (global_sequence k)); try done; [|by apply (ci_client _ _ _ _ Hk)| |by apply (ci_served _ _ _ _ Hk)].
    + destruct (ci_inv _ _ _ _ Hk) as [? ? ?]. split;
      [by apply (sess_inv_frame (cw k) _ T)|by apply (res_inv_frame (cw k) _ T)|by apply (client_inv_frame (cw k) _ T)].
    + destruct (ci_sessions _ _ _ _ Hk). by split.
  - split; try done.
    + intros b z Hz. exists z. split; [done|]. intros _. exists (cid_refcount z). by rewrite refcount_same.
    + intros a s Ha. exists s. split; [done|apply alike_refl].
    + intros sid a s Ht Ha _. split; [done|]. exists s. split; [done|apply alike_refl].
Qed.

(** All sessions of a client id are deleted. *)
Lemma del_all_ends k T U E c x :
  cinv k T U (c :: E) -> id_at k c x ->
  exists cl, get_client (cw k) c = Ret cl
    /\ ends (del_sessions dec_client_id_ref (cb_session_list cl) k) (fun k' => cinv k' T U E /\ steady [] [c] k k' /\ unserved k' c).
Proof.
  intros Hk Hx. destruct (lookup_lt_is_Some_2 (w_clients (cw k)) c) as [cl Hcl]; [rewrite <- (ci_length _ _ _ _ Hk); by eapply lookup_lt_Some|].
  exists cl. unfold get_client. rewrite Hcl. split; [done|]. pose proof (in_client _ _ (ci_inv _ _ _ _ Hk) c) as Hc. rewrite Hcl in Hc.
  eapply ends_mono; [apply (del_sessions_ends T U (c :: E) c); [done|by eapply (ss_once _ _ (ci_sessions _ _ _ _ Hk))|apply Hc]|].
  intros k' (Hk' & St & Hf). assert (unserved k' c) as Hu.
  { intros sid a s Ht Ha Hs. apply (Hf sid a Ht). destruct (st_alive _ _ _ _ St a s Ha) as (s0 & Ha0 & Al). rewrite (al_client _ _ Al) in Hs.
    destruct (ss_listed _ _ (ci_sessions _ _ _ _ Hk) a s0 Ha0) as (cl' & ? & ?). congruence. }
  split; [by eapply cinv_settle|done].
Qed.

(** The memory between the change of state and the deletion of the sessions. *)
Lemma expired_memory k T U E c x cl tc tu :
  cinv k T U E -> id_at k c x -> cid_confirmed x <> EXPIRED_CLIENT_ID -> w_clients (cw k) !! c = Some cl ->
  (forall n b, b <> c -> tc !! n = Some b <-> ht_confirmed_client_id k !! n = Some b) ->
  (forall n b, b <> c -> tu !! n = Some b <-> ht_unconfirmed_client_id k !! n = Some b) ->
  (forall n, tc !! n <> Some c) -> (forall n, tu !! n <> Some c) ->
  cinv (moved c (id_state EXPIRED_CLIENT_ID (id_unlink x)) (MkClient true (cid_lease_reservations cl) (cid_last_renew cl) (cb_session_list cl))
          tc tu (detached c x (cw_records k)) k) T (link_refs x ++ KId c :: U) (c :: E).
Proof.
  intros Hk Hx Hs Hcl Hc Hu Nc Nu. destruct (detached_spec k T U E c x Hk Hx) as [Hrb Hn].
  apply (cinv_refs _ T (KId c :: link_refs x ++ U)); [intros t; rewrite refs_cons, !refs_app, refs_cons; lia|].
  eapply (retire k _ T U (link_refs x) E (c :: E) c x (id_state EXPIRED_CLIENT_ID (id_unlink x))); try done.
  - by eapply moved_beside.
  - apply put_client_inv; [apply Hk|done].
  - by right.
  - intros r. rewrite link_refs_count. cbn [linked_to id_state id_unlink cid_client_record]. by rewrite one_false.
  - apply link_refs_id.
  - intros b _. apply list_elem_of_further.
  - left. apply list_elem_of_here.
Qed.

(** The tables without the entry of the client id. *)
Definition untabled (in_confirmed : bool) (n : Z) (k : cworld) : gmap Z nat * gmap Z nat :=
  if in_confirmed then (delete n (ht_confirmed_client_id k), ht_unconfirmed_client_id k)
  else (ht_confirmed_client_id k, delete n (ht_unconfirmed_client_id k)).

Definition holds_confirmed (st : nfs_clientid_confirm_state_t) : bool :=
  bool_decide (st = CONFIRMED_CLIENT_ID) || bool_decide (st = STALE_CLIENT_ID).

Lemma untabled_spec k T U E c x : cinv k T U E -> id_at k c x -> cid_confirmed x <> EXPIRED_CLIENT_ID ->
  let b := holds_confirmed (cid_confirmed x) in let '(tc, tu) := untabled b (cid_clientid x) k in
  (if b then ht_confirmed_client_id k else ht_unconfirmed_client_id k) !! cid_clientid x = Some c
  /\ (forall n b, b <> c -> tc !! n = Some b <-> ht_confirmed_client_id k !! n = Some b)
  /\ (forall n b, b <> c -> tu !! n = Some b <-> ht_unconfirmed_client_id k !! n = Some b)
  /\ (forall n, tc !! n <> Some c) /\ (forall n, tu !! n <> Some c).
Proof.
  intros Hk Hx Hs. pose proof (io_placed _ _ _ _ (ci_id _ _ _ _ Hk c x Hx)) as Hpl. unfold placed in Hpl.
  pose proof (fun n => own_entry_confirmed k T U E c x n Hk Hx) as Oc. pose proof (fun n => own_entry_unconfirmed k T U E c x n Hk Hx) as Ou.
  unfold holds_confirmed, untabled. destruct (cid_confirmed x); try done; destruct Hpl as (Pc & Pu & _); cbn; split_and!; try done;
    try (intros n b Hb; by apply delete_beside with c);
    intros n Hn; try (apply lookup_delete_Some in Hn as [Hne Hn]); (by apply Hne; symmetry; auto) || (rewrite (Oc n Hn) in Hn || rewrite (Ou n Hn) in Hn; done).
Qed.

(** A confirmed client id becomes stale: it stays in its table and has no record any more. *)
Lemma stale_memory k T U E c x cl :
  cinv k T U E -> id_at k c x -> cid_confirmed x = CONFIRMED_CLIENT_ID -> w_clients (cw k) !! c = Some cl ->
  cinv (moved c (id_state STALE_CLIENT_ID (id_unlink x)) (MkClient false (cid_lease_reservations cl) (cid_last_renew cl) (cb_session_list cl))
          (ht_confirmed_client_id k) (ht_unconfirmed_client_id k) (detached c x (cw_records k)) k) T (link_refs x ++ U) (c :: E).
Proof.
  intros Hk Hx Hs Hcl. destruct (detached_spec k T U E c x Hk Hx) as [Hrb Hn]. pose proof (ci_id _ _ _ _ Hk c x Hx) as [Ic Ip Ipl Il].
  unfold placed in Ipl. rewrite Hs in Ipl. destruct Ipl as (Pc & Pu & _).
  eapply (change_id k _ T U _ E (c :: E) c x (Some (id_state STALE_CLIENT_ID (id_unlink x)))); try done.
  - by eapply moved_beside.
  - apply put_client_inv; [apply Hk|done].
  - intros b Hb. by rewrite refs_app, link_refs_id.
  - intros r. rewrite refs_app, link_refs_count. cbn [linked_to id_state id_unlink cid_client_record]. by rewrite (one_false (None = Some r)).
  - intros b _. apply list_elem_of_further.
  - by intros ? [= <-].
  - split; try done.
    + intros z [= <-]. split; [rewrite refs_app, link_refs_id; exact Ic|done|by split_and!|done].
    + intros n Hn'. eexists. split; [done|]. by rewrite (own_entry_confirmed k T U E c x n).
    + intros n Hn'. eexists. split; [done|]. by rewrite (own_entry_unconfirmed k T U E c x n).
    + intros r y Hy Hc. by destruct (Hn r y Hy).
    + intros r y Hy Hc. by destruct (Hn r y Hy).
    + left. apply list_elem_of_here.
Qed.

Lemma expire_state_ends k T U E c x :
  cinv k T U E -> id_at k c x -> cid_confirmed x <> EXPIRED_CLIENT_ID ->
  ends (expire_state c x false k) (fun k' => cinv k' T (KId c :: U) (c :: E) /\ steady [c] [] k k' /\ gone c k').
Proof.
  intros Hk Hx Hs. unfold expire_state. pose proof (lookup_lt_Some _ _ _ Hx) as Hlen. fold (holds_confirmed (cid_confirmed x)).
  pose proof (untabled_spec k T U E c x Hk Hx Hs) as Hun. cbn zeta in *.
  destruct (untabled (holds_confirmed (cid_confirmed x)) (cid_clientid x) k) as [tc tu] eqn:Etab. destruct Hun as (Htab & Hc & Hu & Nc & Nu).
  destruct (set_state_eq k T U E c x EXPIRED_CLIENT_ID Hk Hx) as (cl & Hcl & Hst). rewrite bool_decide_true in Hst by done.
  pose proof (expired_memory k T U E c x cl tc tu Hk Hx Hs Hcl Hc Hu Nc Nu) as Hm. set (km := moved _ _ _ _ _ _ _) in Hm.
  assert (steady [c] [] k km) as St by (eapply moved_steady; [done|apply (detached_spec k T U E c x Hk Hx)]).
  assert (gone c km) as Hg by (intros z Hz; by rewrite (id_at_insert c _ k z Hlen Hz)).
  destruct (detach_ends km T (KId c :: U) (c :: E) c x (put_id c (Some (id_unlink x)) k)) as (rs & t & -> & Hk2 & Hq);
    [done..|apply (io_linked _ _ _ _ (ci_id _ _ _ _ Hk c x Hx))|].
  rewrite res_bind_ret, (Hst (set_records rs t (put_id c (Some (id_unlink x)) k)) eq_refl (id_unlink x)) by (apply (id_at_put k c); [done|by left]).
  rewrite res_bind_ret. cbn zeta. cbn [set_records put_id set_ids set_cw ht_confirmed_client_id ht_unconfirmed_client_id].
  rewrite Htab. cbn [ends]. pose proof (qu_steady _ _ Hq) as Sq.
  replace (if holds_confirmed (cid_confirmed x) then _ else _) with (set_records rs t km).
  - split; [done|]. split; [by eapply steady_trans; [|apply steady_nil]|]. eapply gone_steady; [done|apply not_elem_of_nil|done].
  - unfold untabled in Etab. destruct (holds_confirmed (cid_confirmed x)); injection Etab as <- <-; unfold km, moved, set_records, set_confirmed, set_unconfirmed;
      cbn; by rewrite list_insert_insert_eq.
Qed.

Lemma expire_state_stale k T U E c x :
  cinv k T U E -> id_at k c x -> cid_confirmed x = CONFIRMED_CLIENT_ID ->
  ends (expire_state c x true k) (fun k' => cinv k' T U (c :: E) /\ steady [c] [] k k' /\ exists x', id_at k' c x').
Proof.
  intros Hk Hx Hs. unfold expire_state. pose proof (lookup_lt_Some _ _ _ Hx) as Hlen. cbn zeta.
  destruct (set_state_eq k T U E c x STALE_CLIENT_ID Hk Hx) as (cl & Hcl & Hst). rewrite bool_decide_false in Hst by done.
  pose proof (stale_memory k T U E c x cl Hk Hx Hs Hcl) as Hm. set (km := moved _ _ _ _ _ _ _) in Hm.
  assert (steady [c] [] k km) as St by (eapply moved_steady; [done|apply (detached_spec k T U E c x Hk Hx)]).
  destruct (detach_ends km T U (c :: E) c x (put_id c (Some (id_unlink x)) k)) as (rs & t & -> & Hk2 & Hq);
    [done..|apply (io_linked _ _ _ _ (ci_id _ _ _ _ Hk c x Hx))|].
  rewrite res_bind_ret, (Hst (set_records rs t (put_id c (Some (id_unlink x)) k)) eq_refl (id_unlink x)) by (apply (id_at_put k c); [done|by left]).
  cbn [ends]. pose proof (qu_steady _ _ Hq) as Sq.
  replace (put_id c _ (set_cw _ (set_records rs t (put_id c _ k)))) with (set_records rs t km)
    by (unfold km, moved, set_records, set_cw, put_id, set_ids; cbn; by rewrite list_insert_insert_eq).
  split; [done|]. split; [by eapply steady_trans; [|apply steady_nil]|]. eexists. apply (id_at_put k c); [done|by left].
Qed.

Lemma expire_ends k T U E c x :
  cinv k T U E -> id_at k c x ->
  ends (nfs_client_id_expire c false k) (fun '(_, k') => cinv k' T U E /\ steady [c] [c] k k' /\ gone c k').
Proof.
  intros Hk Hx. unfold nfs_client_id_expire. rewrite (get_id_at _ _ _ Hx), res_bind_ret.
  destruct (decide (cid_confirmed x = EXPIRED_CLIENT_ID)) as [Hs|Hs].
  { rewrite bool_decide_true by done. cbn [ends]. split; [done|]. split; [apply steady_refl|]. intros z Hz. by rewrite (id_unique _ _ _ _ Hz Hx). }
  rewrite bool_decide_false by done. eapply ends_then; [by apply expire_state_ends|]. intros k1 (Hk1 & S1 & G1). cbn zeta.
  destruct (fs_cinv k1 _ _ _ (release_client_states (cid_clientid x) (w_fs (cw k1))) Hk1) as [Hk2 S2].
  destruct (held_id _ _ _ _ _ Hk2) as (x2 & Hx2). destruct (del_all_ends _ _ _ _ c x2 Hk2 Hx2) as (cl & -> & Hd). rewrite res_bind_ret.
  eapply ends_then; [exact Hd|]. intros k3 (Hk3 & S3 & _).
  destruct (fs_cinv k3 _ _ _ (nfs4_rm_clid (cid_clientid x) (w_fs (cw k3))) Hk3) as [Hk4 S4].
  eapply ends_then; [by apply dec_id_ends|]. intros k5 (Hk5 & [_ _ _ S5]). cbn [ends]. split; [done|].
  assert (steady [] [c] k1 k5) as S15.
  { eapply steady_trans; [by apply (steady_weaken [] [] [] [c] _ _), S2; apply list_subseteq_nil|]. eapply steady_trans; [done|].
    eapply steady_trans; [by apply steady_nil, S4|by apply steady_nil]. }
  split; [|eapply gone_steady; [exact S15|apply not_elem_of_nil|done]].
  eapply steady_trans; [eapply steady_weaken; [| |exact S1]|eapply steady_weaken; [| |exact S15]]; done || apply list_subseteq_nil.
Qed.

Lemma stale_ends k T U E c x :
  cinv k T U E -> id_at k c x -> cid_confirmed x = CONFIRMED_CLIENT_ID ->
  ends (nfs_client_id_expire c true k) (fun '(_, k') => cinv k' T U E /\ steady [c] [c] k k').
Proof.
  intros Hk Hx Hs. unfold nfs_client_id_expire. rewrite (get_id_at _ _ _ Hx), res_bind_ret, Hs. cbn [bool_decide decide confirm_state_eq].
  rewrite bool_decide_false by done. eapply ends_then; [by apply expire_state_stale|]. intros k1 (Hk1 & S1 & x1 & Hx1). cbn zeta.
  destruct (fs_cinv k1 _ _ _ (release_client_states (cid_clientid x) (w_fs (cw k1))) Hk1) as [Hk2 S2].
  destruct (del_all_ends _ _ _ _ c x1 Hk2 Hx1) as (cl & -> & Hd). rewrite res_bind_ret.
  eapply ends_then; [exact Hd|]. intros k3 (Hk3 & S3 & _). rewrite res_bind_ret. cbn [ends]. split; [done|].
  eapply steady_trans; [eapply steady_weaken; [| |exact S1]|eapply steady_trans; [by apply steady_nil, S2|eapply steady_weaken; [| |exact S3]]];
    done || apply list_subseteq_nil.
Qed.
End expire.

Section lookup.
Context `{Nfs4Clients}.

Definition table_of (confirmed : bool) (k : cworld) : gmap Z nat := if confirmed then ht_confirmed_client_id k else ht_unconfirmed_client_id k.

Lemma table_entry k T U E b n c : cinv k T U E -> table_of b k !! n = Some c -> exists x, id_at k c x /\ cid_clientid x = n.
Proof. intros Hk. destruct b; [apply (ci_confirmed _ _ _ _ Hk)|apply (ci_unconfirmed _ _ _ _ Hk)]. Qed.

(** The client id [c] that was found, with a reference. *)
Definition found (T : list token) (U : list ref) (E : list nat) (b : bool) (n : Z) (k : cworld) (c : nat) (k' : cworld) : Prop :=
  Z.shiftr n 32 = Z.land nfs_ServerEpoch 0xFFFFFFFF /\ table_of b k !! n = Some c /\ cinv k' T (KId c :: U) E /\ cw_records k' = cw_records k
  /\ exists x, id_at k' c x /\ cid_confirmed x <> STALE_CLIENT_ID /\ cid_clientid x = n.

Lemma get_id_ends k T U E b n : cinv k T U E ->
  ends (nfs_client_id_get b n k) (fun '(rc, o, k') => quiet k k' /\
    match o with
    | Some c => rc = CLIENT_ID_SUCCESS /\ found T U E b n k c k'
    | None => rc <> CLIENT_ID_SUCCESS /\ cinv k' T U E
              /\ (Z.shiftr n 32 = Z.land nfs_ServerEpoch 0xFFFFFFFF -> forall c x, table_of b k !! n = Some c -> id_at k c x -> cid_confirmed x = STALE_CLIENT_ID)
    end).
Proof.
  intros Hk. unfold nfs_client_id_get. cbn zeta. destruct (Z.eqb_spec (Z.shiftr n 32) (Z.land nfs_ServerEpoch 0xFFFFFFFF)) as [He|He]; cbn [negb];
    [|by split; [apply quiet_refl|]].
  fold (table_of b k). destruct (table_of b k !! n) as [c|] eqn:Ht; [|by split; [apply quiet_refl|]].
  destruct (table_entry k T U E b n c Hk Ht) as (x & Hx & Hn).
  eapply ends_then; [by apply inc_id_ends|]. intros k1 (Hk1 & Q1 & Hx1 & Er). rewrite (get_id_at _ _ _ Hx1), res_bind_ret.
  destruct (decide (cid_confirmed x = STALE_CLIENT_ID)) as [Hs|Hs].
  - rewrite bool_decide_true by done. eapply ends_then; [by apply dec_id_ends|]. intros k2 (Hk2 & Q2). cbn [ends].
    split; [by eapply quiet_trans|]. split; [done|]. split; [done|]. intros _ c' x' [= <-] Hx'. by rewrite (id_unique _ _ _ _ Hx' Hx).
  - rewrite bool_decide_false by done. cbn [ends]. split; [done|]. split; [done|]. split; [done|]. split; [done|]. split; [done|]. split; [done|]. by eexists.
Qed.

(** A client id that is held has its state. *)
Lemma quiet_id k k' c x x' : quiet k k' -> id_at k c x -> id_at k' c x' -> exists n, x' = id_refcount n x.
Proof.
  intros Hq Hx Hx'. destruct (st_ids _ _ _ _ (qu_steady _ _ Hq) c x' Hx') as (z & Hz & Hn). rewrite (id_unique _ _ _ _ Hz Hx) in Hn.
  apply Hn, not_elem_of_nil.
Qed.

Lemma holding_ends k T U E o (f : cworld -> res cworld) (Q : cworld -> Prop) :
  cinv k T U E -> (forall r, o = Some r -> exists y, rec_at k r y) ->
  (forall U' k1, cinv k1 T U' E -> (forall c, refs (KId c) U' = refs (KId c) U) -> quiet k k1 -> ends (f k1) (fun k' => cinv k' T U' E /\ Q k')) ->
  (forall k1 k2, Q k1 -> quiet k1 k2 -> Q k2) ->
  ends (holding_record o f k) (fun k' => cinv k' T U E /\ Q k').
Proof.
  intros Hk Ho Hf HQ. unfold holding_record. destruct o as [r|].
  - destruct (Ho r eq_refl) as (y & Hy). eapply ends_then; [by apply inc_record_ends|]. intros k1 (Hk1 & Q1 & _).
    eapply ends_then; [apply (Hf _ k1 Hk1); [intros c; by refcounts|done]|]. intros k2 (Hk2 & Hq2).
    eapply ends_mono; [by apply dec_record_ends|]. intros k3 (Hk3 & Q3 & _). split; [done|]. by eapply HQ.
  - apply Hf; [done|done|apply quiet_refl].
Qed.

Lemma expire_held_ends k T U E c x stale :
  cinv k T U E -> id_at k c x -> (stale = true -> cid_confirmed x = CONFIRMED_CLIENT_ID) ->
  ends (expire_held c stale k) (fun k' => cinv k' T U E /\ steady [c] [c] k k' /\ (stale = false -> gone c k')).
Proof.
  intros Hk Hx Hs. unfold expire_held. rewrite (get_id_at _ _ _ Hx), res_bind_ret.
  eapply ends_then; [by apply inc_id_ends|]. intros k1 (Hk1 & Q1 & Hx1 & Er).
  eapply ends_then; [eapply (holding_ends k1 T (KId c :: U) E _ _ (fun k' => steady [c] [c] k k' /\ (stale = false -> gone c k'))); [done| | |]|].
  - intros r Hr. unfold rec_at. rewrite Er. by apply (io_linked _ _ _ _ (ci_id _ _ _ _ Hk c x Hx)).
  - intros U' k2 Hk2 HU Q2. destruct (ci_held _ _ _ _ Hk2 c) as (x2 & Hx2).
    { rewrite HU. pose proof (refs_nonneg (KId c) U). refcounts. lia. }
    assert (steady [c] [c] k k2) as S2 by (eapply steady_trans; apply steady_nil; [apply Q1|apply Q2]). destruct stale.
    + destruct (quiet_id _ _ _ _ _ Q2 Hx1 Hx2) as (n & ->). eapply ends_then; [eapply stale_ends; [done..|by apply Hs]|].
      intros [r k3] (Hk3 & S3). split; [done|]. split; [by eapply steady_trans|done].
    + eapply ends_then; [by eapply expire_ends|]. intros [r k3] (Hk3 & S3 & G3). split; [done|]. split; [by eapply steady_trans|done].
  - intros k2 k3 [S2 G2] Q3. pose proof (qu_steady _ _ Q3) as S3. split; [eapply steady_trans; [done|by apply steady_nil]|].
    intros Hf. eapply gone_steady; [done|apply not_elem_of_nil|auto].
  - intros k2 (Hk2 & S2 & G2). eapply ends_mono; [by apply dec_id_ends|]. intros k3 (Hk3 & Q3). pose proof (qu_steady _ _ Q3) as S3.
    split; [done|]. split; [eapply steady_trans; [done|by apply steady_nil]|]. intros Hf. eapply gone_steady; [done|apply not_elem_of_nil|auto].
Qed.

Lemma reap_ends k T U E c x :
  cinv k T U E -> id_at k c x -> ends (reap_client c k) (fun k' => cinv k' T U E /\ steady [c] [c] k k').
Proof.
  intros Hk Hx. unfold reap_client, get_client.
  destruct (lookup_lt_is_Some_2 (w_clients (cw k)) c) as [cl ->]; [rewrite <- (ci_length _ _ _ _ Hk); by eapply lookup_lt_Some|].
  cbn [deref]. rewrite res_bind_ret. destruct (negb _); [split; [done|apply steady_refl]|].
  eapply ends_mono; [by eapply expire_held_ends|]. by intros k' (? & ? & _).
Qed.

Lemma release_ends k T U E c x :
  cinv k T U E -> id_at k c x -> ends (release_client c k) (fun k' => cinv k' T U E /\ steady [c] [c] k k').
Proof.
  intros Hk Hx. unfold release_client. rewrite (get_id_at _ _ _ Hx), res_bind_ret.
  case_bool_decide; [|split; [done|apply steady_refl]]. eapply ends_mono; [by eapply expire_held_ends|]. by intros k' (? & ? & _).
Qed.
End lookup.
