(* ===== verification/NfsClientCreate.v ===== *)
(** * Client ids that are made and confirmed

    [create_client_id] with [nfs_client_id_insert], and [nfs_client_id_confirm]. *)

From S2P Require Import Prelude NfsProto NfsSession NfsCompound NfsSessionInv NfsSessionOps NfsClient NfsClientInv NfsClientOps.
From S2P Require Import NfsClientSessions NfsClientExpire.
Local Open Scope Z_scope.

Section confirm.
Context `{Nfs4Clients}.

(** The record of a client id that is confirmed. *)
Definition confirmed_in (c : nat) (y : nfs_client_record_t) : nfs_client_record_t := rec_confirmed (Some c) (rec_unconfirmed None y).

Lemma confirmed_beside c y : cr_confirmed_rec y = None -> cr_unconfirmed_rec y = Some c -> rec_beside c y (confirmed_in c y).
Proof. intros Hc Hu. split; try done; intros b Hb; cbn; rewrite ?Hc, ?Hu; split; congruence. Qed.

Lemma number_free k T U E b c x : cinv k T U E -> id_at k c x -> table_of b k !! cid_clientid x <> Some c -> table_of b k !! cid_clientid x = None.
Proof.
  intros Hk Hx Hn. destruct (table_of b k !! cid_clientid x) as [d|] eqn:Hd; [|done].
  destruct (table_entry k T U E b _ d Hk Hd) as (z & Hz & Hc). destruct Hn. f_equal.
  by apply (na_distinct _ _ (ci_names _ _ _ _ Hk) d c z x).
Qed.

Lemma confirm_memory k T U E c x r y cl :
  cinv k T U E -> id_at k c x -> cid_confirmed x = UNCONFIRMED_CLIENT_ID -> cid_client_record x = Some r -> rec_at k r y ->
  cr_confirmed_rec y = None -> cr_unconfirmed_rec y = Some c -> w_clients (cw k) !! c = Some cl ->
  cinv (moved c (id_state CONFIRMED_CLIENT_ID x) (MkClient false (cid_lease_reservations cl) (cid_last_renew cl) (cb_session_list cl))
          (<[cid_clientid x := c]> (ht_confirmed_client_id k)) (delete (cid_clientid x) (ht_unconfirmed_client_id k))
          (<[r := Some (confirmed_in c y)]> (cw_records k)) k) T U E.
Proof.
  intros Hk Hx Hs Hr Hy Hcy Huy Hcl. pose proof (ci_id _ _ _ _ Hk c x Hx) as [Ic Ip Ipl Il]. pose proof (in_tables_live k c x) as Ht.
  rewrite Hs in Ht. rewrite Ht in Ic by done. unfold placed in Ipl. rewrite Hs in Ipl. destruct Ipl as (Pc & Pu & _).
  pose proof (number_free k T U E true c x Hk Hx Pc) as Hfree. cbn [table_of] in Hfree. pose proof (lookup_lt_Some _ _ _ Hy) as Hlr.
  eapply (change_id k _ T U U E E c x (Some (id_state CONFIRMED_CLIENT_ID x))); try done.
  - eapply moved_beside; try done; [by eapply recs_beside_put, confirmed_beside| |intros n b Hb; by apply delete_beside with c].
    intros n b Hb. rewrite lookup_insert_Some. split; [intros [[_ ?]|[_ ?]]; congruence|]. intros Hn. right. split; [congruence|done].
  - apply put_client_inv; [apply Hk|done].
  - by intros ? [= <-].
  - split.
    + intros z [= <-]. split; [|done| |].
      * unfold in_tables. cbn. rewrite lookup_insert_eq, lookup_delete_eq, one_true, one_false by done. exact Ic.
      * unfold placed. cbn. rewrite lookup_insert_eq, lookup_delete_eq. split; [done|]. split; [done|]. exists r, (confirmed_in c y).
        split; [done|]. split; [|done]. apply rec_put_lookup; [done|by left].
      * intros b Hb. cbn in Hb. rewrite Hr in Hb. injection Hb as <-. eexists. apply rec_put_lookup; [done|by left].
    + done.
    + intros n Hn. eexists. split; [done|]. cbn in Hn. apply lookup_insert_Some in Hn as [[<- _]|[_ Hn]]; [done|].
      by rewrite (own_entry_confirmed k T U E c x n).
    + intros n Hn. cbn in Hn. apply lookup_delete_Some in Hn as [Hne Hn]. by rewrite (own_entry_unconfirmed k T U E c x n) in Hne.
    + intros b z Hz Hc. eexists. split; [done|]. split; [done|]. apply rec_put_lookup in Hz as [[<- [= <-]]|[Hn Hz]]; [done| |done].
      by apply (named_by k T U E c x b z Hk Hx Hz (or_introl Hc)).
    + intros b z Hz Hc. apply rec_put_lookup in Hz as [[<- [= <-]]|[Hn Hz]]; [done| |done].
      pose proof (named_by k T U E c x b z Hk Hx Hz (or_intror Hc)). congruence.
    + right. left. by eexists.
Qed.

Lemma confirm_ends k T U E c x r y :
  cinv k T U E -> id_at k c x -> cid_confirmed x = UNCONFIRMED_CLIENT_ID -> cid_client_record x = Some r -> rec_at k r y -> cr_confirmed_rec y = None ->
  ends (nfs_client_id_confirm c k) (fun '(rc, k') => rc = CLIENT_ID_SUCCESS /\ cinv k' T U E /\ steady [c] [] k k'
    /\ id_at k' c (id_state CONFIRMED_CLIENT_ID x)).
Proof.
  intros Hk Hx Hs Hr Hy Hcy. pose proof (io_placed _ _ _ _ (ci_id _ _ _ _ Hk c x Hx)) as Hpl. unfold placed in Hpl. rewrite Hs in Hpl.
  destruct Hpl as (Pc & Pu & r' & y' & Hr' & Hy' & Huy). assert (r' = r) as -> by congruence. rewrite (rec_unique _ _ _ _ Hy' Hy) in Huy.
  pose proof (number_free k T U E true c x Hk Hx Pc) as Hfree. cbn [table_of] in Hfree. pose proof (lookup_lt_Some _ _ _ Hy) as Hlr.
  unfold nfs_client_id_confirm. rewrite (get_id_at _ _ _ Hx), res_bind_ret, Hr. cbn [deref]. rewrite res_bind_ret, (get_record_at _ _ _ Hy), res_bind_ret.
  cbn zeta. cbn [put_record set_records ht_unconfirmed_client_id]. rewrite Pu.
  destruct (set_state_eq k T U E c x CONFIRMED_CLIENT_ID Hk Hx) as (cl & Hcl & Hst). rewrite bool_decide_false in Hst by done.
  rewrite (Hst (set_unconfirmed (delete (cid_clientid x) (ht_unconfirmed_client_id k)) (put_record r (Some (rec_unconfirmed None y)) k)) eq_refl x Hx), res_bind_ret.
  cbn [put_id set_ids set_cw set_unconfirmed put_record set_records ht_confirmed_client_id]. rewrite Hfree.
  unfold get_record. cbn [set_confirmed put_id set_ids set_cw set_unconfirmed put_record set_records cw_records].
  rewrite list_lookup_insert_eq by done. rewrite res_bind_ret. cbn [ends].
  pose proof (confirm_memory k T U E c x r y cl Hk Hx Hs Hr Hy Hcy Huy Hcl) as Hm. set (km := moved _ _ _ _ _ _ _) in Hm.
  assert (steady [c] [] k km) as St by (eapply moved_steady; [done|by rewrite length_insert]).
  destruct (fs_cinv km T U E (nfs4_add_clid (cid_clientid x) (w_fs (cw km))) Hm) as [Hm' St'].
  split; [done|]. match goal with |- cinv ?k' _ _ _ /\ _ => replace k' with (set_cw (set_fs (nfs4_add_clid (cid_clientid x) (w_fs (cw km))) (cw km)) km) end.
  - split; [done|]. split; [by eapply steady_trans; [|apply steady_nil]|]. apply (id_at_put k c); [by eapply lookup_lt_Some|by left].
  - unfold km, moved, set_cw, set_fs, set_records. cbn. by rewrite list_insert_insert_eq.
Qed.
End confirm.

Section create.
Context `{Nfs4Clients}.

Definition number (n : Z) : Z := n + Z.shiftl (Z.land nfs_ServerEpoch (2 ^ 32 - 1)) 32.

(** The memory with a new client id [x] of the record [r], which was [y]. *)
Definition with_id (x : nfs_client_id_t) (r : nat) (y : nfs_client_record_t) (k : cworld) : cworld :=
  let w := cw k in
  let c := length (cw_ids k) in
  MkCw (MkWorld (w_sessions w) (w_table w) (w_clients w ++ [MkClient false 0 (w_time w) []]) (w_results w) (w_fs w) (w_time w))
       (cw_ids k ++ [Some x]) (ht_confirmed_client_id k) (<[cid_clientid x := c]> (ht_unconfirmed_client_id k))
       (<[r := Some (rec_unconfirmed (Some c) (rec_refcount (cr_refcount y + 1) y))]> (cw_records k)) (ht_client_record k)
       (clientid_counter k + 1) (global_sequence k).

Lemma id_at_with x r y k c z : id_at (with_id x r y k) c z <-> id_at k c z \/ (c = length (cw_ids k) /\ z = x).
Proof.
  unfold id_at. cbn [with_id cw_ids]. rewrite lookup_app_Some. split.
  - intros [?|[Hl Hz]]; [by left|]. right. apply list_lookup_singleton_Some in Hz as [Hz [= ->]]. split; [lia|done].
  - intros [?|[-> ->]]; [by left|]. right. split; [lia|]. by rewrite Nat.sub_diag.
Qed.

Lemma id_at_old k c x : id_at k c x -> c <> length (cw_ids k).
Proof. intros Hx ->. apply lookup_lt_Some in Hx. lia. Qed.

Lemma new_number k T U E b : cinv k T U E -> table_of b k !! number (clientid_counter k + 1) = None.
Proof.
  intros Hk. destruct (table_of b k !! number _) as [c|] eqn:Hc; [|done]. destruct (table_entry k T U E b _ c Hk Hc) as (x & Hx & Hn).
  destruct (na_number _ _ (ci_names _ _ _ _ Hk) c x Hx) as (i & Hi & ?). unfold number in *. lia.
Qed.

Lemma new_client_inv w T : inv w T ->
  inv (MkWorld (w_sessions w) (w_table w) (w_clients w ++ [MkClient false 0 (w_time w) []]) (w_results w) (w_fs w) (w_time w)) T.
Proof.
  intros [[S1 S2 S3 S4] Hr Hc]. split; [split; try done|by apply (res_inv_frame w _ T)|].
  - intros a s Ha. destruct (S1 a s Ha) as [? ? ? ? ? Hl ?]. split; try done. cbn. rewrite length_app. cbn in *. lia.
  - intros c. specialize (Hc c). cbn [w_clients]. destruct (w_clients w !! c) as [cl|] eqn:Hcl.
    + by rewrite lookup_app_l_Some with (x := cl).
    + apply lookup_ge_None in Hcl. rewrite lookup_app_r by done. destruct (decide (c = length (w_clients w))) as [->|Hn].
      * rewrite Nat.sub_diag. cbn. split; [done|]. by intros a ?%elem_of_nil.
      * rewrite lookup_ge_None_2 by (cbn; lia). done.
Qed.

(** The new client id keeps the others where they are. *)
Lemma placed_with x r y k T U E c z : cinv k T U E -> rec_at k r y -> cr_unconfirmed_rec y = None ->
  cid_clientid x = number (clientid_counter k + 1) -> id_at k c z -> placed k c z -> placed (with_id x r y k) c z.
Proof.
  intros Hk Hy Hu Hn Hz. pose proof (lookup_lt_Some _ _ _ Hy) as Hlr. destruct (na_number _ _ (ci_names _ _ _ _ Hk) c z Hz) as (i & Hi & Hle).
  unfold placed. cbn [with_id ht_confirmed_client_id ht_unconfirmed_client_id].
  rewrite lookup_insert_ne by (rewrite Hn, Hi; unfold number; lia).
  assert (forall b yb, rec_at k b yb -> exists yb', rec_at (with_id x r y k) b yb' /\ cr_confirmed_rec yb' = cr_confirmed_rec yb
            /\ (cr_unconfirmed_rec yb = Some c -> cr_unconfirmed_rec yb' = Some c)) as Hrec.
  { intros b yb Hb. destruct (decide (r = b)) as [->|Hne].
    - rewrite (rec_unique _ _ _ _ Hb Hy). eexists. split; [apply rec_put_lookup; [done|by left]|]. cbn. by rewrite Hu.
    - exists yb. split; [apply rec_put_lookup; [done|by right]|done]. }
  destruct (cid_confirmed z); try done; intros (? & ? & b & yb & Hb & Hyb & ?); destruct (Hrec b yb Hyb) as (yb' & ? & ? & ?);
    (split; [done|]); (split; [done|]); exists b, yb'; split_and!; try done; [congruence|auto].
Qed.

Lemma linked_with x r y k b : linked (with_id x r y k) b = linked k b + linked_to b (Some x).
Proof. unfold linked. cbn [with_id cw_ids]. rewrite tally_app. cbn [tally]. lia. Qed.

Lemma with_id_records x r y k T U E b z : cinv k T U E -> rec_at k r y -> cr_unconfirmed_rec y = None ->
  cid_confirmed x = UNCONFIRMED_CLIENT_ID -> cid_client_record x = Some r -> rec_at (with_id x r y k) b z -> rec_ok (with_id x r y k) b z U.
Proof.
  intros Hk Hy Hu Hs Hr Hz. pose proof (lookup_lt_Some _ _ _ Hy) as Hlr. apply rec_put_lookup in Hz as [[<- [= <-]]|[Hn Hz]]; [| |done].
  - destruct (ci_rec _ _ _ _ Hk r y Hy) as [Rc Rp Rt Rcf Ruc]. split; [|cbn; lia|done| |].
    + rewrite linked_with. cbn [linked_to]. rewrite one_true by done. cbn. lia.
    + intros c Hc. destruct (Rcf c Hc) as (z & ? & ?). exists z. split; [by apply id_at_with; left|done].
    + intros c [= <-]. exists x. split; [by apply id_at_with; right|done].
  - destruct (ci_rec _ _ _ _ Hk b z Hz) as [Rc Rp Rt Rcf Ruc]. split; [|done|done| |].
    + rewrite linked_with. cbn [linked_to]. rewrite one_false by congruence. lia.
    + intros c Hc. destruct (Rcf c Hc) as (z' & ? & ?). exists z'. split; [by apply id_at_with; left|done].
    + intros c Hc. destruct (Ruc c Hc) as (z' & ? & ?). exists z'. split; [by apply id_at_with; left|done].
Qed.

Lemma with_id_names x r y k T U E : cinv k T U E -> cid_clientid x = number (clientid_counter k + 1) ->
  names_ok (cw_ids (with_id x r y k)) (clientid_counter k + 1).
Proof.
  intros Hk Hn. destruct (ci_names _ _ _ _ Hk) as [N1 N2 N3]. split; [| |lia].
  - intros c z [Hz|[-> ->]]%id_at_with; [destruct (N1 c z Hz) as (i & ? & ?); exists i; split; [done|lia]|].
    exists (clientid_counter k + 1). split; [done|lia].
  - intros b c z z' [Hz|[-> ->]]%id_at_with [Hz'|[-> ->]]%id_at_with Hc; [by eapply N2| | |done].
    + destruct (N1 b z Hz) as (i & Hi & ?). unfold number in Hn. lia.
    + destruct (N1 c z' Hz') as (i & Hi & ?). unfold number in Hn. lia.
Qed.

(** Nobody knows the address of the next client id. *)
Lemma next_unused k T U E : cinv k T U E -> sessions_of (cw k) (length (cw_ids k)) = 0 /\ refs (KId (length (cw_ids k))) U = 0.
Proof.
  intros Hk. pose proof (sessions_of_nonneg (cw k) (length (cw_ids k))). pose proof (refs_nonneg (KId (length (cw_ids k))) U). split.
  - destruct (decide (0 < sessions_of (cw k) (length (cw_ids k)))) as [Hp|?]; [|lia]. destruct (session_exists _ _ Hp) as (a & s & Ha & E0).
    destruct (ci_client _ _ _ _ Hk a s Ha) as (z & Hz). by apply id_at_old in Hz.
  - destruct (decide (0 < refs (KId (length (cw_ids k))) U)) as [Hp|?]; [|lia]. destruct (ci_held _ _ _ _ Hk _ Hp) as (z & Hz). by apply id_at_old in Hz.
Qed.

Lemma with_id_rec x r y k b z : rec_at k r y -> rec_at k b z -> exists z', rec_at (with_id x r y k) b z' /\ record_key z' = record_key z.
Proof.
  intros Hy Hz. pose proof (lookup_lt_Some _ _ _ Hy) as Hlr. destruct (decide (r = b)) as [->|Hne].
  - rewrite (rec_unique _ _ _ _ Hz Hy). eexists. split; [apply rec_put_lookup; [done|by left]|done].
  - exists z. split; [apply rec_put_lookup; [done|by right]|done].
Qed.

Lemma with_id_ids x r y k T U E c z :
  cinv k T U E -> rec_at k r y -> cr_unconfirmed_rec y = None ->
  cid_clientid x = number (clientid_counter k + 1) -> cid_confirmed x = UNCONFIRMED_CLIENT_ID -> cid_client_record x = Some r -> cid_refcount x = 1 ->
  id_at (with_id x r y k) c z -> id_ok (with_id x r y k) c z U.
Proof.
  intros Hk Hy Hu Hn Hs Hr Hc. pose proof (lookup_lt_Some _ _ _ Hy) as Hlr. pose proof (new_number k T U E) as Hnew.
  destruct (next_unused k T U E Hk) as [Hz1 Hz2]. intros [Hz|[-> ->]]%id_at_with.
  - destruct (ci_id _ _ _ _ Hk c z Hz) as [Ic Ip Ipl Il]. split; [|done|by eapply placed_with|].
    + unfold in_tables in *. cbn [with_id ht_confirmed_client_id ht_unconfirmed_client_id].
      destruct (na_number _ _ (ci_names _ _ _ _ Hk) c z Hz) as (i & Hi & Hle). rewrite lookup_insert_ne by (rewrite Hn, Hi; unfold number; lia). exact Ic.
    + intros b Hb. destruct (Il b Hb) as (z' & Hz'). destruct (with_id_rec x r y k b z' Hy Hz') as (z'' & ? & _). by exists z''.
  - split; [|lia| |].
    + unfold in_tables. cbn [with_id ht_confirmed_client_id ht_unconfirmed_client_id]. rewrite lookup_insert_eq, (one_true (Some _ = Some _)) by done.
      rewrite Hn, (Hnew true Hk : ht_confirmed_client_id k !! _ = None), one_false by done. change (sessions_of _ _) with (sessions_of (cw k) (length (cw_ids k))). lia.
    + unfold placed. rewrite Hs. cbn [with_id ht_confirmed_client_id ht_unconfirmed_client_id]. rewrite lookup_insert_eq.
      rewrite Hn, (Hnew true Hk : ht_confirmed_client_id k !! _ = None). split; [done|]. split; [done|].
      eexists r, _. split; [done|]. split; [apply rec_put_lookup; [done|by left]|done].
    + intros b Hb. rewrite Hr in Hb. injection Hb as <-. eexists. apply rec_put_lookup; [done|by left].
Qed.

Lemma created_memory x r y k T U E :
  cinv k T U E -> rec_at k r y -> cr_unconfirmed_rec y = None ->
  cid_clientid x = number (clientid_counter k + 1) -> cid_confirmed x = UNCONFIRMED_CLIENT_ID -> cid_client_record x = Some r -> cid_refcount x = 1 ->
  cinv (with_id x r y k) T U E.
Proof.
  intros Hk Hy Hu Hn Hs Hr Hc. pose proof (lookup_lt_Some _ _ _ Hy) as Hlr. pose proof (new_number k T U E) as Hnew.
  pose proof (fun b z => with_id_rec x r y k b z Hy) as Hrec.
  split; try done.
  - apply new_client_inv, Hk.
  - cbn. rewrite !length_app. cbn. by rewrite (ci_length _ _ _ _ Hk).
  - intros c z. by eapply with_id_ids.
  - intros c Hp. destruct (ci_held _ _ _ _ Hk c Hp) as (z & ?). exists z. apply id_at_with. by left.
  - intros n c Hc'. destruct (ci_confirmed _ _ _ _ Hk n c Hc') as (z & ? & ?). exists z. split; [by apply id_at_with; left|done].
  - intros n c Hc'. cbn in Hc'. apply lookup_insert_Some in Hc' as [[<- <-]|[_ Hc']]; [exists x; split; [by apply id_at_with; right|done]|].
    destruct (ci_unconfirmed _ _ _ _ Hk n c Hc') as (z & ? & ?). exists z. split; [by apply id_at_with; left|done].
  - intros b z. by eapply with_id_records.
  - intros b Hp. destruct (ci_rec_held _ _ _ _ Hk b Hp) as (z & Hz). destruct (Hrec b z Hz) as (z' & ? & _). by exists z'.
  - intros key b Hb. destruct (ci_rec_table _ _ _ _ Hk key b Hb) as (z & Hz & <-). by apply Hrec.
  - intros a s Ha. destruct (ci_client _ _ _ _ Hk a s Ha) as (z & ?). exists z. apply id_at_with. by left.
  - destruct (ci_sessions _ _ _ _ Hk) as [S1 S2 S3 S4 S5]. split; try done.
    + intros a s Ha. destruct (S1 a s Ha) as (cl & Hcl & ?). exists cl. split; [|done]. by apply lookup_app_l_Some.
    + intros c cl Hcl. apply lookup_app_Some in Hcl as [Hcl|[_ Hcl]]; [by eapply S2|]. apply list_lookup_singleton_Some in Hcl as [_ <-]. by apply NoDup_nil.
  - by eapply with_id_names.
  - intros sid a s z Ht Ha Hz. apply id_at_with in Hz as [Hz|[Hl _]]; [by apply (ci_served _ _ _ _ Hk sid a s z)|].
    destruct (ci_client _ _ _ _ Hk a s Ha) as (z' & Hz'). rewrite Hl in Hz'. by apply id_at_old in Hz'.
Qed.
End create.
