(* ===== verification/NfsClientExchange.v ===== *)
(** * EXCHANGE_ID

    [nfs4_op_exchange_id] ends for any request, keeps the invariant, and what it does for a
    new owner. *)

From S2P Require Import Prelude NfsProto NfsSession NfsCompound NfsSessionInv NfsSessionOps NfsClient NfsClientInv NfsClientOps.
From S2P Require Import NfsClientSessions NfsClientExpire NfsClientCreate.
Local Open Scope Z_scope.

Section record.
Context `{Nfs4Clients}.

Lemma new_record k T U E y :
  cinv k T U E -> ht_client_record k !! record_key y = None -> cr_refcount y = 1 -> cr_confirmed_rec y = None -> cr_unconfirmed_rec y = None ->
  let r := length (cw_records k) in
  cinv (set_records (cw_records k ++ [Some y]) (<[record_key y := r]> (ht_client_record k)) k) T (KRec r :: U) E.
Proof.
  intros Hk Hf Hc Hcf Huc r. set (k' := set_records _ _ k).
  assert (forall b z, rec_at k' b z <-> rec_at k b z \/ (b = r /\ z = y)) as Hat.
  { intros b z. unfold rec_at. cbn [k' set_records cw_records]. rewrite lookup_app_Some. split.
    - intros [?|[Hl Hz]]; [by left|]. right. apply list_lookup_singleton_Some in Hz as [Hz [= ->]]. unfold r. split; [lia|done].
    - intros [?|[-> ->]]; [by left|]. right. unfold r. split; [lia|]. by rewrite Nat.sub_diag. }
  assert (forall b z, rec_at k b z -> b <> r) as Hold by (intros b z Hz ->; apply lookup_lt_Some in Hz; unfold r in Hz; lia).
  assert (linked k r = 0 /\ refs (KRec r) U = 0) as [Hz1 Hz2].
  { split.
    - unfold linked. rewrite (tally_ext _ (fun _ => 0)).
      + induction (cw_ids k) as [|z l IH] in |- *; cbn [tally]; lia.
      + intros [x|] Hx; [|done]. cbn [linked_to]. apply one_false. intros Hr. apply list_elem_of_lookup in Hx as [c Hx].
        destruct (io_linked _ _ _ _ (ci_id _ _ _ _ Hk c x Hx) r Hr) as (z & Hz). by eapply Hold.
    - pose proof (refs_nonneg (KRec r) U). destruct (decide (0 < refs (KRec r) U)) as [Hp|?]; [|lia].
      destruct (ci_rec_held _ _ _ _ Hk r Hp) as (z & Hz). by destruct (Hold r z). }
  apply (change_records k T U); [done|intros c; by refcounts| | | |].
  - intros c x Hx. destruct (ci_id _ _ _ _ Hk c x Hx) as [_ _ Hpl Hl]. split.
    + apply placed_records; [|done]. intros b z Hz _. exists z. split; [apply Hat; by left|by split].
    + intros b Hb. destruct (Hl b Hb) as (z & ?). exists z. apply Hat. by left.
  - intros b z [Hz|[-> ->]]%Hat.
    + destruct (ci_rec _ _ _ _ Hk b z Hz) as [Rc Rp Rt Rcf Ruc]. pose proof (Hold b z Hz). split; try done; [refcounts; exact Rc|].
      cbn [set_records ht_client_record]. rewrite lookup_insert_ne; [done|]. congruence.
    + split; [|lia| |congruence|congruence]; [|cbn; by rewrite lookup_insert_eq]. change (linked _ r) with (linked k r). refcounts. lia.
  - intros b Hb. destruct (decide (b = r)) as [->|Hn]; [exists y; apply Hat; by right|]. refcounts.
    destruct (ci_rec_held _ _ _ _ Hk b Hb) as (z & ?). exists z. apply Hat. by left.
  - intros key b [[<- <-]|[_ Hb]]%lookup_insert_Some; [exists y; split; [apply Hat; by right|done]|].
    destruct (ci_rec_table _ _ _ _ Hk key b Hb) as (z & ? & ?). exists z. split; [apply Hat; by left|done].
Qed.

Lemma get_record_ends k T U E value flags addr : cinv k T U E -> value <> [] ->
  ends (get_client_record value flags addr k) (fun '(r, k') => cinv k' T (KRec r :: U) E
    /\ (exists rs t, k' = set_records rs t k) /\ exists y, rec_at k' r y /\ cr_client_val y = value /\ cr_pnfs_flags y = flags).
Proof.
  intros Hk Hv. unfold get_client_record. destruct (Nat.eqb_spec (length value) 0) as [Hl|_]; [by destruct value|]. cbn zeta.
  set (y := MkRecord 1 None None addr flags value). destruct (ht_client_record k !! record_key y) as [old|] eqn:Ht.
  - destruct (ci_rec_table _ _ _ _ Hk _ old Ht) as (z & Hz & Hkey). rewrite (get_record_at _ _ _ Hz), res_bind_ret.
    pose proof (ro_positive _ _ _ _ (ci_rec _ _ _ _ Hk old z Hz)). rewrite (proj2 (Z.eqb_neq _ _)) by lia.
    pose proof (inc_record_ends k T U E old z Hk Hz) as He. unfold inc_client_record_ref in He. rewrite (get_record_at _ _ _ Hz), res_bind_ret in He.
    destruct He as (? & ? & ?). cbn [ends]. split; [done|]. split; [by eexists _, _|]. eexists. split; [done|]. unfold record_key in Hkey. by injection Hkey.
  - cbn [ends]. split; [by apply new_record|]. split; [by eexists _, _|]. exists y. split; [|done]. unfold rec_at. cbn [set_records cw_records].
    apply lookup_app_Some. right. split; [lia|]. by rewrite Nat.sub_diag.
Qed.

(** The field of a record whose client id is gone is empty. *)
Lemma unconfirmed_cleared k k' T T' U U' E E' S r y y' u :
  cinv k T U E -> cinv k' T' U' E' -> rec_at k r y -> rec_at k' r y' -> cr_unconfirmed_rec y = Some u -> steady [u] S k k' -> gone u k' ->
  cr_unconfirmed_rec y' = None.
Proof.
  intros Hk Hk' Hy Hy' Hu St Hg. destruct (cr_unconfirmed_rec y') as [b|] eqn:Hb; [|done].
  destruct (ro_unconfirmed _ _ _ _ (ci_rec _ _ _ _ Hk' r y' Hy') b Hb) as (z & Hz & Hs & Hr).
  destruct (decide (b = u)) as [->|Hn]; [rewrite (Hg z Hz) in Hs; done|].
  destruct (st_ids _ _ _ _ St b z Hz) as (z0 & Hz0 & Hn'). destruct Hn' as (n & ->); [by intros ?%list_elem_of_singleton|]. cbn in Hs, Hr.
  pose proof (io_placed _ _ _ _ (ci_id _ _ _ _ Hk b z0 Hz0)) as Hpl. unfold placed in Hpl. rewrite Hs in Hpl.
  destruct Hpl as (_ & _ & r2 & y2 & Hr2 & Hy2 & Hc2). assert (r2 = r) as -> by congruence. rewrite (rec_unique _ _ _ _ Hy2 Hy) in Hc2. congruence.
Qed.

Lemma confirmed_cleared k k' T T' U U' E E' S r y y' u :
  cinv k T U E -> cinv k' T' U' E' -> rec_at k r y -> rec_at k' r y' -> cr_confirmed_rec y = Some u -> steady [u] S k k' -> gone u k' ->
  cr_confirmed_rec y' = None.
Proof.
  intros Hk Hk' Hy Hy' Hu St Hg. destruct (cr_confirmed_rec y') as [b|] eqn:Hb; [|done].
  destruct (ro_confirmed _ _ _ _ (ci_rec _ _ _ _ Hk' r y' Hy') b Hb) as (z & Hz & Hs & Hr).
  destruct (decide (b = u)) as [->|Hn]; [rewrite (Hg z Hz) in Hs; done|].
  destruct (st_ids _ _ _ _ St b z Hz) as (z0 & Hz0 & Hn'). destruct Hn' as (n & ->); [by intros ?%list_elem_of_singleton|]. cbn in Hs, Hr.
  pose proof (io_placed _ _ _ _ (ci_id _ _ _ _ Hk b z0 Hz0)) as Hpl. unfold placed in Hpl. rewrite Hs in Hpl.
  destruct Hpl as (_ & _ & r2 & y2 & Hr2 & Hy2 & Hc2). assert (r2 = r) as -> by congruence. rewrite (rec_unique _ _ _ _ Hy2 Hy) in Hc2. congruence.
Qed.
End record.

Section exchange.
Context `{Nfs4Clients}.

(** The client id that EXCHANGE_ID makes. *)
Definition new_id (arg : EXCHANGE_ID4args) (rq : op_request) (r : nat) (k : cworld) : nfs_client_id_t :=
  MkClid (number (clientid_counter k + 1)) (co_verifier arg) UNCONFIRMED_CLIENT_ID (or_credential rq) (Some r)
         1 (MkCreate NFS4ERR_SEQ_MISORDERED None) 1 (or_client rq).

Lemma exchange_insert_eq arg rq r y k T U E gsh :
  cinv k T U E -> rec_at k r y -> or_client rq = Some gsh -> clientid_counter k + 1 < 2 ^ 32 ->
  exchange_insert arg rq r k
  = Ret (length (cw_ids k), CLIENT_ID_SUCCESS, with_id (new_id arg rq r k) r y k).
Proof.
  intros Hk Hy Hg Hn. pose proof (lookup_lt_Some _ _ _ Hy) as Hlr. pose proof (na_counter _ _ (ci_names _ _ _ _ Hk)) as Hpos.
  pose proof (new_number k T U E false Hk) as Hnew. cbn [table_of] in Hnew. unfold number in Hnew.
  assert (forall z, (cw_ids k ++ [Some z]) !! length (cw_ids k) = Some (Some z)) as Hlast.
  { intros z. rewrite lookup_app_r, Nat.sub_diag by lia. done. }
  assert (forall z z', <[length (cw_ids k) := Some z']> (cw_ids k ++ [Some z]) = cw_ids k ++ [Some z']) as Hins.
  { intros z z'. rewrite insert_app_r_alt, Nat.sub_diag by lia. done. }
  unfold exchange_insert, create_client_id, new_clientid. rewrite wrap_u_small by lia. rewrite Hg. cbn [deref]. rewrite !res_bind_ret. flat.
  unfold inc_client_record_ref, get_record. flat. rewrite Hy, !res_bind_ret. flat.
  unfold get_id at 1. flat. rewrite Hlast, res_bind_ret. cbn zeta. flat.
  rewrite Hins.
  unfold nfs_client_id_insert, get_id at 1. flat. rewrite Hlast, res_bind_ret. cbn [cid_clientid].
  rewrite Hnew.
  unfold inc_client_id_ref, get_id. flat. rewrite Hlast, !res_bind_ret. cbn [cid_client_record deref]. rewrite res_bind_ret. flat.
  unfold get_record. flat. rewrite list_lookup_insert_eq by done. rewrite !res_bind_ret. flat.
  unfold with_id, new_id. by rewrite Hg, Hins, list_insert_insert_eq.
Qed.

(** What EXCHANGE_ID answers for the client id [x] of the record [y]. *)
Definition exchanged (x : nfs_client_id_t) (y : nfs_client_record_t) (confirmed : bool) (owner : list Z) : EXCHANGE_ID4resok :=
  MkExchanged (cid_clientid x) (cid_create_session_sequence x)
    (Z.lor (Z.lor (if confirmed then EXCHGID4_FLAG_CONFIRMED_R else 0) (cr_pnfs_flags y)) EXCHGID4_FLAG_SUPP_MOVED_REFER)
    owner (owner ++ cid_server_scope_suffix ++ [0]).

(** The counters go up by at most one. *)
Definition counted (k k' : cworld) : Prop :=
  clientid_counter k <= clientid_counter k' <= clientid_counter k + 1 /\ global_sequence k <= global_sequence k' <= global_sequence k + 1.

Lemma counted_steady C S k k' : steady C S k k' -> counted k k'.
Proof. intros St. destruct (st_counters _ _ _ _ St). unfold counted. lia. Qed.

(** The sessions of client ids outside [S] can still be found. *)
Definition kept (S : list nat) (k k' : cworld) : Prop :=
  forall sid a s, w_table (cw k) !! sid = Some a -> alive (cw k) a s -> clientid_record s ∉ S ->
    w_table (cw k') !! sid = Some a /\ exists s', alive (cw k') a s' /\ alike s s'.

Lemma kept_trans S k1 k2 k3 : kept S k1 k2 -> kept S k2 k3 -> kept S k1 k3.
Proof.
  intros H1 H2 sid a s Ht Ha Hn. destruct (H1 sid a s Ht Ha Hn) as (Ht2 & s2 & Ha2 & A2).
  destruct (H2 sid a s2 Ht2 Ha2) as (Ht3 & s3 & Ha3 & A3); [by rewrite (al_client _ _ A2)|]. split; [done|]. exists s3. split; [done|by eapply alike_trans].
Qed.
Lemma kept_steady C S k k' : steady C S k k' -> kept S k k'.
Proof. intros St. exact (st_kept _ _ _ _ St). Qed.
Lemma kept_nil S k k' : kept [] k k' -> kept S k k'.
Proof. intros Hk sid a s Ht Ha _. apply Hk; [done..|apply not_elem_of_nil]. Qed.

(** Every session was there before. *)
Definition from_before (k k' : cworld) : Prop := forall a s', alive (cw k') a s' -> exists s, alive (cw k) a s /\ alike s s'.

Lemma from_before_trans k1 k2 k3 : from_before k1 k2 -> from_before k2 k3 -> from_before k1 k3.
Proof.
  intros H1 H2 a s3 Ha. destruct (H2 a s3 Ha) as (s2 & Ha2 & A2). destruct (H1 a s2 Ha2) as (s1 & Ha1 & A1). exists s1. split; [done|by eapply alike_trans].
Qed.
Lemma from_before_steady C S k k' : steady C S k k' -> from_before k k'.
Proof. intros St. exact (st_alive _ _ _ _ St). Qed.

(** The answer names an unconfirmed client id of the principal. *)
Definition offered (rq : op_request) (o : EXCHANGE_ID4resok) (k : cworld) : Prop :=
  exists c x i, id_at k c x /\ cid_confirmed x = UNCONFIRMED_CLIENT_ID /\ cid_clientid x = eir_clientid o
    /\ cid_create_session_sequence x = eir_sequenceid o /\ cid_credential x = or_credential rq /\ eir_clientid o = number i /\ 0 <= i < 2 ^ 32.
Definition answer_ok (rq : op_request) (ok : option EXCHANGE_ID4resok) (k : cworld) : Prop :=
  match ok with Some o => has_flag (eir_flags o) EXCHGID4_FLAG_CONFIRMED_R = true \/ offered rq o k | None => True end.

(** A client id of another principal, without a lease or without state. *)
Definition expirable (rq : op_request) (k : cworld) (c : nat) : Prop :=
  exists x cl, id_at k c x /\ w_clients (cw k) !! c = Some cl /\ nfs_compare_clientcred (cid_credential x) (or_credential rq) = false
    /\ (valid_lease cl (w_time (cw k)) = 0 \/ client_id_has_state (cid_clientid x) (w_fs (cw k)) = false).

(** An answer that was given, and the memory afterwards; references may be left over. *)
Record answered (T : list token) (V : list ref) (E : list nat) (rq : op_request) (k : cworld) (ok : option EXCHANGE_ID4resok) (k' : cworld) : Prop := {
  an_inv : exists U, cinv k' T (V ++ U) E;
  an_counted : counted k k';
  an_answer : answer_ok rq ok k';
  an_kept : exists S, kept S k k' /\ forall c, c ∈ S -> expirable rq k c;
  an_before : from_before k k' }.

Lemma exchange_new_ends arg rq r owner k T U E gsh :
  cinv k T (KRec r :: U) E -> or_client rq = Some gsh -> clientid_counter k + 1 < 2 ^ 32 ->
  ends (exchange_new arg rq r owner k) (fun '(st, ok, k') => st = NFS4_OK /\ cinv k' T (KRec r :: U) E /\ counted k k' /\ kept [] k k' /\ from_before k k' /\ answer_ok rq ok k'
    /\ exists k1 y y', k' = with_id (new_id arg rq r k1) r y k1 /\ clientid_counter k1 = clientid_counter k /\ rec_at k' r y'
         /\ ok = Some (exchanged (new_id arg rq r k) y' false owner)).
Proof.
  intros Hk Hg Hn. destruct (held_record _ _ _ _ _ Hk) as (y & Hy). unfold exchange_new. rewrite (get_record_at _ _ _ Hy), res_bind_ret.
  assert (ends (match cr_unconfirmed_rec y with Some unconf => remove_unconfirmed_client_id unconf k | None => Ret k end)
            (fun k1 => cinv k1 T (KRec r :: U) E /\ (clientid_counter k1 = clientid_counter k /\ global_sequence k1 = global_sequence k)
               /\ kept [] k k1 /\ from_before k k1 /\ forall y1, rec_at k1 r y1 -> cr_unconfirmed_rec y1 = None)) as Hrem.
  { destruct (cr_unconfirmed_rec y) as [u|] eqn:Hu.
    - destruct (ro_unconfirmed _ _ _ _ (ci_rec _ _ _ _ Hk r y Hy) u Hu) as (z & Hz & Hs & _).
      eapply ends_mono; [by eapply remove_unconfirmed_ends|]. intros k1 (Hk1 & S1 & G1). split; [done|]. split; [apply (st_counters _ _ _ _ S1)|].
      split; [by eapply kept_steady|]. split; [by eapply from_before_steady|]. intros y1 Hy1. by eapply (unconfirmed_cleared k k1).
    - split; [done|]. split; [done|]. split; [apply (kept_steady [] []), steady_refl|]. split; [apply (from_before_steady [] []), steady_refl|]. intros y1 Hy1. by rewrite (rec_unique _ _ _ _ Hy1 Hy). }
  eapply ends_then; [exact Hrem|]. intros k1 (Hk1 & [Ec Eg] & Hkept & Hbef & Hnone). destruct (held_record _ _ _ _ _ Hk1) as (y1 & Hy1).
  rewrite (exchange_insert_eq arg rq r y1 k1 T (KRec r :: U) E gsh) by (try done; lia). rewrite res_bind_ret.
  pose proof (created_memory (new_id arg rq r k1) r y1 k1 T (KRec r :: U) E Hk1 Hy1 (Hnone y1 Hy1)) as Hk2. specialize (Hk2 eq_refl eq_refl eq_refl eq_refl).
  unfold exchange_ok. rewrite (get_id_at _ (length (cw_ids k1)) (new_id arg rq r k1)) by (by apply id_at_with; right). rewrite res_bind_ret.
  destruct (held_record _ _ _ _ _ Hk2) as (y2 & Hy2). rewrite (get_record_at _ _ _ Hy2), !res_bind_ret. cbn [ends].
  split; [done|]. split; [done|]. split; [unfold counted; cbn; lia|]. split; [exact Hkept|]. split; [exact Hbef|]. split.
  { right. eexists _, _, (clientid_counter k1 + 1). split; [by apply id_at_with; right|]. pose proof (na_counter _ _ (ci_names _ _ _ _ Hk1)). split_and!; try done; lia. }
  exists k1, y1, y2. split; [done|]. split; [done|]. split; [done|]. unfold exchanged, new_id. by rewrite Ec.
Qed.

Lemma exchange_ok_ends rq r c owner k T U E :
  cinv k T (KId c :: KRec r :: U) E -> ends (exchange_ok r c true owner k) (fun '(st, ok, k') => cinv k' T (KRec r :: U) E /\ quiet k k' /\ answer_ok rq ok k').
Proof.
  intros Hk. destruct (held_id _ _ _ _ _ Hk) as (x & Hx).
  destruct (held_record k T (KId c :: U) E r) as (y & Hy); [by apply cinv_swap|].
  unfold exchange_ok. rewrite (get_id_at _ _ _ Hx), res_bind_ret, (get_record_at _ _ _ Hy), res_bind_ret.
  eapply ends_then; [by apply dec_id_ends|]. intros k' (? & ?). cbn [ends]. split; [done|]. split; [done|]. left. cbn [eir_flags].
  unfold has_flag. destruct (Z.eqb_spec (Z.land (Z.lor (Z.lor EXCHGID4_FLAG_CONFIRMED_R (cr_pnfs_flags y)) EXCHGID4_FLAG_SUPP_MOVED_REFER) EXCHGID4_FLAG_CONFIRMED_R) 0) as [E0|]; [|done].
  apply (f_equal (fun z => Z.testbit z 31)) in E0. by rewrite Z.land_spec, !Z.lor_spec in E0.
Qed.

Lemma counted_after C S k0 k k' : steady C S k0 k -> counted k k' -> counted k0 k'.
Proof. intros St. destruct (st_counters _ _ _ _ St) as [E1 E2]. unfold counted. by rewrite E1, E2. Qed.

Lemma new_answered arg rq r owner k k0 C S T U E gsh :
  cinv k T (KRec r :: U) E -> or_client rq = Some gsh -> clientid_counter k + 1 < 2 ^ 32 -> steady C S k0 k -> (forall c, c ∈ S -> expirable rq k0 c) ->
  ends (exchange_new arg rq r owner k) (fun '(st, ok, k') => answered T [KRec r] E rq k0 ok k').
Proof.
  intros Hk Hg Hn Hs HS. eapply ends_mono; [by eapply exchange_new_ends|]. intros [[st ok] k'] (_ & Hk' & Hc & Hkp & Hbf & Hok & _).
  split; [by exists U|by eapply counted_after|done| |eapply from_before_trans; [by eapply from_before_steady|done]].
  exists S. split; [|done]. eapply kept_trans; [by eapply kept_steady|by apply kept_nil].
Qed.

Lemma steady_answered C T V U E rq k ok k' : steady C [] k k' -> cinv k' T (V ++ U) E -> answer_ok rq ok k' -> answered T V E rq k ok k'.
Proof. intros St Hk Hok. split; [by exists U|by eapply counted_steady|done| |by eapply from_before_steady]. exists []. split; [by eapply kept_steady|]. by intros c ?%elem_of_nil. Qed.

Lemma exchange_record_ends arg rq r owner k T U E gsh :
  cinv k T (KRec r :: U) E -> or_client rq = Some gsh -> clientid_counter k + 1 < 2 ^ 32 ->
  ends (exchange_record arg rq r owner k) (fun '(st, ok, k') => answered T [KRec r] E rq k ok k').
Proof.
  intros Hk Hg Hn. destruct (held_record _ _ _ _ _ Hk) as (y & Hy). unfold exchange_record. cbn zeta. rewrite (get_record_at _ _ _ Hy), res_bind_ret.
  destruct (cr_confirmed_rec y) as [conf|] eqn:Hc.
  2:{ destruct (has_flag _ _); [by apply (steady_answered [] T [KRec r] U); [apply steady_refl|..]|].
      eapply new_answered; [done..|apply (steady_refl [] [])|by intros c ?%elem_of_nil]. }
  destruct (ro_confirmed _ _ _ _ (ci_rec _ _ _ _ Hk r y Hy) conf Hc) as (x & Hx & _ & _).
  eapply ends_then; [by apply inc_id_ends|]. intros k1 (Hk1 & Q1 & Hx1 & _). rewrite (get_id_at _ _ _ Hx1), res_bind_ret.
  pose proof (qu_steady _ _ Q1) as S1. cbn [cid_credential cid_incoming_verifier cid_gsh_client cid_clientid id_refcount].
  assert (forall (st : Z), ends (k ← dec_client_id_ref conf k1; Ret (st, @None EXCHANGE_ID4resok, k)) (fun '(st, ok, k') => answered T [KRec r] E rq k ok k')) as Hfail.
  { intros st. eapply ends_then; [by apply dec_id_ends|]. intros k2 (Hk2 & [_ _ _ Q2]). apply (steady_answered [] T [KRec r] U); [by eapply steady_trans|done..]. }
  assert (ends (exchange_ok r conf true owner k1) (fun '(st, ok, k') => answered T [KRec r] E rq k ok k')) as Hok.
  { eapply ends_mono; [by apply (exchange_ok_ends rq)|]. intros [[st ok] k2] (Hk2 & [_ _ _ Q2] & Ha). apply (steady_answered [] T [KRec r] U); [by eapply steady_trans|done..]. }
  destruct (negb (has_flag _ _)).
  - destruct (nfs_compare_clientcred _ _) eqn:Hcr; cbn [negb].
    + destruct (bool_decide _); [apply Hok|]. eapply new_answered; [by apply cinv_swap|done| |exact S1|by intros c ?%elem_of_nil].
      by rewrite (proj1 (st_counters _ _ _ _ S1)).
    + unfold get_client. destruct (lookup_lt_is_Some_2 (w_clients (cw k1)) conf) as [cl Hcl]; [rewrite <- (ci_length _ _ _ _ Hk1); by eapply lookup_lt_Some|].
      rewrite Hcl. cbn [deref]. rewrite res_bind_ret. destruct (_ || _) eqn:Hor; [|apply Hfail].
      eapply ends_then; [by eapply expire_ends|]. intros [b k2] (Hk2 & S2 & _).
      eapply ends_then; [by apply dec_id_ends|]. intros k3 (Hk3 & [_ _ _ Q3]).
      assert (steady [conf] [conf] k k3) as S3 by (eapply steady_trans; [by apply steady_nil, S1|eapply steady_trans; [done|by apply steady_nil]]).
      eapply new_answered; [done..| |exact S3|]; [by rewrite (proj1 (st_counters _ _ _ _ S3))|]. intros c ->%list_elem_of_singleton. exists x, cl.
      rewrite (qu_cw _ _ Q1) in Hcl, Hor. split; [done|]. split; [done|]. split; [done|]. apply orb_true_iff in Hor as [Hz|Hz]; [left; by apply Z.eqb_eq|right; by apply negb_true_iff].
  - destruct (bool_decide (co_verifier arg = _)); [|apply Hfail]. destruct (_ || _); [apply Hfail|apply Hok].
Qed.

(** The session of the request is held. *)
Definition session_held (d : compound_data) (T : list token) : Prop := forall a, q_session (d_seq d) = Some a -> 0 < cnt (TSession a) T.

Lemma resp_room_ends d w T n : inv w T -> session_held d T -> ends (check_resp_room d w n) (fun _ => True).
Proof.
  intros Hi Hd. unfold check_resp_room, session_attrs. cbn zeta. destruct (d_minorversion d =? 0); [done|].
  destruct (q_session (d_seq d)) as [a|] eqn:Hq.
  - destruct (si_held _ _ (in_sess _ _ Hi) a (Hd a Hq)) as (s & Ha). rewrite (get_session_alive _ _ _ Ha), !res_bind_ret.
    repeat (destruct (_ <? _); [done|]; try (destruct (negb _); [done|])). done.
  - by rewrite res_bind_ret.
Qed.

(** An unconfirmed client id is still there after references were taken or given. *)
Lemma offered_quiet rq o k k' T T' U U' E E' : offered rq o k -> cinv k T U E -> cinv k' T' U' E' -> quiet k k' -> offered rq o k'.
Proof.
  intros (c & x & i & Hx & Hs & Hrest) Hk Hk' Q. pose proof (io_placed _ _ _ _ (ci_id _ _ _ _ Hk c x Hx)) as Hpl. unfold placed in Hpl. rewrite Hs in Hpl.
  destruct Hpl as (_ & Ht & _). rewrite <- (qu_unconfirmed _ _ Q) in Ht. destruct (ci_unconfirmed _ _ _ _ Hk' _ c Ht) as (x' & Hx' & _).
  destruct (quiet_id _ _ _ _ _ Q Hx Hx') as (n & ->). by exists c, (id_refcount n x), i.
Qed.

Lemma exchange_id_ends arg rq k T U gsh :
  cinv k T U [] -> or_client rq = Some gsh -> clientid_counter k + 1 < 2 ^ 32 -> co_ownerid arg <> [] -> session_held (or_data rq) T ->
  ends (nfs4_op_exchange_id arg rq k) (fun '(st, ok, k') => answered T [] [] rq k ok k').
Proof.
  intros Hk Hg Hn Ho Hd. assert (answered T [] [] rq k None k) as Hsame by (apply (steady_answered [] T [] U); [apply steady_refl|done..]).
  unfold nfs4_op_exchange_id. destruct (_ =? 0); [done|]. destruct (negb _); [done|]. destruct cid_server_owner as [owner|]; [|done]. cbn zeta.
  eapply ends_then; [by eapply resp_room_ends; [apply Hk|]|]. intros status _. destruct (negb _); [done|].
  eapply ends_then; [by apply get_record_ends|]. intros [r k1] (Hk1 & (rs & t & ->) & _).
  eapply ends_then; [by eapply exchange_record_ends|]. intros [[st ok] k2] [(U2 & Hk2) Hc Hok (S & Hkp & HS) Hbf]. cbn [app] in Hk2.
  eapply ends_then; [by apply dec_record_ends|]. intros k3 (Hk3 & Q & _). pose proof (qu_steady _ _ Q) as Q3. cbn [ends]. split; [by exists U2| | | |].
  - destruct (st_counters _ _ _ _ Q3). unfold counted in *. cbn in Hc. lia.
  - destruct ok as [o|]; [|done]. destruct Hok as [?|?]; [by left|right]. by eapply offered_quiet.
  - exists S. split; [|done]. eapply kept_trans; [exact Hkp|]. by apply kept_nil, (kept_steady []).
  - eapply from_before_trans; [exact Hbf|by eapply from_before_steady].
Qed.
End exchange.
