(* ===== verification/NfsClientNewSession.v ===== *)
(** * Sessions that are made

    The names of sessions, and the new session of CREATE_SESSION in the memory. *)

From S2P Require Import Prelude NfsProto NfsSession NfsCompound NfsSessionInv NfsSessionOps NfsClient NfsClientInv NfsClientOps.
From S2P Require Import NfsClientSessions NfsClientExpire NfsClientCreate NfsClientExchange.
Local Open Scope Z_scope.

(** ** Names *)

Definition le_bytes (m : nat) (n : Z) : list Z := map (fun i => Z.land (Z.shiftr n (8 * Z.of_nat i)) 255) (seq 0 m).

Lemma low_bytes_S m n : le_bytes (S m) n = Z.land n 255 :: le_bytes m (Z.shiftr n 8).
Proof.
  unfold le_bytes. cbn [seq map]. rewrite Z.shiftr_0_r. f_equal. rewrite <- seq_shift, map_map. apply map_ext. intros i.
  rewrite Z.shiftr_shiftr by lia. do 2 f_equal. lia.
Qed.

Lemma byte_split n : 0 <= n -> n = Z.land n 255 + 256 * Z.shiftr n 8.
Proof. intros Hn. change 255 with (Z.ones 8). rewrite Z.land_ones, Z.shiftr_div_pow2 by lia. change (2 ^ 8) with 256. pose proof (Z.div_mod n 256). lia. Qed.

Lemma le_bytes_inj m : forall a b, 0 <= a < 256 ^ Z.of_nat m -> 0 <= b < 256 ^ Z.of_nat m -> le_bytes m a = le_bytes m b -> a = b.
Proof.
  induction m as [|m IH]; intros a b Ha Hb E; [cbn in *; lia|]. rewrite !low_bytes_S in E. injection E as E1 E2.
  rewrite (byte_split a), (byte_split b) by lia. rewrite E1. do 2 f_equal.
  rewrite Nat2Z.inj_succ, Z.pow_succ_r in Ha, Hb by lia.
  apply IH; [| |done]; rewrite Z.shiftr_div_pow2 by lia; change (2 ^ 8) with 256; (split; [apply Z.div_pos; lia|apply Z.div_lt_upper_bound; lia]).
Qed.

Lemma bytes8_inj a b : 0 <= a < 2 ^ 64 -> 0 <= b < 2 ^ 64 -> bytes8 a = bytes8 b -> a = b.
Proof. intros Ha Hb. by apply (le_bytes_inj 8). Qed.

Lemma bytes8_length n : length (bytes8 n) = 8%nat.
Proof. done. Qed.

Lemma name_inj i j i' j' : 0 <= j < 2 ^ 64 -> 0 <= j' < 2 ^ 64 -> bytes8 i ++ bytes8 j = bytes8 i' ++ bytes8 j' -> j = j'.
Proof. intros Hj Hj' E. apply app_inj_1 in E as [_ E]; [by apply bytes8_inj|done]. Qed.

(** ** The memory of sessions with one more *)

Section session.
Context `{Nfs4Clients}.

Definition add_session (s : nfs41_session) (cl : client_id) (w : world) : world :=
  MkWorld (w_sessions w ++ [Some s]) (w_table w)
    (<[clientid_record s := MkClient (cid_expired cl) (cid_lease_reservations cl) (cid_last_renew cl) (length (w_sessions w) :: cb_session_list cl)]> (w_clients w))
    (w_results w) (w_fs w) (w_time w).

Lemma alive_add s cl w b sb : alive (add_session s cl w) b sb <-> alive w b sb \/ (b = length (w_sessions w) /\ sb = s).
Proof.
  unfold alive. cbn [add_session w_sessions]. rewrite lookup_app_Some. split.
  - intros [?|[Hl Hz]]; [by left|]. right. apply list_lookup_singleton_Some in Hz as [Hz [= ->]]. split; [lia|done].
  - intros [?|[-> ->]]; [by left|]. right. split; [lia|]. by rewrite Nat.sub_diag.
Qed.

Lemma alive_old w b sb : alive w b sb -> b <> length (w_sessions w).
Proof. intros Hb ->. apply alive_length in Hb. lia. Qed.

(** A session that nobody has used. *)
Definition fresh_session (s : nfs41_session) (n : Z) : Prop :=
  refcount s = n /\ Z.of_nat (length (fc_slots s)) = nb_slots s /\ ca_maxrequests (fore_channel_attrs s) = nb_slots s /\ nb_slots s < 2 ^ 32
  /\ forall sl, sl ∈ fc_slots s -> sl = MkSlot 0 false None.

Lemma unused_address w T : inv w T -> cnt (TSession (length (w_sessions w))) T = 0 /\ forall i, cnt (TLock (length (w_sessions w), i)) T = 0.
Proof.
  intros Hi. assert (cnt (TSession (length (w_sessions w))) T = 0) as Hz.
  { pose proof (cnt_nonneg (TSession (length (w_sessions w))) T). destruct (decide (0 < cnt (TSession (length (w_sessions w))) T)) as [Hp|]; [|lia].
    destruct (si_held _ _ (in_sess _ _ Hi) _ Hp) as (s & Hs). by apply alive_old in Hs. }
  split; [done|]. intros i. pose proof (cnt_nonneg (TLock (length (w_sessions w), i)) T).
  destruct (decide (0 < cnt (TLock (length (w_sessions w), i)) T)) as [Hp|]; [|lia]. destruct (si_locked _ _ (in_sess _ _ Hi) _ _ Hp). lia.
Qed.

Lemma add_session_sess s cl w T : inv w T -> fresh_session s 2 -> (clientid_record s < length (w_clients w))%nat ->
  sess_inv (add_session s cl w) (TSession (length (w_sessions w)) :: TSession (length (w_sessions w)) :: T).
Proof.
  intros Hi (Hr & Hl & Hm & Hb & Hsl) Hc. destruct (unused_address w T Hi) as [Hz Hzl]. destruct (in_sess _ _ Hi) as [S1 S2 S3 S4].
  set (a := length (w_sessions w)) in *. split.
  - intros b sb [Hs|[-> ->]]%alive_add.
    + pose proof (alive_old _ _ _ Hs) as Hn. fold a in Hn. destruct (S1 b sb Hs) as [Sc ? ? ? ? Scl Slk]. split; try done.
      * change (table_refs _ b sb) with (table_refs w b sb). counts. lia.
      * cbn. by rewrite length_insert.
    + split; try done; [|lia|cbn; by rewrite length_insert|].
      * unfold table_refs. cbn [add_session w_table]. rewrite decide_False; [fold a; counts; lia|]. intros Ht.
        destruct (S2 _ _ Ht) as (sb & Hsb & _). by apply alive_old in Hsb.
      * intros i sl Hi'. rewrite (Hsl sl) by (apply list_elem_of_lookup; by exists i). cbn [sl_lock sl_sequence]. fold a. counts. rewrite Hzl. split; [lia|done].
  - intros sid b Ht. destruct (S2 sid b Ht) as (sb & ? & ?). exists sb. split; [by apply alive_add; left|done].
  - intros b Hp. destruct (decide (b = a)) as [->|Hn]; [exists s; apply alive_add; by right|]. counts.
    destruct (S3 b Hp) as (sb & ?). exists sb. apply alive_add. by left.
  - intros b i Hp. counts. assert (b <> a) as Hn by (intros ->; specialize (Hzl i); lia). destruct (S4 b i Hp) as (Hp' & sb & sl & Hsb & ?). counts.
    split; [lia|]. exists sb, sl. split; [by apply alive_add; left|done].
Qed.

Lemma fresh_refs s n r : fresh_session s n -> tally (slot_refs r) (fc_slots s) = 0.
Proof.
  intros (_ & _ & _ & _ & Hsl). rewrite (tally_ext _ (fun _ => 0)).
  - induction (fc_slots s) as [|x l IH] in |- *; cbn [tally]; lia.
  - intros sl Hin. by rewrite (Hsl sl Hin).
Qed.

Lemma add_session_inv s cl w T : inv w T -> fresh_session s 2 -> w_clients w !! clientid_record s = Some cl ->
  inv (add_session s cl w) (TSession (length (w_sessions w)) :: TSession (length (w_sessions w)) :: T).
Proof.
  intros Hi Hf Hcl. pose proof (lookup_lt_Some _ _ _ Hcl) as Hlen. split; [by apply add_session_sess| |].
  - intros r. pose proof (in_res _ _ Hi r) as Hr.
    replace (cached_refs r (add_session s cl w)) with (cached_refs r w)
      by (unfold cached_refs; cbn [add_session w_sessions]; rewrite tally_app; cbn [tally session_refs]; rewrite (fresh_refs s 2) by done; lia).
    change (w_results (add_session s cl w)) with (w_results w). counts. rewrite !Z.add_0_l. done.
  - intros c. pose proof (in_client _ _ Hi c) as Hc. cbn [add_session w_clients].
    assert (forall a, (exists sa, alive w a sa /\ clientid_record sa = c) -> exists sa, alive (add_session s cl w) a sa /\ clientid_record sa = c) as Hold
      by (intros a (sa & ? & ?); exists sa; split; [apply alive_add; by left|done]).
    destruct (decide (c = clientid_record s)) as [->|Hn].
    + rewrite list_lookup_insert_eq by done. rewrite Hcl in Hc. destruct Hc as [Hc Hl]. counts. split; [done|].
      cbn [cb_session_list]. intros a [->|Hin]%elem_of_cons; [exists s; split; [apply alive_add; by right|done]|]. auto.
    + rewrite list_lookup_insert_ne by done. counts. destruct (w_clients w !! c); [|done]. destruct Hc as [Hc Hl]. split; [done|]. auto.
Qed.
End session.

(** ** The new session of CREATE_SESSION *)

Section create.
Context `{Nfs4Clients}.

(** The configuration and the arguments are unsigned numbers of 32 bits. *)
Definition config_ok : Prop := 0 < param_nb_slots < 2 ^ 32.
Definition args_ok (arg : CREATE_SESSION4args) : Prop :=
  0 <= ca_maxrequests (csa_fore_chan_attrs arg) < 2 ^ 32 /\ 0 <= csa_sequence arg < 2 ^ 32.

Definition made_attrs (arg : CREATE_SESSION4args) : channel_attrs4 :=
  set_maxrequests (Z.min param_nb_slots (ca_maxrequests (csa_fore_chan_attrs arg))) (csa_fore_chan_attrs arg).
Definition made_session (arg : CREATE_SESSION4args) (xprt : sockaddr) (c : nat) (k : cworld) : nfs41_session :=
  let nb := Z.min param_nb_slots (ca_maxrequests (csa_fore_chan_attrs arg)) in
  MkSession (bytes8 (csa_clientid arg) ++ bytes8 (global_sequence k + 1)) (made_attrs arg) [xprt] c false 2 nb (replicate (Z.to_nat nb) (MkSlot 0 false None)).
Definition made_result (arg : CREATE_SESSION4args) (k : cworld) : CREATE_SESSION4resok :=
  MkCreated (bytes8 (csa_clientid arg) ++ bytes8 (global_sequence k + 1)) (csa_sequence arg) 0 (made_attrs arg) (csa_back_chan_attrs arg).

(** The memory with the new session of the client id [c], which was [x], in the table or not. *)
Definition with_session (s : nfs41_session) (cl : client_id) (x : nfs_client_id_t) (k : cworld) : cworld :=
  MkCw (add_session s cl (cw k)) (<[clientid_record s := Some (id_refcount (cid_refcount x + 1) x)]> (cw_ids k)) (ht_confirmed_client_id k)
       (ht_unconfirmed_client_id k) (cw_records k) (ht_client_record k) (clientid_counter k) (global_sequence k + 1).

Lemma new_session_eq arg xprt c k T U E x :
  cinv k T U E -> id_at k c x -> global_sequence k + 1 < 2 ^ 64 ->
  exists cl, w_clients (cw k) !! c = Some cl /\ new_session arg xprt c k
    = Ret (length (w_sessions (cw k)), made_result arg k, with_session (made_session arg xprt c k) cl x k).
Proof.
  intros Hk Hx Hn. destruct (lookup_lt_is_Some_2 (w_clients (cw k)) c) as [cl Hcl]; [rewrite <- (ci_length _ _ _ _ Hk); by eapply lookup_lt_Some|].
  exists cl. split; [done|]. unfold new_session. cbn zeta. unfold inc_client_id_ref. rewrite (get_id_at _ _ _ Hx), !res_bind_ret. flat.
  unfold get_client. rewrite Hcl. cbn [deref]. rewrite res_bind_ret. unfold nfs41_Build_sessionid. cbn zeta. flat.
  rewrite wrap_u_small by (pose proof (ss_counter _ _ (ci_sessions _ _ _ _ Hk)); lia). done.
Qed.

Lemma made_fresh arg xprt c k : config_ok -> args_ok arg -> fresh_session (made_session arg xprt c k) 2.
Proof.
  intros Hc [Ha _]. unfold config_ok in Hc. unfold fresh_session, made_session, made_attrs, set_maxrequests. cbn. rewrite length_replicate.
  split_and!; try done; try lia. intros sl Hsl. by apply elem_of_replicate_inv in Hsl.
Qed.

(** The name of the new session has not been used. *)
Lemma made_new arg xprt c k T U E a s : cinv k T U E -> global_sequence k + 1 < 2 ^ 64 -> alive (cw k) a s -> session_id s <> session_id (made_session arg xprt c k).
Proof.
  intros Hk Hn Ha E0. destruct (ss_numbered _ _ (ci_sessions _ _ _ _ Hk) a s Ha) as (i & j & Hid & Hj). rewrite Hid in E0. cbn in E0.
  pose proof (ss_counter _ _ (ci_sessions _ _ _ _ Hk)). apply name_inj in E0; lia.
Qed.

Lemma with_session_ok arg xprt c k T U E cl :
  cinv k T U E -> global_sequence k + 1 < 2 ^ 64 -> w_clients (cw k) !! c = Some cl ->
  sessions_ok (add_session (made_session arg xprt c k) cl (cw k)) (global_sequence k + 1).
Proof.
  intros Hk Hn Hcl. pose proof (ci_sessions _ _ _ _ Hk) as [S1 S2 S3 S4 S5]. pose proof (lookup_lt_Some _ _ _ Hcl) as Hlen.
  pose proof (fun a s => made_new arg xprt c k T U E a s Hk Hn) as Hnew. set (s := made_session arg xprt c k) in *. split; [| | | |lia].
  - intros a sa [Ha|[-> ->]]%alive_add; cbn [add_session w_clients].
    + destruct (S1 a sa Ha) as (cla & Hcla & Hin). destruct (decide (clientid_record sa = c)) as [E0|Hne].
      * rewrite E0 in Hcla |- *. rewrite list_lookup_insert_eq by done. eexists. split; [done|]. apply list_elem_of_further. cbn. congruence.
      * rewrite list_lookup_insert_ne by done. by exists cla.
    + rewrite list_lookup_insert_eq by done. eexists. split; [done|]. apply list_elem_of_here.
  - intros b clb Hb. cbn in Hb. apply list_lookup_insert_Some in Hb as [(<- & <- & _)|[_ Hb]]; [|by eapply S2]. cbn. apply NoDup_cons. split; [|by eapply S2].
    intros Hin. pose proof (in_client _ _ (ci_inv _ _ _ _ Hk) c) as Hc. rewrite Hcl in Hc. destruct Hc as [_ Hc].
    destruct (Hc _ Hin) as (sb & Hsb & _). by apply alive_old in Hsb.
  - intros a b sa sb [Ha|[-> ->]]%alive_add [Hb|[-> ->]]%alive_add Hid; [by eapply S3|by destruct (Hnew a sa Ha)|by destruct (Hnew b sb Hb)|done].
  - intros a sa [Ha|[-> ->]]%alive_add; [destruct (S4 a sa Ha) as (i & j & ? & ?); exists i, j; split; [done|lia]|].
    exists (csa_clientid arg), (global_sequence k + 1). split; [done|lia].
Qed.

Lemma with_session_cinv arg xprt c k T U E x cl :
  cinv k T U E -> id_at k c x -> global_sequence k + 1 < 2 ^ 64 -> config_ok -> args_ok arg -> w_clients (cw k) !! c = Some cl ->
  let a := length (w_sessions (cw k)) in
  cinv (with_session (made_session arg xprt c k) cl x k) (TSession a :: TSession a :: T) U E.
Proof.
  intros Hk Hx Hn Hcf Har Hcl a. pose proof (inc_id_ends k T U E c x Hk Hx) as Hinc. unfold inc_client_id_ref in Hinc.
  rewrite (get_id_at _ _ _ Hx), res_bind_ret in Hinc. destruct Hinc as (Hk1 & _ & Hx1 & _). set (s := made_session arg xprt c k).
  apply (change_world _ T (TSession a :: TSession a :: T) (KId c :: U) U E E (add_session s cl (cw k)) (global_sequence k + 1) Hk1); try done.
  - apply add_session_inv; [apply Hk|by apply made_fresh|done].
  - cbn. by rewrite length_insert.
  - intros b. cbn [put_id set_ids cw]. unfold sessions_of. cbn [add_session w_sessions]. rewrite tally_app, refs_cons. cbn [tally session_of].
    replace (is_ref (KId b) (KId c)) with (one (clientid_record s = b)) by (apply one_iff; cbn; split; congruence). lia.
  - intros b sb [Hb|[-> ->]]%alive_add; [by apply (ci_client _ _ _ _ Hk1 b)|by eexists].
  - by apply (with_session_ok arg xprt c k T U E).
  - intros sid b sb z Ht Hb Hz. apply alive_add in Hb as [Hb|[-> ->]]; [by apply (ci_served _ _ _ _ Hk1 sid b sb z)|].
    destruct (si_table _ _ (in_sess _ _ (ci_inv _ _ _ _ Hk)) sid _ Ht) as (sb & Hsb & _). by apply alive_old in Hsb.
Qed.

(** The session is put into the table: the reference goes there. *)
Lemma session_set_cinv k T U E a s :
  cinv k (TSession a :: T) U E -> locks_held T -> alive (cw k) a s -> w_table (cw k) !! session_id s = None ->
  let k' := set_cw (set_table (<[session_id s := a]> (w_table (cw k))) (cw k)) k in cinv k' T U (clientid_record s :: E).
Proof.
  intros Hk Hl Ha Ht k'. pose proof (ci_inv _ _ _ _ Hk) as Hi. destruct (in_sess _ _ Hi) as [S1 S2 S3 S4].
  apply (change_world k (TSession a :: T) T U U E _ _ (global_sequence k)); try done.
  - split; [|eapply res_inv_frame; [| | | |apply Hi]; try done; intros; by counts|eapply client_inv_frame; [| | |apply Hi]; try done; intros; by counts].
    split.
    + intros b sb Hb. destruct (S1 b sb Hb) as [Sc ? ? ? ? ? ?]. split; try done. unfold table_refs in *. cbn [set_table w_table].
      destruct (decide (b = a)) as [->|Hn].
      * assert (sb = s) as -> by (unfold alive in *; cbn in Hb; congruence). rewrite lookup_insert_eq, decide_True by done.
        rewrite Ht, decide_False in Sc by done. counts. lia.
      * destruct (decide (session_id sb = session_id s)) as [Heq|Hd].
        { destruct Hn. by apply (ss_distinct _ _ (ci_sessions _ _ _ _ Hk) b a sb s). }
        { rewrite lookup_insert_ne by done. counts. lia. }
    + intros sid b Hb. cbn in Hb. apply lookup_insert_Some in Hb as [[<- <-]|[_ Hb]]; [by exists s|by apply S2].
    + intros b Hp. destruct (decide (b = a)) as [->|Hn]; [by exists s|]. apply S3. counts. lia.
    + intros b i Hp. destruct (S4 b i) as (_ & ?); [by counts|]. split; [by eapply Hl|done].
  - intros b sb Hb. by apply (ci_client _ _ _ _ Hk b).
  - eapply sessions_ok_same; [apply Hk|intros b sb Hb; by exists sb; split; [|apply alike_refl]|intros c cl Hcl; by exists cl|done].
  - intros sid b sb z Hb Hsb Hz. cbn in Hb. apply lookup_insert_Some in Hb as [[_ <-]|[_ Hb]].
    + left. unfold alive in *. cbn in Hsb. simplify_eq. apply list_elem_of_here.
    + destruct (ci_served _ _ _ _ Hk sid b sb z Hb Hsb Hz); [left; by apply list_elem_of_further|by right].
Qed.
End create.

(** ** CREATE_SESSION

    [nfs4_op_create_session] ends for any request, keeps the invariant, and what it does: a
    session is made and can be found, its client id is confirmed and takes the place of the
    one that its owner had, and the reply is kept for a request that is sent again. *)

Section confirm.
Context `{Nfs4Clients}.

Lemma steady_more C S C' S' k k' : steady C S k k' -> C ⊆ C' -> S ⊆ S' -> steady C' S' k k'.
Proof. intros St HC HS. by eapply steady_weaken. Qed.

Lemma kept_id C S c k k' x x' : steady C S k k' -> c ∉ C -> id_at k c x -> id_at k' c x' -> exists n, x' = id_refcount n x.
Proof. intros St Hc Hx Hx'. destruct (st_ids _ _ _ _ St c x' Hx') as (z & Hz & Hn). rewrite (id_unique _ _ _ _ Hz Hx) in Hn. auto. Qed.

(** The client ids of the owner that give way to [c]. *)
Definition replaced (k : cworld) (r c : nat) (olds : list nat) (k' : cworld) : Prop :=
  forall y, rec_at k r y -> match cr_confirmed_rec y with
    | Some old => (old = c /\ olds = []) \/ (old <> c /\ olds = [old] /\ gone old k')
    | None => olds = []
    end.

(** Expiry of the confirmed client id that an unconfirmed one takes the place of. *)
Lemma expire_old_ends arg r c k T U E x y :
  cinv k T (KId c :: KRec r :: U) E -> id_at k c x -> cid_confirmed x = UNCONFIRMED_CLIENT_ID -> cid_clientid x = csa_clientid arg -> rec_at k r y ->
  ends (confirmed_client arg r c false k)
       (fun '(o, k') => o = None /\ cinv k' T (KId c :: KRec r :: U) E
          /\ exists olds, replaced k r c olds k' /\ (c ∉ olds) /\ steady olds olds k k' /\ forall y', rec_at k' r y' -> cr_confirmed_rec y' = None).
Proof.
  intros Hk Hx Hs Hn Hy. unfold confirmed_client. rewrite (get_record_at _ _ _ Hy), res_bind_ret. destruct (cr_confirmed_rec y) as [conf|] eqn:Hc.
  - destruct (ro_confirmed _ _ _ _ (ci_rec _ _ _ _ Hk r y Hy) conf Hc) as (z & Hz & Hsz & _).
    assert (conf <> c) as Hne by (intros ->; rewrite (id_unique _ _ _ _ Hz Hx) in Hsz; congruence).
    eapply (ends_then _ _ (fun '(o, k1) => o = Some conf /\ cinv k1 T (KId conf :: KId c :: KRec r :: U) E /\ quiet k k1
                                          /\ id_at k1 conf (id_refcount (cid_refcount z + 1) z))).
    { eapply ends_then; [by apply inc_id_ends|]. intros k1 (? & ? & ? & _). done. }
    intros [o k1] (-> & Hk1 & Q1 & Hz1). rewrite (get_id_at _ _ _ Hz1), res_bind_ret.
    rewrite (proj2 (Z.eqb_neq _ _)); [|intros E0; apply Hne; apply (na_distinct _ _ (ci_names _ _ _ _ Hk) conf c z x Hz Hx); cbn in E0; congruence].
    eapply ends_then; [by eapply expire_ends|]. intros [b k2] (Hk2 & S2 & G2).
    eapply ends_then; [by apply dec_id_ends|]. intros k3 (Hk3 & Q3). pose proof (qu_steady _ _ Q1) as S1. pose proof (qu_steady _ _ Q3) as S3.
    assert (steady [conf] [conf] k k3) as S13 by (eapply steady_trans; [by apply steady_nil, S1|eapply steady_trans; [done|by apply steady_nil]]).
    assert (gone conf k3) as G3 by (eapply gone_steady; [exact S3|apply not_elem_of_nil|done]).
    split; [done|]. split; [done|]. exists [conf]. split.
    + intros y' Hy'. rewrite (rec_unique _ _ _ _ Hy' Hy), Hc. right. done.
    + split; [by intros ?%list_elem_of_singleton|]. split; [done|]. intros y' Hy'. by eapply (confirmed_cleared k k3).
  - rewrite res_bind_ret. cbn [ends]. split; [done|]. split; [done|]. exists []. split.
    + intros y' Hy'. by rewrite (rec_unique _ _ _ _ Hy' Hy), Hc.
    + split; [apply not_elem_of_nil|]. split; [apply steady_refl|]. intros y' Hy'. by rewrite (rec_unique _ _ _ _ Hy' Hy).
Qed.

(** The client id is confirmed in the end. *)
Record confirmed (T : list token) (U : list ref) (E : list nat) (r c : nat) (x : nfs_client_id_t) (k k' : cworld) : Prop := {
  cf_inv : cinv k' T U E;
  cf_id : exists n, id_at k' c (id_refcount n (id_state CONFIRMED_CLIENT_ID x));
  cf_steady : exists olds, replaced k r c olds k' /\ (c ∉ olds) /\ steady (c :: olds) olds k k' }.

Lemma confirm_client_ends arg r c confirmed0 k T U E x :
  cinv k T (KId c :: KRec r :: U) (c :: E) -> id_at k c x -> cid_client_record x = Some r -> cid_clientid x = csa_clientid arg ->
  cid_confirmed x = (if confirmed0 : bool then CONFIRMED_CLIENT_ID else UNCONFIRMED_CLIENT_ID) ->
  ends (confirm_client arg r c confirmed0 k) (fun '(rc, conf, k') => rc = CLIENT_ID_SUCCESS /\ conf = c
    /\ confirmed T (KId c :: KRec r :: U) E r c x k k').
Proof.
  intros Hk Hx Hr Hn Hs. unfold confirm_client. destruct confirmed0.
  - unfold confirmed_client. rewrite !res_bind_ret, (get_id_at _ _ _ Hx), res_bind_ret, Hn, Z.eqb_refl. cbn [negb]. rewrite res_bind_ret. cbn [ends].
    split; [done|]. split; [done|]. split.
    + by eapply cinv_settle_confirmed.
    + exists (cid_refcount x). rewrite <- Hs. by destruct x.
    + exists []. split; [|split; [apply not_elem_of_nil|apply steady_refl]]. intros y Hy.
      pose proof (io_placed _ _ _ _ (ci_id _ _ _ _ Hk c x Hx)) as Hpl. unfold placed in Hpl. rewrite Hs in Hpl.
      destruct Hpl as (_ & _ & r' & y' & Hr' & Hy' & Hc'). assert (r' = r) as -> by congruence. rewrite (rec_unique _ _ _ _ Hy Hy'), Hc'. by left.
  - destruct (held_record k T (KId c :: U) (c :: E) r) as (y & Hy); [by apply cinv_swap|].
    eapply ends_then; [by eapply (expire_old_ends arg r c k T U (c :: E) x y)|]. intros [o k1] (-> & Hk1 & olds & Hrep & Hni & S1 & Hcl).
    destruct (held_id _ _ _ _ _ Hk1) as (x1 & Hx1). destruct (kept_id _ _ _ _ _ _ _ S1 Hni Hx Hx1) as (n & ->).
    destruct (held_record k1 T (KId c :: U) (c :: E) r) as (y1 & Hy1); [by apply cinv_swap|].
    eapply ends_then; [by eapply confirm_ends; [..|apply (Hcl y1)]|]. intros [rc k2] (-> & Hk2 & S2 & Hx2).
    rewrite (get_id_at _ _ _ Hx2), res_bind_ret. cbn [ends].
    destruct (fs_cinv k2 _ _ _ (nfs4_chk_clid (cid_clientid x) (w_fs (cw k2))) Hk2) as [Hk3 S3]. split; [done|]. split; [done|].
    assert (steady (c :: olds) olds k (set_cw (set_fs (nfs4_chk_clid (cid_clientid x) (w_fs (cw k2))) (cw k2)) k2)) as S13.
    { eapply steady_trans; [eapply steady_more; [exact S1|by apply list_subseteq_cons|done]|].
      eapply steady_trans; [eapply steady_more; [exact S2|intros z ->%list_elem_of_singleton; apply list_elem_of_here|apply list_subseteq_nil]|by apply steady_nil]. }
    split; [by eapply cinv_settle_confirmed|by exists n|]. exists olds. split; [|done]. intros y' Hy'. specialize (Hrep y' Hy').
    destruct (cr_confirmed_rec y') as [old|]; [|done]. destruct Hrep as [?|(? & -> & G)]; [by left|right]. split; [done|]. split; [done|].
    apply (gone_steady _ _ _ _ _ S3); [apply not_elem_of_nil|]. apply (gone_steady _ _ _ _ _ S2); [by intros ?%list_elem_of_singleton|done].
Qed.
End confirm.

Section finish.
Context `{Nfs4Clients}.

Lemma renew_cinv k T U E c cl t :
  cinv k T U E -> w_clients (cw k) !! c = Some cl ->
  let k' := set_cw (put_client c (MkClient (cid_expired cl) (cid_lease_reservations cl) t (cb_session_list cl)) (cw k)) k in
  cinv k' T U E /\ steady [] [] k k'.
Proof.
  intros Hk Hcl k'. pose proof (in_client _ _ (ci_inv _ _ _ _ Hk) c) as Hc. rewrite Hcl in Hc. split.
  - apply (change_world k T T U U E E _ (global_sequence k)); try done; [| |by apply (ci_client _ _ _ _ Hk)| |by apply (ci_served _ _ _ _ Hk)].
    + eapply (put_client_moves [] [] (cw k) T T); [apply Hk|done..|apply Hc].
    + cbn. by rewrite length_insert.
    + eapply sessions_ok_same; [apply Hk|intros b sb Hb; by exists sb; split; [|apply alike_refl]| |cbn; by rewrite length_insert].
      intros b clb Hb.
      destruct (put_client_lists (cw k) c cl (MkClient (cid_expired cl) (cid_lease_reservations cl) t (cb_session_list cl)) b clb Hcl eq_refl Hb) as (cl0 & ? & ?).
      by exists cl0.
  - split; try done.
    + intros b z Hz. exists z. split; [done|]. intros _. exists (cid_refcount z). by rewrite refcount_same.
    + intros b sb Hb. exists sb. split; [done|apply alike_refl].
    + intros sid b sb Ht Hb _. split; [done|]. exists sb. split; [done|apply alike_refl].
Qed.

Lemma steady_put_id k c x x' : id_at k c x -> steady [c] [] k (put_id c (Some x') k).
Proof.
  intros Hx. pose proof (lookup_lt_Some _ _ _ Hx) as Hl. apply steady_ids; try done; [cbn; by rewrite length_insert|].
  intros b z Hz. apply id_at_put in Hz as [[<- _]|[_ Hz]]; [| |done].
  - exists x. split; [done|]. intros Hn. by destruct Hn; apply list_elem_of_here.
  - exists z. split; [done|]. intros _. exists (cid_refcount z). by rewrite refcount_same.
Qed.

Lemma slot_cinv k T U E c x n slot : cinv k T U E -> id_at k c x ->
  let k' := put_id c (Some (id_slot n slot x)) k in cinv k' T U E /\ steady [c] [] k k' /\ id_at k' c (id_slot n slot x).
Proof.
  intros Hk Hx k'. split; [|split; [by eapply steady_put_id|]].
  - apply (touch_id k T U U E c x); try done; [cbn; lia|]. apply (io_positive _ _ _ _ (ci_id _ _ _ _ Hk c x Hx)).
  - apply id_at_put; [by eapply lookup_lt_Some|by left].
Qed.

(** The back channel of the session. *)
Definition set_bc (s : nfs41_session) : nfs41_session :=
  MkSession (session_id s) (fore_channel_attrs s) (connections s) (clientid_record s) true (refcount s) (nb_slots s) (fc_slots s).

Lemma bc_cinv k T U E a s : cinv k T U E -> alive (cw k) a s ->
  let k' := set_cw (put_session a (Some (set_bc s)) (cw k)) k in cinv k' T U E /\ steady [] [] k k'.
Proof.
  intros Hk Ha. pose proof (si_session _ _ (in_sess _ _ (ci_inv _ _ _ _ Hk)) a s Ha) as Hs.
  apply (put_session_cinv k T T U E a s); try done. eapply (put_session_moves [] [] (cw k) T T a s (set_bc s)); try done; [apply Hk|cbn; lia|apply Hs|apply Hs|].
  intros i Hc. destruct (si_locked _ _ (in_sess _ _ (ci_inv _ _ _ _ Hk)) a i Hc) as (? & s' & sl & Hs' & Hsl). split; [done|].
  apply lookup_lt_Some in Hsl. unfold alive in *. congruence.
Qed.

Lemma channel_ends arg xprt a ok k T U E :
  cinv k (TSession a :: T) U E -> ends (create_channel arg xprt a ok k) (fun '(ok', k') => cinv k' (TSession a :: T) U E /\ steady [] [] k k'
    /\ cw_ids k' = cw_ids k /\ csr_sessionid ok' = csr_sessionid ok).
Proof.
  intros Hk. unfold create_channel. destruct (has_flag _ _); [|split; [done|]; split; [apply steady_refl|done]].
  destruct (nfs_rpc_create_chan_v41 xprt (csa_cb_program arg) (w_fs (cw k))) as [up f]. cbn zeta.
  destruct (fs_cinv k _ _ _ f Hk) as [Hk1 S1]. destruct up; [|done].
  destruct (si_held _ _ (in_sess _ _ (ci_inv _ _ _ _ Hk1)) a) as (s & Ha); [pose proof (cnt_nonneg (TSession a) T); counts; lia|].
  rewrite (get_session_alive _ _ _ Ha), res_bind_ret. cbn [ends]. destruct (bc_cinv _ _ _ _ a s Hk1 Ha) as [Hk2 S2].
  split; [done|]. split; [by eapply steady_trans|done].
Qed.

Lemma finish_ends arg xprt a c ok k T U E x :
  cinv k (TSession a :: T) U E -> id_at k c x ->
  ends (finish_create arg xprt a c ok k) (fun '(res, k') => cinv k' (TSession a :: T) U E /\ steady [c] [] k k'
    /\ (exists ok', res = MkCreate NFS4_OK (Some ok') /\ csr_sessionid ok' = csr_sessionid ok)
    /\ id_at k' c (id_slot (wrap_u 32 (cid_create_session_sequence x + 1)) res x)).
Proof.
  intros Hk Hx. unfold finish_create. rewrite (get_id_at _ _ _ Hx), res_bind_ret. cbn zeta. unfold get_client.
  destruct (lookup_lt_is_Some_2 (w_clients (cw k)) c) as [cl Hcl]; [rewrite <- (ci_length _ _ _ _ Hk); by eapply lookup_lt_Some|].
  rewrite Hcl. cbn [deref]. rewrite res_bind_ret. destruct (renew_cinv k _ U E c cl (w_time (cw k)) Hk Hcl) as [Hk1 S1].
  set (k1 := set_cw _ k) in *.
  destruct (slot_cinv k1 _ U E c x (wrap_u 32 (cid_create_session_sequence x + 1)) (cid_create_session_slot x) Hk1 Hx) as (Hk2 & S2 & Hx2).
  eapply ends_then; [by apply channel_ends|]. intros [ok' k3] (Hk3 & S3 & Ei & Hid).
  assert (id_at k3 c (id_slot (wrap_u 32 (cid_create_session_sequence x + 1)) (cid_create_session_slot x) x)) as Hx3 by (unfold id_at; by rewrite Ei).
  rewrite (get_id_at _ _ _ Hx3), res_bind_ret. cbn [ends cid_create_session_sequence id_slot].
  destruct (slot_cinv k3 _ U E c _ (wrap_u 32 (cid_create_session_sequence x + 1)) (MkCreate NFS4_OK (Some ok')) Hk3 Hx3) as (Hk4 & S4 & Hx4).
  split; [done|]. split; [|split; [by exists ok'|done]].
  eapply steady_trans; [by apply steady_nil, S1|]. eapply steady_trans; [exact S2|]. eapply steady_trans; [by apply steady_nil, S3|done].
Qed.
End finish.
