(* ===== verification/NfsClientGrant.v ===== *)
(** * CREATE_SESSION: the whole operation *)

From S2P Require Import Prelude NfsProto NfsSession NfsCompound NfsSessionInv NfsSessionOps NfsClient NfsClientInv NfsClientOps.
From S2P Require Import NfsClientSessions NfsClientExpire NfsClientCreate NfsClientExchange NfsClientNewSession.
Local Open Scope Z_scope.

Section grant.
Context `{Nfs4Clients}.

(** A session was made for the client id [c], which was [x], of the record [r]. *)
Record granted (arg : CREATE_SESSION4args) (r c : nat) (x : nfs_client_id_t) (k : cworld) (ok : CREATE_SESSION4resok) (a : nat) (k' : cworld) : Prop := {
  g_id : exists n, id_at k' c (id_slot (wrap_u 32 (csa_sequence arg + 1)) (MkCreate NFS4_OK (Some ok)) (id_refcount n (id_state CONFIRMED_CLIENT_ID x)));
  g_table : w_table (cw k') !! csr_sessionid ok = Some a;
  g_session : exists s, alive (cw k') a s /\ clientid_record s = c /\ session_id s = csr_sessionid ok /\ fore_channel_attrs s = made_attrs arg;
  g_new : w_table (cw k) !! csr_sessionid ok = None;
  g_others : exists olds, replaced k r c olds k' /\ (c ∉ olds)
    /\ (forall sid b s, w_table (cw k) !! sid = Some b -> alive (cw k) b s -> clientid_record s ∉ olds ->
          w_table (cw k') !! sid = Some b /\ exists s', alive (cw k') b s' /\ alike s s')
    /\ (forall b z', id_at k' b z' -> b <> c -> b ∉ olds -> exists z n, id_at k b z /\ z' = id_refcount n z);
  g_counters : clientid_counter k' = clientid_counter k /\ global_sequence k' = global_sequence k + 1;
  g_fresh : forall s, ~ alive (cw k) a s;
  g_before : forall b s', alive (cw k') b s' -> b <> a -> exists s, alive (cw k) b s /\ alike s s' }.

(** What comes after the session was made does not take it back. *)
Lemma granted_steady arg r c x k ok a k1 k2 T U E : granted arg r c x k ok a k1 -> steady [] [] k1 k2 -> cinv k2 T U E -> granted arg r c x k ok a k2.
Proof.
  intros [(n & Gi) Gt (s & Ha & Hc & Hid & Hat) Gn (olds & Hr & Hni & Hk & Hi) Gc Gf Gb] St Hk2.
  destruct (st_kept _ _ _ _ St _ a s Gt Ha (not_elem_of_nil _)) as (Ht2 & s2 & Ha2 & [E1 E2 E3 _ _]).
  destruct (ci_client _ _ _ _ Hk2 a s2 Ha2) as (x2 & Hx2). rewrite E3, Hc in Hx2. split; [|done| |done| | |done|].
  - destruct (kept_id _ _ _ _ _ _ _ St (not_elem_of_nil c) Gi Hx2) as (m & ->). by exists m.
  - exists s2. split_and!; congruence.
  - exists olds. split; [|split; [done|split]].
    + intros y Hy. specialize (Hr y Hy). destruct (cr_confirmed_rec y); [|done]. destruct Hr as [?|(? & ? & G)]; [by left|right].
      split_and!; try done. by apply (gone_steady _ _ _ _ _ St); [apply not_elem_of_nil|].
    + intros sid b sb Ht Hb Hn. destruct (Hk sid b sb Ht Hb Hn) as (Ht1 & sb1 & Hb1 & Al1).
      destruct (st_kept _ _ _ _ St sid b sb1 Ht1 Hb1 (not_elem_of_nil _)) as (? & sb2 & ? & ?). split; [done|]. exists sb2. split; [done|by eapply alike_trans].
    + intros b z' Hz Hne Hno. destruct (st_ids _ _ _ _ St b z' Hz) as (z1 & Hz1 & E0). destruct (E0 (not_elem_of_nil b)) as (m & ->).
      destruct (Hi b z1 Hz1 Hne Hno) as (z & m' & ? & ->). by exists z, m.
  - destruct (st_counters _ _ _ _ St) as [-> ->]. done.
  - intros b s' Hb Hne. destruct (st_alive _ _ _ _ St b s' Hb) as (s1 & Hs1 & A1). destruct (Gb b s1 Hs1 Hne) as (s0 & ? & ?).
    exists s0. split; [done|by eapply alike_trans].
Qed.

Lemma locks_held_cons a T : locks_held T -> locks_held (TSession a :: T).
Proof. intros Hl b i Hp. rewrite cnt_cons in *. pose proof (is_token_nonneg (TSession b) (TSession a)). rewrite is_token_other in Hp by done. specialize (Hl b i). lia. Qed.

(** The session is made and put into the table. *)
Lemma made_ends arg xprt c k T U x :
  cinv k T U [] -> id_at k c x -> global_sequence k + 1 < 2 ^ 64 -> config_ok -> args_ok arg ->
  let a := length (w_sessions (cw k)) in let s := made_session arg xprt c k in
  exists cl, new_session arg xprt c k = Ret (a, made_result arg k, with_session s cl x k)
    /\ nfs41_Session_Set a (cw (with_session s cl x k)) = Ret (true, set_table (<[session_id s := a]> (w_table (cw k))) (add_session s cl (cw k)))
    /\ w_table (cw k) !! session_id s = None
    /\ cinv (set_cw (set_table (<[session_id s := a]> (w_table (cw k))) (add_session s cl (cw k))) (with_session s cl x k)) (TSession a :: T) U [c].
Proof.
  intros Hk Hx Hn Hcf Har a s. destruct (new_session_eq arg xprt c k T U [] x Hk Hx Hn) as (cl & Hcl & E0). exists cl. split; [done|].
  pose proof (with_session_cinv arg xprt c k T U [] x cl Hk Hx Hn Hcf Har Hcl) as Hk1. fold s in Hk1. cbn zeta in Hk1.
  assert (w_table (cw k) !! session_id s = None) as Hfree.
  { destruct (w_table (cw k) !! session_id s) as [b|] eqn:Hb; [|done]. destruct (si_table _ _ (in_sess _ _ (ci_inv _ _ _ _ Hk)) _ b Hb) as (sb & Hsb & Hid).
    by destruct (made_new arg xprt c k T U [] b sb Hk Hn Hsb). }
  assert (alive (add_session s cl (cw k)) a s) as Ha by (apply alive_add; by right).
  split; [|split; [done|]].
  - unfold nfs41_Session_Set. rewrite (get_session_alive (cw (with_session s cl x k)) a s Ha), res_bind_ret.
    change (w_table (cw (with_session s cl x k))) with (w_table (cw k)). by rewrite Hfree.
  - apply (session_set_cinv (with_session s cl x k) (TSession a :: T) U [] a s Hk1); [|done|done]. eapply locks_held_cons, inv_locks_held, Hk.
Qed.

(** Whether the request is one for which a session is made. *)
Definition acceptable (arg : CREATE_SESSION4args) (rq : op_request) (x : nfs_client_id_t) : Prop :=
  csa_sequence arg = cid_create_session_sequence x /\ nfs_compare_clientcred (cid_credential x) (or_credential rq) = true
  /\ Z.land (csa_flags arg) (Z.lnot create_flags) = 0
  /\ attrs_too_small (csa_fore_chan_attrs arg) = false /\ attrs_too_small (csa_back_chan_attrs arg) = false.

Definition repeats (arg : CREATE_SESSION4args) (x : nfs_client_id_t) : Prop := wrap_u 32 (csa_sequence arg + 1) = cid_create_session_sequence x.

(** The answer without a session. *)
Definition refused (arg : CREATE_SESSION4args) (rq : op_request) (x : nfs_client_id_t) (res : CREATE_SESSION4res) : Prop :=
  (repeats arg x /\ res = cid_create_session_slot x)
  \/ (~ repeats arg x /\ ~ acceptable arg rq x /\ csr_status res <> NFS4_OK /\ csr_resok4 res = None).

Lemma create_answer_spec arg rq x :
  match create_answer arg rq x with Some res => refused arg rq x res | None => ~ repeats arg x /\ acceptable arg rq x end.
Proof.
  unfold create_answer, refused, repeats, acceptable. cbn zeta.
  destruct (Z.eqb_spec (wrap_u 32 (csa_sequence arg + 1)) (cid_create_session_sequence x)) as [Hrep|Hrep]; [by left|].
  destruct (Z.eqb_spec (csa_sequence arg) (cid_create_session_sequence x)) as [Hsq|Hsq]; cbn [negb]; [|right; split_and!; try done; tauto].
  destruct (nfs_compare_clientcred _ _); cbn [negb]; [|right; split_and!; try done; intuition congruence].
  destruct (Z.eqb_spec (Z.land (csa_flags arg) (Z.lnot create_flags)) 0) as [Hfl|Hfl]; cbn [negb]; [|right; split_and!; try done; tauto].
  destruct (attrs_too_small (csa_fore_chan_attrs arg)); cbn [orb]; [right; split_and!; try done; intuition congruence|].
  destruct (attrs_too_small (csa_back_chan_attrs arg)); [right; split_and!; try done; intuition congruence|done].
Qed.

Lemma confirmed_granted arg r c x xprt k cl k1 k2 T U n :
  let a := length (w_sessions (cw k)) in let s := made_session arg xprt c k in let ok0 := made_result arg k in
  let kb := set_cw (set_table (<[session_id s := a]> (w_table (cw k))) (add_session s cl (cw k))) (with_session s cl x k) in
  cinv k T U [] -> id_at k c x -> global_sequence k + 1 < 2 ^ 64 -> csa_sequence arg = cid_create_session_sequence x ->
  confirmed (TSession a :: T) U [] r c (id_refcount n x) kb k1 -> steady [c] [] k1 k2 -> 
  forall ok x1, csr_sessionid ok = csr_sessionid ok0 -> id_at k1 c x1 ->
  id_at k2 c (id_slot (wrap_u 32 (cid_create_session_sequence x1 + 1)) (MkCreate NFS4_OK (Some ok)) x1) ->
  granted arg r c x k ok a k2.
Proof.
  intros a s ok0 kb Hk Hx Hn Hsq [Hk1 (m & Hi1) (olds & Hrep & Hni & S1)] S2 ok x1 Hid Hx1 Hx2.
  rewrite (id_unique _ _ _ _ Hx1 Hi1) in Hx2. cbn [cid_create_session_sequence id_refcount id_state] in Hx2.
  assert (steady (c :: olds) olds kb k2) as S12.
  { eapply steady_trans; [exact S1|]. eapply steady_more; [exact S2|intros z ->%list_elem_of_singleton; apply list_elem_of_here|apply list_subseteq_nil]. }
  assert (alive (cw kb) a s) as Ha by (apply alive_add; by right).
  destruct (st_kept _ _ _ _ S12 (session_id s) a s) as (Ht2 & s2 & Ha2 & [E1 E2 E3 _ _]); [by cbn; rewrite lookup_insert_eq|done|done|].
  split.
  - exists m. rewrite Hsq. exact Hx2.
  - by rewrite Hid.
  - exists s2. rewrite Hid. split_and!; try done; by rewrite E1.
  - rewrite Hid. destruct (w_table (cw k) !! csr_sessionid ok0) as [b|] eqn:Hb; [|done].
    destruct (si_table _ _ (in_sess _ _ (ci_inv _ _ _ _ Hk)) _ b Hb) as (sb & Hsb & Hidb). by destruct (made_new arg xprt c k T U [] b sb Hk Hn Hsb).
  - exists olds. split; [|split; [done|split]].
    + intros y Hy. specialize (Hrep y Hy). destruct (cr_confirmed_rec y) as [old|]; [|done]. destruct Hrep as [?|(? & ? & G)]; [by left|right].
      split_and!; try done. apply (gone_steady _ _ _ _ _ S2); [by intros ?%list_elem_of_singleton|done].
    + intros sid b sb Ht Hb Hno. apply (st_kept _ _ _ _ S12 sid b sb); [|by apply alive_add; left|done]. cbn. rewrite lookup_insert_ne; [done|].
      intros <-. destruct (si_table _ _ (in_sess _ _ (ci_inv _ _ _ _ Hk)) _ b Ht) as (sb' & Hsb & Hidb). by destruct (made_new arg xprt c k T U [] b sb' Hk Hn Hsb).
    + intros b z' Hz Hne Hno. destruct (st_ids _ _ _ _ S12 b z' Hz) as (z & Hz0 & E0).
      destruct E0 as (m' & ->); [by intros [?|?]%elem_of_cons|]. exists z, m'. split; [|done].
      apply (id_at_put k c) in Hz0 as [[? _]|[_ ?]]; [by destruct Hne|done|by eapply lookup_lt_Some].
  - destruct (st_counters _ _ _ _ S12) as [-> ->]. done.
  - intros s0 Hs0. by apply (alive_old _ _ _ Hs0).
  - intros b s' Hb Hne. destruct (st_alive _ _ _ _ S12 b s' Hb) as (s1 & Hs1 & A1). exists s1. split; [|done].
    destruct (proj1 (alive_add s cl (cw k) b s1) Hs1) as [?|[-> _]]; [done|by destruct Hne].
Qed.

Lemma create_found_ends arg rq r c confirmed0 k T U x :
  cinv k T (KId c :: KRec r :: U) [] -> id_at k c x -> cid_client_record x = Some r -> cid_clientid x = csa_clientid arg ->
  cid_confirmed x = (if confirmed0 : bool then CONFIRMED_CLIENT_ID else UNCONFIRMED_CLIENT_ID) ->
  config_ok -> args_ok arg -> global_sequence k + 1 < 2 ^ 64 ->
  ends (create_found arg rq r c confirmed0 k) (fun '(res, session, c', k') => c' = c /\
    ((session = None /\ k' = k /\ refused arg rq x res)
     \/ exists a ok, session = Some a /\ ~ repeats arg x /\ acceptable arg rq x /\ res = MkCreate NFS4_OK (Some ok)
          /\ cinv k' (TSession a :: T) (KId c :: KRec r :: U) [] /\ granted arg r c x k ok a k')).
Proof.
  intros Hk Hx Hr Hn Hs Hcf Har Hseq. unfold create_found. cbn zeta. rewrite (get_id_at _ _ _ Hx), res_bind_ret.
  pose proof (create_answer_spec arg rq x) as Hans. destruct (create_answer arg rq x) as [res|]; [split; [done|]; by left|]. destruct Hans as [Hrep Hacc].
  destruct (made_ends arg (d_xprt (or_data rq)) c k T (KId c :: KRec r :: U) x) as (cl & -> & E1 & Hfree & Hk1); [done..|].
  rewrite res_bind_ret, E1, res_bind_ret. cbn [negb]. set (s := made_session _ _ c k) in *. set (a := length (w_sessions (cw k))) in *.
  set (kb := set_cw _ _) in *.
  assert (id_at kb c (id_refcount (cid_refcount x + 1) x)) as Hxb by (apply (id_at_put k c); [by eapply lookup_lt_Some|by left]).
  eapply ends_then; [by eapply confirm_client_ends|]. intros [[rc conf] k2] (-> & -> & Hcnf). pose proof (cf_inv _ _ _ _ _ _ _ _ Hcnf) as Hk2.
  destruct (held_id _ _ _ _ _ Hk2) as (x2 & Hx2). eapply ends_then; [by apply finish_ends|].
  intros [res k3] (Hk3 & S3 & (ok & -> & Hid) & Hx3). cbn [ends]. split; [done|]. right. exists a, ok. split_and!; try done.
  eapply (confirmed_granted arg r c x (d_xprt (or_data rq)) k cl k2 k3 T (KId c :: KRec r :: U)); try done. apply Hacc.
Qed.
End grant.

Section operation.
Context `{Nfs4Clients}.

(** The client id that a request names, with its record. *)
Record named (n : Z) (k : cworld) (b : bool) (c : nat) (x : nfs_client_id_t) (r : nat) (y : nfs_client_record_t) : Prop := {
  nm_epoch : Z.shiftr n 32 = Z.land nfs_ServerEpoch 0xFFFFFFFF;
  nm_table : table_of b k !! n = Some c;
  nm_other : b = true -> ht_unconfirmed_client_id k !! n = None;
  nm_id : id_at k c x;
  nm_number : cid_clientid x = n;
  nm_state : cid_confirmed x = if b then CONFIRMED_CLIENT_ID else UNCONFIRMED_CLIENT_ID;
  nm_link : cid_client_record x = Some r;
  nm_record : rec_at k r y }.

Lemma table_state k T U E b c x : cinv k T U E -> id_at k c x -> table_of b k !! cid_clientid x = Some c -> cid_confirmed x <> STALE_CLIENT_ID ->
  cid_confirmed x = (if b then CONFIRMED_CLIENT_ID else UNCONFIRMED_CLIENT_ID).
Proof.
  intros Hk Hx Ht Hs. pose proof (io_placed _ _ _ _ (ci_id _ _ _ _ Hk c x Hx)) as Hpl. unfold placed in Hpl.
  destruct b; cbn [table_of] in Ht; destruct (cid_confirmed x); try done; destruct Hpl as (? & ? & ?) || destruct Hpl as (? & ?); congruence.
Qed.

Lemma placed_record k T U E c x : cinv k T U E -> id_at k c x -> cid_confirmed x = CONFIRMED_CLIENT_ID \/ cid_confirmed x = UNCONFIRMED_CLIENT_ID ->
  exists r y, cid_client_record x = Some r /\ rec_at k r y.
Proof.
  intros Hk Hx Hs. pose proof (io_placed _ _ _ _ (ci_id _ _ _ _ Hk c x Hx)) as Hpl. unfold placed in Hpl.
  destruct Hs as [Hs|Hs]; rewrite Hs in Hpl; destruct Hpl as (_ & _ & r & y & ? & ? & _); by exists r, y.
Qed.

Lemma found_named T U E b n k0 k c k' : cinv k T U E -> found T U E b n k c k' -> quiet k k' ->
  (b = true -> ht_unconfirmed_client_id k0 !! n = None) -> table_of b k0 = table_of b k -> quiet k0 k -> cinv k0 T U E ->
  exists x r y m, named n k0 b c x r y /\ id_at k' c (id_refcount m x).
Proof.
  intros Hk (He & Ht & Hk' & Er & x' & Hx' & Hs & Hn) Q Ho Et Q0 Hk0. rewrite <- Et in Ht. destruct (table_entry k0 T U E b n c Hk0 Ht) as (x & Hx & Hnx).
  destruct (quiet_id _ _ _ _ _ (quiet_trans _ _ _ Q0 Q) Hx Hx') as (m & ->). cbn in Hs, Hn.
  assert (cid_confirmed x = if b then CONFIRMED_CLIENT_ID else UNCONFIRMED_CLIENT_ID) as Hst by (eapply (table_state k0 T U E); [done..|by rewrite Hnx|done]).
  destruct (placed_record k0 T U E c x Hk0 Hx) as (r & y & Hr & Hy); [destruct b; auto|]. exists x, r, y, m. by split.
Qed.

Lemma lookup_ends k T U n : cinv k T U [] ->
  ends (lookup_client n k) (fun '(rc, o, b, k') => quiet k k' /\
    match o with
    | Some c => rc = CLIENT_ID_SUCCESS /\ cinv k' T (KId c :: U) [] /\ exists x r y m, named n k b c x r y /\ id_at k' c (id_refcount m x)
    | None => rc <> CLIENT_ID_SUCCESS /\ cinv k' T U []
    end).
Proof.
  intros Hk. unfold lookup_client. eapply ends_then; [by apply (get_id_ends k T U [] false n)|]. intros [[rc o] k1] (Q1 & Ho). destruct o as [c|].
  - destruct Ho as (-> & Hf). cbn [ends]. split; [done|]. split; [done|]. split; [apply Hf|].
    by eapply (found_named T U [] false n k k c k1 Hk Hf Q1); [|done|apply quiet_refl|].
  - destruct Ho as (Hrc & Hk1 & Hno). eapply ends_then; [by apply (get_id_ends k1 T U [] true n)|]. intros [[rc2 o2] k2] (Q2 & Ho2). cbn [ends].
    split; [by eapply quiet_trans|]. destruct o2 as [c|]; [|by destruct Ho2 as (? & ? & _)]. destruct Ho2 as (-> & Hf). split; [done|]. split; [apply Hf|].
    eapply (found_named T U [] true n k k1 c k2 Hk1 Hf Q2); [|cbn; by rewrite (qu_confirmed _ _ Q1)|done|done]. intros _.
    destruct (ht_unconfirmed_client_id k !! n) as [d|] eqn:Hd; [|done]. destruct (table_entry k T U [] false n d Hk Hd) as (z & Hz & Hnz).
    specialize (Hno (proj1 Hf) d z Hd Hz). pose proof (io_placed _ _ _ _ (ci_id _ _ _ _ Hk d z Hz)) as Hpl. unfold placed in Hpl. rewrite Hno, Hnz in Hpl. by destruct Hpl as (_ & ? & _).
Qed.

(** The memory with one more reference to [c]. *)
Definition one_more (c : nat) (x : nfs_client_id_t) (k : cworld) : cworld := put_id c (Some (id_refcount (cid_refcount x + 1) x)) k.

Lemma get_named b n k c x r y : named n k b c x r y -> nfs_client_id_get b n k = Ret (CLIENT_ID_SUCCESS, Some c, one_more c x k).
Proof.
  intros [He Ht _ Hx Hn Hs Hl Hy]. unfold nfs_client_id_get. cbn zeta. rewrite (proj2 (Z.eqb_eq _ _) He). cbn [negb]. fold (table_of b k). rewrite Ht.
  unfold inc_client_id_ref. rewrite (get_id_at _ _ _ Hx), !res_bind_ret. fold (one_more c x k).
  rewrite (get_id_at _ c (id_refcount (cid_refcount x + 1) x)) by (apply id_at_put; [by eapply lookup_lt_Some|by left]). rewrite res_bind_ret.
  rewrite bool_decide_false; [done|]. cbn. rewrite Hs. by destruct b.
Qed.

Lemma get_unknown b n k : Z.shiftr n 32 = Z.land nfs_ServerEpoch 0xFFFFFFFF -> table_of b k !! n = None -> nfs_client_id_get b n k = Ret (CLIENT_ID_EXPIRED, None, k).
Proof. intros He Ht. unfold nfs_client_id_get. cbn zeta. rewrite (proj2 (Z.eqb_eq _ _) He). cbn [negb]. fold (table_of b k). by rewrite Ht. Qed.

Lemma lookup_named b n k c x r y : named n k b c x r y -> lookup_client n k = Ret (CLIENT_ID_SUCCESS, Some c, b, one_more c x k).
Proof.
  intros Hnm. unfold lookup_client, nfs_client_id_get_unconfirmed, nfs_client_id_get_confirmed. destruct b.
  - rewrite (get_unknown false n k (nm_epoch _ _ _ _ _ _ _ Hnm) (nm_other _ _ _ _ _ _ _ Hnm eq_refl)), res_bind_ret.
    by rewrite (get_named true n k c x r y Hnm), res_bind_ret.
  - by rewrite (get_named false n k c x r y Hnm), res_bind_ret.
Qed.


Lemma named_unique n k b b' c c' x x' r r' y y' : named n k b c x r y -> named n k b' c' x' r' y' -> b = b' /\ c = c' /\ x = x' /\ r = r'.
Proof.
  intros H1 H2. pose proof (lookup_named _ _ _ _ _ _ _ H1) as E1. rewrite (lookup_named _ _ _ _ _ _ _ H2) in E1. injection E1 as -> -> _.
  assert (x = x') as <- by (by eapply id_unique; [apply H1|apply H2]). split_and!; try done. pose proof (nm_link _ _ _ _ _ _ _ H1). pose proof (nm_link _ _ _ _ _ _ _ H2). congruence.
Qed.

(** How CREATE_SESSION ends: with an error, with the answer that was kept, or with a session. *)
Inductive create_outcome (arg : CREATE_SESSION4args) (rq : op_request) (k : cworld) : CREATE_SESSION4res -> cworld -> Prop :=
| co_error res k' : csr_status res <> NFS4_OK -> csr_resok4 res = None -> quiet k k' ->
    (forall b c x r y, d_minorversion (or_data rq) <> 0 -> named (csa_clientid arg) k b c x r y -> ~ repeats arg x /\ ~ acceptable arg rq x) ->
    create_outcome arg rq k res k'
| co_again b c x r y k' : d_minorversion (or_data rq) <> 0 -> named (csa_clientid arg) k b c x r y -> repeats arg x -> quiet k k' ->
    create_outcome arg rq k (cid_create_session_slot x) k'
| co_granted b c x r y ok a k' : d_minorversion (or_data rq) <> 0 -> named (csa_clientid arg) k b c x r y -> ~ repeats arg x -> acceptable arg rq x ->
    granted arg r c x k ok a k' -> create_outcome arg rq k (MkCreate NFS4_OK (Some ok)) k'.

(** References do not matter for what a record says, nor for what was granted. *)
Lemma names_confirmed k T U E r y c : cinv k T U E -> rec_at k r y ->
  cr_confirmed_rec y = Some c <-> exists x, id_at k c x /\ cid_confirmed x = CONFIRMED_CLIENT_ID /\ cid_client_record x = Some r.
Proof.
  intros Hk Hy. split; [apply (ro_confirmed _ _ _ _ (ci_rec _ _ _ _ Hk r y Hy))|]. intros (x & Hx & Hs & Hr).
  pose proof (io_placed _ _ _ _ (ci_id _ _ _ _ Hk c x Hx)) as Hpl. unfold placed in Hpl. rewrite Hs in Hpl.
  destruct Hpl as (_ & _ & r' & y' & Hr' & Hy' & Hc). assert (r' = r) as -> by congruence. by rewrite (rec_unique _ _ _ _ Hy Hy').
Qed.

Lemma quiet_confirmed k0 k1 T T' U U' E E' r y y1 : cinv k0 T U E -> cinv k1 T' U' E' -> quiet k0 k1 -> rec_at k0 r y -> rec_at k1 r y1 ->
  cr_confirmed_rec y1 = cr_confirmed_rec y.
Proof.
  intros Hk0 Hk1 Q Hy Hy1. apply option_eq. intros c. rewrite (names_confirmed k0 T U E r y c Hk0 Hy), (names_confirmed k1 T' U' E' r y1 c Hk1 Hy1). split.
  - intros (x & Hx & Hs & Hr). destruct (st_ids _ _ _ _ (qu_steady _ _ Q) c x Hx) as (z & Hz & E0). destruct (E0 (not_elem_of_nil c)) as (n & ->). by exists z.
  - intros (x & Hx & Hs & Hr). pose proof (io_placed _ _ _ _ (ci_id _ _ _ _ Hk0 c x Hx)) as Hpl. unfold placed in Hpl. rewrite Hs in Hpl. destruct Hpl as (Ht & _).
    rewrite <- (qu_confirmed _ _ Q) in Ht. destruct (ci_confirmed _ _ _ _ Hk1 _ c Ht) as (x1 & Hx1 & _). destruct (quiet_id _ _ _ _ _ Q Hx Hx1) as (n & ->). by eexists.
Qed.

Lemma granted_from arg r c x k0 k1 m ok a k' y y1 T T' U U' E E' : cinv k0 T U E -> cinv k1 T' U' E' -> quiet k0 k1 -> rec_at k0 r y -> rec_at k1 r y1 ->
  granted arg r c (id_refcount m x) k1 ok a k' -> granted arg r c x k0 ok a k'.
Proof.
  intros Hk0 Hk1 Q Hy Hy1 [(n & Gi) Gt Gs Gn (olds & Hr & Hni & Hk & Hi) Gc Gf Gb]. pose proof (qu_cw _ _ Q) as Ew.
  split; [by exists n|done|done| | | |by rewrite <- Ew|by rewrite <- Ew].
  - by rewrite <- Ew.
  - exists olds. split; [|split; [done|split]].
    + intros y' Hy'. rewrite (rec_unique _ _ _ _ Hy' Hy), <- (quiet_confirmed k0 k1 T T' U U' E E' r y y1) by done. by apply Hr.
    + rewrite <- Ew. done.
    + intros b z' Hz Hne Hno. destruct (Hi b z' Hz Hne Hno) as (z & m' & Hz1 & ->). destruct (st_ids _ _ _ _ (qu_steady _ _ Q) b z Hz1) as (z0 & ? & E0).
      destruct (E0 (not_elem_of_nil b)) as (m'' & ->). by exists z0, m'.
  - destruct (st_counters _ _ _ _ (qu_steady _ _ Q)) as [<- <-]. done.
Qed.

Lemma create_session_ends arg rq k T U :
  cinv k T U [] -> config_ok -> args_ok arg -> global_sequence k + 1 < 2 ^ 64 ->
  ends (nfs4_op_create_session arg rq k) (fun '(res, k') => cinv k' T U [] /\ create_outcome arg rq k res k').
Proof.
  intros Hk Hcf Har Hseq. unfold nfs4_op_create_session. destruct (Z.eqb_spec (d_minorversion (or_data rq)) 0) as [Hm|Hm].
  { split; [done|]. apply co_error; [done|done|apply quiet_refl|done]. }
  eapply ends_then; [by apply ends_eq, lookup_ends|]. intros [[[rc o] b] k1] (E0 & Q1 & Ho). destruct o as [c|].
  2:{ destruct Ho as (Hrc & Hk1). cbn [ends]. split; [done|]. apply co_error; [by destruct rc|done|done|].
      intros b' c x r y _ Hnm. rewrite (lookup_named _ _ _ _ _ _ _ Hnm) in E0. done. }
  destruct Ho as (_ & Hk1 & x & r & y & m & Hnm & Hx1). rewrite (get_id_at _ _ _ Hx1), res_bind_ret. cbn [cid_client_record id_refcount].
  rewrite (nm_link _ _ _ _ _ _ _ Hnm). cbn [deref]. rewrite res_bind_ret.
  destruct (io_linked _ _ _ _ (ci_id _ _ _ _ Hk1 c _ Hx1) r (nm_link _ _ _ _ _ _ _ Hnm)) as (y1 & Hy1).
  eapply ends_then; [by apply inc_record_ends|]. intros k2 (Hk2 & Q2 & Hy2). apply cinv_swap in Hk2.
  destruct (held_id _ _ _ _ _ Hk2) as (x2 & Hx2). destruct (quiet_id _ _ _ _ _ Q2 Hx1 Hx2) as (m2 & ->). pose proof (quiet_trans _ _ _ Q1 Q2) as Q12.
  eapply ends_then; [eapply (create_found_ends arg rq r c b k2 T U); [done|done|apply Hnm|apply Hnm|apply Hnm|done|done|]|].
  { by rewrite (proj2 (st_counters _ _ _ _ (qu_steady _ _ Q12))). }
  intros [[[res session] c'] k3] (-> & [(-> & -> & Href)|(a & ok & -> & Hrep & Hacc & -> & Hk3 & Hg)]).
  - eapply ends_then; [by apply dec_id_ends|]. intros k4 (Hk4 & Q4). rewrite res_bind_ret. eapply ends_then; [by apply dec_record_ends|].
    intros k5 (Hk5 & Q5 & _). cbn [ends]. split; [done|]. assert (quiet k k5) as Q by (eapply quiet_trans; [exact Q12|by eapply quiet_trans]).
    destruct Href as [[Hrep ->]|(Hnr & Hna & Hst & Hn)].
    2:{ apply co_error; [done..|]. intros b' c' x' r' y' _ Hnm'. destruct (named_unique _ _ _ _ _ _ _ _ _ _ _ _ Hnm Hnm') as (_ & _ & <- & _). done. }
    eapply (co_again arg rq k b c x); done.
  - pose proof (granted_from arg r c x k k2 m2 ok a k3 y _ T T U _ [] [] Hk Hk2 Q12 (nm_record _ _ _ _ _ _ _ Hnm) Hy2 Hg) as Hg3.
    eapply ends_then; [by apply dec_id_ends|]. intros k4 (Hk4 & [_ _ _ S4]).
    eapply ends_then; [eapply put_session_ref_ends; [done|eapply inv_locks_held, Hk]|]. intros k5 (Hk5 & S5 & _ & _).
    eapply ends_then; [by apply dec_record_ends|]. intros k6 (Hk6 & [_ _ _ S6] & _). cbn [ends]. split; [done|].
    eapply co_granted; [done|done|exact Hrep|exact Hacc|]. eapply granted_steady; [exact Hg3| |done]. eapply steady_trans; [done|]. by eapply steady_trans.
Qed.

Lemma acceptable_new arg rq x : args_ok arg -> acceptable arg rq x -> ~ repeats arg x.
Proof.
  intros [_ Ha] [E0 _]. unfold repeats. rewrite <- E0. unfold wrap_u. intros E1.
  destruct (decide (csa_sequence arg + 1 < 2 ^ 32)); [rewrite Z.mod_small in E1 by lia; lia|].
  replace (csa_sequence arg + 1) with (2 ^ 32) in E1 by lia. rewrite Z.mod_same in E1 by lia. lia.
Qed.

(** A request that is acceptable gets its session. *)
Lemma create_grants arg rq k T U b c x r y :
  cinv k T U [] -> config_ok -> args_ok arg -> global_sequence k + 1 < 2 ^ 64 -> d_minorversion (or_data rq) <> 0 ->
  named (csa_clientid arg) k b c x r y -> acceptable arg rq x ->
  exists ok k' a, nfs4_op_create_session arg rq k = Ret (MkCreate NFS4_OK (Some ok), k') /\ cinv k' T U [] /\ granted arg r c x k ok a k'.
Proof.
  intros Hk Hcf Har Hs Hm Hnm Hacc. pose proof (acceptable_new arg rq x Har Hacc) as Hrep.
  pose proof (create_session_ends arg rq k T U Hk Hcf Har Hs) as He. apply ends_exists in He as ([res k'] & Hop & Hk' & Ho).
  inversion Ho as [? ? _ _ _ Hno|b' c' x' r' y' ? _ Hnm' Hrep' _|b' c' x' r' y' ok a ? _ Hnm' _ _ Hg]; subst.
  - by destruct (Hno b c x r y Hm Hnm).
  - by destruct (named_unique _ _ _ _ _ _ _ _ _ _ _ _ Hnm Hnm') as (_ & _ & <- & _).
  - destruct (named_unique _ _ _ _ _ _ _ _ _ _ _ _ Hnm Hnm') as (<- & <- & <- & <-). by exists ok, k', a.
Qed.
End operation.
