(* ===== verification/NfsClientDestroy.v ===== *)
(** * DESTROY_CLIENTID

    What it destroys and leaves alone, and CREATE_SESSION sent again. *)

From S2P Require Import Prelude NfsProto NfsSession NfsCompound NfsSessionInv NfsSessionOps NfsClient NfsClientInv NfsClientOps.
From S2P Require Import NfsClientSessions NfsClientExpire NfsClientCreate NfsClientExchange NfsClientNewSession NfsClientGrant.
Local Open Scope Z_scope.

Section destroy.
Context `{Nfs4Clients}.

(** A client id that was found is confirmed or unconfirmed. *)
Definition looked_up (n : Z) (k : cworld) (c : nat) (x : nfs_client_id_t) : Prop :=
  id_at k c x /\ cid_clientid x = n /\ (cid_confirmed x = CONFIRMED_CLIENT_ID \/ cid_confirmed x = UNCONFIRMED_CLIENT_ID).

Lemma found_looked_up T U E b n k c k' : cinv k T U E -> found T U E b n k c k' -> quiet k k' -> exists x, looked_up n k' c x.
Proof.
  intros Hk (_ & Ht & _ & _ & x & Hx & Hs & Hn) Q. exists x. split; [done|]. split; [done|].
  destruct (table_entry k T U E b n c Hk Ht) as (z & Hz & Hnz). destruct (quiet_id _ _ _ _ _ Q Hz Hx) as (m & ->). rewrite <- Hnz in Ht.
  pose proof (table_state k T U E b c z Hk Hz Ht Hs) as Hst. cbn. destruct b; auto.
Qed.

Lemma looked_up_quiet n k k' c x T U E : looked_up n k c x -> quiet k k' -> cinv k' T (KId c :: U) E -> exists x', looked_up n k' c x'.
Proof.
  intros (Hx & Hn & Hs) Q Hk'. destruct (held_id _ _ _ _ _ Hk') as (x' & Hx'). destruct (quiet_id _ _ _ _ _ Q Hx Hx') as (m & ->). by eexists.
Qed.

Lemma destroy_lookup_ends n k T U : cinv k T U [] ->
  ends (destroy_lookup n k) (fun '(o, k') => quiet k k' /\
    match o with Some c => cinv k' T (KId c :: U) [] /\ exists x, looked_up n k' c x | None => cinv k' T U [] end).
Proof.
  intros Hk. unfold destroy_lookup. eapply ends_then; [by apply (get_id_ends k T U [] true n)|]. intros [[rc o] k1] (Q1 & Ho). destruct o as [c|].
  { destruct Ho as (_ & Hf). cbn [ends]. split; [done|]. split; [apply Hf|]. by eapply found_looked_up. }
  destruct Ho as (_ & Hk1 & _). eapply ends_then; [by apply (get_id_ends k1 T U [] false n)|]. intros [[rc2 o2] k2] (Q2 & Ho2).
  assert (exists V, cinv k2 T V [] /\ V = match o2 with Some u => KId u :: U | None => U end) as (V & Hk2 & HV).
  { destruct o2 as [u|]; [destruct Ho2 as (_ & _ & _ & ? & _)|destruct Ho2 as (_ & ? & _)]; by eexists. }
  eapply ends_then; [by apply (get_id_ends k2 T V [] true n)|]. intros [[rc3 o3] k3] (Q3 & Ho3).
  pose proof (quiet_trans _ _ _ Q1 (quiet_trans _ _ _ Q2 Q3)) as Q. destruct o3 as [c|].
  - destruct Ho3 as (_ & Hf). destruct (found_looked_up _ _ _ _ _ _ _ _ Hk2 Hf Q3) as (x & Hx). pose proof Hf as (_ & _ & Hk3 & _). rewrite HV in Hk3.
    destruct o2 as [u|].
    + eapply ends_then; [by apply dec_id_ends, cinv_swap|]. intros k4 (Hk4 & Q4). cbn [ends]. split; [by eapply quiet_trans|]. split; [done|].
      by eapply looked_up_quiet.
    + rewrite res_bind_ret. cbn [ends]. split; [done|]. split; [done|]. by exists x.
  - destruct Ho3 as (_ & Hk3 & _). cbn [ends]. split; [done|]. rewrite HV in Hk3. destruct o2 as [u|]; [|done]. split; [done|].
    destruct Ho2 as (_ & Hf2). destruct (found_looked_up _ _ _ _ _ _ _ _ Hk1 Hf2 Q2) as (x & Hx). by eapply looked_up_quiet.
Qed.

(** A client id without sessions in its list has none. *)
Lemma no_list k T U E c cl : cinv k T U E -> w_clients (cw k) !! c = Some cl -> cb_session_list cl = [] -> sessions_of (cw k) c = 0.
Proof.
  intros Hk Hcl Hl. pose proof (sessions_of_nonneg (cw k) c). destruct (decide (0 < sessions_of (cw k) c)) as [Hp|]; [|lia].
  destruct (session_exists _ _ Hp) as (a & s & Ha & Hc). destruct (ss_listed _ _ (ci_sessions _ _ _ _ Hk) a s Ha) as (cl' & Hcl' & Hin).
  rewrite Hc, Hcl in Hcl'. injection Hcl' as <-. rewrite Hl in Hin. by apply elem_of_nil in Hin.
Qed.

Lemma destroy_confirmed_ends r y k T U : cinv k T U [] -> rec_at k r y ->
  ends (destroy_confirmed y k) (fun '(st, k') => cinv k' T U [] /\
    ((st = NFS4ERR_CLIENTID_BUSY /\ k' = k /\ exists conf, cr_confirmed_rec y = Some conf /\ 0 < sessions_of (cw k) conf)
     \/ (st = NFS4_OK /\ ht_unconfirmed_client_id k' = ht_unconfirmed_client_id k
         /\ match cr_confirmed_rec y with Some conf => steady [conf] [] k k' /\ gone conf k' | None => k' = k end))).
Proof.
  intros Hk Hy. unfold destroy_confirmed. destruct (cr_confirmed_rec y) as [conf|] eqn:Hc; [|split; [done|by right]].
  destruct (ro_confirmed _ _ _ _ (ci_rec _ _ _ _ Hk r y Hy) conf Hc) as (x & Hx & Hs & _). unfold get_client.
  destruct (lookup_lt_is_Some_2 (w_clients (cw k)) conf) as [cl Hcl]; [rewrite <- (ci_length _ _ _ _ Hk); by eapply lookup_lt_Some|].
  rewrite Hcl. cbn [deref]. rewrite res_bind_ret. destruct (cb_session_list cl) as [|a l] eqn:Hl.
  - rewrite (get_id_at _ _ _ Hx), res_bind_ret. destruct (fs_cinv k T U [] (nfs4_rm_clid (cid_clientid x) (w_fs (cw k))) Hk) as [Hk1 S1].
    eapply ends_then; [eapply (remove_confirmed_ends _ T U [] conf x); [done..|by eapply no_list]|]. intros k2 (Hk2 & S2 & G2 & Eu). cbn [ends].
    split; [done|]. right. split_and!; try done. eapply steady_trans; [by apply steady_nil, S1|done].
  - split; [done|]. left. split_and!; try done. exists conf. split; [done|]. pose proof (in_client _ _ (ci_inv _ _ _ _ Hk) conf) as Hi. rewrite Hcl, Hl in Hi.
    destruct Hi as [_ Hi]. destruct (Hi a) as (s & Ha & <-); [apply list_elem_of_here|]. by apply (session_counted _ a).
Qed.

Lemma names_unconfirmed k T U E r y c x : cinv k T U E -> rec_at k r y -> id_at k c x -> cid_confirmed x = UNCONFIRMED_CLIENT_ID ->
  cid_client_record x = Some r -> cr_unconfirmed_rec y = Some c.
Proof.
  intros Hk Hy Hx Hs Hr. pose proof (io_placed _ _ _ _ (ci_id _ _ _ _ Hk c x Hx)) as Hpl. unfold placed in Hpl. rewrite Hs in Hpl.
  destruct Hpl as (_ & _ & r' & y' & Hr' & Hy' & Hc). assert (r' = r) as -> by congruence. by rewrite (rec_unique _ _ _ _ Hy Hy').
Qed.

(** The unconfirmed client id of the record, after the confirmed one was removed. *)
Lemma destroy_unconfirmed_ends r y k k1 T U : cinv k T U [] -> rec_at k r y -> cinv k1 T U [] ->
  ht_unconfirmed_client_id k1 = ht_unconfirmed_client_id k ->
  match cr_confirmed_rec y with Some conf => steady [conf] [] k k1 /\ gone conf k1 | None => k1 = k end ->
  ends (match cr_unconfirmed_rec y with Some u => remove_unconfirmed_client_id u k1 | None => Ret k1 end)
    (fun k2 => cinv k2 T U [] /\ (exists C, steady C [] k k2)
       /\ forall c, cr_confirmed_rec y = Some c \/ cr_unconfirmed_rec y = Some c -> gone c k2).
Proof.
  intros Hk Hy Hk1 Eu Hc. assert (exists C, steady C [] k k1 /\ C = match cr_confirmed_rec y with Some conf => [conf] | None => [] end) as (C & S1 & HC).
  { destruct (cr_confirmed_rec y); [by exists [n]; split; [apply Hc|]|subst k1; exists []; by split; [apply steady_refl|]]. }
  destruct (cr_unconfirmed_rec y) as [u|] eqn:Hu.
  - destruct (ro_unconfirmed _ _ _ _ (ci_rec _ _ _ _ Hk r y Hy) u Hu) as (z & Hz & Hs & Hl).
    pose proof (io_placed _ _ _ _ (ci_id _ _ _ _ Hk u z Hz)) as Hpl. unfold placed in Hpl. rewrite Hs in Hpl. destruct Hpl as (_ & Ht & _).
    rewrite <- Eu in Ht. destruct (ci_unconfirmed _ _ _ _ Hk1 _ u Ht) as (z1 & Hz1 & _).
    assert (u ∉ C) as Hni.
    { rewrite HC. destruct (cr_confirmed_rec y) as [conf|] eqn:Hcf; [|apply not_elem_of_nil]. intros ->%list_elem_of_singleton.
      destruct (ro_confirmed _ _ _ _ (ci_rec _ _ _ _ Hk r y Hy) conf Hcf) as (z2 & Hz2 & Hs2 & _). rewrite (id_unique _ _ _ _ Hz2 Hz) in Hs2. congruence. }
    destruct (kept_id _ _ _ _ _ _ _ S1 Hni Hz Hz1) as (m & ->).
    eapply ends_mono; [by eapply remove_unconfirmed_ends|]. intros k2 (Hk2 & S2 & G2). split; [done|]. split.
    + exists (u :: C). eapply steady_trans; [eapply steady_more; [exact S1|by apply list_subseteq_cons|done]|].
      eapply steady_more; [exact S2|intros b ->%list_elem_of_singleton; apply list_elem_of_here|done].
    + intros c [Hcc|[= <-]]; [|done]. rewrite Hcc in Hc, HC. apply (gone_steady _ _ _ _ _ S2); [|apply Hc]. intros ->%list_elem_of_singleton.
      rewrite HC in Hni. by apply Hni, list_elem_of_here.
  - cbn [ends]. split; [done|]. split; [by exists C|]. intros c [Hcc|[=]]. rewrite Hcc in Hc. apply Hc.
Qed.

Lemma destroy_clientid_ends n k T U : cinv k T U [] ->
  ends (nfs4_op_destroy_clientid n k) (fun '(st, k') => cinv k' T U [] /\ (exists C, steady C [] k k')
    /\ (st <> NFS4_OK -> quiet k k') /\ (st = NFS4_OK -> forall c x, id_at k c x -> cid_clientid x = n -> gone c k')).
Proof.
  intros Hk. unfold nfs4_op_destroy_clientid. eapply ends_then; [by apply destroy_lookup_ends|]. intros [o k1] (Q1 & Ho). pose proof (qu_steady _ _ Q1) as S1.
  destruct o as [c|]; [|by split; [|split; [exists []|split]]]. destruct Ho as (Hk1 & x & Hx & Hn & Hs). rewrite (get_id_at _ _ _ Hx), res_bind_ret.
  destruct (placed_record _ _ _ _ _ _ Hk1 Hx Hs) as (r & y & Hr & Hy). rewrite Hr.
  eapply ends_then; [by apply inc_record_ends|]. intros k2 (Hk2 & Q2 & Hy2). pose proof (quiet_trans _ _ _ Q1 Q2) as Q12.
  pose proof (qu_steady _ _ Q12) as S12. destruct (held_id k2 T (KRec r :: U) [] c) as (x2 & Hx2); [by apply cinv_swap|].
  destruct (quiet_id _ _ _ _ _ Q2 Hx Hx2) as (m & ->).
  rewrite (get_record_at _ _ _ Hy2), res_bind_ret. set (y2 := rec_refcount _ y) in *.
  assert (forall k3 (st : Z), cinv k3 T (KRec r :: KId c :: U) [] -> ends (k ← dec_client_record_ref r k3; k ← dec_client_id_ref c k; Ret (st, k))
            (fun '(st', k') => st' = st /\ cinv k' T U [] /\ quiet k3 k')) as Hend.
  { intros k3 st Hk3. eapply ends_then; [by apply dec_record_ends|]. intros k4 (Hk4 & Q4 & _). eapply ends_then; [by apply dec_id_ends|].
    intros k5 (Hk5 & Q5). split; [done|]. split; [done|]. by eapply quiet_trans. }
  eapply ends_then; [by apply (destroy_confirmed_ends r)|]. intros [st k3] (Hk3 & [(-> & -> & _)|(-> & Eu & Hc)]).
  - rewrite (proj2 (Z.eqb_neq _ _)) by done. eapply (ends_then _ _ (fun k' => k' = k2)); [by destruct (cr_unconfirmed_rec y2)|]. intros k' ->.
    eapply ends_mono; [by apply (Hend k2 NFS4ERR_CLIENTID_BUSY)|]. intros [st' k4] (-> & Hk4 & Q4). pose proof (quiet_trans _ _ _ Q12 Q4) as Q.
    split; [done|]. split; [exists []; apply Q|]. split; [done|]. done.
  - rewrite Z.eqb_refl. eapply ends_then; [by eapply (destroy_unconfirmed_ends r y2 k2 k3)|]. intros k4 (Hk4 & (C & S4) & G4).
    eapply ends_mono; [by apply (Hend k4 NFS4_OK)|]. intros [st' k5] (-> & Hk5 & Q5). pose proof (qu_steady _ _ Q5) as S5.
    split; [done|]. split; [exists C; eapply steady_trans; [by apply steady_nil, S12|]; eapply steady_trans; [done|by apply steady_nil]|]. split; [done|].
    intros _ d z Hz Hnd. assert (d = c) as ->.
    { destruct (st_ids _ _ _ _ S12 c _ Hx2) as (z1 & Hz1 & E0). destruct (E0 (not_elem_of_nil c)) as (m' & E1). cbn in E1.
      apply (na_distinct _ _ (ci_names _ _ _ _ Hk) d c z z1 Hz Hz1). rewrite Hnd, <- Hn. apply (f_equal cid_clientid) in E1. exact E1. }
    apply (gone_steady _ _ _ _ _ S5); [apply not_elem_of_nil|]. apply G4. destruct Hs as [Hs|Hs]; [left|right].
    + apply (names_confirmed k2 T _ [] r y2 c Hk2 Hy2). by eexists.
    + by eapply (names_unconfirmed k2 T _ [] r y2 c).
Qed.
End destroy.

(** ** A CREATE_SESSION that is sent again

    The reply that was kept is given again, and the memory is as it was. *)

Section once.
Context `{Nfs4Clients}.

(** The memory with one more reference to a record. *)
Definition one_more_record (r : nat) (y : nfs_client_record_t) (k : cworld) : cworld := put_record r (Some (rec_refcount (cr_refcount y + 1) y)) k.

Lemma dec_one_more c x k : id_at k c (id_refcount (cid_refcount x + 1) x) -> 0 < cid_refcount x -> dec_client_id_ref c k = Ret (put_id c (Some x) k).
Proof.
  intros Hx Hp. unfold dec_client_id_ref. cbn [dec_client_id_ref_n]. rewrite (get_id_at _ _ _ Hx), res_bind_ret. cbn zeta. cbn [cid_refcount id_refcount].
  replace (cid_refcount x + 1 - 1) with (cid_refcount x) by lia. rewrite (proj2 (Z.ltb_lt _ _) Hp). do 3 f_equal. by destruct x.
Qed.

Lemma dec_one_more_record r y k : rec_at k r (rec_refcount (cr_refcount y + 1) y) -> 0 < cr_refcount y -> dec_client_record_ref r k = Ret (put_record r (Some y) k).
Proof.
  intros Hy Hp. unfold dec_client_record_ref. rewrite (get_record_at _ _ _ Hy), res_bind_ret. cbn zeta. cbn [cr_refcount rec_refcount].
  replace (cr_refcount y + 1 - 1) with (cr_refcount y) by lia. rewrite (proj2 (Z.ltb_lt _ _) Hp). do 3 f_equal. by destruct y.
Qed.

Lemma again_eq arg rq k b c x r y :
  d_minorversion (or_data rq) <> 0 -> named (csa_clientid arg) k b c x r y -> 0 < cid_refcount x -> 0 < cr_refcount y -> repeats arg x ->
  nfs4_op_create_session arg rq k = Ret (cid_create_session_slot x, k).
Proof.
  intros Hm Hnm Hpx Hpy Hrep. pose proof (nm_id _ _ _ _ _ _ _ Hnm) as Hx. pose proof (nm_record _ _ _ _ _ _ _ Hnm) as Hy.
  pose proof (lookup_lt_Some _ _ _ Hx) as Hlx. pose proof (lookup_lt_Some _ _ _ Hy) as Hly. unfold nfs4_op_create_session.
  rewrite (proj2 (Z.eqb_neq _ _) Hm), (lookup_named b _ k c x r y Hnm), res_bind_ret.
  rewrite (get_id_at (one_more c x k) c (id_refcount (cid_refcount x + 1) x)) by (apply id_at_put; [done|by left]). rewrite res_bind_ret.
  cbn [cid_client_record id_refcount]. rewrite (nm_link _ _ _ _ _ _ _ Hnm). cbn [deref]. rewrite res_bind_ret.
  unfold inc_client_record_ref. rewrite (get_record_at (one_more c x k) r y Hy), !res_bind_ret. fold (one_more_record r y (one_more c x k)).
  set (k2 := one_more_record r y (one_more c x k)). assert (id_at k2 c (id_refcount (cid_refcount x + 1) x)) as Hx2 by (apply (id_at_put k); [done|by left]).
  assert (rec_at k2 r (rec_refcount (cr_refcount y + 1) y)) as Hy2 by (apply (rec_at_put (one_more c x k)); [done|by left]).
  unfold create_found. rewrite (get_id_at _ _ _ Hx2), res_bind_ret. unfold create_answer. cbn [cid_create_session_sequence id_refcount]. unfold repeats in Hrep.
  rewrite (proj2 (Z.eqb_eq _ _) Hrep), res_bind_ret. cbn [cid_create_session_slot id_refcount].
  rewrite (dec_one_more c x k2 Hx2 Hpx), !res_bind_ret, (dec_one_more_record r y (put_id c (Some x) k2) Hy2 Hpy), res_bind_ret. do 2 f_equal.
  destruct k as [w ids tc tu rs ht n m]. unfold k2, one_more, one_more_record. flat. cbn in Hx, Hy.
  rewrite !list_insert_insert_eq, (list_insert_id ids c), (list_insert_id rs r) by done. done.
Qed.

(** After a session was granted, the request that asked for it is one that is sent again. *)
Lemma granted_named arg r c x k ok a k' T U b y :
  cinv k' T U [] -> named (csa_clientid arg) k b c x r y -> granted arg r c x k ok a k' ->
  exists x' r' y', named (csa_clientid arg) k' true c x' r' y' /\ repeats arg x' /\ cid_create_session_slot x' = MkCreate NFS4_OK (Some ok)
    /\ 0 < cid_refcount x' /\ 0 < cr_refcount y'.
Proof.
  intros Hk' [He _ _ _ Hn _ _ _] [(n & Hx') _ _ _ _ _]. set (x' := id_slot _ _ _) in Hx'. pose proof (ci_id _ _ _ _ Hk' c x' Hx') as [_ Hp Hpl _].
  unfold placed in Hpl. cbn [x' cid_confirmed id_slot id_refcount id_state] in Hpl. destruct Hpl as (Ht & Hu & r' & y' & Hr & Hy & _).
  exists x', r', y'. split; [|split; [done|split; [done|split; [done|apply (ro_positive _ _ _ _ (ci_rec _ _ _ _ Hk' r' y' Hy))]]]].
  change (cid_clientid x') with (cid_clientid x) in *. split; try done; [by rewrite <- Hn|].
  intros _. rewrite <- Hn. by apply (number_free k' T U [] false c x' Hk' Hx').
Qed.
End once.
