(* ===== verification/NfsClientServer.v ===== *)
(** * The life of client ids

    Clients send EXCHANGE_ID, CREATE_SESSION, DESTROY_SESSION and DESTROY_CLIENTID, start and
    end requests on their sessions, time passes, and the reaper expires client ids whose lease
    is over: what holds after any sequence of these. *)

From S2P Require Import Prelude NfsProto NfsSession NfsCompound NfsSessionInv NfsSessionOps NfsClient NfsClientInv NfsClientOps.
From S2P Require Import NfsClientSessions NfsClientExpire NfsClientCreate NfsClientExchange NfsClientNewSession NfsClientGrant.
From S2P Require Import NfsClientDestroy.
Local Open Scope Z_scope.

Section server.
Context `{Nfs4Clients}.

(** ** Requests on sessions *)

(** SEQUENCE, which reserves the lease of the client id of the session that it found. The
    mutex of the client id is taken for that, so the client id must not be freed. [slot_ok]
    says whether the checks that follow, of the slot, the number and the room for the reply,
    succeed: the request then keeps its session, and otherwise gives it back at once, but
    remembers the client id whose lease it reserved in both cases. *)
Definition begin_request (sid : list Z) (slot_ok : bool) (k : cworld) : res (option (option nat * nat) * cworld) :=
  '(o, w) ← nfs41_Session_Get_Pointer sid (cw k);
  let k := set_cw w k in
  match o with
  | None => Ret (None, k)
  | Some a =>
    s ← get_session (cw k) a;
    _ ← get_id k (clientid_record s);
    '(valid, w) ← reserve_lease (clientid_record s) (cw k);
    let k := set_cw w k in
    if negb valid then k ← put_session_ref dec_client_id_ref a k; Ret (None, k)
    else if slot_ok then Ret (Some (Some a, clientid_record s), k)
    else k ← put_session_ref dec_client_id_ref a k; Ret (Some (None, clientid_record s), k)
  end.

(** The end of a request, which renews the lease under the mutex of the client id and gives
    the session back, if there is one. *)
Definition end_request (o : option nat) (c : nat) (k : cworld) : res cworld :=
  _ ← get_id k c;
  w ← update_lease c (cw k);
  match o with Some a => put_session_ref dec_client_id_ref a (set_cw w k) | None => Ret (set_cw w k) end.

(** DESTROY_SESSION ([nfs4_op_destroy_session]) of NFSv4.1, over a connection from [addr]. *)
Definition destroy_session (dsa_sessionid : list Z) (addr : sockaddr) (k : cworld) : res (Z * cworld) :=
  '(found, w) ← nfs41_Session_Get_Pointer dsa_sessionid (cw k);
  let k := set_cw w k in
  match found with
  | None => Ret (NFS4ERR_BADSESSION, k)
  | Some a =>
    '(bound, w) ← check_session_conn a addr false (cw k);
    let k := set_cw w k in
    if negb bound then k ← put_session_ref dec_client_id_ref a k; Ret (NFS4ERR_CONN_NOT_BOUND_TO_SESSION, k)
    else
      '(deleted, k) ← session_del dec_client_id_ref dsa_sessionid k;
      k ← put_session_ref dec_client_id_ref a k;
      Ret (if deleted : bool then NFS4_OK else NFS4ERR_BADSESSION, k)
  end.

(** ** Events *)

(** An operation of the first kinds is one event. A request begins and ends, with other events
    in between; one whose SEQUENCE is refused ends at once ([CRefused]). *)

Inductive cevent :=
| CExchange (arg : EXCHANGE_ID4args) (rq : op_request)
| CCreate (arg : CREATE_SESSION4args) (rq : op_request)
| CDestroySession (sid : list Z) (addr : sockaddr)
| CDestroyClient (n : Z)
| CBegin (sid : list Z)
| CRefused (sid : list Z)
| CEnd (i : nat)
| CReap (confirmed : bool) (n : Z)
| CRelease (n : Z)
| CTime (t : Z).

Record cserver := MkCserver { cs_memory : cworld; cs_requests : list (nat * nat) }.

Definition cstart (f : fs) : cserver := MkCserver (MkCw (MkWorld [] ∅ [] [] f 0) [] ∅ ∅ [] ∅ 0 0) [].

(** A request that is in a session is one of those that hold it. *)
Definition in_session (d : compound_data) (l : list (nat * nat)) : bool :=
  match q_session (d_seq d) with Some a => bool_decide (a ∈ map fst l) | None => true end.

Definition cstep (s : cserver) (ev : cevent) : res cserver :=
  let k := cs_memory s in
  let l := cs_requests s in
  match ev with
  | CExchange arg rq => if in_session (or_data rq) l then '(_, _, k) ← nfs4_op_exchange_id arg rq k; Ret (MkCserver k l) else Ret s
  | CCreate arg rq => '(_, k) ← nfs4_op_create_session arg rq k; Ret (MkCserver k l)
  | CDestroySession sid addr => '(_, k) ← destroy_session sid addr k; Ret (MkCserver k l)
  | CDestroyClient n => '(_, k) ← nfs4_op_destroy_clientid n k; Ret (MkCserver k l)
  | CBegin sid => '(o, k) ← begin_request sid true k; Ret (MkCserver k (match o with Some (Some a, c) => (a, c) :: l | _ => l end))
  | CRefused sid =>
    '(o, k) ← begin_request sid false k;
    match o with Some (a, c) => k ← end_request a c k; Ret (MkCserver k l) | None => Ret (MkCserver k l) end
  | CEnd i => match l !! i with Some (a, c) => k ← end_request (Some a) c k; Ret (MkCserver k (delete i l)) | None => Ret s end
  | CReap b n => match table_of b k !! n with Some c => k ← reap_client c k; Ret (MkCserver k l) | None => Ret s end
  | CRelease n => match ht_confirmed_client_id k !! n with Some c => k ← release_client c k; Ret (MkCserver k l) | None => Ret s end
  | CTime t => Ret (MkCserver (set_cw (MkWorld (w_sessions (cw k)) (w_table (cw k)) (w_clients (cw k)) (w_results (cw k)) (w_fs (cw k)) (w_time (cw k) + t)) k) l)
  end.

Definition crun (s : cserver) (evs : list cevent) : res cserver := res_foldl cstep s evs.

(** What the operations rely on: the owner of an EXCHANGE_ID is not empty (which they assert),
    the entry of the client exists, numbers are of 32 bits. *)
Definition cevent_ok (ev : cevent) : Prop :=
  match ev with
  | CExchange arg rq => co_ownerid arg <> [] /\ or_client rq <> None
  | CCreate arg rq => args_ok arg
  | _ => True
  end.

(** ** The invariant *)

Definition request_tokens (l : list (nat * nat)) : list token := concat (map (fun '(a, c) => [TSession a; TLease c]) l).

Record cserver_ok (s : cserver) (n : Z) : Prop := {
  cv_inv : exists U, cinv (cs_memory s) (request_tokens (cs_requests s)) U [];
  cv_counter : clientid_counter (cs_memory s) <= n;
  cv_sequence : global_sequence (cs_memory s) <= n;
  cv_client : forall a c se, (a, c) ∈ cs_requests s -> alive (cw (cs_memory s)) a se -> clientid_record se = c }.

Lemma request_tokens_held l a : a ∈ map fst l -> 0 < cnt (TSession a) (request_tokens l).
Proof.
  induction l as [|[b c] l IH]; [by intros ?%elem_of_nil|]. change (request_tokens ((b, c) :: l)) with (TSession b :: TLease c :: request_tokens l).
  cbn [map fst]. intros [->|Hin]%elem_of_cons; rewrite !cnt_cons.
  - pose proof (cnt_nonneg (TSession b) (request_tokens l)). counts. lia.
  - specialize (IH Hin). pose proof (is_token_nonneg (TSession a) (TSession b)). pose proof (is_token_nonneg (TSession a) (TLease c)). lia.
Qed.

Lemma request_tokens_delete l i a c t : l !! i = Some (a, c) -> cnt t (TSession a :: TLease c :: request_tokens (delete i l)) = cnt t (request_tokens l).
Proof.
  revert i. induction l as [|[b d] l IH]; intros [|i] Hi; try done; [by injection Hi as -> ->|].
  change (delete (S i) ((b, d) :: l)) with ((b, d) :: delete i l).
  change (request_tokens ((b, d) :: delete i l)) with (TSession b :: TLease d :: request_tokens (delete i l)).
  change (request_tokens ((b, d) :: l)) with (TSession b :: TLease d :: request_tokens l). specialize (IH i Hi). rewrite !cnt_cons in *. lia.
Qed.

Lemma cinv_tokens k T T' U E : same_tokens T T' -> cinv k T U E -> cinv k T' U E.
Proof. intros HT [? ? ? ? ? ? ? ? ? ? ? ? ?]. split; try done. by eapply inv_proper. Qed.

(** The lease of a client id is changed, with the reservations that are held. *)
Lemma lease_cinv k T T' U E c cl cl' :
  cinv k T U E -> w_clients (cw k) !! c = Some cl -> cb_session_list cl' = cb_session_list cl -> inv (put_client c cl' (cw k)) T' ->
  cinv (set_cw (put_client c cl' (cw k)) k) T' U E.
Proof.
  intros Hk Hcl Hl Hi. apply (change_world k T T' U U E E _ (global_sequence k)); try done; [|by apply (ci_client _ _ _ _ Hk)| |by apply (ci_served _ _ _ _ Hk)].
  - cbn. by rewrite length_insert.
  - eapply sessions_ok_same; [apply Hk|intros b sb Hb; by exists sb; split; [|apply alike_refl]| |cbn; by rewrite length_insert].
    intros b clb Hb. destruct (put_client_lists (cw k) c cl cl' b clb Hcl Hl Hb) as (cl0 & ? & ?). by exists cl0.
Qed.

Lemma client_at k T U E c x : cinv k T U E -> id_at k c x -> exists cl, w_clients (cw k) !! c = Some cl.
Proof. intros Hk Hx. apply lookup_lt_is_Some_2. rewrite <- (ci_length _ _ _ _ Hk). by eapply lookup_lt_Some. Qed.

(** Sessions and client ids do not see a change of a lease. *)
Lemma steady_client k c cl : steady [] [] k (set_cw (put_client c cl (cw k)) k).
Proof.
  split; try done.
  - intros b z Hz. exists z. split; [done|]. intros _. exists (cid_refcount z). by rewrite refcount_same.
  - intros b sb Hb. exists sb. split; [done|apply alike_refl].
  - intros sid b sb Ht Hb _. split; [done|]. exists sb. split; [done|apply alike_refl].
Qed.

(** What is known of a session when its lease is reserved. *)
Record reserved (sid : list Z) (T : list token) (U : list ref) (k : cworld) (a c : nat) (k' : cworld) : Prop := {
  rv_inv : cinv k' (TSession a :: TLease c :: T) U [];
  rv_steady : steady [] [] k k';
  rv_table : w_table (cw k') !! sid = Some a;
  rv_session : exists s, alive (cw k') a s /\ clientid_record s = c }.

(** A session that was found, with the reference that was taken. *)
Lemma pointer_found sid k T U : cinv k T U [] ->
  (w_table (cw k) !! sid = None /\ nfs41_Session_Get_Pointer sid (cw k) = Ret (None, cw k))
  \/ exists a s w, nfs41_Session_Get_Pointer sid (cw k) = Ret (Some a, w) /\ cinv (set_cw w k) (TSession a :: T) U [] /\ steady [] [] k (set_cw w k)
       /\ w_table w !! sid = Some a /\ alive w a s.
Proof.
  intros Hk. unfold nfs41_Session_Get_Pointer. destruct (w_table (cw k) !! sid) as [a|] eqn:Ht; [right|by left].
  destruct (si_table _ _ (in_sess _ _ (ci_inv _ _ _ _ Hk)) sid a Ht) as (s & Ha & _).
  destruct (inc_session_ref_moves [] [] (cw k) T a s (ci_inv _ _ _ _ Hk) Ha) as (w & E0 & M & _).
  assert (w = put_session a (Some (set_refcount (refcount s + 1) s)) (cw k)) as ->
    by (unfold inc_session_ref in E0; rewrite (get_session_alive _ _ _ Ha), res_bind_ret in E0; by injection E0).
  rewrite E0, res_bind_ret. destruct (put_session_cinv k T (TSession a :: T) U [] a s (set_refcount (refcount s + 1) s)) as [Hk1 S1]; [done|done|by split|apply M|].
  eexists a, _, _. split_and!; try done. apply alive_put; [by eapply alive_length|by left].
Qed.

(** SEQUENCE up to the reservation. *)
Lemma begin_reserved sid slot_ok k T U : cinv k T U [] ->
  exists k1 o, (match o with Some (a, c) => reserved sid T U k a c k1 | None => cinv k1 T U [] /\ steady [] [] k k1 end)
    /\ begin_request sid slot_ok k = match o with
       | Some (a, c) => if slot_ok then Ret (Some (Some a, c), k1) else k2 ← put_session_ref dec_client_id_ref a k1; Ret (Some (None, c), k2)
       | None => Ret (None, k1)
       end.
Proof.
  intros Hk. unfold begin_request. destruct (pointer_found sid k T U Hk) as [(_ & ->)|(a & s & w & -> & Hk1 & S1 & Ht & Ha1)]; rewrite res_bind_ret.
  { exists k, None. split; [split; [done|apply steady_refl]|]. by replace (set_cw (cw k) k) with k by (by destruct k). }
  cbn zeta. set (k1 := set_cw w k) in *. change w with (cw k1) in Ha1, Ht.
  rewrite (get_session_alive _ _ _ Ha1), res_bind_ret.
  destruct (ci_client _ _ _ _ Hk1 a _ Ha1) as (x & Hx). destruct (client_at _ _ _ _ _ _ Hk1 Hx) as (cl & Hcl).
  rewrite (get_id_at _ _ _ Hx), res_bind_ret. unfold reserve_lease, get_client. rewrite Hcl. cbn [deref]. rewrite res_bind_ret.
  destruct (negb (valid_lease cl (w_time (cw k1)) =? 0)); rewrite res_bind_ret; cbn [negb].
  - eexists _, (Some (a, clientid_record s)). split; [|by destruct slot_ok]. split.
    + apply (cinv_tokens _ (TLease (clientid_record s) :: TSession a :: T)); [intros t; rewrite !cnt_cons; lia|].
      eapply lease_cinv; [exact Hk1|done|done|]. eapply (put_client_moves [] [] (cw k1) (TSession a :: T)); [apply Hk1|done|done|intros t Hn; by counts|].
      cbn [cid_lease_reservations]. pose proof (in_client _ _ (ci_inv _ _ _ _ Hk1) (clientid_record s)) as Hc. rewrite Hcl in Hc. counts. lia.
    + eapply steady_trans; [exact S1|]. by apply steady_client.
    + exact Ht.
    + by exists s.
  - replace (set_cw (cw k1) k1) with k1 by (by destruct k1).
    pose proof (put_session_ref_ends k1 T U [] a Hk1 (inv_locks_held _ _ (ci_inv _ _ _ _ Hk))) as He. apply ends_exists in He as (k2 & -> & Hk2 & S2 & _).
    exists k2, None. rewrite res_bind_ret. split; [|done]. split; [done|by eapply steady_trans].
Qed.

(** The end of a request, whose client id is there. *)
Lemma renewed k T U c x : cinv k (TLease c :: T) U [] -> id_at k c x ->
  exists w, update_lease c (cw k) = Ret w /\ cinv (set_cw w k) T U [] /\ steady [] [] k (set_cw w k).
Proof.
  intros Hk Hx. unfold update_lease, get_client. pose proof (in_client _ _ (ci_inv _ _ _ _ Hk) c) as Hc.
  destruct (client_at _ _ _ _ _ _ Hk Hx) as (cl & Hcl). rewrite Hcl in *. cbn [deref]. rewrite res_bind_ret. cbn zeta.
  eexists. split; [done|]. split; [|apply steady_client]. eapply lease_cinv; [exact Hk|done|done|].
  eapply (put_client_moves [] [] (cw k) (TLease c :: T)); [apply Hk|done|done|intros t Hn; by counts|]. cbn [cid_lease_reservations]. counts. lia.
Qed.

Lemma end_ends a c k T U s : cinv k (TSession a :: TLease c :: T) U [] -> locks_held T -> alive (cw k) a s -> clientid_record s = c ->
  ends (end_request (Some a) c k) (fun k' => cinv k' T U [] /\ steady [] [] k k').
Proof.
  intros Hk Hl Ha Hc. destruct (ci_client _ _ _ _ Hk a s Ha) as (x & Hx). rewrite Hc in Hx. unfold end_request. rewrite (get_id_at _ _ _ Hx), res_bind_ret.
  destruct (renewed k (TSession a :: T) U c x) as (w & -> & Hk1 & S1); [|done|].
  { eapply cinv_tokens, Hk. intros t. rewrite !cnt_cons. lia. }
  rewrite res_bind_ret. eapply ends_mono; [by apply put_session_ref_ends|]. intros k' (Hk' & S' & _). split; [done|by eapply steady_trans].
Qed.

(** A request that is refused ends at once, while its session can still be found. *)
Lemma refused_ends sid k T U : cinv k T U [] ->
  exists o k1, begin_request sid false k = Ret (o, k1)
    /\ ends (match o with Some (a, c) => end_request a c k1 | None => Ret k1 end) (fun k' => cinv k' T U [] /\ steady [] [] k k').
Proof.
  intros Hk. destruct (begin_reserved sid false k T U Hk) as (k1 & o & Ho & ->). destruct o as [[a c]|]; [|by exists None, k1].
  destruct Ho as [Hk1 S1 Ht (s & Ha & Hc)].
  pose proof (put_session_ref_ends k1 (TLease c :: T) U [] a Hk1) as He. apply ends_exists in He as (k2 & -> & Hk2 & S2 & Et & _).
  2:{ intros b i Hp. pose proof (inv_locks_held _ _ (ci_inv _ _ _ _ Hk) b i). counts. lia. }
  exists (Some (None, c)), k2. split; [done|]. rewrite <- Et in Ht. destruct (si_table _ _ (in_sess _ _ (ci_inv _ _ _ _ Hk2)) sid a Ht) as (s2 & Ha2 & _).
  destruct (st_alive _ _ _ _ S2 a s2 Ha2) as (s1 & Ha1 & A). destruct (ci_client _ _ _ _ Hk2 a s2 Ha2) as (x & Hx).
  assert (clientid_record s2 = c) as E2.
  { rewrite (al_client _ _ A). unfold alive in *. congruence. }
  rewrite E2 in Hx. unfold end_request. rewrite (get_id_at _ _ _ Hx), res_bind_ret.
  destruct (renewed k2 T U c x Hk2 Hx) as (w & -> & Hk3 & S3). rewrite res_bind_ret. cbn [ends]. split; [done|].
  eapply steady_trans; [exact S1|by eapply steady_trans].
Qed.

Lemma time_cinv k T U E t : cinv k T U E ->
  cinv (set_cw (MkWorld (w_sessions (cw k)) (w_table (cw k)) (w_clients (cw k)) (w_results (cw k)) (w_fs (cw k)) t) k) T U E.
Proof.
  intros Hk. apply (change_world k T T U U E E _ (global_sequence k)); try done; [|by apply (ci_client _ _ _ _ Hk)| |by apply (ci_served _ _ _ _ Hk)].
  - destruct (ci_inv _ _ _ _ Hk) as [? ? ?]. split;
      [by apply (sess_inv_frame (cw k) _ T)|by apply (res_inv_frame (cw k) _ T)|by apply (client_inv_frame (cw k) _ T)].
  - destruct (ci_sessions _ _ _ _ Hk). by split.
Qed.

Lemma destroy_session_ends sid addr k T U : cinv k T U [] ->
  ends (destroy_session sid addr k) (fun '(_, k') => cinv k' T U [] /\ exists C S, steady C S k k').
Proof.
  intros Hk. unfold destroy_session. destruct (pointer_found sid k T U Hk) as [(_ & ->)|(a & s & w & -> & Hk1 & S1 & Ht & Ha1)]; rewrite res_bind_ret.
  { cbn zeta. cbn [ends]. replace (set_cw (cw k) k) with k by (by destruct k). split; [done|]. exists [], []. apply steady_refl. }
  cbn zeta. set (k1 := set_cw w k) in *. change w with (cw k1) in Ha1, Ht. unfold check_session_conn. rewrite (get_session_alive _ _ _ Ha1), res_bind_ret. cbn [orb negb].
  pose proof (inv_locks_held _ _ (ci_inv _ _ _ _ Hk)) as Hl. destruct (existsb _ _); rewrite res_bind_ret; cbn [negb].
  - replace (set_cw (cw k1) k1) with k1 by (by destruct k1). eapply ends_then; [by eapply session_del_ends|].
    intros [b k2] (_ & Hk2 & S2 & _). eapply ends_then; [by apply put_session_ref_ends|]. intros k3 (Hk3 & S3 & _). cbn [ends]. split; [done|].
    eexists [], [clientid_record s]. eapply steady_trans; [by apply steady_nil, S1|]. eapply steady_trans; [exact S2|by apply steady_nil].
  - replace (set_cw (cw k1) k1) with k1 by (by destruct k1). eapply ends_then; [by apply put_session_ref_ends|]. intros k3 (Hk3 & S3 & _). cbn [ends].
    split; [done|]. exists [], []. by eapply steady_trans.
Qed.

(** ** One event *)

(** The memory changes, and the requests keep the client ids of their sessions. *)
Lemma cserver_changed k k' l l' n U : cserver_ok (MkCserver k l) n -> cinv k' (request_tokens l') U [] -> l' ⊆ l ->
  (forall a c s', (a, c) ∈ l -> alive (cw k') a s' -> exists s, alive (cw k) a s /\ alike s s') ->
  clientid_counter k' <= n + 1 -> global_sequence k' <= n + 1 -> cserver_ok (MkCserver k' l') (n + 1).
Proof.
  intros [_ _ _ Hcl] Hk' Hl Hb H1 H2. split; [by exists U|done|done|]. cbn [cs_memory cs_requests] in *. intros a c se Hin%Hl Ha.
  destruct (Hb a c se Hin Ha) as (s & Hs & A). rewrite (al_client _ _ A). by eapply Hcl.
Qed.

Lemma cserver_steady C S k k' l l' n U : cserver_ok (MkCserver k l) n -> cinv k' (request_tokens l') U [] -> l' ⊆ l -> steady C S k k' ->
  cserver_ok (MkCserver k' l') (n + 1).
Proof.
  intros Hs Hk' Hl St. destruct Hs as [Hi Hc Hg Hcl] eqn:E0. clear E0. destruct (st_counters _ _ _ _ St). cbn in Hc, Hg.
  eapply cserver_changed; [exact Hs|exact Hk'|done|intros a c s' _; apply (st_alive _ _ _ _ St)|lia|lia].
Qed.

(** CREATE_SESSION makes at most one session, which no request has yet. *)
Lemma created_before arg rq k res k' T U l a c s' :
  cinv k T U [] -> T = request_tokens l -> create_outcome arg rq k res k' -> (a, c) ∈ l -> alive (cw k') a s' -> exists s, alive (cw k) a s /\ alike s s'.
Proof.
  intros Hk -> Ho Hin Ha. destruct Ho as [? ? ? ? Q|? ? ? ? ? ? ? ? ? Q|? ? ? ? ? ? ? ? ? ? ? ? G]; [apply (st_alive _ _ _ _ (qu_steady _ _ Q)); exact Ha..|].
  apply (g_before _ _ _ _ _ _ _ _ G); [done|]. intros ->. destruct (si_held _ _ (in_sess _ _ (ci_inv _ _ _ _ Hk)) a0) as (s & Hs).
  - apply request_tokens_held, list_elem_of_In, in_map_iff. exists (a0, c). split; [done|]. by apply list_elem_of_In.
  - by apply (g_fresh _ _ _ _ _ _ _ _ G s).
Qed.

Lemma created_counters arg rq k res k' : create_outcome arg rq k res k' -> clientid_counter k' = clientid_counter k /\ global_sequence k' <= global_sequence k + 1.
Proof.
  intros [? ? ? ? Q|? ? ? ? ? ? ? ? ? Q|? ? ? ? ? ? ? ? ? ? ? ? G];
    [destruct (st_counters _ _ _ _ (qu_steady _ _ Q)); lia..|destruct (g_counters _ _ _ _ _ _ _ _ G); lia].
Qed.

Lemma no_locks l b i : cnt (TLock (b, i)) (request_tokens l) = 0.
Proof.
  induction l as [|[a c] l IH]; [done|]. change (request_tokens ((a, c) :: l)) with (TSession a :: TLease c :: request_tokens l). counts. by rewrite IH.
Qed.

Lemma begin_step sid k l n : cserver_ok (MkCserver k l) n -> ends (cstep (MkCserver k l) (CBegin sid)) (fun s' => cserver_ok s' (n + 1)).
Proof.
  intros Hs. pose proof Hs as [(U & Hk) Hc Hg Hcl]. cbn [cstep cs_memory cs_requests] in *.
  destruct (begin_reserved sid true k _ U Hk) as (k1 & o & Ho & ->). destruct o as [[a c]|]; rewrite res_bind_ret; cbn [ends].
  - destruct Ho as [Hk1 S1 _ (s & Ha & Hr)]. destruct (st_counters _ _ _ _ S1). split; [by exists U|cbn; lia..|]. cbn [cs_memory cs_requests].
    intros a' c' se [[= -> ->]|Hin]%elem_of_cons Ha'; [unfold alive in *; congruence|].
    destruct (st_alive _ _ _ _ S1 a' se Ha') as (s0 & Hs0 & A). rewrite (al_client _ _ A). by eapply Hcl.
  - destruct Ho as [Hk1 S1]. by eapply cserver_steady.
Qed.

Lemma end_step i k l n : cserver_ok (MkCserver k l) n -> ends (cstep (MkCserver k l) (CEnd i)) (fun s' => cserver_ok s' (n + 1)).
Proof.
  intros Hs. pose proof Hs as [(U & Hk) Hc Hg Hcl]. cbn [cstep cs_memory cs_requests] in *.
  destruct (l !! i) as [[a c]|] eqn:Hi; [|eapply cserver_steady; [exact Hs|exact Hk|done|apply (steady_refl [] [])]].
  assert (cinv k (TSession a :: TLease c :: request_tokens (delete i l)) U []) as Hk1
    by (eapply cinv_tokens, Hk; intros t; symmetry; by apply request_tokens_delete).
  destruct (si_held _ _ (in_sess _ _ (ci_inv _ _ _ _ Hk1)) a) as (s & Ha).
  { pose proof (cnt_nonneg (TSession a) (request_tokens (delete i l))). counts. lia. }
  eapply ends_then; [eapply (end_ends a c k _ U s Hk1)|].
  - intros b j Hp. rewrite no_locks in Hp. lia.
  - done.
  - eapply Hcl; [|done]. by eapply list_elem_of_lookup_2.
  - intros k' (Hk' & S'). cbn [ends]. eapply cserver_steady; [exact Hs|exact Hk'|apply list_subseteq_delete|exact S'].
Qed.

Lemma refused_step sid k l n : cserver_ok (MkCserver k l) n -> ends (cstep (MkCserver k l) (CRefused sid)) (fun s' => cserver_ok s' (n + 1)).
Proof.
  intros Hs. pose proof Hs as [(U & Hk) _ _ _]. destruct (refused_ends sid k _ U Hk) as (o & k1 & E0 & He). cbn [cstep cs_memory cs_requests].
  rewrite E0, res_bind_ret.
  destruct o as [[a c]|]; [|cbn [ends] in *; destruct He as [Hk1 S1]; by eapply cserver_steady].
  eapply ends_then; [exact He|]. intros k2 [Hk2 S2]. by eapply cserver_steady.
Qed.

Lemma cstep_ends s ev n : config_ok -> cevent_ok ev -> cserver_ok s n -> n + 1 < 2 ^ 32 -> ends (cstep s ev) (fun s' => cserver_ok s' (n + 1)).
Proof.
  intros Hcf Hev Hs Hn. destruct s as [k l]. pose proof Hs as [(U & Hk) Hc Hg Hcl]. cbn [cs_memory cs_requests] in *.
  assert (cserver_ok (MkCserver k l) (n + 1)) as Hsame by (eapply cserver_steady; [exact Hs|exact Hk|done|apply (steady_refl [] [])]).
  destruct ev as [arg rq|arg rq|sid addr|i|sid|sid|i|b i|i|t];
    [| | | |by apply begin_step|by apply refused_step|by apply end_step|..]; cbn [cstep cs_memory cs_requests] in *.
  - destruct Hev as [Ho Hgc]. destruct (or_client rq) as [gsh|] eqn:Hg'; [|done]. destruct (in_session (or_data rq) l) eqn:Hin; [|done].
    eapply ends_then; [eapply exchange_id_ends; [done|done|lia|done|]|].
    + intros a Ha. unfold in_session in Hin. rewrite Ha in Hin. apply bool_decide_eq_true in Hin. by apply request_tokens_held.
    + intros [[st ok] k'] [(U' & Hk') [? ?] _ _ Hbf]. eapply cserver_changed; [exact Hs|exact Hk'|done|intros a c s' _; apply Hbf|lia|lia].
  - eapply ends_then; [apply create_session_ends; [done..|lia]|]. intros [res k'] (Hk' & Ho). destruct (created_counters _ _ _ _ _ Ho).
    eapply cserver_changed; [exact Hs|exact Hk'|done|intros a c s'; by eapply created_before|lia|lia].
  - eapply ends_then; [by apply destroy_session_ends|]. intros [b k'] (Hk' & C & S & S'). by eapply cserver_steady.
  - eapply ends_then; [by apply destroy_clientid_ends|]. intros [st k'] (Hk' & (C & S') & _). by eapply cserver_steady.
  - destruct (table_of b k !! i) as [c|] eqn:Ht; [|done]. destruct (table_entry _ _ _ _ _ _ _ Hk Ht) as (x & Hx & _).
    eapply ends_then; [by eapply reap_ends|]. intros k' (Hk' & S'). by eapply cserver_steady.
  - destruct (ht_confirmed_client_id k !! i) as [c|] eqn:Ht; [|done]. destruct (ci_confirmed _ _ _ _ Hk i c Ht) as (x & Hx & _).
    eapply ends_then; [by eapply release_ends|]. intros k' (Hk' & S'). by eapply cserver_steady.
  - cbn [ends]. eapply cserver_changed; [exact Hs|by apply time_cinv|done|intros a c s' _ Ha; exists s'; split; [done|apply alike_refl]|cbn; lia..].
Qed.

Lemma crun_ends evs : forall s n, config_ok -> Forall cevent_ok evs -> cserver_ok s n -> n + Z.of_nat (length evs) < 2 ^ 32 ->
  ends (crun s evs) (fun s' => cserver_ok s' (n + Z.of_nat (length evs))).
Proof.
  induction evs as [|ev evs IH]; intros s n Hcf Hev Hs Hn; unfold crun; cbn [res_foldl length].
  - by rewrite Z.add_0_r.
  - apply Forall_cons in Hev as [He Hev]. cbn [length] in Hn. eapply ends_then; [by apply (cstep_ends s ev n); [..|lia]|]. intros s' Hs'.
    eapply ends_mono; [by apply (IH s' (n + 1)); [..|lia]|]. intros s2 Hs2. by replace (n + Z.of_nat (S (length evs))) with (n + 1 + Z.of_nat (length evs)) by lia.
Qed.

Lemma cstart_ok f : cserver_ok (cstart f) 0.
Proof.
  split; [|done..|by intros a c se ?%elem_of_nil]. exists []. by split.
Qed.
End server.
