(* ===== verification/NfsClientClaims.v ===== *)
(** * What the NFS server promises about client ids

    After any sequence of requests, the memory of client ids, records and sessions is in
    order; a CREATE_SESSION runs once; a client id that is confirmed takes the place of its
    owner's old one; a client that introduces itself gets a session; and nobody takes away
    the sessions of a client that has a lease and state. *)

From S2P Require Import Prelude NfsProto NfsSession NfsCompound NfsSessionInv NfsSessionOps NfsClient NfsClientInv NfsClientOps.
From S2P Require Import NfsClientSessions NfsClientExpire NfsClientCreate NfsClientExchange NfsClientNewSession NfsClientGrant.
From S2P Require Import NfsClientDestroy NfsClientServer.
Local Open Scope Z_scope.

Section claims.
Context `{Nfs4Clients}.

(** The server after the events, of which there are fewer than client ids can be numbered. *)
Definition reached (f : fs) (evs : list cevent) (s : cserver) : Prop :=
  config_ok /\ Forall cevent_ok evs /\ Z.of_nat (length evs) + 2 < 2 ^ 32 /\ crun (cstart f) evs = Ret s.

Lemma reached_inv f evs s : reached f evs s ->
  exists U, cinv (cs_memory s) (request_tokens (cs_requests s)) U []
    /\ clientid_counter (cs_memory s) + 2 < 2 ^ 32 /\ global_sequence (cs_memory s) + 2 < 2 ^ 32.
Proof.
  intros (Hcf & Hev & Hl & Hr). pose proof (crun_ends evs (cstart f) 0 Hcf Hev (cstart_ok f)) as He. rewrite Hr in He. cbn [ends] in He.
  destruct He as [(U & Hk) Hc Hg _]; [lia|]. exists U. split; [done|]. lia.
Qed.

(** A session that can be found, and its client id. *)
Definition found_session (k : cworld) (sid : list Z) (a : nat) : Prop :=
  exists s x, alive (cw k) a s /\ session_id s = sid /\ id_at k (clientid_record s) x /\ cid_confirmed x = CONFIRMED_CLIENT_ID.

Lemma found_session_ok k T U sid a : cinv k T U [] -> w_table (cw k) !! sid = Some a -> found_session k sid a.
Proof.
  intros Hk Ht. destruct (si_table _ _ (in_sess _ _ (ci_inv _ _ _ _ Hk)) sid a Ht) as (s & Ha & Hid). destruct (ci_client _ _ _ _ Hk a s Ha) as (x & Hx).
  exists s, x. split_and!; try done. by destruct (ci_served _ _ _ _ Hk sid a s x Ht Ha Hx) as [?%elem_of_nil|?].
Qed.

(** C8. Clients send EXCHANGE_ID (with an owner that is not empty, which the code asserts, see
    [empty_owner_stops]), CREATE_SESSION, DESTROY_SESSION and DESTROY_CLIENTID, requests begin
    and end on sessions, client ids are reaped and released and time passes, fewer than 2^32
    times and in any order. Each of the operations runs as a whole, and a request that
    SEQUENCE refuses ends before anything else happens ([lease_of_freed_client] shows what
    happens otherwise). Then no client id, record or session is used after it was freed and no
    assertion on the counters fails; every session that can be found by its name belongs to a
    client id that is confirmed, and so not expired, and every request that still runs has its
    session and the client id whose lease it has reserved. *)
Theorem client_ids_safe (f : fs) (evs : list cevent) :
  config_ok -> Forall cevent_ok evs -> Z.of_nat (length evs) < 2 ^ 32 ->
  exists s, crun (cstart f) evs = Ret s
    /\ (forall sid a, w_table (cw (cs_memory s)) !! sid = Some a -> found_session (cs_memory s) sid a)
    /\ (forall a c, (a, c) ∈ cs_requests s ->
          exists se x, alive (cw (cs_memory s)) a se /\ clientid_record se = c /\ id_at (cs_memory s) c x).
Proof.
  intros Hcf Hev Hl. pose proof (crun_ends evs (cstart f) 0 Hcf Hev (cstart_ok f)) as He.
  apply ends_exists in He as (s & Hr & [(U & Hk) _ _ Hcl]); [|lia]. exists s. split; [done|]. split.
  - intros sid a Ht. by eapply found_session_ok.
  - intros a c Hin. destruct (si_held _ _ (in_sess _ _ (ci_inv _ _ _ _ Hk)) a) as (se & Ha).
    + apply request_tokens_held, list_elem_of_In, in_map_iff. exists (a, c). split; [done|]. by apply list_elem_of_In.
    + destruct (ci_client _ _ _ _ Hk a se Ha) as (x & Hx). pose proof (Hcl a c se Hin Ha) as <-. by exists se, x.
Qed.

(** C9. A CREATE_SESSION that was answered and is sent again is not run again: the server
    gives the same answer, with the same session, and leaves its memory exactly as it was. *)
Theorem create_session_once (f : fs) (evs : list cevent) (s : cserver) (arg : CREATE_SESSION4args) (rq : op_request)
    (r : CREATE_SESSION4res) (k : cworld) :
  reached f evs s -> args_ok arg -> nfs4_op_create_session arg rq (cs_memory s) = Ret (r, k) -> csr_status r = NFS4_OK ->
  nfs4_op_create_session arg rq k = Ret (r, k).
Proof.
  intros Hr Har Hop Hok. destruct (reached_inv f evs s Hr) as (U & Hk & _ & Hs). destruct Hr as (Hcf & _).
  pose proof (create_session_ends arg rq (cs_memory s) _ U Hk Hcf Har) as He. rewrite Hop in He. cbn [ends] in He. destruct He as [Hk' Ho]; [lia|].
  inversion Ho as [? ? Hbad ? ? ? E1 E2|b c x r0 y ? Hm Hnm Hrep Q E1 E2|b c x r0 y ok a ? Hm Hnm Hrep Hacc Hg E1 E2]; subst; [done| |].
  - assert (0 < cid_refcount x /\ 0 < cr_refcount y) as [Hpx Hpy].
    { split; [apply (io_positive _ _ _ _ (ci_id _ _ _ _ Hk c x (nm_id _ _ _ _ _ _ _ Hnm)))|apply (ro_positive _ _ _ _ (ci_rec _ _ _ _ Hk r0 y (nm_record _ _ _ _ _ _ _ Hnm)))]. }
    pose proof (again_eq arg rq _ b c x r0 y Hm Hnm Hpx Hpy Hrep) as E0. rewrite E0 in Hop. injection Hop as <-. done.
  - destruct (granted_named arg r0 c x _ ok a k _ U b y Hk' Hnm Hg) as (x' & r' & y' & Hnm' & Hrep' & Hsl & Hpx & Hpy).
    rewrite <- Hsl. by eapply again_eq.
Qed.

(** C10. A CREATE_SESSION with the number, credential and sizes that the client id [c] asks
    for makes a session: it can be found, and [c] is confirmed. The client id that the owner
    had before is gone and none of its sessions can be found; the sessions of all other
    clients can be found as before. *)
Theorem client_replaced (f : fs) (evs : list cevent) (s : cserver) (arg : CREATE_SESSION4args) (rq : op_request)
    (b : bool) (c r : nat) (x : nfs_client_id_t) (y : nfs_client_record_t) :
  reached f evs s -> args_ok arg -> d_minorversion (or_data rq) <> 0 ->
  named (csa_clientid arg) (cs_memory s) b c x r y -> acceptable arg rq x ->
  exists ok k a, nfs4_op_create_session arg rq (cs_memory s) = Ret (MkCreate NFS4_OK (Some ok), k)
    /\ w_table (cw (cs_memory s)) !! csr_sessionid ok = None /\ w_table (cw k) !! csr_sessionid ok = Some a
    /\ (exists se x', alive (cw k) a se /\ clientid_record se = c /\ id_at k c x' /\ cid_confirmed x' = CONFIRMED_CLIENT_ID)
    /\ (forall old, cr_confirmed_rec y = Some old -> old <> c ->
          (forall z, id_at k old z -> cid_confirmed z = EXPIRED_CLIENT_ID)
          /\ forall sid d se, w_table (cw k) !! sid = Some d -> alive (cw k) d se -> clientid_record se <> old)
    /\ (forall sid d se, w_table (cw (cs_memory s)) !! sid = Some d -> alive (cw (cs_memory s)) d se ->
          cr_confirmed_rec y <> Some (clientid_record se) \/ clientid_record se = c -> w_table (cw k) !! sid = Some d).
Proof.
  intros Hr Har Hm Hnm Hacc. destruct (reached_inv f evs s Hr) as (U & Hk & _ & Hs). destruct Hr as (Hcf & _).
  destruct (create_grants arg rq (cs_memory s) _ U b c x r y Hk Hcf Har) as (ok & k & a & Hop & Hk' & Hg); [lia|done..|].
  destruct Hg as [(n & Hx) Ht (se & Ha & Hc & _) Hn (olds & Hold & Hni & Hkept & _) _ _ _].
  specialize (Hold y (nm_record _ _ _ _ _ _ _ Hnm)). exists ok, k, a. split_and!; try done.
  - by eexists se, _.
  - intros old Ho' Hne. rewrite Ho' in Hold. destruct Hold as [[? _]|(_ & _ & G)]; [done|]. split; [exact G|]. intros sid d sd Htd Hd E0.
    destruct (found_session_ok k _ _ sid d Hk' Htd) as (sd' & z & Hd' & _ & Hz & Hst). assert (sd' = sd) as -> by (unfold alive in *; congruence).
    rewrite E0 in Hz. rewrite (G z Hz) in Hst. done.
  - intros sid d sd Htd Hd Hor. eapply Hkept; [done..|]. destruct (cr_confirmed_rec y) as [old|]; [|rewrite Hold; apply not_elem_of_nil].
    destruct Hold as [[-> ->]|(Hne & -> & _)]; [apply not_elem_of_nil|]. intros E0%list_elem_of_singleton. destruct Hor as [Hor|Hor]; congruence.
Qed.

Lemma number_epoch i : 0 <= i < 2 ^ 32 -> Z.shiftr (number i) 32 = Z.land nfs_ServerEpoch 0xFFFFFFFF.
Proof.
  intros Hi. unfold number. rewrite Z.shiftr_div_pow2, Z.shiftl_mul_pow2, Z.div_add by lia. rewrite Z.div_small by lia. done.
Qed.

Lemma offered_named rq o k T U : cinv k T U [] -> offered rq o k ->
  exists c x r y, named (eir_clientid o) k false c x r y /\ cid_create_session_sequence x = eir_sequenceid o /\ cid_credential x = or_credential rq.
Proof.
  intros Hk (c & x & i & Hx & Hs & Hn & Hq & Hcr & Hi & Hr). pose proof (io_placed _ _ _ _ (ci_id _ _ _ _ Hk c x Hx)) as Hpl. unfold placed in Hpl.
  rewrite Hs in Hpl. destruct Hpl as (_ & Ht & r & y & Hl & Hy & _). exists c, x, r, y. split; [|done]. split; try done; [by rewrite Hi, number_epoch|by rewrite <- Hn].
Qed.

(** C14. A client that introduces itself gets a session: when EXCHANGE_ID answers with a
    client id that is not confirmed yet, CREATE_SESSION with that client id and its sequence
    number, from the same principal and with acceptable flags and sizes, succeeds, and the
    session can be found. *)
Theorem client_introduced (f : fs) (evs : list cevent) (s : cserver) (arg : EXCHANGE_ID4args) (rq rq' : op_request)
    (st : Z) (o : EXCHANGE_ID4resok) (k : cworld) (carg : CREATE_SESSION4args) :
  reached f evs s -> cevent_ok (CExchange arg rq) -> in_session (or_data rq) (cs_requests s) = true ->
  nfs4_op_exchange_id arg rq (cs_memory s) = Ret (st, Some o, k) -> has_flag (eir_flags o) EXCHGID4_FLAG_CONFIRMED_R = false ->
  args_ok carg -> csa_clientid carg = eir_clientid o -> csa_sequence carg = eir_sequenceid o -> d_minorversion (or_data rq') <> 0 ->
  nfs_compare_clientcred (or_credential rq) (or_credential rq') = true -> Z.land (csa_flags carg) (Z.lnot create_flags) = 0 ->
  attrs_too_small (csa_fore_chan_attrs carg) = false -> attrs_too_small (csa_back_chan_attrs carg) = false ->
  exists ok k' a, nfs4_op_create_session carg rq' k = Ret (MkCreate NFS4_OK (Some ok), k')
    /\ w_table (cw k') !! csr_sessionid ok = Some a /\ found_session k' (csr_sessionid ok) a.
Proof.
  intros Hr [Ho Hcl] Hin Hop Hfl Har Hn Hq Hm Hcr Hflags Hfore Hback. destruct (reached_inv f evs s Hr) as (U & Hk & Hc & Hs). destruct Hr as (Hcf & _).
  destruct (or_client rq) as [gsh|] eqn:Hg; [|done].
  pose proof (exchange_id_ends arg rq (cs_memory s) (request_tokens (cs_requests s)) U gsh Hk Hg) as He. rewrite Hop in He. cbn [ends] in He.
  destruct He as [(U' & Hk') Hcn Hans _]; [lia|done| |].
  { intros a Ha. unfold in_session in Hin. rewrite Ha in Hin. apply bool_decide_eq_true in Hin. by apply request_tokens_held. }
  cbn [app] in Hk'. destruct Hans as [Hbad|Hoff]; [congruence|].
  destruct (offered_named rq o k _ U' Hk' Hoff) as (c & x & r & y & Hnm & Hsq & Hcred). rewrite <- Hn in Hnm.
  destruct (create_grants carg rq' k _ U' false c x r y Hk' Hcf Har) as (ok & k2 & a & Hop2 & Hk2 & Hgr); [destruct Hcn; lia|done|done|split_and!; try done; congruence|].
  exists ok, k2, a. split; [done|]. pose proof (g_table _ _ _ _ _ _ _ _ Hgr) as Ht. split; [done|]. by eapply found_session_ok.
Qed.

(** C15. Nobody can take the sessions of a client away with EXCHANGE_ID, unless the client
    is another principal's and has no lease or no state any more: all other sessions can be
    found afterwards. *)
Theorem exchange_protects (f : fs) (evs : list cevent) (s : cserver) (arg : EXCHANGE_ID4args) (rq : op_request)
    (sid : list Z) (a : nat) (se : nfs41_session) (x : nfs_client_id_t) (cl : client_id) :
  reached f evs s -> cevent_ok (CExchange arg rq) -> in_session (or_data rq) (cs_requests s) = true ->
  w_table (cw (cs_memory s)) !! sid = Some a -> alive (cw (cs_memory s)) a se ->
  id_at (cs_memory s) (clientid_record se) x -> w_clients (cw (cs_memory s)) !! clientid_record se = Some cl ->
  nfs_compare_clientcred (cid_credential x) (or_credential rq) = true
  \/ (valid_lease cl (w_time (cw (cs_memory s))) <> 0 /\ client_id_has_state (cid_clientid x) (w_fs (cw (cs_memory s))) = true) ->
  exists st ok k, nfs4_op_exchange_id arg rq (cs_memory s) = Ret (st, ok, k) /\ w_table (cw k) !! sid = Some a /\ found_session k sid a.
Proof.
  intros Hr [Ho Hcl] Hin Ht Ha Hx Hclx Hsafe. destruct (reached_inv f evs s Hr) as (U & Hk & Hc & Hs).
  destruct (or_client rq) as [gsh|] eqn:Hg; [|done].
  pose proof (exchange_id_ends arg rq (cs_memory s) (request_tokens (cs_requests s)) U gsh Hk Hg) as He.
  apply ends_exists in He as ([[st ok] k] & Hop & [(U' & Hk') _ _ (S & Hkept & HS) _]); [|lia|done|].
  2:{ intros d Hd. unfold in_session in Hin. rewrite Hd in Hin. apply bool_decide_eq_true in Hin. by apply request_tokens_held. }
  exists st, ok, k. split; [done|]. destruct (Hkept sid a se Ht Ha) as (Ht' & _); [|split; [done|by eapply found_session_ok]].
  intros HinS. destruct (HS _ HinS) as (z & clz & Hz & Hclz & Hcr & Hor). rewrite (id_unique _ _ _ _ Hz Hx) in *. assert (clz = cl) as -> by congruence.
  destruct Hsafe as [?|[? ?]]; [congruence|]. destruct Hor as [?|?]; congruence.
Qed.

(** C16. A DESTROY_CLIENTID that succeeds destroys the client id that it names, whose
    sessions can not be found; one that does not succeed changes nothing but the references
    that are taken and given meanwhile. *)
Theorem client_destroyed (f : fs) (evs : list cevent) (s : cserver) (n : Z) :
  reached f evs s ->
  exists st k, nfs4_op_destroy_clientid n (cs_memory s) = Ret (st, k)
    /\ (st = NFS4_OK -> forall c x, id_at (cs_memory s) c x -> cid_clientid x = n ->
          (forall z, id_at k c z -> cid_confirmed z = EXPIRED_CLIENT_ID) /\ forall sid a se, w_table (cw k) !! sid = Some a -> alive (cw k) a se -> clientid_record se <> c)
    /\ (st <> NFS4_OK -> cw k = cw (cs_memory s) /\ ht_confirmed_client_id k = ht_confirmed_client_id (cs_memory s)
          /\ ht_unconfirmed_client_id k = ht_unconfirmed_client_id (cs_memory s)).
Proof.
  intros Hr. destruct (reached_inv f evs s Hr) as (U & Hk & _ & _). pose proof (destroy_clientid_ends n (cs_memory s) _ U Hk) as He.
  apply ends_exists in He as ([st k] & Hop & Hk' & _ & Hbad & Hok). exists st, k. split; [done|]. split.
  - intros E0 c x Hx Hn. pose proof (Hok E0 c x Hx Hn) as G. split; [exact G|]. intros sid a se Ht Ha Hc.
    destruct (found_session_ok k _ _ sid a Hk' Ht) as (se' & z & Ha' & _ & Hz & Hst). assert (se' = se) as -> by (unfold alive in *; congruence).
    rewrite Hc in Hz. rewrite (G z Hz) in Hst. done.
  - intros Hn. destruct (Hbad Hn) as [? ? ? _]. done.
Qed.

(** An owner has at most one confirmed client id: two confirmed client ids whose records
    have the same owner, the same roles and the same server address are the same. *)
Theorem owner_confirmed_once (f : fs) (evs : list cevent) (s : cserver) (c d r q : nat)
    (x z : nfs_client_id_t) (y v : nfs_client_record_t) :
  reached f evs s -> id_at (cs_memory s) c x -> id_at (cs_memory s) d z ->
  cid_confirmed x = CONFIRMED_CLIENT_ID -> cid_confirmed z = CONFIRMED_CLIENT_ID ->
  cid_client_record x = Some r -> rec_at (cs_memory s) r y -> cid_client_record z = Some q -> rec_at (cs_memory s) q v ->
  cr_client_val y = cr_client_val v -> cr_pnfs_flags y = cr_pnfs_flags v -> cr_server_addr y = cr_server_addr v -> c = d.
Proof.
  intros Hr Hx Hz Hsx Hsz Hlx Hy Hlz Hv E1 E2 E3. destruct (reached_inv f evs s Hr) as (U & Hk & _ & _).
  assert (r = q) as <-.
  { pose proof (ro_table _ _ _ _ (ci_rec _ _ _ _ Hk r y Hy)) as Ty. pose proof (ro_table _ _ _ _ (ci_rec _ _ _ _ Hk q v Hv)) as Tv.
    assert (record_key y = record_key v) as Ek by (unfold record_key, client_record_value_hash; congruence). rewrite Ek, Tv in Ty. by injection Ty. }
  pose proof (proj2 (names_confirmed _ _ _ _ r y c Hk Hy)) as Nc. pose proof (proj2 (names_confirmed _ _ _ _ r y d Hk Hy)) as Nd.
  rewrite Nc in Nd by (by exists x). specialize (Nd (ex_intro _ z (conj Hz (conj Hsz Hlz)))). by injection Nd.
Qed.
End claims.

(** ** A server that runs *)

Module ClientDemo.

#[local] Instance demo_types : Nfs4Types :=
  {| argu := Z; resu := unit; fs := Z; handles := unit; sockaddr := Z; lease_lifetime := 60; minor_versions := 7;
     enforce_utf8_vld := true; sizeof := fun _ => 16 |}.

(** The state of the file system says which client id, if any, has files open. *)
#[local] Instance demo_clients : Nfs4Clients :=
  {| gss_ctx := Z; gss_compare_names := Z.eqb; CityHash64WithSeed := fun v n => fold_left Z.add v n;
     client_id_has_state := fun n x => n =? x; release_client_states := fun _ x => x;
     nfs4_add_clid := fun _ x => x; nfs4_chk_clid := fun _ x => x; nfs4_rm_clid := fun _ x => x;
     nfs_rpc_create_chan_v41 := fun _ _ x => (true, x); nfs_ServerEpoch := 0x65000000; pnfs_mds := false; pnfs_ds := false;
     param_nb_slots := 64; cid_server_owner := Some [71; 71] |}.

Definition disk : fs := 0.
Definition data : compound_data :=
  MkData 1 [] (7 : sockaddr) 0 0 0 0 0 (MkSeqData None 0 0 None false None) (MkView [] 0 None).
Definition from (uid : Z) : op_request := MkOpRequest data (AuthUnix uid 0) (Some 1) 10.
Definition hello (verifier : Z) : EXCHANGE_ID4args := MkExchange 0 [verifier] [65; 66].
Definition attrs : channel_attrs4 := MkAttrs 0 1024 1024 1024 8 4.
Definition id (n : Z) : Z := number n.
Definition ask (n sequence : Z) : CREATE_SESSION4args := MkCreateArgs (id n) sequence 2 attrs attrs 9.
Definition name (n sequence : Z) : list Z := bytes8 (id n) ++ bytes8 sequence.

Definition get {A} (m : res A) (d : A) : A := match m with Ret a => a | _ => d end.
Definition after (evs : list cevent) : cserver := get (crun (cstart disk) evs) (cstart disk).

(** A client introduces itself, gets a session, has a request refused and runs another one. *)
Definition greeting : list cevent := [CExchange (hello 1) (from 5); CCreate (ask 1 1) (from 5); CRefused (name 1 1); CBegin (name 1 1)].

Lemma demo_config : config_ok.
Proof. unfold config_ok. cbn. lia. Qed.
Lemma demo_args n q : 0 <= q < 2 ^ 32 -> args_ok (ask n q).
Proof. unfold args_ok. cbn. lia. Qed.
Lemma demo_reached evs : Forall cevent_ok evs -> Z.of_nat (length evs) + 2 < 2 ^ 32 -> crun (cstart disk) evs = Ret (after evs) -> reached disk evs (after evs).
Proof. intros. split; [apply demo_config|done]. Qed.

(** All events here are acceptable. *)
Ltac demo_events := repeat (apply Forall_cons; split); try apply Forall_nil; try (split; discriminate); try (apply demo_args; lia); try exact I.
Ltac demo_server := apply demo_reached; [demo_events|cbn; lia|by vm_compute].

Lemma client_ids_safe_witness :
  exists s, crun (cstart disk) greeting = Ret s /\ w_table (cw (cs_memory s)) !! name 1 1 = Some 0%nat /\ found_session (cs_memory s) (name 1 1) 0.
Proof.
  destruct (client_ids_safe disk greeting) as (s & Hr & Hf & _); [apply demo_config|demo_events|cbn; lia|]. exists s. split; [done|].
  assert (w_table (cw (cs_memory s)) !! name 1 1 = Some 0%nat) as Ht.
  { replace s with (after greeting); [by vm_compute|]. unfold after. rewrite Hr. done. }
  split; [done|]. by apply Hf.
Defined.

Definition introduced : cserver := after [CExchange (hello 1) (from 5)].
Definition granted_result : CREATE_SESSION4res := fst (get (nfs4_op_create_session (ask 1 1) (from 5) (cs_memory introduced)) (MkCreate 1 None, cs_memory introduced)).
Definition granted_memory : cworld := snd (get (nfs4_op_create_session (ask 1 1) (from 5) (cs_memory introduced)) (MkCreate 1 None, cs_memory introduced)).

Lemma create_session_once_witness :
  csr_status granted_result = NFS4_OK /\ nfs4_op_create_session (ask 1 1) (from 5) granted_memory = Ret (granted_result, granted_memory).
Proof.
  split; [by vm_compute|]. apply (create_session_once disk [CExchange (hello 1) (from 5)] introduced (ask 1 1) (from 5));
    [demo_server|apply demo_args; lia|by vm_compute|by vm_compute].
Defined.

(** The client restarts: it introduces itself with another verifier. *)
Definition restart : list cevent := [CExchange (hello 1) (from 5); CCreate (ask 1 1) (from 5); CExchange (hello 2) (from 5)].

Lemma restart_reached : reached disk restart (after restart).
Proof. demo_server. Qed.

Lemma client_replaced_witness :
  exists ok k a, nfs4_op_create_session (ask 2 1) (from 5) (cs_memory (after restart)) = Ret (MkCreate NFS4_OK (Some ok), k)
    /\ w_table (cw k) !! csr_sessionid ok = Some a /\ w_table (cw (cs_memory (after restart))) !! name 1 1 = Some 0%nat
    /\ forall sid d se, w_table (cw k) !! sid = Some d -> alive (cw k) d se -> clientid_record se <> 0%nat.
Proof.
  edestruct (client_replaced disk restart (after restart) (ask 2 1) (from 5) false 1 0) as (ok & k & a & Hop & _ & Ht & _ & Hold & _).
  - apply restart_reached.
  - apply demo_args; lia.
  - by vm_compute.
  - split; try (vm_compute; reflexivity). by vm_compute.
  - by vm_compute.
  - exists ok, k, a. split_and!; [exact Hop|exact Ht|by vm_compute|]. by apply (Hold 0%nat); [vm_compute|].
Defined.

Lemma client_introduced_witness :
  exists o k ok k' a, nfs4_op_exchange_id (hello 1) (from 5) (cs_memory (cstart disk)) = Ret (NFS4_OK, Some o, k)
    /\ nfs4_op_create_session (ask 1 1) (from 5) k = Ret (MkCreate NFS4_OK (Some ok), k') /\ found_session k' (csr_sessionid ok) a.
Proof.
  edestruct (client_introduced disk [] (cstart disk) (hello 1) (from 5) (from 5)) with (carg := ask 1 1) as (ok & k' & a & Hop & _ & Hf).
  - split; [apply demo_config|]. split; [apply Forall_nil_2|]. split; [cbn; lia|reflexivity].
  - split; discriminate.
  - reflexivity.
  - vm_compute. reflexivity.
  - vm_compute. reflexivity.
  - apply demo_args; lia.
  - vm_compute. reflexivity.
  - vm_compute. reflexivity.
  - discriminate.
  - vm_compute. reflexivity.
  - vm_compute. reflexivity.
  - vm_compute. reflexivity.
  - vm_compute. reflexivity.
  - eexists _, _, ok, k', a. split; [vm_compute; reflexivity|]. split; [exact Hop|exact Hf].
Defined.

(** Another principal uses the owner's name, while the owner has files open. *)
Definition open_disk : fs := id 1.
Definition busy : cserver := get (crun (cstart open_disk) [CExchange (hello 1) (from 5); CCreate (ask 1 1) (from 5)]) (cstart disk).

Lemma exchange_protects_witness :
  exists st ok k, nfs4_op_exchange_id (hello 3) (from 6) (cs_memory busy) = Ret (st, ok, k) /\ w_table (cw k) !! name 1 1 = Some 0%nat.
Proof.
  edestruct (exchange_protects open_disk [CExchange (hello 1) (from 5); CCreate (ask 1 1) (from 5)] busy (hello 3) (from 6) (name 1 1) 0) as (st & ok & k & Hop & Ht & _).
  - split; [apply demo_config|]. split; [demo_events|]. split; [cbn; lia|by vm_compute].
  - split; discriminate.
  - by vm_compute.
  - by vm_compute.
  - vm_compute. reflexivity.
  - vm_compute. reflexivity.
  - vm_compute. reflexivity.
  - right. split; [vm_compute; discriminate|by vm_compute].
  - exists st, ok, k. exact (conj Hop Ht).
Defined.

Lemma client_destroyed_witness :
  exists k, nfs4_op_destroy_clientid (id 1) (cs_memory introduced) = Ret (NFS4_OK, k) /\ forall z, id_at k 0 z -> cid_confirmed z = EXPIRED_CLIENT_ID.
Proof.
  destruct (client_destroyed disk [CExchange (hello 1) (from 5)] introduced (id 1)) as (st & k & Hop & Hok & _); [demo_server|].
  assert (st = NFS4_OK) as -> by (vm_compute in Hop; by injection Hop). exists k. split; [exact Hop|].
  eapply (Hok eq_refl); vm_compute; reflexivity.
Defined.

(** ** What the server does not do *)

(** A client that restarts leaves its old client id behind: EXCHANGE_ID keeps the reference
    to it, so that it is not freed when it is replaced. *)
Lemma restart_leaks :
  match nfs4_op_create_session (ask 2 1) (from 5) (cs_memory (after restart)) with
  | Ret (_, k) => exists x, id_at k 0 x /\ cid_confirmed x = EXPIRED_CLIENT_ID /\ cid_refcount x = 1
  | _ => False
  end.
Proof. vm_compute. eexists. split_and!; reflexivity. Qed.

(** An EXCHANGE_ID with an owner of no bytes stops the server. *)
Lemma empty_owner_stops : nfs4_op_exchange_id (MkExchange 0 [1] []) (from 5) (cs_memory (cstart disk)) = Crash.
Proof. by vm_compute. Qed.

(** A client that asks for a metadata server only, where there is none, is told of no role. *)
Lemma no_role : pnfs_mds = false -> pnfs_roles EXCHGID4_FLAG_USE_PNFS_MDS = 0.
Proof. intros E0. unfold pnfs_roles. rewrite E0. by vm_compute; destruct pnfs_ds. Qed.

(** DESTROY_CLIENTID of a client id that is not confirmed takes the owner's confirmed one
    too, here one whose session was destroyed... *)
Lemma destroys_another :
  match crun (cstart disk) [CExchange (hello 1) (from 5); CCreate (ask 1 1) (from 5); CDestroySession (name 1 1) (7 : sockaddr); CExchange (hello 2) (from 5)] with
  | Ret s => ht_confirmed_client_id (cs_memory s) !! id 1 = Some 0%nat
    /\ match nfs4_op_destroy_clientid (id 2) (cs_memory s) with
       | Ret (st, k) => st = NFS4_OK /\ ht_confirmed_client_id k !! id 1 = None
       | _ => False
       end
  | _ => False
  end.
Proof. by vm_compute. Qed.

(** ...and is refused because of that one's sessions. *)
Lemma refused_for_another :
  match nfs4_op_destroy_clientid (id 2) (cs_memory (after restart)) with
  | Ret (st, k) => st = NFS4ERR_CLIENTID_BUSY /\ ht_unconfirmed_client_id k !! id 2 = Some 1%nat
  | _ => False
  end.
Proof. by vm_compute. Qed.

(** A SEQUENCE that is refused after it reserved the lease gives its session back, but its
    request goes on to renew the lease: when the session and the client id are destroyed in
    between, the client id is freed. *)
Lemma lease_of_freed_client :
  match (
    '(_, k) ← nfs4_op_create_session (ask 1 1) (from 5) (cs_memory introduced);
    '(o, k) ← begin_request (name 1 1) false k;
    '(a, c) ← deref o;
    '(_, k) ← session_del dec_client_id_ref (name 1 1) k;
    '(st, k) ← nfs4_op_destroy_clientid (id 1) k;
    Ret (st, a, end_request a c k)) with
  | Ret (st, a, r) => st = NFS4_OK /\ a = None /\ r = Crash
  | _ => False
  end.
Proof. by vm_compute. Qed.
End ClientDemo.
