(* ===== verification/NfsAcl.v ===== *)
(** * Access to files of the NFS server ([src/nfs-ganesha/src/FSAL/access_check.c])

    Whether a user may access an object, by the entries of its ACL or by its mode, and the
    reply to ACCESS that is made of it ([nfs_access_op] of [support/nfs_creds.c]). A set of
    permissions is a number of 32 bits. A pointer through which a set is returned is an
    option; [None] is the null pointer. *)

From S2P Require Import Prelude NfsProto NfsSession NfsCompound.
Local Open Scope Z_scope.

Definition ERR_FSAL_NO_ERROR : Z := 0.
Definition ERR_FSAL_PERM : Z := 1.
Definition ERR_FSAL_ACCESS : Z := 13.
Definition ERR_FSAL_NO_ACE : Z := 10096.

Definition FSAL_ACE_TYPE_ALLOW : Z := 0.
Definition FSAL_ACE_TYPE_DENY : Z := 1.

Definition FSAL_ACE_FLAG_FILE_INHERIT : Z := 0x00000001.
Definition FSAL_ACE_FLAG_DIR_INHERIT : Z := 0x00000002.
Definition FSAL_ACE_FLAG_NO_PROPAGATE : Z := 0x00000004.
Definition FSAL_ACE_FLAG_INHERIT_ONLY : Z := 0x00000008.
Definition FSAL_ACE_FLAG_GROUP_ID : Z := 0x00000040.
Definition FSAL_ACE_FLAG_INHERIT : Z := Z.lor FSAL_ACE_FLAG_FILE_INHERIT (Z.lor FSAL_ACE_FLAG_DIR_INHERIT FSAL_ACE_FLAG_INHERIT_ONLY).

Definition FSAL_ACE_IFLAG_MODE_GEN : Z := 0x10000000.
Definition FSAL_ACE_IFLAG_EXCLUDE_FILES : Z := 0x40000000.
Definition FSAL_ACE_IFLAG_EXCLUDE_DIRS : Z := 0x20000000.
Definition FSAL_ACE_IFLAG_SPECIAL_ID : Z := 0x80000000.

Definition FSAL_ACE_PERM_READ_DATA : Z := 0x00000001.
Definition FSAL_ACE_PERM_LIST_DIR : Z := 0x00000001.
Definition FSAL_ACE_PERM_WRITE_DATA : Z := 0x00000002.
Definition FSAL_ACE_PERM_ADD_FILE : Z := 0x00000002.
Definition FSAL_ACE_PERM_APPEND_DATA : Z := 0x00000004.
Definition FSAL_ACE_PERM_ADD_SUBDIRECTORY : Z := 0x00000004.
Definition FSAL_ACE_PERM_EXECUTE : Z := 0x00000020.
Definition FSAL_ACE_PERM_DELETE_CHILD : Z := 0x00000040.
Definition FSAL_ACE_PERM_READ_ATTR : Z := 0x00000080.
Definition FSAL_ACE_PERM_WRITE_ATTR : Z := 0x00000100.
Definition FSAL_ACE_PERM_DELETE : Z := 0x00010000.
Definition FSAL_ACE_PERM_READ_ACL : Z := 0x00020000.
Definition FSAL_ACE_PERM_WRITE_ACL : Z := 0x00040000.
Definition FSAL_ACE_PERM_WRITE_OWNER : Z := 0x00080000.

Definition FSAL_ACE_SPECIAL_OWNER : Z := 1.
Definition FSAL_ACE_SPECIAL_GROUP : Z := 2.
Definition FSAL_ACE_SPECIAL_EVERYONE : Z := 3.

Definition FSAL_R_OK : Z := 0x04000000.
Definition FSAL_W_OK : Z := 0x02000000.
Definition FSAL_X_OK : Z := 0x01000000.
Definition FSAL_ACCESS_FLAG_BIT_MASK : Z := 0x80000000.
Definition FSAL_MODE_BIT_MASK : Z := 0x07000000.
Definition FSAL_ACE4_BIT_MASK : Z := 0x50FFFFFF.
Definition FSAL_MODE_MASK_FLAG : Z := 0x00000000.
Definition FSAL_ACE4_MASK_FLAG : Z := 0x80000000.
Definition FSAL_ACE4_PERM_CONTINUE : Z := 0x40000000.
Definition FSAL_ACE4_REQ_FLAG : Z := 0x10000000.

Definition FSAL_MODE_MASK (access : Z) : Z := Z.land access FSAL_MODE_BIT_MASK.
Definition FSAL_ACE4_MASK (access : Z) : Z := Z.land access FSAL_ACE4_BIT_MASK.
Definition FSAL_MODE_MASK_SET (access : Z) : Z := Z.lor access FSAL_MODE_MASK_FLAG.
Definition FSAL_ACE4_MASK_SET (access : Z) : Z := Z.lor access FSAL_ACE4_MASK_FLAG.

Definition S_IRUSR : Z := 0x100.
Definition S_IWUSR : Z := 0x80.
Definition S_IXUSR : Z := 0x40.
Definition S_IRGRP : Z := 0x20.
Definition S_IWGRP : Z := 0x10.
Definition S_IXGRP : Z := 0x8.
Definition S_IROTH : Z := 0x4.
Definition S_IWOTH : Z := 0x2.
Definition S_IXOTH : Z := 0x1.

(** [flags & ~bits], and whether one of the bits is set. *)
Definition clear (flags bits : Z) : Z := Z.ldiff flags bits.
Definition IS_FSAL_ACE_BIT (word bit : Z) : bool := negb (Z.land word bit =? 0).

(** ** Data *)

Inductive object_file_type_t :=
  NO_FILE_TYPE | REGULAR_FILE | CHARACTER_FILE | BLOCK_FILE | SYMBOLIC_LINK | SOCKET_FILE | FIFO_FILE | DIRECTORY | EXTENDED_ATTR.
#[export] Instance object_file_type_eq : EqDecision object_file_type_t.
Proof. solve_decision. Defined.

Record fsal_ace_t := MkAce { ace_type : Z; ace_perm : Z; ace_flag : Z; ace_iflag : Z; ace_who : Z }.
Record user_cred := MkCred { caller_uid : Z; caller_gid : Z; caller_garray : list Z }.
Record fsal_attrlist := MkAttr {
  valid_mask : Z; at_acl : option (list fsal_ace_t); at_type : object_file_type_t; at_mode : Z; at_owner : Z; at_group : Z }.

Definition IS_FSAL_ACE_ALLOW (ace : fsal_ace_t) : bool := ace_type ace =? FSAL_ACE_TYPE_ALLOW.
Definition IS_FSAL_ACE_DENY (ace : fsal_ace_t) : bool := ace_type ace =? FSAL_ACE_TYPE_DENY.
Definition IS_FSAL_ACE_PERM (ace : fsal_ace_t) : bool := IS_FSAL_ACE_ALLOW ace || IS_FSAL_ACE_DENY ace.
Definition IS_FSAL_ACE_FLAG (ace : fsal_ace_t) (bit : Z) : bool := IS_FSAL_ACE_BIT (ace_flag ace) bit.
Definition IS_FSAL_ACE_IFLAG (ace : fsal_ace_t) (bit : Z) : bool := IS_FSAL_ACE_BIT (ace_iflag ace) bit.

(** ** Access by the ACL *)

Section access.
Variable is_superuser : user_cred -> bool.
Variable ENABLE_RFC_ACL : bool.

Definition fsal_check_ace_owner (uid : Z) (creds : user_cred) : bool := caller_uid creds =? uid.
Definition fsal_check_ace_group (gid : Z) (creds : user_cred) : bool :=
  (caller_gid creds =? gid) || existsb (fun g => g =? gid) (caller_garray creds).

Definition fsal_check_ace_matches (pace : fsal_ace_t) (creds : user_cred) (is_owner is_group : bool) : bool :=
  if IS_FSAL_ACE_IFLAG pace FSAL_ACE_IFLAG_SPECIAL_ID then
    if ace_who pace =? FSAL_ACE_SPECIAL_OWNER then is_owner
    else if ace_who pace =? FSAL_ACE_SPECIAL_GROUP then is_group
    else ace_who pace =? FSAL_ACE_SPECIAL_EVERYONE
  else if IS_FSAL_ACE_FLAG pace FSAL_ACE_FLAG_GROUP_ID then fsal_check_ace_group (ace_who pace) creds
  else fsal_check_ace_owner (ace_who pace) creds.

Definition fsal_check_ace_applicable (pace : fsal_ace_t) (creds : user_cred) (is_dir is_owner is_group is_root : bool) : bool :=
  if IS_FSAL_ACE_FLAG pace FSAL_ACE_FLAG_INHERIT_ONLY then false
  else if IS_FSAL_ACE_IFLAG pace (if is_dir then FSAL_ACE_IFLAG_EXCLUDE_DIRS else FSAL_ACE_IFLAG_EXCLUDE_FILES) then false
  else is_root || fsal_check_ace_matches pace creds is_owner is_group.

(** The error for permissions that are missing. *)
Definition denied_status (perms : Z) : Z :=
  if negb ENABLE_RFC_ACL && IS_FSAL_ACE_BIT perms (Z.lor FSAL_ACE_PERM_WRITE_ATTR (Z.lor FSAL_ACE_PERM_WRITE_ACL FSAL_ACE_PERM_WRITE_OWNER))
  then ERR_FSAL_PERM else ERR_FSAL_ACCESS.

(** The loop over the entries: an error that ends it, what is still missing, and the sets
    that are returned. *)
Fixpoint check_aces (creds : user_cred) (is_dir is_owner is_group is_root : bool) (v4mask : Z) (aces : list fsal_ace_t)
    (missing : Z) (allowed denied : option Z) : option Z * Z * option Z * option Z :=
  match aces with
  | [] => (None, missing, allowed, denied)
  | pace :: aces =>
    let next := check_aces creds is_dir is_owner is_group is_root v4mask aces in
    if negb (IS_FSAL_ACE_PERM pace) then next missing allowed denied
    else if fsal_check_ace_applicable pace creds is_dir is_owner is_group is_root then
      if IS_FSAL_ACE_ALLOW pace then
        let tperm := match denied with Some d => clear (ace_perm pace) d | None => ace_perm pace end in
        let allowed := option_map (fun a => Z.lor a (Z.land v4mask tperm)) allowed in
        let missing := clear missing (Z.land tperm missing) in
        if missing =? 0 then (None, missing, allowed, denied) else next missing allowed denied
      else if IS_FSAL_ACE_BIT (ace_perm pace) missing && negb is_root then
        let denied := option_map (fun d => Z.lor d (Z.land v4mask (ace_perm pace))) denied in
        if bool_decide (denied = None) || negb (IS_FSAL_ACE_BIT v4mask FSAL_ACE4_PERM_CONTINUE) then
          (Some (denied_status (Z.land (ace_perm pace) missing)), missing, allowed, denied)
        else
          let missing := clear missing (Z.land (ace_perm pace) missing) in
          if missing =? 0 then (None, missing, allowed, denied) else next missing allowed denied
      else next missing allowed denied
    else next missing allowed denied
  end.

Definition owner_perms : Z :=
  Z.lor FSAL_ACE_PERM_WRITE_ACL (Z.lor FSAL_ACE_PERM_READ_ACL (Z.lor FSAL_ACE_PERM_WRITE_ATTR FSAL_ACE_PERM_READ_ATTR)).

(** The status, and what is stored through [allowed] and [denied]. *)
Definition fsal_check_access_acl (creds : user_cred) (v4mask : Z) (allowed denied : option Z) (attrs : fsal_attrlist)
  : Z * option Z * option Z :=
  let allowed := option_map (fun _ => 0) allowed in
  let denied := option_map (fun _ => 0) denied in
  match at_acl attrs with
  | None => (ERR_FSAL_NO_ACE, allowed, denied)
  | Some aces =>
    let missing := clear v4mask FSAL_ACE4_PERM_CONTINUE in
    let is_dir := bool_decide (at_type attrs = DIRECTORY) in
    let is_root := is_superuser creds in
    if missing =? 0 then (ERR_FSAL_NO_ERROR, allowed, denied)
    else if is_root && is_dir then (ERR_FSAL_NO_ERROR, option_map (fun _ => v4mask) allowed, denied)
    else
      let missing := if is_root then Z.land missing FSAL_ACE_PERM_EXECUTE else missing in
      let allowed := if is_root then option_map (fun _ => clear v4mask FSAL_ACE_PERM_EXECUTE) allowed else allowed in
      if missing =? 0 then (ERR_FSAL_NO_ERROR, allowed, denied)
      else
        let is_owner := fsal_check_ace_owner (at_owner attrs) creds in
        let is_group := fsal_check_ace_group (at_group attrs) creds in
        let allowed := if is_owner then option_map (fun a => Z.lor a (Z.land v4mask owner_perms)) allowed else allowed in
        let missing := if is_owner then clear missing owner_perms else missing in
        if missing =? 0 then (ERR_FSAL_NO_ERROR, allowed, denied)
        else
          let '(err, missing, allowed, denied) := check_aces creds is_dir is_owner is_group is_root v4mask aces missing allowed denied in
          match err with
          | Some st => (st, allowed, denied)
          | None =>
            if IS_FSAL_ACE_BIT v4mask FSAL_ACE4_REQ_FLAG && negb (missing =? 0) then (ERR_FSAL_NO_ACE, allowed, denied)
            else if negb (missing =? 0) || match denied with Some d => negb (d =? 0) | None => false end then (denied_status missing, allowed, denied)
            else (ERR_FSAL_NO_ERROR, allowed, denied)
          end
  end.

(** ** Access by the mode *)

Definition fsal_check_access_no_acl (creds : user_cred) (access_type : Z) (allowed denied : option Z) (attrs : fsal_attrlist)
  : Z * option Z * option Z :=
  let result st a d := (st, option_map (fun _ => a) allowed, option_map (fun _ => d) denied) in
  if access_type =? 0 then result ERR_FSAL_NO_ERROR 0 0
  else
    let mode := at_mode attrs in
    if is_superuser creds then
      if bool_decide (at_type attrs = DIRECTORY) then result ERR_FSAL_NO_ERROR access_type 0
      else if (Z.land access_type FSAL_X_OK =? 0) || negb (Z.land mode (Z.lor S_IXOTH (Z.lor S_IXUSR S_IXGRP)) =? 0)
      then result ERR_FSAL_NO_ERROR access_type 0
      else result ERR_FSAL_ACCESS (clear access_type FSAL_X_OK) (Z.land access_type FSAL_X_OK)
    else
      let mode :=
        if caller_uid creds =? at_owner attrs then Z.shiftr mode 6
        else if fsal_check_ace_group (at_group attrs) creds then Z.shiftr mode 3
        else mode in
      let mask :=
        Z.lor (if negb (Z.land mode S_IROTH =? 0) then FSAL_R_OK else 0)
          (Z.lor (if negb (Z.land mode S_IWOTH =? 0) then FSAL_W_OK else 0) (if negb (Z.land mode S_IXOTH =? 0) then FSAL_X_OK else 0)) in
      result (if Z.land mask access_type =? access_type then ERR_FSAL_NO_ERROR else ERR_FSAL_ACCESS)
        (Z.land mask access_type) (clear access_type mask).

(** ** Objects *)

(** An object, with what its file system answers when it is asked for the attributes. *)
Record fsal_obj_handle := MkObj { obj_type : object_file_type_t; getattrs : Z + fsal_attrlist }.

Definition fsal_test_access (creds : user_cred) (obj : fsal_obj_handle) (access_type : Z) (allowed denied : option Z) (owner_skip : bool)
  : Z * option Z * option Z :=
  match getattrs obj with
  | inl st => (st, allowed, denied)
  | inr attrs =>
    if owner_skip && (at_owner attrs =? caller_uid creds) then (ERR_FSAL_NO_ERROR, allowed, denied)
    else if IS_FSAL_ACE_BIT access_type FSAL_ACE4_REQ_FLAG
            || (bool_decide (at_acl attrs <> None) && (Z.land access_type FSAL_ACCESS_FLAG_BIT_MASK =? FSAL_ACE4_MASK_FLAG))
    then fsal_check_access_acl creds (FSAL_ACE4_MASK access_type) allowed denied attrs
    else fsal_check_access_no_acl creds (FSAL_MODE_MASK access_type) allowed denied attrs
  end.

(** The status only. *)
Definition test_status (creds : user_cred) (obj : fsal_obj_handle) (access_type : Z) : Z :=
  fst (fst (fsal_test_access creds obj access_type None None false)).

Definition fsal_remove_access (creds : user_cred) (dir rem : fsal_obj_handle) (isdir : bool) : Z :=
  let st := test_status creds dir (Z.lor (FSAL_MODE_MASK_SET FSAL_X_OK) (FSAL_ACE4_MASK_SET FSAL_ACE_PERM_EXECUTE)) in
  if negb (st =? ERR_FSAL_NO_ERROR) then st
  else
    let del := test_status creds rem (Z.lor (FSAL_MODE_MASK_SET FSAL_W_OK) (Z.lor (FSAL_ACE4_MASK_SET FSAL_ACE_PERM_DELETE) FSAL_ACE4_REQ_FLAG)) in
    let st := test_status creds dir (Z.lor (FSAL_MODE_MASK_SET FSAL_W_OK) (Z.lor (FSAL_ACE4_MASK_SET FSAL_ACE_PERM_DELETE_CHILD) FSAL_ACE4_REQ_FLAG)) in
    if negb (st =? ERR_FSAL_NO_ERROR) && negb (del =? ERR_FSAL_NO_ERROR) then
      if negb (st =? ERR_FSAL_NO_ACE) then st
      else if negb (del =? ERR_FSAL_NO_ACE) then del
      else
        test_status creds dir (Z.lor (FSAL_MODE_MASK_SET FSAL_W_OK)
          (FSAL_ACE4_MASK_SET (if isdir then FSAL_ACE_PERM_ADD_SUBDIRECTORY else FSAL_ACE_PERM_ADD_FILE)))
    else ERR_FSAL_NO_ERROR.

Definition fsal_rename_access (creds : user_cred) (src_dir src : fsal_obj_handle) (dst_dir : fsal_obj_handle) (dst : option fsal_obj_handle)
    (isdir : bool) : Z :=
  let st := fsal_remove_access creds src_dir src isdir in
  if negb (st =? ERR_FSAL_NO_ERROR) then st
  else
    let st := match dst with Some dst => fsal_remove_access creds dst_dir dst isdir | None => ERR_FSAL_NO_ERROR end in
    if negb (st =? ERR_FSAL_NO_ERROR) then st
    else
      test_status creds dst_dir (Z.lor (FSAL_MODE_MASK_SET FSAL_W_OK)
        (FSAL_ACE4_MASK_SET (if isdir then FSAL_ACE_PERM_ADD_SUBDIRECTORY else FSAL_ACE_PERM_ADD_FILE))).

(** ** The reply to ACCESS *)

Definition ACCESS3_READ : Z := 0x01.
Definition ACCESS3_LOOKUP : Z := 0x02.
Definition ACCESS3_MODIFY : Z := 0x04.
Definition ACCESS3_EXTEND : Z := 0x08.
Definition ACCESS3_DELETE : Z := 0x10.
Definition ACCESS3_EXECUTE : Z := 0x20.

(** The bits of the first list whose condition holds. *)
Definition bits_if (l : list (bool * Z)) : Z := fold_right (fun '(b, v) acc => if b : bool then Z.lor v acc else acc) 0 l.

(** The permissions to ask for, and the bits that mean something for the object. *)
Definition access_masks (requested : Z) (is_dir : bool) : Z * Z :=
  let wants := IS_FSAL_ACE_BIT requested in
  let mask := bits_if
    [(wants ACCESS3_READ, Z.lor FSAL_R_OK FSAL_ACE_PERM_READ_DATA);
     (wants ACCESS3_LOOKUP && is_dir, Z.lor FSAL_X_OK FSAL_ACE_PERM_EXECUTE);
     (wants ACCESS3_MODIFY, Z.lor FSAL_W_OK (if is_dir then FSAL_ACE_PERM_DELETE_CHILD else FSAL_ACE_PERM_WRITE_DATA));
     (wants ACCESS3_EXTEND, Z.lor FSAL_W_OK (if is_dir then Z.lor FSAL_ACE_PERM_ADD_FILE FSAL_ACE_PERM_ADD_SUBDIRECTORY else FSAL_ACE_PERM_APPEND_DATA));
     (wants ACCESS3_DELETE && is_dir, Z.lor FSAL_W_OK FSAL_ACE_PERM_DELETE_CHILD);
     (wants ACCESS3_EXECUTE && negb is_dir, Z.lor FSAL_X_OK FSAL_ACE_PERM_EXECUTE)] in
  let supported := clear requested (bits_if
    [(wants ACCESS3_LOOKUP && negb is_dir, ACCESS3_LOOKUP);
     (wants ACCESS3_DELETE && negb is_dir, ACCESS3_DELETE);
     (wants ACCESS3_EXECUTE && is_dir, ACCESS3_EXECUTE)]) in
  (if negb (mask =? 0) then Z.lor mask (Z.lor FSAL_MODE_MASK_FLAG (Z.lor FSAL_ACE4_MASK_FLAG FSAL_ACE4_PERM_CONTINUE)) else mask, supported).

(** The bits of ACCESS for the permissions that are allowed. *)
Definition access_bits (allowed : Z) (is_dir : bool) : Z :=
  let has := IS_FSAL_ACE_BIT allowed in
  bits_if
    ([(has FSAL_R_OK, ACCESS3_READ);
      (has FSAL_W_OK, Z.lor ACCESS3_MODIFY (Z.lor ACCESS3_EXTEND ACCESS3_DELETE));
      (has FSAL_X_OK, Z.lor ACCESS3_LOOKUP ACCESS3_EXECUTE);
      (has FSAL_ACE_PERM_READ_DATA, ACCESS3_READ)] ++
     (if is_dir then
        [(has FSAL_ACE_PERM_DELETE_CHILD, Z.lor ACCESS3_MODIFY ACCESS3_DELETE);
         (has FSAL_ACE_PERM_ADD_FILE, ACCESS3_EXTEND);
         (has FSAL_ACE_PERM_ADD_SUBDIRECTORY, ACCESS3_EXTEND)]
      else
        [(has FSAL_ACE_PERM_WRITE_DATA, ACCESS3_MODIFY);
         (has FSAL_ACE_PERM_APPEND_DATA, ACCESS3_EXTEND)]) ++
     [(has FSAL_ACE_PERM_EXECUTE, Z.lor ACCESS3_LOOKUP ACCESS3_EXECUTE)]).

(** The status, the bits granted, and the bits supported unless there is an error;
    [access_allowed] is what is in that variable, which the function does not set. *)
Definition nfs_access_op (access_allowed : Z) (creds : user_cred) (export_options : Z) (obj : fsal_obj_handle) (requested : Z)
  : Z * Z * option Z :=
  let is_dir := bool_decide (obj_type obj = DIRECTORY) in
  let '(mask, supported) := access_masks requested is_dir in
  let '(st, allowed, _) := fsal_test_access creds obj mask (Some access_allowed) (Some 0) false in
  if (st =? ERR_FSAL_NO_ERROR) || (st =? ERR_FSAL_ACCESS) then
    let granted := access_bits (default 0 allowed) is_dir in
    let granted :=
      if negb (IS_FSAL_ACE_BIT export_options EXPORT_OPTION_WRITE_ACCESS)
      then clear granted (Z.lor ACCESS3_EXTEND (Z.lor ACCESS3_MODIFY ACCESS3_DELETE)) else granted in
    (st, Z.land granted supported, Some supported)
  else (st, 0, None).
End access.
