(* ===== verification/NfsAccess.v ===== *)
(** * What the access checks decide

    The checks of [NfsAcl] against the rules that they implement: for every permission the
    first entry of the ACL that applies to the user decides, the owner and the superuser
    have their privileges, and the reply to ACCESS tells exactly what would be allowed. *)

From S2P Require Import Prelude NfsProto NfsSession NfsCompound NfsAcl.
Local Open Scope Z_scope.

(** ** Sets of bits *)

Lemma zero_bits z : z = 0 <-> forall b, Z.testbit z b = false.
Proof. split; [intros -> b; apply Z.bits_0|]. intros Hz. apply Z.bits_inj. intros b. by rewrite Hz, Z.bits_0. Qed.

Lemma nonzero_bit z : z <> 0 <-> exists b, Z.testbit z b = true.
Proof.
  split; [|intros (b & Hb) ->; by rewrite Z.bits_0 in Hb]. intros Hz. destruct (Z.lt_ge_cases 0 z) as [Hp|Hn].
  - exists (Z.log2 z). by apply Z.bit_log2.
  - exists (Z.log2 (Z.pred (- z)) + 1). apply Z.bits_above_log2_neg; lia.
Qed.

Lemma has_bit x y : IS_FSAL_ACE_BIT x y = true <-> exists b, Z.testbit x b = true /\ Z.testbit y b = true.
Proof.
  unfold IS_FSAL_ACE_BIT. rewrite negb_true_iff, Z.eqb_neq, nonzero_bit. split; intros (b & Hb); exists b; rewrite ?Z.land_spec, ?andb_true_iff in *; done.
Qed.

Lemma has_one_bit x b : 0 <= b -> IS_FSAL_ACE_BIT x (2 ^ b) = Z.testbit x b.
Proof.
  intros Hb. apply eq_true_iff_eq. rewrite has_bit. split.
  - intros (c & Hx & Hc). rewrite Z.pow2_bits_eqb in Hc by done. apply Z.eqb_eq in Hc as ->. done.
  - intros Hx. exists b. by rewrite Z.pow2_bits_true.
Qed.

Lemma clear_bit x y b : Z.testbit (clear x y) b = Z.testbit x b && negb (Z.testbit y b).
Proof. apply Z.ldiff_spec. Qed.

(** ** The first entry that decides *)

Section decided.
Variables (creds : user_cred) (is_dir is_owner is_group is_root : bool).

(** An entry that counts for the user: refusals do not for the superuser. *)
Definition counts_for (pace : fsal_ace_t) : bool :=
  IS_FSAL_ACE_PERM pace && fsal_check_ace_applicable pace creds is_dir is_owner is_group is_root && (IS_FSAL_ACE_ALLOW pace || negb is_root).

(** What the first entry with the permission [b] says. *)
Fixpoint decided (aces : list fsal_ace_t) (b : Z) : option bool :=
  match aces with
  | [] => None
  | pace :: aces => if counts_for pace && Z.testbit (ace_perm pace) b then Some (IS_FSAL_ACE_ALLOW pace) else decided aces b
  end.
End decided.

(** A requested permission that the check grants. *)
Definition granted (is_superuser : user_cred -> bool) (creds : user_cred) (attrs : fsal_attrlist) (aces : list fsal_ace_t) (b : Z) : bool :=
  let is_dir := bool_decide (at_type attrs = DIRECTORY) in
  let is_root := is_superuser creds in
  let is_owner := fsal_check_ace_owner (at_owner attrs) creds in
  let is_group := fsal_check_ace_group (at_group attrs) creds in
  (is_root && (is_dir || negb (Z.testbit FSAL_ACE_PERM_EXECUTE b))) || (is_owner && Z.testbit owner_perms b)
  || bool_decide (decided creds is_dir is_owner is_group is_root aces b = Some true).

(** The permissions of a mask, which has two flags beside them. *)
Definition requested (v4mask b : Z) : bool := Z.testbit (clear v4mask (Z.lor FSAL_ACE4_PERM_CONTINUE FSAL_ACE4_REQ_FLAG)) b.

(** What the check looks for: FSAL_ACE4_REQ_FLAG is not taken out. *)
Definition wanted_bit (v4mask b : Z) : bool := Z.testbit (clear v4mask FSAL_ACE4_PERM_CONTINUE) b.

(** The flag apart, the bits that are looked for are the permissions. *)
Lemma wanted_requested v4mask b : wanted_bit v4mask b = requested v4mask b || ((b =? 28) && IS_FSAL_ACE_BIT v4mask FSAL_ACE4_REQ_FLAG).
Proof.
  change FSAL_ACE4_REQ_FLAG with (2 ^ 28). rewrite has_one_bit by lia. unfold wanted_bit, requested. rewrite !clear_bit, Z.lor_spec.
  change FSAL_ACE4_REQ_FLAG with (2 ^ 28). rewrite Z.pow2_bits_eqb by lia. rewrite (Z.eqb_sym 28).
  destruct (Z.eqb_spec b 28) as [->|_]; [by destruct (Z.testbit v4mask 28)|]. by rewrite !orb_false_r.
Qed.

(** ** The loop *)

Section scan.
Variables (rfc : bool) (creds : user_cred) (is_dir is_owner is_group is_root : bool) (v4mask : Z).

(** The state of the loop: what is missing was requested and not denied, and what is not
    missing was allowed or denied. *)
Record scanning (missing : Z) (allowed denied : option Z) : Prop := {
  sn_denied : forall b, Z.testbit missing b = true -> Z.testbit (default 0 denied) b = false;
  sn_requested : forall b, Z.testbit missing b = true -> wanted_bit v4mask b = true;
  sn_known : forall a b, allowed = Some a -> wanted_bit v4mask b = true ->
    Z.testbit missing b = true \/ Z.testbit a b = true \/ Z.testbit (default 0 denied) b = true }.

(** What the loop finds with the decisions [dec]. *)
Record scanned (dec : Z -> option bool) (missing : Z) (allowed denied : option Z) (missing' : Z) (allowed' denied' : option Z) : Prop := {
  sd_missing : forall b, Z.testbit missing' b = Z.testbit missing b && bool_decide (dec b = None);
  sd_allowed : forall a, allowed = Some a -> exists a', allowed' = Some a' /\
    forall b, wanted_bit v4mask b = true -> Z.testbit a' b = Z.testbit a b || (Z.testbit missing b && bool_decide (dec b = Some true));
  sd_null : denied = None -> denied' = None /\ forall b, Z.testbit missing b = true -> dec b <> Some false;
  sd_denied : forall d, denied = Some d -> exists d', denied' = Some d' /\
    (d' = 0 <-> d = 0 /\ forall b, Z.testbit missing b = true -> dec b <> Some false) }.

Lemma denied_status_error m : denied_status rfc m <> ERR_FSAL_NO_ERROR.
Proof. unfold denied_status. by destruct (_ && _). Qed.

(** An entry that says nothing of what is missing. *)
Lemma scanned_other dec dec' missing allowed denied m a d :
  (forall b, Z.testbit missing b = true -> dec' b = dec b) ->
  scanned dec missing allowed denied m a d -> scanned dec' missing allowed denied m a d.
Proof.
  intros Hd [S1 S2 S3 S4].
  assert ((forall b, Z.testbit missing b = true -> dec' b <> Some false) <-> forall b, Z.testbit missing b = true -> dec b <> Some false) as Hf.
  { split; intros G b Hm; [rewrite <- Hd by done|rewrite Hd by done]; by apply G. }
  split.
  - intros b. rewrite S1. destruct (Z.testbit missing b) eqn:E; [|done]. by rewrite Hd.
  - intros a0 Ha. destruct (S2 a0 Ha) as (a' & ? & G). exists a'. split; [done|]. intros b Hr. rewrite (G b Hr).
    destruct (Z.testbit missing b) eqn:E; [|done]. by rewrite Hd.
  - intros Hn. destruct (S3 Hn) as [? G]. split; [done|]. by apply Hf.
  - intros d0 Hd0. destruct (S4 d0 Hd0) as (d' & ? & G). exists d'. split; [done|]. by rewrite Hf.
Qed.

(** The loop ends when nothing is missing. *)
Lemma scanned_done dec missing allowed denied : missing = 0 -> scanned dec missing allowed denied missing allowed denied.
Proof.
  intros ->. split.
  - intros b. by rewrite Z.bits_0.
  - intros a ->. exists a. split; [done|]. intros b _. by rewrite Z.bits_0, orb_false_r.
  - intros ->. split; [done|]. intros b. by rewrite Z.bits_0.
  - intros d ->. exists d. split; [done|]. split; [intros ->; split; [done|]; intros b; by rewrite Z.bits_0|by intros [-> _]].
Qed.

Lemma scanned_none missing allowed denied : scanned (fun _ => None) missing allowed denied missing allowed denied.
Proof.
  split.
  - intros b. by rewrite bool_decide_true, andb_true_r.
  - intros a ->. exists a. split; [done|]. intros b _. by rewrite bool_decide_false, andb_false_r, orb_false_r.
  - done.
  - intros d ->. exists d. split; [done|]. split; [by intros ->|by intros [-> _]].
Qed.

Lemma requested_mask b : wanted_bit v4mask b = true -> Z.testbit v4mask b = true.
Proof. unfold wanted_bit. rewrite clear_bit. by intros [? _]%andb_true_iff. Qed.

(** An entry that allows [perm]. *)
Definition allow_perm (perm : Z) (denied : option Z) : Z := match denied with Some d => clear perm d | None => perm end.

Lemma allow_perm_bit perm denied b : Z.testbit (allow_perm perm denied) b = Z.testbit perm b && negb (Z.testbit (default 0 denied) b).
Proof. destruct denied as [d|]; cbn [allow_perm default]; [apply clear_bit|]. by rewrite Z.bits_0, andb_true_r. Qed.

Lemma added_some (o : option Z) f (a : Z) : option_map f o = Some a -> exists a0 : Z, o = Some a0 /\ a = f a0.
Proof. destruct o as [a0|]; [|done]. intros [= <-]. by exists a0. Qed.

Section allow.
Variables (perm missing : Z) (allowed denied : option Z).
Hypothesis Hs : scanning missing allowed denied.
Let missing1 := clear missing (Z.land (allow_perm perm denied) missing).
Let allowed1 := option_map (fun a => Z.lor a (Z.land v4mask (allow_perm perm denied))) allowed.

Lemma allow_missing b : Z.testbit missing1 b = Z.testbit missing b && negb (Z.testbit perm b).
Proof using Hs.
  unfold missing1. rewrite clear_bit, Z.land_spec, allow_perm_bit. destruct (Z.testbit missing b) eqn:E; [|done].
  rewrite (sn_denied _ _ _ Hs b E). by destruct (Z.testbit perm b).
Qed.

Lemma allow_scanning : scanning missing1 allowed1 denied.
Proof using Hs.
  split.
  - intros b. rewrite allow_missing. intros [Hm _]%andb_true_iff. by apply (sn_denied _ _ _ Hs).
  - intros b. rewrite allow_missing. intros [Hm _]%andb_true_iff. by apply (sn_requested _ _ _ Hs).
  - intros a b Ha Hr. apply added_some in Ha as (a0 & E & ->).
    rewrite Z.lor_spec, Z.land_spec, allow_perm_bit, (requested_mask b Hr), allow_missing.
    destruct (sn_known _ _ _ Hs a0 b E Hr) as [Hm|[->| ->]]; [|by right; left|by right; right].
    rewrite Hm, (sn_denied _ _ _ Hs b Hm). destruct (Z.testbit perm b); [right; left; by rewrite orb_true_r|by left].
Qed.

Lemma allow_scanned dec m a d : scanned dec missing1 allowed1 denied m a d ->
  scanned (fun b => if Z.testbit perm b then Some true else dec b) missing allowed denied m a d.
Proof using Hs.
  intros [S1 S2 S3 S4].
  assert ((forall b, Z.testbit missing b = true -> (if Z.testbit perm b then Some true else dec b) <> Some false)
    <-> forall b, Z.testbit missing1 b = true -> dec b <> Some false) as Hf.
  { split; intros G b Hm.
    - rewrite allow_missing in Hm. apply andb_true_iff in Hm as [Hm Hp%negb_true_iff]. specialize (G b Hm). by rewrite Hp in G.
    - destruct (Z.testbit perm b) eqn:Hp; [done|]. apply G. by rewrite allow_missing, Hm, Hp. }
  split.
  - intros b. rewrite S1, allow_missing. by destruct (Z.testbit missing b), (Z.testbit perm b).
  - intros a0 Ha. unfold allowed1 in S2. rewrite Ha in S2. destruct (S2 _ eq_refl) as (a' & ? & G). exists a'. split; [done|].
    intros b Hr. rewrite (G b Hr), Z.lor_spec, Z.land_spec, allow_perm_bit, (requested_mask b Hr), allow_missing.
    destruct (sn_known _ _ _ Hs a0 b Ha Hr) as [Hm|[->|Hd]]; [|done|].
    + rewrite Hm, (sn_denied _ _ _ Hs b Hm). by destruct (Z.testbit a0 b), (Z.testbit perm b).
    + destruct (Z.testbit missing b) eqn:Hm; [rewrite (sn_denied _ _ _ Hs b Hm) in Hd; done|].
      rewrite Hd. by destruct (Z.testbit a0 b), (Z.testbit perm b).
  - intros Hn. destruct (S3 Hn) as [? G]. split; [done|]. by apply Hf.
  - intros d0 Hd. destruct (S4 d0 Hd) as (d' & ? & G). exists d'. split; [done|]. by rewrite Hf.
Qed.
End allow.

(** An entry that denies [perm], some of which is missing, when the loop goes on. *)
Section deny.
Variables (perm missing : Z) (allowed : option Z) (d0 : Z).
Hypothesis Hs : scanning missing allowed (Some d0).
Let missing1 := clear missing (Z.land perm missing).
Let denied1 := Z.lor d0 (Z.land v4mask perm).

Lemma deny_missing b : Z.testbit missing1 b = Z.testbit missing b && negb (Z.testbit perm b).
Proof. unfold missing1. rewrite clear_bit, Z.land_spec. by destruct (Z.testbit missing b), (Z.testbit perm b). Qed.

Lemma deny_scanning : scanning missing1 allowed (Some denied1).
Proof using Hs.
  split.
  - intros b. rewrite deny_missing. intros [Hm Hp%negb_true_iff]%andb_true_iff. cbn. unfold denied1.
    rewrite Z.lor_spec, Z.land_spec, Hp, andb_false_r, orb_false_r. by apply (sn_denied _ _ _ Hs).
  - intros b. rewrite deny_missing. intros [Hm _]%andb_true_iff. by apply (sn_requested _ _ _ Hs).
  - intros a b Ha Hr. cbn. unfold denied1. rewrite Z.lor_spec, Z.land_spec, (requested_mask b Hr), deny_missing.
    destruct (sn_known _ _ _ Hs a b Ha Hr) as [Hm|[?|Hd]]; [|by right; left|right; right; cbn in Hd; by rewrite Hd].
    rewrite Hm. destruct (Z.testbit perm b); [right; right; by rewrite orb_true_r|by left].
Qed.

Lemma deny_scanned dec m a d : IS_FSAL_ACE_BIT perm missing = true -> scanned dec missing1 allowed (Some denied1) m a d ->
  scanned (fun b => if Z.testbit perm b then Some false else dec b) missing allowed (Some d0) m a d.
Proof using Hs.
  intros (b0 & Hp0 & Hm0)%has_bit [S1 S2 S3 S4]. split.
  - intros b. rewrite S1, deny_missing. by destruct (Z.testbit missing b), (Z.testbit perm b).
  - intros a0 Ha. destruct (S2 a0 Ha) as (a' & ? & G). exists a'. split; [done|]. intros b Hr. rewrite (G b Hr), deny_missing.
    by destruct (Z.testbit missing b), (Z.testbit perm b).
  - done.
  - intros ? [= <-]. destruct (S4 denied1 eq_refl) as (d' & ? & G). exists d'. split; [done|]. rewrite G. split.
    + intros [Hz _]. exfalso. apply (proj1 (zero_bits _)) with (b := b0) in Hz. unfold denied1 in Hz.
      rewrite Z.lor_spec, Z.land_spec, Hp0, (requested_mask b0 (sn_requested _ _ _ Hs b0 Hm0)), orb_true_r in Hz. done.
    + intros [_ Hno]. specialize (Hno b0 Hm0). by rewrite Hp0 in Hno.
Qed.
End deny.

(** How the loop ends: by the first refusal, or with everything that the entries decide. *)
Definition scan_result (dec : Z -> option bool) (missing : Z) (allowed denied : option Z) (res : option Z * Z * option Z * option Z) : Prop :=
  let '(err, m, a, d) := res in
  match err with
  | Some st => st <> ERR_FSAL_NO_ERROR /\ (exists b, Z.testbit missing b = true /\ dec b = Some false)
      /\ (denied = None \/ IS_FSAL_ACE_BIT v4mask FSAL_ACE4_PERM_CONTINUE = false)
  | None => scanned dec missing allowed denied m a d
  end.

Lemma scan_next (dec dec' : Z -> option bool) missing missing1 allowed allowed1 denied denied1 res :
  (forall b, Z.testbit missing1 b = true -> Z.testbit missing b = true /\ dec' b = dec b) ->
  (denied1 = None -> denied = None) ->
  (forall m a d, scanned dec missing1 allowed1 denied1 m a d -> scanned dec' missing allowed denied m a d) ->
  scan_result dec missing1 allowed1 denied1 res -> scan_result dec' missing allowed denied res.
Proof.
  intros Hb Hn Hsc. destruct res as [[[[st|] m] a] d]; [|apply Hsc]. intros (? & (b & Hm & Hd) & Hor). split; [done|]. split.
  - exists b. destruct (Hb b Hm) as [? ->]. done.
  - destruct Hor as [?|?]; auto.
Qed.

Lemma check_aces_scanned aces missing allowed denied : scanning missing allowed denied ->
  scan_result (decided creds is_dir is_owner is_group is_root aces) missing allowed denied
    (check_aces rfc creds is_dir is_owner is_group is_root v4mask aces missing allowed denied).
Proof.
  revert missing allowed denied. induction aces as [|pace aces IH]; intros missing allowed denied Hs; cbn [check_aces decided]; [apply scanned_none|].
  unfold counts_for. destruct (IS_FSAL_ACE_PERM pace); cbn [negb andb]; [|by apply IH].
  destruct (fsal_check_ace_applicable _ _ _ _ _ _); cbn [andb]; [|by apply IH].
  destruct (IS_FSAL_ACE_ALLOW pace); cbn [orb].
  - change (match denied with Some d => clear (ace_perm pace) d | None => ace_perm pace end) with (allow_perm (ace_perm pace) denied).
    cbn zeta. eapply (scan_next _ _ missing (clear missing (Z.land (allow_perm (ace_perm pace) denied) missing)) allowed _ denied denied);
      [| |intros m a d; by apply (allow_scanned _ _ _ _ Hs)|].
    + intros b. rewrite (allow_missing _ _ _ _ Hs). intros [? Hp%negb_true_iff]%andb_true_iff. split; [done|]. cbn. by rewrite Hp.
    + done.
    + destruct (Z.eqb_spec (clear missing (Z.land (allow_perm (ace_perm pace) denied) missing)) 0) as [E|_]; [by apply scanned_done|].
      by apply IH, allow_scanning.
  - destruct is_root; cbn [negb]; rewrite ?andb_false_r, ?andb_true_r; [by apply IH|]. cbn [andb].
    destruct (IS_FSAL_ACE_BIT (ace_perm pace) missing) eqn:Hb.
    2:{ eapply scan_next; [| |intros m a d; apply scanned_other|by apply IH]; [|done|].
        all: intros b Hm; destruct (Z.testbit (ace_perm pace) b) eqn:Hp; [|done].
        all: assert (IS_FSAL_ACE_BIT (ace_perm pace) missing = true) by (apply has_bit; by exists b); congruence. }
    pose proof (proj1 (has_bit _ _) Hb) as (b0 & Hp0 & Hm0).
    destruct denied as [d0|]; cbn [option_map]; [rewrite bool_decide_false by done|rewrite bool_decide_true by done]; cbn [orb].
    2:{ split; [apply denied_status_error|]. split; [exists b0; by rewrite Hp0|by left]. }
    destruct (IS_FSAL_ACE_BIT v4mask FSAL_ACE4_PERM_CONTINUE) eqn:Hc; cbn [negb].
    2:{ split; [apply denied_status_error|]. split; [exists b0; by rewrite Hp0|by right]. }
    cbn zeta. eapply (scan_next _ _ missing (clear missing (Z.land (ace_perm pace) missing)) allowed _ (Some d0));
      [| |intros m a d; by apply (deny_scanned _ _ _ _ Hs)|].
    + intros b. rewrite deny_missing. intros [? Hp%negb_true_iff]%andb_true_iff. split; [done|]. cbn. by rewrite Hp.
    + done.
    + destruct (Z.eqb_spec (clear missing (Z.land (ace_perm pace) missing)) 0) as [E|_]; [by apply scanned_done|]. by apply IH, deny_scanning.
Qed.
End scan.

(** ** The check *)

Section check.
Variables (is_superuser : user_cred -> bool) (rfc : bool) (creds : user_cred) (v4mask : Z) (attrs : fsal_attrlist) (aces : list fsal_ace_t).
Let is_dir := bool_decide (at_type attrs = DIRECTORY).
Let is_root := is_superuser creds.
Let is_owner := fsal_check_ace_owner (at_owner attrs) creds.
Let is_group := fsal_check_ace_group (at_group attrs) creds.
Let grants := granted is_superuser creds attrs aces.

(** What is missing and allowed before the loop. *)
Definition first_missing : Z :=
  let missing := clear v4mask FSAL_ACE4_PERM_CONTINUE in
  let missing := if is_root then Z.land missing FSAL_ACE_PERM_EXECUTE else missing in
  if is_owner then clear missing owner_perms else missing.
Definition first_allowed : Z :=
  let allowed := if is_root then clear v4mask FSAL_ACE_PERM_EXECUTE else 0 in
  if is_owner then Z.lor allowed (Z.land v4mask owner_perms) else allowed.

(** The privileges of the superuser and of the owner. *)
Definition privileged (b : Z) : bool := is_root && negb (Z.testbit FSAL_ACE_PERM_EXECUTE b) || is_owner && Z.testbit owner_perms b.

Lemma first_missing_bit b : Z.testbit first_missing b = wanted_bit v4mask b && negb (privileged b).
Proof.
  unfold first_missing, wanted_bit, privileged. destruct is_root, is_owner; rewrite ?clear_bit, ?Z.land_spec, ?clear_bit;
    destruct (Z.testbit v4mask b), (Z.testbit FSAL_ACE4_PERM_CONTINUE b), (Z.testbit FSAL_ACE_PERM_EXECUTE b), (Z.testbit owner_perms b); done.
Qed.

Lemma first_allowed_bit b : Z.testbit v4mask b = true -> Z.testbit first_allowed b = privileged b.
Proof.
  intros Hb. unfold first_allowed, privileged. destruct is_root, is_owner; rewrite ?Z.lor_spec, ?clear_bit, ?Z.land_spec, ?Hb, ?Z.bits_0;
    destruct (Z.testbit FSAL_ACE_PERM_EXECUTE b), (Z.testbit owner_perms b); done.
Qed.

Lemma grants_bit b : is_root && is_dir = false ->
  grants b = privileged b || bool_decide (decided creds is_dir is_owner is_group is_root aces b = Some true).
Proof.
  intros Hd. unfold grants, granted, privileged. fold is_root is_dir is_owner is_group.
  destruct is_root; cbn [andb] in *; [|done]. by rewrite Hd.
Qed.

(** What the check returns. *)
Record checked (allowed denied : option Z) (res : Z * option Z * option Z) : Prop := {
  ck_status : fst (fst res) = ERR_FSAL_NO_ERROR <-> forall b, wanted_bit v4mask b = true -> grants b = true;
  ck_allowed : allowed <> None -> fst (fst res) = ERR_FSAL_NO_ERROR \/ (denied <> None /\ IS_FSAL_ACE_BIT v4mask FSAL_ACE4_PERM_CONTINUE = true) ->
    exists a, snd (fst res) = Some a /\ forall b, wanted_bit v4mask b = true -> Z.testbit a b = grants b }.

(** Nothing is missing: everything is granted. *)
Lemma checked_all allowed denied a d : (forall b, wanted_bit v4mask b = true -> grants b = true) ->
  (forall b, wanted_bit v4mask b = true -> Z.testbit a b = true) -> checked allowed denied (ERR_FSAL_NO_ERROR, option_map (fun _ => a) allowed, d).
Proof.
  intros Hg Ha. split; cbn [fst snd]; [done|]. intros Hn _. destruct allowed as [x|]; [|done]. exists a. split; [done|].
  intros b Hb. by rewrite Ha, Hg.
Qed.

Lemma first_scanning (allowed denied : option Z) :
  scanning v4mask first_missing (option_map (fun _ => first_allowed) allowed) (option_map (fun _ => 0) denied).
Proof.
  split.
  - intros b _. destruct denied; apply Z.bits_0.
  - intros b. rewrite first_missing_bit. by intros [? _]%andb_true_iff.
  - intros a b Ha Hr. destruct allowed as [x|]; [|done]. injection Ha as <-. rewrite first_missing_bit, first_allowed_bit, Hr by (by apply requested_mask).
    destruct (privileged b); [right; by left|by left].
Qed.

(** What follows the loop. *)
Definition loop_status (res : option Z * Z * option Z * option Z) : Z * option Z * option Z :=
  let '(err, missing, allowed, denied) := res in
  match err with
  | Some st => (st, allowed, denied)
  | None =>
    if IS_FSAL_ACE_BIT v4mask FSAL_ACE4_REQ_FLAG && negb (missing =? 0) then (ERR_FSAL_NO_ACE, allowed, denied)
    else if negb (missing =? 0) || match denied with Some d => negb (d =? 0) | None => false end then (denied_status rfc missing, allowed, denied)
    else (ERR_FSAL_NO_ERROR, allowed, denied)
  end.

Lemma loop_status_ok err missing allowed denied : fst (fst (loop_status (err, missing, allowed, denied))) = ERR_FSAL_NO_ERROR <->
  match err with Some st => st = ERR_FSAL_NO_ERROR | None => missing = 0 /\ default 0 denied = 0 end.
Proof.
  cbn [loop_status]. destruct err as [st|]; [done|]. destruct (Z.eqb_spec missing 0) as [->|Hm]; cbn [negb orb].
  - rewrite andb_false_r. destruct denied as [d|]; cbn [default]; [|done]. destruct (Z.eqb_spec d 0) as [->|Hd]; cbn [negb fst]; [done|].
    split; [|by intros [_ ?]]. intros E. by apply denied_status_error in E.
  - rewrite andb_true_r. split; [|by intros [? _]]. destruct (IS_FSAL_ACE_BIT _ _); cbn [fst]; [done|]. intros E. by apply denied_status_error in E.
Qed.

Lemma loop_status_allowed err missing allowed denied : snd (fst (loop_status (err, missing, allowed, denied))) = allowed.
Proof. cbn [loop_status]. destruct err; [done|]. destruct (_ && _); [done|]. by destruct (negb (missing =? 0) || _). Qed.

Lemma loop_checked (allowed denied : option Z) : is_root && is_dir = false ->
  checked allowed denied (loop_status (check_aces rfc creds is_dir is_owner is_group is_root v4mask aces first_missing
    (option_map (fun _ => first_allowed) allowed) (option_map (fun _ => 0) denied))).
Proof.
  intros Hd. pose proof (check_aces_scanned rfc creds is_dir is_owner is_group is_root v4mask aces _ _ _ (first_scanning allowed denied)) as Hr.
  destruct (check_aces _ _ _ _ _ _ _ _ _ _ _) as [[[err m] a] d]. set (dec := decided creds is_dir is_owner is_group is_root aces) in *.
  assert (forall b, grants b = privileged b || bool_decide (dec b = Some true)) as Hg by (intros b; by apply grants_bit).
  destruct err as [st|]; cbn [scan_result] in Hr.
  - destruct Hr as (Hst & (b & Hm & Hb) & Hor). rewrite first_missing_bit in Hm. apply andb_true_iff in Hm as [Hq Hp%negb_true_iff]. split.
    + rewrite loop_status_ok. split; [done|]. intros G. specialize (G b Hq). by rewrite Hg, Hp, Hb in G.
    + intros _ [?|[Hn Hc]]; [done|]. destruct Hor as [Hor|?]; [by destruct denied|congruence].
  - destruct Hr as [S1 S2 S3 S4].
    assert (default 0 d = 0 <-> forall b, Z.testbit first_missing b = true -> dec b <> Some false) as Hden.
    { destruct denied as [x|]; cbn [option_map] in *; [destruct (S4 0 eq_refl) as (d' & -> & ->); cbn; tauto|]. by destruct (S3 eq_refl) as [-> ?]. }
    split.
    + rewrite loop_status_ok, Hden, zero_bits. setoid_rewrite S1. split.
      * intros [G1 G2] b Hq. rewrite Hg. specialize (G1 b). specialize (G2 b). rewrite first_missing_bit, Hq in G1, G2.
        destruct (privileged b); [done|]. cbn in *. specialize (G2 eq_refl). by destruct (dec b) as [[]|].
      * intros G. split; intros b; rewrite first_missing_bit; destruct (wanted_bit v4mask b) eqn:Hq; try done; specialize (G b Hq);
          rewrite Hg in G; destruct (privileged b); try done; cbn in *; apply bool_decide_eq_true in G; by rewrite G.
    + intros Hn _. destruct allowed as [x|]; [|done]. destruct (S2 _ eq_refl) as (a' & -> & G). exists a'. split.
      * apply loop_status_allowed.
      * intros b Hq. rewrite (G b Hq), first_missing_bit, first_allowed_bit, Hg, Hq by (by apply requested_mask).
        by destruct (privileged b), (bool_decide (dec b = Some true)).
Qed.

(** The check ends early, when all is granted, or with the loop. *)
Inductive acl_outcome (allowed denied : option Z) : Z * option Z * option Z -> Prop :=
| acl_early a : (forall b, wanted_bit v4mask b = true -> grants b = true) ->
    (forall b, wanted_bit v4mask b = true -> Z.testbit a b = true) -> (forall b, Z.testbit a b = true -> Z.testbit v4mask b = true) ->
    acl_outcome allowed denied (ERR_FSAL_NO_ERROR, option_map (fun _ => a) allowed, option_map (fun _ => 0) denied)
| acl_loop : is_root && is_dir = false ->
    acl_outcome allowed denied (loop_status (check_aces rfc creds is_dir is_owner is_group is_root v4mask aces first_missing
      (option_map (fun _ => first_allowed) allowed) (option_map (fun _ => 0) denied))).

(** Nothing is missing but what has no privilege, so that nothing missing means all granted. *)
Lemma none_missing : is_root && is_dir = false -> first_missing = 0 -> forall b, wanted_bit v4mask b = true -> privileged b = true /\ grants b = true.
Proof.
  intros Hd E0 b Hb. rewrite grants_bit by done. pose proof (first_missing_bit b) as Hm. rewrite E0, Z.bits_0, Hb in Hm.
  by destruct (privileged b).
Qed.

Lemma first_allowed_within b : Z.testbit first_allowed b = true -> Z.testbit v4mask b = true.
Proof.
  unfold first_allowed. destruct is_root, is_owner; rewrite ?Z.lor_spec, ?clear_bit, ?Z.land_spec, ?Z.bits_0;
    destruct (Z.testbit v4mask b); rewrite ?andb_false_r, ?andb_false_l; done.
Qed.

Lemma acl_cases (allowed denied : option Z) :
  at_acl attrs = Some aces -> acl_outcome allowed denied (fsal_check_access_acl is_superuser rfc creds v4mask allowed denied attrs).
Proof.
  intros Ha. unfold fsal_check_access_acl. rewrite Ha. cbn zeta. fold is_dir is_root is_owner is_group.
  destruct (Z.eqb_spec (clear v4mask FSAL_ACE4_PERM_CONTINUE) 0) as [E0|Hn0].
  { constructor; intros b; unfold wanted_bit; rewrite ?E0, Z.bits_0; done. }
  destruct (is_root && is_dir) eqn:Hrd.
  { replace (option_map (fun _ => v4mask) (option_map (fun _ => 0) allowed)) with (option_map (fun _ : Z => v4mask) allowed) by (by destruct allowed).
    constructor; [|apply requested_mask|done]. intros b _. unfold grants, granted. fold is_root is_dir. apply andb_true_iff in Hrd as [-> ->]. done. }
  set (m := if is_root then _ else clear v4mask FSAL_ACE4_PERM_CONTINUE). set (a0 := if is_root then clear v4mask FSAL_ACE_PERM_EXECUTE else 0).
  replace (if is_root then option_map (fun _ => clear v4mask FSAL_ACE_PERM_EXECUTE) (option_map (fun _ => 0) allowed) else option_map (fun _ => 0) allowed)
    with (option_map (fun _ : Z => a0) allowed) by (unfold a0; by destruct is_root, allowed).
  destruct (Z.eqb_spec m 0) as [E0|_].
  { unfold m in E0. constructor.
    - apply none_missing; [done|]. unfold first_missing. rewrite E0. destruct is_owner; [apply Z.ldiff_0_l|done].
    - intros b Hb. unfold a0. destruct is_root; [|done]. rewrite clear_bit, (requested_mask _ _ Hb).
      apply (proj1 (zero_bits _)) with (b := b) in E0. rewrite Z.land_spec in E0. unfold wanted_bit in Hb. rewrite Hb in E0. cbn in E0. by rewrite E0.
    - intros b. unfold a0. destruct is_root; [rewrite clear_bit; by intros [? _]%andb_true_iff|by rewrite Z.bits_0]. }
  replace (if is_owner then option_map _ (option_map (fun _ => a0) allowed) else option_map (fun _ => a0) allowed)
    with (option_map (fun _ : Z => first_allowed) allowed) by (unfold first_allowed; fold a0; by destruct is_owner, allowed).
  change (if is_owner then clear m owner_perms else m) with first_missing.
  destruct (Z.eqb_spec first_missing 0) as [E0|_]; [|by constructor].
  constructor; [by apply none_missing| |apply first_allowed_within]. intros b Hb. rewrite first_allowed_bit by (by apply requested_mask). by apply none_missing.
Qed.

Lemma acl_checked (allowed denied : option Z) :
  at_acl attrs = Some aces -> checked allowed denied (fsal_check_access_acl is_superuser rfc creds v4mask allowed denied attrs).
Proof. intros Ha. destruct (acl_cases allowed denied Ha) as [a|]; [by apply checked_all|by apply loop_checked]. Qed.

(** Nothing is allowed that was not asked for. *)
Definition within (o : option Z) : Prop := forall a b, o = Some a -> Z.testbit a b = true -> Z.testbit v4mask b = true.

Lemma within_map (o : option Z) a : (forall b, Z.testbit a b = true -> Z.testbit v4mask b = true) -> within (option_map (fun _ => a) o).
Proof. intros Ha a0 b (x & _ & ->)%added_some. apply Ha. Qed.

Lemma within_add (o : option Z) p : within o -> within (option_map (fun a => Z.lor a (Z.land v4mask p)) o).
Proof.
  intros Ho a b (a0 & Ha & ->)%added_some. rewrite Z.lor_spec, Z.land_spec. intros [?|[? _]%andb_true_iff]%orb_true_iff; [by eapply Ho|done].
Qed.

Lemma check_aces_within d o g r l missing allowed denied : within allowed ->
  within (snd (fst (check_aces rfc creds d o g r v4mask l missing allowed denied))).
Proof.
  revert missing allowed denied. induction l as [|pace l IH]; intros missing allowed denied Ha; cbn [check_aces]; [done|].
  destruct (negb _); [by apply IH|]. destruct (fsal_check_ace_applicable _ _ _ _ _ _); [|by apply IH].
  destruct (IS_FSAL_ACE_ALLOW pace).
  - cbn zeta. destruct (_ =? 0); [by apply within_add|]. by apply IH, within_add.
  - destruct (_ && _); [|by apply IH]. destruct (_ || _); [done|]. cbn zeta. destruct (_ =? 0); [done|]. by apply IH.
Qed.

Lemma acl_within (allowed denied : option Z) :
  at_acl attrs = Some aces -> within (snd (fst (fsal_check_access_acl is_superuser rfc creds v4mask allowed denied attrs))).
Proof.
  intros Ha. destruct (acl_cases allowed denied Ha) as [a|]; [by apply within_map|].
  pose proof (check_aces_within is_dir is_owner is_group is_root aces first_missing (option_map (fun _ => first_allowed) allowed) (option_map (fun _ => 0) denied)) as Hw.
  destruct (check_aces _ _ _ _ _ _ _ _ _ _ _) as [[[err m] a] d]. rewrite loop_status_allowed. apply Hw, within_map, first_allowed_within.
Qed.

(** A check that goes on after a refusal, for permissions that only make ERR_FSAL_ACCESS. *)
Lemma acl_status (allowed denied : option Z) : at_acl attrs = Some aces -> denied <> None ->
  IS_FSAL_ACE_BIT v4mask FSAL_ACE4_PERM_CONTINUE = true -> IS_FSAL_ACE_BIT v4mask FSAL_ACE4_REQ_FLAG = false ->
  IS_FSAL_ACE_BIT v4mask (Z.lor FSAL_ACE_PERM_WRITE_ATTR (Z.lor FSAL_ACE_PERM_WRITE_ACL FSAL_ACE_PERM_WRITE_OWNER)) = false ->
  let st := fst (fst (fsal_check_access_acl is_superuser rfc creds v4mask allowed denied attrs)) in st = ERR_FSAL_NO_ERROR \/ st = ERR_FSAL_ACCESS.
Proof.
  intros Ha Hd Hc Hq Hp. cbn zeta. destruct (acl_cases allowed denied Ha) as [a|_]; [by left|].
  pose proof (check_aces_scanned rfc creds is_dir is_owner is_group is_root v4mask aces _ _ _ (first_scanning allowed denied)) as Hr.
  destruct (check_aces _ _ _ _ _ _ _ _ _ _ _) as [[[err m] a] d]. destruct err as [st|]; cbn [scan_result loop_status] in *.
  - destruct Hr as (_ & _ & [?|?]); [by destruct denied|congruence].
  - rewrite Hq. cbn [andb]. destruct (_ || _); [|by left]. right. cbn [fst]. unfold denied_status.
    destruct (IS_FSAL_ACE_BIT m _) eqn:E; [|by rewrite andb_false_r]. exfalso. apply has_bit in E as (b & Hm & Hb).
    rewrite (sd_missing _ _ _ _ _ _ _ _ Hr) in Hm. apply andb_true_iff in Hm as [Hm _]. rewrite first_missing_bit in Hm.
    apply andb_true_iff in Hm as [Hm%requested_mask _].
    assert (IS_FSAL_ACE_BIT v4mask (Z.lor FSAL_ACE_PERM_WRITE_ATTR (Z.lor FSAL_ACE_PERM_WRITE_ACL FSAL_ACE_PERM_WRITE_OWNER)) = true)
      by (apply has_bit; by exists b). congruence.
Qed.
End check.

(** ** What a client is told about its access

    The check by the mode, the choice between mode and ACL, and the reply to ACCESS. *)

(** *** Bits of constants *)

Ltac branches := repeat match goal with |- context [if ?b then _ else _] =>
  lazymatch b with context [if _ then _ else _] => fail | _ => destruct b end end.
Ltac in_list := apply (bool_decide_unpack _); vm_compute; exact I.

Lemma has_lor x y z : IS_FSAL_ACE_BIT x (Z.lor y z) = IS_FSAL_ACE_BIT x y || IS_FSAL_ACE_BIT x z.
Proof.
  apply eq_true_iff_eq. rewrite orb_true_iff, !has_bit. setoid_rewrite Z.lor_spec. setoid_rewrite orb_true_iff. split.
  - intros (b & ? & [?|?]); [left|right]; by exists b.
  - intros [(b & ? & ?)|(b & ? & ?)]; exists b; auto.
Qed.

(** The flag [c] is the bit [k]. *)
Lemma has_flag_bit x c k : c = 2 ^ k -> 0 <= k -> IS_FSAL_ACE_BIT x c = Z.testbit x k.
Proof. intros -> ?. by apply has_one_bit. Qed.

Lemma land_flag x c : negb (Z.land x c =? 0) = IS_FSAL_ACE_BIT x c.
Proof. done. Qed.

Lemma bits_if_bit l b : Z.testbit (bits_if l) b = existsb (fun '(c, v) => c && Z.testbit v b) l.
Proof.
  induction l as [|[[] v] l IH]; cbn [bits_if fold_right existsb andb orb]; [apply Z.bits_0| |done].
  rewrite Z.lor_spec. by f_equal.
Qed.

(** *** The mode *)

Section mode.
Variables (is_superuser : user_cred -> bool) (creds : user_cred) (attrs : fsal_attrlist).

(** The three bits of the mode for the user. *)
Definition class_mode : Z :=
  if caller_uid creds =? at_owner attrs then Z.shiftr (at_mode attrs) 6
  else if fsal_check_ace_group (at_group attrs) creds then Z.shiftr (at_mode attrs) 3
  else at_mode attrs.

Definition executable : bool := Z.testbit (at_mode attrs) 0 || (Z.testbit (at_mode attrs) 6 || Z.testbit (at_mode attrs) 3).

(** Whether the mode allows to read (2), to write (1) and to execute (0). *)
Definition mode_allows (k : Z) : bool :=
  if is_superuser creds then bool_decide (at_type attrs = DIRECTORY) || negb (k =? 0) || executable else Z.testbit class_mode k.

Definition mode_mask : Z :=
  Z.lor (if mode_allows 2 then FSAL_R_OK else 0) (Z.lor (if mode_allows 1 then FSAL_W_OK else 0) (if mode_allows 0 then FSAL_X_OK else 0)).

Lemma mode_mask_bit k : 0 <= k < 3 -> Z.testbit mode_mask (24 + k) = mode_allows k.
Proof.
  intros Hk. assert (k = 0 \/ k = 1 \/ k = 2) as [->|[->| ->]] by lia; unfold mode_mask; rewrite !Z.lor_spec;
    by destruct (mode_allows 0), (mode_allows 1), (mode_allows 2).
Qed.

Lemma mode_mask_other b : ~ 24 <= b < 27 -> Z.testbit mode_mask b = false.
Proof.
  intros Hb. unfold mode_mask. rewrite !Z.lor_spec.
  assert (forall (c : bool) k, 24 <= k < 27 -> Z.testbit (if c then 2 ^ k else 0) b = false) as Hc.
  { intros [] k Hk; [|apply Z.bits_0]. rewrite Z.pow2_bits_false by lia. done. }
  by rewrite (Hc _ 26), (Hc _ 25), (Hc _ 24) by lia.
Qed.

Section only_mode.
Variable access : Z.
Hypothesis Hacc : forall b, ~ 24 <= b < 27 -> Z.testbit access b = false.

Lemma land_mode a : (forall k, 0 <= k < 3 -> Z.testbit a (24 + k) = mode_allows k && Z.testbit access (24 + k)) ->
  (forall b, ~ 24 <= b < 27 -> Z.testbit a b = false) -> Z.land mode_mask access = a.
Proof using Hacc.
  intros H1 H2. apply Z.bits_inj. intros b. rewrite Z.land_spec. destruct (decide (24 <= b < 27)) as [Hb|Hb]; [|by rewrite H2, Hacc, andb_false_r].
  replace b with (24 + (b - 24)) by lia. by rewrite H1, mode_mask_bit by lia.
Qed.

Lemma land_mode_all : (forall k, 0 <= k < 3 -> Z.testbit access (24 + k) = true -> mode_allows k = true) -> Z.land mode_mask access = access.
Proof using Hacc.
  intros G. apply land_mode; [|done]. intros k Hk. destruct (Z.testbit access (24 + k)) eqn:E; [by rewrite G|by rewrite andb_false_r].
Qed.

(** What the check by the mode returns. *)
Lemma mode_checked allowed denied :
  let res := fsal_check_access_no_acl is_superuser creds access allowed denied attrs in
  snd (fst res) = option_map (fun _ => Z.land mode_mask access) allowed
  /\ fst (fst res) = if Z.land mode_mask access =? access then ERR_FSAL_NO_ERROR else ERR_FSAL_ACCESS.
Proof using Hacc.
  unfold fsal_check_access_no_acl. cbn zeta. destruct (Z.eqb_spec access 0) as [->|Hne]; [by rewrite Z.land_0_r|]. rewrite !land_flag.
  destruct (is_superuser creds) eqn:Hroot.
  - assert (forall k, mode_allows k = bool_decide (at_type attrs = DIRECTORY) || negb (k =? 0) || executable) as Hm by (intros k; unfold mode_allows; by rewrite Hroot).
    destruct (bool_decide (at_type attrs = DIRECTORY)).
    { rewrite land_mode_all by (intros k _ _; by rewrite Hm). by rewrite Z.eqb_refl. }
    rewrite !has_lor, (has_flag_bit _ S_IXOTH 0), (has_flag_bit _ S_IXUSR 6), (has_flag_bit _ S_IXGRP 3) by done. fold executable.
    replace (Z.land access FSAL_X_OK =? 0) with (negb (Z.testbit access 24))
      by (rewrite <- (has_flag_bit access FSAL_X_OK 24) by done; unfold IS_FSAL_ACE_BIT; by rewrite negb_involutive).
    destruct (negb (Z.testbit access 24) || executable) eqn:Hx.
    { rewrite land_mode_all; [by rewrite Z.eqb_refl|]. intros k Hk Hb. rewrite Hm. destruct (Z.eqb_spec k 0) as [->|_]; [|done].
      change (24 + 0) with 24 in Hb. by rewrite Hb in Hx. }
    apply orb_false_iff in Hx as [Hx%negb_false_iff He]. rewrite (land_mode (clear access FSAL_X_OK)).
    + split; [done|]. destruct (Z.eqb_spec (clear access FSAL_X_OK) access) as [E|_]; [|done].
      apply (f_equal (fun z => Z.testbit z 24)) in E. rewrite clear_bit, Hx in E. done.
    + intros k Hk. rewrite clear_bit, Hm, He. assert (k = 0 \/ k = 1 \/ k = 2) as [->|[->| ->]] by lia; by rewrite andb_comm.
    + intros b Hb. by rewrite clear_bit, Hacc.
  - fold class_mode. rewrite (has_flag_bit _ S_IROTH 2), (has_flag_bit _ S_IWOTH 1), (has_flag_bit _ S_IXOTH 0) by done.
    assert (forall k, Z.testbit class_mode k = mode_allows k) as Hm by (intros k; unfold mode_allows; by rewrite Hroot).
    rewrite !Hm. fold mode_mask. done.
Qed.
End only_mode.
End mode.

(** *** Mode or ACL *)

Section reply.
Variables (is_superuser : user_cred -> bool) (rfc : bool) (creds : user_cred).

(** The bit of the mode for a permission. *)
Definition mode_bit (b : Z) : Z := if b =? 0 then 2 else if b =? 5 then 0 else 1.

(** Whether the user has the permission [b] of an object: by its ACL, if there is one. *)
Definition may (attrs : fsal_attrlist) (b : Z) : bool :=
  match at_acl attrs with
  | Some aces => granted is_superuser creds attrs aces b
  | None => mode_allows is_superuser creds attrs (mode_bit b)
  end.

(** A request for permissions of both kinds that goes on after a refusal. *)
Record both_kinds (access : Z) : Prop := {
  bk_flag : Z.testbit access 31 = true;
  bk_continue : Z.testbit access 30 = true;
  bk_other : forall b, b ∈ [8; 18; 19; 28] -> Z.testbit access b = false }.

(** What is allowed, in both kinds: with an ACL no bits of the mode, and else only these. *)
Record answers (attrs : fsal_attrlist) (access a : Z) : Prop := {
  an_acl : forall b, 0 <= b < 24 -> Z.testbit a b = bool_decide (at_acl attrs <> None) && Z.testbit access b && may attrs b;
  an_mode : forall k, 0 <= k < 3 -> Z.testbit a (24 + k) = bool_decide (at_acl attrs = None) && Z.testbit access (24 + k) && mode_allows is_superuser creds attrs k }.

Lemma mask_bit access b m : Z.testbit m b = true -> Z.testbit (Z.land access m) b = Z.testbit access b.
Proof. intros Hm. by rewrite Z.land_spec, Hm, andb_true_r. Qed.

Lemma low_bit b : 0 <= b < 24 -> Z.testbit FSAL_ACE4_BIT_MASK b = true.
Proof. intros Hb. change FSAL_ACE4_BIT_MASK with (Z.lor 0x50000000 (Z.ones 24)). by rewrite Z.lor_spec, Z.ones_spec_low, orb_true_r by lia. Qed.

Lemma mode_bit_mask k m : 0 <= k < 3 -> Z.testbit m 24 = true -> Z.testbit m 25 = true -> Z.testbit m 26 = true -> Z.testbit m (24 + k) = true.
Proof. intros Hk ? ? ?. by assert (k = 0 \/ k = 1 \/ k = 2) as [->|[->| ->]] by lia. Qed.

Lemma mode_only access b : ~ 24 <= b < 27 -> Z.testbit (FSAL_MODE_MASK access) b = false.
Proof.
  intros Hn. unfold FSAL_MODE_MASK. rewrite Z.land_spec. change FSAL_MODE_BIT_MASK with (Z.shiftl (Z.ones 3) 24).
  destruct (decide (b < 0)); [by rewrite Z.testbit_neg_r by lia|]. rewrite Z.shiftl_spec by lia.
  destruct (decide (b < 24)); [rewrite (Z.testbit_neg_r (Z.ones 3)) by lia|rewrite Z.ones_spec_high by lia]; apply andb_false_r.
Qed.

(** What comes back of a check. *)
Definition told (attrs : fsal_attrlist) (access : Z) (res : Z * option Z * option Z) : Prop :=
  exists st a d, res = (st, Some a, d) /\ (st = ERR_FSAL_NO_ERROR \/ st = ERR_FSAL_ACCESS) /\ answers attrs access a.

Lemma acl_told attrs aces access x : at_acl attrs = Some aces -> both_kinds access ->
  told attrs access (fsal_check_access_acl is_superuser rfc creds (FSAL_ACE4_MASK access) (Some x) (Some 0) attrs).
Proof.
  intros Ha [H31 H30 Ho]. set (v := FSAL_ACE4_MASK access).
  assert (forall b, Z.testbit FSAL_ACE4_BIT_MASK b = true -> Z.testbit v b = Z.testbit access b) as Hv by (intros b; apply mask_bit).
  destruct (acl_checked is_superuser rfc creds v attrs aces (Some x) (Some 0) Ha) as [_ Hall].
  pose proof (acl_within is_superuser rfc creds v attrs aces (Some x) (Some 0) Ha) as Hw.
  pose proof (acl_status is_superuser rfc creds v attrs aces (Some x) (Some 0) Ha) as Hst.
  destruct (fsal_check_access_acl _ _ _ _ _ _ _) as [[st oa] d]. cbn [fst snd] in *.
  assert (IS_FSAL_ACE_BIT v FSAL_ACE4_PERM_CONTINUE = true) as Hc by (rewrite (has_flag_bit v _ 30), Hv by done; done).
  destruct Hall as (a & -> & Hb); [done|by right|]. exists st, a, d. split; [done|]. split.
  - apply Hst; [done|done|rewrite (has_flag_bit v _ 28), Hv by done; apply Ho; set_solver|].
    rewrite !has_lor, (has_flag_bit v _ 8), (has_flag_bit v _ 18), (has_flag_bit v _ 19), !Hv, !Ho by (done || set_solver). done.
  - split.
    + intros b Hlt. rewrite bool_decide_true by (by rewrite Ha). unfold may. rewrite Ha. pose proof (Hv b (low_bit b Hlt)) as Hvb.
      destruct (Z.testbit access b) eqn:E; cbn [andb].
      * apply Hb. unfold wanted_bit. rewrite clear_bit, Hvb. change FSAL_ACE4_PERM_CONTINUE with (2 ^ 30). by rewrite Z.pow2_bits_false by lia.
      * destruct (Z.testbit a b) eqn:Eb; [|done]. apply (Hw a b eq_refl) in Eb. congruence.
    + intros k Hk. rewrite bool_decide_false by (by rewrite Ha). cbn [andb]. destruct (Z.testbit a (24 + k)) eqn:Eb; [|done].
      apply (Hw a _ eq_refl) in Eb. unfold v, FSAL_ACE4_MASK in Eb. rewrite Z.land_spec in Eb. apply andb_true_iff in Eb as [_ Eb].
      by assert (k = 0 \/ k = 1 \/ k = 2) as [->|[->| ->]] by lia.
Qed.

Lemma mode_told attrs access x : at_acl attrs = None ->
  told attrs access (fsal_check_access_no_acl is_superuser creds (FSAL_MODE_MASK access) (Some x) (Some 0) attrs).
Proof.
  intros Ha. destruct (mode_checked is_superuser creds attrs (FSAL_MODE_MASK access) (mode_only access) (Some x) (Some 0)) as [Hal Hst].
  destruct (fsal_check_access_no_acl _ _ _ _ _ _) as [[st oa] d]. cbn [fst snd option_map] in *. subst oa st. eexists _, _, d. split; [done|].
  split; [destruct (_ =? _); auto|]. split.
  - intros b Hb. rewrite bool_decide_false by (rewrite Ha; auto). rewrite Z.land_spec, mode_only by lia. apply andb_false_r.
  - intros k Hk. rewrite bool_decide_true by done. rewrite Z.land_spec, mode_mask_bit by done. unfold FSAL_MODE_MASK.
    rewrite mask_bit by (by apply mode_bit_mask). apply andb_comm.
Qed.

Lemma test_told obj attrs access x : getattrs obj = inr attrs -> both_kinds access ->
  told attrs access (fsal_test_access is_superuser rfc creds obj access (Some x) (Some 0) false).
Proof.
  intros Hg Hb. pose proof Hb as [H31 H30 Ho]. unfold fsal_test_access. rewrite Hg. cbn [andb].
  rewrite (has_flag_bit access FSAL_ACE4_REQ_FLAG 28), Ho by (done || set_solver). cbn [orb].
  replace (Z.land access FSAL_ACCESS_FLAG_BIT_MASK =? FSAL_ACE4_MASK_FLAG) with true.
  2:{ symmetry. apply Z.eqb_eq, Z.bits_inj. intros b. change FSAL_ACCESS_FLAG_BIT_MASK with (2 ^ 31). change FSAL_ACE4_MASK_FLAG with (2 ^ 31).
      rewrite Z.land_spec, Z.pow2_bits_eqb by done. destruct (Z.eqb_spec 31 b) as [<-|_]; [by rewrite H31|apply andb_false_r]. }
  rewrite andb_true_r. destruct (at_acl attrs) as [aces|] eqn:Ha; [rewrite bool_decide_true by done|rewrite bool_decide_false by auto].
  - by eapply acl_told.
  - by apply mode_told.
Qed.

(** *** ACCESS *)

(** The permissions for which a request of ACCESS asks. *)
Definition asked (req : Z) (is_dir : bool) (b : Z) : bool :=
  let w := Z.testbit req in
  if b =? 0 then w 0
  else if b =? 1 then w (if is_dir then 3 else 2)
  else if b =? 2 then w 3
  else if b =? 5 then w (if is_dir then 1 else 5)
  else if b =? 6 then is_dir && (w 2 || w 4)
  else if b =? 24 then w (if is_dir then 1 else 5)
  else if b =? 25 then w 2 || w 3 || is_dir && w 4
  else (b =? 26) && w 0.

(** What each bit of the reply says. *)
Definition access_means (allows : Z -> bool) (writable is_dir : bool) (i : Z) : bool :=
  if i =? 0 then allows 0
  else if i =? 1 then is_dir && allows 5
  else if i =? 2 then writable && allows (if is_dir then 6 else 1)
  else if i =? 3 then writable && (if is_dir then allows 1 || allows 2 else allows 2)
  else if i =? 4 then writable && is_dir && allows 6
  else (i =? 5) && negb is_dir && allows 5.

Lemma wanted req : IS_FSAL_ACE_BIT req ACCESS3_READ = Z.testbit req 0 /\ IS_FSAL_ACE_BIT req ACCESS3_LOOKUP = Z.testbit req 1
  /\ IS_FSAL_ACE_BIT req ACCESS3_MODIFY = Z.testbit req 2 /\ IS_FSAL_ACE_BIT req ACCESS3_EXTEND = Z.testbit req 3
  /\ IS_FSAL_ACE_BIT req ACCESS3_DELETE = Z.testbit req 4 /\ IS_FSAL_ACE_BIT req ACCESS3_EXECUTE = Z.testbit req 5.
Proof. split_and!; by apply has_flag_bit. Qed.

Definition flags : Z := Z.lor FSAL_MODE_MASK_FLAG (Z.lor FSAL_ACE4_MASK_FLAG FSAL_ACE4_PERM_CONTINUE).

Lemma masks_asked req is_dir : exists m sup, access_masks req is_dir = (if negb (m =? 0) then Z.lor m flags else m, sup)
  /\ (forall b, b ∈ [0; 1; 2; 5; 6; 24; 25; 26; 8; 18; 19; 28] -> Z.testbit m b = asked req is_dir b)
  /\ (forall i, 0 <= i < 6 -> Z.testbit sup i = Z.testbit req i && negb (if is_dir then i =? 5 else (i =? 1) || (i =? 4))).
Proof.
  unfold access_masks. destruct (wanted req) as (-> & -> & -> & -> & -> & ->). eexists _, _. split; [done|]. split.
  - intros b Hb. rewrite bits_if_bit. unfold asked. generalize (Z.testbit req). intros w.
    repeat (apply elem_of_cons in Hb as [->|Hb]; [destruct is_dir; vm_compute; by branches|]). by apply elem_of_nil in Hb.
  - intros i Hi. rewrite clear_bit, bits_if_bit. assert (i = 0 \/ i = 1 \/ i = 2 \/ i = 3 \/ i = 4 \/ i = 5) as Hc by lia.
    generalize (Z.testbit req). intros w. destruct_or!; subst i; destruct is_dir; vm_compute; by branches.
Qed.

Lemma flags_kinds req is_dir m : (forall b, b ∈ [0; 1; 2; 5; 6; 24; 25; 26; 8; 18; 19; 28] -> Z.testbit m b = asked req is_dir b) -> both_kinds (Z.lor m flags).
Proof.
  intros Hm. split; [by rewrite Z.lor_spec, orb_true_r|by rewrite Z.lor_spec, orb_true_r|]. intros b Hb.
  repeat (apply elem_of_cons in Hb as [->|Hb]; [rewrite Z.lor_spec, Hm by in_list; by vm_compute|]); by apply elem_of_nil in Hb.
Qed.

Lemma access_bits_bit a is_dir i : Z.testbit (access_bits a is_dir) i =
  existsb (fun '(c, v) => c && Z.testbit v i)
    ([(Z.testbit a 26, ACCESS3_READ); (Z.testbit a 25, Z.lor ACCESS3_MODIFY (Z.lor ACCESS3_EXTEND ACCESS3_DELETE));
      (Z.testbit a 24, Z.lor ACCESS3_LOOKUP ACCESS3_EXECUTE); (Z.testbit a 0, ACCESS3_READ)] ++
     (if is_dir then [(Z.testbit a 6, Z.lor ACCESS3_MODIFY ACCESS3_DELETE); (Z.testbit a 1, ACCESS3_EXTEND); (Z.testbit a 2, ACCESS3_EXTEND)]
      else [(Z.testbit a 1, ACCESS3_MODIFY); (Z.testbit a 2, ACCESS3_EXTEND)]) ++ [(Z.testbit a 5, Z.lor ACCESS3_LOOKUP ACCESS3_EXECUTE)]).
Proof.
  unfold access_bits. rewrite bits_if_bit.
  rewrite (has_flag_bit a FSAL_R_OK 26), (has_flag_bit a FSAL_W_OK 25), (has_flag_bit a FSAL_X_OK 24), (has_flag_bit a FSAL_ACE_PERM_READ_DATA 0),
    (has_flag_bit a FSAL_ACE_PERM_DELETE_CHILD 6), (has_flag_bit a FSAL_ACE_PERM_ADD_FILE 1), (has_flag_bit a FSAL_ACE_PERM_ADD_SUBDIRECTORY 2),
    (has_flag_bit a FSAL_ACE_PERM_WRITE_DATA 1), (has_flag_bit a FSAL_ACE_PERM_APPEND_DATA 2), (has_flag_bit a FSAL_ACE_PERM_EXECUTE 5) by done.
  done.
Qed.

(** The bits of the reply, from what is allowed of the permissions asked for. *)
Lemma reply_bits attrs req is_dir M sup a i :
  (forall b, b ∈ [0; 1; 2; 5; 6; 24; 25; 26] -> Z.testbit M b = asked req is_dir b) -> answers attrs M a ->
  (forall i, 0 <= i < 6 -> Z.testbit sup i = Z.testbit req i && negb (if is_dir then i =? 5 else (i =? 1) || (i =? 4))) -> 0 <= i < 6 ->
  Z.testbit (access_bits a is_dir) i && Z.testbit sup i = Z.testbit req i && access_means (may attrs) true is_dir i.
Proof.
  intros HM [A1 A2] Hsup Hi. rewrite Hsup, access_bits_bit by done.
  pose proof (A2 0) as B0. pose proof (A2 1) as B1. pose proof (A2 2) as B2. change (24 + 0) with 24 in B0. change (24 + 1) with 25 in B1. change (24 + 2) with 26 in B2.
  rewrite B0, B1, B2, (A1 0), (A1 1), (A1 2), (A1 5), (A1 6) by (by split). rewrite (HM 0), (HM 1), (HM 2), (HM 5), (HM 6), (HM 24), (HM 25), (HM 26) by in_list. clear A1 A2 HM Hsup B0 B1 B2.
  assert (i = 0 \/ i = 1 \/ i = 2 \/ i = 3 \/ i = 4 \/ i = 5) as Hc by lia. unfold may, asked. destruct (at_acl attrs) as [aces|];
    [rewrite (bool_decide_true (Some aces <> None)), (bool_decide_false (Some aces = None)) by done|rewrite (bool_decide_false (None <> None)), (bool_decide_true (None = None)) by auto].
  - generalize (granted is_superuser creds attrs aces), (Z.testbit req). intros g w. destruct_or!; subst i; destruct is_dir; vm_compute; by branches.
  - generalize (mode_allows is_superuser creds attrs), (Z.testbit req). intros g w. destruct_or!; subst i; destruct is_dir; vm_compute; by branches.
Qed.

(** The reply to ACCESS. *)
Lemma access_op_told x options obj attrs req : getattrs obj = inr attrs -> obj_type obj = at_type attrs ->
  let is_dir := bool_decide (at_type attrs = DIRECTORY) in
  let writable := IS_FSAL_ACE_BIT options EXPORT_OPTION_WRITE_ACCESS in
  exists st g sup, nfs_access_op is_superuser rfc x creds options obj req = (st, g, Some sup)
    /\ (st = ERR_FSAL_NO_ERROR \/ st = ERR_FSAL_ACCESS)
    /\ forall i, 0 <= i < 6 -> Z.testbit g i = Z.testbit req i && access_means (may attrs) writable is_dir i.
Proof.
  intros Hg Ht is_dir writable. unfold nfs_access_op. rewrite Ht. fold is_dir writable.
  destruct (masks_asked req is_dir) as (m & sup & -> & Hm & Hsup).
  set (M := if negb (m =? 0) then Z.lor m flags else m).
  assert (told attrs M (fsal_test_access is_superuser rfc creds obj M (Some x) (Some 0) false)
    /\ forall b, b ∈ [0; 1; 2; 5; 6; 24; 25; 26] -> Z.testbit M b = asked req is_dir b) as [(st & a & d & -> & Hst & Han) HM].
  { unfold M. destruct (Z.eqb_spec m 0) as [->|_]; cbn [negb].
    - split; [|intros b Hb; apply Hm; set_solver]. unfold fsal_test_access. rewrite Hg. cbn [andb orb Z.land IS_FSAL_ACE_BIT Z.eqb negb].
      rewrite andb_false_r. cbn. eexists _, _, _. split; [done|]. split; [by left|]. split; intros; by rewrite !Z.bits_0, ?andb_false_r.
    - split; [by apply test_told, (flags_kinds req is_dir)|]. intros b Hb. rewrite Z.lor_spec, Hm by set_solver.
      repeat (apply elem_of_cons in Hb as [->|Hb]; [apply orb_false_r|]). by apply elem_of_nil in Hb. }
  replace ((st =? ERR_FSAL_NO_ERROR) || (st =? ERR_FSAL_ACCESS)) with true by (by destruct Hst as [->| ->]).
  eexists st, _, sup. split; [done|]. split; [done|]. intros i Hi. cbn [default]. rewrite Z.land_spec.
  pose proof (reply_bits attrs req is_dir M sup a i HM Han Hsup Hi) as Hr.
  destruct writable; cbn [negb]; [done|]. rewrite clear_bit.
  assert (i = 0 \/ i = 1 \/ i = 2 \/ i = 3 \/ i = 4 \/ i = 5) as Hc by lia. unfold access_means in *.
  destruct_or!; subst i; cbn -[Z.testbit] in *; rewrite ?andb_true_r, ?andb_false_r in *; done.
Qed.
End reply.
