(* ===== verification/NfsAclMode.v ===== *)
(** * ACLs that are inherited or made from a mode ([src/nfs-ganesha/src/FSAL/commonlib.c])

    The ACL of a new object is made of the entries of its directory that are inherited, and
    an ACL and a mode are made of each other. The entries are written into an array of a size
    that was counted before; a write behind its end is [Crash]. *)

From S2P Require Import Prelude NfsProto NfsSession NfsCompound NfsAcl NfsAccess.
Local Open Scope Z_scope.

Definition ERR_FSAL_EXIST : Z := 17.
Definition ERR_FSAL_SERVERFAULT : Z := 10006.
Definition ATTR_ACL : Z := 0x20.
Definition ATTR_MODE : Z := 0x80.
Definition S_IRWXU : Z := 0x1C0.
Definition S_IRWXG : Z := 0x38.
Definition S_IRWXO : Z := 0x7.

(** ** Arrays of entries *)

(** An array of [n] entries that are zero ([nfs4_ace_alloc]). *)
Definition nfs4_ace_alloc (n : nat) : list fsal_ace_t := replicate n (MkAce 0 0 0 0 0).
Definition update_ace (i : nat) (f : fsal_ace_t -> fsal_ace_t) (aces : list fsal_ace_t) : res (list fsal_ace_t) :=
  match aces !! i with Some ace => Ret (<[i := f ace]> aces) | None => Crash end.
Definition write_ace (i : nat) (ace : fsal_ace_t) : list fsal_ace_t -> res (list fsal_ace_t) := update_ace i (fun _ => ace).

Definition set_flag (flag : Z) (ace : fsal_ace_t) : fsal_ace_t := MkAce (ace_type ace) (ace_perm ace) flag (ace_iflag ace) (ace_who ace).
Definition set_perm (perm : Z) (ace : fsal_ace_t) : fsal_ace_t := MkAce (ace_type ace) perm (ace_flag ace) (ace_iflag ace) (ace_who ace).
Definition set_acl (aces : list fsal_ace_t) (attrs : fsal_attrlist) : fsal_attrlist :=
  MkAttr (Z.lor (valid_mask attrs) ATTR_ACL) (Some aces) (at_type attrs) (at_mode attrs) (at_owner attrs) (at_group attrs).

(** ** Inheritance *)

Definition is_dup_ace (ace : fsal_ace_t) (inherit : Z) : bool :=
  if negb (IS_FSAL_ACE_FLAG ace FSAL_ACE_FLAG_INHERIT) then false
  else if negb (inherit =? FSAL_ACE_FLAG_DIR_INHERIT) then false
  else if IS_FSAL_ACE_FLAG ace FSAL_ACE_FLAG_NO_PROPAGATE then false
  else if IS_FSAL_ACE_FLAG ace FSAL_ACE_FLAG_FILE_INHERIT && negb (IS_FSAL_ACE_FLAG ace FSAL_ACE_FLAG_DIR_INHERIT) then false
  else IS_FSAL_ACE_PERM ace.

Definition no_inherit (ace : fsal_ace_t) : fsal_ace_t :=
  set_flag (clear (ace_flag ace) (Z.lor FSAL_ACE_FLAG_INHERIT FSAL_ACE_FLAG_NO_PROPAGATE)) ace.

(** The entry at [i] is kept for inheritance only, and the next one is effective. *)
Definition dup_ace (i : nat) (aces : list fsal_ace_t) : res (list fsal_ace_t) :=
  sace ← deref (aces !! i);
  aces ← write_ace (S i) sace aces;
  aces ← update_ace i (fun a => set_flag (Z.lor (ace_flag a) FSAL_ACE_FLAG_INHERIT_ONLY) a) aces;
  update_ace (S i) no_inherit aces.

Definition inherit_count (inherit : Z) (sacl : list fsal_ace_t) : nat :=
  fold_left (fun n sace => (n + (if IS_FSAL_ACE_FLAG sace inherit then 1 else 0) + (if is_dup_ace sace inherit then 1 else 0))%nat) sacl 0%nat.

Fixpoint inherit_loop (inherit : Z) (sacl : list fsal_ace_t) (i : nat) (aces : list fsal_ace_t) : res (list fsal_ace_t) :=
  match sacl with
  | [] => Ret aces
  | sace :: sacl =>
    if IS_FSAL_ACE_FLAG sace inherit then
      aces ← write_ace i sace aces;
      if IS_FSAL_ACE_FLAG sace FSAL_ACE_FLAG_NO_PROPAGATE then
        aces ← update_ace i no_inherit aces; inherit_loop inherit sacl (S i) aces
      else if (inherit =? FSAL_ACE_FLAG_DIR_INHERIT) && IS_FSAL_ACE_FLAG sace FSAL_ACE_FLAG_FILE_INHERIT
              && negb (IS_FSAL_ACE_FLAG sace FSAL_ACE_FLAG_DIR_INHERIT) then
        aces ← update_ace i (fun a => set_flag (Z.lor (ace_flag a) FSAL_ACE_FLAG_NO_PROPAGATE) a) aces; inherit_loop inherit sacl (S i) aces
      else if is_dup_ace sace inherit then
        aces ← dup_ace i aces; inherit_loop inherit sacl (S (S i)) aces
      else inherit_loop inherit sacl (S i) aces
    else inherit_loop inherit sacl i aces
  end.

Definition fsal_inherit_acls (attrs : fsal_attrlist) (sacl : option (list fsal_ace_t)) (inherit : Z) : res (Z * fsal_attrlist) :=
  match sacl with
  | None | Some [] => Ret (ERR_FSAL_NO_ERROR, attrs)
  | Some sacl =>
    match at_acl attrs with
    | Some (_ :: _) => Ret (ERR_FSAL_EXIST, attrs)
    | _ =>
      let naces := inherit_count inherit sacl in
      if (naces =? 0)%nat then Ret (ERR_FSAL_NO_ERROR, attrs)
      else aces ← inherit_loop inherit sacl 0 (nfs4_ace_alloc naces); Ret (ERR_FSAL_NO_ERROR, set_acl aces attrs)
    end
  end.

(** ** From a mode to an ACL *)

(** The permissions of three bits of the mode, in the place of the owner's. *)
Definition fsal_mode_set_ace (deny allow : fsal_ace_t) (mode : Z) : fsal_ace_t * fsal_ace_t :=
  let write := Z.lor FSAL_ACE_PERM_WRITE_DATA FSAL_ACE_PERM_APPEND_DATA in
  let perms (b : bool) :=
    bits_if [(Bool.eqb b (IS_FSAL_ACE_BIT mode S_IRUSR), FSAL_ACE_PERM_READ_DATA); (Bool.eqb b (IS_FSAL_ACE_BIT mode S_IWUSR), write);
             (Bool.eqb b (IS_FSAL_ACE_BIT mode S_IXUSR), FSAL_ACE_PERM_EXECUTE)] in
  let set ty p a := MkAce ty (Z.lor (ace_perm a) p) (ace_flag a) (ace_iflag a) (ace_who a) in
  (set FSAL_ACE_TYPE_DENY (perms false) deny, set FSAL_ACE_TYPE_ALLOW (perms true) allow).

(** The two entries at [i] for [who]. *)
Definition mode_pair (i : nat) (who : Z) (flag : option Z) (mode : Z) (aces : list fsal_ace_t) : res (list fsal_ace_t) :=
  let special a := MkAce (ace_type a) (ace_perm a) (default (ace_flag a) flag)
                     (Z.lor (ace_iflag a) (Z.lor FSAL_ACE_IFLAG_MODE_GEN FSAL_ACE_IFLAG_SPECIAL_ID)) who in
  deny ← deref (aces !! i);
  allow ← deref (aces !! S i);
  let '(deny, allow) := fsal_mode_set_ace (special deny) (special allow) mode in
  aces ← write_ace i deny aces;
  write_ace (S i) allow aces.

Definition fsal_mode_gen_set (i : nat) (mode : Z) (aces : list fsal_ace_t) : res (list fsal_ace_t) :=
  aces ← mode_pair i FSAL_ACE_SPECIAL_OWNER None (Z.land mode S_IRWXU) aces;
  aces ← mode_pair (i + 2) FSAL_ACE_SPECIAL_GROUP (Some FSAL_ACE_FLAG_GROUP_ID) (Z.shiftl (Z.land mode S_IRWXG) 3) aces;
  mode_pair (i + 4) FSAL_ACE_SPECIAL_EVERYONE None (Z.shiftl (Z.land mode S_IRWXO) 6) aces.

Definition fsal_mode_gen_acl (attrs : fsal_attrlist) : res (Z * fsal_attrlist) :=
  aces ← fsal_mode_gen_set 0 (at_mode attrs) (nfs4_ace_alloc 6);
  Ret (ERR_FSAL_NO_ERROR, set_acl aces attrs).

(** An entry of the old ACL that is kept twice. *)
Definition splits (sace : fsal_ace_t) : bool :=
  negb (IS_FSAL_ACE_FLAG sace FSAL_ACE_FLAG_INHERIT_ONLY) && IS_FSAL_ACE_PERM sace && IS_FSAL_ACE_FLAG sace FSAL_ACE_FLAG_INHERIT.
Definition mode_gen (sace : fsal_ace_t) : bool := IS_FSAL_ACE_IFLAG sace FSAL_ACE_IFLAG_MODE_GEN.

Definition mode_count (sacl : list fsal_ace_t) : nat :=
  fold_left (fun n sace => if mode_gen sace then n else (n + 1 + (if splits sace then 1 else 0))%nat) sacl 0%nat.

Definition IS_FSAL_ACE_SPECIAL (ace : fsal_ace_t) : bool :=
  (ace_who ace =? FSAL_ACE_SPECIAL_OWNER) || (ace_who ace =? FSAL_ACE_SPECIAL_GROUP) || (ace_who ace =? FSAL_ACE_SPECIAL_EVERYONE).
Definition mode_perms : Z :=
  fold_right Z.lor 0 [FSAL_ACE_PERM_READ_DATA; FSAL_ACE_PERM_LIST_DIR; FSAL_ACE_PERM_WRITE_DATA; FSAL_ACE_PERM_ADD_FILE;
    FSAL_ACE_PERM_APPEND_DATA; FSAL_ACE_PERM_ADD_SUBDIRECTORY; FSAL_ACE_PERM_EXECUTE].
Definition strip_special (ace : fsal_ace_t) : fsal_ace_t :=
  if IS_FSAL_ACE_SPECIAL ace then set_perm (clear (ace_perm ace) mode_perms) ace else ace.

(** The loop: where it is in the new array, and the number of entries so far. *)
Fixpoint mode_loop (sacl : list fsal_ace_t) (i n : nat) (aces : list fsal_ace_t) : res (nat * nat * list fsal_ace_t) :=
  match sacl with
  | [] => Ret (i, n, aces)
  | sace :: sacl =>
    if mode_gen sace then mode_loop sacl (S i) n aces
    else
      aces ← write_ace i sace aces;
      if IS_FSAL_ACE_FLAG sace FSAL_ACE_FLAG_INHERIT_ONLY || negb (IS_FSAL_ACE_PERM sace) then mode_loop sacl (S i) (S n) aces
      else if IS_FSAL_ACE_FLAG sace FSAL_ACE_FLAG_INHERIT then
        aces ← update_ace i (fun a => set_flag (Z.lor (ace_flag a) FSAL_ACE_FLAG_INHERIT_ONLY) a) aces;
        aces ← write_ace (S i) sace aces;
        aces ← update_ace (S i) (fun a => strip_special (set_flag (clear (ace_flag a) FSAL_ACE_FLAG_INHERIT) a)) aces;
        mode_loop sacl (S (S i)) (S (S n)) aces
      else aces ← update_ace i strip_special aces; mode_loop sacl (S i) (S n) aces
  end.

Definition fsal_mode_to_acl (attrs : fsal_attrlist) (sacl : option (list fsal_ace_t)) : res (Z * fsal_attrlist) :=
  if negb (IS_FSAL_ACE_BIT (valid_mask attrs) ATTR_MODE) then Ret (ERR_FSAL_NO_ERROR, attrs)
  else
    match sacl with
    | None | Some [] => fsal_mode_gen_acl attrs
    | Some sacl =>
      let naces := mode_count sacl in
      if (naces =? 0)%nat then fsal_mode_gen_acl attrs
      else
        '(i, n, aces) ← mode_loop sacl 0 0 (nfs4_ace_alloc (naces + 6));
        if negb (naces + 6 - n =? 6)%nat then
          Ret (ERR_FSAL_SERVERFAULT, MkAttr (valid_mask attrs) (Some (take n aces)) (at_type attrs) (at_mode attrs) (at_owner attrs) (at_group attrs))
        else aces ← fsal_mode_gen_set i (at_mode attrs) aces; Ret (ERR_FSAL_NO_ERROR, set_acl aces attrs)
    end.

(** ** From an ACL to a mode *)

Definition ace_modes (who : Z) : option (Z * Z * Z) :=
  if who =? FSAL_ACE_SPECIAL_OWNER then Some (S_IRUSR, S_IWUSR, S_IXUSR)
  else if who =? FSAL_ACE_SPECIAL_GROUP then Some (S_IRGRP, S_IWGRP, S_IXGRP)
  else if who =? FSAL_ACE_SPECIAL_EVERYONE then
    Some (Z.lor S_IRUSR (Z.lor S_IRGRP S_IROTH), Z.lor S_IWUSR (Z.lor S_IWGRP S_IWOTH), Z.lor S_IXUSR (Z.lor S_IXGRP S_IXOTH))
  else None.

Definition set_mode (mode bits : Z) (allow : bool) : Z := if allow then Z.lor mode bits else clear mode bits.

Definition ace_to_mode (mode : Z) (ace : fsal_ace_t) : Z :=
  match ace_modes (ace_who ace) with
  | None => mode
  | Some (r, w, x) =>
    let allow := IS_FSAL_ACE_ALLOW ace in
    let mode := if IS_FSAL_ACE_BIT (ace_perm ace) FSAL_ACE_PERM_READ_DATA then set_mode mode r allow else mode in
    let mode := if IS_FSAL_ACE_BIT (ace_perm ace) FSAL_ACE_PERM_WRITE_DATA || IS_FSAL_ACE_BIT (ace_perm ace) FSAL_ACE_PERM_APPEND_DATA
                then set_mode mode w allow else mode in
    if IS_FSAL_ACE_BIT (ace_perm ace) FSAL_ACE_PERM_EXECUTE then set_mode mode x allow else mode
  end.

Definition fsal_acl_to_mode (attrs : fsal_attrlist) : Z * fsal_attrlist :=
  if negb (IS_FSAL_ACE_BIT (valid_mask attrs) ATTR_ACL) then (ERR_FSAL_NO_ERROR, attrs)
  else
    match at_acl attrs with
    | None | Some [] => (ERR_FSAL_NO_ERROR, attrs)
    | Some aces =>
      (ERR_FSAL_NO_ERROR, MkAttr (Z.lor (valid_mask attrs) ATTR_MODE) (Some aces) (at_type attrs) (fold_left ace_to_mode aces (at_mode attrs))
                            (at_owner attrs) (at_group attrs))
    end.

(** ** What made ACLs allow

    The ACL that is made from a mode allows what the mode allows, and the ACL of a new object
    has exactly the entries that are inherited. *)

(** *** The ACL of a mode *)

(** The entry for [who] with the permissions of three bits. *)
Definition made_ace (ty who flag : Z) (r w x : bool) : fsal_ace_t :=
  MkAce ty (bits_if [(r, FSAL_ACE_PERM_READ_DATA); (w, Z.lor FSAL_ACE_PERM_WRITE_DATA FSAL_ACE_PERM_APPEND_DATA); (x, FSAL_ACE_PERM_EXECUTE)])
    flag (Z.lor FSAL_ACE_IFLAG_MODE_GEN FSAL_ACE_IFLAG_SPECIAL_ID) who.

Definition made_pair (who flag mode i : Z) : list fsal_ace_t :=
  let r := Z.testbit mode (i + 2) in
  let w := Z.testbit mode (i + 1) in
  let x := Z.testbit mode i in
  [made_ace FSAL_ACE_TYPE_DENY who flag (negb r) (negb w) (negb x); made_ace FSAL_ACE_TYPE_ALLOW who flag r w x].

Definition made_acl (mode : Z) : list fsal_ace_t :=
  made_pair FSAL_ACE_SPECIAL_OWNER 0 mode 6 ++ made_pair FSAL_ACE_SPECIAL_GROUP FSAL_ACE_FLAG_GROUP_ID mode 3
  ++ made_pair FSAL_ACE_SPECIAL_EVERYONE 0 mode 0.

Lemma class_bit mode mask sh c k : 0 <= sh <= k -> c = 2 ^ k -> Z.testbit mask (k - sh) = true ->
  IS_FSAL_ACE_BIT (Z.shiftl (Z.land mode mask) sh) c = Z.testbit mode (k - sh).
Proof. intros Hk -> Hm. rewrite has_one_bit, Z.shiftl_spec, Z.land_spec, Hm by lia. apply andb_true_r. Qed.

Lemma if_same (b : bool) : (if b then true else false) = b.
Proof. by destruct b. Qed.

Lemma mode_gen_acl_made attrs : fsal_mode_gen_acl attrs = Ret (ERR_FSAL_NO_ERROR, set_acl (made_acl (at_mode attrs)) attrs).
Proof.
  unfold fsal_mode_gen_acl, fsal_mode_gen_set, mode_pair, fsal_mode_set_ace. rewrite <- (Z.shiftl_0_r (Z.land (at_mode attrs) S_IRWXU)).
  assert (forall mask sh, 0 <= sh <= 6 -> Z.testbit mask (8 - sh) = true -> Z.testbit mask (7 - sh) = true -> Z.testbit mask (6 - sh) = true ->
    IS_FSAL_ACE_BIT (Z.shiftl (Z.land (at_mode attrs) mask) sh) S_IRUSR = Z.testbit (at_mode attrs) (8 - sh)
    /\ IS_FSAL_ACE_BIT (Z.shiftl (Z.land (at_mode attrs) mask) sh) S_IWUSR = Z.testbit (at_mode attrs) (7 - sh)
    /\ IS_FSAL_ACE_BIT (Z.shiftl (Z.land (at_mode attrs) mask) sh) S_IXUSR = Z.testbit (at_mode attrs) (6 - sh)) as Hc.
  { intros mask sh Hs H8 H7 H6. split_and!; apply class_bit; (lia || done). }
  destruct (Hc S_IRWXU 0) as (-> & -> & ->); [lia|done..|]. destruct (Hc S_IRWXG 3) as (-> & -> & ->); [lia|done..|].
  destruct (Hc S_IRWXO 6) as (-> & -> & ->); [lia|done..|]. cbn -[Z.testbit bits_if]. rewrite !if_same. reflexivity.
Qed.

Section made.
Variables (is_superuser : user_cred -> bool) (creds : user_cred) (attrs : fsal_attrlist).

Lemma made_ace_bit ty who flag r w x b : b ∈ [0; 1; 2; 5] ->
  Z.testbit (ace_perm (made_ace ty who flag r w x)) b = if b =? 0 then r else if b =? 5 then x else w.
Proof.
  intros Hb. unfold made_ace. cbn [ace_perm]. rewrite bits_if_bit.
  repeat (apply elem_of_cons in Hb as [->|Hb]; [destruct r, w, x; by vm_compute|]). by apply elem_of_nil in Hb.
Qed.

(** Whom the special entry for [who] is for. *)
Definition is_for (own grp : bool) (who : Z) : bool :=
  if who =? FSAL_ACE_SPECIAL_OWNER then own else if who =? FSAL_ACE_SPECIAL_GROUP then grp else who =? FSAL_ACE_SPECIAL_EVERYONE.

Lemma counts_made dir own grp root (allow : bool) who flag r w x : flag = 0 \/ flag = FSAL_ACE_FLAG_GROUP_ID ->
  counts_for creds dir own grp root (made_ace (if allow then FSAL_ACE_TYPE_ALLOW else FSAL_ACE_TYPE_DENY) who flag r w x)
  = if root then allow else is_for own grp who.
Proof. intros [-> | ->]; unfold counts_for; destruct allow, dir, root; cbn; by rewrite ?andb_true_r. Qed.

Lemma decided_pair dir own grp root who flag mode i rest b : b ∈ [0; 1; 2; 5] -> flag = 0 \/ flag = FSAL_ACE_FLAG_GROUP_ID ->
  decided creds dir own grp root (made_pair who flag mode i ++ rest) b =
  if root then (if Z.testbit mode (i + mode_bit b) then Some true else decided creds dir own grp root rest b)
  else if is_for own grp who then Some (Z.testbit mode (i + mode_bit b)) else decided creds dir own grp root rest b.
Proof.
  intros Hb Hf. unfold made_pair. cbn [app decided]. rewrite !made_ace_bit by done.
  set (t := if b =? 0 then negb _ else _). assert (t = negb (Z.testbit mode (i + mode_bit b))) as ->.
  { unfold t, mode_bit. destruct (b =? 0); [done|]. destruct (b =? 5); [by rewrite Z.add_0_r|done]. }
  set (t' := if b =? 0 then Z.testbit mode (i + 2) else _). assert (t' = Z.testbit mode (i + mode_bit b)) as ->.
  { unfold t', mode_bit. destruct (b =? 0); [done|]. destruct (b =? 5); [by rewrite Z.add_0_r|done]. }
  rewrite (counts_made dir own grp root false), (counts_made dir own grp root true) by done.
  destruct root, (is_for own grp who), (Z.testbit mode (i + mode_bit b)); done.
Qed.

(** The ACL of a mode grants what the mode allows. *)
Lemma made_grants b : b ∈ [0; 1; 2; 5] ->
  granted is_superuser creds (set_acl (made_acl (at_mode attrs)) attrs) (made_acl (at_mode attrs)) b = mode_allows is_superuser creds attrs (mode_bit b).
Proof.
  intros Hb. unfold granted, made_acl, mode_allows, class_mode, executable. cbn [set_acl at_type at_owner at_group].
  rewrite !(decided_pair _ _ _ _ _ _ _ _ _ b Hb) by auto. rewrite <- (app_nil_r (made_pair FSAL_ACE_SPECIAL_EVERYONE _ _ _)).
  rewrite (decided_pair _ _ _ _ _ _ _ _ _ b Hb) by auto. cbn [decided].
  assert (Z.testbit owner_perms b = false) as ->
    by (repeat (apply elem_of_cons in Hb as [->|Hb]; [done|]); by apply elem_of_nil in Hb).
  assert (0 <= mode_bit b) as Hk by (unfold mode_bit; by destruct (b =? 0), (b =? 5)). unfold fsal_check_ace_owner.
  rewrite andb_false_r, orb_false_r. unfold is_for. change (FSAL_ACE_SPECIAL_GROUP =? FSAL_ACE_SPECIAL_OWNER) with false.
  change (FSAL_ACE_SPECIAL_EVERYONE =? FSAL_ACE_SPECIAL_OWNER) with false. change (FSAL_ACE_SPECIAL_EVERYONE =? FSAL_ACE_SPECIAL_GROUP) with false.
  rewrite !Z.eqb_refl. destruct (is_superuser creds).
  - repeat (apply elem_of_cons in Hb as [->|Hb]; [cbn -[Z.testbit]; rewrite ?orb_true_r; try done|]); [|by apply elem_of_nil in Hb].
    destruct (bool_decide (at_type attrs = DIRECTORY)); [done|]. cbn -[Z.testbit]. rewrite !Z.add_0_r.
    by destruct (Z.testbit (at_mode attrs) 0), (Z.testbit (at_mode attrs) 6), (Z.testbit (at_mode attrs) 3).
  - cbn [andb orb]. destruct (caller_uid creds =? at_owner attrs), (fsal_check_ace_group (at_group attrs) creds); rewrite ?Z.shiftr_spec by done;
      rewrite ?Z.add_0_l, ?(Z.add_comm (mode_bit b)); by destruct (Z.testbit (at_mode attrs) _).
Qed.
End made.

(** *** Inheritance *)

(** What a new object gets of an entry of its directory. *)
Definition inherited (inherit : Z) (sace : fsal_ace_t) : list fsal_ace_t :=
  if negb (IS_FSAL_ACE_FLAG sace inherit) then []
  else if IS_FSAL_ACE_FLAG sace FSAL_ACE_FLAG_NO_PROPAGATE then [no_inherit sace]
  else if is_dup_ace sace inherit then [set_flag (Z.lor (ace_flag sace) FSAL_ACE_FLAG_INHERIT_ONLY) sace; no_inherit sace]
  else [sace].

Lemma update_at (l1 l2 : list fsal_ace_t) a f : update_ace (length l1) f (l1 ++ a :: l2) = Ret (l1 ++ f a :: l2).
Proof. unfold update_ace. rewrite list_lookup_middle by done. by rewrite insert_app_r_alt, Nat.sub_diag by done. Qed.

Lemma inherit_count_app inherit sacl n :
  fold_left (fun n sace => (n + (if IS_FSAL_ACE_FLAG sace inherit then 1 else 0) + (if is_dup_ace sace inherit then 1 else 0))%nat) sacl n = (n + inherit_count inherit sacl)%nat.
Proof.
  revert n. unfold inherit_count. induction sacl as [|a l IH]; intros n; cbn [fold_left]; [lia|]. rewrite IH, (IH (0 + _ + _)%nat). lia.
Qed.

(** At most as many entries are inherited as were counted. *)
Lemma inherited_count inherit sacl : (length (concat (map (inherited inherit) sacl)) <= inherit_count inherit sacl)%nat.
Proof.
  unfold inherit_count. induction sacl as [|a l IH]; [done|]. cbn [map concat fold_left]. rewrite inherit_count_app, length_app.
  assert (length (inherited inherit a) <= (if IS_FSAL_ACE_FLAG a inherit then 1 else 0) + (if is_dup_ace a inherit then 1 else 0))%nat; [|unfold inherit_count; lia].
  unfold inherited. destruct (IS_FSAL_ACE_FLAG a inherit); cbn [negb length]; [|lia].
  destruct (IS_FSAL_ACE_FLAG a FSAL_ACE_FLAG_NO_PROPAGATE); cbn [length]; [lia|]. destruct (is_dup_ace a inherit); cbn [length]; lia.
Qed.

Lemma alloc_S n : nfs4_ace_alloc (S n) = MkAce 0 0 0 0 0 :: nfs4_ace_alloc n.
Proof. done. Qed.

Lemma middle (l1 : list fsal_ace_t) a l2 : l1 ++ a :: l2 = (l1 ++ [a]) ++ l2.
Proof. by rewrite <- app_assoc. Qed.

Lemma update_next (l1 l2 : list fsal_ace_t) a b f : update_ace (S (length l1)) f (l1 ++ a :: b :: l2) = Ret (l1 ++ a :: f b :: l2).
Proof. pose proof (update_at (l1 ++ [a]) l2 b f) as Hu. rewrite length_app, Nat.add_1_r, <- !middle in Hu. exact Hu. Qed.

Lemma dup_at (l1 l2 : list fsal_ace_t) a b :
  dup_ace (length l1) (l1 ++ a :: b :: l2) = Ret (l1 ++ set_flag (Z.lor (ace_flag a) FSAL_ACE_FLAG_INHERIT_ONLY) a :: no_inherit a :: l2).
Proof.
  unfold dup_ace, write_ace. rewrite list_lookup_middle by done. cbn [deref].
  by rewrite res_bind_ret, update_next, res_bind_ret, update_at, res_bind_ret, update_next.
Qed.

(** The loop, with [l1] written and room for [n] more. *)
Lemma inherit_loop_ok inherit sacl l1 n : inherit = FSAL_ACE_FLAG_FILE_INHERIT \/ inherit = FSAL_ACE_FLAG_DIR_INHERIT ->
  let new := concat (map (inherited inherit) sacl) in
  inherit_loop inherit sacl (length l1) (l1 ++ nfs4_ace_alloc (length new + n)) = Ret (l1 ++ new ++ nfs4_ace_alloc n).
Proof.
  intros Hi. cbn zeta. revert l1. induction sacl as [|a l IH]; intros l1; cbn [inherit_loop map concat app length]; [done|].
  set (new := concat (map (inherited inherit) l)) in *. rewrite length_app, <- (app_assoc (inherited inherit a)), <- Nat.add_assoc.
  assert (forall k, inherit_loop inherit l (length l1 + length k) (l1 ++ k ++ nfs4_ace_alloc (length new + n)) = Ret (l1 ++ k ++ new ++ nfs4_ace_alloc n)) as Hnext.
  { intros k. specialize (IH (l1 ++ k)). by rewrite length_app, <- !app_assoc in IH. }
  unfold inherited. destruct (IS_FSAL_ACE_FLAG a inherit) eqn:Hf; cbn [negb].
  2:{ specialize (Hnext []). rewrite Nat.add_0_r in Hnext. exact Hnext. }
  destruct (IS_FSAL_ACE_FLAG a FSAL_ACE_FLAG_NO_PROPAGATE).
  { cbn [length Nat.add]. rewrite alloc_S. unfold write_ace. rewrite update_at, res_bind_ret, update_at, res_bind_ret, <- (Nat.add_1_r (length l1)). apply (Hnext [_]). }
  replace ((inherit =? FSAL_ACE_FLAG_DIR_INHERIT) && IS_FSAL_ACE_FLAG a FSAL_ACE_FLAG_FILE_INHERIT && negb (IS_FSAL_ACE_FLAG a FSAL_ACE_FLAG_DIR_INHERIT)) with false
    by (destruct Hi as [-> | ->]; [done|rewrite Hf; by rewrite andb_false_r]).
  destruct (is_dup_ace a inherit); cbn [length Nat.add]; rewrite alloc_S; unfold write_ace; rewrite update_at, res_bind_ret.
  - rewrite alloc_S, dup_at, res_bind_ret. replace (S (S (length l1))) with (length l1 + 2)%nat by lia. apply (Hnext [_; _]).
  - rewrite <- (Nat.add_1_r (length l1)). apply (Hnext [_]).
Qed.

(** The ACL of a new object: what is inherited, and entries without permissions where the
    count was too large. *)
Lemma inherit_acls_ok attrs sacl inherit : inherit = FSAL_ACE_FLAG_FILE_INHERIT \/ inherit = FSAL_ACE_FLAG_DIR_INHERIT -> at_acl attrs = None ->
  exists attrs' n, fsal_inherit_acls attrs (Some sacl) inherit = Ret (ERR_FSAL_NO_ERROR, attrs')
    /\ (at_acl attrs' = Some (concat (map (inherited inherit) sacl) ++ nfs4_ace_alloc n) \/ (at_acl attrs' = None /\ concat (map (inherited inherit) sacl) = []))
    /\ at_type attrs' = at_type attrs /\ at_owner attrs' = at_owner attrs /\ at_group attrs' = at_group attrs.
Proof.
  intros Hi Ha. unfold fsal_inherit_acls. rewrite Ha. pose proof (inherited_count inherit sacl) as Hc.
  destruct sacl as [|s l]; [exists attrs, 0%nat; split; [done|]; split; [by right|done]|]. set (sacl := s :: l) in *.
  destruct (Nat.eqb_spec (inherit_count inherit sacl) 0) as [E|_].
  { exists attrs, 0%nat. split; [done|]. split; [right; split; [done|]; apply nil_length_inv; lia|done]. }
  pose proof (inherit_loop_ok inherit sacl [] (inherit_count inherit sacl - length (concat (map (inherited inherit) sacl))) Hi) as Hl. cbn zeta in Hl.
  replace (length (concat (map (inherited inherit) sacl)) + (inherit_count inherit sacl - length (concat (map (inherited inherit) sacl))))%nat
    with (inherit_count inherit sacl) in Hl by lia. cbn [length app] in Hl. rewrite Hl, res_bind_ret. eexists _, _. split; [done|]. split; [by left|done].
Qed.

(** *** The rights of inherited entries *)

(** The entries of a directory for its subdirectories, as they are effective there. *)
Definition for_subdirectories (sacl : list fsal_ace_t) : list fsal_ace_t :=
  map no_inherit (filter (fun a => IS_FSAL_ACE_FLAG a FSAL_ACE_FLAG_DIR_INHERIT = true) sacl).
(** Those that are handed on further. *)
Definition propagated (sacl : list fsal_ace_t) : list fsal_ace_t :=
  filter (fun a => IS_FSAL_ACE_FLAG a FSAL_ACE_FLAG_NO_PROPAGATE = false) sacl.
(** The entries for files, as they are to be effective there. *)
Definition for_files (sacl : list fsal_ace_t) : list fsal_ace_t :=
  map no_inherit (filter (fun a => IS_FSAL_ACE_FLAG a FSAL_ACE_FLAG_FILE_INHERIT = true) sacl).
(** An entry that is for files, but not for the directory itself, and that is propagated. *)
Definition only_for_files (a : fsal_ace_t) : bool :=
  IS_FSAL_ACE_FLAG a FSAL_ACE_FLAG_FILE_INHERIT && IS_FSAL_ACE_FLAG a FSAL_ACE_FLAG_INHERIT_ONLY && negb (IS_FSAL_ACE_FLAG a FSAL_ACE_FLAG_NO_PROPAGATE).

Lemma flag_bit a k : 0 <= k -> IS_FSAL_ACE_FLAG a (2 ^ k) = Z.testbit (ace_flag a) k.
Proof. intros Hk. by apply has_one_bit. Qed.

Lemma no_inherit_flag a c k : c = 2 ^ k -> 0 <= k < 4 -> IS_FSAL_ACE_FLAG (no_inherit a) c = false.
Proof.
  intros -> Hk. rewrite flag_bit by lia. unfold no_inherit. cbn [ace_flag set_flag]. rewrite clear_bit.
  assert (k = 0 \/ k = 1 \/ k = 2 \/ k = 3) as Hc by lia. destruct_or!; subst k; apply andb_false_r.
Qed.

Section rights.
Variables (creds : user_cred) (dir own grp root : bool).

Lemma decided_app l1 l2 b :
  decided creds dir own grp root (l1 ++ l2) b = match decided creds dir own grp root l1 b with Some x => Some x | None => decided creds dir own grp root l2 b end.
Proof. induction l1 as [|a l1 IH]; cbn [app decided]; [done|]. by destruct (_ && _). Qed.

Lemma decided_alloc n b : decided creds dir own grp root (nfs4_ace_alloc n) b = None.
Proof. induction n as [|n IH]; [done|]. rewrite alloc_S. cbn [decided ace_perm]. by rewrite Z.bits_0, andb_false_r. Qed.

Lemma decided_pad l n b : decided creds dir own grp root (l ++ nfs4_ace_alloc n) b = decided creds dir own grp root l b.
Proof. rewrite decided_app, decided_alloc. by destruct (decided _ _ _ _ _ l b). Qed.

(** Entries that do not count. *)
Lemma counts_not_perm a : IS_FSAL_ACE_PERM a = false -> counts_for creds dir own grp root a = false.
Proof. intros Hp. unfold counts_for. by rewrite Hp. Qed.
Lemma counts_inherit_only a : IS_FSAL_ACE_FLAG a FSAL_ACE_FLAG_INHERIT_ONLY = true -> counts_for creds dir own grp root a = false.
Proof. intros Hi. unfold counts_for, fsal_check_ace_applicable. by rewrite Hi, andb_false_r. Qed.

Lemma decided_map (f g : fsal_ace_t -> list fsal_ace_t) (l : list fsal_ace_t) b :
  (forall a, a ∈ l -> decided creds dir own grp root (f a) b = decided creds dir own grp root (g a) b) ->
  decided creds dir own grp root (concat (map f l)) b = decided creds dir own grp root (concat (map g l)) b.
Proof.
  induction l as [|a l IH]; intros Hl; [done|]. cbn [map concat]. rewrite !decided_app, Hl by apply list_elem_of_here. rewrite IH; [done|].
  intros x Hx. by apply Hl, list_elem_of_further.
Qed.

Lemma filter_concat (P : fsal_ace_t -> Prop) `{!forall x, Decision (P x)} (f : fsal_ace_t -> fsal_ace_t) l :
  map f (filter P l) = concat (map (fun a => if decide (P a) then [f a] else []) l).
Proof. induction l as [|a l IH]; [done|]. rewrite filter_cons. cbn [map concat]. rewrite <- IH. by destruct (decide (P a)). Qed.

Lemma set_only_flag a : IS_FSAL_ACE_FLAG (set_flag (Z.lor (ace_flag a) FSAL_ACE_FLAG_INHERIT_ONLY) a) FSAL_ACE_FLAG_INHERIT_ONLY = true.
Proof. change FSAL_ACE_FLAG_INHERIT_ONLY with (2 ^ 3). rewrite flag_bit by lia. cbn [ace_flag set_flag]. by rewrite Z.lor_spec, orb_true_r. Qed.

Lemma dup_dir a : IS_FSAL_ACE_FLAG a FSAL_ACE_FLAG_DIR_INHERIT = true -> IS_FSAL_ACE_FLAG a FSAL_ACE_FLAG_NO_PROPAGATE = false ->
  is_dup_ace a FSAL_ACE_FLAG_DIR_INHERIT = IS_FSAL_ACE_PERM a.
Proof.
  intros Hd Hn. unfold is_dup_ace. replace (IS_FSAL_ACE_FLAG a FSAL_ACE_FLAG_INHERIT) with true.
  2:{ unfold IS_FSAL_ACE_FLAG, FSAL_ACE_FLAG_INHERIT in *. by rewrite !has_lor, Hd, orb_true_r. }
  cbn [negb]. rewrite Hn, Hd. change (FSAL_ACE_FLAG_DIR_INHERIT =? FSAL_ACE_FLAG_DIR_INHERIT) with true. by rewrite andb_false_r.
Qed.

Lemma subdirectory_rights sacl b :
  decided creds dir own grp root (concat (map (inherited FSAL_ACE_FLAG_DIR_INHERIT) sacl)) b = decided creds dir own grp root (for_subdirectories sacl) b.
Proof.
  unfold for_subdirectories. rewrite filter_concat. apply decided_map. intros a _. unfold inherited.
  destruct (IS_FSAL_ACE_FLAG a FSAL_ACE_FLAG_DIR_INHERIT) eqn:Hd; cbn [negb]; [rewrite decide_True by done|by rewrite decide_False].
  destruct (IS_FSAL_ACE_FLAG a FSAL_ACE_FLAG_NO_PROPAGATE) eqn:Hn; [done|]. rewrite dup_dir by done.
  destruct (IS_FSAL_ACE_PERM a) eqn:Hp; cbn [decided].
  - by rewrite (counts_inherit_only _ (set_only_flag a)).
  - by rewrite !counts_not_perm.
Qed.

(** Without the flags an entry counts for the same users. *)
Lemma counts_no_inherit a : IS_FSAL_ACE_FLAG a FSAL_ACE_FLAG_INHERIT_ONLY = false ->
  counts_for creds dir own grp root (no_inherit a) = counts_for creds dir own grp root a.
Proof.
  intros Hi. unfold counts_for, fsal_check_ace_applicable. rewrite (no_inherit_flag a FSAL_ACE_FLAG_INHERIT_ONLY 3), Hi by (done || lia).
  unfold fsal_check_ace_matches. replace (IS_FSAL_ACE_FLAG (no_inherit a) FSAL_ACE_FLAG_GROUP_ID) with (IS_FSAL_ACE_FLAG a FSAL_ACE_FLAG_GROUP_ID); [done|].
  change FSAL_ACE_FLAG_GROUP_ID with (2 ^ 6). rewrite !flag_bit by lia. unfold no_inherit. cbn [ace_flag set_flag]. rewrite clear_bit.
  symmetry. apply andb_true_r.
Qed.

Lemma file_rights sacl b : (forall a, a ∈ sacl -> only_for_files a = false) ->
  decided creds dir own grp root (concat (map (inherited FSAL_ACE_FLAG_FILE_INHERIT) sacl)) b = decided creds dir own grp root (for_files sacl) b.
Proof.
  intros Hno. unfold for_files. rewrite filter_concat. apply decided_map. intros a Ha. specialize (Hno a Ha). unfold only_for_files in Hno. unfold inherited.
  destruct (IS_FSAL_ACE_FLAG a FSAL_ACE_FLAG_FILE_INHERIT) eqn:Hd; cbn [negb]; [rewrite decide_True by done|by rewrite decide_False].
  destruct (IS_FSAL_ACE_FLAG a FSAL_ACE_FLAG_NO_PROPAGATE) eqn:Hn; [done|].
  assert (is_dup_ace a FSAL_ACE_FLAG_FILE_INHERIT = false) as -> by (unfold is_dup_ace; by destruct (negb (IS_FSAL_ACE_FLAG a FSAL_ACE_FLAG_INHERIT))).
  cbn [andb negb] in Hno. rewrite andb_true_r in Hno. cbn [decided]. rewrite (counts_no_inherit a Hno). done.
Qed.
End rights.

(** What a subdirectory hands on. *)
Lemma handed_on sacl n :
  for_subdirectories (concat (map (inherited FSAL_ACE_FLAG_DIR_INHERIT) sacl) ++ nfs4_ace_alloc n) = for_subdirectories (propagated sacl).
Proof.
  unfold for_subdirectories, propagated. rewrite filter_app, map_app.
  replace (filter _ (nfs4_ace_alloc n)) with (@nil fsal_ace_t).
  2:{ symmetry. induction n as [|n IH]; [done|]. rewrite alloc_S, filter_cons_False by done. exact IH. }
  rewrite app_nil_r. induction sacl as [|a l IH]; [done|]. cbn [map concat]. rewrite filter_app, map_app, IH. clear IH. unfold inherited at 1.
  destruct (IS_FSAL_ACE_FLAG a FSAL_ACE_FLAG_DIR_INHERIT) eqn:Hd; cbn [negb].
  2:{ rewrite (filter_cons _ a). destruct (decide _); [rewrite filter_cons_False by (by rewrite Hd); done|done]. }
  destruct (IS_FSAL_ACE_FLAG a FSAL_ACE_FLAG_NO_PROPAGATE) eqn:Hn.
  { rewrite (filter_cons_False _ a) by (by rewrite Hn). rewrite filter_cons_False; [done|].
    rewrite (no_inherit_flag a _ 1) by (done || lia). done. }
  rewrite (filter_cons_True _ a), (filter_cons_True _ a) by done. cbn [map]. destruct (is_dup_ace _ _).
  - rewrite filter_cons_True, filter_cons_False; [|by rewrite (no_inherit_flag a _ 1) by (done || lia)|].
    + cbn [map filter app]. f_equal. unfold no_inherit. cbn [set_flag ace_flag ace_type ace_perm ace_iflag ace_who]. unfold set_flag. f_equal.
      apply Z.bits_inj. intros b. cbn [ace_flag]. rewrite !clear_bit, !Z.lor_spec. destruct (Z.testbit FSAL_ACE_FLAG_INHERIT_ONLY b) eqn:Hb; [|by rewrite orb_false_r].
      unfold FSAL_ACE_FLAG_INHERIT. rewrite !Z.lor_spec, Hb, !orb_true_r. cbn [orb negb]. by rewrite !andb_false_r.
    + change FSAL_ACE_FLAG_DIR_INHERIT with (2 ^ 1) in *. rewrite flag_bit in * by lia. cbn [ace_flag set_flag]. by rewrite Z.lor_spec, Hd.
  - by rewrite filter_cons_True by done.
Qed.

(** *** A mode and its ACL *)

(** A request to read, to write and to execute, by the mode or by the ACL. *)
Definition rwx_access (r w x : bool) : Z :=
  Z.lor (bits_if [(r, Z.lor FSAL_R_OK FSAL_ACE_PERM_READ_DATA); (w, Z.lor FSAL_W_OK (Z.lor FSAL_ACE_PERM_WRITE_DATA FSAL_ACE_PERM_APPEND_DATA));
                  (x, Z.lor FSAL_X_OK FSAL_ACE_PERM_EXECUTE)]) FSAL_ACE4_MASK_FLAG.

Lemma rwx_requested r w x b :
  wanted_bit (FSAL_ACE4_MASK (rwx_access r w x)) b = r && (b =? 0) || w && ((b =? 1) || (b =? 2)) || x && (b =? 5).
Proof.
  unfold wanted_bit. set (v := clear _ _). destruct (decide (0 <= b < 6)) as [Hb|Hb].
  - assert (b = 0 \/ b = 1 \/ b = 2 \/ b = 3 \/ b = 4 \/ b = 5) as Hc by lia. unfold v. by destruct_or!; subst b; destruct r, w, x.
  - assert (0 <= v < 2 ^ 6) as Hv by (unfold v; by destruct r, w, x). replace (Z.testbit v b) with false.
    + destruct (Z.eqb_spec b 0), (Z.eqb_spec b 1), (Z.eqb_spec b 2), (Z.eqb_spec b 5); [lia..|]. by rewrite !andb_false_r.
    + symmetry. destruct (decide (b < 0)); [by apply Z.testbit_neg_r|]. apply (Z.testbit_false v b); [lia|]. rewrite Z.div_small; [done|].
      split; [lia|]. apply Z.lt_le_trans with (2 ^ 6); [lia|]. apply Z.pow_le_mono_r; lia.
Qed.

Section same.
Variables (is_superuser : user_cred -> bool) (rfc : bool) (creds : user_cred) (attrs : fsal_attrlist) (r w x : bool).
Let allows := mode_allows is_superuser creds attrs.

Lemma mode_status ty : at_acl attrs = None ->
  test_status is_superuser rfc creds (MkObj ty (inr attrs)) (rwx_access r w x) = ERR_FSAL_NO_ERROR
  <-> (r = true -> allows 2 = true) /\ (w = true -> allows 1 = true) /\ (x = true -> allows 0 = true).
Proof.
  intros Ha. unfold test_status, fsal_test_access. cbn [getattrs]. rewrite Ha, bool_decide_false by auto. cbn [andb].
  replace (IS_FSAL_ACE_BIT (rwx_access r w x) FSAL_ACE4_REQ_FLAG) with false by (by destruct r, w, x). cbn [orb].
  destruct (mode_checked is_superuser creds attrs (FSAL_MODE_MASK (rwx_access r w x)) (mode_only _) None None) as [_ ->].
  unfold mode_mask. fold allows. destruct r, w, x, (allows 2), (allows 1), (allows 0); vm_compute; naive_solver.
Qed.

Lemma acl_rwx_status ty aces : at_acl attrs = Some aces ->
  test_status is_superuser rfc creds (MkObj ty (inr attrs)) (rwx_access r w x) = ERR_FSAL_NO_ERROR
  <-> forall b, r && (b =? 0) || w && ((b =? 1) || (b =? 2)) || x && (b =? 5) = true -> granted is_superuser creds attrs aces b = true.
Proof.
  intros Ha. unfold test_status, fsal_test_access. cbn [getattrs]. rewrite bool_decide_true by (by rewrite Ha). cbn [andb].
  replace (IS_FSAL_ACE_BIT (rwx_access r w x) FSAL_ACE4_REQ_FLAG) with false by (by destruct r, w, x).
  replace (Z.land (rwx_access r w x) FSAL_ACCESS_FLAG_BIT_MASK =? FSAL_ACE4_MASK_FLAG) with true by (by destruct r, w, x). cbn [orb].
  destruct (acl_checked is_superuser rfc creds (FSAL_ACE4_MASK (rwx_access r w x)) attrs aces None None Ha) as [-> _].
  by setoid_rewrite rwx_requested.
Qed.
End same.
