(* ===== verification/NfsShare.v ===== *)
(** * Share reservations ([src/nfs-ganesha/src/FSAL/commonlib.c])

    A file counts who reads and writes it and who denies that to others. An open and a reopen
    of [FSAL/FSAL_VFS/file.c] take their share under the lock of the object, open the file
    without it, and give the share back under the lock again when that fails; in between
    others may come. Counters have 32 bits. *)

From S2P Require Import Prelude NfsProto NfsSession NfsCompound NfsAcl NfsAccess.
Local Open Scope Z_scope.

Definition ERR_FSAL_SHARE_DENIED : Z := 10015.
Definition FSAL_O_CLOSED : Z := 0x0000.
Definition FSAL_O_READ : Z := 0x0001.
Definition FSAL_O_WRITE : Z := 0x0002.
Definition FSAL_O_DENY_READ : Z := 0x0100.
Definition FSAL_O_DENY_WRITE : Z := 0x0200.
Definition FSAL_O_DENY_WRITE_MAND : Z := 0x0400.
Definition FSAL_O_OPENFLAGS : Z :=
  fold_right Z.lor 0 [FSAL_O_READ; FSAL_O_WRITE; FSAL_O_DENY_READ; FSAL_O_DENY_WRITE; FSAL_O_DENY_WRITE_MAND].
Definition FSAL_O_NFS_FLAGS (flags : Z) : Z := Z.land flags FSAL_O_OPENFLAGS.

Record fsal_share := MkShare {
  share_access_read : Z; share_access_write : Z; share_deny_read : Z; share_deny_write : Z; share_deny_write_mand : Z }.

Definition set_in (flags bit : Z) : Z := if IS_FSAL_ACE_BIT flags bit then 1 else 0.

Definition update_share_counters (share : fsal_share) (old_openflags new_openflags : Z) : fsal_share :=
  let inc bit := set_in new_openflags bit - set_in old_openflags bit in
  MkShare (wrap_u 32 (share_access_read share + inc FSAL_O_READ))
    (wrap_u 32 (share_access_write share + inc FSAL_O_WRITE))
    (wrap_u 32 (share_deny_read share + inc FSAL_O_DENY_READ))
    (wrap_u 32 (share_deny_write share + (inc FSAL_O_DENY_WRITE + inc FSAL_O_DENY_WRITE_MAND)))
    (wrap_u 32 (share_deny_write_mand share + inc FSAL_O_DENY_WRITE_MAND)).

Definition check_share_conflict (share : fsal_share) (openflags : Z) (bypass : bool) : Z :=
  let has := IS_FSAL_ACE_BIT openflags in
  if has FSAL_O_READ && (0 <? share_deny_read share) && negb bypass then ERR_FSAL_SHARE_DENIED
  else if has FSAL_O_WRITE && ((0 <? share_deny_write_mand share) || negb bypass && (0 <? share_deny_write share)) then ERR_FSAL_SHARE_DENIED
  else if has FSAL_O_DENY_READ && (0 <? share_access_read share) then ERR_FSAL_SHARE_DENIED
  else if (has FSAL_O_DENY_WRITE || has FSAL_O_DENY_WRITE_MAND) && (0 <? share_access_write share) then ERR_FSAL_SHARE_DENIED
  else ERR_FSAL_NO_ERROR.

Definition merge_share (orig dupe : fsal_share) : Z * fsal_share :=
  if (0 <? share_access_read dupe) && (0 <? share_deny_read orig) then (ERR_FSAL_SHARE_DENIED, orig)
  else if (0 <? share_deny_read dupe) && (0 <? share_access_read orig) then (ERR_FSAL_SHARE_DENIED, orig)
  else if (0 <? share_access_write dupe) && (0 <? share_deny_write orig) then (ERR_FSAL_SHARE_DENIED, orig)
  else if (0 <? share_deny_write dupe) && (0 <? share_access_write orig) then (ERR_FSAL_SHARE_DENIED, orig)
  else
    (ERR_FSAL_NO_ERROR,
     MkShare (wrap_u 32 (share_access_read orig + share_access_read dupe)) (wrap_u 32 (share_access_write orig + share_access_write dupe))
       (wrap_u 32 (share_deny_read orig + share_deny_read dupe)) (wrap_u 32 (share_deny_write orig + share_deny_write dupe))
       (wrap_u 32 (share_deny_write_mand orig + share_deny_write_mand dupe))).

(** ** Files of the VFS *)

(** What a share state has open, and the flags of an open or reopen that is under way. *)
Record vfs_fd := MkFd { fd_openflags : Z; fd_pending : option Z }.
Record vfs_file := MkFile { file_share : fsal_share; file_fds : list vfs_fd }.

(** The share of [openflags] is taken for the state [i] in place of that of [old]; [fd] has
    what the state holds while the file is opened. *)
Definition take_share (f : vfs_file) (i : nat) (old openflags : Z) (fd : Z) : res (Z * vfs_file) :=
  let st := check_share_conflict (file_share f) openflags false in
  if negb (st =? ERR_FSAL_NO_ERROR) then Ret (st, f)
  else if openflags =? 0 then Crash
  else Ret (ERR_FSAL_NO_ERROR, MkFile (update_share_counters (file_share f) old openflags) (<[i := MkFd fd (Some openflags)]> (file_fds f))).

(** [vfs_open2_by_handle]: up to the opening of the file, which has closed what was open, and
    from there on, where [opened] says whether the file was opened and kept. *)
Definition open_begin (f : vfs_file) (i : nat) (openflags : Z) : res (Z * vfs_file) :=
  _ ← deref (file_fds f !! i);
  take_share f i FSAL_O_CLOSED openflags FSAL_O_CLOSED.

Definition open_end (f : vfs_file) (i : nat) (opened : bool) : res vfs_file :=
  fd ← deref (file_fds f !! i);
  openflags ← deref (fd_pending fd);
  if opened then Ret (MkFile (file_share f) (<[i := MkFd (FSAL_O_NFS_FLAGS openflags) None]> (file_fds f)))
  else Ret (MkFile (update_share_counters (file_share f) openflags FSAL_O_CLOSED) (<[i := MkFd FSAL_O_CLOSED None]> (file_fds f))).

(** [vfs_reopen2] in the same way. *)
Definition reopen_begin (f : vfs_file) (i : nat) (openflags : Z) : res (Z * vfs_file) :=
  fd ← deref (file_fds f !! i);
  take_share f i (fd_openflags fd) openflags (fd_openflags fd).

Definition reopen_end (f : vfs_file) (i : nat) (opened : bool) : res vfs_file :=
  fd ← deref (file_fds f !! i);
  openflags ← deref (fd_pending fd);
  if opened then Ret (MkFile (file_share f) (<[i := MkFd (FSAL_O_NFS_FLAGS openflags) None]> (file_fds f)))
  else Ret (MkFile (update_share_counters (file_share f) openflags (fd_openflags fd)) (<[i := MkFd (fd_openflags fd) None]> (file_fds f))).

Definition vfs_close2 (f : vfs_file) (i : nat) : res vfs_file :=
  fd ← deref (file_fds f !! i);
  Ret (MkFile (update_share_counters (file_share f) (fd_openflags fd) FSAL_O_CLOSED) (<[i := MkFd FSAL_O_CLOSED None]> (file_fds f))).

(** The states of the duplicate are states of the file from then on. *)
Definition vfs_merge (orig dupe : vfs_file) : Z * vfs_file :=
  let '(st, share) := merge_share (file_share orig) (file_share dupe) in
  if st =? ERR_FSAL_NO_ERROR then (st, MkFile share (file_fds orig ++ file_fds dupe)) else (st, orig).

(** ** Steps *)

Definition new_file (n : nat) : vfs_file := MkFile (MkShare 0 0 0 0 0) (replicate n (MkFd FSAL_O_CLOSED None)).

(** The flags that count for a state. *)
Definition counted (fd : vfs_fd) : Z := default (fd_openflags fd) (fd_pending fd).

(** All flags that the state has are asked for again. *)
Definition keeps (held asked : Z) : bool := Z.ldiff held asked =? 0.

(** Files that come about, and whether a reopen that had given up a flag failed on the way. An
    open begins for a state that has nothing open, and opens, reopens and closes begin for
    states with nothing under way. *)
Inductive files : bool -> vfs_file -> Prop :=
| files_new n : Z.of_nat n < 2 ^ 31 -> files false (new_file n)
| files_open b f i fd openflags st f' : files b f -> file_fds f !! i = Some fd -> fd_openflags fd = FSAL_O_CLOSED -> fd_pending fd = None ->
    open_begin f i openflags = Ret (st, f') -> files b f'
| files_opened b f i opened f' : files b f -> open_end f i opened = Ret f' -> files b f'
| files_reopen b f i fd openflags st f' : files b f -> file_fds f !! i = Some fd -> fd_pending fd = None ->
    reopen_begin f i openflags = Ret (st, f') -> files b f'
| files_reopened b f i fd openflags opened f' : files b f -> file_fds f !! i = Some fd -> fd_pending fd = Some openflags ->
    reopen_end f i opened = Ret f' -> files (b || negb (opened || keeps (fd_openflags fd) openflags)) f'
| files_close b f i fd f' : files b f -> file_fds f !! i = Some fd -> fd_pending fd = None -> vfs_close2 f i = Ret f' -> files b f'
| files_merge b1 b2 orig dupe st f' : files b1 orig -> files b2 dupe -> Z.of_nat (length (file_fds orig ++ file_fds dupe)) < 2 ^ 31 ->
    vfs_merge orig dupe = (st, f') -> files (b1 || b2) f'.

(** ** Shares that go together *)

Definition allows (x y : Z) : Prop :=
  (IS_FSAL_ACE_BIT x FSAL_O_READ = true -> IS_FSAL_ACE_BIT y FSAL_O_DENY_READ = false)
  /\ (IS_FSAL_ACE_BIT x FSAL_O_WRITE = true -> IS_FSAL_ACE_BIT y FSAL_O_DENY_WRITE = false /\ IS_FSAL_ACE_BIT y FSAL_O_DENY_WRITE_MAND = false).

(** How many states have the bit. *)
Definition number_of (bit : Z) (l : list vfs_fd) : Z := fold_right (fun fd n => set_in (counted fd) bit + n) 0 l.

(** The counters are the numbers of states; [lost] says that a state may have got back what
    another had been promised. *)
Record file_ok (lost : bool) (f : vfs_file) : Prop := {
  fk_read : share_access_read (file_share f) = number_of FSAL_O_READ (file_fds f);
  fk_write : share_access_write (file_share f) = number_of FSAL_O_WRITE (file_fds f);
  fk_deny_read : share_deny_read (file_share f) = number_of FSAL_O_DENY_READ (file_fds f);
  fk_deny_write : share_deny_write (file_share f) = number_of FSAL_O_DENY_WRITE (file_fds f) + number_of FSAL_O_DENY_WRITE_MAND (file_fds f);
  fk_deny_write_mand : share_deny_write_mand (file_share f) = number_of FSAL_O_DENY_WRITE_MAND (file_fds f);
  fk_allows : lost = false -> forall i j x y, file_fds f !! i = Some x -> file_fds f !! j = Some y -> i <> j -> allows (counted x) (counted y);
  fk_length : Z.of_nat (length (file_fds f)) < 2 ^ 31 }.

Lemma set_in_range x bit : 0 <= set_in x bit <= 1.
Proof. unfold set_in. by destruct (IS_FSAL_ACE_BIT x bit). Qed.

Lemma number_of_range bit l : 0 <= number_of bit l <= Z.of_nat (length l).
Proof. induction l as [|fd l IH]; [done|]. cbn [number_of fold_right length]. fold (number_of bit l). pose proof (set_in_range (counted fd) bit). lia. Qed.

Lemma number_of_app bit l1 l2 : number_of bit (l1 ++ l2) = number_of bit l1 + number_of bit l2.
Proof. induction l1 as [|fd l1 IH]; [done|]. cbn [app number_of fold_right]. fold (number_of bit (l1 ++ l2)) (number_of bit l1). lia. Qed.

Lemma number_of_insert bit l i x y : l !! i = Some x -> number_of bit (<[i := y]> l) = number_of bit l + (set_in (counted y) bit - set_in (counted x) bit).
Proof.
  intros Hx. rewrite <- (take_drop_middle l i x Hx) at 2. rewrite insert_take_drop by (by eapply lookup_lt_Some).
  rewrite !number_of_app. cbn [number_of fold_right]. fold (number_of bit (drop (S i) l)). lia.
Qed.

Lemma number_of_none bit l i x : number_of bit l <= 0 -> l !! i = Some x -> IS_FSAL_ACE_BIT (counted x) bit = false.
Proof.
  intros Hn Hx. rewrite <- (take_drop_middle l i x Hx), number_of_app in Hn. cbn [number_of fold_right] in Hn. fold (number_of bit (drop (S i) l)) in Hn.
  pose proof (number_of_range bit (take i l)). pose proof (number_of_range bit (drop (S i) l)). unfold set_in in Hn.
  destruct (IS_FSAL_ACE_BIT (counted x) bit); [lia|done].
Qed.

Lemma wrap_count n : 0 <= n < 2 ^ 32 -> wrap_u 32 n = n.
Proof. intros Hn. apply wrap_u_small. lia. Qed.

(** The share of the state [i] changes to that of [y]. *)
Lemma change_share lost lost' f i x y : file_ok lost f -> file_fds f !! i = Some x ->
  (lost' = false -> lost = false /\ forall j z, file_fds f !! j = Some z -> i <> j -> allows (counted y) (counted z) /\ allows (counted z) (counted y)) ->
  file_ok lost' (MkFile (update_share_counters (file_share f) (counted x) (counted y)) (<[i := y]> (file_fds f))).
Proof.
  intros [Hr Hw Hdr Hdw Hdm Hal Hlen] Hx Hy. assert (forall bit, 0 <= number_of bit (<[i := y]> (file_fds f)) < 2 ^ 31) as Hrange.
  { intros bit. pose proof (number_of_range bit (<[i := y]> (file_fds f))) as Hn. rewrite length_insert in Hn. lia. }
  split; cbn [file_share file_fds update_share_counters share_access_read share_access_write share_deny_read share_deny_write share_deny_write_mand].
  1-5: rewrite ?Hr, ?Hw, ?Hdr, ?Hdw, ?Hdm.
  - rewrite <- (number_of_insert _ _ _ _ _ Hx). apply wrap_count. pose proof (Hrange FSAL_O_READ). lia.
  - rewrite <- (number_of_insert _ _ _ _ _ Hx). apply wrap_count. pose proof (Hrange FSAL_O_WRITE). lia.
  - rewrite <- (number_of_insert _ _ _ _ _ Hx). apply wrap_count. pose proof (Hrange FSAL_O_DENY_READ). lia.
  - pose proof (Hrange FSAL_O_DENY_WRITE) as H1. pose proof (Hrange FSAL_O_DENY_WRITE_MAND) as H2. rewrite !(number_of_insert _ _ _ _ _ Hx) in *.
    rewrite wrap_count; lia.
  - rewrite <- (number_of_insert _ _ _ _ _ Hx). apply wrap_count. pose proof (Hrange FSAL_O_DENY_WRITE_MAND). lia.
  - intros Hl. destruct (Hy Hl) as [Hl0 Hyz]. intros j k a b Ha Hb Hne. apply list_lookup_insert_Some in Ha as [(E1 & E2 & _)|[Hj Ha]]; apply list_lookup_insert_Some in Hb as [(E3 & E4 & _)|[Hk Hb]]; subst.
    + done.
    + by apply (Hyz k).
    + by apply (Hyz j).
    + by eapply Hal.
  - by rewrite length_insert.
Qed.

(** A change that no bit of the share sees. *)
Definition same_share (x y : Z) : Prop :=
  forall bit, bit ∈ [FSAL_O_READ; FSAL_O_WRITE; FSAL_O_DENY_READ; FSAL_O_DENY_WRITE; FSAL_O_DENY_WRITE_MAND] -> IS_FSAL_ACE_BIT x bit = IS_FSAL_ACE_BIT y bit.

Lemma nfs_flags_same x : same_share x (FSAL_O_NFS_FLAGS x).
Proof.
  intros bit Hb. unfold FSAL_O_NFS_FLAGS, IS_FSAL_ACE_BIT. rewrite <- Z.land_assoc.
  repeat (apply elem_of_cons in Hb as [->|Hb]; [done|]). by apply elem_of_nil in Hb.
Qed.

Lemma update_same lost f x y : file_ok lost f -> same_share x y -> update_share_counters (file_share f) x y = file_share f.
Proof.
  intros [Hr Hw Hdr Hdw Hdm _ Hlen] Hs. assert (forall bit, 0 <= number_of bit (file_fds f) < 2 ^ 31) as Hrange.
  { intros bit. pose proof (number_of_range bit (file_fds f)). lia. }
  pose proof (Hrange FSAL_O_READ). pose proof (Hrange FSAL_O_WRITE). pose proof (Hrange FSAL_O_DENY_READ). pose proof (Hrange FSAL_O_DENY_WRITE).
  pose proof (Hrange FSAL_O_DENY_WRITE_MAND). unfold update_share_counters, set_in. rewrite !Hs by set_solver. rewrite !Z.sub_diag, !Z.add_0_r.
  destruct (file_share f). cbn in *. rewrite !wrap_count by lia. done.
Qed.

Lemma allows_same x x' y y' : same_share x x' -> same_share y y' -> allows x y -> allows x' y'.
Proof. intros Hx Hy [A B]. unfold allows. rewrite <- !Hx, <- !Hy by set_solver. done. Qed.

(** Fewer flags conflict less. *)
Lemma allows_less x x' y : (forall b, Z.testbit x' b = true -> Z.testbit x b = true) -> (allows x y -> allows x' y) /\ (allows y x -> allows y x').
Proof.
  intros Hs. assert (forall bit, IS_FSAL_ACE_BIT x' bit = true -> IS_FSAL_ACE_BIT x bit = true) as Hup.
  { intros bit (b & ? & ?)%has_bit. apply has_bit. exists b. auto. }
  assert (forall bit, IS_FSAL_ACE_BIT x bit = false -> IS_FSAL_ACE_BIT x' bit = false) as Hdown.
  { intros bit Hb. destruct (IS_FSAL_ACE_BIT x' bit) eqn:E; [|done]. apply Hup in E. congruence. }
  split; intros [A B]; split; intros Hb; auto; destruct (B Hb); auto.
Qed.

(** What the check makes sure of. *)
Lemma check_allows lost f openflags : file_ok lost f -> check_share_conflict (file_share f) openflags false = ERR_FSAL_NO_ERROR ->
  forall j z, file_fds f !! j = Some z -> allows openflags (counted z) /\ allows (counted z) openflags.
Proof.
  intros Hf Hc j z Hz. unfold check_share_conflict in Hc. rewrite (fk_read _ _ Hf), (fk_write _ _ Hf), (fk_deny_read _ _ Hf), (fk_deny_write _ _ Hf), (fk_deny_write_mand _ _ Hf) in Hc.
  pose proof (fun bit => number_of_none bit (file_fds f) j z) as Hno. pose proof (number_of_range FSAL_O_DENY_WRITE (file_fds f)) as R1.
  pose proof (number_of_range FSAL_O_DENY_WRITE_MAND (file_fds f)) as R2. cbn [negb andb] in Hc. rewrite andb_true_r in Hc.
  destruct (_ && (0 <? number_of FSAL_O_DENY_READ _)) eqn:E1; [done|]. destruct (_ && (_ || _)) eqn:E2; [done|].
  destruct (_ && (0 <? number_of FSAL_O_READ _)) eqn:E3; [done|]. destruct (_ && (0 <? number_of FSAL_O_WRITE _)) eqn:E4; [done|].
  split; split.
  - intros Hb. rewrite Hb in E1. apply Hno; [|done]. apply Z.ltb_ge in E1. done.
  - intros Hb. rewrite Hb in E2. cbn [andb] in E2. apply orb_false_iff in E2 as [_ E2%Z.ltb_ge]. split; apply Hno; try done; lia.
  - intros Hb. destruct (IS_FSAL_ACE_BIT openflags FSAL_O_DENY_READ); [|done]. apply Z.ltb_ge, (fun H => Hno _ H Hz) in E3. congruence.
  - intros Hb. destruct (IS_FSAL_ACE_BIT openflags FSAL_O_DENY_WRITE || IS_FSAL_ACE_BIT openflags FSAL_O_DENY_WRITE_MAND) eqn:E5; [|by apply orb_false_iff in E5].
    apply Z.ltb_ge, (fun H => Hno _ H Hz) in E4. congruence.
Qed.

Lemma take_ok lost f i fd held openflags st f' : file_ok lost f -> file_fds f !! i = Some fd ->
  take_share f i (counted fd) openflags held = Ret (st, f') -> file_ok lost f'.
Proof.
  intros Hf Hfd Hop. unfold take_share in Hop.
  destruct (Z.eqb_spec (check_share_conflict (file_share f) openflags false) ERR_FSAL_NO_ERROR) as [Hc|_]; cbn [negb] in Hop; [|by injection Hop as <- <-].
  destruct (openflags =? 0); [done|]. injection Hop as <- <-.
  apply (change_share lost lost f i fd (MkFd held (Some openflags)) Hf Hfd). intros Hl. split; [done|]. intros j z Hz _. by eapply (check_allows lost).
Qed.

Lemma open_ok lost f i fd openflags st f' : file_ok lost f -> file_fds f !! i = Some fd -> fd_openflags fd = FSAL_O_CLOSED -> fd_pending fd = None ->
  open_begin f i openflags = Ret (st, f') -> file_ok lost f'.
Proof.
  intros Hf Hfd Ho Hp Hop. unfold open_begin in Hop. rewrite Hfd in Hop. cbn [deref] in Hop. rewrite res_bind_ret in Hop.
  apply (take_ok lost f i fd FSAL_O_CLOSED openflags st f' Hf Hfd). unfold counted. by rewrite Hp, Ho.
Qed.

Lemma reopen_ok lost f i fd openflags st f' : file_ok lost f -> file_fds f !! i = Some fd -> fd_pending fd = None ->
  reopen_begin f i openflags = Ret (st, f') -> file_ok lost f'.
Proof.
  intros Hf Hfd Hp Hop. unfold reopen_begin in Hop. rewrite Hfd in Hop. cbn [deref] in Hop. rewrite res_bind_ret in Hop.
  apply (take_ok lost f i fd (fd_openflags fd) openflags st f' Hf Hfd). unfold counted. by rewrite Hp.
Qed.

(** The file was opened: what counts stays. *)
Lemma kept_ok lost f i fd openflags : file_ok lost f -> file_fds f !! i = Some fd -> fd_pending fd = Some openflags ->
  file_ok lost (MkFile (file_share f) (<[i := MkFd (FSAL_O_NFS_FLAGS openflags) None]> (file_fds f))).
Proof.
  intros Hf Hfd Hp. assert (counted fd = openflags) as Hc by (unfold counted; by rewrite Hp).
  pose proof (change_share lost lost f i fd (MkFd (FSAL_O_NFS_FLAGS openflags) None) Hf Hfd) as Hok.
  rewrite Hc, (update_same lost) in Hok; [|done|apply nfs_flags_same].
  apply Hok. intros Hl. split; [done|]. intros j z Hz Hne. pose proof (nfs_flags_same openflags) as Hs.
  split; [eapply (allows_same openflags _ (counted z) _ Hs)|eapply (allows_same (counted z) _ openflags _)]; try done.
  all: rewrite <- Hc; by eapply (fk_allows _ _ Hf).
Qed.

(** The state is given [held], which is less than it counted unless something was lost. *)
Lemma less_ok lost lost' f i fd held : file_ok lost f -> file_fds f !! i = Some fd ->
  (lost' = false -> lost = false /\ forall b, Z.testbit held b = true -> Z.testbit (counted fd) b = true) ->
  file_ok lost' (MkFile (update_share_counters (file_share f) (counted fd) held) (<[i := MkFd held None]> (file_fds f))).
Proof.
  intros Hf Hfd Hor. apply (change_share lost lost' f i fd (MkFd held None) Hf Hfd). intros Hl. destruct (Hor Hl) as [Hl0 Hless]. split; [done|].
  intros j z Hz Hne. destruct (allows_less (counted fd) held (counted z) Hless) as [A B]. split; [apply A|apply B]; by eapply (fk_allows _ _ Hf).
Qed.

Lemma closed_ok lost f i fd : file_ok lost f -> file_fds f !! i = Some fd ->
  file_ok lost (MkFile (update_share_counters (file_share f) (counted fd) FSAL_O_CLOSED) (<[i := MkFd FSAL_O_CLOSED None]> (file_fds f))).
Proof. intros Hf Hfd. apply (less_ok lost); [done..|]. intros Hl. split; [done|]. intros b Hb. by rewrite Z.bits_0 in Hb. Qed.

Lemma opened_ok lost f i opened f' : file_ok lost f -> open_end f i opened = Ret f' -> file_ok lost f'.
Proof.
  intros Hf Hop. unfold open_end in Hop. destruct (file_fds f !! i) as [fd|] eqn:Hfd; [|done]. cbn [deref] in Hop. rewrite res_bind_ret in Hop.
  destruct (fd_pending fd) as [openflags|] eqn:Hp; [|done]. cbn [deref] in Hop. rewrite res_bind_ret in Hop.
  destruct opened; injection Hop as <-; [by eapply kept_ok|]. assert (counted fd = openflags) as <- by (unfold counted; by rewrite Hp). by apply closed_ok.
Qed.

Lemma keeps_bits held asked : keeps held asked = true -> forall b, Z.testbit held b = true -> Z.testbit asked b = true.
Proof.
  intros Hk%Z.eqb_eq b Hb. apply (f_equal (fun z => Z.testbit z b)) in Hk. rewrite Z.ldiff_spec, Hb, Z.bits_0 in Hk. by destruct (Z.testbit asked b).
Qed.

Lemma reopened_ok lost f i fd openflags opened f' : file_ok lost f -> file_fds f !! i = Some fd -> fd_pending fd = Some openflags ->
  reopen_end f i opened = Ret f' -> file_ok (lost || negb (opened || keeps (fd_openflags fd) openflags)) f'.
Proof.
  intros Hf Hfd Hp Hop. unfold reopen_end in Hop. rewrite Hfd in Hop. cbn [deref] in Hop. rewrite res_bind_ret, Hp in Hop. cbn [deref] in Hop. rewrite res_bind_ret in Hop.
  destruct opened; injection Hop as <-; cbn [orb negb]; [rewrite orb_false_r; by eapply kept_ok|].
  assert (counted fd = openflags) as Hc by (unfold counted; by rewrite Hp). rewrite <- Hc. apply (less_ok lost); [done..|].
  intros [-> Hk%negb_false_iff]%orb_false_iff. split; [done|]. by apply keeps_bits.
Qed.

Lemma close_ok lost f i fd f' : file_ok lost f -> file_fds f !! i = Some fd -> fd_pending fd = None -> vfs_close2 f i = Ret f' -> file_ok lost f'.
Proof.
  intros Hf Hfd Hp Hop. unfold vfs_close2 in Hop. rewrite Hfd in Hop. cbn [deref] in Hop. rewrite res_bind_ret in Hop. injection Hop as <-.
  assert (counted fd = fd_openflags fd) as <- by (unfold counted; by rewrite Hp). by apply closed_ok.
Qed.

(** Shares of two files, where no state of one has a bit that a state of the other denies. *)
Lemma none_allows l1 l2 i j x y :
  number_of FSAL_O_READ l1 <= 0 \/ number_of FSAL_O_DENY_READ l2 <= 0 ->
  number_of FSAL_O_WRITE l1 <= 0 \/ number_of FSAL_O_DENY_WRITE l2 + number_of FSAL_O_DENY_WRITE_MAND l2 <= 0 ->
  l1 !! i = Some x -> l2 !! j = Some y -> allows (counted x) (counted y).
Proof.
  intros Hr Hw Hx Hy. pose proof (number_of_range FSAL_O_DENY_WRITE l2). pose proof (number_of_range FSAL_O_DENY_WRITE_MAND l2).
  split; intros Hb.
  - destruct Hr as [Hr|Hr]; [|by eapply number_of_none]. apply (number_of_none _ _ _ _ Hr) in Hx. congruence.
  - destruct Hw as [Hw|Hw]; [|split; eapply number_of_none; try done; lia]. apply (number_of_none _ _ _ _ Hw) in Hx. congruence.
Qed.

Lemma joined_allows f g : file_ok false f -> file_ok false g ->
  (forall i j x y, file_fds f !! i = Some x -> file_fds g !! j = Some y -> allows (counted x) (counted y) /\ allows (counted y) (counted x)) ->
  forall i j x y, (file_fds f ++ file_fds g) !! i = Some x -> (file_fds f ++ file_fds g) !! j = Some y -> i <> j -> allows (counted x) (counted y).
Proof.
  intros Hf Hg Hfg i j x y Hx Hy Hne. apply lookup_app_Some in Hx as [Hx|[Hi Hx]]; apply lookup_app_Some in Hy as [Hy|[Hj Hy]].
  - by eapply (fk_allows _ _ Hf).
  - exact (proj1 (Hfg _ _ _ _ Hx Hy)).
  - exact (proj2 (Hfg _ _ _ _ Hy Hx)).
  - eapply (fk_allows _ _ Hg); [done..|lia].
Qed.

Lemma file_ok_lost lost lost' f : (lost' = false -> lost = false) -> file_ok lost f -> file_ok lost' f.
Proof. intros Hl [? ? ? ? ? Ha ?]. split; try done. intros E0. apply Ha, Hl, E0. Qed.

Lemma merge_ok l1 l2 orig dupe st f' : file_ok l1 orig -> file_ok l2 dupe -> Z.of_nat (length (file_fds orig ++ file_fds dupe)) < 2 ^ 31 ->
  vfs_merge orig dupe = (st, f') -> file_ok (l1 || l2) f'.
Proof.
  intros Ho Hd Hlen Hm. unfold vfs_merge, merge_share in Hm.
  rewrite (fk_read _ _ Ho), (fk_write _ _ Ho), (fk_deny_read _ _ Ho), (fk_deny_write _ _ Ho), (fk_deny_write_mand _ _ Ho),
    (fk_read _ _ Hd), (fk_write _ _ Hd), (fk_deny_read _ _ Hd), (fk_deny_write _ _ Hd), (fk_deny_write_mand _ _ Hd) in Hm. rewrite <- ?number_of_app in Hm.
  assert (file_ok (l1 || l2) orig) as Hsame by (eapply file_ok_lost, Ho; by destruct l1).
  destruct (_ && _) eqn:E1 in Hm; [by injection Hm as _ <-|]. destruct (_ && _) eqn:E2 in Hm; [by injection Hm as _ <-|].
  destruct (_ && _) eqn:E3 in Hm; [by injection Hm as _ <-|]. destruct (_ && _) eqn:E4 in Hm; [by injection Hm as _ <-|].
  cbn in Hm. injection Hm as _ <-. rewrite andb_false_iff, !Z.ltb_ge in E1, E2, E3, E4.
  pose proof (fun bit => number_of_range bit (file_fds orig ++ file_fds dupe)) as R.
  pose proof (R FSAL_O_DENY_WRITE) as Rw. pose proof (R FSAL_O_DENY_WRITE_MAND) as Rm.
  split; cbn [file_share file_fds share_access_read share_access_write share_deny_read share_deny_write share_deny_write_mand]; [| | | | | |done].
  4: rewrite !number_of_app in *; rewrite wrap_count; lia.
  1-4: apply wrap_count; match goal with |- context [number_of ?b _] => pose proof (R b) end; lia.
  intros [-> ->]%orb_false_iff. apply (joined_allows orig dupe Ho Hd). intros i j x y Hx Hy.
  split; [eapply (none_allows (file_fds orig) (file_fds dupe))|eapply (none_allows (file_fds dupe) (file_fds orig))]; try done; tauto.
Qed.

Lemma new_file_ok n : Z.of_nat n < 2 ^ 31 -> file_ok false (new_file n).
Proof.
  intros Hn. assert (forall bit, number_of bit (file_fds (new_file n)) = 0) as H0.
  { intros bit. cbn [new_file file_fds]. clear Hn. induction n as [|n IH]; [done|]. cbn [replicate number_of fold_right]. unfold number_of in IH. by rewrite IH. }
  split; rewrite ?H0; try done; [|by cbn; rewrite length_replicate].
  intros _ i j x y Hx _ _. cbn in Hx. apply lookup_replicate in Hx as [-> _]. by split.
Qed.

Lemma files_ok lost f : files lost f -> file_ok lost f.
Proof.
  induction 1.
  - by apply new_file_ok.
  - by eapply open_ok.
  - by eapply opened_ok.
  - by eapply reopen_ok.
  - by eapply reopened_ok.
  - by eapply close_ok.
  - by eapply (merge_ok b1 b2 orig dupe).
Qed.

(** ** The check is exact *)

Lemma number_of_some bit l : 0 < number_of bit l -> exists i x, l !! i = Some x /\ IS_FSAL_ACE_BIT (counted x) bit = true.
Proof.
  induction l as [|fd l IH]; [done|]. cbn [number_of fold_right]. fold (number_of bit l). intros Hn.
  destruct (IS_FSAL_ACE_BIT (counted fd) bit) eqn:E; [by exists 0%nat, fd|]. unfold set_in in Hn. rewrite E in Hn.
  destruct IH as (i & x & Hx & Hb); [lia|]. by exists (S i), x.
Qed.

Lemma check_exact lost f openflags : file_ok lost f ->
  check_share_conflict (file_share f) openflags false = ERR_FSAL_NO_ERROR
  <-> forall j z, file_fds f !! j = Some z -> allows openflags (counted z) /\ allows (counted z) openflags.
Proof.
  intros Hf. split; [by apply (check_allows lost)|]. intros Hal. unfold check_share_conflict.
  rewrite (fk_read _ _ Hf), (fk_write _ _ Hf), (fk_deny_read _ _ Hf), (fk_deny_write _ _ Hf), (fk_deny_write_mand _ _ Hf). cbn [negb andb]. rewrite andb_true_r.
  assert (forall bit (P : Prop), (forall j z, file_fds f !! j = Some z -> IS_FSAL_ACE_BIT (counted z) bit = true -> P) -> 0 < number_of bit (file_fds f) -> P) as Hsome.
  { intros bit P HP (j & z & Hz & Hb)%number_of_some. by eapply HP. }
  destruct (_ && (0 <? number_of FSAL_O_DENY_READ _)) eqn:E1.
  { exfalso. apply andb_true_iff in E1 as [Hb E1%Z.ltb_lt]. revert E1. apply Hsome. intros j z Hz Hd. destruct (Hal j z Hz) as [[A _] _]. specialize (A Hb). congruence. }
  destruct (_ && (_ || _)) eqn:E2.
  { exfalso. apply andb_true_iff in E2 as [Hb E2]. assert (0 < number_of FSAL_O_DENY_WRITE_MAND (file_fds f) \/ 0 < number_of FSAL_O_DENY_WRITE (file_fds f)) as [E|E].
    { rewrite orb_true_iff, !Z.ltb_lt in E2. lia. }
    all: revert E; apply Hsome; intros j z Hz Hd; destruct (Hal j z Hz) as [[_ A] _]; destruct (A Hb); congruence. }
  destruct (_ && (0 <? number_of FSAL_O_READ _)) eqn:E3.
  { exfalso. apply andb_true_iff in E3 as [Hb E3%Z.ltb_lt]. revert E3. apply Hsome. intros j z Hz Hd. destruct (Hal j z Hz) as [_ [A _]]. specialize (A Hd). congruence. }
  destruct (_ && (0 <? number_of FSAL_O_WRITE _)) eqn:E4; [|done].
  exfalso. apply andb_true_iff in E4 as [Hb E4%Z.ltb_lt]. revert E4. apply Hsome. intros j z Hz Hd. destruct (Hal j z Hz) as [_ [_ A]]. destruct (A Hd) as [A1 A2].
  by rewrite A1, A2 in Hb.
Qed.
