(* ===== verification/NfsAccessClaims.v ===== *)
(** * What holds of the access to files

    The theorems on access checks, on ACLs that are made and on share reservations, with
    examples of objects to which they apply and of what the code does beside them. *)

From S2P Require Import Prelude NfsProto NfsSession NfsCompound NfsAcl NfsAccess NfsAclMode NfsShare.
Local Open Scope Z_scope.

Section access_claims.
Variables (is_superuser : user_cred -> bool) (ENABLE_RFC_ACL : bool) (creds : user_cred).


(** C19. The reply to ACCESS has exactly the bits that were asked for, that mean something for
    the object and that the user may do, by the ACL of the object or, if it has none, by its
    mode; those that write only where the export is writable. What was in the variable for
    the allowed permissions does not matter. *)
Theorem access_reply (access_allowed options : Z) (obj : fsal_obj_handle) (attrs : fsal_attrlist) (req : Z) :
  getattrs obj = inr attrs -> obj_type obj = at_type attrs ->
  let is_dir := bool_decide (at_type attrs = DIRECTORY) in
  let writable := IS_FSAL_ACE_BIT options EXPORT_OPTION_WRITE_ACCESS in
  exists st g supported, nfs_access_op is_superuser ENABLE_RFC_ACL access_allowed creds options obj req = (st, g, Some supported)
    /\ (st = ERR_FSAL_NO_ERROR \/ st = ERR_FSAL_ACCESS)
    /\ forall i, 0 <= i < 6 -> Z.testbit g i = Z.testbit req i && access_means (may is_superuser creds attrs) writable is_dir i.
Proof. apply access_op_told. Qed.

(** C20. The ACL that is made from the mode of an object lets each user read, write and execute
    it exactly if the mode does, in every combination. *)
Theorem mode_acl_same (attrs : fsal_attrlist) (ty : object_file_type_t) :
  at_acl attrs = None ->
  exists attrs', fsal_mode_gen_acl attrs = Ret (ERR_FSAL_NO_ERROR, attrs')
    /\ forall r w x, test_status is_superuser ENABLE_RFC_ACL creds (MkObj ty (inr attrs')) (rwx_access r w x) = ERR_FSAL_NO_ERROR
         <-> test_status is_superuser ENABLE_RFC_ACL creds (MkObj ty (inr attrs)) (rwx_access r w x) = ERR_FSAL_NO_ERROR.
Proof.
  intros Ha. eexists. split; [apply mode_gen_acl_made|]. intros r w x. rewrite (mode_status _ _ _ attrs) by done.
  rewrite (acl_rwx_status _ _ _ _ r w x ty (made_acl (at_mode attrs))) by done.
  assert (forall b, b ∈ [0; 1; 2; 5] -> granted is_superuser creds (set_acl (made_acl (at_mode attrs)) attrs) (made_acl (at_mode attrs)) b
    = mode_allows is_superuser creds attrs (mode_bit b)) as Hg by (intros b; apply made_grants). split.
  - intros H. split_and!; intros ->.
    + change 2 with (mode_bit 0). rewrite <- Hg by in_list. by apply H.
    + change 1 with (mode_bit 1). rewrite <- Hg by in_list. apply H. by rewrite orb_true_r.
    + change 0 with (mode_bit 5). rewrite <- Hg by in_list. apply H. by rewrite orb_true_r.
  - intros (Hr & Hw & Hx) b Hb. rewrite !orb_true_iff, !andb_true_iff, !orb_true_iff, !Z.eqb_eq in Hb.
    destruct Hb as [[[-> ->]|[-> [-> | ->]]]|[-> ->]]; rewrite Hg by in_list; auto.
Qed.
End access_claims.

(** C21. A new directory, and a new file in a directory without entries that are only for files
    and propagated ([only_for_files], which [files_inherit_nothing] shows to be lost), gets an ACL in
    which each permission is decided by the entries of its directory that are to be inherited
    by it, as effective ones and in their order, and by nothing else; the entries are written
    within the memory for them. A new directory hands on those that are not marked as not to be
    propagated. *)
Theorem acl_inherited (attrs : fsal_attrlist) (sacl : list fsal_ace_t) (isdir : bool) :
  at_acl attrs = None -> (isdir = false -> forall a, a ∈ sacl -> only_for_files a = false) ->
  exists attrs', fsal_inherit_acls attrs (Some sacl) (if isdir then FSAL_ACE_FLAG_DIR_INHERIT else FSAL_ACE_FLAG_FILE_INHERIT) = Ret (ERR_FSAL_NO_ERROR, attrs')
    /\ (at_type attrs', at_owner attrs', at_group attrs') = (at_type attrs, at_owner attrs, at_group attrs)
    /\ let aces := default [] (at_acl attrs') in
       (forall creds dir own grp root b,
         decided creds dir own grp root aces b = decided creds dir own grp root (if isdir then for_subdirectories sacl else for_files sacl) b)
       /\ (isdir = true -> for_subdirectories aces = for_subdirectories (propagated sacl)).
Proof.
  intros Ha Hno. destruct (inherit_acls_ok attrs sacl (if isdir then FSAL_ACE_FLAG_DIR_INHERIT else FSAL_ACE_FLAG_FILE_INHERIT)) as (attrs' & n & Hr & Hacl & Ht & Ho & Hg);
    [destruct isdir; auto|done|].
  exists attrs'. split; [done|]. split; [congruence|]. cbn zeta.
  assert (exists m, default [] (at_acl attrs') = concat (map (inherited (if isdir then FSAL_ACE_FLAG_DIR_INHERIT else FSAL_ACE_FLAG_FILE_INHERIT)) sacl) ++ nfs4_ace_alloc m)
    as [m ->] by (destruct Hacl as [->|[-> ->]]; [by exists n|by exists 0%nat]).
  split; [|intros ->; apply handed_on]. intros creds dir own grp root b. rewrite decided_pad.
  destruct isdir; [apply subdirectory_rights|]. apply file_rights. by apply Hno.
Qed.

(** C18. However opens, reopens, closes and merges of a file with fewer than 2^31 share states
    follow each other, its share counters are the numbers of states that read, write and deny,
    and a further share is accepted exactly if it goes together with those of all states. As
    long as no reopen fails that had given up a flag ([lost]), no state does what another
    denies; [denied_share_restored] shows that such a failure can break that. *)
Theorem shares_compatible (lost : bool) (f : vfs_file) :
  files lost f ->
  (share_access_read (file_share f) = number_of FSAL_O_READ (file_fds f)
   /\ share_access_write (file_share f) = number_of FSAL_O_WRITE (file_fds f)
   /\ share_deny_read (file_share f) = number_of FSAL_O_DENY_READ (file_fds f)
   /\ share_deny_write (file_share f) = number_of FSAL_O_DENY_WRITE (file_fds f) + number_of FSAL_O_DENY_WRITE_MAND (file_fds f)
   /\ share_deny_write_mand (file_share f) = number_of FSAL_O_DENY_WRITE_MAND (file_fds f))
  /\ (forall openflags, check_share_conflict (file_share f) openflags false = ERR_FSAL_NO_ERROR
        <-> forall j z, file_fds f !! j = Some z -> allows openflags (counted z) /\ allows (counted z) openflags)
  /\ (lost = false -> forall i j x y, file_fds f !! i = Some x -> file_fds f !! j = Some y -> i <> j -> allows (counted x) (counted y)).
Proof.
  intros Hf%files_ok. split; [by destruct Hf|]. split; [|by destruct Hf]. intros openflags. by apply (check_exact lost).
Qed.

(** ** Examples *)

Module AccessDemo.
Definition root_is_super (creds : user_cred) : bool := caller_uid creds =? 0.
Definition alice : user_cred := MkCred 100 500 [501].
Definition bob : user_cred := MkCred 101 600 [].

(** Everyone may read; bob may not write, but the rest may. *)
Definition shared_acl : list fsal_ace_t :=
  [MkAce FSAL_ACE_TYPE_DENY FSAL_ACE_PERM_WRITE_DATA 0 0 101;
   MkAce FSAL_ACE_TYPE_ALLOW (Z.lor FSAL_ACE_PERM_READ_DATA FSAL_ACE_PERM_WRITE_DATA) 0 FSAL_ACE_IFLAG_SPECIAL_ID FSAL_ACE_SPECIAL_EVERYONE].
Definition shared_attrs : fsal_attrlist := MkAttr 0 (Some shared_acl) REGULAR_FILE 0x1A4 100 500.
Definition plain_attrs : fsal_attrlist := MkAttr ATTR_MODE None REGULAR_FILE 0x1A0 100 500.



(** ACCESS for bob, on a writable export, to read, modify and extend. *)
Lemma access_reply_witness :
  exists st g supported, nfs_access_op root_is_super false 77 bob EXPORT_OPTION_WRITE_ACCESS (MkObj REGULAR_FILE (inr shared_attrs)) 0x0D = (st, g, Some supported)
    /\ Z.testbit g 0 = true /\ Z.testbit g 2 = false /\ Z.testbit g 3 = false.
Proof.
  destruct (access_reply root_is_super false bob 77 EXPORT_OPTION_WRITE_ACCESS (MkObj REGULAR_FILE (inr shared_attrs)) shared_attrs 0x0D eq_refl eq_refl)
    as (st & g & sup & He & _ & Hb).
  exists st, g, sup. split; [exact He|]. split; [|split]; rewrite Hb by lia; vm_compute; reflexivity.
Defined.

(** The mode 0640 and its ACL for bob, who is neither the owner nor in the group. *)
Lemma mode_acl_same_witness :
  exists attrs', fsal_mode_gen_acl plain_attrs = Ret (ERR_FSAL_NO_ERROR, attrs')
    /\ test_status root_is_super false bob (MkObj REGULAR_FILE (inr attrs')) (rwx_access true false false) <> ERR_FSAL_NO_ERROR.
Proof.
  destruct (mode_acl_same root_is_super false bob plain_attrs REGULAR_FILE eq_refl) as (attrs' & He & Hs).
  exists attrs'. split; [exact He|]. intros Hr. apply (proj1 (Hs true false false)) in Hr. vm_compute in Hr. discriminate.
Defined.

(** A directory that gives its files the right to read, to bob. *)
Definition dir_acl : list fsal_ace_t :=
  [MkAce FSAL_ACE_TYPE_ALLOW FSAL_ACE_PERM_READ_DATA (Z.lor FSAL_ACE_FLAG_FILE_INHERIT FSAL_ACE_FLAG_DIR_INHERIT) 0 101;
   MkAce FSAL_ACE_TYPE_DENY FSAL_ACE_PERM_WRITE_DATA FSAL_ACE_FLAG_DIR_INHERIT 0 101].
Definition new_attrs (ty : object_file_type_t) : fsal_attrlist := MkAttr 0 None ty 0 100 500.

Lemma acl_inherited_witness :
  (exists attrs', fsal_inherit_acls (new_attrs REGULAR_FILE) (Some dir_acl) FSAL_ACE_FLAG_FILE_INHERIT = Ret (ERR_FSAL_NO_ERROR, attrs')
    /\ decided bob false false false false (default [] (at_acl attrs')) 0 = Some true
    /\ decided bob false false false false (default [] (at_acl attrs')) 1 = None)
  /\ exists attrs', fsal_inherit_acls (new_attrs DIRECTORY) (Some dir_acl) FSAL_ACE_FLAG_DIR_INHERIT = Ret (ERR_FSAL_NO_ERROR, attrs')
    /\ decided bob true false false false (default [] (at_acl attrs')) 1 = Some false.
Proof.
  split.
  - destruct (acl_inherited (new_attrs REGULAR_FILE) dir_acl false eq_refl) as (attrs' & He & _ & Hd & _).
    + intros _ a [->|[->|[]%elem_of_nil]%elem_of_cons]%elem_of_cons; vm_compute; reflexivity.
    + exists attrs'. split; [exact He|]. split; rewrite Hd; vm_compute; reflexivity.
  - destruct (acl_inherited (new_attrs DIRECTORY) dir_acl true eq_refl) as (attrs' & He & _ & Hd & _); [discriminate|].
    exists attrs'. split; [exact He|]. rewrite Hd. vm_compute. reflexivity.
Defined.

(** A file that the first of two states opens to read, denying to write. *)
Definition held : Z := Z.lor FSAL_O_READ FSAL_O_DENY_WRITE.
Definition opening : vfs_file := MkFile (MkShare 1 0 0 1 0) [MkFd FSAL_O_CLOSED (Some held); MkFd FSAL_O_CLOSED None].
Definition opened_file : vfs_file := MkFile (MkShare 1 0 0 1 0) [MkFd held None; MkFd FSAL_O_CLOSED None].

Lemma opened_reached : files false opened_file.
Proof.
  apply (files_opened false opening 0 true); [|vm_compute; reflexivity].
  apply (files_open false (new_file 2) 0 (MkFd FSAL_O_CLOSED None) held ERR_FSAL_NO_ERROR); [|vm_compute; reflexivity..].
  apply files_new. lia.
Qed.

Lemma shares_compatible_witness :
  files false opened_file /\ check_share_conflict (file_share opened_file) FSAL_O_WRITE false <> ERR_FSAL_NO_ERROR
  /\ share_access_read (file_share opened_file) = 1.
Proof.
  split; [exact opened_reached|]. destruct (shares_compatible false opened_file opened_reached) as ((Hr & _) & Hc & _). split; [|rewrite Hr; vm_compute; reflexivity].
  intros Hn. destruct (proj1 (Hc FSAL_O_WRITE) Hn 0%nat (MkFd held None) eq_refl) as [[_ Hw] _].
  destruct (Hw eq_refl) as [Hd _]. vm_compute in Hd. discriminate.
Defined.

(** *** What the code does beside that *)

(** Bob may delete the file by its ACL and the children of the directory by that of the
    directory. The flag that makes the entries count is itself among what is missing, so both
    checks say that no entry was found, and the right to add files decides. *)
Definition may_delete (perm : Z) (ty : object_file_type_t) : fsal_obj_handle :=
  MkObj ty (inr (MkAttr 0 (Some [MkAce FSAL_ACE_TYPE_ALLOW perm 0 0 101]) ty 0 100 500)).
Definition bobs_dir : fsal_obj_handle := may_delete (Z.lor FSAL_ACE_PERM_EXECUTE FSAL_ACE_PERM_DELETE_CHILD) DIRECTORY.
Definition bobs_file : fsal_obj_handle := may_delete FSAL_ACE_PERM_DELETE REGULAR_FILE.
Definition must_delete (perm : Z) : Z := Z.lor (FSAL_ACE4_MASK_SET perm) FSAL_ACE4_REQ_FLAG.

Lemma delete_never_found :
  test_status root_is_super false bob bobs_file (must_delete FSAL_ACE_PERM_DELETE) = ERR_FSAL_NO_ACE
  /\ test_status root_is_super false bob bobs_dir (must_delete FSAL_ACE_PERM_DELETE_CHILD) = ERR_FSAL_NO_ACE
  /\ test_status root_is_super false bob bobs_file (FSAL_ACE4_MASK_SET FSAL_ACE_PERM_DELETE) = ERR_FSAL_NO_ERROR
  /\ fsal_remove_access root_is_super false bob bobs_dir bobs_file false = ERR_FSAL_ACCESS.
Proof. vm_compute. split_and!; reflexivity. Qed.

(** An ACL that was made from a mode, with one more entry: the new mode is written behind the
    end of the array. *)
Definition extended_acl : list fsal_ace_t := made_acl 0x1A0 ++ [MkAce FSAL_ACE_TYPE_ALLOW FSAL_ACE_PERM_READ_DATA 0 0 101].

Lemma mode_written_behind : fsal_mode_to_acl plain_attrs (Some extended_acl) = Crash.
Proof. vm_compute. reflexivity. Qed.

(** The mode 0750 is made into an ACL, of which the mode 0 is made. *)
Lemma mode_lost : exists attrs', fsal_mode_gen_acl (MkAttr ATTR_MODE None REGULAR_FILE 0x1E8 100 500) = Ret (ERR_FSAL_NO_ERROR, attrs')
  /\ at_mode (snd (fsal_acl_to_mode attrs')) = 0.
Proof. eexists. split; [vm_compute; reflexivity|]. vm_compute. reflexivity. Qed.

(** An entry for the user 1, who is not the owner, changes the bits of the owner. *)
Lemma user_taken_for_owner :
  let attrs := MkAttr ATTR_ACL (Some [MkAce FSAL_ACE_TYPE_ALLOW FSAL_ACE_PERM_WRITE_DATA 0 0 1]) REGULAR_FILE 0 100 500 in
  at_mode (snd (fsal_acl_to_mode attrs)) = S_IWUSR
  /\ granted root_is_super alice attrs (default [] (at_acl attrs)) 1 = false.
Proof. vm_compute. split; reflexivity. Qed.

(** An entry of a directory that is only for the files in it has no effect on these. *)
Lemma files_inherit_nothing :
  let sacl := [MkAce FSAL_ACE_TYPE_DENY FSAL_ACE_PERM_WRITE_DATA (Z.lor FSAL_ACE_FLAG_FILE_INHERIT FSAL_ACE_FLAG_INHERIT_ONLY) 0 101;
               MkAce FSAL_ACE_TYPE_ALLOW FSAL_ACE_PERM_WRITE_DATA FSAL_ACE_FLAG_FILE_INHERIT FSAL_ACE_IFLAG_SPECIAL_ID FSAL_ACE_SPECIAL_EVERYONE] in
  exists attrs', fsal_inherit_acls (MkAttr 0 None REGULAR_FILE 0 100 500) (Some sacl) FSAL_ACE_FLAG_FILE_INHERIT = Ret (ERR_FSAL_NO_ERROR, attrs')
    /\ granted root_is_super bob attrs' (default [] (at_acl attrs')) 1 = true.
Proof. eexists. split; [vm_compute; reflexivity|]. vm_compute. reflexivity. Qed.

(** A state that reads and writes and denies to read cannot give up writing: its own share
    stands against it. *)
Lemma downgrade_refused :
  let own := Z.lor FSAL_O_READ (Z.lor FSAL_O_WRITE FSAL_O_DENY_READ) in
  let f := MkFile (MkShare 1 1 1 0 0) [MkFd own None] in
  reopen_begin f 0 (Z.lor FSAL_O_READ FSAL_O_DENY_READ) = Ret (ERR_FSAL_SHARE_DENIED, f).
Proof. vm_compute. reflexivity. Qed.

(** The first state gives up writing, the second denies it, and the reopen of the first fails:
    it writes again, against what the second was promised. *)
Lemma denied_share_restored :
  exists f, files true f /\ exists x y, file_fds f !! 0%nat = Some x /\ file_fds f !! 1%nat = Some y /\ ~ allows (counted x) (counted y).
Proof.
  set (rw := Z.lor FSAL_O_READ FSAL_O_WRITE).
  exists (MkFile (MkShare 2 1 0 1 0) [MkFd rw None; MkFd held None]). split.
  - apply (files_reopened false (MkFile (MkShare 2 0 0 1 0) [MkFd rw (Some FSAL_O_READ); MkFd held None]) 0 (MkFd rw (Some FSAL_O_READ)) FSAL_O_READ false);
      [|vm_compute; reflexivity..].
    apply (files_opened false (MkFile (MkShare 2 0 0 1 0) [MkFd rw (Some FSAL_O_READ); MkFd FSAL_O_CLOSED (Some held)]) 1 true); [|vm_compute; reflexivity].
    apply (files_open false (MkFile (MkShare 1 0 0 0 0) [MkFd rw (Some FSAL_O_READ); MkFd FSAL_O_CLOSED None]) 1 (MkFd FSAL_O_CLOSED None) held ERR_FSAL_NO_ERROR);
      [|vm_compute; reflexivity..].
    apply (files_reopen false (MkFile (MkShare 1 1 0 0 0) [MkFd rw None; MkFd FSAL_O_CLOSED None]) 0 (MkFd rw None) FSAL_O_READ ERR_FSAL_NO_ERROR);
      [|vm_compute; reflexivity..].
    apply (files_opened false (MkFile (MkShare 1 1 0 0 0) [MkFd FSAL_O_CLOSED (Some rw); MkFd FSAL_O_CLOSED None]) 0 true); [|vm_compute; reflexivity].
    apply (files_open false (new_file 2) 0 (MkFd FSAL_O_CLOSED None) rw ERR_FSAL_NO_ERROR); [|vm_compute; reflexivity..]. apply files_new. lia.
  - do 2 eexists. split; [reflexivity|]. split; [reflexivity|]. intros [_ Hw]. destruct (Hw eq_refl) as [Hd _]. vm_compute in Hd. discriminate.
Qed.
End AccessDemo.
